(* ===== verification/_CoqProject ===== *)
-Q . S2P
Prelude.v
PyJson.v
Sha512.v
PyTime.v
PyInt.v
Crypto.v
JsonText.v
PyFloat.v
Transport.v
Udp.v
Reliable.v
Sessions.v
Records.v
Pow.v
Merge.v
Identity.v
DhtService.v
RouteService.v
Core.v
Registry.v
Engine.v
RouteExecute.v
PhysicalSession.v
RandomWalk.v
RouteBuild.v
RouteConstruction.v
RouteAgreement.v
DhtHandler.v
DhtTable.v
DhtRequests.v
DhtAnswers.v
DhtLookup.v
DhtClient.v
DhtPublishing.v
DhtMaintenance.v
SessionClient.v
VirtualSession.v
VirtualMessage.v
RouteClient.v
VirtualClient.v
SessionRuntime.v
RouteMaintenance.v
PhysicalRelay.v
NodeInfo.v
