(* ===== verification/Prelude.v ===== *)
(** * AnonNetCore: a verification library

    AnonNetCore ([src/app]) is a node of an anonymous overlay network. A node
    has physical sessions with its neighbours, builds routes over them, reaches
    virtual nodes through the entry points of their routes, and publishes signed
    records in a distributed hash table. This library models its core as Rocq
    functions and proves the properties that make it correct.

    ** How Python is modelled

    - [Prelude] (this file): exceptions are values ([exn]); a function that can
      raise returns a [res]; code that mutates shared objects and can raise is a
      computation [st], in which what was assigned before an exception stays
      assigned; [dict] is a list of pairs in insertion order ([odict]); [sorted]
      is a stable insertion sort over a three-way comparison ([Cmp]). Records are
      updated with [r <| field := v |>]. The tactics [destruct_res], [od_eval],
      [zcases] and the hint database [anon] carry the common cases.
    - Text is the list of its UTF-8 bytes; [bytes] are the same type. Integers are
      unbounded, as in Python, and bounded where the code packs them (frames,
      datagram headers, SQLite columns). Floats that are only passed on are kept
      as their [repr]; where the code computes with them they are binary64
      numbers ([PyFloat]).
    - A table of the database is the list of its rows; an operation runs in a
      transaction that is rolled back when it raises.
    - An operation reads the clock once. Instants are whole microseconds without bound:
      that Python has no date after the year 9999 is not modelled.
    - Loops without a structural bound take fuel; running out of it is a value of
      its own ([None]), and each theorem says which fuel is enough: the drain of
      the reorder buffer takes one more than its size, proof-of-work mining as
      many steps as the least good nonce, the JSON reader one more than the length
      of the text, the wait for a published route one more than the queries made.

    ** Parameters

    What is not under [src/] is a class, with the laws the code relies on as a
    second class and a concrete instance in the witnesses: [OpenSSL] (signatures
    and key encapsulation), [AesGcmSiv]/[AesGcmSivLaws] (authenticated
    encryption), [IsoParser] (parsing of dates), [FloatText] (parsing of floats),
    [FloatConv] ([repr] and [float]), [Entropy]/[EntropyLaws]/[UuidLaws] ([uuid4],
    [os.urandom]), [KeyGen]/[KemLaws] (generated key pairs), [RouteEnv] (the clock,
    [random], the DHT client and [asyncio.sleep] as the route strategy sees them),
    [DhtEnv]/[DhtEnvLaws] (the clock, dates, and the session client of the DHT
    handler), [ClientEnv]/[SessionClientLaws] (what other tasks do while the DHT client
    waits, random choices, the sessions it is given), [MaintenanceEnv] (random order and
    the client of the DHT maintenance), [SessionEnv]/[SessionTaskLaws] (the polls of a
    client that waits for its handshake and what other tasks do during them),
    [VirtualEnv]/[VirtualTaskLaws] (the same for virtual sessions, and the DHT client),
    [StartLaws] (what opening a physical session does to the other sessions), [QueryLaws]
    (a query of the DHT leaves the routes, and which of them a session uses, as they were),
    [RelayEnv]/[RelayLaws] (random order, and with whom an opened session is),
    [ContainerText] ([str] of a list), [ExchangeEnv]/[ExchangeLaws] (random order).

    ** Files

    - [PyJson], [JsonText]: [common/json.py] and the [json] module: canonical text,
      the reader, and the proof that they invert each other. [PyTime], [PyInt]:
      dates and [int(text, 16)]. [PyFloat]: binary64 arithmetic, comparison and
      rounding. [Sha512]: the hash, executed.
    - [Crypto]: [crypto/]: hexadecimal helpers, AES-GCM-SIV with the registry of
      used nonces, wrappers of signatures and key encapsulation.
    - [Transport]: [transport/]: framing, endpoints, adapters (class
      [TransportAdapter]), the service, the relay adapter. [Udp]: the UDP adapter.
    - [Reliable]: [sessions/reliable.py]: sequence numbers, acknowledgements and
      the reorder buffer. [Sessions]: [sessions/manager.py], with an object heap
      because its two indexes share mutable sessions.
    - [Records], [Pow], [Merge], [DhtService]: [dht/]: record formats, proof of
      work, validation and merge of fragments, the nodes responsible for a key.
    - [Identity]: [identity/service.py]: the nodes a node knows, itself included,
      their endpoints and round-trip times.
    - [RouteService]: [route/service.py]: the table of route resolutions.
    - [Core], [Registry], [Engine]: [core/models.py], [core/protocols/helpers.py],
      [core/message_registry.py], [core/engine.py]: packets, the services the
      handlers share, dispatch, protection of packets, forwarding.
    - [RouteExecute]: [core/protocols/physical/route_execute.py]: data over a
      route.
    - [PhysicalSession]: [core/protocols/physical/session.py]: handshake, reliable
      data, keepalives and closing of the sessions between neighbours.
    - [RandomWalk]: [core/routing_strategies/random_walk_ttl.py]: how a route is
      built, message by message. [RouteBuild]: the handler that dispatches to it
      and the registry of strategies. [RouteConstruction], [RouteAgreement]: their
      theorems.
    - [DhtHandler]: [core/protocols/physical/dht.py]: publications, queries and
      results and the table of records. Its theorems: [DhtTable] (what any message
      does to the table), [DhtRequests] (a publication on its way), [DhtAnswers] (a
      request and the way of its answer), [DhtLookup] (storing and finding).
    - [DhtClient]: [core/protocol_clients/physical/dht.py]: publications and queries of
      the node itself, whose requests wait on futures that the handler completes.
      [DhtPublishing]: records it publishes are accepted and found.
    - [SessionClient]: [core/protocol_clients/physical/physical_session.py]: opening a
      session with a node over its endpoints, keepalives, closing, reliable messages.
    - [VirtualSession]: [core/protocols/virtual/session.py]: the handshake of two virtual
      nodes over a route, reliable data with the answers its acknowledgements carry,
      keepalives and closing. [VirtualMessage]: [core/protocols/virtual/message.py]:
      application messages and their replies.
    - [RouteClient]: [core/protocol_clients/physical/route_execute.py]: what the owner of
      an end of a route sends over it. [VirtualClient]:
      [core/protocol_clients/virtual/session.py]: the entry points of a virtual node and
      opening a session over one of them; messages of a session.
    - [DhtMaintenance], [SessionRuntime]: [core/runtime/dht_maintenance.py] and
      [core/runtime/session_runtime.py], with an iteration of the loop of
      [core/runtime/base.py]. [RouteMaintenance]:
      [core/runtime/virtual_route_maintenance.py] and the client that starts a build of a
      route ([core/protocol_clients/physical/route_build.py]). [PhysicalRelay]:
      [core/protocols/physical/relay.py] and
      [core/runtime/physical_relay_maintenance.py]: nodes reached through a relay.
    - [NodeInfo]: [core/protocols/physical/physical_node_info.py],
      [core/protocols/physical/physical_node_info_exchange.py] and their clients: how
      nodes learn of each other.

    ** What is proved

    - Sessions: delivery exactly once and in order for any arrival of messages
      ([Reliable]); the manager's invariant over all reachable states, what is due
      to be sent, acknowledgement and closing ([Sessions]). The client's handshake ends
      with one active session and one secret at both ends, and the session it returns is
      one with the node it was asked for, whose key hashes to its id ([SessionClient]). The handshake of virtual nodes ends
      with one secret at both ends, and the key each holds of the other hashes to its id
      ([VirtualSession]); a message and its reply cross the session, after which the
      message is no longer pending ([VirtualMessage]). The client's session is an active
      one between the nodes it was asked for, and the entry points it tries are signed
      ([VirtualClient]); what is sent over a route opens at its other end, and where the
      direction the client chooses does not get there ([RouteClient]). The runtime closes the
      sessions whose time is over and sends a message no more often than its maximum,
      whatever its sends raise; a round trip of absurd length stops it ([SessionRuntime]).
    - Packets: what a node encrypts the peer with the same secret processes, and
      nothing reaches a handler that the session policy does not allow; which
      errors become results and which escape ([Engine]).
    - Routes: a path id names one row and is never used again, invalid rows are
      never found ([RouteService]); a packet sent to the published path of a route
      of any length arrives at the node that built it, and the answer arrives back
      at the sender ([RouteExecute]); the walk that builds a route ends
      ([RouteConstruction]), and leaves both ends with one active route under one
      secret ([RouteAgreement]).
      The maintenance gives up only builds in progress and routes no session uses, and
      starts at most one build, when a node has fewer than the minimum
      ([RouteMaintenance]).
    - DHT: merging keeps exactly the valid entries and the best per path; the k
      closest nodes; mining finds the least valid nonce. A node keeps one validated
      record per key ([DhtTable]); a publication passes as many nodes as its ttl
      allows and names only nodes that have a record ([DhtRequests]); the answer to a
      request goes back over the nodes that passed it on ([DhtAnswers]); what a
      responsible node stored it returns ([DhtLookup]). The client returns what the
      network answered, counts distinct nodes and asks none twice ([DhtClient]), and the
      proofs of work it mines pass every check ([DhtPublishing]). The maintenance
      validates and never publishes ([DhtMaintenance]).
    - Transport: fragments reassemble in any order after the first, frames and
      datagrams keep their bounds, framing round trips. A packet sent through a relay is
      handed to the other node as it was sent; a private node announces a relay only
      while it has a session with it, and finds one when there is one ([PhysicalRelay]).
    - Discovery: the descriptor a node signs is published by the nodes that store it so that
      every node accepts it, also when it was passed on; but the key of a known node can
      be replaced by anyone ([NodeInfo]).
    - Cryptography: decryption inverts encryption; no key and nonce pair is used
      twice.

    ** Not modelled

    asyncio scheduling (handlers run to completion one after the other) and sockets, among
    them the TCP adapter, are concurrency and I/O of the platform. The HTTP API, logging,
    the storage declarations, bootstrap requests and address discovery hold no protocol
    logic. The handler and client of ping, the loops that
    call them, and the content service with its handler are simple exchanges over what is
    modelled and files on disk; they are left out. *)

From stdpp Require Export prelude strings gmap list sorting.
From Stdlib Require Export ZArith Lia.

#[global] Open Scope Z_scope.

(** ** Python exceptions and fallible results

    A Python function that can raise returns a [res]; the exception carries
    its class and, where the source distinguishes messages, the message. *)

Inductive exn : Type :=
| ValueError (msg : string)
| TypeError (msg : string)
| RuntimeError (msg : string)
| FileNotFoundError (msg : string)
| StructError (msg : string)
| IncompleteReadError
| IntegrityError (column : string)
| OSError (msg : string)
| OtherError (msg : string).

Inductive res (A : Type) : Type :=
| Ok (a : A)
| Raise (e : exn).
Arguments Ok {A} a.
Arguments Raise {A} e.

#[export] Instance exn_eq_dec : EqDecision exn.
Proof. solve_decision. Defined.

#[export] Instance res_eq_dec {A} `{EqDecision A} : EqDecision (res A).
Proof. solve_decision. Defined.

#[export] Instance res_ret : MRet res := @Ok.
#[export] Instance res_bind : MBind res := fun A B f r =>
  match r with Ok a => f a | Raise e => Raise e end.
#[export] Instance res_fmap : FMap res := fun A B f r =>
  match r with Ok a => Ok (f a) | Raise e => Raise e end.

Declare Scope py_scope.
Delimit Scope py_scope with py.

Notation "'let!' x ':=' e 'in' k" :=
  (@mbind res res_bind _ _ (fun x => k) e)
  (at level 10, x pattern, e at level 100, k at level 200,
   format "'[v' 'let!'  x  ':='  e  'in' '/' k ']'") : py_scope.
Notation "'require!' b 'else' e 'in' k" :=
  (if b then k else Raise e)
  (at level 10, b at level 100, e at level 100, k at level 200,
   format "'[v' 'require!'  b  'else'  e  'in' '/' k ']'") : py_scope.
#[global] Open Scope py_scope.

(** [for item in items: out.append(f(item))], where [f] may raise. *)
Fixpoint map_res {A B} (f : A -> res B) (l : list A) : res (list B) :=
  match l with
  | [] => Ok []
  | x :: l' =>
      let! y := f x in
      let! ys := map_res f l' in
      Ok (y :: ys)
  end.

(** [[x for x in l if p(x)]], where [p] may raise. *)
Fixpoint filter_res {A} (p : A -> res bool) (l : list A) : res (list A) :=
  match l with
  | [] => Ok []
  | x :: l' =>
      let! b := p x in
      let! ys := filter_res p l' in
      Ok (if b : bool then x :: ys else ys)
  end.

(** A Python [try: ... except Exception: return d]. *)
Definition catch_all {A} (d : A) (r : res A) : A :=
  match r with Ok a => a | Raise _ => d end.

Definition is_ok {A} (r : res A) : bool :=
  match r with Ok _ => true | Raise _ => false end.

(** Truthiness of [str] and of [str | None]. *)
Definition str_truthy (s : string) : bool := negb (bool_decide (s = "")).

Definition opt_truthy (s : option string) : bool :=
  match s with Some s => str_truthy s | None => false end.

(** ** Automation *)

Create HintDb anon.

Ltac destruct_res :=
  repeat match goal with
  | H : Ok _ = Ok _ |- _ => injection H as H; subst
  | H : Raise _ = Raise _ |- _ => injection H as H; subst
  | H : Ok _ = Raise _ |- _ => discriminate H
  | H : Raise _ = Ok _ |- _ => discriminate H
  | H : mbind ?f ?r = _ |- _ =>
      let E := fresh "E" in
      destruct r eqn:E; cbn [mbind res_bind] in H
  end.

Ltac case_if_hyp :=
  match goal with
  | H : context [if ?b then _ else _] |- _ => destruct b eqn:?
  end.

Ltac py_solve := simpl in *; simplify_eq; try lia; eauto with anon.

(** Three-way case split on a comparison of integers in the goal. *)
Ltac zcases :=
  repeat match goal with
  | |- context [(?x <? ?y)%Z] => destruct (Z.ltb_spec x y)
  | |- context [(?x <=? ?y)%Z] => destruct (Z.leb_spec x y)
  | |- context [(?x =? ?y)%Z] => destruct (Z.eqb_spec x y)
  end.

Lemma str_truthy_spec s : str_truthy s = true <-> s <> "".
Proof. unfold str_truthy. rewrite negb_true_iff, bool_decide_eq_false. done. Qed.

(** Strings *)
Lemma string_length_app s t : String.length (s +:+ t) = (String.length s + String.length t)%nat.
Proof. induction s as [|a s IH]; simpl; [done|]. by rewrite IH. Qed.

Lemma string_app_assoc s t u : (s +:+ t) +:+ u = s +:+ (t +:+ u).
Proof. induction s as [|a s IH]; [done|]. exact (f_equal (String a) IH). Qed.

Lemma string_app_nil s : s +:+ "" = s.
Proof. induction s as [|a s IH]; [done|]. exact (f_equal (String a) IH). Qed.

Lemma string_app_cons a s t : String a s +:+ t = String a (s +:+ t).
Proof. done. Qed.

Lemma Ok_inj {A} (a b : A) : Ok a = Ok b -> a = b.
Proof. by intros [= ->]. Qed.

Section res_lemmas.
Context {A B : Type}.

Lemma map_res_Ok_Forall2 (f : A -> res B) l ys :
  map_res f l = Ok ys <-> Forall2 (fun x y => f x = Ok y) l ys.
Proof.
  revert ys; induction l as [|x l IH]; intros ys; simpl; split; intros H.
  - simplify_eq. constructor.
  - inversion H; subst; done.
  - destruct (f x) as [y|] eqn:E; cbn in H; [|done].
    destruct (map_res f l) as [zs|] eqn:E2; cbn in H; [|done].
    simplify_eq. constructor; [done|]. by apply IH.
  - inversion H as [|? y ? zs Hy Hys]; subst.
    apply IH in Hys. rewrite Hy. cbn. by rewrite Hys.
Qed.

Lemma map_res_fmap {C} (f : B -> res C) (g : A -> B) l :
  map_res f (g <$> l) = map_res (fun x => f (g x)) l.
Proof. induction l as [|x l IH]; [done|]. cbn. by rewrite IH. Qed.

Lemma map_res_ext (f g : A -> res B) l :
  Forall (fun x => f x = g x) l -> map_res f l = map_res g l.
Proof. induction 1 as [|x l Hx _ IH]; [done|]. cbn. by rewrite Hx, IH. Qed.

Lemma map_res_post {C} (f : A -> res B) (h : B -> C) l :
  map_res (fun x => h <$> f x) l = map h <$> map_res f l.
Proof.
  induction l as [|x l IH]; [done|]. cbn. rewrite IH.
  destruct (f x); cbn; [|done]. by destruct (map_res f l).
Qed.

Lemma map_res_id (f : A -> res A) l :
  (forall x, x ∈ l -> f x = Ok x) -> map_res f l = Ok l.
Proof.
  induction l as [|x l IH]; intros H; [done|]. simpl.
  rewrite (H x) by set_solver. cbn. rewrite IH; [done|set_solver].
Qed.

Lemma filter_res_Ok (p : A -> res bool) l ys :
  filter_res p l = Ok ys ->
  forall x, x ∈ ys <-> x ∈ l /\ p x = Ok true.
Proof.
  revert ys; induction l as [|x l IH]; intros ys H y; simpl in H.
  - simplify_eq. set_solver.
  - destruct (p x) as [b|] eqn:E; cbn in H; [|done].
    destruct (filter_res p l) as [zs|] eqn:E2; cbn in H; [|done].
    specialize (IH zs eq_refl y). simplify_eq.
    destruct b; rewrite ?elem_of_cons, IH; split; intros Hy;
      intuition (subst; congruence || eauto).
Qed.

Lemma filter_res_error (p : A -> res bool) err l e :
  (forall x, p x = Raise err \/ exists b, p x = Ok b) -> filter_res p l = Raise e -> e = err.
Proof.
  intros Hp. induction l as [|x l IH]; simpl; [done|].
  destruct (Hp x) as [->|[b ->]]; cbn; [by intros [= <-]|].
  destruct (filter_res p l) as [zs|]; cbn; [done|]. intros [= <-]. by apply IH.
Qed.

Lemma filter_res_total (p : A -> res bool) l :
  (forall x, x ∈ l -> exists b, p x = Ok b) -> exists v, filter_res p l = Ok v.
Proof.
  induction l as [|x l IH]; intros Hp; [by eexists|]. simpl.
  destruct (Hp x ltac:(left)) as [b ->]. cbn.
  destruct IH as [v ->]; [intros; apply Hp; by right|]. by eexists.
Qed.

Lemma filter_res_raises (p : A -> res bool) l err :
  (forall x, x ∈ l -> p x = Raise err \/ exists b, p x = Ok b) ->
  (exists x, x ∈ l /\ p x = Raise err) -> filter_res p l = Raise err.
Proof.
  induction l as [|x l IH]; intros Hp (y & Hy & Hr); [by apply elem_of_nil in Hy|]. simpl.
  destruct (Hp x ltac:(left)) as [->|[b Hb]]; [done|]. rewrite Hb. cbn.
  rewrite IH; [done|intros; apply Hp; by right|].
  apply elem_of_cons in Hy as [->|Hy]; [congruence|eauto].
Qed.

Lemma filter_res_all (p : A -> res bool) l :
  (forall x, x ∈ l -> p x = Ok true) -> filter_res p l = Ok l.
Proof.
  induction l as [|x l IH]; intros H; [done|]. simpl.
  rewrite (H x) by set_solver. cbn. rewrite IH; [done|set_solver].
Qed.
End res_lemmas.

(** ** Comparisons

    [Cmp A] is the three-way comparison Python's [<] and [==] induce on the
    values used as sort keys; [CmpLaws] says that it is a total order. *)

Class Cmp (A : Type) := cmp : A -> A -> comparison.

Class CmpLaws (A : Type) `{Cmp A} := {
  cmp_eq_iff : forall x y : A, cmp x y = Eq <-> x = y;
  cmp_flip : forall x y : A, cmp y x = CompOpp (cmp x y);
  cmp_lt_trans : forall x y z : A, cmp x y = Lt -> cmp y z = Lt -> cmp x z = Lt;
}.

#[export] Instance Z_cmp : Cmp Z := Z.compare.
#[export] Instance string_cmp : Cmp string := String.compare.
#[export] Instance pair_cmp {A B} `{Cmp A, Cmp B} : Cmp (A * B) := fun p q =>
  match cmp p.1 q.1 with Eq => cmp p.2 q.2 | c => c end.

#[export] Instance Z_cmp_laws : CmpLaws Z.
Proof.
  split; unfold cmp, Z_cmp; intros *.
  - apply Z.compare_eq_iff.
  - apply Z.compare_antisym.
  - rewrite !Z.compare_lt_iff. lia.
Qed.

Lemma ascii_cmp_refl a : Ascii.compare a a = Eq.
Proof. unfold Ascii.compare. by rewrite N.compare_refl. Qed.

Lemma ascii_cmp_lt_trans a b c :
  Ascii.compare a b = Lt -> Ascii.compare b c = Lt -> Ascii.compare a c = Lt.
Proof. unfold Ascii.compare. rewrite !N.compare_lt_iff. lia. Qed.

Lemma string_cmp_refl s : String.compare s s = Eq.
Proof. induction s as [|a s IH]; simpl; [done|]. by rewrite ascii_cmp_refl. Qed.

#[export] Instance string_cmp_laws : CmpLaws string.
Proof.
  split; unfold cmp, string_cmp.
  - intros x y. split; [apply String.compare_eq_iff|intros ->; apply string_cmp_refl].
  - intros x y. apply String.compare_antisym.
  - intros x. induction x as [|a x IH]; intros [|b y] [|c z]; simpl; try done.
    intros H1 H2.
    destruct (Ascii.compare a b) eqn:Eab; [| |done];
    destruct (Ascii.compare b c) eqn:Ebc; try done.
    + apply Ascii.compare_eq_iff in Eab, Ebc. subst.
      rewrite ascii_cmp_refl. by eapply IH.
    + apply Ascii.compare_eq_iff in Eab. subst. by rewrite Ebc.
    + apply Ascii.compare_eq_iff in Ebc. subst. by rewrite Eab.
    + by rewrite (ascii_cmp_lt_trans _ _ _ Eab Ebc).
Qed.

Section cmp_lemmas.
Context {A : Type} `{CmpLaws A}.

Lemma cmp_refl (x : A) : cmp x x = Eq.
Proof. by apply cmp_eq_iff. Qed.

Lemma cmp_gt_lt (x y : A) : cmp x y = Gt <-> cmp y x = Lt.
Proof. rewrite (cmp_flip x y). destruct (cmp x y); naive_solver. Qed.

Definition cmp_le (x y : A) : Prop := cmp x y <> Gt.

#[global] Instance cmp_le_trans : Transitive cmp_le.
Proof.
  intros x y z. unfold cmp_le. intros Hxy Hyz Hxz.
  apply cmp_gt_lt in Hxz.
  destruct (cmp x y) eqn:Exy; [| |done].
  - apply cmp_eq_iff in Exy. subst. by apply cmp_gt_lt in Hxz.
  - pose proof (cmp_lt_trans _ _ _ Hxz Exy) as Hzy.
    apply cmp_gt_lt in Hzy. done.
Qed.

#[global] Instance cmp_le_antisymm : AntiSymm (=) cmp_le.
Proof.
  intros x y. unfold cmp_le. rewrite (cmp_flip x y).
  destruct (cmp x y) eqn:E; simpl; [|done|done].
  intros _ _. by apply cmp_eq_iff.
Qed.

#[global] Instance cmp_le_refl : Reflexive cmp_le.
Proof. intros x. unfold cmp_le. by rewrite cmp_refl. Qed.
End cmp_lemmas.

#[export] Instance pair_cmp_laws {A B} `{CmpLaws A, CmpLaws B} : CmpLaws (A * B).
Proof.
  split; unfold cmp at 1, pair_cmp.
  - intros [a b] [c d]; simpl. destruct (cmp a c) eqn:E.
    + apply cmp_eq_iff in E. subst. rewrite cmp_eq_iff. naive_solver.
    + split; [done|]. intros [= -> ->]. by rewrite cmp_refl in E.
    + split; [done|]. intros [= -> ->]. by rewrite cmp_refl in E.
  - intros [a b] [c d]. unfold cmp, pair_cmp; cbn [fst snd].
    fold (cmp c a) (cmp a c) (cmp d b) (cmp b d).
    rewrite (cmp_flip a c), (cmp_flip b d).
    by destruct (cmp a c), (cmp b d).
  - intros [a b] [c d] [e f]. unfold cmp, pair_cmp; cbn [fst snd].
    fold (cmp a c) (cmp c e) (cmp b d) (cmp d f) (cmp a e) (cmp b f).
    intros Hac Hce.
    destruct (cmp a c) eqn:E1; [| |done]; destruct (cmp c e) eqn:E2; try done.
    + apply cmp_eq_iff in E1, E2. subst. rewrite cmp_refl. by eapply cmp_lt_trans.
    + apply cmp_eq_iff in E1. subst. by rewrite E2.
    + apply cmp_eq_iff in E2. subst. by rewrite E1.
    + by rewrite (cmp_lt_trans _ _ _ E1 E2).
Qed.

(** ** Python's [sorted(xs, key=...)]

    A stable insertion sort: an element is placed before the first element
    whose key is not smaller than its own. *)

Section sorted.
Context {A K : Type} `{CmpLaws K} (key : A -> K).

Fixpoint insert_by (x : A) (l : list A) : list A :=
  match l with
  | [] => [x]
  | y :: l' =>
      match cmp (key x) (key y) with
      | Gt => y :: insert_by x l'
      | _ => x :: y :: l'
      end
  end.

Definition py_sorted (l : list A) : list A := foldr insert_by [] l.

Definition key_le (x y : A) : Prop := cmp_le (key x) (key y).

#[global] Instance key_le_trans : Transitive key_le.
Proof. intros x y z. unfold key_le. apply cmp_le_trans. Qed.

Lemma insert_by_Permutation x l : insert_by x l ≡ₚ x :: l.
Proof.
  induction l as [|y l IH]; simpl; [done|].
  destruct (cmp (key x) (key y)); try done.
  rewrite IH. apply Permutation_swap.
Qed.

Lemma py_sorted_Permutation l : py_sorted l ≡ₚ l.
Proof.
  induction l as [|x l IH]; simpl; [done|].
  rewrite insert_by_Permutation. by rewrite IH.
Qed.

Lemma elem_of_py_sorted x l : x ∈ py_sorted l <-> x ∈ l.
Proof. by rewrite py_sorted_Permutation. Qed.

Lemma length_py_sorted l : length (py_sorted l) = length l.
Proof. by rewrite py_sorted_Permutation. Qed.

Lemma insert_by_sorted x l :
  StronglySorted key_le l -> StronglySorted key_le (insert_by x l).
Proof.
  induction 1 as [|y l Hl IH Hy]; simpl; [by repeat constructor|].
  destruct (cmp (key x) (key y)) eqn:E.
  - constructor; [by constructor|]. constructor.
    + unfold key_le, cmp_le. by rewrite E.
    + eapply Forall_impl; [exact Hy|]. intros z Hz.
      apply cmp_eq_iff in E. unfold key_le. by rewrite E.
  - assert (key_le x y) as Hxy by (unfold key_le, cmp_le; by rewrite E).
    constructor; [by constructor|]. constructor; [done|].
    eapply Forall_impl; [exact Hy|]. intros z Hz. by transitivity y.
  - constructor; [done|]. rewrite insert_by_Permutation. constructor; [|done].
    unfold key_le, cmp_le. rewrite (cmp_flip (key x)), E. done.
Qed.

Lemma py_sorted_sorted l : StronglySorted key_le (py_sorted l).
Proof. induction l; simpl; [constructor|by apply insert_by_sorted]. Qed.

(** A list whose keys are already in order is returned unchanged. *)
Lemma py_sorted_id l : StronglySorted key_le l -> py_sorted l = l.
Proof.
  induction 1 as [|x l Hl IH Hx]; simpl; [done|]. rewrite IH.
  destruct Hx as [|y l Hxy]; simpl; [done|].
  unfold key_le, cmp_le in Hxy. by destruct (cmp (key x) (key y)).
Qed.

(** The sequence of sorted keys depends on the elements only. *)
Lemma py_sorted_keys_unique l l' :
  l ≡ₚ l' -> key <$> py_sorted l = key <$> py_sorted l'.
Proof.
  intros Hp.
  assert (forall k, StronglySorted key_le k -> StronglySorted cmp_le (key <$> k)) as Hs.
  { induction 1 as [|x k Hk IH Hx]; simpl; constructor; [done|]. by rewrite Forall_fmap. }
  apply (StronglySorted_unique cmp_le); [apply Hs, py_sorted_sorted..|].
  by rewrite !py_sorted_Permutation, Hp.
Qed.

(** Sorting by pairwise distinct keys depends on the elements only. *)
Lemma py_sorted_unique l l' :
  NoDup (key <$> l) -> l ≡ₚ l' -> py_sorted l = py_sorted l'.
Proof.
  intros Hnd Hp. pose proof (py_sorted_keys_unique l l' Hp) as Hk.
  assert (py_sorted l ≡ₚ py_sorted l') as Hpp by (by rewrite !py_sorted_Permutation).
  assert (NoDup (key <$> py_sorted l)) as Hnd'.
  { by rewrite py_sorted_Permutation. }
  revert Hpp Hk Hnd'. generalize (py_sorted l) (py_sorted l'). clear.
  intros l l' Hpp Hk Hnd.
  apply list_eq. intros i.
  destruct (l !! i) as [x|] eqn:Ex; destruct (l' !! i) as [y|] eqn:Ey; try done.
  - f_equal.
    assert (x ∈ l') as Hx by (rewrite <- Hpp; by eapply list_elem_of_lookup_2).
    apply list_elem_of_lookup in Hx as [j Hj].
    assert (key <$> l !! j = key <$> l' !! j) as Hkj
      by (by rewrite <- !list_lookup_fmap, Hk).
    rewrite Hj in Hkj. simpl in Hkj.
    assert (i = j) as ->; [|congruence].
    eapply NoDup_lookup; [exact Hnd| |].
    + by rewrite list_lookup_fmap, Ex.
    + by rewrite list_lookup_fmap, Hkj.
  - apply lookup_ge_None in Ey. apply lookup_lt_Some in Ex.
    apply Permutation_length in Hpp. lia.
  - apply lookup_ge_None in Ex. apply lookup_lt_Some in Ey.
    apply Permutation_length in Hpp. lia.
Qed.
End sorted.

(** Sorting commutes with a map that keeps the keys. *)
Lemma py_sorted_map {A B K} `{Cmp K} (key : A -> K) (key' : B -> K) (f : A -> B) l :
  (forall x, key' (f x) = key x) -> py_sorted key' (map f l) = map f (py_sorted key l).
Proof.
  intros Hk. assert (Hi : forall x l, insert_by key' (f x) (map f l) = map f (insert_by key x l)).
  { intros x l'. induction l' as [|y l' IH]; simpl; [done|]. rewrite !Hk.
    destruct (cmp (key x) (key y)); simpl; by rewrite ?IH. }
  induction l as [|x l IH]; simpl; [done|]. unfold py_sorted in *. by rewrite IH, Hi.
Qed.

Lemma StronglySorted_sublist {A} (R : relation A) l k :
  sublist k l -> StronglySorted R l -> StronglySorted R k.
Proof.
  intros Hs. induction Hs as [|x k l Hs IH|x k l Hs IH]; intros Hl; [done| |];
    apply StronglySorted_inv in Hl as [Hl Hx]; [|auto].
  constructor; [auto|]. rewrite Forall_forall in Hx |- *. intros y Hy. apply Hx.
  by eapply elem_of_sublist.
Qed.

(** ** Python dictionaries with their insertion order

    [d[k] = v] keeps the position of an existing key and appends a new one;
    iteration is in insertion order. *)

Notation odict K V := (list (K * V)).

Section odict.
Context {K V : Type} `{EqDecision K}.
Implicit Types (d : odict K V) (k : K) (v : V).

Fixpoint od_get k d : option V :=
  match d with
  | [] => None
  | (k', v) :: d' => if decide (k = k') then Some v else od_get k d'
  end.

Fixpoint od_set k v d : odict K V :=
  match d with
  | [] => [(k, v)]
  | (k', v') :: d' =>
      if decide (k = k') then (k', v) :: d' else (k', v') :: od_set k v d'
  end.

(** [d.pop(k, None)], the remaining dictionary. *)
Definition od_del k d : odict K V := filter (fun p => p.1 <> k) d.

Definition od_setdefault k v d : odict K V :=
  match od_get k d with Some _ => d | None => od_set k v d end.

Definition od_has k d : bool := bool_decide (is_Some (od_get k d)).

Definition od_wf d : Prop := NoDup d.*1.

Lemma od_get_cons_eq k v d : od_get k ((k, v) :: d) = Some v.
Proof. simpl. by rewrite decide_True. Qed.

Lemma od_get_cons_ne k k' v d : k <> k' -> od_get k ((k', v) :: d) = od_get k d.
Proof. intros Hne. simpl. by rewrite decide_False. Qed.

Lemma od_get_set_eq k v d : od_get k (od_set k v d) = Some v.
Proof.
  induction d as [|[k' v'] d IH]; simpl; [by rewrite decide_True|].
  destruct (decide (k = k')) as [->|]; simpl;
    [by rewrite decide_True|by rewrite decide_False].
Qed.

Lemma od_get_set_ne k k' v d : k <> k' -> od_get k' (od_set k v d) = od_get k' d.
Proof.
  intros Hne. induction d as [|[k2 v2] d IH]; simpl; [by rewrite decide_False|].
  destruct (decide (k = k2)) as [->|]; simpl; [by rewrite !decide_False|].
  by rewrite IH.
Qed.

Lemma od_get_del_eq k d : od_get k (od_del k d) = None.
Proof.
  induction d as [|[k' v'] d IH]; [done|]. unfold od_del in *. simpl.
  rewrite filter_cons. case_decide as Hd; simpl in *; [by rewrite decide_False|done].
Qed.

Lemma od_get_del_ne k k' d : k <> k' -> od_get k' (od_del k d) = od_get k' d.
Proof.
  intros Hne. induction d as [|[k2 v2] d IH]; [done|]. unfold od_del in *. simpl.
  rewrite filter_cons. case_decide as Hd; simpl in *; [by rewrite IH|].
  rewrite decide_False by naive_solver. done.
Qed.

Lemma od_get_elem_of k v d : od_get k d = Some v -> (k, v) ∈ d.
Proof.
  induction d as [|[k' v'] d IH]; simpl; [done|].
  case_decide; intros; simplify_eq; [left|right; auto].
Qed.

Lemma od_elem_of_get k v d : od_wf d -> (k, v) ∈ d -> od_get k d = Some v.
Proof.
  unfold od_wf. induction d as [|[k' v'] d IH]; simpl; intros Hnd Hin; [set_solver|].
  apply NoDup_cons in Hnd as [Hk Hnd]. apply elem_of_cons in Hin as [Heq|Hin].
  - simplify_eq. by rewrite decide_True.
  - rewrite decide_False; [auto|]. intros ->. apply Hk.
    apply list_elem_of_fmap. by exists (k', v).
Qed.

Lemma od_get_None k d : od_get k d = None <-> k ∉ d.*1.
Proof.
  induction d as [|[k' v'] d IH]; simpl; [set_solver|].
  case_decide; [subst|rewrite IH]; set_solver.
Qed.

Lemma od_set_keys k v d : (od_set k v d).*1 = if decide (k ∈ d.*1) then d.*1 else d.*1 ++ [k].
Proof.
  induction d as [|[k' v'] d IH]; csimpl; [done|].
  destruct (decide (k = k')) as [->|Hne]; csimpl.
  - destruct (decide (k' ∈ k' :: d.*1)) as [|Hn]; [done|]. destruct Hn. left.
  - rewrite IH. destruct (decide (k ∈ d.*1)) as [Hin|Hin];
      destruct (decide (k ∈ k' :: d.*1)) as [Hin'|Hin']; try done.
    + destruct Hin'. by right.
    + apply elem_of_cons in Hin' as [|]; done.
Qed.

Lemma od_set_wf k v d : od_wf d -> od_wf (od_set k v d).
Proof.
  unfold od_wf. intros Hd. rewrite od_set_keys. case_decide; [done|].
  apply NoDup_app. split; [done|]. split; [set_solver|apply NoDup_singleton].
Qed.

Lemma od_del_wf k d : od_wf d -> od_wf (od_del k d).
Proof.
  unfold od_wf, od_del. intros Hd. eapply sublist_NoDup; [exact Hd|].
  apply fmap_sublist, sublist_filter.
Qed.

Lemma od_set_id k v d : od_get k d = Some v -> od_set k v d = d.
Proof.
  induction d as [|[k' v'] d IH]; simpl; [done|].
  case_decide; intros; simplify_eq; [done|]. by rewrite IH.
Qed.

Lemma od_set_new k v d : od_get k d = None -> od_set k v d = d ++ [(k, v)].
Proof.
  induction d as [|[k' v'] d IH]; simpl; [done|].
  case_decide; intros; simplify_eq. by rewrite IH.
Qed.

Lemma elem_of_od_set k v k' v' d :
  od_wf d -> (k', v') ∈ od_set k v d <->
    (k' = k /\ v' = v) \/ (k' <> k /\ (k', v') ∈ d).
Proof.
  intros Hd. pose proof (od_set_wf k v d Hd) as Hd'. split.
  - intros Hin. apply (od_elem_of_get _ _ _ Hd') in Hin.
    destruct (decide (k' = k)) as [->|Hne].
    + rewrite od_get_set_eq in Hin. naive_solver.
    + rewrite od_get_set_ne in Hin by done. right. eauto using od_get_elem_of.
  - intros [[-> ->]|[Hne Hin]]; apply od_get_elem_of.
    + apply od_get_set_eq.
    + rewrite od_get_set_ne by done. by apply od_elem_of_get.
Qed.

(** Values filed under a key of their own list the keys. *)
Lemma od_keys_values (f : V -> K) d :
  (forall k v, od_get k d = Some v -> f v = k) -> od_wf d -> f <$> d.*2 = d.*1.
Proof.
  intros Hf Hwf. assert (forall k v, (k, v) ∈ d -> f v = k) as Hf'.
  { intros k v Hin. by apply Hf, od_elem_of_get. }
  clear Hf Hwf. induction d as [|[k v] d IH]; [done|]. csimpl. rewrite (Hf' k v) by left.
  f_equal. apply IH. intros. apply Hf'. by right.
Qed.

Lemma od_del_set k v d : od_del k (od_set k v d) = od_del k d.
Proof.
  unfold od_del. induction d as [|[k' v'] d IH]; simpl.
  - rewrite filter_cons_False; [done|]. simpl. naive_solver.
  - case_decide as Hd; [subst; rewrite !filter_cons_False by (simpl; naive_solver); done|].
    rewrite !filter_cons. simpl. by rewrite IH.
Qed.

Lemma od_del_absent k d : od_get k d = None -> od_del k d = d.
Proof.
  unfold od_del. induction d as [|[k' v'] d IH]; simpl; [done|]. case_decide; [done|].
  intros Hd. rewrite filter_cons_True by (simpl; naive_solver). by rewrite IH.
Qed.

Lemma elem_of_od_del k k' v' d : (k', v') ∈ od_del k d <-> k' <> k /\ (k', v') ∈ d.
Proof. unfold od_del. by rewrite list_elem_of_filter. Qed.
End odict.

#[export] Hint Resolve od_set_wf od_del_wf : anon.
#[export] Hint Rewrite @od_get_set_eq @od_get_del_eq : anon.

(** Evaluates [od_get] on a dictionary display with literal keys. *)
Ltac od_eval :=
  repeat match goal with
  | |- context [od_get ?k ((?k', ?v) :: ?d)] =>
      first [ rewrite (od_get_cons_eq k v d)
            | rewrite (od_get_cons_ne k k' v d) by (vm_compute; congruence) ]
  | |- context [od_get ?k []] => change (od_get k []) with (@None _)
  end.

(** ** State and exceptions

    Code that mutates shared objects and can raise: what was assigned before an
    exception stays assigned. *)

Definition st (S A : Type) : Type := S -> res A * S.

#[export] Instance st_ret {S} : MRet (st S) := fun A a s => (Ok a, s).
#[export] Instance st_bind {S} : MBind (st S) := fun A B f m s =>
  match m s with
  | (Ok a, s') => f a s'
  | (Raise e, s') => (Raise e, s')
  end.

Definition raise {S A} (e : exn) : st S A := fun s => (Raise e, s).
Definition gets {S A} (f : S -> A) : st S A := fun s => (Ok (f s), s).
Definition modify {S} (f : S -> S) : st S unit := fun s => (Ok tt, f s).
Definition lift {S A} (r : res A) : st S A := fun s => (r, s).

(** [try: m except ValueError as error: h(str(error))] *)
Definition catch_value {S A} (m : st S A) (h : string -> st S A) : st S A := fun s =>
  match m s with
  | (Raise (ValueError msg), s') => h msg s'
  | r => r
  end.

(** [try: m except (classes in p) as error: h(error)] *)
Definition catch_exn {S A} (p : exn -> bool) (m : st S A) (h : exn -> st S A) : st S A := fun s =>
  match m s with
  | (Raise e, s') => if p e then h e s' else (Raise e, s')
  | r => r
  end.

(** [ConnectionError] and [FileNotFoundError] are subclasses of [OSError]. *)
Definition is_os_error (e : exn) : bool :=
  match e with OSError _ | FileNotFoundError _ => true | _ => false end.

(** [if not b: raise e] *)
Definition ensure {S} (b : bool) (e : exn) : st S unit := if b then mret tt else raise e.

Lemma st_bind_Ok {S A B} (f : A -> st S B) (m : st S A) s b s2 :
  (m ≫= f) s = (Ok b, s2) -> exists a s1, m s = (Ok a, s1) /\ f a s1 = (Ok b, s2).
Proof. unfold mbind, st_bind. destruct (m s) as [[a|e] s1]; [eauto|done]. Qed.

Lemma st_bind_run {S A B} (f : A -> st S B) (m : st S A) s a s1 :
  m s = (Ok a, s1) -> (m ≫= f) s = f a s1.
Proof. unfold mbind, st_bind. by intros ->. Qed.

Lemma st_bind_raise {S A B} (f : A -> st S B) (m : st S A) s e s1 :
  m s = (Raise e, s1) -> (m ≫= f) s = (Raise e, s1).
Proof. unfold mbind, st_bind. by intros ->. Qed.

(** ** Record update

    [r <| field := v |>] for a record type with an [Eta] instance, which spells
    out the record's constructor applied to its projections. *)

Class Eta (R : Type) := eta_expand : R -> R.
Class Setter {R T : Type} (proj : R -> T) := set_field : T -> R -> R.

Ltac make_setter :=
  match goal with
  | |- @Setter ?R ?T ?proj =>
      let i := constr:(ltac:(typeclasses eauto) : Eta R) in
      let e := eval hnf in (@eta_expand R i) in
      let p := eval pattern proj in e in
      match p with
      | ?g _ =>
          let s := eval cbv beta in (fun v : T => g (fun _ => v)) in
          exact s
      end
  end.

#[export] Hint Extern 0 (Setter _) => make_setter : typeclass_instances.

Notation "r <| proj := v |>" := (set_field (proj := proj) v r)
  (at level 12, proj at level 0, left associativity, format "r  <| proj  :=  v |>").
