(* ===== verification/PyJson.v ===== *)
(** * Python values that travel as JSON, and their text

    Models [src/app/common/json.py] and the part of Python it relies on: the
    values [json.loads] can produce, the [isinstance] tests the code makes on
    them (where [bool] is a subclass of [int]), the compact text
    [json.dumps(v, separators=(",", ":"), sort_keys=True)] and the decoder
    [json.loads].

    A Python [str] is represented by its UTF-8 bytes (a lone surrogate by its
    three-byte form); a float by its [repr]. *)

From S2P Require Import Prelude.
From Stdlib Require Import DecimalString DecimalZ Ascii.
From Stdlib Require Decimal.

(** ** Values *)

Inductive json : Type :=
| JNull
| JBool (b : bool)
| JInt (n : Z)
| JFloat (repr : string)
| JStr (s : string)
| JArr (items : list json)
| JObj (fields : odict string json).

Notation jdict := (odict string json).

Section json_ind'.
Variable P : json -> Prop.
Hypothesis HNull : P JNull.
Hypothesis HBool : forall b, P (JBool b).
Hypothesis HInt : forall n, P (JInt n).
Hypothesis HFloat : forall r, P (JFloat r).
Hypothesis HStr : forall s, P (JStr s).
Hypothesis HArr : forall l, Forall P l -> P (JArr l).
Hypothesis HObj : forall d, Forall (fun p => P p.2) d -> P (JObj d).

Fixpoint json_ind' (j : json) : P j :=
  match j with
  | JNull => HNull
  | JBool b => HBool b
  | JInt n => HInt n
  | JFloat r => HFloat r
  | JStr s => HStr s
  | JArr l => HArr l ((fix go l : Forall P l :=
      match l with
      | [] => Forall_nil_2 _
      | x :: l' => Forall_cons_2 _ _ _ (json_ind' x) (go l')
      end) l)
  | JObj d => HObj d ((fix go d : Forall (fun p => P p.2) d :=
      match d with
      | [] => Forall_nil_2 _
      | p :: d' => Forall_cons_2 _ _ _ (json_ind' p.2) (go d')
      end) d)
  end.
End json_ind'.

#[export] Instance json_eq_dec : EqDecision json.
Proof.
  refine (fix go (x y : json) : Decision (x = y) :=
    match x, y with
    | JNull, JNull => left eq_refl
    | JBool a, JBool b => cast_if (decide (a = b))
    | JInt a, JInt b => cast_if (decide (a = b))
    | JFloat a, JFloat b => cast_if (decide (a = b))
    | JStr a, JStr b => cast_if (decide (a = b))
    | JArr a, JArr b => cast_if (@decide (a = b) (@list_eq_dec _ go a b))
    | JObj a, JObj b =>
        cast_if (@decide (a = b)
          (@list_eq_dec _ (@prod_eq_dec _ _ _ go) a b))
    | _, _ => right _
    end); clear go; abstract (congruence || (subst; congruence)).
Defined.

(** A value for which [isinstance(v, int)] holds: Python's [True] and [False]
    are integers equal to 1 and 0, but they keep their own [str] and JSON text. *)
Inductive pyint : Type :=
| PyInt (n : Z)
| PyBool (b : bool).

#[export] Instance pyint_eq_dec : EqDecision pyint.
Proof. solve_decision. Defined.

Definition pyint_val (i : pyint) : Z :=
  match i with PyInt n => n | PyBool b => if b then 1 else 0 end.

Definition pyint_json (i : pyint) : json :=
  match i with PyInt n => JInt n | PyBool b => JBool b end.

Definition json_pyint (j : json) : option pyint :=
  match j with
  | JInt n => Some (PyInt n)
  | JBool b => Some (PyBool b)
  | _ => None
  end.

Definition opt_json {A} (f : A -> json) (o : option A) : json :=
  match o with Some a => f a | None => JNull end.

(** ** Decimal text of integers *)

Definition str_of_Z (n : Z) : string := NilZero.string_of_int (Z.to_int n).

(** [str(i)] *)
Definition str_of_pyint (i : pyint) : string :=
  match i with
  | PyInt n => str_of_Z n
  | PyBool b => if b then "True" else "False"
  end.

(** ** [json.dumps] *)

Definition hex_digit (n : N) : ascii :=
  ascii_of_N (if (n <? 10)%N then 48 + n else 87 + n)%N.

Definition hex4 (n : N) : string :=
  String (hex_digit (N.shiftr n 12 mod 16)) (String (hex_digit (N.shiftr n 8 mod 16))
    (String (hex_digit (N.shiftr n 4 mod 16)) (String (hex_digit (n mod 16)) ""))).

Definition u_escape (n : N) : string := "\u" +:+ hex4 n.

(** The escape of one code point outside printable ASCII. *)
Definition escape_code_point (c : N) : string :=
  if (c <? 65536)%N then u_escape c
  else
    let v := (c - 65536)%N in
    u_escape (55296 + N.shiftr v 10) +:+ u_escape (56320 + N.land v 1023).

Definition escape_ascii (a : ascii) : string :=
  let n := N_of_ascii a in
  if (n =? 34)%N then "\" +:+ String a ""
  else if (n =? 92)%N then "\\"
  else if (n =? 10)%N then "\n"
  else if (n =? 13)%N then "\r"
  else if (n =? 9)%N then "\t"
  else if (n =? 12)%N then "\f"
  else if (n =? 8)%N then "\b"
  else if ((32 <=? n) && (n <=? 126))%N then String a ""
  else u_escape n.

Definition cont_byte (a : ascii) : N := N.land (N_of_ascii a) 63.

(** [py_encode_basestring_ascii], on the UTF-8 bytes of the string. *)
Fixpoint escape_string (s : string) : string :=
  match s with
  | EmptyString => ""
  | String a s1 =>
      let n := N_of_ascii a in
      if (n <? 128)%N then escape_ascii a +:+ escape_string s1
      else match s1 with
      | String b s2 =>
          if (n <? 224)%N then
            escape_code_point (N.shiftl (N.land n 31) 6 + cont_byte b) +:+ escape_string s2
          else match s2 with
          | String c s3 =>
              if (n <? 240)%N then
                escape_code_point
                  (N.shiftl (N.land n 15) 12 + N.shiftl (cont_byte b) 6 + cont_byte c)
                  +:+ escape_string s3
              else match s3 with
              | String d s4 =>
                  escape_code_point
                    (N.shiftl (N.land n 7) 18 + N.shiftl (cont_byte b) 12
                     + N.shiftl (cont_byte c) 6 + cont_byte d)
                    +:+ escape_string s4
              | EmptyString => u_escape n
              end
          | EmptyString => u_escape n
          end
      | EmptyString => u_escape n
      end
  end.

Definition dquote : ascii := ascii_of_N 34.
Definition quote : string := String dquote "".

Definition dump_string (s : string) : string := quote +:+ escape_string s +:+ quote.

Fixpoint join_comma (l : list string) : string :=
  match l with
  | [] => ""
  | [x] => x
  | x :: l' => x +:+ "," +:+ join_comma l'
  end.

Definition dump_pair (p : string * string) : string :=
  dump_string p.1 +:+ ":" +:+ p.2.

(** [json.dumps(v, separators=(",", ":"), sort_keys=True)]. *)
Fixpoint json_dumps (j : json) : string :=
  match j with
  | JNull => "null"
  | JBool b => if b then "true" else "false"
  | JInt n => str_of_Z n
  | JFloat r => r
  | JStr s => dump_string s
  | JArr l => "[" +:+ join_comma (map json_dumps l) +:+ "]"
  | JObj d =>
      "{" +:+ join_comma (dump_pair <$>
        py_sorted fst (map (fun p => (p.1, json_dumps p.2)) d)) +:+ "}"
  end.

Example json_dumps_ex :
  json_dumps (JObj [("b", JArr [JInt (-12); JNull]); ("a", JStr "x/y")])
  = "{" +:+ quote +:+ "a" +:+ quote +:+ ":" +:+ quote +:+ "x/y" +:+ quote
    +:+ "," +:+ quote +:+ "b" +:+ quote +:+ ":[-12,null]}".
Proof. vm_compute. reflexivity. Qed.

(** ** [json.loads]

    The recursive-descent decoder of Python's [json] module on the UTF-8 text.
    [None] stands for [json.JSONDecodeError].  Every call consumes a character
    before it recurses, so the length of the text bounds the recursion. *)

Fixpoint skip_ws (s : string) : string :=
  match s with
  | String a s' =>
      let n := N_of_ascii a in
      if ((n =? 32) || (n =? 9) || (n =? 10) || (n =? 13))%N then skip_ws s' else s
  | EmptyString => s
  end.

Definition is_digit (a : ascii) : bool :=
  let n := N_of_ascii a in ((48 <=? n) && (n <=? 57))%N.

(** The longest prefix of decimal digits and the rest. *)
Fixpoint span_digits (s : string) : string * string :=
  match s with
  | String a s' =>
      if is_digit a then let '(d, r) := span_digits s' in (String a d, r) else ("", s)
  | EmptyString => ("", "")
  end.

Definition hex_value (a : ascii) : option N :=
  let n := N_of_ascii a in
  if ((48 <=? n) && (n <=? 57))%N then Some (n - 48)%N
  else if ((97 <=? n) && (n <=? 102))%N then Some (n - 87)%N
  else if ((65 <=? n) && (n <=? 70))%N then Some (n - 55)%N
  else None.

Lemma hex_value_digit n : (n < 16)%N -> hex_value (hex_digit n) = Some n.
Proof.
  intros Hn. unfold hex_value, hex_digit.
  rewrite N_ascii_embedding by (destruct (N.ltb_spec n 10); lia). cbv zeta.
  destruct (N.ltb_spec n 10).
  - rewrite (proj2 (N.leb_le 48 _)), (proj2 (N.leb_le _ 57)) by lia. cbn. f_equal. lia.
  - rewrite (proj2 (N.leb_gt _ 57)) by lia. rewrite andb_false_r.
    rewrite (proj2 (N.leb_le 97 _)), (proj2 (N.leb_le _ 102)) by lia. cbn. f_equal. lia.
Qed.

(** The four hexadecimal digits of a [\uXXXX] escape. *)
Definition read_hex4 (s : string) : option (N * string) :=
  match s with
  | String a (String b (String c (String d r))) =>
      match hex_value a, hex_value b, hex_value c, hex_value d with
      | Some x, Some y, Some z, Some w => Some (((x * 16 + y) * 16 + z) * 16 + w, r)%N
      | _, _, _, _ => None
      end
  | _ => None
  end.

(** The UTF-8 bytes of a code point (surrogates included). *)
Definition utf8_encode (c : N) : string :=
  let b n := String (ascii_of_N n) "" in
  if (c <? 128)%N then b c
  else if (c <? 2048)%N then b (192 + N.shiftr c 6)%N +:+ b (128 + N.land c 63)%N
  else if (c <? 65536)%N then
    b (224 + N.shiftr c 12)%N +:+ b (128 + N.land (N.shiftr c 6) 63)%N
      +:+ b (128 + N.land c 63)%N
  else
    b (240 + N.shiftr c 18)%N +:+ b (128 + N.land (N.shiftr c 12) 63)%N
      +:+ b (128 + N.land (N.shiftr c 6) 63)%N +:+ b (128 + N.land c 63)%N.

(** A [\u] escape and, for a high surrogate, the low one that follows it. *)
Definition read_u_escape (s : string) : option (string * string) :=
  match read_hex4 s with
  | None => None
  | Some (hi, r) =>
      if ((55296 <=? hi) && (hi <=? 56319))%N then
        match r with
        | String "\" (String "u" r2) =>
            match read_hex4 r2 with
            | Some (lo, r3) =>
                if ((56320 <=? lo) && (lo <=? 57343))%N then
                  Some (utf8_encode
                    (65536 + N.lor (N.shiftl (hi - 55296) 10) (lo - 56320)), r3)
                else Some (utf8_encode hi, r)
            | None => Some (utf8_encode hi, r)
            end
        | _ => Some (utf8_encode hi, r)
        end
      else Some (utf8_encode hi, r)
  end.

Definition simple_escape (a : ascii) : option string :=
  match N_of_ascii a with
  | 34%N | 92%N | 47%N => Some (String a "")
  | 98%N => Some (String (ascii_of_N 8) "")
  | 102%N => Some (String (ascii_of_N 12) "")
  | 110%N => Some (String (ascii_of_N 10) "")
  | 114%N => Some (String (ascii_of_N 13) "")
  | 116%N => Some (String (ascii_of_N 9) "")
  | _ => None
  end.

(** [scanstring] in strict mode, after the opening quote: the decoded string
    and the text after the closing quote. *)
Fixpoint scan_string (fuel : nat) (s : string) : option (string * string) :=
  match fuel with
  | O => None
  | S fuel' =>
      match s with
      | EmptyString => None
      | String a r =>
          let n := N_of_ascii a in
          if (n =? 34)%N then Some ("", r)
          else if (n <? 32)%N then None
          else if (n =? 92)%N then
            match r with
            | EmptyString => None
            | String e r2 =>
                let piece :=
                  if (N_of_ascii e =? 117)%N then read_u_escape r2
                  else (fun p => (p, r2)) <$> simple_escape e in
                match piece with
                | None => None
                | Some (p, r3) =>
                    (fun q => (p +:+ q.1, q.2)) <$> scan_string fuel' r3
                end
            end
          else (fun q => (String a q.1, q.2)) <$> scan_string fuel' r
      end
  end.

(** The text after the character [c], if the text starts with it. *)
Definition eat (c : ascii) (s : string) : option string :=
  match s with
  | String a r => if Ascii.eqb a c then Some r else None
  | EmptyString => None
  end.

(** The fraction and exponent of a number, as text. *)
Definition scan_frac (s : string) : string * string :=
  match eat "." s with
  | Some r =>
      match span_digits r with
      | (EmptyString, _) => ("", s)
      | (d, r2) => (String "." d, r2)
      end
  | None => ("", s)
  end.

Definition scan_sign (s : string) : string * string :=
  match eat "-" s with
  | Some r => ("-", r)
  | None => match eat "+" s with Some r => ("+", r) | None => ("", s) end
  end.

Definition scan_exp (s : string) : string * string :=
  match s with
  | String e r =>
      if ((N_of_ascii e =? 101) || (N_of_ascii e =? 69))%N then
        let '(sign, r1) := scan_sign r in
        match span_digits r1 with
        | (EmptyString, _) => ("", s)
        | (d, r2) => (String e (sign +:+ d), r2)
        end
      else ("", s)
  | EmptyString => ("", s)
  end.

(** [0], or digits without a leading zero. *)
Definition int_part (r : string) : option (string * string) :=
  match eat "0" r with
  | Some r1 => Some ("0", r1)
  | None => match span_digits r with
            | (EmptyString, _) => None
            | (d, r1) => Some (d, r1)
            end
  end.

(** [repr(float(literal))] for a JSON number literal with a fraction or an
    exponent: the decimal rounding of IEEE doubles is not modelled. *)
Class FloatText := float_repr : string -> string.

Section loads.
Context `{FloatText}.

(** An optional minus sign, [0] or a digit string without leading zero,
    then the optional fraction and exponent. *)
Definition scan_number (s : string) : option (json * string) :=
  let '(neg, r) := match eat "-" s with Some r => (true, r) | None => (false, s) end in
  match int_part r with
  | None => None
  | Some (d, r1) =>
      let '(f, r2) := scan_frac r1 in
      let '(e, r3) := scan_exp r2 in
      let text := (if neg then "-" else "") +:+ d in
      if bool_decide (f = "") && bool_decide (e = "") then
        match NilZero.int_of_string text with
        | Some i => Some (JInt (Z.of_int i), r3)
        | None => None
        end
      else Some (JFloat (float_repr (text +:+ f +:+ e)), r3)
  end.

(** [s[len(w):]] when [s] starts with [w]. *)
Fixpoint strip_prefix (w s : string) : option string :=
  match w, s with
  | EmptyString, _ => Some s
  | String a w', String b s' => if Ascii.eqb a b then strip_prefix w' s' else None
  | _, EmptyString => None
  end.

Definition scan_literal (s : string) : option (json * string) :=
  match strip_prefix "null" s with Some r => Some (JNull, r) | None =>
  match strip_prefix "true" s with Some r => Some (JBool true, r) | None =>
  match strip_prefix "false" s with Some r => Some (JBool false, r) | None =>
  match scan_number s with Some x => Some x | None =>
  match strip_prefix "NaN" s with Some r => Some (JFloat "NaN", r) | None =>
  match strip_prefix "Infinity" s with Some r => Some (JFloat "Infinity", r) | None =>
  match strip_prefix "-Infinity" s with Some r => Some (JFloat "-Infinity", r) | None =>
    None end end end end end end end.

(** The loop of [JSONArray], with the scanner of the items. *)
Fixpoint scan_items (scan : string -> option (json * string)) (n : nat) (s : string)
    : option (list json * string) :=
  match n with
  | O => None
  | S n' =>
      match scan s with
      | None => None
      | Some (v, r) =>
          match eat "]" (skip_ws r) with
          | Some r2 => Some ([v], r2)
          | None =>
              match eat "," (skip_ws r) with
              | Some r2 =>
                  match scan_items scan n' (skip_ws r2) with
                  | Some (vs, r3) => Some (v :: vs, r3)
                  | None => None
                  end
              | None => None
              end
          end
      end
  end.

(** The loop of [JSONObject]: a member is read after the opening quote of its key. *)
Fixpoint scan_members (scan : string -> option (json * string))
    (scan_key : string -> option (string * string)) (n : nat) (s : string)
    : option (odict string json * string) :=
  match n with
  | O => None
  | S n' =>
      match scan_key s with
      | None => None
      | Some (k, r) =>
          match eat ":" (skip_ws r) with
          | Some r2 =>
              match scan (skip_ws r2) with
              | None => None
              | Some (v, r3) =>
                  match eat "}" (skip_ws r3) with
                  | Some r4 => Some ([(k, v)], r4)
                  | None =>
                      match eat "," (skip_ws r3) with
                      | Some r4 =>
                          match eat dquote (skip_ws r4) with
                          | Some r5 =>
                              match scan_members scan scan_key n' r5 with
                              | Some (kvs, r6) => Some ((k, v) :: kvs, r6)
                              | None => None
                              end
                          | None => None
                          end
                      | None => None
                      end
                  end
              end
          | None => None
          end
      end
  end.

(** [scan_once]; the blanks after an opening bracket are skipped first. *)
Fixpoint scan_once (fuel : nat) (s : string) : option (json * string) :=
  match fuel with
  | O => None
  | S fuel' =>
      match s with
      | EmptyString => None
      | String a r =>
          let n := N_of_ascii a in
          if (n =? 34)%N then
            (fun q => (JStr q.1, q.2)) <$> scan_string fuel' r
          else if (n =? 91)%N then
            match eat "]" (skip_ws r) with
            | Some r2 => Some (JArr [], r2)
            | None => (fun q => (JArr q.1, q.2)) <$> scan_items (scan_once fuel') fuel' (skip_ws r)
            end
          else if (n =? 123)%N then
            match eat "}" (skip_ws r) with
            | Some r2 => Some (JObj [], r2)
            | None =>
                match eat dquote (skip_ws r) with
                | Some r2 =>
                    (fun q => (JObj (foldl (fun d p => od_set p.1 p.2 d) [] q.1), q.2))
                      <$> scan_members (scan_once fuel') (scan_string fuel') fuel' r2
                | None => None
                end
            end
          else scan_literal s
      end
  end.

Definition json_loads (s : string) : option json :=
  match scan_once (S (String.length s)) (skip_ws s) with
  | Some (v, r) => match skip_ws r with EmptyString => Some v | _ => None end
  | None => None
  end.
End loads.

Example json_loads_ex `{FloatText} :
  json_loads (json_dumps (JObj [("a", JStr "x/y\"); ("b", JArr [JInt (-120); JNull; JObj []])]))
  = Some (JObj [("a", JStr "x/y\"); ("b", JArr [JInt (-120); JNull; JObj []])]).
Proof. vm_compute. reflexivity. Qed.

(** ** [bytes.decode("utf-8")]

    A string is represented by its UTF-8 bytes, so decoding is the identity on
    well-formed input and [UnicodeDecodeError] ([None]) on any other. *)

Definition is_cont (lo hi : N) (a : ascii) : bool :=
  let n := N_of_ascii a in ((lo <=? n) && (n <=? hi))%N.

Fixpoint utf8_valid (s : string) : bool :=
  match s with
  | EmptyString => true
  | String a s1 =>
      let n := N_of_ascii a in
      if (n <? 128)%N then utf8_valid s1
      else if ((194 <=? n) && (n <? 224))%N then
        match s1 with
        | String b s2 => is_cont 128 191 b && utf8_valid s2
        | _ => false
        end
      else if ((224 <=? n) && (n <? 240))%N then
        match s1 with
        | String b (String c s3) =>
            is_cont (if (n =? 224)%N then 160 else 128) (if (n =? 237)%N then 159 else 191) b
            && is_cont 128 191 c && utf8_valid s3
        | _ => false
        end
      else if ((240 <=? n) && (n <? 245))%N then
        match s1 with
        | String b (String c (String d s4)) =>
            is_cont (if (n =? 240)%N then 144 else 128) (if (n =? 244)%N then 143 else 191) b
            && is_cont 128 191 c && is_cont 128 191 d && utf8_valid s4
        | _ => false
        end
      else false
  end.

Definition utf8_decode (b : string) : option string := if utf8_valid b then Some b else None.

(** ** [common/json.py] *)

Module CommonJson.
Definition compact_json_text (payload : jdict) : string := json_dumps (JObj payload).

(** The text is ASCII, so its UTF-8 encoding is the text itself. *)
Definition compact_json_bytes (payload : jdict) : string := compact_json_text payload.

Definition byte_hex (a : ascii) : string :=
  String (hex_digit (N.shiftr (N_of_ascii a) 4)) (String (hex_digit (N_of_ascii a mod 16)) "").

(** [bytes.hex()] *)
Fixpoint bytes_hex (s : string) : string :=
  match s with
  | EmptyString => ""
  | String a s' => byte_hex a +:+ bytes_hex s'
  end.

Definition canonical_payload_hex (payload : jdict) : string :=
  bytes_hex (compact_json_bytes payload).

Definition load_json_object `{FloatText} (raw_json : option string) : jdict :=
  match raw_json with
  | None => []
  | Some raw_json =>
      if negb (str_truthy raw_json) then []
      else match json_loads raw_json with
           | Some (JObj payload) => payload
           | _ => []
           end
  end.
End CommonJson.
