(* ===== verification/Sha512.v ===== *)
(** * SHA-512

    The hash of [hashlib.sha512] (FIPS 180-4), on byte strings: node
    identifiers, DHT keys, proofs of work and content identifiers are all its
    lowercase hexadecimal digests ([src/app/crypto/sha512.py] and the direct
    uses of [hashlib] in [src/app/dht] and [src/app/content]). *)

From S2P Require Import Prelude PyJson.
From Stdlib Require Import NArith Ascii.

#[local] Open Scope N_scope.

Definition w64 (x : N) : N := N.land x 0xffffffffffffffff.
Definition add64 (x y : N) : N := w64 (x + y).
Definition rotr (n x : N) : N := N.lor (N.shiftr x n) (w64 (N.shiftl x (64 - n))).

Definition ch (x y z : N) : N := N.lxor (N.land x y) (N.land (N.lxor x 0xffffffffffffffff) z).
Definition maj (x y z : N) : N := N.lxor (N.lxor (N.land x y) (N.land x z)) (N.land y z).
Definition big_sigma0 (x : N) : N := N.lxor (N.lxor (rotr 28 x) (rotr 34 x)) (rotr 39 x).
Definition big_sigma1 (x : N) : N := N.lxor (N.lxor (rotr 14 x) (rotr 18 x)) (rotr 41 x).
Definition small_sigma0 (x : N) : N := N.lxor (N.lxor (rotr 1 x) (rotr 8 x)) (N.shiftr x 7).
Definition small_sigma1 (x : N) : N := N.lxor (N.lxor (rotr 19 x) (rotr 61 x)) (N.shiftr x 6).

Definition round_constants : list N :=
  [
   0x428a2f98d728ae22; 0x7137449123ef65cd; 0xb5c0fbcfec4d3b2f;
   0xe9b5dba58189dbbc; 0x3956c25bf348b538; 0x59f111f1b605d019;
   0x923f82a4af194f9b; 0xab1c5ed5da6d8118; 0xd807aa98a3030242;
   0x12835b0145706fbe; 0x243185be4ee4b28c; 0x550c7dc3d5ffb4e2;
   0x72be5d74f27b896f; 0x80deb1fe3b1696b1; 0x9bdc06a725c71235;
   0xc19bf174cf692694; 0xe49b69c19ef14ad2; 0xefbe4786384f25e3;
   0x0fc19dc68b8cd5b5; 0x240ca1cc77ac9c65; 0x2de92c6f592b0275;
   0x4a7484aa6ea6e483; 0x5cb0a9dcbd41fbd4; 0x76f988da831153b5;
   0x983e5152ee66dfab; 0xa831c66d2db43210; 0xb00327c898fb213f;
   0xbf597fc7beef0ee4; 0xc6e00bf33da88fc2; 0xd5a79147930aa725;
   0x06ca6351e003826f; 0x142929670a0e6e70; 0x27b70a8546d22ffc;
   0x2e1b21385c26c926; 0x4d2c6dfc5ac42aed; 0x53380d139d95b3df;
   0x650a73548baf63de; 0x766a0abb3c77b2a8; 0x81c2c92e47edaee6;
   0x92722c851482353b; 0xa2bfe8a14cf10364; 0xa81a664bbc423001;
   0xc24b8b70d0f89791; 0xc76c51a30654be30; 0xd192e819d6ef5218;
   0xd69906245565a910; 0xf40e35855771202a; 0x106aa07032bbd1b8;
   0x19a4c116b8d2d0c8; 0x1e376c085141ab53; 0x2748774cdf8eeb99;
   0x34b0bcb5e19b48a8; 0x391c0cb3c5c95a63; 0x4ed8aa4ae3418acb;
   0x5b9cca4f7763e373; 0x682e6ff3d6b2b8a3; 0x748f82ee5defb2fc;
   0x78a5636f43172f60; 0x84c87814a1f0ab72; 0x8cc702081a6439ec;
   0x90befffa23631e28; 0xa4506cebde82bde9; 0xbef9a3f7b2c67915;
   0xc67178f2e372532b; 0xca273eceea26619c; 0xd186b8c721c0c207;
   0xeada7dd6cde0eb1e; 0xf57d4f7fee6ed178; 0x06f067aa72176fba;
   0x0a637dc5a2c898a6; 0x113f9804bef90dae; 0x1b710b35131c471b;
   0x28db77f523047d84; 0x32caab7b40c72493; 0x3c9ebe0a15c9bebc;
   0x431d67c49c100d4c; 0x4cc5d4becb3e42b6; 0x597f299cfc657e2a;
   0x5fcb6fab3ad6faec; 0x6c44198c4a475817].

Definition initial_hash : list N :=
  [
   0x6a09e667f3bcc908; 0xbb67ae8584caa73b; 0x3c6ef372fe94f82b;
   0xa54ff53a5f1d36f1; 0x510e527fade682d1; 0x9b05688c2b3e6c1f;
   0x1f83d9abfb41bd6b; 0x5be0cd19137e2179].

(** Bytes, most significant first, of an [n]-byte number. *)
Fixpoint be_bytes (n : nat) (x : N) : list N :=
  match n with
  | O => []
  | S n' => N.land (N.shiftr x (8 * N.of_nat n')) 255 :: be_bytes n' x
  end.

Definition message_bytes (s : string) : list N :=
  N_of_ascii <$> String.list_ascii_of_string s.

(** The padded message: the bit 1, zeros, and the length on 128 bits. *)
Definition pad (m : list N) : list N :=
  let len := length m in
  m ++ [128] ++ replicate ((239 - len mod 128) mod 128)%nat 0
    ++ be_bytes 16 (8 * N.of_nat len).

Fixpoint be_combine (l : list N) : N :=
  match l with
  | [] => 0
  | b :: l' => N.shiftl b (8 * N.of_nat (length l')) + be_combine l'
  end.

(** The big-endian 64-bit words of the padded message. *)
Fixpoint words (fuel : nat) (l : list N) : list N :=
  match fuel, l with
  | S fuel', _ :: _ => be_combine (take 8 l) :: words fuel' (drop 8 l)
  | _, _ => []
  end.

(** The message schedule, newest word first: 16 words extended to 80. *)
Fixpoint extend (n : nat) (w : list N) : list N :=
  match n with
  | O => w
  | S n' =>
      let at_ i := nth i w 0 in
      extend n' (add64 (add64 (small_sigma1 (at_ 1%nat)) (at_ 6%nat))
                       (add64 (small_sigma0 (at_ 14%nat)) (at_ 15%nat)) :: w)
  end.

Definition round (h : list N) (kw : N * N) : list N :=
  match h with
  | [a; b; c; d; e; f; g; hh] =>
      let t1 := add64 (add64 hh (big_sigma1 e)) (add64 (ch e f g) (add64 kw.1 kw.2)) in
      let t2 := add64 (big_sigma0 a) (maj a b c) in
      [add64 t1 t2; a; b; c; add64 d t1; e; f; g]
  | _ => h
  end.

Definition compress (h block : list N) : list N :=
  let schedule := reverse (extend 64 (reverse block)) in
  zip_with add64 h (foldl round h (zip round_constants schedule)).

Fixpoint blocks (fuel : nat) (h ws : list N) : list N :=
  match fuel, ws with
  | S fuel', _ :: _ => blocks fuel' (compress h (take 16 ws)) (drop 16 ws)
  | _, _ => h
  end.

(** The 64 bytes of the digest. *)
Definition sha512_digest (s : string) : list N :=
  let p := pad (message_bytes s) in
  let ws := words (length p) p in
  mjoin (be_bytes 8 <$> blocks (length ws) initial_hash ws).

Definition hex_of_bytes (l : list N) : string :=
  foldr (fun b acc => CommonJson.byte_hex (ascii_of_N b) +:+ acc) "" l.

(** [sha512(s).hexdigest()] *)
Definition sha512_hexdigest (s : string) : string := hex_of_bytes (sha512_digest s).

Example sha512_abc :
  sha512_hexdigest "abc" =
  "ddaf35a193617abacc417349ae20413112e6fa4e89a97ea20a9eeee64b55d39a" +:+
  "2192992a274fc1a836ba3c23a3feebbd454d4423643ce80e2a9ac94fa54ca49f".
Proof. vm_compute. reflexivity. Qed.

Example sha512_empty :
  sha512_hexdigest "" =
  "cf83e1357eefb8bdf1542850d66d8007d620e4050b5715dc83f4a921d36ce9ce" +:+
  "47d0d13c5d85f2b0ff8318d2877eec2f63b931bd47417a81a538327af927da3e".
Proof. vm_compute. reflexivity. Qed.

(** ** The shape of a digest *)

#[local] Open Scope nat_scope.

Definition is_hex_lower (a : ascii) : bool :=
  let n := N_of_ascii a in
  ((48 <=? n) && (n <=? 57) || (97 <=? n) && (n <=? 102))%N.

Lemma length_be_bytes n x : length (be_bytes n x) = n.
Proof. induction n; simpl; auto. Qed.

Lemma length_round h kw : length (round h kw) = length h.
Proof. do 9 (destruct h as [|? h]; [done|]). done. Qed.

Lemma length_rounds l h : length (foldl round h l) = length h.
Proof. revert h; induction l as [|kw l IH]; intros h; simpl; [done|]. by rewrite IH, length_round. Qed.

Lemma length_compress h b : length (compress h b) = length h.
Proof. unfold compress. rewrite length_zip_with, length_rounds. lia. Qed.

Lemma length_blocks fuel h ws : length (blocks fuel h ws) = length h.
Proof.
  revert h ws; induction fuel as [|fuel IH]; intros h [|w ws]; simpl; try done.
  by rewrite IH, length_compress.
Qed.

Lemma length_sha512_digest s : length (sha512_digest s) = 64.
Proof.
  unfold sha512_digest. set (ws := words _ _).
  assert (length (blocks (length ws) initial_hash ws) = 8) as H8 by (by rewrite length_blocks).
  revert H8. generalize (blocks (length ws) initial_hash ws). intros l Hl.
  do 8 (destruct l as [|? l]; [done|]). by destruct l.
Qed.

Lemma length_hex_of_bytes l : String.length (hex_of_bytes l) = 2 * length l.
Proof.
  unfold hex_of_bytes. induction l as [|b l IH]; [done|].
  cbn [foldr]. rewrite string_length_app, IH. simpl. lia.
Qed.

Lemma hex_digit_lower n : (n < 16)%N -> is_hex_lower (hex_digit n) = true.
Proof.
  intros Hn. unfold is_hex_lower, hex_digit.
  rewrite N_ascii_embedding by (destruct (N.ltb_spec n 10); lia).
  cbv zeta. destruct (N.ltb_spec n 10); apply orb_true_iff;
    rewrite !andb_true_iff, !N.leb_le; lia.
Qed.

Lemma byte_hex_lower a :
  forallb is_hex_lower (String.list_ascii_of_string (CommonJson.byte_hex a)) = true.
Proof.
  pose proof (N_ascii_bounded a) as Hb. cbn.
  rewrite !hex_digit_lower; [done|apply N.mod_lt; lia|].
  rewrite N.shiftr_div_pow2. apply N.Div0.div_lt_upper_bound. simpl. lia.
Qed.

Lemma list_ascii_app s t :
  String.list_ascii_of_string (s +:+ t) =
  String.list_ascii_of_string s ++ String.list_ascii_of_string t.
Proof. induction s as [|a s IH]; simpl; [done|]. by rewrite IH. Qed.

(** A digest is 128 lowercase hexadecimal digits. *)
Lemma sha512_hexdigest_length s : String.length (sha512_hexdigest s) = 128.
Proof. unfold sha512_hexdigest. by rewrite length_hex_of_bytes, length_sha512_digest. Qed.

Lemma sha512_hexdigest_lower s :
  forallb is_hex_lower (String.list_ascii_of_string (sha512_hexdigest s)) = true.
Proof.
  unfold sha512_hexdigest. generalize (sha512_digest s). intros l.
  induction l as [|b l IH]; [done|]. unfold hex_of_bytes. simpl foldr.
  rewrite list_ascii_app, forallb_app, byte_hex_lower. exact IH.
Qed.

Lemma sha512_hexdigest_truthy s : str_truthy (sha512_hexdigest s) = true.
Proof.
  apply str_truthy_spec. intros E. pose proof (sha512_hexdigest_length s) as L.
  by rewrite E in L.
Qed.

#[global] Opaque sha512_hexdigest.
