(* ===== verification/PyTime.v ===== *)
(** * Instants and their ISO 8601 text

    Models [src/app/common/time.py] and the [datetime] operations the code
    uses.  An aware UTC [datetime] is the number of microseconds since the
    epoch, the resolution of Python's type; a clock reading ([utc_now()]) is an
    explicit argument [now] of the definitions that make it. *)

From S2P Require Import Prelude PyJson.
From Stdlib Require Import Ascii.

Abbreviation instant := Z.

(** [timedelta(seconds=n)] in microseconds. *)
Definition seconds (n : Z) : Z := n * 1000000.

(** ** [datetime.isoformat()] for an aware UTC instant *)

(** Decimal text padded with zeros to width [w]. *)
Definition pad_left (w : nat) (s : string) : string :=
  foldr (fun _ acc => "0" +:+ acc) s (seq 0 (w - String.length s)).

Definition dec (w : nat) (n : Z) : string := pad_left w (str_of_Z n).

(** Civil date (year, month, day) of a day number counted from 1970-01-01. *)
Definition civil_of_days (days : Z) : Z * Z * Z :=
  let z := days + 719468 in
  let era := z / 146097 in
  let doe := z - era * 146097 in
  let yoe := (doe - doe / 1460 + doe / 36524 - doe / 146096) / 365 in
  let doy := doe - (365 * yoe + yoe / 4 - yoe / 100) in
  let mp := (5 * doy + 2) / 153 in
  let d := doy - (153 * mp + 2) / 5 + 1 in
  let m := if mp <? 10 then mp + 3 else mp - 9 in
  (yoe + era * 400 + (if m <=? 2 then 1 else 0), m, d).

Definition isoformat (t : instant) : string :=
  let us := t mod 1000000 in
  let secs := t / 1000000 in
  let days := secs / 86400 in
  let sod := secs mod 86400 in
  let '(y, m, d) := civil_of_days days in
  dec 4 y +:+ "-" +:+ dec 2 m +:+ "-" +:+ dec 2 d +:+ "T"
    +:+ dec 2 (sod / 3600) +:+ ":" +:+ dec 2 (sod / 60 mod 60) +:+ ":" +:+ dec 2 (sod mod 60)
    +:+ (if us =? 0 then "" else "." +:+ dec 6 us) +:+ "+00:00".

Example isoformat_ex1 : isoformat 1772323147000000 = "2026-02-28T23:59:07+00:00".
Proof. vm_compute. reflexivity. Qed.

Example isoformat_ex2 : isoformat 951786123000045 = "2000-02-29T01:02:03.000045+00:00".
Proof. vm_compute. reflexivity. Qed.

(** ** [datetime.fromisoformat]

    A parsed [datetime] may lack a time zone; comparing a naive with an aware
    one raises [TypeError].  The grammar of [fromisoformat] is a parameter of
    the development: the theorems hold for every such function. *)

Inductive pydatetime : Type :=
| Naive (t : Z)
| Aware (t : instant).

#[export] Instance pydatetime_eq_dec : EqDecision pydatetime.
Proof. solve_decision. Defined.

(** [None] stands for [ValueError]. *)
Class IsoParser := fromisoformat : string -> option pydatetime.

Definition cant_compare : exn :=
  TypeError "can't compare offset-naive and offset-aware datetimes".

(** [x <= y], [x < y] and [x == y]. *)
Definition dt_le (x y : pydatetime) : res bool :=
  match x, y with
  | Naive a, Naive b | Aware a, Aware b => Ok (a <=? b)
  | _, _ => Raise cant_compare
  end.

Definition dt_lt (x y : pydatetime) : res bool :=
  match x, y with
  | Naive a, Naive b | Aware a, Aware b => Ok (a <? b)
  | _, _ => Raise cant_compare
  end.

Definition dt_eqb (x y : pydatetime) : bool := bool_decide (x = y).

(** A concrete parser for the extended format [isoformat] writes:
    [YYYY-MM-DDTHH:MM:SS[.ffffff][+HH:MM]].  Used where a theorem is applied to
    concrete dates. *)
Definition days_of_civil (y m d : Z) : Z :=
  let y := if m <=? 2 then y - 1 else y in
  let era := y / 400 in
  let yoe := y - era * 400 in
  let doy := (153 * (if m <=? 2 then m + 9 else m - 3) + 2) / 5 + d - 1 in
  era * 146097 + (yoe * 365 + yoe / 4 - yoe / 100 + doy) - 719468.

Definition two (a b : ascii) : option Z :=
  match hex_value a, hex_value b with
  | Some x, Some y => if (x <? 10)%N && (y <? 10)%N then Some (Z.of_N (x * 10 + y)) else None
  | _, _ => None
  end.

Definition parse_zone (s : string) : option (option Z) :=
  match s with
  | EmptyString => Some None
  | String sg (String a (String b (String ":"%char (String c (String d EmptyString))))) =>
      match two a b, two c d with
      | Some h, Some m =>
          if (h <? 24) && (m <? 60) then
            if Ascii.eqb sg "+"%char then Some (Some (h * 60 + m))
            else if Ascii.eqb sg "-"%char then Some (Some (- (h * 60 + m))) else None
          else None
      | _, _ => None
      end
  | _ => None
  end.

Definition parse_fraction (s : string) : option (Z * string) :=
  match s with
  | String "."%char (String a (String b (String c (String d (String e (String f r)))))) =>
      match two a b, two c d, two e f with
      | Some x, Some y, Some z => Some (x * 10000 + y * 100 + z, r)
      | _, _, _ => None
      end
  | _ => Some (0, s)
  end.

Definition iso_extended : IsoParser := fun s =>
  match s with
  | String y1 (String y2 (String y3 (String y4 (String "-"%char (String m1 (String m2 (String "-"%char
      (String d1 (String d2 (String "T"%char (String h1 (String h2 (String ":"%char (String n1 (String n2
        (String ":"%char (String s1 (String s2 r)))))))))))))))))) =>
      match two y1 y2, two y3 y4, two m1 m2, two d1 d2, two h1 h2, two n1 n2, two s1 s2,
            parse_fraction r with
      | Some c, Some y, Some m, Some d, Some h, Some n, Some sec, Some (us, z) =>
          let year := c * 100 + y in
          let next := if m =? 12 then days_of_civil (year + 1) 1 1 else days_of_civil year (m + 1) 1 in
          if (1 <=? year) && (1 <=? m) && (m <=? 12) && (1 <=? d)
             && (days_of_civil year m d <? next) && (h <? 24) && (n <? 60) && (sec <? 60) then
            let t := (days_of_civil year m d * 86400 + h * 3600 + n * 60 + sec) * 1000000 + us in
            match parse_zone z with
            | Some None => Some (Naive t)
            | Some (Some off) => Some (Aware (t - off * 60000000))
            | None => None
            end
          else None
      | _, _, _, _, _, _, _, _ => None
      end
  | _ => None
  end.

Example iso_extended_ex :
  iso_extended (isoformat 1772323147000000) = Some (Aware 1772323147000000) /\
  iso_extended (isoformat 951786123000045) = Some (Aware 951786123000045) /\
  iso_extended "2024-02-30T00:00:00" = None /\
  iso_extended "2024-02-29T01:00:00" = Some (Naive 1709168400000000) /\
  iso_extended "2024-02-29T01:00:00-03:00" = Some (Aware 1709179200000000).
Proof. vm_compute. done. Qed.

(** [value.replace("Z", "+00:00")] *)
Fixpoint replace_Z (s : string) : string :=
  match s with
  | EmptyString => ""
  | String a s' => (if Ascii.eqb a "Z"%char then "+00:00" else String a "") +:+ replace_Z s'
  end.

Module CommonTime.
(** [is_expired_iso_datetime(value)]: a naive text is read as UTC. *)
Definition is_expired_iso_datetime `{IsoParser} (now : instant) (value : string) : bool :=
  match fromisoformat (replace_Z value) with
  | None => true
  | Some (Naive t) | Some (Aware t) => t <=? now
  end.
End CommonTime.
