(* ===== verification/PyInt.v ===== *)
(** * Integers in bases 16 and 2

    Models Python's [int(s, 16)], [bin(n)[2:].zfill(w)], [str.startswith] on such
    a string and [format(n, "0128x")], as the DHT code uses them.  Text that is not
    ASCII is refused by [int(s, 16)] here. *)

From S2P Require Import Prelude PyJson Sha512.
From Stdlib Require Import Ascii.

(** ** [int(s, 16)] *)

Definition is_space (a : ascii) : bool :=
  let n := N_of_ascii a in
  ((9 <=? n) && (n <=? 13) || (28 <=? n) && (n <=? 32))%N.

Fixpoint strip_left (l : list ascii) : list ascii :=
  match l with
  | a :: l' => if is_space a then strip_left l' else l
  | [] => []
  end.

Definition strip (l : list ascii) : list ascii := reverse (strip_left (reverse (strip_left l))).

Definition underscore : ascii := "_"%char.

(** Digits with single underscores between them. *)
Fixpoint hex_digits (acc : Z) (after_digit : bool) (l : list ascii) : option Z :=
  match l with
  | [] => if after_digit then Some acc else None
  | a :: l' =>
      if bool_decide (a = underscore)
      then (if after_digit then hex_digits acc false l' else None)
      else match hex_value a with
           | Some v => hex_digits (acc * 16 + Z.of_N v) true l'
           | None => None
           end
  end.

Definition unsigned16 (l : list ascii) : option Z :=
  match l with
  | "0"%char :: ("x"%char | "X"%char) :: l' =>
      match l' with
      | a :: l'' => if bool_decide (a = underscore) then hex_digits 0 false l''
                    else hex_digits 0 false l'
      | [] => None
      end
  | _ => hex_digits 0 false l
  end.

Definition int_base16 (s : string) : res Z :=
  let l := strip (String.list_ascii_of_string s) in
  match match l with
        | "-"%char :: l' => Z.opp <$> unsigned16 l'
        | "+"%char :: l' => unsigned16 l'
        | _ => unsigned16 l
        end with
  | Some v => Ok v
  | None => Raise (ValueError "invalid literal for int() with base 16")
  end.

Example int_base16_ex :
  int_base16 "ff" = Ok 255 /\ int_base16 " -0x_1F " = Ok (-31) /\ is_ok (int_base16 "0x") = false
  /\ is_ok (int_base16 "1__2") = false.
Proof. vm_compute. done. Qed.

(** The value of a run of hexadecimal digits. *)
Definition hex_int (l : list ascii) : Z :=
  foldl (fun acc a => acc * 16 + Z.of_N (default 0%N (hex_value a))) 0 l.

Definition digest_int (s : string) : Z := hex_int (String.list_ascii_of_string (sha512_hexdigest s)).

Lemma hex_lower_facts a :
  is_hex_lower a = true ->
  is_space a = false /\ a <> underscore /\ a <> "x"%char /\ a <> "X"%char /\ a <> "-"%char /\
  a <> "+"%char /\ exists v, hex_value a = Some v /\ (v < 16)%N.
Proof.
  unfold is_hex_lower, is_space. intros Ha.
  assert ((48 <= N_of_ascii a <= 57)%N \/ (97 <= N_of_ascii a <= 102)%N) as Hr.
  { apply orb_true_iff in Ha. rewrite !andb_true_iff, !N.leb_le in Ha. done. }
  split.
  { apply orb_false_iff. rewrite !andb_false_iff, !N.leb_gt. lia. }
  split_and!; [intros ->; match type of Hr with context [N_of_ascii ?c] =>
      let v := eval vm_compute in (N_of_ascii c) in change (N_of_ascii c) with v in Hr end; lia..|].
  unfold hex_value. cbv zeta. destruct Hr as [Hr|Hr].
  - rewrite (proj2 (N.leb_le 48 _)), (proj2 (N.leb_le _ 57)) by lia. eexists. split; [done|lia].
  - rewrite (proj2 (N.leb_gt (N_of_ascii a) 57)) by lia. rewrite andb_false_r.
    rewrite (proj2 (N.leb_le 97 _)), (proj2 (N.leb_le _ 102)) by lia. eexists. split; [done|lia].
Qed.

Lemma strip_left_lower l : forallb is_hex_lower l = true -> strip_left l = l.
Proof.
  destruct l as [|a l]; [done|]. cbn. intros [Ha _]%andb_true_iff.
  by rewrite (proj1 (hex_lower_facts a Ha)).
Qed.

Lemma forallb_reverse (p : ascii -> bool) l : forallb p (reverse l) = forallb p l.
Proof.
  apply eq_true_iff_eq. rewrite !forallb_forall.
  setoid_rewrite <- list_elem_of_In. by setoid_rewrite elem_of_reverse.
Qed.

Lemma strip_lower l : forallb is_hex_lower l = true -> strip l = l.
Proof.
  intros Hl. unfold strip. rewrite (strip_left_lower l Hl), strip_left_lower; [apply reverse_involutive|].
  by rewrite forallb_reverse.
Qed.

Lemma hex_digits_lower l acc b :
  forallb is_hex_lower l = true -> l <> [] \/ b = true ->
  hex_digits acc b l =
  Some (foldl (fun acc a => acc * 16 + Z.of_N (default 0%N (hex_value a))) acc l).
Proof.
  revert acc b. induction l as [|a l IH]; intros acc b Hl Hne.
  { destruct Hne as [|Hb]; [done|by rewrite Hb]. }
  cbn in Hl. apply andb_true_iff in Hl as [Ha Hl].
  destruct (hex_lower_facts a Ha) as (_ & Hu & _ & _ & _ & _ & v & Hv & _).
  cbn. rewrite bool_decide_false, Hv by done. rewrite IH by (done || by right). done.
Qed.

Lemma unsigned16_lower l :
  forallb is_hex_lower l = true -> l <> [] -> unsigned16 l = Some (hex_int l).
Proof.
  intros Hl Hne.
  assert (unsigned16 l = hex_digits 0 false l) as ->.
  { unfold unsigned16. destruct l as [|a [|b l]]; [done|by repeat case_match|].
    cbn in Hl. rewrite !andb_true_iff in Hl. destruct Hl as (_ & Hb & _).
    destruct (hex_lower_facts b Hb) as (_ & _ & Hx & HX & _).
    repeat case_match; congruence. }
  apply hex_digits_lower; [done|by left].
Qed.

Lemma int_base16_digest s : int_base16 (sha512_hexdigest s) = Ok (digest_int s).
Proof.
  unfold int_base16, digest_int. pose proof (sha512_hexdigest_lower s) as Hl.
  pose proof (sha512_hexdigest_truthy s) as Ht. apply str_truthy_spec in Ht.
  assert (String.list_ascii_of_string (sha512_hexdigest s) <> []) as Hne.
  { intros E. destruct (sha512_hexdigest s); [done|discriminate E]. }
  revert Hl Hne. generalize (String.list_ascii_of_string (sha512_hexdigest s)). intros l Hl Hne.
  rewrite strip_lower by done. pose proof (unsigned16_lower l Hl Hne) as Hu.
  destruct l as [|a l]; [done|]. cbn in Hl. apply andb_true_iff in Hl as [Ha _].
  destruct (hex_lower_facts a Ha) as (_ & _ & _ & _ & Hm & Hp & _).
  assert (match match a :: l with
        | "-"%char :: l' => Z.opp <$> unsigned16 l'
        | "+"%char :: l' => unsigned16 l'
        | _ => unsigned16 (a :: l)
        end with Some v => Ok v | None => Raise (ValueError "invalid literal for int() with base 16") end
   = match unsigned16 (a :: l) with Some v => Ok v
     | None => Raise (ValueError "invalid literal for int() with base 16") end) as ->.
  { destruct a as [[] [] [] [] [] [] [] []]; done. }
  by rewrite Hu.
Qed.

Lemma hex_int_bound l acc :
  forallb is_hex_lower l = true -> 0 <= acc ->
  0 <= foldl (fun acc a => acc * 16 + Z.of_N (default 0%N (hex_value a))) acc l
  < (acc + 1) * 16 ^ Z.of_nat (length l).
Proof.
  revert acc. induction l as [|a l IH]; intros acc Hl Hacc; [cbn; lia|].
  cbn in Hl. apply andb_true_iff in Hl as [Ha Hl].
  destruct (hex_lower_facts a Ha) as (_ & _ & _ & _ & _ & _ & v & Hv & Hlt).
  cbn [foldl length]. rewrite Hv. cbn [from_option id].
  specialize (IH (acc * 16 + Z.of_N v) Hl ltac:(lia)).
  rewrite Nat2Z.inj_succ, Z.pow_succ_r by lia. nia.
Qed.

Lemma list_ascii_length s : length (String.list_ascii_of_string s) = String.length s.
Proof. induction s; simpl; congruence. Qed.

(** A digest is a 512-bit number. *)
Lemma digest_int_bound s : 0 <= digest_int s < 2 ^ 512.
Proof.
  pose proof (hex_int_bound _ 0 (sha512_hexdigest_lower s) ltac:(lia)) as Hb.
  rewrite list_ascii_length, sha512_hexdigest_length in Hb.
  unfold digest_int, hex_int. replace (2 ^ 512) with ((0 + 1) * 16 ^ Z.of_nat 128); [exact Hb|].
  vm_compute. reflexivity.
Qed.

Lemma hex_value_inj a b v :
  is_hex_lower a = true -> is_hex_lower b = true ->
  hex_value a = Some v -> hex_value b = Some v -> a = b.
Proof.
  intros Ha Hb Hva Hvb. unfold is_hex_lower, hex_value in *. cbv zeta in *.
  rewrite <- (ascii_N_embedding a), <- (ascii_N_embedding b). f_equal.
  repeat case_match; simplify_eq;
    repeat match goal with
    | H : (_ && _)%bool = true |- _ => apply andb_true_iff in H as [?%N.leb_le ?%N.leb_le]
    | H : (_ && _)%bool = false |- _ => apply andb_false_iff in H as [?%N.leb_gt|?%N.leb_gt]
    | H : (_ || _)%bool = true |- _ => apply orb_true_iff in H as [H|H]
    end; lia.
Qed.

Lemma hex_int_inj l l' acc acc' :
  length l = length l' -> forallb is_hex_lower l = true -> forallb is_hex_lower l' = true ->
  foldl (fun acc a => acc * 16 + Z.of_N (default 0%N (hex_value a))) acc l =
  foldl (fun acc a => acc * 16 + Z.of_N (default 0%N (hex_value a))) acc' l' ->
  acc = acc' /\ l = l'.
Proof.
  revert l' acc acc'. induction l as [|a l IH]; intros [|b l'] acc acc' Hlen Hl Hl' E;
    try discriminate Hlen; [done|].
  cbn in Hlen, Hl, Hl', E. apply andb_true_iff in Hl as [Ha Hl], Hl' as [Hb Hl'].
  destruct (hex_lower_facts a Ha) as (_ & _ & _ & _ & _ & _ & v & Hv & Hvlt).
  destruct (hex_lower_facts b Hb) as (_ & _ & _ & _ & _ & _ & w & Hw & Hwlt).
  rewrite Hv, Hw in E. cbn [from_option id] in E.
  destruct (IH l' _ _ ltac:(lia) Hl Hl' E) as [Eacc ->].
  assert (acc = acc' /\ v = w) as [-> ->] by lia. split; [done|]. f_equal.
  by eapply hex_value_inj.
Qed.

Lemma list_ascii_inj s t :
  String.list_ascii_of_string s = String.list_ascii_of_string t -> s = t.
Proof.
  intros E. rewrite <- (String.string_of_list_ascii_of_string s).
  rewrite <- (String.string_of_list_ascii_of_string t). by rewrite E.
Qed.

(** Equal numbers come from equal digests. *)
Lemma digest_int_inj s t : digest_int s = digest_int t -> sha512_hexdigest s = sha512_hexdigest t.
Proof.
  intros E. apply list_ascii_inj. unfold digest_int, hex_int in E.
  eapply hex_int_inj; [|apply sha512_hexdigest_lower..|exact E].
  by rewrite !list_ascii_length, !sha512_hexdigest_length.
Qed.

(** ** [bin(n)[2:].zfill(w)], a digit as a boolean *)

Fixpoint pos_bits (p : positive) (acc : list bool) : list bool :=
  match p with
  | xH => true :: acc
  | xO p => pos_bits p (false :: acc)
  | xI p => pos_bits p (true :: acc)
  end.

Definition bin_digits (n : Z) : list bool :=
  match n with Zpos p => pos_bits p [] | _ => [false] end.

Definition zfill (w : nat) (l : list bool) : list bool := replicate (w - length l) false ++ l.

(** [bits.startswith("0" * d)] *)
Definition starts_with_zeros (d : nat) (l : list bool) : bool :=
  bool_decide (take d l = replicate d false).

Definition bits_value (acc : Z) (l : list bool) : Z := foldl (fun a b => 2 * a + Z.b2z b) acc l.

Lemma bits_value_acc l acc :
  bits_value acc l = acc * 2 ^ Z.of_nat (length l) + bits_value 0 l.
Proof.
  unfold bits_value. revert acc. induction l as [|b l IH]; intros acc; cbn [foldl length]; [cbn; lia|].
  rewrite (IH (2 * acc + Z.b2z b)), (IH (2 * 0 + Z.b2z b)), Nat2Z.inj_succ, Z.pow_succ_r by lia. nia.
Qed.

Lemma pos_bits_value p acc :
  bits_value 0 (pos_bits p acc) = Zpos p * 2 ^ Z.of_nat (length acc) + bits_value 0 acc.
Proof.
  revert acc. induction p as [p IH|p IH|]; intros acc; cbn [pos_bits].
  - rewrite IH. cbn [length]. rewrite Nat2Z.inj_succ, Z.pow_succ_r by lia.
    change (bits_value 0 (true :: acc)) with (bits_value 1 acc). rewrite (bits_value_acc acc 1). nia.
  - rewrite IH. cbn [length]. rewrite Nat2Z.inj_succ, Z.pow_succ_r by lia.
    change (bits_value 0 (false :: acc)) with (bits_value 0 acc). nia.
  - change (bits_value 0 (true :: acc)) with (bits_value 1 acc). rewrite (bits_value_acc acc 1). nia.
Qed.

Lemma bin_digits_value n : 0 <= n -> bits_value 0 (bin_digits n) = n.
Proof.
  destruct n as [|p|p]; [done| |lia]. intros _. cbn [bin_digits]. rewrite pos_bits_value. cbn. lia.
Qed.

Lemma bits_value_bound l : 0 <= bits_value 0 l < 2 ^ Z.of_nat (length l).
Proof.
  induction l as [|b l IH]; [cbn; lia|].
  change (bits_value 0 (b :: l)) with (bits_value (Z.b2z b) l). rewrite bits_value_acc.
  cbn [length]. rewrite Nat2Z.inj_succ, Z.pow_succ_r by lia. destruct b; cbn [Z.b2z]; nia.
Qed.

Lemma bits_value_zeros k l : bits_value 0 (replicate k false ++ l) = bits_value 0 l.
Proof. induction k as [|k IH]; [done|]. exact IH. Qed.

(** Leading zeros bound the value, and the value determines them. *)
Lemma starts_with_zeros_spec d l :
  starts_with_zeros d l = true <->
  (d <= length l)%nat /\ bits_value 0 l < 2 ^ (Z.of_nat (length l) - Z.of_nat d).
Proof.
  unfold starts_with_zeros. rewrite bool_decide_eq_true. revert l. induction d as [|d IH]; intros l.
  { cbn. rewrite Z.sub_0_r. pose proof (bits_value_bound l). split; [intros _; split; lia|done]. }
  destruct l as [|b l]; [cbn; split; [done|lia]|]. cbn [take replicate length].
  change (bits_value 0 (b :: l)) with (bits_value (Z.b2z b) l).
  replace (Z.of_nat (S (length l)) - Z.of_nat (S d)) with (Z.of_nat (length l) - Z.of_nat d) by lia.
  destruct b; cbn [Z.b2z].
  - split; [done|]. intros [Hd Hv]. rewrite bits_value_acc in Hv.
    assert (2 ^ (Z.of_nat (length l) - Z.of_nat d) <= 2 ^ Z.of_nat (length l))
      by (apply Z.pow_le_mono_r; lia).
    pose proof (bits_value_bound l). lia.
  - specialize (IH l). split.
    + intros [= E]. destruct (proj1 IH E). split; [lia|done].
    + intros [Hd Hv]. f_equal. apply IH. split; [lia|done].
Qed.

Lemma pos_bits_length p acc : (length (pos_bits p acc) = Pos.size_nat p + length acc)%nat.
Proof.
  revert acc. induction p as [p IH|p IH|]; intros acc; cbn; rewrite ?IH; cbn; lia.
Qed.

Lemma bin_digits_length n w : (0 < w)%nat -> 0 <= n < 2 ^ Z.of_nat w -> (length (bin_digits n) <= w)%nat.
Proof.
  intros Hw Hn. destruct n as [|p|p]; cbn [bin_digits length]; [lia| |lia].
  rewrite pos_bits_length. cbn [length]. rewrite Nat.add_0_r.
  destruct (Nat.le_gt_cases (Pos.size_nat p) w) as [|Hgt]; [done|].
  assert (2 ^ Z.of_nat w <= Zpos p); [|lia].
  transitivity (2 ^ (Z.of_nat (Pos.size_nat p) - 1)); [apply Z.pow_le_mono_r; lia|].
  clear. induction p as [p IH|p IH|]; cbn [Pos.size_nat]; [| |cbn; lia];
    rewrite Nat2Z.inj_succ; replace (Z.succ (Z.of_nat (Pos.size_nat p)) - 1)
      with (Z.succ (Z.of_nat (Pos.size_nat p) - 1)) by lia;
    (rewrite Z.pow_succ_r; [lia|destruct p; cbn [Pos.size_nat]; lia]).
Qed.

Lemma zfill_spec w n :
  (0 < w)%nat -> 0 <= n < 2 ^ Z.of_nat w ->
  length (zfill w (bin_digits n)) = w /\ bits_value 0 (zfill w (bin_digits n)) = n.
Proof.
  intros Hw Hn. pose proof (bin_digits_length n w Hw Hn). unfold zfill. split.
  - rewrite length_app, length_replicate. lia.
  - rewrite bits_value_zeros. apply bin_digits_value. lia.
Qed.
