(* ===== verification/Crypto.v ===== *)
(** * Cryptography wrappers

    Models [src/app/crypto/utils.py], [sha512.py], [aes.py], [dilithium.py] and
    [kyber.py].  The primitives are third-party code: the OpenSSL command line
    ([OpenSSL]) and the AEAD of the cryptography package ([AesGcmSiv]) are
    parameters; what the code relies on of the AEAD is [AesGcmSivLaws].  A byte
    string is a [string]. *)

From S2P Require Import Prelude PyJson Sha512 PyInt.
From Stdlib Require Import Ascii.

(** ** [utils.py] *)

Definition InvalidHexError (msg : string) : exn := OtherError ("InvalidHexError: " +:+ msg).

Definition bytes_to_hex (data : string) : string := CommonJson.bytes_hex data.

(** The byte of two hexadecimal digits. *)
Definition hex_pair (a b : ascii) : option ascii :=
  match hex_value a, hex_value b with
  | Some x, Some y => Some (ascii_of_N (x * 16 + y))
  | _, _ => None
  end.

(** The white space [bytes.fromhex] skips between bytes. *)
Definition fromhex_space (a : ascii) : bool :=
  let n := N_of_ascii a in ((9 <=? n) && (n <=? 13) || (n =? 32))%N.

(** [bytes.fromhex] *)
Fixpoint fromhex (s : string) : option string :=
  match s with
  | EmptyString => Some EmptyString
  | String a s' =>
      if fromhex_space a then fromhex s'
      else match s' with
           | EmptyString => None
           | String b s'' =>
               match hex_pair a b, fromhex s'' with
               | Some c, Some r => Some (String c r)
               | _, _ => None
               end
           end
  end.

Definition hex_to_bytes (value : string) : res string :=
  match fromhex value with
  | Some b => Ok b
  | None => Raise (InvalidHexError "Valor HEX invalido.")
  end.

Definition strip_str (s : string) : string :=
  String.string_of_list_ascii (strip (String.list_ascii_of_string s)).

(** [binascii.unhexlify] accepts an even number of hexadecimal digits only. *)
Fixpoint unhexlify_ok (s : string) : bool :=
  match s with
  | EmptyString => true
  | String a (String b s') =>
      match hex_pair a b with Some _ => unhexlify_ok s' | None => false end
  | String _ EmptyString => false
  end.

Definition validate_hex_length (value : string) (expected_bytes : nat) (field_name : string)
    : res unit :=
  let normalized := strip_str value in
  if negb (String.length normalized =? expected_bytes * 2)%nat
  then Raise (InvalidHexError (field_name +:+ " deve possuir caracteres HEX."))
  else if negb (unhexlify_ok normalized)
  then Raise (InvalidHexError (field_name +:+ " contem caracteres HEX invalidos."))
  else Ok tt.

(** ** [sha512.py] *)

Definition sha512_hex (data : string) : string := sha512_hexdigest data.

Definition sha512_from_hex (data_hex : string) : res string :=
  let! b := hex_to_bytes data_hex in Ok (sha512_hexdigest b).

(** ** [dilithium.py] and [kyber.py] over the OpenSSL command line

    A command that exits with an error raises [OpenSSLExecutionError]. *)

Class OpenSSL := {
  openssl_sign : string -> string -> res string;
  openssl_verify : string -> string -> string -> res unit;
  openssl_encap : string -> res (string * string);
  openssl_decap : string -> string -> res string;
}.

Section openssl.
Context `{OpenSSL}.

Definition dilithium_sign_hex (message_hex private_key_pem : string) : res string :=
  let! message := hex_to_bytes message_hex in
  let! signature := openssl_sign message private_key_pem in
  Ok (bytes_to_hex signature).

Definition dilithium_verify_hex (message_hex signature_hex public_key_pem : string) : res bool :=
  let! message := hex_to_bytes message_hex in
  let! signature := hex_to_bytes signature_hex in
  let! _ := openssl_verify message signature public_key_pem in
  Ok true.

Record KyberEncapsulationResult := MkEncapsulation {
  ciphertext_hex : string;
  shared_secret_hex : string;
}.

Definition kyber_encapsulate_hex (public_key_pem : string) : res KyberEncapsulationResult :=
  let! (ciphertext, secret) := openssl_encap public_key_pem in
  Ok (MkEncapsulation (bytes_to_hex ciphertext) (bytes_to_hex secret)).

Definition kyber_decapsulate_hex (ciphertext_hex private_key_pem : string) : res string :=
  let! ciphertext := hex_to_bytes ciphertext_hex in
  let! secret := openssl_decap ciphertext private_key_pem in
  Ok (bytes_to_hex secret).
End openssl.

(** ** [aes.py] *)

Definition AES_KEY_SIZE : nat := 32.
Definition AES_GCM_SIV_NONCE_SIZE : nat := 12.
Definition AES_GCM_SIV_TAG_SIZE : nat := 16.

Class AesGcmSiv := {
  aead_encrypt : string -> string -> string -> option string -> string;
  aead_decrypt : string -> string -> string -> option string -> res string;
}.

(** Documented behaviour of the AEAD: decryption inverts encryption under the same
    key, nonce and associated data, and a ciphertext carries a 16-byte tag. *)
Class AesGcmSivLaws `{AesGcmSiv} := {
  aead_inverse : forall key nonce data aad,
    aead_decrypt key nonce (aead_encrypt key nonce data aad) aad = Ok data;
  aead_tag : forall key nonce data aad,
    (AES_GCM_SIV_TAG_SIZE <= String.length (aead_encrypt key nonce data aad))%nat;
}.

Record AESCipherHexResult := MkCipherResult {
  cr_iv_hex : string;
  cr_ciphertext_hex : string;
  cr_payload_hex : string;
}.

(** The module-level set of (key, nonce) pairs already used. *)
Abbreviation nonce_set := (gset (string * string)).

Definition _was_nonce_used (used : nonce_set) (key_hex nonce_hex : string) : bool :=
  bool_decide ((key_hex, nonce_hex) ∈ used).

Definition _remember_nonce_use (used : nonce_set) (key_hex nonce_hex : string)
    : res unit * nonce_set :=
  if bool_decide ((key_hex, nonce_hex) ∈ used)
  then (Raise (ValueError "nonce AES-GCM-SIV reutilizado com a mesma chave."), used)
  else (Ok tt, {[ (key_hex, nonce_hex) ]} ∪ used).

(** [for _ in range(256)]: the nonces [os.urandom] draws are the list given. *)
Fixpoint first_unused (used : nonce_set) (key_hex : string) (drawn : list string) : res string :=
  match drawn with
  | [] => Raise (RuntimeError "could not generate a unique AES-GCM-SIV nonce for this key.")
  | nonce_hex :: drawn' =>
      if negb (_was_nonce_used used key_hex nonce_hex) then Ok nonce_hex
      else first_unused used key_hex drawn'
  end.

Definition _generate_unused_nonce_hex (used : nonce_set) (key_hex : string)
    (drawn : list string) : res string :=
  first_unused used key_hex (take 256 drawn).

Section aes.
Context `{AesGcmSiv}.

Definition encrypt_bytes (used : nonce_set) (drawn : list string) (data key_hex : string)
    (iv_hex aad : option string) : res AESCipherHexResult * nonce_set :=
  match validate_hex_length key_hex AES_KEY_SIZE "key_hex" with
  | Raise e => (Raise e, used)
  | Ok _ =>
      match (if opt_truthy iv_hex then Ok (default "" iv_hex)
             else _generate_unused_nonce_hex used key_hex drawn) with
      | Raise e => (Raise e, used)
      | Ok nonce_hex =>
          match validate_hex_length nonce_hex AES_GCM_SIV_NONCE_SIZE "nonce_hex" with
          | Raise e => (Raise e, used)
          | Ok _ =>
              match _remember_nonce_use used key_hex nonce_hex with
              | (Raise e, used') => (Raise e, used')
              | (Ok _, used') =>
                  (let! key := hex_to_bytes key_hex in
                   let! nonce := hex_to_bytes nonce_hex in
                   let ciphertext_hex := bytes_to_hex (aead_encrypt key nonce data aad) in
                   Ok (MkCipherResult nonce_hex ciphertext_hex (nonce_hex +:+ ciphertext_hex)),
                   used')
              end
          end
      end
  end.

Definition decrypt_bytes (payload_hex key_hex : string) (aad : option string) : res string :=
  let! _ := validate_hex_length key_hex AES_KEY_SIZE "key_hex" in
  let nonce_hex_length := (AES_GCM_SIV_NONCE_SIZE * 2)%nat in
  let minimum_payload_hex_length := ((AES_GCM_SIV_NONCE_SIZE + AES_GCM_SIV_TAG_SIZE) * 2)%nat in
  require! negb (String.length payload_hex <? minimum_payload_hex_length)%nat
  else ValueError "payload_hex deve conter nonce + ciphertext autenticado em HEX." in
  let nonce_hex := String.substring 0 nonce_hex_length payload_hex in
  let ciphertext_hex :=
    String.substring nonce_hex_length (String.length payload_hex - nonce_hex_length) payload_hex in
  let! _ := validate_hex_length nonce_hex AES_GCM_SIV_NONCE_SIZE "nonce_hex" in
  require! str_truthy ciphertext_hex
  else ValueError "payload_hex does not contain ciphertext." in
  let! key := hex_to_bytes key_hex in
  let! nonce := hex_to_bytes nonce_hex in
  let! ciphertext := hex_to_bytes ciphertext_hex in
  aead_decrypt key nonce ciphertext aad.

(** [aes_encrypt_hex] and [aes_decrypt_hex] of the package. *)
Definition aes_encrypt_hex (used : nonce_set) (drawn : list string) (plaintext_hex key_hex : string)
    (aad : option string) : res AESCipherHexResult * nonce_set :=
  match hex_to_bytes plaintext_hex with
  | Raise e => (Raise e, used)
  | Ok data => encrypt_bytes used drawn data key_hex None aad
  end.

Definition aes_decrypt_hex (payload_hex key_hex : string) (aad : option string) : res string :=
  let! data := decrypt_bytes payload_hex key_hex aad in Ok (bytes_to_hex data).
End aes.

(** ** Hexadecimal round trip *)

Lemma hex_digit_not_space n : (n < 16)%N -> fromhex_space (hex_digit n) = false.
Proof.
  intros Hn. unfold fromhex_space, hex_digit.
  rewrite N_ascii_embedding by (destruct (N.ltb_spec n 10); lia). cbv zeta.
  destruct (N.ltb_spec n 10); apply orb_false_iff; rewrite andb_false_iff, !N.leb_gt, N.eqb_neq; lia.
Qed.

Lemma byte_nibbles a :
  (N.shiftr (N_of_ascii a) 4 < 16)%N /\ (N_of_ascii a mod 16 < 16)%N /\
  ascii_of_N (N.shiftr (N_of_ascii a) 4 * 16 + N_of_ascii a mod 16) = a.
Proof.
  pose proof (N_ascii_bounded a) as Hb. rewrite N.shiftr_div_pow2. change (2 ^ 4)%N with 16%N.
  split; [apply N.Div0.div_lt_upper_bound; lia|]. split; [apply N.mod_lt; lia|].
  rewrite N.mul_comm, <- N.div_mod by lia. apply ascii_N_embedding.
Qed.

Lemma fromhex_bytes_hex b : fromhex (CommonJson.bytes_hex b) = Some b.
Proof.
  induction b as [|a b IH]; [done|]. destruct (byte_nibbles a) as (H1 & H2 & H3).
  change (CommonJson.bytes_hex (String a b)) with
    (String (hex_digit (N.shiftr (N_of_ascii a) 4))
       (String (hex_digit (N_of_ascii a mod 16)) (CommonJson.bytes_hex b))).
  cbn [fromhex]. rewrite hex_digit_not_space by done. unfold hex_pair.
  by rewrite !hex_value_digit, IH, H3 by done.
Qed.

Lemma hex_bytes_roundtrip b : hex_to_bytes (bytes_to_hex b) = Ok b.
Proof. unfold hex_to_bytes, bytes_to_hex. by rewrite fromhex_bytes_hex. Qed.

Lemma bytes_hex_length b : String.length (CommonJson.bytes_hex b) = (2 * String.length b)%nat.
Proof.
  induction b as [|a b IH]; [done|]. cbn [CommonJson.bytes_hex].
  rewrite string_length_app, IH. cbn [CommonJson.byte_hex String.length]. lia.
Qed.

Lemma substring_app s t : String.substring 0 (String.length s) (s +:+ t) = s.
Proof.
  induction s as [|a s IH]; [by destruct t|].
  change (String a s +:+ t) with (String a (s +:+ t)). cbn. f_equal. exact IH.
Qed.

Lemma substring_all t : String.substring 0 (String.length t) t = t.
Proof. induction t as [|a t IH]; [done|]. cbn. f_equal. exact IH. Qed.

Lemma substring_app_r s t :
  String.substring (String.length s) (String.length (s +:+ t) - String.length s) (s +:+ t) = t.
Proof.
  rewrite string_length_app. replace (_ + _ - _)%nat with (String.length t) by lia.
  induction s as [|a s IH]; [apply substring_all|exact IH].
Qed.

(** ** Encryption *)

Lemma remember_nonce_fresh used key nonce u used' :
  _remember_nonce_use used key nonce = (Ok u, used') ->
  (key, nonce) ∉ used /\ used' = {[ (key, nonce) ]} ∪ used.
Proof. unfold _remember_nonce_use. case_bool_decide; [done|]. by intros [= _ <-]. Qed.

Lemma encrypt_success `{AesGcmSiv} used drawn data key iv aad r used' :
  encrypt_bytes used drawn data key iv aad = (Ok r, used') ->
  (key, cr_iv_hex r) ∉ used /\ used' = {[ (key, cr_iv_hex r) ]} ∪ used /\
  validate_hex_length key AES_KEY_SIZE "key_hex" = Ok tt /\
  validate_hex_length (cr_iv_hex r) AES_GCM_SIV_NONCE_SIZE "nonce_hex" = Ok tt /\
  exists k n, hex_to_bytes key = Ok k /\ hex_to_bytes (cr_iv_hex r) = Ok n /\
    cr_payload_hex r = cr_iv_hex r +:+ bytes_to_hex (aead_encrypt k n data aad).
Proof.
  unfold encrypt_bytes. destruct (validate_hex_length key _ _) as [[]|] eqn:Ek; [|done].
  destruct (if opt_truthy iv then _ else _) as [nonce|]; [|done].
  destruct (validate_hex_length nonce _ _) as [[]|] eqn:En; [|done].
  destruct (_remember_nonce_use used key nonce) as [[u|] used1] eqn:Er; [|done].
  intros [= Hr <-]. apply remember_nonce_fresh in Er as [Hfresh ->].
  destruct (hex_to_bytes key) as [k|] eqn:Hk; cbn [mbind res_bind] in Hr; [|done].
  destruct (hex_to_bytes nonce) as [n|] eqn:Hn; cbn [mbind res_bind] in Hr; [|done].
  apply Ok_inj in Hr as <-. cbn. split_and!; try done. eauto.
Qed.

Lemma decrypt_encrypted `{AesGcmSivLaws} (used used' : nonce_set) (drawn : list string)
    (data key : string) (iv aad : option string) (r : AESCipherHexResult) :
  encrypt_bytes used drawn data key iv aad = (Ok r, used') ->
  String.length (cr_iv_hex r) = 24%nat ->
  decrypt_bytes (cr_payload_hex r) key aad = Ok data.
Proof.
  intros Henc Hlen. apply encrypt_success in Henc as (_ & _ & Hkey & Hnonce & k & n & Hk & Hn & Hp).
  rewrite Hp. unfold decrypt_bytes. rewrite Hkey. cbn [mbind res_bind]. cbv zeta.
  change (AES_GCM_SIV_NONCE_SIZE * 2)%nat with 24%nat. rewrite <- Hlen.
  rewrite substring_app, substring_app_r, string_length_app. unfold bytes_to_hex at 1.
  rewrite bytes_hex_length. pose proof (aead_tag k n data aad) as Htag.
  change AES_GCM_SIV_TAG_SIZE with 16%nat in *. change AES_GCM_SIV_NONCE_SIZE with 12%nat in *.
  destruct (Nat.ltb_spec (String.length (cr_iv_hex r) + 2 * String.length (aead_encrypt k n data aad))
    ((12 + 16) * 2)); [lia|]. cbn [negb].
  rewrite Hnonce. cbn [mbind res_bind].
  assert (str_truthy (bytes_to_hex (aead_encrypt k n data aad)) = true) as ->.
  { apply str_truthy_spec. intros E. apply (f_equal String.length) in E. unfold bytes_to_hex in E.
    rewrite bytes_hex_length in E. cbn in E. lia. }
  rewrite Hk, Hn, hex_bytes_roundtrip. cbn [mbind res_bind]. apply aead_inverse.
Qed.

(** A generated nonce is one of those drawn. *)
Lemma first_unused_drawn used key drawn n : first_unused used key drawn = Ok n -> n ∈ drawn.
Proof.
  induction drawn as [|d drawn IH]; cbn; [done|]. case_match; [intros [= ->]; by left|].
  intros Hn%IH. by right.
Qed.

Lemma encrypt_drawn `{AesGcmSiv} used drawn data key aad r used' :
  encrypt_bytes used drawn data key None aad = (Ok r, used') -> cr_iv_hex r ∈ drawn.
Proof.
  unfold encrypt_bytes. destruct (validate_hex_length key _ _); [|done]. cbn [opt_truthy].
  destruct (_generate_unused_nonce_hex used key drawn) as [n|] eqn:Eg; [|done].
  destruct (validate_hex_length n _ _); [|done].
  destruct (_remember_nonce_use used key n) as [[]?]; [|done]. intros [= Hr _].
  destruct_res. apply first_unused_drawn in Eg. cbn. rewrite <- (take_drop 256 drawn).
  apply elem_of_app. by left.
Qed.

(** *** Values produced by [bytes.hex()] *)

Lemma bytes_hex_lower b :
  forallb is_hex_lower (String.list_ascii_of_string (bytes_to_hex b)) = true.
Proof.
  induction b as [|a b IH]; [done|]. destruct (byte_nibbles a) as (H1 & H2 & _).
  change (bytes_to_hex (String a b)) with
    (String (hex_digit (N.shiftr (N_of_ascii a) 4))
       (String (hex_digit (N_of_ascii a mod 16)) (bytes_to_hex b))).
  cbn [String.list_ascii_of_string forallb]. by rewrite !hex_digit_lower, IH.
Qed.

Lemma bytes_hex_unhexlify b : unhexlify_ok (bytes_to_hex b) = true.
Proof.
  induction b as [|a b IH]; [done|]. destruct (byte_nibbles a) as (H1 & H2 & _).
  change (bytes_to_hex (String a b)) with
    (String (hex_digit (N.shiftr (N_of_ascii a) 4))
       (String (hex_digit (N_of_ascii a mod 16)) (bytes_to_hex b))).
  cbn [unhexlify_ok]. unfold hex_pair. by rewrite !hex_value_digit, IH.
Qed.

(** [value] is the hexadecimal text of [n] bytes. *)
Definition hex_of (n : nat) (value : string) : Prop :=
  exists b, String.length b = n /\ value = bytes_to_hex b.

Lemma hex_of_valid n value field :
  hex_of n value -> validate_hex_length value n field = Ok tt.
Proof.
  intros (b & <- & ->). unfold validate_hex_length, strip_str. cbv zeta.
  rewrite strip_lower by apply bytes_hex_lower. rewrite String.string_of_list_ascii_of_string.
  unfold bytes_to_hex at 1. rewrite bytes_hex_length, (Nat.mul_comm 2), Nat.eqb_refl.
  by rewrite bytes_hex_unhexlify.
Qed.

Lemma hex_of_bytes n value : hex_of n value -> exists b, hex_to_bytes value = Ok b.
Proof. intros (b & _ & ->). exists b. apply hex_bytes_roundtrip. Qed.

(** What [os.urandom(12).hex()] draws. *)
Definition nonces_drawn (drawn : list string) : Prop :=
  Forall (hex_of AES_GCM_SIV_NONCE_SIZE) drawn.

(** Some nonce of the first 256 was not used with the key. *)
Definition nonce_left (used : nonce_set) (key : string) (drawn : list string) : Prop :=
  exists n, n ∈ take 256 drawn /\ (key, n) ∉ used.

Lemma first_unused_total used key drawn :
  (exists n, n ∈ drawn /\ (key, n) ∉ used) ->
  exists n, first_unused used key drawn = Ok n /\ n ∈ drawn /\ (key, n) ∉ used.
Proof.
  induction drawn as [|d drawn IH]; intros (n & Hn & Hu); [by apply elem_of_nil in Hn|].
  cbn. unfold _was_nonce_used. case_bool_decide as Hd; cbn.
  - destruct IH as (m & -> & Hm & Hmu).
    + apply elem_of_cons in Hn as [->|Hn]; [done|]. eauto.
    + exists m. split; [done|]. split; [by right|done].
  - exists d. split; [done|]. split; [by left|done].
Qed.

(** Encryption succeeds under a 32-byte key while a nonce is left. *)
Lemma encrypt_total `{AesGcmSiv} used drawn data key aad :
  hex_of AES_KEY_SIZE key -> nonces_drawn drawn -> nonce_left used key drawn ->
  exists r used', encrypt_bytes used drawn data key None aad = (Ok r, used').
Proof.
  intros Hkey Hd Hleft. unfold encrypt_bytes. rewrite (hex_of_valid _ _ _ Hkey). cbn [opt_truthy].
  destruct (first_unused_total used key (take 256 drawn) Hleft) as (n & Hn & Hin & Hu).
  unfold _generate_unused_nonce_hex. rewrite Hn. unfold nonces_drawn in Hd. rewrite Forall_forall in Hd.
  assert (hex_of AES_GCM_SIV_NONCE_SIZE n) as Hhex.
  { apply Hd. rewrite <- (take_drop 256 drawn). apply elem_of_app. by left. }
  rewrite (hex_of_valid _ _ _ Hhex). unfold _remember_nonce_use.
  rewrite bool_decide_eq_false_2 by done.
  destruct (hex_of_bytes _ _ Hkey) as [k ->]. destruct (hex_of_bytes _ _ Hhex) as [m ->].
  cbn [mbind res_bind]. cbv zeta. by eexists _, _.
Qed.

Lemma aes_hex_roundtrip `{AesGcmSivLaws} used drawn data key aad r used' :
  nonces_drawn drawn ->
  aes_encrypt_hex used drawn (bytes_to_hex data) key aad = (Ok r, used') ->
  aes_decrypt_hex (cr_payload_hex r) key aad = Ok (bytes_to_hex data).
Proof.
  intros Hd. unfold aes_encrypt_hex, aes_decrypt_hex. rewrite hex_bytes_roundtrip. intros Henc.
  erewrite decrypt_encrypted; [done|exact Henc|]. apply encrypt_drawn in Henc.
  unfold nonces_drawn in Hd. rewrite Forall_forall in Hd. destruct (Hd _ Henc) as (b & Hb & ->).
  unfold bytes_to_hex. by rewrite bytes_hex_length, Hb.
Qed.

Lemma bytes_hex_app b c : bytes_to_hex (b +:+ c) = bytes_to_hex b +:+ bytes_to_hex c.
Proof.
  induction b as [|a b IH]; [done|]. unfold bytes_to_hex in *. rewrite string_app_cons.
  cbn [CommonJson.bytes_hex]. by rewrite IH, string_app_assoc.
Qed.

(** Encryption succeeds, its result is hexadecimal text and is decrypted under the
    same key and associated data. *)
Lemma aes_hex_protects `{AesGcmSivLaws} used drawn data key aad :
  hex_of AES_KEY_SIZE key -> nonces_drawn drawn -> nonce_left used key drawn ->
  exists r used', aes_encrypt_hex used drawn (bytes_to_hex data) key aad = (Ok r, used') /\
    (exists b, b <> "" /\ cr_payload_hex r = bytes_to_hex b) /\
    aes_decrypt_hex (cr_payload_hex r) key aad = Ok (bytes_to_hex data).
Proof.
  intros Hkey Hd Hleft.
  destruct (encrypt_total used drawn data key aad Hkey Hd Hleft) as (r & used' & He).
  exists r, used'. assert (aes_encrypt_hex used drawn (bytes_to_hex data) key aad = (Ok r, used'))
    as Hx by (unfold aes_encrypt_hex; by rewrite hex_bytes_roundtrip).
  split; [done|]. split; [|by eapply aes_hex_roundtrip].
  pose proof (encrypt_drawn _ _ _ _ _ _ _ He) as Hin. unfold nonces_drawn in Hd.
  rewrite Forall_forall in Hd. destruct (Hd _ Hin) as (b & Hb & Hiv).
  apply encrypt_success in He as (_ & _ & _ & _ & k & n & _ & _ & Hp).
  exists (b +:+ aead_encrypt k n data aad). split.
  - intros E%(f_equal String.length). rewrite string_length_app, Hb in E. cbn in E. lia.
  - by rewrite Hp, Hiv, bytes_hex_app.
Qed.

(** Authenticated encryption.  What [encrypt_bytes] returns is decrypted by
    [decrypt_bytes] under the same key and associated data to the same data,
    provided the nonce was given without surrounding white space. *)
Theorem aes_roundtrip `{AesGcmSivLaws} (used used' : nonce_set) (drawn : list string)
    (data key : string) (iv aad : option string) (r : AESCipherHexResult) :
  encrypt_bytes used drawn data key iv aad = (Ok r, used') ->
  String.length (cr_iv_hex r) = 24%nat ->
  decrypt_bytes (cr_payload_hex r) key aad = Ok data.
Proof. apply decrypt_encrypted. Qed.

(** A toy AEAD: the ciphertext is the data behind a constant tag. *)
#[local] Instance demo_aead : AesGcmSiv := {|
  aead_encrypt := fun _ _ data _ => "0123456789abcdef" +:+ data;
  aead_decrypt := fun _ _ c _ => Ok (String.substring 16 (String.length c - 16) c);
|}.

#[local] Instance demo_aead_laws : AesGcmSivLaws.
Proof.
  split; intros.
  - cbn. f_equal. apply (substring_app_r "0123456789abcdef" data).
  - cbn. unfold AES_GCM_SIV_TAG_SIZE. rewrite string_length_app. cbn. lia.
Qed.

Definition demo_key : string := "00112233445566778899aabbccddeeff00112233445566778899aabbccddeeff".

Definition demo_encryption := encrypt_bytes ∅ ["000102030405060708090a0b"] "hi" demo_key None None.

Definition demo_cipher : AESCipherHexResult :=
  MkCipherResult "000102030405060708090a0b" "303132333435363738396162636465666869"
    "000102030405060708090a0b303132333435363738396162636465666869".

Lemma demo_encryption_eq :
  encrypt_bytes ∅ ["000102030405060708090a0b"] "hi" demo_key None None = (Ok demo_cipher, demo_encryption.2).
Proof.
  rewrite (surjective_pairing (encrypt_bytes _ _ _ _ _ _)). f_equal.
Qed.

Lemma aes_roundtrip_witness : decrypt_bytes (cr_payload_hex demo_cipher) demo_key None = Ok "hi".
Proof.
  apply (aes_roundtrip ∅ demo_encryption.2 ["000102030405060708090a0b"] "hi" demo_key None None demo_cipher);
    [apply demo_encryption_eq|reflexivity].
Defined.

(** One call of [encrypt_bytes] that succeeded, with the pair it used. *)
Inductive encryption_run `{AesGcmSiv} : nonce_set -> list (string * string) -> nonce_set -> Prop :=
| run_nil used : encryption_run used [] used
| run_ok used drawn data key iv aad r used1 pairs used2 :
    encrypt_bytes used drawn data key iv aad = (Ok r, used1) ->
    encryption_run used1 pairs used2 ->
    encryption_run used ((key, cr_iv_hex r) :: pairs) used2
| run_fail used drawn data key iv aad e used1 pairs used2 :
    encrypt_bytes used drawn data key iv aad = (Raise e, used1) ->
    encryption_run used1 pairs used2 ->
    encryption_run used pairs used2.

Lemma encrypt_monotone `{AesGcmSiv} used drawn data key iv aad r used1 :
  encrypt_bytes used drawn data key iv aad = (r, used1) -> used ⊆ used1.
Proof.
  unfold encrypt_bytes, _remember_nonce_use.
  repeat case_match; intros; simplify_eq; set_solver.
Qed.

(** C37: nonces.  Over any sequence of encryption calls of a process, successful or
    not, the pairs of key and nonce text under which data was encrypted are pairwise
    distinct and all recorded. *)
Theorem aes_nonce_never_reused `{AesGcmSiv} (used used' : nonce_set) (pairs : list (string * string)) :
  encryption_run used pairs used' ->
  NoDup pairs /\ (forall p, p ∈ pairs -> p ∉ used /\ p ∈ used').
Proof.
  intros Hrun. cut ((NoDup pairs /\ (forall p, p ∈ pairs -> p ∉ used /\ p ∈ used')) /\ used ⊆ used');
    [tauto|].
  induction Hrun as [used|used drawn data key iv aad r used1 pairs used2 He _ [[Hnd Hall] Hsub]
    |used drawn data key iv aad e used1 pairs used2 He _ [[Hnd Hall] Hsub]].
  - split; [|done]. split; [constructor|]. intros p Hp. by apply elem_of_nil in Hp.
  - apply encrypt_success in He as (Hfresh & -> & _). split; [split|].
    + constructor; [|done]. intros Hin. apply Hall in Hin as [Hnot _]. set_solver.
    + intros p [->|Hp]%elem_of_cons; [set_solver|]. apply Hall in Hp as [Hnot Hin]. set_solver.
    + set_solver.
  - apply encrypt_monotone in He. split; [|set_solver]. split; [done|].
    intros p Hp. apply Hall in Hp as [Hnot Hin]. set_solver.
Qed.

Lemma aes_nonce_never_reused_witness :
  encryption_run ∅ [(demo_key, cr_iv_hex demo_cipher)] demo_encryption.2 /\
  NoDup [(demo_key, cr_iv_hex demo_cipher)].
Proof.
  assert (encryption_run ∅ [(demo_key, cr_iv_hex demo_cipher)] demo_encryption.2) as Hrun.
  { eapply run_ok; [apply demo_encryption_eq|apply run_nil]. }
  split; [exact Hrun|]. apply (aes_nonce_never_reused _ _ _ Hrun).
Defined.
