(* ===== verification/JsonText.v ===== *)
(** * The JSON text round trip

    [json.loads(json.dumps(v, separators=(",", ":"), sort_keys=True))] is [v]
    with the keys of its objects in order, for every value whose strings are
    Unicode text.  Used wherever the program stores or sends a value as text:
    route metadata, DHT records, encrypted virtual envelopes. *)

From S2P Require Import Prelude PyJson PyTime Crypto.
From Stdlib Require Import Ascii DecimalString DecimalZ.
From Stdlib Require Decimal DecimalFacts.

(** ** Strings *)

Definition scalar (c : N) : Prop := (c < 55296 \/ 57344 <= c < 1114112)%N.

(** The UTF-8 bytes of a list of code points. *)
Definition utf8_text (cs : list N) : string := foldr (fun c s => utf8_encode c +:+ s) "" cs.

(** A string that is the encoding of Unicode scalar values. *)
Definition unicode (s : string) : Prop := exists cs, Forall scalar cs /\ s = utf8_text cs.

Lemma land7 n : N.land n 7 = (n mod 8)%N.
Proof. exact (N.land_ones n 3). Qed.
Lemma land15 n : N.land n 15 = (n mod 16)%N.
Proof. exact (N.land_ones n 4). Qed.
Lemma land31 n : N.land n 31 = (n mod 32)%N.
Proof. exact (N.land_ones n 5). Qed.
Lemma land63 n : N.land n 63 = (n mod 64)%N.
Proof. exact (N.land_ones n 6). Qed.
Lemma land1023 n : N.land n 1023 = (n mod 1024)%N.
Proof. exact (N.land_ones n 10). Qed.

(** Bit operations as division and remainder. *)
Ltac bits_arith :=
  rewrite ?N.shiftr_div_pow2, ?N.shiftl_mul_pow2, ?land7, ?land15, ?land31, ?land63, ?land1023 in *;
  change (2 ^ 4)%N with 16%N in *; change (2 ^ 6)%N with 64%N in *;
  change (2 ^ 8)%N with 256%N in *;
  change (2 ^ 10)%N with 1024%N in *; change (2 ^ 12)%N with 4096%N in *;
  change (2 ^ 18)%N with 262144%N in *.

(** The escape of a code point in the text of a string. *)
Definition escape_scalar (c : N) : string :=
  if (c <? 128)%N then escape_ascii (ascii_of_N c) else escape_code_point c.

Lemma cont_byte_of v : (v < 64)%N -> cont_byte (ascii_of_N (128 + v)) = v.
Proof.
  intros Hv. unfold cont_byte. rewrite N_ascii_embedding by lia. bits_arith.
  zify; Z.to_euclidean_division_equations; lia.
Qed.

Lemma escape_string_1 a s :
  (N_of_ascii a < 128)%N -> escape_string (String a s) = escape_ascii a +:+ escape_string s.
Proof. intros H. cbn [escape_string]. cbv zeta. by rewrite (proj2 (N.ltb_lt _ _) H). Qed.

Lemma escape_string_2 a b s :
  (128 <= N_of_ascii a < 224)%N ->
  escape_string (String a (String b s)) =
  escape_code_point (N.shiftl (N.land (N_of_ascii a) 31) 6 + cont_byte b) +:+ escape_string s.
Proof.
  intros [H1 H2]. cbn [escape_string]. cbv zeta.
  by rewrite (proj2 (N.ltb_ge _ _) H1), (proj2 (N.ltb_lt _ _) H2).
Qed.

Lemma escape_string_3 a b c s :
  (224 <= N_of_ascii a < 240)%N ->
  escape_string (String a (String b (String c s))) =
  escape_code_point (N.shiftl (N.land (N_of_ascii a) 15) 12 + N.shiftl (cont_byte b) 6 + cont_byte c)
    +:+ escape_string s.
Proof.
  intros [H1 H2]. cbn [escape_string]. cbv zeta.
  rewrite (proj2 (N.ltb_ge _ 128)), (proj2 (N.ltb_ge _ 224)) by lia.
  by rewrite (proj2 (N.ltb_lt _ _) H2).
Qed.

Lemma escape_string_4 a b c d s :
  (240 <= N_of_ascii a)%N ->
  escape_string (String a (String b (String c (String d s)))) =
  escape_code_point (N.shiftl (N.land (N_of_ascii a) 7) 18 + N.shiftl (cont_byte b) 12
                     + N.shiftl (cont_byte c) 6 + cont_byte d) +:+ escape_string s.
Proof.
  intros H1. cbn [escape_string]. cbv zeta.
  by rewrite (proj2 (N.ltb_ge _ 128)), (proj2 (N.ltb_ge _ 224)), (proj2 (N.ltb_ge _ 240)) by lia.
Qed.

Ltac byte_arith :=
  rewrite ?cont_byte_of, ?N_ascii_embedding; bits_arith; zify; Z.to_euclidean_division_equations; lia.

Lemma escape_utf8_encode c s :
  (c < 1114112)%N -> escape_string (utf8_encode c +:+ s) = escape_scalar c +:+ escape_string s.
Proof.
  intros Hc. unfold utf8_encode, escape_scalar.
  destruct (N.ltb_spec c 128) as [H1|H1];
    [|destruct (N.ltb_spec c 2048) as [H2|H2]; [|destruct (N.ltb_spec c 65536) as [H3|H3]]].
  - apply escape_string_1. rewrite N_ascii_embedding; lia.
  - etrans; [apply escape_string_2; byte_arith|]. f_equal. f_equal. byte_arith.
  - etrans; [apply escape_string_3; byte_arith|]. f_equal. f_equal. byte_arith.
  - etrans; [apply escape_string_4; byte_arith|]. f_equal. f_equal. byte_arith.
Qed.

(** Reading an escape back. *)
Lemma read_hex4_hex4 v s : (v < 65536)%N -> read_hex4 (hex4 v +:+ s) = Some (v, s).
Proof.
  intros Hv. unfold hex4. rewrite !string_app_cons. cbn [read_hex4].
  rewrite !hex_value_digit by (apply N.mod_lt; lia). f_equal. f_equal.
  change 12%N with (4 + (4 + 4))%N. change 8%N with (4 + 4)%N.
  rewrite <- !N.shiftr_shiftr, !N.shiftr_div_pow2. change (2 ^ 4)%N with 16%N.
  zify. Z.to_euclidean_division_equations. lia.
Qed.

Definition high_surrogate (c : N) : bool := ((55296 <=? c) && (c <=? 56319))%N.

Lemma read_u_escape_bmp c s :
  (c < 65536)%N -> high_surrogate c = false ->
  read_u_escape (hex4 c +:+ s) = Some (utf8_encode c, s).
Proof.
  intros Hc Hs. unfold read_u_escape. rewrite read_hex4_hex4 by done.
  unfold high_surrogate in Hs. by rewrite Hs.
Qed.

Lemma read_u_escape_pair v s :
  (v < 1048576)%N ->
  read_u_escape (hex4 (55296 + N.shiftr v 10) +:+ u_escape (56320 + N.land v 1023) +:+ s)
  = Some (utf8_encode (65536 + v), s).
Proof.
  intros Hv. unfold read_u_escape. bits_arith.
  rewrite read_hex4_hex4 by (zify; Z.to_euclidean_division_equations; lia).
  assert ((55296 <=? 55296 + v / 1024) && (55296 + v / 1024 <=? 56319) = true)%N as ->.
  { rewrite andb_true_iff, !N.leb_le. zify; Z.to_euclidean_division_equations; lia. }
  unfold u_escape. rewrite string_app_assoc. change ("\u" +:+ ?x) with (String "\" (String "u" x)).
  cbv iota. rewrite read_hex4_hex4 by (zify; Z.to_euclidean_division_equations; lia).
  assert ((56320 <=? 56320 + v mod 1024) && (56320 + v mod 1024 <=? 57343) = true)%N as ->.
  { rewrite andb_true_iff, !N.leb_le. zify; Z.to_euclidean_division_equations; lia. }
  do 3 f_equal.
  rewrite (N.add_comm 55296), (N.add_comm 56320), !N.add_sub.
  rewrite <- land1023. change (v / 1024)%N with (v / 2 ^ 10)%N. rewrite <- N.shiftr_div_pow2.
  replace (N.lor (N.shiftl (N.shiftr v 10) 10) (N.land v 1023)) with v; [done|].
  change 1023%N with (N.ones 10). rewrite <- N.ldiff_ones_r. symmetry. apply N.lor_ldiff_and.
Qed.

Lemma scan_string_u fuel s p r :
  read_u_escape s = Some (p, r) ->
  scan_string (S fuel) ("\u" +:+ s) = (fun q => (p +:+ q.1, q.2)) <$> scan_string fuel r.
Proof. intros Hr. change ("\u" +:+ s) with (String "\" (String "u" s)). cbn -[read_u_escape]. by rewrite Hr. Qed.

Lemma scan_string_escape_ascii fuel a s :
  (N_of_ascii a < 128)%N ->
  scan_string (S fuel) (escape_ascii a +:+ s)
  = (fun q => (String a q.1, q.2)) <$> scan_string fuel s.
Proof.
  destruct a as [[] [] [] [] [] [] [] []]; cbn; intros H; (lia || reflexivity).
Qed.

Lemma scan_string_scalar fuel c s :
  scalar c ->
  scan_string (S fuel) (escape_scalar c +:+ s)
  = (fun q => (utf8_encode c +:+ q.1, q.2)) <$> scan_string fuel s.
Proof.
  intros Hc. unfold escape_scalar. destruct (N.ltb_spec c 128) as [H1|H1].
  - rewrite scan_string_escape_ascii by (rewrite N_ascii_embedding; lia).
    unfold utf8_encode. by rewrite (proj2 (N.ltb_lt _ _) H1).
  - unfold escape_code_point. destruct (N.ltb_spec c 65536) as [H2|H2].
    + unfold u_escape. rewrite string_app_assoc. apply scan_string_u, read_u_escape_bmp; [done|].
      unfold high_surrogate. apply andb_false_iff. rewrite !N.leb_gt.
      unfold scalar in Hc. lia.
    + cbv zeta. rewrite string_app_assoc. unfold u_escape at 1. rewrite string_app_assoc.
      apply scan_string_u. unfold scalar in Hc.
      rewrite read_u_escape_pair by lia. by rewrite N.add_comm, N.sub_add by lia.
Qed.

Lemma scan_string_dump fuel s rest :
  unicode s -> (String.length (escape_string s) < fuel)%nat ->
  scan_string fuel (escape_string s +:+ quote +:+ rest) = Some (s, rest).
Proof.
  intros (cs & Hcs & ->). revert fuel. induction Hcs as [|c cs Hc Hcs IH]; intros fuel Hf.
  - destruct fuel; [simpl in Hf; lia|]. done.
  - change (utf8_text (c :: cs)) with (utf8_encode c +:+ utf8_text cs) in *.
    assert (c < 1114112)%N by (unfold scalar in Hc; lia).
    rewrite escape_utf8_encode, string_length_app in * by done.
    assert (1 <= String.length (escape_scalar c))%nat.
    { unfold escape_scalar, escape_ascii, escape_code_point, u_escape. repeat case_match; rewrite ?string_length_app; cbn; lia. }
    destruct fuel as [|fuel]; [lia|].
    rewrite string_app_assoc, scan_string_scalar, IH by (done || lia). done.
Qed.

(** ** ASCII text *)

(** Plain ASCII text is Unicode text. *)
Fixpoint ascii_text (s : string) : bool :=
  match s with
  | EmptyString => true
  | String a s' => (N_of_ascii a <? 128)%N && ascii_text s'
  end.

Lemma ascii_unicode s : ascii_text s = true -> unicode s.
Proof.
  induction s as [|a s IH]; cbn; [by exists []|].
  intros [Ha Hs]%andb_true_iff. destruct (IH Hs) as (cs & Hcs & ->).
  apply N.ltb_lt in Ha. exists (N_of_ascii a :: cs). split; [constructor; [left; lia|done]|].
  cbn. unfold utf8_encode. rewrite (proj2 (N.ltb_lt _ _) Ha), ascii_N_embedding. done.
Qed.

Lemma ascii_text_app s t : ascii_text (s +:+ t) = ascii_text s && ascii_text t.
Proof.
  induction s as [|a s IH]; [done|]. rewrite string_app_cons. cbn. by rewrite IH, andb_assoc.
Qed.

Lemma ascii_text_decode s : ascii_text s = true -> utf8_decode s = Some s.
Proof.
  intros Hs. unfold utf8_decode. enough (utf8_valid s = true) as -> by done.
  induction s as [|a s IH]; [done|]. cbn in Hs |- *. apply andb_true_iff in Hs as [-> Hs]. auto.
Qed.

Lemma hex_digit_ascii n : (n < 16)%N -> (N_of_ascii (hex_digit n) <? 128)%N = true.
Proof.
  intros Hn. unfold hex_digit. rewrite N_ascii_embedding by (destruct (N.ltb_spec n 10); lia).
  apply N.ltb_lt. destruct (N.ltb_spec n 10); lia.
Qed.

Lemma u_escape_ascii n : ascii_text (u_escape n) = true.
Proof.
  unfold u_escape, hex4. rewrite ascii_text_app. cbn [ascii_text].
  by rewrite !hex_digit_ascii by (apply N.mod_lt; lia).
Qed.

Lemma one_ascii c : (c < 128)%N -> ascii_text (String (ascii_of_N c) "") = true.
Proof.
  intros Hc. cbn [ascii_text]. by rewrite N_ascii_embedding, (proj2 (N.ltb_lt _ _)) by lia.
Qed.

Lemma escape_scalar_ascii c : ascii_text (escape_scalar c) = true.
Proof.
  unfold escape_scalar, escape_ascii, escape_code_point. destruct (N.ltb_spec c 128) as [Hc|Hc].
  - rewrite N_ascii_embedding by lia.
    repeat (case_match; [try done|]); rewrite ?ascii_text_app, ?one_ascii by done;
      auto using u_escape_ascii.
  - case_match; rewrite ?ascii_text_app, ?u_escape_ascii; done.
Qed.

Lemma escape_string_ascii s : unicode s -> ascii_text (escape_string s) = true.
Proof.
  intros (cs & Hcs & ->). induction Hcs as [|c cs Hc _ IH]; [done|].
  change (utf8_text (c :: cs)) with (utf8_encode c +:+ utf8_text cs).
  rewrite escape_utf8_encode by (unfold scalar in Hc; lia).
  by rewrite ascii_text_app, escape_scalar_ascii, IH.
Qed.

Lemma ascii_text_str_of_Z n : ascii_text (str_of_Z n) = true.
Proof.
  assert (Hu : forall d, ascii_text (NilEmpty.string_of_uint d) = true) by (induction d; done).
  assert (Hz : forall d, ascii_text (NilZero.string_of_uint d) = true).
  { intros d. unfold NilZero.string_of_uint. destruct d; try done; apply Hu. }
  unfold str_of_Z. destruct (Z.to_int n); cbn; apply Hz.
Qed.

(** ** Numbers *)

(** What follows a value in compact JSON text. *)
Definition delimited (s : string) : Prop :=
  match s with
  | EmptyString => True
  | String a _ => a = ","%char \/ a = "]"%char \/ a = "}"%char
  end.

Lemma delimited_facts s :
  delimited s ->
  span_digits s = ("", s) /\ eat "." s = None /\ scan_sign s = ("", s) /\ scan_exp s = ("", s)
  /\ skip_ws s = s.
Proof. destruct s as [|a s]; [done|]. by intros [-> |[-> | ->]]. Qed.

Lemma eat_app c s r t : eat c s = Some r -> eat c (s +:+ t) = Some (r +:+ t).
Proof. destruct s as [|a s]; [done|]. rewrite string_app_cons. cbn. by case_match; intros; simplify_eq. Qed.

Lemma eat_app_None c s t : s <> "" -> eat c s = None -> eat c (s +:+ t) = None.
Proof. destruct s as [|a s]; [done|]. rewrite string_app_cons. cbn. by case_match. Qed.

Lemma span_digits_app s d r t :
  delimited t -> span_digits s = (d, r) -> span_digits (s +:+ t) = (d, r +:+ t).
Proof.
  intros Ht. revert d r. induction s as [|a s IH]; intros d r; [|rewrite string_app_cons]; cbn.
  - intros; simplify_eq. apply (delimited_facts t Ht).
  - destruct (is_digit a); [|by intros; simplify_eq].
    destruct (span_digits s) as [d' r']. intros; simplify_eq. by rewrite (IH _ _ eq_refl).
Qed.

Lemma scan_frac_app s f r t :
  delimited t -> scan_frac s = (f, r) -> scan_frac (s +:+ t) = (f, r +:+ t).
Proof.
  intros Ht. pose proof (delimited_facts t Ht) as (_ & Hdot & _). unfold scan_frac.
  destruct (eat "." s) as [s'|] eqn:E.
  - rewrite (eat_app _ _ _ t E). destruct (span_digits s') as [d r'] eqn:Ed.
    rewrite (span_digits_app _ _ _ t Ht Ed). by destruct d; intros; simplify_eq.
  - intros; simplify_eq. destruct (decide (r = "")) as [-> |Hne].
    + change ("" +:+ t) with t. by rewrite Hdot.
    + by rewrite eat_app_None.
Qed.

Lemma scan_sign_app s g r t :
  delimited t -> scan_sign s = (g, r) -> scan_sign (s +:+ t) = (g, r +:+ t).
Proof.
  intros Ht. pose proof (delimited_facts t Ht) as (_ & _ & Hs & _).
  destruct (decide (s = "")) as [-> |Hne]; [by intros [= <- <-]|]. unfold scan_sign.
  destruct (eat "-" s) as [s'|] eqn:E; [rewrite (eat_app _ _ _ t E); by intros; simplify_eq|].
  rewrite (eat_app_None _ _ t Hne E).
  destruct (eat "+" s) as [s'|] eqn:E'; [rewrite (eat_app _ _ _ t E')|rewrite (eat_app_None _ _ t Hne E')];
    by intros; simplify_eq.
Qed.

Lemma scan_exp_app s e r t :
  delimited t -> scan_exp s = (e, r) -> scan_exp (s +:+ t) = (e, r +:+ t).
Proof.
  intros Ht. pose proof (delimited_facts t Ht) as (_ & _ & _ & Hs & _).
  destruct s as [|a s]; [by intros [= <- <-]|]. rewrite string_app_cons. cbn [scan_exp].
  case_match; [|by intros; simplify_eq].
  destruct (scan_sign s) as [g s1] eqn:Eg. rewrite (scan_sign_app _ _ _ t Ht Eg).
  destruct (span_digits s1) as [d r'] eqn:Ed. rewrite (span_digits_app _ _ _ t Ht Ed).
  by destruct d; intros; simplify_eq.
Qed.

Section loads.
Context `{FloatText}.

Lemma int_part_app r d r1 t :
  delimited t -> int_part r = Some (d, r1) -> int_part (r +:+ t) = Some (d, r1 +:+ t).
Proof.
  intros Ht. unfold int_part. destruct (decide (r = "")) as [-> |Hne]; [done|].
  destruct (eat "0" r) as [r'|] eqn:E.
  - rewrite (eat_app _ _ _ t E). by intros; simplify_eq.
  - rewrite (eat_app_None _ _ t Hne E). destruct (span_digits r) as [d' r'] eqn:Ed.
    rewrite (span_digits_app _ _ _ t Ht Ed). by destruct d'; intros; simplify_eq.
Qed.

Lemma scan_number_app s v t :
  delimited t -> scan_number s = Some (v, "") -> scan_number (s +:+ t) = Some (v, t).
Proof.
  intros Ht. unfold scan_number.
  set (p := match eat "-" s with Some r => (true, r) | None => (false, s) end).
  assert (match eat "-" (s +:+ t) with Some r => (true, r) | None => (false, s +:+ t) end
          = (p.1, p.2 +:+ t) \/ s = "") as [-> | ->]; [|destruct p as [n r]|done].
  { destruct (decide (s = "")); [by right|left]. subst p. destruct (eat "-" s) eqn:E.
    - by rewrite (eat_app _ _ _ t E).
    - by rewrite eat_app_None. }
  cbn [fst snd].
  destruct (int_part r) as [[d r1]|] eqn:Ei; [|done]. rewrite (int_part_app _ _ _ t Ht Ei).
  destruct (scan_frac r1) as [f r2] eqn:Ef. rewrite (scan_frac_app _ _ _ t Ht Ef).
  destruct (scan_exp r2) as [e r3] eqn:Ee. rewrite (scan_exp_app _ _ _ t Ht Ee).
  case_match; [case_match|]; intros; simplify_eq; done.
Qed.

Lemma span_digits_uint d :
  span_digits (NilEmpty.string_of_uint d) = (NilEmpty.string_of_uint d, "").
Proof. induction d as [|d IH|d IH|d IH|d IH|d IH|d IH|d IH|d IH|d IH|d IH]; cbn; try done; by rewrite IH. Qed.

(** A digit string without a leading zero, or [0], is one integer literal. *)
Definition canonical_uint (d : Decimal.uint) : Prop :=
  d = Decimal.D0 Decimal.Nil \/ (d <> Decimal.Nil /\ forall d', d <> Decimal.D0 d').

Lemma int_part_uint d :
  canonical_uint d ->
  int_part (NilZero.string_of_uint d) = Some (NilZero.string_of_uint d, "")
  /\ eat "-" (NilZero.string_of_uint d) = None.
Proof.
  intros [-> |[Hnil H0]]; [done|]. unfold int_part.
  destruct d as [|d|d|d|d|d|d|d|d|d|d]; try done; [by destruct (H0 d)|..];
    cbn; rewrite span_digits_uint; done.
Qed.

Lemma canonical_pos_uint p : canonical_uint (Pos.to_uint p).
Proof.
  right. split; [apply DecimalPos.Unsigned.to_uint_nonnil|]. intros d Hd.
  pose proof (DecimalPos.Unsigned.to_of (Pos.to_uint p)) as Hn.
  rewrite DecimalPos.Unsigned.of_to in Hn. cbn [N.to_uint] in Hn.
  rewrite Hd, DecimalFacts.unorm_D0 in Hn. destruct (decide (Decimal.nb_digits d = 0%nat)) as [Hz|Hz].
  - destruct d; try done. by apply (DecimalPos.Unsigned.to_uint_nonzero p).
  - apply (f_equal Decimal.nb_digits) in Hn. cbn [Decimal.nb_digits] in Hn.
    pose proof (DecimalFacts.nb_digits_unorm d) as Hle. destruct d; [done|..]; specialize (Hle ltac:(done)); lia.
Qed.

Lemma scan_number_int_text b d n :
  canonical_uint d -> NilZero.int_of_string ((if b : bool then "-" else "") +:+ NilZero.string_of_uint d)
    = Some n ->
  scan_number ((if b then "-" else "") +:+ NilZero.string_of_uint d) = Some (JInt (Z.of_int n), "").
Proof.
  intros [Hi Hm]%int_part_uint Hn. unfold scan_number.
  destruct b; [change ("-" +:+ ?x) with (String "-" x) in *; cbn [eat Ascii.eqb Bool.eqb]
              |change ("" +:+ ?x) with x in *; rewrite Hm]; cbv zeta;
    rewrite Hi; cbn [scan_frac eat scan_exp bool_decide decide_rel andb]; 
    (rewrite bool_decide_true by done); cbn [andb].
  - change ("-" +:+ ?x) with (String "-" x). by rewrite Hn.
  - change ("" +:+ ?x) with x. by rewrite Hn.
Qed.

Lemma scan_number_int n : scan_number (str_of_Z n) = Some (JInt n, "").
Proof.
  unfold str_of_Z. pose proof (DecimalZ.of_to n) as Hof.
  assert (NilZero.int_of_string (NilZero.string_of_int (Z.to_int n)) = Some (Z.to_int n)) as Hs.
  { apply NilZero.isi; destruct n; cbn; try done; intros [= Hd]; by apply DecimalPos.Unsigned.to_uint_nonnil in Hd. }
  rewrite <- Hof at 2. destruct n as [|p|p]; cbn [Z.to_int NilZero.string_of_int] in *.
  - done.
  - apply (scan_number_int_text false); [apply canonical_pos_uint|exact Hs].
  - apply (scan_number_int_text true); [apply canonical_pos_uint|exact Hs].
Qed.

(** ** Values *)

(** The text of a float that the decoder reads back as itself. *)
Definition float_text (r : string) : Prop :=
  r = "NaN" \/ r = "Infinity" \/ r = "-Infinity" \/
  (scan_number r = Some (JFloat r, "") /\ ascii_text r = true).

(** The values whose text is read back: Unicode strings, canonical floats,
    objects with one value per key, as a Python [dict] has. *)
Inductive json_wf : json -> Prop :=
| Wf_null : json_wf JNull
| Wf_bool b : json_wf (JBool b)
| Wf_int n : json_wf (JInt n)
| Wf_float r : float_text r -> json_wf (JFloat r)
| Wf_str s : unicode s -> json_wf (JStr s)
| Wf_arr l : Forall json_wf l -> json_wf (JArr l)
| Wf_obj d : od_wf d -> Forall (fun p => unicode p.1 /\ json_wf p.2) d -> json_wf (JObj d).

(** The value with the keys of every object in order. *)
Fixpoint json_norm (j : json) : json :=
  match j with
  | JArr l => JArr (map json_norm l)
  | JObj d => JObj (py_sorted fst (map (fun p => (p.1, json_norm p.2)) d))
  | _ => j
  end.

(** A value's text starts neither with a blank nor with a closing bracket. *)
Definition value_start (a : ascii) : bool :=
  let n := N_of_ascii a in
  (negb ((n =? 32) || (n =? 9) || (n =? 10) || (n =? 13) || (n =? 93)))%N.

Lemma scan_number_start s v r :
  scan_number s = Some (v, r) ->
  exists a s', s = String a s' /\ (a = "-"%char \/ is_digit a = true).
Proof.
  unfold scan_number. destruct s as [|a s]; [done|]. intros H0. exists a, s. split; [done|].
  destruct (ascii_dec a "-") as [-> |Hne]; [by left|right].
  unfold eat in H0. rewrite (proj2 (Ascii.eqb_neq a "-") Hne) in H0.
  destruct (is_digit a) eqn:E; [done|]. exfalso. unfold int_part, eat in H0.
  cbn [span_digits] in H0. rewrite E in H0.
  destruct (Ascii.eqb a "0") eqn:E0; [|done]. apply Ascii.eqb_eq in E0. by subst.
Qed.

Lemma number_start a : a = "-"%char \/ is_digit a = true -> value_start a = true.
Proof. intros [-> |Hd]; [done|]. by destruct a as [[] [] [] [] [] [] [] []]; vm_compute in *. Qed.

Lemma value_start_skip a s : value_start a = true -> skip_ws (String a s) = String a s.
Proof.
  unfold value_start. intros Hv. cbn [skip_ws]. cbv zeta.
  apply negb_true_iff in Hv. rewrite !orb_false_iff in Hv.
  destruct Hv as ((((-> & ->) & ->) & ->) & _). done.
Qed.

Lemma value_start_bracket a s : value_start a = true -> eat "]" (String a s) = None.
Proof.
  intros Hv. cbn. destruct (Ascii.eqb_spec a "]"); [|done]. by subst.
Qed.

Lemma scan_once_number fuel s v t :
  delimited t -> scan_number s = Some (v, "") -> scan_once (S fuel) (s +:+ t) = Some (v, t).
Proof.
  intros Ht Hs. pose proof Hs as (a & s' & -> & Ha)%scan_number_start.
  pose proof (scan_number_app _ _ _ Ht Hs) as Happ.
  rewrite string_app_cons in *. cbn [scan_once]. cbv zeta.
  assert (((N_of_ascii a =? 34) || (N_of_ascii a =? 91) || (N_of_ascii a =? 123))%N = false
          /\ scan_literal (String a (s' +:+ t)) = Some (v, t)) as [Hq ->].
  { unfold scan_literal. rewrite Happ. destruct Ha as [-> |Ha]; [done|].
    destruct a as [[] [] [] [] [] [] [] []]; try (by vm_compute in Ha); done. }
  rewrite !orb_false_iff in Hq. by destruct Hq as [[-> ->] ->].
Qed.

(** *** Printers

    The [json] module prints an object with its keys in order ([sort_keys=True]) or as
    they were inserted; what is said of reading holds of both. *)

(** [json.dumps(value, separators=(",", ":"))]: keys in insertion order. *)
Fixpoint dumps_in_order (j : json) : string :=
  match j with
  | JArr l => "[" +:+ join_comma (map dumps_in_order l) +:+ "]"
  | JObj d => "{" +:+ join_comma (dump_pair <$> map (fun p => (p.1, dumps_in_order p.2)) d) +:+ "}"
  | j => json_dumps j
  end.

(** The text of a value, the value it is read back as, and the order of the members. *)
Record printer := MkPrinter {
  pr_text : json -> string;
  pr_value : json -> json;
  pr_order : jdict -> jdict;
  pr_scalar : forall j, match j with
    | JArr _ | JObj _ => True
    | _ => pr_text j = json_dumps j /\ pr_value j = j
    end;
  pr_arr : forall l, pr_text (JArr l) = "[" +:+ join_comma (map pr_text l) +:+ "]" /\
    pr_value (JArr l) = JArr (map pr_value l);
  pr_obj : forall d, pr_text (JObj d) =
      "{" +:+ join_comma (dump_pair <$> map (fun p => (p.1, pr_text p.2)) (pr_order d)) +:+ "}" /\
    pr_value (JObj d) = JObj (map (fun p => (p.1, pr_value p.2)) (pr_order d));
  pr_order_perm : forall d, pr_order d ≡ₚ d;
}.

Program Definition sorted_printer : printer := MkPrinter json_dumps json_norm (py_sorted fst) _ _ _ _.
Next Obligation. by intros []. Qed.
Next Obligation. done. Qed.
Next Obligation. intros d. cbn [json_dumps json_norm]. by rewrite !(py_sorted_map fst) by done. Qed.
Next Obligation. intros d. apply py_sorted_Permutation. Qed.

Lemma map_pair_id (d : jdict) : map (fun p => (p.1, p.2)) d = d.
Proof. induction d as [|[k v] d IH]; [done|]. cbn. by rewrite IH. Qed.

Program Definition ordered_printer : printer := MkPrinter dumps_in_order id id _ _ _ _.
Next Obligation. by intros []. Qed.
Next Obligation. intros l. unfold id. by rewrite map_id. Qed.
Next Obligation. intros d. unfold id. by rewrite map_pair_id. Qed.
Next Obligation. done. Qed.

Section printed.
Context (P : printer).
Notation text := (pr_text P).
Notation value := (pr_value P).

Lemma printed_start j : json_wf j -> exists a s, text j = String a s /\ value_start a = true.
Proof.
  assert (Hnum : forall s v r, scan_number s = Some (v, r) ->
            exists a s', s = String a s' /\ value_start a = true).
  { intros s v r (a & s' & ? & Ha)%scan_number_start. eauto using number_start. }
  intros Hj. pose proof (pr_scalar P j) as Hs.
  destruct Hj as [|[]| |r Hr| |l|d]; try (rewrite (proj1 Hs); cbn [json_dumps]; try (by eexists _, _)).
  - eapply Hnum, scan_number_int.
  - destruct Hr as [-> |[-> |[-> |[Hr _]]]]; eauto; by eexists _, _.
  - rewrite (proj1 (pr_arr P l)). by eexists _, _.
  - rewrite (proj1 (pr_obj P d)). by eexists _, _.
Qed.

Lemma join_comma_length l :
  Forall (fun s => s <> "") l ->
  (length l <= String.length (join_comma l))%nat
  /\ Forall (fun s => String.length s <= String.length (join_comma l))%nat l.
Proof.
  induction 1 as [|s l Hs Hl [IH1 IH2]]; [done|].
  assert (1 <= String.length s)%nat by (destruct s; [done|cbn; lia]).
  destruct l as [|s' l]; [cbn in *; split; [done|by repeat constructor]|].
  change (join_comma (s :: s' :: l)) with (s +:+ "," +:+ join_comma (s' :: l)).
  rewrite !string_length_app. cbn [String.length length] in *. split; [lia|].
  constructor; [lia|]. eapply Forall_impl; [exact IH2|]. cbn. lia.
Qed.

(** A scanner that reads the values of a list, whatever follows them. *)
Definition reads (scan : string -> option (json * string)) (j : json) : Prop :=
  forall t, delimited t -> scan (text j +:+ t) = Some (value j, t).

Lemma scan_items_dumps scan l n t :
  l <> [] -> Forall json_wf l -> Forall (reads scan) l -> (length l <= n)%nat ->
  scan_items scan n (join_comma (map text l) +:+ String "]" t)
  = Some (map value l, t).
Proof.
  intros Hne Hwf Hl. revert n. induction l as [|j l IH]; [done|]. intros n Hn.
  destruct n as [|n]; cbn [length] in Hn; [lia|].
  apply Forall_cons in Hwf as [Hj Hwf]. apply Forall_cons in Hl as [Hr Hl].
  destruct l as [|j' l].
  - cbn [map join_comma scan_items]. by rewrite Hr by (cbn; auto).
  - change (join_comma (map text (j :: j' :: l)))
      with (text j +:+ "," +:+ join_comma (map text (j' :: l))).
    rewrite !string_app_assoc. cbn [scan_items].
    change ("," +:+ ?x) with (String "," x). rewrite Hr by (cbn; auto).
    change (skip_ws (String "," ?x)) with (String "," x). cbn -[map join_comma scan_items skip_ws].
    pose proof (printed_start j' ltac:(by apply Forall_cons in Hwf as [? _])) as (a & s & Hs & Ha).
    assert (skip_ws (join_comma (map text (j' :: l)) +:+ String "]" t)
            = join_comma (map text (j' :: l)) +:+ String "]" t) as ->.
    { destruct l; cbn [map join_comma]; rewrite Hs, ?string_app_cons; by apply value_start_skip. }
    rewrite IH by (done || (cbn [length] in *; lia)). done.
Qed.

Lemma scan_members_dumps scan scan_key (d : jdict) n t :
  d <> [] -> Forall (fun p => json_wf p.2) d -> Forall (fun p => reads scan p.2) d ->
  Forall (fun p => forall r, scan_key (escape_string p.1 +:+ quote +:+ r) = Some (p.1, r)) d ->
  (length d <= n)%nat ->
  exists body, join_comma (dump_pair <$> map (fun p => (p.1, text p.2)) d) = String dquote body
    /\ scan_members scan scan_key n (body +:+ String "}" t)
       = Some (map (fun p => (p.1, value p.2)) d, t).
Proof.
  intros Hne Hwf Hl Hk. revert n. induction d as [|[k j] d IH]; [done|]. intros n Hn.
  destruct n as [|n]; cbn [length] in Hn; [lia|].
  apply Forall_cons in Hwf as [Hj Hwf]. apply Forall_cons in Hl as [Hr Hl].
  apply Forall_cons in Hk as [Hkey Hk]. cbn [fst snd] in *.
  pose proof (printed_start j Hj) as (a & s & Hs & Ha).
  assert (Hskip : forall r, skip_ws (text j +:+ r) = text j +:+ r).
  { intros r. rewrite Hs, string_app_cons. by apply value_start_skip. }
  destruct d as [|[k' j'] d].
  - eexists. split.
    { cbn [map fmap list_fmap join_comma]. unfold dump_pair, dump_string. cbn [fst snd].
      rewrite !string_app_assoc. reflexivity. }
    rewrite !string_app_assoc. cbn [scan_members]. rewrite Hkey.
    change (":" +:+ ?x) with (String ":" x). cbn -[scan_members skip_ws].
    change (skip_ws (String ":" ?x)) with (String ":" x). cbn -[scan_members skip_ws].
    rewrite Hskip, Hr by (cbn; auto). done.
  - destruct (IH ltac:(done) Hwf Hl Hk n ltac:(cbn [length] in *; lia)) as (body & Hb & Hscan).
    exists (escape_string k +:+ quote +:+ ":" +:+ text j +:+ "," +:+ String dquote body). split.
    { rewrite <- Hb. cbn [map fmap list_fmap join_comma]. unfold dump_pair at 1, dump_string at 1.
      cbn [fst snd]. rewrite !string_app_assoc. reflexivity. }
    rewrite !string_app_assoc. cbn [scan_members]. rewrite Hkey.
    change (":" +:+ ?x) with (String ":" x).
    change (skip_ws (String ":" ?x)) with (String ":" x). cbn -[scan_members skip_ws].
    rewrite Hskip. change ("," +:+ ?x) with (String "," x). rewrite Hr by (cbn; auto).
    change (skip_ws (String "," ?x)) with (String "," x). cbn -[scan_members skip_ws].
    change (eat _ (skip_ws (String _ body +:+ String "}" t))) with (Some (body +:+ String "}" t)).
    cbv iota beta. by rewrite Hscan.
Qed.

Lemma od_rebuild (d : jdict) :
  od_wf d -> foldl (fun acc p => od_set p.1 p.2 acc) [] d = d.
Proof.
  intros Hd. enough (Hg : forall acc, od_wf (acc ++ d) ->
    foldl (fun acc p => od_set p.1 p.2 acc) acc d = acc ++ d) by by apply Hg.
  clear Hd. induction d as [|[k v] d IH]; intros acc Hacc; cbn [foldl]; [by rewrite app_nil_r|].
  cbn [fst snd]. rewrite od_set_new.
  - rewrite IH; rewrite <- app_assoc; done.
  - apply od_get_None. unfold od_wf in Hacc. rewrite fmap_app in Hacc.
    apply NoDup_app in Hacc as (_ & Hn & _). intros Hk%Hn. apply Hk. by left.
Qed.

Lemma printed_nonempty j : json_wf j -> text j <> "".
Proof. by intros (a & s & -> & _)%printed_start. Qed.

Lemma scan_once_array fuel l t :
  Forall json_wf l ->
  Forall (fun j => (String.length (text j) < fuel)%nat -> reads (scan_once fuel) j) l ->
  (String.length (text (JArr l)) < S fuel)%nat ->
  scan_once (S fuel) (text (JArr l) +:+ t) = Some (value (JArr l), t).
Proof.
  intros Hl IH Hf. destruct (pr_arr P l) as [Htext ->]. rewrite Htext in Hf |- *. clear Htext. destruct (decide (l = [])) as [-> |Hne]; [done|].
  assert (Hnonempty : Forall (fun s => s <> "") (map text l)).
  { apply Forall_fmap. eapply Forall_impl; [exact Hl|]. exact printed_nonempty. }
  destruct (join_comma_length _ Hnonempty) as [Hlen Hmax]. rewrite length_map in Hlen.
  rewrite !string_length_app in Hf. cbn [String.length] in Hf.
  rewrite !string_app_assoc. change ("[" +:+ ?x) with (String "[" x).
  change ("]" +:+ ?x) with (String "]" x). cbn -[skip_ws map join_comma scan_items].
  assert (exists a s, join_comma (map text l) = String a s /\ value_start a = true)
    as (a & s & Hs & Ha).
  { destruct l as [|j l]; [done|]. apply Forall_cons in Hl as [Hj _].
    destruct (printed_start j Hj) as (a & s & Hs & Ha). cbn [map].
    destruct (map text l); cbn [join_comma]; rewrite Hs; eauto. }
  assert (skip_ws (join_comma (map text l) +:+ String "]" t)
          = join_comma (map text l) +:+ String "]" t
          /\ eat "]" (join_comma (map text l) +:+ String "]" t) = None) as [-> ->].
  { rewrite Hs, string_app_cons. auto using value_start_skip, value_start_bracket. }
  rewrite scan_items_dumps; [done|done|done| |lia].
  rewrite Forall_forall in IH |- *. intros j Hj. apply (IH j Hj).
  rewrite Forall_fmap, Forall_forall in Hmax. specialize (Hmax j Hj). cbn in Hmax. lia.
Qed.

Lemma dump_pair_length k s :
  (String.length (dump_pair (k, s)) = 3 + String.length (escape_string k) + String.length s)%nat.
Proof.
  unfold dump_pair, dump_string. cbn [fst snd]. rewrite !string_length_app. cbn. lia.
Qed.

Lemma scan_once_brace fuel r r2 :
  eat "}" (skip_ws r) = None -> eat dquote (skip_ws r) = Some r2 ->
  scan_once (S fuel) (String "{" r)
  = (fun q => (JObj (foldl (fun d p => od_set p.1 p.2 d) [] q.1), q.2))
      <$> scan_members (scan_once fuel) (scan_string fuel) fuel r2.
Proof.
  intros H1 H2. transitivity
    (match eat "}" (skip_ws r) with
     | Some r2 => Some (JObj [], r2)
     | None =>
         match eat dquote (skip_ws r) with
         | Some r2 =>
             (fun q => (JObj (foldl (fun d p => od_set p.1 p.2 d) [] q.1), q.2))
               <$> scan_members (scan_once fuel) (scan_string fuel) fuel r2
         | None => None
         end
     end); [reflexivity|]. by rewrite H1, H2.
Qed.

Lemma scan_once_object fuel (d : jdict) t :
  od_wf d -> Forall (fun p => unicode p.1 /\ json_wf p.2) d ->
  Forall (fun p => (String.length (text p.2) < fuel)%nat -> reads (scan_once fuel) p.2) d ->
  (String.length (text (JObj d)) < S fuel)%nat ->
  scan_once (S fuel) (text (JObj d) +:+ t) = Some (value (JObj d), t).
Proof.
  intros Hwf Hd IH Hf. destruct (pr_obj P d) as [Htext ->]. rewrite Htext in Hf |- *. clear Htext.
  pose proof (pr_order_perm P d) as Hperm.
  assert (Hwf' : od_wf (pr_order P d)) by (unfold od_wf; by rewrite Hperm).
  rewrite <- Hperm in Hd, IH. clear Hwf Hperm. revert Hwf' Hd IH Hf.
  generalize (pr_order P d); clear d; intros d Hwf Hd IH Hf.
  destruct (decide (d = [])) as [-> |Hne]; [done|].
  set (texts := dump_pair <$> map (fun p => (p.1, text p.2)) d) in *.
  assert (Hnonempty : Forall (fun s => s <> "") texts).
  { apply Forall_fmap, Forall_fmap, Forall_true. intros p. done. }
  destruct (join_comma_length _ Hnonempty) as [Hlen Hmax].
  subst texts. rewrite length_fmap, length_map in Hlen.
  rewrite Forall_fmap, Forall_fmap, Forall_forall in Hmax.
  rewrite !string_length_app in Hf. cbn [String.length] in Hf.
  edestruct (scan_members_dumps (scan_once fuel) (scan_string fuel) d fuel t) as (body & Hb & Hs).
  - done.
  - eapply Forall_impl; [exact Hd|]. by intros p [].
  - rewrite Forall_forall in IH |- *. intros p Hp. apply (IH p Hp).
    specialize (Hmax p Hp). cbn in Hmax. rewrite dump_pair_length in Hmax. lia.
  - rewrite Forall_forall in Hd |- *. intros p Hp r. specialize (Hmax p Hp). cbn in Hmax.
    rewrite dump_pair_length in Hmax. apply scan_string_dump; [by apply Hd|lia].
  - lia.
  - rewrite Hb. rewrite !string_app_assoc. change ("{" +:+ ?x) with (String "{" x).
    change ("}" +:+ ?x) with (String "}" x).
    rewrite (scan_once_brace _ _ (body +:+ String "}" t)) by done. rewrite Hs. cbn [fmap option_fmap option_map fst snd].
    rewrite od_rebuild; [done|].
    unfold od_wf. by rewrite <- list_fmap_compose.
Qed.

Lemma scan_once_printed j :
  json_wf j -> forall fuel, (String.length (text j) < fuel)%nat -> reads (scan_once fuel) j.
Proof.
  induction j as [|b|n|r|s|l IH|d IH] using json_ind'; intros Hwf fuel Hf t Ht;
    (destruct fuel as [|fuel]; [lia|]);
    match goal with |- context [text ?j] => pose proof (pr_scalar P j) as Hs end;
    cbn beta iota in Hs; try (destruct Hs as [Htext ->]; rewrite Htext in Hf |- *).
  - done.
  - by destruct b.
  - by apply scan_once_number, scan_number_int.
  - inversion_clear Hwf as [| | |? Hr| | |]. destruct Hr as [-> |[-> |[-> |[Hr _]]]]; try done.
    by apply scan_once_number.
  - inversion_clear Hwf as [| | | |? Hs| |]. cbn [json_dumps] in *. unfold dump_string in *.
    rewrite !string_length_app in Hf. cbn [String.length quote] in Hf.
    rewrite !string_app_assoc. change (quote +:+ ?x) with (String dquote x) at 1.
    cbn -[scan_string escape_string quote]. rewrite scan_string_dump by (done || lia). done.
  - inversion_clear Hwf as [| | | | |? Hl|]. apply scan_once_array; [done| |done].
    rewrite Forall_forall in IH, Hl |- *. intros j Hj ?. apply IH; auto.
  - inversion_clear Hwf as [| | | | | |? Hd Hl]. apply scan_once_object; [done|done| |done].
    rewrite Forall_forall in IH, Hl |- *. intros p Hp ?. apply IH; [done|by apply Hl|done].
Qed.

Lemma json_loads_printed j : json_wf j -> json_loads (text j) = Some (value j).
Proof.
  intros Hwf. unfold json_loads. pose proof (printed_start j Hwf) as (a & s & Hs & Ha).
  assert (skip_ws (text j) = text j) as -> by (rewrite Hs; by apply value_start_skip).
  pose proof (scan_once_printed j Hwf _ (Nat.lt_succ_diag_r _) "" I) as Hr.
  rewrite string_app_nil in Hr. by rewrite Hr.
Qed.

(** The compact text is ASCII, whatever the strings are. *)
Lemma join_comma_ascii l :
  Forall (fun s => ascii_text s = true) l -> ascii_text (join_comma l) = true.
Proof using.
  induction 1 as [|s l Hs Hl IH]; [done|]. destruct l as [|s' l]; [done|].
  change (join_comma (s :: s' :: l)) with (s +:+ "," +:+ join_comma (s' :: l)).
  by rewrite !ascii_text_app, Hs, IH.
Qed.

Lemma dump_string_ascii s : unicode s -> ascii_text (dump_string s) = true.
Proof using. intros Hs. unfold dump_string. by rewrite !ascii_text_app, escape_string_ascii. Qed.

Lemma printed_ascii j : json_wf j -> ascii_text (text j) = true.
Proof.
  induction j as [|b|n|r|s|l IH|d IH] using json_ind'; intros Hwf;
    match goal with |- context [text ?j] => pose proof (pr_scalar P j) as Hs end;
    cbn beta iota in Hs; try rewrite (proj1 Hs); cbn [json_dumps].
  - done.
  - by destruct b.
  - apply ascii_text_str_of_Z.
  - inversion_clear Hwf as [| | |? Hr| | |]. by destruct Hr as [-> |[-> |[-> |[_ Hr]]]].
  - inversion_clear Hwf as [| | | |? Hu| |]. by apply dump_string_ascii.
  - inversion_clear Hwf as [| | | | |? Hl|]. rewrite (proj1 (pr_arr P l)), !ascii_text_app, join_comma_ascii; [done|].
    apply Forall_fmap. rewrite Forall_forall in IH, Hl |- *. intros x Hx. cbn. auto.
  - inversion_clear Hwf as [| | | | | |? _ Hl]. rewrite (proj1 (pr_obj P d)), !ascii_text_app, join_comma_ascii; [done|].
    apply Forall_fmap, Forall_fmap, Forall_forall.
    intros p Hp. rewrite (pr_order_perm P d) in Hp. cbn. unfold dump_pair. cbn.
    rewrite Forall_forall in IH, Hl. destruct (Hl p Hp) as [Hk Hv].
    by rewrite !ascii_text_app, dump_string_ascii, (IH p Hp Hv).
Qed.
End printed.

Lemma dumps_nonempty j : json_wf j -> json_dumps j <> "".
Proof. apply (printed_nonempty sorted_printer). Qed.

Lemma json_dumps_ascii j : json_wf j -> ascii_text (json_dumps j) = true.
Proof. apply (printed_ascii sorted_printer). Qed.

Lemma json_loads_dumps j : json_wf j -> json_loads (json_dumps j) = Some (json_norm j).
Proof. apply (json_loads_printed sorted_printer). Qed.

Lemma json_loads_in_order j : json_wf j -> json_loads (dumps_in_order j) = Some j.
Proof. apply (json_loads_printed ordered_printer). Qed.

(** ** Objects *)

Definition norm_dict (d : jdict) : jdict := py_sorted fst (map (fun p => (p.1, json_norm p.2)) d).

Definition dict_wf (d : jdict) : Prop := json_wf (JObj d).

Lemma norm_dict_wf d : od_wf d -> od_wf (norm_dict d).
Proof.
  intros Hd. unfold od_wf, norm_dict. rewrite py_sorted_Permutation.
  by rewrite <- (list_fmap_compose (fun p : string * json => (p.1, json_norm p.2))).
Qed.

Lemma norm_dict_get d k : od_wf d -> od_get k (norm_dict d) = json_norm <$> od_get k d.
Proof.
  intros Hd. apply option_eq. intros v. pose proof (norm_dict_wf d Hd) as Hn. split.
  - intros Hg%od_get_elem_of. unfold norm_dict in Hg. rewrite elem_of_py_sorted in Hg.
    apply list_elem_of_fmap in Hg as ([k' v'] & [= -> ->] & Hin).
    by rewrite (od_elem_of_get _ _ _ Hd Hin).
  - intros (v' & Hg & Hv)%fmap_Some. subst. apply od_elem_of_get; [done|].
    apply elem_of_py_sorted, list_elem_of_fmap. exists (k, v'). split; [done|by apply od_get_elem_of].
Qed.

Lemma json_dumps_norm j : json_dumps (json_norm j) = json_dumps j.
Proof.
  induction j as [| | | | |l IH|d IH] using json_ind'; try done; cbn [json_dumps json_norm].
  - do 3 f_equal. rewrite map_map. apply map_ext_in.
    intros x Hx%list_elem_of_In. rewrite Forall_forall in IH. by apply IH.
  - do 4 f_equal. rewrite !(py_sorted_map fst) by done. rewrite map_map.
    rewrite (py_sorted_id fst (py_sorted fst d)) by apply py_sorted_sorted.
    apply map_ext_in. intros p Hp%list_elem_of_In. rewrite elem_of_py_sorted in Hp.
    rewrite Forall_forall in IH. cbn. f_equal. by apply IH.
Qed.

Lemma load_dumped d :
  dict_wf d -> CommonJson.load_json_object (Some (CommonJson.compact_json_text d)) = norm_dict d.
Proof.
  intros Hd. unfold CommonJson.load_json_object, CommonJson.compact_json_text.
  rewrite (proj2 (str_truthy_spec _)) by (by apply dumps_nonempty).
  by rewrite json_loads_dumps.
Qed.

Lemma load_in_order d :
  dict_wf d -> CommonJson.load_json_object (Some (dumps_in_order (JObj d))) = d.
Proof.
  intros Hd. unfold CommonJson.load_json_object.
  rewrite (proj2 (str_truthy_spec _)) by (by apply (printed_nonempty ordered_printer)).
  by rewrite json_loads_in_order.
Qed.

Lemma json_norm_idem j : json_norm (json_norm j) = json_norm j.
Proof.
  induction j as [| | | | |l IH|d IH] using json_ind'; try done; cbn [json_norm]; f_equal.
  - rewrite map_map. apply map_ext_in. intros x Hx%list_elem_of_In.
    rewrite Forall_forall in IH. by apply IH.
  - rewrite !(py_sorted_map fst) by done. rewrite map_map.
    rewrite (py_sorted_id fst (py_sorted fst d)) by apply py_sorted_sorted.
    apply map_ext_in. intros p Hp%list_elem_of_In. rewrite elem_of_py_sorted in Hp.
    rewrite Forall_forall in IH. cbn. f_equal. by apply IH.
Qed.

Lemma json_norm_wf j : json_wf j -> json_wf (json_norm j).
Proof.
  induction j as [| | | | |l IH|d IH] using json_ind'; try done; intros Hwf; cbn [json_norm].
  - inversion_clear Hwf as [| | | | |? Hl|]. apply Wf_arr, Forall_fmap.
    rewrite Forall_forall in IH, Hl |- *. intros x Hx. by apply IH, Hl.
  - inversion_clear Hwf as [| | | | | |? Hd Hl]. apply Wf_obj; [by apply norm_dict_wf|].
    rewrite Forall_forall in IH, Hl |- *. intros x Hx. rewrite elem_of_py_sorted in Hx.
    apply list_elem_of_fmap in Hx as (p & -> & Hp). destruct (Hl p Hp). split; [done|]. by apply IH.
Qed.

Lemma dict_wf_od d : dict_wf d -> od_wf d.
Proof. by inversion_clear 1. Qed.

Lemma dict_wf_norm d : dict_wf d -> dict_wf (norm_dict d).
Proof. apply (json_norm_wf (JObj d)). Qed.

Lemma dict_wf_get d k v : dict_wf d -> od_get k d = Some v -> json_wf v.
Proof.
  intros Hd Hg%od_get_elem_of. inversion_clear Hd as [| | | | | |? _ Hl].
  rewrite Forall_forall in Hl. apply (Hl _ Hg).
Qed.

Lemma dict_wf_set d k v : unicode k -> json_wf v -> dict_wf d -> dict_wf (od_set k v d).
Proof.
  intros Hk Hv Hd. inversion_clear Hd as [| | | | | |? Hod Hl]. apply Wf_obj; [by apply od_set_wf|].
  rewrite Forall_forall in Hl |- *. intros [k' v'] Hin. apply elem_of_od_set in Hin; [|done].
  destruct Hin as [[-> ->]|[_ Hin]]; [done|]. by apply (Hl (k', v')).
Qed.

Lemma norm_dict_del k d : od_wf d -> od_del k (norm_dict d) = norm_dict (od_del k d).
Proof.
  intros Hd. unfold norm_dict, od_del. set (f := fun p : string * json => (p.1, json_norm p.2)).
  assert (Hs : StronglySorted (key_le fst)
    (filter (fun p => p.1 <> k) (py_sorted fst (map f d)))).
  { eapply StronglySorted_sublist; [apply sublist_filter|apply (py_sorted_sorted fst)]. }
  rewrite <- (py_sorted_id fst _ Hs). apply py_sorted_unique.
  - eapply sublist_NoDup; [apply (norm_dict_wf d Hd)|apply fmap_sublist, sublist_filter].
  - rewrite py_sorted_Permutation. clear. induction d as [|p d IH]; [done|].
    cbn [map]. rewrite !filter_cons. cbn [fst f]. case_decide; [by apply Permutation_skip|done].
Qed.

(** C40: canonical JSON. The compact text of an object with Unicode strings is
    read back as that object with its keys in order, and two objects have the
    same hexadecimal canonical payload, the bytes the program signs, exactly
    when they are equal up to the order of their keys: a signature binds the
    value. *)
Theorem canonical_json_spec (d e : jdict) :
  dict_wf d -> dict_wf e ->
  CommonJson.load_json_object (Some (CommonJson.compact_json_text d)) = norm_dict d /\
  (forall k, od_get k (norm_dict d) = json_norm <$> od_get k d) /\
  (CommonJson.canonical_payload_hex d = CommonJson.canonical_payload_hex e <->
   norm_dict d = norm_dict e).
Proof.
  intros Hd He. split_and!.
  - by apply load_dumped.
  - intros k. apply norm_dict_get. by inversion_clear Hd.
  - unfold CommonJson.canonical_payload_hex. split; intros Heq.
    + apply (f_equal fromhex) in Heq. rewrite !fromhex_bytes_hex in Heq. apply (inj Some) in Heq.
      rewrite <- (load_dumped d Hd), <- (load_dumped e He).
      unfold CommonJson.compact_json_bytes in Heq. by rewrite Heq.
    + unfold CommonJson.compact_json_bytes, CommonJson.compact_json_text.
      rewrite <- (json_dumps_norm (JObj d)), <- (json_dumps_norm (JObj e)).
      change (json_norm (JObj ?x)) with (JObj (norm_dict x)). by rewrite Heq.
Qed.
End loads.

Lemma ascii_text_dec w n : ascii_text (dec w n) = true.
Proof.
  unfold dec, pad_left. induction (seq _ _) as [|k l IH]; cbn [foldr]; [apply ascii_text_str_of_Z|].
  by rewrite ascii_text_app, IH.
Qed.

Lemma isoformat_text t : unicode (isoformat t) /\ isoformat t <> "".
Proof.
  unfold isoformat. cbv zeta. destruct (civil_of_days _) as [[y m] d]. split.
  - apply ascii_unicode.
    case_match; rewrite !ascii_text_app, !ascii_text_dec; done.
  - intros Hs%(f_equal String.length). rewrite !string_length_app in Hs. cbn in Hs. lia.
Qed.

(** Well-formedness of a displayed value with literal keys. *)
Ltac json_wf_tac :=
  repeat first
    [ assumption
    | match goal with
      | |- dict_wf _ => unfold dict_wf
      | |- json_wf (JObj _) => apply Wf_obj
      | |- json_wf (JArr _) => apply Wf_arr
      | |- json_wf (JStr _) => apply Wf_str
      | |- json_wf (JFloat _) => apply Wf_float
      | |- json_wf (JInt _) => apply Wf_int
      | |- json_wf (JBool _) => apply Wf_bool
      | |- json_wf JNull => apply Wf_null
      | |- _ /\ _ => split
      | |- Forall _ [] => apply Forall_nil_2
      | |- Forall _ (_ :: _) => apply Forall_cons_2
      | |- od_wf _ => apply (bool_decide_unpack _); vm_compute; exact I
      | |- unicode _ => apply ascii_unicode; reflexivity
      end
    | progress cbn ].

#[local] Instance demo_float_text : FloatText := fun s => s.

Lemma canonical_json_spec_witness :
  CommonJson.canonical_payload_hex [("b", JInt 1); ("a", JStr "x")]
  = CommonJson.canonical_payload_hex [("a", JStr "x"); ("b", JInt 1)].
Proof.
  apply (canonical_json_spec [("b", JInt 1); ("a", JStr "x")] [("a", JStr "x"); ("b", JInt 1)]);
    [json_wf_tac|json_wf_tac|reflexivity].
Defined.
