(* ===== verification/PyFloat.v ===== *)
(** * Python floats

    A [float] is an IEEE double, [SpecFloat.spec_float] at precision 53 and
    largest exponent 1024, with the arithmetic CPython uses on it: mixed
    arithmetic and comparison with integers, truncation and rounding. The text of
    a float ([repr]) and its reading ([float(text)]) are the parameter
    [FloatConv]. *)

From Stdlib Require Export SpecFloat.
From S2P Require Import Prelude PyJson JsonText.

Definition float_add : spec_float -> spec_float -> spec_float := SFadd 53 1024.
Definition float_sub : spec_float -> spec_float -> spec_float := SFsub 53 1024.
Definition float_mul : spec_float -> spec_float -> spec_float := SFmul 53 1024.
Definition float_div : spec_float -> spec_float -> spec_float := SFdiv 53 1024.
Definition float_of_int (n : Z) : spec_float := binary_normalize 53 1024 n 0 false.

(** The exact value of a finite float is [m * 2 ^ e]. *)
Definition float_parts (f : spec_float) : Z * Z :=
  match f with
  | S754_finite negative m e => (cond_Zopp negative (Zpos m), e)
  | _ => (0, 0)
  end.

(** Floats compare by their exact values; a [nan] does not compare. *)
Definition float_compare (f g : spec_float) : option comparison :=
  match f, g with
  | S754_nan, _ | _, S754_nan => None
  | S754_infinity s, S754_infinity t =>
      Some (if Bool.eqb s t then Eq else if s then Lt else Gt)
  | S754_infinity s, _ => Some (if s then Lt else Gt)
  | _, S754_infinity s => Some (if s then Gt else Lt)
  | _, _ =>
      let '(m, e) := float_parts f in
      let '(m', e') := float_parts g in
      let low := Z.min e e' in
      Some (m * 2 ^ (e - low) ?= m' * 2 ^ (e' - low))
  end.

Definition float_ltb (f g : spec_float) : bool :=
  match float_compare f g with Some Lt => true | _ => false end.
Definition float_leb (f g : spec_float) : bool :=
  match float_compare f g with Some (Lt | Eq) => true | _ => false end.

(** [min(a, b)] and [max(a, b)] *)
Definition py_min (a b : spec_float) : spec_float := if float_ltb b a then b else a.
Definition py_max (a b : spec_float) : spec_float := if float_ltb a b then b else a.

Definition OverflowError : exn := OtherError "OverflowError: int too large to convert to float".

(** [float(n)] *)
Definition py_float_of_int (n : Z) : res spec_float :=
  match float_of_int n with
  | S754_infinity _ => Raise OverflowError
  | f => Ok f
  end.

(** [f < n]: Python compares the exact values. *)
Definition float_lt_int (f : spec_float) (n : Z) : bool :=
  match f with
  | S754_zero _ => 0 <? n
  | S754_infinity negative => negative
  | S754_nan => false
  | S754_finite negative m e =>
      let m := cond_Zopp negative (Zpos m) in
      m * 2 ^ Z.max e 0 <? n * 2 ^ Z.max (- e) 0
  end.

(** [int(f)] *)
Definition py_int_of_float (f : spec_float) : res Z :=
  match f with
  | S754_zero _ => Ok 0
  | S754_infinity _ => Raise (OtherError "OverflowError: cannot convert float infinity to integer")
  | S754_nan => Raise (ValueError "cannot convert float NaN to integer")
  | S754_finite negative m e =>
      Ok (cond_Zopp negative (if 0 <=? e then Zpos m * 2 ^ e else Zpos m / 2 ^ (- e)))
  end.

(** [round(f)]: to the nearest integer, halves to the even one. *)
Definition py_round (f : spec_float) : res Z :=
  match f with
  | S754_zero _ => Ok 0
  | S754_infinity _ => Raise (OtherError "OverflowError: cannot convert float infinity to integer")
  | S754_nan => Raise (ValueError "cannot convert float NaN to integer")
  | S754_finite negative m e =>
      let q := Zpos m / 2 ^ (- e) in
      let r := 2 * (Zpos m mod 2 ^ (- e)) in
      Ok (cond_Zopp negative
            (if 0 <=? e then Zpos m * 2 ^ e
             else if (r <? 2 ^ (- e)) || ((r =? 2 ^ (- e)) && Z.even q) then q else q + 1))
  end.

(** A number of the program: an [int], a [bool] among them, or a [float]. *)
Inductive pynum : Type :=
| NInt (n : Z)
| NFloat (f : spec_float).

(** [float(x)] *)
Definition float_of_num (x : pynum) : res spec_float :=
  match x with NInt n => py_float_of_int n | NFloat f => Ok f end.

(** [x + n] *)
Definition num_add_int (x : pynum) (n : Z) : res pynum :=
  match x with
  | NInt m => Ok (NInt (m + n))
  | NFloat f => let! g := py_float_of_int n in Ok (NFloat (float_add f g))
  end.

(** The text of a float and the float of a text. *)
Class FloatConv := {
  float_show : spec_float -> string;
  float_value : string -> spec_float;
}.

(** [value if isinstance(value, (int, float))] *)
Definition num_of_json `{FloatConv} (value : json) : option pynum :=
  match value with
  | JInt n => Some (NInt n)
  | JBool b => Some (NInt (if b then 1 else 0))
  | JFloat r => Some (NFloat (float_value r))
  | _ => None
  end.

Example round_half_even :
  (py_round (float_div (float_of_int 5) (float_of_int 2)),
   py_round (float_div (float_of_int 7) (float_of_int 2)),
   py_int_of_float (float_sub (float_of_int 90) (float_div (float_of_int 41) (float_of_int 2))))
  = (Ok 2, Ok 4, Ok 69).
Proof. vm_compute. reflexivity. Qed.

(** ** Rounding

    A result of 53 bits or fewer before the point is rounded to a double whose
    last bit stands for at most 1; so rounding never passes an integer below
    [2 ^ 53]. *)

Lemma iter_pos_nat {A} (f : A -> A) p x : SpecFloat.iter_pos f p x = Nat.iter (Pos.to_nat p) f x.
Proof.
  revert x. induction p as [p IH|p IH|]; intros x; cbn [SpecFloat.iter_pos].
  - rewrite !IH, <- Nat.iter_succ_r, <- Nat.iter_add. f_equal. lia.
  - rewrite !IH, <- Nat.iter_add. f_equal. lia.
  - done.
Qed.

(** [k] bits shifted out of [m]. *)
Definition shifted (m : Z) (k : nat) (r : shr_record) : Prop :=
  shr_m r = m / 2 ^ Z.of_nat k /\
  (loc_of_shr_record r = loc_Exact <-> m mod 2 ^ Z.of_nat k = 0).

Lemma shifted_step m k r : 0 <= m -> shifted m k r -> shifted m (S k) (shr_1 r).
Proof.
  intros Hm [Hq Hloc]. unfold shifted.
  assert (0 < 2 ^ Z.of_nat k) as Hpow by (apply Z.pow_pos_nonneg; lia).
  rewrite Nat2Z.inj_succ, Z.pow_succ_r by lia.
  assert (m / (2 * 2 ^ Z.of_nat k) = shr_m r / 2) as -> by (rewrite Hq, Z.div_div by lia; f_equal; lia).
  assert (m mod (2 * 2 ^ Z.of_nat k) = 2 ^ Z.of_nat k * (shr_m r mod 2) + m mod 2 ^ Z.of_nat k) as ->.
  { rewrite Hq, (Z.mul_comm 2 (2 ^ _)), Z.rem_mul_r by lia. lia. }
  pose proof (Z.mod_pos_bound m (2 ^ Z.of_nat k) Hpow) as Hmod.
  assert (0 <= shr_m r) as Hpos by (rewrite Hq; apply Z.div_pos; lia).
  destruct r as [q r s]. cbn [shr_m] in *.
  assert (forall b, loc_of_shr_record (Build_shr_record (q / 2) b (r || s)) = loc_Exact <->
    b = false /\ m mod 2 ^ Z.of_nat k = 0) as Hb.
  { intros b. rewrite <- Hloc. by destruct b, r, s; cbn; intuition discriminate. }
  assert (shr_1 (Build_shr_record q r s) = Build_shr_record (q / 2) (negb (q mod 2 =? 0)) (r || s)) as ->.
  { destruct q as [|[p|p|]|]; [done| | |done|lia]; cbn [shr_1].
    - replace (Zpos p~1) with (1 + Zpos p * 2) by lia.
      by rewrite Z.div_add, Z.mod_add by lia.
    - replace (Zpos p~0) with (0 + Zpos p * 2) by lia.
      by rewrite Z.div_add, Z.mod_add by lia. }
  split; [done|]. rewrite Hb. pose proof (Z.mod_pos_bound q 2 ltac:(lia)).
  rewrite negb_false_iff, Z.eqb_eq. nia.
Qed.

Lemma shifted_iter m p :
  0 <= m -> shifted m (Pos.to_nat p) (SpecFloat.iter_pos shr_1 p (shr_record_of_loc m loc_Exact)).
Proof.
  intros Hm. rewrite iter_pos_nat. induction (Pos.to_nat p) as [|k IH].
  - split; cbn; [by rewrite Z.div_1_r|by rewrite Z.mod_1_r].
  - by apply shifted_step.
Qed.

Lemma digits_lower m : 2 ^ (Zpos (digits2_pos m) - 1) <= Zpos m.
Proof.
  assert (digits2_pos m = Pos.size m) as -> by (induction m; cbn; congruence).
  pose proof (Pos.size_le m) as Hs. apply Pos2Z.pos_le_pos in Hs. rewrite Pos2Z.inj_pow in Hs.
  replace (Zpos (Pos.size m)) with (Z.succ (Zpos (Pos.size m) - 1)) in Hs by lia.
  rewrite Z.pow_succ_r in Hs by lia. lia.
Qed.

(** [m * 2 ^ e <= b], for [e <= 0] *)
Definition below (b m e : Z) : Prop := e <= 0 /\ 0 <= m <= b * 2 ^ (- e).

Lemma below_digits b m e :
  b < 2 ^ 53 -> below b m e -> fexp 53 1024 (Zdigits2 m + e) <= 0.
Proof.
  intros Hb [He Hm]. unfold fexp, emin. destruct m as [|m|]; cbn [Zdigits2]; [lia| |lia].
  apply Z.max_lub; [|lia]. pose proof (digits_lower m) as Hd.
  assert (2 ^ (Zpos (digits2_pos m) - 1) < 2 ^ (53 - e)) as Hlt.
  { eapply Z.le_lt_trans; [exact Hd|]. eapply Z.le_lt_trans; [apply Hm|].
    replace (53 - e) with (53 + - e) by lia. rewrite Z.pow_add_r by lia.
    apply Z.mul_lt_mono_pos_r; [apply Z.pow_pos_nonneg|]; lia. }
  apply Z.pow_lt_mono_r_iff in Hlt; lia.
Qed.

(** Shifting keeps the bound, strictly when a bit is lost. *)
Lemma shr_below b m e r e' :
  b < 2 ^ 53 -> below b m e -> shr_fexp 53 1024 m e loc_Exact = (r, e') ->
  below b (shr_m r) e' /\ (loc_of_shr_record r <> loc_Exact -> below b (shr_m r + 1) e').
Proof.
  intros Hb Hm Hs. pose proof (below_digits b m e Hb Hm) as Hd. destruct Hm as [He Hm].
  unfold shr_fexp, shr in Hs. destruct (fexp 53 1024 (Zdigits2 m + e) - e) as [|p|p] eqn:Hn;
    injection Hs as <- <-; try (split; [split; [done|exact Hm]|intros []; done]).
  destruct (shifted_iter m p (proj1 Hm)) as [Hq Hloc]. set (r := SpecFloat.iter_pos _ _ _) in *.
  rewrite positive_nat_Z in Hq, Hloc.
  assert (2 ^ (- e) = 2 ^ (- (e + Zpos p)) * 2 ^ Zpos p) as Hpow
    by (rewrite <- Z.pow_add_r by lia; f_equal; lia).
  assert (0 < 2 ^ Zpos p) as Hp by (apply Z.pow_pos_nonneg; lia).
  pose proof (Z.div_mod m (2 ^ Zpos p) ltac:(lia)) as Hdm.
  pose proof (Z.mod_pos_bound m (2 ^ Zpos p) Hp) as Hmod.
  unfold below. rewrite Hq. rewrite Hpow in Hm.
  assert (0 <= m / 2 ^ Zpos p) as Hq0 by (apply Z.div_pos; lia).
  split; [split; [lia|]; split; [done|]|].
  - apply Z.div_le_upper_bound; nia.
  - intros Hne. rewrite Hloc in Hne. split; [lia|]. split; [lia|]. nia.
Qed.

Lemma round_below b m e :
  b < 2 ^ 53 -> below b m e ->
  match binary_round_aux 53 1024 false m e loc_Exact with
  | S754_zero _ => True
  | S754_finite false m' e' => below b (Zpos m') e'
  | _ => False
  end.
Proof.
  intros Hb Hm. unfold binary_round_aux.
  destruct (shr_fexp 53 1024 m e loc_Exact) as [r e'] eqn:Hr.
  destruct (shr_below b m e r e' Hb Hm Hr) as [H1 H2].
  assert (below b (round_nearest_even (shr_m r) (loc_of_shr_record r)) e') as H3.
  { destruct (loc_of_shr_record r) as [|[]]; cbn [round_nearest_even]; try done;
      [case_match; [done|]|]; by apply H2. }
  destruct (shr_fexp 53 1024 _ e' loc_Exact) as [r' e''] eqn:Hr'.
  destruct (shr_below b _ e' r' e'' Hb H3 Hr') as [H4 _].
  destruct (shr_m r') as [|m'|m']; [done| |by destruct H4; lia].
  rewrite (proj2 (Z.leb_le _ _)) by (destruct H4; lia). done.
Qed.

Lemma iter_xO m d : Zpos (Pos.iter xO m d) = Zpos m * 2 ^ Zpos d.
Proof.
  induction d as [|d IH] using Pos.peano_ind; [cbn; lia|].
  rewrite Pos.iter_succ, Pos2Z.inj_succ, Z.pow_succ_r by lia.
  change (Zpos (xO (Pos.iter xO m d))) with (2 * Zpos (Pos.iter xO m d)). lia.
Qed.

Lemma shl_align_below b m e e' :
  below b (Zpos m) e -> let '(m', e'') := shl_align m e e' in below b (Zpos m') e''.
Proof.
  intros [He Hm]. unfold shl_align. destruct (e' - e) as [|d|d] eqn:Hd; try by split.
  split; [lia|]. rewrite iter_xO. split; [lia|].
  replace (- e') with (- e + Zpos d) by lia. rewrite Z.pow_add_r by lia.
  assert (0 < 2 ^ Zpos d) by (apply Z.pow_pos_nonneg; lia). nia.
Qed.

Lemma normalize_below b m e :
  b < 2 ^ 53 -> e <= 0 -> m <= b * 2 ^ (- e) ->
  match binary_normalize 53 1024 m e false with
  | S754_finite false m' e' => below b (Zpos m') e'
  | S754_infinity false => False
  | _ => True
  end.
Proof.
  intros Hb He Hm. unfold binary_normalize. destruct m as [|m|m]; [done| |].
  - unfold binary_round. set (target := fexp _ _ _).
    pose proof (shl_align_below b m e target) as Hal. destruct (shl_align m e target) as [m' e'].
    assert (below b (Zpos m) e) as Hb0 by (split; [done|lia]). specialize (Hal Hb0).
    pose proof (round_below b _ _ Hb Hal) as Hr. by destruct (binary_round_aux _ _ _ _ _ _) as [| | |[]].
  - unfold binary_round. destruct (shl_align _ _ _) as [m' e']. unfold binary_round_aux.
    destruct (shr_fexp _ _ _ _ _) as [r e1]. destruct (shr_fexp _ _ _ _ _) as [r' e2].
    destruct (shr_m r'); [done| |done]. by destruct (_ <=? _).
Qed.

(** The integer part of a result with a bound. *)
Lemma int_below b f t :
  0 <= b -> match f with
  | S754_finite false m' e' => below b (Zpos m') e'
  | S754_infinity false => False
  | _ => True
  end -> py_int_of_float f = Ok t -> t <= b.
Proof.
  intros Hb Hf. destruct f as [s|s| |[] m e]; cbn [py_int_of_float]; intros Ht; simplify_eq; try lia.
  - cbn [cond_Zopp]. assert (0 <= if 0 <=? e then Zpos m * 2 ^ e else Zpos m / 2 ^ (- e)); [|lia].
    destruct (Z.leb_spec 0 e); [nia|]. apply Z.div_pos; [lia|]. apply Z.pow_pos_nonneg; lia.
  - cbn [cond_Zopp]. destruct Hf as [He Hm]. destruct (Z.leb_spec 0 e) as [H0|H0].
    + assert (e = 0) as -> by lia. cbn in *. lia.
    + apply Z.div_le_upper_bound; [apply Z.pow_pos_nonneg; lia|]. lia.
Qed.

(** The float is at least 1. *)
Definition at_least_one (f : spec_float) : Prop :=
  match f with
  | S754_infinity negative => negative = false
  | S754_finite negative m e => negative = false /\ 2 ^ Z.max 0 (- e) <= Zpos m * 2 ^ Z.max e 0
  | _ => False
  end.

Lemma py_max_one f : at_least_one (py_max (float_of_int 1) f).
Proof.
  unfold py_max. destruct (float_ltb (float_of_int 1) f) eqn:Hlt; [|by vm_compute].
  change (float_of_int 1) with (S754_finite false 4503599627370496 (-52)) in Hlt.
  unfold float_ltb, float_compare in Hlt. destruct f as [s|[]| |s m e]; try done.
  cbn [float_parts cond_Zopp] in Hlt.
  destruct (_ ?= _) eqn:Hc; [done| |done]. rewrite Z.compare_lt_iff in Hc. clear Hlt.
  set (low := Z.min (-52) e) in *. cbn [at_least_one].
  assert (2 ^ (- low) <= 4503599627370496 * 2 ^ (-52 - low)) as H1.
  { change 4503599627370496 with (2 ^ 52). rewrite <- Z.pow_add_r by lia.
    apply Z.pow_le_mono_r; lia. }
  assert (0 < 2 ^ (e - low)) as H2 by (apply Z.pow_pos_nonneg; lia).
  destruct s; cbn [cond_Zopp] in Hc.
  { exfalso. assert (0 < 2 ^ (-52 - low)) by (apply Z.pow_pos_nonneg; lia).
    assert (- Zpos m * 2 ^ (e - low) < 0) by (apply Z.mul_neg_pos; lia).  lia. }
  split; [done|].
  assert (Hk : 2 ^ (- low) < Zpos m * 2 ^ (e - low)) by lia.
  assert (0 < 2 ^ (- low - Z.max 0 (- e))) as H3 by (apply Z.pow_pos_nonneg; lia).
  apply (Z.mul_le_mono_pos_r _ _ (2 ^ (- low - Z.max 0 (- e)))); [done|].
  rewrite <- Z.mul_assoc, <- !Z.pow_add_r by lia.
  replace (Z.max e 0 + (- low - Z.max 0 (- e))) with (e - low) by lia.
  replace (Z.max 0 (- e) + (- low - Z.max 0 (- e))) with (- low) by lia. lia.
Qed.

(** Taking at least 1 off a number leaves at most one less. *)
Lemma sub_one_bound r x w t :
  0 < r < 2 ^ 53 -> py_float_of_int r = Ok x -> at_least_one w ->
  py_int_of_float (float_sub x w) = Ok t -> t <= r - 1.
Proof.
  intros Hr Hx Hw. apply int_below; [lia|].
  assert (x = float_of_int r) as -> by (unfold py_float_of_int in Hx; destruct (float_of_int r); congruence).
  pose proof (normalize_below r r 0 ltac:(lia) ltac:(lia) ltac:(cbn; lia)) as Hn.
  fold (float_of_int r) in Hn. clear Hx.
  assert (forall s m e, float_of_int r = S754_finite s m e -> s = false) as Hs.
  { intros s m e. unfold float_of_int, binary_normalize. destruct r as [|r|r]; [done| |lia].
    unfold binary_round. destruct (shl_align _ _ _) as [m' e']. unfold binary_round_aux.
    destruct (shr_fexp _ _ _ _ _) as [q e1]. destruct (shr_fexp _ _ _ _ _) as [q' e2].
    destruct (shr_m q'); [done| |done]. destruct (_ <=? _); [congruence|done]. }
  unfold float_sub, SFsub. destruct w as [|ws| |ws wm we]; [done| |done|].
  { cbn in Hw. subst ws. by destruct (float_of_int r) as [| [] | |[]]. }
  destruct Hw as [-> Hw]. destruct (float_of_int r) as [|[]| |s m e]; [done|done|done|done|].
  specialize (Hs s m e eq_refl) as ->. destruct Hn as [He [_ Hm]].
  set (low := Z.min e we). apply normalize_below; [lia|lia|].
  assert (forall p q, Zpos (fst (shl_align p q low)) = Zpos p * 2 ^ Z.max 0 (q - low)) as Hal.
  { intros p q. unfold shl_align. destruct (low - q) as [|d|d] eqn:Hd; cbn [fst].
    - replace (Z.max 0 (q - low)) with 0 by lia. lia.
    - replace (Z.max 0 (q - low)) with 0 by lia. lia.
    - rewrite iter_xO. f_equal. f_equal. lia. }
  cbn [cond_Zopp]. rewrite !Hal, !Z.max_r by lia.
  assert (Zpos m * 2 ^ (e - low) <= r * 2 ^ (- low)).
  { replace (- low) with (- e + (e - low)) by lia. rewrite Z.pow_add_r by lia.
    assert (0 < 2 ^ (e - low)) by (apply Z.pow_pos_nonneg; lia). nia. }
  assert (2 ^ (- low) <= Zpos wm * 2 ^ (we - low)).
  { destruct (Z.le_gt_cases 0 we) as [Hwe|Hwe].
    - rewrite (Z.max_l 0), Z.max_l, Z.pow_0_r in Hw by lia.
      replace (we - low) with (we + - low) by lia. rewrite Z.pow_add_r by lia.
      assert (0 < 2 ^ (- low)) by (apply Z.pow_pos_nonneg; lia). nia.
    - rewrite (Z.max_r 0), Z.max_r, Z.pow_0_r in Hw by lia.
      replace (- low) with (- we + (we - low)) by lia. rewrite Z.pow_add_r by lia.
      assert (0 < 2 ^ (we - low)) by (apply Z.pow_pos_nonneg; lia). nia. }
  rewrite Z.mul_sub_distr_r. lia.
Qed.

(** A float of at least 1 is not below an integer of at most 1. *)
Lemma at_least_one_not_below f n : at_least_one f -> n <= 1 -> float_lt_int f n = false.
Proof.
  intros Hf Hn. destruct f as [|[]| |s m e]; try done. destruct Hf as [-> Hm].
  cbn [float_lt_int cond_Zopp]. apply Z.ltb_ge. rewrite (Z.max_comm (- e)).
  assert (0 < 2 ^ Z.max 0 (- e)) by (apply Z.pow_pos_nonneg; lia). nia.
Qed.
