(* ===== verification/Transport.v ===== *)
(** * Transport: data, frame codec, endpoints and the transport service

    Models [src/app/transport/models.py], [frame_codec.py], [endpoints.py],
    [interfaces.py], [service.py] and [relay_transport.py].  A byte string is a
    list of [ascii]; a stream reader is the bytes still to come, the end of the
    list being the end of the stream. *)

From S2P Require Import Prelude PyJson PyTime.
From Stdlib Require Import Ascii.

Abbreviation bytes := (list ascii).

(** ** Big-endian 32-bit integers *)

Definition UINT32_MAX : Z := 4294967295.

Definition byte_of_Z (v : Z) : ascii := ascii_of_N (Z.to_N (v mod 256)).

Definition Z_of_byte (a : ascii) : Z := Z.of_N (N_of_ascii a).

(** [v.to_bytes(4, byteorder=big)] for [v] below 2^32 *)
Definition be4 (v : Z) : bytes :=
  [byte_of_Z (v / 16777216); byte_of_Z (v / 65536); byte_of_Z (v / 256); byte_of_Z v].

(** [int.from_bytes(b, byteorder=big)] *)
Definition of_be (b : bytes) : Z := foldl (fun acc a => acc * 256 + Z_of_byte a) 0 b.

Lemma Z_of_byte_range a : 0 <= Z_of_byte a < 256.
Proof. unfold Z_of_byte. pose proof (N_ascii_bounded a). lia. Qed.

Lemma Z_of_byte_of_Z v : Z_of_byte (byte_of_Z v) = v mod 256.
Proof.
  unfold Z_of_byte, byte_of_Z. pose proof (Z.mod_pos_bound v 256 ltac:(lia)).
  rewrite N_ascii_embedding by lia. lia.
Qed.

Lemma byte_of_Z_of_byte a : byte_of_Z (Z_of_byte a) = a.
Proof.
  unfold byte_of_Z. rewrite Z.mod_small by apply Z_of_byte_range.
  unfold Z_of_byte. rewrite N2Z.id. apply ascii_N_embedding.
Qed.

Lemma of_be_be4 v : 0 <= v <= UINT32_MAX -> of_be (be4 v) = v.
Proof.
  unfold UINT32_MAX, of_be, be4. intros Hv. cbn [foldl]. rewrite !Z_of_byte_of_Z.
  pose proof (Z.div_mod v 256 ltac:(lia)) as E0.
  pose proof (Z.div_mod (v / 256) 256 ltac:(lia)) as E1.
  pose proof (Z.div_mod (v / 65536) 256 ltac:(lia)) as E2.
  assert (v / 256 / 256 = v / 65536) as E3 by (rewrite Z.div_div by lia; done).
  assert (v / 65536 / 256 = v / 16777216) as E4 by (rewrite Z.div_div by lia; done).
  assert (0 <= v / 16777216 < 256) as H3
    by (split; [apply Z.div_pos; lia|apply Z.div_lt_upper_bound; lia]).
  rewrite (Z.mod_small (v / 16777216)) by done. lia.
Qed.

Lemma of_be_range4 b : length b = 4%nat -> 0 <= of_be b <= UINT32_MAX.
Proof.
  intros Hb. destruct b as [|a [|b [|c [|d [|]]]]]; try discriminate Hb.
  unfold of_be, UINT32_MAX. cbn [foldl].
  pose proof (Z_of_byte_range a). pose proof (Z_of_byte_range b).
  pose proof (Z_of_byte_range c). pose proof (Z_of_byte_range d). lia.
Qed.

Lemma length_be4 v : length (be4 v) = 4%nat.
Proof. done. Qed.

(** ** [models.py] *)

Inductive TransportState : Type := STOPPED | STARTING | STARTED | STOPPING.

#[export] Instance transport_state_eq_dec : EqDecision TransportState.
Proof. solve_decision. Defined.

Record TransportEndpoint := MkTransportEndpoint {
  ep_transport_name : string;
  ep_host : string;
  ep_port : Z;
  ep_metadata : jdict;
}.

Record TransportPacket := MkTransportPacket {
  tp_transport_name : string;
  tp_payload : bytes;
  tp_remote_endpoint : TransportEndpoint;
  tp_local_endpoint : option TransportEndpoint;
  tp_received_at : instant;
  tp_metadata : jdict;
}.

Record OutboundMessage := MkOutboundMessage {
  ob_transport_name : string;
  ob_payload : bytes;
  ob_remote_endpoint : TransportEndpoint;
  ob_local_endpoint : option TransportEndpoint;
  ob_metadata : jdict;
}.

#[export] Instance endpoint_eq_dec : EqDecision TransportEndpoint.
Proof. solve_decision. Defined.
#[export] Instance packet_eq_dec : EqDecision TransportPacket.
Proof. solve_decision. Defined.
#[export] Instance outbound_message_eq_dec : EqDecision OutboundMessage.
Proof. solve_decision. Defined.

(** ** [frame_codec.py] *)

Module FrameCodec.
Definition FRAME_LENGTH_SIZE : nat := 4.

Definition encode (payload : bytes) : res bytes :=
  let len := Z.of_nat (length payload) in
  if len <=? UINT32_MAX then Ok (be4 len ++ payload)
  else Raise (StructError "'I' format requires 0 <= number <= 4294967295").

(** [StreamReader.readexactly(n)]: the bytes read and the rest of the stream *)
Definition readexactly (reader : bytes) (n : nat) : res (bytes * bytes) :=
  if (n <=? length reader)%nat then Ok (take n reader, drop n reader)
  else Raise IncompleteReadError.

Definition read_frame (reader : bytes) : res (bytes * bytes) :=
  let! (length_data, reader) := readexactly reader FRAME_LENGTH_SIZE in
  let frame_length := of_be length_data in
  readexactly reader (Z.to_nat frame_length).

(** The read loop of the TCP adapter on a finite stream: every frame read until
    [IncompleteReadError] ends the loop.  A frame takes at least four bytes, so
    the length of the stream bounds the number of turns. *)
Fixpoint read_frames (fuel : nat) (reader : bytes) : list bytes :=
  match fuel with
  | O => []
  | S fuel =>
      match read_frame reader with
      | Ok (payload, reader') => payload :: read_frames fuel reader'
      | Raise _ => []
      end
  end.

Definition read_all (reader : bytes) : list bytes := read_frames (S (length reader)) reader.

Lemma readexactly_app a b : readexactly (a ++ b) (length a) = Ok (a, b).
Proof.
  unfold readexactly. rewrite length_app.
  destruct (Nat.leb_spec (length a) (length a + length b)); [|lia].
  by rewrite take_app_length, drop_app_length.
Qed.

Lemma readexactly_length reader n a b :
  readexactly reader n = Ok (a, b) -> reader = a ++ b /\ length a = n.
Proof.
  unfold readexactly. destruct (Nat.leb_spec n (length reader)); [|done].
  intros [= <- <-]. by rewrite take_drop, length_take_le.
Qed.

Lemma read_frame_encode payload frame rest :
  encode payload = Ok frame -> read_frame (frame ++ rest) = Ok (payload, rest).
Proof.
  unfold encode. destruct (Z.leb_spec (Z.of_nat (length payload)) UINT32_MAX); [|done].
  intros <-%Ok_inj. unfold read_frame. rewrite <- app_assoc.
  change FRAME_LENGTH_SIZE with (length (be4 (Z.of_nat (length payload)))).
  rewrite readexactly_app.
  cbn [mbind res_bind]. rewrite of_be_be4, Nat2Z.id by lia. apply readexactly_app.
Qed.

Lemma read_frames_enough fuel payloads frames reader rest :
  map_res encode payloads = Ok frames -> reader = mjoin frames ++ rest ->
  read_frame rest = Raise IncompleteReadError -> (length payloads < fuel)%nat ->
  read_frames fuel reader = payloads.
Proof.
  revert fuel frames reader. induction payloads as [|p payloads IH];
    intros fuel frames reader Hf Hr Hrest Hfuel; (destruct fuel as [|fuel]; [cbn in Hfuel; lia|]).
  - cbn in Hf. injection Hf as <-. cbn in Hr. subst reader. cbn. by rewrite Hrest.
  - cbn in Hf. destruct (encode p) as [f|] eqn:Ep; cbn in Hf; [|done].
    destruct (map_res encode payloads) as [fs|] eqn:Eps; cbn in Hf; [|done].
    injection Hf as <-. cbn in Hr. subst reader. cbn [read_frames].
    rewrite <- app_assoc, (read_frame_encode p f) by done. f_equal.
    eapply IH; [done|done|done|]. cbn in Hfuel. lia.
Qed.

Lemma frames_length payloads frames :
  map_res encode payloads = Ok frames -> (length payloads <= length (mjoin frames))%nat.
Proof.
  rewrite map_res_Ok_Forall2. induction 1 as [|p f ps fs Hp _ IH]; [done|].
  unfold encode in Hp. destruct (_ <=? _); [|done]. apply Ok_inj in Hp as <-.
  change (mjoin ((be4 (Z.of_nat (length p)) ++ p) :: fs))
    with ((be4 (Z.of_nat (length p)) ++ p) ++ mjoin fs).
  rewrite !length_app, length_be4. cbn [length]. lia.
Qed.

(** A stream that carries encoded frames, followed by a frame cut short,
    is read back as exactly the payloads sent, in order. *)
Theorem frames_roundtrip (payloads frames : list bytes) (rest : bytes) :
  map_res encode payloads = Ok frames ->
  read_frame rest = Raise IncompleteReadError ->
  read_all (mjoin frames ++ rest) = payloads.
Proof.
  intros Hf Hrest. eapply read_frames_enough; [exact Hf|done|done|].
  rewrite length_app. pose proof (frames_length _ _ Hf). lia.
Qed.

Lemma frames_roundtrip_witness :
  read_all (["000"; "000"; "000"; "002"; "104"; "105"; "000"; "000"; "000"; "001"; "033"; "000"]%char)
  = [["104"; "105"]; ["033"]]%char.
Proof.
  apply (frames_roundtrip [["104"; "105"]; ["033"]]%char
    [["000"; "000"; "000"; "002"; "104"; "105"]; ["000"; "000"; "000"; "001"; "033"]]%char
    ["000"]%char); vm_compute; reflexivity.
Defined.
End FrameCodec.

(** ** [endpoints.py] *)

Module Endpoints.
Definition normalize_endpoint_dict (endpoint : json) : option jdict :=
  match endpoint with
  | JObj endpoint =>
      let priority := default (JInt 0) (od_get "priority" endpoint) in
      let metadata := od_get "metadata" endpoint in
      match od_get "transport" endpoint, od_get "host" endpoint,
            od_get "port" endpoint ≫= json_pyint with
      | Some (JStr transport), Some (JStr host), Some port =>
          if str_truthy transport && str_truthy host then
            Some [("transport", JStr transport);
                  ("host", JStr host);
                  ("port", pyint_json port);
                  ("priority", match json_pyint priority with
                               | Some p => pyint_json p | None => JInt 0 end);
                  ("metadata", match metadata with
                               | Some (JObj m) => JObj m | _ => JObj [] end)]
          else None
      | _, _, _ => None
      end
  | _ => None
  end.

Definition normalize_endpoint_list (endpoints : json) : list jdict :=
  match endpoints with
  | JArr endpoints => omap normalize_endpoint_dict endpoints
  | _ => []
  end.

(** [str(endpoint.get(key, ""))] and [int(endpoint.get(key, 0))] on the fields
    a normalised endpoint has. *)
Definition endpoint_str (endpoint : jdict) (key : string) : string :=
  match od_get key endpoint with Some (JStr s) => s | _ => "" end.

Definition endpoint_int (endpoint : jdict) (key : string) : Z :=
  match od_get key endpoint ≫= json_pyint with Some i => pyint_val i | None => 0 end.

Definition endpoint_sort_key (endpoint : jdict) : string * (string * (Z * (Z * string))) :=
  (endpoint_str endpoint "transport",
   (endpoint_str endpoint "host",
    (endpoint_int endpoint "port",
     (endpoint_int endpoint "priority",
      json_dumps (default (JObj []) (od_get "metadata" endpoint)))))).

Definition canonical_endpoint_list (endpoints : json) : list jdict :=
  py_sorted endpoint_sort_key (normalize_endpoint_list endpoints).

(** [build_transport_endpoint_from_result] on the four columns it reads. *)
Definition build_transport_endpoint_from_result `{FloatText} (transport host : string)
    (port : Z) (metadata_json : option string) : TransportEndpoint :=
  MkTransportEndpoint transport host port (CommonJson.load_json_object metadata_json).

(** A normalised endpoint, by its five fields. *)
Definition endpoint_dict (t h : string) (port priority : pyint) (m : jdict) : jdict :=
  [("transport", JStr t); ("host", JStr h); ("port", pyint_json port);
   ("priority", pyint_json priority); ("metadata", JObj m)].

Lemma json_pyint_json i : json_pyint (pyint_json i) = Some i.
Proof. by destruct i. Qed.

Lemma normalize_endpoint_shape e d :
  normalize_endpoint_dict e = Some d ->
  exists t h p r m, d = endpoint_dict t h p r m /\ t <> "" /\ h <> "".
Proof.
  unfold normalize_endpoint_dict. destruct e as [| | | | | |e]; try done.
  destruct (od_get "transport" e) as [[| | | |t| |]|]; try done.
  destruct (od_get "host" e) as [[| | | |h| |]|]; try done.
  destruct (od_get "port" e ≫= json_pyint) as [p|]; [|done].
  destruct (str_truthy t) eqn:Ht; cbn [andb]; [|done].
  destruct (str_truthy h) eqn:Hh; [|done]. intros [= <-].
  apply str_truthy_spec in Ht, Hh.
  exists t, h, p, (default (PyInt 0) (json_pyint (default (JInt 0) (od_get "priority" e)))),
    (match od_get "metadata" e with Some (JObj m) => m | _ => [] end).
  unfold endpoint_dict. split; [|done]. repeat f_equal.
  - by destruct (json_pyint (default (JInt 0) (od_get "priority" e))).
  - by destruct (od_get "metadata" e) as [[]|].
Qed.

Lemma normalize_endpoint_dict_id t h p r m :
  t <> "" -> h <> "" ->
  normalize_endpoint_dict (JObj (endpoint_dict t h p r m)) = Some (endpoint_dict t h p r m).
Proof.
  intros Ht%str_truthy_spec Hh%str_truthy_spec.
  unfold normalize_endpoint_dict, endpoint_dict. od_eval. cbn [from_option id mbind option_bind].
  rewrite !json_pyint_json, Ht, Hh. done.
Qed.

Lemma normalize_all ds :
  Forall (fun d => normalize_endpoint_dict (JObj d) = Some d) ds ->
  normalize_endpoint_list (JArr (JObj <$> ds)) = ds.
Proof.
  cbn [normalize_endpoint_list]. induction 1 as [|d ds Hd _ IH]; [done|].
  change (omap normalize_endpoint_dict (JObj <$> d :: ds)) with
    (match normalize_endpoint_dict (JObj d) with
     | Some y => y :: omap normalize_endpoint_dict (JObj <$> ds)
     | None => omap normalize_endpoint_dict (JObj <$> ds) end).
  by rewrite Hd, IH.
Qed.

Lemma normalize_list_normal l :
  Forall (fun d => normalize_endpoint_dict (JObj d) = Some d) (normalize_endpoint_list l).
Proof.
  apply list.Forall_forall. intros d Hd. destruct l as [| | | | |l|]; try (by apply elem_of_nil in Hd).
  apply list_elem_of_omap in Hd as (e & _ & He).
  apply normalize_endpoint_shape in He as (t & h & p & r & m & -> & Ht & Hh).
  by apply normalize_endpoint_dict_id.
Qed.

(** The compact text of a normalised endpoint with integer port and priority
    is a function of its sort key. *)
Definition endpoint_text (k : string * (string * (Z * (Z * string)))) : string :=
  let '(t, (h, (p, (r, m)))) := k in
  "{" +:+ join_comma (dump_pair <$>
    [("host", dump_string h); ("metadata", m); ("port", str_of_Z p);
     ("priority", str_of_Z r); ("transport", dump_string t)]) +:+ "}".

Definition proper_ints (d : jdict) : Prop :=
  (exists p, od_get "port" d = Some (JInt p)) /\ (exists r, od_get "priority" d = Some (JInt r)).

Lemma endpoint_text_key d :
  normalize_endpoint_dict (JObj d) = Some d -> proper_ints d ->
  json_dumps (JObj d) = endpoint_text (endpoint_sort_key d).
Proof.
  intros Hn [(p' & Hp) (r' & Hr)].
  destruct (normalize_endpoint_shape _ _ Hn) as (t & h & p & r & m & -> & _ & _).
  unfold endpoint_dict in *. revert Hp Hr. od_eval.
  by destruct p as [p|], r as [r|].
Qed.

Lemma sorted_text_permutation ds ds' :
  ds ≡ₚ ds' -> Forall proper_ints ds ->
  Forall (fun d => normalize_endpoint_dict (JObj d) = Some d) ds ->
  json_dumps ∘ JObj <$> py_sorted endpoint_sort_key ds
  = json_dumps ∘ JObj <$> py_sorted endpoint_sort_key ds'.
Proof.
  intros Hp Hi Hn.
  assert (forall l, l ≡ₚ ds -> json_dumps ∘ JObj <$> l = endpoint_text <$> (endpoint_sort_key <$> l))
    as Htext.
  { intros l Hl. rewrite <- list_fmap_compose. apply list_fmap_ext. intros i d Hd.
    apply list_elem_of_lookup_2 in Hd. rewrite Hl in Hd.
    rewrite list.Forall_forall in Hi, Hn. apply endpoint_text_key; auto. }
  rewrite !Htext; [|by rewrite py_sorted_Permutation..]. f_equal.
  by apply py_sorted_keys_unique.
Qed.

(** Canonical endpoint lists.  Canonicalising is idempotent, and for endpoints
    with integer ports and priorities the signed text does not depend on the order
    in which a node lists its endpoints. *)
Theorem canonical_endpoints_spec (l : json) (es es' : list json) :
  canonical_endpoint_list (JArr (JObj <$> canonical_endpoint_list l)) = canonical_endpoint_list l /\
  (es ≡ₚ es' -> Forall proper_ints (normalize_endpoint_list (JArr es)) ->
   json_dumps (JArr (JObj <$> canonical_endpoint_list (JArr es)))
   = json_dumps (JArr (JObj <$> canonical_endpoint_list (JArr es')))).
Proof.
  split.
  - unfold canonical_endpoint_list at 1. rewrite normalize_all.
    + apply py_sorted_id, py_sorted_sorted.
    + unfold canonical_endpoint_list. rewrite py_sorted_Permutation. apply normalize_list_normal.
  - intros Hp Hi. cbn [json_dumps]. do 3 f_equal.
    change (json_dumps <$> (JObj <$> canonical_endpoint_list (JArr es))
            = json_dumps <$> (JObj <$> canonical_endpoint_list (JArr es'))).
    rewrite <- !list_fmap_compose. apply sorted_text_permutation; [|done|apply normalize_list_normal].
    cbn [normalize_endpoint_list]. by rewrite Hp.
Qed.

Definition demo_endpoint (port : Z) : json :=
  JObj [("transport", JStr "tcp"); ("host", JStr "10.0.0.1"); ("port", JInt port)].

Lemma canonical_endpoints_spec_witness :
  json_dumps (JArr (JObj <$> canonical_endpoint_list (JArr [demo_endpoint 2; demo_endpoint 1])))
  = json_dumps (JArr (JObj <$> canonical_endpoint_list (JArr [demo_endpoint 1; demo_endpoint 2]))).
Proof.
  apply (canonical_endpoints_spec JNull); [apply Permutation_swap|].
  repeat constructor; eexists; reflexivity.
Defined.
End Endpoints.

(** ** [interfaces.py] and [service.py]

    What leaves a node through an adapter is a list of outputs. *)

Inductive transport_output : Type :=
| SendTo (data : bytes) (host : string) (port : Z)
| RelaySend (message : OutboundMessage).

(** The contract every adapter implements: an operation returns its outcome and
    the adapter after it, also when it raises. *)
Class TransportAdapter (A H : Type) := {
  transport_name : A -> string;
  adapter_state : A -> TransportState;
  set_inbound_packet_handler : H -> A -> A;
  adapter_start : A -> res unit * A;
  adapter_stop : A -> res unit * A;
  adapter_send : OutboundMessage -> A -> res (list transport_output) * A;
}.

Module Service.
Section service.
Context {A H : Type} `{TransportAdapter A H}.

Record TransportService := MkTransportService {
  ts_adapters : odict string A;
  ts_inbound_packet_handler : option H;
}.

#[global] Instance transport_service_eta : Eta TransportService := fun s =>
  MkTransportService (ts_adapters s) (ts_inbound_packet_handler s).

Definition new_transport_service : TransportService := MkTransportService [] None.

(** [dispatch] is the bound method [self._dispatch_inbound_packet]. *)
Definition register_adapter (ts : TransportService) (dispatch : H) (adapter : A)
    : res TransportService :=
  if od_has (transport_name adapter) (ts_adapters ts)
  then Raise (ValueError ("Transport '" +:+ transport_name adapter +:+ "' is already registered."))
  else Ok (ts <| ts_adapters := od_set (transport_name adapter)
                   (set_inbound_packet_handler dispatch adapter) (ts_adapters ts) |>).

Definition set_handler (ts : TransportService) (handler : H) : TransportService :=
  ts <| ts_inbound_packet_handler := Some handler |>.

Definition has_adapter (ts : TransportService) (name : string) : bool :=
  od_has name (ts_adapters ts).

(** [for adapter in self._adapters.values(): await adapter.start()]; the first
    exception ends the loop. *)
Fixpoint for_each_adapter (f : A -> res unit * A) (d : odict string A)
    : res unit * odict string A :=
  match d with
  | [] => (Ok tt, [])
  | (name, adapter) :: d' =>
      match f adapter with
      | (Ok _, adapter') =>
          let '(r, d'') := for_each_adapter f d' in (r, (name, adapter') :: d'')
      | (Raise e, adapter') => (Raise e, (name, adapter') :: d')
      end
  end.

Definition start (ts : TransportService) : res unit * TransportService :=
  let '(r, d) := for_each_adapter adapter_start (ts_adapters ts) in
  (r, ts <| ts_adapters := d |>).

Definition stop (ts : TransportService) : res unit * TransportService :=
  let '(r, d) := for_each_adapter adapter_stop (ts_adapters ts) in
  (r, ts <| ts_adapters := d |>).

Definition send (ts : TransportService) (message : OutboundMessage)
    : res (list transport_output) * TransportService :=
  match od_get (ob_transport_name message) (ts_adapters ts) with
  | None =>
      (Raise (ValueError ("Transport '" +:+ ob_transport_name message +:+ "' is not registered.")),
       ts)
  | Some adapter =>
      let '(r, adapter') := adapter_send message adapter in
      (r, ts <| ts_adapters := od_set (ob_transport_name message) adapter' (ts_adapters ts) |>)
  end.

(** The call the service makes, if any. *)
Definition _dispatch_inbound_packet (ts : TransportService) (packet : TransportPacket)
    : option (H * TransportPacket) :=
  match ts_inbound_packet_handler ts with
  | None => None
  | Some handler => Some (handler, packet)
  end.
End service.
Arguments TransportService : clear implicits.
End Service.

(** ** [relay_transport.py] *)

Module Relay.
Section relay.
Context {H : Type}.

(** [_relay_sender] is a callable: only whether it is set matters here. *)
Record RelayTcpTransportAdapter := MkRelay {
  rl_relay_sender : bool;
  rl_inbound_packet_handler : option H;
  rl_state : TransportState;
}.

#[global] Instance relay_eta : Eta RelayTcpTransportAdapter := fun r =>
  MkRelay (rl_relay_sender r) (rl_inbound_packet_handler r) (rl_state r).

Definition set_relay_sender (r : RelayTcpTransportAdapter) : RelayTcpTransportAdapter :=
  r <| rl_relay_sender := true |>.

(** [{**a, **b}] *)
Definition dict_merge (a b : jdict) : jdict :=
  foldl (fun d p => od_set p.1 p.2 d) a b.

Definition relay_message (message : OutboundMessage) : OutboundMessage :=
  if bool_decide (ep_metadata (ob_remote_endpoint message) = []) then message
  else MkOutboundMessage (ob_transport_name message) (ob_payload message)
         (ob_remote_endpoint message) (ob_local_endpoint message)
         (dict_merge (ep_metadata (ob_remote_endpoint message)) (ob_metadata message)).

Definition relay_send (message : OutboundMessage) (r : RelayTcpTransportAdapter)
    : res (list transport_output) * RelayTcpTransportAdapter :=
  if negb (rl_relay_sender r)
  then (Raise (RuntimeError "relay_tcp transport sender was not configured."), r)
  else (Ok [RelaySend (relay_message message)], r).

Definition inject_inbound_packet (r : RelayTcpTransportAdapter) (now : instant)
    (payload : bytes) (remote_endpoint : TransportEndpoint)
    (local_endpoint : option TransportEndpoint) (metadata : option jdict)
    : option (H * TransportPacket) :=
  match rl_inbound_packet_handler r with
  | None => None
  | Some handler =>
      Some (handler, MkTransportPacket "relay_tcp" payload remote_endpoint local_endpoint now
                       (default [] metadata))
  end.

#[global] Instance relay_adapter : TransportAdapter RelayTcpTransportAdapter H := {|
  transport_name := fun _ => "relay_tcp";
  adapter_state := rl_state;
  set_inbound_packet_handler := fun h r => r <| rl_inbound_packet_handler := Some h |>;
  adapter_start := fun r => (Ok tt, r <| rl_state := STARTED |>);
  adapter_stop := fun r => (Ok tt, r <| rl_state := STOPPED |>);
  adapter_send := relay_send;
|}.
End relay.
Arguments RelayTcpTransportAdapter : clear implicits.

Lemma dict_merge_get a b k :
  od_wf b -> od_get k (dict_merge a b) = match od_get k b with Some v => Some v | None => od_get k a end.
Proof.
  unfold dict_merge. revert a. induction b as [|[k' v'] b IH]; intros a Hb; [done|].
  apply NoDup_cons in Hb as [Hk Hb]. cbn [foldl fst snd]. rewrite (IH _ Hb). cbn [od_get].
  destruct (decide (k = k')) as [->|Hne].
  - rewrite (proj2 (od_get_None k' b) Hk). apply od_get_set_eq.
  - by rewrite (od_get_set_ne k' k) by done.
Qed.
End Relay.
