(* ===== verification/Udp.v ===== *)
(** * The UDP transport adapter

    Models [src/app/transport/udp_transport.py]: fragmentation into datagrams
    with a 12-byte header (frame id, part, total parts), reassembly with its table
    of partial frames, pruning, keepalives and the adapter's life cycle.  Times are
    readings of the event loop's clock in microseconds; the four random bytes of a
    frame id, the bound socket name and the two environment variables of
    [_resolve_dial_host] are arguments. *)

From S2P Require Import Prelude PyJson PyTime Transport.
From Stdlib Require Import Ascii.

Definition UDP_KEEPALIVE_PAYLOAD : bytes := String.list_ascii_of_string "ANUDP_KEEPALIVE_V1".
Definition UDP_DATA_HEADER_SIZE : Z := 12.

Record _PartialUdpFrame := MkPartial {
  pf_frame_id : Z;
  pf_total_parts : Z;
  pf_parts : gmap Z bytes;
  pf_created_at : Z;
}.

#[export] Instance partial_eta : Eta _PartialUdpFrame := fun f =>
  MkPartial (pf_frame_id f) (pf_total_parts f) (pf_parts f) (pf_created_at f).

Definition is_complete (f : _PartialUdpFrame) : bool :=
  Z.of_nat (size (pf_parts f)) =? pf_total_parts f.

(** [range(1, n + 1)] *)
Definition range1 (n : Z) : list Z := seqZ 1 n.

(** [self.parts[index]] raises [KeyError] on a missing index. *)
Definition build_payload (f : _PartialUdpFrame) : res bytes :=
  let! chunks := map_res (fun i => match pf_parts f !! i with
                                   | Some b => Ok b
                                   | None => Raise (OtherError "KeyError")
                                   end) (range1 (pf_total_parts f)) in
  Ok (mjoin chunks).

Definition peer : Type := string * Z.
Definition frame_key : Type := string * Z * Z.

Record UdpTransportAdapter {H : Type} := MkUdp {
  udp_listen_host : string;
  udp_listen_port : Z;
  udp_listen_enabled : bool;
  udp_max_datagram_size : Z;
  udp_keepalive_interval : Z;
  udp_fragment_reassembly_timeout : Z;
  udp_state : TransportState;
  udp_inbound_packet_handler : option H;
  udp_transport : bool;
  udp_local_endpoint : option TransportEndpoint;
  udp_known_peers : gset peer;
  udp_partial_frames : odict frame_key _PartialUdpFrame;
  udp_keepalive_task : bool;
}.
Arguments UdpTransportAdapter : clear implicits.

Section adapter.
Context {H : Type}.
Implicit Types (u : UdpTransportAdapter H).

#[global] Instance udp_eta : Eta (UdpTransportAdapter H) := fun u =>
  MkUdp H (udp_listen_host u) (udp_listen_port u) (udp_listen_enabled u)
    (udp_max_datagram_size u) (udp_keepalive_interval u) (udp_fragment_reassembly_timeout u)
    (udp_state u) (udp_inbound_packet_handler u) (udp_transport u) (udp_local_endpoint u)
    (udp_known_peers u) (udp_partial_frames u) (udp_keepalive_task u).

(** [UdpTransportAdapter(...)] *)
Definition new_udp (listen_host : string) (listen_port : Z) (listen_enabled : bool)
    (max_datagram_size keepalive_interval fragment_reassembly_timeout : Z)
    : UdpTransportAdapter H :=
  MkUdp H listen_host listen_port listen_enabled max_datagram_size keepalive_interval
    fragment_reassembly_timeout STOPPED None false None ∅ [] false.

(** ** Validation *)

Definition _is_valid_uint32 (value : Z) : bool := (1 <=? value) && (value <=? UINT32_MAX).

Definition _is_valid_uint32_fragment_position (part total_parts : Z) : bool :=
  ((1 <=? part) && (part <=? UINT32_MAX)) &&
  ((1 <=? total_parts) && (total_parts <=? UINT32_MAX)) && (part <=? total_parts).

(** [int.from_bytes(os.urandom(4)) or 1] *)
Definition _new_udp_frame_id (urandom : bytes) : Z :=
  let v := of_be urandom in if v =? 0 then 1 else v.

(** ** Fragmentation *)

Definition _max_fragment_payload_size u : res Z :=
  if udp_max_datagram_size u <=? UDP_DATA_HEADER_SIZE
  then Raise (ValueError "UDP max datagram size must be larger than the binary fragment header")
  else Ok (udp_max_datagram_size u - UDP_DATA_HEADER_SIZE).

Definition _encode_data_frame (frame_id part total_parts : Z) (payload : bytes) : res bytes :=
  if negb (_is_valid_uint32 frame_id) then Raise (ValueError "UDP frame id must fit uint32")
  else if negb (_is_valid_uint32_fragment_position part total_parts)
  then Raise (ValueError "UDP fragment position must fit uint32 and be within total parts")
  else Ok (be4 frame_id ++ be4 part ++ be4 total_parts ++ payload).

(** [[payload[index:index + chunk_size] for index in range(0, len(payload), chunk_size)]] *)
Definition split_chunks (chunk_size : nat) (payload : bytes) : list bytes :=
  (fun k => take chunk_size (drop (k * chunk_size) payload)) <$>
    seq 0 ((length payload + chunk_size - 1) / chunk_size).

(** [... or [b""]] *)
Definition payload_chunks (chunk_size : nat) (payload : bytes) : list bytes :=
  match split_chunks chunk_size payload with [] => [[]] | chunks => chunks end.

Fixpoint encode_chunks (frame_id part total_parts : Z) (chunks : list bytes)
    : res (list bytes) :=
  match chunks with
  | [] => Ok []
  | chunk :: chunks' =>
      let! datagram := _encode_data_frame frame_id part total_parts chunk in
      let! rest := encode_chunks frame_id (part + 1) total_parts chunks' in
      Ok (datagram :: rest)
  end.

Definition _build_data_datagrams u (urandom payload : bytes) : res (list bytes) :=
  let! chunk_size := _max_fragment_payload_size u in
  let chunks := payload_chunks (Z.to_nat chunk_size) payload in
  let total := Z.of_nat (length chunks) in
  require! total <=? UINT32_MAX
  else ValueError "UDP payload requires more fragments than uint32 can represent" in
  let! datagrams := encode_chunks (_new_udp_frame_id urandom) 1 total chunks in
  require! forallb (fun d => Z.of_nat (length d) <=? udp_max_datagram_size u) datagrams
  else ValueError "UDP fragment exceeds configured datagram limit" in
  Ok datagrams.

(** ** Peers and sending *)

Definition _remember_peer u (host : string) (port : Z) : UdpTransportAdapter H :=
  if negb (str_truthy host) || (port <=? 0) then u
  else u <| udp_known_peers := {[ (host, port) ]} ∪ udp_known_peers u |>.

Definition _resolve_dial_host (local_advertised_host docker_host_gateway : option string)
    (advertised_host : string) : string :=
  match local_advertised_host, docker_host_gateway with
  | Some local, Some gateway =>
      if str_truthy local && str_truthy gateway && bool_decide (advertised_host = local)
      then gateway else advertised_host
  | _, _ => advertised_host
  end.

Definition send (env : option string * option string) (urandom : bytes)
    (message : OutboundMessage) u : res (list transport_output) * UdpTransportAdapter H :=
  if negb (udp_transport u)
  then (Raise (RuntimeError "UDP transport is not started and cannot send datagrams."), u)
  else
    let remote := ob_remote_endpoint message in
    let u := _remember_peer u (ep_host remote) (ep_port remote) in
    (let! datagrams := _build_data_datagrams u urandom (ob_payload message) in
     Ok ((fun d => SendTo d (_resolve_dial_host env.1 env.2 (ep_host remote)) (ep_port remote))
           <$> datagrams), u).

(** [sorted(self._known_peers)] and one keepalive to each. *)
Definition _send_keepalives (env : option string * option string) u : list transport_output :=
  if negb (udp_transport u) || bool_decide (udp_known_peers u = ∅) then []
  else (fun p : peer => SendTo UDP_KEEPALIVE_PAYLOAD (_resolve_dial_host env.1 env.2 p.1) p.2)
         <$> py_sorted id (elements (udp_known_peers u)).

(** One turn of [_run_keepalive_loop]; [None] when the loop ends. *)
Definition keepalive_turn (env : option string * option string) u
    : option (list transport_output) :=
  if bool_decide (udp_state u ∈ [STARTING; STARTED]) then Some (_send_keepalives env u) else None.

(** ** Reassembly *)

Definition set_partial u (d : odict frame_key _PartialUdpFrame) : UdpTransportAdapter H :=
  u <| udp_partial_frames := d |>.

(** The end of [_try_reassemble_data_frame]: [setdefault], then completion. *)
Definition store_part u (frames : odict frame_key _PartialUdpFrame) (partial_key : frame_key)
    (partial_frame : _PartialUdpFrame) (part : Z) (payload_part : bytes)
    : res (option bytes) * UdpTransportAdapter H :=
  let parts := match pf_parts partial_frame !! part with
               | Some _ => pf_parts partial_frame
               | None => <[part := payload_part]> (pf_parts partial_frame) end in
  let partial_frame := partial_frame <| pf_parts := parts |> in
  let frames := od_set partial_key partial_frame frames in
  if negb (is_complete partial_frame) then (Ok None, set_partial u frames)
  else (Some <$> build_payload partial_frame, set_partial u (od_del partial_key frames)).

Definition _try_reassemble_data_frame u (now : Z) (datagram : bytes) (host : string) (port : Z)
    : res (option bytes) * UdpTransportAdapter H :=
  if Z.of_nat (length datagram) <? UDP_DATA_HEADER_SIZE then (Ok None, u)
  else
    let frame_id := of_be (take 4 datagram) in
    let part := of_be (take 4 (drop 4 datagram)) in
    let total_parts := of_be (take 4 (drop 8 datagram)) in
    if negb (_is_valid_uint32 frame_id) then (Ok None, u)
    else if negb (_is_valid_uint32_fragment_position part total_parts) then (Ok None, u)
    else
      let payload_part := drop 12 datagram in
      if total_parts =? 1 then (Ok (Some payload_part), u)
      else
        let partial_key := (host, port, frame_id) in
        let frames :=
          if (part =? 1) && od_has partial_key (udp_partial_frames u)
          then od_del partial_key (udp_partial_frames u) else udp_partial_frames u in
        let existing := od_get partial_key frames in
        match existing with
        | Some partial_frame =>
            if negb (pf_total_parts partial_frame =? total_parts)
            then (Ok None, set_partial u (od_del partial_key frames))
            else store_part u frames partial_key partial_frame part payload_part
        | None =>
            store_part u frames partial_key (MkPartial frame_id total_parts ∅ now) part payload_part
        end.

Definition frame_expired u (now : Z) (frame : _PartialUdpFrame) : bool :=
  udp_fragment_reassembly_timeout u <=? now - pf_created_at frame.

Definition _prune_expired_frames u (now : Z) : UdpTransportAdapter H :=
  set_partial u (filter (fun p => frame_expired u now p.2 = false) (udp_partial_frames u)).

(** The packet handed to the inbound handler, if any. *)
Definition datagram_received u (now : Z) (received_at : instant) (data : bytes)
    (host : string) (port : Z) : res (option (H * TransportPacket)) * UdpTransportAdapter H :=
  let u := _remember_peer u host port in
  if bool_decide (data = UDP_KEEPALIVE_PAYLOAD) then (Ok None, u)
  else
    let u := _prune_expired_frames u now in
    let '(r, u) := _try_reassemble_data_frame u now data host port in
    (let! payload := r in
     match payload, udp_inbound_packet_handler u with
     | None, _ => Ok None
     | Some _, None => Ok None
     | Some payload, Some handler =>
         Ok (Some (handler,
           MkTransportPacket "udp" payload (MkTransportEndpoint "udp" host port [])
             (Some (default (MkTransportEndpoint "udp" (udp_listen_host u) 0 [])
                            (udp_local_endpoint u)))
             received_at []))
     end, u).

(** ** Life cycle *)

(** [bound] is the outcome of [create_datagram_endpoint]: the socket's name. *)
Definition start (bound : res (string * Z)) u : res unit * UdpTransportAdapter H :=
  if bool_decide (udp_state u = STARTED) then (Ok tt, u)
  else
    let u := u <| udp_state := STARTING |> in
    match bound with
    | Raise e => (Raise e, u)
    | Ok (bound_host, bound_port) =>
        let u := u <| udp_transport := true |>
                   <| udp_local_endpoint := Some (MkTransportEndpoint "udp" bound_host bound_port
                        [("advertised_listener", JBool (udp_listen_enabled u))]) |>
                   <| udp_state := STARTED |> in
        let u := if 0 <? udp_keepalive_interval u then u <| udp_keepalive_task := true |> else u in
        (let! _ := _max_fragment_payload_size u in Ok tt, u)
    end.

Definition stop u : res unit * UdpTransportAdapter H :=
  (Ok tt,
   u <| udp_keepalive_task := false |>
     <| udp_transport := false |>
     <| udp_local_endpoint := None |>
     <| udp_known_peers := ∅ |>
     <| udp_partial_frames := [] |>
     <| udp_state := STOPPED |>).

#[global] Instance udp_adapter (bound : res (string * Z)) (env : option string * option string)
    (urandom : bytes) : TransportAdapter (UdpTransportAdapter H) H := {|
  transport_name := fun _ => "udp";
  adapter_state := udp_state;
  set_inbound_packet_handler := fun h u => u <| udp_inbound_packet_handler := Some h |>;
  adapter_start := start bound;
  adapter_stop := stop;
  adapter_send := send env urandom;
|}.
End adapter.

Definition demo_udp : UdpTransportAdapter unit :=
  (start (Ok ("0.0.0.0", 19000)) (new_udp "0.0.0.0" 19000 true 16 5000000 10000000)).2.

Example demo_fragments :
  (length <$> catch_all [] (_build_data_datagrams demo_udp (be4 7)
     (String.list_ascii_of_string "hello world"))) = [16; 16; 15]%nat.
Proof. vm_compute. reflexivity. Qed.

(** ** Fragmentation is lossless *)

Definition frame_bytes (f i n : Z) (c : bytes) : bytes := be4 f ++ be4 i ++ be4 n ++ c.

Lemma slices_join c n (p : bytes) :
  (length p <= n * c)%nat ->
  mjoin ((fun k => take c (drop (k * c) p)) <$> seq 0 n) = p.
Proof.
  revert p. induction n as [|n IH]; intros p Hp.
  - destruct p; [done|cbn in Hp; lia].
  - cbn [seq fmap list_fmap mjoin list_join]. rewrite <- seq_shift.
    change (List.map S (seq 0 n)) with (S <$> seq 0 n). rewrite <- list_fmap_compose.
    transitivity (take c (drop (0 * c) p) ++ mjoin ((fun k => take c (drop (k * c) (drop c p))) <$> seq 0 n)).
    + f_equal. f_equal. apply list_fmap_ext. intros _ k _. cbn. by rewrite drop_drop.
    + rewrite IH; [cbn; apply take_drop|]. rewrite length_drop. lia.
Qed.

Lemma chunks_count c (p : bytes) : (0 < c)%nat ->
  (length p <= (length p + c - 1) / c * c)%nat.
Proof.
  intros Hc. pose proof (Nat.div_mod (length p + c - 1) c ltac:(lia)).
  pose proof (Nat.mod_upper_bound (length p + c - 1) c ltac:(lia)). lia.
Qed.

Lemma payload_chunks_join c p : (0 < c)%nat -> mjoin (payload_chunks c p) = p.
Proof.
  intros Hc. pose proof (slices_join c _ p (chunks_count c p Hc)) as Hj.
  unfold payload_chunks, split_chunks.
  destruct (_ <$> seq 0 _) as [|b l] eqn:E; [by rewrite <- Hj|done].
Qed.

Lemma payload_chunks_small c p : Forall (fun b => (length b <= c)%nat) (payload_chunks c p).
Proof.
  assert (Forall (fun b => (length b <= c)%nat) (split_chunks c p)) as Hs.
  { apply Forall_fmap, list.Forall_forall. intros k _. cbn. rewrite length_take. lia. }
  unfold payload_chunks. destruct (split_chunks c p); [by repeat constructor; cbn; lia|done].
Qed.

Lemma payload_chunks_nonempty c p : (1 <= length (payload_chunks c p))%nat.
Proof. unfold payload_chunks. destruct (split_chunks c p); cbn; lia. Qed.

Lemma payload_chunks_length c p : (0 < c)%nat ->
  (length (payload_chunks c p) <= Nat.max 1 (length p))%nat.
Proof.
  intros Hc. unfold payload_chunks.
  pose proof (length_fmap (fun k => take c (drop (k * c) p)) (seq 0 ((length p + c - 1) / c))) as Hl.
  fold (split_chunks c p) in Hl. rewrite length_seq in Hl.
  destruct (split_chunks c p) as [|b l]; [cbn; lia|]. rewrite Hl.
  apply Nat.max_le_iff. right.
  destruct (length p) as [|m] eqn:E.
  - rewrite Nat.div_small by lia. lia.
  - apply Nat.Div0.div_le_upper_bound. nia.
Qed.

Lemma valid_frame_id f : _is_valid_uint32 f = true <-> 1 <= f <= UINT32_MAX.
Proof. unfold _is_valid_uint32. rewrite andb_true_iff, !Z.leb_le. done. Qed.

Lemma valid_position i n :
  _is_valid_uint32_fragment_position i n = true <-> 1 <= i <= n /\ n <= UINT32_MAX.
Proof.
  unfold _is_valid_uint32_fragment_position. rewrite !andb_true_iff, !Z.leb_le. lia.
Qed.

Lemma new_frame_id_valid urandom :
  length urandom = 4%nat -> 1 <= _new_udp_frame_id urandom <= UINT32_MAX.
Proof.
  intros Hl. pose proof (of_be_range4 _ Hl). unfold _new_udp_frame_id.
  destruct (Z.eqb_spec (of_be urandom) 0); unfold UINT32_MAX in *; lia.
Qed.

Lemma encode_frame_ok f i n c :
  1 <= f <= UINT32_MAX -> 1 <= i <= n -> n <= UINT32_MAX ->
  _encode_data_frame f i n c = Ok (frame_bytes f i n c).
Proof.
  intros Hf Hi Hn. unfold _encode_data_frame.
  rewrite (proj2 (valid_frame_id f)), (proj2 (valid_position i n)) by lia. done.
Qed.

Lemma encode_chunks_ok f i n chunks :
  1 <= f <= UINT32_MAX -> 1 <= i -> i + Z.of_nat (length chunks) - 1 <= n -> n <= UINT32_MAX ->
  encode_chunks f i n chunks = Ok (imap (fun k c => frame_bytes f (i + Z.of_nat k) n c) chunks).
Proof.
  revert i. induction chunks as [|c chunks IH]; intros i Hf Hi Hn Hmax; [done|].
  cbn [encode_chunks length] in *. rewrite encode_frame_ok by lia. cbn [mbind res_bind].
  rewrite IH by lia. cbn [mbind res_bind imap]. f_equal. f_equal; [by rewrite Z.add_0_r|].
  apply imap_ext. intros k d _. unfold compose. f_equal. lia.
Qed.

Lemma length_frame_bytes f i n c : length (frame_bytes f i n c) = (12 + length c)%nat.
Proof. unfold frame_bytes. by rewrite !length_app, !length_be4. Qed.

Section sender.
Context {H : Type} (u : UdpTransportAdapter H) (urandom payload : bytes).
Context (Hmax : 12 < udp_max_datagram_size u).
Context (Hrnd : length urandom = 4%nat).
Context (Hlen : Z.of_nat (length payload) <= UINT32_MAX).

Definition sent_chunks : list bytes :=
  payload_chunks (Z.to_nat (udp_max_datagram_size u - 12)) payload.
Definition sent_total : Z := Z.of_nat (length sent_chunks).
Definition sent_frames : list bytes :=
  imap (fun k c => frame_bytes (_new_udp_frame_id urandom) (1 + Z.of_nat k) sent_total c) sent_chunks.

Lemma sent_total_range : 1 <= sent_total <= UINT32_MAX.
Proof using Hmax Hlen.
  clear Hrnd. unfold sent_total, sent_chunks.
  pose proof (payload_chunks_nonempty (Z.to_nat (udp_max_datagram_size u - 12)) payload).
  pose proof (payload_chunks_length (Z.to_nat (udp_max_datagram_size u - 12)) payload).
  unfold UINT32_MAX in *. lia.
Qed.

Lemma sent_join : mjoin sent_chunks = payload.
Proof using Hmax. clear Hrnd Hlen. apply payload_chunks_join. lia. Qed.

Lemma build_ok : _build_data_datagrams u urandom payload = Ok sent_frames.
Proof using Hmax Hrnd Hlen.
  pose proof sent_total_range as Htot. unfold _build_data_datagrams, _max_fragment_payload_size.
  unfold UDP_DATA_HEADER_SIZE. destruct (Z.leb_spec (udp_max_datagram_size u) 12); [lia|].
  cbn [mbind res_bind]. fold sent_chunks. fold sent_total.
  destruct (Z.leb_spec sent_total UINT32_MAX); [|lia].
  rewrite encode_chunks_ok; [|by apply new_frame_id_valid|lia|unfold sent_total; lia|lia].
  cbn [mbind res_bind]. fold sent_frames.
  rewrite (proj2 (forallb_forall _ _)); [done|]. intros d Hd. apply Z.leb_le.
  apply list_elem_of_In, elem_of_lookup_imap in Hd as (k & c & -> & Hc).
  rewrite length_frame_bytes.
  pose proof (payload_chunks_small (Z.to_nat (udp_max_datagram_size u - 12)) payload) as Hs.
  rewrite list.Forall_forall in Hs. specialize (Hs c ltac:(by eapply list_elem_of_lookup_2)). lia.
Qed.
End sender.

(** Fragmentation.  Whenever the configured datagram size exceeds the header,
    a payload is cut into datagrams that all fit that size, whose headers carry one
    valid frame id, the parts 1, 2, ... and their number, and whose bodies
    concatenate to the payload. *)
Theorem udp_fragmentation_spec {H : Type} (u : UdpTransportAdapter H) (urandom payload : bytes) :
  12 < udp_max_datagram_size u -> length urandom = 4%nat ->
  Z.of_nat (length payload) <= UINT32_MAX ->
  exists datagrams, _build_data_datagrams u urandom payload = Ok datagrams /\
    mjoin (drop 12 <$> datagrams) = payload /\
    (forall k d, datagrams !! k = Some d ->
       Z.of_nat (length d) <= udp_max_datagram_size u /\
       of_be (take 4 d) = _new_udp_frame_id urandom /\
       of_be (take 4 (drop 4 d)) = Z.of_nat k + 1 /\
       of_be (take 4 (drop 8 d)) = Z.of_nat (length datagrams)).
Proof.
  intros Hmax Hrnd Hlen. exists (sent_frames u urandom payload).
  pose proof (sent_total_range u payload Hmax Hlen) as Htot.
  pose proof (new_frame_id_valid urandom Hrnd) as Hid.
  split; [by apply build_ok|]. split.
  - rewrite <- (sent_join u payload Hmax) at 2. f_equal. unfold sent_frames.
    rewrite fmap_imap. transitivity (imap (fun _ c => c) (sent_chunks u payload)).
    + apply imap_ext. intros k c _. reflexivity.
    + apply list_eq. intros k. rewrite list_lookup_imap. by destruct (_ !! k).
  - intros k d Hd. unfold sent_frames in *. rewrite length_imap. fold (sent_total u payload).
    rewrite list_lookup_imap in Hd. apply fmap_Some in Hd as (c & Hc & ->).
    assert (Z.of_nat k < sent_total u payload) as Hk.
    { apply lookup_lt_Some in Hc. unfold sent_total. lia. }
    change (take 4 (frame_bytes ?f ?i ?n ?c)) with (be4 f).
    change (take 4 (drop 4 (frame_bytes ?f ?i ?n ?c))) with (be4 i).
    change (take 4 (drop 8 (frame_bytes ?f ?i ?n ?c))) with (be4 n).
    rewrite !of_be_be4 by (unfold UINT32_MAX in *; lia).
    split; [|split; [done|split; [lia|done]]]. rewrite length_frame_bytes.
    pose proof (payload_chunks_small (Z.to_nat (udp_max_datagram_size u - 12)) payload) as Hs.
    rewrite list.Forall_forall in Hs. specialize (Hs c ltac:(by eapply list_elem_of_lookup_2)). lia.
Qed.

Lemma udp_fragmentation_spec_witness :
  exists datagrams, _build_data_datagrams demo_udp (be4 7) (String.list_ascii_of_string "hello world")
    = Ok datagrams /\ mjoin (drop 12 <$> datagrams) = String.list_ascii_of_string "hello world".
Proof.
  destruct (udp_fragmentation_spec demo_udp (be4 7) (String.list_ascii_of_string "hello world"))
    as (ds & Hds & Hj & _); [vm_compute; reflexivity|reflexivity|vm_compute; congruence|].
  exists ds. split; [exact Hds|exact Hj].
Defined.

(** A keepalive is never mistaken for data, nor data for a keepalive: its bytes
    read as a header have a part number above the total. *)
Lemma keepalive_not_data f i n c d :
  _encode_data_frame f i n c = Ok d -> d <> UDP_KEEPALIVE_PAYLOAD.
Proof.
  unfold _encode_data_frame. destruct (_is_valid_uint32 f) eqn:Hf; [|done].
  destruct (_is_valid_uint32_fragment_position i n) eqn:Hp; [|done]. cbn [negb].
  apply valid_position in Hp. intros <-%Ok_inj Heq.
  assert (be4 i = take 4 (drop 4 UDP_KEEPALIVE_PAYLOAD)) as Ei by (by rewrite <- Heq).
  assert (be4 n = take 4 (drop 8 UDP_KEEPALIVE_PAYLOAD)) as En by (by rewrite <- Heq).
  apply (f_equal of_be) in Ei, En. vm_compute (of_be (take _ _)) in Ei, En.
  rewrite of_be_be4 in Ei, En by (unfold UINT32_MAX in *; lia). lia.
Qed.

(** ** The table of partial frames *)

Definition partial_ok (k : frame_key) (f : _PartialUdpFrame) : Prop :=
  pf_frame_id f = k.2 /\ 2 <= pf_total_parts f <= UINT32_MAX /\
  dom (pf_parts f) ⊆ list_to_set (C := gset Z) (range1 (pf_total_parts f)) /\
  Z.of_nat (size (pf_parts f)) < pf_total_parts f.

Definition frames_ok (d : odict frame_key _PartialUdpFrame) : Prop :=
  od_wf d /\ forall k f, od_get k d = Some f -> partial_ok k f.

Lemma elem_of_range1 i n : i ∈ range1 n <-> 1 <= i <= n.
Proof. unfold range1. rewrite elem_of_seqZ. lia. Qed.

Lemma size_range1 n : 0 <= n -> size (list_to_set (range1 n) : gset Z) = Z.to_nat n.
Proof.
  intros Hn. rewrite size_list_to_set by apply NoDup_seqZ. apply length_seqZ.
Qed.

(** A full table of parts has every index. *)
Lemma full_parts f i :
  0 <= pf_total_parts f ->
  dom (pf_parts f) ⊆ list_to_set (C := gset Z) (range1 (pf_total_parts f)) ->
  Z.of_nat (size (pf_parts f)) = pf_total_parts f ->
  1 <= i <= pf_total_parts f -> is_Some (pf_parts f !! i).
Proof.
  intros Hn Hsub Hsz Hi. apply elem_of_dom.
  assert (dom (pf_parts f) = list_to_set (C := gset Z) (range1 (pf_total_parts f))) as ->.
  { apply set_subseteq_size_eq; [done|]. rewrite size_range1, size_dom by done. lia. }
  apply elem_of_list_to_set, elem_of_range1. lia.
Qed.

Lemma build_payload_chunks f chunks :
  pf_total_parts f = Z.of_nat (length chunks) ->
  (forall k c, chunks !! k = Some c -> pf_parts f !! (Z.of_nat k + 1) = Some c) ->
  build_payload f = Ok (mjoin chunks).
Proof.
  intros Hn Hc. unfold build_payload.
  assert (map_res (fun i => match pf_parts f !! i with Some b => Ok b
                            | None => Raise (OtherError "KeyError") end)
            (range1 (pf_total_parts f)) = Ok chunks) as ->; [|done].
  apply map_res_Ok_Forall2, Forall2_same_length_lookup_2.
  - unfold range1. rewrite length_seqZ. lia.
  - intros k i c Hi Hk. apply lookup_seqZ in Hi as [-> _]. rewrite Z.add_comm, (Hc k c Hk). done.
Qed.

Lemma build_payload_total f :
  0 <= pf_total_parts f ->
  (forall i, 1 <= i <= pf_total_parts f -> is_Some (pf_parts f !! i)) ->
  exists b, build_payload f = Ok b.
Proof.
  intros Hn Hall.
  exists (mjoin ((fun i => default [] (pf_parts f !! i)) <$> range1 (pf_total_parts f))).
  apply build_payload_chunks.
  - rewrite length_fmap. unfold range1. rewrite length_seqZ. lia.
  - intros k c Hk. rewrite list_lookup_fmap in Hk. apply fmap_Some in Hk as (i & Hi & ->).
    apply lookup_seqZ in Hi as [-> Hlt]. rewrite Z.add_comm.
    destruct (Hall (1 + Z.of_nat k)) as [b ->]; [lia|done].
Qed.

Section table.
Context {H : Type}.
Implicit Types (u : UdpTransportAdapter H).

(** The parts after [setdefault]. *)
Definition add_part (f : _PartialUdpFrame) (part : Z) (b : bytes) : _PartialUdpFrame :=
  f <| pf_parts := match pf_parts f !! part with
                   | Some _ => pf_parts f | None => <[part := b]> (pf_parts f) end |>.

Lemma add_part_dom f part b : dom (pf_parts (add_part f part b)) = {[ part ]} ∪ dom (pf_parts f).
Proof.
  unfold add_part. cbn. destruct (pf_parts f !! part) eqn:E.
  - apply elem_of_dom_2 in E. set_solver.
  - by rewrite dom_insert_L.
Qed.

Lemma add_part_get f part b i :
  pf_parts (add_part f part b) !! i =
  if decide (i = part) then Some (default b (pf_parts f !! part)) else pf_parts f !! i.
Proof.
  unfold add_part. cbn. destruct (pf_parts f !! part) eqn:E; case_decide; subst; cbn;
    rewrite ?lookup_insert_eq, ?lookup_insert_ne by done; done.
Qed.

Lemma store_part_eq u frames K f part b :
  store_part u frames K f part b =
  let f' := add_part f part b in
  if is_complete f' then (Some <$> build_payload f', set_partial u (od_del K (od_set K f' frames)))
  else (Ok None, set_partial u (od_set K f' frames)).
Proof. unfold store_part. cbv zeta. fold (add_part f part b). by destruct (is_complete _). Qed.

Lemma frames_ok_set d K f : frames_ok d -> partial_ok K f -> frames_ok (od_set K f d).
Proof.
  intros [Hwf Hall] Hf. split; [by apply od_set_wf|]. intros k g.
  destruct (decide (K = k)) as [<-|Hne].
  - rewrite od_get_set_eq. by intros [= <-].
  - rewrite od_get_set_ne by done. apply Hall.
Qed.

Lemma frames_ok_del d K : frames_ok d -> frames_ok (od_del K d).
Proof.
  intros [Hwf Hall]. split; [by apply od_del_wf|]. intros k g.
  destruct (decide (K = k)) as [<-|Hne]; [by rewrite od_get_del_eq|].
  rewrite od_get_del_ne by done. apply Hall.
Qed.

Lemma od_get_filter (d : odict frame_key _PartialUdpFrame) (p : _PartialUdpFrame -> bool) k :
  od_wf d ->
  od_get k (filter (fun q => p q.2 = false) d) =
  match od_get k d with Some f => if p f then None else Some f | None => None end.
Proof.
  unfold od_wf. induction d as [|[k' f] d IH]; intros Hnd; [done|].
  apply NoDup_cons in Hnd as [Hk Hnd]. specialize (IH Hnd).
  rewrite filter_cons. case_decide as Hp; cbn [fst snd] in *; cbn [od_get].
  - case_decide; [by rewrite Hp|done].
  - rewrite IH. case_decide as Hd; [subst|done].
    apply not_false_iff_true in Hp. by rewrite Hp, (proj2 (od_get_None k' d) Hk).
Qed.

Lemma frames_ok_prune u now :
  frames_ok (udp_partial_frames u) -> frames_ok (udp_partial_frames (_prune_expired_frames u now)).
Proof.
  intros [Hwf Hall]. split.
  - unfold _prune_expired_frames, set_partial, od_wf in *. cbn.
    eapply sublist_NoDup; [exact Hwf|]. apply fmap_sublist, sublist_filter.
  - intros k f. unfold _prune_expired_frames, set_partial. cbn.
    rewrite od_get_filter by done. destruct (od_get k _) as [g|] eqn:E; [|done].
    destruct (frame_expired u now g); [done|]. intros [= <-]. by apply Hall.
Qed.

Lemma store_part_ok u frames K f part b :
  frames_ok frames -> partial_ok K f -> 1 <= part <= pf_total_parts f ->
  frames_ok (udp_partial_frames (store_part u frames K f part b).2) /\
  exists o, (store_part u frames K f part b).1 = Ok o.
Proof.
  intros Hfr (Hid & Htot & Hdom & Hsz) Hpart. rewrite store_part_eq. cbv zeta.
  assert (dom (pf_parts (add_part f part b)) ⊆
          list_to_set (C := gset Z) (range1 (pf_total_parts f))) as Hdom'.
  { rewrite add_part_dom. apply union_subseteq. split; [|done].
    apply singleton_subseteq_l, elem_of_list_to_set, elem_of_range1. lia. }
  assert (Z.of_nat (size (pf_parts (add_part f part b))) <= pf_total_parts f) as Hle.
  { rewrite <- size_dom. apply subseteq_size in Hdom'. rewrite size_range1 in Hdom' by lia. lia. }
  destruct (is_complete (add_part f part b)) eqn:Hc; unfold is_complete in Hc; cbn [fst snd].
  - apply Z.eqb_eq in Hc. split.
    + unfold set_partial. cbn. rewrite od_del_set. by apply frames_ok_del.
    + destruct (build_payload_total (add_part f part b)) as [p ->]; [cbn; lia| |eexists; done].
      intros i Hi. apply full_parts; [cbn; lia|exact Hdom'|exact Hc|exact Hi].
  - apply Z.eqb_neq in Hc. split; [|by eexists]. unfold set_partial. cbn.
    apply frames_ok_set; [done|]. repeat split; try done; cbn in *; lia.
Qed.

(** The table once a first part has reset the entry of its frame. *)
Definition reset_frames (d : odict frame_key _PartialUdpFrame) (K : frame_key) (part : Z)
    : odict frame_key _PartialUdpFrame :=
  if part =? 1 then od_del K d else d.

Lemma reset_frames_eq d K part :
  (if (part =? 1) && od_has K d then od_del K d else d) = reset_frames d K part.
Proof.
  unfold reset_frames, od_has. destruct (part =? 1); [cbn|done].
  case_bool_decide as Hs; [done|]. symmetry. apply od_del_absent.
  by apply eq_None_not_Some.
Qed.

Lemma frames_ok_reset d K part : frames_ok d -> frames_ok (reset_frames d K part).
Proof. unfold reset_frames. destruct (part =? 1); [apply frames_ok_del|done]. Qed.

Definition fresh_partial (f n now : Z) : _PartialUdpFrame := MkPartial f n ∅ now.

(** What one data datagram does, by the fields of its header. *)
Lemma try_reassemble_eq u now d host port :
  let f := of_be (take 4 d) in let i := of_be (take 4 (drop 4 d)) in
  let n := of_be (take 4 (drop 8 d)) in let K := (host, port, f) in
  let frames := reset_frames (udp_partial_frames u) K i in
  _try_reassemble_data_frame u now d host port =
  if (Z.of_nat (length d) <? 12) || negb (_is_valid_uint32 f)
     || negb (_is_valid_uint32_fragment_position i n) then (Ok None, u)
  else if n =? 1 then (Ok (Some (drop 12 d)), u)
  else match od_get K frames with
       | Some g => if pf_total_parts g =? n then store_part u frames K g i (drop 12 d)
                   else (Ok None, set_partial u (od_del K frames))
       | None => store_part u frames K (fresh_partial f n now) i (drop 12 d)
       end.
Proof.
  cbv zeta. unfold _try_reassemble_data_frame, UDP_DATA_HEADER_SIZE. cbv zeta.
  rewrite reset_frames_eq.
  destruct (_ <? 12); [done|]. cbn [orb].
  destruct (_is_valid_uint32 _); [|done]. cbn [orb negb].
  destruct (_is_valid_uint32_fragment_position _ _); [|done]. cbn [negb].
  destruct (_ =? 1); [done|]. destruct (od_get _ _) as [g|]; [|done].
  by destruct (pf_total_parts g =? _).
Qed.

Lemma fresh_partial_ok host port f n now :
  2 <= n <= UINT32_MAX -> partial_ok (host, port, f) (fresh_partial f n now).
Proof.
  intros Hn. unfold partial_ok, fresh_partial. cbn [pf_frame_id pf_total_parts pf_parts snd].
  rewrite dom_empty_L, map_size_empty. split; [done|]. split; [done|]. split; [set_solver|]. lia.
Qed.

Lemma try_reassemble_ok u now d host port :
  frames_ok (udp_partial_frames u) ->
  frames_ok (udp_partial_frames (_try_reassemble_data_frame u now d host port).2) /\
  exists o, (_try_reassemble_data_frame u now d host port).1 = Ok o.
Proof.
  intros Hok. rewrite try_reassemble_eq. cbv zeta.
  destruct (_ || _ || _) eqn:Hv; [by eauto|].
  apply orb_false_iff in Hv as [_ Hv]. apply negb_false_iff, valid_position in Hv.
  destruct (Z.eqb_spec (of_be (take 4 (drop 8 d))) 1) as [|Hn1]; [by eauto|].
  pose proof (frames_ok_reset _ (host, port, of_be (take 4 d)) (of_be (take 4 (drop 4 d))) Hok) as Hr.
  destruct (od_get _ _) as [g|] eqn:Hg.
  - destruct (Z.eqb_spec (pf_total_parts g) (of_be (take 4 (drop 8 d)))) as [Ht|Ht].
    + apply store_part_ok; [done|by apply Hr|lia].
    + cbn. split; [by apply frames_ok_del|by eauto].
  - apply store_part_ok; [done|apply fresh_partial_ok; lia|cbn; lia].
Qed.

Lemma datagram_received_ok u now at_ data host port :
  frames_ok (udp_partial_frames u) ->
  frames_ok (udp_partial_frames (datagram_received u now at_ data host port).2) /\
  exists o, (datagram_received u now at_ data host port).1 = Ok o.
Proof.
  intros Hok. unfold datagram_received. cbv zeta.
  assert (frames_ok (udp_partial_frames (_remember_peer u host port))) as Hok1.
  { unfold _remember_peer. by destruct (_ || _). }
  case_bool_decide; [by eauto|].
  pose proof (frames_ok_prune _ now Hok1) as Hok2.
  destruct (try_reassemble_ok _ now data host port Hok2) as [Hok3 [o Ho]].
  destruct (_try_reassemble_data_frame _ _ _ _ _) as [r u']. cbn in *. subst r. split; [done|].
  cbn. destruct o, (udp_inbound_packet_handler u'); by eauto.
Qed.

(** ** Adapter runs *)

Inductive udp_step : UdpTransportAdapter H -> UdpTransportAdapter H -> Prop :=
| udp_step_start u bound : udp_step u (start bound u).2
| udp_step_stop u : udp_step u (stop u).2
| udp_step_handler u h : udp_step u (u <| udp_inbound_packet_handler := Some h |>)
| udp_step_send u env urandom message : udp_step u (send env urandom message u).2
| udp_step_receive u now at_ data host port :
    udp_step u (datagram_received u now at_ data host port).2.

Lemma udp_step_ok u u' :
  udp_step u u' -> frames_ok (udp_partial_frames u) -> frames_ok (udp_partial_frames u').
Proof.
  destruct 1; intros Hok.
  - unfold start. case_bool_decide; [done|]. destruct bound as [[bh bp]|]; [|done]. cbn.
    by destruct (0 <? _).
  - cbn. split; [constructor|done].
  - done.
  - unfold send. destruct (udp_transport u); [|done]. cbn. unfold _remember_peer.
    by destruct (_ || _).
  - by apply datagram_received_ok.
Qed.
End table.

(** Hostile datagrams.  Whatever bytes arrive and whatever the adapter does in
    between, processing a datagram never raises, and the table of partial frames
    stays sound: one entry per peer and frame id, every part number within the
    announced total, and fewer parts than announced. *)
Theorem udp_receive_total {H : Type} (u0 u : UdpTransportAdapter H) (now : Z) (at_ : instant)
    (data : bytes) (host : string) (port : Z) :
  udp_partial_frames u0 = [] -> rtc udp_step u0 u ->
  frames_ok (udp_partial_frames u) /\
  exists o, (datagram_received u now at_ data host port).1 = Ok o.
Proof.
  intros H0 Hr.
  assert (frames_ok (udp_partial_frames u)) as Hok.
  { assert (frames_ok (udp_partial_frames u0)) as Hok0
      by (rewrite H0; split; [constructor|done]).
    clear H0. induction Hr as [|u1 u2 u3 Hs _ IH]; [done|]. apply IH. by eapply udp_step_ok. }
  split; [done|]. by apply datagram_received_ok.
Qed.

Lemma udp_receive_total_witness :
  exists o, (datagram_received demo_udp 0 0 (frame_bytes 7 2 3 []) "10.0.0.1" 9).1 = Ok o.
Proof. apply (udp_receive_total demo_udp demo_udp); [reflexivity|apply rtc_refl]. Defined.

(** ** Traces of datagrams *)

Record datagram_event := MkEvent {
  de_now : Z;
  de_at : instant;
  de_host : string;
  de_port : Z;
  de_data : bytes;
}.

Section trace.
Context {H : Type}.
Implicit Types (u : UdpTransportAdapter H).

Definition receive_event u (e : datagram_event)
    : res (option (H * TransportPacket)) * UdpTransportAdapter H :=
  datagram_received u (de_now e) (de_at e) (de_data e) (de_host e) (de_port e).

Definition delivered_payload (r : res (option (H * TransportPacket))) : option bytes :=
  match r with Ok (Some (_, packet)) => Some (tp_payload packet) | _ => None end.

(** A trace labels each datagram with the (0-based) part of the frame under
    study it carries, or with [None]. *)
Abbreviation trace := (list (datagram_event * option nat)).

Definition run u (evs : trace) : UdpTransportAdapter H :=
  foldl (fun u e => (receive_event u e.1).2) u evs.

(** The payloads handed to the handler on the frame's own datagrams. *)
Fixpoint frame_deliveries u (evs : trace) : list bytes :=
  match evs with
  | [] => []
  | (e, l) :: evs' =>
      match l with
      | Some _ => option_list (delivered_payload (receive_event u e).1)
      | None => []
      end ++ frame_deliveries (receive_event u e).2 evs'
  end.

Lemma frame_deliveries_app u evs evs' :
  frame_deliveries u (evs ++ evs') = frame_deliveries u evs ++ frame_deliveries (run u evs) evs'.
Proof.
  revert u. induction evs as [|[e l] evs IH]; intros u; [done|].
  cbn. by rewrite IH, app_assoc.
Qed.

Definition same_config u u' : Prop :=
  udp_inbound_packet_handler u' = udp_inbound_packet_handler u /\
  udp_fragment_reassembly_timeout u' = udp_fragment_reassembly_timeout u.

Lemma try_same_config u now d host port :
  same_config u (_try_reassemble_data_frame u now d host port).2.
Proof.
  rewrite try_reassemble_eq. cbv zeta.
  assert (forall fr K g i b, same_config u (store_part u fr K g i b).2) as Hst.
  { intros. rewrite store_part_eq. cbv zeta. by destruct (is_complete _). }
  repeat first [apply Hst | done | case_match].
Qed.

Lemma receive_same_config u e : same_config u (receive_event u e).2.
Proof.
  unfold receive_event, datagram_received. cbv zeta.
  assert (same_config u (_remember_peer u (de_host e) (de_port e))) as [E1 E2]
    by (unfold _remember_peer; by destruct (_ || _)).
  case_bool_decide; [done|].
  pose proof (try_same_config (_prune_expired_frames (_remember_peer u (de_host e) (de_port e))
    (de_now e)) (de_now e) (de_data e) (de_host e) (de_port e)) as [E3 E4].
  destruct (_try_reassemble_data_frame _ _ _ _ _) as [r u']. cbn in *. split; congruence.
Qed.

Lemma receive_frames_ok u e :
  frames_ok (udp_partial_frames u) -> frames_ok (udp_partial_frames (receive_event u e).2).
Proof. intros Hok. by apply datagram_received_ok. Qed.

Context (host : string) (port f : Z) (chunks : list bytes).
Abbreviation n := (Z.of_nat (length chunks)).
Abbreviation K := ((host, port, f) : frame_key).
Context (Hf : 1 <= f <= UINT32_MAX) (Hn : 2 <= n <= UINT32_MAX).

Definition is_part (k : nat) (e : datagram_event) : Prop :=
  de_host e = host /\ de_port e = port /\
  exists c, chunks !! k = Some c /\ de_data e = frame_bytes f (1 + Z.of_nat k) n c.

Definition foreign (e : datagram_event) : Prop :=
  de_data e = UDP_KEEPALIVE_PAYLOAD \/
  (de_host e, de_port e, of_be (take 4 (de_data e))) <> K.

Definition label_ok (p : datagram_event * option nat) : Prop :=
  match p.2 with Some k => is_part k p.1 | None => foreign p.1 end.

Definition entry u : option _PartialUdpFrame := od_get K (udp_partial_frames u).

(** The entry once expired frames are pruned at [now]. *)
Definition live_entry u (now : Z) : option _PartialUdpFrame :=
  match entry u with
  | Some g => if frame_expired u now g then None else Some g
  | None => None
  end.

Lemma remember_partial u h p : udp_partial_frames (_remember_peer u h p) = udp_partial_frames u.
Proof using. unfold _remember_peer. by destruct (_ || _). Qed.

Lemma remember_handler u h p :
  udp_inbound_packet_handler (_remember_peer u h p) = udp_inbound_packet_handler u.
Proof using. unfold _remember_peer. by destruct (_ || _). Qed.

Lemma remember_expired u h p now g :
  frame_expired (_remember_peer u h p) now g = frame_expired u now g.
Proof using. unfold _remember_peer. by destruct (_ || _). Qed.

Lemma entry_prune u h p now :
  frames_ok (udp_partial_frames u) ->
  entry (_prune_expired_frames (_remember_peer u h p) now) = live_entry u now.
Proof using.
  intros [Hwf _]. unfold entry, live_entry, _prune_expired_frames, set_partial. cbn.
  rewrite remember_partial, od_get_filter by done.
  unfold entry. destruct (od_get _ _); [|done]. by rewrite remember_expired.
Qed.

Lemma try_other_entry u now d h p :
  (h, p, of_be (take 4 d)) <> K ->
  entry (_try_reassemble_data_frame u now d h p).2 = entry u.
Proof using.
  intros Hne. rewrite try_reassemble_eq. cbv zeta. unfold entry.
  assert (od_get K (reset_frames (udp_partial_frames u) (h, p, of_be (take 4 d))
            (of_be (take 4 (drop 4 d)))) = od_get K (udp_partial_frames u)) as Hr.
  { unfold reset_frames. destruct (_ =? 1); [|done]. by apply od_get_del_ne. }
  assert (forall g i b, od_get K (udp_partial_frames (store_part u
     (reset_frames (udp_partial_frames u) (h, p, of_be (take 4 d)) (of_be (take 4 (drop 4 d))))
     (h, p, of_be (take 4 d)) g i b).2) = od_get K (udp_partial_frames u)) as Hst.
  { intros. rewrite store_part_eq. cbv zeta. destruct (is_complete _); cbn;
      rewrite ?od_del_set, ?od_get_del_ne, ?od_get_set_ne by done; done. }
  destruct (_ || _ || _); [done|]. destruct (_ =? 1); [done|].
  destruct (od_get (h, p, _) _) as [g|]; [|apply Hst].
  destruct (_ =? _); [apply Hst|]. cbn. by rewrite od_get_del_ne.
Qed.

Lemma foreign_entry u e :
  frames_ok (udp_partial_frames u) -> foreign e ->
  entry (receive_event u e).2 = entry u \/
  entry (receive_event u e).2 = live_entry u (de_now e).
Proof using.
  intros Hok Hfo. unfold receive_event, datagram_received. cbv zeta.
  case_bool_decide as Hk; [left; unfold entry; cbn; by rewrite remember_partial|].
  destruct Hfo as [|Hne]; [done|]. right.
  pose proof (try_other_entry (_prune_expired_frames (_remember_peer u (de_host e) (de_port e))
    (de_now e)) (de_now e) (de_data e) (de_host e) (de_port e) Hne) as He.
  rewrite entry_prune in He by done.
  by destruct (_try_reassemble_data_frame _ _ _ _ _).
Qed.

(** The partial frame a part of the frame is stored into. *)
Definition base_partial u (now : Z) (k : nat) : _PartialUdpFrame :=
  if decide (k = 0%nat) then fresh_partial f n now
  else default (fresh_partial f n now) (live_entry u now).

Lemma part_try u now k c :
  chunks !! k = Some c ->
  let frames := reset_frames (udp_partial_frames u) K (1 + Z.of_nat k) in
  let g := default (fresh_partial f n now) (od_get K frames) in
  pf_total_parts g = n ->
  _try_reassemble_data_frame u now (frame_bytes f (1 + Z.of_nat k) n c) host port
  = store_part u frames K g (1 + Z.of_nat k) c.
Proof using Hf Hn.
  intros Hc. cbv zeta. intros Htot. apply lookup_lt_Some in Hc as Hk.
  rewrite try_reassemble_eq. cbv zeta.
  change (take 4 (frame_bytes f ?i ?m c)) with (be4 f).
  change (take 4 (drop 4 (frame_bytes f ?i ?m c))) with (be4 i).
  change (take 4 (drop 8 (frame_bytes f ?i ?m c))) with (be4 m).
  change (drop 12 (frame_bytes f ?i ?m c)) with c.
  rewrite !of_be_be4 by (unfold UINT32_MAX in *; lia).
  rewrite (proj2 (valid_frame_id f)) by done.
  rewrite (proj2 (valid_position (1 + Z.of_nat k) n)) by lia.
  rewrite length_frame_bytes. destruct (Z.ltb_spec (Z.of_nat (12 + length c)) 12); [lia|].
  cbn [orb negb]. destruct (Z.eqb_spec n 1); [lia|].
  unfold frame_key in *. destruct (od_get (host, port, f) _) as [g|];
    cbn [from_option id] in *; [by rewrite Htot, Z.eqb_refl|done].
Qed.

Lemma part_step u e k c :
  frames_ok (udp_partial_frames u) -> de_host e = host -> de_port e = port ->
  chunks !! k = Some c -> de_data e = frame_bytes f (1 + Z.of_nat k) n c ->
  pf_total_parts (base_partial u (de_now e) k) = n ->
  let g := add_part (base_partial u (de_now e) k) (1 + Z.of_nat k) c in
  if is_complete g then
    entry (receive_event u e).2 = None /\
    (forall h b, udp_inbound_packet_handler u = Some h -> build_payload g = Ok b ->
       delivered_payload (receive_event u e).1 = Some b)
  else entry (receive_event u e).2 = Some g /\ delivered_payload (receive_event u e).1 = None.
Proof using Hf Hn.
  intros Hok Eh Ep Hc Hd Htot. cbv zeta. unfold receive_event, datagram_received. cbv zeta.
  assert (de_data e <> UDP_KEEPALIVE_PAYLOAD) as Hka.
  { rewrite Hd. eapply keepalive_not_data. apply encode_frame_ok; [done| |lia].
    apply lookup_lt_Some in Hc. lia. }
  rewrite bool_decide_false by done. rewrite Hd, Eh, Ep.
  set (u1 := _prune_expired_frames (_remember_peer u host port) (de_now e)).
  assert (udp_inbound_packet_handler u1 = udp_inbound_packet_handler u) as Hh
    by apply remember_handler.
  assert (default (fresh_partial f n (de_now e))
            (od_get K (reset_frames (udp_partial_frames u1)
               K (1 + Z.of_nat k)))
          = base_partial u (de_now e) k) as Hbase.
  { unfold base_partial, reset_frames. case_decide as Hk0.
    - subst k. destruct (Z.eqb_spec (1 + Z.of_nat 0) 1); [|lia]. by rewrite od_get_del_eq.
    - destruct (Z.eqb_spec (1 + Z.of_nat k) 1); [lia|]. f_equal.
      apply (entry_prune u host port (de_now e) Hok). }
  rewrite (part_try u1 (de_now e) k c Hc) by (by rewrite Hbase). rewrite Hbase, store_part_eq.
  clearbody u1. cbv zeta. destruct (is_complete _).
  - unfold entry. cbn. rewrite od_get_del_eq. split; [done|].
    intros h b Hu ->. cbn. rewrite Hh, Hu. done.
  - unfold entry. cbn. by rewrite od_get_set_eq.
Qed.

(** *** Reordered first part: nothing is delivered *)

Definition part_set (k : nat) : gset Z := {[ 1 + Z.of_nat k ]}.
Definition all_parts : gset Z := list_to_set (range1 n).

(** The entry holds only parts of [S]. *)
Definition holds_only u (S : gset Z) : Prop :=
  match entry u with Some g => pf_total_parts g = n /\ dom (pf_parts g) ⊆ S | None => True end.

Lemma live_holds_only u now S :
  holds_only u S -> match live_entry u now with
                    | Some g => pf_total_parts g = n /\ dom (pf_parts g) ⊆ S | None => True end.
Proof using Hf Hn.
  unfold holds_only, live_entry. destruct (entry u) as [g|]; [|done]. by destruct (frame_expired _ _ _).
Qed.

Lemma holds_only_base u now S k :
  holds_only u S -> pf_total_parts (base_partial u now k) = n /\
  dom (pf_parts (base_partial u now k)) ⊆ (if decide (k = 0%nat) then ∅ else S).
Proof using Hf Hn.
  intros Hw. apply (live_holds_only u now) in Hw. unfold base_partial.
  case_decide; [cbn; rewrite dom_empty_L; done|].
  destruct (live_entry u now) as [g|]; cbn; [done|]. rewrite dom_empty_L. split; [done|set_solver].
Qed.

Lemma incomplete_missing (g : _PartialUdpFrame) (m : Z) :
  pf_total_parts g = n -> dom (pf_parts g) ⊆ all_parts -> 1 <= m <= n -> m ∉ dom (pf_parts g) ->
  is_complete g = false.
Proof using Hf Hn.
  intros Ht Hsub Hm Hnot. apply Z.eqb_neq. intros Hsz.
  destruct (full_parts g m) as [b Hb]; [lia|by rewrite Ht|done|lia|].
  apply Hnot, elem_of_dom. eauto.
Qed.

Lemma holds_only_part u e k S m :
  frames_ok (udp_partial_frames u) -> is_part k e -> holds_only u S -> S ⊆ all_parts ->
  1 <= m <= n -> m <> 1 + Z.of_nat k -> (k <> 0%nat -> m ∉ S) ->
  holds_only (receive_event u e).2 ((if decide (k = 0%nat) then ∅ else S) ∪ part_set k) /\
  delivered_payload (receive_event u e).1 = None.
Proof using Hf Hn.
  intros Hok (Hh & Hp & c & Hc & Hd) Hw HS Hm Hmk HmS. apply lookup_lt_Some in Hc as Hk.
  destruct (holds_only_base u (de_now e) S k Hw) as [Ht Hdom].
  pose proof (part_step u e k c Hok Hh Hp Hc Hd Ht) as Hstep. cbv zeta in Hstep.
  set (g := add_part (base_partial u (de_now e) k) (1 + Z.of_nat k) c) in *.
  assert (dom (pf_parts g) ⊆ (if decide (k = 0%nat) then ∅ else S) ∪ part_set k) as Hg.
  { unfold g. rewrite add_part_dom. unfold part_set. set_solver. }
  assert (1 + Z.of_nat k ∈ all_parts) as Hin
    by (apply elem_of_list_to_set, elem_of_range1; lia).
  rewrite (incomplete_missing g m) in Hstep; [|exact Ht| |done|].
  - destruct Hstep as [He Hdel]. split; [|done]. unfold holds_only. by rewrite He.
  - unfold part_set in Hg. destruct (decide (k = 0%nat)); set_solver.
  - unfold part_set in Hg. destruct (decide (k = 0%nat)); set_solver.
Qed.

Lemma holds_only_foreign u e S :
  frames_ok (udp_partial_frames u) -> foreign e -> holds_only u S ->
  holds_only (receive_event u e).2 S.
Proof using Hf Hn.
  intros Hok Hfo Hw. unfold holds_only. destruct (foreign_entry u e Hok Hfo) as [->| ->]; [done|].
  by apply live_holds_only.
Qed.

(** A part that never comes keeps the frame incomplete. *)
Lemma missing_part_run u S evs m :
  frames_ok (udp_partial_frames u) -> holds_only u S -> S ⊆ all_parts -> 1 <= m <= n -> m ∉ S ->
  Forall label_ok evs -> (forall k, Some k ∈ evs.*2 -> m <> 1 + Z.of_nat k) ->
  frame_deliveries u evs = [] /\ frames_ok (udp_partial_frames (run u evs)) /\
  exists S', holds_only (run u evs) S' /\ S' ⊆ all_parts.
Proof using Hf Hn.
  revert u S. induction evs as [|[e l] evs IH]; intros u S Hok Hw HS Hm HmS Hl Hmiss.
  { split; [done|]. split; [exact Hok|]. by exists S. }
  apply Forall_cons in Hl as [Hl Hls]. cbn [frame_deliveries run foldl fst].
  pose proof (receive_frames_ok u e Hok) as Hok'.
  assert (forall k, Some k ∈ evs.*2 -> m <> 1 + Z.of_nat k) as Hmiss'
    by (intros k Hk; apply Hmiss; csimpl; by right).
  destruct l as [k|]; cbn in Hl.
  - destruct (holds_only_part u e k S m) as [Hw' ->]; try done.
    { apply Hmiss. csimpl. left. }
    cbn [option_list app]. eapply (IH _ _ Hok' Hw'); [|done| |done|done].
    + destruct Hl as (_ & _ & c & Hc & _). apply lookup_lt_Some in Hc.
      assert (1 + Z.of_nat k ∈ all_parts) by (apply elem_of_list_to_set, elem_of_range1; lia).
      unfold part_set. destruct (decide (k = 0%nat)); set_solver.
    + assert (m <> 1 + Z.of_nat k) by (apply Hmiss; csimpl; left).
      unfold part_set. destruct (decide (k = 0%nat)); set_solver.
  - apply (IH _ S Hok'); try done. by apply holds_only_foreign.
Qed.

(** *** First part first: the payload is delivered *)

Record collected (g : _PartialUdpFrame) (R : gset Z) (t0 : Z) : Prop := {
  col_total : pf_total_parts g = n;
  col_created : pf_created_at g = t0;
  col_dom : dom (pf_parts g) = R;
  col_parts : forall k c, chunks !! k = Some c -> 1 + Z.of_nat k ∈ R ->
    pf_parts g !! (1 + Z.of_nat k) = Some c;
}.

Lemma collected_fresh now : collected (fresh_partial f n now) ∅ now.
Proof using Hf Hn. split; cbn; [done|done|by rewrite dom_empty_L|set_solver]. Qed.

Lemma collected_add g R t0 k c :
  collected g R t0 -> chunks !! k = Some c ->
  collected (add_part g (1 + Z.of_nat k) c) (part_set k ∪ R) t0.
Proof using Hf Hn.
  intros [Ht Hcr Hd Hp] Hc. split; [done|done|by rewrite add_part_dom, Hd|].
  intros k' c' Hc' Hin. rewrite add_part_get. case_decide as Hk.
  - assert (k' = k) as -> by lia. assert (c' = c) as -> by congruence. f_equal.
    destruct (pf_parts g !! (1 + Z.of_nat k)) as [b|] eqn:E; [|done]. cbn.
    apply elem_of_dom_2 in E as Hin'. rewrite Hd in Hin'. rewrite (Hp k c Hc Hin') in E. congruence.
  - apply Hp; [done|]. unfold part_set in Hin. set_solver.
Qed.

Lemma collected_complete g R t0 :
  collected g R t0 -> R ⊆ all_parts -> is_complete g = true <-> all_parts ⊆ R.
Proof using Hf Hn.
  intros [Ht _ Hd _] HR. unfold is_complete. rewrite Z.eqb_eq, Ht, <- size_dom, Hd. split.
  - intros Hsz. assert (R = all_parts) as <-; [|done]. apply set_subseteq_size_eq; [done|].
    unfold all_parts. rewrite size_range1 by lia. lia.
  - intros Hall. assert (R = all_parts) as -> by set_solver.
    unfold all_parts. rewrite size_range1 by lia. lia.
Qed.

Lemma collected_payload g R t0 :
  collected g R t0 -> all_parts ⊆ R -> build_payload g = Ok (mjoin chunks).
Proof using Hf Hn.
  intros [Ht _ _ Hp] Hall. apply build_payload_chunks; [done|]. intros k c Hc.
  rewrite Z.add_comm. apply Hp; [done|]. apply Hall, elem_of_list_to_set, elem_of_range1.
  apply lookup_lt_Some in Hc. lia.
Qed.

(** One part: the base it is stored into determines the outcome. *)
Lemma collect_part u e k R t0 h :
  frames_ok (udp_partial_frames u) -> udp_inbound_packet_handler u = Some h -> is_part k e ->
  collected (base_partial u (de_now e) k) R t0 -> R ⊆ all_parts ->
  if decide (all_parts ⊆ part_set k ∪ R) then
    delivered_payload (receive_event u e).1 = Some (mjoin chunks)
  else delivered_payload (receive_event u e).1 = None /\
    exists g, entry (receive_event u e).2 = Some g /\ collected g (part_set k ∪ R) t0.
Proof using Hf Hn.
  intros Hok Hh (Eh & Ep & c & Hc & Hd) Hcol HR. apply lookup_lt_Some in Hc as Hk.
  pose proof (part_step u e k c Hok Eh Ep Hc Hd (col_total _ _ _ Hcol)) as Hstep.
  pose proof (collected_add _ _ _ k c Hcol Hc) as Hcol'. cbv zeta in Hstep.
  assert (part_set k ∪ R ⊆ all_parts) as HR'.
  { unfold part_set. apply union_subseteq. split; [|done].
    apply singleton_subseteq_l, elem_of_list_to_set, elem_of_range1. lia. }
  pose proof (collected_complete _ _ _ Hcol' HR') as Hfull. case_decide as Hall.
  - rewrite (proj2 Hfull Hall) in Hstep. apply (proj2 Hstep h); [done|].
    by apply (collected_payload _ _ _ Hcol').
  - destruct (is_complete _); [destruct Hall; by apply Hfull|].
    destruct Hstep as [He Hno]. split; [done|]. by eexists.
Qed.

Lemma live_collected u now g R t0 k :
  entry u = Some g -> collected g R t0 -> now - t0 < udp_fragment_reassembly_timeout u ->
  k <> 0%nat -> collected (base_partial u now k) R t0.
Proof using Hf Hn.
  intros He Hcol Hnow Hk. unfold base_partial, live_entry. rewrite decide_False, He by done.
  unfold frame_expired. rewrite (col_created _ _ _ Hcol).
  destruct (Z.leb_spec (udp_fragment_reassembly_timeout u) (now - t0)); [lia|done].
Qed.

(** A run of further parts and foreign traffic that misses part [j]. *)
Lemma collect_run u evs g R t0 h j :
  frames_ok (udp_partial_frames u) -> udp_inbound_packet_handler u = Some h ->
  entry u = Some g -> collected g R t0 -> R ⊆ all_parts -> (j < length chunks)%nat ->
  1 + Z.of_nat j ∉ R -> Forall label_ok evs -> Some 0%nat ∉ evs.*2 -> Some j ∉ evs.*2 ->
  Forall (fun p => de_now p.1 - t0 < udp_fragment_reassembly_timeout u) evs ->
  frame_deliveries u evs = [] /\ frames_ok (udp_partial_frames (run u evs)) /\
  same_config u (run u evs) /\
  exists g' R', entry (run u evs) = Some g' /\ collected g' R' t0 /\ R' ⊆ all_parts /\
    R ⊆ R' /\ forall k, Some k ∈ evs.*2 -> 1 + Z.of_nat k ∈ R'.
Proof using Hf Hn.
  revert u g R. induction evs as [|[e l] evs IH];
    intros u g R Hok Hh He Hcol HR Hj HjR Hl H0 Hnj Hnow.
  { split; [done|]. split; [exact Hok|]. split; [done|]. exists g, R. set_solver. }
  apply Forall_cons in Hl as [Hl Hls], Hnow as [Hnow Hnows]. csimpl in *.
  apply not_elem_of_cons in H0 as [H0 H0s], Hnj as [Hnj Hnjs].
  pose proof (receive_frames_ok u e Hok) as Hok'.
  destruct (receive_same_config u e) as [Ecf1 Ecf2]. rewrite <- Ecf2 in Hnows.
  set (u' := (receive_event u e).2) in *. rewrite <- Ecf1 in Hh.
  assert (exists g' R', entry u' = Some g' /\ collected g' R' t0 /\ R' ⊆ all_parts /\ R ⊆ R' /\
    1 + Z.of_nat j ∉ R' /\ (forall k, l = Some k -> 1 + Z.of_nat k ∈ R') /\
    match l with Some _ => option_list (delivered_payload (receive_event u e).1) | None => [] end = [])
    as (g' & R' & He' & Hcol' & HR' & Hsub & HjR' & Hlk & ->).
  { destruct l as [k|]; cbn in Hl.
    - assert (k <> 0%nat) as Hk0 by congruence.
      pose proof (live_collected u (de_now e) g R t0 k He Hcol Hnow Hk0) as Hbase.
      rewrite Ecf1 in Hh. pose proof (collect_part u e k R t0 h Hok Hh Hl Hbase HR) as Hpart.
      rewrite decide_False in Hpart.
      + destruct Hpart as [-> (g' & He' & Hcol')]. exists g', (part_set k ∪ R).
        destruct Hl as (_ & _ & c & Hc & _). apply lookup_lt_Some in Hc.
        assert (1 + Z.of_nat k ∈ all_parts) by (apply elem_of_list_to_set, elem_of_range1; lia).
        unfold part_set in *. split_and!; [done|done| |by apply union_subseteq_r| | |done].
        * by apply union_subseteq; split; [apply singleton_subseteq_l|].
        * intros [?%elem_of_singleton|]%elem_of_union; [|done]. apply Hnj. f_equal. lia.
        * intros k' [= <-]. by apply elem_of_union_l, elem_of_singleton.
      + intros Hall. unfold part_set in Hall.
        assert (1 + Z.of_nat j ∈ {[ 1 + Z.of_nat k ]} ∪ R) as [Hin%elem_of_singleton|]%elem_of_union
          by (apply Hall, elem_of_list_to_set, elem_of_range1; lia); [|done].
        apply Hnj. f_equal. lia.
    - exists g, R. split; [|done]. destruct (foreign_entry u e Hok Hl) as [Hfe|Hfe]; unfold u'; rewrite Hfe; [done|].
      unfold live_entry. rewrite He. unfold frame_expired. rewrite (col_created _ _ _ Hcol).
      destruct (Z.leb_spec (udp_fragment_reassembly_timeout u) (de_now e - t0)); [cbn in Hnow; lia|done]. }
  destruct (IH u' g' R' Hok' Hh He' Hcol' HR' Hj HjR' Hls H0s Hnjs Hnows)
    as (-> & Hok2 & [Hc1 Hc2] & g2 & R2 & He2 & Hcol2 & HR2 & Hsub2 & Hin2).
  split; [done|]. split; [exact Hok2|]. split; [split; congruence|].
  exists g2, R2. split_and!; [done|done|done|by etrans|].
  intros k [Hk|Hk]%elem_of_cons; [|by apply Hin2]. apply Hsub2, Hlk. congruence.
Qed.
End trace.

(** The event carries the [k]-th of the datagrams [ds], from the peer given. *)
Definition carries_datagram (ds : list bytes) (host : string) (port : Z) (k : nat)
    (e : datagram_event) : Prop :=
  de_host e = host /\ de_port e = port /\ ds !! k = Some (de_data e).

(** Every labelled event carries its datagram, every other one belongs to another
    frame or peer, or is a keepalive. *)
Definition trace_of (ds : list bytes) (host : string) (port f : Z)
    (evs : list (datagram_event * option nat)) : Prop :=
  Forall (fun p => match p.2 with
                   | Some k => carries_datagram ds host port k p.1
                   | None => foreign host port f p.1
                   end) evs.

Lemma trace_of_labels {H} (v : UdpTransportAdapter H) urandom payload host port evs :
  trace_of (sent_frames v urandom payload) host port (_new_udp_frame_id urandom) evs ->
  Forall (label_ok host port (_new_udp_frame_id urandom) (sent_chunks v payload)) evs.
Proof.
  intros Ht. eapply Forall_impl; [exact Ht|]. intros [e [k|]]; cbn; [|done].
  intros (Eh & Ep & Hd). split; [done|]. split; [done|].
  unfold sent_frames in Hd. rewrite list_lookup_imap in Hd.
  apply fmap_Some in Hd as (c & Hc & ->). eauto.
Qed.

Section udp_theorems.
Context {H H' : Type} (v : UdpTransportAdapter H') (urandom payload : bytes) (ds : list bytes).
Context (u : UdpTransportAdapter H) (h : H) (host : string) (port : Z).
Context (Hmax : 12 < udp_max_datagram_size v) (Hrnd : length urandom = 4%nat).
Context (Hlen : Z.of_nat (length payload) <= UINT32_MAX).
Context (Hds : _build_data_datagrams v urandom payload = Ok ds).
Context (Hparts : (2 <= length ds)%nat).

Lemma elem_of_labels (evs : list (datagram_event * option nat)) k :
  Some k ∈ evs.*2 -> k ∈ omap snd evs.
Proof using.
  intros Hk. apply list_elem_of_fmap in Hk as (p & Hp & Hin). apply list_elem_of_omap. eauto.
Qed.

Lemma ds_sent : ds = sent_frames v urandom payload.
Proof using Hmax Hrnd Hlen Hds. rewrite build_ok in Hds by done. by injection Hds. Qed.

Lemma ds_length : length (sent_chunks v payload) = length ds.
Proof using Hmax Hrnd Hlen Hds. rewrite ds_sent. unfold sent_frames. by rewrite length_imap. Qed.

(** C2: reassembly.  If the datagrams of one payload reach a receiver with the
    first part first and the others in any order, possibly duplicated and mixed with
    any other traffic and keepalives, all before the reassembly timeout, then the
    payload is delivered exactly once, with the last missing part; whatever the
    table held before under that frame id does not matter. *)
Theorem udp_reassembly (e1 e2 : datagram_event) (mid : list (datagram_event * option nat))
    (j : nat) :
  frames_ok (udp_partial_frames u) -> udp_inbound_packet_handler u = Some h ->
  trace_of ds host port (_new_udp_frame_id urandom) ((e1, Some 0%nat) :: mid ++ [(e2, Some j)]) ->
  Some 0%nat ∉ mid.*2 -> Some j ∉ mid.*2 -> j <> 0%nat ->
  (forall k, (k < length ds)%nat -> k = 0%nat \/ k = j \/ Some k ∈ mid.*2) ->
  Forall (fun p => de_now p.1 - de_now e1 < udp_fragment_reassembly_timeout u)
    (mid ++ [(e2, Some j)]) ->
  frame_deliveries u ((e1, Some 0%nat) :: mid ++ [(e2, Some j)]) = [payload].
Proof using Hmax Hrnd Hlen Hds Hparts.
  intros Hok Hh Ht H0 Hj Hj0 Hcov Htime.
  rewrite ds_sent in Ht. apply trace_of_labels in Ht.
  pose proof (new_frame_id_valid urandom Hrnd) as Hf.
  pose proof (sent_total_range v payload Hmax Hlen) as Hn. unfold sent_total in Hn.
  assert (2 <= Z.of_nat (length (sent_chunks v payload)) <= UINT32_MAX) as Hn2
    by (rewrite ds_length in *; lia).
  apply Forall_cons in Ht as [H1 Ht]. apply Forall_app in Ht as [Hm H2].
  rewrite Forall_singleton in H2. apply Forall_app in Htime as [Htm Ht2].
  rewrite Forall_singleton in Ht2. cbn in H1, H2, Ht2.
  assert ((j < length (sent_chunks v payload))%nat) as Hjlt.
  { destruct H2 as (_ & _ & c & Hc & _). by apply lookup_lt_Some in Hc. }
  pose proof (collect_part host port _ (sent_chunks v payload) Hf Hn2 u e1 0 ∅ (de_now e1) h
    Hok Hh H1 (collected_fresh _ _ Hf Hn2 _) (empty_subseteq _)) as Hfirst.
  rewrite decide_False in Hfirst; last first.
  { intros Hall. specialize (Hall (1 + Z.of_nat j)). unfold all_parts, part_set in Hall.
    rewrite elem_of_list_to_set, elem_of_range1 in Hall. set_solver by lia. }
  destruct Hfirst as [Hno (g & He & Hcol)]. cbn [frame_deliveries].
  rewrite Hno. cbn [option_list app].
  destruct (receive_same_config u e1) as [Ec1 Ec2].
  pose proof (receive_frames_ok u e1 Hok) as Hok1. rewrite <- Ec1 in Hh. rewrite <- Ec2 in Htm, Ht2.
  destruct (collect_run host port _ (sent_chunks v payload) Hf Hn2 (receive_event u e1).2 mid g
    (part_set 0 ∪ ∅) (de_now e1) h j Hok1 Hh He Hcol) as
    (Hmid & Hok2 & [Ec3 Ec4] & g' & R' & He' & Hcol' & HR' & Hsub & Hin); try done.
  { unfold part_set, all_parts. intros x Hx. apply elem_of_list_to_set, elem_of_range1. set_solver by lia. }
  { unfold part_set. set_solver by lia. }
  rewrite frame_deliveries_app, Hmid. cbn [frame_deliveries app].
  rewrite <- Ec4 in Ht2. rewrite <- Ec3 in Hh.
  pose proof (live_collected _ _ _ _ Hf Hn2 _ (de_now e2) g' R' (de_now e1) j He' Hcol' Ht2 Hj0) as Hb.
  pose proof (collect_part host port _ (sent_chunks v payload) Hf Hn2 _ e2 j R' (de_now e1) h
    Hok2 Hh H2 Hb HR') as Hlast.
  rewrite decide_True in Hlast; [by rewrite Hlast, sent_join|].
  intros x Hx. apply elem_of_list_to_set, elem_of_range1 in Hx.
  destruct (Hcov (Z.to_nat (x - 1))) as [Hk|[Hk|Hk]]; [rewrite <- ds_length; lia|..].
  - apply elem_of_union_r, Hsub. unfold part_set. assert (x = 1) as -> by lia. set_solver.
  - unfold part_set. apply elem_of_union_l, elem_of_singleton. lia.
  - apply elem_of_union_r. specialize (Hin _ Hk). by replace (1 + Z.of_nat (Z.to_nat (x - 1))) with x in Hin by lia.
Qed.

(** A first part that is not the first to arrive loses the frame.  If every
    datagram of a payload of several parts arrives at most once and the first to
    arrive is not part 1, then nothing is ever delivered, however little time
    passes: part 1 discards the parts already received. *)
Theorem udp_reordered_frame_lost (e0 : datagram_event) (k0 : nat)
    (rest : list (datagram_event * option nat)) :
  frames_ok (udp_partial_frames u) ->
  entry host port (_new_udp_frame_id urandom) u = None ->
  trace_of ds host port (_new_udp_frame_id urandom) ((e0, Some k0) :: rest) ->
  k0 <> 0%nat -> NoDup (omap snd ((e0, Some k0) :: rest)) ->
  frame_deliveries u ((e0, Some k0) :: rest) = [].
Proof using Hmax Hrnd Hlen Hds Hparts.
  intros Hok Hnone Ht Hk0 Hnd. rewrite ds_sent in Ht. apply trace_of_labels in Ht.
  pose proof (new_frame_id_valid urandom Hrnd) as Hf.
  pose proof (sent_total_range v payload Hmax Hlen) as Hn. unfold sent_total in Hn.
  assert (2 <= Z.of_nat (length (sent_chunks v payload)) <= UINT32_MAX) as Hn2
    by (rewrite ds_length in *; lia).
  assert (holds_only host port (_new_udp_frame_id urandom) (sent_chunks v payload) u ∅) as Hw
    by (unfold holds_only; by rewrite Hnone).
  destruct (decide (Some 0%nat ∈ rest.*2)) as [Hin|Hnin].
  - apply list_elem_of_fmap in Hin as ([e l] & Hl & Hin). cbn in Hl. subst l.
    apply list_elem_of_split in Hin as (pre & post & ->).
    rewrite app_comm_cons in *. rewrite frame_deliveries_app.
    apply Forall_app in Ht as [Hpre Hpost]. apply Forall_cons in Hpost as [H0 Hpost].
    rewrite omap_app in Hnd. apply NoDup_app in Hnd as (_ & Hdisj & Hnd). csimpl in Hnd.
    apply NoDup_cons in Hnd as [Hn0 _].
    destruct (missing_part_run host port _ _ Hf Hn2 u ∅ ((e0, Some k0) :: pre) 1) as
      (-> & Hok1 & S' & Hw1 & HS'); [done|done|apply empty_subseteq|lia|set_solver|done| |].
    { intros k Hk Heq. assert (k = 0%nat) as -> by lia. apply (Hdisj 0%nat).
      - by apply elem_of_labels.
      - csimpl. left. }
    cbn [app frame_deliveries].
    set (u1 := run u ((e0, Some k0) :: pre)) in *.
    assert (k0 < length (sent_chunks v payload))%nat as Hk0lt.
    { apply Forall_cons in Hpre as [(_ & _ & c & Hc & _) _]. by apply lookup_lt_Some in Hc. }
    destruct (holds_only_part host port _ _ Hf Hn2 u1 e 0 S' (1 + Z.of_nat k0)) as [Hw2 ->];
      [done|exact H0|done|done|lia|lia|done|].
    cbn [option_list app]. rewrite decide_True in Hw2 by done.
    eapply (missing_part_run host port _ _ Hf Hn2 _ _ post (1 + Z.of_nat k0)); [|exact Hw2| |lia| |done|].
    + by apply receive_frames_ok.
    + unfold part_set, all_parts. intros x Hx. apply elem_of_list_to_set, elem_of_range1. set_solver by lia.
    + unfold part_set. set_solver by lia.
    + intros k Hk Heq. assert (k = k0) as -> by lia. apply (Hdisj k0); [csimpl; left|].
      csimpl. right. by apply elem_of_labels.
  - apply (missing_part_run host port _ _ Hf Hn2 u ∅ _ 1); [done|done|apply empty_subseteq|lia|set_solver|done|].
    intros k Hk Heq. assert (k = 0%nat) as -> by lia. csimpl in Hk.
    apply elem_of_cons in Hk as [|]; [congruence|done].
Qed.
End udp_theorems.

Definition demo_receiver : UdpTransportAdapter unit :=
  demo_udp <| udp_inbound_packet_handler := Some tt |>.
Definition demo_payload : bytes := String.list_ascii_of_string "hello world".
Definition demo_datagrams : list bytes := catch_all [] (_build_data_datagrams demo_udp (be4 7) demo_payload).
Definition demo_event (k : nat) (now : Z) : datagram_event :=
  MkEvent now 0 "10.0.0.1" 9 (default [] (demo_datagrams !! k)).

Lemma udp_reassembly_witness :
  frame_deliveries demo_receiver
    [(demo_event 0 0, Some 0%nat); (demo_event 2 1, Some 2%nat);
     (MkEvent 2 0 "10.0.0.1" 9 UDP_KEEPALIVE_PAYLOAD, None); (demo_event 1 3, Some 1%nat)]
  = [demo_payload].
Proof.
  apply (udp_reassembly demo_udp (be4 7) demo_payload demo_datagrams demo_receiver tt "10.0.0.1" 9
    ltac:(vm_compute; reflexivity) eq_refl ltac:(vm_compute; congruence)
    ltac:(vm_compute; reflexivity) ltac:(vm_compute; lia) (demo_event 0 0) (demo_event 1 3)
    [(demo_event 2 1, Some 2%nat); (MkEvent 2 0 "10.0.0.1" 9 UDP_KEEPALIVE_PAYLOAD, None)] 1).
  - split; [constructor|done].
  - reflexivity.
  - repeat constructor.
  - cbn. set_solver.
  - cbn. set_solver.
  - lia.
  - vm_compute (length demo_datagrams). intros k Hk. destruct k as [|[|[|k]]]; [by left|by right; left| |lia].
    right; right. cbn. set_solver.
  - repeat constructor; cbn; lia.
Defined.

Lemma udp_reordered_frame_lost_witness :
  frame_deliveries demo_receiver
    [(demo_event 1 0, Some 1%nat); (demo_event 0 1, Some 0%nat); (demo_event 2 2, Some 2%nat)] = [].
Proof.
  apply (udp_reordered_frame_lost demo_udp (be4 7) demo_payload demo_datagrams demo_receiver "10.0.0.1" 9
    ltac:(vm_compute; reflexivity) eq_refl ltac:(vm_compute; congruence)
    ltac:(vm_compute; reflexivity) ltac:(vm_compute; lia)).
  - split; [constructor|done].
  - reflexivity.
  - repeat constructor.
  - lia.
  - cbn. repeat constructor; set_solver.
Defined.
