(* ===== verification/Reliable.v ===== *)
(** * Reliable delivery over a session

    Models [src/app/sessions/reliable.py]: the sender's queue of numbered
    messages and the receiver's reordering buffer.  [ReliableSessionState] is
    mutated in place by the source; here every operation returns the new state.
    [uuid4()] and [utc_now()] are arguments of the operations that call them.
    Durations given as [float] seconds are in microseconds. *)

From S2P Require Import Prelude PyJson PyTime.

Record ReliableOutboundMessage := MkOutbound {
  om_session_id : string;
  om_session_scope : string;
  om_reliable_message_id : string;
  om_sequence_number : Z;
  om_inner_message_type : string;
  om_inner_payload : jdict;
  om_created_at : instant;
  om_retry_after : Z;
  om_max_attempts : Z;
  om_attempts : Z;
  om_last_sent_at : option instant;
  om_acked_at : option instant;
  om_failed_at : option instant;
  om_failure_reason : option string;
}.

Definition om_pending (m : ReliableOutboundMessage) : bool :=
  match om_acked_at m, om_failed_at m with None, None => true | _, _ => false end.

Definition due_for_send (m : ReliableOutboundMessage) (now : instant)
    (retry_after : option Z) : bool :=
  if negb (om_pending m) then false
  else match om_last_sent_at m with
       | None => true
       | Some sent => sent + default (om_retry_after m) retry_after <=? now
       end.

Definition to_reliable_payload (m : ReliableOutboundMessage) : jdict :=
  [("reliable_message_id", JStr (om_reliable_message_id m));
   ("sequence_number", JInt (om_sequence_number m));
   ("inner_message_type", JStr (om_inner_message_type m));
   ("inner_payload", JObj (om_inner_payload m));
   ("created_at", JStr (isoformat (om_created_at m)));
   ("attempt", JInt (om_attempts m + 1))].

Record ReliableInboundMessage := MkInbound {
  im_reliable_message_id : string;
  im_sequence_number : pyint;
  im_inner_message_type : string;
  im_inner_payload : jdict;
  im_received_at : instant;
}.

Record ReliableSessionState := MkReliable {
  rs_session_id : string;
  rs_session_scope : string;
  rs_next_outbound_sequence : Z;
  rs_next_expected_inbound_sequence : Z;
  rs_outbound_by_sequence : odict Z ReliableOutboundMessage;
  rs_inbound_buffer_by_sequence : gmap Z ReliableInboundMessage;
  rs_delivered_message_ids : gset string;
}.

(** A fresh [ReliableSessionState(session_id=..., session_scope=...)]. *)
Definition new_reliable_state (session_id session_scope : string) : ReliableSessionState :=
  MkReliable session_id session_scope 1 1 [] ∅ ∅.

Record ReliableReceiveResult := MkReceiveResult {
  rr_ack_payload : jdict;
  rr_deliveries : list ReliableInboundMessage;
  rr_duplicate : bool;
  rr_buffered : bool;
}.

Definition set_outbound (st : ReliableSessionState)
    (out : odict Z ReliableOutboundMessage) : ReliableSessionState :=
  MkReliable (rs_session_id st) (rs_session_scope st) (rs_next_outbound_sequence st)
    (rs_next_expected_inbound_sequence st) out (rs_inbound_buffer_by_sequence st)
    (rs_delivered_message_ids st).

Definition set_inbound (st : ReliableSessionState) (next : Z)
    (buf : gmap Z ReliableInboundMessage) (ids : gset string) : ReliableSessionState :=
  MkReliable (rs_session_id st) (rs_session_scope st) (rs_next_outbound_sequence st)
    next (rs_outbound_by_sequence st) buf ids.

Definition build_reliable_outbound (st : ReliableSessionState)
    (uuid : string) (now : instant) (inner_message_type : string) (inner_payload : jdict)
    (retry_after : Z) (max_attempts : Z)
    : ReliableOutboundMessage * ReliableSessionState :=
  let message :=
    MkOutbound (rs_session_id st) (rs_session_scope st) uuid
      (rs_next_outbound_sequence st) inner_message_type inner_payload now
      retry_after max_attempts 0 None None None None in
  (message,
   MkReliable (rs_session_id st) (rs_session_scope st)
     (rs_next_outbound_sequence st + 1)
     (rs_next_expected_inbound_sequence st)
     (od_set (om_sequence_number message) message (rs_outbound_by_sequence st))
     (rs_inbound_buffer_by_sequence st) (rs_delivered_message_ids st)).

Definition parse_reliable_payload (now : instant) (payload : jdict)
    : res ReliableInboundMessage :=
  match od_get "reliable_message_id" payload with
  | Some (JStr reliable_message_id) =>
      require! str_truthy reliable_message_id
        else ValueError "reliable_message_id_required" in
      match json_pyint (default JNull (od_get "sequence_number" payload)) with
      | Some sequence_number =>
          require! negb (pyint_val sequence_number <? 1)
            else ValueError "sequence_number_invalid" in
          match od_get "inner_message_type" payload with
          | Some (JStr inner_message_type) =>
              require! str_truthy inner_message_type
                else ValueError "inner_message_type_required" in
              match od_get "inner_payload" payload with
              | Some (JObj inner_payload) =>
                  Ok (MkInbound reliable_message_id sequence_number
                        inner_message_type inner_payload now)
              | _ => Raise (ValueError "inner_payload_must_be_object")
              end
          | _ => Raise (ValueError "inner_message_type_required")
          end
      | None => Raise (ValueError "sequence_number_invalid")
      end
  | _ => Raise (ValueError "reliable_message_id_required")
  end.

(** The [while True] loop of [receive_reliable_payload]: pop the next expected
    message until it is missing.  [None] means that the fuel ran out. *)
Fixpoint drain (fuel : nat) (next : Z) (buf : gmap Z ReliableInboundMessage)
    (ids : gset string) (deliveries : list ReliableInboundMessage)
    : option (Z * gmap Z ReliableInboundMessage * gset string * list ReliableInboundMessage) :=
  match fuel with
  | O => None
  | S fuel' =>
      match buf !! next with
      | None => Some (next, buf, ids, deliveries)
      | Some m =>
          if decide (im_reliable_message_id m ∈ ids)
          then drain fuel' (next + 1) (delete next buf) ids deliveries
          else drain fuel' (next + 1) (delete next buf)
                 ({[im_reliable_message_id m]} ∪ ids) (deliveries ++ [m])
      end
  end.

Definition ack_payload_for (m : ReliableInboundMessage) (now : instant) : jdict :=
  [("ack_for_message_id", JStr (im_reliable_message_id m));
   ("ack_for_sequence_number", pyint_json (im_sequence_number m));
   ("received_at", JStr (isoformat now))].

(** [receive_reliable_payload(state, payload)]; [now] and [now_ack] are the
    clock readings of the parser and of the acknowledgement.  The buffer's size
    bounds the delivery loop ([drain_fuel] below), so [None] never occurs. *)
Definition receive_reliable_payload (st : ReliableSessionState) (now now_ack : instant)
    (payload : jdict) : res (ReliableReceiveResult * ReliableSessionState) :=
  let! inbound := parse_reliable_payload now payload in
  let ack := ack_payload_for inbound now_ack in
  let seq := pyint_val (im_sequence_number inbound) in
  let next := rs_next_expected_inbound_sequence st in
  let buf := rs_inbound_buffer_by_sequence st in
  let ids := rs_delivered_message_ids st in
  if bool_decide (im_reliable_message_id inbound ∈ ids)
  then Ok (MkReceiveResult ack [] true false, st)
  else if seq <? next
  then Ok (MkReceiveResult ack [] true false, st)
  else if next <? seq
  then
    let buf' := match buf !! seq with Some _ => buf | None => <[seq := inbound]> buf end in
    Ok (MkReceiveResult ack [] false true, set_inbound st next buf' ids)
  else
    let buf' := <[seq := inbound]> buf in
    match drain (S (size buf')) next buf' ids [] with
    | Some (next', buf'', ids', deliveries) =>
        Ok (MkReceiveResult ack deliveries false false, set_inbound st next' buf'' ids')
    | None => Raise (OtherError "unreachable")
    end.

(** ** The delivery loop *)

Lemma drain_fuel fuel next buf ids acc :
  (size buf < fuel)%nat -> exists r, drain fuel next buf ids acc = Some r.
Proof.
  revert next buf ids acc. induction fuel as [|fuel IH]; intros next buf ids acc Hf; [lia|].
  simpl. destruct (buf !! next) as [m|] eqn:E; [|by eexists].
  assert (size (delete next buf) < fuel)%nat.
  { pose proof (map_size_ne_0_lookup_2 buf next ltac:(by eexists)).
    rewrite map_size_delete_Some by (by eexists). lia. }
  case_decide; by apply IH.
Qed.

(** The loop stops past the first missing number and only moves forward. *)
Lemma drain_next fuel next buf ids acc n' b' i' acc' :
  drain fuel next buf ids acc = Some (n', b', i', acc') -> next <= n' /\ b' !! n' = None.
Proof.
  revert next buf ids acc. induction fuel as [|fuel IH]; intros next buf ids acc; simpl; [done|].
  destruct (buf !! next) as [m|] eqn:E.
  - case_decide; intros Hd; apply IH in Hd as [? ?]; split; (lia || done).
  - intros; simplify_eq; split; [lia|done].
Qed.

Lemma drain_advances fuel next buf ids acc n' b' i' acc' :
  is_Some (buf !! next) ->
  drain fuel next buf ids acc = Some (n', b', i', acc') -> next < n'.
Proof.
  destruct fuel as [|fuel]; simpl; [done|]. intros [m ->].
  case_decide; intros Hd; apply drain_next in Hd as [? ?]; lia.
Qed.

(** Reception never gets stuck: it raises exactly when the payload does not parse. *)
Lemma receive_total st now now_ack payload :
  match parse_reliable_payload now payload with
  | Ok _ => exists r st', receive_reliable_payload st now now_ack payload = Ok (r, st')
  | Raise e => receive_reliable_payload st now now_ack payload = Raise e
  end.
Proof.
  unfold receive_reliable_payload.
  destruct (parse_reliable_payload now payload) as [m|e]; cbn; [|done].
  case_bool_decide; [by eauto|]. zcases; [by eauto..|].
  destruct (drain_fuel (S (size (<[pyint_val (im_sequence_number m) := m]>
    (rs_inbound_buffer_by_sequence st)))) (rs_next_expected_inbound_sequence st)
    (<[pyint_val (im_sequence_number m) := m]> (rs_inbound_buffer_by_sequence st))
    (rs_delivered_message_ids st) []) as [[[[n b] i] d] Hd]; [lia|].
  cbn in Hd. rewrite Hd. eauto.
Qed.

(** ** The receiver against the sender's log

    [L] is the list of messages the sender numbered 1, 2, ...; [R] the set of
    numbers that reached the receiver; [D] what was handed to the application. *)

Definition entry : Type := string * string * jdict.
Definition entry_of (m : ReliableInboundMessage) : entry :=
  (im_reliable_message_id m, im_inner_message_type m, im_inner_payload m).
Definition entry_id (e : entry) : string := e.1.1.

(** The [n]-th message of the log, numbered from 1. *)
Definition log_at (L : list entry) (n : Z) : option entry :=
  if n <? 1 then None else L !! Z.to_nat (n - 1).

Record mid (L : list entry) (R : gset Z) (next : Z) (buf : gmap Z ReliableInboundMessage)
    (ids : gset string) (D : list entry) : Prop := {
  mid_pos : 1 <= next;
  mid_below : forall j, 1 <= j < next -> j ∈ R;
  mid_buf : forall k m, buf !! k = Some m ->
    k ∈ R /\ next <= k /\ log_at L k = Some (entry_of m);
  mid_above : forall k, k ∈ R -> next <= k -> is_Some (buf !! k);
  mid_range : forall k, k ∈ R -> is_Some (log_at L k);
  mid_ids : forall i, i ∈ ids <-> i ∈ entry_id <$> take (Z.to_nat (next - 1)) L;
  mid_delivered : D = take (Z.to_nat (next - 1)) L;
}.

Definition receiver_inv (L : list entry) (R : gset Z) (st : ReliableSessionState)
    (D : list entry) : Prop :=
  mid L R (rs_next_expected_inbound_sequence st) (rs_inbound_buffer_by_sequence st)
    (rs_delivered_message_ids st) D
  /\ rs_next_expected_inbound_sequence st ∉ R.

Lemma log_at_inj L n n' e e' :
  NoDup (entry_id <$> L) -> log_at L n = Some e -> log_at L n' = Some e' ->
  entry_id e = entry_id e' -> n = n'.
Proof.
  unfold log_at. zcases; intros Hnd He He' Hid; try done.
  assert (Z.to_nat (n - 1) = Z.to_nat (n' - 1)); [|lia].
  eapply NoDup_lookup; [exact Hnd| |].
  - by rewrite list_lookup_fmap, He.
  - by rewrite list_lookup_fmap, He', Hid.
Qed.

Lemma take_log_at L next e :
  1 <= next -> log_at L next = Some e ->
  take (Z.to_nat (next + 1 - 1)) L = take (Z.to_nat (next - 1)) L ++ [e].
Proof.
  unfold log_at. zcases; [lia|]. intros _ He.
  replace (Z.to_nat (next + 1 - 1)) with (S (Z.to_nat (next - 1))) by lia.
  by apply take_S_r.
Qed.

(** The identifier of a message numbered [k] is among the delivered ones
    exactly when [k] is below the next expected number. *)
Lemma mid_id_iff L R next buf ids D k e :
  NoDup (entry_id <$> L) -> mid L R next buf ids D -> log_at L k = Some e ->
  entry_id e ∈ ids <-> k < next.
Proof.
  intros Hnd Hm He. rewrite (mid_ids _ _ _ _ _ _ Hm).
  pose proof (mid_pos _ _ _ _ _ _ Hm).
  assert (1 <= k) as Hk by (revert He; unfold log_at; zcases; [done|lia]).
  assert (L !! Z.to_nat (k - 1) = Some e) as He'
    by (revert He; unfold log_at; zcases; [lia|done]).
  split.
  - intros Hin. apply list_elem_of_fmap in Hin as (e' & Hid & Hin).
    apply list_elem_of_lookup in Hin as [j Hj].
    apply lookup_take_Some in Hj as [Hj Hlt].
    assert (k = Z.of_nat j + 1); [|lia].
    eapply (log_at_inj L _ _ e e'); try done.
    unfold log_at. zcases; [lia|]. rewrite <- Hj. f_equal. lia.
  - intros Hlt. apply list_elem_of_fmap. exists e. split; [done|].
    apply list_elem_of_lookup. exists (Z.to_nat (k - 1)).
    apply lookup_take_Some. split; [done|lia].
Qed.

(** One turn of the loop keeps [mid]: the message at the next expected number
    is the log's, it was not delivered before, and it is delivered now. *)
Lemma mid_step L R next buf ids D m :
  NoDup (entry_id <$> L) -> mid L R next buf ids D -> buf !! next = Some m ->
  im_reliable_message_id m ∉ ids /\
  mid L R (next + 1) (delete next buf) ({[im_reliable_message_id m]} ∪ ids) (D ++ [entry_of m]).
Proof.
  intros Hnd Hm Hb. pose proof (mid_buf _ _ _ _ _ _ Hm _ _ Hb) as (HR & _ & He).
  pose proof (mid_pos _ _ _ _ _ _ Hm) as Hpos.
  split.
  { change (im_reliable_message_id m) with (entry_id (entry_of m)).
    rewrite (mid_id_iff _ _ _ _ _ _ _ _ Hnd Hm He). lia. }
  pose proof (take_log_at _ _ _ Hpos He) as Htake.
  split.
  - lia.
  - intros j Hj. destruct (decide (j = next)) as [->|]; [done|]. apply (mid_below _ _ _ _ _ _ Hm). lia.
  - intros k m' Hk. apply lookup_delete_Some in Hk as [Hne Hk].
    pose proof (mid_buf _ _ _ _ _ _ Hm _ _ Hk) as (? & ? & ?). repeat split; try done. lia.
  - intros k Hk Hle. rewrite lookup_delete_ne by lia. apply (mid_above _ _ _ _ _ _ Hm); [done|lia].
  - apply (mid_range _ _ _ _ _ _ Hm).
  - intros i. rewrite Htake, fmap_app, elem_of_app, elem_of_union, elem_of_singleton,
      (mid_ids _ _ _ _ _ _ Hm). simpl. rewrite list_elem_of_singleton. tauto.
  - by rewrite Htake, (mid_delivered _ _ _ _ _ _ Hm).
Qed.

Lemma drain_mid L R fuel next buf ids D acc n' b' i' acc' :
  NoDup (entry_id <$> L) -> mid L R next buf ids D ->
  drain fuel next buf ids acc = Some (n', b', i', acc') ->
  exists new, acc' = acc ++ new /\ mid L R n' b' i' (D ++ (entry_of <$> new)).
Proof.
  intros Hnd. revert next buf ids D acc.
  induction fuel as [|fuel IH]; intros next buf ids D acc Hm; simpl; [done|].
  destruct (buf !! next) as [m|] eqn:Hb.
  - destruct (mid_step _ _ _ _ _ _ _ Hnd Hm Hb) as [Hnot Hm'].
    rewrite decide_False by done. intros Hd.
    destruct (IH _ _ _ _ _ Hm' Hd) as (new & -> & Hm'').
    exists (m :: new). rewrite <- app_assoc in *. by split.
  - intros; simplify_eq. exists []. simpl. by rewrite !app_nil_r.
Qed.

(** Adding a number to the received set. *)
Lemma mid_receive L R next buf ids D m :
  let seq := pyint_val (im_sequence_number m) in
  mid L R next buf ids D -> next <= seq -> log_at L seq = Some (entry_of m) ->
  forall buf', buf' = <[seq := m]> buf \/ (buf' = buf /\ is_Some (buf !! seq)) ->
  mid L ({[seq]} ∪ R) next buf' ids D.
Proof.
  intros seq Hm Hle He buf' Hbuf'. destruct Hm as [Hpos Hbelow Hbuf Habove Hrange Hids HD].
  split; try done.
  - set_solver.
  - intros k m' Hk. destruct Hbuf' as [->|[-> _]].
    + apply lookup_insert_Some in Hk as [[<- <-]|[Hne Hk]]; [set_solver|].
      pose proof (Hbuf _ _ Hk). set_solver.
    + pose proof (Hbuf _ _ Hk). set_solver.
  - intros k Hk Hle'. destruct Hbuf' as [->|[-> Hs]].
    + apply elem_of_union in Hk as [Hk|Hk].
      * apply elem_of_singleton in Hk as ->. rewrite lookup_insert_eq. by eexists.
      * destruct (decide (k = seq)) as [->|]; [rewrite lookup_insert_eq; by eexists|].
        rewrite lookup_insert_ne by done. auto.
    + apply elem_of_union in Hk as [Hk|Hk]; [|auto].
      by apply elem_of_singleton in Hk as ->.
  - intros k [Hk|Hk]%elem_of_union; [|auto]. apply elem_of_singleton in Hk as ->. by eexists.
Qed.

(** A message that was already delivered changes nothing. *)
Lemma receiver_inv_dup L R st D seq :
  receiver_inv L R st D -> 1 <= seq < rs_next_expected_inbound_sequence st ->
  receiver_inv L ({[seq]} ∪ R) st (D ++ []).
Proof.
  intros [Hm Hnext] Hseq. rewrite app_nil_r.
  assert ({[seq]} ∪ R = R) as ->; [|done].
  pose proof (mid_below _ _ _ _ _ _ Hm _ Hseq). set_solver.
Qed.

(** One reception keeps the receiver's invariant, for any message of the log. *)
Lemma receive_inv L R st D now now_ack payload m :
  NoDup (entry_id <$> L) -> receiver_inv L R st D ->
  parse_reliable_payload now payload = Ok m ->
  log_at L (pyint_val (im_sequence_number m)) = Some (entry_of m) ->
  exists r st', receive_reliable_payload st now now_ack payload = Ok (r, st') /\
    receiver_inv L ({[pyint_val (im_sequence_number m)]} ∪ R) st'
      (D ++ (entry_of <$> rr_deliveries r)).
Proof.
  intros Hnd Hinv Hparse He. pose proof Hinv as [Hm Hnext].
  set (seq := pyint_val (im_sequence_number m)) in *.
  assert (1 <= seq) as Hseq by (revert He; unfold log_at; zcases; [done|lia]).
  unfold receive_reliable_payload. rewrite Hparse. cbn [mbind res_bind]. cbv zeta. fold seq.
  pose proof (mid_id_iff _ _ _ _ _ _ _ _ Hnd Hm He) as Hid.
  change (entry_id (entry_of m)) with (im_reliable_message_id m) in Hid.
  case_bool_decide as Hin.
  { eexists _, _; split; [done|]. apply receiver_inv_dup; [done|]. apply Hid in Hin. lia. }
  zcases; [rewrite Hid in Hin; lia| |].
  - eexists _, _; split; [done|]. rewrite app_nil_r.
    split; cbn; [|intros [Hx|Hx]%elem_of_union; [apply elem_of_singleton in Hx; lia|done]].
    eapply (mid_receive L R _ _ _ D m); [done|fold seq; lia|done|]. fold seq.
    destruct (rs_inbound_buffer_by_sequence st !! seq); [right; split; [done|by eexists]|by left].
  - assert (rs_next_expected_inbound_sequence st = seq) as Hs by lia. rewrite Hs in *.
    pose proof (mid_receive _ _ _ _ _ _ m Hm ltac:(fold seq; lia) He _ (or_introl eq_refl)) as Hm'.
    fold seq in Hm'.
    destruct (drain _ _ _ _ _) as [[[[n b] i] d]|] eqn:Hd.
    + destruct (drain_mid _ _ _ _ _ _ _ _ _ _ _ _ Hnd Hm' Hd) as (new & -> & Hm'').
      eexists _, _; split; [done|]. cbn. split; cbn; [done|].
      intros Hn. apply drain_next in Hd as [_ Hd].
      destruct (mid_above _ _ _ _ _ _ Hm'' n Hn) as [? Hsome]; [lia|congruence].
    + edestruct drain_fuel as [r Hr]; [|rewrite Hr in Hd; discriminate]. lia.
Qed.

(** ** Runs of the receiver *)

(** An arrival: the payload and the two clock readings of its reception. *)
Definition arrival : Type := instant * instant * jdict.

Fixpoint receive_all (st : ReliableSessionState) (ps : list arrival)
    : res (list ReliableInboundMessage * ReliableSessionState) :=
  match ps with
  | [] => Ok ([], st)
  | (now, now_ack, payload) :: ps' =>
      let! (r, st1) := receive_reliable_payload st now now_ack payload in
      let! (ds, st2) := receive_all st1 ps' in
      Ok (rr_deliveries r ++ ds, st2)
  end.

(** The payload of an arrival is the log's message with that number. *)
Definition carries (L : list entry) (p : arrival) : Prop :=
  exists m, parse_reliable_payload p.1.1 p.2 = Ok m /\
    log_at L (pyint_val (im_sequence_number m)) = Some (entry_of m).

(** The numbers of the payloads that parse. *)
Definition arrival_seq (p : arrival) : option Z :=
  match parse_reliable_payload p.1.1 p.2 with
  | Ok m => Some (pyint_val (im_sequence_number m))
  | Raise _ => None
  end.
Definition seqs (ps : list arrival) : gset Z := list_to_set (omap arrival_seq ps).

Lemma receiver_inv_init L sid scope :
  receiver_inv L ∅ (new_reliable_state sid scope) [].
Proof.
  split; [|set_solver]. split; cbn; first [done|set_solver|lia].
Qed.

Lemma receive_all_inv L R st D ps :
  NoDup (entry_id <$> L) -> receiver_inv L R st D -> Forall (carries L) ps ->
  exists out st', receive_all st ps = Ok (out, st') /\
    receiver_inv L (seqs ps ∪ R) st' (D ++ (entry_of <$> out)).
Proof.
  intros Hnd. revert R st D.
  induction ps as [|[[now now_ack] p] ps IH]; intros R st D Hinv Hps.
  - eexists [], st. split; [done|]. assert (seqs [] = ∅) as -> by done.
    rewrite (left_id_L ∅ (∪)). cbn [fmap list_fmap]. by rewrite app_nil_r.
  - apply Forall_cons in Hps as [(m & Hm & He) Hps]. cbn in Hm.
    destruct (receive_inv _ _ _ _ _ now_ack _ _ Hnd Hinv Hm He) as (r & st1 & Hr & Hinv1).
    destruct (IH _ _ _ Hinv1 Hps) as (out & st2 & Hall & Hinv2).
    exists (rr_deliveries r ++ out), st2. split.
    { cbn [receive_all]. rewrite Hr. cbn. rewrite Hall. done. }
    rewrite fmap_app, app_assoc.
    replace (seqs ((now, now_ack, p) :: ps) ∪ R)
      with (seqs ps ∪ ({[pyint_val (im_sequence_number m)]} ∪ R)); [done|].
    unfold seqs. simpl. unfold arrival_seq at 2. cbn. rewrite Hm. cbn. set_solver.
Qed.

(** C1: exactly-once, in-order delivery.  Whatever subset of the sender's
    messages arrives, in whatever order and however often, the receiver hands
    the application exactly the longest prefix of the sender's log whose
    messages have all arrived: nothing twice, nothing out of order, nothing
    with a missing predecessor, and nothing late. *)
Theorem reliable_exactly_once_in_order (L : list entry) (sid scope : string)
    (ps : list arrival) :
  NoDup (entry_id <$> L) -> Forall (carries L) ps ->
  exists out st' (n : nat),
    receive_all (new_reliable_state sid scope) ps = Ok (out, st') /\
    entry_of <$> out = take n L /\
    rs_next_expected_inbound_sequence st' = Z.of_nat n + 1 /\
    (forall j, 1 <= j <= Z.of_nat n -> j ∈ seqs ps) /\
    Z.of_nat n + 1 ∉ seqs ps.
Proof.
  intros Hnd Hps.
  destruct (receive_all_inv _ _ _ _ _ Hnd (receiver_inv_init L sid scope) Hps)
    as (out & st' & Hrun & [Hm Hnext]).
  pose proof (mid_pos _ _ _ _ _ _ Hm).
  exists out, st', (Z.to_nat (rs_next_expected_inbound_sequence st' - 1)).
  rewrite (right_id_L ∅ (∪)) in Hm, Hnext. rewrite Z2Nat.id by lia.
  split; [done|]. split; [apply (mid_delivered _ _ _ _ _ _ Hm)|]. split; [lia|]. split.
  - intros j Hj. apply (mid_below _ _ _ _ _ _ Hm). lia.
  - by rewrite Z.sub_add.
Qed.

Definition demo_payload (id : string) (seq : Z) : jdict :=
  [("reliable_message_id", JStr id); ("sequence_number", JInt seq);
   ("inner_message_type", JStr "T"); ("inner_payload", JObj [])].

Lemma reliable_exactly_once_in_order_witness :
  exists out st' (n : nat),
    receive_all (new_reliable_state "s" "physical")
      [(5, 6, demo_payload "c" 3); (5, 6, demo_payload "a" 1); (7, 8, demo_payload "c" 3)]
      = Ok (out, st') /\
    entry_of <$> out = take n [("a", "T", []); ("b", "T", []); ("c", "T", [])] /\
    rs_next_expected_inbound_sequence st' = Z.of_nat n + 1 /\
    (forall j, 1 <= j <= Z.of_nat n -> j ∈ seqs
      [(5, 6, demo_payload "c" 3); (5, 6, demo_payload "a" 1); (7, 8, demo_payload "c" 3)]) /\
    Z.of_nat n + 1 ∉ seqs
      [(5, 6, demo_payload "c" 3); (5, 6, demo_payload "a" 1); (7, 8, demo_payload "c" 3)].
Proof.
  apply (reliable_exactly_once_in_order [("a", "T", []); ("b", "T", []); ("c", "T", [])]).
  - apply (bool_decide_unpack _). vm_compute. exact I.
  - repeat constructor; eexists; split; vm_compute; reflexivity.
Defined.

(** Receiving the same payload again is harmless: it delivers nothing and
    leaves the state as the first reception left it, from any state. *)
Theorem receive_again_is_noop st now now_ack payload r st1 now' now_ack' :
  receive_reliable_payload st now now_ack payload = Ok (r, st1) ->
  exists r2, receive_reliable_payload st1 now' now_ack' payload = Ok (r2, st1) /\
    rr_deliveries r2 = [].
Proof.
  unfold receive_reliable_payload.
  destruct (parse_reliable_payload now payload) as [m|e] eqn:Hp;
    cbn [mbind res_bind]; cbv zeta; [|done].
  assert (exists m', parse_reliable_payload now' payload = Ok m' /\
    im_reliable_message_id m' = im_reliable_message_id m /\
    im_sequence_number m' = im_sequence_number m) as (m' & Hp' & Hid & Hseq).
  { revert Hp. unfold parse_reliable_payload. repeat (case_match; try done).
    intros; simplify_eq. eauto. }
  rewrite Hp'. cbn [mbind res_bind]. cbv zeta. rewrite Hid, Hseq.
  set (seq := pyint_val (im_sequence_number m)).
  case_bool_decide as Hin; [intros; simplify_eq; rewrite bool_decide_eq_true_2 by done; eauto|].
  destruct (Z.ltb_spec seq (rs_next_expected_inbound_sequence st));
    [|destruct (Z.ltb_spec (rs_next_expected_inbound_sequence st) seq)]; intros Hr.
  - simplify_eq. rewrite bool_decide_eq_false_2 by done. zcases; [eauto|lia|lia].
  - simplify_eq. cbn. rewrite bool_decide_eq_false_2 by done. zcases; [lia| |lia].
    refine (ex_intro _ (MkReceiveResult _ [] false true) (conj _ eq_refl)).
    f_equal. f_equal. unfold set_inbound. cbn. f_equal. destruct (rs_inbound_buffer_by_sequence st !! seq) eqn:Eb.
    + by rewrite Eb.
    + by rewrite lookup_insert_eq.
  - destruct (drain _ _ _ _ _) as [[[[n b] i] d]|] eqn:Hd; [|done]. simplify_eq. cbn.
    assert (seq < n).
    { replace seq with (rs_next_expected_inbound_sequence st) by lia.
      eapply drain_advances; [|exact Hd].
      replace (rs_next_expected_inbound_sequence st) with seq by lia.
      rewrite lookup_insert_eq. by eexists. }
    case_bool_decide; [eauto|]. zcases; [eauto|lia|lia].
Qed.

Lemma receive_again_is_noop_witness :
  exists r2, receive_reliable_payload
      (MkReliable "s" "physical" 1 2 [] ∅ {["a"]}) 9 9 (demo_payload "a" 1)
      = Ok (r2, MkReliable "s" "physical" 1 2 [] ∅ {["a"]}) /\ rr_deliveries r2 = [].
Proof.
  eapply (receive_again_is_noop (new_reliable_state "s" "physical") 5 6).
  vm_compute. reflexivity.
Defined.

(** ** What the sender emits parses back *)

(** The payload of an outbound message parses, on the other side, to the
    same identifier, number, type and content. *)
Theorem reliable_payload_roundtrip m now :
  om_reliable_message_id m <> "" -> om_inner_message_type m <> "" ->
  1 <= om_sequence_number m ->
  parse_reliable_payload now (to_reliable_payload m) =
  Ok (MkInbound (om_reliable_message_id m) (PyInt (om_sequence_number m))
        (om_inner_message_type m) (om_inner_payload m) now).
Proof.
  intros Hid Hty Hseq. unfold parse_reliable_payload, to_reliable_payload. od_eval.
  apply str_truthy_spec in Hid, Hty. rewrite Hid, Hty. cbn -[Z.ltb]. zcases; [lia|done].
Qed.

Definition demo_outbound : ReliableOutboundMessage :=
  MkOutbound "s" "physical" "id-1" 1 "T" [("k", JInt 7)] 1000000 2000000 5 0 None None None None.

Lemma reliable_payload_roundtrip_witness :
  parse_reliable_payload 3 (to_reliable_payload demo_outbound) =
  Ok (MkInbound "id-1" (PyInt 1) "T" [("k", JInt 7)] 3).
Proof. apply (reliable_payload_roundtrip demo_outbound 3); done. Defined.

(** ** The state's invariant *)

Record reliable_wf (st : ReliableSessionState) : Prop := {
  rwf_out_pos : 1 <= rs_next_outbound_sequence st;
  rwf_in_pos : 1 <= rs_next_expected_inbound_sequence st;
  rwf_out_keys : od_wf (rs_outbound_by_sequence st);
  rwf_out : forall k m, od_get k (rs_outbound_by_sequence st) = Some m ->
    om_sequence_number m = k /\ 1 <= k < rs_next_outbound_sequence st /\
    om_session_id m = rs_session_id st /\ om_session_scope m = rs_session_scope st;
  rwf_buf : forall k m, rs_inbound_buffer_by_sequence st !! k = Some m ->
    pyint_val (im_sequence_number m) = k /\ rs_next_expected_inbound_sequence st < k;
}.

Lemma new_reliable_state_wf sid scope : reliable_wf (new_reliable_state sid scope).
Proof. split; cbn; [lia|lia|constructor|done|]. intros k m Hk. by rewrite lookup_empty in Hk. Qed.

Lemma build_reliable_outbound_wf st uuid now ty p ra mx :
  reliable_wf st -> reliable_wf (build_reliable_outbound st uuid now ty p ra mx).2.
Proof.
  intros [Hop Hip Hkeys Hout Hbuf]. split; cbn; [lia|lia|by apply od_set_wf| |done].
  intros k m. destruct (decide (rs_next_outbound_sequence st = k)) as [<-|Hne].
  - rewrite od_get_set_eq. intros; simplify_eq. cbn. repeat split; lia.
  - rewrite od_get_set_ne by done. intros Hk. apply Hout in Hk as (? & ? & ? & ?).
    repeat split; (done || lia).
Qed.

Lemma drain_wf fuel next buf ids acc n' b' i' acc' :
  (forall k m, buf !! k = Some m -> pyint_val (im_sequence_number m) = k /\ next <= k) ->
  drain fuel next buf ids acc = Some (n', b', i', acc') ->
  forall k m, b' !! k = Some m -> pyint_val (im_sequence_number m) = k /\ n' < k.
Proof.
  revert next buf ids acc. induction fuel as [|fuel IH]; intros next buf ids acc Hb; simpl; [done|].
  destruct (buf !! next) as [m0|] eqn:E.
  - case_decide; apply IH; intros k m Hk;
      apply lookup_delete_Some in Hk as [Hne Hk]; apply Hb in Hk as [? ?]; split; (done || lia).
  - intros; simplify_eq.
    match goal with H : b' !! _ = Some _ |- _ => pose proof H as Hk; apply Hb in Hk as [? ?] end.
    split; [done|]. destruct (decide (k = n')) as [->|]; [congruence|lia].
Qed.

Lemma receive_reliable_payload_wf st now now_ack payload r st' :
  reliable_wf st -> receive_reliable_payload st now now_ack payload = Ok (r, st') ->
  reliable_wf st'.
Proof.
  intros Hwf. pose proof Hwf as [Hop Hip Hkeys Hout Hbuf]. unfold receive_reliable_payload.
  destruct (parse_reliable_payload now payload) as [m|e]; cbn [mbind res_bind]; cbv zeta; [|done].
  case_bool_decide; [intros; by simplify_eq|]. zcases; intros Hr.
  - by simplify_eq.
  - simplify_eq. split; cbn; try done. intros k m'. destruct (rs_inbound_buffer_by_sequence st !! _) eqn:E.
    + apply Hbuf.
    + intros [[<- <-]|[? Hk]]%lookup_insert_Some; [split; [done|lia]|by apply Hbuf].
  - destruct (drain _ _ _ _ _) as [[[[n b] i] d]|] eqn:Hd; [|done]. simplify_eq.
    pose proof (drain_next _ _ _ _ _ _ _ _ _ Hd) as [Hle _].
    split; cbn; try done; [lia|]. eapply drain_wf; [|exact Hd].
    intros k m' [[<- <-]|[? Hk]]%lookup_insert_Some; [split; [done|lia]|].
    apply Hbuf in Hk as [? ?]. split; [done|lia].
Qed.

(** Reception never changes whose state it is, nor the sender's side. *)
Lemma receive_reliable_payload_session st now now_ack payload r st' :
  receive_reliable_payload st now now_ack payload = Ok (r, st') ->
  rs_session_id st' = rs_session_id st /\ rs_session_scope st' = rs_session_scope st.
Proof.
  unfold receive_reliable_payload.
  destruct (parse_reliable_payload now payload) as [m|e]; cbn [mbind res_bind]; cbv zeta; [|done].
  repeat (case_match; try done); intros; by simplify_eq.
Qed.

#[export] Hint Resolve new_reliable_state_wf build_reliable_outbound_wf
  receive_reliable_payload_wf : anon.

(** The states a session's reliable state goes through. *)
Inductive reliable_reachable (sid scope : string) : ReliableSessionState -> Prop :=
| Reach_new : reliable_reachable sid scope (new_reliable_state sid scope)
| Reach_build st uuid now ty p ra mx :
    reliable_reachable sid scope st ->
    reliable_reachable sid scope (build_reliable_outbound st uuid now ty p ra mx).2
| Reach_receive st now now_ack payload r st' :
    reliable_reachable sid scope st ->
    receive_reliable_payload st now now_ack payload = Ok (r, st') ->
    reliable_reachable sid scope st'.

(** Every state reachable by the operations of the module is well formed
    and belongs to its session: each queued message sits under its own number,
    below the next number to assign, and the reorder buffer holds only messages
    strictly ahead of the next expected one, each under its own number. *)
Theorem reliable_state_invariant (sid scope : string) (st : ReliableSessionState) :
  reliable_reachable sid scope st ->
  reliable_wf st /\ rs_session_id st = sid /\ rs_session_scope st = scope.
Proof.
  induction 1 as [|st uuid now ty p ra mx _ (Hwf & Hsid & Hsc)|st now na p r st' _ (Hwf & Hsid & Hsc) Hr].
  - auto with anon.
  - split; [auto with anon|done].
  - split; [by eapply receive_reliable_payload_wf|].
    apply receive_reliable_payload_session in Hr as [-> ->]. done.
Qed.

Lemma reliable_state_invariant_witness :
  reliable_wf (build_reliable_outbound (new_reliable_state "s" "physical") "u" 1 "T" [] 2 5).2.
Proof.
  apply (reliable_state_invariant "s" "physical"). apply Reach_build, Reach_new.
Defined.
