(* ===== verification/Sessions.v ===== *)
(** * Network sessions

    Models [src/app/sessions/models.py], [helpers.py] and [messages.py] and the
    in-memory [SessionManager] of [src/app/sessions/manager.py].

    The manager keeps every [NetworkSession] object in two dictionaries, by
    integer id and by session id, and mutates the object itself: the model has
    a heap of session objects and two dictionaries of references into it.
    Timestamps are instants in microseconds; the clock readings one operation
    makes are the single argument [now]; [uuid4()] is an argument. *)

From S2P Require Import Prelude PyJson PyTime Transport Reliable.

(** ** Data *)

Record NetworkSession := MkNetworkSession {
  ns_id : Z;
  ns_session_id : string;
  ns_session_scope : string;
  ns_local_identity_type : string;
  ns_local_identity_id : string;
  ns_remote_identity_type : string;
  ns_remote_identity_id : string;
  ns_direction : string;
  ns_initiator_side : string;
  ns_handshake_state : string;
  ns_session_state : string;
  ns_transport : option string;
  ns_remote_host : option string;
  ns_remote_port : option Z;
  ns_local_endpoint_id : option Z;
  ns_remote_endpoint_id : option Z;
  ns_key_exchange_algorithm : option string;
  ns_signature_algorithm : option string;
  ns_symmetric_algorithm : option string;
  ns_hash_algorithm : option string;
  ns_remote_public_key : option string;
  ns_local_ephemeral_private_key : option string;
  ns_local_ephemeral_public_key : option string;
  ns_remote_ephemeral_public_key : option string;
  ns_shared_secret_hex : option string;
  ns_session_key_id : option string;
  ns_established_at : option instant;
  ns_last_activity_at : instant;
  ns_last_keepalive_sent_at : option instant;
  ns_keepalive_interval_seconds : Z;
  ns_keepalive_deadline : option instant;
  ns_expires_at : option instant;
  ns_closed_at : option instant;
  ns_close_reason : option string;
  ns_bound_route_id : option string;
  ns_metadata_json : option string;
}.

#[export] Instance network_session_eta : Eta NetworkSession := fun s =>
  MkNetworkSession
    (ns_id s) (ns_session_id s) (ns_session_scope s) (ns_local_identity_type s)
    (ns_local_identity_id s) (ns_remote_identity_type s) (ns_remote_identity_id s)
    (ns_direction s) (ns_initiator_side s) (ns_handshake_state s) (ns_session_state s)
    (ns_transport s) (ns_remote_host s) (ns_remote_port s) (ns_local_endpoint_id s)
    (ns_remote_endpoint_id s) (ns_key_exchange_algorithm s) (ns_signature_algorithm s)
    (ns_symmetric_algorithm s) (ns_hash_algorithm s) (ns_remote_public_key s)
    (ns_local_ephemeral_private_key s) (ns_local_ephemeral_public_key s)
    (ns_remote_ephemeral_public_key s) (ns_shared_secret_hex s) (ns_session_key_id s)
    (ns_established_at s) (ns_last_activity_at s) (ns_last_keepalive_sent_at s)
    (ns_keepalive_interval_seconds s) (ns_keepalive_deadline s) (ns_expires_at s)
    (ns_closed_at s) (ns_close_reason s) (ns_bound_route_id s) (ns_metadata_json s).

Record SessionCreateInput := MkSessionCreateInput {
  ci_session_id : string;
  ci_session_scope : string;
  ci_local_identity_type : string;
  ci_local_identity_id : string;
  ci_remote_identity_type : string;
  ci_remote_identity_id : string;
  ci_direction : string;
  ci_initiator_side : string;
  ci_handshake_state : string;
  ci_session_state : string;
  ci_transport : option string;
  ci_remote_host : option string;
  ci_remote_port : option Z;
  ci_local_endpoint_id : option Z;
  ci_remote_endpoint_id : option Z;
  ci_key_exchange_algorithm : option string;
  ci_signature_algorithm : option string;
  ci_symmetric_algorithm : option string;
  ci_hash_algorithm : option string;
  ci_remote_public_key : option string;
  ci_local_ephemeral_private_key : option string;
  ci_local_ephemeral_public_key : option string;
  ci_remote_ephemeral_public_key : option string;
  ci_shared_secret_hex : option string;
  ci_session_key_id : option string;
  ci_established_at : option instant;
  ci_last_activity_at : option instant;
  ci_last_keepalive_sent_at : option instant;
  ci_keepalive_interval_seconds : Z;
  ci_keepalive_deadline : option instant;
  ci_expires_at : option instant;
  ci_closed_at : option instant;
  ci_close_reason : option string;
  ci_bound_route_id : option string;
  ci_metadata_json : option string;
}.

#[export] Instance session_create_input_eta : Eta SessionCreateInput := fun s =>
  MkSessionCreateInput
    (ci_session_id s) (ci_session_scope s) (ci_local_identity_type s) (ci_local_identity_id s)
    (ci_remote_identity_type s) (ci_remote_identity_id s) (ci_direction s)
    (ci_initiator_side s) (ci_handshake_state s) (ci_session_state s) (ci_transport s)
    (ci_remote_host s) (ci_remote_port s) (ci_local_endpoint_id s) (ci_remote_endpoint_id s)
    (ci_key_exchange_algorithm s) (ci_signature_algorithm s) (ci_symmetric_algorithm s)
    (ci_hash_algorithm s) (ci_remote_public_key s) (ci_local_ephemeral_private_key s)
    (ci_local_ephemeral_public_key s) (ci_remote_ephemeral_public_key s)
    (ci_shared_secret_hex s) (ci_session_key_id s) (ci_established_at s)
    (ci_last_activity_at s) (ci_last_keepalive_sent_at s) (ci_keepalive_interval_seconds s)
    (ci_keepalive_deadline s) (ci_expires_at s) (ci_closed_at s) (ci_close_reason s)
    (ci_bound_route_id s) (ci_metadata_json s).

Record SessionStateUpdateInput := MkSessionStateUpdateInput {
  su_handshake_state : option string;
  su_session_state : option string;
  su_last_activity_at : option instant;
  su_keepalive_deadline : option instant;
  su_expires_at : option instant;
  su_closed_at : option instant;
  su_close_reason : option string;
  su_bound_route_id : option string;
  su_session_key_id : option string;
  su_metadata_json : option string;
}.

(** [SessionCreateInput] with its required fields; the others have their defaults. *)
Definition session_input (session_id session_scope local_identity_type local_identity_id
    remote_identity_type remote_identity_id direction initiator_side handshake_state
    session_state : string) : SessionCreateInput :=
  MkSessionCreateInput session_id session_scope local_identity_type local_identity_id
    remote_identity_type remote_identity_id direction initiator_side handshake_state
    session_state None None None None None None None None None None None None None None
    None None None None 30 None None None None None None.

(** [SessionStateUpdateInput()] *)
Definition no_update : SessionStateUpdateInput :=
  MkSessionStateUpdateInput None None None None None None None None None None.

(** ** [sessions/messages.py] *)

Record VirtualSessionMessage := MkVirtualSessionMessage {
  vm_session_id : string;
  vm_local_virtual_node_id : string;
  vm_remote_virtual_node_id : string;
  vm_app_message_type : string;
  vm_payload : jdict;
  vm_route_path_id : option string;
  vm_request_id : option string;
}.

(** What an application handler can hand back: nothing, a reply whose payload
    attribute holds some value, or an object of another type. *)
Inductive handler_result : Type :=
| HandlerNone
| VirtualSessionMessageReply (app_message_type : string) (payload : json)
    (request_id : option string)
| HandlerOther.

Definition VirtualSessionMessageHandler : Type := VirtualSessionMessage -> handler_result.

(** ** [sessions/helpers.py] *)

Section helpers.
Context `{FloatText}.

Definition load_session_metadata (session : NetworkSession) : jdict :=
  CommonJson.load_json_object (ns_metadata_json session).

Definition is_observed_only_physical_endpoint (session : NetworkSession) : bool :=
  bool_decide (od_get "physical_endpoint_source" (load_session_metadata session)
               = Some (JStr "observed")).

Definition is_observed_only_physical_session (session : NetworkSession) : bool :=
  if bool_decide (ns_session_scope session <> "physical") then false
  else is_observed_only_physical_endpoint session.

Definition build_remote_endpoint_from_session (session : NetworkSession)
    : res TransportEndpoint :=
  match ns_transport session, ns_remote_host session, ns_remote_port session with
  | Some transport, Some host, Some port =>
      if str_truthy transport && str_truthy host
      then Ok (MkTransportEndpoint transport host port (load_session_metadata session))
      else Raise (ValueError "The physical session has no associated remote endpoint.")
  | _, _, _ => Raise (ValueError "The physical session has no associated remote endpoint.")
  end.
End helpers.

(** ** The manager *)

Abbreviation loc := nat.

Record SessionManager := MkSessionManager {
  sm_heap : gmap loc NetworkSession;
  sm_next_loc : loc;
  sm_sessions_by_id : odict Z loc;
  sm_sessions_by_session_id : gmap string loc;
  sm_virtual_message_handlers : gmap string VirtualSessionMessageHandler;
  sm_reliable_states_by_session_id : odict string ReliableSessionState;
  sm_next_id : Z;
}.

#[export] Instance session_manager_eta : Eta SessionManager := fun s =>
  MkSessionManager (sm_heap s) (sm_next_loc s) (sm_sessions_by_id s)
    (sm_sessions_by_session_id s) (sm_virtual_message_handlers s)
    (sm_reliable_states_by_session_id s) (sm_next_id s).

(** [SessionManager()] *)
Definition new_session_manager : SessionManager := MkSessionManager ∅ 0%nat [] ∅ ∅ [] 1.

(** *** Application message handlers *)

Definition register_virtual_message_handler (sm : SessionManager)
    (app_message_type : string) (handler : VirtualSessionMessageHandler)
    : res SessionManager :=
  if negb (str_truthy app_message_type)
  then Raise (ValueError "app_message_type cannot be empty.")
  else Ok (sm <| sm_virtual_message_handlers :=
             <[app_message_type := handler]> (sm_virtual_message_handlers sm) |>).

Definition unregister_virtual_message_handler (sm : SessionManager)
    (app_message_type : string) : SessionManager :=
  sm <| sm_virtual_message_handlers :=
    delete app_message_type (sm_virtual_message_handlers sm) |>.

Definition has_virtual_message_handler (sm : SessionManager) (app_message_type : string)
    : bool :=
  bool_decide (is_Some (sm_virtual_message_handlers sm !! app_message_type)).

Definition handle_virtual_message (sm : SessionManager) (message : VirtualSessionMessage)
    : res handler_result :=
  match sm_virtual_message_handlers sm !! vm_app_message_type message with
  | None => Ok HandlerNone
  | Some handler =>
      match handler message with
      | HandlerNone => Ok HandlerNone
      | VirtualSessionMessageReply ty (JObj p) r =>
          Ok (VirtualSessionMessageReply ty (JObj p) r)
      | VirtualSessionMessageReply _ _ _ =>
          Raise (TypeError "VirtualSessionMessageReply.payload precisa ser um objeto.")
      | HandlerOther =>
          Raise (TypeError ("Virtual session message handler precisa retornar "
                            +:+ "VirtualSessionMessageReply ou None."))
      end
  end.

(** *** Creation and lookup *)

Definition _build_keepalive_deadline (now : instant) (keepalive_interval_seconds : Z)
    : instant :=
  now + seconds keepalive_interval_seconds.

Definition deref (sm : SessionManager) (l : loc) : option NetworkSession := sm_heap sm !! l.

Definition get_session_by_id (sm : SessionManager) (db_id : Z) : option NetworkSession :=
  od_get db_id (sm_sessions_by_id sm) ≫= deref sm.

Definition get_session_by_session_id (sm : SessionManager) (session_id : string)
    : option NetworkSession :=
  sm_sessions_by_session_id sm !! session_id ≫= deref sm.

Definition session_of_input (id : Z) (now : instant) (data : SessionCreateInput)
    : NetworkSession :=
  MkNetworkSession id
    (ci_session_id data) (ci_session_scope data) (ci_local_identity_type data)
    (ci_local_identity_id data) (ci_remote_identity_type data) (ci_remote_identity_id data)
    (ci_direction data) (ci_initiator_side data) (ci_handshake_state data)
    (ci_session_state data) (ci_transport data) (ci_remote_host data) (ci_remote_port data)
    (ci_local_endpoint_id data) (ci_remote_endpoint_id data) (ci_key_exchange_algorithm data)
    (ci_signature_algorithm data) (ci_symmetric_algorithm data) (ci_hash_algorithm data)
    (ci_remote_public_key data) (ci_local_ephemeral_private_key data)
    (ci_local_ephemeral_public_key data) (ci_remote_ephemeral_public_key data)
    (ci_shared_secret_hex data) (ci_session_key_id data) (ci_established_at data)
    (default now (ci_last_activity_at data)) (ci_last_keepalive_sent_at data)
    (ci_keepalive_interval_seconds data) (ci_keepalive_deadline data) (ci_expires_at data)
    (ci_closed_at data) (ci_close_reason data) (ci_bound_route_id data) (ci_metadata_json data).

Definition create_session (sm : SessionManager) (now : instant) (data : SessionCreateInput)
    : res (NetworkSession * SessionManager) :=
  match get_session_by_session_id sm (ci_session_id data) with
  | Some _ =>
      Raise (ValueError ("Session '" +:+ ci_session_id data +:+ "' ja existe em memoria."))
  | None =>
      let session := session_of_input (sm_next_id sm) now data in
      let l := sm_next_loc sm in
      Ok (session,
          sm <| sm_heap := <[l := session]> (sm_heap sm) |>
             <| sm_next_loc := S l |>
             <| sm_sessions_by_id := od_set (ns_id session) l (sm_sessions_by_id sm) |>
             <| sm_sessions_by_session_id :=
                  <[ns_session_id session := l]> (sm_sessions_by_session_id sm) |>
             <| sm_next_id := sm_next_id sm + 1 |>)
  end.

(** The algorithm names every session input carries. *)
Definition with_algorithms (data : SessionCreateInput) : SessionCreateInput :=
  data <| ci_key_exchange_algorithm := Some "ml-kem-768" |>
       <| ci_signature_algorithm := Some "ml-dsa-65" |>
       <| ci_symmetric_algorithm := Some "aes-256-gcm-siv" |>
       <| ci_hash_algorithm := Some "sha512" |>.

Definition create_outbound_physical_session (sm : SessionManager) (uuid : string)
    (now : instant) (local_physical_node_id remote_physical_node_id : string)
    (remote_public_key : option string) (transport remote_host : string) (remote_port : Z)
    (keepalive_interval_seconds : Z) : res (NetworkSession * SessionManager) :=
  create_session sm now
    (with_algorithms (session_input uuid "physical" "physical_node" local_physical_node_id
       "physical_node" remote_physical_node_id "outbound" "initiator" "init_sent" "pending")
     <| ci_transport := Some transport |>
     <| ci_remote_host := Some remote_host |>
     <| ci_remote_port := Some remote_port |>
     <| ci_remote_public_key := remote_public_key |>
     <| ci_keepalive_interval_seconds := keepalive_interval_seconds |>
     <| ci_keepalive_deadline :=
          Some (_build_keepalive_deadline now keepalive_interval_seconds) |>).

(** Mutation of the session object a dictionary entry refers to; [None] when
    the session id is unknown. *)
Definition modify_session (sm : SessionManager) (session_id : string)
    (f : NetworkSession -> NetworkSession) : option NetworkSession * SessionManager :=
  match sm_sessions_by_session_id sm !! session_id with
  | None => (None, sm)
  | Some l =>
      match deref sm l with
      | None => (None, sm)
      | Some session =>
          (Some (f session), sm <| sm_heap := <[l := f session]> (sm_heap sm) |>)
      end
  end.

Definition bind_endpoint_fields (transport host : option string) (port : option Z)
    (session : NetworkSession) : NetworkSession :=
  let session := match transport with
    | Some t => session <| ns_transport := Some t |> | None => session end in
  let session := match host with
    | Some h => session <| ns_remote_host := Some h |> | None => session end in
  match port with
  | Some p => session <| ns_remote_port := Some p |> | None => session end.

Definition bind_remote_endpoint (sm : SessionManager) (session_id : string)
    (transport host : option string) (port : option Z)
    : option NetworkSession * SessionManager :=
  modify_session sm session_id (bind_endpoint_fields transport host port).

Definition create_inbound_physical_session (sm : SessionManager) (now : instant)
    (session_id local_physical_node_id remote_physical_node_id : string)
    (remote_public_key : option string) (transport : string)
    (remote_host : option string) (remote_port : option Z)
    (keepalive_interval_seconds : Z) : res (NetworkSession * SessionManager) :=
  match get_session_by_session_id sm session_id with
  | Some existing_session =>
      match bind_remote_endpoint sm session_id (Some transport) remote_host remote_port with
      | (Some session, sm') => Ok (session, sm')
      | (None, sm') => Ok (existing_session, sm')
      end
  | None =>
      create_session sm now
        (with_algorithms (session_input session_id "physical" "physical_node"
           local_physical_node_id "physical_node" remote_physical_node_id
           "inbound" "responder" "init_received" "pending")
         <| ci_transport := Some transport |>
         <| ci_remote_host := remote_host |>
         <| ci_remote_port := remote_port |>
         <| ci_remote_public_key := remote_public_key |>
         <| ci_keepalive_interval_seconds := keepalive_interval_seconds |>
         <| ci_keepalive_deadline :=
              Some (_build_keepalive_deadline now keepalive_interval_seconds) |>)
  end.

Definition create_outbound_virtual_session (sm : SessionManager) (uuid : string)
    (now : instant) (local_virtual_node_id remote_virtual_node_id : string)
    (remote_public_key bound_route_id : option string) (keepalive_interval_seconds : Z)
    : res (NetworkSession * SessionManager) :=
  create_session sm now
    (with_algorithms (session_input uuid "virtual" "virtual_node" local_virtual_node_id
       "virtual_node" remote_virtual_node_id "outbound" "initiator" "init_sent" "pending")
     <| ci_remote_public_key := remote_public_key |>
     <| ci_bound_route_id := bound_route_id |>
     <| ci_keepalive_interval_seconds := keepalive_interval_seconds |>
     <| ci_keepalive_deadline :=
          Some (_build_keepalive_deadline now keepalive_interval_seconds) |>).

Definition create_inbound_virtual_session (sm : SessionManager) (now : instant)
    (session_id local_virtual_node_id remote_virtual_node_id : string)
    (remote_public_key bound_route_id : option string) (keepalive_interval_seconds : Z)
    : res (NetworkSession * SessionManager) :=
  match get_session_by_session_id sm session_id with
  | Some existing_session => Ok (existing_session, sm)
  | None =>
      create_session sm now
        (with_algorithms (session_input session_id "virtual" "virtual_node"
           local_virtual_node_id "virtual_node" remote_virtual_node_id
           "inbound" "responder" "init_received" "pending")
         <| ci_remote_public_key := remote_public_key |>
         <| ci_bound_route_id := bound_route_id |>
         <| ci_keepalive_interval_seconds := keepalive_interval_seconds |>
         <| ci_keepalive_deadline :=
              Some (_build_keepalive_deadline now keepalive_interval_seconds) |>)
  end.

(** *** Listing and search *)

Definition list_sessions (sm : SessionManager) (session_scope : option string)
    : list NetworkSession :=
  let sessions := omap (deref sm) (sm_sessions_by_id sm).*2 in
  let sessions :=
    match session_scope with
    | None => sessions
    | Some scope => filter (fun s => ns_session_scope s = scope) sessions
    end in
  py_sorted ns_id sessions.

Definition list_active_sessions (sm : SessionManager) : list NetworkSession :=
  filter (fun s => ns_session_state s = "active") (list_sessions sm None).

Definition list_active_physical_sessions (sm : SessionManager) : list NetworkSession :=
  filter (fun s => ns_session_scope s = "physical") (list_active_sessions sm).

(** The first session of a list that satisfies [p], as a [for] loop with an
    early [return] finds it. *)
Definition first_such (p : NetworkSession -> bool) (l : list NetworkSession)
    : option NetworkSession := List.find p l.

Definition get_session_by_remote_identity (sm : SessionManager)
    (remote_identity_type remote_identity_id : string) (session_scope : option string)
    : option NetworkSession :=
  first_such (fun s => bool_decide (ns_remote_identity_type s = remote_identity_type)
                    && bool_decide (ns_remote_identity_id s = remote_identity_id))
    (list_sessions sm session_scope).

Definition get_active_session_by_remote_identity (sm : SessionManager)
    (remote_identity_type remote_identity_id : string) (session_scope : option string)
    : option NetworkSession :=
  first_such (fun s =>
      match session_scope with
      | Some scope => bool_decide (ns_session_scope s = scope) | None => true end
      && bool_decide (ns_remote_identity_type s = remote_identity_type)
      && bool_decide (ns_remote_identity_id s = remote_identity_id))
    (list_active_sessions sm).

Definition get_session_by_remote_physical_node_id (sm : SessionManager) (node_id : string) :=
  get_session_by_remote_identity sm "physical_node" node_id (Some "physical").

Definition get_session_by_remote_virtual_node_id (sm : SessionManager) (node_id : string) :=
  get_session_by_remote_identity sm "virtual_node" node_id None.

Definition get_active_session_by_remote_virtual_node_id (sm : SessionManager)
    (node_id : string) :=
  get_active_session_by_remote_identity sm "virtual_node" node_id None.

Definition get_active_physical_session_by_remote_node_id (sm : SessionManager)
    (node_id : string) :=
  get_active_session_by_remote_identity sm "physical_node" node_id (Some "physical").

Definition get_active_virtual_session_by_local_and_remote_node_id (sm : SessionManager)
    (local_virtual_node_id remote_virtual_node_id : string) : option NetworkSession :=
  first_such (fun s => bool_decide (ns_session_scope s = "virtual")
                    && bool_decide (ns_local_identity_id s = local_virtual_node_id)
                    && bool_decide (ns_remote_identity_id s = remote_virtual_node_id))
    (list_active_sessions sm).

Definition has_active_virtual_session_bound_to_route (sm : SessionManager)
    (route_ids : list (option string)) : bool :=
  let active_route_ids := filter (fun r => str_truthy r = true) (omap id route_ids) in
  if bool_decide (active_route_ids = []) then false
  else existsb (fun s => bool_decide (ns_session_scope s = "virtual")
                      && match ns_bound_route_id s with
                         | Some r => bool_decide (r ∈ active_route_ids)
                         | None => false
                         end)
         (list_active_sessions sm).

Definition has_open_physical_session (sm : SessionManager) (node_id : string) : bool :=
  existsb (fun s => bool_decide (ns_remote_identity_id s = node_id)
                 && bool_decide (ns_session_state s ∈ ["pending"; "active"]))
    (list_sessions sm (Some "physical")).

(** *** State changes *)

Definition touch_fields (now : instant) (keepalive_interval_seconds : option Z)
    (session : NetworkSession) : NetworkSession :=
  let session :=
    match keepalive_interval_seconds with
    | Some k => session <| ns_keepalive_interval_seconds := k |>
    | None => session
    end in
  session <| ns_last_activity_at := now |>
          <| ns_keepalive_deadline :=
               Some (_build_keepalive_deadline now (ns_keepalive_interval_seconds session)) |>.

Definition touch_session (sm : SessionManager) (session_id : string) (now : instant)
    (keepalive_interval_seconds : option Z) : option NetworkSession * SessionManager :=
  modify_session sm session_id (touch_fields now keepalive_interval_seconds).

Definition store_local_ephemeral_keypair (sm : SessionManager) (session_id : string)
    (now : instant) (private_key_pem public_key_pem handshake_state : string)
    : option NetworkSession * SessionManager :=
  modify_session sm session_id (fun session =>
    touch_fields now None
      (session <| ns_local_ephemeral_private_key := Some private_key_pem |>
               <| ns_local_ephemeral_public_key := Some public_key_pem |>
               <| ns_handshake_state := handshake_state |>)).

Definition store_remote_ephemeral_public_key (sm : SessionManager) (session_id : string)
    (now : instant) (public_key_pem handshake_state : string)
    : option NetworkSession * SessionManager :=
  modify_session sm session_id (fun session =>
    touch_fields now None
      (session <| ns_remote_ephemeral_public_key := Some public_key_pem |>
               <| ns_handshake_state := handshake_state |>)).

Definition store_shared_secret (sm : SessionManager) (session_id : string) (now : instant)
    (shared_secret_hex handshake_state session_state : string)
    : option NetworkSession * SessionManager :=
  modify_session sm session_id (fun session =>
    touch_fields now None
      (session <| ns_shared_secret_hex := Some shared_secret_hex |>
               <| ns_session_key_id := Some session_id |>
               <| ns_handshake_state := handshake_state |>
               <| ns_session_state := session_state |>)).

Definition activate_session (sm : SessionManager) (session_id : string) (now : instant)
    : option NetworkSession * SessionManager :=
  modify_session sm session_id (fun session =>
    session <| ns_handshake_state := "ready" |>
            <| ns_session_state := "active" |>
            <| ns_established_at := Some now |>
            <| ns_last_activity_at := now |>
            <| ns_keepalive_deadline :=
                 Some (_build_keepalive_deadline now (ns_keepalive_interval_seconds session)) |>).

Definition mark_keepalive_sent (sm : SessionManager) (session_id : string) (now : instant)
    : option NetworkSession * SessionManager :=
  modify_session sm session_id (fun session =>
    session <| ns_last_keepalive_sent_at := Some now |>).

(** [if value is not None: session.field = value] *)
Definition update_fields (data : SessionStateUpdateInput) (session : NetworkSession)
    : NetworkSession :=
  session
    <| ns_handshake_state := default (ns_handshake_state session) (su_handshake_state data) |>
    <| ns_session_state := default (ns_session_state session) (su_session_state data) |>
    <| ns_last_activity_at := default (ns_last_activity_at session) (su_last_activity_at data) |>
    <| ns_keepalive_deadline := su_keepalive_deadline data ∪ ns_keepalive_deadline session |>
    <| ns_expires_at := su_expires_at data ∪ ns_expires_at session |>
    <| ns_closed_at := su_closed_at data ∪ ns_closed_at session |>
    <| ns_close_reason := su_close_reason data ∪ ns_close_reason session |>
    <| ns_bound_route_id := su_bound_route_id data ∪ ns_bound_route_id session |>
    <| ns_session_key_id := su_session_key_id data ∪ ns_session_key_id session |>
    <| ns_metadata_json := su_metadata_json data ∪ ns_metadata_json session |>.

Definition update_session_state (sm : SessionManager) (session_id : string)
    (data : SessionStateUpdateInput) : option NetworkSession * SessionManager :=
  modify_session sm session_id (update_fields data).

Definition close_session (sm : SessionManager) (session_id : string) (now : instant)
    (close_reason : string) : option NetworkSession * SessionManager :=
  update_session_state sm session_id
    (MkSessionStateUpdateInput (Some "closed") (Some "closed") None None None (Some now)
       (Some close_reason) None None None).

Definition delete_session (sm : SessionManager) (session_id : string) : bool * SessionManager :=
  match sm_sessions_by_session_id sm !! session_id with
  | None => (false, sm)
  | Some l =>
      match deref sm l with
      | None => (false, sm)
      | Some session =>
          (true,
           sm <| sm_sessions_by_session_id :=
                   delete session_id (sm_sessions_by_session_id sm) |>
              <| sm_sessions_by_id := od_del (ns_id session) (sm_sessions_by_id sm) |>
              <| sm_reliable_states_by_session_id :=
                   od_del session_id (sm_reliable_states_by_session_id sm) |>)
      end
  end.

Definition session_exists (sm : SessionManager) (session_id : string) : bool :=
  bool_decide (is_Some (sm_sessions_by_session_id sm !! session_id)).

(** *** Reliable messages *)

Definition put_reliable (sm : SessionManager) (session_id : string)
    (st : ReliableSessionState) : SessionManager :=
  sm <| sm_reliable_states_by_session_id :=
          od_set session_id st (sm_reliable_states_by_session_id sm) |>.

(** [_get_reliable_state]: the session's state, created on first use. *)
Definition _get_reliable_state (sm : SessionManager) (session : NetworkSession)
    : ReliableSessionState * SessionManager :=
  match od_get (ns_session_id session) (sm_reliable_states_by_session_id sm) with
  | Some st => (st, sm)
  | None =>
      let st := new_reliable_state (ns_session_id session) (ns_session_scope session) in
      (st, put_reliable sm (ns_session_id session) st)
  end.

Definition _get_reliable_outbound (sm : SessionManager) (session_id : string)
    (sequence_number : Z) : option ReliableOutboundMessage :=
  st ← od_get session_id (sm_reliable_states_by_session_id sm);
  od_get sequence_number (rs_outbound_by_sequence st).

(** Mutation of a queued message in place. *)
Definition put_outbound (sm : SessionManager) (session_id : string) (sequence_number : Z)
    (m : ReliableOutboundMessage) : SessionManager :=
  match od_get session_id (sm_reliable_states_by_session_id sm) with
  | None => sm
  | Some st =>
      put_reliable sm session_id
        (set_outbound st (od_set sequence_number m (rs_outbound_by_sequence st)))
  end.

#[export] Instance outbound_eta : Eta ReliableOutboundMessage := fun m =>
  MkOutbound (om_session_id m) (om_session_scope m) (om_reliable_message_id m)
    (om_sequence_number m) (om_inner_message_type m) (om_inner_payload m) (om_created_at m)
    (om_retry_after m) (om_max_attempts m) (om_attempts m) (om_last_sent_at m)
    (om_acked_at m) (om_failed_at m) (om_failure_reason m).

Definition prepare_reliable_outbound (sm : SessionManager) (uuid : string) (now : instant)
    (session_id inner_message_type : string) (inner_payload : jdict)
    (retry_after max_attempts : Z) : res (ReliableOutboundMessage * SessionManager) :=
  match get_session_by_session_id sm session_id with
  | None => Raise (ValueError "session_not_found_for_reliable_outbound")
  | Some session =>
      let '(st, sm1) := _get_reliable_state sm session in
      let '(message, st') :=
        build_reliable_outbound st uuid now inner_message_type inner_payload
          retry_after max_attempts in
      Ok (message, put_reliable sm1 (ns_session_id session) st')
  end.

Definition mark_reliable_outbound_sent (sm : SessionManager) (now : instant)
    (session_id : string) (sequence_number : Z)
    : option ReliableOutboundMessage * SessionManager :=
  match _get_reliable_outbound sm session_id sequence_number with
  | None => (None, sm)
  | Some message =>
      if negb (om_pending message) then (None, sm)
      else
        let message' := message <| om_attempts := om_attempts message + 1 |>
                                <| om_last_sent_at := Some now |> in
        (Some message', put_outbound sm session_id sequence_number message')
  end.

Definition mark_reliable_outbound_acked (sm : SessionManager) (now : instant)
    (session_id : string) (sequence_number : Z) (reliable_message_id : string)
    : option ReliableOutboundMessage * SessionManager :=
  match _get_reliable_outbound sm session_id sequence_number with
  | None => (None, sm)
  | Some message =>
      if bool_decide (om_reliable_message_id message <> reliable_message_id) then (None, sm)
      else
        let message' := message <| om_acked_at := Some now |> in
        match od_get session_id (sm_reliable_states_by_session_id sm) with
        | None => (Some message', sm)
        | Some st =>
            (Some message',
             put_reliable sm session_id
               (set_outbound st (od_del sequence_number (rs_outbound_by_sequence st))))
        end
  end.

Definition mark_reliable_outbound_failed (sm : SessionManager) (now : instant)
    (session_id : string) (sequence_number : Z) (reason : string)
    : option ReliableOutboundMessage * SessionManager :=
  match _get_reliable_outbound sm session_id sequence_number with
  | None => (None, sm)
  | Some message =>
      if negb (om_pending message) then (None, sm)
      else
        let message' := message <| om_failed_at := Some now |>
                                <| om_failure_reason := Some reason |> in
        (Some message', put_outbound sm session_id sequence_number message')
  end.

Definition receive_reliable_inbound (sm : SessionManager) (now now_ack : instant)
    (session_id : string) (payload : jdict)
    : res ReliableReceiveResult * SessionManager :=
  match get_session_by_session_id sm session_id with
  | None => (Raise (ValueError "session_not_found_for_reliable_inbound"), sm)
  | Some session =>
      let '(st, sm1) := _get_reliable_state sm session in
      match receive_reliable_payload st now now_ack payload with
      | Ok (r, st') => (Ok r, put_reliable sm1 (ns_session_id session) st')
      | Raise e => (Raise e, sm1)
      end
  end.

(** [(message.last_sent_at or message.created_at, message.sequence_number)] *)
Definition send_order_key (m : ReliableOutboundMessage) : Z * Z :=
  (default (om_created_at m) (om_last_sent_at m), om_sequence_number m).

Definition list_pending_reliable_outbound_messages (sm : SessionManager)
    : list ReliableOutboundMessage :=
  py_sorted send_order_key
    (mjoin ((fun st => filter (fun m => om_pending m = true) (rs_outbound_by_sequence st).*2)
            <$> (sm_reliable_states_by_session_id sm).*2)).

(** The loop of [list_due_reliable_outbound_messages] over the pending messages:
    exhausted messages are failed in place, due ones are collected. *)
Fixpoint scan_due (sm : SessionManager) (now : instant) (pending : list ReliableOutboundMessage)
    : list ReliableOutboundMessage * SessionManager :=
  match pending with
  | [] => ([], sm)
  | message :: pending' =>
      if om_max_attempts message <=? om_attempts message then
        scan_due
          (put_outbound sm (om_session_id message) (om_sequence_number message)
             (message <| om_failed_at := Some now |>
                      <| om_failure_reason := Some "max_attempts_exceeded" |>))
          now pending'
      else
        let '(due, sm') := scan_due sm now pending' in
        (if due_for_send message now None then message :: due else due, sm')
  end.

Definition list_due_reliable_outbound_messages (sm : SessionManager) (now : instant)
    : list ReliableOutboundMessage * SessionManager :=
  let '(due, sm') := scan_due sm now (list_pending_reliable_outbound_messages sm) in
  (py_sorted send_order_key due, sm').

Definition count_pending_reliable_outbound (sm : SessionManager) (session_id : string) : Z :=
  match od_get session_id (sm_reliable_states_by_session_id sm) with
  | None => 0
  | Some st =>
      Z.of_nat (length (filter (fun m => om_pending m = true) (rs_outbound_by_sequence st).*2))
  end.

(** ** The manager's invariant

    The two dictionaries refer to the same objects, each under its own keys;
    integer ids are fresh; reliable states belong to known sessions. *)

Record sm_wf (sm : SessionManager) : Prop := {
  smwf_sid : forall sid l, sm_sessions_by_session_id sm !! sid = Some l ->
    exists s, sm_heap sm !! l = Some s /\ ns_session_id s = sid /\
      od_get (ns_id s) (sm_sessions_by_id sm) = Some l;
  smwf_id_keys : od_wf (sm_sessions_by_id sm);
  smwf_id : forall i l, od_get i (sm_sessions_by_id sm) = Some l ->
    exists s, sm_heap sm !! l = Some s /\ ns_id s = i /\
      sm_sessions_by_session_id sm !! ns_session_id s = Some l;
  smwf_fresh_id : forall i l, od_get i (sm_sessions_by_id sm) = Some l -> 1 <= i < sm_next_id sm;
  smwf_next_id : 1 <= sm_next_id sm;
  smwf_fresh_loc : forall l s, sm_heap sm !! l = Some s -> (l < sm_next_loc sm)%nat;
  smwf_rel_keys : od_wf (sm_reliable_states_by_session_id sm);
  smwf_rel : forall sid st, od_get sid (sm_reliable_states_by_session_id sm) = Some st ->
    reliable_wf st /\ rs_session_id st = sid /\
    exists s, get_session_by_session_id sm sid = Some s /\
      ns_session_scope s = rs_session_scope st;
}.

Lemma new_session_manager_wf : sm_wf new_session_manager.
Proof.
  split; cbn; try done; try lia; try constructor;
    intros *; rewrite ?lookup_empty; done.
Qed.

Section wf_lemmas.
Context (sm : SessionManager) (Hwf : sm_wf sm).

Lemma get_by_sid_loc sid s :
  get_session_by_session_id sm sid = Some s <->
  exists l, sm_sessions_by_session_id sm !! sid = Some l /\ sm_heap sm !! l = Some s.
Proof using.
  clear Hwf. unfold get_session_by_session_id, deref. rewrite bind_Some. done.
Qed.

Lemma get_by_sid_id sid s :
  get_session_by_session_id sm sid = Some s ->
  ns_session_id s = sid /\ get_session_by_id sm (ns_id s) = Some s.
Proof using Hwf.
  intros (l & Hl & Hs)%get_by_sid_loc.
  destruct (smwf_sid sm Hwf _ _ Hl) as (s' & Hs' & Hsid & Hid). simplify_eq.
  split; [done|]. unfold get_session_by_id. rewrite Hid. done.
Qed.

Lemma get_by_id_sid i s :
  get_session_by_id sm i = Some s ->
  ns_id s = i /\ get_session_by_session_id sm (ns_session_id s) = Some s.
Proof using Hwf.
  unfold get_session_by_id. intros (l & Hl & Hs)%bind_Some.
  destruct (smwf_id sm Hwf _ _ Hl) as (s' & Hs' & Hid & Hsid).
  unfold deref in Hs. simplify_eq. split; [done|].
  apply get_by_sid_loc. eauto.
Qed.

Lemma get_by_sid_None sid :
  get_session_by_session_id sm sid = None -> sm_sessions_by_session_id sm !! sid = None.
Proof using Hwf.
  unfold get_session_by_session_id, deref.
  destruct (sm_sessions_by_session_id sm !! sid) as [l|] eqn:E; [|done]. cbn.
  destruct (smwf_sid sm Hwf _ _ E) as (s & -> & _). done.
Qed.

Lemma create_session_wf now data s sm' :
  create_session sm now data = Ok (s, sm') -> sm_wf sm'.
Proof using Hwf.
  unfold create_session. destruct (get_session_by_session_id sm _) eqn:E; [done|].
  apply get_by_sid_None in E. intros; simplify_eq.
  set (s := session_of_input (sm_next_id sm) now data).
  assert (sm_heap sm !! sm_next_loc sm = None) as Hfresh.
  { destruct (sm_heap sm !! sm_next_loc sm) eqn:El; [|done].
    apply (smwf_fresh_loc sm Hwf) in El. lia. }
  assert (od_get (sm_next_id sm) (sm_sessions_by_id sm) = None) as Hid.
  { destruct (od_get _ _) eqn:El; [|done]. apply (smwf_fresh_id sm Hwf) in El. lia. }
  assert (forall l s0, sm_heap sm !! l = Some s0 -> sm_next_loc sm <> l) as Hne by congruence.
  split; cbn.
  - intros sid l [[<- <-]|[Hsid Hl]]%lookup_insert_Some.
    + exists s. rewrite lookup_insert_eq. split; [done|]. split; [done|]. apply od_get_set_eq.
    + destruct (smwf_sid sm Hwf _ _ Hl) as (s0 & Hs0 & ? & Hi). exists s0.
      rewrite lookup_insert_ne by eauto. split; [done|]. split; [done|].
      rewrite od_get_set_ne; [done|]. intros Heq. congruence.
  - apply od_set_wf, Hwf.
  - intros i l. destruct (decide (sm_next_id sm = i)) as [<-|Hi].
    + rewrite od_get_set_eq. intros; simplify_eq. exists s.
      rewrite lookup_insert_eq. split; [done|]. split; [done|]. apply lookup_insert_eq.
    + rewrite od_get_set_ne by done. intros Hl.
      destruct (smwf_id sm Hwf _ _ Hl) as (s0 & Hs0 & ? & Hsid). exists s0.
      rewrite lookup_insert_ne by eauto. split; [done|]. split; [done|].
      rewrite lookup_insert_ne; [done|]. intros Heq. cbn in *. congruence.
  - intros i l. destruct (decide (sm_next_id sm = i)) as [<-|Hi].
    + intros _. pose proof (smwf_next_id sm Hwf). lia.
    + rewrite od_get_set_ne by done. intros Hl. apply (smwf_fresh_id sm Hwf) in Hl. lia.
  - pose proof (smwf_next_id sm Hwf). lia.
  - intros l s0 [[<- <-]|[Hl Hs0]]%lookup_insert_Some; [lia|].
    apply (smwf_fresh_loc sm Hwf) in Hs0. lia.
  - apply Hwf.
  - intros sid st Hst. destruct (smwf_rel sm Hwf _ _ Hst) as (? & ? & s0 & Hs0 & ?).
    split; [done|]. split; [done|]. exists s0. split; [|done].
    apply get_by_sid_loc in Hs0 as (l & Hl & Hs0). unfold get_session_by_session_id. cbn.
    rewrite lookup_insert_ne by (cbn in *; congruence). rewrite Hl. cbn. unfold deref. cbn.
    by rewrite lookup_insert_ne by eauto.
Qed.

(** In-place mutation that leaves the keys and the scope of the object alone. *)
Lemma modify_session_wf sid f :
  (forall s, ns_id (f s) = ns_id s /\ ns_session_id (f s) = ns_session_id s
             /\ ns_session_scope (f s) = ns_session_scope s) ->
  sm_wf (modify_session sm sid f).2.
Proof using Hwf.
  intros Hf. unfold modify_session, deref.
  destruct (sm_sessions_by_session_id sm !! sid) as [l|] eqn:El; [|done].
  destruct (sm_heap sm !! l) as [s|] eqn:Es; [|done]. cbn.
  assert (forall l0 s0, sm_heap sm !! l0 = Some s0 ->
    exists s1, <[l:=f s]> (sm_heap sm) !! l0 = Some s1 /\ ns_id s1 = ns_id s0 /\
      ns_session_id s1 = ns_session_id s0 /\ ns_session_scope s1 = ns_session_scope s0) as Hh.
  { intros l0 s0 Hs0. destruct (decide (l = l0)) as [<-|Hne].
    - rewrite lookup_insert_eq. simplify_eq. eexists; split; [done|]. apply Hf.
    - rewrite lookup_insert_ne by done. eauto. }
  split; cbn; try apply Hwf.
  - intros sid0 l0 Hl0. destruct (smwf_sid sm Hwf _ _ Hl0) as (s0 & Hs0 & Hsid & Hid).
    destruct (Hh _ _ Hs0) as (s1 & Hs1 & Ei & Esid & _). exists s1. rewrite Ei, Esid. done.
  - intros i l0 Hl0. destruct (smwf_id sm Hwf _ _ Hl0) as (s0 & Hs0 & Hid & Hsid).
    destruct (Hh _ _ Hs0) as (s1 & Hs1 & Ei & Esid & _). exists s1. rewrite Ei, Esid. done.
  - intros l0 s0 [[<- _]|[_ Hs0]]%lookup_insert_Some;
      [by apply (smwf_fresh_loc sm Hwf) in Es|by apply (smwf_fresh_loc sm Hwf) in Hs0].
  - intros sid0 st Hst. destruct (smwf_rel sm Hwf _ _ Hst) as (? & ? & s0 & Hs0 & Hsc).
    split; [done|]. split; [done|].
    apply get_by_sid_loc in Hs0 as (l0 & Hl0 & Hs0).
    destruct (Hh _ _ Hs0) as (s1 & Hs1 & _ & _ & Esc). exists s1.
    unfold get_session_by_session_id, deref. cbn. rewrite Hl0. cbn. rewrite Hs1, Esc. done.
Qed.
End wf_lemmas.

Section wf_lemmas_2.
Context (sm : SessionManager) (Hwf : sm_wf sm).

Lemma delete_session_wf sid : sm_wf (delete_session sm sid).2.
Proof using Hwf.
  unfold delete_session, deref.
  destruct (sm_sessions_by_session_id sm !! sid) as [l|] eqn:El; [|done].
  destruct (smwf_sid sm Hwf _ _ El) as (s & Es & Hsid & Hid). rewrite Es. cbn.
  split; cbn; try apply Hwf.
  - intros sid0 l0 [Hne Hl0]%lookup_delete_Some.
    destruct (smwf_sid sm Hwf _ _ Hl0) as (s0 & Hs0 & Hsid0 & Hid0). exists s0.
    split; [done|]. split; [done|]. rewrite od_get_del_ne; [done|]. intros Heq.
    rewrite <- Heq, Hid in Hid0. simplify_eq.
  - apply od_del_wf, Hwf.
  - intros i l0 Hl0. destruct (decide (ns_id s = i)) as [<-|Hne];
      [by rewrite od_get_del_eq in Hl0|]. rewrite od_get_del_ne in Hl0 by done.
    destruct (smwf_id sm Hwf _ _ Hl0) as (s0 & Hs0 & Hid0 & Hsid0). exists s0.
    split; [done|]. split; [done|]. apply lookup_delete_Some. split; [|done].
    intros Heq. rewrite <- Heq in Hsid0. simplify_eq.
  - intros i l0 Hl0. destruct (decide (ns_id s = i)) as [<-|Hne];
      [by rewrite od_get_del_eq in Hl0|]. rewrite od_get_del_ne in Hl0 by done.
    by apply (smwf_fresh_id sm Hwf) in Hl0.
  - apply od_del_wf, Hwf.
  - intros sid0 st Hst. destruct (decide (sid = sid0)) as [<-|Hne];
      [by rewrite od_get_del_eq in Hst|]. rewrite od_get_del_ne in Hst by done.
    destruct (smwf_rel sm Hwf _ _ Hst) as (? & ? & s0 & Hs0 & ?).
    split; [done|]. split; [done|]. exists s0. split; [|done]. revert Hs0.
    unfold get_session_by_session_id. cbn. by rewrite lookup_delete_ne.
Qed.

Lemma put_reliable_wf sid s st :
  get_session_by_session_id sm sid = Some s -> reliable_wf st ->
  rs_session_id st = sid -> rs_session_scope st = ns_session_scope s ->
  sm_wf (put_reliable sm sid st).
Proof using Hwf.
  intros Hs Hst Hsid Hsc. split; cbn; try apply Hwf.
  - apply od_set_wf, Hwf.
  - intros sid0 st0. destruct (decide (sid = sid0)) as [<-|Hne].
    + rewrite od_get_set_eq. intros; simplify_eq. eauto.
    + rewrite od_get_set_ne by done. apply (smwf_rel sm Hwf).
Qed.

Lemma get_reliable_state_wf s sid :
  get_session_by_session_id sm sid = Some s ->
  let '(st, sm1) := _get_reliable_state sm s in
  reliable_wf st /\ rs_session_id st = sid /\ rs_session_scope st = ns_session_scope s /\
  sm_wf sm1 /\ get_session_by_session_id sm1 sid = Some s.
Proof using Hwf.
  intros Hs. destruct (get_by_sid_id sm Hwf _ _ Hs) as [Hsid _].
  unfold _get_reliable_state. rewrite Hsid.
  destruct (od_get sid _) as [st|] eqn:E.
  - destruct (smwf_rel sm Hwf _ _ E) as (? & ? & s0 & Hs0 & ?).
    rewrite Hs in Hs0. simplify_eq. done.
  - split; [apply new_reliable_state_wf|]. split; [done|]. split; [done|].
    split; [|done]. eapply put_reliable_wf; eauto using new_reliable_state_wf.
Qed.

End wf_lemmas_2.

Lemma prepare_reliable_outbound_wf sm uuid now sid ty p ra mx m sm' :
  sm_wf sm ->
  prepare_reliable_outbound sm uuid now sid ty p ra mx = Ok (m, sm') -> sm_wf sm'.
Proof.
  intros Hwf. unfold prepare_reliable_outbound.
  destruct (get_session_by_session_id sm sid) as [s|] eqn:Hs; [|done].
  pose proof (get_reliable_state_wf sm Hwf _ _ Hs) as Hg.
  destruct (get_by_sid_id sm Hwf _ _ Hs) as [Hsid _].
  destruct (_get_reliable_state sm s) as [st sm1]. destruct Hg as (Hst & Hid & Hsc & Hwf1 & Hs1).
  pose proof (build_reliable_outbound_wf st uuid now ty p ra mx Hst) as Hb.
  cbn [build_reliable_outbound]. intros Heq. injection Heq as <- <-.
  rewrite Hsid. eapply put_reliable_wf; [exact Hwf1|exact Hs1|exact Hb|exact Hid|exact Hsc].
Qed.

Lemma receive_reliable_inbound_wf sm now now_ack sid payload :
  sm_wf sm -> sm_wf (receive_reliable_inbound sm now now_ack sid payload).2.
Proof.
  intros Hwf. unfold receive_reliable_inbound.
  destruct (get_session_by_session_id sm sid) as [s|] eqn:Hs; [|done].
  pose proof (get_reliable_state_wf sm Hwf _ _ Hs) as Hg.
  destruct (get_by_sid_id sm Hwf _ _ Hs) as [Hsid _].
  destruct (_get_reliable_state sm s) as [st sm1]. destruct Hg as (Hst & Hid & Hsc & Hwf1 & Hs1).
  destruct (receive_reliable_payload st now now_ack payload) as [[r st']|e] eqn:Er; [|done].
  pose proof (receive_reliable_payload_wf _ _ _ _ _ _ Hst Er) as Hst'. cbn.
  destruct (receive_reliable_payload_session _ _ _ _ _ _ Er) as [Hi' Hsc'].
  rewrite Hsid. eapply put_reliable_wf; eauto; congruence.
Qed.

(** Replacing or removing entries of a session's queue. *)
Lemma set_outbound_wf sm sid st out :
  sm_wf sm -> od_get sid (sm_reliable_states_by_session_id sm) = Some st ->
  od_wf out ->
  (forall k m, od_get k out = Some m ->
    om_sequence_number m = k /\ 1 <= k < rs_next_outbound_sequence st /\
    om_session_id m = sid /\ om_session_scope m = rs_session_scope st) ->
  sm_wf (put_reliable sm sid (set_outbound st out)).
Proof.
  intros Hwf Hst Hout Hk. destruct (smwf_rel sm Hwf _ _ Hst) as (Hr & Hid & s & Hs & Hsc).
  eapply put_reliable_wf; [done|exact Hs| |done|done].
  destruct Hr as [? ? ? ? ?]. split; cbn; try done. intros k m Hm. rewrite Hid. eauto.
Qed.

Lemma put_outbound_wf sm sid k m m' :
  sm_wf sm -> _get_reliable_outbound sm sid k = Some m ->
  om_sequence_number m' = om_sequence_number m -> om_session_id m' = om_session_id m ->
  om_session_scope m' = om_session_scope m ->
  sm_wf (put_outbound sm sid k m').
Proof.
  intros Hwf Hm E1 E2 E3. unfold _get_reliable_outbound in Hm.
  apply bind_Some in Hm as (st & Hst & Hm). unfold put_outbound. rewrite Hst.
  destruct (smwf_rel sm Hwf _ _ Hst) as (Hr & Hid & _).
  apply set_outbound_wf; [done|done|apply od_set_wf, Hr|].
  intros k0 m0. destruct (decide (k = k0)) as [<-|Hne].
  - rewrite od_get_set_eq. intros; simplify_eq.
    apply (rwf_out st Hr) in Hm as (? & ? & ? & ?). rewrite E1, E2, E3.
    repeat split; congruence || lia.
  - rewrite od_get_set_ne by done. intros H0.
    apply (rwf_out st Hr) in H0 as (? & ? & ? & ?). repeat split; congruence || lia.
Qed.

Lemma mark_sent_wf sm now sid k : sm_wf sm -> sm_wf (mark_reliable_outbound_sent sm now sid k).2.
Proof.
  intros Hwf. unfold mark_reliable_outbound_sent.
  destruct (_get_reliable_outbound sm sid k) as [m|] eqn:Hm; [|done].
  destruct (om_pending m); [|done]. cbn. by eapply put_outbound_wf.
Qed.

Lemma mark_failed_wf sm now sid k r :
  sm_wf sm -> sm_wf (mark_reliable_outbound_failed sm now sid k r).2.
Proof.
  intros Hwf. unfold mark_reliable_outbound_failed.
  destruct (_get_reliable_outbound sm sid k) as [m|] eqn:Hm; [|done].
  destruct (om_pending m); [|done]. cbn. by eapply put_outbound_wf.
Qed.

Lemma mark_acked_wf sm now sid k i :
  sm_wf sm -> sm_wf (mark_reliable_outbound_acked sm now sid k i).2.
Proof.
  intros Hwf. unfold mark_reliable_outbound_acked.
  destruct (_get_reliable_outbound sm sid k) as [m|] eqn:Hm; [|done].
  case_bool_decide; [done|].
  destruct (od_get sid _) as [st|] eqn:Hst; [|done]. cbn.
  destruct (smwf_rel sm Hwf _ _ Hst) as (Hr & Hid & _).
  apply set_outbound_wf; [done|done|apply od_del_wf, Hr|].
  intros k0 m0. destruct (decide (k = k0)) as [<-|Hne]; [by rewrite od_get_del_eq|].
  rewrite od_get_del_ne by done. intros H0.
  apply (rwf_out st Hr) in H0 as (? & ? & ? & ?). repeat split; congruence || lia.
Qed.

(** ** Pending and due messages *)

Lemma elem_of_pending sm m :
  m ∈ list_pending_reliable_outbound_messages sm <->
  exists sid st k, (sid, st) ∈ sm_reliable_states_by_session_id sm /\
    (k, m) ∈ rs_outbound_by_sequence st /\ om_pending m = true.
Proof.
  unfold list_pending_reliable_outbound_messages.
  rewrite elem_of_py_sorted, list_elem_of_join. split.
  - intros (l & Hm & Hl). apply list_elem_of_fmap in Hl as (st & -> & Hst).
    apply list_elem_of_fmap in Hst as ([sid st'] & -> & Hst).
    apply list_elem_of_filter in Hm as [Hp Hm].
    apply list_elem_of_fmap in Hm as ([k m'] & -> & Hm). eauto 10.
  - intros (sid & st & k & Hst & Hm & Hp).
    eexists. split; [|apply list_elem_of_fmap; exists st; split; [reflexivity|]].
    + apply list_elem_of_filter. split; [done|]. apply list_elem_of_fmap. by exists (k, m).
    + apply list_elem_of_fmap. by exists (sid, st).
Qed.

(** In a well-formed manager a pending message sits in the queue of its own
    session under its own number. *)
Lemma pending_lookup sm m :
  sm_wf sm ->
  m ∈ list_pending_reliable_outbound_messages sm <->
  _get_reliable_outbound sm (om_session_id m) (om_sequence_number m) = Some m /\
  om_pending m = true.
Proof.
  intros Hwf. rewrite elem_of_pending. split.
  - intros (sid & st & k & Hst & Hm & Hp).
    apply (od_elem_of_get _ _ _ (smwf_rel_keys sm Hwf)) in Hst.
    destruct (smwf_rel sm Hwf _ _ Hst) as (Hr & Hid & _).
    apply (od_elem_of_get _ _ _ (rwf_out_keys st Hr)) in Hm.
    pose proof (rwf_out st Hr _ _ Hm) as (Hk & _ & Hs & _).
    split; [|done]. unfold _get_reliable_outbound. rewrite Hs, Hid, Hst, Hk. done.
  - intros [Hg Hp]. unfold _get_reliable_outbound in Hg.
    apply bind_Some in Hg as (st & Hst & Hm). eauto 10 using od_get_elem_of.
Qed.

(** A queue slot for [m] exists. *)
Definition has_slot (sm : SessionManager) (m : ReliableOutboundMessage) : Prop :=
  exists m0, _get_reliable_outbound sm (om_session_id m) (om_sequence_number m) = Some m0 /\
    om_session_scope m0 = om_session_scope m.

Lemma get_put_outbound sm sid k m sid' k' :
  is_Some (_get_reliable_outbound sm sid k) ->
  _get_reliable_outbound (put_outbound sm sid k m) sid' k' =
  if decide (sid = sid' /\ k = k') then Some m else _get_reliable_outbound sm sid' k'.
Proof.
  intros [m0 Hm0]. unfold _get_reliable_outbound, put_outbound in *.
  apply bind_Some in Hm0 as (st & Hst & Hm0). rewrite Hst. unfold put_reliable. cbn.
  destruct (decide (sid = sid')) as [<-|Hne].
  - rewrite od_get_set_eq, Hst. cbn. destruct (decide (k = k')) as [<-|Hk].
    + rewrite decide_True by done. apply od_get_set_eq.
    + rewrite decide_False by naive_solver. by apply od_get_set_ne.
  - rewrite decide_False by naive_solver. by rewrite od_get_set_ne.
Qed.

Lemma slot_wf_put sm m m0 m' :
  sm_wf sm ->
  _get_reliable_outbound sm (om_session_id m) (om_sequence_number m) = Some m0 ->
  om_session_scope m0 = om_session_scope m ->
  om_sequence_number m' = om_sequence_number m -> om_session_id m' = om_session_id m ->
  om_session_scope m' = om_session_scope m ->
  sm_wf (put_outbound sm (om_session_id m) (om_sequence_number m) m').
Proof.
  intros Hwf Hm0 Hsc E1 E2 E3.
  assert (om_sequence_number m0 = om_sequence_number m /\ om_session_id m0 = om_session_id m)
    as [E4 E5].
  { unfold _get_reliable_outbound in Hm0. apply bind_Some in Hm0 as (st & Hst & Hm0).
    destruct (smwf_rel sm Hwf _ _ Hst) as (Hr & Hid & _).
    apply (rwf_out st Hr) in Hm0 as (? & _ & ? & _). split; congruence. }
  eapply put_outbound_wf; [done|exact Hm0|congruence..].
Qed.

Lemma scan_due_wf now pending sm :
  sm_wf sm -> Forall (has_slot sm) pending -> sm_wf (scan_due sm now pending).2.
Proof.
  revert sm. induction pending as [|m pending IH]; intros sm Hwf Hs; simpl; [done|].
  apply Forall_cons in Hs as [(m0 & Hm0 & Hsc) Hs].
  destruct (om_max_attempts m <=? om_attempts m).
  - apply IH.
    + eapply slot_wf_put; [done|exact Hm0|done|done..].
    + eapply Forall_impl; [exact Hs|]. intros m1 (m2 & Hm2 & Hsc2). unfold has_slot.
      rewrite get_put_outbound by eauto. case_decide as Hd; [|eauto].
      eexists; split; [done|]. cbn. destruct Hd as [Hd1 Hd2].
      rewrite Hd1, Hd2, Hm2 in Hm0. simplify_eq. congruence.
  - specialize (IH sm Hwf Hs). by destruct (scan_due sm now pending).
Qed.

Lemma pending_has_slot sm :
  sm_wf sm -> Forall (has_slot sm) (list_pending_reliable_outbound_messages sm).
Proof.
  intros Hwf. apply list.Forall_forall. intros m Hm.
  apply (pending_lookup sm m Hwf) in Hm as [Hm _]. by exists m.
Qed.

Lemma list_due_wf sm now : sm_wf sm -> sm_wf (list_due_reliable_outbound_messages sm now).2.
Proof.
  intros Hwf. unfold list_due_reliable_outbound_messages.
  pose proof (scan_due_wf now _ sm Hwf (pending_has_slot sm Hwf)).
  by destruct (scan_due _ _ _).
Qed.

Lemma scan_due_elem now pending sm m :
  m ∈ (scan_due sm now pending).1 <->
  m ∈ pending /\ om_attempts m < om_max_attempts m /\ due_for_send m now None = true.
Proof.
  revert sm. induction pending as [|m0 pending IH]; intros sm; simpl; [set_solver|].
  destruct (Z.leb_spec (om_max_attempts m0) (om_attempts m0)).
  - rewrite IH, elem_of_cons. split; [naive_solver|].
    intros ([->|?] & ? & ?); [lia|done].
  - specialize (IH sm). destruct (scan_due sm now pending) as [due sm']. simpl in *.
    destruct (due_for_send m0 now None) eqn:Ed; rewrite ?elem_of_cons, IH;
      intuition (subst; congruence || lia || auto).
Qed.

(** ** Reachable managers *)

Inductive sm_step : SessionManager -> SessionManager -> Prop :=
| step_register sm ty h sm' :
    register_virtual_message_handler sm ty h = Ok sm' -> sm_step sm sm'
| step_unregister sm ty : sm_step sm (unregister_virtual_message_handler sm ty)
| step_create sm now data s sm' : create_session sm now data = Ok (s, sm') -> sm_step sm sm'
| step_out_phys sm uuid now a b k t h p i s sm' :
    create_outbound_physical_session sm uuid now a b k t h p i = Ok (s, sm') -> sm_step sm sm'
| step_in_phys sm now sid a b k t h p i s sm' :
    create_inbound_physical_session sm now sid a b k t h p i = Ok (s, sm') -> sm_step sm sm'
| step_out_virt sm uuid now a b k r i s sm' :
    create_outbound_virtual_session sm uuid now a b k r i = Ok (s, sm') -> sm_step sm sm'
| step_in_virt sm now sid a b k r i s sm' :
    create_inbound_virtual_session sm now sid a b k r i = Ok (s, sm') -> sm_step sm sm'
| step_bind sm sid t h p : sm_step sm (bind_remote_endpoint sm sid t h p).2
| step_touch sm sid now k : sm_step sm (touch_session sm sid now k).2
| step_local_keys sm sid now a b h : sm_step sm (store_local_ephemeral_keypair sm sid now a b h).2
| step_remote_key sm sid now a h : sm_step sm (store_remote_ephemeral_public_key sm sid now a h).2
| step_secret sm sid now a h st : sm_step sm (store_shared_secret sm sid now a h st).2
| step_activate sm sid now : sm_step sm (activate_session sm sid now).2
| step_keepalive sm sid now : sm_step sm (mark_keepalive_sent sm sid now).2
| step_update sm sid data : sm_step sm (update_session_state sm sid data).2
| step_close sm sid now r : sm_step sm (close_session sm sid now r).2
| step_delete sm sid : sm_step sm (delete_session sm sid).2
| step_prepare sm uuid now sid ty p ra mx m sm' :
    prepare_reliable_outbound sm uuid now sid ty p ra mx = Ok (m, sm') -> sm_step sm sm'
| step_sent sm now sid k : sm_step sm (mark_reliable_outbound_sent sm now sid k).2
| step_acked sm now sid k i : sm_step sm (mark_reliable_outbound_acked sm now sid k i).2
| step_failed sm now sid k r : sm_step sm (mark_reliable_outbound_failed sm now sid k r).2
| step_receive sm now now_ack sid p : sm_step sm (receive_reliable_inbound sm now now_ack sid p).2
| step_due sm now : sm_step sm (list_due_reliable_outbound_messages sm now).2.

Lemma set_handlers_wf sm h : sm_wf sm -> sm_wf (sm <| sm_virtual_message_handlers := h |>).
Proof. intros Hwf. split; cbn; apply Hwf. Qed.

Lemma bind_remote_endpoint_wf sm sid t h p : sm_wf sm -> sm_wf (bind_remote_endpoint sm sid t h p).2.
Proof.
  intros Hwf. apply modify_session_wf; [done|]. intros s.
  unfold bind_endpoint_fields. by destruct t, h, p.
Qed.

Lemma touch_fields_keys now k s :
  ns_id (touch_fields now k s) = ns_id s /\ ns_session_id (touch_fields now k s) = ns_session_id s
  /\ ns_session_scope (touch_fields now k s) = ns_session_scope s.
Proof. by destruct k. Qed.

Lemma sm_step_wf sm sm' : sm_wf sm -> sm_step sm sm' -> sm_wf sm'.
Proof.
  intros Hwf Hstep.
  destruct Hstep as [??? ? Hr| |? ? ? ? ? Hr|? ? ? ? ? ? ? ? ? ? ? ? Hr|? ? ? ? ? ? ? ? ? ? ? ? Hr
    |? ? ? ? ? ? ? ? ? ? Hr|? ? ? ? ? ? ? ? ? ? Hr
    | | | | | | | | | | |? ? ? ? ? ? ? ? ? ? Hr| | | | |];
    try (apply modify_session_wf; [done|]; intros s0; repeat split; by cbn).
  - unfold register_virtual_message_handler in Hr. case_match; simplify_eq. by apply set_handlers_wf.
  - by apply set_handlers_wf.
  - by eapply create_session_wf.
  - eapply create_session_wf; [done|exact Hr].
  - unfold create_inbound_physical_session in Hr. case_match; [|eapply create_session_wf; [done|exact Hr]].
    match type of Hr with context [bind_remote_endpoint ?a ?b ?c ?d ?e] =>
      pose proof (bind_remote_endpoint_wf a b c d e Hwf); destruct (bind_remote_endpoint a b c d e) as [[]] end;
      by simplify_eq.
  - eapply create_session_wf; [done|exact Hr].
  - unfold create_inbound_virtual_session in Hr. case_match; [by simplify_eq|].
    eapply create_session_wf; [done|exact Hr].
  - by apply bind_remote_endpoint_wf.
  - apply modify_session_wf; [done|]. apply touch_fields_keys.
  - by apply delete_session_wf.
  - by eapply prepare_reliable_outbound_wf.
  - by apply mark_sent_wf.
  - by apply mark_acked_wf.
  - by apply mark_failed_wf.
  - by apply receive_reliable_inbound_wf.
  - by apply list_due_wf.
Qed.

Lemma sm_wf_reachable sm : rtc sm_step new_session_manager sm -> sm_wf sm.
Proof.
  intros Hr. pose proof new_session_manager_wf as Hwf. revert Hwf.
  induction Hr as [|sm1 sm2 sm3 Hstep _ IH]; [done|]. eauto using sm_step_wf.
Qed.

(** C32: in every state the manager can reach by its operations, both indexes
    refer to the same session objects, each under its own keys, integer ids are
    fresh and never collide, and every reliable state is well formed and belongs
    to a session that exists. *)
Theorem session_manager_invariant (sm : SessionManager) :
  rtc sm_step new_session_manager sm -> sm_wf sm.
Proof. apply sm_wf_reachable. Qed.

Definition demo_manager : SessionManager :=
  match create_outbound_physical_session new_session_manager "sid-1" 1000 "pn-a" "pn-b" None
          "tcp" "10.0.0.2" 19001 20 with
  | Ok (_, sm) => sm
  | Raise _ => new_session_manager
  end.

Lemma session_manager_invariant_witness :
  rtc sm_step new_session_manager (activate_session demo_manager "sid-1" 2000).2 /\
  sm_wf (activate_session demo_manager "sid-1" 2000).2.
Proof.
  assert (rtc sm_step new_session_manager (activate_session demo_manager "sid-1" 2000).2) as Hr.
  { eapply rtc_l; [|apply rtc_once, step_activate].
    eapply (step_out_phys _ "sid-1" 1000 "pn-a" "pn-b" None "tcp" "10.0.0.2" 19001 20).
    vm_compute. reflexivity. }
  split; [exact Hr|]. apply (session_manager_invariant _ Hr).
Defined.

(** ** What the operations do *)

Lemma get_modify_session sm sid f sid' :
  sm_wf sm ->
  get_session_by_session_id (modify_session sm sid f).2 sid' =
  if decide (sid = sid') then f <$> get_session_by_session_id sm sid
  else get_session_by_session_id sm sid'.
Proof.
  intros Hwf. unfold modify_session.
  destruct (sm_sessions_by_session_id sm !! sid) as [l|] eqn:El.
  - destruct (smwf_sid sm Hwf _ _ El) as (s & Es & Hsid & Hid).
    unfold deref. rewrite Es. cbn. unfold get_session_by_session_id, deref. cbn.
    case_decide as Hd; [subst sid'; rewrite El; cbn; by rewrite lookup_insert_eq, Es|].
    destruct (sm_sessions_by_session_id sm !! sid') as [l'|] eqn:El'; [|done]. cbn.
    rewrite lookup_insert_ne; [done|]. intros <-.
    destruct (smwf_sid sm Hwf _ _ El') as (s' & Es' & Hsid' & _). congruence.
  - cbn. case_decide; [subst|done]. unfold get_session_by_session_id. by rewrite El.
Qed.

Lemma elem_of_list_sessions sm scope s :
  sm_wf sm ->
  s ∈ list_sessions sm scope <->
  get_session_by_session_id sm (ns_session_id s) = Some s /\
  match scope with Some sc => ns_session_scope s = sc | None => True end.
Proof.
  intros Hwf.
  assert (s ∈ omap (deref sm) (sm_sessions_by_id sm).*2 <->
          get_session_by_session_id sm (ns_session_id s) = Some s) as Hall.
  { rewrite list_elem_of_omap. split.
    - intros (l & Hl & Hs). apply list_elem_of_fmap in Hl as ([i l'] & -> & Hl).
      apply (od_elem_of_get _ _ _ (smwf_id_keys sm Hwf)) in Hl.
      apply (get_by_id_sid sm Hwf i). unfold get_session_by_id. by rewrite Hl.
    - intros Hs. pose proof (proj2 (get_by_sid_id sm Hwf _ _ Hs)) as Hid.
      unfold get_session_by_id in Hid. apply bind_Some in Hid as (l & Hl & Hd).
      exists l. split; [|done]. apply list_elem_of_fmap.
      exists (ns_id s, l). split; [done|]. by apply od_get_elem_of. }
  unfold list_sessions. rewrite elem_of_py_sorted. destruct scope as [sc|].
  - rewrite list_elem_of_filter, Hall. tauto.
  - rewrite Hall. tauto.
Qed.

Lemma list_sessions_ids_NoDup sm :
  sm_wf sm -> NoDup (ns_id <$> omap (deref sm) (sm_sessions_by_id sm).*2).
Proof.
  intros Hwf. pose proof (smwf_id_keys sm Hwf) as Hnd. unfold od_wf in Hnd.
  assert (forall i l, (i, l) ∈ sm_sessions_by_id sm -> exists s, deref sm l = Some s /\ ns_id s = i) as Hd.
  { intros i l Hl. apply (od_elem_of_get _ _ _ (smwf_id_keys sm Hwf)) in Hl.
    destruct (smwf_id sm Hwf _ _ Hl) as (s & Hs & Hi & _). eauto. }
  revert Hnd Hd. generalize (sm_sessions_by_id sm). intros d.
  assert (forall d' : odict Z loc, (forall i l, (i, l) ∈ d' -> exists s, deref sm l = Some s /\ ns_id s = i) ->
    ns_id <$> omap (deref sm) d'.*2 = d'.*1) as Hmap.
  { induction d' as [|[i l] d' IH]; intros Hd; [done|]. csimpl.
    destruct (Hd i l) as (s & -> & Hi); [set_solver|]. csimpl.
    rewrite IH, Hi; [done|]. intros. apply Hd. set_solver. }
  intros Hnd Hd. by rewrite Hmap.
Qed.

(** Ordered and distinct keys are strictly ordered. *)
Lemma sorted_strict {A} (key : A -> Z) l :
  NoDup (key <$> l) -> StronglySorted (key_le key) l -> StronglySorted Z.lt (key <$> l).
Proof.
  intros Hnd Hs. induction Hs as [|x l Hl IH Hx]; csimpl; constructor.
  - apply IH. csimpl in Hnd. by apply NoDup_cons in Hnd as [_ ?].
  - csimpl in Hnd. apply NoDup_cons in Hnd as [Hnot _]. rewrite Forall_fmap.
    apply list.Forall_forall. intros y Hy. cbn.
    pose proof (proj1 (list.Forall_forall _ _) Hx y Hy) as Hle. unfold key_le, cmp_le, cmp, Z_cmp in Hle.
    assert (key x <> key y) by (intros E; apply Hnot; rewrite E; apply list_elem_of_fmap; eauto).
    change (Z.compare (key x) (key y) <> Gt) in Hle. rewrite Z.compare_gt_iff in Hle. lia.
Qed.

(** One session, one object.  In a reachable manager a session found by
    its session id is the one found by its integer id, it is listed exactly
    once, and the listing is in strictly increasing order of integer ids. *)
Theorem session_lookups_agree (sm : SessionManager) :
  rtc sm_step new_session_manager sm ->
  (forall s, get_session_by_session_id sm (ns_session_id s) = Some s <->
             get_session_by_id sm (ns_id s) = Some s) /\
  (forall s, s ∈ list_sessions sm None <->
             get_session_by_session_id sm (ns_session_id s) = Some s) /\
  StronglySorted Z.lt (ns_id <$> list_sessions sm None).
Proof.
  intros Hr. pose proof (sm_wf_reachable sm Hr) as Hwf. split; [|split].
  - intros s. split; intros H.
    + by apply (get_by_sid_id sm Hwf) in H as [_ ?].
    + by apply (get_by_id_sid sm Hwf) in H as [_ ?].
  - intros s. rewrite (elem_of_list_sessions sm None s Hwf). tauto.
  - apply sorted_strict.
    + unfold list_sessions. rewrite py_sorted_Permutation. by apply list_sessions_ids_NoDup.
    + apply (py_sorted_sorted ns_id).
Qed.

Lemma session_lookups_agree_witness :
  (forall s, s ∈ list_sessions demo_manager None <->
             get_session_by_session_id demo_manager (ns_session_id s) = Some s) /\
  ns_id <$> list_sessions demo_manager None = [1].
Proof.
  split; [|vm_compute; reflexivity].
  apply (session_lookups_agree demo_manager). apply rtc_once.
  eapply (step_out_phys _ "sid-1" 1000 "pn-a" "pn-b" None "tcp" "10.0.0.2" 19001 20).
  vm_compute. reflexivity.
Defined.

(** ** Retransmission *)

#[export] Instance outbound_eq_dec : EqDecision ReliableOutboundMessage.
Proof. solve_decision. Defined.

Definition fail_exhausted (now : instant) (m : ReliableOutboundMessage) : ReliableOutboundMessage :=
  m <| om_failed_at := Some now |> <| om_failure_reason := Some "max_attempts_exceeded" |>.

Definition in_slot (sid : string) (k : Z) (m : ReliableOutboundMessage) : Prop :=
  om_session_id m = sid /\ om_sequence_number m = k.

Lemma has_slot_put sm m m0 m1 :
  has_slot sm m -> has_slot sm m0 -> om_session_scope m1 = om_session_scope m ->
  has_slot (put_outbound sm (om_session_id m) (om_sequence_number m) m1) m0.
Proof.
  intros (m2 & Hm2 & Hsc) (m3 & Hm3 & Hsc3) Hsc1. unfold has_slot.
  rewrite get_put_outbound by eauto. case_decide as Hd; [|eauto].
  destruct Hd as [Hd1 Hd2]. rewrite Hd1, Hd2, Hm3 in Hm2. simplify_eq.
  eexists; split; [done|]. congruence.
Qed.

(** A slot none of whose listed messages is exhausted is left alone. *)
Lemma scan_due_frame now pending sm sid k :
  Forall (has_slot sm) pending ->
  (forall m, m ∈ pending -> in_slot sid k m -> om_attempts m < om_max_attempts m) ->
  _get_reliable_outbound (scan_due sm now pending).2 sid k = _get_reliable_outbound sm sid k.
Proof.
  revert sm. induction pending as [|m pending IH]; intros sm Hs Hfr; simpl; [done|].
  apply Forall_cons in Hs as [Hm Hs].
  destruct (Z.leb_spec (om_max_attempts m) (om_attempts m)) as [Hex|Hex].
  - rewrite IH; [|eapply Forall_impl; [exact Hs|]; intros; by apply has_slot_put|
      intros; apply Hfr; [by right|done]].
    destruct Hm as (m0 & Hm0 & _). rewrite get_put_outbound by eauto.
    apply decide_False. intros Hd. specialize (Hfr m ltac:(left) Hd). lia.
  - specialize (IH sm Hs (fun m' H => Hfr m' ltac:(by right))).
    by destruct (scan_due sm now pending).
Qed.

(** The slot of an exhausted message ends up holding the failed message. *)
Lemma scan_due_fails now pending sm m :
  Forall (has_slot sm) pending -> m ∈ pending -> om_max_attempts m <= om_attempts m ->
  (forall m', m' ∈ pending -> in_slot (om_session_id m) (om_sequence_number m) m' -> m' = m) ->
  _get_reliable_outbound (scan_due sm now pending).2 (om_session_id m) (om_sequence_number m)
  = Some (fail_exhausted now m).
Proof.
  revert sm. induction pending as [|m0 pending IH]; intros sm Hs Hin Hex Huniq; [set_solver|].
  simpl. apply Forall_cons in Hs as [Hm0 Hs].
  assert (Forall (has_slot (put_outbound sm (om_session_id m0) (om_sequence_number m0)
            (fail_exhausted now m0))) pending) as Hs'.
  { eapply Forall_impl; [exact Hs|]. intros. by apply has_slot_put. }
  assert (forall m', m' ∈ pending -> in_slot (om_session_id m) (om_sequence_number m) m' ->
            m' = m) as Hu by (intros; apply Huniq; [by right|done]).
  destruct (decide (m ∈ pending)) as [Ht|Hnt].
  - destruct (_ <=? _); [by apply IH|]. specialize (IH sm Hs Ht Hex Hu).
    by destruct (scan_due sm now pending).
  - apply elem_of_cons in Hin as [<-|]; [|done].
    destruct (Z.leb_spec (om_max_attempts m) (om_attempts m)); [|lia].
    unfold fail_exhausted in *. rewrite scan_due_frame; [|done|].
    + destruct Hm0 as (m1 & Hm1 & _). rewrite get_put_outbound by eauto. by apply decide_True.
    + intros m' Hm' Hsl. destruct Hnt. by rewrite <- (Hu m' Hm' Hsl).
Qed.

Lemma list_due_unfold sm now :
  list_due_reliable_outbound_messages sm now =
  (py_sorted send_order_key (scan_due sm now (list_pending_reliable_outbound_messages sm)).1,
   (scan_due sm now (list_pending_reliable_outbound_messages sm)).2).
Proof. unfold list_due_reliable_outbound_messages. by destruct (scan_due _ _ _). Qed.

Lemma list_due_frame sm now sid k :
  sm_wf sm ->
  (forall m, _get_reliable_outbound sm sid k = Some m -> om_pending m = true ->
     om_attempts m < om_max_attempts m) ->
  _get_reliable_outbound (list_due_reliable_outbound_messages sm now).2 sid k
  = _get_reliable_outbound sm sid k.
Proof.
  intros Hwf Hfr. rewrite list_due_unfold. apply scan_due_frame; [by apply pending_has_slot|].
  intros m Hm [<- <-]. apply (pending_lookup sm m Hwf) in Hm as [Hm Hp]. by apply Hfr.
Qed.

Lemma list_due_fails sm now sid k m :
  sm_wf sm -> _get_reliable_outbound sm sid k = Some m -> om_pending m = true ->
  om_max_attempts m <= om_attempts m ->
  _get_reliable_outbound (list_due_reliable_outbound_messages sm now).2 sid k
  = Some (fail_exhausted now m).
Proof.
  intros Hwf Hm Hp Hex.
  assert (om_session_id m = sid /\ om_sequence_number m = k) as [<- <-].
  { pose proof Hm as Hm'. unfold _get_reliable_outbound in Hm'.
    apply bind_Some in Hm' as (st & Hst & Hout).
    destruct (smwf_rel sm Hwf _ _ Hst) as (Hr & Hid & _).
    apply (rwf_out st Hr) in Hout as (? & _ & ? & _). split; congruence. }
  rewrite list_due_unfold. apply scan_due_fails; [by apply pending_has_slot| |done|].
  - by apply (pending_lookup sm m Hwf).
  - intros m' Hm' [E1 E2]. apply (pending_lookup sm m' Hwf) in Hm' as [Hm' _]. congruence.
Qed.

(** Retransmission.  The due list holds exactly the queued, unacknowledged
    and unfailed messages with attempts left whose first or next transmission
    time has come, in send order; every queued message whose attempts are used
    up is failed in its queue, every other queued message is unchanged. *)
Theorem due_messages_spec (sm : SessionManager) (now : instant) :
  rtc sm_step new_session_manager sm ->
  let due := (list_due_reliable_outbound_messages sm now).1 in
  let sm' := (list_due_reliable_outbound_messages sm now).2 in
  (forall m, m ∈ due <->
     _get_reliable_outbound sm (om_session_id m) (om_sequence_number m) = Some m /\
     om_pending m = true /\ om_attempts m < om_max_attempts m /\
     due_for_send m now None = true) /\
  StronglySorted (key_le send_order_key) due /\
  (forall sid k m, _get_reliable_outbound sm sid k = Some m ->
     _get_reliable_outbound sm' sid k =
     Some (if om_pending m && (om_max_attempts m <=? om_attempts m)
           then fail_exhausted now m else m)).
Proof.
  intros Hr. pose proof (sm_wf_reachable sm Hr) as Hwf. cbv zeta. split; [|split].
  - intros m. rewrite list_due_unfold. cbn [fst].
    rewrite elem_of_py_sorted, scan_due_elem, (pending_lookup sm m Hwf). tauto.
  - rewrite list_due_unfold. apply py_sorted_sorted.
  - intros sid k m Hm. destruct (om_pending m) eqn:Hp; cbn [andb].
    + destruct (Z.leb_spec (om_max_attempts m) (om_attempts m)); [by apply list_due_fails|].
      rewrite list_due_frame; [done|done|]. intros m1 Hm1 _. rewrite Hm in Hm1. by injection Hm1 as <-.
    + rewrite list_due_frame; [done|done|]. intros m1 Hm1 Hp1. congruence.
Qed.

(** A session with one queued message. *)
Definition demo_queued : SessionManager :=
  match prepare_reliable_outbound demo_manager "msg-1" 3000 "sid-1" "ping" [] 5000000 3 with
  | Ok (_, sm) => sm
  | Raise _ => demo_manager
  end.

Lemma demo_queued_reachable : rtc sm_step new_session_manager demo_queued.
Proof.
  eapply rtc_l; [|apply rtc_once].
  - eapply (step_out_phys _ "sid-1" 1000 "pn-a" "pn-b" None "tcp" "10.0.0.2" 19001 20).
    vm_compute. reflexivity.
  - eapply (step_prepare _ "msg-1" 3000 "sid-1" "ping" [] 5000000 3). vm_compute. reflexivity.
Qed.

Lemma due_messages_spec_witness :
  om_sequence_number <$> (list_due_reliable_outbound_messages demo_queued 3000).1 = [1] /\
  StronglySorted (key_le send_order_key) (list_due_reliable_outbound_messages demo_queued 3000).1.
Proof.
  split; [vm_compute; reflexivity|].
  apply (due_messages_spec demo_queued 3000 demo_queued_reachable).
Defined.

Lemma get_outbound_set_outbound sm sid st out sid' k' :
  od_get sid (sm_reliable_states_by_session_id sm) = Some st ->
  _get_reliable_outbound (put_reliable sm sid (set_outbound st out)) sid' k' =
  if decide (sid = sid') then od_get k' out else _get_reliable_outbound sm sid' k'.
Proof.
  intros Hst. unfold _get_reliable_outbound, put_reliable. cbn. case_decide as Hd.
  - subst sid'. by rewrite od_get_set_eq.
  - by rewrite od_get_set_ne.
Qed.

(** Acknowledgements.  An acknowledgement whose message id is not the one
    queued under its sequence number, or whose sequence number is unknown,
    changes nothing; a matching one returns the message with its acknowledgement
    time and takes it, and nothing else, out of the queues. *)
Theorem acknowledgement_spec (sm : SessionManager) (now : instant) (sid id : string) (k : Z) :
  let acked := mark_reliable_outbound_acked sm now sid k id in
  match _get_reliable_outbound sm sid k with
  | Some m =>
      if decide (om_reliable_message_id m = id) then
        acked.1 = Some (m <| om_acked_at := Some now |>) /\
        forall sid' k', _get_reliable_outbound acked.2 sid' k' =
          if decide (sid' = sid /\ k' = k) then None else _get_reliable_outbound sm sid' k'
      else acked = (None, sm)
  | None => acked = (None, sm)
  end.
Proof.
  cbv zeta. unfold mark_reliable_outbound_acked.
  destruct (_get_reliable_outbound sm sid k) as [m|] eqn:Hm; [|done].
  pose proof Hm as Hm'. unfold _get_reliable_outbound in Hm'.
  apply bind_Some in Hm' as (st & Hst & Hout). rewrite Hst.
  case_decide as Hid; case_bool_decide as Hid'; try done. split; [done|].
  intros sid' k'. cbn [snd]. rewrite (get_outbound_set_outbound _ _ _ _ _ _ Hst).
  destruct (decide (sid = sid')) as [<-|Hs].
  - destruct (decide (k' = k)) as [->|Hk].
    + rewrite od_get_del_eq. by rewrite decide_True.
    + rewrite decide_False by naive_solver. rewrite od_get_del_ne by done.
      unfold _get_reliable_outbound. by rewrite Hst.
  - by rewrite decide_False by naive_solver.
Qed.

(** ** Closing and deleting *)

Lemma close_session_fields sm sid now reason :
  sm_wf sm ->
  forall s, get_session_by_session_id (close_session sm sid now reason).2 sid = Some s ->
  ns_session_state s = "closed" /\ ns_handshake_state s = "closed" /\
  ns_closed_at s = Some now /\ ns_close_reason s = Some reason.
Proof.
  intros Hwf s Hs. unfold close_session, update_session_state in Hs.
  rewrite get_modify_session, decide_True in Hs by done.
  apply fmap_Some in Hs as (s0 & _ & ->).
  repeat split; cbn; [by destruct (ns_closed_at s0)|by destruct (ns_close_reason s0)].
Qed.

Lemma delete_session_get sm sid sid' :
  sm_wf sm ->
  get_session_by_session_id (delete_session sm sid).2 sid' =
  if decide (sid = sid') then None else get_session_by_session_id sm sid'.
Proof.
  intros Hwf. unfold delete_session.
  destruct (sm_sessions_by_session_id sm !! sid) as [l|] eqn:El.
  - destruct (smwf_sid sm Hwf _ _ El) as (s & Es & _ & _).
    unfold deref. rewrite Es. cbn. unfold get_session_by_session_id. cbn.
    case_decide as Hd; [subst; by rewrite lookup_delete_eq|by rewrite lookup_delete_ne].
  - cbn. case_decide; [subst|done]. unfold get_session_by_session_id. by rewrite El.
Qed.

Lemma delete_session_reliable sm sid :
  sm_wf sm -> od_get sid (sm_reliable_states_by_session_id (delete_session sm sid).2) = None.
Proof.
  intros Hwf. pose proof (delete_session_wf sm Hwf sid) as Hwf'.
  destruct (od_get sid _) as [st|] eqn:E; [|done].
  destruct (smwf_rel _ Hwf' _ _ E) as (_ & _ & s & Hs & _).
  rewrite delete_session_get, decide_True in Hs by done. done.
Qed.

Lemma delete_then_prepare sm sid uuid now now' ty p ra mx data s sm1 m sm2 :
  sm_wf sm -> ci_session_id data = sid ->
  create_session (delete_session sm sid).2 now' data = Ok (s, sm1) ->
  prepare_reliable_outbound sm1 uuid now sid ty p ra mx = Ok (m, sm2) ->
  om_sequence_number m = 1.
Proof.
  intros Hwf Hsid Hc Hp. pose proof (delete_session_reliable sm sid Hwf) as Hrel.
  unfold create_session in Hc. case_match; [done|]. destruct_res.
  unfold prepare_reliable_outbound in Hp. unfold get_session_by_session_id in Hp. cbn in Hp.
  rewrite lookup_insert_eq in Hp. cbn in Hp. unfold deref in Hp. cbn in Hp.
  rewrite lookup_insert_eq in Hp. cbn in Hp. unfold _get_reliable_state in Hp. cbn in Hp.
  rewrite Hrel in Hp. by simplify_eq/=.
Qed.

(** The end of a session.  Closing marks the session closed at the given
    instant and takes it off the active list, while every other session is
    untouched; deleting removes it from every lookup with its reliable queues, so
    that a session recreated under the same id starts again at number 1. *)
Theorem session_close_delete_spec (sm : SessionManager) (sid reason : string) (now : instant) :
  rtc sm_step new_session_manager sm ->
  let closed := (close_session sm sid now reason).2 in
  let deleted := (delete_session sm sid).2 in
  (forall s, get_session_by_session_id closed sid = Some s ->
     ns_closed_at s = Some now /\ ns_close_reason s = Some reason) /\
  (forall s, s ∈ list_active_sessions closed <-> s ∈ list_active_sessions sm /\ ns_session_id s <> sid) /\
  (forall s, s ∈ list_sessions deleted None <-> s ∈ list_sessions sm None /\ ns_session_id s <> sid) /\
  od_get sid (sm_reliable_states_by_session_id deleted) = None /\
  (forall now' data s sm1 uuid ty p ra mx m sm2,
     ci_session_id data = sid -> create_session deleted now' data = Ok (s, sm1) ->
     prepare_reliable_outbound sm1 uuid now sid ty p ra mx = Ok (m, sm2) ->
     om_sequence_number m = 1).
Proof.
  intros Hr. pose proof (sm_wf_reachable sm Hr) as Hwf. cbv zeta.
  assert (sm_wf (close_session sm sid now reason).2) as Hwfc
    by (eapply sm_step_wf; [exact Hwf|apply step_close]).
  pose proof (delete_session_wf sm Hwf sid) as Hwfd.
  split; [|split; [|split; [|split]]].
  - intros s Hs. apply (close_session_fields sm sid now reason Hwf) in Hs. tauto.
  - intros s. unfold list_active_sessions.
    rewrite !list_elem_of_filter, !elem_of_list_sessions by done.
    destruct (decide (ns_session_id s = sid)) as [<-|Hne].
    + split; [|naive_solver]. intros (Hact & Hs & _).
      apply (close_session_fields sm _ now reason Hwf) in Hs as [Hcl _]. congruence.
    + unfold close_session, update_session_state.
      rewrite get_modify_session, decide_False by done. naive_solver.
  - intros s. rewrite !elem_of_list_sessions, delete_session_get by done.
    case_decide; subst; naive_solver.
  - by apply delete_session_reliable.
  - intros. eapply (delete_then_prepare sm sid); eassumption.
Qed.

Lemma session_close_delete_spec_witness :
  ns_id <$> list_sessions demo_queued None = [1] /\
  list_sessions (delete_session demo_queued "sid-1").2 None = [] /\
  od_get "sid-1" (sm_reliable_states_by_session_id (delete_session demo_queued "sid-1").2) = None.
Proof.
  split; [vm_compute; reflexivity|]. split; [vm_compute; reflexivity|].
  apply (session_close_delete_spec demo_queued "sid-1" "bye" 5000 demo_queued_reachable).
Defined.
