(* ===== verification/Records.v ===== *)
(** * DHT records

    Models [src/app/dht/records.py]: the payload classes of the five namespaces,
    their parsers from a decoded JSON object and their serialisation.  An [int]
    field is a [pyint], because [isinstance(True, int)] holds in Python; a nonce
    that was never computed is [None]. *)

From S2P Require Import Prelude PyJson JsonText.

(** ** Data *)

Record DpntRecordPayload := MkDpnt {
  dpnt_pk_physical_node : string;
  dpnt_endpoints : list jdict;
  dpnt_transport_methods : list string;
  dpnt_reachability_class : string;
  dpnt_relay_capable : bool;
  dpnt_hole_punch_capable : bool;
  dpnt_protocol_version : string;
  dpnt_feature_flags : list string;
  dpnt_last_validated_at : string;
  dpnt_status : string;
  dpnt_signature : string;
  dpnt_pow_nonce : option pyint;
}.

Record DrtRouteEntryRecord := MkDrtEntry {
  re_pk_physical_node : string;
  re_virtual_node_signature : string;
  re_final_path_id : string;
  re_entry_point_virtual_node_signature : string;
  re_entry_point_physical_node_signature : string;
  re_physical_node_signature : string;
  re_expires_at : string;
  re_rtt : pyint;
  re_rtt_physical_node_signature : string;
  re_pow_nonce : option pyint;
}.

Record DrtRecordPayload := MkDrt {
  drt_pk_virtual_node : string;
  drt_route_entries : list DrtRouteEntryRecord;
  drt_last_update : string;
}.

Record DdtHolderRecord := MkHolder {
  ho_pk_virtual_node : string;
  ho_expires_at : string;
  ho_signature : string;
  ho_pow_nonce : option pyint;
}.

Record DdtRecordPayload := MkDdt {
  ddt_title : string;
  ddt_type : string;
  ddt_tags : list string;
  ddt_holders : list DdtHolderRecord;
}.

Record DttEntryRecord := MkDttEntry {
  te_resource_id : string;
  te_pk_virtual_node : string;
  te_created_at : string;
  te_expires_at : string;
  te_signature : string;
  te_pow_nonce : option pyint;
}.

Record DttRecordPayload := MkDtt { dtt_entries : list DttEntryRecord }.

Record DptRecordPayload := MkDpt {
  dpt_pk_virtual_node_owner : string;
  dpt_title : string;
  dpt_type : string;
  dpt_last_modified : string;
  dpt_target_ref : string;
  dpt_signature : string;
  dpt_pow_nonce : option pyint;
}.

Inductive DhtPayload : Type :=
| Dpnt (p : DpntRecordPayload)
| Drt (p : DrtRecordPayload)
| Ddt (p : DdtRecordPayload)
| Dtt (p : DttRecordPayload)
| Dpt (p : DptRecordPayload).

#[export] Instance dpnt_eq_dec : EqDecision DpntRecordPayload.
Proof. solve_decision. Defined.
#[export] Instance drt_entry_eq_dec : EqDecision DrtRouteEntryRecord.
Proof. solve_decision. Defined.
#[export] Instance drt_eq_dec : EqDecision DrtRecordPayload.
Proof. solve_decision. Defined.
#[export] Instance holder_eq_dec : EqDecision DdtHolderRecord.
Proof. solve_decision. Defined.
#[export] Instance ddt_eq_dec : EqDecision DdtRecordPayload.
Proof. solve_decision. Defined.
#[export] Instance dtt_entry_eq_dec : EqDecision DttEntryRecord.
Proof. solve_decision. Defined.
#[export] Instance dtt_eq_dec : EqDecision DttRecordPayload.
Proof. solve_decision. Defined.
#[export] Instance dpt_eq_dec : EqDecision DptRecordPayload.
Proof. solve_decision. Defined.
#[export] Instance payload_eq_dec : EqDecision DhtPayload.
Proof. solve_decision. Defined.

#[export] Instance dpnt_eta : Eta DpntRecordPayload := fun p =>
  MkDpnt (dpnt_pk_physical_node p) (dpnt_endpoints p) (dpnt_transport_methods p)
    (dpnt_reachability_class p) (dpnt_relay_capable p) (dpnt_hole_punch_capable p)
    (dpnt_protocol_version p) (dpnt_feature_flags p) (dpnt_last_validated_at p)
    (dpnt_status p) (dpnt_signature p) (dpnt_pow_nonce p).
#[export] Instance drt_entry_eta : Eta DrtRouteEntryRecord := fun e =>
  MkDrtEntry (re_pk_physical_node e) (re_virtual_node_signature e) (re_final_path_id e)
    (re_entry_point_virtual_node_signature e) (re_entry_point_physical_node_signature e)
    (re_physical_node_signature e) (re_expires_at e) (re_rtt e)
    (re_rtt_physical_node_signature e) (re_pow_nonce e).
#[export] Instance drt_eta : Eta DrtRecordPayload := fun p =>
  MkDrt (drt_pk_virtual_node p) (drt_route_entries p) (drt_last_update p).
#[export] Instance holder_eta : Eta DdtHolderRecord := fun h =>
  MkHolder (ho_pk_virtual_node h) (ho_expires_at h) (ho_signature h) (ho_pow_nonce h).
#[export] Instance ddt_eta : Eta DdtRecordPayload := fun p =>
  MkDdt (ddt_title p) (ddt_type p) (ddt_tags p) (ddt_holders p).
#[export] Instance dtt_entry_eta : Eta DttEntryRecord := fun e =>
  MkDttEntry (te_resource_id e) (te_pk_virtual_node e) (te_created_at e) (te_expires_at e)
    (te_signature e) (te_pow_nonce e).
#[export] Instance dpt_eta : Eta DptRecordPayload := fun p =>
  MkDpt (dpt_pk_virtual_node_owner p) (dpt_title p) (dpt_type p) (dpt_last_modified p)
    (dpt_target_ref p) (dpt_signature p) (dpt_pow_nonce p).

(** ** Field readers *)

(** [payload.get(field)] where [None] and a JSON null are the same object. *)
Definition get_value (payload : jdict) (field_name : string) : option json :=
  match od_get field_name payload with Some JNull => None | o => o end.

Definition list_error (field_name : string) : exn :=
  ValueError ("O campo '" +:+ field_name +:+ "' precisa ser uma lista.").

Definition _read_list_of_dicts (payload : jdict) (field_name : string) : res (list jdict) :=
  match get_value payload field_name with
  | None => Ok []
  | Some (JArr raw_value) =>
      map_res (fun item => match item with
        | JObj d => Ok d
        | _ => Raise (ValueError ("O campo '" +:+ field_name +:+ "' precisa conter apenas objetos."))
        end) raw_value
  | Some _ => Raise (list_error field_name)
  end.

Definition _read_list_of_strings (payload : jdict) (field_name : string) : res (list string) :=
  match get_value payload field_name with
  | None => Ok []
  | Some (JArr raw_value) =>
      map_res (fun item => match item with
        | JStr s => Ok s
        | _ => Raise (ValueError ("O campo '" +:+ field_name +:+ "' precisa conter apenas strings."))
        end) raw_value
  | Some _ => Raise (list_error field_name)
  end.

Definition _read_required_string (payload : jdict) (field_name : string) : res string :=
  match od_get field_name payload with
  | Some (JStr s) =>
      if str_truthy s then Ok s
      else Raise (ValueError ("The '" +:+ field_name +:+ "' field must be a non-empty string."))
  | _ => Raise (ValueError ("The '" +:+ field_name +:+ "' field must be a non-empty string."))
  end.

Definition _read_required_int (payload : jdict) (field_name : string) : res pyint :=
  match od_get field_name payload ≫= json_pyint with
  | Some i => Ok i
  | None => Raise (ValueError ("O campo '" +:+ field_name +:+ "' precisa ser um inteiro."))
  end.

Definition _read_pow_nonce (payload : jdict) : res (option pyint) :=
  match get_value payload "pow_nonce" with
  | None => Ok None
  | Some v =>
      match json_pyint v with
      | Some i => Ok (Some i)
      | None => Raise (ValueError "O campo 'pow_nonce' precisa ser um inteiro.")
      end
  end.

Definition _read_required_bool (payload : jdict) (field_name : string) : res bool :=
  match od_get field_name payload with
  | Some (JBool b) => Ok b
  | _ => Raise (ValueError ("O campo '" +:+ field_name +:+ "' precisa ser um booleano."))
  end.

(** A list of objects, each read by [f]; a missing list is empty. *)
Definition read_objects {A} (f : jdict -> res A) (payload : jdict) (field_name : string)
    : res (list A) :=
  match get_value payload field_name with
  | None => Ok []
  | Some (JArr raw_value) =>
      map_res (fun item => match item with
        | JObj d => f d
        | _ => Raise (ValueError ("O campo '" +:+ field_name +:+ "' precisa conter apenas objetos."))
        end) raw_value
  | Some _ => Raise (list_error field_name)
  end.

Definition read_ddt_holder (item : jdict) : res DdtHolderRecord :=
  let! pk_virtual_node := _read_required_string item "pk_virtual_node" in
  let! expires_at := _read_required_string item "expires_at" in
  let! signature := _read_required_string item "signature" in
  let! pow_nonce := _read_pow_nonce item in
  Ok (MkHolder pk_virtual_node expires_at signature pow_nonce).

Definition _read_ddt_holders (payload : jdict) : res (list DdtHolderRecord) :=
  read_objects read_ddt_holder payload "holders".

Definition read_drt_route_entry (item : jdict) : res DrtRouteEntryRecord :=
  let! pk_physical_node := _read_required_string item "pk_physical_node" in
  let! virtual_node_signature := _read_required_string item "virtual_node_signature" in
  let! final_path_id := _read_required_string item "final_path_id" in
  let! entry_point_virtual_node_signature :=
    _read_required_string item "entry_point_virtual_node_signature" in
  let! entry_point_physical_node_signature :=
    _read_required_string item "entry_point_physical_node_signature" in
  let! physical_node_signature := _read_required_string item "physical_node_signature" in
  let! expires_at := _read_required_string item "expires_at" in
  let! rtt := _read_required_int item "rtt" in
  let! rtt_physical_node_signature := _read_required_string item "rtt_physical_node_signature" in
  let! pow_nonce := _read_pow_nonce item in
  Ok (MkDrtEntry pk_physical_node virtual_node_signature final_path_id
        entry_point_virtual_node_signature entry_point_physical_node_signature
        physical_node_signature expires_at rtt rtt_physical_node_signature pow_nonce).

Definition _read_drt_route_entries (payload : jdict) : res (list DrtRouteEntryRecord) :=
  read_objects read_drt_route_entry payload "route_entries".

Definition read_dtt_entry (item : jdict) : res DttEntryRecord :=
  let! resource_id := _read_required_string item "resource_id" in
  let! pk_virtual_node := _read_required_string item "pk_virtual_node" in
  let! created_at := _read_required_string item "created_at" in
  let! expires_at := _read_required_string item "expires_at" in
  let! signature := _read_required_string item "signature" in
  let! pow_nonce := _read_pow_nonce item in
  Ok (MkDttEntry resource_id pk_virtual_node created_at expires_at signature pow_nonce).

Definition _read_dtt_entries (payload : jdict) : res (list DttEntryRecord) :=
  read_objects read_dtt_entry payload "entries".

(** ** Parsers *)

Definition _parse_dpnt (payload : jdict) : res DpntRecordPayload :=
  let! pk_physical_node := _read_required_string payload "pk_physical_node" in
  let! endpoints := _read_list_of_dicts payload "endpoints" in
  let! transport_methods := _read_list_of_strings payload "transport_methods" in
  let! reachability_class := _read_required_string payload "reachability_class" in
  let! relay_capable := _read_required_bool payload "relay_capable" in
  let! hole_punch_capable := _read_required_bool payload "hole_punch_capable" in
  let! protocol_version := _read_required_string payload "protocol_version" in
  let! feature_flags := _read_list_of_strings payload "feature_flags" in
  let! last_validated_at := _read_required_string payload "last_validated_at" in
  let! status := _read_required_string payload "status" in
  let! signature := _read_required_string payload "signature" in
  let! pow_nonce := _read_pow_nonce payload in
  Ok (MkDpnt pk_physical_node endpoints transport_methods reachability_class relay_capable
        hole_punch_capable protocol_version feature_flags last_validated_at status signature
        pow_nonce).

Definition _parse_drt (payload : jdict) : res DrtRecordPayload :=
  let! pk_virtual_node := _read_required_string payload "pk_virtual_node" in
  let! route_entries := _read_drt_route_entries payload in
  let! last_update := _read_required_string payload "last_update" in
  Ok (MkDrt pk_virtual_node route_entries last_update).

Definition _parse_ddt (payload : jdict) : res DdtRecordPayload :=
  let! title := _read_required_string payload "title" in
  let! type := _read_required_string payload "type" in
  let! tags := _read_list_of_strings payload "tags" in
  let! holders := _read_ddt_holders payload in
  Ok (MkDdt title type tags holders).

Definition _parse_dtt (payload : jdict) : res DttRecordPayload :=
  let! entries := _read_dtt_entries payload in
  Ok (MkDtt entries).

Definition _parse_dpt (payload : jdict) : res DptRecordPayload :=
  let! pk_virtual_node_owner := _read_required_string payload "pk_virtual_node_owner" in
  let! title := _read_required_string payload "title" in
  let! type := _read_required_string payload "type" in
  let! last_modified := _read_required_string payload "last_modified" in
  let! target_ref := _read_required_string payload "target_ref" in
  let! signature := _read_required_string payload "signature" in
  let! pow_nonce := _read_pow_nonce payload in
  Ok (MkDpt pk_virtual_node_owner title type last_modified target_ref signature pow_nonce).

(** [str.lower] on ASCII letters; no other letter lowers to one of a namespace. *)
Definition lower_ascii (a : Ascii.ascii) : Ascii.ascii :=
  let n := Ascii.N_of_ascii a in
  if (65 <=? n)%N && (n <=? 90)%N then Ascii.ascii_of_N (n + 32) else a.

Fixpoint lower (s : string) : string :=
  match s with
  | EmptyString => EmptyString
  | String a s' => String (lower_ascii a) (lower s')
  end.

Inductive namespace_kind : Type := NsDpnt | NsDrt | NsDdt | NsDtt | NsDpt.

(** The chain of comparisons of [namespace.lower()], also the keys of [_PARSERS]. *)
Definition namespace_of (namespace : string) : option namespace_kind :=
  let n := lower namespace in
  if bool_decide (n = "dpnt") then Some NsDpnt
  else if bool_decide (n = "drt") then Some NsDrt
  else if bool_decide (n = "ddt") then Some NsDdt
  else if bool_decide (n = "dtt") then Some NsDtt
  else if bool_decide (n = "dpt") then Some NsDpt
  else None.

Definition parse_record_dict (namespace : string) (payload : jdict) : res DhtPayload :=
  match namespace_of namespace with
  | Some NsDpnt => Dpnt <$> _parse_dpnt payload
  | Some NsDrt => Drt <$> _parse_drt payload
  | Some NsDdt => Ddt <$> _parse_ddt payload
  | Some NsDtt => Dtt <$> _parse_dtt payload
  | Some NsDpt => Dpt <$> _parse_dpt payload
  | None => Raise (ValueError ("Unsupported DHT namespace: " +:+ namespace))
  end.

Definition parse_record `{FloatText} (namespace record_json : string) : res DhtPayload :=
  if negb (str_truthy namespace) then Raise (ValueError "namespace e obrigatorio.")
  else if negb (str_truthy record_json) then Raise (ValueError "record_json e obrigatorio.")
  else
    match json_loads record_json with
    | None => Raise (ValueError "record_json does not contain valid JSON.")
    | Some (JObj payload) => parse_record_dict namespace payload
    | Some _ => Raise (ValueError "record_json precisa ser um objeto JSON.")
    end.

(** ** [dataclasses.asdict] and [serialize_record] *)

Definition nonce_json (n : option pyint) : json := opt_json pyint_json n.

Definition strings_json (l : list string) : json := JArr (JStr <$> l).

Definition dpnt_dict (p : DpntRecordPayload) : jdict :=
  [("pk_physical_node", JStr (dpnt_pk_physical_node p));
   ("endpoints", JArr (JObj <$> dpnt_endpoints p));
   ("transport_methods", strings_json (dpnt_transport_methods p));
   ("reachability_class", JStr (dpnt_reachability_class p));
   ("relay_capable", JBool (dpnt_relay_capable p));
   ("hole_punch_capable", JBool (dpnt_hole_punch_capable p));
   ("protocol_version", JStr (dpnt_protocol_version p));
   ("feature_flags", strings_json (dpnt_feature_flags p));
   ("last_validated_at", JStr (dpnt_last_validated_at p));
   ("status", JStr (dpnt_status p));
   ("signature", JStr (dpnt_signature p));
   ("pow_nonce", nonce_json (dpnt_pow_nonce p))].

Definition drt_entry_dict (e : DrtRouteEntryRecord) : jdict :=
  [("pk_physical_node", JStr (re_pk_physical_node e));
   ("virtual_node_signature", JStr (re_virtual_node_signature e));
   ("final_path_id", JStr (re_final_path_id e));
   ("entry_point_virtual_node_signature", JStr (re_entry_point_virtual_node_signature e));
   ("entry_point_physical_node_signature", JStr (re_entry_point_physical_node_signature e));
   ("physical_node_signature", JStr (re_physical_node_signature e));
   ("expires_at", JStr (re_expires_at e));
   ("rtt", pyint_json (re_rtt e));
   ("rtt_physical_node_signature", JStr (re_rtt_physical_node_signature e));
   ("pow_nonce", nonce_json (re_pow_nonce e))].

Definition drt_dict (p : DrtRecordPayload) : jdict :=
  [("pk_virtual_node", JStr (drt_pk_virtual_node p));
   ("route_entries", JArr ((fun e => JObj (drt_entry_dict e)) <$> drt_route_entries p));
   ("last_update", JStr (drt_last_update p))].

Definition holder_dict (h : DdtHolderRecord) : jdict :=
  [("pk_virtual_node", JStr (ho_pk_virtual_node h));
   ("expires_at", JStr (ho_expires_at h));
   ("signature", JStr (ho_signature h));
   ("pow_nonce", nonce_json (ho_pow_nonce h))].

Definition ddt_dict (p : DdtRecordPayload) : jdict :=
  [("title", JStr (ddt_title p));
   ("type", JStr (ddt_type p));
   ("tags", strings_json (ddt_tags p));
   ("holders", JArr ((fun h => JObj (holder_dict h)) <$> ddt_holders p))].

Definition dtt_entry_dict (e : DttEntryRecord) : jdict :=
  [("resource_id", JStr (te_resource_id e));
   ("pk_virtual_node", JStr (te_pk_virtual_node e));
   ("created_at", JStr (te_created_at e));
   ("expires_at", JStr (te_expires_at e));
   ("signature", JStr (te_signature e));
   ("pow_nonce", nonce_json (te_pow_nonce e))].

Definition dtt_dict (p : DttRecordPayload) : jdict :=
  [("entries", JArr ((fun e => JObj (dtt_entry_dict e)) <$> dtt_entries p))].

Definition dpt_dict (p : DptRecordPayload) : jdict :=
  [("pk_virtual_node_owner", JStr (dpt_pk_virtual_node_owner p));
   ("title", JStr (dpt_title p));
   ("type", JStr (dpt_type p));
   ("last_modified", JStr (dpt_last_modified p));
   ("target_ref", JStr (dpt_target_ref p));
   ("signature", JStr (dpt_signature p));
   ("pow_nonce", nonce_json (dpt_pow_nonce p))].

Definition payload_dict (p : DhtPayload) : jdict :=
  match p with
  | Dpnt p => dpnt_dict p
  | Drt p => drt_dict p
  | Ddt p => ddt_dict p
  | Dtt p => dtt_dict p
  | Dpt p => dpt_dict p
  end.

Definition serialize_record (payload : DhtPayload) : string := json_dumps (JObj (payload_dict payload)).

(** Declared beside the other readers; no parser calls it. *)
Definition _read_metadata (payload : jdict) : res jdict :=
  match get_value payload "metadata" with
  | None => Ok []
  | Some (JObj d) => Ok d
  | Some _ => Raise (ValueError "O campo 'metadata' precisa ser um objeto.")
  end.

(** ** Reading back what was written *)

(** The required strings of a payload are not empty. *)
Definition nonempty (l : list string) : Prop := Forall (fun s => s <> "") l.

Definition drt_entry_wf (e : DrtRouteEntryRecord) : Prop :=
  nonempty [re_pk_physical_node e; re_virtual_node_signature e; re_final_path_id e;
    re_entry_point_virtual_node_signature e; re_entry_point_physical_node_signature e;
    re_physical_node_signature e; re_expires_at e; re_rtt_physical_node_signature e].

Definition holder_wf (h : DdtHolderRecord) : Prop :=
  nonempty [ho_pk_virtual_node h; ho_expires_at h; ho_signature h].

Definition dtt_entry_wf (e : DttEntryRecord) : Prop :=
  nonempty [te_resource_id e; te_pk_virtual_node e; te_created_at e; te_expires_at e; te_signature e].

Definition payload_wf (p : DhtPayload) : Prop :=
  match p with
  | Dpnt p => nonempty [dpnt_pk_physical_node p; dpnt_reachability_class p;
      dpnt_protocol_version p; dpnt_last_validated_at p; dpnt_status p; dpnt_signature p]
  | Drt p => nonempty [drt_pk_virtual_node p; drt_last_update p] /\
      Forall drt_entry_wf (drt_route_entries p)
  | Ddt p => nonempty [ddt_title p; ddt_type p] /\ Forall holder_wf (ddt_holders p)
  | Dtt p => Forall dtt_entry_wf (dtt_entries p)
  | Dpt p => nonempty [dpt_pk_virtual_node_owner p; dpt_title p; dpt_type p; dpt_last_modified p;
      dpt_target_ref p; dpt_signature p]
  end.

Definition kind_of (p : DhtPayload) : namespace_kind :=
  match p with Dpnt _ => NsDpnt | Drt _ => NsDrt | Ddt _ => NsDdt | Dtt _ => NsDtt | Dpt _ => NsDpt end.

Lemma read_str d f s :
  od_get f d = Some (JStr s) -> s <> "" -> _read_required_string d f = Ok s.
Proof. intros Hg Hs%str_truthy_spec. unfold _read_required_string. by rewrite Hg, Hs. Qed.

Lemma read_bool d f b : od_get f d = Some (JBool b) -> _read_required_bool d f = Ok b.
Proof. intros Hg. unfold _read_required_bool. by rewrite Hg. Qed.

Lemma read_int d f i : od_get f d = Some (pyint_json i) -> _read_required_int d f = Ok i.
Proof. intros Hg. unfold _read_required_int. rewrite Hg. by destruct i. Qed.

Lemma read_nonce d n : od_get "pow_nonce" d = Some (nonce_json n) -> _read_pow_nonce d = Ok n.
Proof.
  intros Hg. unfold _read_pow_nonce, get_value. rewrite Hg. by destruct n as [[]|].
Qed.

Lemma read_strings d f l : od_get f d = Some (strings_json l) -> _read_list_of_strings d f = Ok l.
Proof.
  intros Hg. unfold _read_list_of_strings, get_value. rewrite Hg. unfold strings_json.
  rewrite map_res_fmap. by apply map_res_id.
Qed.

Lemma read_dicts d f l : od_get f d = Some (JArr (JObj <$> l)) -> _read_list_of_dicts d f = Ok l.
Proof.
  intros Hg. unfold _read_list_of_dicts, get_value. rewrite Hg.
  rewrite map_res_fmap. by apply map_res_id.
Qed.

Lemma read_objects_ok {A} (r : jdict -> res A) (w : A -> jdict) d f (l : list A) :
  od_get f d = Some (JArr ((fun a => JObj (w a)) <$> l)) ->
  Forall (fun a => r (w a) = Ok a) l -> read_objects r d f = Ok l.
Proof.
  intros Hg Hl. unfold read_objects, get_value. rewrite Hg.
  rewrite map_res_fmap. apply map_res_id. by apply list.Forall_forall.
Qed.

(** Reads the fields of a dictionary display one by one. *)
Ltac read_fields :=
  repeat (first
    [ erewrite read_str by first [reflexivity | eassumption]
    | erewrite read_bool by reflexivity
    | erewrite read_int by reflexivity
    | erewrite read_nonce by reflexivity
    | erewrite read_strings by reflexivity
    | erewrite read_dicts by reflexivity ]; cbn [mbind res_bind]).

Ltac nonempty_hyps :=
  repeat match goal with
  | H : nonempty _ |- _ => unfold nonempty in H
  | H : Forall _ (_ :: _) |- _ => apply Forall_cons in H as [? H]
  end.

Lemma read_drt_entry_dict e : drt_entry_wf e -> read_drt_route_entry (drt_entry_dict e) = Ok e.
Proof.
  destruct e. unfold drt_entry_wf. cbn. intros Hwf. nonempty_hyps.
  unfold read_drt_route_entry. by read_fields.
Qed.

Lemma read_holder_dict h : holder_wf h -> read_ddt_holder (holder_dict h) = Ok h.
Proof.
  destruct h. unfold holder_wf. cbn. intros Hwf. nonempty_hyps.
  unfold read_ddt_holder. by read_fields.
Qed.

Lemma read_dtt_entry_dict e : dtt_entry_wf e -> read_dtt_entry (dtt_entry_dict e) = Ok e.
Proof.
  destruct e. unfold dtt_entry_wf. cbn. intros Hwf. nonempty_hyps.
  unfold read_dtt_entry. by read_fields.
Qed.

Lemma parse_payload_dict ns p :
  namespace_of ns = Some (kind_of p) -> payload_wf p ->
  parse_record_dict ns (payload_dict p) = Ok p.
Proof.
  intros Hns Hwf. unfold parse_record_dict. rewrite Hns. destruct p as [p|p|p|p|p]; cbn [kind_of].
  - destruct p. cbn in Hwf. nonempty_hyps. unfold _parse_dpnt. by read_fields.
  - destruct p. destruct Hwf as [Hwf Hes]. cbn in Hwf, Hes. nonempty_hyps. unfold _parse_drt.
    read_fields. unfold _read_drt_route_entries.
    erewrite read_objects_ok; [|reflexivity|exact (Forall_impl _ _ _ Hes read_drt_entry_dict)].
    cbn [mbind res_bind]. by read_fields.
  - destruct p. destruct Hwf as [Hwf Hes]. cbn in Hwf, Hes. nonempty_hyps. unfold _parse_ddt.
    read_fields. unfold _read_ddt_holders.
    erewrite read_objects_ok; [|reflexivity|exact (Forall_impl _ _ _ Hes read_holder_dict)]. done.
  - destruct p. cbn in Hwf. unfold _parse_dtt, _read_dtt_entries.
    erewrite read_objects_ok; [|reflexivity|exact (Forall_impl _ _ _ Hwf read_dtt_entry_dict)]. done.
  - destruct p. cbn in Hwf. nonempty_hyps. unfold _parse_dpt. by read_fields.
Qed.

Lemma read_str_nonempty d f s : _read_required_string d f = Ok s -> s <> "".
Proof.
  unfold _read_required_string. intros Hr. repeat case_match; simplify_eq.
  by apply str_truthy_spec.
Qed.

Lemma read_objects_Forall {A} (r : jdict -> res A) (P : A -> Prop) d f l :
  (forall d a, r d = Ok a -> P a) -> read_objects r d f = Ok l -> Forall P l.
Proof.
  intros HP. unfold read_objects. destruct (get_value d f) as [[]|]; try done.
  - rewrite map_res_Ok_Forall2. induction 1 as [|x y l1 l2 Hx _ IH]; constructor; [|done].
    destruct x; try done. eauto.
  - intros [= <-]. constructor.
Qed.

(** Turns a successful chain of readers into facts on the fields. *)
Ltac read_inv H :=
  repeat match type of H with
  | mbind _ ?r = Ok _ =>
      let E := fresh "E" in destruct r eqn:E; cbn [mbind res_bind] in H; [|discriminate H]
  end;
  apply Ok_inj in H; subst;
  repeat match goal with
  | E : _read_required_string _ _ = Ok _ |- _ => apply read_str_nonempty in E
  end.

Lemma read_drt_entry_wf d e : read_drt_route_entry d = Ok e -> drt_entry_wf e.
Proof. unfold read_drt_route_entry. intros H. read_inv H. by repeat constructor. Qed.

Lemma read_holder_wf d h : read_ddt_holder d = Ok h -> holder_wf h.
Proof. unfold read_ddt_holder. intros H. read_inv H. by repeat constructor. Qed.

Lemma read_dtt_entry_wf d e : read_dtt_entry d = Ok e -> dtt_entry_wf e.
Proof. unfold read_dtt_entry. intros H. read_inv H. by repeat constructor. Qed.

Lemma parsed_wf ns d p :
  parse_record_dict ns d = Ok p -> namespace_of ns = Some (kind_of p) /\ payload_wf p.
Proof.
  unfold parse_record_dict. intros Hp.
  destruct (namespace_of ns) as [[]|]; [..|done].
  - destruct (_parse_dpnt d) as [q|] eqn:E; [|done]. apply Ok_inj in Hp as <-. split; [done|].
    unfold _parse_dpnt in E. read_inv E. by repeat constructor.
  - destruct (_parse_drt d) as [q|] eqn:E; [|done]. apply Ok_inj in Hp as <-. split; [done|].
    unfold _parse_drt in E. read_inv E. split; [by repeat constructor|].
    eapply (read_objects_Forall _ drt_entry_wf); [exact read_drt_entry_wf|eassumption].
  - destruct (_parse_ddt d) as [q|] eqn:E; [|done]. apply Ok_inj in Hp as <-. split; [done|].
    unfold _parse_ddt in E. read_inv E. split; [by repeat constructor|].
    eapply (read_objects_Forall _ holder_wf); [exact read_holder_wf|eassumption].
  - destruct (_parse_dtt d) as [q|] eqn:E; [|done]. apply Ok_inj in Hp as <-. split; [done|].
    unfold _parse_dtt in E. read_inv E.
    eapply (read_objects_Forall _ dtt_entry_wf); [exact read_dtt_entry_wf|eassumption].
  - destruct (_parse_dpt d) as [q|] eqn:E; [|done]. apply Ok_inj in Hp as <-. split; [done|].
    unfold _parse_dpt in E. read_inv E. by repeat constructor.
Qed.

(** Records.  Whatever JSON object a parser accepts, the payload it returns has
    the class of the namespace and no empty required field, and writing that payload
    back as a dictionary and parsing again returns the same payload; conversely every
    payload with non-empty required fields is read back unchanged. *)
Theorem record_roundtrip (ns : string) :
  (forall d p, parse_record_dict ns d = Ok p ->
     namespace_of ns = Some (kind_of p) /\ payload_wf p /\
     parse_record_dict ns (payload_dict p) = Ok p) /\
  (forall p, namespace_of ns = Some (kind_of p) -> payload_wf p ->
     parse_record_dict ns (payload_dict p) = Ok p).
Proof.
  split; [|intros p; apply parse_payload_dict].
  intros d p Hp. destruct (parsed_wf ns d p Hp) as [Hk Hwf].
  split; [done|]. split; [done|]. by apply parse_payload_dict.
Qed.

Definition demo_dpt : DhtPayload := Dpt (MkDpt "pk" "home" "page" "2024-01-01T00:00:00+00:00" "ddt:1" "ab" (Some (PyInt 3))).

Lemma record_roundtrip_witness :
  parse_record_dict "DPT" (payload_dict demo_dpt) = Ok demo_dpt /\ payload_wf demo_dpt.
Proof.
  split.
  - apply (record_roundtrip "DPT"); [reflexivity|]. cbn. by repeat constructor.
  - apply (proj1 (record_roundtrip "DPT") (payload_dict demo_dpt)). vm_compute. reflexivity.
Defined.

(** ** The text of a record *)

(** The payload read back from the text: the objects in [endpoints], which the
    program keeps as dictionaries, come back with their keys in order. *)
Definition payload_norm (p : DhtPayload) : DhtPayload :=
  match p with
  | Dpnt p => Dpnt (p <| dpnt_endpoints := map norm_dict (dpnt_endpoints p) |>)
  | p => p
  end.

Section norm_readers.
Context `{FloatText} (d : jdict) (Hd : dict_wf d).

Lemma source_od_wf : od_wf d.
Proof using Hd. by inversion_clear Hd. Qed.

Lemma get_norm f : od_get f (norm_dict d) = json_norm <$> od_get f d.
Proof using Hd. apply norm_dict_get, source_od_wf. Qed.

Lemma get_value_norm f : get_value (norm_dict d) f = json_norm <$> get_value d f.
Proof using Hd. unfold get_value. rewrite get_norm. by destruct (od_get f d) as [[]|]. Qed.

Lemma get_value_wf f v : get_value d f = Some v -> json_wf v.
Proof using Hd.
  unfold get_value. intros Hv. assert (od_get f d = Some v) as Hg by (by repeat case_match).
  apply od_get_elem_of in Hg. inversion_clear Hd as [| | | | | |? _ Hf].
  rewrite Forall_forall in Hf. by apply (Hf _ Hg).
Qed.

Lemma read_string_norm f : _read_required_string (norm_dict d) f = _read_required_string d f.
Proof using Hd. unfold _read_required_string. rewrite get_norm. by destruct (od_get f d) as [[]|]. Qed.

Lemma read_bool_norm f : _read_required_bool (norm_dict d) f = _read_required_bool d f.
Proof using Hd. unfold _read_required_bool. rewrite get_norm. by destruct (od_get f d) as [[]|]. Qed.

Lemma read_int_norm f : _read_required_int (norm_dict d) f = _read_required_int d f.
Proof using Hd. unfold _read_required_int. rewrite get_norm. by destruct (od_get f d) as [[]|]. Qed.

Lemma read_nonce_norm : _read_pow_nonce (norm_dict d) = _read_pow_nonce d.
Proof using Hd. unfold _read_pow_nonce. rewrite get_value_norm. by destruct (get_value d _) as [[]|]. Qed.

Lemma read_strings_norm f : _read_list_of_strings (norm_dict d) f = _read_list_of_strings d f.
Proof using Hd.
  unfold _read_list_of_strings. rewrite get_value_norm. destruct (get_value d f) as [[]|]; try done.
  cbn [fmap option_fmap option_map json_norm].
  etrans; [apply (map_res_fmap _ json_norm)|]. apply map_res_ext, Forall_true. by intros [].
Qed.

Lemma read_dicts_norm f :
  _read_list_of_dicts (norm_dict d) f = map norm_dict <$> _read_list_of_dicts d f.
Proof using Hd.
  unfold _read_list_of_dicts. rewrite get_value_norm. destruct (get_value d f) as [[]|]; try done.
  cbn [fmap option_fmap option_map json_norm].
  etrans; [apply (map_res_fmap _ json_norm)|]. rewrite <- map_res_post.
  apply map_res_ext, Forall_true. by intros [].
Qed.

Lemma read_objects_norm {A} (r : jdict -> res A) f :
  (forall e, dict_wf e -> r (norm_dict e) = r e) ->
  read_objects r (norm_dict d) f = read_objects r d f.
Proof using Hd.
  intros Hr. unfold read_objects. rewrite get_value_norm.
  destruct (get_value d f) as [v|] eqn:E; [|done]. apply get_value_wf in E.
  destruct E as [| | | | |l Hl|]; try done. cbn [fmap option_fmap option_map json_norm].
  etrans; [apply (map_res_fmap _ json_norm)|]. apply map_res_ext.
  eapply Forall_impl; [exact Hl|]. intros [] He; try done. by apply Hr.
Qed.
End norm_readers.

Ltac rewrite_readers :=
  rewrite ?read_string_norm, ?read_bool_norm, ?read_int_norm, ?read_nonce_norm,
    ?read_strings_norm, ?read_dicts_norm by done.

Ltac destruct_readers :=
  repeat match goal with
  | |- context [mbind _ ?r] => destruct r; cbn [mbind res_bind fmap res_fmap]; [|done]
  end; done.

Lemma parse_record_dict_norm `{FloatText} ns d :
  dict_wf d -> parse_record_dict ns (norm_dict d) = payload_norm <$> parse_record_dict ns d.
Proof.
  intros Hd. unfold parse_record_dict. destruct (namespace_of ns) as [[]|]; [..|done].
  - unfold _parse_dpnt. rewrite_readers. destruct_readers.
  - unfold _parse_drt, _read_drt_route_entries. rewrite read_objects_norm; [|done|].
    + rewrite_readers. destruct_readers.
    + intros e He. unfold read_drt_route_entry. by rewrite_readers.
  - unfold _parse_ddt, _read_ddt_holders. rewrite read_objects_norm; [|done|].
    + rewrite_readers. destruct_readers.
    + intros e He. unfold read_ddt_holder. by rewrite_readers.
  - unfold _parse_dtt, _read_dtt_entries. rewrite read_objects_norm; [|done|].
    + destruct_readers.
    + intros e He. unfold read_dtt_entry. by rewrite_readers.
  - unfold _parse_dpt. rewrite_readers. destruct_readers.
Qed.

Lemma parse_serialized `{FloatText} ns p :
  namespace_of ns = Some (kind_of p) -> payload_wf p -> dict_wf (payload_dict p) ->
  parse_record ns (serialize_record p) = Ok (payload_norm p).
Proof.
  intros Hns Hwf Hd. unfold parse_record, serialize_record.
  rewrite (proj2 (str_truthy_spec ns)) by (by intros ->).
  rewrite (proj2 (str_truthy_spec _)) by (by apply dumps_nonempty). cbn [negb].
  rewrite json_loads_dumps by done.
  change (json_norm (JObj ?d)) with (JObj (norm_dict d)). cbv iota.
  by rewrite parse_record_dict_norm, parse_payload_dict.
Qed.

(** The record text that travels and is stored. A record with non-empty
    required fields and Unicode strings is written by [serialize_record] as text
    that every node parses, under the same namespace, to the same payload (the
    endpoint objects of a DPNT record come back with their keys in order). *)
Theorem record_text_roundtrip `{FloatText} (ns : string) (p : DhtPayload) :
  namespace_of ns = Some (kind_of p) -> payload_wf p -> dict_wf (payload_dict p) ->
  parse_record ns (serialize_record p) = Ok (payload_norm p) /\
  (kind_of p <> NsDpnt -> payload_norm p = p).
Proof.
  intros Hns Hwf Hd. split; [by apply parse_serialized|]. by destruct p.
Qed.

#[local] Instance demo_float_text : FloatText := fun s => s.

Lemma record_text_roundtrip_witness :
  parse_record "dpt" (serialize_record demo_dpt) = Ok (payload_norm demo_dpt).
Proof.
  apply record_text_roundtrip; [reflexivity|cbn; by repeat constructor|].
  unfold demo_dpt, payload_dict, dpt_dict. json_wf_tac.
Defined.
