(* ===== verification/Pow.v ===== *)
(** * Proof of work on DHT payloads

    Models [src/app/dht/pow.py]: the canonical bytes of a payload, the check of a
    nonce, mining, and the record-level functions that attach and validate nonces.
    The mining loop has no bound in the code; here it takes fuel, and [None] means
    that the loop is still running. *)

From S2P Require Import Prelude PyJson Sha512 PyInt Transport Records.

(** ** Payloads that carry a nonce *)

Inductive PowPayload : Type :=
| PowDpnt (p : DpntRecordPayload)
| PowDrtEntry (e : DrtRouteEntryRecord)
| PowHolder (h : DdtHolderRecord)
| PowDttEntry (e : DttEntryRecord)
| PowDpt (p : DptRecordPayload).

(** [asdict(payload)] and [type(payload).__name__] *)
Definition pow_dict (p : PowPayload) : jdict :=
  match p with
  | PowDpnt p => dpnt_dict p
  | PowDrtEntry e => drt_entry_dict e
  | PowHolder h => holder_dict h
  | PowDttEntry e => dtt_entry_dict e
  | PowDpt p => dpt_dict p
  end.

Definition pow_type_name (p : PowPayload) : string :=
  match p with
  | PowDpnt _ => "DpntRecordPayload"
  | PowDrtEntry _ => "DrtRouteEntryRecord"
  | PowHolder _ => "DdtHolderRecord"
  | PowDttEntry _ => "DttEntryRecord"
  | PowDpt _ => "DptRecordPayload"
  end.

(** [replace(payload, pow_nonce=nonce)] *)
Definition with_nonce (p : PowPayload) (n : option pyint) : PowPayload :=
  match p with
  | PowDpnt p => PowDpnt (p <| dpnt_pow_nonce := n |>)
  | PowDrtEntry e => PowDrtEntry (e <| re_pow_nonce := n |>)
  | PowHolder h => PowHolder (h <| ho_pow_nonce := n |>)
  | PowDttEntry e => PowDttEntry (e <| te_pow_nonce := n |>)
  | PowDpt p => PowDpt (p <| dpt_pow_nonce := n |>)
  end.

Definition pow_nonce (p : PowPayload) : option pyint :=
  match p with
  | PowDpnt p => dpnt_pow_nonce p
  | PowDrtEntry e => re_pow_nonce e
  | PowHolder h => ho_pow_nonce h
  | PowDttEntry e => te_pow_nonce e
  | PowDpt p => dpt_pow_nonce p
  end.

(** ** Canonical bytes *)

Definition payload_pow_canonical_bytes (namespace key_hex : string) (payload : PowPayload)
    (parent_pk_virtual_node : option string) : res string :=
  let payload_dict := od_del "pow_nonce" (pow_dict payload) in
  let payload_dict :=
    match payload with
    | PowDpnt p =>
        od_set "endpoints" (JArr (JObj <$>
          Endpoints.canonical_endpoint_list (JArr (JObj <$> dpnt_endpoints p)))) payload_dict
    | _ => payload_dict
    end in
  let canonical_data : jdict :=
    [("kind", JStr (lower namespace +:+ "_" +:+ pow_type_name payload +:+ "_pow_v1"));
     ("key", JStr key_hex);
     ("payload", JObj payload_dict)] in
  match payload with
  | PowDrtEntry _ =>
      match parent_pk_virtual_node with
      | Some pk =>
          if str_truthy pk then
            Ok (json_dumps (JObj (od_set "pk_virtual_node_id" (JStr (sha512_hexdigest pk))
                                    canonical_data)))
          else Raise (ValueError "parent_pk_virtual_node is required for DRT route entry PoW.")
      | None => Raise (ValueError "parent_pk_virtual_node is required for DRT route entry PoW.")
      end
  | _ => Ok (json_dumps (JObj canonical_data))
  end.

(** ** Checking a nonce *)

Record PowDetails := MkPowDetails {
  pd_canonical_hash : string;
  pd_proof_hash : option string;
  pd_proof_hash_prefix : option string;
  pd_difficulty_bits : Z;
  pd_nonce : option pyint;
  pd_is_valid : bool;
}.

Definition _invalid_pow_details (canonical_hash : string) (difficulty_bits : Z)
    (nonce : option pyint) : PowDetails :=
  MkPowDetails canonical_hash None None difficulty_bits nonce false.

(** [canonical_material + b"|" + str(nonce).encode()] *)
Definition proof_material (canonical_material : string) (nonce : pyint) : string :=
  canonical_material +:+ "|" +:+ str_of_pyint nonce.

(** [difficulty_bits <= 0 or proof_bits.startswith("0" * difficulty_bits)] *)
Definition meets_difficulty (proof_bits : list bool) (difficulty_bits : Z) : bool :=
  (difficulty_bits <=? 0) || starts_with_zeros (Z.to_nat difficulty_bits) proof_bits.

(** The details of a nonce for canonical material already computed; the publish
    proof of the DHT service computes the same ones. *)
Definition pow_details (canonical_material : string) (nonce : option pyint)
    (difficulty_bits : Z) : res PowDetails :=
  let canonical_hash := sha512_hexdigest canonical_material in
  match nonce with
  | None => Ok (_invalid_pow_details canonical_hash difficulty_bits nonce)
  | Some i =>
      if pyint_val i <? 0 then Ok (_invalid_pow_details canonical_hash difficulty_bits nonce)
      else
        let proof_hash := sha512_hexdigest (proof_material canonical_material i) in
        let! proof_int := int_base16 proof_hash in
        let proof_bits := zfill 512 (bin_digits proof_int) in
        Ok (MkPowDetails canonical_hash (Some proof_hash) (Some (String.substring 0 16 proof_hash))
              difficulty_bits nonce (meets_difficulty proof_bits difficulty_bits))
  end.

Definition build_payload_pow_details (namespace key_hex : string) (payload : PowPayload)
    (nonce : option pyint) (difficulty_bits : Z) (parent_pk_virtual_node : option string)
    : res PowDetails :=
  let! canonical_material :=
    payload_pow_canonical_bytes namespace key_hex payload parent_pk_virtual_node in
  pow_details canonical_material nonce difficulty_bits.

Definition validate_payload_pow_nonce (namespace key_hex : string) (payload : PowPayload)
    (nonce : option pyint) (difficulty_bits : Z) (parent_pk_virtual_node : option string)
    : res bool :=
  let! details := build_payload_pow_details namespace key_hex payload nonce difficulty_bits
                    parent_pk_virtual_node in
  Ok (pd_is_valid details).

Definition validate_dpnt_pow (payload : DpntRecordPayload) (key_hex : string)
    (difficulty_bits : Z) : res bool :=
  validate_payload_pow_nonce "dpnt" key_hex (PowDpnt payload) (dpnt_pow_nonce payload)
    difficulty_bits None.

Definition validate_drt_route_entry_pow (route_entry : DrtRouteEntryRecord)
    (key_hex pk_virtual_node : string) (difficulty_bits : Z) : res bool :=
  validate_payload_pow_nonce "drt" key_hex (PowDrtEntry route_entry) (re_pow_nonce route_entry)
    difficulty_bits (Some pk_virtual_node).

Definition validate_ddt_holder_pow (holder : DdtHolderRecord) (key_hex : string)
    (difficulty_bits : Z) : res bool :=
  validate_payload_pow_nonce "ddt" key_hex (PowHolder holder) (ho_pow_nonce holder)
    difficulty_bits None.

Definition validate_dtt_entry_pow (entry : DttEntryRecord) (key_hex : string)
    (difficulty_bits : Z) : res bool :=
  validate_payload_pow_nonce "dtt" key_hex (PowDttEntry entry) (te_pow_nonce entry)
    difficulty_bits None.

Definition validate_dpt_pow (payload : DptRecordPayload) (key_hex : string)
    (difficulty_bits : Z) : res bool :=
  validate_payload_pow_nonce "dpt" key_hex (PowDpt payload) (dpt_pow_nonce payload)
    difficulty_bits None.

(** [all(p(x) for x in l)], which stops at the first false or raised value. *)
Fixpoint all_res {A} (p : A -> res bool) (l : list A) : res bool :=
  match l with
  | [] => Ok true
  | x :: l' => let! b := p x in if b : bool then all_res p l' else Ok false
  end.

(** [bool(l) and all(...)] *)
Definition nonempty_all {A} (p : A -> res bool) (l : list A) : res bool :=
  match l with [] => Ok false | _ => all_res p l end.

Definition validate_payload_pow (namespace key_hex : string) (payload : DhtPayload)
    (difficulty_bits : Z) : res bool :=
  match namespace_of namespace, payload with
  | Some NsDpnt, Dpnt p => validate_dpnt_pow p key_hex difficulty_bits
  | Some NsDrt, Drt p =>
      nonempty_all (fun e => validate_drt_route_entry_pow e key_hex (drt_pk_virtual_node p)
                               difficulty_bits) (drt_route_entries p)
  | Some NsDdt, Ddt p =>
      nonempty_all (fun h => validate_ddt_holder_pow h key_hex difficulty_bits) (ddt_holders p)
  | Some NsDtt, Dtt p =>
      nonempty_all (fun e => validate_dtt_entry_pow e key_hex difficulty_bits) (dtt_entries p)
  | Some NsDpt, Dpt p => validate_dpt_pow p key_hex difficulty_bits
  | _, _ => Ok false
  end.

Definition validate_record_payload_pow `{FloatText} (namespace key_hex record_json : string)
    (difficulty_bits : Z) : bool :=
  catch_all false
    (let! payload := parse_record namespace record_json in
     validate_payload_pow namespace key_hex payload difficulty_bits).

(** ** Mining *)

(** The value of a run that may still be going on, or may have raised. *)
Definition run_map {A B} (f : A -> B) (o : option (res A)) : option (res B) :=
  match o with
  | None => None
  | Some (Raise e) => Some (Raise e)
  | Some (Ok a) => Some (Ok (f a))
  end.

(** [while True: if valid(nonce): return nonce; nonce += 1] *)
Fixpoint search_nonce (fuel : nat) (valid : Z -> res bool) (nonce : Z) : option (res Z) :=
  match fuel with
  | O => None
  | S fuel =>
      match valid nonce with
      | Raise e => Some (Raise e)
      | Ok true => Some (Ok nonce)
      | Ok false => search_nonce fuel valid (nonce + 1)
      end
  end.

Definition _with_payload_pow_nonce (fuel : nat) (namespace key_hex : string)
    (payload : PowPayload) (difficulty_bits : Z) (parent_pk_virtual_node : option string)
    : option (res PowPayload) :=
  if difficulty_bits <=? 0 then Some (Ok (with_nonce payload (Some (PyInt 0))))
  else
    run_map (fun nonce => with_nonce payload (Some (PyInt nonce)))
      (search_nonce fuel
        (fun nonce => validate_payload_pow_nonce namespace key_hex payload (Some (PyInt nonce))
                        difficulty_bits parent_pk_virtual_node) 0).

(** Each element mined in turn; [None] when one of them is still running. *)
Fixpoint mine_all {A} (f : A -> option (res A)) (l : list A) : option (res (list A)) :=
  match l with
  | [] => Some (Ok [])
  | x :: l' =>
      match f x with
      | None => None
      | Some (Raise e) => Some (Raise e)
      | Some (Ok y) => run_map (cons y) (mine_all f l')
      end
  end.

Definition attach_dpnt_pow (fuel : nat) (payload : DpntRecordPayload) (key_hex : string)
    (difficulty_bits : Z) : option (res DpntRecordPayload) :=
  run_map (fun q => match q with PowDpnt p => p | _ => payload end)
    (_with_payload_pow_nonce fuel "dpnt" key_hex (PowDpnt payload) difficulty_bits None).

Definition attach_drt_route_entry_pow (fuel : nat) (route_entry : DrtRouteEntryRecord)
    (key_hex pk_virtual_node : string) (difficulty_bits : Z) : option (res DrtRouteEntryRecord) :=
  run_map (fun q => match q with PowDrtEntry e => e | _ => route_entry end)
    (_with_payload_pow_nonce fuel "drt" key_hex (PowDrtEntry route_entry) difficulty_bits
      (Some pk_virtual_node)).

Definition attach_ddt_holder_pow (fuel : nat) (holder : DdtHolderRecord) (key_hex : string)
    (difficulty_bits : Z) : option (res DdtHolderRecord) :=
  run_map (fun q => match q with PowHolder h => h | _ => holder end)
    (_with_payload_pow_nonce fuel "ddt" key_hex (PowHolder holder) difficulty_bits None).

Definition attach_dtt_entry_pow (fuel : nat) (entry : DttEntryRecord) (key_hex : string)
    (difficulty_bits : Z) : option (res DttEntryRecord) :=
  run_map (fun q => match q with PowDttEntry e => e | _ => entry end)
    (_with_payload_pow_nonce fuel "dtt" key_hex (PowDttEntry entry) difficulty_bits None).

Definition attach_dpt_pow (fuel : nat) (payload : DptRecordPayload) (key_hex : string)
    (difficulty_bits : Z) : option (res DptRecordPayload) :=
  run_map (fun q => match q with PowDpt p => p | _ => payload end)
    (_with_payload_pow_nonce fuel "dpt" key_hex (PowDpt payload) difficulty_bits None).

Definition attach_payload_pow_nonces (fuel : nat) (namespace key_hex : string)
    (payload : DhtPayload) (difficulty_bits : Z) : option (res DhtPayload) :=
  match namespace_of namespace, payload with
  | Some NsDpnt, Dpnt p => run_map Dpnt (attach_dpnt_pow fuel p key_hex difficulty_bits)
  | Some NsDrt, Drt p =>
      run_map (fun es => Drt (p <| drt_route_entries := es |>))
        (mine_all (fun e => attach_drt_route_entry_pow fuel e key_hex (drt_pk_virtual_node p)
                             difficulty_bits) (drt_route_entries p))
  | Some NsDdt, Ddt p =>
      run_map (fun hs => Ddt (p <| ddt_holders := hs |>))
        (mine_all (fun h => attach_ddt_holder_pow fuel h key_hex difficulty_bits) (ddt_holders p))
  | Some NsDtt, Dtt p =>
      run_map (fun es => Dtt (MkDtt es))
        (mine_all (fun e => attach_dtt_entry_pow fuel e key_hex difficulty_bits) (dtt_entries p))
  | Some NsDpt, Dpt p => run_map Dpt (attach_dpt_pow fuel p key_hex difficulty_bits)
  | _, _ =>
      Some (Raise (ValueError ("Unsupported payload for semantic DHT PoW: " +:+ namespace)))
  end.

Definition attach_record_payload_pow_nonces `{FloatText} (fuel : nat)
    (namespace key_hex record_json : string) (difficulty_bits : Z) : option (res string) :=
  match parse_record namespace record_json with
  | Raise e => Some (Raise e)
  | Ok payload =>
      run_map serialize_record (attach_payload_pow_nonces fuel namespace key_hex payload difficulty_bits)
  end.

(** ** A valid nonce is one whose digest is small *)

Lemma pow_details_valid m nonce d :
  exists det, pow_details m nonce d = Ok det /\
  (pd_is_valid det = true <->
   exists i, nonce = Some i /\ 0 <= pyint_val i /\
     (d <= 0 \/ d <= 512 /\ digest_int (proof_material m i) < 2 ^ (512 - d))).
Proof.
  unfold pow_details. destruct nonce as [i|].
  2: { eexists; split; [done|]. cbn. split; [done|]. intros (i & ? & _). done. }
  destruct (Z.ltb_spec (pyint_val i) 0) as [Hneg|Hpos].
  { eexists; split; [done|]. cbn. split; [done|]. intros (i' & [= <-] & ? & _). lia. }
  rewrite int_base16_digest. cbn [mbind res_bind]. eexists; split; [done|]. cbn [pd_is_valid].
  pose proof (digest_int_bound (proof_material m i)) as Hb.
  destruct (zfill_spec 512 (digest_int (proof_material m i))) as [Hlen Hval]; [lia|done|].
  unfold meets_difficulty. rewrite orb_true_iff, Z.leb_le, starts_with_zeros_spec, Hlen, Hval.
  change (Z.of_nat 512) with 512. split.
  - intros [Hd|[Hd Hv]]; exists i; (split; [done|]); (split; [done|]); [by left|].
    destruct (Z.leb_spec d 0); [by left|]. right. split; [lia|].
    by replace (512 - Z.of_nat (Z.to_nat d)) with (512 - d) in Hv by lia.
  - intros (i' & [= <-] & _ & [Hd|[Hd Hv]]); [by left|].
    destruct (Z.leb_spec d 0); [by left|]. right. split; [lia|].
    by replace (512 - Z.of_nat (Z.to_nat d)) with (512 - d) by lia.
Qed.

Lemma canonical_with_nonce ns key p n parent :
  payload_pow_canonical_bytes ns key (with_nonce p n) parent
  = payload_pow_canonical_bytes ns key p parent.
Proof. by destruct p. Qed.

Lemma pow_nonce_with_nonce p n : pow_nonce (with_nonce p n) = n.
Proof. by destruct p. Qed.

Lemma validate_with_nonce ns key p n n' d parent :
  validate_payload_pow_nonce ns key (with_nonce p n) n' d parent
  = validate_payload_pow_nonce ns key p n' d parent.
Proof. unfold validate_payload_pow_nonce, build_payload_pow_details. by rewrite canonical_with_nonce. Qed.

Lemma validate_nonce_iff ns key p nonce d parent :
  validate_payload_pow_nonce ns key p nonce d parent = Ok true <->
  exists m i, payload_pow_canonical_bytes ns key p parent = Ok m /\ nonce = Some i /\
    0 <= pyint_val i /\
    (d <= 0 \/ d <= 512 /\ digest_int (proof_material m i) < 2 ^ (512 - d)).
Proof.
  unfold validate_payload_pow_nonce, build_payload_pow_details.
  destruct (payload_pow_canonical_bytes ns key p parent) as [m|e]; cbn [mbind res_bind].
  2: { split; [done|]. intros (m & i & ? & _). done. }
  destruct (pow_details_valid m nonce d) as (det & -> & Hiff). cbn [mbind res_bind]. split.
  - intros Hv%Ok_inj. apply Hiff in Hv as (i & ? & ? & ?). eauto 10.
  - intros (m' & i & [= <-] & Hi). f_equal. apply Hiff. eauto.
Qed.

(** A check never raises once the canonical bytes exist. *)
Lemma validate_total ns key p nonce d parent m :
  payload_pow_canonical_bytes ns key p parent = Ok m ->
  exists b, validate_payload_pow_nonce ns key p nonce d parent = Ok b.
Proof.
  intros Hm. unfold validate_payload_pow_nonce, build_payload_pow_details. rewrite Hm. cbn [mbind res_bind].
  destruct (pow_details_valid m nonce d) as (det & -> & _). by eexists.
Qed.

Section search.
Context (valid : Z -> res bool).

Lemma search_sound fuel n k :
  search_nonce fuel valid n = Some (Ok k) ->
  n <= k /\ valid k = Ok true /\ forall j, n <= j < k -> valid j = Ok false.
Proof.
  revert n. induction fuel as [|fuel IH]; intros n; cbn; [done|].
  destruct (valid n) as [[]|] eqn:E; [|..]; try done.
  - intros [= <-]. split; [lia|]. split; [done|]. lia.
  - intros (Hle & Hk & Hmin)%IH. split; [lia|]. split; [done|].
    intros j Hj. destruct (decide (j = n)) as [->|]; [done|]. apply Hmin. lia.
Qed.

Lemma search_complete fuel n k :
  n <= k -> valid k = Ok true -> (forall j, n <= j < k -> valid j = Ok false) ->
  (Z.to_nat (k - n) < fuel)%nat -> search_nonce fuel valid n = Some (Ok k).
Proof.
  revert n. induction fuel as [|fuel IH]; intros n Hle Hk Hmin Hf; [lia|]. cbn.
  destruct (decide (n = k)) as [->|Hne]; [by rewrite Hk|].
  rewrite (Hmin n) by lia. apply IH; [lia|done| |lia]. intros j Hj. apply Hmin. lia.
Qed.

Lemma search_diverges fuel n :
  (forall j, n <= j -> valid j = Ok false) -> search_nonce fuel valid n = None.
Proof.
  revert n. induction fuel as [|fuel IH]; intros n Hf; [done|]. cbn.
  rewrite Hf by lia. apply IH. intros j Hj. apply Hf. lia.
Qed.

(** The least accepted nonce, when checks never raise. *)
Lemma search_least k :
  0 <= k -> valid k = Ok true -> (forall j, exists b, valid j = Ok b) ->
  exists k', 0 <= k' <= k /\ valid k' = Ok true /\ forall j, 0 <= j < k' -> valid j = Ok false.
Proof.
  intros Hk Hv Htot. revert Hv. pattern k. apply Zlt_0_ind; [|done]. clear k Hk.
  intros k IH Hk Hv.
  destruct (decide (Exists (fun j => valid j = Ok true) (seqZ 0 k))) as [He|Hno].
  - apply list.Exists_exists in He as (j & Hj%elem_of_seqZ & Hvj).
    destruct (IH j ltac:(lia) Hvj) as (k' & Hk' & ? & ?). exists k'. split; [lia|done].
  - exists k. split; [lia|]. split; [done|]. intros j Hj. destruct (Htot j) as [[] Hb]; [|done].
    destruct Hno. apply list.Exists_exists. exists j. split; [apply elem_of_seqZ; lia|done].
Qed.
End search.

(** What a proof of work is.  A nonce is accepted exactly when it is a
    non-negative integer and either no difficulty is asked or the 512-bit digest of
    the canonical bytes, a bar and the decimal nonce is below 2^(512 - difficulty);
    a difficulty above 512 accepts nothing, and the nonce stored in the payload does
    not enter the canonical bytes. *)
Theorem pow_nonce_valid_iff (ns key : string) (p : PowPayload) (n nonce : option pyint) (d : Z)
    (parent : option string) :
  validate_payload_pow_nonce ns key (with_nonce p n) nonce d parent = Ok true <->
  exists m i, payload_pow_canonical_bytes ns key p parent = Ok m /\ nonce = Some i /\
    0 <= pyint_val i /\
    (d <= 0 \/ d <= 512 /\ digest_int (proof_material m i) < 2 ^ (512 - d)).
Proof. rewrite validate_with_nonce. apply validate_nonce_iff. Qed.

Lemma mined_nonce fuel ns key p d parent q :
  0 < d -> _with_payload_pow_nonce fuel ns key p d parent = Some (Ok q) ->
  exists k, q = with_nonce p (Some (PyInt k)) /\ 0 <= k /\
    validate_payload_pow_nonce ns key q (pow_nonce q) d parent = Ok true /\
    forall j, 0 <= j < k ->
      validate_payload_pow_nonce ns key p (Some (PyInt j)) d parent = Ok false.
Proof.
  intros Hd. unfold _with_payload_pow_nonce. destruct (Z.leb_spec d 0); [lia|].
  destruct (search_nonce _ _ _) as [[k|]|] eqn:E; cbn; [|done..]. intros [= <-].
  apply search_sound in E as (Hk & Hv & Hmin). exists k.
  rewrite pow_nonce_with_nonce, validate_with_nonce. done.
Qed.

(** C39: mining.  When the loop ends it returns the payload with the least
    non-negative nonce the validator accepts and nothing else changed; it ends
    whenever some nonce is acceptable; and for a difficulty above 512 it never ends. *)
Theorem pow_mining_spec (ns key : string) (p : PowPayload) (d : Z) (parent : option string)
    (m : string) :
  payload_pow_canonical_bytes ns key p parent = Ok m -> 0 < d ->
  (forall fuel q, _with_payload_pow_nonce fuel ns key p d parent = Some (Ok q) ->
     exists k, q = with_nonce p (Some (PyInt k)) /\ 0 <= k /\
       validate_payload_pow_nonce ns key q (pow_nonce q) d parent = Ok true /\
       forall j, 0 <= j < k ->
         validate_payload_pow_nonce ns key p (Some (PyInt j)) d parent = Ok false) /\
  (forall k, 0 <= k -> validate_payload_pow_nonce ns key p (Some (PyInt k)) d parent = Ok true ->
     exists q, forall fuel, (Z.to_nat k < fuel)%nat ->
       _with_payload_pow_nonce fuel ns key p d parent = Some (Ok q)) /\
  (512 < d -> forall fuel, _with_payload_pow_nonce fuel ns key p d parent = None).
Proof.
  intros Hm Hd. split; [intros fuel q; by apply mined_nonce|].
  unfold _with_payload_pow_nonce. destruct (Z.leb_spec d 0); [lia|]. split.
  - intros k Hk Hv.
    destruct (search_least (fun j => validate_payload_pow_nonce ns key p (Some (PyInt j)) d parent) k)
      as (k' & Hk' & Hv' & Hmin); [done|done|intros; by eapply validate_total|].
    exists (with_nonce p (Some (PyInt k'))). intros fuel Hf.
    erewrite search_complete; [done|lia|done|done|lia].
  - intros Hbig fuel. rewrite search_diverges; [done|]. intros j _.
    destruct (validate_total ns key p (Some (PyInt j)) d parent m Hm) as [[] Hb]; [|done].
    apply validate_nonce_iff in Hb as (? & ? & _ & _ & _ & [|[]]); lia.
Qed.

Definition demo_holder : DdtHolderRecord :=
  MkHolder "pk" "2999-01-01T00:00:00+00:00" "ab" None.

Lemma pow_mining_spec_witness :
  validate_payload_pow_nonce "ddt" "k" (PowHolder demo_holder) (Some (PyInt 4)) 3 None = Ok true /\
  exists q, forall fuel, (Z.to_nat 4 < fuel)%nat ->
    _with_payload_pow_nonce fuel "ddt" "k" (PowHolder demo_holder) 3 None = Some (Ok q).
Proof.
  assert (validate_payload_pow_nonce "ddt" "k" (PowHolder demo_holder) (Some (PyInt 4)) 3 None
          = Ok true) as Hv by (vm_compute; reflexivity).
  split; [exact Hv|].
  apply (pow_mining_spec "ddt" "k" (PowHolder demo_holder) 3 None
    (json_dumps (JObj [("kind", JStr "ddt_DdtHolderRecord_pow_v1"); ("key", JStr "k");
       ("payload", JObj (od_del "pow_nonce" (holder_dict demo_holder)))]))); [|lia|lia|exact Hv].
  reflexivity.
Defined.

(** ** Attaching, then validating *)

Lemma canonical_ok ns key p parent :
  (forall e, p = PowDrtEntry e -> opt_truthy parent = true) ->
  exists m, payload_pow_canonical_bytes ns key p parent = Ok m.
Proof.
  intros Hp. unfold payload_pow_canonical_bytes. destruct p; try by eexists.
  specialize (Hp e eq_refl). destruct parent as [pk|]; [|done]. cbn in Hp. rewrite Hp. by eexists.
Qed.

(** What mining returns passes the check made on the stored nonce. *)
Lemma attached_valid fuel ns key p d parent q :
  (forall e, p = PowDrtEntry e -> opt_truthy parent = true) ->
  _with_payload_pow_nonce fuel ns key p d parent = Some (Ok q) ->
  validate_payload_pow_nonce ns key q (pow_nonce q) d parent = Ok true /\
  exists n, q = with_nonce p n.
Proof.
  intros Hp. destruct (Z.leb_spec d 0) as [Hd|Hd].
  - unfold _with_payload_pow_nonce. rewrite (proj2 (Z.leb_le d 0) Hd). intros [= <-].
    split; [|by eexists]. rewrite pow_nonce_with_nonce, validate_with_nonce.
    destruct (canonical_ok ns key p parent Hp) as [m Hm].
    apply validate_nonce_iff. exists m, (PyInt 0). cbn. split_and!; [done|done|lia|by left].
  - intros Hq. destruct (mined_nonce fuel ns key p d parent q Hd Hq) as (k & Hk & _ & Hv & _).
    split; [exact Hv|]. eauto.
Qed.

Lemma run_map_Ok {A B} (f : A -> B) o b :
  run_map f o = Some (Ok b) -> exists a, o = Some (Ok a) /\ b = f a.
Proof. destruct o as [[a|]|]; cbn; [|done..]. intros [= <-]. eauto. Qed.

Lemma mine_all_Forall2 {A} (f : A -> option (res A)) l l' :
  mine_all f l = Some (Ok l') -> Forall2 (fun x y => f x = Some (Ok y)) l l'.
Proof.
  revert l'. induction l as [|x l IH]; intros l'; cbn; [by intros [= <-]|].
  destruct (f x) as [[y|]|] eqn:E; [|done..].
  intros (ys & Hys & ->)%run_map_Ok. constructor; [done|]. by apply IH.
Qed.

Lemma all_res_true {A} (p : A -> res bool) l :
  Forall (fun x => p x = Ok true) l -> all_res p l = Ok true.
Proof. induction 1 as [|x l Hx _ IH]; [done|]. cbn. by rewrite Hx. Qed.

Lemma mined_list_valid {A} (f : A -> option (res A)) (v : A -> res bool) l l' :
  (forall x y, f x = Some (Ok y) -> v y = Ok true) -> l <> [] ->
  mine_all f l = Some (Ok l') -> nonempty_all v l' = Ok true.
Proof.
  intros Hv Hne Hm. apply mine_all_Forall2 in Hm.
  assert (Forall (fun y => v y = Ok true) l') as Hall.
  { clear Hne. induction Hm; constructor; eauto. }
  destruct Hm; [done|]. unfold nonempty_all. by apply all_res_true.
Qed.

(** The payload has something to prove work on. *)
Definition has_items (p : DhtPayload) : Prop :=
  match p with
  | Drt p => drt_route_entries p <> []
  | Ddt p => ddt_holders p <> []
  | Dtt p => dtt_entries p <> []
  | _ => True
  end.

(** Reduces an attached payload to the mined one of its class. *)
Ltac attached H :=
  let q := fresh "q" in let n := fresh "n" in let Hq := fresh "Hq" in let Hv := fresh "Hv" in
  apply run_map_Ok in H as (q & Hq & ->);
  apply attached_valid in Hq as [Hv [n ->]]; [exact Hv|intros; first [done | discriminate]].

Lemma attach_drt_entry_valid fuel e key pk d e' :
  pk <> "" -> attach_drt_route_entry_pow fuel e key pk d = Some (Ok e') ->
  validate_drt_route_entry_pow e' key pk d = Ok true.
Proof.
  intros Hpk%str_truthy_spec H. unfold attach_drt_route_entry_pow in H. by attached H.
Qed.

Lemma attach_holder_valid fuel h key d h' :
  attach_ddt_holder_pow fuel h key d = Some (Ok h') -> validate_ddt_holder_pow h' key d = Ok true.
Proof. intros H. unfold attach_ddt_holder_pow in H. by attached H. Qed.

Lemma attach_dtt_entry_valid fuel e key d e' :
  attach_dtt_entry_pow fuel e key d = Some (Ok e') -> validate_dtt_entry_pow e' key d = Ok true.
Proof. intros H. unfold attach_dtt_entry_pow in H. by attached H. Qed.

(** A node that attaches proofs of work to a well-formed record that has at
    least one item obtains a record the validator of every other node accepts at the
    same difficulty. *)
Theorem attach_then_validate (fuel : nat) (ns key : string) (p q : DhtPayload) (d : Z) :
  payload_wf p -> has_items p ->
  attach_payload_pow_nonces fuel ns key p d = Some (Ok q) ->
  validate_payload_pow ns key q d = Ok true.
Proof.
  intros Hwf Hi. unfold attach_payload_pow_nonces, validate_payload_pow.
  destruct (namespace_of ns) as [[]|]; destruct p as [p|p|p|p|p]; try done; intros H;
    apply run_map_Ok in H as (x & Hx & ->); cbn in Hi.
  - unfold attach_dpnt_pow in Hx. unfold validate_dpnt_pow. by attached Hx.
  - destruct Hwf as [Hwf _]. apply Forall_cons in Hwf as [Hpk _].
    eapply mined_list_valid; [|exact Hi|exact Hx]. intros e e' He. exact (attach_drt_entry_valid _ _ _ _ _ _ Hpk He).
  - eapply mined_list_valid; [|exact Hi|exact Hx]. intros e e' He. exact (attach_holder_valid _ _ _ _ _ He).
  - eapply mined_list_valid; [|exact Hi|exact Hx]. intros e e' He. exact (attach_dtt_entry_valid _ _ _ _ _ He).
  - unfold attach_dpt_pow in Hx. unfold validate_dpt_pow. by attached Hx.
Qed.

Definition demo_ddt : DdtRecordPayload := MkDdt "t" "text" [] [demo_holder].

Lemma attach_then_validate_witness :
  exists q, attach_payload_pow_nonces 10 "ddt" "k" (Ddt demo_ddt) 3 = Some (Ok q) /\
    validate_payload_pow "ddt" "k" q 3 = Ok true.
Proof.
  assert (attach_payload_pow_nonces 10 "ddt" "k" (Ddt demo_ddt) 3
    = Some (Ok (Ddt (demo_ddt <| ddt_holders := [demo_holder <| ho_pow_nonce := Some (PyInt 4) |>] |>))))
    as Ha by (vm_compute; reflexivity).
  eexists. split; [exact Ha|].
  apply (attach_then_validate 10 "ddt" "k" (Ddt demo_ddt)); [|discriminate|exact Ha].
  cbn. split; repeat constructor; discriminate.
Defined.
