(* ===== verification/Merge.v ===== *)
(** * Merging DHT records

    Models [src/app/dht/merge.py]: per-namespace validation of a received fragment
    and its merge with the stored record.  Signature verification goes through the
    OpenSSL parameter of [Crypto], ISO-8601 parsing through [IsoParser]; the clock
    readings one merge makes are the single argument [now]. *)

From S2P Require Import Prelude PyJson Sha512 PyTime PyInt Transport Crypto Records Pow.

(** ** Dates *)

Section dates.
Context `{IsoParser}.

Definition _parse_datetime (value : string) : option pydatetime := fromisoformat (replace_Z value).

Definition _is_expired (now : instant) (value : string) : res bool :=
  match _parse_datetime value with
  | None => Ok true
  | Some expires_at => dt_le expires_at (Aware now)
  end.

Definition _is_fragment_newer (parent_timestamp fragment_timestamp : string) : res bool :=
  let parent_datetime := _parse_datetime parent_timestamp in
  let fragment_datetime := _parse_datetime fragment_timestamp in
  match fragment_datetime, parent_datetime with
  | None, _ => Ok false
  | Some _, None => Ok true
  | Some f, Some p => dt_lt p f
  end.
End dates.

(** ** Keys *)

Definition _ensure_drt_key_matches_virtual_node (key pk_virtual_node : string) : res unit :=
  let virtual_node_id := sha512_hexdigest pk_virtual_node in
  let expected_key := sha512_hexdigest ("drt|" +:+ virtual_node_id) in
  if bool_decide (key = expected_key) then Ok tt
  else Raise (ValueError "The DRT key does not match the provided virtual_node_id.").

Definition _ensure_dpnt_key_matches_physical_node (key pk_physical_node : string) : res unit :=
  let physical_node_id := sha512_hexdigest pk_physical_node in
  let expected_key := sha512_hexdigest ("dpnt|" +:+ physical_node_id) in
  if bool_decide (key = expected_key) then Ok tt
  else Raise (ValueError "The DPNT key does not match the node_id derived from pk_physical_node.").

Definition _ensure_dpt_key_matches_owner_and_title (key pk_virtual_node_owner title : string)
    : res unit :=
  let pk_id_virtual_node_owner := sha512_hexdigest pk_virtual_node_owner in
  let expected_key := sha512_hexdigest ("dpt|" +:+ pk_id_virtual_node_owner +:+ "|" +:+ title) in
  if bool_decide (key = expected_key) then Ok tt
  else Raise (ValueError "The DPT key does not match the provided virtual node owner id and title.").

Definition _ensure_ddt_metadata_matches (parent fragment : DdtRecordPayload) : res unit :=
  if bool_decide (ddt_title parent <> ddt_title fragment)
  then Raise (ValueError "Cannot merge DDT fragments with different titles.")
  else if bool_decide (ddt_type parent <> ddt_type fragment)
  then Raise (ValueError "Cannot merge DDT fragments with different types.")
  else if bool_decide (ddt_tags parent <> ddt_tags fragment)
  then Raise (ValueError "Cannot merge DDT fragments with different tags.")
  else Ok tt.

Definition payload_class_name (k : namespace_kind) : string :=
  match k with
  | NsDpnt => "DpntRecordPayload"
  | NsDrt => "DrtRecordPayload"
  | NsDdt => "DdtRecordPayload"
  | NsDtt => "DttRecordPayload"
  | NsDpt => "DptRecordPayload"
  end.

(** The error of [_ensure_payload_type]. *)
Definition payload_type_error (payload : DhtPayload) (expected : namespace_kind)
    (namespace : string) : exn :=
  ValueError ("Payload invalido para namespace '" +:+ namespace +:+ "'. Esperado: "
    +:+ payload_class_name expected +:+ ". Recebido: "
    +:+ payload_class_name (kind_of payload) +:+ ".").

Definition _ensure_dpnt (payload : DhtPayload) : res DpntRecordPayload :=
  match payload with Dpnt p => Ok p | _ => Raise (payload_type_error payload NsDpnt "dpnt") end.
Definition _ensure_drt (payload : DhtPayload) : res DrtRecordPayload :=
  match payload with Drt p => Ok p | _ => Raise (payload_type_error payload NsDrt "drt") end.
Definition _ensure_ddt (payload : DhtPayload) : res DdtRecordPayload :=
  match payload with Ddt p => Ok p | _ => Raise (payload_type_error payload NsDdt "ddt") end.
Definition _ensure_dtt (payload : DhtPayload) : res DttRecordPayload :=
  match payload with Dtt p => Ok p | _ => Raise (payload_type_error payload NsDtt "dtt") end.
Definition _ensure_dpt (payload : DhtPayload) : res DptRecordPayload :=
  match payload with Dpt p => Ok p | _ => Raise (payload_type_error payload NsDpt "dpt") end.

(** ** Validity of received items *)

Section validity.
Context `{OpenSSL} `{IsoParser}.

(** [build_payload_pow_details(...)["is_valid"]] *)
Definition pow_is_valid (namespace key : string) (payload : PowPayload) (difficulty_bits : Z)
    (parent : option string) : res bool :=
  let! details := build_payload_pow_details namespace key payload (pow_nonce payload)
                    difficulty_bits parent in
  Ok (pd_is_valid details).

Definition entry_point_virtual_payload (e : DrtRouteEntryRecord) : jdict :=
  [("final_path_id", JStr (re_final_path_id e));
   ("final_physical_node_id", JStr (sha512_hexdigest (re_pk_physical_node e)))].

Definition entry_point_physical_payload (e : DrtRouteEntryRecord) (pk_virtual_node : string) : jdict :=
  [("virtual_node_id", JStr (sha512_hexdigest pk_virtual_node));
   ("final_path_id", JStr (re_final_path_id e));
   ("virtual_node_signature", JStr (re_virtual_node_signature e))].

Definition rtt_payload (e : DrtRouteEntryRecord) : jdict :=
  [("pk_physical_node", JStr (re_pk_physical_node e));
   ("expires_at", JStr (re_expires_at e));
   ("rtt", pyint_json (re_rtt e))].

(** The [try] block of [_is_valid_drt_route_entry]: five signatures. *)
Definition drt_signatures_valid (e : DrtRouteEntryRecord) (pk_virtual_node : string) : res bool :=
  let entry_virtual := CommonJson.canonical_payload_hex (entry_point_virtual_payload e) in
  let entry_physical :=
    CommonJson.canonical_payload_hex (entry_point_physical_payload e pk_virtual_node) in
  let! virtual_signature_valid :=
    dilithium_verify_hex entry_virtual (re_virtual_node_signature e) pk_virtual_node in
  let! entry_point_virtual_signature_valid :=
    dilithium_verify_hex entry_virtual (re_entry_point_virtual_node_signature e) pk_virtual_node in
  let duplicated_virtual_signature_matches :=
    bool_decide (re_entry_point_virtual_node_signature e = re_virtual_node_signature e) in
  let! physical_signature_valid :=
    dilithium_verify_hex entry_physical (re_physical_node_signature e) (re_pk_physical_node e) in
  let! entry_point_physical_signature_valid :=
    dilithium_verify_hex entry_physical (re_entry_point_physical_node_signature e)
      (re_pk_physical_node e) in
  let! rtt_signature_valid :=
    dilithium_verify_hex (CommonJson.canonical_payload_hex (rtt_payload e))
      (re_rtt_physical_node_signature e) (re_pk_physical_node e) in
  Ok (virtual_signature_valid && entry_point_virtual_signature_valid
      && duplicated_virtual_signature_matches && physical_signature_valid
      && entry_point_physical_signature_valid && rtt_signature_valid).

Definition _is_valid_drt_route_entry (now : instant) (route_entry : DrtRouteEntryRecord)
    (pk_virtual_node key : string) (difficulty_bits : Z) : res bool :=
  let! expired := _is_expired now (re_expires_at route_entry) in
  if expired : bool then Ok false
  else if negb (str_truthy (re_virtual_node_signature route_entry)) then Ok false
  else if negb (str_truthy (re_entry_point_virtual_node_signature route_entry)) then Ok false
  else if negb (str_truthy (re_entry_point_physical_node_signature route_entry)) then Ok false
  else if negb (str_truthy (re_physical_node_signature route_entry)) then Ok false
  else if negb (str_truthy (re_rtt_physical_node_signature route_entry)) then Ok false
  else
    let! pow_valid := pow_is_valid "drt" key (PowDrtEntry route_entry) difficulty_bits
                        (Some pk_virtual_node) in
    if negb pow_valid then Ok false
    else Ok (catch_all false (drt_signatures_valid route_entry pk_virtual_node)).

Definition dpnt_signed_payload (key : string) (fragment : DpntRecordPayload) : jdict :=
  let endpoints :=
    Endpoints.canonical_endpoint_list (JArr (JObj <$> dpnt_endpoints fragment)) in
  [("key", JStr key);
   ("pk_physical_node", JStr (dpnt_pk_physical_node fragment));
   ("endpoints", JArr (JObj <$> endpoints));
   ("transport_methods", strings_json (py_sorted id (remove_dups
      (omap (fun e => match od_get "transport" e with Some (JStr t) => Some t | _ => None end)
            endpoints))));
   ("reachability_class", JStr (dpnt_reachability_class fragment));
   ("relay_capable", JBool (dpnt_relay_capable fragment));
   ("hole_punch_capable", JBool (dpnt_hole_punch_capable fragment));
   ("protocol_version", JStr (dpnt_protocol_version fragment));
   ("feature_flags", strings_json (dpnt_feature_flags fragment));
   ("status", JStr (dpnt_status fragment))].

Definition _is_valid_dpnt_fragment (key : string) (fragment : DpntRecordPayload)
    (difficulty_bits : Z) : res bool :=
  let! pow_valid := pow_is_valid "dpnt" key (PowDpnt fragment) difficulty_bits None in
  if negb pow_valid then Ok false
  else Ok (catch_all false (dilithium_verify_hex
             (CommonJson.canonical_payload_hex (dpnt_signed_payload key fragment))
             (dpnt_signature fragment) (dpnt_pk_physical_node fragment))).

Definition _is_valid_dpt_fragment (key : string) (fragment : DptRecordPayload)
    (difficulty_bits : Z) : res bool :=
  let! pow_valid := pow_is_valid "dpt" key (PowDpt fragment) difficulty_bits None in
  if negb pow_valid then Ok false
  else Ok (catch_all false (dilithium_verify_hex
             (CommonJson.canonical_payload_hex
                [("key", JStr key);
                 ("pk_virtual_node_owner", JStr (dpt_pk_virtual_node_owner fragment));
                 ("title", JStr (dpt_title fragment));
                 ("type", JStr (dpt_type fragment));
                 ("last_modified", JStr (dpt_last_modified fragment));
                 ("target_ref", JStr (dpt_target_ref fragment))])
             (dpt_signature fragment) (dpt_pk_virtual_node_owner fragment))).

Definition _is_valid_dtt_entry (now : instant) (key : string) (entry : DttEntryRecord)
    (difficulty_bits : Z) : res bool :=
  let! expired := _is_expired now (te_expires_at entry) in
  if expired : bool then Ok false
  else
    let! pow_valid := pow_is_valid "dtt" key (PowDttEntry entry) difficulty_bits None in
    if negb pow_valid then Ok false
    else Ok (catch_all false (dilithium_verify_hex
               (CommonJson.canonical_payload_hex
                  [("key", JStr key);
                   ("resource_id", JStr (te_resource_id entry));
                   ("pk_virtual_node", JStr (te_pk_virtual_node entry));
                   ("created_at", JStr (te_created_at entry));
                   ("expires_at", JStr (te_expires_at entry))])
               (te_signature entry) (te_pk_virtual_node entry))).

Definition _is_valid_ddt_holder (now : instant) (key : string) (holder : DdtHolderRecord)
    (difficulty_bits : Z) : res bool :=
  let! expired := _is_expired now (ho_expires_at holder) in
  if expired : bool then Ok false
  else
    let! pow_valid := pow_is_valid "ddt" key (PowHolder holder) difficulty_bits None in
    if negb pow_valid then Ok false
    else Ok (catch_all false (dilithium_verify_hex
               (CommonJson.canonical_payload_hex
                  [("key", JStr key);
                   ("pk_virtual_node", JStr (ho_pk_virtual_node holder));
                   ("expires_at", JStr (ho_expires_at holder))])
               (ho_signature holder) (ho_pk_virtual_node holder))).
End validity.

(** ** Deduplication *)

Definition _is_better_drt_route_entry `{IsoParser} (candidate current : DrtRouteEntryRecord)
    : res bool :=
  let by_rtt :=
    if bool_decide (pyint_val (re_rtt candidate) <> pyint_val (re_rtt current))
    then pyint_val (re_rtt candidate) <? pyint_val (re_rtt current)
    else match cmp (re_pk_physical_node candidate) (re_pk_physical_node current) with
         | Lt => true | _ => false end in
  match _parse_datetime (re_expires_at candidate), _parse_datetime (re_expires_at current) with
  | Some c, Some k => if negb (dt_eqb c k) then dt_lt k c else Ok by_rtt
  | _, _ => Ok by_rtt
  end.

(** The loop over the entries; the dictionary maps a path to its best entry. *)
Fixpoint best_by_path `{IsoParser} (unique_entries : odict string DrtRouteEntryRecord)
    (route_entries : list DrtRouteEntryRecord) : res (odict string DrtRouteEntryRecord) :=
  match route_entries with
  | [] => Ok unique_entries
  | route_entry :: rest =>
      match od_get (re_final_path_id route_entry) unique_entries with
      | None => best_by_path (od_set (re_final_path_id route_entry) route_entry unique_entries) rest
      | Some current_entry =>
          let! better := _is_better_drt_route_entry route_entry current_entry in
          best_by_path (if better : bool
                        then od_set (re_final_path_id route_entry) route_entry unique_entries
                        else unique_entries) rest
      end
  end.

Definition drt_sort_key (e : DrtRouteEntryRecord)
    : string * (string * (string * (Z * (string * (string * (string * (string * string))))))) :=
  (re_final_path_id e, (re_pk_physical_node e, (re_expires_at e, (pyint_val (re_rtt e),
    (re_physical_node_signature e, (re_virtual_node_signature e,
      (re_entry_point_virtual_node_signature e, (re_entry_point_physical_node_signature e,
        re_rtt_physical_node_signature e)))))))).

Definition _deduplicate_drt_route_entries `{IsoParser} (route_entries : list DrtRouteEntryRecord)
    : res (list DrtRouteEntryRecord) :=
  let! unique_entries := best_by_path [] route_entries in
  Ok (py_sorted drt_sort_key unique_entries.*2).

(** [unique[x] = None] for every [x], then [unique.keys()]: one object per class of
    equal objects, the first seen.  Two dataclass objects are equal when their
    fields are, and [True == 1]. *)
Fixpoint dedup_first {A K : Type} `{EqDecision K} (eq_key : A -> K) (seen : list A) (l : list A)
    : list A :=
  match l with
  | [] => seen
  | x :: l' =>
      if bool_decide (eq_key x ∈ (eq_key <$> seen)) then dedup_first eq_key seen l'
      else dedup_first eq_key (seen ++ [x]) l'
  end.

Definition holder_eq_key (h : DdtHolderRecord) : string * string * string * option Z :=
  (ho_pk_virtual_node h, ho_expires_at h, ho_signature h, pyint_val <$> ho_pow_nonce h).

Definition holder_sort_key (h : DdtHolderRecord) : string * (string * string) :=
  (ho_pk_virtual_node h, (ho_expires_at h, ho_signature h)).

Definition _deduplicate_exact_ddt_holders (holders : list DdtHolderRecord) : list DdtHolderRecord :=
  py_sorted holder_sort_key (dedup_first holder_eq_key [] holders).

Definition dtt_entry_eq_key (e : DttEntryRecord)
    : string * string * string * string * string * option Z :=
  (te_resource_id e, te_pk_virtual_node e, te_created_at e, te_expires_at e, te_signature e,
   pyint_val <$> te_pow_nonce e).

Definition dtt_entry_sort_key (e : DttEntryRecord) : string * (string * (string * (string * string))) :=
  (te_resource_id e, (te_pk_virtual_node e, (te_created_at e, (te_expires_at e, te_signature e)))).

Definition _deduplicate_exact_dtt_entries (entries : list DttEntryRecord) : list DttEntryRecord :=
  py_sorted dtt_entry_sort_key (dedup_first dtt_entry_eq_key [] entries).

(** ** Merging *)

Section merging.
Context `{OpenSSL} `{IsoParser}.

Definition validate_and_merge_dpnt_fragment (key : string) (parent fragment : DhtPayload)
    (difficulty_bits : Z) : res DpntRecordPayload :=
  let! _ := _ensure_dpnt parent in
  let! fragment := _ensure_dpnt fragment in
  let! _ := _ensure_dpnt_key_matches_physical_node key (dpnt_pk_physical_node fragment) in
  let! valid := _is_valid_dpnt_fragment key fragment difficulty_bits in
  require! (valid : bool) else ValueError "O fragmento DPNT possui assinatura invalida." in
  Ok fragment.

Definition validate_and_merge_drt_fragment (now : instant) (key : string)
    (parent fragment : DhtPayload) (difficulty_bits : Z) : res DrtRecordPayload :=
  let! parent := _ensure_drt parent in
  let! fragment := _ensure_drt fragment in
  let! _ := _ensure_drt_key_matches_virtual_node key (drt_pk_virtual_node parent) in
  require! bool_decide (drt_pk_virtual_node parent = drt_pk_virtual_node fragment)
  else ValueError "Cannot merge DRT fragments from different virtual nodes." in
  let! valid_parent_entries :=
    filter_res (fun e => _is_valid_drt_route_entry now e (drt_pk_virtual_node parent) key
                           difficulty_bits) (drt_route_entries parent) in
  let! valid_fragment_entries :=
    filter_res (fun e => _is_valid_drt_route_entry now e (drt_pk_virtual_node fragment) key
                           difficulty_bits) (drt_route_entries fragment) in
  require! bool_decide (drt_route_entries fragment = []) || negb (bool_decide (valid_fragment_entries = []))
  else ValueError "The DRT fragment has no valid route entries." in
  let! merged_entries :=
    _deduplicate_drt_route_entries (valid_parent_entries ++ valid_fragment_entries) in
  Ok (parent <| drt_route_entries := merged_entries |> <| drt_last_update := isoformat now |>).

Definition validate_and_merge_ddt_fragment (now : instant) (key : string)
    (parent fragment : DhtPayload) (difficulty_bits : Z) : res DdtRecordPayload :=
  let! parent := _ensure_ddt parent in
  let! fragment := _ensure_ddt fragment in
  let! _ := _ensure_ddt_metadata_matches parent fragment in
  let! valid_fragment_holders :=
    filter_res (fun h => _is_valid_ddt_holder now key h difficulty_bits) (ddt_holders fragment) in
  require! bool_decide (ddt_holders fragment = []) || negb (bool_decide (valid_fragment_holders = []))
  else ValueError "The DDT fragment has no valid holders." in
  Ok (parent <| ddt_holders :=
        _deduplicate_exact_ddt_holders (ddt_holders parent ++ valid_fragment_holders) |>).

Definition validate_and_merge_dtt_fragment (now : instant) (key : string)
    (parent fragment : DhtPayload) (difficulty_bits : Z) : res DttRecordPayload :=
  let! parent := _ensure_dtt parent in
  let! fragment := _ensure_dtt fragment in
  let! valid_fragment_entries :=
    filter_res (fun e => _is_valid_dtt_entry now key e difficulty_bits) (dtt_entries fragment) in
  require! bool_decide (dtt_entries fragment = []) || negb (bool_decide (valid_fragment_entries = []))
  else ValueError "The DTT fragment has no valid entries." in
  Ok (MkDtt (_deduplicate_exact_dtt_entries (dtt_entries parent ++ valid_fragment_entries))).

Definition validate_and_merge_dpt_fragment (key : string) (parent fragment : DhtPayload)
    (difficulty_bits : Z) : res DptRecordPayload :=
  let! parent := _ensure_dpt parent in
  let! fragment := _ensure_dpt fragment in
  let! _ := _ensure_dpt_key_matches_owner_and_title key (dpt_pk_virtual_node_owner fragment)
              (dpt_title fragment) in
  let! valid := _is_valid_dpt_fragment key fragment difficulty_bits in
  require! (valid : bool) else ValueError "O fragmento DPT possui assinatura invalida." in
  let! newer := _is_fragment_newer (dpt_last_modified parent) (dpt_last_modified fragment) in
  if negb newer then Ok parent else Ok fragment.

Definition validate_and_merge (now : instant) (namespace key : string)
    (parent fragment : DhtPayload) (difficulty_bits : Z) : res DhtPayload :=
  match namespace_of namespace with
  | Some NsDpnt => Dpnt <$> validate_and_merge_dpnt_fragment key parent fragment difficulty_bits
  | Some NsDrt => Drt <$> validate_and_merge_drt_fragment now key parent fragment difficulty_bits
  | Some NsDdt => Ddt <$> validate_and_merge_ddt_fragment now key parent fragment difficulty_bits
  | Some NsDtt => Dtt <$> validate_and_merge_dtt_fragment now key parent fragment difficulty_bits
  | Some NsDpt => Dpt <$> validate_and_merge_dpt_fragment key parent fragment difficulty_bits
  | None => Raise (ValueError ("Unsupported DHT namespace for merge: " +:+ namespace))
  end.
End merging.

(** ** Validity *)

Section validity_lemmas.
Context `{OpenSSL} `{IsoParser}.

Definition naive_date (value : string) : Prop := exists t, _parse_datetime value = Some (Naive t).

Lemma expired_cases now v :
  (naive_date v /\ _is_expired now v = Raise cant_compare) \/
  (~ naive_date v /\ exists b, _is_expired now v = Ok b).
Proof.
  unfold _is_expired, naive_date. destruct (_parse_datetime v) as [[t|t]|] eqn:E; cbn.
  - left. split; [by exists t|done].
  - right. split; [intros [t' ?]; congruence|by eexists].
  - right. split; [intros [t' ?]; congruence|by eexists].
Qed.

Lemma not_expired now v :
  _is_expired now v = Ok false -> exists t, _parse_datetime v = Some (Aware t) /\ now < t.
Proof.
  unfold _is_expired. destruct (_parse_datetime v) as [[t|t]|]; cbn; [done| |done].
  intros Hle%Ok_inj. apply Z.leb_gt in Hle. eauto.
Qed.

Lemma pow_is_valid_total ns key p d parent :
  (forall e, p = PowDrtEntry e -> opt_truthy parent = true) ->
  exists b, pow_is_valid ns key p d parent = Ok b.
Proof.
  intros Hp. destruct (canonical_ok ns key p parent Hp) as [m Hm]. unfold pow_is_valid.
  unfold build_payload_pow_details. rewrite Hm. cbn [mbind res_bind].
  destruct (pow_details_valid m (pow_nonce p) d) as (det & -> & _). by eexists.
Qed.

(** A route entry is valid only if it is not expired, its proof of work is valid
    and its five signatures verify. *)
Lemma valid_drt_entry now e pk key d :
  _is_valid_drt_route_entry now e pk key d = Ok true ->
  (exists t, _parse_datetime (re_expires_at e) = Some (Aware t) /\ now < t) /\
  validate_drt_route_entry_pow e key pk d = Ok true /\
  drt_signatures_valid e pk = Ok true.
Proof.
  unfold _is_valid_drt_route_entry. destruct (_is_expired now (re_expires_at e)) as [[]|] eqn:E;
    cbn [mbind res_bind]; [done| |done].
  repeat (destruct (str_truthy _); [|done]; cbn [negb]).
  destruct (pow_is_valid _ _ _ _ _) as [[]|] eqn:Ep; cbn [mbind res_bind negb]; [|done..].
  intros Hs%Ok_inj. split; [by apply not_expired in E|]. split; [exact Ep|].
  by destruct (drt_signatures_valid e pk) as [[]|].
Qed.

Lemma drt_entry_cases now e pk key d :
  pk <> "" ->
  (naive_date (re_expires_at e) /\ _is_valid_drt_route_entry now e pk key d = Raise cant_compare) \/
  (~ naive_date (re_expires_at e) /\ exists b, _is_valid_drt_route_entry now e pk key d = Ok b).
Proof.
  intros Hpk%str_truthy_spec. unfold _is_valid_drt_route_entry.
  destruct (expired_cases now (re_expires_at e)) as [[Hn ->]|[Hn [b ->]]]; cbn [mbind res_bind];
    [by left|]. right. split; [done|].
  destruct (pow_is_valid_total "drt" key (PowDrtEntry e) d (Some pk)) as [b' ->]; [by intros|].
  cbn [mbind res_bind]. by repeat case_match; eexists.
Qed.
End validity_lemmas.

(** ** Deduplication of route entries *)

Section dedup_drt.
Context `{IsoParser}.

(** The order [_is_better_drt_route_entry] puts on entries with a dated expiry:
    later expiry first, then smaller round-trip time, then smaller key. *)
Definition entry_rank (e : DrtRouteEntryRecord) : Z * (Z * string) :=
  (match _parse_datetime (re_expires_at e) with Some (Aware t) => - t | _ => 0 end,
   (pyint_val (re_rtt e), re_pk_physical_node e)).

Definition dated (e : DrtRouteEntryRecord) : Prop :=
  exists t, _parse_datetime (re_expires_at e) = Some (Aware t).

Lemma better_rank e1 e2 :
  dated e1 -> dated e2 ->
  _is_better_drt_route_entry e1 e2 =
  Ok (match cmp (entry_rank e1) (entry_rank e2) with Lt => true | _ => false end).
Proof.
  intros [t1 H1] [t2 H2]. unfold _is_better_drt_route_entry, entry_rank. rewrite H1, H2.
  unfold dt_eqb, cmp at 2, pair_cmp. cbn [fst snd]. unfold cmp at 2, Z_cmp.
  case_bool_decide as Ht; cbn [negb].
  - injection Ht as ->. rewrite Z.compare_refl. unfold cmp at 2, pair_cmp. cbn [fst snd].
    unfold cmp at 2, Z_cmp. case_bool_decide as Hr.
    + f_equal. rewrite Z.ltb_compare.
      destruct (Z.compare_spec (pyint_val (re_rtt e1)) (pyint_val (re_rtt e2))); done.
    + by rewrite Hr, Z.compare_refl.
  - cbn. f_equal. rewrite Z.ltb_compare, Z.compare_opp.
    destruct (Z.compare_spec t2 t1) as [->|?|?]; done.
Qed.

(** The dictionary of the loop after the entries [seen]. *)
Record best_inv (seen : list DrtRouteEntryRecord) (u : odict string DrtRouteEntryRecord) : Prop := {
  bi_wf : od_wf u;
  bi_from : forall p e, od_get p u = Some e -> re_final_path_id e = p /\ e ∈ seen;
  bi_best : forall e, e ∈ seen -> exists e', od_get (re_final_path_id e) u = Some e' /\
    cmp_le (entry_rank e') (entry_rank e);
}.

Lemma best_inv_set seen u x :
  best_inv seen u ->
  (forall c, od_get (re_final_path_id x) u = Some c -> cmp_le (entry_rank x) (entry_rank c)) ->
  best_inv (seen ++ [x]) (od_set (re_final_path_id x) x u).
Proof.
  intros [Hwf Hfrom Hbest] Hx. split.
  - by apply od_set_wf.
  - intros p e. destruct (decide (re_final_path_id x = p)) as [<-|Hne].
    + rewrite od_get_set_eq. intros [= <-]. set_solver.
    + rewrite od_get_set_ne by done. intros He%Hfrom. set_solver.
  - intros e [He|He%list_elem_of_singleton]%elem_of_app.
    + destruct (Hbest e He) as (c & Hc & Hle).
      destruct (decide (re_final_path_id x = re_final_path_id e)) as [Heq|Hne].
      * rewrite <- Heq, od_get_set_eq. eexists; split; [done|].
        transitivity (entry_rank c); [|done]. apply Hx. by rewrite Heq.
      * rewrite od_get_set_ne by done. eauto.
    + subst e. rewrite od_get_set_eq. eexists; split; [done|]. reflexivity.
Qed.

Lemma best_inv_skip seen u x c :
  best_inv seen u -> od_get (re_final_path_id x) u = Some c ->
  cmp_le (entry_rank c) (entry_rank x) -> best_inv (seen ++ [x]) u.
Proof.
  intros [Hwf Hfrom Hbest] Hc Hle. split; [done| |].
  - intros p e He%Hfrom. set_solver.
  - intros e [He|He%list_elem_of_singleton]%elem_of_app; [by apply Hbest|]. subst e. eauto.
Qed.

Lemma best_by_path_spec l : forall seen u,
  Forall dated seen -> Forall dated l -> best_inv seen u ->
  exists u', best_by_path u l = Ok u' /\ best_inv (seen ++ l) u'.
Proof.
  induction l as [|x l IH]; intros seen u Hs Hl Hu.
  { exists u. by rewrite app_nil_r. }
  apply Forall_cons in Hl as [Hx Hl]. cbn [best_by_path].
  assert (Forall dated (seen ++ [x])) as Hs' by (apply Forall_app; by repeat constructor).
  replace (seen ++ x :: l) with ((seen ++ [x]) ++ l) by (by rewrite <- app_assoc).
  destruct (od_get (re_final_path_id x) u) as [c|] eqn:Hc.
  - assert (dated c) as Hcd.
    { apply (bi_from _ _ Hu) in Hc as [_ Hc]. exact (proj1 (list.Forall_forall _ _) Hs c Hc). }
    rewrite better_rank by done. cbn [mbind res_bind].
    destruct (cmp (entry_rank x) (entry_rank c)) eqn:Ecmp; apply IH; try done.
    + eapply best_inv_skip; [done|done|]. apply cmp_eq_iff in Ecmp. by rewrite Ecmp.
    + apply best_inv_set; [done|]. intros c' Hc'. rewrite Hc in Hc'. injection Hc' as <-.
      unfold cmp_le. congruence.
    + eapply best_inv_skip; [done|done|]. unfold cmp_le. rewrite (cmp_flip (entry_rank x)), Ecmp. done.
  - apply IH; [done|done|]. apply best_inv_set; [done|]. congruence.
Qed.

Lemma dedup_drt_spec l :
  Forall dated l ->
  exists r, _deduplicate_drt_route_entries l = Ok r /\
    (forall e, e ∈ r -> e ∈ l) /\ NoDup (re_final_path_id <$> r) /\
    StronglySorted (key_le drt_sort_key) r /\
    (forall e, e ∈ l -> exists e', e' ∈ r /\ re_final_path_id e' = re_final_path_id e /\
       cmp_le (entry_rank e') (entry_rank e)).
Proof.
  intros Hl. destruct (best_by_path_spec l [] []) as (u & Hu & Hinv); [constructor|done| |].
  { split; [constructor|done|]. intros e He. by apply elem_of_nil in He. }
  unfold _deduplicate_drt_route_entries. rewrite Hu. cbn [mbind res_bind].
  eexists; split; [done|]. cbn [app] in Hinv.
  assert (re_final_path_id <$> u.*2 = u.*1) as Hkeys.
  { apply od_keys_values; [|apply (bi_wf _ _ Hinv)]. intros p e He. by apply (bi_from _ _ Hinv) in He as [? _]. }
  split_and!.
  - intros e. rewrite elem_of_py_sorted. intros ([p e'] & -> & Hin)%list_elem_of_fmap.
    apply (od_elem_of_get _ _ _ (bi_wf _ _ Hinv)) in Hin. by apply (bi_from _ _ Hinv) in Hin as [_ ?].
  - rewrite py_sorted_Permutation, Hkeys. apply (bi_wf _ _ Hinv).
  - apply py_sorted_sorted.
  - intros e He. destruct (bi_best _ _ Hinv e He) as (e' & Hg & Hle). exists e'.
    rewrite elem_of_py_sorted. split; [|split; [by apply (bi_from _ _ Hinv) in Hg as [? _]|done]].
    apply list_elem_of_fmap. eexists (_, e'). split; [done|]. by eapply od_get_elem_of.
Qed.
End dedup_drt.

(** ** The routing table *)

Section drt_theorems.
Context `{OpenSSL} `{IsoParser}.

Lemma merge_drt_unfold now key P F d :
  key = sha512_hexdigest ("drt|" +:+ sha512_hexdigest (drt_pk_virtual_node P)) ->
  drt_pk_virtual_node F = drt_pk_virtual_node P ->
  validate_and_merge_drt_fragment now key (Drt P) (Drt F) d =
  let valid e := _is_valid_drt_route_entry now e (drt_pk_virtual_node P) key d in
  let! vp := filter_res valid (drt_route_entries P) in
  let! vf := filter_res valid (drt_route_entries F) in
  require! bool_decide (drt_route_entries F = []) || negb (bool_decide (vf = []))
  else ValueError "The DRT fragment has no valid route entries." in
  let! merged := _deduplicate_drt_route_entries (vp ++ vf) in
  Ok (P <| drt_route_entries := merged |> <| drt_last_update := isoformat now |>).
Proof.
  intros Hk Hpk. unfold validate_and_merge_drt_fragment, _ensure_drt_key_matches_virtual_node.
  cbn [mbind res_bind _ensure_drt]. cbv zeta.
  rewrite (bool_decide_true (key = _)) by done. cbn [mbind res_bind].
  rewrite (bool_decide_true (drt_pk_virtual_node P = _)) by congruence. by rewrite Hpk.
Qed.

Lemma filter_valid_dated now pk key d l v :
  filter_res (fun e => _is_valid_drt_route_entry now e pk key d) l = Ok v -> Forall dated v.
Proof.
  intros Hv. apply list.Forall_forall. intros e He.
  apply (filter_res_Ok _ _ _ Hv) in He as [_ He].
  apply valid_drt_entry in He as [(t & Ht & _) _]. by exists t.
Qed.

(** C31: merging route entries.  A successful merge keeps the owner, stamps the
    record with the merge time, and its entries are valid (unexpired, proven and
    signed by both nodes), taken from the stored record or the fragment, one per path
    and in key order; for every valid entry offered, the entry kept on its path is at
    least as good: later expiry, then smaller round-trip time, then smaller key. *)
Theorem drt_merge_spec (now : instant) (key : string) (P F r : DrtRecordPayload) (d : Z) :
  validate_and_merge_drt_fragment now key (Drt P) (Drt F) d = Ok r ->
  let valid e := _is_valid_drt_route_entry now e (drt_pk_virtual_node P) key d = Ok true in
  drt_pk_virtual_node r = drt_pk_virtual_node P /\ drt_last_update r = isoformat now /\
  (forall e, e ∈ drt_route_entries r ->
     valid e /\ (e ∈ drt_route_entries P \/ e ∈ drt_route_entries F)) /\
  NoDup (re_final_path_id <$> drt_route_entries r) /\
  StronglySorted (key_le drt_sort_key) (drt_route_entries r) /\
  (forall e, valid e -> e ∈ drt_route_entries P \/ e ∈ drt_route_entries F ->
     exists e', e' ∈ drt_route_entries r /\ re_final_path_id e' = re_final_path_id e /\
       cmp_le (entry_rank e') (entry_rank e)).
Proof.
  intros Hm. cbv zeta. pose proof Hm as Hm0.
  unfold validate_and_merge_drt_fragment in Hm0. cbn [mbind res_bind _ensure_drt] in Hm0.
  unfold _ensure_drt_key_matches_virtual_node in Hm0. cbv zeta in Hm0.
  destruct (bool_decide (key = _)) eqn:Hk; cbn [mbind res_bind] in Hm0; [|done].
  destruct (bool_decide (drt_pk_virtual_node P = _)) eqn:Hpk; [|done]. clear Hm0.
  apply bool_decide_eq_true in Hk, Hpk.
  rewrite (merge_drt_unfold now key P F d Hk (eq_sym Hpk)) in Hm. cbv zeta in Hm.
  destruct (filter_res _ (drt_route_entries P)) as [vp|] eqn:Ep; cbn [mbind res_bind] in Hm; [|done].
  destruct (filter_res _ (drt_route_entries F)) as [vf|] eqn:Ef; cbn [mbind res_bind] in Hm; [|done].
  destruct (_ || _) in Hm; [|done].
  destruct (dedup_drt_spec (vp ++ vf)) as (m & Hd & Hsub & Hnd & Hsorted & Hbest).
  { apply Forall_app. split; by eapply filter_valid_dated. }
  rewrite Hd in Hm. cbn [mbind res_bind] in Hm. apply Ok_inj in Hm as <-. cbn.
  pose proof (filter_res_Ok _ _ _ Ep) as Hvp. pose proof (filter_res_Ok _ _ _ Ef) as Hvf.
  split; [done|]. split; [done|]. split; [|split; [done|split; [done|]]].
  - intros e He. apply Hsub, elem_of_app in He as [He|He]; [apply Hvp in He|apply Hvf in He]; tauto.
  - intros e Hv Hin. apply Hbest, elem_of_app. destruct Hin; [left; by apply Hvp|right; by apply Hvf].
Qed.

(** When the merge of route entries succeeds.  With a matching key, one owner and
    no naive date in either record, the merge succeeds exactly when the fragment is
    empty or holds at least one valid entry. *)
Theorem drt_merge_accepts_iff (now : instant) (key : string) (P F : DrtRecordPayload) (d : Z) :
  key = sha512_hexdigest ("drt|" +:+ sha512_hexdigest (drt_pk_virtual_node P)) ->
  drt_pk_virtual_node F = drt_pk_virtual_node P -> drt_pk_virtual_node P <> "" ->
  (forall e, e ∈ drt_route_entries P \/ e ∈ drt_route_entries F -> ~ naive_date (re_expires_at e)) ->
  is_ok (validate_and_merge_drt_fragment now key (Drt P) (Drt F) d) = true <->
  drt_route_entries F = [] \/
  exists e, e ∈ drt_route_entries F /\
    _is_valid_drt_route_entry now e (drt_pk_virtual_node P) key d = Ok true.
Proof.
  intros Hk Hpk Hne Hdates. rewrite merge_drt_unfold by done. cbv zeta.
  assert (forall e, ~ naive_date (re_expires_at e) ->
    exists b, _is_valid_drt_route_entry now e (drt_pk_virtual_node P) key d = Ok b) as Htot.
  { intros e Hn. by destruct (drt_entry_cases now e (drt_pk_virtual_node P) key d Hne) as [[]|[]]. }
  destruct (filter_res_total (fun e => _is_valid_drt_route_entry now e (drt_pk_virtual_node P) key d)
    (drt_route_entries P)) as [vp Ep]; [intros; apply Htot, Hdates; by left|].
  destruct (filter_res_total (fun e => _is_valid_drt_route_entry now e (drt_pk_virtual_node P) key d)
    (drt_route_entries F)) as [vf Ef]; [intros; apply Htot, Hdates; by right|].
  rewrite Ep, Ef. cbn [mbind res_bind]. pose proof (filter_res_Ok _ _ _ Ef) as Hvf.
  destruct (dedup_drt_spec (vp ++ vf)) as (m & Hd & _).
  { apply Forall_app. split; by eapply filter_valid_dated. }
  rewrite Hd. cbn [mbind res_bind]. case_bool_decide as HF; cbn [orb]; [cbn; tauto|].
  case_bool_decide as Hv; cbn.
  - split; [done|]. intros [|(e & He & Hve)]; [done|].
    assert (e ∈ vf) as Hin by (by apply Hvf). rewrite Hv in Hin. by apply elem_of_nil in Hin.
  - split; [|done]. intros _. right. destruct vf as [|e vf]; [done|]. exists e. apply Hvf. left.
Qed.

(** A naive date aborts the merge.  One entry, stored or received, whose expiry
    has no time zone makes the whole merge raise [TypeError], also when every other
    entry is valid: the comparison with the current time is outside any handler. *)
Theorem drt_merge_naive_date_raises (now : instant) (key : string) (P F : DrtRecordPayload)
    (e : DrtRouteEntryRecord) (d : Z) :
  key = sha512_hexdigest ("drt|" +:+ sha512_hexdigest (drt_pk_virtual_node P)) ->
  drt_pk_virtual_node F = drt_pk_virtual_node P -> drt_pk_virtual_node P <> "" ->
  e ∈ drt_route_entries P \/ e ∈ drt_route_entries F -> naive_date (re_expires_at e) ->
  validate_and_merge_drt_fragment now key (Drt P) (Drt F) d = Raise cant_compare.
Proof.
  intros Hk Hpk Hne Hin Hnaive. rewrite merge_drt_unfold by done. cbv zeta.
  assert (forall e, _is_valid_drt_route_entry now e (drt_pk_virtual_node P) key d = Raise cant_compare \/
    exists b, _is_valid_drt_route_entry now e (drt_pk_virtual_node P) key d = Ok b) as Hcase.
  { intros e'. destruct (drt_entry_cases now e' (drt_pk_virtual_node P) key d Hne) as [[]|[]]; auto. }
  assert (_is_valid_drt_route_entry now e (drt_pk_virtual_node P) key d = Raise cant_compare) as He.
  { by destruct (drt_entry_cases now e (drt_pk_virtual_node P) key d Hne) as [[]|[]]. }
  destruct Hin as [Hin|Hin].
  - rewrite (filter_res_raises _ (drt_route_entries P) cant_compare); [done|intros; apply Hcase|eauto].
  - assert (filter_res (fun e => _is_valid_drt_route_entry now e (drt_pk_virtual_node P) key d)
      (drt_route_entries F) = Raise cant_compare) as ->
      by (apply filter_res_raises; [intros; apply Hcase|eauto]).
    destruct (filter_res _ (drt_route_entries P)) as [vp|err] eqn:Ep; [done|]. cbn.
    apply (filter_res_error _ cant_compare) in Ep; [by subst|]. intros; apply Hcase.
Qed.
End drt_theorems.

(** *** Concrete instances for the examples: a verifier that accepts every
    signature, and the parser of extended ISO dates. *)

#[local] Instance demo_openssl : OpenSSL := {|
  openssl_sign := fun _ _ => Ok "s";
  openssl_verify := fun _ _ _ => Ok tt;
  openssl_encap := fun _ => Ok ("c", "k");
  openssl_decap := fun _ _ => Ok "k";
|}.
#[local] Existing Instance iso_extended.

Definition demo_drt_key : string := sha512_hexdigest ("drt|" +:+ sha512_hexdigest "pk-v").

Definition demo_route (path expires : string) (rtt : Z) : DrtRouteEntryRecord :=
  MkDrtEntry "pk-p" "ab" path "ab" "cd" "cd" expires (PyInt rtt) "ef" (Some (PyInt 0)).

Definition demo_parent : DrtRecordPayload :=
  MkDrt "pk-v" [demo_route "p1" "2999-01-01T00:00:00+00:00" 9] "2024-01-01T00:00:00+00:00".
Definition demo_fragment : DrtRecordPayload :=
  MkDrt "pk-v" [demo_route "p1" "2999-01-01T00:00:00+00:00" 5] "2024-01-01T00:00:00+00:00".
Definition demo_naive_fragment : DrtRecordPayload :=
  MkDrt "pk-v" [demo_route "p1" "2999-01-01T00:00:00+00:00" 5; demo_route "p2" "2999-01-01T00:00:00" 5]
    "2024-01-01T00:00:00+00:00".

Definition demo_merged : DrtRecordPayload :=
  MkDrt "pk-v" [demo_route "p1" "2999-01-01T00:00:00+00:00" 5] (isoformat 1772323147000000).

Lemma drt_merge_spec_witness :
  validate_and_merge_drt_fragment 1772323147000000 demo_drt_key (Drt demo_parent) (Drt demo_fragment) 0
    = Ok demo_merged /\
  NoDup (re_final_path_id <$> drt_route_entries demo_merged).
Proof.
  assert (validate_and_merge_drt_fragment 1772323147000000 demo_drt_key (Drt demo_parent)
    (Drt demo_fragment) 0 = Ok demo_merged) as Hm by (vm_compute; reflexivity).
  split; [exact Hm|].
  apply (drt_merge_spec 1772323147000000 demo_drt_key demo_parent demo_fragment demo_merged 0 Hm).
Defined.

Lemma demo_not_naive e :
  e ∈ drt_route_entries demo_parent \/ e ∈ drt_route_entries demo_fragment ->
  ~ naive_date (re_expires_at e).
Proof.
  intros Hin [t Ht]. assert (e = demo_route "p1" "2999-01-01T00:00:00+00:00" 9 \/
    e = demo_route "p1" "2999-01-01T00:00:00+00:00" 5) as [->| ->] by (cbn in Hin; set_solver);
    vm_compute in Ht; discriminate Ht.
Qed.

Lemma drt_merge_accepts_iff_witness :
  is_ok (validate_and_merge_drt_fragment 1772323147000000 demo_drt_key (Drt demo_parent)
    (Drt demo_fragment) 0) = true.
Proof.
  apply (drt_merge_accepts_iff 1772323147000000 demo_drt_key demo_parent demo_fragment 0);
    [reflexivity|reflexivity|discriminate|exact demo_not_naive|].
  right. exists (demo_route "p1" "2999-01-01T00:00:00+00:00" 5). split; [left|].
  vm_compute. reflexivity.
Defined.

Lemma drt_merge_naive_date_raises_witness :
  validate_and_merge_drt_fragment 1772323147000000 demo_drt_key (Drt demo_parent)
    (Drt demo_naive_fragment) 0 = Raise cant_compare.
Proof.
  apply (drt_merge_naive_date_raises 1772323147000000 demo_drt_key demo_parent demo_naive_fragment
    (demo_route "p2" "2999-01-01T00:00:00" 5) 0); [reflexivity|reflexivity|discriminate| |].
  - right. right. left.
  - eexists. vm_compute. reflexivity.
Defined.

(** ** Exact deduplication *)

Section dedup_exact.
Context {A K : Type} `{EqDecision K} (eq_key : A -> K).

Lemma dedup_first_spec l : forall seen,
  NoDup (eq_key <$> seen) ->
  NoDup (eq_key <$> dedup_first eq_key seen l) /\
  (forall x, x ∈ dedup_first eq_key seen l -> x ∈ seen \/ x ∈ l) /\
  (forall x, x ∈ seen -> x ∈ dedup_first eq_key seen l) /\
  (forall x, x ∈ seen \/ x ∈ l -> exists y, y ∈ dedup_first eq_key seen l /\ eq_key y = eq_key x).
Proof.
  induction l as [|x l IH]; intros seen Hnd; cbn.
  { split; [done|]. split; [by left|]. split; [done|]. intros x [Hx|Hx]; [eauto|by apply elem_of_nil in Hx]. }
  case_bool_decide as Hin.
  - destruct (IH seen Hnd) as (H1 & H2 & H3 & H4). split; [done|]. split; [set_solver|]. split; [done|].
    intros y [Hy|[->|Hy]%elem_of_cons]; [by apply H4; left| |by apply H4; right].
    apply list_elem_of_fmap in Hin as (z & Hz & Hin). exists z. split; [by apply H3|done].
  - destruct (IH (seen ++ [x])) as (H1 & H2 & H3 & H4).
    { rewrite fmap_app. apply NoDup_app. split; [done|]. split; [|apply NoDup_singleton].
      intros k Hk ->%list_elem_of_singleton. done. }
    split; [done|]. split; [|split].
    + intros y Hy%H2. set_solver.
    + intros y Hy. apply H3. set_solver.
    + intros y Hy. apply H4. set_solver.
Qed.
End dedup_exact.

Section list_theorems.
Context `{OpenSSL} `{IsoParser}.

(** Merging holders and entries.  A successful DDT merge keeps title, type and
    tags; a successful DDT or DTT merge holds exactly one of each class of equal
    items among the stored ones, which are not examined again, and the received ones
    that are valid now, in key order. *)
Theorem ddt_dtt_merge_spec (now : instant) (key : string) (d : Z) :
  (forall P F r, validate_and_merge_ddt_fragment now key (Ddt P) (Ddt F) d = Ok r ->
     let offered h := h ∈ ddt_holders P \/
       (h ∈ ddt_holders F /\ _is_valid_ddt_holder now key h d = Ok true) in
     ddt_title r = ddt_title P /\ ddt_type r = ddt_type P /\ ddt_tags r = ddt_tags P /\
     NoDup (holder_eq_key <$> ddt_holders r) /\
     StronglySorted (key_le holder_sort_key) (ddt_holders r) /\
     (forall h, h ∈ ddt_holders r -> offered h) /\
     (forall h, offered h -> exists h', h' ∈ ddt_holders r /\ holder_eq_key h' = holder_eq_key h)) /\
  (forall P F r, validate_and_merge_dtt_fragment now key (Dtt P) (Dtt F) d = Ok r ->
     let offered e := e ∈ dtt_entries P \/
       (e ∈ dtt_entries F /\ _is_valid_dtt_entry now key e d = Ok true) in
     NoDup (dtt_entry_eq_key <$> dtt_entries r) /\
     StronglySorted (key_le dtt_entry_sort_key) (dtt_entries r) /\
     (forall e, e ∈ dtt_entries r -> offered e) /\
     (forall e, offered e -> exists e', e' ∈ dtt_entries r /\ dtt_entry_eq_key e' = dtt_entry_eq_key e)).
Proof.
  split.
  - intros P F r Hm. unfold validate_and_merge_ddt_fragment in Hm. cbn [mbind res_bind _ensure_ddt] in Hm.
    destruct (_ensure_ddt_metadata_matches P F); cbn [mbind res_bind] in Hm; [|done].
    destruct (filter_res _ _) as [vf|] eqn:Ef; cbn [mbind res_bind] in Hm; [|done].
    destruct (_ || _) in Hm; [|done]. apply Ok_inj in Hm as <-. cbv zeta. cbn.
    pose proof (filter_res_Ok _ _ _ Ef) as Hvf.
    destruct (dedup_first_spec holder_eq_key (ddt_holders P ++ vf) []) as (H1 & H2 & _ & H4); [constructor|].
    unfold _deduplicate_exact_ddt_holders. split_and!; [done|done|done| |apply py_sorted_sorted| |].
    + by rewrite py_sorted_Permutation.
    + intros h. rewrite elem_of_py_sorted. intros [Hh|Hh]%H2; [by apply elem_of_nil in Hh|].
      apply elem_of_app in Hh as [Hh|Hh]; [by left|right; by apply Hvf].
    + intros h Hh. setoid_rewrite elem_of_py_sorted. apply H4. right. apply elem_of_app.
      destruct Hh; [by left|right; by apply Hvf].
  - intros P F r Hm. unfold validate_and_merge_dtt_fragment in Hm. cbn [mbind res_bind _ensure_dtt] in Hm.
    destruct (filter_res _ _) as [vf|] eqn:Ef; cbn [mbind res_bind] in Hm; [|done].
    destruct (_ || _) in Hm; [|done]. apply Ok_inj in Hm as <-. cbv zeta. cbn.
    pose proof (filter_res_Ok _ _ _ Ef) as Hvf.
    destruct (dedup_first_spec dtt_entry_eq_key (dtt_entries P ++ vf) []) as (H1 & H2 & _ & H4); [constructor|].
    unfold _deduplicate_exact_dtt_entries. split_and!; [|apply py_sorted_sorted| |].
    + by rewrite py_sorted_Permutation.
    + intros e. rewrite elem_of_py_sorted. intros [He|He]%H2; [by apply elem_of_nil in He|].
      apply elem_of_app in He as [He|He]; [by left|right; by apply Hvf].
    + intros e He. setoid_rewrite elem_of_py_sorted. apply H4. right. apply elem_of_app.
      destruct He; [by left|right; by apply Hvf].
Qed.

(** Single-owner records.  A DPNT or DPT merge succeeds only for a fragment whose
    key is the one derived from its owner and whose proof of work and signature
    verify; a DPNT fragment then replaces the record, a DPT fragment replaces it
    exactly when it is strictly newer, so an older or equal one never rolls it back. *)
Theorem owner_record_merge_spec (key : string) (d : Z) :
  (forall P F r, validate_and_merge_dpnt_fragment key (Dpnt P) (Dpnt F) d = Ok r ->
     r = F /\ key = sha512_hexdigest ("dpnt|" +:+ sha512_hexdigest (dpnt_pk_physical_node F)) /\
     _is_valid_dpnt_fragment key F d = Ok true) /\
  (forall P F r, validate_and_merge_dpt_fragment key (Dpt P) (Dpt F) d = Ok r ->
     key = sha512_hexdigest ("dpt|" +:+ sha512_hexdigest (dpt_pk_virtual_node_owner F) +:+ "|" +:+ dpt_title F) /\
     _is_valid_dpt_fragment key F d = Ok true /\
     exists newer, _is_fragment_newer (dpt_last_modified P) (dpt_last_modified F) = Ok newer /\
       r = if newer : bool then F else P).
Proof.
  split; intros P F r Hm.
  - unfold validate_and_merge_dpnt_fragment, _ensure_dpnt_key_matches_physical_node in Hm.
    cbn [mbind res_bind _ensure_dpnt] in Hm. cbv zeta in Hm.
    case_bool_decide as Hk; cbn [mbind res_bind] in Hm; [|done].
    destruct (_is_valid_dpnt_fragment key F d) as [[]|]; cbn [mbind res_bind] in Hm; [|done..].
    by apply Ok_inj in Hm as <-.
  - unfold validate_and_merge_dpt_fragment, _ensure_dpt_key_matches_owner_and_title in Hm.
    cbn [mbind res_bind _ensure_dpt] in Hm. cbv zeta in Hm.
    case_bool_decide as Hk; cbn [mbind res_bind] in Hm; [|done].
    destruct (_is_valid_dpt_fragment key F d) as [[]|]; cbn [mbind res_bind] in Hm; [|done..].
    destruct (_is_fragment_newer _ _) as [newer|]; cbn [mbind res_bind] in Hm; [|done].
    split; [done|]. split; [done|]. exists newer. split; [done|].
    destruct newer; cbn in Hm; by apply Ok_inj in Hm as <-.
Qed.
End list_theorems.
