(* ===== verification/Identity.v ===== *)
(** * The identity service

    Models [src/app/identity/service.py] over the tables of
    [src/app/storage/models/network.py] and [operational.py]: the local
    identities, the remote nodes and their endpoints, round-trip times and the
    state of the information exchange.

    A table is the list of its rows in insertion order; a query without
    [ORDER BY] returns them in that order and a null sorts before every value.
    An operation is one transaction: when it raises, the database is unchanged,
    so it returns the database only in the success case.  A session does not
    flush before its queries ([autoflush=False]): a query sees the rows as they
    were when the transaction began, and the changes made to the rows it loads.
    [ORDER BY random()] is a parameter. *)

From S2P Require Import PyFloat.
From S2P Require Import Prelude PyJson Sha512 PyTime PyInt Crypto JsonText Transport Records Pow.

(** ** Tables *)

Record LocalPhysicalNodeIdentity := MkLocalNode {
  ln_id : string;
  ln_public_key : string;
  ln_private_key_encrypted : string;
  ln_key_algorithm : string;
  ln_status : string;
  ln_created_at : instant;
}.

Record LocalVirtualNodeIdentity := MkLocalVirtualNode {
  lv_id : string;
  lv_public_key : string;
  lv_private_key_encrypted : string;
  lv_kind : string;
  lv_owner_physical_node_id : string;
  lv_expires_at : option instant;
  lv_is_active : bool;
  lv_metadata_json : option string;
  lv_created_at : instant;
}.

Record RemotePhysicalNodeIdentity := MkRemoteNode {
  rn_id : string;
  rn_public_key : string;
  rn_display_name : option string;
  rn_reachability_class : option string;
  rn_relay_capable : bool;
  rn_hole_punch_capable : bool;
  rn_protocol_version : option string;
  rn_status : string;
  rn_last_seen_at : option instant;
  rn_last_validated_at : option instant;
  rn_notes_json : option string;
}.

Record NodeEndpoint := MkNodeEndpoint {
  ne_id : Z;
  ne_physical_node_hash_id : string;
  ne_transport : string;
  ne_host : string;
  ne_port : Z;
  ne_priority : Z;
  ne_is_active : bool;
  ne_last_success_at : option instant;
  ne_last_failure_at : option instant;
  ne_failure_count : Z;
  ne_metadata_json : option string;
}.

Record RemoteVirtualNodeIdentity := MkRemoteVirtualNode {
  rv_id : string;
  rv_public_key : string;
  rv_kind : string;
  rv_status : string;
  rv_first_seen_at : option instant;
  rv_last_seen_at : option instant;
  rv_expires_at : option instant;
  rv_metadata_json : option string;
}.

Record PhysicalNodeInfoExchangeState := MkExchangeState {
  xs_remote_physical_node_id : string;
  xs_last_exchange_at : option instant;
  xs_last_request_sent_at : option instant;
  xs_last_response_received_at : option instant;
  xs_last_announce_received_at : option instant;
}.

(** A float is an IEEE double. *)
Record RttInfo := MkRttInfo {
  ri_remote_physical_node_id : string;
  ri_min_rtt_ms : spec_float;
  ri_max_rtt_ms : spec_float;
  ri_average_rtt_ms : spec_float;
  ri_observed_count : Z;
  ri_last_observed_at : instant;
}.

Record Database := MkDatabase {
  db_local_nodes : list LocalPhysicalNodeIdentity;
  db_virtual_nodes : list LocalVirtualNodeIdentity;
  db_remote_nodes : list RemotePhysicalNodeIdentity;
  db_remote_virtual_nodes : list RemoteVirtualNodeIdentity;
  db_endpoints : list NodeEndpoint;
  db_exchange_states : list PhysicalNodeInfoExchangeState;
  db_rtt_infos : list RttInfo;
}.

Definition empty_database : Database := MkDatabase [] [] [] [] [] [] [].

#[export] Instance remote_node_eta : Eta RemotePhysicalNodeIdentity := fun n =>
  MkRemoteNode (rn_id n) (rn_public_key n) (rn_display_name n) (rn_reachability_class n)
    (rn_relay_capable n) (rn_hole_punch_capable n) (rn_protocol_version n) (rn_status n)
    (rn_last_seen_at n) (rn_last_validated_at n) (rn_notes_json n).

#[export] Instance node_endpoint_eta : Eta NodeEndpoint := fun e =>
  MkNodeEndpoint (ne_id e) (ne_physical_node_hash_id e) (ne_transport e) (ne_host e) (ne_port e)
    (ne_priority e) (ne_is_active e) (ne_last_success_at e) (ne_last_failure_at e)
    (ne_failure_count e) (ne_metadata_json e).

#[export] Instance exchange_state_eta : Eta PhysicalNodeInfoExchangeState := fun x =>
  MkExchangeState (xs_remote_physical_node_id x) (xs_last_exchange_at x)
    (xs_last_request_sent_at x) (xs_last_response_received_at x) (xs_last_announce_received_at x).

#[export] Instance database_eta : Eta Database := fun d =>
  MkDatabase (db_local_nodes d) (db_virtual_nodes d) (db_remote_nodes d)
    (db_remote_virtual_nodes d) (db_endpoints d) (db_exchange_states d) (db_rtt_infos d).

(** A bound integer must fit SQLite's 64-bit INTEGER. *)
Definition check_integer (n : option Z) : res unit :=
  match n with
  | Some n =>
      require! (- 2 ^ 63 <=? n) && (n <? 2 ^ 63)
        else OtherError "OverflowError: Python int too large to convert to SQLite INTEGER" in Ok tt
  | None => Ok tt
  end.

(** [session.get(table, key)] over a column that is a key. *)
Definition find_row {A} (key : A -> string) (id : string) (rows : list A) : option A :=
  head (List.filter (fun r => bool_decide (key r = id)) rows).

(** The row of a key replaced by its changed version, or added at the end. *)
Definition put_row {A} (key : A -> string) (row : A) (rows : list A) : list A :=
  match find_row key (key row) rows with
  | Some _ => map (fun r => if bool_decide (key r = key row) then row else r) rows
  | None => rows ++ [row]
  end.

(** [a or b] for text columns *)
Definition or_text (a b : option string) : option string := if opt_truthy a then a else b.

(** ** Metadata *)

Section identity.
Context `{FloatText}.

(** The entries of new notes that replace older ones. *)
Definition is_note (value : json) : bool :=
  match value with
  | JNull => false
  | JStr s => str_truthy s
  | JArr l => match l with [] => false | _ => true end
  | _ => true
  end.

Definition _merge_notes_json (existing_notes_json new_notes_json : option string) : option string :=
  let existing_notes := CommonJson.load_json_object existing_notes_json in
  let new_notes := CommonJson.load_json_object new_notes_json in
  let merged_notes :=
    foldl (fun d p => if is_note p.2 then od_set p.1 p.2 d else d) existing_notes new_notes in
  match merged_notes with [] => None | _ => Some (dumps_in_order (JObj merged_notes)) end.

Definition _normalize_endpoint_metadata_json (endpoint_data : jdict) : option string :=
  match od_get "metadata" endpoint_data with
  | Some (JObj ((_ :: _) as metadata)) => Some (CommonJson.compact_json_text metadata)
  | _ =>
      match od_get "metadata_json" endpoint_data with
      | Some (JStr metadata_json) =>
          if str_truthy metadata_json then
            match CommonJson.load_json_object (Some metadata_json) with
            | [] => None
            | parsed => Some (CommonJson.compact_json_text parsed)
            end
          else None
      | _ => None
      end
  end.

(** ** Local identities *)

Definition _build_node_id (public_key : string) : string := sha512_hex public_key.
Definition _protect_private_key (private_key_pem : string) : string := private_key_pem.

Definition get_local_physical_node (db : Database) : option LocalPhysicalNodeIdentity :=
  head (py_sorted ln_created_at (db_local_nodes db)).

Definition _get_local_physical_node_id (db : Database) : option string :=
  ln_id <$> get_local_physical_node db.

(** [key_pair]: the private and the public key [generate_dilithium_key_pair] returns. *)
Definition ensure_local_physical_node (db : Database) (now : instant) (key_pair : string * string)
    : LocalPhysicalNodeIdentity * Database :=
  match get_local_physical_node db with
  | Some existing_node => (existing_node, db)
  | None =>
      let physical_node := MkLocalNode (_build_node_id key_pair.2) key_pair.2
        (_protect_private_key key_pair.1) "ml-dsa-65" "active" now in
      (physical_node, db <| db_local_nodes := db_local_nodes db ++ [physical_node] |>)
  end.

Definition create_local_virtual_node (db : Database) (now : instant) (key_pair : string * string)
    (kind owner_physical_node_id : string) (expires_at : option instant) (is_active : bool)
    (metadata_json : option string) : res (LocalVirtualNodeIdentity * Database) :=
  let virtual_node := MkLocalVirtualNode (_build_node_id key_pair.2) key_pair.2
    (_protect_private_key key_pair.1) kind owner_physical_node_id expires_at is_active
    metadata_json now in
  match find_row lv_id (lv_id virtual_node) (db_virtual_nodes db) with
  | Some _ => Raise (IntegrityError "id")
  | None => Ok (virtual_node, db <| db_virtual_nodes := db_virtual_nodes db ++ [virtual_node] |>)
  end.

Definition get_local_virtual_node_by_id (db : Database) (virtual_node_id : string)
    : option LocalVirtualNodeIdentity :=
  find_row lv_id virtual_node_id (db_virtual_nodes db).

Definition list_local_virtual_nodes (db : Database) (only_active : bool)
    : list LocalVirtualNodeIdentity :=
  py_sorted lv_created_at
    (List.filter (fun v => negb only_active || lv_is_active v) (db_virtual_nodes db)).

(** ** Remote virtual nodes *)

Definition get_remote_virtual_node_by_id (db : Database) (node_id : string)
    : option RemoteVirtualNodeIdentity :=
  find_row rv_id node_id (db_remote_virtual_nodes db).

(** A descending column: a null comes last. *)
Definition desc_key (t : option instant) : Z * Z :=
  match t with Some t => (0, - t) | None => (1, 0) end.

Definition list_remote_virtual_nodes (db : Database) (status : option string)
    : list RemoteVirtualNodeIdentity :=
  py_sorted (fun v => (desc_key (rv_last_seen_at v), rv_id v))
    (List.filter (fun v => negb (opt_truthy status) || bool_decide (Some (rv_status v) = status))
       (db_remote_virtual_nodes db)).

Definition upsert_remote_virtual_node (db : Database) (now : instant)
    (node_id public_key kind status : string) (expires_at : option instant)
    (metadata_json : option string) : RemoteVirtualNodeIdentity * Database :=
  let remote_node :=
    match get_remote_virtual_node_by_id db node_id with
    | None => MkRemoteVirtualNode node_id public_key kind status (Some now) (Some now) expires_at
                metadata_json
    | Some remote_node =>
        MkRemoteVirtualNode node_id public_key kind status (rv_first_seen_at remote_node) (Some now)
          expires_at (_merge_notes_json (rv_metadata_json remote_node) metadata_json)
    end in
  (remote_node, db <| db_remote_virtual_nodes :=
                        put_row rv_id remote_node (db_remote_virtual_nodes db) |>).

(** ** Remote physical nodes *)

Definition get_remote_physical_node_by_id (db : Database) (node_id : string)
    : option RemotePhysicalNodeIdentity :=
  find_row rn_id node_id (db_remote_nodes db).

Definition at_endpoint (node_id transport host : string) (port : Z) (e : NodeEndpoint) : bool :=
  bool_decide (ne_physical_node_hash_id e = node_id) && bool_decide (ne_transport e = transport)
  && bool_decide (ne_host e = host) && (ne_port e =? port).

Definition find_endpoint (db : Database) (node_id transport host : string) (port : Z)
    : option NodeEndpoint :=
  head (List.filter (at_endpoint node_id transport host port) (db_endpoints db)).

Definition replace_endpoint (e : NodeEndpoint) (endpoints : list NodeEndpoint)
    : list NodeEndpoint :=
  map (fun x => if bool_decide (ne_id x = ne_id e) then e else x) endpoints.

Definition next_endpoint_id (endpoints : list NodeEndpoint) : Z :=
  1 + foldr (fun e m => Z.max (ne_id e) m) 0 endpoints.

(** [priority if isinstance(priority, int) else ...] *)
Definition endpoint_priority (endpoint_data : jdict) (fallback : Z) : Z :=
  match json_pyint (default (JInt 0) (od_get "priority" endpoint_data)) with
  | Some priority => pyint_val priority
  | None => fallback
  end.

(** The loop of the two upserts over the endpoints given, in normalised form. The
    rows of the table as the transaction found it are searched, so an endpoint given
    twice and not yet stored is added twice. [changed] says what happens to a stored
    endpoint, [fresh] is a new one. *)
Fixpoint upsert_endpoints (changed : jdict -> NodeEndpoint -> NodeEndpoint)
    (fresh : jdict -> Z -> NodeEndpoint) (node_id : string) (stored : list NodeEndpoint)
    (acc : list NodeEndpoint) (endpoints : list jdict) : res (list NodeEndpoint) :=
  match endpoints with
  | [] => Ok acc
  | endpoint_data :: rest =>
      let transport := Endpoints.endpoint_str endpoint_data "transport" in
      let host := Endpoints.endpoint_str endpoint_data "host" in
      let port := Endpoints.endpoint_int endpoint_data "port" in
      let! _ := check_integer (Some port) in
      let! _ := check_integer (Some (endpoint_priority endpoint_data 0)) in
      match head (List.filter (at_endpoint node_id transport host port) stored) with
      | Some e =>
          upsert_endpoints changed fresh node_id stored
            (map (fun x => if bool_decide (ne_id x = ne_id e) then changed endpoint_data x else x) acc)
            rest
      | None =>
          upsert_endpoints changed fresh node_id stored
            (acc ++ [fresh endpoint_data (next_endpoint_id acc)]) rest
      end
  end.

Record NodeDescription := MkNodeDescription {
  nd_node_id : string;
  nd_public_key : string;
  nd_protocol_version : option string;
  nd_display_name : option string;
  nd_reachability_class : option string;
  nd_relay_capable : bool;
  nd_hole_punch_capable : bool;
  nd_notes_json : option string;
}.

(** The columns both upserts set on a stored node. *)
Definition describe (now : instant) (d : NodeDescription) (n : RemotePhysicalNodeIdentity)
    : RemotePhysicalNodeIdentity :=
  MkRemoteNode (rn_id n) (nd_public_key d) (or_text (nd_display_name d) (rn_display_name n))
    (or_text (nd_reachability_class d) (rn_reachability_class n)) (nd_relay_capable d)
    (nd_hole_punch_capable d) (or_text (nd_protocol_version d) (rn_protocol_version n))
    (rn_status n) (Some now) (rn_last_validated_at n)
    (_merge_notes_json (rn_notes_json n) (nd_notes_json d)).

Definition new_node (now : instant) (d : NodeDescription) (status : string)
    (last_validated_at : option instant) : RemotePhysicalNodeIdentity :=
  MkRemoteNode (nd_node_id d) (nd_public_key d) (nd_display_name d) (nd_reachability_class d)
    (nd_relay_capable d) (nd_hole_punch_capable d) (nd_protocol_version d) status (Some now)
    last_validated_at (nd_notes_json d).

Definition validated_node (now : instant) (d : NodeDescription) (status : string)
    (mark_validated : bool) (stored : option RemotePhysicalNodeIdentity)
    : RemotePhysicalNodeIdentity :=
  match stored with
  | None => new_node now d status (if mark_validated then Some now else None)
  | Some remote_node =>
      let remote_node := describe now d remote_node in
      if mark_validated
      then remote_node <| rn_status := status |> <| rn_last_validated_at := Some now |>
      else if bool_decide (rn_status remote_node <> "active")
      then remote_node <| rn_status := status |> else remote_node
  end.

Definition reached (now : instant) (endpoint_data : jdict) (e : NodeEndpoint) : NodeEndpoint :=
  MkNodeEndpoint (ne_id e) (ne_physical_node_hash_id e) (ne_transport e) (ne_host e) (ne_port e)
    (endpoint_priority endpoint_data (ne_priority e)) true (Some now) (ne_last_failure_at e) 0
    (or_text (_normalize_endpoint_metadata_json endpoint_data) (ne_metadata_json e)).

Definition fresh_endpoint (node_id : string) (is_active : bool) (last_success_at : option instant)
    (endpoint_data : jdict) (id : Z) : NodeEndpoint :=
  MkNodeEndpoint id node_id (Endpoints.endpoint_str endpoint_data "transport")
    (Endpoints.endpoint_str endpoint_data "host") (Endpoints.endpoint_int endpoint_data "port")
    (endpoint_priority endpoint_data 0) is_active last_success_at None 0
    (_normalize_endpoint_metadata_json endpoint_data).

Definition upsert_remote_physical_node (db : Database) (now : instant) (d : NodeDescription)
    (status : string) (endpoints : list jdict) (mark_validated : bool)
    : res (RemotePhysicalNodeIdentity * Database) :=
  let remote_node := validated_node now d status mark_validated
    (get_remote_physical_node_by_id db (nd_node_id d)) in
  let! rows := upsert_endpoints (reached now) (fresh_endpoint (nd_node_id d) true (Some now))
                 (nd_node_id d) (db_endpoints db) (db_endpoints db) endpoints in
  Ok (remote_node, db <| db_remote_nodes := put_row rn_id remote_node (db_remote_nodes db) |>
                      <| db_endpoints := rows |>).

Definition discovered_node (now : instant) (d : NodeDescription) (local_status : string)
    (stored : option RemotePhysicalNodeIdentity) : RemotePhysicalNodeIdentity :=
  match stored with
  | None => new_node now d local_status None
  | Some remote_node =>
      let remote_node := describe now d remote_node in
      if bool_decide (rn_status remote_node <> "active")
      then remote_node <| rn_status := local_status |> else remote_node
  end.

Definition mentioned (node_was_validated : bool) (endpoint_data : jdict) (e : NodeEndpoint)
    : NodeEndpoint :=
  MkNodeEndpoint (ne_id e) (ne_physical_node_hash_id e) (ne_transport e) (ne_host e) (ne_port e)
    (endpoint_priority endpoint_data (ne_priority e))
    (if node_was_validated then ne_is_active e else false) (ne_last_success_at e)
    (ne_last_failure_at e) (ne_failure_count e)
    (or_text (_normalize_endpoint_metadata_json endpoint_data) (ne_metadata_json e)).

Definition was_validated (stored : option RemotePhysicalNodeIdentity) : bool :=
  match stored with
  | Some n => bool_decide (rn_status n = "active") && bool_decide (is_Some (rn_last_validated_at n))
  | None => false
  end.

Definition upsert_discovered_remote_physical_node (db : Database) (now : instant)
    (d : NodeDescription) (endpoints : list jdict) (status : string)
    : res (RemotePhysicalNodeIdentity * Database) :=
  let local_status := if bool_decide (status = "active") then "discovered" else status in
  let stored := get_remote_physical_node_by_id db (nd_node_id d) in
  let remote_node := discovered_node now d local_status stored in
  let! rows := upsert_endpoints (mentioned (was_validated stored))
                 (fresh_endpoint (nd_node_id d) false None)
                 (nd_node_id d) (db_endpoints db) (db_endpoints db) endpoints in
  Ok (remote_node, db <| db_remote_nodes := put_row rn_id remote_node (db_remote_nodes db) |>
                      <| db_endpoints := rows |>).

(** ** Validation *)

Definition endpoint_failure_threshold : Z := 3.

Definition mark_remote_physical_node_validated (db : Database) (now : instant)
    (node_id transport host : string) (port : Z)
    : res (option RemotePhysicalNodeIdentity * Database) :=
  match get_remote_physical_node_by_id db node_id with
  | None => Ok (None, db)
  | Some remote_node =>
      let remote_node := remote_node <| rn_status := "active" |> <| rn_last_seen_at := Some now |>
        <| rn_last_validated_at := Some now |> in
      let! _ := check_integer (Some port) in
      let endpoints :=
        match find_endpoint db node_id transport host port with
        | Some e => replace_endpoint (e <| ne_is_active := true |> <| ne_last_success_at := Some now |>
                      <| ne_failure_count := 0 |>) (db_endpoints db)
        | None => db_endpoints db
        end in
      Ok (Some remote_node,
          db <| db_remote_nodes := put_row rn_id remote_node (db_remote_nodes db) |>
             <| db_endpoints := endpoints |>)
  end.

Definition mark_remote_physical_node_validation_failure (db : Database) (now : instant)
    (node_id transport host : string) (port : Z)
    : res (option RemotePhysicalNodeIdentity * Database) :=
  match get_remote_physical_node_by_id db node_id with
  | None => Ok (None, db)
  | Some remote_node =>
      let! _ := check_integer (Some port) in
      match find_endpoint db node_id transport host port with
      | Some e =>
          let failure_count := ne_failure_count e + 1 in
          Ok (Some remote_node,
              db <| db_endpoints :=
                      replace_endpoint (e <| ne_last_failure_at := Some now |>
                        <| ne_failure_count := failure_count |>
                        <| ne_is_active := failure_count <? endpoint_failure_threshold |>)
                        (db_endpoints db) |>)
      | None => Ok (Some remote_node, db)
      end
  end.

(** ** Queries *)

Definition endpoint_rank (e : NodeEndpoint) : Z * (Z * (Z * ((Z * Z) * Z))) :=
  (if ne_is_active e then 0 else 1,
   (ne_priority e, (ne_failure_count e, (desc_key (ne_last_success_at e), ne_id e)))).

Definition list_remote_physical_node_endpoints (db : Database) (node_id : string)
    (only_active : bool) : list NodeEndpoint :=
  py_sorted endpoint_rank
    (List.filter (fun e => bool_decide (ne_physical_node_hash_id e = node_id)
                           && (negb only_active || ne_is_active e)) (db_endpoints db)).

Definition find_remote_physical_node_id_by_endpoint (db : Database) (transport host : string)
    (port : Z) : res (option string) :=
  let! _ := check_integer (Some port) in
  Ok (ne_physical_node_hash_id <$>
    head (py_sorted (fun e => (desc_key (ne_last_success_at e), ne_id e))
      (List.filter (fun e => bool_decide (ne_transport e = transport)
                             && bool_decide (ne_host e = host) && (ne_port e =? port)
                             && ne_is_active e) (db_endpoints db)))).

(** [_exclude_local_physical_node] *)
Definition not_local (db : Database) (n : RemotePhysicalNodeIdentity) : bool :=
  match _get_local_physical_node_id db with
  | None => true
  | Some local_node_id => bool_decide (rn_id n <> local_node_id)
  end.

Definition has_endpoint (db : Database) (p : NodeEndpoint -> bool) (n : RemotePhysicalNodeIdentity)
    : bool :=
  existsb (fun e => bool_decide (ne_physical_node_hash_id e = rn_id n) && p e) (db_endpoints db).

Definition validated_active (n : RemotePhysicalNodeIdentity) : bool :=
  bool_decide (rn_status n = "active") && bool_decide (is_Some (rn_last_validated_at n)).

(** [.order_by(func.random()).limit(limit)], where [shuffle] is the order drawn;
    a negative limit is no limit in SQLite. *)
Definition random_limit {A} (shuffle : list A -> list A) (limit : Z) (rows : list A) : list A :=
  if limit <? 0 then shuffle rows else take (Z.to_nat limit) (shuffle rows).

Definition list_remote_physical_nodes_for_validation (db : Database)
    (shuffle : list RemotePhysicalNodeIdentity -> list RemotePhysicalNodeIdentity) (limit : Z)
    (failed_before : option instant) : list (string * string) :=
  (fun n => (rn_id n, rn_public_key n)) <$>
  random_limit shuffle limit
    (List.filter (fun n =>
       bool_decide (rn_last_validated_at n = None) && bool_decide (rn_status n <> "active")
       && has_endpoint db (fun e =>
            match failed_before, ne_last_failure_at e with
            | Some before, Some failed => failed <=? before
            | _, _ => true
            end) n
       && not_local db n) (db_remote_nodes db)).

Definition list_remote_physical_nodes_for_info_exchange (db : Database)
    (shuffle : list RemotePhysicalNodeIdentity -> list RemotePhysicalNodeIdentity) (limit : Z)
    : list string :=
  rn_id <$> random_limit shuffle limit
    (List.filter (fun n => validated_active n && not_local db n) (db_remote_nodes db)).

Definition list_remote_physical_nodes_for_ping (db : Database)
    (shuffle : list RemotePhysicalNodeIdentity -> list RemotePhysicalNodeIdentity) (limit : Z)
    : list string :=
  rn_id <$> random_limit shuffle limit
    (List.filter (fun n => validated_active n && has_endpoint db ne_is_active n && not_local db n)
       (db_remote_nodes db)).

Definition list_remote_physical_nodes_for_relay_registration (db : Database)
    (shuffle : list RemotePhysicalNodeIdentity -> list RemotePhysicalNodeIdentity) (limit : Z)
    : list string :=
  rn_id <$> random_limit shuffle limit
    (List.filter (fun n => validated_active n && rn_relay_capable n
       && has_endpoint db (fun e => ne_is_active e && bool_decide (ne_transport e = "tcp")) n
       && not_local db n) (db_remote_nodes db)).

(** [40.0] *)
Definition fallback_rtt_ms : spec_float := S754_finite false 5629499534213120 (-47).

(** The join with the round-trip times: a node without one appears once. *)
Definition rtt_of (db : Database) (n : RemotePhysicalNodeIdentity)
    : list (RemotePhysicalNodeIdentity * option RttInfo) :=
  match List.filter (fun i => bool_decide (ri_remote_physical_node_id i = rn_id n)) (db_rtt_infos db) with
  | [] => [(n, None)]
  | infos => (fun i => (n, Some i)) <$> infos
  end.

Definition route_candidate (db : Database) (n : RemotePhysicalNodeIdentity) : bool :=
  validated_active n && has_endpoint db ne_is_active n && not_local db n.

Definition list_remote_physical_nodes_for_random_walk_ttl (db : Database)
    (shuffle : list (RemotePhysicalNodeIdentity * option RttInfo)
               -> list (RemotePhysicalNodeIdentity * option RttInfo)) (limit : Z)
    : list (string * string * spec_float) :=
  (fun '(n, i) => (rn_id n, rn_public_key n,
                   match i with Some i => ri_average_rtt_ms i | None => fallback_rtt_ms end)) <$>
  random_limit shuffle limit
    (List.filter (route_candidate db) (db_remote_nodes db) ≫= rtt_of db).

(** ** Information exchange *)

Definition _get_or_create_exchange_state (db : Database) (remote_physical_node_id : string)
    : PhysicalNodeInfoExchangeState :=
  match find_row xs_remote_physical_node_id remote_physical_node_id (db_exchange_states db) with
  | Some state => state
  | None => MkExchangeState remote_physical_node_id None None None None
  end.

Definition put_exchange_state (db : Database) (x : PhysicalNodeInfoExchangeState) : Database :=
  db <| db_exchange_states := put_row xs_remote_physical_node_id x (db_exchange_states db) |>.

Definition was_physical_node_info_exchange_requested_after (db : Database)
    (remote_physical_node_id : string) (threshold : instant) : bool :=
  match find_row xs_remote_physical_node_id remote_physical_node_id (db_exchange_states db)
        ≫= xs_last_request_sent_at with
  | Some last_request_sent_at => threshold <=? last_request_sent_at
  | None => false
  end.

Definition mark_physical_node_info_exchange_request_sent (db : Database) (now : instant)
    (remote_physical_node_id : string) : Database :=
  put_exchange_state db (_get_or_create_exchange_state db remote_physical_node_id
    <| xs_last_request_sent_at := Some now |> <| xs_last_exchange_at := Some now |>).

Definition mark_physical_node_info_exchange_response_received (db : Database) (now : instant)
    (remote_physical_node_id : string) : Database :=
  put_exchange_state db (_get_or_create_exchange_state db remote_physical_node_id
    <| xs_last_response_received_at := Some now |> <| xs_last_exchange_at := Some now |>).

Definition mark_physical_node_info_exchange_announce_received (db : Database) (now : instant)
    (remote_physical_node_id : string) : Database :=
  put_exchange_state db (_get_or_create_exchange_state db remote_physical_node_id
    <| xs_last_announce_received_at := Some now |> <| xs_last_exchange_at := Some now |>).

(** ** Round-trip times *)

Definition upsert_rtt_info (db : Database) (now : instant) (remote_physical_node_id : string)
    (observed_rtt_ms : spec_float) : res (option RttInfo * Database) :=
  require! negb (float_ltb observed_rtt_ms (S754_zero false))
    else ValueError "The observed RTT cannot be negative." in
  match get_remote_physical_node_by_id db remote_physical_node_id with
  | None => Ok (None, db)
  | Some _ =>
      let rtt_info :=
        match find_row ri_remote_physical_node_id remote_physical_node_id (db_rtt_infos db) with
        | None => MkRttInfo remote_physical_node_id observed_rtt_ms observed_rtt_ms observed_rtt_ms
                    1 now
        | Some i =>
            let current_total := float_mul (ri_average_rtt_ms i) (float_of_int (ri_observed_count i)) in
            let new_count := ri_observed_count i + 1 in
            MkRttInfo remote_physical_node_id (py_min (ri_min_rtt_ms i) observed_rtt_ms)
              (py_max (ri_max_rtt_ms i) observed_rtt_ms)
              (float_div (float_add current_total observed_rtt_ms) (float_of_int new_count))
              new_count now
        end in
      Ok (Some rtt_info, db <| db_rtt_infos :=
                                put_row ri_remote_physical_node_id rtt_info (db_rtt_infos db) |>)
  end.

(** ** The node's record for the DHT *)

(** [isoformat()] of a time read from SQLite, which keeps no time zone. *)
Definition isoformat_naive (t : instant) : string :=
  String.substring 0 (String.length (isoformat t) - 6) (isoformat t).

Definition note_text (notes : jdict) (key : string) : option string :=
  match od_get key notes with Some (JStr s) => if str_truthy s then Some s else None | _ => None end.

Definition note_bool (notes : jdict) (key : string) (fallback : bool) : bool :=
  match od_get key notes with Some (JBool b) => b | _ => fallback end.

(** The list of the strings of [notes.get("dpnt_feature_flags", [])] *)
Definition note_flags (notes : jdict) : list string :=
  match od_get "dpnt_feature_flags" notes with
  | Some (JArr items) => omap (fun item => match item with JStr s => Some s | _ => None end) items
  | _ => []
  end.

(** The arguments of the publication: logical key and record. *)
Definition build_dpnt_publish_request_for_remote_physical_node (db : Database) (node_id : string)
    : option (string * string) :=
  match get_remote_physical_node_by_id db node_id with
  | None => None
  | Some n =>
      let notes := CommonJson.load_json_object (rn_notes_json n) in
      let signed_endpoints :=
        Endpoints.canonical_endpoint_list (default JNull (od_get "advertised_endpoints" notes)) in
      match note_text notes "dpnt_signature", rn_last_validated_at n, signed_endpoints with
      | Some dpnt_signature, Some last_validated_at, _ :: _ =>
          let payload := MkDpnt (rn_public_key n) signed_endpoints
            (py_sorted id (remove_dups (omap (fun endpoint =>
               match od_get "transport" endpoint with Some (JStr t) => Some t | _ => None end)
               signed_endpoints)))
            (default (if opt_truthy (rn_reachability_class n)
                      then default "" (rn_reachability_class n) else "unknown")
               (note_text notes "dpnt_reachability_class"))
            (note_bool notes "dpnt_relay_capable" (rn_relay_capable n))
            (note_bool notes "dpnt_hole_punch_capable" (rn_hole_punch_capable n))
            (default (if opt_truthy (rn_protocol_version n)
                      then default "" (rn_protocol_version n) else "1")
               (note_text notes "dpnt_protocol_version"))
            (note_flags notes) (isoformat_naive last_validated_at)
            (default (rn_status n) (note_text notes "dpnt_status")) dpnt_signature None in
          Some (rn_id n, serialize_record (Dpnt payload))
      | _, _, _ => None
      end
  end.
End identity.

(** ** Rows under a key *)

Section rows.
Context {A : Type} (key : A -> string).

Lemma find_row_Some id rows r : find_row key id rows = Some r -> r ∈ rows /\ key r = id.
Proof.
  unfold find_row. induction rows as [|x rows IH]; cbn; [done|]. case_bool_decide as Hx; cbn.
  - intros [= ->]. split; [by left|done].
  - intros Hr%IH. destruct Hr. split; [by right|done].
Qed.

Lemma find_row_None id rows : find_row key id rows = None -> id ∉ (key <$> rows).
Proof.
  unfold find_row. induction rows as [|x rows IH]; cbn; [intros _ Hin; by apply elem_of_nil in Hin|].
  case_bool_decide as Hx; cbn; [done|]. intros Hr%IH. apply not_elem_of_cons. by split.
Qed.

Lemma find_row_unique id rows r :
  NoDup (key <$> rows) -> r ∈ rows -> key r = id -> find_row key id rows = Some r.
Proof.
  unfold find_row. induction rows as [|x rows IH]; cbn; intros Hnd Hin Hid; [by apply elem_of_nil in Hin|].
  apply NoDup_cons in Hnd as [Hx Hnd]. apply elem_of_cons in Hin as [-> |Hin].
  - by rewrite bool_decide_true.
  - rewrite bool_decide_false; [auto|]. intros Heq. apply Hx. rewrite Heq, <- Hid.
    by apply list_elem_of_fmap_2.
Qed.

Lemma put_row_keys row rows :
  key <$> put_row key row rows =
  if decide (key row ∈ (key <$> rows)) then key <$> rows else (key <$> rows) ++ [key row].
Proof.
  unfold put_row. destruct (find_row key (key row) rows) as [r|] eqn:Hf.
  - apply find_row_Some in Hf as [Hin Hk]. rewrite decide_True by
      (rewrite <- Hk; by apply list_elem_of_fmap_2).
    change (map ?f rows) with (f <$> rows). rewrite <- list_fmap_compose. apply list_fmap_ext.
    intros i x _. cbn. by case_bool_decide.
  - apply find_row_None in Hf. rewrite decide_False by done. by rewrite fmap_app.
Qed.

Lemma put_row_NoDup row rows : NoDup (key <$> rows) -> NoDup (key <$> put_row key row rows).
Proof.
  intros Hnd. rewrite put_row_keys. case_decide; [done|]. apply NoDup_app.
  split; [done|]. split; [set_solver|apply NoDup_singleton].
Qed.

Lemma elem_of_put_row row rows x :
  x ∈ put_row key row rows -> x = row \/ (x ∈ rows /\ key x <> key row).
Proof.
  unfold put_row. destruct (find_row key (key row) rows) eqn:Hf.
  - intros (y & -> & Hy)%list_elem_of_fmap. case_bool_decide; [by left|by right].
  - intros [Hx|Hx%list_elem_of_singleton]%elem_of_app; [|by left]. right. split; [done|].
    intros Heq. apply find_row_None in Hf. apply Hf. rewrite <- Heq. by apply list_elem_of_fmap_2.
Qed.

Lemma put_row_new row rows : row ∈ put_row key row rows.
Proof.
  unfold put_row. destruct (find_row key (key row) rows) as [r|] eqn:Hf.
  - apply find_row_Some in Hf as [Hin Hk]. apply list_elem_of_fmap. exists r. split; [|done].
    by rewrite bool_decide_true.
  - apply elem_of_app. right. by apply list_elem_of_singleton.
Qed.

Lemma put_row_other row rows x : x ∈ rows -> key x <> key row -> x ∈ put_row key row rows.
Proof.
  intros Hx Hne. unfold put_row. destruct (find_row key (key row) rows).
  - apply list_elem_of_fmap. exists x. split; [|done]. by rewrite bool_decide_false.
  - apply elem_of_app. by left.
Qed.
End rows.

(** ** The endpoints an upsert leaves *)

Lemma next_endpoint_id_bound l : Forall (fun e => ne_id e < next_endpoint_id l) l.
Proof.
  unfold next_endpoint_id.
  assert (Forall (fun e => ne_id e <= foldr (fun e m => Z.max (ne_id e) m) 0 l) l) as Hl.
  { induction l as [|e l IH]; cbn; constructor; [lia|]. eapply Forall_impl; [exact IH|]. cbn. lia. }
  eapply Forall_impl; [exact Hl|]. cbn. lia.
Qed.

Definition ids_sorted (l : list NodeEndpoint) : Prop := StronglySorted Z.lt (ne_id <$> l).

Lemma ids_sorted_snoc l e : ids_sorted l -> next_endpoint_id l <= ne_id e -> ids_sorted (l ++ [e]).
Proof.
  intros Hl He. unfold ids_sorted. rewrite fmap_app. apply StronglySorted_app_2; [|done|repeat constructor].
  intros x y Hx Hy. apply list_elem_of_fmap in Hx as (a & -> & Ha).
  apply list_elem_of_singleton in Hy as ->. pose proof (next_endpoint_id_bound l) as Hb.
  rewrite Forall_forall in Hb. specialize (Hb a Ha). cbn in *. lia.
Qed.

Lemma sorted_ids_lookup l i j a b :
  ids_sorted l -> l !! i = Some a -> l !! j = Some b -> ne_id a = ne_id b -> i = j.
Proof.
  intros Hl Ha Hb Hid. apply (NoDup_lookup (ne_id <$> l) i j (ne_id a)).
  - unfold ids_sorted in Hl. clear -Hl. induction Hl as [|x k Hk IH Hx]; constructor; [|done].
    rewrite Forall_forall in Hx. intros Hin. specialize (Hx x Hin). lia.
  - by rewrite list_lookup_fmap, Ha.
  - by rewrite list_lookup_fmap, Hb, Hid.
Qed.

Section loop.
Context (changed : jdict -> NodeEndpoint -> NodeEndpoint) (fresh : jdict -> Z -> NodeEndpoint).
Context (node_id : string) (stored : list NodeEndpoint).
Context (changed_id : forall d e, ne_id (changed d e) = ne_id e).
Context (fresh_id : forall d i, ne_id (fresh d i) = i).

Definition change_row (d : jdict) (id : Z) (x : NodeEndpoint) : NodeEndpoint :=
  if bool_decide (ne_id x = id) then changed d x else x.

Lemma change_row_ids d id (l : list NodeEndpoint) : ne_id <$> (change_row d id <$> l) = ne_id <$> l.
Proof using changed_id.
  rewrite <- list_fmap_compose. apply list_fmap_ext. intros i x _. cbn. unfold change_row.
  by case_bool_decide.
Qed.

Lemma upsert_endpoints_sorted acc endpoints rows :
  upsert_endpoints changed fresh node_id stored acc endpoints = Ok rows ->
  ids_sorted acc -> ids_sorted rows.
Proof using changed_id fresh_id.
  revert acc. induction endpoints as [|d endpoints IH]; intros acc; cbn [upsert_endpoints].
  - by intros [= ->].
  - cbv zeta. intros Hu Hacc. destruct_res. case_match eqn:Hh; eapply IH; eauto.
    + unfold ids_sorted. change (map ?f acc) with (change_row d (ne_id n) <$> acc).
      by rewrite change_row_ids.
    + apply ids_sorted_snoc; [done|]. by rewrite fresh_id.
Qed.

(** Stored rows change by [R], new rows have [F]. *)
Context (R : relation NodeEndpoint) (F : NodeEndpoint -> Prop).
Context (R_refl : forall e, R e e) (R_trans : forall a b c, R a b -> R b c -> R a c).
Context (R_keys : forall a b, R a b -> ne_id b = ne_id a /\
  ne_physical_node_hash_id b = ne_physical_node_hash_id a).
Context (R_changed : forall d e, ne_physical_node_hash_id e = node_id -> R e (changed d e)).
Context (F_changed : forall d e, F e -> F (changed d e)) (F_fresh : forall d i, F (fresh d i)).

Lemma change_old d e (old : list NodeEndpoint) :
  ids_sorted stored -> e ∈ stored -> ne_physical_node_hash_id e = node_id ->
  Forall2 R stored old -> Forall2 R stored (change_row d (ne_id e) <$> old).
Proof using R_trans R_keys R_changed.
  intros Hs He Hnode Hold. apply Forall2_fmap_r. apply Forall2_same_length_lookup_2.
  { by apply Forall2_length in Hold. }
  intros i b o Hb Ho. pose proof (Forall2_lookup_lr _ _ _ _ _ _ Hold Hb Ho) as HR.
  cbn. unfold change_row. case_bool_decide as Hid; [|done].
  destruct (R_keys b o HR) as [Hid' Hh]. assert (b = e) as ->.
  { apply list_elem_of_lookup in He as [j Hj].
    assert (i = j) as ->; [|congruence]. apply (sorted_ids_lookup stored i j b e); congruence. }
  eapply R_trans; [exact HR|]. apply R_changed. congruence.
Qed.

Lemma upsert_endpoints_rows endpoints rows :
  upsert_endpoints changed fresh node_id stored stored endpoints = Ok rows -> ids_sorted stored ->
  exists old new, rows = old ++ new /\ Forall2 R stored old /\ Forall F new.
Proof using R_refl R_trans R_keys R_changed F_changed F_fresh.
  intros Hu Hs.
  cut (forall acc, upsert_endpoints changed fresh node_id stored acc endpoints = Ok rows ->
    (exists old new, acc = old ++ new /\ Forall2 R stored old /\ Forall F new) ->
    exists old new, rows = old ++ new /\ Forall2 R stored old /\ Forall F new).
  { intros Hcut. apply (Hcut stored Hu). exists stored, []. rewrite app_nil_r.
    split; [done|]. split; [|done]. clear -R_refl. by induction stored; constructor. }
  clear Hu. induction endpoints as [|d endpoints IH]; intros acc Hu (old & new & -> & Hold & Hnew);
    cbn [upsert_endpoints] in Hu.
  - apply Ok_inj in Hu as <-. by exists old, new.
  - cbv zeta in Hu. destruct_res. case_match eqn:Hh; apply (IH _ Hu).
    + apply head_Some_elem_of, list_elem_of_In, filter_In in Hh as [He Hat].
      apply list_elem_of_In in He. unfold at_endpoint in Hat. rewrite !andb_true_iff in Hat.
      destruct Hat as [[[Hnode _] _] _]. apply bool_decide_eq_true in Hnode.
      exists (change_row d (ne_id n) <$> old), (change_row d (ne_id n) <$> new).
      split; [apply fmap_app|]. split; [by apply change_old|].
      apply Forall_fmap. eapply Forall_impl; [exact Hnew|]. intros x Hx. cbn. unfold change_row.
      case_bool_decide; auto.
    + exists old, (new ++ [fresh d (next_endpoint_id (old ++ new))]). rewrite app_assoc.
      split; [done|]. split; [done|]. apply Forall_app. split; [done|]. by constructor.
Qed.
End loop.

(** ** The invariant of the tables *)

Definition endpoint_ok (ids : list string) (e : NodeEndpoint) : Prop :=
  ne_physical_node_hash_id e ∈ ids /\ 0 <= ne_failure_count e /\
  (ne_is_active e = true -> ne_failure_count e < endpoint_failure_threshold).

Record db_wf (db : Database) : Prop := {
  wf_local_single : (length (db_local_nodes db) <= 1)%nat;
  wf_local_id : Forall (fun n => ln_id n = _build_node_id (ln_public_key n)) (db_local_nodes db);
  wf_virtual : NoDup (lv_id <$> db_virtual_nodes db);
  wf_virtual_id : Forall (fun v => lv_id v = _build_node_id (lv_public_key v)) (db_virtual_nodes db);
  wf_nodes : NoDup (rn_id <$> db_remote_nodes db);
  wf_remote_virtual : NoDup (rv_id <$> db_remote_virtual_nodes db);
  wf_endpoint_ids : ids_sorted (db_endpoints db);
  wf_endpoints : Forall (endpoint_ok (rn_id <$> db_remote_nodes db)) (db_endpoints db);
  wf_exchange : NoDup (xs_remote_physical_node_id <$> db_exchange_states db);
  wf_rtt : NoDup (ri_remote_physical_node_id <$> db_rtt_infos db);
  wf_rtt_rows : Forall (fun i => 1 <= ri_observed_count i /\
    ri_remote_physical_node_id i ∈ (rn_id <$> db_remote_nodes db)) (db_rtt_infos db);
}.

Section invariant.
Context `{FloatText}.

(** One operation of the service. *)
Inductive identity_step (db : Database) : Database -> Prop :=
| step_ensure_local now keys : identity_step db (ensure_local_physical_node db now keys).2
| step_virtual now keys kind owner ex act md v db' :
    create_local_virtual_node db now keys kind owner ex act md = Ok (v, db') -> identity_step db db'
| step_remote_virtual now id pk kind status ex md :
    identity_step db (upsert_remote_virtual_node db now id pk kind status ex md).2
| step_validated now d status eps mark n db' :
    upsert_remote_physical_node db now d status eps mark = Ok (n, db') -> identity_step db db'
| step_discovered now d eps status n db' :
    upsert_discovered_remote_physical_node db now d eps status = Ok (n, db') -> identity_step db db'
| step_mark_validated now id t h p n db' :
    mark_remote_physical_node_validated db now id t h p = Ok (n, db') -> identity_step db db'
| step_mark_failure now id t h p n db' :
    mark_remote_physical_node_validation_failure db now id t h p = Ok (n, db') -> identity_step db db'
| step_request now id : identity_step db (mark_physical_node_info_exchange_request_sent db now id)
| step_response now id :
    identity_step db (mark_physical_node_info_exchange_response_received db now id)
| step_announce now id :
    identity_step db (mark_physical_node_info_exchange_announce_received db now id)
| step_rtt now id rtt i db' :
    upsert_rtt_info db now id rtt = Ok (i, db') -> identity_step db db'.

Lemma endpoint_ok_mono (ids ids' : list string) e :
  ids ⊆ ids' -> endpoint_ok ids e -> endpoint_ok ids' e.
Proof. intros Hs (H1 & H2). split; [by apply Hs|done]. Qed.

Lemma put_row_keys_mono {A} (key : A -> string) row rows :
  (key <$> rows) ⊆ (key <$> put_row key row rows) /\ key row ∈ (key <$> put_row key row rows).
Proof.
  split; [|apply list_elem_of_fmap_2, put_row_new]. rewrite put_row_keys.
  case_decide; [done|]. intros x Hx. apply elem_of_app. by left.
Qed.

(** The two upserts: the node is stored and its endpoints go through the loop. *)
Lemma upsert_wf db node rows changed fresh endpoints :
  db_wf db ->
  upsert_endpoints changed fresh (rn_id node) (db_endpoints db) (db_endpoints db) endpoints = Ok rows ->
  (forall d e, ne_id (changed d e) = ne_id e) -> (forall d i, ne_id (fresh d i) = i) ->
  (forall ids d e, endpoint_ok ids e -> endpoint_ok ids (changed d e)) ->
  (forall ids d i, rn_id node ∈ ids -> endpoint_ok ids (fresh d i)) ->
  db_wf (db <| db_remote_nodes := put_row rn_id node (db_remote_nodes db) |>
            <| db_endpoints := rows |>).
Proof.
  intros Hwf Hrows Hcid Hfid Hchanged Hfresh.
  destruct (put_row_keys_mono rn_id node (db_remote_nodes db)) as [Hmono Hin].
  set (ids := rn_id <$> put_row rn_id node (db_remote_nodes db)) in *.
  assert (Forall (endpoint_ok ids) rows) as Hall.
  { revert Hrows. generalize (db_endpoints db) at 1 as stored. intros stored.
    assert (Forall (endpoint_ok ids) (db_endpoints db)) as Hacc.
    { eapply Forall_impl; [apply Hwf|]. intros e. by apply endpoint_ok_mono. }
    revert Hacc. generalize (db_endpoints db) as acc.
    induction endpoints as [|d endpoints IH]; intros acc Hacc Hu; cbn [upsert_endpoints] in Hu.
    - by apply Ok_inj in Hu as <-.
    - cbv zeta in Hu. destruct_res. case_match; (eapply IH; [|exact Hu]).
      + apply Forall_fmap. eapply Forall_impl; [exact Hacc|]. intros x Hx. cbn.
        case_bool_decide; auto.
      + apply Forall_app. split; [done|]. constructor; [by apply Hfresh|done]. }
  destruct Hwf. constructor; cbn; try done.
  - by apply put_row_NoDup.
  - by eapply upsert_endpoints_sorted.
  - eapply Forall_impl; [done|]. cbn. intros i [Hc Hn]. split; [done|by apply Hmono].
Qed.

Lemma replace_endpoint_wf db e e' :
  db_wf db -> e ∈ db_endpoints db -> ne_id e' = ne_id e ->
  endpoint_ok (rn_id <$> db_remote_nodes db) e' ->
  db_wf (db <| db_endpoints := replace_endpoint e' (db_endpoints db) |>).
Proof.
  intros Hwf He Hid Hok. destruct Hwf. constructor; cbn; try done.
  - unfold ids_sorted, replace_endpoint. change (map ?f ?l) with (f <$> l).
    rewrite <- list_fmap_compose. rewrite (list_fmap_ext _ ne_id); [done|].
    intros i x _. cbn. by case_bool_decide.
  - apply Forall_fmap. eapply Forall_impl; [done|]. intros x Hx. cbn. by case_bool_decide.
Qed.

Lemma put_node_wf db node :
  db_wf db -> db_wf (db <| db_remote_nodes := put_row rn_id node (db_remote_nodes db) |>).
Proof.
  intros Hwf. destruct (put_row_keys_mono rn_id node (db_remote_nodes db)) as [Hmono _].
  destruct Hwf. constructor; cbn; try done.
  - by apply put_row_NoDup.
  - eapply Forall_impl; [done|]. intros e. by apply endpoint_ok_mono.
  - eapply Forall_impl; [done|]. cbn. intros i [Hc Hn]. split; [done|by apply Hmono].
Qed.

Lemma ensure_local_wf db now keys : db_wf db -> db_wf (ensure_local_physical_node db now keys).2.
Proof.
  intros Hwf. unfold ensure_local_physical_node, get_local_physical_node.
  destruct (py_sorted ln_created_at (db_local_nodes db)) as [|n l] eqn:Hs; [|done].
  assert (db_local_nodes db = []) as Hnil.
  { apply length_zero_iff_nil. by rewrite <- (length_py_sorted ln_created_at), Hs. }
  destruct Hwf. constructor; cbn; rewrite ?Hnil; try done. by constructor.
Qed.

Lemma create_virtual_wf db now keys kind owner ex act md v db' :
  db_wf db -> create_local_virtual_node db now keys kind owner ex act md = Ok (v, db') -> db_wf db'.
Proof.
  intros Hwf. unfold create_local_virtual_node. cbv zeta. case_match eqn:Hf; [done|].
  intros [= _ <-]. apply find_row_None in Hf. destruct Hwf. constructor; cbn; try done.
  - rewrite fmap_app. apply NoDup_app. split; [done|]. split; [set_solver|apply NoDup_singleton].
  - apply Forall_app. split; [done|]. by constructor.
Qed.

Lemma find_endpoint_Some db id t h p e :
  find_endpoint db id t h p = Some e -> e ∈ db_endpoints db.
Proof.
  intros He%head_Some_elem_of. apply list_elem_of_In, filter_In in He as [He _].
  by apply list_elem_of_In.
Qed.

Lemma validated_node_id now d status mark db :
  rn_id (validated_node now d status mark (get_remote_physical_node_by_id db (nd_node_id d)))
  = nd_node_id d.
Proof.
  unfold validated_node, get_remote_physical_node_by_id. destruct (find_row _ _ _) eqn:Hf; [|done].
  apply find_row_Some in Hf as [_ Hf]. by repeat case_match.
Qed.

Lemma discovered_node_id now d status db :
  rn_id (discovered_node now d status (get_remote_physical_node_by_id db (nd_node_id d)))
  = nd_node_id d.
Proof.
  unfold discovered_node, get_remote_physical_node_by_id. destruct (find_row _ _ _) eqn:Hf; [|done].
  apply find_row_Some in Hf as [_ Hf]. by repeat case_match.
Qed.

Lemma upsert_remote_wf db now d status eps mark n db' :
  db_wf db -> upsert_remote_physical_node db now d status eps mark = Ok (n, db') -> db_wf db'.
Proof.
  intros Hwf Hu. unfold upsert_remote_physical_node in Hu. cbv zeta in Hu. destruct_res.
  eapply upsert_wf; [done|rewrite validated_node_id; eassumption|done|done| |].
  - intros ids dd e (H1 & H2 & H3). split; [done|]. cbn. unfold endpoint_failure_threshold. lia.
  - rewrite validated_node_id. intros ids dd i Hin. split; [done|]. cbn.
    unfold endpoint_failure_threshold. lia.
Qed.

Lemma upsert_discovered_wf db now d eps status n db' :
  db_wf db -> upsert_discovered_remote_physical_node db now d eps status = Ok (n, db') -> db_wf db'.
Proof.
  intros Hwf Hu. unfold upsert_discovered_remote_physical_node in Hu. cbv zeta in Hu. destruct_res.
  eapply upsert_wf; [done|rewrite discovered_node_id; eassumption|done|done| |].
  - intros ids dd e (H1 & H2 & H3). split; [done|]. cbn. split; [done|]. by case_match.
  - rewrite discovered_node_id. intros ids dd i Hin. by split.
Qed.

Lemma mark_validated_wf db now id t h p n db' :
  db_wf db -> mark_remote_physical_node_validated db now id t h p = Ok (n, db') -> db_wf db'.
Proof.
  intros Hwf Hm. unfold mark_remote_physical_node_validated in Hm. case_match; [|by destruct_res].
  cbv zeta in Hm. destruct_res. case_match eqn:He; [|by apply (put_node_wf db)].
  pose proof (find_endpoint_Some _ _ _ _ _ _ He) as Hin.
  match goal with |- db_wf (?d <| db_endpoints := replace_endpoint ?e' _ |>) =>
    apply (replace_endpoint_wf d n e'); [by apply put_node_wf|exact Hin|done|] end.
  pose proof (wf_endpoints db Hwf) as Heps. rewrite Forall_forall in Heps.
  destruct (Heps _ Hin) as (H1 & _ & _). split; [|cbn; unfold endpoint_failure_threshold; lia].
  by apply put_row_keys_mono.
Qed.

Lemma mark_failure_wf db now id t h p n db' :
  db_wf db -> mark_remote_physical_node_validation_failure db now id t h p = Ok (n, db') -> db_wf db'.
Proof.
  intros Hwf Hm. unfold mark_remote_physical_node_validation_failure in Hm.
  case_match; [|by destruct_res].
  cbv zeta in Hm. destruct_res. case_match eqn:He; destruct_res; [|done].
  pose proof (find_endpoint_Some _ _ _ _ _ _ He) as Hin. eapply replace_endpoint_wf; [done..|].
  pose proof (wf_endpoints db Hwf) as Heps. rewrite Forall_forall in Heps.
  destruct (Heps _ Hin) as (H1 & H2 & _). split; [done|]. cbn. split; [lia|]. by rewrite Z.ltb_lt.
Qed.

Lemma upsert_rtt_wf db now id rtt i db' :
  db_wf db -> upsert_rtt_info db now id rtt = Ok (i, db') -> db_wf db'.
Proof.
  intros Hwf Hr. unfold upsert_rtt_info in Hr. case_match; [|done].
  case_match eqn:Hn; destruct_res; [|done].
  apply find_row_Some in Hn as [Hin Hid].
  assert (id ∈ (rn_id <$> db_remote_nodes db)) as Hids by (rewrite <- Hid; by apply list_elem_of_fmap_2).
  pose proof (wf_rtt_rows db Hwf) as Hrows. rewrite Forall_forall in Hrows.
  destruct Hwf. cbv zeta. constructor; cbn; try done; [by apply put_row_NoDup|].
  apply Forall_forall. intros x [-> |[Hx _]]%elem_of_put_row; [|by apply Hrows].
  case_match eqn:Hf; cbn; [|done]. apply find_row_Some in Hf as [Hf _].
  destruct (Hrows _ Hf). split; [lia|done].
Qed.

Lemma put_exchange_wf db x : db_wf db -> db_wf (put_exchange_state db x).
Proof. intros []. constructor; cbn; try done. by apply put_row_NoDup. Qed.

Lemma put_remote_virtual_wf db now id pk kind status ex md :
  db_wf db -> db_wf (upsert_remote_virtual_node db now id pk kind status ex md).2.
Proof. intros []. constructor; cbn; try done. by apply put_row_NoDup. Qed.

Lemma identity_step_wf db db' : db_wf db -> identity_step db db' -> db_wf db'.
Proof.
  intros Hwf Hstep. destruct Hstep;
    eauto using ensure_local_wf, create_virtual_wf, put_remote_virtual_wf, upsert_remote_wf,
      upsert_discovered_wf, mark_validated_wf, mark_failure_wf, upsert_rtt_wf;
    by apply put_exchange_wf.
Qed.

Lemma empty_database_wf : db_wf empty_database.
Proof. constructor; cbn; first [lia|constructor]. Qed.

(** C35: the tables of the identity service. In every state its operations can
    reach, there is at most one local physical node, local ids are hashes of public
    keys, every key column is unique, every endpoint and round-trip time belongs to
    a stored node, and an active endpoint has failed fewer times in a row than the
    threshold. *)
Theorem identity_invariant (db : Database) : rtc identity_step empty_database db -> db_wf db.
Proof.
  intros Hr. assert (db_wf empty_database) as Hwf by apply empty_database_wf. revert Hwf.
  induction Hr as [|d1 d2 d3 Hstep _ IH]; eauto using identity_step_wf.
Qed.
End invariant.

(** ** What hearsay can change *)

Section hearsay.
Context `{FloatText}.

(** How an endpoint may change when its node is only mentioned. *)
Definition mention_rel (validated : bool) (node_id : string) (a b : NodeEndpoint) : Prop :=
  (ne_id b = ne_id a /\ ne_physical_node_hash_id b = ne_physical_node_hash_id a) /\
  (ne_is_active b = true -> ne_is_active a = true) /\
  (validated = true \/ ne_physical_node_hash_id a <> node_id -> ne_is_active b = ne_is_active a).

Lemma mention_rows validated node_id stored endpoints rows :
  ids_sorted stored ->
  upsert_endpoints (mentioned validated) (fresh_endpoint node_id false None) node_id stored stored
    endpoints = Ok rows ->
  exists old new, rows = old ++ new /\ Forall2 (mention_rel validated node_id) stored old /\
    Forall (fun e => ne_is_active e = false) new.
Proof.
  intros Hs Hu. eapply upsert_endpoints_rows; [..|exact Hu|exact Hs].
  - intros e. by repeat split.
  - intros a b c ((Hi1 & Hh1) & Ha1 & Hs1) ((Hi2 & Hh2) & Ha2 & Hs2).
    split; [split; congruence|]. split; [auto|].
    intros Hv. rewrite Hs2, Hs1; [done|done|]. destruct Hv; [by left|right; congruence].
  - by intros a b (? & _).
  - intros d e He. repeat split; cbn.
    + by destruct validated.
    + intros [-> |]; done.
  - intros d e He. cbn. by destruct validated.
  - done.
Qed.

Lemma has_active_spec db n :
  has_endpoint db ne_is_active n = true <->
  exists e, e ∈ db_endpoints db /\ ne_physical_node_hash_id e = rn_id n /\ ne_is_active e = true.
Proof.
  unfold has_endpoint. rewrite existsb_exists. setoid_rewrite <- list_elem_of_In.
  setoid_rewrite andb_true_iff. by setoid_rewrite bool_decide_eq_true.
Qed.

Lemma mention_has_active validated node_id db db' m :
  (exists old new, db_endpoints db' = old ++ new /\
     Forall2 (mention_rel validated node_id) (db_endpoints db) old /\
     Forall (fun e => ne_is_active e = false) new) ->
  (has_endpoint db' ne_is_active m = true -> has_endpoint db ne_is_active m = true) /\
  (validated = true \/ rn_id m <> node_id ->
   has_endpoint db ne_is_active m = true -> has_endpoint db' ne_is_active m = true).
Proof.
  intros (old & new & Heq & Hold & Hnew). rewrite !has_active_spec, Heq. split.
  - intros (e & [He|He]%elem_of_app & Hid & Ha).
    + apply list_elem_of_lookup in He as [i Hi].
      destruct (Forall2_lookup_r _ _ _ _ _ Hold Hi) as (a & Hia & (_ & Hh) & Hact & _).
      exists a. split; [by eapply list_elem_of_lookup_2|]. split; [congruence|auto].
    + rewrite Forall_forall in Hnew. specialize (Hnew e He). cbn in Hnew. congruence.
  - intros Hv (a & Ha & Hid & Hact). apply list_elem_of_lookup in Ha as [i Hi].
    destruct (Forall2_lookup_l _ _ _ _ _ Hold Hi) as (b & Hib & (_ & Hh) & _ & Hsame).
    exists b. split; [apply elem_of_app; left; by eapply list_elem_of_lookup_2|].
    split; [congruence|]. rewrite Hsame; [done|]. destruct Hv; [by left|right; congruence].
Qed.

Lemma discovered_validated now d status stored :
  validated_active (discovered_node now d
    (if bool_decide (status = "active") then "discovered" else status) stored)
  = was_validated stored.
Proof.
  assert ((if bool_decide (status = "active") then "discovered" else status) <> "active") as Hs
    by (by case_bool_decide).
  revert Hs. generalize (if bool_decide (status = "active") then "discovered" else status) as ls.
  intros ls Hs. unfold validated_active, discovered_node, was_validated.
  destruct stored as [n|]; cbn; [|by rewrite bool_decide_false].
  destruct (decide (rn_status n = "active")) as [Ha|Ha].
  - by rewrite (bool_decide_false (rn_status n <> "active")) by (by intros Hn).
  - rewrite (bool_decide_true (rn_status n <> "active")) by done. cbn.
    by rewrite (bool_decide_false (ls = "active")), (bool_decide_false (rn_status n = "active")).
Qed.

Definition candidate_ids (db : Database) (id : string) : Prop :=
  exists n, n ∈ db_remote_nodes db /\ rn_id n = id /\ route_candidate db n = true.

(** Hearsay makes no candidate. What other nodes say about a node, taken in by
    [upsert_discovered_remote_physical_node], changes which nodes may be chosen for
    a route in neither direction: only a validation by this node does. *)
Theorem discovery_keeps_candidates (db db' : Database) (now : instant) (d : NodeDescription)
    (endpoints : list jdict) (status id : string) (n : RemotePhysicalNodeIdentity) :
  db_wf db ->
  upsert_discovered_remote_physical_node db now d endpoints status = Ok (n, db') ->
  candidate_ids db' id <-> candidate_ids db id.
Proof.
  intros Hwf Hu. unfold upsert_discovered_remote_physical_node in Hu. cbv zeta in Hu.
  pose proof (discovered_node_id now d (if bool_decide (status = "active") then "discovered" else status)
    db) as Hnid.
  pose proof (discovered_validated now d status (get_remote_physical_node_by_id db (nd_node_id d)))
    as Hval.
  set (node := discovered_node _ _ _ _) in *. destruct_res.
  match goal with E : upsert_endpoints _ _ _ _ _ _ = Ok ?rows |- _ =>
    apply mention_rows in E; [rename E into Hrows|apply Hwf] end.
  pose proof (fun m => mention_has_active _ _ db (db
    <| db_remote_nodes := put_row rn_id node (db_remote_nodes db) |> <| db_endpoints := a |>) m Hrows)
    as Hact.
  set (db' := db <| db_remote_nodes := _ |> <| db_endpoints := _ |>) in *.
  assert (forall m, not_local db' m = not_local db m) as Hloc by done.
  unfold candidate_ids, route_candidate. split.
  - intros (m & Hm & Hid & Hc). rewrite !andb_true_iff in Hc. destruct Hc as [[Hv He] Hl].
    rewrite Hloc in Hl. apply Hact in He.
    apply elem_of_put_row in Hm as [-> |[Hm _]].
    + rewrite Hval in Hv. unfold was_validated in Hv.
      destruct (get_remote_physical_node_by_id db (nd_node_id d)) as [m|] eqn:Hf; [|done].
      apply find_row_Some in Hf as [Hm Hmid]. exists m. split; [done|]. split; [congruence|].
      rewrite !andb_true_iff. unfold has_endpoint, not_local in *. rewrite <- Hmid in Hnid.
      rewrite Hnid in *. done.
    + exists m. by rewrite Hv, He, Hl.
  - intros (m & Hm & Hid & Hc). rewrite !andb_true_iff in Hc. destruct Hc as [[Hv He] Hl].
    destruct (decide (rn_id m = nd_node_id d)) as [Hmid|Hne].
    + assert (get_remote_physical_node_by_id db (nd_node_id d) = Some m) as Hf.
      { by apply find_row_unique; [apply Hwf|..]. }
      rewrite Hf in Hval. assert (was_validated (Some m) = true) as Hwv by done.
      exists node. split; [apply put_row_new|]. split; [congruence|].
      rewrite Hval, Hwv, Hloc. unfold not_local in *. rewrite Hnid, <- Hmid. rewrite Hl, andb_true_r.
      apply Hact; [left; by rewrite Hf|]. unfold has_endpoint in *. by rewrite Hnid, <- Hmid.
    + exists m. split; [apply put_row_other; [done|congruence]|]. split; [done|].
      rewrite Hv, Hloc, Hl, andb_true_r. apply Hact; [by right|done].
Qed.
End hearsay.

(** ** Witnesses *)

#[local] Instance demo_float_text : FloatText := fun s => s.

Definition demo_description : NodeDescription :=
  MkNodeDescription "n1" "pk-1" (Some "1") None None false false None.
Definition demo_endpoints : list jdict :=
  [[("transport", JStr "tcp"); ("host", JStr "10.0.0.1"); ("port", JInt 19001)]].

Definition database_of {A} (r : res (A * Database)) : Database :=
  match r with Ok (_, db) => db | Raise _ => empty_database end.

Definition demo_discovered : res (RemotePhysicalNodeIdentity * Database) :=
  upsert_discovered_remote_physical_node empty_database 1000 demo_description demo_endpoints "active".

Definition demo_discovered_node : RemotePhysicalNodeIdentity :=
  new_node 1000 demo_description "discovered" None.

Lemma demo_discovered_eq :
  demo_discovered = Ok (demo_discovered_node, database_of demo_discovered).
Proof. vm_compute. reflexivity. Qed.

Lemma identity_invariant_witness :
  rtc identity_step empty_database (database_of demo_discovered) /\ db_wf (database_of demo_discovered).
Proof.
  assert (rtc identity_step empty_database (database_of demo_discovered)) as Hr.
  { apply rtc_once.
    exact (step_discovered _ 1000 demo_description demo_endpoints "active" _ _ demo_discovered_eq). }
  split; [exact Hr|apply (identity_invariant _ Hr)].
Defined.

Lemma discovery_keeps_candidates_witness :
  candidate_ids (database_of demo_discovered) "n1" <-> candidate_ids empty_database "n1".
Proof.
  apply (discovery_keeps_candidates empty_database (database_of demo_discovered) 1000
    demo_description demo_endpoints "active" "n1" demo_discovered_node).
  - apply empty_database_wf.
  - exact demo_discovered_eq.
Defined.
