(* ===== verification/DhtService.v ===== *)
(** * The DHT service

    Models [src/app/dht/service.py]: keys, XOR distance, the publish proof of work
    and the selection of the nodes responsible for a key, over the tables of [Identity]. *)

From S2P Require Import Prelude PyJson Sha512 PyTime PyInt Pow Identity.

(** ** Keys and distances *)

Definition build_key (namespace logical_key : string) : res string :=
  if negb (str_truthy namespace) then Raise (ValueError "namespace e obrigatorio.")
  else if negb (str_truthy logical_key) then Raise (ValueError "logical_key e obrigatorio.")
  else Ok (sha512_hexdigest (namespace +:+ "|" +:+ logical_key)).

Definition xor_distance_hex (left_hex right_hex : string) : res Z :=
  if negb (str_truthy left_hex) || negb (str_truthy right_hex)
  then Raise (ValueError "left_hex e right_hex sao obrigatorios.")
  else
    let! l := int_base16 left_hex in
    let! r := int_base16 right_hex in
    Ok (Z.lxor l r).

(** ** Publish proof of work *)

Definition publish_material (key_hex record_json : string) : string := key_hex +:+ "|" +:+ record_json.

Definition build_publish_pow_details (key_hex record_json : string) (nonce : option pyint)
    (difficulty_bits : Z) : res PowDetails :=
  pow_details (publish_material key_hex record_json) nonce difficulty_bits.

Definition validate_publish_pow (key_hex record_json : string) (nonce : pyint)
    (difficulty_bits : Z) : res bool :=
  if difficulty_bits <=? 0 then Ok true
  else if pyint_val nonce <? 0 then Ok false
  else
    let! details := build_publish_pow_details key_hex record_json (Some nonce) difficulty_bits in
    Ok (pd_is_valid details).

Definition find_publish_pow_nonce (fuel : nat) (key_hex record_json : string)
    (difficulty_bits : Z) : option (res Z) :=
  if difficulty_bits <=? 0 then Some (Ok 0)
  else search_nonce fuel
         (fun nonce => validate_publish_pow key_hex record_json (PyInt nonce) difficulty_bits) 0.

(** ** Candidates *)

Record node_candidate := MkCandidate {
  nc_node_id : string;
  nc_is_local : bool;
  nc_public_key : string;
}.

Definition endpoint_of (n : RemotePhysicalNodeIdentity) (e : NodeEndpoint) : bool :=
  bool_decide (ne_physical_node_hash_id e = rn_id n) && ne_is_active e.

(** The joined query: active, validated remote nodes with an active endpoint, each
    once; transport, host and port are never null in the schema. *)
Definition eligible_remote (db : Database) (n : RemotePhysicalNodeIdentity) : bool :=
  bool_decide (rn_status n = "active") && bool_decide (is_Some (rn_last_validated_at n))
  && existsb (endpoint_of n) (db_endpoints db).

Definition _load_node_candidates (db : Database) : list node_candidate :=
  ((fun n => MkCandidate (ln_id n) true (ln_public_key n)) <$>
     filter (fun n => ln_status n = "active") (db_local_nodes db)) ++
  ((fun n => MkCandidate (rn_id n) false (rn_public_key n)) <$>
     filter (fun n => eligible_remote db n = true) (db_remote_nodes db)).

Fixpoint dedup_candidates (by_id : odict string node_candidate) (l : list node_candidate)
    : odict string node_candidate :=
  match l with
  | [] => by_id
  | c :: l' =>
      if negb (str_truthy (nc_node_id c)) then dedup_candidates by_id l'
      else match od_get (nc_node_id c) by_id with
           | None => dedup_candidates (od_set (nc_node_id c) c by_id) l'
           | Some _ =>
               if nc_is_local c then dedup_candidates (od_set (nc_node_id c) c by_id) l'
               else dedup_candidates by_id l'
           end
  end.

Definition _deduplicate_node_candidates (l : list node_candidate) : list node_candidate :=
  (dedup_candidates [] l).*2.

(** ** Ranking *)

(** [format(n, "0128x")] *)
Fixpoint hex_of_pos (fuel : nat) (n : Z) (acc : string) : string :=
  match fuel with
  | O => acc
  | S fuel =>
      let acc := String (hex_digit (Z.to_N (n mod 16))) acc in
      if n / 16 =? 0 then acc else hex_of_pos fuel (n / 16) acc
  end.

Definition format_0128x (n : Z) : string :=
  let digits := hex_of_pos (S (Z.to_nat (Z.log2 (Z.abs n)))) (Z.abs n) "" in
  if n <? 0 then "-" +:+ pad_left 127 digits else pad_left 128 digits.

Record endpoint_info := MkEndpointInfo {
  ei_transport : string;
  ei_host : string;
  ei_port : Z;
  ei_priority : Z;
}.

Record ranked_node := MkRanked {
  rk_node_id : string;
  rk_is_local : bool;
  rk_public_key : string;
  rk_distance_int : Z;
  rk_distance_hex : string;
  rk_endpoints : option (list endpoint_info);
}.

#[export] Instance ranked_eta : Eta ranked_node := fun n =>
  MkRanked (rk_node_id n) (rk_is_local n) (rk_public_key n) (rk_distance_int n)
    (rk_distance_hex n) (rk_endpoints n).

Definition rank_node (key_hex : string) (c : node_candidate) : res ranked_node :=
  let! distance_int := xor_distance_hex key_hex (nc_node_id c) in
  Ok (MkRanked (nc_node_id c) (nc_is_local c) (nc_public_key c) distance_int
        (format_0128x distance_int) None).

Definition _rank_nodes_by_distance (key_hex : string) (candidates : list node_candidate)
    : res (list ranked_node) :=
  let! ranked_nodes := map_res (rank_node key_hex) candidates in
  Ok (py_sorted rk_distance_int ranked_nodes).

(** [ORDER BY physical_node_hash_id, priority, last_success_at DESC]; a null is
    smaller than every value, so it comes last. *)
Definition endpoint_order (e : NodeEndpoint) : string * (Z * (Z * Z)) :=
  (ne_physical_node_hash_id e, (ne_priority e,
    match ne_last_success_at e with Some t => (0, - t) | None => (1, 0) end)).

Definition endpoint_info_of (e : NodeEndpoint) : endpoint_info :=
  MkEndpointInfo (ne_transport e) (ne_host e) (ne_port e) (ne_priority e).

Definition _attach_remote_endpoints (db : Database) (selected : list ranked_node)
    : list ranked_node :=
  let remote_node_ids := rk_node_id <$> filter (fun n => rk_is_local n = false) selected in
  if bool_decide (remote_node_ids = []) then selected
  else
    let endpoints := py_sorted endpoint_order
      (filter (fun e => ne_physical_node_hash_id e ∈ remote_node_ids /\ ne_is_active e = true)
         (db_endpoints db)) in
    (fun n =>
       if rk_is_local n then n <| rk_endpoints := Some [] |>
       else n <| rk_endpoints := Some (endpoint_info_of <$>
              filter (fun e => ne_physical_node_hash_id e = rk_node_id n) endpoints) |>)
      <$> selected.

(** [l[:k]] *)
Definition slice_to {A} (k : Z) (l : list A) : list A :=
  if k <? 0 then take (Z.to_nat (Z.of_nat (length l) + k)) l else take (Z.to_nat k) l.

Record closest_nodes := MkClosest {
  cl_key_hex : string;
  cl_replication_factor : Z;
  cl_local_node_is_responsible : bool;
  cl_nodes : list ranked_node;
}.

Definition select_k_closest_nodes (db : Database) (dht_replication_factor : Z) (key_hex : string)
    : res closest_nodes :=
  if negb (str_truthy key_hex) then Raise (ValueError "key_hex e obrigatorio.")
  else
    let node_candidates := _deduplicate_node_candidates (_load_node_candidates db) in
    let! ranked_nodes := _rank_nodes_by_distance key_hex node_candidates in
    let selected_nodes :=
      _attach_remote_endpoints db (slice_to dht_replication_factor ranked_nodes) in
    Ok (MkClosest key_hex dht_replication_factor (existsb rk_is_local selected_nodes) selected_nodes).

(** ** Candidates are unique, and local identities win *)

Record dedup_inv (seen : list node_candidate) (d : odict string node_candidate) : Prop := {
  di_wf : od_wf d;
  di_from : forall i c, od_get i d = Some c ->
    nc_node_id c = i /\ i <> "" /\ c ∈ seen /\
    (nc_is_local c = false -> forall c', c' ∈ seen -> nc_node_id c' = i -> nc_is_local c' = false);
  di_all : forall c, c ∈ seen -> nc_node_id c <> "" -> is_Some (od_get (nc_node_id c) d);
}.

Lemma dedup_inv_set seen d c :
  dedup_inv seen d -> nc_node_id c <> "" ->
  od_get (nc_node_id c) d = None \/ nc_is_local c = true ->
  dedup_inv (seen ++ [c]) (od_set (nc_node_id c) c d).
Proof.
  intros [Hwf Hfrom Hall] Hc Hcase. split.
  - by apply od_set_wf.
  - intros i x. destruct (decide (nc_node_id c = i)) as [<-|Hne].
    + rewrite od_get_set_eq. intros [= <-]. split; [done|]. split; [done|]. split; [set_solver|].
      intros Hl c' [Hc'|Hc'%list_elem_of_singleton]%elem_of_app Hid; [|by subst].
      destruct Hcase as [Hnone|]; [|congruence].
      destruct (Hall c' Hc') as [y Hy]; [congruence|]. congruence.
    + rewrite od_get_set_ne by done. intros (Hid & Hi & Hin & Hl)%Hfrom.
      split; [done|]. split; [done|]. split; [set_solver|].
      intros Hloc c' [Hc'|Hc'%list_elem_of_singleton]%elem_of_app Hid'; [by apply Hl|congruence].
  - intros x [Hx|Hx%list_elem_of_singleton]%elem_of_app Hxne.
    + destruct (decide (nc_node_id c = nc_node_id x)) as [<-|]; [by rewrite od_get_set_eq|].
      rewrite od_get_set_ne by done. by apply Hall.
    + subst. by rewrite od_get_set_eq.
Qed.

Lemma dedup_inv_skip seen d c :
  dedup_inv seen d ->
  nc_node_id c = "" \/ (is_Some (od_get (nc_node_id c) d) /\ nc_is_local c = false) ->
  dedup_inv (seen ++ [c]) d.
Proof.
  intros [Hwf Hfrom Hall] Hcase. split; [done| |].
  - intros i x (Hid & Hi & Hin & Hl)%Hfrom. split; [done|]. split; [done|]. split; [set_solver|].
    intros Hloc c' [Hc'|Hc'%list_elem_of_singleton]%elem_of_app Hid'; [by apply Hl|].
    subst c'. destruct Hcase as [|[_ ?]]; [congruence|done].
  - intros x [Hx|Hx%list_elem_of_singleton]%elem_of_app Hxne; [by apply Hall|].
    subst x. by destruct Hcase as [|[? _]].
Qed.

Lemma dedup_candidates_inv l : forall seen d,
  dedup_inv seen d -> dedup_inv (seen ++ l) (dedup_candidates d l).
Proof.
  induction l as [|c l IH]; intros seen d Hinv; cbn; [by rewrite app_nil_r|].
  replace (seen ++ c :: l) with ((seen ++ [c]) ++ l) by (by rewrite <- app_assoc).
  destruct (str_truthy (nc_node_id c)) eqn:Ht; cbn [negb].
  - apply str_truthy_spec in Ht. destruct (od_get (nc_node_id c) d) as [y|] eqn:Hy.
    + destruct (nc_is_local c) eqn:Hl; apply IH.
      * apply dedup_inv_set; auto.
      * apply dedup_inv_skip; [done|]. right. split; [by eexists|done].
    + apply IH, dedup_inv_set; auto.
  - apply IH, dedup_inv_skip; [done|]. left.
    destruct (decide (nc_node_id c = "")) as [|Hne]; [done|].
    apply str_truthy_spec in Hne. congruence.
Qed.

Lemma dedup_spec l :
  let u := _deduplicate_node_candidates l in
  NoDup (nc_node_id <$> u) /\
  (forall c, c ∈ u -> nc_node_id c <> "" /\ c ∈ l /\
     (nc_is_local c = false -> forall c', c' ∈ l -> nc_node_id c' = nc_node_id c -> nc_is_local c' = false)) /\
  (forall c, c ∈ l -> nc_node_id c <> "" -> exists c', c' ∈ u /\ nc_node_id c' = nc_node_id c).
Proof.
  cbv zeta. unfold _deduplicate_node_candidates.
  destruct (dedup_candidates_inv l [] []) as [Hwf Hfrom Hall].
  { split; [constructor|done|]. intros c Hc. by apply elem_of_nil in Hc. }
  cbn [app] in *. set (d := dedup_candidates [] l) in *.
  assert (forall c, c ∈ d.*2 <-> od_get (nc_node_id c) d = Some c) as Hmem.
  { intros c. split.
    - intros ([i x] & -> & Hin)%list_elem_of_fmap. cbn. apply (od_elem_of_get _ _ _ Hwf) in Hin.
      by destruct (Hfrom _ _ Hin) as [<- _].
    - intros Hg. apply list_elem_of_fmap. eexists (_, c). split; [done|]. by apply od_get_elem_of. }
  split; [|split].
  - rewrite (od_keys_values nc_node_id d); [done| |done]. intros i c Hc. by apply Hfrom in Hc as [? _].
  - intros c Hc%Hmem. apply Hfrom in Hc as (_ & ? & ? & ?). done.
  - intros c Hc Hne. destruct (Hall c Hc Hne) as [c' Hc']. exists c'.
    destruct (Hfrom _ _ Hc') as [Hid _]. split; [|done]. apply Hmem. by rewrite Hid.
Qed.

(** ** Distances *)

Lemma lxor_le_add a b : 0 <= a -> 0 <= b -> Z.lxor a b <= a + b.
Proof.
  intros Ha Hb. rewrite <- (Z.add_lxor_2land a b).
  assert (0 <= Z.land a b) by (apply Z.land_nonneg; by left). lia.
Qed.

Lemma lxor_triangle a b c : 0 <= a -> 0 <= b -> 0 <= c -> Z.lxor a b <= Z.lxor a c + Z.lxor c b.
Proof.
  intros Ha Hb Hc. replace (Z.lxor a b) with (Z.lxor (Z.lxor a c) (Z.lxor c b)).
  - apply lxor_le_add; apply Z.lxor_nonneg; tauto.
  - rewrite Z.lxor_assoc, <- (Z.lxor_assoc c c b), Z.lxor_nilpotent, Z.lxor_0_l. done.
Qed.

Lemma digest_distance s t :
  xor_distance_hex (sha512_hexdigest s) (sha512_hexdigest t) = Ok (Z.lxor (digest_int s) (digest_int t)).
Proof.
  unfold xor_distance_hex. rewrite !sha512_hexdigest_truthy. cbn [negb orb].
  rewrite !int_base16_digest. done.
Qed.

(** The XOR distance is a metric on digests.  Between the identifiers of any
    inputs the distance is defined, symmetric, below 2^512, zero exactly between equal
    identifiers, and satisfies the triangle inequality. *)
Theorem xor_distance_metric (s t u : string) :
  exists dst dsu dut,
    xor_distance_hex (sha512_hexdigest s) (sha512_hexdigest t) = Ok dst /\
    xor_distance_hex (sha512_hexdigest t) (sha512_hexdigest s) = Ok dst /\
    xor_distance_hex (sha512_hexdigest s) (sha512_hexdigest u) = Ok dsu /\
    xor_distance_hex (sha512_hexdigest u) (sha512_hexdigest t) = Ok dut /\
    0 <= dst < 2 ^ 512 /\ (dst = 0 <-> sha512_hexdigest s = sha512_hexdigest t) /\
    dst <= dsu + dut.
Proof.
  pose proof (digest_int_bound s) as Hs. pose proof (digest_int_bound t) as Ht.
  pose proof (digest_int_bound u) as Hu.
  exists (Z.lxor (digest_int s) (digest_int t)), (Z.lxor (digest_int s) (digest_int u)),
    (Z.lxor (digest_int u) (digest_int t)).
  rewrite !digest_distance. split; [done|]. split; [by rewrite Z.lxor_comm|].
  split; [done|]. split; [done|]. split; [|split].
  - split; [apply Z.lxor_nonneg; lia|]. destruct (decide (Z.lxor (digest_int s) (digest_int t) <= 0)); [lia|].
    apply Z.log2_lt_pow2; [lia|]. eapply Z.le_lt_trans; [apply Z.log2_lxor; lia|].
    apply Z.max_lub_lt.
    + destruct (decide (digest_int s = 0)) as [->|]; [done|]. apply Z.log2_lt_pow2; lia.
    + destruct (decide (digest_int t = 0)) as [->|]; [done|]. apply Z.log2_lt_pow2; lia.
  - rewrite Z.lxor_eq_0_iff. split; [apply digest_int_inj|]. intros E. unfold digest_int. by rewrite E.
  - apply lxor_triangle; lia.
Qed.

(** ** Ranking *)

(** What a ranked node says of its candidate. *)
Definition rank_fields (n : ranked_node) : string * bool * string * Z :=
  (rk_node_id n, rk_is_local n, rk_public_key n, rk_distance_int n).

Lemma attach_fields db l : rank_fields <$> _attach_remote_endpoints db l = rank_fields <$> l.
Proof.
  unfold _attach_remote_endpoints. case_bool_decide; [done|].
  rewrite <- list_fmap_compose. apply list_fmap_ext. intros _ n _. cbn. by destruct (rk_is_local n).
Qed.

Lemma fmap_rank_fields {B} (f : string * bool * string * Z -> B) (g : ranked_node -> B) (l l' : list ranked_node) :
  (forall n, g n = f (rank_fields n)) -> rank_fields <$> l = rank_fields <$> l' -> g <$> l = g <$> l'.
Proof.
  intros Hg E. assert (forall k : list ranked_node, g <$> k = f <$> (rank_fields <$> k)) as Hk.
  { intros k. rewrite <- list_fmap_compose. apply list_fmap_ext. intros; apply Hg. }
  by rewrite !Hk, E.
Qed.

Lemma rank_node_fields key c n :
  rank_node key c = Ok n ->
  xor_distance_hex key (nc_node_id c) = Ok (rk_distance_int n) /\ rk_node_id n = nc_node_id c /\
  rk_is_local n = nc_is_local c /\ rk_public_key n = nc_public_key c.
Proof.
  unfold rank_node. destruct (xor_distance_hex _ _) as [x|]; cbn; [|done]. by intros [= <-].
Qed.

Lemma Forall2_rank key cs ns :
  map_res (rank_node key) cs = Ok ns ->
  rk_node_id <$> ns = nc_node_id <$> cs /\
  (forall n, n ∈ ns -> exists c, c ∈ cs /\ rank_node key c = Ok n) /\
  (forall c, c ∈ cs -> exists n, n ∈ ns /\ rank_node key c = Ok n).
Proof.
  rewrite map_res_Ok_Forall2. induction 1 as [|c n cs ns Hr _ (IH1 & IH2 & IH3)].
  { split; [done|]. split; intros x Hx; by apply elem_of_nil in Hx. }
  split; [|split].
  - csimpl. rewrite IH1. f_equal. by apply rank_node_fields in Hr as (_ & ? & _).
  - intros x [->|Hx]%elem_of_cons; [exists c; split; [left|done]|].
    destruct (IH2 x Hx) as (y & ? & ?). exists y. split; [by right|done].
  - intros x [->|Hx]%elem_of_cons; [exists n; split; [left|done]|].
    destruct (IH3 x Hx) as (y & ? & ?). exists y. split; [by right|done].
Qed.

(** In a sorted list the first elements are below the others. *)
Lemma sorted_take_drop {A} (R : A -> A -> Prop) k l x y :
  StronglySorted R l -> x ∈ take k l -> y ∈ drop k l -> R x y.
Proof.
  revert k. induction l as [|a l IH]; intros [|k] Hs Hx Hy; try (by apply elem_of_nil in Hx).
  inversion Hs as [|? ? Hl Ha]; subst. cbn in *.
  apply elem_of_cons in Hx as [->|Hx]; [|by eapply IH].
  eapply (proj1 (list.Forall_forall _ _) Ha). eapply elem_of_submseteq; [exact Hy|].
  apply sublist_submseteq, sublist_drop.
Qed.

Lemma sorted_take {A} (R : A -> A -> Prop) k l : StronglySorted R l -> StronglySorted R (take k l).
Proof.
  intros Hs. revert k. induction Hs as [|x l Hl IH Hx]; intros [|k]; cbn; try constructor; [apply IH|].
  by apply Forall_take.
Qed.

Lemma sorted_fmap {A} (f : A -> Z) l :
  StronglySorted (key_le f) l -> StronglySorted Z.le (f <$> l).
Proof.
  induction 1 as [|x l Hl IH Hx]; csimpl; constructor; [done|].
  rewrite Forall_fmap. eapply Forall_impl; [exact Hx|]. intros y Hy. exact Hy.
Qed.

Lemma slice_to_take {A} k (l : list A) : 0 <= k -> slice_to k l = take (Z.to_nat k) l.
Proof. intros Hk. unfold slice_to. destruct (Z.ltb_spec k 0); [lia|done]. Qed.

(** Attaching the endpoints changes no other field. *)
Lemma attach_facts db sel :
  let out := _attach_remote_endpoints db sel in
  rk_node_id <$> out = rk_node_id <$> sel /\ rk_distance_int <$> out = rk_distance_int <$> sel /\
  length out = length sel /\
  (forall n, n ∈ out -> exists n', n' ∈ sel /\ rank_fields n' = rank_fields n).
Proof.
  cbv zeta. pose proof (attach_fields db sel) as Hat. split_and!.
  - by apply (fmap_rank_fields (fun p => p.1.1.1)).
  - by apply (fmap_rank_fields (fun p => p.2)).
  - by rewrite <- (length_fmap rank_fields (_attach_remote_endpoints db sel)), Hat, length_fmap.
  - intros n Hin. apply (list_elem_of_fmap_2 rank_fields) in Hin. rewrite Hat in Hin.
    apply list_elem_of_fmap in Hin as (n' & Heq & Hin). eauto.
Qed.

(** C34: responsible nodes.  The nodes selected for a key are eligible candidates, at
    most one per node id and at most the replication factor, in increasing XOR
    distance to the key; a node id with an active local identity is selected as local;
    a candidate left out means the selection is full and every selected node is at
    most as far; and the local node is responsible exactly when it is selected. *)
Theorem select_k_closest_spec (db : Database) (k : Z) (key : string) (r : closest_nodes) :
  0 <= k -> select_k_closest_nodes db k key = Ok r ->
  let candidates := _load_node_candidates db in
  NoDup (rk_node_id <$> cl_nodes r) /\ Z.of_nat (length (cl_nodes r)) <= k /\
  StronglySorted Z.le (rk_distance_int <$> cl_nodes r) /\
  (forall n, n ∈ cl_nodes r ->
     xor_distance_hex key (rk_node_id n) = Ok (rk_distance_int n) /\
     (exists c, c ∈ candidates /\ nc_node_id c = rk_node_id n /\ nc_is_local c = rk_is_local n) /\
     (forall c, c ∈ candidates -> nc_node_id c = rk_node_id n -> nc_is_local c = true ->
        rk_is_local n = true)) /\
  (forall c, c ∈ candidates -> nc_node_id c <> "" -> nc_node_id c ∉ (rk_node_id <$> cl_nodes r) ->
     Z.of_nat (length (cl_nodes r)) = k /\
     exists dist, xor_distance_hex key (nc_node_id c) = Ok dist /\
       forall n, n ∈ cl_nodes r -> rk_distance_int n <= dist) /\
  (cl_local_node_is_responsible r = true <-> exists n, n ∈ cl_nodes r /\ rk_is_local n = true).
Proof.
  intros Hk Hr. cbv zeta. unfold select_k_closest_nodes in Hr.
  destruct (str_truthy key); cbn [negb] in Hr; [|done]. cbv zeta in Hr.
  set (cs := _load_node_candidates db) in *.
  destruct (dedup_spec cs) as (Hnd & Hfrom & Hall). set (u := _deduplicate_node_candidates cs) in *.
  unfold _rank_nodes_by_distance in Hr.
  destruct (map_res (rank_node key) u) as [ns|] eqn:Ens; cbn [mbind res_bind] in Hr; [|done].
  destruct (Forall2_rank key u ns Ens) as (Hids & Hn & Hc). apply Ok_inj in Hr as <-. cbn.
  set (sel := slice_to k (py_sorted rk_distance_int ns)).
  assert (sel = take (Z.to_nat k) (py_sorted rk_distance_int ns)) as Hsel by (by apply slice_to_take).
  destruct (attach_facts db sel) as (Eid & Edist & Elen & Hout).
  set (out := _attach_remote_endpoints db sel) in *.
  assert (forall n, n ∈ sel -> n ∈ ns) as Hsub.
  { intros n. rewrite Hsel. intros Hin. rewrite <- (elem_of_py_sorted rk_distance_int).
    eapply elem_of_submseteq; [exact Hin|]. apply sublist_submseteq, sublist_take. }
  pose proof (py_sorted_sorted rk_distance_int ns) as Hsort.
  split_and!.
  - rewrite Eid, Hsel, fmap_take. eapply sublist_NoDup; [|apply sublist_take].
    rewrite py_sorted_Permutation, Hids. done.
  - rewrite Elen, Hsel, length_take. lia.
  - rewrite Edist. apply sorted_fmap. rewrite Hsel. by apply sorted_take.
  - intros n Hin. destruct (Hout n Hin) as (n' & Hin' & [= E1 E2 E3 E4]).
    destruct (Hn n' (Hsub n' Hin')) as (c & Hcu & Hrk). apply rank_node_fields in Hrk as (Hd & Ei & El & _).
    destruct (Hfrom c Hcu) as (_ & Hcc & Hloc). split; [congruence|]. split.
    + exists c. split; [done|]. split; congruence.
    + intros c' Hc' Hid Hl'. destruct (nc_is_local c) eqn:El'; [congruence|].
      rewrite (Hloc eq_refl c' Hc') in Hl'; [done|congruence].
  - intros c Hcin Hne Hnot. destruct (Hall c Hcin Hne) as (c' & Hc' & Hid).
    destruct (Hc c' Hc') as (n' & Hn' & Hrk). apply rank_node_fields in Hrk as (Hd & Ei & _ & _).
    assert (n' ∈ drop (Z.to_nat k) (py_sorted rk_distance_int ns)) as Hdrop.
    { rewrite <- (elem_of_py_sorted rk_distance_int) in Hn'.
      rewrite <- (take_drop (Z.to_nat k) (py_sorted rk_distance_int ns)) in Hn'.
      apply elem_of_app in Hn' as [Hin|]; [|done]. destruct Hnot.
      rewrite Eid, Hsel, <- Hid, <- Ei. by apply list_elem_of_fmap_2. }
    split.
    + apply (f_equal length) in Hsel. rewrite length_take in Hsel.
      apply list_elem_of_lookup in Hdrop as [i Hi]. apply lookup_lt_Some in Hi.
      rewrite length_drop in Hi. lia.
    + exists (rk_distance_int n'). split; [congruence|]. intros n Hin.
      destruct (Hout n Hin) as (m & Hm & [= _ _ _ <-]). rewrite Hsel in Hm.
      exact (sorted_take_drop _ _ _ _ _ Hsort Hm Hdrop).
  - rewrite existsb_exists. setoid_rewrite <- list_elem_of_In. done.
Qed.

Definition demo_node (id : string) : RemotePhysicalNodeIdentity :=
  MkRemoteNode id "pk" None None false false None "active" None (Some 5) None.

Definition demo_db : Database :=
  MkDatabase [MkLocalNode "0f" "pk" "sk" "ml-dsa-65" "active" 0] []
    [demo_node "01"; demo_node "f0"; demo_node "0f"] []
    [MkNodeEndpoint 1 "01" "tcp" "10.0.0.1" 1 0 true None None 0 None;
     MkNodeEndpoint 2 "f0" "tcp" "10.0.0.2" 2 0 true None None 0 None;
     MkNodeEndpoint 3 "0f" "tcp" "10.0.0.3" 3 0 true None None 0 None] [] [].

Definition demo_closest : closest_nodes := catch_all (MkClosest "" 0 false []) (select_k_closest_nodes demo_db 2 "03").

Lemma select_k_closest_spec_witness :
  rk_node_id <$> cl_nodes demo_closest = ["01"; "0f"] /\
  cl_local_node_is_responsible demo_closest = true /\ NoDup (rk_node_id <$> cl_nodes demo_closest).
Proof.
  split; [vm_compute; reflexivity|]. split; [vm_compute; reflexivity|].
  apply (select_k_closest_spec demo_db 2 "03" demo_closest); [lia|]. vm_compute. reflexivity.
Defined.
