(* ===== verification/RouteService.v ===== *)
(** * Route resolutions

    Models [RouteService] ([src/app/route/service.py]), the store of what a node
    knows about the routes it takes part in: as initiator, as intermediary hop
    or as final endpoint.

    The SQL table is the list of its rows in insertion order.  A query is a
    filter, an order on the primary key and a choice; a write flushes one row
    and fails with [IntegrityError] when it breaks one of the UNIQUE columns
    (a NULL never conflicts).  Every operation runs in its own transaction,
    which is rolled back when it raises, so an operation returns the table only
    in the success case.  SQLite does not enforce the foreign keys. *)

From S2P Require Import Prelude PyJson PyTime Sha512 Crypto JsonText Records Merge Identity DhtService.

(** A row of [route_resolution] ([src/app/storage/models/operational.py]). *)
Record RouteResolution := MkResolution {
  rr_id : Z;
  rr_local_role : string;
  rr_route_strategy : option string;
  rr_status : string;
  rr_route_nonce : option Z;
  rr_initial_path_id : option string;
  rr_route_path_id : option string;
  rr_received_path_id : option string;
  rr_generated_path_id : option string;
  rr_final_path_id : option string;
  rr_from_physical_node_id : option string;
  rr_to_physical_node_id : option string;
  rr_previous_physical_node_id : option string;
  rr_first_hop_physical_node_id : option string;
  rr_local_virtual_node_id : option string;
  rr_final_physical_node_public_key : option string;
  rr_virtual_node_signature : option string;
  rr_physical_node_signature : option string;
  rr_public_route_acceptance_signature : option string;
  rr_kyber_private_key_pem : option string;
  rr_kyber_public_key_pem : option string;
  rr_shared_secret_hex : option string;
  rr_is_valid : bool;
  rr_metadata_json : option string;
}.

#[export] Instance route_resolution_eta : Eta RouteResolution := fun r =>
  MkResolution (rr_id r) (rr_local_role r) (rr_route_strategy r) (rr_status r) (rr_route_nonce r)
    (rr_initial_path_id r) (rr_route_path_id r) (rr_received_path_id r) (rr_generated_path_id r)
    (rr_final_path_id r) (rr_from_physical_node_id r) (rr_to_physical_node_id r)
    (rr_previous_physical_node_id r) (rr_first_hop_physical_node_id r) (rr_local_virtual_node_id r)
    (rr_final_physical_node_public_key r) (rr_virtual_node_signature r) (rr_physical_node_signature
    r) (rr_public_route_acceptance_signature r) (rr_kyber_private_key_pem r)
    (rr_kyber_public_key_pem r) (rr_shared_secret_hex r) (rr_is_valid r) (rr_metadata_json r).

Notation route_table := (list RouteResolution).

(** A row with only the columns every insertion of the service sets. *)
Definition blank_resolution (local_role status : string) : RouteResolution :=
  MkResolution 0 local_role None status None None None None None None None None None None None
    None None None None None None None true None.

(** ** The table *)

(** [INTEGER PRIMARY KEY]: one more than the largest key. *)
Definition next_id (rows : route_table) : Z := 1 + foldr (fun r m => Z.max (rr_id r) m) 0 rows.

Definition unique_columns : list (string * (RouteResolution -> option string)) :=
  [("initial_path_id", rr_initial_path_id); ("route_path_id", rr_route_path_id);
   ("final_path_id", rr_final_path_id)].

(** Another row holds the value this row has in the column. *)
Definition conflicts (rows : route_table) (row : RouteResolution)
    (column : RouteResolution -> option string) : bool :=
  match column row with
  | None => false
  | Some v => existsb (fun r => bool_decide (rr_id r <> rr_id row) && bool_decide (column r = Some v)) rows
  end.

Definition check_unique (rows : route_table) (row : RouteResolution) : res unit :=
  match list_find (fun c => conflicts rows row c.2 = true) unique_columns with
  | Some (_, (name, _)) => Raise (IntegrityError name)
  | None => Ok tt
  end.

(** [session.add(row); session.flush()] *)
Definition insert_row (rows : route_table) (row : RouteResolution)
    : res (RouteResolution * route_table) :=
  let row := row <| rr_id := next_id rows |> in
  let! _ := check_integer (rr_route_nonce row) in
  let! _ := check_unique rows row in
  Ok (row, rows ++ [row]).

(** [session.flush()] of a changed row *)
Definition update_row (rows : route_table) (row : RouteResolution) : res route_table :=
  let! _ := check_unique rows row in
  Ok (map (fun r => if bool_decide (rr_id r = rr_id row) then row else r) rows).

(** [.filter(p).order_by(RouteResolution.id.desc()).first()] *)
Definition select_latest (p : RouteResolution -> bool) (rows : route_table)
    : option RouteResolution :=
  head (py_sorted (fun r => - rr_id r) (List.filter p rows)).

(** [.filter(p).order_by(RouteResolution.id.asc()).all()] *)
Definition select_all (p : RouteResolution -> bool) (rows : route_table) : route_table :=
  py_sorted rr_id (List.filter p rows).

(** The body the updating operations share: the latest matching row is changed
    and flushed, or nothing matches. *)
Definition update_latest (p : RouteResolution -> bool)
    (f : RouteResolution -> RouteResolution) (rows : route_table)
    : res (option RouteResolution * route_table) :=
  match select_latest p rows with
  | None => Ok (None, rows)
  | Some r => let! rows' := update_row rows (f r) in Ok (Some (f r), rows')
  end.

(** Conversion unfolds the operations before the table they are written with. *)
Strategy 100 [insert_row update_latest select_latest check_unique].

(** ** Metadata *)

Section service.
Context `{FloatText}.

Definition _load_metadata (metadata_json : option string) : jdict :=
  match metadata_json with
  | None => []
  | Some metadata_json =>
      if negb (str_truthy metadata_json) then []
      else match json_loads metadata_json with
           | Some (JObj payload) => payload
           | _ => []
           end
  end.

Definition _dump_metadata (metadata : jdict) : option string :=
  match metadata with
  | [] => None
  | _ => Some (json_dumps (JObj metadata))
  end.

(** [isinstance(value, (int, float)) and value > 0], then [float(value)]; the
    conversion of an integer, which overflows above the largest double, is a
    parameter that returns the [repr] of the float. *)
Definition float_positive (repr : string) : bool :=
  negb (String.prefix "-" repr) && negb (bool_decide (repr = "0.0"))
  && negb (bool_decide (repr = "NaN")).

Definition read_positive_number (float_of_int : Z -> res string) (value : option json)
    : res (option string) :=
  match value with
  | Some (JInt n) => if 0 <? n then Some <$> float_of_int n else Ok None
  | Some (JBool b) => if b then Some <$> float_of_int 1 else Ok None
  | Some (JFloat r) => Ok (if float_positive r then Some r else None)
  | _ => Ok None
  end.

(** The first result that is not [None]. *)
Fixpoint first_result {A B} (f : A -> res (option B)) (l : list A) : res (option B) :=
  match l with
  | [] => Ok None
  | x :: l' =>
      let! o := f x in
      match o with Some b => Ok (Some b) | None => first_result f l' end
  end.

Definition _read_route_rtt_ms (float_of_int : Z -> res string)
    (resolution : option RouteResolution) : res (option string) :=
  match resolution with
  | None => Ok None
  | Some resolution =>
      let metadata := _load_metadata (rr_metadata_json resolution) in
      first_result (fun key => read_positive_number float_of_int (od_get key metadata))
        ["entry_point_rtt"; "observed_round_trip_ms"; "expected_round_trip_ttl_ms"]
  end.

(** ** Hops *)

Definition is_str (column : option string) (value : string) : bool := bool_decide (column = Some value).

Definition hop_row (route_strategy from_physical_node_id to_physical_node_id received_path_id
    generated_path_id : string) (from_physical_session_id : option string) : RouteResolution :=
  blank_resolution "intermediary" "forwarding"
    <| rr_route_strategy := Some route_strategy |>
    <| rr_from_physical_node_id := Some from_physical_node_id |>
    <| rr_to_physical_node_id := Some to_physical_node_id |>
    <| rr_received_path_id := Some received_path_id |>
    <| rr_generated_path_id := Some generated_path_id |>
    <| rr_metadata_json :=
         _dump_metadata [("from_physical_session_id", opt_json JStr from_physical_session_id)] |>.

Definition create_hop_resolution (rows : route_table) (route_strategy from_physical_node_id
    to_physical_node_id received_path_id generated_path_id : string)
    (from_physical_session_id : option string) : res (RouteResolution * route_table) :=
  insert_row rows (hop_row route_strategy from_physical_node_id to_physical_node_id
    received_path_id generated_path_id from_physical_session_id).

Definition received_path (received_path_id : string) (r : RouteResolution) : bool :=
  is_str (rr_received_path_id r) received_path_id && rr_is_valid r.

Definition get_resolution_by_received_path_id (rows : route_table) (received_path_id : string)
    : option RouteResolution :=
  select_latest (received_path received_path_id) rows.

Definition generated_path (generated_path_id : string) (r : RouteResolution) : bool :=
  is_str (rr_generated_path_id r) generated_path_id && rr_is_valid r.

Definition get_resolution_by_generated_path_id (rows : route_table) (generated_path_id : string)
    : option RouteResolution :=
  select_latest (generated_path generated_path_id) rows.

(** The end of a row: the reason and the time go into its metadata. *)
Definition invalidate_row (now : instant) (reason : string) (resolution : RouteResolution)
    : RouteResolution :=
  let metadata := _load_metadata (rr_metadata_json resolution) in
  let metadata := od_set "invalidated_reason" (JStr reason) metadata in
  let metadata := od_set "invalidated_at" (JStr (isoformat now)) metadata in
  resolution <| rr_status := "invalid" |> <| rr_is_valid := false |>
    <| rr_metadata_json := _dump_metadata metadata |>.

Definition hop_path (path_id : string) (r : RouteResolution) : bool :=
  bool_decide (rr_local_role r = "intermediary") && rr_is_valid r
  && (is_str (rr_received_path_id r) path_id || is_str (rr_generated_path_id r) path_id).

Definition invalidate_hop_resolution_by_path_id (rows : route_table) (now : instant)
    (path_id reason : string) : res (option RouteResolution * route_table) :=
  update_latest (hop_path path_id) (invalidate_row now reason) rows.

(** ** Final endpoints *)

Definition endpoint_row (previous_physical_node_id route_strategy : string) (route_nonce : Z)
    (route_path_id kyber_private_key_pem kyber_public_key_pem : string) : RouteResolution :=
  blank_resolution "final_endpoint" "pending_validation"
    <| rr_route_strategy := Some route_strategy |>
    <| rr_route_nonce := Some route_nonce |>
    <| rr_route_path_id := Some route_path_id |>
    <| rr_previous_physical_node_id := Some previous_physical_node_id |>
    <| rr_kyber_private_key_pem := Some kyber_private_key_pem |>
    <| rr_kyber_public_key_pem := Some kyber_public_key_pem |>.

Definition create_endpoint_resolution (rows : route_table)
    (previous_physical_node_id route_strategy : string) (route_nonce : Z)
    (route_path_id kyber_private_key_pem kyber_public_key_pem : string)
    : res (RouteResolution * route_table) :=
  insert_row rows (endpoint_row previous_physical_node_id route_strategy route_nonce route_path_id
    kyber_private_key_pem kyber_public_key_pem).

Definition endpoint_path (route_path_id : string) (r : RouteResolution) : bool :=
  bool_decide (rr_local_role r = "final_endpoint") && is_str (rr_route_path_id r) route_path_id
  && rr_is_valid r.

Definition get_endpoint_resolution_by_path_id (rows : route_table) (route_path_id : string)
    : option RouteResolution :=
  select_latest (endpoint_path route_path_id) rows.

Definition get_endpoint_resolution_by_final_path_id (rows : route_table) (final_path_id : string)
    : option RouteResolution :=
  select_latest (fun r => bool_decide (rr_local_role r = "final_endpoint")
    && is_str (rr_final_path_id r) final_path_id && rr_is_valid r) rows.

Definition invalidate_endpoint_resolution (rows : route_table) (now : instant)
    (route_path_id reason : string) : res (option RouteResolution * route_table) :=
  update_latest (endpoint_path route_path_id) (invalidate_row now reason) rows.

(** The assignments of [update_endpoint_resolution_validation_context]. *)
Definition set_validation_context (shared_secret_hex final_path_id remote_virtual_node_public_key
     virtual_node_signature physical_node_signature public_route_acceptance_signature
     remote_virtual_node_id : string) (expected_round_trip_ttl_ms : pyint) (ping_id : string)
    (ping_sent_at_monotonic_ms : string) (resolution : RouteResolution) : RouteResolution :=
  let metadata := _load_metadata (rr_metadata_json resolution) in
  let metadata := od_set "remote_virtual_node_id" (JStr remote_virtual_node_id) metadata in
  let metadata :=
    od_set "remote_virtual_node_public_key" (JStr remote_virtual_node_public_key) metadata in
  let metadata :=
    od_set "expected_round_trip_ttl_ms" (pyint_json expected_round_trip_ttl_ms) metadata in
  let metadata := od_set "last_ping_id" (JStr ping_id) metadata in
  let metadata :=
    od_set "last_ping_sent_at_monotonic_ms" (JFloat ping_sent_at_monotonic_ms) metadata in
  resolution <| rr_shared_secret_hex := Some shared_secret_hex |>
    <| rr_final_path_id := Some final_path_id |>
    <| rr_virtual_node_signature := Some virtual_node_signature |>
    <| rr_physical_node_signature := Some physical_node_signature |>
    <| rr_public_route_acceptance_signature := Some public_route_acceptance_signature |>
    <| rr_status := "pending_ping_validation" |>
    <| rr_metadata_json := _dump_metadata metadata |>.

Definition update_endpoint_resolution_validation_context (rows : route_table)
    (route_path_id shared_secret_hex final_path_id remote_virtual_node_public_key
     virtual_node_signature physical_node_signature public_route_acceptance_signature
     remote_virtual_node_id : string) (expected_round_trip_ttl_ms : Z) (ping_id : string)
    (ping_sent_at_monotonic_ms : string) : res (option RouteResolution * route_table) :=
  update_latest (endpoint_path route_path_id)
    (set_validation_context shared_secret_hex final_path_id remote_virtual_node_public_key
       virtual_node_signature physical_node_signature public_route_acceptance_signature
       remote_virtual_node_id (PyInt expected_round_trip_ttl_ms) ping_id
       ping_sent_at_monotonic_ms) rows.

Definition set_active (resolution : RouteResolution) : RouteResolution :=
  resolution <| rr_status := "active" |>.

Definition mark_endpoint_resolution_active (rows : route_table) (route_path_id : string)
    : res (option RouteResolution * route_table) :=
  update_latest (endpoint_path route_path_id) set_active rows.

(** ** Initiators *)

Definition create_initiator_resolution (rows : route_table)
    (first_hop_physical_node_id initial_path_id final_physical_node_public_key : string)
    (expected_round_trip_ttl_ms : option Z) (route_strategy : option string)
    (route_nonce : option Z) (local_virtual_node_id final_path_id virtual_node_signature
      : option string) : res (RouteResolution * route_table) :=
  insert_row rows (blank_resolution "initiator" "pending_kem_offer"
    <| rr_route_strategy := route_strategy |>
    <| rr_route_nonce := route_nonce |>
    <| rr_initial_path_id := Some initial_path_id |>
    <| rr_first_hop_physical_node_id := Some first_hop_physical_node_id |>
    <| rr_local_virtual_node_id := local_virtual_node_id |>
    <| rr_final_physical_node_public_key := Some final_physical_node_public_key |>
    <| rr_final_path_id := final_path_id |>
    <| rr_virtual_node_signature := virtual_node_signature |>
    <| rr_metadata_json :=
         _dump_metadata [("expected_round_trip_ttl_ms", opt_json JInt expected_round_trip_ttl_ms)] |>).

Definition initiator_path (initial_path_id : string) (r : RouteResolution) : bool :=
  bool_decide (rr_local_role r = "initiator") && is_str (rr_initial_path_id r) initial_path_id
  && rr_is_valid r.

Definition get_initiator_resolution_by_initial_path_id (rows : route_table)
    (initial_path_id : string) : option RouteResolution :=
  select_latest (initiator_path initial_path_id) rows.

Definition get_initiator_resolution_by_final_path_id (rows : route_table)
    (final_path_id : string) : option RouteResolution :=
  select_latest (fun r => bool_decide (rr_local_role r = "initiator")
    && is_str (rr_final_path_id r) final_path_id && rr_is_valid r) rows.

Definition pending_status (status : string) : bool :=
  bool_decide (status = "pending_kem_offer") || bool_decide (status = "pending_final_validation").

Definition pending_initiator_of (local_virtual_node_id : string) (r : RouteResolution) : bool :=
  bool_decide (rr_local_role r = "initiator")
  && is_str (rr_local_virtual_node_id r) local_virtual_node_id
  && pending_status (rr_status r) && rr_is_valid r.

Definition get_pending_initiator_resolution_for_local_virtual_node (rows : route_table)
    (local_virtual_node_id : string) : option RouteResolution :=
  select_latest (pending_initiator_of local_virtual_node_id) rows.

Definition list_pending_initiator_resolutions_for_local_virtual_node (rows : route_table)
    (local_virtual_node_id : string) : route_table :=
  select_all (pending_initiator_of local_virtual_node_id) rows.

Definition get_any_pending_initiator_resolution (rows : route_table) : option RouteResolution :=
  head (select_all (fun r => bool_decide (rr_local_role r = "initiator")
    && pending_status (rr_status r) && rr_is_valid r) rows).

Definition get_active_initiator_resolution_for_local_virtual_node (rows : route_table)
    (local_virtual_node_id : string) : option RouteResolution :=
  select_latest (fun r => bool_decide (rr_local_role r = "initiator")
    && is_str (rr_local_virtual_node_id r) local_virtual_node_id
    && bool_decide (rr_status r = "active") && bool_decide (rr_final_path_id r <> None)
    && rr_is_valid r) rows.

Definition mark_initiator_resolution_ping_started (rows : route_table) (initial_path_id : string)
    (ping_id started_at_monotonic_ms : string) : res (option RouteResolution * route_table) :=
  update_latest (initiator_path initial_path_id) (fun resolution =>
    let metadata := _load_metadata (rr_metadata_json resolution) in
    let metadata := od_set "last_ping_id" (JStr ping_id) metadata in
    let metadata :=
      od_set "last_ping_started_at_monotonic_ms" (JFloat started_at_monotonic_ms) metadata in
    resolution <| rr_metadata_json := _dump_metadata metadata |>) rows.

Definition invalidate_initiator_resolution (rows : route_table) (now : instant)
    (initial_path_id reason : string) : res (option RouteResolution * route_table) :=
  update_latest (initiator_path initial_path_id) (invalidate_row now reason) rows.

(** The assignments of [update_initiator_resolution_validation_payload]. *)
Definition set_initiator_payload (local_virtual_node_id final_path_id virtual_node_signature
    shared_secret_hex : string) (resolution : RouteResolution) : RouteResolution :=
  resolution <| rr_local_virtual_node_id := Some local_virtual_node_id |>
    <| rr_final_path_id := Some final_path_id |>
    <| rr_virtual_node_signature := Some virtual_node_signature |>
    <| rr_shared_secret_hex := Some shared_secret_hex |>
    <| rr_status := "pending_final_validation" |>.

Definition update_initiator_resolution_validation_payload (rows : route_table)
    (initial_path_id local_virtual_node_id final_path_id virtual_node_signature
     shared_secret_hex : string) : res (option RouteResolution * route_table) :=
  update_latest (initiator_path initial_path_id)
    (set_initiator_payload local_virtual_node_id final_path_id virtual_node_signature
       shared_secret_hex) rows.

(** The assignments of [mark_initiator_resolution_active]. *)
Definition set_initiator_active (final_path_id virtual_node_signature physical_node_signature
    public_route_acceptance_signature : option string) (resolution : RouteResolution)
    : RouteResolution :=
  resolution <| rr_final_path_id := final_path_id |>
    <| rr_virtual_node_signature := virtual_node_signature |>
    <| rr_physical_node_signature := physical_node_signature |>
    <| rr_public_route_acceptance_signature := public_route_acceptance_signature |>
    <| rr_status := "active" |>.

Definition mark_initiator_resolution_active (rows : route_table)
    (initial_path_id final_path_id virtual_node_signature physical_node_signature
     public_route_acceptance_signature : string) : res (option RouteResolution * route_table) :=
  update_latest (initiator_path initial_path_id)
    (set_initiator_active (Some final_path_id) (Some virtual_node_signature)
       (Some physical_node_signature) (Some public_route_acceptance_signature)) rows.

(** ** Across roles *)

Definition resolve_route_rtt_ms (float_of_int : Z -> res string) (rows : route_table)
    (route_id : string) : res (option string) :=
  first_result (_read_route_rtt_ms float_of_int)
    [get_initiator_resolution_by_final_path_id rows route_id;
     get_endpoint_resolution_by_final_path_id rows route_id;
     get_endpoint_resolution_by_path_id rows route_id].

(** The dictionary returned by [build_drt_publish_request_from_endpoint_resolution]. *)
Record DrtPublishRequest := MkPublishRequest {
  pr_namespace : string;
  pr_logical_key : string;
  pr_record_json : string;
  pr_expires_at : string;
}.

(** [value if isinstance(value, str) and value else None] *)
Definition nonempty_str (value : option json) : option string :=
  match value with Some (JStr s) => if str_truthy s then Some s else None | _ => None end.

Definition nonempty_column (value : option string) : option string :=
  match value with Some s => if str_truthy s then Some s else None | None => None end.

Definition drt_publish_request_of (now : instant)
    (physical_node_public_key rtt_physical_node_signature : string)
    (observed_round_trip_ms : Z) (expires_at : string) (resolution : RouteResolution)
    : option DrtPublishRequest :=
  let metadata := _load_metadata (rr_metadata_json resolution) in
  pk_virtual_node ← nonempty_str (od_get "remote_virtual_node_public_key" metadata);
  let virtual_node_id :=
    match nonempty_str (od_get "remote_virtual_node_id" metadata) with
    | Some s => s
    | None => sha512_hex pk_virtual_node
    end in
  virtual_node_signature ← nonempty_column (rr_virtual_node_signature resolution);
  physical_node_signature ← nonempty_column (rr_physical_node_signature resolution);
  final_path_id ← nonempty_column (rr_final_path_id resolution);
  let record_payload :=
    MkDrt pk_virtual_node
      [MkDrtEntry physical_node_public_key virtual_node_signature final_path_id
         virtual_node_signature physical_node_signature physical_node_signature expires_at
         (PyInt observed_round_trip_ms) rtt_physical_node_signature None]
      (isoformat now) in
  Some (MkPublishRequest "drt" virtual_node_id (serialize_record (Drt record_payload)) expires_at).

Definition build_drt_publish_request_from_endpoint_resolution (rows : route_table)
    (now : instant) (route_path_id physical_node_public_key rtt_physical_node_signature : string)
    (observed_round_trip_ms : Z) (expires_at : string) : option DrtPublishRequest :=
  resolution ← get_endpoint_resolution_by_path_id rows route_path_id;
  drt_publish_request_of now physical_node_public_key rtt_physical_node_signature
    observed_round_trip_ms expires_at resolution.
End service.

(** ** Queries *)

Section queries.
Context (p : RouteResolution -> bool).

Lemma select_latest_None rows :
  select_latest p rows = None <-> Forall (fun r => p r = false) rows.
Proof.
  unfold select_latest. rewrite head_None.
  transitivity (List.filter p rows = []).
  - split; [|intros ->; done]. intros Hs. apply Permutation_nil_r. rewrite <- Hs.
    symmetry. apply py_sorted_Permutation.
  - induction rows as [|r rows IH]; cbn; [done|]. rewrite Forall_cons, <- IH.
    destruct (p r); [|by split; [|intros []]]. by split; [|intros []].
Qed.

Lemma select_latest_Some rows r :
  select_latest p rows = Some r ->
  r ∈ rows /\ p r = true /\ forall r', r' ∈ rows -> p r' = true -> rr_id r' <= rr_id r.
Proof.
  unfold select_latest. intros Hs.
  pose proof (py_sorted_sorted (fun r => - rr_id r) (List.filter p rows)) as Hsorted.
  assert (Hin : forall x, x ∈ py_sorted (fun r => - rr_id r) (List.filter p rows)
            <-> x ∈ rows /\ p x = true).
  { intros x. rewrite elem_of_py_sorted, list_elem_of_In, filter_In, <- list_elem_of_In. done. }
  destruct (py_sorted _ _) as [|r0 l]; [done|]. cbn in Hs. simplify_eq.
  destruct (proj1 (Hin r) ltac:(by left)) as [H1 H2]. split_and!; [done|done|].
  intros r' Hr' Hp. assert (r' ∈ r :: l) as [-> |Hl]%elem_of_cons by (by apply Hin); [lia|].
  apply StronglySorted_inv in Hsorted as [_ Hall]. rewrite Forall_forall in Hall.
  specialize (Hall r' Hl). unfold key_le, cmp_le, cmp, Z_cmp in Hall.
  rewrite Z.compare_ngt_iff in Hall. lia.
Qed.
End queries.

(** ** The table's invariant *)

(** The columns no operation changes after the insertion. *)
Definition frozen_columns (r : RouteResolution) :=
  (rr_id r, rr_local_role r, rr_route_strategy r, rr_route_nonce r,
   (rr_initial_path_id r, rr_route_path_id r, rr_received_path_id r, rr_generated_path_id r),
   (rr_from_physical_node_id r, rr_to_physical_node_id r, rr_previous_physical_node_id r,
    rr_first_hop_physical_node_id r)).

Definition hop_ok (r : RouteResolution) : Prop :=
  rr_local_role r = "intermediary" /\
  (is_Some (rr_received_path_id r) /\ is_Some (rr_generated_path_id r) /\
   is_Some (rr_from_physical_node_id r) /\ is_Some (rr_to_physical_node_id r)) /\
  rr_initial_path_id r = None /\ rr_route_path_id r = None /\ rr_final_path_id r = None /\
  (rr_status r = "forwarding" \/ rr_status r = "invalid").

Definition endpoint_ok (r : RouteResolution) : Prop :=
  rr_local_role r = "final_endpoint" /\
  (is_Some (rr_route_path_id r) /\ is_Some (rr_previous_physical_node_id r) /\
   is_Some (rr_kyber_private_key_pem r) /\ is_Some (rr_kyber_public_key_pem r)) /\
  rr_initial_path_id r = None /\ rr_received_path_id r = None /\ rr_generated_path_id r = None /\
  (rr_status r = "pending_validation" \/ rr_status r = "pending_ping_validation" \/ rr_status r = "active" \/ rr_status r = "invalid") /\
  (rr_status r = "pending_ping_validation" ->
   is_Some (rr_final_path_id r) /\ is_Some (rr_shared_secret_hex r) /\
   is_Some (rr_virtual_node_signature r) /\ is_Some (rr_physical_node_signature r)).

Definition initiator_ok (r : RouteResolution) : Prop :=
  rr_local_role r = "initiator" /\
  (is_Some (rr_initial_path_id r) /\ is_Some (rr_first_hop_physical_node_id r)) /\
  rr_route_path_id r = None /\ rr_received_path_id r = None /\ rr_generated_path_id r = None /\
  (rr_status r = "pending_kem_offer" \/ rr_status r = "pending_final_validation" \/ rr_status r = "active" \/ rr_status r = "invalid") /\
  (rr_status r = "pending_final_validation" ->
   is_Some (rr_final_path_id r) /\ is_Some (rr_local_virtual_node_id r) /\
   is_Some (rr_shared_secret_hex r)) /\
  (rr_status r = "active" ->
   is_Some (rr_final_path_id r) /\ is_Some (rr_virtual_node_signature r) /\
   is_Some (rr_physical_node_signature r) /\ is_Some (rr_public_route_acceptance_signature r)).

Definition row_ok (r : RouteResolution) : Prop :=
  (rr_is_valid r = false <-> rr_status r = "invalid") /\
  (hop_ok r \/ endpoint_ok r \/ initiator_ok r).

Record table_wf (rows : route_table) : Prop := {
  tw_ids : StronglySorted Z.lt (rr_id <$> rows);
  tw_positive : Forall (fun r => 0 < rr_id r) rows;
  tw_unique : Forall (fun c => forall r r' v, r ∈ rows -> r' ∈ rows ->
    c.2 r = Some v -> c.2 r' = Some v -> r = r') unique_columns;
  tw_rows : Forall row_ok rows;
}.

(** Updates that only touch valid rows, keep their identity and their shape. *)
Record good_update (p : RouteResolution -> bool) (f : RouteResolution -> RouteResolution)
    : Prop := {
  gu_valid : forall r, p r = true -> rr_is_valid r = true;
  gu_frozen : forall r, frozen_columns (f r) = frozen_columns r;
  gu_ok : forall r, p r = true -> row_ok r -> row_ok (f r);
}.

Ltac split_path H :=
  rewrite ?andb_true_iff, ?orb_true_iff, ?bool_decide_eq_true in H; unfold is_str in H;
  rewrite ?bool_decide_eq_true in H; destruct_and?.

Ltac row_close :=
  split_and!; try done; try (by eexists); try (by intros [=]); tauto.

Ltac good_update_tac :=
  split;
  [ intros ? Hp; split_path Hp; done
  | done
  | let r := fresh "r" in
    intros r Hp [Hv Hr]; split_path Hp;
    unfold row_ok, hop_ok, endpoint_ok, initiator_ok in *; destruct r; cbn in *; subst;
    split; [done || tauto|];
    destruct Hr as [Hr|[Hr|Hr]]; [left|right; left|right; right]; destruct_and?; simplify_eq;
    row_close ].

Section good.
Context `{FloatText}.

Lemma invalidate_hop_good path now reason : good_update (hop_path path) (invalidate_row now reason).
Proof. unfold hop_path, invalidate_row. good_update_tac. Qed.

Lemma invalidate_endpoint_good path now reason :
  good_update (endpoint_path path) (invalidate_row now reason).
Proof. unfold endpoint_path, invalidate_row. good_update_tac. Qed.

Lemma invalidate_initiator_good path now reason :
  good_update (initiator_path path) (invalidate_row now reason).
Proof. unfold initiator_path, invalidate_row. good_update_tac. Qed.

(** ** Steps *)

Inductive route_step (rows : route_table) : route_table -> Prop :=
| Step_create_hop st f t rp gp sid r rows' :
    create_hop_resolution rows st f t rp gp sid = Ok (r, rows') -> route_step rows rows'
| Step_create_endpoint pv st n p sk pk r rows' :
    create_endpoint_resolution rows pv st n p sk pk = Ok (r, rows') -> route_step rows rows'
| Step_create_initiator fh ip pk ttl st n vn fp vs r rows' :
    create_initiator_resolution rows fh ip pk ttl st n vn fp vs = Ok (r, rows') ->
    route_step rows rows'
| Step_invalidate_hop now p reason o rows' :
    invalidate_hop_resolution_by_path_id rows now p reason = Ok (o, rows') -> route_step rows rows'
| Step_invalidate_endpoint now p reason o rows' :
    invalidate_endpoint_resolution rows now p reason = Ok (o, rows') -> route_step rows rows'
| Step_invalidate_initiator now p reason o rows' :
    invalidate_initiator_resolution rows now p reason = Ok (o, rows') -> route_step rows rows'
| Step_endpoint_context p ss fp pk vs ps acc vn ttl ping at_ o rows' :
    update_endpoint_resolution_validation_context rows p ss fp pk vs ps acc vn ttl ping at_
      = Ok (o, rows') -> route_step rows rows'
| Step_endpoint_active p o rows' :
    mark_endpoint_resolution_active rows p = Ok (o, rows') -> route_step rows rows'
| Step_ping_started p ping at_ o rows' :
    mark_initiator_resolution_ping_started rows p ping at_ = Ok (o, rows') -> route_step rows rows'
| Step_initiator_payload p vn fp vs ss o rows' :
    update_initiator_resolution_validation_payload rows p vn fp vs ss = Ok (o, rows') ->
    route_step rows rows'
| Step_initiator_active p fp vs ps acc o rows' :
    mark_initiator_resolution_active rows p fp vs ps acc = Ok (o, rows') -> route_step rows rows'.

(** Every step inserts one well-shaped row or is a good update. *)
Definition step_shape (rows rows' : route_table) : Prop :=
  (exists row r, (forall id, row_ok (row <| rr_id := id |>)) /\ insert_row rows row = Ok (r, rows')) \/
  (exists p f o, good_update p f /\ update_latest p f rows = Ok (o, rows')).

Lemma shape_insert rows row r rows' :
  (forall id, row_ok (row <| rr_id := id |>)) -> insert_row rows row = Ok (r, rows') ->
  step_shape rows rows'.
Proof. left. eauto. Qed.

Lemma shape_update p f rows o rows' :
  good_update p f -> update_latest p f rows = Ok (o, rows') -> step_shape rows rows'.
Proof. right. eauto. Qed.

Lemma create_hop_shape rows st f t rp gp sid r rows' :
  create_hop_resolution rows st f t rp gp sid = Ok (r, rows') -> step_shape rows rows'.
Proof.
  apply shape_insert. intros id. split; [done|]. left. unfold hop_ok. cbn. row_close.
Qed.

Lemma create_endpoint_shape rows pv st n p sk pk r rows' :
  create_endpoint_resolution rows pv st n p sk pk = Ok (r, rows') -> step_shape rows rows'.
Proof.
  apply shape_insert. intros id. split; [done|]. right; left. unfold endpoint_ok. cbn. row_close.
Qed.

Lemma create_initiator_shape rows fh ip pk ttl st n vn fp vs r rows' :
  create_initiator_resolution rows fh ip pk ttl st n vn fp vs = Ok (r, rows') ->
  step_shape rows rows'.
Proof.
  apply shape_insert. intros id. split; [done|]. right; right. unfold initiator_ok. cbn. row_close.
Qed.

Lemma endpoint_active_shape rows p o rows' :
  mark_endpoint_resolution_active rows p = Ok (o, rows') -> step_shape rows rows'.
Proof. apply shape_update. unfold endpoint_path. good_update_tac. Qed.

Lemma endpoint_context_shape rows p ss fp pk vs ps acc vn ttl ping at_ o rows' :
  update_endpoint_resolution_validation_context rows p ss fp pk vs ps acc vn ttl ping at_
    = Ok (o, rows') -> step_shape rows rows'.
Proof. apply shape_update. unfold endpoint_path, set_validation_context. good_update_tac. Qed.

Lemma ping_started_shape rows p ping at_ o rows' :
  mark_initiator_resolution_ping_started rows p ping at_ = Ok (o, rows') -> step_shape rows rows'.
Proof. apply shape_update. unfold initiator_path, set_initiator_payload, set_initiator_active. good_update_tac. Qed.

Lemma initiator_payload_shape rows p vn fp vs ss o rows' :
  update_initiator_resolution_validation_payload rows p vn fp vs ss = Ok (o, rows') ->
  step_shape rows rows'.
Proof. apply shape_update. unfold initiator_path, set_initiator_payload, set_initiator_active. good_update_tac. Qed.

Lemma initiator_active_shape rows p fp vs ps acc o rows' :
  mark_initiator_resolution_active rows p fp vs ps acc = Ok (o, rows') -> step_shape rows rows'.
Proof. apply shape_update. unfold initiator_path, set_initiator_payload, set_initiator_active. good_update_tac. Qed.

Lemma route_step_shape rows rows' : route_step rows rows' -> step_shape rows rows'.
Proof.
  destruct 1.
  - eapply create_hop_shape; eassumption.
  - eapply create_endpoint_shape; eassumption.
  - eapply create_initiator_shape; eassumption.
  - eapply shape_update; [apply invalidate_hop_good|eassumption].
  - eapply shape_update; [apply invalidate_endpoint_good|eassumption].
  - eapply shape_update; [apply invalidate_initiator_good|eassumption].
  - eapply endpoint_context_shape; eassumption.
  - eapply endpoint_active_shape; eassumption.
  - eapply ping_started_shape; eassumption.
  - eapply initiator_payload_shape; eassumption.
  - eapply initiator_active_shape; eassumption.
Qed.
End good.

(** ** Writes *)

Definition no_conflict (rows : route_table) (row : RouteResolution) : Prop :=
  Forall (fun c => forall r v, r ∈ rows -> rr_id r <> rr_id row -> c.2 row = Some v ->
    c.2 r <> Some v) unique_columns.

Lemma conflicts_false rows row column :
  conflicts rows row column = false <->
  (forall r v, r ∈ rows -> rr_id r <> rr_id row -> column row = Some v -> column r <> Some v).
Proof.
  unfold conflicts. destruct (column row) as [w|]; [|by split].
  rewrite <- not_true_iff_false, existsb_exists. split.
  - intros Hn r v Hr Hid [= <-] Hc. apply Hn. exists r.
    rewrite <- list_elem_of_In, andb_true_iff, !bool_decide_eq_true. done.
  - intros Hn (r & Hr%list_elem_of_In & [Hid Hc]%andb_true_iff).
    rewrite bool_decide_eq_true in Hid, Hc. by eapply Hn.
Qed.

Lemma check_unique_Ok rows row u : check_unique rows row = Ok u <-> no_conflict rows row.
Proof.
  unfold check_unique, no_conflict. destruct u.
  destruct (list_find _ _) as [[i [name column]]|] eqn:E.
  - split; [done|]. intros Hn. apply list_find_Some in E as (Hl & Hc & _).
    rewrite Forall_forall in Hn. specialize (Hn _ (list_elem_of_lookup_2 _ _ _ Hl)).
    cbn in Hc, Hn. apply conflicts_false in Hn. congruence.
  - split; [intros _|done]. apply list_find_None in E. eapply Forall_impl; [exact E|].
    intros c Hc. by apply conflicts_false, not_true_iff_false.
Qed.

Lemma check_unique_error rows row e :
  check_unique rows row = Raise e -> exists name, e = IntegrityError name.
Proof. unfold check_unique. repeat case_match; intros; simplify_eq; eauto. Qed.

Lemma next_id_bound rows : 0 < next_id rows /\ Forall (fun r => rr_id r < next_id rows) rows.
Proof.
  unfold next_id.
  assert (Hg : 0 <= foldr (fun r m => Z.max (rr_id r) m) 0 rows /\
    Forall (fun r => rr_id r <= foldr (fun r m => Z.max (rr_id r) m) 0 rows) rows).
  { induction rows as [|r rows [IH1 IH2]]; cbn; [done|]. split; [lia|]. constructor; [lia|].
    eapply Forall_impl; [exact IH2|]. cbn. lia. }
  destruct Hg as [Hg1 Hg2]. split; [lia|]. eapply Forall_impl; [exact Hg2|]. cbn. lia.
Qed.

Lemma insert_row_Ok rows row r rows' :
  insert_row rows row = Ok (r, rows') ->
  r = row <| rr_id := next_id rows |> /\ rows' = rows ++ [r] /\ no_conflict rows r.
Proof.
  unfold insert_row. cbv zeta. intros Hi. destruct_res.
  match goal with E : check_unique _ _ = _ |- _ => apply check_unique_Ok in E end. done.
Qed.

Lemma id_frozen r r' : frozen_columns r' = frozen_columns r -> rr_id r' = rr_id r.
Proof. by intros [=]. Qed.

(** Replacing the row with the same key. *)
Definition replace_row (row r : RouteResolution) : RouteResolution :=
  if bool_decide (rr_id r = rr_id row) then row else r.

Lemma update_latest_Ok p f rows o rows' :
  update_latest p f rows = Ok (o, rows') ->
  (o = None /\ rows' = rows /\ select_latest p rows = None) \/
  (exists r, select_latest p rows = Some r /\ o = Some (f r) /\ no_conflict rows (f r) /\
     rows' = replace_row (f r) <$> rows).
Proof.
  unfold update_latest, update_row. destruct (select_latest p rows) as [r|] eqn:E; intros Hu.
  - destruct_res. right. exists r. split_and!; auto. by eapply check_unique_Ok.
  - simplify_eq. by left.
Qed.

Lemma replace_row_ids row (rows : route_table) : rr_id <$> (replace_row row <$> rows) = rr_id <$> rows.
Proof.
  rewrite <- list_fmap_compose. apply list_fmap_ext. intros _ r _. cbn. unfold replace_row.
  by case_bool_decide.
Qed.

Lemma sorted_ids_inj (rows : route_table) r r' :
  StronglySorted Z.lt (rr_id <$> rows) -> r ∈ rows -> r' ∈ rows -> rr_id r = rr_id r' -> r = r'.
Proof.
  induction rows as [|x rows IH]; csimpl; [by intros ? ?%not_elem_of_nil|].
  intros [Hs Hall]%StronglySorted_inv Hr Hr' Heq.
  rewrite Forall_fmap, Forall_forall in Hall. cbn in Hall.
  apply elem_of_cons in Hr as [-> |Hr], Hr' as [-> |Hr']; auto.
  - specialize (Hall _ Hr'). lia.
  - specialize (Hall _ Hr). lia.
Qed.

Lemma elem_of_replaced row (rows : route_table) x :
  x ∈ replace_row row <$> rows ->
  x = row \/ (x ∈ rows /\ rr_id x <> rr_id row).
Proof.
  intros (y & -> & Hy)%list_elem_of_fmap. unfold replace_row. case_bool_decide; auto.
Qed.

Lemma insert_row_wf rows row r rows' :
  (forall id, row_ok (row <| rr_id := id |>)) -> table_wf rows ->
  insert_row rows row = Ok (r, rows') -> table_wf rows'.
Proof.
  intros Hrow [Hids Hpos Huniq Hrows] (Hr & -> & Hnc)%insert_row_Ok.
  destruct (next_id_bound rows) as [Hn0 Hn].
  assert (Hid : rr_id r = next_id rows) by (by rewrite Hr).
  assert (Hne : forall x, x ∈ rows -> rr_id x <> rr_id r).
  { intros x Hx. rewrite Forall_forall in Hn. specialize (Hn x Hx). lia. }
  split.
  - rewrite fmap_app. apply StronglySorted_app_2; [|done|repeat constructor].
    intros i j (x & -> & Hx)%list_elem_of_fmap (y & -> & Hy)%list_elem_of_fmap.
    apply list_elem_of_singleton in Hy as ->. rewrite Forall_forall in Hn.
    specialize (Hn x Hx). lia.
  - apply Forall_app. split; [done|]. repeat constructor. lia.
  - rewrite Forall_forall in Huniq |- *. intros c Hc x y v Hx Hy Hcx Hcy.
    unfold no_conflict in Hnc. rewrite Forall_forall in Hnc. specialize (Hnc c Hc).
    apply elem_of_app in Hx as [Hx|Hx], Hy as [Hy|Hy]; rewrite ?list_elem_of_singleton in *; subst.
    + by eapply Huniq.
    + by destruct (Hnc x v Hx (Hne x Hx)).
    + by destruct (Hnc y v Hy (Hne y Hy)).
    + done.
  - apply Forall_app. split; [done|]. constructor; [by rewrite Hr|constructor].
Qed.

Lemma update_latest_wf p f rows o rows' :
  good_update p f -> table_wf rows -> update_latest p f rows = Ok (o, rows') -> table_wf rows'.
Proof.
  intros [_ Hfr Hok] [Hids Hpos Huniq Hrows] [(_ & -> & _)|(r & Hs & _ & Hnc & ->)]%update_latest_Ok;
    [by split|].
  apply select_latest_Some in Hs as (Hr & Hp & _). rewrite Forall_forall in Hrows. split.
  - by rewrite replace_row_ids.
  - rewrite Forall_forall in Hpos |- *. intros x [-> |[Hx _]]%elem_of_replaced; [|by apply Hpos].
    rewrite (id_frozen _ _ (Hfr r)). by apply Hpos.
  - unfold no_conflict in Hnc. rewrite Forall_forall in Huniq, Hnc |- *.
    intros c Hc x y v Hx Hy Hcx Hcy. specialize (Hnc c Hc).
    apply elem_of_replaced in Hx as [-> |[Hx Hxi]], Hy as [-> |[Hy Hyi]].
    + done.
    + by destruct (Hnc y v Hy Hyi).
    + by destruct (Hnc x v Hx Hxi).
    + by eapply Huniq.
  - apply Forall_forall. intros x [-> |[Hx _]]%elem_of_replaced; auto.
Qed.

(** What a step does to a row: its identity stays, and it does not change at
    all once it is invalid. *)
Definition row_evolves (r r' : RouteResolution) : Prop :=
  frozen_columns r' = frozen_columns r /\ (rr_is_valid r = false -> r' = r).

Lemma step_shape_evolves rows rows' r :
  table_wf rows -> step_shape rows rows' -> r ∈ rows -> exists r', r' ∈ rows' /\ row_evolves r r'.
Proof.
  intros Hwf [(row & ro & _ & (_ & -> & _)%insert_row_Ok)|(p & f & o & Hg & Hu)] Hr.
  - exists r. split; [set_solver|done].
  - apply update_latest_Ok in Hu as [(_ & -> & _)|(r0 & Hs & _ & _ & ->)]; [by exists r|].
    apply select_latest_Some in Hs as (Hr0 & Hp & _).
    exists (replace_row (f r0) r). split; [by apply list_elem_of_fmap_2|].
    unfold replace_row. case_bool_decide as Heq; [|done].
    rewrite (id_frozen _ _ (gu_frozen _ _ Hg r0)) in Heq.
    rewrite (sorted_ids_inj rows r r0 (tw_ids _ Hwf) Hr Hr0 Heq).
    split; [apply (gu_frozen _ _ Hg)|]. rewrite (gu_valid _ _ Hg _ Hp). done.
Qed.

Section reachable.
Context `{FloatText}.

Lemma route_step_wf rows rows' : table_wf rows -> route_step rows rows' -> table_wf rows'.
Proof.
  intros Hwf [(row & r & Hrow & Hi)|(p & f & o & Hg & Hu)]%route_step_shape.
  - by eapply insert_row_wf.
  - by eapply update_latest_wf.
Qed.

Lemma empty_table_wf : table_wf [].
Proof.
  split; [constructor|constructor| |constructor].
  apply Forall_true. by intros c r r' v Hr%not_elem_of_nil.
Qed.

Lemma route_steps_wf rows rows' : table_wf rows -> rtc route_step rows rows' -> table_wf rows'.
Proof. intros Hwf Hs. induction Hs; eauto using route_step_wf. Qed.

Lemma route_steps_evolve rows rows' r :
  table_wf rows -> rtc route_step rows rows' -> r ∈ rows ->
  exists r', r' ∈ rows' /\ row_evolves r r'.
Proof.
  intros Hwf Hs. revert r Hwf. induction Hs as [rows|rows rows1 rows2 Hstep Hs IH]; intros r Hwf Hr.
  - by exists r.
  - pose proof (step_shape_evolves _ _ _ Hwf (route_step_shape _ _ Hstep) Hr) as (r1 & Hr1 & Hf1 & Hv1).
    destruct (IH r1 (route_step_wf _ _ Hwf Hstep) Hr1) as (r2 & Hr2 & Hf2 & Hv2).
    exists r2. split; [done|]. split; [congruence|].
    intros Hinv. specialize (Hv1 Hinv). subst r1. auto.
Qed.


(** The column values an insertion must not repeat. *)
Lemma insert_conflict rows row name column v r :
  (name, column) ∈ unique_columns -> r ∈ rows -> column r = Some v ->
  (forall id, column (row <| rr_id := id |>) = Some v) -> check_integer (rr_route_nonce row) = Ok tt ->
  exists c, insert_row rows row = Raise (IntegrityError c).
Proof.
  intros Hc Hr Hv Hrow Hint. unfold insert_row. cbv zeta.
  change (rr_route_nonce (row <| rr_id := _ |>)) with (rr_route_nonce row). rewrite Hint.
  cbn [mbind res_bind].
  destruct (check_unique rows (row <| rr_id := next_id rows |>)) as [u|e] eqn:E.
  - apply check_unique_Ok in E. unfold no_conflict in E. rewrite Forall_forall in E.
    destruct (E _ Hc r v Hr); [|by apply Hrow|done].
    destruct (next_id_bound rows) as [_ Hn]. rewrite Forall_forall in Hn.
    specialize (Hn r Hr). change (rr_id r <> next_id rows). lia.
  - apply check_unique_error in E as (c & ->). by exists c.
Qed.

(** Route identifiers are used once. Whatever happens to a resolution, it
    stays in the table with its role, paths and neighbours, an invalidated one
    does not change any more, and its initial or route path can never be given
    to another resolution: creating one raises [IntegrityError]. *)
Theorem route_path_single_use (rows rows' : route_table) (r : RouteResolution) :
  rtc route_step [] rows -> rtc route_step rows rows' -> r ∈ rows ->
  (exists r', r' ∈ rows' /\ frozen_columns r' = frozen_columns r /\
     (rr_is_valid r = false -> r' = r)) /\
  (forall p, rr_route_path_id r = Some p -> forall pv st n sk pk, - 2 ^ 63 <= n < 2 ^ 63 ->
     exists c, create_endpoint_resolution rows' pv st n p sk pk = Raise (IntegrityError c)) /\
  (forall p, rr_initial_path_id r = Some p -> forall fh pk ttl st vn fp vs,
     exists c, create_initiator_resolution rows' fh p pk ttl st None vn fp vs
               = Raise (IntegrityError c)).
Proof.
  intros H0 Hs Hr. pose proof (route_steps_wf _ _ empty_table_wf H0) as Hwf.
  destruct (route_steps_evolve _ _ _ Hwf Hs Hr) as (r' & Hr' & Hf & Hv). split_and!.
  - by exists r'.
  - intros p Hp pv st n sk pk Hn. eapply (insert_conflict _ _ "route_path_id" rr_route_path_id p r').
    + apply list_elem_of_In. cbn. auto.
    + done.
    + by injection Hf as _ _ _ _ _ ->.
    + done.
    + cbn. rewrite (proj2 (Z.leb_le _ _)), (proj2 (Z.ltb_lt _ _)) by lia. done.
  - intros p Hp fh pk ttl st vn fp vs.
    eapply (insert_conflict _ _ "initial_path_id" rr_initial_path_id p r').
    + apply list_elem_of_In. cbn. auto.
    + done.
    + by injection Hf as _ _ _ _ ->.
    + done.
    + done.
Qed.
End reachable.

(** ** Invalidation *)

Section invalidation.
Context `{FloatText}.

(** The table after the latest row that satisfies [q] was taken out of use. *)
Definition invalidated (q : RouteResolution -> bool) (now : instant) (reason : string)
    (rows rows' : route_table) : Prop :=
  forall x, x ∈ rows' <->
    (x ∈ rows /\ select_latest q rows <> Some x) \/
    (exists r, select_latest q rows = Some r /\ x = invalidate_row now reason r).

Lemma invalidate_no_conflict rows now reason r :
  table_wf rows -> r ∈ rows -> no_conflict rows (invalidate_row now reason r).
Proof.
  intros Hwf Hr. pose proof (tw_unique _ Hwf) as Hu. unfold no_conflict.
  rewrite Forall_forall in Hu |- *. intros c Hc x v Hx Hid Hv Hxv.
  apply Hid. change (rr_id (invalidate_row now reason r)) with (rr_id r). f_equal.
  apply (Hu c Hc x r v); [done|done|done|]. rewrite <- Hv. apply list_elem_of_In in Hc.
  by destruct Hc as [<-|[<-|[<-|[]]]].
Qed.

Lemma invalidate_latest_spec q now reason rows :
  table_wf rows -> (forall r, q r = true -> rr_is_valid r = true) ->
  exists rows', update_latest q (invalidate_row now reason) rows
      = Ok (invalidate_row now reason <$> select_latest q rows, rows') /\
    invalidated q now reason rows rows'.
Proof.
  intros Hwf Hq. unfold update_latest, update_row, invalidated.
  destruct (select_latest q rows) as [r|] eqn:E.
  - pose proof (select_latest_Some _ _ _ E) as (Hr & Hp & _).
    rewrite (proj2 (check_unique_Ok _ _ tt)) by (by apply invalidate_no_conflict).
    cbn [mbind res_bind]. eexists. split; [done|]. intros x.
    change (map _ rows) with (replace_row (invalidate_row now reason r) <$> rows). split.
    + intros [-> |[Hx Hid]]%elem_of_replaced; [by right; exists r|]. left. split; [done|].
      intros [= ->]. by apply Hid.
    + intros [[Hx Hne]|(r' & [= <-] & ->)].
      * apply list_elem_of_fmap. exists x. split; [|done]. unfold replace_row.
        case_bool_decide as Hid; [|done]. exfalso. apply Hne. f_equal.
        apply (sorted_ids_inj rows); auto using tw_ids.
      * apply list_elem_of_fmap. exists r. split; [|done]. unfold replace_row.
        by rewrite bool_decide_true.
  - exists rows. split; [done|]. intros x. split; [by left|]. intros [[Hx _]|(r & [=] & _)]. done.
Qed.

Lemma invalidated_lookup q now reason rows rows' :
  (forall r, q r = true -> rr_is_valid r = true) ->
  (forall r r', r ∈ rows -> r' ∈ rows -> q r = true -> q r' = true -> r = r') ->
  invalidated q now reason rows rows' -> select_latest q rows' = None.
Proof.
  intros Hq Huniq Hinv. apply select_latest_None, Forall_forall. intros x Hx.
  apply Hinv in Hx as [[Hx Hne]|(r & Hr & ->)].
  - apply not_true_iff_false. intros Hqx. apply Hne.
    destruct (select_latest q rows) as [r|] eqn:E.
    + apply select_latest_Some in E as (Hr & Hqr & _). f_equal. by apply Huniq.
    + apply select_latest_None in E. rewrite Forall_forall in E. rewrite E in Hqx; done.
  - apply not_true_iff_false. intros Hqr%Hq. done.
Qed.

Lemma endpoint_path_inj rows p r r' :
  table_wf rows -> r ∈ rows -> r' ∈ rows -> endpoint_path p r = true -> endpoint_path p r' = true ->
  r = r'.
Proof.
  intros Hwf Hr Hr' H1 H2. unfold endpoint_path in *. split_path H1. split_path H2.
  pose proof (tw_unique _ Hwf) as Hu. rewrite Forall_forall in Hu.
  apply (Hu ("route_path_id", rr_route_path_id)) with (v := p); try done.
  apply list_elem_of_In. cbn. auto.
Qed.

Lemma initiator_path_inj rows p r r' :
  table_wf rows -> r ∈ rows -> r' ∈ rows -> initiator_path p r = true -> initiator_path p r' = true ->
  r = r'.
Proof.
  intros Hwf Hr Hr' H1 H2. unfold initiator_path in *. split_path H1. split_path H2.
  pose proof (tw_unique _ Hwf) as Hu. rewrite Forall_forall in Hu.
  apply (Hu ("initial_path_id", rr_initial_path_id)) with (v := p); try done.
  apply list_elem_of_In. cbn. auto.
Qed.

(** Taking a route out of use. In a reachable table invalidation never
    fails; it marks the latest matching resolution invalid, with reason and time,
    and leaves every other row as it is. Endpoints and initiators are then no
    longer found by their path; for hops, whose paths are not unique, what is
    found afterwards is an older resolution that was already there. *)
Theorem invalidation_spec (rows : route_table) (now : instant) (p reason : string) :
  rtc route_step [] rows ->
  (exists rows', invalidate_endpoint_resolution rows now p reason
      = Ok (invalidate_row now reason <$> get_endpoint_resolution_by_path_id rows p, rows') /\
    invalidated (endpoint_path p) now reason rows rows' /\
    get_endpoint_resolution_by_path_id rows' p = None) /\
  (exists rows', invalidate_initiator_resolution rows now p reason
      = Ok (invalidate_row now reason <$> get_initiator_resolution_by_initial_path_id rows p, rows') /\
    invalidated (initiator_path p) now reason rows rows' /\
    get_initiator_resolution_by_initial_path_id rows' p = None) /\
  (exists rows', invalidate_hop_resolution_by_path_id rows now p reason
      = Ok (invalidate_row now reason <$> select_latest (hop_path p) rows, rows') /\
    invalidated (hop_path p) now reason rows rows' /\
    (forall r r', select_latest (hop_path p) rows = Some r ->
       select_latest (hop_path p) rows' = Some r' -> r' ∈ rows /\ rr_id r' < rr_id r)).
Proof.
  intros Hwf%(route_steps_wf _ _ empty_table_wf). split_and!.
  - destruct (invalidate_latest_spec (endpoint_path p) now reason rows Hwf) as (rows' & Hu & Hinv);
      [apply (gu_valid _ _ (invalidate_endpoint_good p now reason))|].
    exists rows'. split_and!; [done|done|]. eapply invalidated_lookup; [| |exact Hinv].
    + apply (gu_valid _ _ (invalidate_endpoint_good p now reason)).
    + intros. by eapply endpoint_path_inj.
  - destruct (invalidate_latest_spec (initiator_path p) now reason rows Hwf) as (rows' & Hu & Hinv);
      [apply (gu_valid _ _ (invalidate_initiator_good p now reason))|].
    exists rows'. split_and!; [done|done|]. eapply invalidated_lookup; [| |exact Hinv].
    + apply (gu_valid _ _ (invalidate_initiator_good p now reason)).
    + intros. by eapply initiator_path_inj.
  - pose proof (gu_valid _ _ (invalidate_hop_good p now reason)) as Hvalid.
    destruct (invalidate_latest_spec (hop_path p) now reason rows Hwf Hvalid) as (rows' & Hu & Hinv).
    exists rows'. split_and!; [done|done|].
    intros r r' Hr (Hin & Hq & _)%select_latest_Some. apply Hinv in Hin as [[Hin Hne]|(r0 & _ & ->)].
    + split; [done|]. pose proof (select_latest_Some _ _ _ Hr) as (Hrin & _ & Hmax).
      specialize (Hmax r' Hin Hq). destruct (decide (rr_id r' = rr_id r)) as [Hid|]; [|lia].
      destruct Hne. rewrite Hr. f_equal. symmetry. by apply (sorted_ids_inj rows); auto using tw_ids.
    + by apply Hvalid in Hq.
Qed.
End invalidation.

(** ** Publication of a validated route *)

(** Texts that are not empty. *)
Definition texts (l : list string) : Prop := Forall (fun s => unicode s /\ s <> "") l.

Ltac text_hyps :=
  unfold texts in *;
  repeat match goal with
  | H : Forall _ (_ :: _) |- _ => apply Forall_cons in H as [[? ?] H]
  end.

Section publication.
Context `{FloatText}.

Lemma get_endpoint_unique rows p r :
  table_wf rows -> r ∈ rows -> endpoint_path p r = true ->
  get_endpoint_resolution_by_path_id rows p = Some r.
Proof.
  intros Hwf Hr Hp. unfold get_endpoint_resolution_by_path_id.
  destruct (select_latest (endpoint_path p) rows) as [r'|] eqn:E.
  - apply select_latest_Some in E as (Hr' & Hp' & _). f_equal. by eapply endpoint_path_inj.
  - apply select_latest_None in E. rewrite Forall_forall in E. specialize (E r Hr). congruence.
Qed.

(** An update of the endpoint found under a path that keeps it there. *)
Lemma update_endpoint_found rows p f r o rows' :
  table_wf rows -> get_endpoint_resolution_by_path_id rows p = Some r ->
  rr_id (f r) = rr_id r -> endpoint_path p (f r) = true -> table_wf rows' ->
  update_latest (endpoint_path p) f rows = Ok (o, rows') ->
  get_endpoint_resolution_by_path_id rows' p = Some (f r).
Proof.
  intros Hwf Hg Hid Hp Hwf' Hu. apply get_endpoint_unique; [done| |done].
  unfold get_endpoint_resolution_by_path_id in Hg.
  apply update_latest_Ok in Hu as [(_ & _ & Hn)|(r' & Hs & _ & _ & ->)]; [congruence|].
  assert (r' = r) as -> by congruence. apply select_latest_Some in Hg as (Hr & _).
  apply list_elem_of_fmap. exists r. split; [|done]. unfold replace_row. by rewrite bool_decide_true.
Qed.

Lemma load_dump_metadata (m : jdict) :
  dict_wf m -> m <> [] -> _load_metadata (_dump_metadata m) = norm_dict m.
Proof. intros Hm Hne. destruct m; [done|]. by apply load_dumped. Qed.

(** The metadata [update_endpoint_resolution_validation_context] writes on a
    freshly created endpoint. *)
Definition context_metadata (vid vpk : string) (ttl : Z) (ping at_ : string) : jdict :=
  [("remote_virtual_node_id", JStr vid); ("remote_virtual_node_public_key", JStr vpk);
   ("expected_round_trip_ttl_ms", JInt ttl); ("last_ping_id", JStr ping);
   ("last_ping_sent_at_monotonic_ms", JFloat at_)].

Lemma context_metadata_wf vid vpk ttl ping at_ :
  unicode vid -> unicode vpk -> unicode ping -> float_text at_ ->
  dict_wf (context_metadata vid vpk ttl ping at_).
Proof.
  intros. unfold context_metadata. json_wf_tac.
Qed.

Lemma published_record_wf vpk e now :
  texts [vpk; re_pk_physical_node e; re_virtual_node_signature e; re_final_path_id e;
    re_entry_point_virtual_node_signature e; re_entry_point_physical_node_signature e;
    re_physical_node_signature e; re_expires_at e; re_rtt_physical_node_signature e] ->
  re_pow_nonce e = None -> re_rtt e = PyInt (pyint_val (re_rtt e)) ->
  payload_wf (Drt (MkDrt vpk [e] (isoformat now))) /\
  dict_wf (payload_dict (Drt (MkDrt vpk [e] (isoformat now)))).
Proof.
  intros Ht Hn Hr. text_hyps. destruct (isoformat_text now) as [Hu Hne]. destruct e. cbn in *.
  rewrite Hn, Hr. split; [by repeat constructor|].
  unfold payload_dict, drt_dict, drt_entry_dict. json_wf_tac.
Qed.

Lemma context_path p ss fp vpk vs ps acc vid ttl ping at_ r :
  endpoint_path p (set_validation_context ss fp vpk vs ps acc vid ttl ping at_ r)
  = endpoint_path p r.
Proof. by destruct r. Qed.

Lemma context_id ss fp vpk vs ps acc vid ttl ping at_ r :
  rr_id (set_validation_context ss fp vpk vs ps acc vid ttl ping at_ r) = rr_id r.
Proof. by destruct r. Qed.

Lemma active_id r : rr_id (set_active r) = rr_id r.
Proof. by destruct r. Qed.

Lemma active_path p r : endpoint_path p (set_active r) = endpoint_path p r.
Proof. by destruct r. Qed.

(** The columns publication reads. *)
Definition published_columns (r : RouteResolution) :=
  (rr_metadata_json r, rr_virtual_node_signature r, rr_physical_node_signature r, rr_final_path_id r).

Lemma published_columns_eq r a b c d :
  published_columns r = (a, b, c, d) ->
  rr_metadata_json r = a /\ rr_virtual_node_signature r = b /\ rr_physical_node_signature r = c /\
  rr_final_path_id r = d.
Proof. by intros [= -> -> -> ->]. Qed.

Lemma active_columns r : published_columns (set_active r) = published_columns r.
Proof. by destruct r. Qed.

Lemma context_columns ss fp vpk vs ps acc vid ttl ping at_ r :
  rr_metadata_json r = None ->
  published_columns (set_validation_context ss fp vpk vs ps acc vid (PyInt ttl) ping at_ r)
  = (_dump_metadata (context_metadata vid vpk ttl ping at_), Some vs, Some ps, Some fp).
Proof.
  intros Hr. unfold published_columns.
  assert (Hm : rr_metadata_json (set_validation_context ss fp vpk vs ps acc vid (PyInt ttl) ping at_ r)
            = _dump_metadata (context_metadata vid vpk ttl ping at_)); [|rewrite Hm; by destruct r].
  transitivity (_dump_metadata
    (od_set "last_ping_sent_at_monotonic_ms" (JFloat at_)
      (od_set "last_ping_id" (JStr ping)
        (od_set "expected_round_trip_ttl_ms" (JInt ttl)
          (od_set "remote_virtual_node_public_key" (JStr vpk)
            (od_set "remote_virtual_node_id" (JStr vid) (_load_metadata (rr_metadata_json r)))))))).
  - by destruct r.
  - rewrite Hr. f_equal.
Qed.

Lemma endpoint_row_id pv st n p sk pk id r :
  r = endpoint_row pv st n p sk pk <| rr_id := id |> ->
  endpoint_path p r = true /\ rr_metadata_json r = None.
Proof.
  intros ->. split; [|reflexivity]. unfold endpoint_path, is_str.
  rewrite !bool_decide_true; reflexivity.
Qed.

Lemma created_endpoint rows pv st n p sk pk r0 rows1 :
  create_endpoint_resolution rows pv st n p sk pk = Ok (r0, rows1) ->
  r0 ∈ rows1 /\ endpoint_path p r0 = true /\ rr_metadata_json r0 = None.
Proof.
  intros (Hr0 & -> & _)%insert_row_Ok. split; [|by eapply endpoint_row_id].
  apply elem_of_app. right. by apply list_elem_of_singleton.
Qed.

(** The endpoint found after creation, validation and activation. *)
Lemma validated_endpoint rows rows1 rows2 rows3 r0 o1 o2 pv st n p sk pk ss fp vpk vs ps acc vid
    ttl ping at_ :
  table_wf rows ->
  create_endpoint_resolution rows pv st n p sk pk = Ok (r0, rows1) ->
  update_endpoint_resolution_validation_context rows1 p ss fp vpk vs ps acc vid ttl ping at_
    = Ok (o1, rows2) ->
  mark_endpoint_resolution_active rows2 p = Ok (o2, rows3) ->
  exists r, get_endpoint_resolution_by_path_id rows3 p = Some r /\
    published_columns r
    = (_dump_metadata (context_metadata vid vpk ttl ping at_), Some vs, Some ps, Some fp).
Proof.
  intros Hwf Hc Hu Hm.
  assert (Hwf1 : table_wf rows1) by (eapply route_step_wf; [exact Hwf|by eapply Step_create_endpoint]).
  assert (Hwf2 : table_wf rows2) by (eapply route_step_wf; [exact Hwf1|by eapply Step_endpoint_context]).
  assert (Hwf3 : table_wf rows3) by (eapply route_step_wf; [exact Hwf2|by eapply Step_endpoint_active]).
  apply created_endpoint in Hc as (Hr0 & Hp0 & Hmeta).
  pose proof (get_endpoint_unique rows1 p r0 Hwf1 Hr0 Hp0) as Hid.
  unfold update_endpoint_resolution_validation_context in Hu.
  eapply update_endpoint_found in Hu;
    [|exact Hwf1|exact Hid|apply context_id|rewrite context_path; exact Hp0|exact Hwf2].
  unfold mark_endpoint_resolution_active in Hm.
  eapply update_endpoint_found in Hm;
    [|exact Hwf2|exact Hu|apply active_id|rewrite active_path, context_path; exact Hp0|exact Hwf3].
  eexists. split; [exact Hm|].
  rewrite active_columns. by apply context_columns.
Qed.

(** The record a validated endpoint publishes. *)
Definition published_record (ppk vs ps fp vpk rsig expires : string) (rtt : Z) (now : instant) : DhtPayload :=
  Drt (MkDrt vpk [MkDrtEntry ppk vs fp vs ps ps expires (PyInt rtt) rsig None] (isoformat now)).

Lemma publish_request_run r vid vpk ttl ping at_ vs ps fp ppk rsig rtt expires now :
  published_columns r
  = (_dump_metadata (context_metadata vid vpk ttl ping at_), Some vs, Some ps, Some fp) ->
  texts [vid; vpk; fp; vs; ps] -> unicode ping -> float_text at_ ->
  drt_publish_request_of now ppk rsig rtt expires r
  = Some (MkPublishRequest "drt" vid
      (serialize_record (published_record ppk vs ps fp vpk rsig expires rtt now)) expires).
Proof.
  intros (Hmeta & Hvs & Hps & Hfp)%published_columns_eq Ht Hping Hat.
  text_hyps. unfold drt_publish_request_of. cbv zeta.
  rewrite Hmeta, load_dump_metadata by (try apply context_metadata_wf; done).
  rewrite !norm_dict_get by (by apply dict_wf_od, context_metadata_wf).
  rewrite Hvs, Hps, Hfp. unfold context_metadata. od_eval.
  cbn [fmap option_fmap option_map json_norm nonempty_str nonempty_column].
  repeat match goal with
  | H : ?x <> "" |- context [str_truthy ?x] => rewrite (proj2 (str_truthy_spec x) H)
  end. reflexivity.
Qed.

Lemma published_record_parses ppk vs ps fp vpk rsig expires rtt now :
  texts [vpk; fp; vs; ps; ppk; rsig; expires] ->
  parse_record "drt" (serialize_record (published_record ppk vs ps fp vpk rsig expires rtt now))
  = Ok (published_record ppk vs ps fp vpk rsig expires rtt now).
Proof.
  intros Ht. text_hyps. destruct (published_record_wf vpk
    (MkDrtEntry ppk vs fp vs ps ps expires (PyInt rtt) rsig None) now) as [Hpw Hdw];
    [unfold texts; by repeat constructor|done|done|].
  unfold published_record. by rewrite parse_serialized.
Qed.

(** From route validation to publication. Once an endpoint was created,
    validated by the initiator and activated, the publication request for its
    route is built; its record parses, at every node, to exactly one entry with
    the path and the signatures of the validation, owned by the virtual node; and
    the key derived from it passes the owner check of the DHT merge when the
    virtual node's id is the hash of its public key. *)
Theorem endpoint_publication_spec rows rows1 rows2 rows3 r0 o1 o2 pv st n p sk pk ss fp vpk vs ps
    acc vid ttl ping at_ now ppk rsig rtt expires :
  rtc route_step [] rows ->
  create_endpoint_resolution rows pv st n p sk pk = Ok (r0, rows1) ->
  update_endpoint_resolution_validation_context rows1 p ss fp vpk vs ps acc vid ttl ping at_
    = Ok (o1, rows2) ->
  mark_endpoint_resolution_active rows2 p = Ok (o2, rows3) ->
  texts [vid; vpk; fp; vs; ps; ppk; rsig; expires] -> unicode ping -> float_text at_ ->
  exists req,
    build_drt_publish_request_from_endpoint_resolution rows3 now p ppk rsig rtt expires = Some req /\
    pr_namespace req = "drt" /\ pr_logical_key req = vid /\ pr_expires_at req = expires /\
    parse_record "drt" (pr_record_json req)
      = Ok (Drt (MkDrt vpk [MkDrtEntry ppk vs fp vs ps ps expires (PyInt rtt) rsig None]
                   (isoformat now))) /\
    (forall key, vid = sha512_hex vpk -> build_key (pr_namespace req) (pr_logical_key req) = Ok key ->
       _ensure_drt_key_matches_virtual_node key vpk = Ok tt).
Proof.
  intros Hr Hc Hu Hm Ht Hping Hat. pose proof (route_steps_wf _ _ empty_table_wf Hr) as Hwf.
  destruct (validated_endpoint _ _ _ _ _ _ _ _ _ _ _ _ _ _ _ _ _ _ _ _ _ _ _ Hwf Hc Hu Hm)
    as (r & Hg & Hcols).
  unfold build_drt_publish_request_from_endpoint_resolution. rewrite Hg. cbn [mbind option_bind].
  text_hyps. erewrite publish_request_run by (exact Hcols || done || unfold texts; by repeat constructor).
  eexists. split; [reflexivity|]. cbn [pr_namespace pr_logical_key pr_expires_at pr_record_json].
  split_and!; [done..| |].
  - apply published_record_parses. unfold texts. by repeat constructor.
  - intros key -> Hk. unfold build_key in Hk. unfold _ensure_drt_key_matches_virtual_node.
    destruct (str_truthy _); [|done]. cbn in Hk. destruct (str_truthy _); [|done]. 
    apply Ok_inj in Hk as <-. by rewrite bool_decide_true.
Qed.
End publication.

(** ** Witnesses *)

#[local] Instance demo_float_text : FloatText := fun s => s.

Definition demo_row : RouteResolution := endpoint_row "n0" "random_walk_ttl" 7 "path" "sk" "pk"
  <| rr_id := 1 |>.

Lemma demo_reachable : rtc route_step [] [demo_row].
Proof.
  eapply rtc_l; [|apply rtc_refl].
  apply (Step_create_endpoint [] "n0" "random_walk_ttl" 7 "path" "sk" "pk" demo_row).
  vm_compute. reflexivity.
Qed.


Lemma route_path_single_use_witness :
  exists c, create_endpoint_resolution [demo_row] "n9" "s" 1 "path" "sk2" "pk2"
            = Raise (IntegrityError c).
Proof.
  destruct (route_path_single_use [demo_row] [demo_row] demo_row demo_reachable (rtc_refl _ _))
    as (_ & Hcreate & _); [by left|].
  refine (Hcreate "path" _ "n9" "s" 1 "sk2" "pk2" _); [vm_compute; reflexivity|lia].
Defined.

Lemma invalidation_spec_witness :
  exists rows', invalidate_endpoint_resolution [demo_row] 5 "path" "timeout"
      = Ok (Some (invalidate_row 5 "timeout" demo_row), rows') /\
    get_endpoint_resolution_by_path_id rows' "path" = None.
Proof.
  destruct (proj1 (invalidation_spec [demo_row] 5 "path" "timeout" demo_reachable))
    as (rows' & H1 & _ & H2).
  exists rows'. split; [exact H1|exact H2].
Defined.

Definition demo_validated : route_table :=
  catch_all [] (snd <$> update_endpoint_resolution_validation_context [demo_row] "path" "ss" "final"
    "vpk" "vs" "ps" "acc" (sha512_hex "vpk") 90 "ping" "12.5").
Definition demo_activated : route_table :=
  catch_all [] (snd <$> mark_endpoint_resolution_active demo_validated "path").

Lemma endpoint_publication_spec_witness :
  exists req,
    build_drt_publish_request_from_endpoint_resolution demo_activated 0 "path" "ppk" "rs" 42 "later"
      = Some req /\
    parse_record "drt" (pr_record_json req)
      = Ok (Drt (MkDrt "vpk" [MkDrtEntry "ppk" "vs" "final" "vs" "ps" "ps" "later" (PyInt 42) "rs" None]
                   (isoformat 0))).
Proof.
  edestruct (endpoint_publication_spec [] [demo_row] demo_validated demo_activated demo_row
    (head demo_validated) (head demo_activated) "n0" "random_walk_ttl" 7 "path" "sk" "pk" "ss" "final"
    "vpk" "vs" "ps" "acc" (sha512_hex "vpk") 90 "ping" "12.5" 0 "ppk" "rs" 42 "later")
    as (req & H1 & _ & _ & _ & H2 & _).
  - apply rtc_refl.
  - vm_compute. reflexivity.
  - vm_compute. reflexivity.
  - vm_compute. reflexivity.
  - unfold texts. repeat apply Forall_cons_2; try apply Forall_nil_2;
      (split; [apply ascii_unicode; vm_compute; reflexivity|vm_compute; discriminate]).
  - apply ascii_unicode. reflexivity.
  - right; right; right. split; vm_compute; reflexivity.
  - exists req. split; [exact H1|exact H2].
Defined.
