(* ===== verification/Core.v ===== *)
(** * The core: packets, protocol helpers and shared services

    Models [src/app/core/models.py], [src/app/core/protocols/helpers.py], the
    result every handler builds for an invalid message
    ([src/app/core/protocols/base.py]) and the part of [EngineServices]
    ([src/app/core/services.py]) the modelled handlers use.

    A handler is a computation over the services with exceptions ([st]): what it
    changed before raising stays changed. *)

From S2P Require Import Prelude PyJson PyTime Sha512 Crypto JsonText Transport Reliable Sessions Identity RouteService.

(** ** [models.py] *)

Record PacketContext := MkContext {
  pc_transport_name : string;
  pc_payload : string;
  pc_remote_host : option string;
  pc_remote_port : option Z;
  pc_local_host : option string;
  pc_local_port : option Z;
  pc_connection_id : option string;
  pc_received_at : instant;
  pc_metadata : jdict;
}.

Record ProtocolEnvelope := MkEnvelope {
  pe_protocol_name : string;
  pe_message_type : option string;
  pe_payload : json;
  pe_raw_payload : string;
  pe_header : jdict;
}.

(** [pp_payload] is the entry ["payload"] of the metadata, the only one that
    holds [bytes] and not a JSON value. *)
Record PacketProcessingResult := MkResult {
  pp_protocol_name : string;
  pp_handled : bool;
  pp_message_type : option string;
  pp_response_payload : option string;
  pp_metadata : jdict;
  pp_payload : option string;
}.

(** ** [helpers.py] *)

(** [d.get(key)], where a missing key and [None] are the same. *)
Definition py_get (d : jdict) (key : string) : json := default JNull (od_get key d).

(** [d.get(key, default)] *)
Definition py_get_default (d : jdict) (key : string) (v : json) : json := default v (od_get key d).

(** [value if isinstance(value, str) and value else None] *)
Definition truthy_str (value : json) : option string :=
  match value with JStr s => if str_truthy s then Some s else None | _ => None end.

(** [bool(value)]; a float is given by its [repr]. *)
Definition json_truthy (value : json) : bool :=
  match value with
  | JNull => false
  | JBool b => b
  | JInt n => negb (n =? 0)
  | JFloat repr => negb (bool_decide (repr = "0.0") || bool_decide (repr = "-0.0"))
  | JStr s => str_truthy s
  | JArr l => match l with [] => false | _ => true end
  | JObj d => match d with [] => false | _ => true end
  end.

Definition as_payload_dict (envelope : ProtocolEnvelope) : jdict :=
  match pe_payload envelope with JObj d => d | _ => [] end.

(** [uuid] is the result of [uuid4()]. *)
Definition build_response_header (uuid : string) (request_header : jdict) (message_type : string)
    (include_response_to : bool) : jdict :=
  [("version", py_get_default request_header "version" (JInt 1));
   ("message_type", JStr message_type);
   ("message_id", JStr uuid);
   ("message_sequence", py_get request_header "message_sequence");
   ("physical_session_id", py_get request_header "physical_session_id");
   ("virtual_session_id", py_get request_header "virtual_session_id")]
  ++ (if include_response_to
      then [("response_to_message_id", py_get request_header "message_id")] else []).

Definition read_header_string (envelope : ProtocolEnvelope) (field_name : string) : option string :=
  truthy_str (py_get (pe_header envelope) field_name).

Definition read_physical_session_id (envelope : ProtocolEnvelope) : option string :=
  read_header_string envelope "physical_session_id".

Definition read_virtual_session_id (envelope : ProtocolEnvelope) : option string :=
  read_header_string envelope "virtual_session_id".

Definition read_string_or_none (payload : jdict) (field_name : string) : option string :=
  truthy_str (py_get payload field_name).

Definition require_string (payload : jdict) (field_name : string) : res string :=
  match read_string_or_none payload field_name with
  | Some value => Ok value
  | None => Raise (ValueError
      ("Field '" +:+ field_name +:+ "' is required and must be a non-empty string."))
  end.

(** The [raise] after [return value] is never reached: a present value that is
    not a non-empty string falls through to the implicit [None]. *)
Definition optional_string (payload : jdict) (field_name : string) : option string :=
  match py_get payload field_name with
  | JNull => None
  | JStr value => if str_truthy value then Some value else None
  | _ => None
  end.

Definition require_bool (payload : jdict) (field_name : string) : res bool :=
  match py_get payload field_name with
  | JBool value => Ok value
  | _ => Raise (ValueError
      ("O campo '" +:+ field_name +:+ "' e obrigatorio e precisa ser um booleano."))
  end.

Definition read_positive_keepalive_interval (payload : jdict) (default_value : Z) : Z :=
  match json_pyint (py_get payload "keepalive_interval_seconds") with
  | Some value => if 0 <? pyint_val value then pyint_val value else default_value
  | None => default_value
  end.

Definition require_non_negative_int (payload : jdict) (field_name : string) : res Z :=
  match json_pyint (py_get payload field_name) with
  | Some value =>
      require! 0 <=? pyint_val value
        else ValueError (field_name +:+ " precisa ser um inteiro maior ou igual a zero.") in
      Ok (pyint_val value)
  | None => Raise (ValueError (field_name +:+ " precisa ser um inteiro maior ou igual a zero."))
  end.

Definition require_positive_int (payload : jdict) (field_name : string) : res Z :=
  match json_pyint (py_get payload field_name) with
  | Some value =>
      require! 0 <? pyint_val value
        else ValueError (field_name +:+ " precisa ser um inteiro maior que zero.") in
      Ok (pyint_val value)
  | None => Raise (ValueError (field_name +:+ " precisa ser um inteiro maior que zero."))
  end.

(** [ProtocolMessageHandler._build_invalid_result] of a handler family. *)
Definition build_invalid_result (protocol_family : string) (envelope : ProtocolEnvelope)
    (reason : string) : PacketProcessingResult :=
  MkResult (pe_protocol_name envelope) false (pe_message_type envelope) None
    [("protocol_family", JStr protocol_family); ("reason", JStr reason)] None.

(** ** Services

    [uuid4()] and [os.urandom()] are parameters: the [n]-th identifier, and the
    nonces the [n]-th encryption may draw. *)

Class Entropy := {
  uuid4 : nat -> string;
  urandom_nonces : nat -> list string;
}.

(** [os.urandom(12).hex()] is the text of 12 bytes. *)
Class EntropyLaws `{Entropy} := {
  urandom_nonces_drawn : forall n, nonces_drawn (urandom_nonces n);
}.

(** [str(uuid4())] is ASCII text. *)
Class UuidLaws `{Entropy} := {
  uuid4_ascii : forall n, ascii_text (uuid4 n) = true;
  uuid4_nonempty : forall n, uuid4 n <> "";
}.

(** [openssl genpkey]: the private and the public key of the [n]-th generated pair. *)
Class KeyGen := { kyber_key_pair : nat -> string * string }.

(** Documented behaviour of ML-KEM: decapsulation with the private key inverts
    encapsulation for the public key, the secret has 32 bytes; keys are PEM texts. *)
Class KemLaws `{OpenSSL} `{KeyGen} := {
  kem_correct : forall n, exists ciphertext secret,
    openssl_encap (kyber_key_pair n).2 = Ok (ciphertext, secret) /\
    openssl_decap ciphertext (kyber_key_pair n).1 = Ok secret /\
    ciphertext <> "" /\ String.length secret = AES_KEY_SIZE;
  kem_pem : forall n, ascii_text (kyber_key_pair n).2 = true /\
    (kyber_key_pair n).1 <> "" /\ (kyber_key_pair n).2 <> "";
}.

(** Signatures of the private key verify under the public key. *)
Definition signature_pair `{OpenSSL} (private_key public_key : string) : Prop :=
  forall message, exists signature, openssl_sign message private_key = Ok signature /\
    signature <> "" /\ openssl_verify message signature public_key = Ok tt.

Record Services := MkServices {
  sv_session_manager : SessionManager;
  sv_routes : route_table;
  sv_database : Database;
  sv_used_nonces : nonce_set;
  sv_entropy : nat;
  sv_now : instant;
  sv_message_sequence : Z;
  sv_external_ingress_by_route_session : odict (string * string) string;
  sv_sent : list OutboundMessage;
}.

#[export] Instance services_eta : Eta Services := fun s =>
  MkServices (sv_session_manager s) (sv_routes s) (sv_database s) (sv_used_nonces s) (sv_entropy s) (sv_now s)
    (sv_message_sequence s) (sv_external_ingress_by_route_session s) (sv_sent s).

Section services.
Context `{Entropy} `{AesGcmSiv}.

(** [str(uuid4())] *)
Definition new_uuid : st Services string := fun s =>
  (Ok (uuid4 (sv_entropy s)), s <| sv_entropy := S (sv_entropy s) |>).

(** [aes_encrypt_hex(plaintext, key, aad=...)] over the module's nonce registry. *)
Definition encrypt_with (plaintext_hex key_hex : string) (aad : string)
    : st Services AESCipherHexResult := fun s =>
  let '(r, used) :=
    aes_encrypt_hex (sv_used_nonces s) (urandom_nonces (sv_entropy s)) plaintext_hex key_hex
      (Some aad) in
  (r, s <| sv_used_nonces := used |> <| sv_entropy := S (sv_entropy s) |>).

Definition find_session (session_id : string) : st Services (option NetworkSession) :=
  gets (fun s => get_session_by_session_id (sv_session_manager s) session_id).

(** An operation of the session manager, at the current time. *)
Definition on_sessions {A} (f : SessionManager -> instant -> A * SessionManager) : st Services A :=
  fun s =>
    let '(a, sm) := f (sv_session_manager s) (sv_now s) in
    (Ok a, s <| sv_session_manager := sm |>).

(** An operation of the identity service, or of the route service: one transaction. *)
Definition on_database {A} (f : Database -> instant -> res (A * Database)) : st Services A := fun s =>
  match f (sv_database s) (sv_now s) with
  | Ok (a, db) => (Ok a, s <| sv_database := db |>)
  | Raise e => (Raise e, s)
  end.

Definition on_routes {A} (f : route_table -> instant -> res (A * route_table)) : st Services A :=
  fun s =>
    match f (sv_routes s) (sv_now s) with
    | Ok (a, rows) => (Ok a, s <| sv_routes := rows |>)
    | Raise e => (Raise e, s)
    end.

Definition generate_kyber_key_pair `{KeyGen} : st Services (string * string) := fun s =>
  (Ok (kyber_key_pair (sv_entropy s)), s <| sv_entropy := S (sv_entropy s) |>).

Definition touch (session_id : string) : st Services (option NetworkSession) :=
  on_sessions (fun sm now => touch_session sm session_id now None).

(** [session is None or session.session_state != "active" or not session.shared_secret_hex]
    does not hold: the secret of an active session. *)
Definition active_secret (session : option NetworkSession) : option string :=
  match session with
  | Some s =>
      if bool_decide (ns_session_state s = "active") then
        match ns_shared_secret_hex s with
        | Some k => if str_truthy k then Some k else None
        | None => None
        end
      else None
  | None => None
  end.
End services.

(** ** Dictionaries *)

Section dictionaries.
Context `{FloatText}.

Lemma py_get_norm d k : dict_wf d -> py_get (norm_dict d) k = json_norm (py_get d k).
Proof.
  intros Hd. unfold py_get. rewrite norm_dict_get by (by apply dict_wf_od). by destruct (od_get k d).
Qed.

(** The dictionary merged in comes last. *)
Lemma merge_get (a b : jdict) k :
  od_wf b -> py_get (Relay.dict_merge a b) k =
    match od_get k b with Some v => v | None => py_get a k end.
Proof.
  intros Hb. unfold py_get. rewrite Relay.dict_merge_get by done. by destruct (od_get k b).
Qed.

Lemma merge_wf (a b : jdict) : dict_wf a -> dict_wf b -> dict_wf (Relay.dict_merge a b).
Proof.
  intros Ha Hb. inversion_clear Hb as [| | | | | |? _ Hl]. unfold Relay.dict_merge. revert a Ha.
  induction b as [|[k v] b IH]; intros a Ha; [done|]. cbn [foldl fst snd].
  apply Forall_cons in Hl as [[Hk Hv] Hl]. apply IH; [done|]. by apply dict_wf_set.
Qed.

Lemma sha512_unicode s : unicode (sha512_hex s).
Proof.
  apply ascii_unicode. unfold sha512_hex. pose proof (sha512_hexdigest_lower s) as Hl.
  revert Hl. generalize (sha512_hexdigest s). intros t Ht. induction t as [|a t IH]; [done|].
  cbn in Ht |- *. apply andb_true_iff in Ht as [Ha Ht]. rewrite (IH Ht), andb_true_r.
  unfold is_hex_lower in Ha. cbv zeta in Ha. apply N.ltb_lt.
  rewrite orb_true_iff, !andb_true_iff, !N.leb_le in Ha. lia.
Qed.
End dictionaries.
