(* ===== verification/Registry.v ===== *)
(** * The message registry and the router

    Models [src/app/core/message_registry.py] and [src/app/core/router.py]: which
    handler a message type goes to and which sessions it requires. *)

From S2P Require Import Prelude PyJson Core.

(** The handler objects [MessageRegistry.__init__] creates. *)
Inductive handler : Type :=
| PhysicalNodeInfoHandler | PingHandler | PhysicalSessionHandler
| PhysicalNodeInfoExchangeHandler | PhysicalRelayHandler | DhtHandler | RouteBuildHandler
| RouteExecuteHandler | VirtualContentHandler | VirtualMessageHandler | VirtualSessionHandler.

#[export] Instance handler_eq_dec : EqDecision handler.
Proof. solve_decision. Defined.

Record MessageDefinition := MkDefinition {
  md_message_type : string;
  md_handler : handler;
  md_layer : string;
  md_requires_physical_session : bool;
  md_requires_virtual_session : bool;
}.

#[export] Instance definition_eq_dec : EqDecision MessageDefinition.
Proof. solve_decision. Defined.

(** [handler.supported_message_types] of the handlers registered as a whole. *)
Definition supported_message_types (h : handler) : list string :=
  match h with
  | PhysicalRelayHandler => ["PHYSICAL_RELAY_DATA"]
  | DhtHandler => ["DHT_PUBLISH"; "DHT_QUERY"; "DHT_RESULT"]
  | RouteBuildHandler =>
      ["ROUTE_CREATE"; "ROUTE_CREATE_KEM_INFO"; "ROUTE_CREATE_VALIDATE_AND_PUBLISH";
       "ROUTE_CREATE_OK"; "ROUTE_CREATE_FAIL"; "ROUTE_CREATE_PING"; "ROUTE_CREATE_PONG"]
  | RouteExecuteHandler => ["ROUTE_DATA"]
  | VirtualContentHandler =>
      ["VIRTUAL_CONTENT_INFO_REQUEST"; "VIRTUAL_CONTENT_INFO_RESPONSE";
       "VIRTUAL_CONTENT_RANGE_REQUEST"; "VIRTUAL_CONTENT_RANGE_RESPONSE";
       "VIRTUAL_CONTENT_NOT_FOUND"; "VIRTUAL_CONTENT_RANGE_DENIED";
       "VIRTUAL_CONTENT_RANGE_ERROR"]
  | _ => []
  end.

(** The explicit definitions of [MessageRegistry.__init__]. *)
Definition listed_definitions : list MessageDefinition :=
  [MkDefinition "PING" PingHandler "physical" false false;
   MkDefinition "PONG" PingHandler "physical" false false;
   MkDefinition "PHYSICAL_NODE_INFO_REQUEST" PhysicalNodeInfoHandler "physical" false false;
   MkDefinition "PHYSICAL_NODE_INFO_RESPONSE" PhysicalNodeInfoHandler "physical" false false;
   MkDefinition "PHYSICAL_SESSION_INIT" PhysicalSessionHandler "physical" false false;
   MkDefinition "PHYSICAL_SESSION_INIT_OK" PhysicalSessionHandler "physical" false false;
   MkDefinition "PHYSICAL_SESSION_KEY_CONFIRM" PhysicalSessionHandler "physical" false false;
   MkDefinition "PHYSICAL_SESSION_READY" PhysicalSessionHandler "physical" false false;
   MkDefinition "PHYSICAL_SESSION_KEEPALIVE" PhysicalSessionHandler "physical" true false;
   MkDefinition "PHYSICAL_SESSION_KEEPALIVE_ACK" PhysicalSessionHandler "physical" true false;
   MkDefinition "PHYSICAL_SESSION_RELIABLE_DATA" PhysicalSessionHandler "physical" true false;
   MkDefinition "PHYSICAL_SESSION_RELIABLE_ACK" PhysicalSessionHandler "physical" true false;
   MkDefinition "PHYSICAL_SESSION_CLOSE" PhysicalSessionHandler "physical" true false;
   MkDefinition "PHYSICAL_NODE_INFO_EXCHANGE_REQUEST" PhysicalNodeInfoExchangeHandler "physical" true false;
   MkDefinition "PHYSICAL_NODE_INFO_EXCHANGE_RESPONSE" PhysicalNodeInfoExchangeHandler "physical" true false;
   MkDefinition "PHYSICAL_NODE_INFO_ANNOUNCE" PhysicalNodeInfoExchangeHandler "physical" true false;
   MkDefinition "VIRTUAL_SESSION_INIT" VirtualSessionHandler "virtual" true false;
   MkDefinition "VIRTUAL_SESSION_INIT_OK" VirtualSessionHandler "virtual" true false;
   MkDefinition "VIRTUAL_SESSION_KEY_CONFIRM" VirtualSessionHandler "virtual" true false;
   MkDefinition "VIRTUAL_SESSION_READY" VirtualSessionHandler "virtual" true false;
   MkDefinition "VIRTUAL_SESSION_KEEPALIVE" VirtualSessionHandler "virtual" true false;
   MkDefinition "VIRTUAL_SESSION_KEEPALIVE_ACK" VirtualSessionHandler "virtual" true false;
   MkDefinition "VIRTUAL_SESSION_RELIABLE_DATA" VirtualSessionHandler "virtual" true true;
   MkDefinition "VIRTUAL_SESSION_RELIABLE_ACK" VirtualSessionHandler "virtual" true true;
   MkDefinition "VIRTUAL_SESSION_DATA" VirtualMessageHandler "virtual" true true;
   MkDefinition "VIRTUAL_SESSION_CLOSE" VirtualSessionHandler "virtual" true false].

Definition _register_many (definitions : odict string MessageDefinition)
    (l : list MessageDefinition) : odict string MessageDefinition :=
  foldl (fun d m => od_set (md_message_type m) m d) definitions l.

Definition _register_handler (definitions : odict string MessageDefinition) (h : handler)
    (layer : string) (requires_physical_session requires_virtual_session : bool)
    : odict string MessageDefinition :=
  _register_many definitions
    ((fun ty => MkDefinition ty h layer requires_physical_session requires_virtual_session)
       <$> supported_message_types h).

(** [MessageRegistry()._definitions] *)
Definition message_registry : odict string MessageDefinition :=
  let d := _register_many [] listed_definitions in
  let d := _register_handler d PhysicalRelayHandler "physical" true false in
  let d := _register_handler d DhtHandler "physical" true false in
  let d := _register_handler d RouteBuildHandler "physical" true false in
  let d := _register_handler d RouteExecuteHandler "physical" true false in
  _register_handler d VirtualContentHandler "virtual" true true.

Definition get_definition (message_type : option string) : option MessageDefinition :=
  message_type ≫= fun ty => od_get ty message_registry.

Definition _build_unmapped_result (envelope : ProtocolEnvelope) (context : PacketContext)
    : PacketProcessingResult :=
  MkResult (pe_protocol_name envelope) true (pe_message_type envelope) None
    [("protocol_family", JStr "unmapped");
     ("transport_name", JStr (pc_transport_name context));
     ("recognized_keys", JArr (JStr <$> py_sorted id (as_payload_dict envelope).*1));
     ("next_step", JStr "register_message_handler")] None.

(** [route]; [handle] stands for the handlers' [handle] methods. *)
Definition route
    (handle : handler -> ProtocolEnvelope -> PacketContext -> st Services PacketProcessingResult)
    (envelope : ProtocolEnvelope) (context : PacketContext) : st Services PacketProcessingResult :=
  match get_definition (pe_message_type envelope) with
  | None => mret (_build_unmapped_result envelope context)
  | Some definition => handle (md_handler definition) envelope context
  end.

(** The messages that need no session: liveness, node information and the
    handshake of a physical session. *)
Definition sessionless_types : list string :=
  ["PING"; "PONG"; "PHYSICAL_NODE_INFO_REQUEST"; "PHYSICAL_NODE_INFO_RESPONSE";
   "PHYSICAL_SESSION_INIT"; "PHYSICAL_SESSION_INIT_OK"; "PHYSICAL_SESSION_KEY_CONFIRM";
   "PHYSICAL_SESSION_READY"].

Lemma registry_requires_session ty d :
  get_definition (Some ty) = Some d ->
  md_message_type d = ty /\ (md_requires_physical_session d = false <-> ty ∈ sessionless_types).
Proof.
  unfold get_definition. cbn [mbind option_bind]. intros Hd%od_get_elem_of.
  assert (Hall : Forall (fun p => md_message_type p.2 = p.1 /\
    md_requires_physical_session p.2 = negb (bool_decide (p.1 ∈ sessionless_types)))
    message_registry).
  { apply (bool_decide_unpack _). vm_compute. exact I. }
  rewrite Forall_forall in Hall. destruct (Hall _ Hd) as [Hty Hreq]. cbn in Hty, Hreq.
  split; [done|]. rewrite Hreq, negb_false_iff, bool_decide_eq_true. done.
Qed.
