(* ===== verification/Engine.v ===== *)
(** * The engine: packets in and out

    Models the packet path of [CoreEngine] ([src/app/core/engine.py]): decoding a
    received packet, decrypting its payload, the session policy, dispatch to the
    handlers, the protection of outgoing packets, and the actions a handler's
    result asks for (forwarding to a node, sending to a session).

    Parameters: the outcome of [TransportService.send], the client that opens a
    physical session, and the handlers. *)

From S2P Require Import Prelude PyJson PyTime Sha512 Crypto JsonText Transport.
From S2P Require Import Reliable Sessions Identity RouteService Core Registry.
From Stdlib Require Import Ascii.

Class EngineIO := {
  io_send : Services -> OutboundMessage -> res unit;
  io_start_session : string -> st Services string;
}.

Definition text_bytes (s : string) : bytes := String.list_ascii_of_string s.
Definition bytes_text (b : bytes) : string := String.string_of_list_ascii b.

Definition _should_force_new_forward_connection (message_type : string) : bool :=
  String.prefix "ROUTE_CREATE" message_type.

Definition _read_metadata_string (metadata : jdict) (field_name : string) : option string :=
  truthy_str (py_get metadata field_name).

Definition _read_payload_path_id (payload : json) : option string :=
  match payload with JObj d => truthy_str (py_get d "path_id") | _ => None end.

Definition _can_forward_through_observed_only_session (message_type : string) : bool :=
  bool_decide (message_type = "PHYSICAL_RELAY_DATA").

Definition _PLAINTEXT_SESSION_MESSAGE_TYPES : list string :=
  ["PHYSICAL_SESSION_INIT"; "PHYSICAL_SESSION_INIT_OK"; "PHYSICAL_SESSION_KEY_CONFIRM";
   "PHYSICAL_SESSION_READY"].

Section engine.
Context `{FloatText} `{Entropy} `{AesGcmSiv} `{EngineIO}.
Context (handle : handler -> ProtocolEnvelope -> PacketContext
                  -> st Services PacketProcessingResult).

(** ** Packet text *)

(** [json.loads] of the decoded bytes; [None], also for the text [null]. *)
Definition _load_json_packet (raw_payload : string) : json :=
  default JNull (utf8_decode raw_payload ≫= json_loads).

Definition _build_json_packet_bytes (header payload : jdict) : string :=
  json_dumps (JObj [("header", JObj header); ("payload", JObj payload)]).

Definition _encode_payload_hex (payload : jdict) : string :=
  bytes_to_hex (json_dumps (JObj payload)).

Definition _build_physical_payload_aad (header : jdict) : string :=
  json_dumps (JObj [("scope", JStr "physical_payload");
                    ("header", JObj (od_del "payload_encrypted" header))]).

Definition build_message_header (message_type : string)
    (physical_session_id virtual_session_id : option string) : st Services jdict :=
  modify (fun s => s <| sv_message_sequence := sv_message_sequence s + 1 |>);;
  message_id ← new_uuid;
  message_sequence ← gets sv_message_sequence;
  mret [("version", JInt 1); ("message_type", JStr message_type); ("message_id", JStr message_id);
        ("message_sequence", JInt message_sequence);
        ("physical_session_id", opt_json JStr physical_session_id);
        ("virtual_session_id", opt_json JStr virtual_session_id)].

Definition attribute_error : exn := OtherError "AttributeError: no attribute 'get'".

(** ** Outgoing packets *)

Definition _prepare_outbound_message (message : OutboundMessage) : st Services OutboundMessage :=
  match _load_json_packet (bytes_text (ob_payload message)) with
  | JNull => mret message
  | JObj packet =>
      match py_get packet "header", py_get packet "payload" with
      | JObj header, JObj payload =>
          match py_get header "physical_session_id", py_get header "message_type" with
          | JStr session_id, JStr message_type =>
              if bool_decide (message_type ∈ _PLAINTEXT_SESSION_MESSAGE_TYPES) then mret message
              else
                session ← find_session session_id;
                match active_secret session with
                | None => mret message
                | Some shared_secret_hex =>
                    encrypted_payload ← encrypt_with (_encode_payload_hex payload)
                      shared_secret_hex (_build_physical_payload_aad header);
                    touch session_id;;
                    mret (MkOutboundMessage (ob_transport_name message)
                      (text_bytes (json_dumps (JObj
                         [("header", JObj (od_set "payload_encrypted" (JBool true) header));
                          ("payload",
                           JObj [("ciphertext_hex", JStr (cr_payload_hex encrypted_payload))])])))
                      (ob_remote_endpoint message) (ob_local_endpoint message)
                      (ob_metadata message))
                end
          | _, _ => mret message
          end
      | _, _ => mret message
      end
  | _ => raise attribute_error
  end.

(** [services.transport.send] *)
Definition deliver (message : OutboundMessage) : st Services unit := fun s =>
  match io_send s message with
  | Ok _ => (Ok tt, s <| sv_sent := sv_sent s ++ [message] |>)
  | Raise e => (Raise e, s)
  end.

Definition send_packet (message : OutboundMessage) : st Services unit :=
  prepared_message ← _prepare_outbound_message message; deliver prepared_message.

(** ** Received packets *)

Definition _restore_inbound_payload (header : jdict) (payload : json) : st Services json :=
  match py_get header "payload_encrypted" with
  | JBool true =>
      match truthy_str (py_get header "physical_session_id") with
      | None => raise (ValueError "Encrypted packet without physical_session_id.")
      | Some session_id =>
          session ← find_session session_id;
          match active_secret session with
          | None => raise (ValueError
              "Encrypted packet received for an inactive or unknown physical session.")
          | Some shared_secret_hex =>
              match payload with
              | JObj payload =>
                  match truthy_str (py_get payload "ciphertext_hex") with
                  | None => raise (ValueError
                      "The encrypted payload does not contain a valid ciphertext_hex.")
                  | Some ciphertext_hex =>
                      plaintext_hex ← lift (aes_decrypt_hex ciphertext_hex shared_secret_hex
                        (Some (_build_physical_payload_aad header)));
                      plaintext ← lift (match fromhex plaintext_hex with
                        | Some plaintext => Ok plaintext
                        | None => Raise (ValueError "non-hexadecimal number found in fromhex() arg")
                        end);
                      match utf8_decode plaintext with
                      | None => raise (ValueError "UnicodeDecodeError")
                      | Some plaintext_json =>
                          match json_loads plaintext_json with
                          | None => raise (ValueError "JSONDecodeError")
                          | Some restored_payload =>
                              touch session_id;; mret restored_payload
                          end
                      end
                  end
              | _ => raise (ValueError "The encrypted payload must be a JSON object.")
              end
          end
      end
  | _ => mret payload
  end.

Definition _decode_json_packet (context : PacketContext) : st Services ProtocolEnvelope :=
  match _load_json_packet (pc_payload context) with
  | JNull => raise (ValueError "The received payload does not contain a valid JSON packet.")
  | JObj packet =>
      match py_get packet "header" with
      | JObj header =>
          let payload := match py_get packet "payload" with JNull => JObj [] | p => p end in
          message_type ← lift (match py_get header "message_type" with
            | JNull => Ok None
            | JStr message_type => Ok (Some message_type)
            | _ => Raise (ValueError "The 'header.message_type' field must be a string.")
            end);
          payload ← _restore_inbound_payload header payload;
          mret (MkEnvelope "json" message_type payload (pc_payload context) header)
      | _ => raise (ValueError "The 'header' field must be a JSON object.")
      end
  | _ => raise (ValueError "The JSON packet must be an object.")
  end.

(** *** The session policy *)

Definition policy_failure (envelope : ProtocolEnvelope) (reason layer : string)
    : PacketProcessingResult :=
  MkResult (pe_protocol_name envelope) false (pe_message_type envelope) None
    [("reason", JStr reason); ("layer", JStr layer)] None.

Definition _validate_message_policy (sm : SessionManager) (envelope : ProtocolEnvelope)
    : option PacketProcessingResult :=
  match get_definition (pe_message_type envelope) with
  | None => None
  | Some definition =>
      if md_requires_physical_session definition then
        match truthy_str (py_get (pe_header envelope) "physical_session_id") with
        | None => Some (policy_failure envelope "physical_session_required" (md_layer definition))
        | Some session_id =>
            match get_session_by_session_id sm session_id with
            | None =>
                Some (policy_failure envelope "physical_session_not_found" (md_layer definition))
            | Some session =>
                if bool_decide (ns_session_state session <> "active")
                then Some (policy_failure envelope "physical_session_not_active" (md_layer definition))
                else None
            end
        end
      else None
  end.

Definition process_protocol_envelope (envelope : ProtocolEnvelope) (context : PacketContext)
    : st Services PacketProcessingResult :=
  sm ← gets sv_session_manager;
  match _validate_message_policy sm envelope with
  | Some session_validation => mret session_validation
  | None => route handle envelope context
  end.

(** Only [ValueError] is caught around the decoding. *)
Definition process_received_packet (context : PacketContext) : st Services PacketProcessingResult :=
  decoded ← catch_value (envelope ← _decode_json_packet context; mret (inl envelope))
    (fun error => mret (inr (MkResult "json" false None None
       [("reason", JStr "invalid_json_packet");
        ("transport_name", JStr (pc_transport_name context)); ("error", JStr error)] None)));
  match decoded with
  | inl envelope => process_protocol_envelope envelope context
  | inr result => mret result
  end.

(** ** Sessions for outgoing messages *)

Definition _ensure_active_physical_session (remote_physical_node_id : string)
    : st Services NetworkSession :=
  active_session ← gets (fun s =>
    get_active_physical_session_by_remote_node_id (sv_session_manager s) remote_physical_node_id);
  match active_session with
  | Some session =>
      if negb (is_observed_only_physical_session session) then mret session
      else
        session_id ← io_start_session remote_physical_node_id;
        session ← find_session session_id;
        match session with
        | Some session => mret session
        | None => raise (RuntimeError
            "The physical session was created but is not available in memory.")
        end
  | None =>
      session_id ← io_start_session remote_physical_node_id;
      session ← find_session session_id;
      match session with
      | Some session => mret session
      | None => raise (RuntimeError
          "The physical session was created but is not available in memory.")
      end
  end.

Definition _resolve_session_send_endpoint (db : Database) (session : NetworkSession)
    : res (option TransportEndpoint) :=
  if negb (is_observed_only_physical_session session)
  then Some <$> build_remote_endpoint_from_session session
  else
    match list_remote_physical_node_endpoints db (ns_remote_identity_id session) true with
    | [] => Ok None
    | endpoint :: _ =>
        Ok (Some (MkTransportEndpoint (ne_transport endpoint) (ne_host endpoint) (ne_port endpoint)
                    (CommonJson.load_json_object (ne_metadata_json endpoint))))
    end.

Definition _send_message_over_physical_session (session : NetworkSession) (message_type : string)
    (payload : jdict) (force_new_connection : bool) : st Services unit :=
  endpoint ← lift (build_remote_endpoint_from_session session);
  header ← build_message_header message_type (Some (ns_session_id session)) None;
  send_packet (MkOutboundMessage (ep_transport_name endpoint)
    (text_bytes (_build_json_packet_bytes header payload)) endpoint None
    (od_set "force_new_connection" (JBool force_new_connection)
       (od_set "target_physical_node_id" (JStr (ns_remote_identity_id session))
          (load_session_metadata session)))).

Definition close_failed (session_id : string) : st Services (option NetworkSession) :=
  on_sessions (fun sm now => close_session sm session_id now "transport_send_failed").

(** One retry over a new session when the first send fails. *)
Definition forward_message_to_remote_physical_node (remote_physical_node_id message_type : string)
    (payload : jdict) (force_new_connection : bool) : st Services bool :=
  let force_new_connection :=
    force_new_connection || _should_force_new_forward_connection message_type in
  session ← catch_exn (fun _ => true)
    (session ← _ensure_active_physical_session remote_physical_node_id; mret (Some session))
    (fun _ => mret None);
  match session with
  | None => mret false
  | Some session =>
      sent ← catch_exn is_os_error
        (_send_message_over_physical_session session message_type payload force_new_connection;;
         mret true)
        (fun _ => close_failed (ns_session_id session);; mret false);
      if sent : bool then mret true
      else
        retry_session ← catch_exn (fun _ => true)
          (session ← _ensure_active_physical_session remote_physical_node_id; mret (Some session))
          (fun _ => mret None);
        match retry_session with
        | None => mret false
        | Some retry_session =>
            _send_message_over_physical_session retry_session message_type payload true;;
            mret true
        end
  end.

(** ** Actions of a result *)

Definition _execute_forward_message_action (metadata : jdict) : st Services unit :=
  match truthy_str (py_get metadata "forward_message_type"), py_get metadata "forward_payload" with
  | Some message_type, JObj payload =>
      session ← match truthy_str (py_get metadata "target_physical_session_id") with
                | Some physical_session_id => find_session physical_session_id
                | None => mret None
                end;
      match session with
      | Some session =>
          if bool_decide (ns_session_state session = "active")
             && (negb (is_observed_only_physical_session session)
                 || _can_forward_through_observed_only_session message_type)
          then _send_message_over_physical_session session message_type payload false
          else
            match truthy_str (py_get metadata "target_remote_physical_node_id") with
            | None => mret tt
            | Some remote_physical_node_id =>
                forward_message_to_remote_physical_node remote_physical_node_id message_type payload
                  (_should_force_new_forward_connection message_type);; mret tt
            end
      | None =>
          match truthy_str (py_get metadata "target_remote_physical_node_id") with
          | None => mret tt
          | Some remote_physical_node_id =>
              forward_message_to_remote_physical_node remote_physical_node_id message_type payload
                (_should_force_new_forward_connection message_type);; mret tt
          end
      end
  | _, _ => mret tt
  end.

Definition _reopen_session_for_payload_return (previous_session : NetworkSession)
    : st Services (option NetworkSession) :=
  if negb (str_truthy (ns_remote_identity_id previous_session)) then mret None
  else
    new_session_id ← catch_exn (fun _ => true)
      (session_id ← io_start_session (ns_remote_identity_id previous_session);
       mret (Some session_id)) (fun _ => mret None);
    match new_session_id with
    | None => mret None
    | Some new_session_id =>
        new_session ← find_session new_session_id;
        mret (match new_session with
              | Some session =>
                  if bool_decide (ns_session_state session = "active") then Some session else None
              | None => None
              end)
    end.

Definition _replace_payload_physical_session_id (payload physical_session_id : string)
    : res string :=
  match _load_json_packet payload with
  | JNull => Ok payload
  | JObj packet =>
      match py_get packet "header" with
      | JObj header =>
          Ok (json_dumps (JObj (od_set "header"
            (JObj (od_set "physical_session_id" (JStr physical_session_id) header)) packet)))
      | _ => Ok payload
      end
  | _ => Raise attribute_error
  end.

Definition _execute_send_payload_to_physical_session_action (metadata : jdict)
    (payload : option string) : st Services unit :=
  match truthy_str (py_get metadata "target_physical_session_id"), payload with
  | Some session_id, Some payload =>
      session ← find_session session_id;
      match session with
      | None => mret tt
      | Some session =>
          target ← (if bool_decide (ns_session_state session <> "active") then
                      reopened ← _reopen_session_for_payload_return session;
                      match reopened with
                      | None => mret None
                      | Some reopened =>
                          payload ← lift (_replace_payload_physical_session_id payload
                                            (ns_session_id reopened));
                          mret (Some (reopened, payload))
                      end
                    else mret (Some (session, payload)));
          match target with
          | None => mret tt
          | Some (session, payload) =>
              db ← gets sv_database;
              endpoint ← lift (_resolve_session_send_endpoint db session);
              match endpoint with
              | None => mret tt
              | Some endpoint =>
                  catch_exn is_os_error
                    (send_packet (MkOutboundMessage (ep_transport_name endpoint)
                       (text_bytes payload) endpoint None
                       (od_set "target_physical_node_id" (JStr (ns_remote_identity_id session))
                          (load_session_metadata session))))
                    (fun _ =>
                       if negb (is_observed_only_physical_session session)
                       then close_failed (ns_session_id session);; mret tt
                       else mret tt)
              end
          end
      end
  | _, _ => mret tt
  end.

Definition _execute_processing_result_actions (result : PacketProcessingResult)
    : st Services unit :=
  match truthy_str (py_get (pp_metadata result) "action") with
  | None => mret tt
  | Some action =>
      if bool_decide (action = "forward_message")
      then _execute_forward_message_action (pp_metadata result)
      else if bool_decide (action = "send_payload_to_physical_session")
      then _execute_send_payload_to_physical_session_action (pp_metadata result)
             (pp_payload result)
      else mret tt
  end.

Definition _build_response_endpoint (remote_endpoint : TransportEndpoint)
    (packet_metadata : jdict) : TransportEndpoint :=
  match packet_metadata with
  | [] => remote_endpoint
  | _ => MkTransportEndpoint (ep_transport_name remote_endpoint) (ep_host remote_endpoint)
           (ep_port remote_endpoint) (Relay.dict_merge (ep_metadata remote_endpoint) packet_metadata)
  end.

(** The answer and the actions may fail without consequence; an exception of the
    processing itself reaches the transport. *)
Definition handle_transport_packet (packet : TransportPacket) : st Services unit :=
  result ← process_received_packet
    (MkContext (tp_transport_name packet) (bytes_text (tp_payload packet))
       (Some (ep_host (tp_remote_endpoint packet))) (Some (ep_port (tp_remote_endpoint packet)))
       (ep_host <$> tp_local_endpoint packet) (ep_port <$> tp_local_endpoint packet) None
       (tp_received_at packet) (tp_metadata packet));
  match pp_response_payload result with
  | Some response_payload =>
      catch_exn (fun _ => true)
        (send_packet (MkOutboundMessage (tp_transport_name packet) (text_bytes response_payload)
           (_build_response_endpoint (tp_remote_endpoint packet) (tp_metadata packet)) None
           (tp_metadata packet)))
        (fun _ => mret tt)
  | None => mret tt
  end;;
  catch_exn (fun _ => true) (_execute_processing_result_actions result) (fun _ => mret tt).

(** ** The relay transport's sender *)

Definition _resolve_relay_node_id_from_endpoint (db : Database) (endpoint : TransportEndpoint)
    : res (option string) :=
  let! found := find_remote_physical_node_id_by_endpoint db (ep_transport_name endpoint)
                  (ep_host endpoint) (ep_port endpoint) in
  match found with
  | Some relay_node_id => Ok (Some relay_node_id)
  | None => find_remote_physical_node_id_by_endpoint db "tcp" (ep_host endpoint) (ep_port endpoint)
  end.

Definition _send_relay_transport_packet (message : OutboundMessage) : st Services unit :=
  let relay_metadata :=
    Relay.dict_merge (ep_metadata (ob_remote_endpoint message)) (ob_metadata message) in
  match _read_metadata_string relay_metadata "target_physical_node_id" with
  | None => raise (ValueError "relay_tcp message requires target_physical_node_id metadata.")
  | Some target_physical_node_id =>
      relay_physical_node_id ←
        match _read_metadata_string relay_metadata "relay_physical_node_id" with
        | Some id => mret (Some id)
        | None =>
            db ← gets sv_database;
            lift (_resolve_relay_node_id_from_endpoint db (ob_remote_endpoint message))
        end;
      match relay_physical_node_id with
      | None => raise (ValueError "relay_tcp message requires relay_physical_node_id metadata.")
      | Some relay_physical_node_id =>
          relay_session ← _ensure_active_physical_session relay_physical_node_id;
          _send_message_over_physical_session relay_session "PHYSICAL_RELAY_DATA"
            [("target_physical_node_id", JStr target_physical_node_id);
             ("payload_hex", JStr (bytes_to_hex (bytes_text (ob_payload message))))] false
      end
  end.
End engine.

(** ** Packet text lemmas *)

Lemma py_get_Some d k v : od_get k d = Some v -> py_get d k = v.
Proof. unfold py_get. by intros ->. Qed.

Lemma bytes_text_bytes s : bytes_text (text_bytes s) = s.
Proof. apply String.string_of_list_ascii_of_string. Qed.

Section packets.
Context `{FloatText}.

(** A packet of well-formed header and payload is read back up to key order. *)
Lemma load_packet_dumped d :
  dict_wf d -> _load_json_packet (json_dumps (JObj d)) = JObj (norm_dict d).
Proof.
  intros Hd. unfold _load_json_packet. rewrite ascii_text_decode by (by apply json_dumps_ascii).
  cbn [mbind option_bind]. by rewrite json_loads_dumps.
Qed.

Lemma packet_wf header payload :
  dict_wf header -> dict_wf payload ->
  dict_wf [("header", JObj header); ("payload", JObj payload)].
Proof. intros Hh Hp. json_wf_tac. Qed.

Lemma load_packet header payload :
  dict_wf header -> dict_wf payload ->
  exists packet, _load_json_packet (_build_json_packet_bytes header payload) = JObj packet /\
    py_get packet "header" = JObj (norm_dict header) /\
    py_get packet "payload" = JObj (norm_dict payload).
Proof.
  intros Hh Hp. eexists. split; [by apply load_packet_dumped, packet_wf|].
  unfold py_get. rewrite !norm_dict_get by (by apply dict_wf_od, packet_wf). by od_eval.
Qed.

Lemma norm_get_str d k v :
  dict_wf d -> od_get k d = Some (JStr v) -> py_get (norm_dict d) k = JStr v.
Proof. intros Hd Hg. unfold py_get. by rewrite norm_dict_get, Hg by (by apply dict_wf_od). Qed.

(** The associated data does not depend on the order of the header's keys. *)
Lemma payload_aad_norm header :
  od_wf header ->
  _build_physical_payload_aad (norm_dict header) = _build_physical_payload_aad header.
Proof.
  intros Hd. unfold _build_physical_payload_aad. rewrite norm_dict_del by done.
  transitivity (json_dumps (json_norm (JObj [("scope", JStr "physical_payload");
    ("header", JObj (od_del "payload_encrypted" header))]))); [|apply json_dumps_norm].
  rewrite <- json_dumps_norm. f_equal. cbn [json_norm map fst snd]. do 4 f_equal.
  apply (f_equal (pair "header")), (json_norm_idem (JObj _)).
Qed.

Lemma payload_aad_flag header :
  _build_physical_payload_aad (od_set "payload_encrypted" (JBool true) header) =
  _build_physical_payload_aad header.
Proof. unfold _build_physical_payload_aad. by rewrite od_del_set. Qed.

(** The header a protected packet carries, as the receiver reads it. *)
Definition protected_header (header : jdict) : jdict :=
  norm_dict (od_set "payload_encrypted" (JBool true) (norm_dict header)).

Lemma protected_header_get header k :
  dict_wf header ->
  od_get k (protected_header header) =
  if decide (k = "payload_encrypted") then Some (JBool true) else json_norm <$> od_get k header.
Proof.
  intros Hd%dict_wf_od. unfold protected_header.
  rewrite norm_dict_get by (by apply od_set_wf, norm_dict_wf). case_decide as Hk.
  - subst. by rewrite od_get_set_eq.
  - rewrite od_get_set_ne, norm_dict_get by done. destruct (od_get k header); [|done].
    cbn. by rewrite json_norm_idem.
Qed.

Lemma protected_header_aad header :
  dict_wf header ->
  _build_physical_payload_aad (protected_header header) = _build_physical_payload_aad header.
Proof.
  intros Hd%dict_wf_od. unfold protected_header.
  rewrite payload_aad_norm, payload_aad_flag, payload_aad_norm;
    [done|done|by apply od_set_wf, norm_dict_wf].
Qed.
End packets.

(** ** Protection of packets *)

Lemma hex_text_ascii b : ascii_text (bytes_to_hex b) = true.
Proof.
  induction b as [|a b IH]; [done|]. destruct (byte_nibbles a) as (H1 & H2 & _).
  change (bytes_to_hex (String a b)) with
    (String (hex_digit (N.shiftr (N_of_ascii a) 4))
       (String (hex_digit (N_of_ascii a mod 16)) (bytes_to_hex b))).
  cbn [ascii_text]. by rewrite !hex_digit_ascii, IH.
Qed.

Lemma hex_text_truthy b : b <> "" -> str_truthy (bytes_to_hex b) = true.
Proof.
  intros Hb. apply str_truthy_spec. intros E%(f_equal String.length). unfold bytes_to_hex in E.
  rewrite bytes_hex_length in E. destruct b; [done|]. cbn in E. lia.
Qed.

Section protection.
Context `{FloatText} `{EntropyLaws} `{AesGcmSivLaws}.

(** The secret under which a node protects the packets of a session. *)
Definition session_secret (s : Services) (session_id : string) : option string :=
  active_secret (get_session_by_session_id (sv_session_manager s) session_id).

(** The key has 32 bytes and a nonce for it is left. *)
Definition can_encrypt (s : Services) (key : string) : Prop :=
  hex_of AES_KEY_SIZE key /\ nonce_left (sv_used_nonces s) key (urandom_nonces (sv_entropy s)).

Lemma encrypt_with_protects s data key aad :
  can_encrypt s key ->
  exists r s', encrypt_with (bytes_to_hex data) key aad s = (Ok r, s') /\
    (exists b, b <> "" /\ cr_payload_hex r = bytes_to_hex b) /\
    aes_decrypt_hex (cr_payload_hex r) key (Some aad) = Ok (bytes_to_hex data).
Proof.
  intros [Hkey Hleft]. unfold encrypt_with.
  destruct (aes_hex_protects _ _ data key (Some aad) Hkey
    (urandom_nonces_drawn (sv_entropy s)) Hleft) as (r & used & He & Hhex & Hd).
  rewrite He. by eexists _, _.
Qed.

(** What the sender puts on the wire for a session with a secret. *)
Lemma prepare_protects (s : Services) (m : OutboundMessage) header payload sid ty key :
  dict_wf header -> dict_wf payload ->
  bytes_text (ob_payload m) = _build_json_packet_bytes header payload ->
  od_get "physical_session_id" header = Some (JStr sid) ->
  od_get "message_type" header = Some (JStr ty) -> ty ∉ _PLAINTEXT_SESSION_MESSAGE_TYPES ->
  session_secret s sid = Some key -> can_encrypt s key ->
  exists c s' m', _prepare_outbound_message m s = (Ok m', s') /\
    bytes_text (ob_payload m') = _build_json_packet_bytes
      (od_set "payload_encrypted" (JBool true) (norm_dict header))
      [("ciphertext_hex", JStr (bytes_to_hex c))] /\
    c <> "" /\
    aes_decrypt_hex (bytes_to_hex c) key (Some (_build_physical_payload_aad header))
    = Ok (bytes_to_hex (json_dumps (JObj payload))).
Proof.
  intros Hh Hp Hm Hsid Hty Hplain Hkey Hcan. unfold _prepare_outbound_message.
  destruct (load_packet header payload Hh Hp) as (packet & Hload & Hgh & Hgp).
  rewrite Hm, Hload, Hgh, Hgp, (norm_get_str _ _ _ Hh Hsid), (norm_get_str _ _ _ Hh Hty).
  rewrite bool_decide_false by done.
  erewrite st_bind_run by reflexivity. unfold session_secret in Hkey. rewrite Hkey.
  unfold _encode_payload_hex. change (JObj (norm_dict payload)) with (json_norm (JObj payload)).
  rewrite json_dumps_norm.
  rewrite payload_aad_norm by (by apply dict_wf_od).
  destruct (encrypt_with_protects s (json_dumps (JObj payload)) key
    (_build_physical_payload_aad header) Hcan) as (r & s' & He & (c & Hc & Hr) & Hd).
  rewrite (st_bind_run _ _ _ _ _ He). rewrite Hr in Hd |- *.
  destruct (touch sid s') as [[o|] s2] eqn:Ht; [|by unfold touch, on_sessions in Ht; case_match].
  rewrite (st_bind_run _ _ _ _ _ Ht). eexists c, s2, _. split; [reflexivity|].
  cbn [ob_payload]. by rewrite bytes_text_bytes.
Qed.

(** What the receiver restores from it. *)
Lemma decode_protected (r : Services) (context : PacketContext) header payload sid ty key c :
  dict_wf header -> dict_wf payload ->
  od_get "physical_session_id" header = Some (JStr sid) -> sid <> "" ->
  od_get "message_type" header = Some (JStr ty) ->
  session_secret r sid = Some key -> c <> "" ->
  aes_decrypt_hex (bytes_to_hex c) key (Some (_build_physical_payload_aad header))
  = Ok (bytes_to_hex (json_dumps (JObj payload))) ->
  pc_payload context = _build_json_packet_bytes
    (od_set "payload_encrypted" (JBool true) (norm_dict header))
    [("ciphertext_hex", JStr (bytes_to_hex c))] ->
  _decode_json_packet context r =
    (Ok (MkEnvelope "json" (Some ty) (JObj (norm_dict payload)) (pc_payload context)
           (protected_header header)), (touch sid r).2).
Proof.
  intros Hh Hp Hsid Hne Hty Hkey Hc Hdec Hctx. unfold _decode_json_packet.
  assert (dict_wf [("ciphertext_hex", JStr (bytes_to_hex c))]) as Hwc.
  { json_wf_tac. apply ascii_unicode, hex_text_ascii. }
  assert (dict_wf (od_set "payload_encrypted" (JBool true) (norm_dict header))) as Hwh.
  { apply dict_wf_set; [by apply ascii_unicode|constructor|by apply dict_wf_norm]. }
  destruct (load_packet _ _ Hwh Hwc) as (packet & Hload & Hgh & Hgp).
  rewrite Hctx, Hload, Hgh, Hgp. fold (protected_header header). cbv zeta.
  assert (forall k, k <> "payload_encrypted" ->
    py_get (protected_header header) k = json_norm (py_get header k)) as Hget.
  { intros k Hk. unfold py_get. rewrite protected_header_get, decide_False by done.
    by destruct (od_get k header). }
  rewrite Hget, (py_get_Some _ _ _ Hty) by done. cbn [json_norm].
  erewrite st_bind_run by reflexivity. erewrite st_bind_run; [reflexivity|].
  unfold _restore_inbound_payload.
  rewrite (py_get_Some _ "payload_encrypted" (JBool true))
    by (rewrite protected_header_get by done; by rewrite decide_True).
  rewrite Hget, (py_get_Some _ _ _ Hsid) by done. cbn [json_norm truthy_str].
  rewrite (proj2 (str_truthy_spec sid) Hne).
  erewrite st_bind_run by reflexivity. unfold session_secret in Hkey. rewrite Hkey.
  rewrite (norm_get_str _ _ (bytes_to_hex c) Hwc) by (by od_eval).
  cbn [truthy_str]. rewrite hex_text_truthy by done.
  rewrite protected_header_aad, Hdec by done. erewrite st_bind_run by reflexivity.
  unfold bytes_to_hex. rewrite fromhex_bytes_hex. erewrite st_bind_run by reflexivity.
  rewrite ascii_text_decode by (by apply json_dumps_ascii). rewrite json_loads_dumps by done.
  destruct (touch sid r) as [[o|] s2] eqn:Ht; [|by unfold touch, on_sessions in Ht; case_match].
  by rewrite (st_bind_run _ _ _ _ _ Ht).
Qed.
End protection.

(** ** Claims *)

Section claims.
Context `{FloatText} `{EntropyLaws} `{AesGcmSivLaws}.
Context (handle : handler -> ProtocolEnvelope -> PacketContext
                  -> st Services PacketProcessingResult).

(** C21: packet protection between two nodes. When sender and receiver hold the
    same 32-byte secret for an active session, the sender replaces the payload of
    a packet of that session by a ciphertext, and the receiver processes exactly
    the message that was sent: same type, same payload up to key order, the
    header with [payload_encrypted] added, after marking the session active. *)
Theorem packet_protection_roundtrip (s r : Services) (m : OutboundMessage)
    (header payload : jdict) (sid ty key : string) :
  dict_wf header -> dict_wf payload ->
  bytes_text (ob_payload m) = _build_json_packet_bytes header payload ->
  od_get "physical_session_id" header = Some (JStr sid) -> sid <> "" ->
  od_get "message_type" header = Some (JStr ty) -> ty ∉ _PLAINTEXT_SESSION_MESSAGE_TYPES ->
  session_secret s sid = Some key -> session_secret r sid = Some key -> can_encrypt s key ->
  exists m' s', _prepare_outbound_message m s = (Ok m', s') /\
    (exists c, bytes_text (ob_payload m') = _build_json_packet_bytes
       (od_set "payload_encrypted" (JBool true) (norm_dict header))
       [("ciphertext_hex", JStr (bytes_to_hex c))]) /\
    (forall context, pc_payload context = bytes_text (ob_payload m') ->
     process_received_packet handle context r =
     process_protocol_envelope handle
       (MkEnvelope "json" (Some ty) (JObj (norm_dict payload)) (pc_payload context)
          (protected_header header)) context (touch sid r).2).
Proof.
  intros Hh Hp Hm Hsid Hne Hty Hplain Hks Hkr Hcan.
  destruct (prepare_protects s m header payload sid ty key Hh Hp Hm Hsid Hty Hplain Hks Hcan)
    as (c & s' & m' & Hprep & Hwire & Hc & Hdec).
  exists m', s'. split; [done|]. split; [by exists c|]. intros context Hctx.
  unfold process_received_packet, catch_value, mbind, st_bind.
  erewrite decode_protected; eauto. congruence.
Qed.

Lemma touch_total sid (s : Services) : exists o s', touch sid s = (Ok o, s').
Proof. unfold touch, on_sessions. case_match. eauto. Qed.

Lemma restore_effects header payload (s s' : Services) r :
  _restore_inbound_payload header payload s = (r, s') ->
  s' = s \/ (is_ok r = true /\ exists sid, s' = (touch sid s).2).
Proof.
  unfold _restore_inbound_payload, raise, mret, st_ret, find_session, gets, lift, mbind, st_bind.
  repeat (case_match; simplify_eq; try (intros; simplify_eq; by left)).
  - match goal with E : touch ?sid s = _ |- _ =>
      intros [= <- <-]; right; split; [done|]; exists sid; by rewrite E end.
  - match goal with E : touch ?sid s = _ |- _ =>
      destruct (touch_total sid s) as (? & ? & ?); congruence end.
Qed.

Lemma decode_effects context (s s' : Services) r :
  _decode_json_packet context s = (r, s') ->
  s' = s \/ (is_ok r = true /\ exists sid, s' = (touch sid s).2).
Proof.
  unfold _decode_json_packet.
  destruct (_load_json_packet (pc_payload context)); try (intros [= <- <-]; by left).
  destruct (py_get fields "header") as [| | | | | |header]; try (intros [= <- <-]; by left).
  cbv zeta. destruct (match py_get header "message_type" with JNull => _ | JStr _ => _ | _ => _ end)
    as [ty|]; [erewrite st_bind_run by reflexivity|by intros [= <- <-]; left].
  match goal with |- context [_restore_inbound_payload header ?p] =>
    destruct (_restore_inbound_payload header p s) as [[v|] s1] eqn:Hr;
    [rewrite (st_bind_run _ _ _ _ _ Hr)|rewrite (st_bind_raise _ _ _ _ _ Hr)] end;
    intros [= <- <-]; apply restore_effects in Hr as [|[? ?]]; auto.
Qed.

(** Reading a packet. Decoding either raises and leaves the services as they
    were, or yields the envelope and at most marks one session active. A
    [ValueError] becomes the result [invalid_json_packet]; any other exception,
    among them a failed decryption, leaves [process_received_packet] and
    [handle_transport_packet] without an answer or an action. *)
Theorem receive_error_spec `{!EngineIO} (packet : TransportPacket) (s s' : Services)
    (context : PacketContext) (r : res ProtocolEnvelope) :
  context = MkContext (tp_transport_name packet) (bytes_text (tp_payload packet))
    (Some (ep_host (tp_remote_endpoint packet))) (Some (ep_port (tp_remote_endpoint packet)))
    (ep_host <$> tp_local_endpoint packet) (ep_port <$> tp_local_endpoint packet) None
    (tp_received_at packet) (tp_metadata packet) ->
  _decode_json_packet context s = (r, s') ->
  match r with
  | Ok envelope =>
      (s' = s \/ exists sid, s' = (touch sid s).2) /\
      process_received_packet handle context s = process_protocol_envelope handle envelope context s'
  | Raise (ValueError error) =>
      process_received_packet handle context s =
      (Ok (MkResult "json" false None None
         [("reason", JStr "invalid_json_packet");
          ("transport_name", JStr (pc_transport_name context)); ("error", JStr error)] None), s) /\
      handle_transport_packet handle packet s = (Ok tt, s)
  | Raise e =>
      process_received_packet handle context s = (Raise e, s) /\
      handle_transport_packet handle packet s = (Raise e, s)
  end.
Proof.
  intros Hctx Hdec. pose proof (decode_effects _ _ _ _ Hdec) as Heff.
  assert (process_received_packet handle context s = match r with
    | Ok envelope => process_protocol_envelope handle envelope context s'
    | Raise (ValueError error) => (Ok (MkResult "json" false None None
         [("reason", JStr "invalid_json_packet");
          ("transport_name", JStr (pc_transport_name context)); ("error", JStr error)] None), s')
    | Raise e => (Raise e, s') end) as Hproc.
  { unfold process_received_packet, catch_value, mbind, st_bind. rewrite Hdec.
    by destruct r as [|[]]. }
  destruct r as [envelope|e]; [split; [|done]; naive_solver|].
  destruct Heff as [->|[? _]]; [|done].
  assert (forall e, process_received_packet handle context s = (Raise e, s) ->
    handle_transport_packet handle packet s = (Raise e, s)) as Hraise.
  { intros e' He. unfold handle_transport_packet. rewrite <- Hctx. by apply st_bind_raise. }
  destruct e; (split; [exact Hproc|]); try (by apply Hraise).
  unfold handle_transport_packet. rewrite <- Hctx.
  rewrite (st_bind_run _ _ _ _ _ Hproc). reflexivity.
Qed.

(** C36: dispatch. A message of an unregistered type is answered by the unmapped
    result; a registered message reaches its handler exactly when it needs no
    session (liveness, node information, session handshake) or names a physical
    session that is active; otherwise it is refused with the reason and the
    services are unchanged. *)
Theorem dispatch_spec (envelope : ProtocolEnvelope) (context : PacketContext) (s : Services) :
  match pe_message_type envelope ≫= fun ty => pair ty <$> get_definition (Some ty) with
  | None =>
      process_protocol_envelope handle envelope context s =
      (Ok (_build_unmapped_result envelope context), s)
  | Some (ty, definition) =>
      (ty ∈ sessionless_types \/
       (exists sid session, py_get (pe_header envelope) "physical_session_id" = JStr sid /\
          sid <> "" /\ get_session_by_session_id (sv_session_manager s) sid = Some session /\
          ns_session_state session = "active") ->
       process_protocol_envelope handle envelope context s =
       handle (md_handler definition) envelope context s) /\
      (ty ∉ sessionless_types ->
       (forall sid session, py_get (pe_header envelope) "physical_session_id" = JStr sid ->
          get_session_by_session_id (sv_session_manager s) sid = Some session ->
          sid <> "" -> ns_session_state session <> "active") ->
       exists reason,
         reason ∈ ["physical_session_required"; "physical_session_not_found";
                   "physical_session_not_active"] /\
         process_protocol_envelope handle envelope context s =
         (Ok (policy_failure envelope reason (md_layer definition)), s))
  end.
Proof.
  assert (Hrun : process_protocol_envelope handle envelope context s =
    match _validate_message_policy (sv_session_manager s) envelope with
    | Some v => (Ok v, s) | None => route handle envelope context s end).
  { unfold process_protocol_envelope. erewrite st_bind_run by reflexivity. by case_match. }
  rewrite Hrun. unfold _validate_message_policy, route.
  destruct (pe_message_type envelope) as [ty|]; [|done]. cbn [mbind option_bind].
  destruct (get_definition (Some ty)) as [d|] eqn:Hd; [|done]. cbn [fmap option_fmap option_map].
  destruct (registry_requires_session ty d Hd) as [_ Hreq]. split.
  - intros [Hless%Hreq|(sid & session & -> & Hne & Hs & Ha)]; [by rewrite Hless|].
    cbn [truthy_str]. rewrite (proj2 (str_truthy_spec sid) Hne), Hs, bool_decide_false by congruence.
    by destruct (md_requires_physical_session d).
  - intros Hless Hno. destruct (md_requires_physical_session d); [|by destruct Hless; apply Hreq].
    destruct (truthy_str _) as [sid|] eqn:Hsid; [|eexists; split; [|reflexivity]; set_solver].
    destruct (py_get (pe_header envelope) "physical_session_id"); cbn in Hsid; try done.
    destruct (str_truthy s0) eqn:Htr; [|done]. apply (inj Some) in Hsid as ->.
    destruct (get_session_by_session_id _ sid) as [session|] eqn:Hs;
      [|eexists; split; [|reflexivity]; set_solver].
    rewrite bool_decide_true by (eapply Hno; [reflexivity|done|by apply str_truthy_spec]).
    eexists; split; [|reflexivity]; set_solver.
Qed.
End claims.

(** ** Witnesses *)

#[local] Existing Instance demo_aead.
#[local] Existing Instance demo_aead_laws.
#[local] Instance demo_float_text : FloatText := fun s => s.

#[local] Instance demo_entropy : Entropy := {|
  uuid4 := fun n => "uuid-" +:+ str_of_Z (Z.of_nat n);
  urandom_nonces := fun _ => [bytes_to_hex "0123456789ab"];
|}.

#[local] Instance demo_entropy_laws : EntropyLaws.
Proof. constructor. intros n. constructor; [by exists "0123456789ab"|constructor]. Qed.

#[local] Instance demo_io : EngineIO := {|
  io_send := fun _ _ => Ok tt;
  io_start_session := fun _ => raise (OSError "unreachable");
|}.

(** A node with the active session ["sid-1"] under [secret]. *)
Definition demo_session_node (secret : string) : Services :=
  let sm := (store_shared_secret demo_manager "sid-1" 1500 secret "ready" "pending").2 in
  MkServices (activate_session sm "sid-1" 2000).2 [] empty_database ∅ 0 3000 0 [] [].

Definition demo_secret : string := bytes_to_hex "0123456789abcdef0123456789abcdef".
Definition demo_node : Services := demo_session_node demo_secret.

Definition demo_header : jdict :=
  [("version", JInt 1); ("message_type", JStr "DHT_QUERY"); ("physical_session_id", JStr "sid-1")].
Definition demo_payload : jdict := [("key", JStr "k"); ("id", JInt 7)].

Definition demo_endpoint : TransportEndpoint := MkTransportEndpoint "tcp" "10.0.0.2" 19001 [].
Definition demo_message : OutboundMessage :=
  MkOutboundMessage "tcp" (text_bytes (_build_json_packet_bytes demo_header demo_payload))
    demo_endpoint None [].

Definition demo_handle (h : handler) (_ : ProtocolEnvelope) (_ : PacketContext)
    : st Services PacketProcessingResult := mret (MkResult "json" true None None [] None).

Lemma packet_protection_roundtrip_witness :
  exists m' s', _prepare_outbound_message demo_message demo_node = (Ok m', s') /\
    forall context, pc_payload context = bytes_text (ob_payload m') ->
     process_received_packet demo_handle context demo_node =
     process_protocol_envelope demo_handle
       (MkEnvelope "json" (Some "DHT_QUERY") (JObj (norm_dict demo_payload)) (pc_payload context)
          (protected_header demo_header)) context (touch "sid-1" demo_node).2.
Proof.
  destruct (packet_protection_roundtrip demo_handle demo_node demo_node demo_message demo_header
    demo_payload "sid-1" "DHT_QUERY" demo_secret) as (m' & s' & Hp & _ & Hr).
  - unfold demo_header. json_wf_tac.
  - unfold demo_payload. json_wf_tac.
  - apply bytes_text_bytes.
  - reflexivity.
  - discriminate.
  - reflexivity.
  - apply (bool_decide_unpack _). vm_compute. exact I.
  - vm_compute. reflexivity.
  - vm_compute. reflexivity.
  - split; [by exists "0123456789abcdef0123456789abcdef"|]. exists (bytes_to_hex "0123456789ab").
    split; [by left|]. apply not_elem_of_empty.
  - exists m', s'. split; [exact Hp|exact Hr].
Defined.

Definition demo_packet : TransportPacket :=
  MkTransportPacket "tcp" (text_bytes "[1]") demo_endpoint None 5000 [].

Lemma receive_error_spec_witness :
  handle_transport_packet demo_handle demo_packet demo_node = (Ok tt, demo_node).
Proof.
  apply (receive_error_spec demo_handle demo_packet demo_node demo_node _
    (Raise (ValueError "The JSON packet must be an object.")) eq_refl).
  reflexivity.
Defined.

Definition demo_envelope : ProtocolEnvelope :=
  MkEnvelope "json" (Some "DHT_QUERY") (JObj []) "" demo_header.
Definition demo_packet_context : PacketContext := MkContext "tcp" "" None None None None None 0 [].

Lemma dispatch_spec_witness :
  process_protocol_envelope demo_handle demo_envelope demo_packet_context demo_node
  = demo_handle DhtHandler demo_envelope demo_packet_context demo_node.
Proof.
  refine (proj1 (dispatch_spec demo_handle demo_envelope demo_packet_context demo_node) _).
  right. exists "sid-1". destruct (get_session_by_session_id (sv_session_manager demo_node) "sid-1")
    as [session|] eqn:Hs; [|vm_compute in Hs; discriminate].
  exists session. split; [reflexivity|]. split; [discriminate|]. split; [reflexivity|].
  assert (Some (ns_session_state session) = Some "active") as Ha; [|congruence].
  transitivity (ns_session_state <$> get_session_by_session_id (sv_session_manager demo_node) "sid-1");
    [by rewrite Hs|vm_compute; reflexivity].
Defined.
