(* ===== verification/RouteExecute.v ===== *)
(** * Data over a route

    Models [src/app/core/protocols/physical/route_execute.py]: what a node does
    with a [ROUTE_DATA] packet.  A hop replaces the path id and forwards the
    packet; the entry point remembers who sent it and translates between the
    published path and its own; the initiator opens the virtual envelope, hands
    it to the engine and sends the answer back over the same route.

    The engine's [process_protocol_envelope] is the parameter [process]. *)

From S2P Require Import Prelude PyJson PyTime Crypto JsonText.
From S2P Require Import Transport Reliable Sessions Identity RouteService Core Engine.

Definition protocol_family : string := "route_execute".

Record RouteExecuteData := MkRouteData {
  rd_path_id : string;
  rd_direction : string;
  rd_virtual_session_id : option string;
  rd_virtual_envelope_ciphered : bool;
  rd_virtual_envelope : json;
}.

Record ResolvedRouteExecutePath := MkResolved {
  rp_action : string;
  rp_next_path_id : option string;
  rp_target_remote_physical_node_id : option string;
}.

Record LocalRouteReplyContext := MkReplyContext {
  rc_target_remote_physical_node_id : string;
  rc_reply_path_id : string;
}.

Definition to_payload (data : RouteExecuteData) (path_id : option string) : jdict :=
  [("path_id", opt_json JStr path_id);
   ("direction", JStr (rd_direction data));
   ("virtual_session_id", opt_json JStr (rd_virtual_session_id data));
   ("virtual_envelope_ciphered", JBool (rd_virtual_envelope_ciphered data));
   ("virtual_envelope", rd_virtual_envelope data)].

(** A list or an object is not hashable: [value in {...}] raises [TypeError]. *)
Definition _read_route_direction (payload : jdict) : res string :=
  match py_get payload "direction" with
  | JNull => Ok "vn_to_pn"
  | JArr _ => Raise (TypeError "unhashable type: 'list'")
  | JObj _ => Raise (TypeError "unhashable type: 'dict'")
  | JStr value =>
      require! bool_decide (value ∈ ["vn_to_pn"; "pn_to_vn"])
        else ValueError "direction must be 'vn_to_pn' or 'pn_to_vn'." in
      Ok value
  | _ => Raise (ValueError "direction must be 'vn_to_pn' or 'pn_to_vn'.")
  end.

Definition _opposite_route_direction (direction : string) : res string :=
  if bool_decide (direction = "vn_to_pn") then Ok "pn_to_vn"
  else if bool_decide (direction = "pn_to_vn") then Ok "vn_to_pn"
  else Raise (ValueError "direction is invalid.").

Definition _parse_route_data (payload : json) : res RouteExecuteData :=
  let payload_dict := match payload with JObj d => d | _ => [] end in
  let! path_id := require_string payload_dict "path_id" in
  let! direction := _read_route_direction payload_dict in
  let virtual_session_id := optional_string payload_dict "virtual_session_id" in
  let! virtual_envelope_ciphered := require_bool payload_dict "virtual_envelope_ciphered" in
  Ok (MkRouteData path_id direction virtual_session_id virtual_envelope_ciphered
        (py_get payload_dict "virtual_envelope")).

Definition _read_virtual_message_type (virtual_envelope : jdict) : option string :=
  match py_get virtual_envelope "header" with
  | JObj header => truthy_str (py_get header "message_type")
  | _ => None
  end.

Definition _build_endpoint_ingress_key (endpoint_resolution : RouteResolution)
    (route_data : RouteExecuteData) : option (string * string) :=
  match rd_virtual_session_id route_data, rr_route_path_id endpoint_resolution with
  | Some virtual_session_id, Some route_path_id =>
      if negb (str_truthy virtual_session_id) then None
      else if negb (str_truthy route_path_id) then None
      else Some (route_path_id, virtual_session_id)
  | _, _ => None
  end.

Definition _read_remote_physical_node_id (envelope : ProtocolEnvelope) (s : Services)
    : option string :=
  match truthy_str (py_get (pe_header envelope) "physical_session_id") with
  | None => None
  | Some physical_session_id =>
      match get_session_by_session_id (sv_session_manager s) physical_session_id with
      | Some session =>
          if bool_decide (ns_session_scope session <> "physical") then None
          else Some (ns_remote_identity_id session)
      | None => None
      end
  end.

Definition _build_invalid_result : ProtocolEnvelope -> string -> PacketProcessingResult :=
  build_invalid_result "route_execute".

(** ** Where the packet goes *)

(** [self._external_ingress_by_route_session[ingress_key] = remote_physical_node_id] *)
Definition record_ingress (key : string * string) (remote_physical_node_id : string)
    (s : Services) : Services :=
  s <| sv_external_ingress_by_route_session :=
         od_set key remote_physical_node_id (sv_external_ingress_by_route_session s) |>.

(** The row of this node as entry point of the path, by its own or by the published id. *)
Definition endpoint_resolution_for (rows : route_table) (path_id : string)
    : option RouteResolution :=
  match get_endpoint_resolution_by_path_id rows path_id with
  | Some r => Some r
  | None => get_endpoint_resolution_by_final_path_id rows path_id
  end.

(** The part of [_resolve_route_data_path] after the entry-point cases. *)
Definition resolve_mapping (rows : route_table) (route_data : RouteExecuteData)
    : ResolvedRouteExecutePath :=
  if bool_decide (rd_direction route_data = "vn_to_pn") then
    match get_resolution_by_received_path_id rows (rd_path_id route_data) with
    | Some forward_mapping =>
        MkResolved "forward_vn_to_pn" (rr_generated_path_id forward_mapping)
          (rr_to_physical_node_id forward_mapping)
    | None => MkResolved "deliver_local" None None
    end
  else
    match get_resolution_by_generated_path_id rows (rd_path_id route_data) with
    | Some reverse_mapping =>
        MkResolved "forward_pn_to_vn" (rr_received_path_id reverse_mapping)
          (rr_from_physical_node_id reverse_mapping)
    | None => MkResolved "deliver_local" None None
    end.

Definition _resolve_route_data_path (envelope : ProtocolEnvelope) (route_data : RouteExecuteData)
    : st Services ResolvedRouteExecutePath := fun s =>
  let to_vn r :=
    MkResolved "forward_entry_point_to_vn" (rr_route_path_id r) (rr_previous_physical_node_id r) in
  let by_mapping := (Ok (resolve_mapping (sv_routes s) route_data), s) in
  match endpoint_resolution_for (sv_routes s) (rd_path_id route_data) with
  | None => by_mapping
  | Some endpoint_resolution =>
      if negb (opt_truthy (rr_previous_physical_node_id endpoint_resolution)) then by_mapping
      else
        let remote := _read_remote_physical_node_id envelope s in
        let ingress_key := _build_endpoint_ingress_key endpoint_resolution route_data in
        if bool_decide (rd_direction route_data = "pn_to_vn") then
          (Ok (to_vn endpoint_resolution),
           match remote, ingress_key with
           | Some remote, Some key => if str_truthy remote then record_ingress key remote s else s
           | _, _ => s
           end)
        else if bool_decide (remote = rr_previous_physical_node_id endpoint_resolution) then
          match ingress_key ≫= fun key => od_get key (sv_external_ingress_by_route_session s) with
          | Some external_remote_physical_node_id =>
              if str_truthy external_remote_physical_node_id then
                (Ok (MkResolved "forward_entry_point_to_external"
                       (if opt_truthy (rr_final_path_id endpoint_resolution)
                        then rr_final_path_id endpoint_resolution
                        else Some (rd_path_id route_data))
                       (Some external_remote_physical_node_id)), s)
              else by_mapping
          | None => by_mapping
          end
        else
          match remote, ingress_key with
          | Some remote, Some key =>
              if str_truthy remote
              then (Ok (to_vn endpoint_resolution), record_ingress key remote s)
              else by_mapping
          | _, _ => by_mapping
          end
  end.

(** ** The local end of the route *)

Section execute.
Context `{FloatText} `{Entropy} `{AesGcmSiv}.

Definition _build_virtual_envelope_aad (direction : string) (virtual_session_id : option string)
    (virtual_envelope_ciphered : bool) : string :=
  json_dumps (JObj [("scope", JStr "route_data_virtual_envelope");
                    ("direction", JStr direction);
                    ("virtual_session_id", opt_json JStr virtual_session_id);
                    ("virtual_envelope_ciphered", JBool virtual_envelope_ciphered)]).

Definition _resolve_drt_session_reply_context (sm : SessionManager) (route_data : RouteExecuteData)
    : option LocalRouteReplyContext :=
  match rd_virtual_session_id route_data with
  | None => None
  | Some virtual_session_id =>
      if negb (str_truthy virtual_session_id) then None
      else
        match get_session_by_session_id sm virtual_session_id with
        | None => None
        | Some session =>
            if bool_decide (ns_session_scope session <> "virtual") then None
            else if bool_decide (ns_bound_route_id session <> Some (rd_path_id route_data)) then None
            else
              match truthy_str (py_get (CommonJson.load_json_object (ns_metadata_json session))
                                  "entry_point_physical_node_id") with
              | None => None
              | Some entry_point_physical_node_id =>
                  Some (MkReplyContext entry_point_physical_node_id (rd_path_id route_data))
              end
        end
  end.

Definition _resolve_local_reply_context (s : Services) (route_data : RouteExecuteData)
    : option LocalRouteReplyContext :=
  let reply node := Some (MkReplyContext node (rd_path_id route_data)) in
  match get_initiator_resolution_by_initial_path_id (sv_routes s) (rd_path_id route_data)
        ≫= fun r => nonempty_column (rr_first_hop_physical_node_id r) with
  | Some first_hop => reply first_hop
  | None =>
      match get_endpoint_resolution_by_path_id (sv_routes s) (rd_path_id route_data)
            ≫= fun r => nonempty_column (rr_previous_physical_node_id r) with
      | Some previous => reply previous
      | None => _resolve_drt_session_reply_context (sv_session_manager s) route_data
      end
  end.

Definition _build_reply_virtual_payload (direction : string) (virtual_session_id : option string)
    (virtual_envelope_ciphered : bool) (virtual_response_envelope : jdict) : st Services json :=
  if negb virtual_envelope_ciphered then mret (JObj virtual_response_envelope)
  else
    match virtual_session_id with
    | None => raise (ValueError
        "virtual_session_id is required to send an encrypted virtual response.")
    | Some session_id =>
        ensure (str_truthy session_id) (ValueError
          "virtual_session_id is required to send an encrypted virtual response.");;
        session ← find_session session_id;
        match active_secret session with
        | None => raise (ValueError
            "virtual session not found or inactive for encrypting the response.")
        | Some shared_secret_hex =>
            encrypted_virtual_envelope ← encrypt_with
              (bytes_to_hex (json_dumps (JObj virtual_response_envelope))) shared_secret_hex
              (_build_virtual_envelope_aad direction virtual_session_id true);
            touch session_id;;
            mret (JStr (cr_payload_hex encrypted_virtual_envelope))
        end
    end.

Definition _resolve_local_virtual_envelope (route_data : RouteExecuteData) : st Services jdict :=
  if negb (rd_virtual_envelope_ciphered route_data) then
    match rd_virtual_envelope route_data with
    | JObj virtual_envelope => mret virtual_envelope
    | _ => raise (ValueError "virtual_envelope plaintext invalido.")
    end
  else
    match rd_virtual_session_id route_data with
    | None => raise (ValueError "virtual_session_id is required for encrypted virtual envelopes.")
    | Some session_id =>
        ensure (str_truthy session_id) (ValueError
          "virtual_session_id is required for encrypted virtual envelopes.");;
        match truthy_str (rd_virtual_envelope route_data) with
        | None => raise (ValueError "encrypted virtual_envelope is invalid.")
        | Some ciphertext =>
            session ← find_session session_id;
            match active_secret session with
            | None => raise (ValueError
                "virtual session not found or inactive for decrypting the envelope.")
            | Some shared_secret_hex =>
                plaintext_hex ← lift (aes_decrypt_hex ciphertext shared_secret_hex
                  (Some (_build_virtual_envelope_aad (rd_direction route_data)
                           (rd_virtual_session_id route_data) true)));
                match fromhex plaintext_hex ≫= utf8_decode with
                | None => raise (ValueError "UnicodeDecodeError")
                | Some plaintext_json =>
                    match json_loads plaintext_json with
                    | None => raise (ValueError "JSONDecodeError")
                    | Some (JObj virtual_envelope) =>
                        touch session_id;; mret virtual_envelope
                    | Some _ => raise (ValueError "decrypted virtual_envelope must be an object.")
                    end
                end
            end
        end
    end.

Definition _build_nested_virtual_envelope (outer_envelope : ProtocolEnvelope)
    (route_data : RouteExecuteData) (virtual_envelope : jdict) : res ProtocolEnvelope :=
  match py_get virtual_envelope "header" with
  | JObj header =>
      let payload := match py_get virtual_envelope "payload" with JNull => JObj [] | p => p end in
      let header :=
        match rd_virtual_session_id route_data with
        | Some id =>
            if str_truthy id && negb (json_truthy (py_get header "virtual_session_id"))
            then od_set "virtual_session_id" (JStr id) header else header
        | None => header
        end in
      let outer_session := py_get (pe_header outer_envelope) "physical_session_id" in
      let header :=
        if json_truthy outer_session then od_set "physical_session_id" outer_session header
        else header in
      let! message_type :=
        match py_get header "message_type" with
        | JNull => Ok None
        | JStr message_type => Ok (Some message_type)
        | _ => Raise (ValueError "virtual_envelope.header.message_type must be a string.")
        end in
      Ok (MkEnvelope (pe_protocol_name outer_envelope) message_type payload
            (json_dumps (JObj [("header", JObj header); ("payload", payload)])) header)
  | _ => Raise (ValueError "virtual_envelope.header must be an object.")
  end.

Definition _build_nested_virtual_context (context : PacketContext) (envelope : ProtocolEnvelope)
    (route_data : RouteExecuteData) : PacketContext :=
  MkContext (pc_transport_name context) (pc_payload context) (pc_remote_host context)
    (pc_remote_port context) (pc_local_host context) (pc_local_port context)
    (pc_connection_id context) (pc_received_at context)
    (Relay.dict_merge (pc_metadata context)
       [("route_path_id", JStr (rd_path_id route_data));
        ("route_direction", JStr (rd_direction route_data));
        ("route_message_type", opt_json JStr (pe_message_type envelope));
        ("virtual_session_id", opt_json JStr (rd_virtual_session_id route_data));
        ("virtual_envelope_ciphered", JBool (rd_virtual_envelope_ciphered route_data))]).

Definition _build_route_reply_result (envelope : ProtocolEnvelope) (route_data : RouteExecuteData)
    (nested_result : PacketProcessingResult) (reply_context : option LocalRouteReplyContext)
    : st Services (option PacketProcessingResult) :=
  match py_get (pp_metadata nested_result) "virtual_response_envelope" with
  | JNull => mret None
  | JObj virtual_response_envelope =>
      match reply_context with
      | None => raise (ValueError "could not resolve the virtual response reverse path.")
      | Some reply_context =>
          reply_direction ← lift (_opposite_route_direction (rd_direction route_data));
          virtual_envelope ← _build_reply_virtual_payload reply_direction
            (rd_virtual_session_id route_data) (rd_virtual_envelope_ciphered route_data)
            virtual_response_envelope;
          let reply_route_data :=
            MkRouteData (rc_reply_path_id reply_context) reply_direction
              (rd_virtual_session_id route_data) (rd_virtual_envelope_ciphered route_data)
              virtual_envelope in
          mret (Some (MkResult (pe_protocol_name envelope) true (pe_message_type envelope) None
            [("action", JStr "forward_message");
             ("protocol_family", JStr protocol_family);
             ("route_data_action", JStr "reply_to_virtual");
             ("target_remote_physical_node_id",
              JStr (rc_target_remote_physical_node_id reply_context));
             ("forward_message_type", JStr "ROUTE_DATA");
             ("forward_payload",
              JObj (to_payload reply_route_data (Some (rc_reply_path_id reply_context))));
             ("virtual_response_message_type",
              opt_json JStr (_read_virtual_message_type virtual_response_envelope))] None))
      end
  | _ => raise (ValueError "virtual_response_envelope must be an object.")
  end.

Context (process : ProtocolEnvelope -> PacketContext -> st Services PacketProcessingResult).

Definition _deliver_local_route_data (envelope : ProtocolEnvelope) (context : PacketContext)
    (route_data : RouteExecuteData) : st Services PacketProcessingResult :=
  virtual_envelope ← _resolve_local_virtual_envelope route_data;
  nested_envelope ← lift (_build_nested_virtual_envelope envelope route_data virtual_envelope);
  nested_result ← process nested_envelope (_build_nested_virtual_context context envelope route_data);
  reply_context ← gets (fun s => _resolve_local_reply_context s route_data);
  reply_result ← _build_route_reply_result envelope route_data nested_result reply_context;
  match reply_result with
  | Some reply_result => mret reply_result
  | None =>
      mret (MkResult (pp_protocol_name nested_result) (pp_handled nested_result)
        (pp_message_type nested_result) (pp_response_payload nested_result)
        (Relay.dict_merge (pp_metadata nested_result)
           [("route_data_action", JStr "deliver_local");
            ("route_path_id", JStr (rd_path_id route_data));
            ("outer_protocol_family", JStr protocol_family)])
        (pp_payload nested_result))
  end.

Definition forward_result (envelope : ProtocolEnvelope) (route_data : RouteExecuteData)
    (resolution : ResolvedRouteExecutePath) : PacketProcessingResult :=
  MkResult (pe_protocol_name envelope) true (pe_message_type envelope) None
    [("action", JStr "forward_message");
     ("protocol_family", JStr protocol_family);
     ("route_data_action", JStr (rp_action resolution));
     ("target_remote_physical_node_id",
      opt_json JStr (rp_target_remote_physical_node_id resolution));
     ("forward_message_type", JStr "ROUTE_DATA");
     ("forward_payload", JObj (to_payload route_data (rp_next_path_id resolution)))] None.

Definition handle (envelope : ProtocolEnvelope) (context : PacketContext)
    : st Services PacketProcessingResult :=
  parsed ← catch_value
    (route_data ← lift (_parse_route_data (pe_payload envelope)); mret (inl route_data))
    (fun error => mret (inr (_build_invalid_result envelope error)));
  match parsed with
  | inr result => mret result
  | inl route_data =>
      resolution ← _resolve_route_data_path envelope route_data;
      if bool_decide (rp_action resolution = "deliver_local") then
        catch_value (_deliver_local_route_data envelope context route_data)
          (fun error => mret (_build_invalid_result envelope error))
      else mret (forward_result envelope route_data resolution)
  end.
End execute.

(** ** The virtual envelope *)

Section envelope.
Context `{FloatText} `{EntropyLaws} `{AesGcmSivLaws}.

(** The virtual envelope. What one end of a virtual session encrypts for a
    direction of the route, the other end, holding the same secret, opens to the
    same envelope up to key order, whatever path id the packet arrives under. *)
Theorem virtual_envelope_roundtrip (s r : Services) (direction sid key : string) (envelope : jdict) :
  dict_wf envelope -> sid <> "" ->
  session_secret s sid = Some key -> session_secret r sid = Some key -> can_encrypt s key ->
  exists c s', _build_reply_virtual_payload direction (Some sid) true envelope s = (Ok (JStr c), s') /\
    forall path, _resolve_local_virtual_envelope (MkRouteData path direction (Some sid) true (JStr c)) r
      = (Ok (norm_dict envelope), (touch sid r).2).
Proof.
  intros Hwf Hne Hs Hr Hcan. unfold _build_reply_virtual_payload, session_secret in *.
  destruct (encrypt_with_protects s (json_dumps (JObj envelope)) key
    (_build_virtual_envelope_aad direction (Some sid) true) Hcan) as (x & s1 & He & (c & Hc & Hx) & Hd).
  cbn [negb]. unfold ensure. rewrite (proj2 (str_truthy_spec sid) Hne).
  erewrite st_bind_run by reflexivity. erewrite st_bind_run by reflexivity. rewrite Hs.
  rewrite (st_bind_run _ _ _ _ _ He). destruct (touch_total sid s1) as (o & s2 & Ht).
  rewrite (st_bind_run _ _ _ _ _ Ht), Hx. exists (bytes_to_hex c), s2. split; [done|]. intros path.
  unfold _resolve_local_virtual_envelope. cbn [rd_virtual_envelope_ciphered rd_virtual_session_id
    rd_virtual_envelope rd_direction negb truthy_str]. unfold ensure.
  rewrite (proj2 (str_truthy_spec sid) Hne), hex_text_truthy by done.
  erewrite st_bind_run by reflexivity. erewrite st_bind_run by reflexivity. rewrite Hr.
  rewrite Hx in Hd. rewrite Hd. erewrite st_bind_run by reflexivity.
  unfold bytes_to_hex at 1. rewrite fromhex_bytes_hex. cbn [mbind option_bind].
  rewrite ascii_text_decode, json_loads_dumps by (done || by apply json_dumps_ascii).
  destruct (touch_total sid r) as (o' & s3 & Ht').
  change (json_norm (JObj envelope)) with (JObj (norm_dict envelope)).
  cbv iota beta. by rewrite (st_bind_run _ _ _ _ _ Ht'), Ht'.
Qed.
End envelope.

(** ** A packet over a whole route *)

(** The node forwards [p] from [from] as [q] to [to], and back. *)
Definition relays (s : Services) (p q from to : string) : Prop :=
  endpoint_resolution_for (sv_routes s) p = None /\
  endpoint_resolution_for (sv_routes s) q = None /\
  (exists r, get_resolution_by_received_path_id (sv_routes s) p = Some r /\
     rr_generated_path_id r = Some q /\ rr_to_physical_node_id r = Some to) /\
  (exists r, get_resolution_by_generated_path_id (sv_routes s) q = Some r /\
     rr_received_path_id r = Some p /\ rr_from_physical_node_id r = Some from).

(** The node is the entry point of a route: [q] on the route, [f] outside. *)
Definition enters (s : Services) (q f previous : string) : Prop :=
  exists r, endpoint_resolution_for (sv_routes s) q = Some r /\
    endpoint_resolution_for (sv_routes s) f = Some r /\
    rr_route_path_id r = Some q /\ rr_final_path_id r = Some f /\
    rr_previous_physical_node_id r = Some previous /\ q <> "" /\ f <> "" /\ previous <> "".

(** The hops of a route towards the entry point [e]: a packet [prev] sends under [p]
    leaves the hop [last] under [q]. *)
Inductive route_chain (net : gmap string Services) (e : string)
    : string -> string -> list string -> string -> string -> Prop :=
| chain_nil prev p : route_chain net e prev p [] prev p
| chain_cons prev p h s q hops last r :
    net !! h = Some s -> relays s p q prev (hd e hops) -> p <> "" -> q <> "" -> prev <> "" ->
    hd e hops <> "" -> route_chain net e h q hops last r ->
    route_chain net e prev p (h :: hops) last r.

Section network.
Context `{FloatText} `{Entropy} `{AesGcmSiv}.
Context (process : ProtocolEnvelope -> PacketContext -> st Services PacketProcessingResult).
(** The header of the packet a node gets from another, and its context. *)
Context (header_of : string -> string -> jdict) (context : PacketContext).

Definition arrival (from to : string) (payload : jdict) : ProtocolEnvelope :=
  MkEnvelope "json" (Some "ROUTE_DATA") (JObj payload) "" (header_of from to).

(** The forwarding a result asks for ([_execute_forward_message_action]). *)
Definition forwarding (result : PacketProcessingResult) : option (string * jdict) :=
  match py_get (pp_metadata result) "action", py_get (pp_metadata result) "forward_message_type",
        truthy_str (py_get (pp_metadata result) "target_remote_physical_node_id"),
        py_get (pp_metadata result) "forward_payload" with
  | JStr "forward_message", JStr "ROUTE_DATA", Some target, JObj payload => Some (target, payload)
  | _, _, _, _ => None
  end.

(** [n] nodes in turn process a packet and forward it: who sent it, where it is, the
    packet and the state of the network. *)
Fixpoint carry (n : nat) (net : gmap string Services) (from node : string) (payload : jdict)
    : option (string * string * jdict * gmap string Services) :=
  match n with
  | O => Some (from, node, payload, net)
  | S n' =>
      s ← net !! node;
      match handle process (arrival from node payload) context s with
      | (Ok result, s') =>
          '(target, payload') ← forwarding result;
          carry n' (<[node := s']> net) node target payload'
      | (Raise _, _) => None
      end
  end.

Definition packet (p direction : string) (sid : string) (ciphered : bool) (ve : json) : jdict :=
  to_payload (MkRouteData p direction (Some sid) ciphered ve) (Some p).

Lemma parse_packet p direction sid ciphered ve :
  p <> "" -> direction ∈ ["vn_to_pn"; "pn_to_vn"] -> sid <> "" ->
  _parse_route_data (JObj (packet p direction sid ciphered ve))
  = Ok (MkRouteData p direction (Some sid) ciphered ve).
Proof.
  intros Hp Hd Hs. unfold _parse_route_data, packet, to_payload. cbn [rd_path_id rd_direction
    rd_virtual_session_id rd_virtual_envelope_ciphered rd_virtual_envelope opt_json]. cbv zeta.
  unfold require_string, read_string_or_none, _read_route_direction, optional_string, require_bool, py_get.
  od_eval. cbn [default from_option id truthy_str].
  rewrite !(proj2 (str_truthy_spec _)) by done. cbn [mbind res_bind].
  by rewrite bool_decide_true.
Qed.

(** One forwarding step, from the resolution of the path. *)
Lemma handle_forwards s s' from to p direction sid ciphered ve action q target :
  p <> "" -> direction ∈ ["vn_to_pn"; "pn_to_vn"] -> sid <> "" -> action <> "deliver_local" ->
  _resolve_route_data_path (arrival from to (packet p direction sid ciphered ve))
    (MkRouteData p direction (Some sid) ciphered ve) s
  = (Ok (MkResolved action (Some q) (Some target)), s') -> target <> "" ->
  exists result, handle process (arrival from to (packet p direction sid ciphered ve)) context s
    = (Ok result, s') /\ forwarding result = Some (target, packet q direction sid ciphered ve).
Proof.
  intros Hp Hd Hs Ha Hres Ht. unfold handle. change (pe_payload (arrival from to ?x)) with (JObj x).
  rewrite parse_packet by done.
  erewrite st_bind_run by reflexivity. cbv iota beta. rewrite (st_bind_run _ _ _ _ _ Hres).
  cbn [rp_action]. rewrite bool_decide_false by done. eexists. split; [reflexivity|].
  unfold forwarding, forward_result. cbn [pp_metadata]. unfold py_get. od_eval.
  cbn [default from_option id opt_json rp_target_remote_physical_node_id truthy_str].
  by rewrite (proj2 (str_truthy_spec _) Ht).
Qed.

(** *** Hops *)

Lemma relay_resolution s p q from to env sid ciphered ve :
  relays s p q from to ->
  _resolve_route_data_path env (MkRouteData p "vn_to_pn" (Some sid) ciphered ve) s
  = (Ok (MkResolved "forward_vn_to_pn" (Some q) (Some to)), s) /\
  _resolve_route_data_path env (MkRouteData q "pn_to_vn" (Some sid) ciphered ve) s
  = (Ok (MkResolved "forward_pn_to_vn" (Some p) (Some from)), s).
Proof.
  intros (Hp & Hq & (r & Hr & Hg & Ht) & (r' & Hr' & Hrec & Hf)).
  unfold _resolve_route_data_path, resolve_mapping. cbn [rd_path_id rd_direction].
  rewrite Hp, Hq, Hr, Hr', Hg, Ht, Hrec, Hf. done.
Qed.

Lemma carry_step n net s s' from node p direction sid ciphered ve action q target :
  net !! node = Some s ->
  p <> "" -> direction ∈ ["vn_to_pn"; "pn_to_vn"] -> sid <> "" -> action <> "deliver_local" ->
  _resolve_route_data_path (arrival from node (packet p direction sid ciphered ve))
    (MkRouteData p direction (Some sid) ciphered ve) s
  = (Ok (MkResolved action (Some q) (Some target)), s') -> target <> "" ->
  carry (S n) net from node (packet p direction sid ciphered ve) =
  carry n (<[node := s']> net) node target (packet q direction sid ciphered ve).
Proof.
  intros Hnet Hp Hd Hs Ha Hres Ht. cbn [carry]. rewrite Hnet. cbn [mbind option_bind].
  destruct (handle_forwards s s' from node p direction sid ciphered ve action q target)
    as (result & -> & ->); done.
Qed.

(** Along the hops: towards the entry point and back; no node's state changes. *)
Lemma carry_to_entry net e prev p hops last q sid ciphered ve :
  route_chain net e prev p hops last q -> sid <> "" -> forall n,
  carry (length hops + n) net prev (hd e hops) (packet p "vn_to_pn" sid ciphered ve) =
  carry n net last e (packet q "vn_to_pn" sid ciphered ve).
Proof.
  induction 1 as [|prev p h s q hops last r Hs Hr Hp Hq Hprev Hn Hchain IH]; intros Hsid n; [done|].
  cbn [length hd Nat.add].
  rewrite (carry_step _ net s s prev h p "vn_to_pn" sid ciphered ve "forward_vn_to_pn" q (hd e hops));
    [|done|done|left|done|done|apply (relay_resolution s p q _ _ _ sid ciphered ve Hr)|done].
  rewrite insert_id by done. by apply IH.
Qed.

Lemma carry_to_initiator net e prev p hops last q sid ciphered ve :
  route_chain net e prev p hops last q -> sid <> "" -> forall n,
  carry (length hops + n) net e last (packet q "pn_to_vn" sid ciphered ve) =
  carry n net (hd e hops) prev (packet p "pn_to_vn" sid ciphered ve).
Proof.
  induction 1 as [|prev p h s q hops last r Hs Hr Hp Hq Hprev Hn Hchain IH]; intros Hsid n; [done|].
  cbn [length hd]. rewrite Nat.add_succ_comm, (IH Hsid).
  rewrite (carry_step _ net s s _ h q "pn_to_vn" sid ciphered ve "forward_pn_to_vn" p prev);
    [|done|done|right; left|done|done|apply (relay_resolution s p q _ _ _ sid ciphered ve Hr)|done].
  by rewrite insert_id.
Qed.

Lemma chain_insert net e s prev p hops last q :
  e ∉ hops -> route_chain net e prev p hops last q ->
  route_chain (<[e := s]> net) e prev p hops last q.
Proof.
  intros He. induction 1 as [|prev p h s' q hops last r Hs Hr Hp Hq Hprev Hn Hchain IH]; [constructor|].
  rewrite not_elem_of_cons in He. destruct He as [Hne He].
  eapply chain_cons; eauto. by rewrite lookup_insert_ne.
Qed.

(** *** The entry point *)

Lemma entry_inbound s q f previous x env sid ciphered ve :
  enters s q f previous -> sid <> "" -> x <> "" -> _read_remote_physical_node_id env s = Some x ->
  _resolve_route_data_path env (MkRouteData f "pn_to_vn" (Some sid) ciphered ve) s =
  (Ok (MkResolved "forward_entry_point_to_vn" (Some q) (Some previous)), record_ingress (q, sid) x s).
Proof.
  intros (r & Hq & Hf & Hrq & Hrf & Hprev & Hqe & Hfe & Hpe) Hsid Hx Hrem.
  unfold _resolve_route_data_path, _build_endpoint_ingress_key.
  cbn [rd_path_id rd_direction rd_virtual_session_id]. rewrite Hf, Hprev, Hrq, Hrem.
  cbn [opt_truthy]. by rewrite !(proj2 (str_truthy_spec _)).
Qed.

Lemma entry_outbound s q f previous x env sid ciphered ve :
  enters s q f previous -> sid <> "" -> x <> "" ->
  _read_remote_physical_node_id env s = Some previous ->
  od_get (q, sid) (sv_external_ingress_by_route_session s) = Some x ->
  _resolve_route_data_path env (MkRouteData q "vn_to_pn" (Some sid) ciphered ve) s =
  (Ok (MkResolved "forward_entry_point_to_external" (Some f) (Some x)), s).
Proof.
  intros (r & Hq & Hf & Hrq & Hrf & Hprev & Hqe & Hfe & Hpe) Hsid Hx Hrem Hin.
  unfold _resolve_route_data_path, _build_endpoint_ingress_key.
  cbn [rd_path_id rd_direction rd_virtual_session_id]. rewrite Hq, Hprev, Hrq, Hrem, Hrf.
  cbn [opt_truthy]. rewrite !(proj2 (str_truthy_spec _)) by done. cbn [negb].
  rewrite bool_decide_false, bool_decide_true by done. cbn [mbind option_bind]. rewrite Hin.
  by rewrite (proj2 (str_truthy_spec _) Hx).
Qed.

(** C3: a route carries data both ways. Whatever its length, a packet an outside
    node [x] sends to the entry point under the published path id reaches the node
    [v] that built the route in as many steps as the route has nodes, under the
    path id [v] knows, with the virtual envelope unchanged; what [v] sends back on
    that path reaches [x] under the published id. No hop keeps state; the entry
    point keeps only who sent. *)
Theorem route_round_trip (net : gmap string Services) (s : Services)
    (e v x p q f last sid : string) (hops : list string) (ciphered : bool) (ve : json) :
  route_chain net e v p hops last q -> net !! e = Some s -> e ∉ hops -> enters s q f last ->
  x <> "" -> sid <> "" ->
  _read_remote_physical_node_id (arrival x e []) s = Some x ->
  _read_remote_physical_node_id (arrival last e []) s = Some last ->
  let net' := <[e := record_ingress (q, sid) x s]> net in
  carry (1 + length hops) net x e (packet f "pn_to_vn" sid ciphered ve)
  = Some (hd e hops, v, packet p "pn_to_vn" sid ciphered ve, net') /\
  forall ve',
    carry (length hops + 1) net' v (hd e hops) (packet p "vn_to_pn" sid ciphered ve')
    = Some (e, x, packet f "vn_to_pn" sid ciphered ve', net').
Proof.
  intros Hchain Hs He Hent Hx Hsid Hremx Hreml net'.
  pose proof Hent as (r & _ & _ & _ & _ & _ & Hq & Hf & Hlast). split.
  - rewrite (carry_step _ net s (record_ingress (q, sid) x s) x e f "pn_to_vn" sid ciphered ve
      "forward_entry_point_to_vn" q last); [|done|done|right; left|done|done| |done];
      [|by apply (entry_inbound s q f last x)].
    rewrite <- (Nat.add_0_r (length hops)).
    by rewrite (carry_to_initiator _ _ v p hops last q) by (done || by apply chain_insert).
  - intros ve'. rewrite (carry_to_entry _ _ v p hops last q) by (done || by apply chain_insert).
    rewrite (carry_step 0 net' (record_ingress (q, sid) x s) (record_ingress (q, sid) x s) last e q
      "vn_to_pn" sid ciphered ve' "forward_entry_point_to_external" f x);
      [|apply lookup_insert_eq|done|left|done|done| |done].
    + unfold net'. by rewrite insert_insert_eq.
    + apply (entry_outbound _ q f last x); [done..|apply od_get_set_eq].
Qed.

(** *** The initiator *)

(** At the node that built the route the packet is opened, the engine processes the
    nested message and [w] is the answer's virtual envelope. *)
Definition answers (s : Services) (envelope : ProtocolEnvelope) (route_data : RouteExecuteData)
    (reply_direction : string) (w : json) (s' : Services) : Prop :=
  exists virtual_envelope s1 nested nested_result s2 response,
    _resolve_local_virtual_envelope route_data s = (Ok virtual_envelope, s1) /\
    _build_nested_virtual_envelope envelope route_data virtual_envelope = Ok nested /\
    process nested (_build_nested_virtual_context context envelope route_data) s1
    = (Ok nested_result, s2) /\
    py_get (pp_metadata nested_result) "virtual_response_envelope" = JObj response /\
    _resolve_local_reply_context s2 route_data = _resolve_local_reply_context s route_data /\
    _build_reply_virtual_payload reply_direction (rd_virtual_session_id route_data)
      (rd_virtual_envelope_ciphered route_data) response s2 = (Ok w, s').

Lemma reply_forwards s s' envelope p h sid ciphered ve w nested_result response :
  h <> "" -> py_get (pp_metadata nested_result) "virtual_response_envelope" = JObj response ->
  _build_reply_virtual_payload "vn_to_pn" (Some sid) ciphered response s = (Ok w, s') ->
  exists reply,
    _build_route_reply_result envelope (MkRouteData p "pn_to_vn" (Some sid) ciphered ve)
      nested_result (Some (MkReplyContext h p)) s = (Ok (Some reply), s') /\
    forwarding reply = Some (h, packet p "vn_to_pn" sid ciphered w).
Proof.
  intros Hh Hresp Hreply. unfold _build_route_reply_result. rewrite Hresp. cbn [rd_direction].
  rewrite (st_bind_run _ _ s "vn_to_pn" s) by done.
  cbn [rd_virtual_session_id rd_virtual_envelope_ciphered].
  rewrite (st_bind_run _ _ _ _ _ Hreply). eexists. split; [reflexivity|].
  unfold forwarding. cbn [pp_metadata]. unfold py_get. od_eval.
  cbn [default from_option id opt_json truthy_str rc_target_remote_physical_node_id].
  by rewrite (proj2 (str_truthy_spec h) Hh).
Qed.

(** The answer takes the way back. A packet that reaches the initiator of the
    route on the path it created is handed to the engine; when the engine answers,
    the answer is sent to the first hop of the route, under the same path id and
    session and in the opposite direction. *)
Theorem local_reply_spec (s s' : Services) (row : RouteResolution)
    (from v p h sid : string) (ciphered : bool) (ve w : json) :
  p <> "" -> sid <> "" -> h <> "" ->
  endpoint_resolution_for (sv_routes s) p = None ->
  get_resolution_by_generated_path_id (sv_routes s) p = None ->
  get_initiator_resolution_by_initial_path_id (sv_routes s) p = Some row ->
  rr_first_hop_physical_node_id row = Some h ->
  answers s (arrival from v (packet p "pn_to_vn" sid ciphered ve))
    (MkRouteData p "pn_to_vn" (Some sid) ciphered ve) "vn_to_pn" w s' ->
  exists result,
    handle process (arrival from v (packet p "pn_to_vn" sid ciphered ve)) context s
    = (Ok result, s') /\
    forwarding result = Some (h, packet p "vn_to_pn" sid ciphered w).
Proof.
  intros Hp Hsid Hh Hend Hrev Hrow Hfirst
    (venv & s1 & nested & nr & s2 & response & Hopen & Hnest & Hproc & Hresp & Hctx & Hreply).
  unfold handle. change (pe_payload (arrival from v ?x)) with (JObj x).
  rewrite parse_packet by (done || by right; left).
  erewrite st_bind_run by reflexivity. cbv iota beta.
  rewrite (st_bind_run _ _ _ (MkResolved "deliver_local" None None) s)
    by (unfold _resolve_route_data_path, resolve_mapping; cbn [rd_path_id rd_direction];
        by rewrite Hend, Hrev).
  cbn [rp_action]. rewrite bool_decide_true by done.
  assert (_resolve_local_reply_context s2 (MkRouteData p "pn_to_vn" (Some sid) ciphered ve)
    = Some (MkReplyContext h p)) as Hctx2.
  { rewrite Hctx. unfold _resolve_local_reply_context. cbn [rd_path_id]. rewrite Hrow.
    cbn [mbind option_bind]. rewrite Hfirst. cbn [nonempty_column].
    by rewrite (proj2 (str_truthy_spec h) Hh). }
  destruct (reply_forwards s2 s' (arrival from v (packet p "pn_to_vn" sid ciphered ve)) p h sid
    ciphered ve w nr response Hh Hresp Hreply) as (reply & Hrep & Hfwd).
  exists reply. split; [|done]. unfold catch_value, _deliver_local_route_data.
  rewrite (st_bind_run _ _ _ _ _ Hopen), Hnest. erewrite st_bind_run by reflexivity.
  rewrite (st_bind_run _ _ _ _ _ Hproc). erewrite st_bind_run by reflexivity.
  by rewrite Hctx2, (st_bind_run _ _ _ _ _ Hrep).
Qed.
End network.

(** ** Rows that make a hop *)

Lemma select_latest_new (f : RouteResolution -> bool) rows r :
  Forall (fun r' => rr_id r' < rr_id r) rows -> f r = true ->
  select_latest f (rows ++ [r]) = Some r.
Proof.
  intros Hids Hf. destruct (select_latest f (rows ++ [r])) as [r0|] eqn:Hs.
  - apply select_latest_Some in Hs as (Hin & _ & Hmax). f_equal.
    apply elem_of_app in Hin as [Hin|Hin%list_elem_of_singleton]; [|done].
    rewrite Forall_forall in Hids. specialize (Hids r0 Hin).
    specialize (Hmax r ltac:(apply elem_of_app; right; by left) Hf). lia.
  - apply select_latest_None in Hs. apply Forall_app in Hs as [_ Hs].
    apply Forall_inv in Hs. cbn in Hs. congruence.
Qed.

Lemma select_latest_skip (f : RouteResolution -> bool) rows r :
  select_latest f rows = None -> f r = false -> select_latest f (rows ++ [r]) = None.
Proof.
  intros Hn Hf. apply select_latest_None. apply select_latest_None in Hn.
  apply Forall_app. split; [done|]. by constructor.
Qed.

(** What [create_hop_resolution] inserts makes the node a hop. *)
Lemma created_hop_relays `{FloatText} s rows strategy from to p q sid r :
  create_hop_resolution rows strategy from to p q sid = Ok (r, sv_routes s) ->
  endpoint_resolution_for rows p = None -> endpoint_resolution_for rows q = None ->
  relays s p q from to.
Proof.
  intros Hc Hp Hq. unfold create_hop_resolution in Hc.
  apply insert_row_Ok in Hc as (Hr & Hrows & _).
  pose proof (proj2 (next_id_bound rows)) as Hids.
  assert (Forall (fun r' => rr_id r' < rr_id r) rows) as Hlt by (by rewrite Hr).
  assert (rr_received_path_id r = Some p /\ rr_generated_path_id r = Some q /\
    rr_from_physical_node_id r = Some from /\ rr_to_physical_node_id r = Some to /\
    rr_is_valid r = true /\ rr_local_role r = "intermediary") as (H1 & H2 & H3 & H4 & H5 & H6)
    by (by rewrite Hr).
  clear Hr. unfold relays. rewrite Hrows.
  assert (Hskip : forall x, endpoint_resolution_for rows x = None ->
    endpoint_resolution_for (rows ++ [r]) x = None).
  { intros x. unfold endpoint_resolution_for, get_endpoint_resolution_by_path_id,
      get_endpoint_resolution_by_final_path_id. intros Hx.
    destruct (select_latest (endpoint_path x) rows) eqn:E; [done|].
    rewrite select_latest_skip; [|done|by unfold endpoint_path; rewrite H6].
    apply select_latest_skip; [done|by rewrite H6]. }
  split; [by apply Hskip|]. split; [by apply Hskip|].
  split; exists r; (split; [|done]); apply select_latest_new; try done.
  - unfold received_path, is_str. rewrite H1, H5, bool_decide_true by done. done.
  - unfold generated_path, is_str. rewrite H2, H5, bool_decide_true by done. done.
Qed.

(** ** Errors *)

(** Errors of route data. No [ValueError] leaves the handler: a malformed packet
    is answered by an invalid result and leaves the services unchanged. A direction
    that is a list or an object is not malformed in that sense: the test of
    membership raises [TypeError], which the handler does not catch. *)
Theorem route_data_errors `{FloatText} `{Entropy} `{AesGcmSiv}
    (process : ProtocolEnvelope -> PacketContext -> st Services PacketProcessingResult)
    (envelope : ProtocolEnvelope) (context : PacketContext) (s : Services) :
  (forall msg s', handle process envelope context s <> (Raise (ValueError msg), s')) /\
  (forall msg, _parse_route_data (pe_payload envelope) = Raise (ValueError msg) ->
     handle process envelope context s = (Ok (_build_invalid_result envelope msg), s)) /\
  (forall d l p, pe_payload envelope = JObj d -> py_get d "path_id" = JStr p ->
     py_get d "direction" = JArr l -> str_truthy p = true ->
     handle process envelope context s = (Raise (TypeError "unhashable type: 'list'"), s)).
Proof.
  assert (Hparse : handle process envelope context s =
    match _parse_route_data (pe_payload envelope) with
    | Raise (ValueError msg) => (Ok (_build_invalid_result envelope msg), s)
    | Raise e => (Raise e, s)
    | Ok route_data =>
        (resolution ← _resolve_route_data_path envelope route_data;
         if bool_decide (rp_action resolution = "deliver_local") then
           catch_value (_deliver_local_route_data process envelope context route_data)
             (fun error => mret (_build_invalid_result envelope error))
         else mret (forward_result envelope route_data resolution)) s
    end).
  { unfold handle, catch_value, lift, mbind, st_bind.
    by destruct (_parse_route_data _) as [|[]]. }
  rewrite Hparse. split_and!.
  - intros msg s'. destruct (_parse_route_data _) as [rd|[]]; try done.
    unfold mbind, st_bind. destruct (_resolve_route_data_path envelope rd s) as [[r|e] s1] eqn:Hr.
    + case_bool_decide; [|done]. unfold catch_value. repeat case_match; naive_solver.
    + unfold _resolve_route_data_path in Hr. cbv zeta in Hr. repeat case_match; done.
  - intros msg ->. done.
  - intros d l p Hd Hp Hl Ht. rewrite Hd. unfold _parse_route_data. cbv zeta.
    unfold require_string, read_string_or_none. rewrite Hp. cbn [truthy_str]. rewrite Ht.
    cbn [mbind res_bind]. unfold _read_route_direction. by rewrite Hl.
Qed.

(** ** Witnesses *)

#[local] Existing Instance demo_aead.
#[local] Existing Instance demo_aead_laws.
#[local] Existing Instance demo_entropy.
#[local] Existing Instance demo_entropy_laws.
#[local] Instance demo_float_text : FloatText := fun s => s.

Lemma virtual_envelope_roundtrip_witness :
  exists c s', _build_reply_virtual_payload "vn_to_pn" (Some "sid-1") true demo_payload demo_node
      = (Ok (JStr c), s') /\
    _resolve_local_virtual_envelope (MkRouteData "p" "vn_to_pn" (Some "sid-1") true (JStr c)) demo_node
      = (Ok (norm_dict demo_payload), (touch "sid-1" demo_node).2).
Proof.
  destruct (virtual_envelope_roundtrip demo_node demo_node "vn_to_pn" "sid-1" demo_secret
    demo_payload) as (c & s' & Hb & Ho).
  - unfold demo_payload. json_wf_tac.
  - discriminate.
  - vm_compute. reflexivity.
  - vm_compute. reflexivity.
  - split; [by exists "0123456789abcdef0123456789abcdef"|]. exists (bytes_to_hex "0123456789ab").
    split; [by left|]. apply not_elem_of_empty.
  - exists c, s'. split; [exact Hb|apply Ho].
Defined.

(** A route of one hop: [v] - [h] - [e], and the outside node [x]. *)
Definition demo_services (sm : SessionManager) (rows : route_table) : Services :=
  MkServices sm rows empty_database ∅ 0 3000 0 [] [].

Definition add_session (sm : SessionManager) (sid remote : string) : SessionManager :=
  match create_outbound_physical_session sm sid 1000 "e" remote None "tcp" "10.0.0.2" 19001 20 with
  | Ok (_, sm) => sm
  | Raise _ => sm
  end.

Definition rows_of (r : res (RouteResolution * route_table)) : route_table :=
  match r with Ok (_, rows) => rows | Raise _ => [] end.

Definition demo_hop : Services :=
  demo_services new_session_manager (rows_of (create_hop_resolution [] "rw" "v" "e" "p" "q" None)).

Definition demo_entry : Services :=
  demo_services (add_session (add_session new_session_manager "sid-x" "x") "sid-h" "h")
    [endpoint_row "h" "rw" 7 "q" "sk" "pk" <| rr_id := 1 |> <| rr_final_path_id := Some "f" |>].

Definition demo_initiator : Services :=
  demo_services new_session_manager
    (rows_of (create_initiator_resolution [] "h" "p" "pk" (Some 3) (Some "rw") (Some 7) (Some "vn")
       None None)).

Definition demo_net : gmap string Services := <["h" := demo_hop]> {["e" := demo_entry]}.
Definition demo_header_of (from to : string) : jdict :=
  [("physical_session_id", JStr ("sid-" +:+ from))].
Definition demo_context : PacketContext := MkContext "tcp" "" None None None None None 0 [].

(** An engine that answers every message with a fixed envelope. *)
Definition demo_process (_ : ProtocolEnvelope) (_ : PacketContext)
    : st Services PacketProcessingResult :=
  mret (MkResult "json" true None None
    [("virtual_response_envelope", JObj [("header", JObj [])])] None).

Lemma demo_hop_relays : relays demo_hop "p" "q" "v" "e".
Proof.
  apply (created_hop_relays demo_hop [] "rw" "v" "e" "p" "q" None
    (hd (blank_resolution "" "") (sv_routes demo_hop))); vm_compute; reflexivity.
Qed.

Lemma demo_chain : route_chain demo_net "e" "v" "p" ["h"] "h" "q".
Proof.
  eapply chain_cons; [|apply demo_hop_relays|done|done|done|done|constructor].
  by unfold demo_net; rewrite lookup_insert_eq.
Qed.

Lemma route_round_trip_witness :
  carry demo_process demo_header_of demo_context (1 + length ["h"]) demo_net "x" "e"
    (packet "f" "pn_to_vn" "vs" false JNull)
  = Some (hd "e" ["h"], "v", packet "p" "pn_to_vn" "vs" false JNull,
          <["e" := record_ingress ("q", "vs") "x" demo_entry]> demo_net).
Proof.
  refine (proj1 (route_round_trip demo_process demo_header_of demo_context demo_net demo_entry
    "e" "v" "x" "p" "q" "f" "h" "vs" ["h"] false JNull demo_chain _ _ _ _ _ _ _)).
  - unfold demo_net. by rewrite lookup_insert_ne, lookup_singleton_eq.
  - apply (bool_decide_unpack _). vm_compute. exact I.
  - exists (hd (blank_resolution "" "") (sv_routes demo_entry)).
    split_and!; try discriminate; vm_compute; reflexivity.
  - discriminate.
  - discriminate.
  - vm_compute. reflexivity.
  - vm_compute. reflexivity.
Defined.

Lemma local_reply_spec_witness :
  exists result,
    handle demo_process (arrival demo_header_of "h" "v"
      (packet "p" "pn_to_vn" "vs" false (JObj [("header", JObj [])]))) demo_context demo_initiator
    = (Ok result, demo_initiator) /\
    forwarding result = Some ("h", packet "p" "vn_to_pn" "vs" false (JObj [("header", JObj [])])).
Proof.
  eapply (local_reply_spec demo_process demo_header_of demo_context demo_initiator demo_initiator).
  - discriminate.
  - discriminate.
  - discriminate.
  - vm_compute. reflexivity.
  - vm_compute. reflexivity.
  - vm_compute. reflexivity.
  - vm_compute. reflexivity.
  - do 6 eexists. split_and!; reflexivity.
Defined.

Lemma route_data_errors_witness :
  handle demo_process (MkEnvelope "json" (Some "ROUTE_DATA") (JObj [("path_id", JStr "p");
    ("direction", JArr [])]) "" []) demo_context demo_hop
  = (Raise (TypeError "unhashable type: 'list'"), demo_hop).
Proof.
  eapply (route_data_errors demo_process (MkEnvelope "json" (Some "ROUTE_DATA")
    (JObj [("path_id", JStr "p"); ("direction", JArr [])]) "" []) demo_context demo_hop);
    reflexivity.
Defined.
