(* ===== verification/PhysicalSession.v ===== *)
(** * Physical sessions: the handshake and the session messages

    Models [src/app/core/protocols/physical/session.py], the handler of the
    messages by which two nodes open a session with a shared secret, keep it
    alive, exchange reliable data over it and close it.

    The engine's [process_protocol_envelope], which reliable data calls back, is
    [process]. *)

From S2P Require Import Prelude PyJson PyTime Sha512 Crypto JsonText Transport Reliable.
From S2P Require Import Sessions Identity RouteService Core Registry Engine.

Section handler.
Context `{FloatText} `{Entropy} `{OpenSSL} `{KeyGen}.
(** [services.config.session_keepalive_seconds] *)
Context (session_keepalive_seconds : Z).
Context (process : ProtocolEnvelope -> PacketContext -> st Services PacketProcessingResult).

Definition invalid (envelope : ProtocolEnvelope) (reason : string) : PacketProcessingResult :=
  build_invalid_result "session" envelope reason.

(** The result of a handled message. *)
Definition session_result (envelope : ProtocolEnvelope) (context : PacketContext)
    (response_payload : option string) (action session_id : string) (more : jdict)
    : PacketProcessingResult :=
  MkResult (pe_protocol_name envelope) true (pe_message_type envelope) response_payload
    ([("protocol_family", JStr "session"); ("transport_name", JStr (pc_transport_name context));
      ("action", JStr action); ("session_id", JStr session_id)] ++ more) None.

(** ** Packets *)

Definition _build_packet_bytes (header payload : jdict) : string :=
  CommonJson.compact_json_bytes [("header", JObj header); ("payload", JObj payload)].

Definition _build_response_header (request_header : jdict) (message_type : string)
    : st Services jdict :=
  uuid ← new_uuid; mret (build_response_header uuid request_header message_type false).

Definition build_physical_session_init_payload (header : jdict)
    (initiator_physical_node_id initiator_public_key : string) (initiator_endpoints : list json)
    (keepalive_interval_seconds : Z) : string :=
  _build_packet_bytes header
    [("initiator_physical_node_id", JStr initiator_physical_node_id);
     ("initiator_public_key", JStr initiator_public_key);
     ("initiator_endpoints", JArr initiator_endpoints);
     ("keepalive_interval_seconds", JInt keepalive_interval_seconds)].

Definition build_physical_session_init_ok_payload (request_header : jdict)
    (responder_ephemeral_public_key signature_hex : string) (keepalive_interval_seconds : Z)
    : st Services string :=
  header ← _build_response_header request_header "PHYSICAL_SESSION_INIT_OK";
  mret (_build_packet_bytes header
    [("responder_ephemeral_public_key", JStr responder_ephemeral_public_key);
     ("signature_hex", JStr signature_hex);
     ("keepalive_interval_seconds", JInt keepalive_interval_seconds)]).

Definition build_physical_session_key_confirm_payload (request_header : jdict)
    (encapsulated_key_hex : string) : st Services string :=
  header ← _build_response_header request_header "PHYSICAL_SESSION_KEY_CONFIRM";
  mret (_build_packet_bytes header [("encapsulated_key_hex", JStr encapsulated_key_hex)]).

Definition build_physical_session_ready_payload (request_header : jdict)
    (keepalive_interval_seconds : Z) : st Services string :=
  header ← _build_response_header request_header "PHYSICAL_SESSION_READY";
  mret (_build_packet_bytes header
    [("status", JStr "active"); ("keepalive_interval_seconds", JInt keepalive_interval_seconds)]).

Definition build_physical_session_keepalive_payload (header : jdict) : string :=
  _build_packet_bytes header [].

Definition build_physical_session_keepalive_ack_payload (request_header : jdict)
    : st Services string :=
  header ← _build_response_header request_header "PHYSICAL_SESSION_KEEPALIVE_ACK";
  mret (_build_packet_bytes header []).

Definition build_physical_session_close_payload (header : jdict) (close_reason : string) : string :=
  _build_packet_bytes header [("close_reason", JStr close_reason)].

(** ** Endpoints of a session *)

Definition _build_endpoint_metadata_update (endpoint_source : string) (context_metadata : jdict)
    (fallback_target_physical_node_id : string) : SessionStateUpdateInput :=
  let metadata := List.filter (fun p =>
    bool_decide (p.1 ∈ ["relay_physical_node_id"; "target_physical_node_id"])
    && match p.2 with JStr value => str_truthy value | _ => false end) context_metadata in
  let metadata :=
    if negb (od_has "target_physical_node_id" metadata)
       && str_truthy fallback_target_physical_node_id
    then od_set "target_physical_node_id" (JStr fallback_target_physical_node_id) metadata
    else metadata in
  let metadata := od_set "physical_endpoint_source" (JStr endpoint_source) metadata in
  MkSessionStateUpdateInput None None None None None None None None None
    (Some (json_dumps (JObj metadata))).

Definition _find_known_endpoint_metadata (db : Database) (remote_physical_node_id : string)
    (transport host : option string) (port : option Z) : jdict :=
  match transport, host, port with
  | Some transport, Some host, Some port =>
      match List.find (fun e => bool_decide (ne_transport e = transport)
                                && bool_decide (ne_host e = host) && (ne_port e =? port))
              (list_remote_physical_node_endpoints db remote_physical_node_id false) with
      | Some endpoint => CommonJson.load_json_object (ne_metadata_json endpoint)
      | None => []
      end
  | _, _, _ => []
  end.

Definition _merge_endpoint_metadata (endpoint_metadata context_metadata : jdict) : jdict :=
  Relay.dict_merge endpoint_metadata context_metadata.

Definition _read_endpoint_source (metadata_json : option string) : option string :=
  match py_get (CommonJson.load_json_object metadata_json) "physical_endpoint_source" with
  | JStr endpoint_source => Some endpoint_source
  | _ => None
  end.

Record ResolvedEndpoint := MkResolvedEndpoint {
  re_transport : string;
  re_host : option string;
  re_port : option Z;
  re_source : string;
}.

Definition _resolve_preferred_remote_endpoint (db : Database) (remote_physical_node_id : string)
    (current_transport current_host : option string) (current_port : option Z)
    (current_endpoint_source : option string) (fallback_transport : string)
    (fallback_host : option string) (fallback_port : option Z) : ResolvedEndpoint :=
  if bool_decide (fallback_transport = "relay_tcp")
  then MkResolvedEndpoint fallback_transport fallback_host fallback_port "relay"
  else
    let known_endpoints := list_remote_physical_node_endpoints db remote_physical_node_id false in
    let advertised endpoint :=
      MkResolvedEndpoint (ne_transport endpoint) (Some (ne_host endpoint)) (Some (ne_port endpoint))
        "advertised" in
    match List.find (fun e => bool_decide (ne_transport e = fallback_transport)) known_endpoints with
    | Some endpoint => advertised endpoint
    | None =>
        match known_endpoints with
        | endpoint :: _ => advertised endpoint
        | [] =>
            match current_transport with
            | Some current_transport =>
                MkResolvedEndpoint current_transport current_host current_port
                  (if bool_decide (current_endpoint_source = Some "observed")
                      || (bool_decide (current_host = fallback_host)
                          && bool_decide (current_port = fallback_port))
                   then "observed" else "current")
            | None => MkResolvedEndpoint fallback_transport fallback_host fallback_port "observed"
            end
        end
    end.

(** The metadata a session keeps about the endpoint it is bound to. *)
Definition endpoint_update (db : Database) (remote_physical_node_id : string)
    (resolved : ResolvedEndpoint) (context : PacketContext) : SessionStateUpdateInput :=
  _build_endpoint_metadata_update (re_source resolved)
    (_merge_endpoint_metadata
       (_find_known_endpoint_metadata db remote_physical_node_id (Some (re_transport resolved))
          (re_host resolved) (re_port resolved))
       (pc_metadata context))
    remote_physical_node_id.

Definition _refresh_session_remote_endpoint (session_id : string) (context : PacketContext)
    : st Services unit :=
  session ← find_session session_id;
  match session with
  | None => mret tt
  | Some session =>
      db ← gets sv_database;
      let resolved := _resolve_preferred_remote_endpoint db (ns_remote_identity_id session)
        (ns_transport session) (ns_remote_host session) (ns_remote_port session)
        (_read_endpoint_source (ns_metadata_json session)) (pc_transport_name context)
        (pc_remote_host context) (pc_remote_port context) in
      on_sessions (fun sm _ => bind_remote_endpoint sm session_id (Some (re_transport resolved))
        (re_host resolved) (re_port resolved));;
      on_sessions (fun sm _ => update_session_state sm session_id
        (endpoint_update db (ns_remote_identity_id session) resolved context));;
      mret tt
  end.

(** ** The responder's signature *)

Definition init_ok_signed_payload (session_id responder_ephemeral_public_key : string)
    (keepalive_interval_seconds : Z) : jdict :=
  [("session_id", JStr session_id);
   ("responder_ephemeral_public_key", JStr responder_ephemeral_public_key);
   ("keepalive_interval_seconds", JInt keepalive_interval_seconds)].

Definition _sign_physical_session_init_ok (session_id responder_ephemeral_public_key : string)
    (keepalive_interval_seconds : Z) (local_private_key_pem : string) : res string :=
  dilithium_sign_hex (CommonJson.canonical_payload_hex
    (init_ok_signed_payload session_id responder_ephemeral_public_key keepalive_interval_seconds))
    local_private_key_pem.

Definition _verify_physical_session_init_ok (session_id responder_ephemeral_public_key : string)
    (keepalive_interval_seconds : Z) (signature_hex remote_public_key_pem : string) : bool :=
  catch_all false (dilithium_verify_hex (CommonJson.canonical_payload_hex
    (init_ok_signed_payload session_id responder_ephemeral_public_key keepalive_interval_seconds))
    signature_hex remote_public_key_pem).

(** ** The initiator's descriptor *)

Definition _persist_initiator_node_descriptor (payload : jdict)
    (initiator_physical_node_id : string) : st Services unit :=
  match truthy_str (py_get payload "initiator_public_key") with
  | None => mret tt
  | Some initiator_public_key =>
      if bool_decide (sha512_hex initiator_public_key <> initiator_physical_node_id) then mret tt
      else
        match Endpoints.normalize_endpoint_list (py_get payload "initiator_endpoints") with
        | [] => mret tt
        | initiator_endpoints =>
            on_database (fun db now =>
              upsert_discovered_remote_physical_node db now
                (MkNodeDescription initiator_physical_node_id initiator_public_key (Some "1") None
                   None false false
                   (Some (json_dumps (JObj [("source", JStr "physical_session_init")]))))
                initiator_endpoints "discovered");;
            mret tt
        end
  end.

(** The arguments of the log line: [len(payload.get("initiator_endpoints") or [])]
    raises when the value is a number. *)
Definition log_endpoint_count (payload : jdict) : res unit :=
  match py_get payload "initiator_endpoints" with
  | (JInt _ | JBool _ | JFloat _) as value =>
      require! negb (json_truthy value) else TypeError "object has no len()" in Ok tt
  | _ => Ok tt
  end.

(** ** The handshake *)

Definition create_inbound (session_id local_id remote_id : string) (remote_public_key : option string)
    (resolved : ResolvedEndpoint) (keepalive_interval_seconds : Z) : st Services NetworkSession :=
  fun s =>
    match create_inbound_physical_session (sv_session_manager s) (sv_now s) session_id local_id
            remote_id remote_public_key (re_transport resolved) (re_host resolved) (re_port resolved)
            keepalive_interval_seconds with
    | Ok (session, sm) => (Ok session, s <| sv_session_manager := sm |>)
    | Raise e => (Raise e, s)
    end.

Definition _handle_physical_session_init (envelope : ProtocolEnvelope) (context : PacketContext)
    : st Services PacketProcessingResult :=
  let payload := as_payload_dict envelope in
  let keepalive_interval_seconds :=
    read_positive_keepalive_interval payload session_keepalive_seconds in
  local_node ← gets (fun s => get_local_physical_node (sv_database s));
  match local_node with
  | None => mret (invalid envelope "local_physical_node_not_initialized")
  | Some local_node =>
      match read_physical_session_id envelope, py_get payload "initiator_physical_node_id" with
      | Some session_id, JStr initiator_physical_node_id =>
          _persist_initiator_node_descriptor payload initiator_physical_node_id;;
          lift (log_endpoint_count payload);;
          db ← gets sv_database;
          let remote_node := get_remote_physical_node_by_id db initiator_physical_node_id in
          let resolved := _resolve_preferred_remote_endpoint db initiator_physical_node_id None None
            None None (pc_transport_name context) (pc_remote_host context) (pc_remote_port context) in
          session ← create_inbound session_id (ln_id local_node) initiator_physical_node_id
            (rn_public_key <$> remote_node) resolved keepalive_interval_seconds;
          on_sessions (fun sm _ => update_session_state sm session_id
            (endpoint_update db initiator_physical_node_id resolved context));;
          key_pair ← generate_kyber_key_pair;
          on_sessions (fun sm now => store_local_ephemeral_keypair sm session_id now key_pair.1
            key_pair.2 "init_ok_sent");;
          signature_hex ← lift (_sign_physical_session_init_ok session_id key_pair.2
            keepalive_interval_seconds (ln_private_key_encrypted local_node));
          response_payload ← build_physical_session_init_ok_payload (pe_header envelope) key_pair.2
            signature_hex keepalive_interval_seconds;
          mret (session_result envelope context (Some response_payload)
            "physical_session_init_ok_sent" (ns_session_id session) [])
      | _, _ => mret (invalid envelope "invalid_physical_session_init")
      end
  end.

Definition _handle_physical_session_init_ok (envelope : ProtocolEnvelope) (context : PacketContext)
    : st Services PacketProcessingResult :=
  let payload := as_payload_dict envelope in
  let keepalive_interval_seconds :=
    read_positive_keepalive_interval payload session_keepalive_seconds in
  match read_physical_session_id envelope, py_get payload "responder_ephemeral_public_key",
        py_get payload "signature_hex" with
  | Some session_id, JStr responder_ephemeral_public_key, JStr signature_hex =>
      session ← find_session session_id;
      match session with
      | None => mret (invalid envelope "physical_session_not_found")
      | Some session =>
          _refresh_session_remote_endpoint session_id context;;
          match nonempty_column (ns_remote_public_key session) with
          | None => mret (invalid envelope "remote_physical_node_public_key_not_found")
          | Some remote_public_key =>
              if negb (_verify_physical_session_init_ok session_id responder_ephemeral_public_key
                         keepalive_interval_seconds signature_hex remote_public_key)
              then
                on_sessions (fun sm now => close_session sm session_id now "invalid_init_ok_signature");;
                mret (invalid envelope "invalid_physical_session_init_ok_signature")
              else
                on_sessions (fun sm now => store_remote_ephemeral_public_key sm session_id now
                  responder_ephemeral_public_key "init_ok_verified");;
                on_sessions (fun sm now => touch_session sm session_id now
                  (Some keepalive_interval_seconds));;
                encapsulation ← lift (kyber_encapsulate_hex responder_ephemeral_public_key);
                on_sessions (fun sm now => store_shared_secret sm session_id now
                  (shared_secret_hex encapsulation) "key_confirm_sent" "pending");;
                response_payload ← build_physical_session_key_confirm_payload (pe_header envelope)
                  (ciphertext_hex encapsulation);
                mret (session_result envelope context (Some response_payload)
                  "physical_session_key_confirm_sent" session_id [])
          end
      end
  | _, _, _ => mret (invalid envelope "invalid_physical_session_init_ok")
  end.

Definition _handle_physical_session_key_confirm (envelope : ProtocolEnvelope)
    (context : PacketContext) : st Services PacketProcessingResult :=
  let payload := as_payload_dict envelope in
  match read_physical_session_id envelope, py_get payload "encapsulated_key_hex" with
  | Some session_id, JStr encapsulated_key_hex =>
      session ← find_session session_id;
      match session ≫= fun session =>
              pair session <$> nonempty_column (ns_local_ephemeral_private_key session) with
      | None => mret (invalid envelope "physical_session_ephemeral_key_not_found")
      | Some (session, local_ephemeral_private_key) =>
          _refresh_session_remote_endpoint session_id context;;
          shared_secret_hex ←
            lift (kyber_decapsulate_hex encapsulated_key_hex local_ephemeral_private_key);
          on_sessions (fun sm now => store_shared_secret sm session_id now shared_secret_hex
            "ready_sent" "pending");;
          on_sessions (fun sm now => activate_session sm session_id now);;
          response_payload ← build_physical_session_ready_payload (pe_header envelope)
            (ns_keepalive_interval_seconds session);
          mret (session_result envelope context (Some response_payload)
            "physical_session_ready_sent" session_id [])
      end
  | _, _ => mret (invalid envelope "invalid_physical_session_key_confirm")
  end.

Definition _handle_physical_session_ready (envelope : ProtocolEnvelope) (context : PacketContext)
    : st Services PacketProcessingResult :=
  let payload := as_payload_dict envelope in
  let keepalive_interval_seconds :=
    read_positive_keepalive_interval payload session_keepalive_seconds in
  match read_physical_session_id envelope with
  | None => mret (invalid envelope "invalid_physical_session_ready")
  | Some session_id =>
      session ← find_session session_id;
      match session ≫= fun session => nonempty_column (ns_shared_secret_hex session) with
      | None => mret (invalid envelope "physical_session_shared_secret_not_found")
      | Some _ =>
          _refresh_session_remote_endpoint session_id context;;
          on_sessions (fun sm now => touch_session sm session_id now (Some keepalive_interval_seconds));;
          on_sessions (fun sm now => activate_session sm session_id now);;
          mret (session_result envelope context None "physical_session_activated" session_id [])
      end
  end.

(** ** Reliable data *)

(** One delivery of the loop: the inner message through the engine. *)
Definition deliver_inner (envelope : ProtocolEnvelope) (context : PacketContext)
    (inbound : ReliableInboundMessage) : st Services PacketProcessingResult :=
  process (MkEnvelope (pe_protocol_name envelope) (Some (im_inner_message_type inbound))
             (JObj (im_inner_payload inbound)) (pe_raw_payload envelope)
             (Relay.dict_merge (pe_header envelope)
                [("message_type", JStr (im_inner_message_type inbound));
                 ("reliable_message_id", JStr (im_reliable_message_id inbound));
                 ("reliable_sequence_number", pyint_json (im_sequence_number inbound))])) context.

Fixpoint deliver_all (envelope : ProtocolEnvelope) (context : PacketContext)
    (last : option PacketProcessingResult) (deliveries : list ReliableInboundMessage)
    : st Services (option PacketProcessingResult) :=
  match deliveries with
  | [] => mret last
  | inbound :: rest =>
      result ← deliver_inner envelope context inbound;
      deliver_all envelope context (Some result) rest
  end.

Definition receive_inbound (session_id : string) (payload : jdict)
    : st Services ReliableReceiveResult := fun s =>
  let '(r, sm) := receive_reliable_inbound (sv_session_manager s) (sv_now s) (sv_now s) session_id
                    payload in
  (r, s <| sv_session_manager := sm |>).

Definition _handle_physical_session_reliable_data (envelope : ProtocolEnvelope)
    (context : PacketContext) : st Services PacketProcessingResult :=
  let payload := as_payload_dict envelope in
  match read_physical_session_id envelope with
  | None => mret (invalid envelope "invalid_physical_reliable_session_id")
  | Some session_id =>
      session ← touch session_id;
      match session with
      | None => mret (invalid envelope "physical_session_not_found")
      | Some session =>
          if bool_decide (ns_session_scope session <> "physical")
          then mret (invalid envelope "physical_session_not_found")
          else
            _refresh_session_remote_endpoint session_id context;;
            received ← catch_value
              (receive_result ← receive_inbound session_id payload; mret (inl receive_result))
              (fun error => mret (inr error));
            match received with
            | inr error => mret (invalid envelope error)
            | inl receive_result =>
                last_inner_result ← deliver_all envelope context None (rr_deliveries receive_result);
                ack_header ← _build_response_header (pe_header envelope)
                  "PHYSICAL_SESSION_RELIABLE_ACK";
                mret (session_result envelope context
                  (Some (_build_packet_bytes ack_header (rr_ack_payload receive_result)))
                  "physical_reliable_ack_sent" session_id
                  [("delivered_count", JInt (Z.of_nat (length (rr_deliveries receive_result))));
                   ("inner_action", match last_inner_result with
                                    | Some r => py_get (pp_metadata r) "action"
                                    | None => JNull end)])
            end
      end
  end.

Definition _handle_physical_session_reliable_ack (envelope : ProtocolEnvelope)
    (context : PacketContext) : st Services PacketProcessingResult :=
  let payload := as_payload_dict envelope in
  match read_physical_session_id envelope, json_pyint (py_get payload "ack_for_sequence_number"),
        truthy_str (py_get payload "ack_for_message_id") with
  | Some session_id, Some ack_for_sequence, Some ack_for_message_id =>
      _refresh_session_remote_endpoint session_id context;;
      acked ← on_sessions (fun sm now => mark_reliable_outbound_acked sm now session_id
        (pyint_val ack_for_sequence) ack_for_message_id);
      touch session_id;;
      mret (session_result envelope context None "physical_reliable_ack_received" session_id
        [("ack_matched", JBool (bool_decide (is_Some acked)))])
  | _, _, _ => mret (invalid envelope "invalid_physical_reliable_ack")
  end.

(** ** Keepalive and close *)

Definition _handle_physical_session_keepalive (envelope : ProtocolEnvelope)
    (context : PacketContext) : st Services PacketProcessingResult :=
  match read_physical_session_id envelope with
  | None => mret (invalid envelope "invalid_physical_session_keepalive")
  | Some session_id =>
      session ← touch session_id;
      match session with
      | None => mret (invalid envelope "physical_session_not_found")
      | Some _ =>
          _refresh_session_remote_endpoint session_id context;;
          response_payload ← build_physical_session_keepalive_ack_payload (pe_header envelope);
          mret (session_result envelope context (Some response_payload)
            "physical_session_keepalive_ack_sent" session_id [])
      end
  end.

Definition _handle_physical_session_keepalive_ack (envelope : ProtocolEnvelope)
    (context : PacketContext) : st Services PacketProcessingResult :=
  match read_physical_session_id envelope with
  | None => mret (invalid envelope "invalid_physical_session_keepalive_ack")
  | Some session_id =>
      session ← touch session_id;
      match session with
      | None => mret (invalid envelope "physical_session_not_found")
      | Some _ =>
          _refresh_session_remote_endpoint session_id context;;
          mret (session_result envelope context None "physical_session_keepalive_ack_received"
            session_id [])
      end
  end.

Definition _handle_physical_session_close (envelope : ProtocolEnvelope) (context : PacketContext)
    : st Services PacketProcessingResult :=
  let payload := as_payload_dict envelope in
  match read_physical_session_id envelope with
  | None => mret (invalid envelope "invalid_physical_session_close")
  | Some session_id =>
      session ← on_sessions (fun sm now => close_session sm session_id now
        (match py_get payload "close_reason" with JStr r => r | _ => "remote_closed" end));
      match session with
      | None => mret (invalid envelope "physical_session_not_found")
      | Some _ => mret (session_result envelope context None "physical_session_closed" session_id [])
      end
  end.

Definition _build_not_implemented_result (envelope : ProtocolEnvelope) (context : PacketContext)
    (s : Services) : PacketProcessingResult :=
  MkResult (pe_protocol_name envelope) true (pe_message_type envelope) None
    [("protocol_family", JStr "session"); ("transport_name", JStr (pc_transport_name context));
     ("session_count", JInt (Z.of_nat (length (list_sessions (sv_session_manager s) None))));
     ("next_step", JStr "implement_virtual_session_protocol_flow")] None.

Definition handle (envelope : ProtocolEnvelope) (context : PacketContext)
    : st Services PacketProcessingResult :=
  match pe_message_type envelope with
  | Some "PHYSICAL_SESSION_INIT" => _handle_physical_session_init envelope context
  | Some "PHYSICAL_SESSION_INIT_OK" => _handle_physical_session_init_ok envelope context
  | Some "PHYSICAL_SESSION_KEY_CONFIRM" => _handle_physical_session_key_confirm envelope context
  | Some "PHYSICAL_SESSION_READY" => _handle_physical_session_ready envelope context
  | Some "PHYSICAL_SESSION_KEEPALIVE" => _handle_physical_session_keepalive envelope context
  | Some "PHYSICAL_SESSION_KEEPALIVE_ACK" => _handle_physical_session_keepalive_ack envelope context
  | Some "PHYSICAL_SESSION_RELIABLE_DATA" => _handle_physical_session_reliable_data envelope context
  | Some "PHYSICAL_SESSION_RELIABLE_ACK" => _handle_physical_session_reliable_ack envelope context
  | Some "PHYSICAL_SESSION_CLOSE" => _handle_physical_session_close envelope context
  | _ => gets (_build_not_implemented_result envelope context)
  end.
End handler.

(** ** The session a node holds *)

(** The services after [f] was applied to the session object. *)
Definition update_session (s : Services) (sid : string) (f : NetworkSession -> NetworkSession)
    : Services :=
  s <| sv_session_manager := (modify_session (sv_session_manager s) sid f).2 |>.

Definition session_of (s : Services) (sid : string) : option NetworkSession :=
  get_session_by_session_id (sv_session_manager s) sid.

(** The fields by which a session is found. *)
Definition keeps_names (f : NetworkSession -> NetworkSession) : Prop :=
  forall n, ns_id (f n) = ns_id n /\ ns_session_id (f n) = ns_session_id n /\
    ns_session_scope (f n) = ns_session_scope n.

(** What a change of the endpoint leaves alone. *)
Definition keeps_keys (f : NetworkSession -> NetworkSession) : Prop :=
  keeps_names f /\ forall n,
    ns_remote_identity_id (f n) = ns_remote_identity_id n /\
    ns_remote_public_key (f n) = ns_remote_public_key n /\
    ns_local_ephemeral_private_key (f n) = ns_local_ephemeral_private_key n /\
    ns_shared_secret_hex (f n) = ns_shared_secret_hex n /\
    ns_session_state (f n) = ns_session_state n /\
    ns_keepalive_interval_seconds (f n) = ns_keepalive_interval_seconds n.

Lemma modify_modify sm sid f g :
  (modify_session (modify_session sm sid f).2 sid g).2 = (modify_session sm sid (g ∘ f)).2.
Proof.
  unfold modify_session, deref. destruct (sm_sessions_by_session_id sm !! sid) as [l|] eqn:El;
    [|cbn; by rewrite El].
  destruct (sm_heap sm !! l) as [n|] eqn:En; cbn; [|by rewrite El, En].
  rewrite El, lookup_insert_eq. cbn. by rewrite insert_insert_eq.
Qed.

Lemma modify_absent sm sid f :
  get_session_by_session_id sm sid = None -> (modify_session sm sid f).2 = sm.
Proof.
  unfold get_session_by_session_id, modify_session.
  destruct (sm_sessions_by_session_id sm !! sid); [|done]. cbn. by intros ->.
Qed.

Lemma modify_present sm sid f n :
  get_session_by_session_id sm sid = Some n ->
  modify_session sm sid f = (Some (f n), (modify_session sm sid f).2).
Proof.
  unfold get_session_by_session_id, modify_session.
  destruct (sm_sessions_by_session_id sm !! sid); [|done]. cbn. by intros ->.
Qed.

Lemma create_session_fresh sm now data :
  sm_wf sm -> get_session_by_session_id sm (ci_session_id data) = None ->
  exists n sm', create_session sm now data = Ok (n, sm') /\ sm_wf sm' /\
    get_session_by_session_id sm' (ci_session_id data) = Some n.
Proof.
  intros Hwf Hnone.
  assert (exists n sm', create_session sm now data = Ok (n, sm') /\
    get_session_by_session_id sm' (ci_session_id data) = Some n) as (n & sm' & Hc & Hn).
  { unfold create_session. rewrite Hnone. eexists _, _. split; [reflexivity|].
    unfold get_session_by_session_id, deref. cbn. rewrite lookup_insert_eq. cbn.
    by rewrite lookup_insert_eq. }
  exists n, sm'. split_and!; [done|by eapply create_session_wf|done].
Qed.

Lemma update_update s sid f g :
  update_session (update_session s sid f) sid g = update_session s sid (g ∘ f).
Proof. unfold update_session. cbn. by rewrite modify_modify. Qed.

Lemma update_absent s sid f : session_of s sid = None -> update_session s sid f = s.
Proof. intros Hs. unfold update_session. rewrite modify_absent by done. by destruct s. Qed.

Lemma session_of_update s sid f :
  sm_wf (sv_session_manager s) -> session_of (update_session s sid f) sid = f <$> session_of s sid.
Proof.
  intros Hwf. unfold session_of, update_session. cbn.
  by rewrite get_modify_session, decide_True by done.
Qed.

Lemma update_wf s sid f :
  keeps_names f -> sm_wf (sv_session_manager s) ->
  sm_wf (sv_session_manager (update_session s sid f)).
Proof. intros Hf Hwf. by apply modify_session_wf. Qed.

Lemma keeps_names_compose f g : keeps_names f -> keeps_names g -> keeps_names (g ∘ f).
Proof. intros Hf Hg n. destruct (Hf n) as (? & ? & ?), (Hg (f n)) as (? & ? & ?). cbn. split_and!; congruence. Qed.

Lemma on_sessions_update {s} {sid f}
    {F : SessionManager -> instant -> option NetworkSession * SessionManager} :
  F (sv_session_manager s) (sv_now s) = modify_session (sv_session_manager s) sid f ->
  on_sessions F s = (Ok (F (sv_session_manager s) (sv_now s)).1, update_session s sid f).
Proof. intros HF. unfold on_sessions, update_session. rewrite HF. by destruct (modify_session _ _ _). Qed.

(** The changes of a session object keep its names. *)
Ltac keeps_tac :=
  lazymatch goal with
  | |- keeps_names (_ ∘ _) => apply keeps_names_compose; keeps_tac
  | |- _ => first [assumption | intros []; split_and!; reflexivity]
  end.

(** Run the next change of a session object. *)
Ltac run_update :=
  erewrite st_bind_run by (eapply on_sessions_update; reflexivity); rewrite ?update_update.

Section endpoints.
Context `{FloatText} `{Entropy} `{OpenSSL} `{KeyGen}.

Lemma bind_endpoint_keeps t h p : keeps_keys (bind_endpoint_fields t h p).
Proof. split; intros n; by destruct t, h, p. Qed.

Lemma endpoint_update_keeps db id resolved context :
  keeps_keys (update_fields (endpoint_update db id resolved context)).
Proof. split; intros n; by destruct n. Qed.

Lemma keeps_keys_compose f g : keeps_keys f -> keeps_keys g -> keeps_keys (g ∘ f).
Proof.
  intros [Hf1 Hf] [Hg1 Hg]. split; [by apply keeps_names_compose|]. intros n.
  destruct (Hf n) as (? & ? & ? & ? & ? & ?), (Hg (f n)) as (? & ? & ? & ? & ? & ?).
  cbn. split_and!; congruence.
Qed.

(** Following the endpoint of a packet changes nothing but the endpoint. *)
Lemma refresh_run (s : Services) sid context :
  exists f, keeps_keys f /\
    _refresh_session_remote_endpoint sid context s = (Ok tt, update_session s sid f).
Proof.
  unfold _refresh_session_remote_endpoint. erewrite st_bind_run by reflexivity.
  fold (session_of s sid). destruct (session_of s sid) as [n|] eqn:Hn.
  - erewrite st_bind_run by reflexivity. cbv zeta. run_update. run_update.
    eexists. split; [|reflexivity].
    apply keeps_keys_compose; [apply bind_endpoint_keeps|apply endpoint_update_keeps].
  - exists id. split; [by split|]. by rewrite update_absent.
Qed.
End endpoints.

(** ** Handshake packets *)

(** A header as the handshake messages carry it: not encrypted, naming the session. *)
Record plain_header `{FloatText} (sid ty : string) (header : jdict) : Prop := {
  ph_wf : dict_wf header;
  ph_sid : od_get "physical_session_id" header = Some (JStr sid);
  ph_ty : od_get "message_type" header = Some (JStr ty);
  ph_plain : od_get "payload_encrypted" header = None;
}.

Section packets.
Context `{FloatText} `{AesGcmSiv}.

Lemma response_header_plain uuid header sid ty ty' :
  ascii_text uuid = true -> ascii_text ty' = true -> plain_header sid ty header ->
  plain_header sid ty' (build_response_header uuid (norm_dict header) ty' false).
Proof.
  intros Hu%ascii_unicode Ht%ascii_unicode [Hwf Hsid _ _]. unfold build_response_header.
  assert (forall k v, json_wf v -> json_wf (py_get_default (norm_dict header) k v)) as Hget.
  { intros k v Hv. unfold py_get_default. destruct (od_get k (norm_dict header)) eqn:E; [|done].
    by apply (dict_wf_get _ _ _ (dict_wf_norm _ Hwf) E). }
  split; [| |by od_eval|by od_eval].
  - unfold py_get. json_wf_tac; apply Hget; constructor.
  - rewrite <- (norm_get_str _ _ _ Hwf Hsid). by od_eval.
Qed.

(** A handshake packet reaches the session handler with its message, read up to
    key order, and with the services as they were. *)
Lemma receive_plain (dispatch : handler -> ProtocolEnvelope -> PacketContext
      -> st Services PacketProcessingResult) context sid ty header payload (s : Services) :
  plain_header sid ty header -> dict_wf payload ->
  (md_handler <$> get_definition (Some ty) = Some PhysicalSessionHandler) ->
  ty ∈ sessionless_types ->
  pc_payload context = _build_packet_bytes header payload ->
  process_received_packet dispatch context s =
  dispatch PhysicalSessionHandler
    (MkEnvelope "json" (Some ty) (JObj (norm_dict payload)) (pc_payload context)
       (norm_dict header)) context s.
Proof.
  intros [Hh Hsid Hty Hplain] Hp Hdef Hless Hctx.
  destruct (load_packet header payload Hh Hp) as (packet & Hload & Hgh & Hgp).
  assert (_decode_json_packet context s =
    (Ok (MkEnvelope "json" (Some ty) (JObj (norm_dict payload)) (pc_payload context)
           (norm_dict header)), s)) as Hdec.
  { unfold _decode_json_packet. rewrite Hctx. unfold _build_packet_bytes. 
    change (CommonJson.compact_json_bytes _) with (_build_json_packet_bytes header payload).
    rewrite Hload, Hgh, Hgp, (norm_get_str _ _ _ Hh Hty). cbv zeta.
    erewrite st_bind_run by reflexivity. unfold _restore_inbound_payload, py_get.
    by rewrite norm_dict_get, Hplain by (by apply dict_wf_od). }
  unfold process_received_packet.
  erewrite st_bind_run by (unfold catch_value; rewrite (st_bind_run _ _ _ _ _ Hdec); reflexivity).
  unfold process_protocol_envelope. erewrite st_bind_run by reflexivity.
  unfold _validate_message_policy, route. cbn [pe_message_type].
  destruct (get_definition (Some ty)) as [d|] eqn:Hd; [|done].
  apply (inj Some) in Hdef. destruct (registry_requires_session ty d Hd) as [_ Hreq].
  rewrite (proj2 Hreq Hless). by rewrite Hdef.
Qed.
End packets.

(** ** The handshake *)

Section handshake.
Context `{FloatText} `{Entropy} `{KemLaws}.
Context (session_keepalive_seconds : Z).
Context (process : ProtocolEnvelope -> PacketContext -> st Services PacketProcessingResult).

Lemma create_inbound_run (s : Services) sid l i key resolved k :
  sm_wf (sv_session_manager s) ->
  exists n s', create_inbound sid l i key resolved k s = (Ok n, s') /\
    sm_wf (sv_session_manager s') /\ is_Some (session_of s' sid) /\
    sv_database s' = sv_database s /\
    (forall old, session_of s sid = Some old ->
       exists f, keeps_keys f /\ s' = update_session s sid f).
Proof.
  intros Hwf. unfold create_inbound, create_inbound_physical_session, session_of.
  destruct (get_session_by_session_id _ sid) as [old|] eqn:Hold.
  - set (f := bind_endpoint_fields (Some (re_transport resolved)) (re_host resolved) (re_port resolved)).
    unfold bind_remote_endpoint. fold f.
    pose proof (bind_endpoint_keeps (Some (re_transport resolved)) (re_host resolved)
      (re_port resolved)) as Hf. fold f in Hf.
    pose proof (session_of_update s sid f Hwf) as Hg.
    rewrite (modify_present _ _ f _ Hold). exists (f old), (update_session s sid f).
    split; [done|]. split; [by apply update_wf; [apply Hf|]|].
    fold (session_of (update_session s sid f) sid).
    rewrite Hg. unfold session_of. rewrite Hold. split; [by eexists|]. split; [done|].
    intros ? _. eauto.
  - match goal with |- context [create_session _ _ ?d] =>
      destruct (create_session_fresh (sv_session_manager s) (sv_now s) d Hwf Hold)
        as (n & sm & Hc & Hsm & Hn) end.
    rewrite Hc. eexists _, _. split; [reflexivity|]. split; [done|]. split; [|done].
    exists n. exact Hn.
Qed.

Lemma sign_verify sid key k private_key public_key :
  signature_pair private_key public_key ->
  exists signature, _sign_physical_session_init_ok sid key k private_key = Ok (bytes_to_hex signature) /\
    _verify_physical_session_init_ok sid key k (bytes_to_hex signature) public_key = true.
Proof.
  intros Hpair. unfold _sign_physical_session_init_ok, _verify_physical_session_init_ok.
  unfold CommonJson.canonical_payload_hex.
  set (text := CommonJson.compact_json_bytes _).
  destruct (Hpair text) as (signature & Hs & _ & Hv). exists signature.
  unfold dilithium_sign_hex, dilithium_verify_hex, hex_to_bytes.
  unfold bytes_to_hex. rewrite !fromhex_bytes_hex. cbn [mbind res_bind]. rewrite Hs, Hv. done.
Qed.

Lemma persist_frame payload i (s s1 : Services) r :
  _persist_initiator_node_descriptor payload i s = (r, s1) ->
  sv_session_manager s1 = sv_session_manager s.
Proof.
  unfold _persist_initiator_node_descriptor.
  destruct (truthy_str _) as [key|]; [|by intros [= _ <-]].
  case_bool_decide; [by intros [= _ <-]|].
  destruct (Endpoints.normalize_endpoint_list _); [by intros [= _ <-]|].
  unfold on_database, mbind, st_bind. destruct (upsert_discovered_remote_physical_node _ _ _ _ _)
    as [[? db]|e]; by intros [= _ <-].
Qed.

(** A session object that holds an ephemeral key pair. *)
Definition with_ephemeral (now : instant) (key_pair : string * string) (n : NetworkSession)
    : NetworkSession :=
  touch_fields now None
    (n <| ns_local_ephemeral_private_key := Some key_pair.1 |>
       <| ns_local_ephemeral_public_key := Some key_pair.2 |>
       <| ns_handshake_state := "init_ok_sent" |>).

(** The answer to INIT: an ephemeral key signed by the node. *)
Lemma init_run envelope context (s s1 : Services) sid i local_node public_key :
  read_physical_session_id envelope = Some sid ->
  py_get (as_payload_dict envelope) "initiator_physical_node_id" = JStr i ->
  get_local_physical_node (sv_database s) = Some local_node ->
  signature_pair (ln_private_key_encrypted local_node) public_key ->
  _persist_initiator_node_descriptor (as_payload_dict envelope) i s = (Ok tt, s1) ->
  log_endpoint_count (as_payload_dict envelope) = Ok tt ->
  sm_wf (sv_session_manager s) ->
  let k := read_positive_keepalive_interval (as_payload_dict envelope) session_keepalive_seconds in
  exists r s2 uuid n signature session,
    _handle_physical_session_init session_keepalive_seconds envelope context s = (Ok r, s2) /\
    pp_response_payload r = Some (_build_packet_bytes
      (build_response_header (uuid4 uuid) (pe_header envelope) "PHYSICAL_SESSION_INIT_OK" false)
      [("responder_ephemeral_public_key", JStr (kyber_key_pair n).2);
       ("signature_hex", JStr (bytes_to_hex signature));
       ("keepalive_interval_seconds", JInt k)]) /\
    _verify_physical_session_init_ok sid (kyber_key_pair n).2 k (bytes_to_hex signature) public_key
      = true /\
    sm_wf (sv_session_manager s2) /\ session_of s2 sid = Some session /\
    ns_local_ephemeral_private_key session = Some (kyber_key_pair n).1 /\
    (forall old, session_of s sid = Some old -> exists f now, keeps_keys f /\
       session = with_ephemeral now (kyber_key_pair n) (f old)).
Proof.
  intros Hsid Hi Hln Hpair Hper Hlog Hwf k. unfold _handle_physical_session_init. cbv zeta. fold k.
  erewrite st_bind_run by reflexivity. rewrite Hln, Hsid, Hi.
  rewrite (st_bind_run _ _ _ _ _ Hper).
  erewrite st_bind_run by (unfold lift; rewrite Hlog; reflexivity).
  erewrite st_bind_run by reflexivity.
  rewrite <- (persist_frame _ _ _ _ _ Hper) in Hwf.
  match goal with |- context [create_inbound sid ?l i ?key ?resolved k] =>
    destruct (create_inbound_run s1 sid l i key resolved k Hwf)
      as (n & s2 & Hc & Hwf2 & [session Hs2] & _ & Hold) end.
  rewrite (st_bind_run _ _ _ _ _ Hc). run_update.
  match goal with |- context [update_session s2 sid ?g] => set (g1 := g) in *;
    assert (keeps_keys g1) as Hg1 by apply endpoint_update_keeps end.
  set (s3 := update_session s2 sid g1).
  assert (session_of s3 sid = Some (g1 session)) as Hs3
    by (unfold s3; by rewrite session_of_update, Hs2 by done).
  assert (sm_wf (sv_session_manager s3)) as Hwf3 by (apply update_wf; [apply Hg1|done]).
  erewrite st_bind_run by reflexivity. run_update.
  set (e := sv_entropy s3).
  destruct (sign_verify sid (kyber_key_pair e).2 k _ _ Hpair) as (signature & Hsg & Hv).
  erewrite st_bind_run by (unfold lift; rewrite Hsg; reflexivity).
  unfold build_physical_session_init_ok_payload, _build_response_header.
  eexists _, _, (S e), e, signature, _. split; [reflexivity|]. split; [reflexivity|].
  split; [done|].
  pose (g2 := with_ephemeral (sv_now s3) (kyber_key_pair e)).
  assert (keeps_names g2) as Hg2 by (intros m; by destruct m).
  pose proof (session_of_update s3 sid g2 Hwf3) as Hs4. rewrite Hs3 in Hs4.
  cbn [fmap option_fmap option_map] in Hs4.
  split; [exact (update_wf _ _ _ Hg2 Hwf3)|]. split; [exact Hs4|]. split; [done|].
  intros old Ho. unfold session_of in Ho. rewrite <- (persist_frame _ _ _ _ _ Hper) in Ho.
  destruct (Hold old Ho) as (f & Hf & ->). exists (g1 ∘ f), (sv_now s3).
  split; [by apply keeps_keys_compose|]. unfold g2. f_equal.
  rewrite session_of_update in Hs2 by done. unfold session_of in Hs2. rewrite Ho in Hs2.
  by apply (inj Some) in Hs2 as <-.
Qed.

(** The answer to a signed INIT_OK: the secret is stored and its encapsulation sent. *)
Lemma init_ok_run envelope context (s : Services) sid n signature_hex public_key session :
  read_physical_session_id envelope = Some sid ->
  py_get (as_payload_dict envelope) "responder_ephemeral_public_key" = JStr (kyber_key_pair n).2 ->
  py_get (as_payload_dict envelope) "signature_hex" = JStr signature_hex ->
  session_of s sid = Some session ->
  ns_remote_public_key session = Some public_key -> public_key <> "" ->
  _verify_physical_session_init_ok sid (kyber_key_pair n).2
    (read_positive_keepalive_interval (as_payload_dict envelope) session_keepalive_seconds)
    signature_hex public_key = true ->
  sm_wf (sv_session_manager s) ->
  exists r s2 uuid ciphertext secret session2,
    _handle_physical_session_init_ok session_keepalive_seconds envelope context s = (Ok r, s2) /\
    pp_response_payload r = Some (_build_packet_bytes
      (build_response_header (uuid4 uuid) (pe_header envelope) "PHYSICAL_SESSION_KEY_CONFIRM" false)
      [("encapsulated_key_hex", JStr (bytes_to_hex ciphertext))]) /\
    openssl_decap ciphertext (kyber_key_pair n).1 = Ok secret /\
    String.length secret = AES_KEY_SIZE /\
    sm_wf (sv_session_manager s2) /\ session_of s2 sid = Some session2 /\
    ns_shared_secret_hex session2 = Some (bytes_to_hex secret).
Proof.
  intros Hsid Hkey Hsg Hs Hpk Hne Hv Hwf. unfold _handle_physical_session_init_ok. cbv zeta.
  rewrite Hsid, Hkey, Hsg. erewrite st_bind_run by reflexivity.
  fold (session_of s sid). rewrite Hs.
  destruct (refresh_run s sid context) as (f & [Hf _] & Hrun).
  rewrite (st_bind_run _ _ _ _ _ Hrun), Hpk. cbn [nonempty_column].
  rewrite (proj2 (str_truthy_spec _) Hne), Hv. cbn [negb]. run_update. run_update.
  destruct (kem_correct n) as (ciphertext & secret & He & Hd & _ & Hlen).
  erewrite st_bind_run
    by (unfold lift, kyber_encapsulate_hex; rewrite He; reflexivity).
  run_update. eexists _, _, _, ciphertext, secret, _.
  split; [reflexivity|]. split; [reflexivity|]. split; [done|]. split; [done|].
  match goal with |- context [update_session s sid ?g] => set (g0 := g) end.
  assert (keeps_names g0) as Hg by (unfold g0; keeps_tac).
  pose proof (session_of_update s sid g0 Hwf) as Hs2. rewrite Hs in Hs2.
  cbn [fmap option_fmap option_map] in Hs2.
  split; [exact (update_wf _ _ _ Hg Hwf)|]. split; [exact Hs2|reflexivity].
Qed.

(** The answer to KEY_CONFIRM: the secret is stored and the session active. *)
Lemma key_confirm_run envelope context (s : Services) sid private_key ciphertext secret session :
  read_physical_session_id envelope = Some sid ->
  py_get (as_payload_dict envelope) "encapsulated_key_hex" = JStr (bytes_to_hex ciphertext) ->
  session_of s sid = Some session ->
  ns_local_ephemeral_private_key session = Some private_key -> private_key <> "" ->
  openssl_decap ciphertext private_key = Ok secret ->
  sm_wf (sv_session_manager s) ->
  exists r s2 uuid session2,
    _handle_physical_session_key_confirm envelope context s = (Ok r, s2) /\
    pp_response_payload r = Some (_build_packet_bytes
      (build_response_header (uuid4 uuid) (pe_header envelope) "PHYSICAL_SESSION_READY" false)
      [("status", JStr "active");
       ("keepalive_interval_seconds", JInt (ns_keepalive_interval_seconds session))]) /\
    sm_wf (sv_session_manager s2) /\ session_of s2 sid = Some session2 /\
    ns_session_state session2 = "active" /\
    ns_shared_secret_hex session2 = Some (bytes_to_hex secret) /\
    ns_remote_identity_id session2 = ns_remote_identity_id session.
Proof.
  intros Hsid Hct Hs Hkey Hne Hd Hwf. unfold _handle_physical_session_key_confirm. cbv zeta.
  rewrite Hsid, Hct. erewrite st_bind_run by reflexivity.
  fold (session_of s sid). rewrite Hs. cbn [mbind option_bind]. rewrite Hkey. cbn [nonempty_column].
  rewrite (proj2 (str_truthy_spec _) Hne). cbn [fmap option_fmap option_map].
  destruct (refresh_run s sid context) as (f & Hf & Hrun).
  rewrite (st_bind_run _ _ _ _ _ Hrun).
  erewrite st_bind_run by (unfold lift, kyber_decapsulate_hex, hex_to_bytes, bytes_to_hex;
    rewrite fromhex_bytes_hex; cbn [mbind res_bind]; rewrite Hd; reflexivity).
  run_update. run_update. eexists _, _, _, _.
  split; [reflexivity|]. split; [reflexivity|].
  match goal with |- context [update_session s sid ?g] => set (g0 := g) end.
  assert (keeps_names g0) as Hg by (pose proof (proj1 Hf); unfold g0; keeps_tac).
  pose proof (session_of_update s sid g0 Hwf) as Hs2. rewrite Hs in Hs2.
  cbn [fmap option_fmap option_map] in Hs2.
  split; [exact (update_wf _ _ _ Hg Hwf)|]. split; [exact Hs2|].
  split; [reflexivity|]. split; [reflexivity|].
  etransitivity; [reflexivity|apply Hf].
Qed.

(** READY makes the session active under the secret it holds. *)
Lemma ready_run envelope context (s : Services) sid session secret :
  read_physical_session_id envelope = Some sid ->
  session_of s sid = Some session ->
  ns_shared_secret_hex session = Some secret -> secret <> "" ->
  sm_wf (sv_session_manager s) ->
  exists r s2 session2,
    _handle_physical_session_ready session_keepalive_seconds envelope context s = (Ok r, s2) /\
    pp_response_payload r = None /\
    sm_wf (sv_session_manager s2) /\ session_of s2 sid = Some session2 /\
    ns_session_state session2 = "active" /\ ns_shared_secret_hex session2 = Some secret.
Proof.
  intros Hsid Hs Hkey Hne Hwf. unfold _handle_physical_session_ready. cbv zeta.
  rewrite Hsid. erewrite st_bind_run by reflexivity.
  fold (session_of s sid). rewrite Hs. cbn [mbind option_bind]. rewrite Hkey. cbn [nonempty_column].
  rewrite (proj2 (str_truthy_spec _) Hne).
  destruct (refresh_run s sid context) as (f & Hf & Hrun).
  rewrite (st_bind_run _ _ _ _ _ Hrun). run_update. run_update.
  eexists _, _, _. split; [reflexivity|]. split; [reflexivity|].
  match goal with |- context [update_session s sid ?g] => set (g0 := g) end.
  assert (keeps_names g0) as Hg by (pose proof (proj1 Hf); unfold g0; keeps_tac).
  pose proof (session_of_update s sid g0 Hwf) as Hs2. rewrite Hs in Hs2.
  cbn [fmap option_fmap option_map] in Hs2.
  split; [exact (update_wf _ _ _ Hg Hwf)|]. split; [exact Hs2|]. split; [reflexivity|].
  rewrite <- Hkey. etransitivity; [|apply Hf]. reflexivity.
Qed.
End handshake.

(** ** Claims *)

Section claims.
Context `{FloatText} `{AesGcmSiv} `{UuidLaws} `{KemLaws}.

(** A handshake packet on arrival at a node. *)
Lemma receive_handshake {dispatch ka process} {context : PacketContext} {sid ty header payload}
    (s : Services) :
  dispatch PhysicalSessionHandler = handle ka process ->
  pc_payload context = _build_packet_bytes header payload ->
  plain_header sid ty header -> dict_wf payload -> sid <> "" ->
  ty ∈ ["PHYSICAL_SESSION_INIT"; "PHYSICAL_SESSION_INIT_OK"; "PHYSICAL_SESSION_KEY_CONFIRM";
        "PHYSICAL_SESSION_READY"] ->
  exists envelope, process_received_packet dispatch context s = handle ka process envelope context s /\
    pe_message_type envelope = Some ty /\ pe_header envelope = norm_dict header /\
    read_physical_session_id envelope = Some sid /\
    (forall k, py_get (as_payload_dict envelope) k = json_norm (py_get payload k)) /\
    as_payload_dict envelope = norm_dict payload.
Proof.
  intros Hd Hc Hh Hp Hne Hty. eexists. split.
  - rewrite <- Hd. eapply receive_plain; [done|done| | |done].
    + rewrite !elem_of_cons, elem_of_nil in Hty. by destruct_or! Hty; subst.
    + set_solver.
  - split; [done|]. split; [done|]. split; [|split; [|done]].
    + unfold read_physical_session_id, read_header_string. cbn [pe_header].
      rewrite (norm_get_str _ _ sid) by apply Hh. cbn [truthy_str].
      by rewrite (proj2 (str_truthy_spec _) Hne).
    + intros k. cbn [as_payload_dict pe_payload]. by apply py_get_norm.
Qed.

Lemma keepalive_read payload k d :
  py_get payload "keepalive_interval_seconds" = JInt k -> 0 < k ->
  read_positive_keepalive_interval payload d = k.
Proof.
  intros Hg Hk. unfold read_positive_keepalive_interval. rewrite Hg. cbn.
  by rewrite (proj2 (Z.ltb_lt 0 k) Hk).
Qed.

Lemma active_session_secret s sid session secret :
  session_of s sid = Some session -> ns_session_state session = "active" ->
  ns_shared_secret_hex session = Some (bytes_to_hex secret) -> secret <> "" ->
  session_secret s sid = Some (bytes_to_hex secret).
Proof.
  intros Hs Ha Hk Hne. unfold session_secret, active_secret. fold (session_of s sid).
  by rewrite Hs, bool_decide_true, Hk, hex_text_truthy.
Qed.

Lemma key_unicode n : unicode (kyber_key_pair n).2.
Proof. apply ascii_unicode, kem_pem. Qed.

Lemma hex_unicode b : unicode (bytes_to_hex b).
Proof. apply ascii_unicode, hex_text_ascii. Qed.

(** The handshake. The initiator [a] holds a session with the responder's
    identity key, the responder [b] its private key and no matter which sessions.
    When each node receives what the other answered, INIT is answered by INIT_OK,
    INIT_OK by KEY_CONFIRM and KEY_CONFIRM by READY; then the session is active on
    both sides under one secret of 32 bytes, whatever route the packets took. *)
Theorem handshake_agreement (a b : Services) dispatch_a dispatch_b (ka kb : Z) process_a process_b
    (header : jdict) (sid i key_i : string) (endpoints : list json) (k : Z)
    (local_node : LocalPhysicalNodeIdentity) (public_key : string) (session : NetworkSession)
    (payload := [("initiator_physical_node_id", JStr i); ("initiator_public_key", JStr key_i);
                 ("initiator_endpoints", JArr endpoints); ("keepalive_interval_seconds", JInt k)]) :
  dispatch_a PhysicalSessionHandler = handle ka process_a ->
  dispatch_b PhysicalSessionHandler = handle kb process_b ->
  plain_header sid "PHYSICAL_SESSION_INIT" header -> sid <> "" -> dict_wf payload -> 0 < k ->
  sm_wf (sv_session_manager a) -> sm_wf (sv_session_manager b) ->
  session_of a sid = Some session ->
  ns_remote_public_key session = Some public_key -> public_key <> "" ->
  get_local_physical_node (sv_database b) = Some local_node ->
  signature_pair (ln_private_key_encrypted local_node) public_key ->
  (_persist_initiator_node_descriptor (norm_dict payload) i b).1 = Ok tt ->
  forall c1, pc_payload c1 = build_physical_session_init_payload header i key_i endpoints k ->
  exists r1 b1 init_ok, process_received_packet dispatch_b c1 b = (Ok r1, b1) /\
    pp_response_payload r1 = Some init_ok /\
  forall c2, pc_payload c2 = init_ok ->
  exists r2 a1 key_confirm, process_received_packet dispatch_a c2 a = (Ok r2, a1) /\
    pp_response_payload r2 = Some key_confirm /\
  forall c3, pc_payload c3 = key_confirm ->
  exists r3 b2 ready, process_received_packet dispatch_b c3 b1 = (Ok r3, b2) /\
    pp_response_payload r3 = Some ready /\
  forall c4, pc_payload c4 = ready ->
  exists r4 a2 key, process_received_packet dispatch_a c4 a1 = (Ok r4, a2) /\
    hex_of AES_KEY_SIZE key /\ session_secret a2 sid = Some key /\ session_secret b2 sid = Some key.
Proof.
  intros Hda Hdb Hh Hsid Hp Hk Hwa Hwb Hsa Hpk Hpkn Hln Hpair Hper c1 Hc1. subst payload.
  (* INIT *)
  destruct (receive_handshake b Hdb Hc1 Hh Hp Hsid) as (e1 & Hr1 & Ht1 & Hh1 & Hs1 & Hg1 & Hd1);
    [set_solver|]. rewrite Hr1. unfold handle. rewrite Ht1. cbv beta iota.
  rewrite <- Hd1 in Hper.
  destruct (_persist_initiator_node_descriptor (as_payload_dict e1) i b) as [r b0] eqn:Hpersist.
  cbn in Hper. subst r.
  assert (read_positive_keepalive_interval (as_payload_dict e1) kb = k) as Hk1
    by (apply keepalive_read; [rewrite Hg1; reflexivity|done]).
  destruct (init_run kb e1 c1 b b0 sid i local_node public_key) as
    (r1 & b1 & u1 & n & sg & sb & Hrun1 & Hm1 & Hv & Hwb1 & Hsb & Hsk & _);
    [done|rewrite Hg1; reflexivity|done|done|done| |done|].
  { unfold log_endpoint_count. by rewrite Hg1. }
  rewrite Hk1 in Hm1, Hv. eexists r1, b1, _. split; [exact Hrun1|]. split; [exact Hm1|].
  (* INIT_OK *)
  intros c2 Hc2. rewrite Hh1 in Hc2.
  pose proof (response_header_plain _ _ _ _ "PHYSICAL_SESSION_INIT_OK"
    (uuid4_ascii u1) eq_refl Hh) as Hh2.
  assert (dict_wf [("responder_ephemeral_public_key", JStr (kyber_key_pair n).2);
    ("signature_hex", JStr (bytes_to_hex sg)); ("keepalive_interval_seconds", JInt k)]) as Hp2
    by (json_wf_tac; first [apply key_unicode|apply hex_unicode]).
  destruct (receive_handshake a Hda Hc2 Hh2 Hp2 Hsid) as (e2 & Hr2 & Ht2 & He2 & Hs2 & Hg2 & Hd2);
    [set_solver|]. rewrite Hr2. unfold handle. rewrite Ht2. cbv beta iota.
  assert (read_positive_keepalive_interval (as_payload_dict e2) ka = k) as Hk2
    by (apply keepalive_read; [rewrite Hg2; reflexivity|done]).
  destruct (init_ok_run ka e2 c2 a sid n (bytes_to_hex sg) public_key session) as
    (r2 & a1 & u2 & ct & secret & sa & Hrun2 & Hm2 & Hdec & Hlen & Hwa1 & Hsa1 & Hka);
    [done|rewrite Hg2; reflexivity|rewrite Hg2; reflexivity|done|done|done|by rewrite Hk2|done|].
  eexists r2, a1, _. split; [exact Hrun2|]. split; [exact Hm2|].
  (* KEY_CONFIRM *)
  intros c3 Hc3. rewrite He2 in Hc3.
  pose proof (response_header_plain _ _ _ _ "PHYSICAL_SESSION_KEY_CONFIRM"
    (uuid4_ascii u2) eq_refl Hh2) as Hh3.
  assert (dict_wf [("encapsulated_key_hex", JStr (bytes_to_hex ct))]) as Hp3
    by (json_wf_tac; apply hex_unicode).
  destruct (receive_handshake b1 Hdb Hc3 Hh3 Hp3 Hsid) as (e3 & Hr3 & Ht3 & He3 & Hs3 & Hg3 & Hd3);
    [set_solver|]. rewrite Hr3. unfold handle. rewrite Ht3. cbv beta iota.
  destruct (key_confirm_run e3 c3 b1 sid (kyber_key_pair n).1 ct secret sb) as
    (r3 & b2 & u3 & sb2 & Hrun3 & Hm3 & _ & Hsb2 & Hact & Hkb & _);
    [done|rewrite Hg3; reflexivity|done|done|apply kem_pem|done|done|].
  eexists r3, b2, _. split; [exact Hrun3|]. split; [exact Hm3|].
  (* READY *)
  intros c4 Hc4. rewrite He3 in Hc4.
  pose proof (response_header_plain _ _ _ _ "PHYSICAL_SESSION_READY"
    (uuid4_ascii u3) eq_refl Hh3) as Hh4.
  destruct (receive_handshake a1 Hda Hc4 Hh4) as (e4 & Hr4 & Ht4 & He4 & Hs4 & Hg4 & Hd4);
    [json_wf_tac|done|set_solver|]. rewrite Hr4. unfold handle. rewrite Ht4. cbv beta iota.
  assert (secret <> "") as Hsecret by (by intros ->).
  assert (bytes_to_hex secret <> "") as Hhex
    by (apply str_truthy_spec, hex_text_truthy, Hsecret).
  destruct (ready_run ka e4 c4 a1 sid sa _ Hs4 Hsa1 Hka Hhex Hwa1) as
    (r4 & a2 & sa2 & Hrun4 & _ & _ & Hsa2 & Hacta & Hka2).
  exists r4, a2, (bytes_to_hex secret). split; [exact Hrun4|].
  split; [by exists secret|]. split; by eapply active_session_secret.
Qed.

(** C20: a handshake over an existing session. INIT names the initiator but proves
    nothing: for a session the node already holds, with whatever peer and in
    whatever state, the sender of INIT and KEY_CONFIRM gets the session active
    under a secret of its own choice, while the session goes on to name the peer
    it was opened with. *)
Theorem rehandshake_replaces_secret (b : Services) dispatch (ka : Z) process (header header2 : jdict)
    (sid i : string) (payload : jdict) (local_node : LocalPhysicalNodeIdentity)
    (public_key : string) (old : NetworkSession) :
  dispatch PhysicalSessionHandler = handle ka process ->
  plain_header sid "PHYSICAL_SESSION_INIT" header -> sid <> "" -> dict_wf payload ->
  py_get payload "initiator_physical_node_id" = JStr i ->
  py_get payload "initiator_public_key" = JNull -> py_get payload "initiator_endpoints" = JNull ->
  sm_wf (sv_session_manager b) -> session_of b sid = Some old ->
  get_local_physical_node (sv_database b) = Some local_node ->
  signature_pair (ln_private_key_encrypted local_node) public_key ->
  plain_header sid "PHYSICAL_SESSION_KEY_CONFIRM" header2 ->
  forall c1, pc_payload c1 = _build_packet_bytes header payload ->
  exists r1 b1 n, process_received_packet dispatch c1 b = (Ok r1, b1) /\
  forall c2 ciphertext secret, openssl_decap ciphertext (kyber_key_pair n).1 = Ok secret ->
    secret <> "" ->
    pc_payload c2 =
      _build_packet_bytes header2 [("encapsulated_key_hex", JStr (bytes_to_hex ciphertext))] ->
  exists r2 b2 new, process_received_packet dispatch c2 b1 = (Ok r2, b2) /\
    session_secret b2 sid = Some (bytes_to_hex secret) /\
    session_of b2 sid = Some new /\ ns_remote_identity_id new = ns_remote_identity_id old.
Proof.
  intros Hd Hh Hsid Hp Hi Hkey Hep Hwf Hold Hln Hpair Hh2 c1 Hc1.
  destruct (receive_handshake b Hd Hc1 Hh Hp Hsid) as (e1 & Hr1 & Ht1 & Hh1 & Hs1 & Hg1 & Hd1);
    [set_solver|]. rewrite Hr1. unfold handle. rewrite Ht1. cbv beta iota.
  destruct (init_run ka e1 c1 b b sid i local_node public_key) as
    (r1 & b1 & u1 & n & sg & sb & Hrun1 & _ & _ & Hwb1 & Hsb & Hsk & Hnew);
    [done|by rewrite Hg1, Hi|done|done| | |done|].
  { unfold _persist_initiator_node_descriptor. by rewrite Hg1, Hkey. }
  { unfold log_endpoint_count. by rewrite Hg1, Hep. }
  exists r1, b1, n. split; [exact Hrun1|]. intros c2 ct secret Hdec Hne Hc2.
  assert (dict_wf [("encapsulated_key_hex", JStr (bytes_to_hex ct))]) as Hp2
    by (json_wf_tac; apply hex_unicode).
  destruct (receive_handshake b1 Hd Hc2 Hh2 Hp2 Hsid) as (e2 & Hr2 & Ht2 & _ & Hs2 & Hg2 & _);
    [set_solver|]. rewrite Hr2. unfold handle. rewrite Ht2. cbv beta iota.
  destruct (key_confirm_run e2 c2 b1 sid (kyber_key_pair n).1 ct secret sb) as
    (r2 & b2 & u2 & sb2 & Hrun2 & _ & _ & Hsb2 & Hact & Hkb & Hid);
    [done|rewrite Hg2; reflexivity|done|done|apply kem_pem|done|done|].
  exists r2, b2, sb2. split; [exact Hrun2|]. split; [by eapply active_session_secret|].
  split; [done|]. destruct (Hnew old Hold) as (f & now & Hf & ->).
  rewrite Hid. etransitivity; [reflexivity|]. apply Hf.
Qed.
End claims.

(** ** Witnesses *)

#[local] Existing Instance demo_aead.
#[local] Existing Instance demo_entropy.
#[local] Instance demo_float : FloatText := fun s => s.

Lemma ascii_text_of_Z n : ascii_text ("uuid-" +:+ str_of_Z n) = true.
Proof. by rewrite ascii_text_app, ascii_text_str_of_Z. Qed.

#[local] Instance demo_uuid_laws : UuidLaws.
Proof. constructor; intros n; [apply ascii_text_of_Z|discriminate]. Qed.

(** A signature is the message under the key's mark; one encapsulation per key. *)
#[local] Instance demo_openssl : OpenSSL := {|
  openssl_sign := fun message private_key => Ok (private_key +:+ message);
  openssl_verify := fun message signature public_key =>
    if String.eqb signature ("sk-b" +:+ message) && String.eqb public_key "pk-b"
    then Ok tt else Raise (ValueError "openssl");
  openssl_encap := fun public_key => Ok ("c" +:+ public_key, "0123456789abcdef0123456789abcdef");
  openssl_decap := fun ciphertext private_key =>
    if String.eqb private_key "ek" then Ok "0123456789abcdef0123456789abcdef"
    else Raise (ValueError "openssl");
|}.

#[local] Instance demo_key_gen : KeyGen := {| kyber_key_pair := fun _ => ("ek", "epk") |}.

#[local] Instance demo_kem_laws : KemLaws.
Proof.
  constructor; intros n; [|split_and!; by vm_compute].
  exists "cepk", "0123456789abcdef0123456789abcdef".
  split_and!; first [reflexivity | discriminate].
Qed.

Lemma demo_signature_pair : signature_pair "sk-b" "pk-b".
Proof.
  intros message. exists ("sk-b" +:+ message). split; [done|]. split; [discriminate|].
  unfold openssl_verify, demo_openssl.
  by rewrite String.eqb_refl.
Qed.

Definition demo_services (sm : SessionManager) (db : Database) : Services :=
  MkServices sm [] db ∅ 0 3000 0 [] [].

Definition demo_local_node : LocalPhysicalNodeIdentity :=
  MkLocalNode "pn-b" "pk-b" "sk-b" "ml-dsa-65" "active" 0.
Definition demo_database : Database := MkDatabase [demo_local_node] [] [] [] [] [] [].

Definition demo_initiator_manager : SessionManager :=
  match create_outbound_physical_session new_session_manager "sid-1" 1000 "pn-a" "pn-b"
          (Some "pk-b") "tcp" "10.0.0.2" 19001 20 with
  | Ok (_, sm) => sm
  | Raise _ => new_session_manager
  end.

Definition demo_a : Services := demo_services demo_initiator_manager empty_database.
Definition demo_b : Services := demo_services new_session_manager demo_database.

Definition demo_init_header : jdict :=
  [("version", JInt 1); ("message_type", JStr "PHYSICAL_SESSION_INIT");
   ("message_id", JStr "m-1"); ("physical_session_id", JStr "sid-1")].

Definition demo_initiator_endpoints : list json :=
  [JObj [("transport", JStr "tcp"); ("host", JStr "10.0.0.1"); ("port", JInt 19001)]].

Definition demo_process (_ : ProtocolEnvelope) (_ : PacketContext)
    : st Services PacketProcessingResult := mret (MkResult "json" true None None [] None).
Definition demo_dispatch (_ : handler) : ProtocolEnvelope -> PacketContext
    -> st Services PacketProcessingResult := handle 20 demo_process.

Definition demo_context (payload : string) : PacketContext :=
  MkContext "tcp" payload (Some "10.0.0.1") (Some 19001) None None None 0 [].

Definition demo_init_data : SessionCreateInput :=
  with_algorithms (session_input "sid-1" "physical" "physical_node" "pn-a"
    "physical_node" "pn-b" "outbound" "initiator" "init_sent" "pending")
  <| ci_transport := Some "tcp" |> <| ci_remote_host := Some "10.0.0.2" |>
  <| ci_remote_port := Some 19001 |> <| ci_remote_public_key := Some "pk-b" |>
  <| ci_keepalive_interval_seconds := 20 |>
  <| ci_keepalive_deadline := Some (_build_keepalive_deadline 1000 20) |>.

Definition demo_init_session : NetworkSession := session_of_input 1 1000 demo_init_data.

Lemma demo_initiator_wf : sm_wf (sv_session_manager demo_a).
Proof.
  refine (create_session_wf new_session_manager new_session_manager_wf 1000 demo_init_data
    demo_init_session demo_initiator_manager _).
  reflexivity.
Qed.

Lemma demo_init_header_plain : plain_header "sid-1" "PHYSICAL_SESSION_INIT" demo_init_header.
Proof. split; [unfold demo_init_header; json_wf_tac|reflexivity..]. Qed.

Lemma handshake_agreement_witness :
  exists r1 b1 init_ok,
    process_received_packet demo_dispatch (demo_context
      (build_physical_session_init_payload demo_init_header (sha512_hex "pk-a") "pk-a"
         demo_initiator_endpoints 20)) demo_b = (Ok r1, b1) /\
    pp_response_payload r1 = Some init_ok /\
    exists r2 a1 key_confirm,
      process_received_packet demo_dispatch (demo_context init_ok) demo_a = (Ok r2, a1) /\
      pp_response_payload r2 = Some key_confirm.
Proof.
  destruct (handshake_agreement demo_a demo_b demo_dispatch demo_dispatch 20 20 demo_process
    demo_process demo_init_header "sid-1" (sha512_hex "pk-a") "pk-a" demo_initiator_endpoints 20
    demo_local_node "pk-b" demo_init_session) with
    (c1 := demo_context (build_physical_session_init_payload demo_init_header (sha512_hex "pk-a")
       "pk-a" demo_initiator_endpoints 20)) as (r1 & b1 & m1 & Hr1 & Hm1 & H2).
  - reflexivity.
  - reflexivity.
  - exact demo_init_header_plain.
  - discriminate.
  - assert (unicode (sha512_hex "pk-a")) as Hu by (apply ascii_unicode; vm_compute; reflexivity).
    revert Hu. generalize (sha512_hex "pk-a"). intros id Hu.
    unfold demo_initiator_endpoints. json_wf_tac.
  - lia.
  - exact demo_initiator_wf.
  - exact new_session_manager_wf.
  - vm_compute. reflexivity.
  - reflexivity.
  - discriminate.
  - reflexivity.
  - exact demo_signature_pair.
  - vm_compute. reflexivity.
  - reflexivity.
  - exists r1, b1, m1. split; [exact Hr1|]. split; [exact Hm1|].
    destruct (H2 (demo_context m1) eq_refl) as (r2 & a1 & m2 & Hr2 & Hm2 & _).
    exists r2, a1, m2. split; [exact Hr2|exact Hm2].
Defined.

Definition demo_rekey_header : jdict :=
  [("version", JInt 1); ("message_type", JStr "PHYSICAL_SESSION_KEY_CONFIRM");
   ("physical_session_id", JStr "sid-1")].

Definition demo_rekey_payload : jdict := [("initiator_physical_node_id", JStr "pn-x")].

Lemma rehandshake_replaces_secret_witness :
  exists r1 b1,
    process_received_packet demo_dispatch
      (demo_context (_build_packet_bytes demo_init_header demo_rekey_payload))
      (demo_services demo_initiator_manager demo_database) = (Ok r1, b1) /\
    exists r2 b2 new,
      process_received_packet demo_dispatch
        (demo_context (_build_packet_bytes demo_rekey_header
           [("encapsulated_key_hex", JStr (bytes_to_hex "cepk"))])) b1 = (Ok r2, b2) /\
      session_secret b2 "sid-1" = Some (bytes_to_hex "0123456789abcdef0123456789abcdef") /\
      session_of b2 "sid-1" = Some new /\ ns_remote_identity_id new = "pn-b".
Proof.
  destruct (rehandshake_replaces_secret (demo_services demo_initiator_manager demo_database)
    demo_dispatch 20 demo_process demo_init_header demo_rekey_header "sid-1" "pn-x"
    demo_rekey_payload demo_local_node "pk-b" demo_init_session) with
    (c1 := demo_context (_build_packet_bytes demo_init_header demo_rekey_payload))
    as (r1 & b1 & n & Hr1 & H2).
  - reflexivity.
  - exact demo_init_header_plain.
  - discriminate.
  - unfold demo_rekey_payload. json_wf_tac.
  - reflexivity.
  - reflexivity.
  - reflexivity.
  - exact demo_initiator_wf.
  - vm_compute. reflexivity.
  - reflexivity.
  - exact demo_signature_pair.
  - split; [unfold demo_rekey_header; json_wf_tac|reflexivity..].
  - reflexivity.
  - exists r1, b1. split; [exact Hr1|].
    exact (H2 (demo_context (_build_packet_bytes demo_rekey_header
      [("encapsulated_key_hex", JStr (bytes_to_hex "cepk"))])) "cepk"
      "0123456789abcdef0123456789abcdef" eq_refl ltac:(discriminate) eq_refl).
Defined.
