(* ===== verification/RandomWalk.v ===== *)
(** * Building a route by a random walk

    Models [src/app/core/routing_strategies/random_walk_ttl.py].  A virtual node
    sends [ROUTE_CREATE] with a proof of work, the key of the physical node the
    route is to end at and a time budget; every node takes its round-trip time
    off the budget and passes the message to a random node, the last one to the
    final node.  Back and forth over the hops the final node offers a key, the
    initiator accepts it, the final node measures the round trip, publishes the
    route and both ends mark it active.

    The clock, [random] and the DHT client are the parameter [RouteEnv]; a
    coroutine that awaits the client is one step. *)

From S2P Require Import Prelude PyJson Sha512 PyTime PyInt PyFloat Crypto JsonText Records Pow DhtService.
From S2P Require Import Transport Reliable Sessions Identity RouteService Core Engine.

Definition strategy_name : string := "random_walk_ttl_based".

(** The configuration the strategy reads. *)
Record RouteConfig := MkRouteConfig {
  cf_network_pow_difficulty_bits : Z;
  cf_random_walk_candidate_limit : Z;
  cf_random_walk_ttl_acceptance_error_ms : Z;
  cf_random_walk_previous_hop_fallback_rtt_ms : spec_float;
  cf_route_create_ok_drt_visibility_timeout_seconds : spec_float;
  cf_route_create_ok_drt_visibility_retry_seconds : spec_float;
}.

Definition rtt_row : Type := RemotePhysicalNodeIdentity * option RttInfo.

(** [monotonic()], [random.choice] (an index for the list's length), the order a
    query with [ORDER BY random()] returns, the message of a [JSONDecodeError],
    the DHT client and [asyncio.sleep], during which other tasks run. *)
Class RouteEnv := {
  monotonic : nat -> spec_float;
  random_index : nat -> nat -> nat;
  random_order : nat -> list rtt_row -> list rtt_row;
  json_error : string -> string;
  dht_query : string -> option string -> st Services jdict;
  dht_publish : DrtPublishRequest -> jdict -> st Services jdict;
  sleep : spec_float -> st Services unit;
}.

(** ** Messages

    A field that is missing or not a non-empty string is read as [None]: in
    [_require_non_empty_string] and [_require_non_negative_int] the [raise]
    stands after [return] in the same branch. *)

Definition _require_non_empty_string : json -> option string := truthy_str.

Definition _require_positive_int (value : json) (field_name : string) : res pyint :=
  match json_pyint value with
  | Some i => if 0 <? pyint_val i then Ok i
      else Raise (ValueError
        ("O campo '" +:+ field_name +:+ "' e obrigatorio e precisa ser um inteiro positivo."))
  | None => Raise (ValueError
      ("O campo '" +:+ field_name +:+ "' e obrigatorio e precisa ser um inteiro positivo."))
  end.

Definition _require_non_negative_int (value : json) : option pyint :=
  match json_pyint value with
  | Some i => if 0 <=? pyint_val i then Some i else None
  | None => None
  end.

Definition _read_required_string (payload : jdict) (field_name : string) : option string :=
  _require_non_empty_string (py_get payload field_name).

Definition _read_required_positive_int (payload : jdict) (field_name : string) : res pyint :=
  _require_positive_int (py_get payload field_name) field_name.

Definition _read_required_nonce (payload : jdict) (field_name : string) : option pyint :=
  _require_non_negative_int (py_get payload field_name).

Record RandomWalkTtlRouteCreate := MkRouteCreate {
  rc_pk_final_physical_node : option string;
  rc_remaining_ttl_ms : pyint;
  rc_path_id : option string;
  rc_nonce : option pyint;
}.

Definition route_create_payload (m : RandomWalkTtlRouteCreate) : jdict :=
  [("route_strategy", JStr strategy_name);
   ("pk_final_physical_node", opt_json JStr (rc_pk_final_physical_node m));
   ("remaining_ttl_ms", pyint_json (rc_remaining_ttl_ms m));
   ("path_id", opt_json JStr (rc_path_id m));
   ("nonce", opt_json pyint_json (rc_nonce m))].

Record RandomWalkTtlRouteCreateKemInfo := MkKemInfo {
  ki_kyber_public_key_pem : option string;
  ki_physical_node_signature : option string;
}.

Definition kem_info_payload (m : RandomWalkTtlRouteCreateKemInfo) (path_id : option string) : jdict :=
  [("route_strategy", JStr strategy_name); ("path_id", opt_json JStr path_id);
   ("kyber_public_key_pem", opt_json JStr (ki_kyber_public_key_pem m));
   ("physical_node_signature", opt_json JStr (ki_physical_node_signature m))].

Record RandomWalkTtlRouteCreateValidateAndPublish := MkValidate {
  vp_path_id : option string;
  vp_kem_ciphertext_hex : option string;
  vp_encrypted_payload_hex : option string;
}.

Definition validate_payload (m : RandomWalkTtlRouteCreateValidateAndPublish)
    (path_id : option string) : jdict :=
  [("route_strategy", JStr strategy_name); ("path_id", opt_json JStr path_id);
   ("kem_ciphertext_hex", opt_json JStr (vp_kem_ciphertext_hex m));
   ("encrypted_payload_hex", opt_json JStr (vp_encrypted_payload_hex m))].

Record RandomWalkTtlRouteCreateOk := MkRouteOk {
  ro_path_id : option string;
  ro_encrypted_payload_hex : option string;
  ro_public_route_acceptance_signature : option string;
}.

Definition route_ok_payload (m : RandomWalkTtlRouteCreateOk) (path_id : option string) : jdict :=
  [("route_strategy", JStr strategy_name); ("path_id", opt_json JStr path_id);
   ("encrypted_payload_hex", opt_json JStr (ro_encrypted_payload_hex m));
   ("public_route_acceptance_signature",
    opt_json JStr (ro_public_route_acceptance_signature m))].

Record RandomWalkTtlRouteCreateFail := MkRouteFail {
  rf_path_id : option string;
  rf_reason : option string;
}.

Definition route_fail_payload (m : RandomWalkTtlRouteCreateFail) (path_id : option string) : jdict :=
  [("route_strategy", JStr strategy_name); ("path_id", opt_json JStr path_id);
   ("reason", opt_json JStr (rf_reason m))].

(** Ping and pong have the same fields. *)
Record PingPongPayload := MkPingPong {
  pi_path_id : option string;
  pi_ping_id : option string;
}.

Definition ping_pong_payload (m : PingPongPayload) (path_id : option string) : jdict :=
  [("route_strategy", JStr strategy_name); ("path_id", opt_json JStr path_id);
   ("ping_id", opt_json JStr (pi_ping_id m))].

Definition payload_dict (payload : json) : jdict := match payload with JObj d => d | _ => [] end.

Definition _parse_route_create (payload : json) : res RandomWalkTtlRouteCreate :=
  let payload_dict := payload_dict payload in
  let! remaining_ttl_ms := _read_required_positive_int payload_dict "remaining_ttl_ms" in
  Ok (MkRouteCreate (_read_required_string payload_dict "pk_final_physical_node") remaining_ttl_ms
        (_read_required_string payload_dict "path_id") (_read_required_nonce payload_dict "nonce")).

Definition _parse_route_create_kem_info (payload : json) : RandomWalkTtlRouteCreateKemInfo :=
  let payload_dict := payload_dict payload in
  MkKemInfo (_read_required_string payload_dict "kyber_public_key_pem")
    (_read_required_string payload_dict "physical_node_signature").

Definition _read_route_path_id (payload : json) : option string :=
  _read_required_string (payload_dict payload) "path_id".

Definition _parse_route_create_validate_and_publish (payload : json)
    : RandomWalkTtlRouteCreateValidateAndPublish :=
  let payload_dict := payload_dict payload in
  MkValidate (_read_required_string payload_dict "path_id")
    (_read_required_string payload_dict "kem_ciphertext_hex")
    (_read_required_string payload_dict "encrypted_payload_hex").

Definition _parse_route_create_ok (payload : json) : RandomWalkTtlRouteCreateOk :=
  let payload_dict := payload_dict payload in
  MkRouteOk (_read_required_string payload_dict "path_id")
    (_read_required_string payload_dict "encrypted_payload_hex")
    (_read_required_string payload_dict "public_route_acceptance_signature").

Definition _parse_route_create_fail (payload : json) : RandomWalkTtlRouteCreateFail :=
  let payload_dict := payload_dict payload in
  MkRouteFail (_read_required_string payload_dict "path_id")
    (_read_required_string payload_dict "reason").

Definition _parse_ping_pong (payload : json) : PingPongPayload :=
  let payload_dict := payload_dict payload in
  MkPingPong (_read_required_string payload_dict "path_id")
    (_read_required_string payload_dict "ping_id").

(** ** Proof of work *)

Definition _build_route_pow_canonical_payload (route_create : RandomWalkTtlRouteCreate) : string :=
  json_dumps (JObj [("route_strategy", JStr "random_walk_ttl_based");
    ("pk_final_physical_node", opt_json JStr (rc_pk_final_physical_node route_create))]).

Record RoutePowDetails := MkRoutePow {
  rp_canonical_hash : option string;
  rp_proof_hash : option string;
  rp_proof_hash_prefix : option string;
  rp_difficulty_bits : Z;
  rp_nonce : option pyint;
  rp_is_valid : bool;
}.

(** [str(nonce)] *)
Definition nonce_text (nonce : option pyint) : string :=
  match nonce with Some i => str_of_pyint i | None => "None" end.

Definition _build_route_pow_details (route_create : option RandomWalkTtlRouteCreate)
    (difficulty_bits : Z) : res RoutePowDetails :=
  match route_create with
  | None => Ok (MkRoutePow None None None difficulty_bits None false)
  | Some route_create =>
      let canonical_payload_bytes := _build_route_pow_canonical_payload route_create in
      let proof_hash :=
        sha512_hex (canonical_payload_bytes +:+ "|" +:+ nonce_text (rc_nonce route_create)) in
      let! proof_int := int_base16 proof_hash in
      let proof_bits := zfill 512 (bin_digits proof_int) in
      Ok (MkRoutePow (Some (sha512_hex canonical_payload_bytes)) (Some proof_hash)
            (Some (String.substring 0 16 proof_hash)) difficulty_bits (rc_nonce route_create)
            (meets_difficulty proof_bits difficulty_bits))
  end.

Definition _is_valid_route_pow (route_create : RandomWalkTtlRouteCreate) (difficulty_bits : Z)
    : res bool :=
  let! details := _build_route_pow_details (Some route_create) difficulty_bits in
  Ok (rp_is_valid details).

(** The route create the proof of work of a nonce is computed for. *)
Definition pow_probe (pk_final_physical_node : string) (nonce : option pyint)
    : RandomWalkTtlRouteCreate :=
  MkRouteCreate (_require_non_empty_string (JStr pk_final_physical_node)) (PyInt 1)
    (Some "pow-probe") nonce.

Definition find_valid_nonce (fuel : nat) (pk_final_physical_node : string) (difficulty_bits : Z)
    : option (res Z) :=
  search_nonce fuel (fun nonce =>
    _is_valid_route_pow (pow_probe pk_final_physical_node (Some (PyInt nonce))) difficulty_bits) 0.

Definition build_route_pow_details (pk_final_physical_node : string) (nonce : option Z)
    (difficulty_bits : Z) : res RoutePowDetails :=
  match nonce with
  | None => _build_route_pow_details None difficulty_bits
  | Some nonce =>
      _build_route_pow_details
        (Some (pow_probe pk_final_physical_node (_require_non_negative_int (JInt nonce))))
        difficulty_bits
  end.

Definition build_initial_route_create (pk_final_physical_node : option string)
    (remaining_ttl_ms : Z) (path_id : option string) (nonce : option pyint) : res jdict :=
  let! remaining_ttl_ms := _require_positive_int (JInt remaining_ttl_ms) "remaining_ttl_ms" in
  Ok (route_create_payload
    (MkRouteCreate (_require_non_empty_string (opt_json JStr pk_final_physical_node))
       remaining_ttl_ms (_require_non_empty_string (opt_json JStr path_id))
       (_require_non_negative_int (opt_json pyint_json nonce)))).

(** ** Signatures

    Each is over the canonical text of a dictionary. *)

Definition kem_offer_text (kyber_public_key_pem : option string) : jdict :=
  [("kyber_public_key_pem", opt_json JStr kyber_public_key_pem)].

Definition final_path_text (final_path_id final_physical_node_id : option string) : jdict :=
  [("final_path_id", opt_json JStr final_path_id);
   ("final_physical_node_id", opt_json JStr final_physical_node_id)].

Definition acceptance_text (virtual_node_id final_path_id virtual_node_signature : option string)
    : jdict :=
  [("virtual_node_id", opt_json JStr virtual_node_id);
   ("final_path_id", opt_json JStr final_path_id);
   ("virtual_node_signature", opt_json JStr virtual_node_signature)].

Definition public_acceptance_text (route_strategy : option string)
    (final_physical_node_public_key : option string) (route_nonce : option Z) : jdict :=
  [("route_strategy", opt_json JStr route_strategy);
   ("pk_final_physical_node", opt_json JStr final_physical_node_public_key);
   ("nonce", opt_json JInt route_nonce)].

Definition drt_rtt_text (pk_physical_node expires_at : string) (rtt : Z) : jdict :=
  [("pk_physical_node", JStr pk_physical_node); ("expires_at", JStr expires_at);
   ("rtt", JInt rtt)].

(** A value that is [None] where a string is used. *)
Definition none_error : exn := OtherError "AttributeError: 'NoneType' object has no attribute 'encode'".
Definition none_text_error : exn := TypeError "data must be str, not NoneType".
Definition none_type_error : exn := TypeError "fromhex() argument must be str, not None".

Definition required {A} (e : exn) (value : option A) : res A :=
  match value with Some a => Ok a | None => Raise e end.

Definition _build_physical_node_id (public_key : option string) : res string :=
  sha512_hex <$> required none_error public_key.

Definition _build_virtual_node_id (public_key : option string) : res string :=
  sha512_hex <$> required none_error public_key.

Section signatures.
Context `{OpenSSL}.

(** [dilithium_sign_hex(canonical_bytes.hex(), private_key)] *)
Definition sign_dict (signed_payload : jdict) (private_key_pem : string) : res string :=
  dilithium_sign_hex (CommonJson.canonical_payload_hex signed_payload) private_key_pem.

(** [dilithium_verify_hex(canonical_bytes.hex(), signature_hex, public_key)], which
    raises when the signature is not valid. *)
Definition verify_dict (signed_payload : jdict) (signature_hex public_key_pem : option string)
    : res bool :=
  let! signature_hex := required none_type_error signature_hex in
  match public_key_pem with
  | Some public_key_pem =>
      dilithium_verify_hex (CommonJson.canonical_payload_hex signed_payload) signature_hex
        public_key_pem
  | None => let! _ := hex_to_bytes signature_hex in Raise none_text_error
  end.

Definition _sign_route_kem_public_key_offer (kyber_public_key_pem signing_private_key_pem : string)
    : res string :=
  sign_dict (kem_offer_text (Some kyber_public_key_pem)) signing_private_key_pem.

Definition _is_valid_route_kem_public_key_offer_signature
    (kyber_public_key_pem signature_hex physical_node_public_key_pem : option string) : res bool :=
  verify_dict (kem_offer_text kyber_public_key_pem) signature_hex physical_node_public_key_pem.

Definition _sign_final_path_id (final_path_id final_physical_node_id
    local_virtual_node_private_key_pem : string) : res string :=
  sign_dict (final_path_text (Some final_path_id) (Some final_physical_node_id))
    local_virtual_node_private_key_pem.

Definition _is_valid_virtual_node_route_signature (final_path_id final_physical_node_id
    signature_hex virtual_node_public_key_pem : option string) : res bool :=
  verify_dict (final_path_text final_path_id final_physical_node_id) signature_hex
    virtual_node_public_key_pem.

Definition _sign_route_entry_point_acceptance (virtual_node_id final_path_id virtual_node_signature
    : option string) (local_physical_node_private_key_pem : string) : res string :=
  sign_dict (acceptance_text virtual_node_id final_path_id virtual_node_signature)
    local_physical_node_private_key_pem.

Definition _is_valid_route_entry_point_acceptance_signature (virtual_node_id final_path_id
    virtual_node_signature signature_hex physical_node_public_key_pem : option string) : res bool :=
  verify_dict (acceptance_text virtual_node_id final_path_id virtual_node_signature) signature_hex
    physical_node_public_key_pem.

Definition _sign_public_route_acceptance (route_strategy final_physical_node_public_key
    : option string) (route_nonce : option Z) (local_physical_node_private_key_pem : string)
    : res string :=
  sign_dict (public_acceptance_text route_strategy final_physical_node_public_key route_nonce)
    local_physical_node_private_key_pem.

Definition _is_valid_public_route_acceptance_signature (route_strategy
    final_physical_node_public_key : option string) (route_nonce : option Z)
    (signature_hex physical_node_public_key_pem : option string) : res bool :=
  verify_dict (public_acceptance_text route_strategy final_physical_node_public_key route_nonce)
    signature_hex physical_node_public_key_pem.

Definition _sign_drt_route_rtt (pk_physical_node expires_at : string) (rtt : Z)
    (local_physical_node_private_key_pem : string) : res string :=
  sign_dict (drt_rtt_text pk_physical_node expires_at rtt) local_physical_node_private_key_pem.
End signatures.

Definition _build_route_encrypted_payload_aad (message_type : string) : string :=
  json_dumps (JObj [("scope", JStr "route_build_encrypted_payload");
                    ("message_type", JStr message_type)]).

(** One hour from now. *)
Definition _build_drt_entry_expires_at (now : instant) : string := isoformat (now + 3600000000).

(** ** Paths

    SQLAlchemy writes a comparison with [None] as [IS NULL]. *)

Definition at_path {R} (path_id : option string) (found : string -> R) (null : R) : R :=
  match path_id with Some path_id => found path_id | None => null end.

Definition endpoint_null (r : RouteResolution) : bool :=
  bool_decide (rr_local_role r = "final_endpoint") && bool_decide (rr_route_path_id r = None)
  && rr_is_valid r.

Definition initiator_null (r : RouteResolution) : bool :=
  bool_decide (rr_local_role r = "initiator") && bool_decide (rr_initial_path_id r = None)
  && rr_is_valid r.

Definition hop_null (r : RouteResolution) : bool :=
  bool_decide (rr_local_role r = "intermediary") && rr_is_valid r
  && (bool_decide (rr_received_path_id r = None) || bool_decide (rr_generated_path_id r = None)).

Definition endpoint_at (rows : route_table) (path_id : option string) : option RouteResolution :=
  at_path path_id (get_endpoint_resolution_by_path_id rows) (select_latest endpoint_null rows).

Definition initiator_at (rows : route_table) (path_id : option string) : option RouteResolution :=
  at_path path_id (get_initiator_resolution_by_initial_path_id rows)
    (select_latest initiator_null rows).

Record BuildPathResolution := MkBuildPath {
  bp_action : string;
  bp_next_path_id : option string;
  bp_target_remote_physical_node_id : option string;
  bp_target_physical_session_id : option string;
}.

Definition _resolve_forward_path (rows : route_table) (path_id : option string)
    : option BuildPathResolution :=
  mapping ← at_path path_id (get_resolution_by_received_path_id rows)
    (select_latest (fun r => bool_decide (rr_received_path_id r = None) && rr_is_valid r) rows);
  Some (MkBuildPath "forward_vn_to_pn" (rr_generated_path_id mapping)
          (rr_to_physical_node_id mapping) None).

Section paths.
Context `{FloatText}.

Definition _read_optional_metadata_string (metadata_json : option string) (key : string)
    : option string :=
  truthy_str (py_get (CommonJson.load_json_object metadata_json) key).

Definition _resolve_reverse_path (rows : route_table) (path_id : option string)
    : option BuildPathResolution :=
  mapping ← at_path path_id (get_resolution_by_generated_path_id rows)
    (select_latest (fun r => bool_decide (rr_generated_path_id r = None) && rr_is_valid r) rows);
  Some (MkBuildPath "forward_pn_to_vn" (rr_received_path_id mapping)
          (rr_from_physical_node_id mapping)
          (_read_optional_metadata_string (rr_metadata_json mapping) "from_physical_session_id")).
End paths.

(** ** Results *)

Definition _build_invalid_result (envelope : ProtocolEnvelope) (reason : string)
    : PacketProcessingResult :=
  build_invalid_result "route_build" envelope reason.

Definition _build_forward_result (envelope : ProtocolEnvelope)
    (target_remote_physical_node_id target_physical_session_id : option string)
    (forward_message_type : string) (forward_payload : jdict) (route_build_action : string)
    (extra_metadata : jdict) : PacketProcessingResult :=
  MkResult (pe_protocol_name envelope) true (pe_message_type envelope) None
    (Relay.dict_merge
      [("action", JStr "forward_message"); ("protocol_family", JStr "route_build");
       ("route_build_action", JStr route_build_action);
       ("target_remote_physical_node_id", opt_json JStr target_remote_physical_node_id);
       ("target_physical_session_id", opt_json JStr target_physical_session_id);
       ("forward_message_type", JStr forward_message_type);
       ("forward_payload", JObj forward_payload)] extra_metadata) None.

(** A message handed on to the next node of the path. *)
Definition forward_along (envelope : ProtocolEnvelope) (path : BuildPathResolution)
    (forward_message_type : string) (forward_payload : jdict) : PacketProcessingResult :=
  _build_forward_result envelope (bp_target_remote_physical_node_id path)
    (bp_target_physical_session_id path) forward_message_type forward_payload (bp_action path) [].

Definition _read_sender_physical_node_id (envelope : ProtocolEnvelope) (s : Services)
    : option string :=
  match truthy_str (py_get (pe_header envelope) "physical_session_id") with
  | None => None
  | Some session_id =>
      match get_session_by_session_id (sv_session_manager s) session_id with
      | Some session =>
          if bool_decide (ns_remote_identity_type session <> "physical_node") then None
          else Some (ns_remote_identity_id session)
      | None => None
      end
  end.

Definition _read_physical_session_id (envelope : ProtocolEnvelope) : option string :=
  truthy_str (py_get (pe_header envelope) "physical_session_id").

(** ** The next hop *)

Record RandomWalkTtlRouteCandidateSelection := MkSelection {
  cs_node_id : string;
  cs_average_rtt_ms : spec_float;
  cs_selection_reason : string;
}.

Definition _build_one_way_rtt_ms (observed_rtt_ms : spec_float) : spec_float :=
  py_max (float_of_int 1) (float_div observed_rtt_ms (float_of_int 2)).

(** [(node_id, public_key, average_rtt_ms)], as the identity service lists them. *)
Abbreviation candidate := (string * string * spec_float)%type.

Definition _as_route_candidate_selection (c : candidate) (selection_reason : string)
    : RandomWalkTtlRouteCandidateSelection := MkSelection c.1.1 c.2 selection_reason.

Definition eligible_intermediary (final_physical_node_id previous_physical_node_id : string)
    (remaining_ttl_ms : Z) (c : candidate) : bool :=
  bool_decide (c.1.1 <> final_physical_node_id) && bool_decide (c.1.1 <> previous_physical_node_id)
  && float_lt_int (_build_one_way_rtt_ms c.2) remaining_ttl_ms.

(** [choice] picks an element of a list that is not empty. *)
Definition select_among (choice : nat -> nat) (fallback_rtt_ms : spec_float)
    (route_candidates : list candidate) (final_physical_node_id previous_physical_node_id : string)
    (remaining_ttl_ms : Z) : RandomWalkTtlRouteCandidateSelection :=
  let eligible_intermediaries :=
    List.filter (eligible_intermediary final_physical_node_id previous_physical_node_id
                   remaining_ttl_ms) route_candidates in
  match eligible_intermediaries !! (choice (length eligible_intermediaries)
                                      mod length eligible_intermediaries)%nat with
  | Some selected => _as_route_candidate_selection selected "eligible_intermediary"
  | None =>
      match List.find (fun c => bool_decide (c.1.1 = final_physical_node_id)) route_candidates with
      | Some final_candidate => _as_route_candidate_selection final_candidate "final_candidate"
      | None =>
          if bool_decide (previous_physical_node_id = final_physical_node_id)
          then MkSelection final_physical_node_id (S754_zero false) "final_fallback"
          else
            match List.find (fun c => bool_decide (c.1.1 = previous_physical_node_id)
                    && bool_decide (c.1.1 <> final_physical_node_id)
                    && float_lt_int (_build_one_way_rtt_ms c.2) remaining_ttl_ms)
                    route_candidates with
            | Some previous_candidate =>
                _as_route_candidate_selection previous_candidate "previous_hop_revisit"
            | None =>
                if float_lt_int fallback_rtt_ms remaining_ttl_ms
                then MkSelection previous_physical_node_id fallback_rtt_ms
                       "previous_hop_revisit_without_rtt"
                else MkSelection final_physical_node_id (S754_zero false) "final_fallback"
            end
      end
  end.

(** ** The handlers *)

Section strategy.
Context `{FloatText} `{FloatConv} `{Entropy} `{AesGcmSiv} `{OpenSSL} `{KeyGen} `{RouteEnv}.
Context (config : RouteConfig).

(** [aes_encrypt_text] and [aes_decrypt_text] *)
Definition encrypt_text_with (text key_hex aad : string) : st Services AESCipherHexResult :=
  encrypt_with (bytes_to_hex text) key_hex aad.

Definition aes_decrypt_text (payload_hex : option string) (key_hex aad : string) : res string :=
  let! data :=
    match payload_hex with
    | Some payload_hex => decrypt_bytes payload_hex key_hex (Some aad)
    | None =>
        let! _ := validate_hex_length key_hex AES_KEY_SIZE "key_hex" in
        Raise (TypeError "object of type 'NoneType' has no len()")
    end in
  match utf8_decode data with
  | Some text => Ok text
  | None => Raise (ValueError "UnicodeDecodeError")
  end.

(** [monotonic() * 1000.0] *)
Definition monotonic_ms : st Services spec_float := fun s =>
  (Ok (float_mul (monotonic (sv_entropy s)) (float_of_int 1000)),
   s <| sv_entropy := S (sv_entropy s) |>).

(** *** ROUTE_CREATE *)

Definition _select_next_candidate (final_physical_node_id previous_physical_node_id : string)
    (remaining_ttl_ms : Z) : st Services RandomWalkTtlRouteCandidateSelection := fun s =>
  (Ok (select_among (random_index (sv_entropy s))
         (cf_random_walk_previous_hop_fallback_rtt_ms config)
         (list_remote_physical_nodes_for_random_walk_ttl (sv_database s)
            (random_order (sv_entropy s)) (cf_random_walk_candidate_limit config))
         final_physical_node_id previous_physical_node_id remaining_ttl_ms),
   s <| sv_entropy := S (sv_entropy s) |>).

(** [max(1, int(remaining_ttl_ms - one_way_rtt_ms))] *)
Definition next_ttl (remaining_ttl_ms : Z) (one_way_rtt_ms : spec_float) : res Z :=
  let! remaining := py_float_of_int remaining_ttl_ms in
  let! ttl := py_int_of_float (float_sub remaining one_way_rtt_ms) in
  Ok (Z.max 1 ttl).

Record ForwardRouteCreateResult := MkForward {
  fw_next_remote_physical_node_id : string;
  fw_previous_path_id : option string;
  fw_selected_average_rtt_ms : spec_float;
  fw_selected_one_way_rtt_ms : spec_float;
  fw_payload : jdict;
}.

Definition create_hop (from_physical_node_id to_physical_node_id : string)
    (received_path_id : option string) (generated_path_id : string)
    (from_physical_session_id : option string) : st Services RouteResolution :=
  on_routes (fun rows _ =>
    at_path received_path_id
      (fun received_path_id => create_hop_resolution rows strategy_name from_physical_node_id
         to_physical_node_id received_path_id generated_path_id from_physical_session_id)
      (insert_row rows (hop_row strategy_name from_physical_node_id to_physical_node_id ""
         generated_path_id from_physical_session_id <| rr_received_path_id := None |>))).

Definition _forward_route_create (from_physical_node_id : string)
    (from_physical_session_id : option string) (route_create : RandomWalkTtlRouteCreate)
    : st Services ForwardRouteCreateResult :=
  final_physical_node_id ← lift (_build_physical_node_id (rc_pk_final_physical_node route_create));
  let remaining_ttl_ms := pyint_val (rc_remaining_ttl_ms route_create) in
  selected_candidate ← _select_next_candidate final_physical_node_id from_physical_node_id
    remaining_ttl_ms;
  let selected_one_way_rtt_ms := _build_one_way_rtt_ms (cs_average_rtt_ms selected_candidate) in
  next_remaining_ttl_ms ← lift (next_ttl remaining_ttl_ms selected_one_way_rtt_ms);
  next_path_id ← new_uuid;
  create_hop from_physical_node_id (cs_node_id selected_candidate) (rc_path_id route_create)
    next_path_id from_physical_session_id;;
  next_payload ← lift (build_initial_route_create (rc_pk_final_physical_node route_create)
    next_remaining_ttl_ms (Some next_path_id) (rc_nonce route_create));
  mret (MkForward (cs_node_id selected_candidate) (rc_path_id route_create)
    (cs_average_rtt_ms selected_candidate) selected_one_way_rtt_ms next_payload).

Definition _handle_route_create_as_intermediary (envelope : ProtocolEnvelope)
    (route_create : RandomWalkTtlRouteCreate) : st Services PacketProcessingResult :=
  sender ← gets (_read_sender_physical_node_id envelope);
  match sender with
  | None => mret (_build_invalid_result envelope "missing_sender_physical_node_id")
  | Some from_physical_node_id =>
      forward_result ← _forward_route_create from_physical_node_id
        (_read_physical_session_id envelope) route_create;
      mret (_build_forward_result envelope (Some (fw_next_remote_physical_node_id forward_result))
        None "ROUTE_CREATE" (fw_payload forward_result) "forward_route_create"
        [("forward_result", JObj
           [("previous_path_id", opt_json JStr (fw_previous_path_id forward_result));
            ("selected_average_rtt_ms",
             JFloat (float_show (fw_selected_average_rtt_ms forward_result)));
            ("selected_one_way_rtt_ms",
             JFloat (float_show (fw_selected_one_way_rtt_ms forward_result)));
            ("next_remote_physical_node_id",
             JStr (fw_next_remote_physical_node_id forward_result))])])
  end.

Definition create_endpoint (previous_physical_node_id : string) (route_nonce : option Z)
    (route_path_id : option string) (key_pair : string * string) : st Services RouteResolution :=
  on_routes (fun rows _ =>
    match route_nonce, route_path_id with
    | Some route_nonce, Some route_path_id =>
        create_endpoint_resolution rows previous_physical_node_id strategy_name route_nonce
          route_path_id key_pair.1 key_pair.2
    | _, _ =>
        insert_row rows (endpoint_row previous_physical_node_id strategy_name 0 "" key_pair.1
          key_pair.2 <| rr_route_nonce := route_nonce |> <| rr_route_path_id := route_path_id |>)
    end).

Definition _handle_route_create_as_final_node (envelope : ProtocolEnvelope)
    (route_create : RandomWalkTtlRouteCreate) : st Services PacketProcessingResult :=
  sender ← gets (_read_sender_physical_node_id envelope);
  match sender with
  | None => mret (_build_invalid_result envelope "missing_sender_physical_node_id")
  | Some previous_physical_node_id =>
      local_node ← gets (fun s => get_local_physical_node (sv_database s));
      match local_node with
      | None => mret (_build_invalid_result envelope "local_physical_node_not_initialized")
      | Some local_node =>
          kyber_key_pair ← generate_kyber_key_pair;
          physical_node_signature ← lift (_sign_route_kem_public_key_offer kyber_key_pair.2
            (ln_private_key_encrypted local_node));
          create_endpoint previous_physical_node_id (pyint_val <$> rc_nonce route_create)
            (rc_path_id route_create) kyber_key_pair;;
          mret (_build_forward_result envelope (Some previous_physical_node_id) None
            "ROUTE_CREATE_KEM_INFO"
            (kem_info_payload (MkKemInfo (Some kyber_key_pair.2) (Some physical_node_signature))
               (rc_path_id route_create)) "send_route_create_kem_info" [])
      end
  end.

Definition handle_route_create (envelope : ProtocolEnvelope) : st Services PacketProcessingResult :=
  route_create ← lift (_parse_route_create (pe_payload envelope));
  pow_details ← lift (_build_route_pow_details (Some route_create)
    (cf_network_pow_difficulty_bits config));
  if negb (rp_is_valid pow_details)
  then mret (_build_invalid_result envelope "invalid_route_create_pow")
  else
    local_node ← gets (fun s => get_local_physical_node (sv_database s));
    match local_node with
    | None => mret (_build_invalid_result envelope "local_physical_node_not_initialized")
    | Some local_node =>
        lift (_build_physical_node_id (rc_pk_final_physical_node route_create));;
        if bool_decide (Some (ln_public_key local_node) = rc_pk_final_physical_node route_create)
        then _handle_route_create_as_final_node envelope route_create
        else _handle_route_create_as_intermediary envelope route_create
    end.

(** *** ROUTE_CREATE_KEM_INFO *)

Definition _select_default_local_virtual_node (db : Database) : option LocalVirtualNodeIdentity :=
  head (list_local_virtual_nodes db true).

Definition _select_route_local_virtual_node (db : Database) (local_virtual_node_id : option string)
    : option LocalVirtualNodeIdentity :=
  match nonempty_column local_virtual_node_id with
  | Some local_virtual_node_id => get_local_virtual_node_by_id db local_virtual_node_id
  | None => _select_default_local_virtual_node db
  end.

Definition update_initiator (path_id : option string) (f : RouteResolution -> RouteResolution)
    : st Services (option RouteResolution) :=
  on_routes (fun rows _ =>
    update_latest (at_path path_id initiator_path initiator_null) f rows).

Definition _handle_local_route_create_kem_info (envelope : ProtocolEnvelope)
    (route_path_id : option string) (kem_info : RandomWalkTtlRouteCreateKemInfo)
    : st Services PacketProcessingResult :=
  let invalid reason := mret (_build_invalid_result envelope reason) in
  rows ← gets sv_routes;
  match initiator_at rows route_path_id with
  | None => invalid "route_initiator_state_not_found"
  | Some initiator_state =>
      valid ← lift (_is_valid_route_kem_public_key_offer_signature
        (ki_kyber_public_key_pem kem_info) (ki_physical_node_signature kem_info)
        (rr_final_physical_node_public_key initiator_state));
      if negb valid then invalid "invalid_route_kem_public_key_offer_signature"
      else
        db ← gets sv_database;
        match _select_route_local_virtual_node db (rr_local_virtual_node_id initiator_state) with
        | None => invalid "local_virtual_node_not_initialized"
        | Some local_virtual_node =>
            final_path_id ← new_uuid;
            final_physical_node_id ←
              lift (_build_physical_node_id (rr_final_physical_node_public_key initiator_state));
            let initiator_metadata :=
              CommonJson.load_json_object (rr_metadata_json initiator_state) in
            match json_pyint (py_get initiator_metadata "expected_round_trip_ttl_ms") with
            | None => invalid "missing_expected_round_trip_ttl_ms"
            | Some expected_round_trip_ttl_ms =>
                if pyint_val expected_round_trip_ttl_ms <=? 0
                then invalid "missing_expected_round_trip_ttl_ms"
                else
                  virtual_node_signature ← lift (_sign_final_path_id final_path_id
                    final_physical_node_id (lv_private_key_encrypted local_virtual_node));
                  kyber_public_key_pem ← lift (required none_text_error (ki_kyber_public_key_pem kem_info));
                  encapsulation ← lift (kyber_encapsulate_hex kyber_public_key_pem);
                  updated_state ← update_initiator route_path_id
                    (set_initiator_payload (lv_id local_virtual_node) final_path_id
                       virtual_node_signature (shared_secret_hex encapsulation));
                  match updated_state with
                  | None => invalid "route_initiator_state_not_found"
                  | Some _ =>
                      encrypted_payload ← encrypt_text_with
                        (json_dumps (JObj
                           [("virtual_node_id", JStr (lv_id local_virtual_node));
                            ("virtual_node_public_key", JStr (lv_public_key local_virtual_node));
                            ("final_path_id", JStr final_path_id);
                            ("final_physical_node_id", JStr final_physical_node_id);
                            ("expected_round_trip_ttl_ms", pyint_json expected_round_trip_ttl_ms);
                            ("virtual_node_signature", JStr virtual_node_signature)]))
                        (shared_secret_hex encapsulation)
                        (_build_route_encrypted_payload_aad "ROUTE_CREATE_VALIDATE_AND_PUBLISH");
                      mret (_build_forward_result envelope
                        (rr_first_hop_physical_node_id initiator_state) None
                        "ROUTE_CREATE_VALIDATE_AND_PUBLISH"
                        (validate_payload (MkValidate route_path_id
                           (Some (ciphertext_hex encapsulation))
                           (Some (cr_payload_hex encrypted_payload))) route_path_id)
                        "send_route_create_validate_and_publish" [])
                  end
            end
        end
  end.

Definition handle_route_create_kem_info (envelope : ProtocolEnvelope)
    : st Services PacketProcessingResult :=
  let route_path_id := _read_route_path_id (pe_payload envelope) in
  let kem_info := _parse_route_create_kem_info (pe_payload envelope) in
  rows ← gets sv_routes;
  match _resolve_reverse_path rows route_path_id with
  | Some reverse_path =>
      mret (forward_along envelope reverse_path "ROUTE_CREATE_KEM_INFO"
        (kem_info_payload kem_info (bp_next_path_id reverse_path)))
  | None => _handle_local_route_create_kem_info envelope route_path_id kem_info
  end.

(** *** ROUTE_CREATE_VALIDATE_AND_PUBLISH *)

Definition update_endpoint (path_id : option string) (f : RouteResolution -> RouteResolution)
    : st Services (option RouteResolution) :=
  on_routes (fun rows _ =>
    update_latest (at_path path_id endpoint_path endpoint_null) f rows).

(** The payload the initiator encrypted; a value that is not an object has no [get]. *)
Definition decrypted_dict (error_prefix : string) (text : string) : res (jdict + string) :=
  match json_loads text with
  | None => Ok (inr (error_prefix +:+ json_error text))
  | Some (JObj payload) => Ok (inl payload)
  | Some _ => Raise attribute_error
  end.

(** The signatures and the context the final node stores for an accepted request. *)
Definition accept_validation (envelope : ProtocolEnvelope) (path_id : option string)
    (route_endpoint_state : RouteResolution) (local_node : LocalPhysicalNodeIdentity)
    (shared_secret_hex virtual_node_id : string) (final_path_id : option string)
    (virtual_node_public_key virtual_node_signature : string) (expected_round_trip_ttl_ms : pyint)
    : st Services PacketProcessingResult :=
  physical_node_signature ← lift (_sign_route_entry_point_acceptance (Some virtual_node_id)
    final_path_id (Some virtual_node_signature) (ln_private_key_encrypted local_node));
  public_route_acceptance_signature ← lift (_sign_public_route_acceptance
    (rr_route_strategy route_endpoint_state) (Some (ln_public_key local_node))
    (rr_route_nonce route_endpoint_state) (ln_private_key_encrypted local_node));
  ping_id ← new_uuid;
  ping_sent_at_monotonic_ms ← monotonic_ms;
  updated_endpoint_resolution ← update_endpoint path_id (fun r =>
    set_validation_context shared_secret_hex (default "" final_path_id) virtual_node_public_key
      virtual_node_signature physical_node_signature public_route_acceptance_signature
      virtual_node_id expected_round_trip_ttl_ms ping_id
      (float_show ping_sent_at_monotonic_ms) r <| rr_final_path_id := final_path_id |>);
  match updated_endpoint_resolution with
  | None => mret (_build_invalid_result envelope "route_endpoint_state_not_found")
  | Some _ =>
      mret (_build_forward_result envelope (rr_previous_physical_node_id route_endpoint_state) None
        "ROUTE_CREATE_PING" (ping_pong_payload (MkPingPong path_id (Some ping_id)) path_id)
        "send_route_create_ping" [])
  end.

Definition _handle_local_route_create_validate_and_publish (envelope : ProtocolEnvelope)
    (validation_request : RandomWalkTtlRouteCreateValidateAndPublish)
    : st Services PacketProcessingResult :=
  let invalid reason := mret (_build_invalid_result envelope reason) in
  rows ← gets sv_routes;
  match endpoint_at rows (vp_path_id validation_request) with
  | None => invalid "route_endpoint_state_not_found"
  | Some route_endpoint_state =>
      kyber_private_key_pem ←
        lift (required none_text_error (rr_kyber_private_key_pem route_endpoint_state));
      kem_ciphertext_hex ← lift (required none_type_error (vp_kem_ciphertext_hex validation_request));
      shared_secret_hex ← lift (kyber_decapsulate_hex kem_ciphertext_hex kyber_private_key_pem);
      decrypted_payload_json ← lift (aes_decrypt_text
        (vp_encrypted_payload_hex validation_request) shared_secret_hex
        (_build_route_encrypted_payload_aad "ROUTE_CREATE_VALIDATE_AND_PUBLISH"));
      decrypted ← lift (decrypted_dict "invalid_route_validation_request_payload:"
        decrypted_payload_json);
      match decrypted with
      | inr reason => invalid reason
      | inl decrypted_payload =>
          let final_path_id := _read_required_string decrypted_payload "final_path_id" in
          expected_round_trip_ttl_ms ←
            lift (_read_required_positive_int decrypted_payload "expected_round_trip_ttl_ms");
          virtual_node_public_key ← lift (required none_error
            (_read_required_string decrypted_payload "virtual_node_public_key"));
          let virtual_node_id := sha512_hex virtual_node_public_key in
          if bool_decide (_read_required_string decrypted_payload "virtual_node_id"
                          <> Some virtual_node_id)
          then invalid "virtual_node_id_public_key_mismatch"
          else
            local_node ← gets (fun s => get_local_physical_node (sv_database s));
            match local_node with
            | None => invalid "local_physical_node_not_initialized"
            | Some local_node =>
                let final_physical_node_id :=
                  _read_required_string decrypted_payload "final_physical_node_id" in
                if bool_decide (final_physical_node_id <> Some (sha512_hex (ln_public_key local_node)))
                then invalid "invalid_final_physical_node_id"
                else
                  let signature := _read_required_string decrypted_payload "virtual_node_signature" in
                  valid ← lift (_is_valid_virtual_node_route_signature final_path_id
                    final_physical_node_id signature (Some virtual_node_public_key));
                  virtual_node_signature ← lift (required none_type_error signature);
                  if negb valid then invalid "invalid_virtual_node_route_signature"
                  else accept_validation envelope (vp_path_id validation_request)
                         route_endpoint_state local_node shared_secret_hex virtual_node_id
                         final_path_id virtual_node_public_key virtual_node_signature
                         expected_round_trip_ttl_ms
            end
      end
  end.

Definition handle_route_create_validate_and_publish (envelope : ProtocolEnvelope)
    : st Services PacketProcessingResult :=
  let validation_request := _parse_route_create_validate_and_publish (pe_payload envelope) in
  rows ← gets sv_routes;
  match _resolve_forward_path rows (vp_path_id validation_request) with
  | Some forward_path =>
      mret (forward_along envelope forward_path "ROUTE_CREATE_VALIDATE_AND_PUBLISH"
        (validate_payload validation_request (bp_next_path_id forward_path)))
  | None => _handle_local_route_create_validate_and_publish envelope validation_request
  end.

(** *** ROUTE_CREATE_OK *)

(** [expected and value != expected] *)
Definition differs (expected value : option string) : bool :=
  match nonempty_column expected with
  | Some expected => bool_decide (value <> Some expected)
  | None => false
  end.

Definition _drt_query_result_contains_route (result : jdict) (virtual_node_id final_path_id
    : option string) : res bool :=
  if bool_decide (py_get result "status" <> JStr "found") then Ok false
  else
    match truthy_str (py_get result "record_json") with
    | None => Ok false
    | Some record_json =>
        match parse_record "drt" record_json with
        | Raise (ValueError _) => Ok false
        | Raise e => Raise e
        | Ok (Drt record) =>
            if bool_decide (Some (sha512_hex (drt_pk_virtual_node record)) <> virtual_node_id)
            then Ok false
            else Ok (existsb (fun entry => bool_decide (Some (re_final_path_id entry) = final_path_id))
                       (drt_route_entries record))
        | Ok _ => Ok false
        end
    end.

(** [while monotonic() < deadline]; [None] when the loop has not ended. *)
Fixpoint poll_drt (fuel : nat) (deadline : spec_float) (virtual_node_id final_path_id
    : option string) : st Services (option bool) :=
  match fuel with
  | O => mret None
  | S fuel =>
      now ← (fun s => (Ok (monotonic (sv_entropy s)), s <| sv_entropy := S (sv_entropy s) |>));
      if negb (float_ltb now deadline) then mret (Some false)
      else
        result ← dht_query "drt" virtual_node_id;
        found ← lift (_drt_query_result_contains_route result virtual_node_id final_path_id);
        if found : bool then mret (Some true)
        else
          sleep (cf_route_create_ok_drt_visibility_retry_seconds config);;
          poll_drt fuel deadline virtual_node_id final_path_id
  end.

Definition _is_route_visible_in_drt (fuel : nat) (virtual_node_id final_path_id : option string)
    : st Services (option bool) :=
  now ← (fun s => (Ok (monotonic (sv_entropy s)), s <| sv_entropy := S (sv_entropy s) |>));
  poll_drt fuel (float_add now (cf_route_create_ok_drt_visibility_timeout_seconds config))
    virtual_node_id final_path_id.

(** What the initiator checks before it asks the DHT: the reason of a refusal. *)
Definition refuse_route_ok (initiator_state : RouteResolution)
    (route_create_ok : RandomWalkTtlRouteCreateOk) (virtual_node_id final_path_id
     virtual_node_signature physical_node_signature : option string) : res (option string) :=
  if differs (rr_local_virtual_node_id initiator_state) virtual_node_id
  then Ok (Some "invalid_route_create_ok_virtual_node_id")
  else if differs (rr_final_path_id initiator_state) final_path_id
  then Ok (Some "invalid_route_create_ok_final_path_id")
  else if differs (rr_virtual_node_signature initiator_state) virtual_node_signature
  then Ok (Some "invalid_route_create_ok_virtual_node_signature")
  else
    let final_key := rr_final_physical_node_public_key initiator_state in
    let! accepted := _is_valid_route_entry_point_acceptance_signature virtual_node_id final_path_id
      virtual_node_signature physical_node_signature final_key in
    if negb accepted then Ok (Some "invalid_route_create_ok_physical_node_signature")
    else
      match nonempty_column (rr_route_strategy initiator_state), rr_route_nonce initiator_state with
      | Some route_strategy, Some route_nonce =>
          let! accepted := _is_valid_public_route_acceptance_signature (Some route_strategy)
            final_key (Some route_nonce) (ro_public_route_acceptance_signature route_create_ok)
            final_key in
          if negb accepted then Ok (Some "invalid_public_route_acceptance_signature") else Ok None
      | _, _ => Ok (Some "route_initiator_public_route_context_not_found")
      end.

Definition invalidate_reason (now : instant) (reason : option string) (r : RouteResolution)
    : RouteResolution :=
  match reason with
  | Some reason => invalidate_row now reason r
  | None =>
      invalidate_row now "" r <| rr_metadata_json := _dump_metadata
        (od_set "invalidated_at" (JStr (isoformat now))
           (od_set "invalidated_reason" JNull (_load_metadata (rr_metadata_json r)))) |>
  end.

Definition invalidate_initiator (path_id reason : option string)
    : st Services (option RouteResolution) :=
  on_routes (fun rows now =>
    update_latest (at_path path_id initiator_path initiator_null) (invalidate_reason now reason) rows).

(** [None] while the wait for the DHT has not ended. *)
Definition _handle_local_route_create_ok (fuel : nat) (envelope : ProtocolEnvelope)
    (route_create_ok : RandomWalkTtlRouteCreateOk) : st Services (option PacketProcessingResult) :=
  let invalid reason := mret (Some (_build_invalid_result envelope reason)) in
  let path_id := ro_path_id route_create_ok in
  rows ← gets sv_routes;
  match initiator_at rows path_id ≫= fun initiator_state =>
          pair initiator_state <$> nonempty_column (rr_shared_secret_hex initiator_state) with
  | None => invalid "route_initiator_shared_secret_not_found"
  | Some (initiator_state, shared_secret_hex) =>
      decrypted_payload_json ← lift (aes_decrypt_text
        (ro_encrypted_payload_hex route_create_ok) shared_secret_hex
        (_build_route_encrypted_payload_aad "ROUTE_CREATE_OK"));
      decrypted ← lift (decrypted_dict "invalid_route_create_ok_payload:" decrypted_payload_json);
      match decrypted with
      | inr reason => invalid reason
      | inl decrypted_payload =>
          let virtual_node_id := _read_required_string decrypted_payload "virtual_node_id" in
          let final_path_id := _read_required_string decrypted_payload "final_path_id" in
          let virtual_node_signature :=
            _read_required_string decrypted_payload "virtual_node_signature" in
          let physical_node_signature :=
            _read_required_string decrypted_payload "physical_node_signature" in
          refusal ← lift (refuse_route_ok initiator_state route_create_ok virtual_node_id
            final_path_id virtual_node_signature physical_node_signature);
          match refusal with
          | Some reason => invalid reason
          | None =>
              drt_ready ← _is_route_visible_in_drt fuel virtual_node_id final_path_id;
              match drt_ready with
              | None => mret None
              | Some false =>
                  invalidate_initiator path_id (Some "route_create_ok_drt_entry_not_visible");;
                  invalid "route_create_ok_drt_entry_not_visible"
              | Some true =>
                  update_initiator path_id (set_initiator_active final_path_id
                    virtual_node_signature physical_node_signature
                    (ro_public_route_acceptance_signature route_create_ok));;
                  mret (Some (MkResult (pe_protocol_name envelope) true (pe_message_type envelope)
                    None
                    [("protocol_family", JStr "route_build");
                     ("route_build_action", JStr "deliver_local");
                     ("route_strategy", JStr strategy_name);
                     ("path_id", opt_json JStr path_id);
                     ("virtual_node_id", opt_json JStr virtual_node_id);
                     ("final_path_id", opt_json JStr final_path_id);
                     ("virtual_node_signature", opt_json JStr virtual_node_signature);
                     ("physical_node_signature", opt_json JStr physical_node_signature);
                     ("public_route_acceptance_signature",
                      opt_json JStr (ro_public_route_acceptance_signature route_create_ok));
                     ("next_step", JStr "route_ready_after_drt_publish")] None))
              end
          end
      end
  end.

Definition handle_route_create_ok (fuel : nat) (envelope : ProtocolEnvelope)
    : st Services (option PacketProcessingResult) :=
  let route_create_ok := _parse_route_create_ok (pe_payload envelope) in
  rows ← gets sv_routes;
  match _resolve_reverse_path rows (ro_path_id route_create_ok) with
  | Some reverse_path =>
      mret (Some (forward_along envelope reverse_path "ROUTE_CREATE_OK"
        (route_ok_payload route_create_ok (bp_next_path_id reverse_path))))
  | None => _handle_local_route_create_ok fuel envelope route_create_ok
  end.

(** *** ROUTE_CREATE_FAIL *)

Definition _handle_local_route_create_fail (envelope : ProtocolEnvelope)
    (route_create_fail : RandomWalkTtlRouteCreateFail) : st Services PacketProcessingResult :=
  invalidated ← invalidate_initiator (rf_path_id route_create_fail) (rf_reason route_create_fail);
  match invalidated with
  | None => mret (_build_invalid_result envelope "route_initiator_state_not_found")
  | Some _ =>
      mret (MkResult (pe_protocol_name envelope) true (pe_message_type envelope) None
        [("protocol_family", JStr "route_build"); ("route_build_action", JStr "route_create_failed");
         ("route_strategy", JStr strategy_name);
         ("path_id", opt_json JStr (rf_path_id route_create_fail));
         ("reason", opt_json JStr (rf_reason route_create_fail))] None)
  end.

Definition handle_route_create_fail (envelope : ProtocolEnvelope)
    : st Services PacketProcessingResult :=
  let route_create_fail := _parse_route_create_fail (pe_payload envelope) in
  let path_id := rf_path_id route_create_fail in
  rows ← gets sv_routes;
  match _resolve_reverse_path rows path_id with
  | Some reverse_path =>
      on_routes (fun rows now => update_latest (at_path path_id hop_path hop_null)
        (invalidate_reason now (rf_reason route_create_fail)) rows);;
      mret (forward_along envelope reverse_path "ROUTE_CREATE_FAIL"
        (route_fail_payload route_create_fail (bp_next_path_id reverse_path)))
  | None => _handle_local_route_create_fail envelope route_create_fail
  end.

(** *** ROUTE_CREATE_PING *)

Definition _handle_local_route_create_ping (envelope : ProtocolEnvelope)
    (route_create_ping : PingPongPayload) : st Services PacketProcessingResult :=
  rows ← gets sv_routes;
  match initiator_at rows (pi_path_id route_create_ping) ≫= fun initiator_state =>
          nonempty_column (rr_first_hop_physical_node_id initiator_state) with
  | None => mret (_build_invalid_result envelope "route_initiator_state_not_found")
  | Some first_hop_physical_node_id =>
      mret (_build_forward_result envelope (Some first_hop_physical_node_id) None
        "ROUTE_CREATE_PONG" (ping_pong_payload route_create_ping (pi_path_id route_create_ping))
        "send_route_create_pong" [])
  end.

Definition handle_route_create_ping (envelope : ProtocolEnvelope)
    : st Services PacketProcessingResult :=
  let route_create_ping := _parse_ping_pong (pe_payload envelope) in
  rows ← gets sv_routes;
  match _resolve_reverse_path rows (pi_path_id route_create_ping) with
  | Some reverse_path =>
      mret (forward_along envelope reverse_path "ROUTE_CREATE_PING"
        (ping_pong_payload route_create_ping (bp_next_path_id reverse_path)))
  | None => _handle_local_route_create_ping envelope route_create_ping
  end.

(** *** ROUTE_CREATE_PONG *)

Definition _build_route_create_fail_result (envelope : ProtocolEnvelope)
    (route_path_id : option string) (route_endpoint_state : RouteResolution) (reason : string)
    : st Services PacketProcessingResult :=
  match nonempty_column (rr_previous_physical_node_id route_endpoint_state) with
  | None => mret (_build_invalid_result envelope reason)
  | Some previous_physical_node_id =>
      on_routes (fun rows now => update_latest (at_path route_path_id endpoint_path endpoint_null)
        (invalidate_row now reason) rows);;
      mret (_build_forward_result envelope (Some previous_physical_node_id) None
        "ROUTE_CREATE_FAIL"
        (route_fail_payload (MkRouteFail route_path_id (Some reason)) route_path_id)
        "send_route_create_fail" [])
  end.

Definition _publish_drt_route_after_pong (drt_publish_request : DrtPublishRequest)
    (drt_key : string) (path_id final_path_id : option string) (virtual_node_id : string)
    : st Services (option jdict) :=
  catch_exn (fun _ => true)
    (publish_result ← dht_publish drt_publish_request
       [("source", JStr "route_create_drt_publish"); ("path_id", opt_json JStr path_id);
        ("final_path_id", opt_json JStr final_path_id);
        ("virtual_node_id", JStr virtual_node_id); ("drt_key", JStr drt_key)];
     mret (Some publish_result))
    (fun _ => mret None).

(** The measured round trip against the announced one: the rounded time, or the
    reason of the refusal. *)
Definition check_round_trip (observed_round_trip_ms : spec_float)
    (expected_round_trip_ttl_ms : pynum) : res (option Z) :=
  let route_error_ms := cf_random_walk_ttl_acceptance_error_ms config in
  let! lower := num_add_int expected_round_trip_ttl_ms (- route_error_ms) in
  let! _ := float_of_num lower in
  let! upper := num_add_int expected_round_trip_ttl_ms route_error_ms in
  let! upper := float_of_num upper in
  let! rounded := py_round observed_round_trip_ms in
  Ok (if float_leb observed_round_trip_ms upper then Some rounded else None).

(** From the accepted round trip on: activation, publication, and the answer. *)
Definition finish_route (envelope : ProtocolEnvelope) (path_id : option string)
    (shared_secret_hex remote_virtual_node_id : string) (expected_round_trip_ttl_ms : json)
    (observed_round_trip_ms : spec_float) (observed_round_trip_ms_rounded : Z)
    : st Services PacketProcessingResult :=
  activated ← update_endpoint path_id set_active;
  match activated with
  | None => mret (_build_invalid_result envelope "route_endpoint_state_not_found")
  | Some route_endpoint_state =>
      local_node ← gets (fun s => get_local_physical_node (sv_database s));
      match local_node with
      | None => mret (_build_invalid_result envelope "local_physical_node_not_initialized")
      | Some local_node =>
          let fail := _build_route_create_fail_result envelope path_id route_endpoint_state in
          now ← gets sv_now;
          let drt_expires_at := _build_drt_entry_expires_at now in
          drt_rtt_physical_node_signature ← lift (_sign_drt_route_rtt (ln_public_key local_node)
            drt_expires_at observed_round_trip_ms_rounded (ln_private_key_encrypted local_node));
          rows ← gets sv_routes;
          match endpoint_at rows path_id ≫= drt_publish_request_of now (ln_public_key local_node)
                  drt_rtt_physical_node_signature observed_round_trip_ms_rounded drt_expires_at with
          | None => fail "drt_publish_request_not_available"
          | Some drt_publish_request =>
              drt_key ← lift (DhtService.build_key (pr_namespace drt_publish_request)
                (pr_logical_key drt_publish_request));
              drt_publish_result ← _publish_drt_route_after_pong drt_publish_request drt_key path_id
                (rr_final_path_id route_endpoint_state) remote_virtual_node_id;
              if negb (match drt_publish_result with
                       | Some result => bool_decide (py_get result "status" = JStr "stored")
                       | None => false
                       end)
              then fail "drt_publish_failed"
              else
                encrypted_ok_payload ← encrypt_text_with
                  (json_dumps (JObj
                     [("virtual_node_id", JStr remote_virtual_node_id);
                      ("final_path_id", opt_json JStr (rr_final_path_id route_endpoint_state));
                      ("virtual_node_signature",
                       opt_json JStr (rr_virtual_node_signature route_endpoint_state));
                      ("physical_node_signature",
                       opt_json JStr (rr_physical_node_signature route_endpoint_state))]))
                  shared_secret_hex (_build_route_encrypted_payload_aad "ROUTE_CREATE_OK");
                mret (_build_forward_result envelope
                  (rr_previous_physical_node_id route_endpoint_state) None "ROUTE_CREATE_OK"
                  (route_ok_payload (MkRouteOk path_id (Some (cr_payload_hex encrypted_ok_payload))
                     (rr_public_route_acceptance_signature route_endpoint_state)) path_id)
                  "send_route_create_ok"
                  [("observed_round_trip_ms", JFloat (float_show observed_round_trip_ms));
                   ("expected_round_trip_ttl_ms", expected_round_trip_ttl_ms);
                   ("is_within_expected_ttl", JBool true);
                   ("final_path_id", opt_json JStr (rr_final_path_id route_endpoint_state))])
          end
      end
  end.

Definition _handle_local_route_create_pong (envelope : ProtocolEnvelope)
    (route_create_pong : PingPongPayload) : st Services PacketProcessingResult :=
  let path_id := pi_path_id route_create_pong in
  rows ← gets sv_routes;
  match endpoint_at rows path_id ≫= fun route_endpoint_state =>
          pair route_endpoint_state <$> nonempty_column (rr_shared_secret_hex route_endpoint_state) with
  | None => mret (_build_invalid_result envelope "route_endpoint_state_not_found")
  | Some (route_endpoint_state, shared_secret_hex) =>
      let fail := _build_route_create_fail_result envelope path_id route_endpoint_state in
      let metadata := CommonJson.load_json_object (rr_metadata_json route_endpoint_state) in
      let expected := py_get metadata "expected_round_trip_ttl_ms" in
      if bool_decide (py_get metadata "last_ping_id" <> opt_json JStr (pi_ping_id route_create_pong))
      then fail "unexpected_route_create_pong"
      else
        match num_of_json (py_get metadata "last_ping_sent_at_monotonic_ms") with
        | None => fail "missing_route_ping_start_time"
        | Some started_at_monotonic_ms =>
            match truthy_str (py_get metadata "remote_virtual_node_id") with
            | None => fail "missing_remote_virtual_node_id"
            | Some remote_virtual_node_id =>
                now ← monotonic_ms;
                started ← lift (float_of_num started_at_monotonic_ms);
                let observed_round_trip_ms := float_sub now started in
                match num_of_json expected with
                | None => fail "missing_expected_round_trip_ttl_ms"
                | Some expected_round_trip_ttl_ms =>
                    accepted ← lift (check_round_trip observed_round_trip_ms
                      expected_round_trip_ttl_ms);
                    match accepted with
                    | None => fail "route_round_trip_ttl_exceeded"
                    | Some rounded =>
                        finish_route envelope path_id shared_secret_hex remote_virtual_node_id
                          expected observed_round_trip_ms rounded
                    end
                end
            end
        end
  end.

Definition handle_route_create_pong (envelope : ProtocolEnvelope)
    : st Services PacketProcessingResult :=
  let route_create_pong := _parse_ping_pong (pe_payload envelope) in
  rows ← gets sv_routes;
  match _resolve_forward_path rows (pi_path_id route_create_pong) with
  | Some forward_path =>
      mret (forward_along envelope forward_path "ROUTE_CREATE_PONG"
        (ping_pong_payload route_create_pong (bp_next_path_id forward_path)))
  | None => _handle_local_route_create_pong envelope route_create_pong
  end.
End strategy.
