(* ===== verification/RouteBuild.v ===== *)
(** * The handler of the route building messages

    Models [src/app/core/protocols/physical/route_build.py], which hands a message
    to the routing strategy its payload names, and
    [src/app/core/routing_strategies/registry.py] with the two strategies that
    are not implemented in the source. *)

From S2P Require Import Prelude PyJson Records PyFloat Crypto RouteService Core RandomWalk.

(** ** The strategies *)

Inductive route_strategy : Type :=
| RandomWalkMaxHopRouteStrategy
| RandomWalkTtlRouteStrategy
| OnionLikeRouteStrategy.

#[export] Instance route_strategy_eq_dec : EqDecision route_strategy.
Proof. solve_decision. Defined.

Definition route_strategy_name (strategy : route_strategy) : string :=
  match strategy with
  | RandomWalkMaxHopRouteStrategy => "random_walk_max_hop_based"
  | RandomWalkTtlRouteStrategy => strategy_name
  | OnionLikeRouteStrategy => "onion_like_based"
  end.

(** The registry's dictionary. *)
Definition _strategies : list (string * route_strategy) :=
  (fun strategy => (route_strategy_name strategy, strategy)) <$>
  [RandomWalkMaxHopRouteStrategy; RandomWalkTtlRouteStrategy; OnionLikeRouteStrategy].

Definition get_strategy (strategy_name : option string) : option route_strategy :=
  strategy_name ← strategy_name; od_get strategy_name _strategies.

Definition require_strategy (strategy_name : string) : res route_strategy :=
  match get_strategy (Some strategy_name) with
  | Some strategy => Ok strategy
  | None => Raise (ValueError ("Unsupported route strategy: " +:+ strategy_name))
  end.

Definition list_names : list string := py_sorted id (fst <$> _strategies).

(** [RouteStrategy._not_implemented]: what every message of the other two gets. *)
Definition _not_implemented (strategy : route_strategy) (envelope : ProtocolEnvelope)
    (next_step : string) : PacketProcessingResult :=
  MkResult (pe_protocol_name envelope) true (pe_message_type envelope) None
    [("protocol_family", JStr "route_build"); ("route_strategy", JStr (route_strategy_name strategy));
     ("next_step", JStr next_step)] None.

Definition stub_step (strategy : route_strategy) (message_type : string) : string :=
  "implement_" +:+ (match strategy with
                    | RandomWalkMaxHopRouteStrategy => "random_walk_max_hop"
                    | _ => "onion_like"
                    end) +:+ "_" +:+ lower message_type.

(** ** The handler *)

Section handler.
Context `{FloatText} `{FloatConv} `{Entropy} `{AesGcmSiv} `{OpenSSL} `{KeyGen} `{RouteEnv}.
Context (config : RouteConfig) (fuel : nat).

(** [None] while [ROUTE_CREATE_OK] waits for the DHT. *)
Definition random_walk_handler (message_type : string)
    : option (ProtocolEnvelope -> st Services (option PacketProcessingResult)) :=
  let done (handler : ProtocolEnvelope -> st Services PacketProcessingResult) :=
    Some (fun envelope => result ← handler envelope; mret (Some result)) in
  match message_type with
  | "ROUTE_CREATE" => done (handle_route_create config)
  | "ROUTE_CREATE_KEM_INFO" => done handle_route_create_kem_info
  | "ROUTE_CREATE_VALIDATE_AND_PUBLISH" => done handle_route_create_validate_and_publish
  | "ROUTE_CREATE_OK" => Some (handle_route_create_ok config fuel)
  | "ROUTE_CREATE_FAIL" => done handle_route_create_fail
  | "ROUTE_CREATE_PING" => done handle_route_create_ping
  | "ROUTE_CREATE_PONG" => done (handle_route_create_pong config)
  | _ => None
  end.

Definition _resolve_route_handler (strategy : route_strategy) (message_type : string)
    : option (ProtocolEnvelope -> st Services (option PacketProcessingResult)) :=
  match strategy with
  | RandomWalkTtlRouteStrategy => random_walk_handler message_type
  | _ =>
      match random_walk_handler message_type with
      | Some _ => Some (fun envelope =>
          mret (Some (_not_implemented strategy envelope (stub_step strategy message_type))))
      | None => None
      end
  end.

(** The strategy the payload names, or the refusal. *)
Definition _require_route_strategy (envelope : ProtocolEnvelope)
    : route_strategy + PacketProcessingResult :=
  match truthy_str (py_get (payload_dict (pe_payload envelope)) "route_strategy") with
  | None => inr (_build_invalid_result envelope "missing_route_strategy")
  | Some strategy_name =>
      match require_strategy strategy_name with
      | Ok strategy => inl strategy
      | Raise (ValueError error) =>
          inr (_build_invalid_result envelope ("unsupported_route_strategy:" +:+ error))
      | Raise _ => inr (_build_invalid_result envelope "unsupported_route_strategy:")
      end
  end.

Definition handle (envelope : ProtocolEnvelope) (context : PacketContext)
    : st Services (option PacketProcessingResult) :=
  match _require_route_strategy envelope with
  | inr result => mret (Some result)
  | inl strategy =>
      match pe_message_type envelope ≫= _resolve_route_handler strategy with
      | None => mret (Some (_build_invalid_result envelope
          ("unsupported_route_build_message_type:" +:+ default "None" (pe_message_type envelope))))
      | Some route_handler => route_handler envelope
      end
  end.
End handler.
