(* ===== verification/RouteConstruction.v ===== *)
(** * The construction of a route

    What the protocol of [RandomWalk.v] achieves: the walk ends, and when the
    final node and the initiator have exchanged its messages, both hold an active
    route with the same final path and the same secret. *)

From S2P Require Import Prelude PyJson Sha512 PyTime PyInt PyFloat Crypto JsonText Records Pow DhtService.
From S2P Require Import Transport Reliable Sessions Identity RouteService Core Engine RandomWalk RouteBuild.

(** ** The walk ends *)

Lemma selected_final choice fallback candidates final previous :
  at_least_one fallback ->
  cs_node_id (select_among choice fallback candidates final previous 1) = final.
Proof.
  intros Hf. unfold select_among.
  assert (forall c : candidate, float_lt_int (_build_one_way_rtt_ms c.2) 1 = false) as Hno
    by (intros c; apply at_least_one_not_below; [apply py_max_one|lia]).
  assert (List.filter (eligible_intermediary final previous 1) candidates = []) as ->.
  { induction candidates as [|c l IH]; [done|]. cbn [List.filter]. unfold eligible_intermediary at 1.
    by rewrite Hno, andb_false_r. }
  cbn [length lookup list_lookup]. 
  destruct (List.find _ candidates) as [c|] eqn:Hc.
  { apply find_some in Hc as [_ Hc]. by apply bool_decide_eq_true in Hc. }
  case_bool_decide; [done|]. clear Hc.
  destruct (List.find _ candidates) as [c|] eqn:Hc'.
  { apply find_some in Hc' as [_ Hp]. cbv beta in Hp. rewrite andb_true_iff, Hno in Hp. by destruct Hp. }
  by rewrite at_least_one_not_below.
Qed.

Section walk.
Context `{FloatText} `{FloatConv} `{Entropy} `{AesGcmSiv} `{OpenSSL} `{KeyGen} `{RouteEnv}.

Lemma next_ttl_bound r w t :
  0 < r < 2 ^ 53 -> at_least_one w -> next_ttl r w = Ok t -> 1 <= t <= Z.max 1 (r - 1).
Proof.
  intros Hr Hw Ht. unfold next_ttl in Ht. destruct_res.
  match goal with Hx : py_float_of_int r = Ok ?x, Hi : py_int_of_float _ = Ok ?i |- _ =>
    pose proof (sub_one_bound r x w i Hr Hx Hw Hi) end. lia.
Qed.

(** A chain of nodes that pass a route creation on, each as intermediary, none of
    them to the final node. *)
Inductive wandering : RandomWalkTtlRouteCreate -> nat -> Prop :=
| wandering_end m : wandering m 0
| wandering_step config from session m final (s s' : Services) fw m' n :
    at_least_one (cf_random_walk_previous_hop_fallback_rtt_ms config) ->
    _build_physical_node_id (rc_pk_final_physical_node m) = Ok final ->
    _forward_route_create config from session m s = (Ok fw, s') ->
    fw_next_remote_physical_node_id fw <> final ->
    _parse_route_create (JObj (fw_payload fw)) = Ok m' ->
    wandering m' n -> wandering m (S n).

Lemma forward_progress config from session m final (s s' : Services) fw m' :
  at_least_one (cf_random_walk_previous_hop_fallback_rtt_ms config) ->
  _build_physical_node_id (rc_pk_final_physical_node m) = Ok final ->
  _forward_route_create config from session m s = (Ok fw, s') ->
  _parse_route_create (JObj (fw_payload fw)) = Ok m' ->
  0 < pyint_val (rc_remaining_ttl_ms m) < 2 ^ 53 ->
  0 < pyint_val (rc_remaining_ttl_ms m') /\
  (fw_next_remote_physical_node_id fw <> final ->
   pyint_val (rc_remaining_ttl_ms m') < pyint_val (rc_remaining_ttl_ms m)).
Proof.
  intros Hfb Hfinal Hrun Hparse Hr. unfold _forward_route_create in Hrun. rewrite Hfinal in Hrun.
  erewrite st_bind_run in Hrun by reflexivity. cbv zeta in Hrun.
  erewrite st_bind_run in Hrun by reflexivity.
  set (c := select_among _ _ _ _ _ _) in Hrun. set (r := pyint_val (rc_remaining_ttl_ms m)) in *.
  apply st_bind_Ok in Hrun as (t & s1 & Ht & Hrun).
  unfold lift in Ht. injection Ht as Ht <-.
  apply st_bind_Ok in Hrun as (u & s2 & _ & Hrun). apply st_bind_Ok in Hrun as (row & s3 & _ & Hrun).
  apply st_bind_Ok in Hrun as (p & s4 & Hp & Hrun). unfold lift in Hp. injection Hp as Hp <-.
  injection Hrun as <- <-. cbn [fw_payload fw_next_remote_physical_node_id] in *.
  pose proof (next_ttl_bound r _ t Hr (py_max_one _) Ht) as Hb.
  assert (rc_remaining_ttl_ms m' = PyInt t) as ->.
  { unfold build_initial_route_create in Hp. destruct_res.
    unfold _require_positive_int in *. cbn [json_pyint pyint_val] in *.
    match goal with E : (if _ then _ else _) = Ok _ |- _ =>
      rewrite (proj2 (Z.ltb_lt 0 t)) in E by lia; injection E as <- end.
    unfold _parse_route_create in Hparse. cbv zeta in Hparse. destruct_res.
    match goal with E : _read_required_positive_int _ _ = Ok ?x |- _ =>
      change (_require_positive_int (JInt t) "remaining_ttl_ms" = Ok x) in E;
      unfold _require_positive_int in E; cbn [json_pyint pyint_val] in E;
      rewrite (proj2 (Z.ltb_lt 0 t)) in E by lia; by injection E as <- end. }
  cbn [pyint_val]. split; [lia|]. intros Hne.
  destruct (decide (r = 1)) as [Hr1|Hr1]; [|lia].
  destruct Hne. unfold c. rewrite Hr1. by apply selected_final.
Qed.

End walk.

(** ** Rows of the route table *)

(** A change of a row that keeps the columns it was inserted with. *)
Lemma keep_no_conflict rows r r' :
  table_wf rows -> r ∈ rows -> frozen_columns r' = frozen_columns r ->
  (rr_final_path_id r' = rr_final_path_id r \/
   forall x v, x ∈ rows -> rr_final_path_id r' = Some v -> rr_final_path_id x <> Some v) ->
  no_conflict rows r'.
Proof.
  intros Hwf Hr Hf Hfinal. pose proof (tw_unique _ Hwf) as Hu. unfold no_conflict, unique_columns in *.
  rewrite !Forall_cons in Hu |- *. destruct Hu as (Hu1 & Hu2 & Hu3 & _). cbn [snd] in *.
  injection Hf as Hid _ _ _ Hip Hrp _ _ _ _ _ _. split_and!; [| | |constructor].
  - intros x v Hx Hne Hv Hxv. apply Hne. rewrite Hid. f_equal. rewrite Hip in Hv. by eapply Hu1.
  - intros x v Hx Hne Hv Hxv. apply Hne. rewrite Hid. f_equal. rewrite Hrp in Hv. by eapply Hu2.
  - destruct Hfinal as [Heq|Hfresh]; [|naive_solver].
    intros x v Hx Hne Hv Hxv. apply Hne. rewrite Hid. f_equal. rewrite Heq in Hv. by eapply Hu3.
Qed.

(** The row an update changes is the one found afterwards. *)
Lemma update_latest_found p f rows r :
  (forall rows x y, table_wf rows -> x ∈ rows -> y ∈ rows -> p x = true -> p y = true -> x = y) ->
  good_update p f -> p (f r) = true -> table_wf rows -> select_latest p rows = Some r ->
  (rr_final_path_id (f r) = rr_final_path_id r \/
   forall x v, x ∈ rows -> rr_final_path_id (f r) = Some v -> rr_final_path_id x <> Some v) ->
  exists rows', update_latest p f rows = Ok (Some (f r), rows') /\ table_wf rows' /\
    select_latest p rows' = Some (f r) /\ forall x, x ∈ rows' -> x = f r \/ x ∈ rows.
Proof.
  intros Hinj Hg Hp Hwf Hs Hfinal. pose proof (select_latest_Some _ _ _ Hs) as (Hr & Hpr & _).
  pose proof (gu_frozen _ _ Hg r) as Hf.
  assert (update_latest p f rows = Ok (Some (f r), replace_row (f r) <$> rows)) as Hu.
  { unfold update_latest, update_row. rewrite Hs.
    rewrite (proj2 (check_unique_Ok _ _ tt)) by (by eapply keep_no_conflict). done. }
  pose proof (update_latest_wf _ _ _ _ _ Hg Hwf Hu) as Hwf'.
  eexists. split; [exact Hu|]. split; [done|].
  assert (f r ∈ replace_row (f r) <$> rows) as Hin.
  { apply list_elem_of_fmap. exists r. split; [|done]. unfold replace_row.
    by rewrite bool_decide_true by (symmetry; by apply id_frozen). }
  split; [|intros x [-> |[Hx _]]%elem_of_replaced; auto].
  destruct (select_latest p (replace_row (f r) <$> rows)) as [y|] eqn:Hy.
  - apply select_latest_Some in Hy as (Hyin & Hpy & _). f_equal. by eapply Hinj.
  - apply select_latest_None in Hy. rewrite Forall_forall in Hy. rewrite Hy in Hp; done.
Qed.

Lemma endpoint_inj p rows x y :
  table_wf rows -> x ∈ rows -> y ∈ rows -> endpoint_path p x = true -> endpoint_path p y = true -> x = y.
Proof. intros. by eapply endpoint_path_inj. Qed.

Lemma initiator_inj p rows x y :
  table_wf rows -> x ∈ rows -> y ∈ rows -> initiator_path p x = true -> initiator_path p y = true ->
  x = y.
Proof. intros. by eapply initiator_path_inj. Qed.

(** What a node knows of a route it ends: its row, and no hop that would take the
    messages of the path elsewhere. *)
Record final_end (p : string) (s : Services) (r : RouteResolution) : Prop := {
  fe_wf : table_wf (sv_routes s);
  fe_row : get_endpoint_resolution_by_path_id (sv_routes s) p = Some r;
  fe_local : forall x, x ∈ sv_routes s -> rr_received_path_id x <> Some p;
}.

Record initiator_end (p : string) (s : Services) (r : RouteResolution) : Prop := {
  ie_wf : table_wf (sv_routes s);
  ie_row : get_initiator_resolution_by_initial_path_id (sv_routes s) p = Some r;
  ie_local : forall x, x ∈ sv_routes s -> rr_generated_path_id x <> Some p;
}.

Lemma select_latest_absent (p : RouteResolution -> bool) rows :
  (forall x, x ∈ rows -> p x = false) -> select_latest p rows = None.
Proof. intros Hx. apply select_latest_None, Forall_forall. intros x Hin. by apply Hx. Qed.

Section ends.
Context `{FloatText}.

Lemma no_forward_path rows p :
  (forall x, x ∈ rows -> rr_received_path_id x <> Some p) -> _resolve_forward_path rows (Some p) = None.
Proof.
  intros Hx. unfold _resolve_forward_path, at_path, get_resolution_by_received_path_id.
  rewrite select_latest_absent; [done|]. intros x Hin. unfold received_path, is_str.
  by rewrite bool_decide_false by (by apply Hx).
Qed.

Lemma no_reverse_path rows p :
  (forall x, x ∈ rows -> rr_generated_path_id x <> Some p) -> _resolve_reverse_path rows (Some p) = None.
Proof.
  intros Hx. unfold _resolve_reverse_path, at_path, get_resolution_by_generated_path_id.
  rewrite select_latest_absent; [done|]. intros x Hin. unfold generated_path, is_str.
  by rewrite bool_decide_false by (by apply Hx).
Qed.

(** A change of the row at one end of a route. *)
Lemma update_endpoint_run p f s r :
  final_end p s r -> good_update (endpoint_path p) f -> endpoint_path p (f r) = true ->
  (rr_final_path_id (f r) = rr_final_path_id r \/
   forall x v, x ∈ sv_routes s -> rr_final_path_id (f r) = Some v -> rr_final_path_id x <> Some v) ->
  exists rows, update_endpoint (Some p) f s = (Ok (Some (f r)), s <| sv_routes := rows |>) /\
    final_end p (s <| sv_routes := rows |>) (f r) /\
    forall x, x ∈ rows -> x = f r \/ x ∈ sv_routes s.
Proof.
  intros [Hwf Hrow Hloc] Hg Hp Hfinal.
  destruct (update_latest_found _ f _ r (endpoint_inj p) Hg Hp Hwf Hrow Hfinal)
    as (rows & Hu & Hwf' & Hs & Hin).
  exists rows. split; [|split; [split; cbn|done]].
  - unfold update_endpoint, on_routes, at_path. by rewrite Hu.
  - done.
  - exact Hs.
  - intros x [-> |Hx]%Hin; [|by apply Hloc]. pose proof (gu_frozen _ _ Hg r) as Hf.
    injection Hf as _ _ _ _ _ _ -> _ _ _ _ _. apply Hloc.
    by apply select_latest_Some in Hrow as (? & _).
Qed.

Lemma update_initiator_run p f s r :
  initiator_end p s r -> good_update (initiator_path p) f -> initiator_path p (f r) = true ->
  (rr_final_path_id (f r) = rr_final_path_id r \/
   forall x v, x ∈ sv_routes s -> rr_final_path_id (f r) = Some v -> rr_final_path_id x <> Some v) ->
  exists rows, update_initiator (Some p) f s = (Ok (Some (f r)), s <| sv_routes := rows |>) /\
    initiator_end p (s <| sv_routes := rows |>) (f r) /\
    forall x, x ∈ rows -> x = f r \/ x ∈ sv_routes s.
Proof.
  intros [Hwf Hrow Hloc] Hg Hp Hfinal.
  destruct (update_latest_found _ f _ r (initiator_inj p) Hg Hp Hwf Hrow Hfinal)
    as (rows & Hu & Hwf' & Hs & Hin).
  exists rows. split; [|split; [split; cbn|done]].
  - unfold update_initiator, on_routes, at_path. by rewrite Hu.
  - done.
  - exact Hs.
  - intros x [-> |Hx]%Hin; [|by apply Hloc]. pose proof (gu_frozen _ _ Hg r) as Hf.
    injection Hf as _ _ _ _ _ _ _ -> _ _ _ _. apply Hloc.
    by apply select_latest_Some in Hrow as (? & _).
Qed.
End ends.

(** ** Witnesses *)

#[local] Instance demo_float : FloatText := fun s => s.
#[local] Instance demo_conv : FloatConv := {| float_show := fun _ => "1.0"; float_value := fun _ => float_of_int 1 |}.
#[local] Existing Instance demo_entropy.
#[local] Existing Instance demo_aead.

#[local] Instance demo_route_env : RouteEnv := {|
  monotonic := fun n => float_of_int (Z.of_nat n);
  random_index := fun _ _ => 0%nat;
  random_order := fun _ rows => rows;
  json_error := fun _ => "json";
  dht_query := fun _ _ => mret [];
  dht_publish := fun _ _ => mret [];
  sleep := fun _ => mret tt;
|}.

Definition demo_config : RouteConfig :=
  MkRouteConfig 0 10 1000000000 (float_of_int 1) (float_of_int 15) (float_of_int 1).

Definition demo_create : RandomWalkTtlRouteCreate :=
  MkRouteCreate (Some "pk-f") (PyInt 5) (Some "path-0") (Some (PyInt 0)).

(** A node that knows no other sends the message back to where it came from. *)
Definition demo_node : Services := MkServices new_session_manager [] empty_database ∅ 0 3000 0 [] [].

