(* ===== verification/RouteAgreement.v ===== *)
(** * The agreement of the two ends of a route

    The messages of [RandomWalk.v] between the initiator of a route and its final
    node, each received by the dispatch of [RouteBuild.v]: what each message leaves
    behind, and that both ends have the route active under one final path and one
    secret when the last has arrived. *)

From S2P Require Import Prelude PyJson Sha512 PyTime PyInt PyFloat Crypto JsonText Records Pow DhtService.
From S2P Require Import Transport Reliable Sessions Identity RouteService Core Engine RandomWalk RouteBuild.
From S2P Require Import RouteConstruction.

(** ** Messages between the ends *)

(** A message as it arrives: the nodes on the way put their own name of the path
    into it, and nothing else. *)
Record delivered (ty path : string) (payload : jdict) (envelope : ProtocolEnvelope) : Prop := {
  dl_type : pe_message_type envelope = Some ty;
  dl_path : py_get (payload_dict (pe_payload envelope)) "path_id" = JStr path;
  dl_rest : forall k, k <> "path_id" ->
    py_get (payload_dict (pe_payload envelope)) k = py_get payload k;
}.

(** The answer of a handler that sends a message to a node. *)
Record sends (target ty : string) (payload : jdict) (r : PacketProcessingResult) : Prop := {
  sd_action : py_get (pp_metadata r) "action" = JStr "forward_message";
  sd_target : py_get (pp_metadata r) "target_remote_physical_node_id" = JStr target;
  sd_type : py_get (pp_metadata r) "forward_message_type" = JStr ty;
  sd_payload : py_get (pp_metadata r) "forward_payload" = JObj payload;
}.

Lemma forward_sends envelope target ty payload action extra :
  (forall k, k ∈ ["action"; "target_remote_physical_node_id"; "forward_message_type"; "forward_payload"] ->
     od_get k extra = None) ->
  sends target ty payload
    (_build_forward_result envelope (Some target) None ty payload action extra).
Proof.
  intros Hextra. unfold _build_forward_result.
  assert (forall (e d : jdict) k, od_get k e = None -> od_get k (Relay.dict_merge d e) = od_get k d) as Hm.
  { intros e. induction e as [|[k' v] e IH]; intros d k Hk; [done|]. cbn [Relay.dict_merge foldl fst snd].
    destruct (decide (k' = k)) as [->|Hne]; [by rewrite od_get_cons_eq in Hk|].
    rewrite od_get_cons_ne in Hk by done. unfold Relay.dict_merge in IH. rewrite IH by done.
    by rewrite od_get_set_ne. }
  split; unfold py_get; cbn [pp_metadata]; rewrite Hm by (apply Hextra; set_solver); by od_eval.
Qed.

Section signing.
Context `{OpenSSL}.

Lemma sign_verify_dict payload private_key public_key :
  signature_pair private_key public_key ->
  exists signature, signature <> "" /\
    sign_dict payload private_key = Ok (bytes_to_hex signature) /\
    verify_dict payload (Some (bytes_to_hex signature)) (Some public_key) = Ok true.
Proof.
  intros Hpair. unfold sign_dict, verify_dict, CommonJson.canonical_payload_hex.
  set (text := CommonJson.compact_json_bytes _).
  destruct (Hpair text) as (signature & Hs & Hne & Hv). exists signature. split; [done|].
  unfold dilithium_sign_hex, dilithium_verify_hex, hex_to_bytes, bytes_to_hex. cbn [required mbind res_bind].
  rewrite !fromhex_bytes_hex. cbn [mbind res_bind]. rewrite Hs, Hv. done.
Qed.
End signing.

Section ends.
Context `{FloatText} `{FloatConv} `{EntropyLaws} `{AesGcmSivLaws} `{KemLaws} `{RouteEnv}.
Context (config : RouteConfig) (fuel : nat).

Lemma decrypt_text_of c key aad text :
  aes_decrypt_hex (bytes_to_hex c) key (Some aad) = Ok (bytes_to_hex text) ->
  ascii_text text = true -> aes_decrypt_text (Some (bytes_to_hex c)) key aad = Ok text.
Proof.
  unfold aes_decrypt_hex, aes_decrypt_text. intros Hd Ht. destruct_res.
  match goal with E : bytes_to_hex ?a = bytes_to_hex text |- _ => assert (a = text) as -> end.
  { match goal with E : bytes_to_hex _ = bytes_to_hex _ |- _ => apply (f_equal fromhex) in E;
      unfold bytes_to_hex in E; rewrite !fromhex_bytes_hex in E; by injection E end. }
  cbn [mbind res_bind]. by rewrite ascii_text_decode.
Qed.

(** A dictionary encrypted by one end and decrypted by the other. *)
Lemma encrypt_dict_run (s : Services) (payload : jdict) key aad :
  can_encrypt s key -> dict_wf payload ->
  exists r used c,
    encrypt_text_with (json_dumps (JObj payload)) key aad s
    = (Ok r, s <| sv_used_nonces := used |> <| sv_entropy := S (sv_entropy s) |>) /\
    cr_payload_hex r = bytes_to_hex c /\ c <> "" /\
    aes_decrypt_text (Some (bytes_to_hex c)) key aad = Ok (json_dumps (JObj payload)).
Proof.
  intros Hcan Hwf. unfold encrypt_text_with.
  destruct (encrypt_with_protects s (json_dumps (JObj payload)) key aad Hcan)
    as (r & s' & He & (c & Hc & Hr) & Hd).
  assert (exists used, s' = s <| sv_used_nonces := used |> <| sv_entropy := S (sv_entropy s) |>)
    as [used ->].
  { unfold encrypt_with in He. destruct (aes_encrypt_hex _ _ _ _ _) as [r0 used].
    injection He as _ <-. by exists used. }
  exists r, used, c. split; [done|]. split; [done|]. split; [done|].
  rewrite Hr in Hd. apply (decrypt_text_of _ _ _ _ Hd). by apply json_dumps_ascii.
Qed.

Lemma decrypted_dumps prefix payload :
  dict_wf payload -> decrypted_dict prefix (json_dumps (JObj payload)) = Ok (inl (norm_dict payload)).
Proof. intros Hwf. unfold decrypted_dict. by rewrite json_loads_dumps. Qed.

(** The dispatch of a message of the strategy. *)
Lemma handle_delivered {ty path payload envelope} context s h :
  delivered ty path payload envelope ->
  py_get payload "route_strategy" = JStr strategy_name ->
  random_walk_handler config fuel ty = Some h ->
  handle config fuel envelope context s = h envelope s.
Proof.
  intros [Hty _ Hrest] Hs Hh. unfold handle, _require_route_strategy.
  rewrite Hrest, Hs by done. cbn [truthy_str]. 
  change (require_strategy strategy_name) with (Ok RandomWalkTtlRouteStrategy). cbv beta iota.
  rewrite Hty. unfold _resolve_route_handler. cbn [mbind option_bind]. by rewrite Hh.
Qed.

Lemma handle_done {ty path payload envelope} context s h r s' :
  delivered ty path payload envelope ->
  py_get payload "route_strategy" = JStr strategy_name ->
  random_walk_handler config fuel ty = Some (fun envelope => r ← h envelope; mret (Some r)) ->
  h envelope s = (Ok r, s') -> handle config fuel envelope context s = (Ok (Some r), s').
Proof.
  intros Hd Hs Hh Hr. rewrite (handle_delivered context s _ Hd Hs Hh). by rewrite (st_bind_run _ _ _ _ _ Hr).
Qed.

(** *** ROUTE_CREATE at the final node *)

Lemma pow_of_probe mining public_key ttl path n details :
  find_valid_nonce mining public_key (cf_network_pow_difficulty_bits config) = Some (Ok n) ->
  public_key <> "" ->
  _build_route_pow_details
    (Some (MkRouteCreate (Some public_key) ttl path (Some (PyInt n))))
    (cf_network_pow_difficulty_bits config) = details ->
  rp_is_valid <$> details = Ok true.
Proof.
  intros Hn Hne <-. apply search_sound in Hn as (_ & Hv & _).
  unfold _is_valid_route_pow, pow_probe, _require_non_empty_string in Hv. cbn [truthy_str] in Hv.
  rewrite (proj2 (str_truthy_spec _) Hne) in Hv. revert Hv.
  unfold _build_route_pow_details, _build_route_pow_canonical_payload. cbn [rc_pk_final_physical_node rc_nonce].
  destruct (int_base16 _); cbn [mbind res_bind fmap res_fmap]; [|done]. done.
Qed.

Definition fresh_path (path : string) (rows : route_table) : Prop :=
  forall x, x ∈ rows -> rr_route_path_id x <> Some path /\ rr_received_path_id x <> Some path.

Lemma insert_row_run rows row r :
  r = row <| rr_id := next_id rows |> ->
  check_integer (rr_route_nonce row) = Ok tt -> no_conflict rows r ->
  insert_row rows row = Ok (r, rows ++ [r]).
Proof.
  intros Hr Hi Hc. unfold insert_row. cbv zeta. rewrite <- Hr.
  assert (rr_route_nonce r = rr_route_nonce row) as -> by (by subst r).
  rewrite Hi. cbn [mbind res_bind]. by rewrite (proj2 (check_unique_Ok rows r tt) Hc).
Qed.

Lemma no_conflict_columns rows r :
  rr_initial_path_id r = None -> rr_final_path_id r = None ->
  (forall x v, x ∈ rows -> rr_route_path_id r = Some v -> rr_route_path_id x <> Some v) ->
  no_conflict rows r.
Proof.
  intros Hi Hf Hfresh. unfold no_conflict, unique_columns.
  repeat apply Forall_cons_2; try apply Forall_nil_2; cbn [snd]; intros x v Hx _ Hv; [congruence| |congruence].
  by eapply Hfresh.
Qed.

Lemma create_endpoint_fresh rows previous n path private_key public_key :
  fresh_path path rows -> 0 <= n < 2 ^ 63 ->
  let r := endpoint_row previous strategy_name n path private_key public_key
             <| rr_id := next_id rows |> in
  create_endpoint_resolution rows previous strategy_name n path private_key public_key
  = Ok (r, rows ++ [r]).
Proof.
  intros Hfresh Hn r. unfold create_endpoint_resolution. apply insert_row_run; [reflexivity| |].
  - change (check_integer (Some n) = Ok tt). unfold check_integer.
    rewrite (proj2 (Z.leb_le _ _)), (proj2 (Z.ltb_lt _ _)) by lia. reflexivity.
  - apply no_conflict_columns; [reflexivity|reflexivity|]. intros x v Hx Hv.
    assert (v = path) as -> by (injection Hv; congruence). by apply Hfresh.
Qed.

Lemma created_endpoint_run (s : Services) previous n path key_pair :
  table_wf (sv_routes s) -> fresh_path path (sv_routes s) -> 0 <= n < 2 ^ 63 ->
  exists rows r, create_endpoint previous (Some n) (Some path) key_pair s
    = (Ok r, s <| sv_routes := rows |>) /\
    final_end path (s <| sv_routes := rows |>) r /\
    r = endpoint_row previous strategy_name n path key_pair.1 key_pair.2 <| rr_id := rr_id r |> /\
    (forall x, x ∈ rows -> x = r \/ x ∈ sv_routes s).
Proof.
  intros Hwf Hfresh Hn.
  pose proof (create_endpoint_fresh (sv_routes s) previous n path key_pair.1 key_pair.2 Hfresh Hn) as Hc.
  cbv zeta in Hc. set (row := endpoint_row _ _ _ _ _ _ <| rr_id := _ |>) in Hc.
  assert (rr_received_path_id row = None /\
    row = endpoint_row previous strategy_name n path key_pair.1 key_pair.2 <| rr_id := rr_id row |>)
    as [Hrec Hrow] by (split; reflexivity).
  clearbody row. exists (sv_routes s ++ [row]), row.
  assert (table_wf (sv_routes s ++ [row])) as Hwf'
    by (eapply route_step_wf; [exact Hwf|by eapply Step_create_endpoint]).
  split; [|split; [|split; [exact Hrow|]]].
  - unfold create_endpoint, on_routes. by rewrite Hc.
  - apply created_endpoint in Hc as (Hin & Hp & _). split; [exact Hwf'| |].
    + by apply get_endpoint_unique.
    + intros x [Hx|Hx%list_elem_of_singleton]%elem_of_app; [by apply Hfresh|]. by rewrite Hx, Hrec.
  - intros x [Hx|Hx%list_elem_of_singleton]%elem_of_app; auto.
Qed.

Lemma route_create_run {mining} {s : Services} {path previous n ttl route_path local_node envelope} :
  delivered "ROUTE_CREATE" path
    (route_create_payload (MkRouteCreate (Some (ln_public_key local_node)) ttl route_path
       (Some (PyInt n)))) envelope ->
  path <> "" -> ln_public_key local_node <> "" -> 0 <= n < 2 ^ 63 -> 0 < pyint_val ttl ->
  find_valid_nonce mining (ln_public_key local_node) (cf_network_pow_difficulty_bits config)
    = Some (Ok n) ->
  get_local_physical_node (sv_database s) = Some local_node ->
  signature_pair (ln_private_key_encrypted local_node) (ln_public_key local_node) ->
  _read_sender_physical_node_id envelope s = Some previous ->
  table_wf (sv_routes s) -> fresh_path path (sv_routes s) ->
  let key_pair := kyber_key_pair (sv_entropy s) in
  exists result rows row signature,
    handle_route_create config envelope s
    = (Ok result, s <| sv_entropy := S (sv_entropy s) |> <| sv_routes := rows |>) /\
    sends previous "ROUTE_CREATE_KEM_INFO"
      (kem_info_payload (MkKemInfo (Some key_pair.2) (Some (bytes_to_hex signature))) (Some path))
      result /\
    signature <> "" /\
    verify_dict (kem_offer_text (Some key_pair.2)) (Some (bytes_to_hex signature))
      (Some (ln_public_key local_node)) = Ok true /\
    final_end path (s <| sv_entropy := S (sv_entropy s) |> <| sv_routes := rows |>) row /\
    row = endpoint_row previous strategy_name n path key_pair.1 key_pair.2 <| rr_id := rr_id row |> /\
    (forall x, x ∈ rows -> x = row \/ x ∈ sv_routes s).
Proof.
  intros Hd Hpath Hpk Hn Httl Hpow Hln Hpair Hsender Hwf Hfresh key_pair.
  destruct Hd as [Hty Hp Hrest].
  assert (_parse_route_create (pe_payload envelope) =
    Ok (MkRouteCreate (Some (ln_public_key local_node)) ttl (Some path) (Some (PyInt n)))) as Hparse.
  { unfold _parse_route_create, _read_required_string, _read_required_positive_int,
      _read_required_nonce. cbv zeta. rewrite Hp, !Hrest by done.
    unfold _require_positive_int, py_get, route_create_payload. od_eval.
    cbn [default from_option id rc_remaining_ttl_ms rc_pk_final_physical_node rc_nonce opt_json].
    assert (json_pyint (pyint_json ttl) = Some ttl) as -> by (by destruct ttl).
    rewrite (proj2 (Z.ltb_lt _ _) Httl). cbn [mbind res_bind].
    unfold _require_non_empty_string, _require_non_negative_int. cbn [truthy_str json_pyint pyint_json pyint_val].
    rewrite (proj2 (Z.leb_le 0 n)), !(proj2 (str_truthy_spec _)) by (done || lia). done. }
  unfold handle_route_create.
  erewrite st_bind_run by (unfold lift; rewrite Hparse; reflexivity).
  pose proof (pow_of_probe _ _ ttl (Some path) n _ Hpow Hpk eq_refl) as Hv.
  destruct (_build_route_pow_details _ _) as [details|] eqn:Hdet; [|done].
  apply Ok_inj in Hv. erewrite st_bind_run by (unfold lift; reflexivity).
  rewrite Hv. cbn [negb]. erewrite st_bind_run by reflexivity. rewrite Hln.
  erewrite st_bind_run by reflexivity. rewrite bool_decide_true by done.
  unfold _handle_route_create_as_final_node.
  erewrite st_bind_run by reflexivity. rewrite Hsender.
  erewrite st_bind_run by reflexivity. rewrite Hln.
  erewrite st_bind_run by reflexivity. fold key_pair.
  destruct (sign_verify_dict (kem_offer_text (Some key_pair.2)) _ _ Hpair) as (signature & Hne & Hsign & Hver).
  erewrite st_bind_run by (unfold lift, _sign_route_kem_public_key_offer; rewrite Hsign; reflexivity).
  pose proof (created_endpoint_run (s <| sv_entropy := S (sv_entropy s) |>) previous n path key_pair)
    as (rows & row & Hrun & Hend & Hrow & Hin); [exact Hwf|exact Hfresh|exact Hn|].
  cbn [fmap option_fmap option_map rc_nonce rc_path_id pyint_val].
  rewrite (st_bind_run _ _ _ _ _ Hrun).
  eexists _, rows, row, signature. split; [reflexivity|]. split; [by apply forward_sends|]. done.
Qed.

(** *** ROUTE_CREATE_KEM_INFO at the initiator *)

(** The row of a route that was started to reach a node from a virtual node. *)
Record started (node : LocalVirtualNodeIdentity) (public_key hop : string) (n ttl : Z)
    (r : RouteResolution) : Prop := {
  st_key : rr_final_physical_node_public_key r = Some public_key;
  st_node : rr_local_virtual_node_id r = Some (lv_id node);
  st_hop : rr_first_hop_physical_node_id r = Some hop;
  st_strategy : rr_route_strategy r = Some strategy_name;
  st_nonce : rr_route_nonce r = Some n;
  st_ttl : py_get (CommonJson.load_json_object (rr_metadata_json r)) "expected_round_trip_ttl_ms"
           = JInt ttl;
}.

(** A virtual node of the local node, with an id that is the hash of its key. *)
Record own_node (db : Database) (node : LocalVirtualNodeIdentity) : Prop := {
  on_found : get_local_virtual_node_by_id db (lv_id node) = Some node;
  on_id : lv_id node = sha512_hex (lv_public_key node);
  on_key : ascii_text (lv_public_key node) = true /\ lv_public_key node <> "";
  on_pair : signature_pair (lv_private_key_encrypted node) (lv_public_key node);
}.

(** What the initiator encrypts for the final node. *)
Definition validation_request (node : LocalVirtualNodeIdentity) (final_path_id public_key : string)
    (ttl : Z) (signature : string) : jdict :=
  [("virtual_node_id", JStr (lv_id node)); ("virtual_node_public_key", JStr (lv_public_key node));
   ("final_path_id", JStr final_path_id); ("final_physical_node_id", JStr (sha512_hex public_key));
   ("expected_round_trip_ttl_ms", JInt ttl); ("virtual_node_signature", JStr signature)].

Lemma hex_string_unicode b : unicode (bytes_to_hex b).
Proof. apply ascii_unicode, hex_text_ascii. Qed.

Lemma validation_request_wf node final_path_id public_key ttl b :
  unicode (lv_id node) -> ascii_text (lv_public_key node) = true -> ascii_text final_path_id = true ->
  dict_wf (validation_request node final_path_id public_key ttl (bytes_to_hex b)).
Proof.
  intros Hi Hk%ascii_unicode Hf%ascii_unicode. pose proof (sha512_unicode public_key).
  pose proof (hex_string_unicode b). unfold validation_request. json_wf_tac.
Qed.

Lemma initiator_payload_good p vid fp vs ss : good_update (initiator_path p) (set_initiator_payload vid fp vs ss).
Proof. unfold initiator_path, set_initiator_payload. good_update_tac. Qed.

Definition plenty_of_nonces (s : Services) : Prop :=
  forall key k, nonce_left (sv_used_nonces s) key (urandom_nonces k).

Definition unused_final_path (rows : route_table) (path : string) : Prop :=
  forall x, x ∈ rows -> rr_final_path_id x <> Some path.

Lemma read_nonempty payload k v :
  py_get payload k = JStr v -> v <> "" -> _read_required_string payload k = Some v.
Proof.
  intros Hp Hv. unfold _read_required_string, _require_non_empty_string. rewrite Hp. cbn [truthy_str].
  by rewrite (proj2 (str_truthy_spec _) Hv).
Qed.

Lemma delivered_string {ty path payload envelope} k v :
  delivered ty path payload envelope -> k <> "path_id" -> py_get payload k = JStr v -> v <> "" ->
  _read_required_string (payload_dict (pe_payload envelope)) k = Some v.
Proof. intros [_ _ Hr] Hk Hp Hv. apply read_nonempty; [|done]. by rewrite Hr. Qed.

Lemma delivered_path {ty path payload envelope} :
  delivered ty path payload envelope -> path <> "" ->
  _read_required_string (payload_dict (pe_payload envelope)) "path_id" = Some path.
Proof. intros [_ Hp _] Hv. by apply read_nonempty. Qed.

(** A field read from a dictionary that was printed and parsed. *)
Lemma normed_string d k v :
  dict_wf d -> py_get d k = JStr v -> v <> "" -> _read_required_string (norm_dict d) k = Some v.
Proof.
  intros Hd Hg Hv. apply read_nonempty; [|done]. unfold py_get in *.
  rewrite norm_dict_get by (by apply dict_wf_od). by destruct (od_get k d) as [[]|]; simplify_eq/=.
Qed.

Lemma hex_nonempty b : b <> "" -> bytes_to_hex b <> "".
Proof. intros Hb. by apply str_truthy_spec, hex_text_truthy. Qed.

Lemma kem_info_run {s : Services} {path signature k public_key node hop n ttl r p' envelope} :
  delivered "ROUTE_CREATE_KEM_INFO" path
    (kem_info_payload (MkKemInfo (Some (kyber_key_pair k).2) (Some (bytes_to_hex signature))) p') envelope ->
  path <> "" -> signature <> "" ->
  verify_dict (kem_offer_text (Some (kyber_key_pair k).2)) (Some (bytes_to_hex signature))
    (Some public_key) = Ok true ->
  initiator_end path s r -> started node public_key hop n ttl r -> 0 < ttl ->
  own_node (sv_database s) node -> plenty_of_nonces s ->
  let final_path := uuid4 (sv_entropy s) in
  ascii_text final_path = true -> unused_final_path (sv_routes s) final_path ->
  exists result rows used ciphertext c secret vs,
    handle_route_create_kem_info envelope s
    = (Ok result, s <| sv_routes := rows |> <| sv_used_nonces := used |>
                    <| sv_entropy := S (S (sv_entropy s)) |>) /\
    sends hop "ROUTE_CREATE_VALIDATE_AND_PUBLISH"
      (validate_payload (MkValidate (Some path) (Some (bytes_to_hex ciphertext))
         (Some (bytes_to_hex c))) (Some path)) result /\
    ciphertext <> "" /\ c <> "" /\ vs <> "" /\
    openssl_decap ciphertext (kyber_key_pair k).1 = Ok secret /\
    String.length secret = AES_KEY_SIZE /\
    _sign_final_path_id final_path (sha512_hex public_key) (lv_private_key_encrypted node)
      = Ok (bytes_to_hex vs) /\
    verify_dict (final_path_text (Some final_path) (Some (sha512_hex public_key)))
      (Some (bytes_to_hex vs)) (Some (lv_public_key node)) = Ok true /\
    aes_decrypt_text (Some (bytes_to_hex c)) (bytes_to_hex secret)
      (_build_route_encrypted_payload_aad "ROUTE_CREATE_VALIDATE_AND_PUBLISH")
    = Ok (json_dumps (JObj (validation_request node final_path public_key ttl (bytes_to_hex vs)))) /\
    initiator_end path (s <| sv_routes := rows |>)
      (set_initiator_payload (lv_id node) final_path (bytes_to_hex vs) (bytes_to_hex secret) r).
Proof.
  intros Hd Hpath Hsig Hver Hend Hst Httl Hnode Hnonces final_path Hascii Hfresh.
  pose proof (kem_pem k) as (Hpem & _ & Hpemne).
  unfold handle_route_create_kem_info, _read_route_path_id, _parse_route_create_kem_info. cbv zeta.
  rewrite (delivered_path Hd Hpath), (delivered_string "kyber_public_key_pem" _ Hd), 
    (delivered_string "physical_node_signature" _ Hd) by
    first [done | reflexivity | exact Hpemne | by apply hex_nonempty].
  erewrite st_bind_run by reflexivity.
  rewrite no_reverse_path by apply Hend.
  unfold _handle_local_route_create_kem_info. erewrite st_bind_run by reflexivity.
  change (initiator_at (sv_routes s) (Some path))
    with (get_initiator_resolution_by_initial_path_id (sv_routes s) path).
  rewrite (ie_row _ _ _ Hend), (st_key _ _ _ _ _ _ Hst).
  cbn [ki_kyber_public_key_pem ki_physical_node_signature].
  erewrite st_bind_run by (unfold lift, _is_valid_route_kem_public_key_offer_signature; rewrite Hver; reflexivity).
  cbn [negb]. erewrite st_bind_run by reflexivity. rewrite (st_node _ _ _ _ _ _ Hst).
  assert (_select_route_local_virtual_node (sv_database s) (Some (lv_id node)) = Some node) as ->.
  { unfold _select_route_local_virtual_node. cbn [nonempty_column].
    assert (str_truthy (lv_id node) = true) as ->
      by (rewrite (on_id _ _ Hnode); apply sha512_hexdigest_truthy). apply Hnode. }
  erewrite st_bind_run by reflexivity. fold final_path.
  erewrite st_bind_run by reflexivity. cbv zeta. rewrite (st_ttl _ _ _ _ _ _ Hst).
  cbn [json_pyint pyint_val]. rewrite (proj2 (Z.leb_gt ttl 0) Httl).
  destruct (sign_verify_dict (final_path_text (Some final_path) (Some (sha512_hex public_key))) _ _
    (on_pair _ _ Hnode)) as (vs & Hvs & Hsign & Hvver).
  erewrite st_bind_run by (unfold lift, _sign_final_path_id; rewrite Hsign; reflexivity).
  erewrite st_bind_run by reflexivity.
  destruct (kem_correct k) as (ciphertext & secret & Henc & Hdec & Hct & Hlen).
  erewrite st_bind_run by (unfold lift, kyber_encapsulate_hex; rewrite Henc; reflexivity).
  cbn [shared_secret_hex ciphertext_hex].
  set (f := set_initiator_payload (lv_id node) final_path (bytes_to_hex vs) (bytes_to_hex secret)).
  assert (initiator_path path (f r) = true /\ rr_final_path_id (f r) = Some final_path) as [Hp Hfp].
  { pose proof (select_latest_Some _ _ _ (ie_row _ _ _ Hend)) as (_ & Hp & _).
    split; [|reflexivity]. rewrite <- Hp. reflexivity. }
  set (s1 := s <| sv_entropy := S (sv_entropy s) |>).
  destruct (update_initiator_run path f s1 r) as (rows & Hrun & Hend' & _);
    [by destruct Hend|apply initiator_payload_good|exact Hp| |].
  { right. intros x v Hx Hv. rewrite Hfp in Hv. injection Hv as <-. by apply Hfresh. }
  rewrite (st_bind_run _ _ _ _ _ Hrun).
  set (s2 := s1 <| sv_routes := rows |>).
  destruct (encrypt_dict_run s2 (validation_request node final_path public_key ttl (bytes_to_hex vs))
    (bytes_to_hex secret) (_build_route_encrypted_payload_aad "ROUTE_CREATE_VALIDATE_AND_PUBLISH"))
    as (r' & used & c & Hrun' & Hr' & Hc & Hdecr).
  { split; [by exists secret|]. apply Hnonces. }
  { apply validation_request_wf; [rewrite (on_id _ _ Hnode); apply sha512_unicode|apply Hnode|done]. }
  unfold validation_request in Hrun'. erewrite st_bind_run by exact Hrun'.
  rewrite (st_hop _ _ _ _ _ _ Hst), Hr'.
  exists (_build_forward_result envelope (Some hop) None "ROUTE_CREATE_VALIDATE_AND_PUBLISH"
    (validate_payload (MkValidate (Some path) (Some (bytes_to_hex ciphertext)) (Some (bytes_to_hex c)))
       (Some path)) "send_route_create_validate_and_publish" []).
  exists rows, used, ciphertext, c, secret, vs.
  split; [reflexivity|]. split; [by apply forward_sends|]. do 5 (split; [done|]).
  split; [exact Hsign|]. split; [exact Hvver|]. split; [exact Hdecr|]. by destruct Hend'.
Qed.

(** *** ROUTE_CREATE_VALIDATE_AND_PUBLISH at the final node *)

Definition reading (k : nat) : spec_float := float_mul (monotonic k) (float_of_int 1000).

Lemma validation_context_good p ss fp vpk vs ps acc vid ttl ping at_ :
  good_update (endpoint_path p)
    (fun r => set_validation_context ss fp vpk vs ps acc vid ttl ping at_ r <| rr_final_path_id := Some fp |>).
Proof. unfold endpoint_path, set_validation_context. good_update_tac. Qed.

Lemma context_final ss fp vpk vs ps acc vid ttl ping at_ r :
  set_validation_context ss fp vpk vs ps acc vid ttl ping at_ r <| rr_final_path_id := Some fp |>
  = set_validation_context ss fp vpk vs ps acc vid ttl ping at_ r.
Proof.
  unfold set_validation_context. cbv zeta. generalize (_load_metadata (rr_metadata_json r)). intros m.
  match goal with |- context [_dump_metadata ?d] => generalize (_dump_metadata d) end. reflexivity.
Qed.

Lemma accept_run {s : Services} {envelope path previous n ttl node local_node fp vs secret r} :
  final_end path s r ->
  rr_previous_physical_node_id r = Some previous -> rr_route_strategy r = Some strategy_name ->
  rr_route_nonce r = Some n ->
  signature_pair (ln_private_key_encrypted local_node) (ln_public_key local_node) ->
  unused_final_path (sv_routes s) fp ->
  let ping := uuid4 (sv_entropy s) in
  exists result rows ps acc,
    accept_validation envelope (Some path) r local_node secret (sha512_hex (lv_public_key node))
      (Some fp) (lv_public_key node) vs (PyInt ttl) s
    = (Ok result, s <| sv_routes := rows |> <| sv_entropy := S (S (sv_entropy s)) |>) /\
    sends previous "ROUTE_CREATE_PING" (ping_pong_payload (MkPingPong (Some path) (Some ping)) (Some path))
      result /\
    ps <> "" /\ acc <> "" /\
    _sign_route_entry_point_acceptance (Some (sha512_hex (lv_public_key node))) (Some fp) (Some vs)
      (ln_private_key_encrypted local_node) = Ok (bytes_to_hex ps) /\
    verify_dict (acceptance_text (Some (sha512_hex (lv_public_key node))) (Some fp) (Some vs))
      (Some (bytes_to_hex ps)) (Some (ln_public_key local_node)) = Ok true /\
    verify_dict (public_acceptance_text (Some strategy_name) (Some (ln_public_key local_node)) (Some n))
      (Some (bytes_to_hex acc)) (Some (ln_public_key local_node)) = Ok true /\
    final_end path (s <| sv_routes := rows |>)
      (set_validation_context secret fp (lv_public_key node) vs (bytes_to_hex ps) (bytes_to_hex acc)
         (sha512_hex (lv_public_key node)) (PyInt ttl) ping (float_show (reading (S (sv_entropy s)))) r).
Proof.
  intros Hend Hprev Hstrat Hnonce Hpair Hfresh ping. unfold accept_validation.
  destruct (sign_verify_dict (acceptance_text (Some (sha512_hex (lv_public_key node))) (Some fp)
    (Some vs)) _ _ Hpair) as (ps & Hps & Hsign & Hver).
  erewrite st_bind_run by (unfold lift, _sign_route_entry_point_acceptance; rewrite Hsign; reflexivity).
  rewrite Hstrat, Hnonce.
  destruct (sign_verify_dict (public_acceptance_text (Some strategy_name)
    (Some (ln_public_key local_node)) (Some n)) _ _ Hpair) as (acc & Hacc & Hsign' & Hver').
  erewrite st_bind_run by (unfold lift, _sign_public_route_acceptance; rewrite Hsign'; reflexivity).
  erewrite st_bind_run by reflexivity. fold ping. erewrite st_bind_run by reflexivity.
  cbv zeta. cbn [default from_option id].
  match goal with |- context [update_endpoint (Some path) ?g ≫= _] => set (f := g) end.
  assert (endpoint_path path (f r) = true /\ rr_final_path_id (f r) = Some fp) as [Hp Hfp].
  { pose proof (select_latest_Some _ _ _ (fe_row _ _ _ Hend)) as (_ & Hp & _).
    split; [|reflexivity]. rewrite <- Hp. reflexivity. }
  match goal with |- context [(update_endpoint _ f ≫= _) ?s0] => set (s1 := s0) end.
  destruct (update_endpoint_run path f s1 r) as (rows & Hrun & Hend' & _);
    [by destruct Hend|apply validation_context_good|exact Hp| |].
  { right. intros x v Hx Hv. rewrite Hfp in Hv. injection Hv as <-. by apply Hfresh. }
  rewrite (st_bind_run _ _ _ _ _ Hrun), Hprev.
  eexists _, rows, ps, acc. split; [reflexivity|]. split; [by apply forward_sends|].
  do 2 (split; [done|]). split; [exact Hsign|]. do 2 (split; [done|]).
  unfold f in Hend'. rewrite context_final in Hend'. by destruct Hend'.
Qed.

Lemma validate_run {s : Services} {path p' k ttl node local_node fp vs ciphertext c secret r
    envelope} :
  delivered "ROUTE_CREATE_VALIDATE_AND_PUBLISH" path
    (validate_payload (MkValidate p' (Some (bytes_to_hex ciphertext)) (Some (bytes_to_hex c))) p')
    envelope ->
  path <> "" -> ciphertext <> "" -> c <> "" -> vs <> "" -> fp <> "" -> 0 < ttl ->
  final_end path s r ->
  rr_kyber_private_key_pem r = Some (kyber_key_pair k).1 ->
  openssl_decap ciphertext (kyber_key_pair k).1 = Ok secret ->
  get_local_physical_node (sv_database s) = Some local_node ->
  lv_id node = sha512_hex (lv_public_key node) ->
  ascii_text (lv_public_key node) = true /\ lv_public_key node <> "" -> ascii_text fp = true ->
  verify_dict (final_path_text (Some fp) (Some (sha512_hex (ln_public_key local_node))))
    (Some (bytes_to_hex vs)) (Some (lv_public_key node)) = Ok true ->
  aes_decrypt_text (Some (bytes_to_hex c)) (bytes_to_hex secret)
    (_build_route_encrypted_payload_aad "ROUTE_CREATE_VALIDATE_AND_PUBLISH")
  = Ok (json_dumps (JObj (validation_request node fp (ln_public_key local_node) ttl (bytes_to_hex vs)))) ->
  handle_route_create_validate_and_publish envelope s
  = accept_validation envelope (Some path) r local_node (bytes_to_hex secret)
      (sha512_hex (lv_public_key node)) (Some fp) (lv_public_key node) (bytes_to_hex vs) (PyInt ttl) s.
Proof.
  intros Hd Hpath Hct Hc Hvs Hfp Httl Hend Hkey Hdec Hln Hid [Hka Hkne] Hfa Hver Haes.
  unfold handle_route_create_validate_and_publish, _parse_route_create_validate_and_publish. cbv zeta.
  rewrite (delivered_path Hd Hpath), (delivered_string "kem_ciphertext_hex" _ Hd),
    (delivered_string "encrypted_payload_hex" _ Hd) by
    first [done | reflexivity | by apply hex_nonempty].
  erewrite st_bind_run by reflexivity. cbn [vp_path_id].
  rewrite no_forward_path by apply Hend.
  unfold _handle_local_route_create_validate_and_publish. cbv zeta. erewrite st_bind_run by reflexivity.
  cbn [vp_path_id vp_kem_ciphertext_hex vp_encrypted_payload_hex].
  change (endpoint_at (sv_routes s) (Some path))
    with (get_endpoint_resolution_by_path_id (sv_routes s) path).
  rewrite (fe_row _ _ _ Hend), Hkey. erewrite st_bind_run by reflexivity.
  erewrite st_bind_run by reflexivity.
  erewrite st_bind_run by (unfold lift, kyber_decapsulate_hex, hex_to_bytes, bytes_to_hex;
    rewrite fromhex_bytes_hex; cbn [mbind res_bind]; rewrite Hdec; reflexivity).
  erewrite st_bind_run by (unfold lift; fold (bytes_to_hex secret); rewrite Haes; reflexivity).
  pose proof (validation_request_wf node fp (ln_public_key local_node) ttl vs) as Hwf.
  specialize (Hwf ltac:(rewrite Hid; apply sha512_unicode) Hka Hfa).
  erewrite st_bind_run by (unfold lift; rewrite decrypted_dumps by exact Hwf; reflexivity).
  pose proof (normed_string (validation_request node fp (ln_public_key local_node) ttl
    (bytes_to_hex vs))) as Hread.
  cbv beta iota zeta. rewrite (Hread "final_path_id" fp), (Hread "virtual_node_public_key" (lv_public_key node)),
    (Hread "virtual_node_id" (lv_id node)),
    (Hread "final_physical_node_id" (sha512_hex (ln_public_key local_node))),
    (Hread "virtual_node_signature" (bytes_to_hex vs)) by
    first [exact Hwf | reflexivity | done | by apply hex_nonempty
          | rewrite ?Hid; apply str_truthy_spec, sha512_hexdigest_truthy].
  assert (_read_required_positive_int (norm_dict (validation_request node fp
    (ln_public_key local_node) ttl (bytes_to_hex vs))) "expected_round_trip_ttl_ms" = Ok (PyInt ttl)) as Hexp.
  { unfold _read_required_positive_int, _require_positive_int, py_get.
    rewrite norm_dict_get by (by apply dict_wf_od). unfold validation_request. od_eval.
    cbn [fmap option_fmap option_map json_norm default from_option id json_pyint pyint_val].
    by rewrite (proj2 (Z.ltb_lt 0 ttl) Httl). }
  erewrite st_bind_run by (unfold lift; rewrite Hexp; reflexivity).
  erewrite st_bind_run by reflexivity.
  rewrite bool_decide_false by (rewrite Hid; intros Hne; by apply Hne).
  erewrite st_bind_run by reflexivity. rewrite Hln.
  rewrite bool_decide_false by (intros Hne; by apply Hne).
  erewrite st_bind_run by (unfold lift, _is_valid_virtual_node_route_signature; rewrite Hver; reflexivity).
  erewrite st_bind_run by reflexivity. reflexivity.
Qed.

(** *** ROUTE_CREATE_PING at the initiator *)

Lemma ping_run {s : Services} {path p' ping hop r envelope} :
  delivered "ROUTE_CREATE_PING" path (ping_pong_payload (MkPingPong p' (Some ping)) p') envelope ->
  path <> "" -> ping <> "" -> hop <> "" ->
  initiator_end path s r -> rr_first_hop_physical_node_id r = Some hop ->
  exists result, handle_route_create_ping envelope s = (Ok result, s) /\
    sends hop "ROUTE_CREATE_PONG" (ping_pong_payload (MkPingPong (Some path) (Some ping)) (Some path)) result.
Proof.
  intros Hd Hpath Hping Hhop Hend Hr. unfold handle_route_create_ping, _parse_ping_pong. cbv zeta.
  rewrite (delivered_path Hd Hpath), (delivered_string "ping_id" _ Hd) by first [done | reflexivity].
  erewrite st_bind_run by reflexivity. cbn [pi_path_id]. rewrite no_reverse_path by apply Hend.
  unfold _handle_local_route_create_ping. erewrite st_bind_run by reflexivity. cbn [pi_path_id].
  change (initiator_at (sv_routes s) (Some path))
    with (get_initiator_resolution_by_initial_path_id (sv_routes s) path).
  rewrite (ie_row _ _ _ Hend). cbn [mbind option_bind]. rewrite Hr. cbn [nonempty_column].
  rewrite (proj2 (str_truthy_spec _) Hhop). eexists. split; [reflexivity|]. by apply forward_sends.
Qed.

(** *** ROUTE_CREATE_PONG at the final node *)

(** The row of a route whose initiator was accepted. *)
Record validated (previous secret acc vid vpk : string) (ttl : Z) (ping at_ vs ps fp : string)
    (r : RouteResolution) : Prop := {
  va_columns : published_columns r
    = (_dump_metadata (context_metadata vid vpk ttl ping at_), Some vs, Some ps, Some fp);
  va_secret : rr_shared_secret_hex r = Some secret;
  va_acceptance : rr_public_route_acceptance_signature r = Some acc;
  va_previous : rr_previous_physical_node_id r = Some previous;
}.

(** The DHT accepts what is published, and leaves the routes alone. *)
Definition dht_stores : Prop :=
  forall req info (s : Services), exists result s',
    dht_publish req info s = (Ok result, s') /\ py_get result "status" = JStr "stored" /\
    sv_routes s' = sv_routes s /\ (plenty_of_nonces s -> plenty_of_nonces s').

(** The record the final node publishes for its route at a time. *)
Definition route_record (now : instant) (local_node : LocalPhysicalNodeIdentity)
    (vpk vs ps fp rsig : string) (rounded : Z) : string :=
  serialize_record (published_record (ln_public_key local_node) vs ps fp vpk rsig
    (_build_drt_entry_expires_at now) rounded now).

Lemma set_active_good p : good_update (endpoint_path p) set_active.
Proof. unfold endpoint_path, set_active. good_update_tac. Qed.

Definition ok_dict (vid fp vs ps : string) : jdict :=
  [("virtual_node_id", JStr vid); ("final_path_id", JStr fp); ("virtual_node_signature", JStr vs);
   ("physical_node_signature", JStr ps)].

Lemma finish_run {s : Services} {envelope path previous secret acc vid vpk ttl ping at_ vs ps fp r
    local_node} expected observed rounded :
  dht_stores -> plenty_of_nonces s -> hex_of AES_KEY_SIZE secret ->
  final_end path s r -> validated previous secret acc vid vpk ttl ping at_ vs ps fp r ->
  get_local_physical_node (sv_database s) = Some local_node ->
  signature_pair (ln_private_key_encrypted local_node) (ln_public_key local_node) ->
  texts [vid; vpk; fp; vs; ps] -> unicode ping -> float_text at_ ->
  exists result s' c rsig,
    finish_route envelope (Some path) secret vid expected observed rounded s = (Ok result, s') /\
    sends previous "ROUTE_CREATE_OK"
      (route_ok_payload (MkRouteOk (Some path) (Some (bytes_to_hex c)) (Some acc)) (Some path)) result /\
    c <> "" /\
    aes_decrypt_text (Some (bytes_to_hex c)) secret
      (_build_route_encrypted_payload_aad "ROUTE_CREATE_OK") = Ok (json_dumps (JObj (ok_dict vid fp vs ps))) /\
    final_end path s' (set_active r) /\
    drt_publish_request_of (sv_now s) (ln_public_key local_node) (bytes_to_hex rsig) rounded
      (_build_drt_entry_expires_at (sv_now s)) (set_active r)
    = Some (MkPublishRequest "drt" vid
        (route_record (sv_now s) local_node vpk vs ps fp (bytes_to_hex rsig) rounded)
        (_build_drt_entry_expires_at (sv_now s))) /\
    _sign_drt_route_rtt (ln_public_key local_node) (_build_drt_entry_expires_at (sv_now s)) rounded
      (ln_private_key_encrypted local_node) = Ok (bytes_to_hex rsig) /\ rsig <> "".
Proof.
  intros Hdht Hnonces Hkey Hend Hva Hln Hpair Ht Hping Hat. unfold finish_route.
  pose proof (select_latest_Some _ _ _ (fe_row _ _ _ Hend)) as (_ & Hp & _).
  destruct (update_endpoint_run path set_active s r Hend (set_active_good path)) as (rows & Hrun & Hend' & _);
    [by rewrite active_path|by left; destruct r|].
  rewrite (st_bind_run _ _ _ _ _ Hrun).
  erewrite st_bind_run by reflexivity. change (sv_database (s <| sv_routes := rows |>)) with (sv_database s).
  rewrite Hln. cbv zeta. erewrite st_bind_run by reflexivity.
  change (sv_now (s <| sv_routes := rows |>)) with (sv_now s).
  destruct (sign_verify_dict (drt_rtt_text (ln_public_key local_node)
    (_build_drt_entry_expires_at (sv_now s)) rounded) _ _ Hpair) as (rsig & Hrs & Hsign & _).
  change (_sign_drt_route_rtt (ln_public_key local_node) (_build_drt_entry_expires_at (sv_now s)) rounded
    (ln_private_key_encrypted local_node) = Ok (bytes_to_hex rsig)) in Hsign.
  erewrite st_bind_run by (unfold lift; rewrite Hsign; reflexivity).
  erewrite st_bind_run by reflexivity. cbn [sv_routes].
  change (endpoint_at (sv_routes (s <| sv_routes := rows |>)) (Some path))
    with (get_endpoint_resolution_by_path_id (sv_routes (s <| sv_routes := rows |>)) path).
  rewrite (fe_row _ _ _ Hend'). cbn [mbind option_bind].
  pose proof (publish_request_run (set_active r) vid vpk ttl ping at_ vs ps fp (ln_public_key local_node)
    (bytes_to_hex rsig) rounded (_build_drt_entry_expires_at (sv_now s)) (sv_now s)) as Hreq.
  rewrite active_columns in Hreq. specialize (Hreq (va_columns _ _ _ _ _ _ _ _ _ _ _ _ Hva) Ht Hping Hat).
  rewrite Hreq. cbn [pr_namespace pr_logical_key]. text_hyps.
  assert (exists key, build_key "drt" vid = Ok key) as [key Hbk].
  { unfold build_key. rewrite (proj2 (str_truthy_spec vid)) by done. by eexists. }
  erewrite st_bind_run by (unfold lift; rewrite Hbk; reflexivity).
  set (s1 := s <| sv_routes := rows |>) in *.
  match goal with |- context [_publish_drt_route_after_pong ?req key ?p ?f vid] =>
    assert (exists result s', _publish_drt_route_after_pong req key p f vid s1 = (Ok (Some result), s') /\
      py_get result "status" = JStr "stored" /\ sv_routes s' = rows /\ plenty_of_nonces s')
      as (result & s2 & Hpub & Hstored & Hrows & Hnonces2) end.
  { unfold _publish_drt_route_after_pong, catch_exn.
    match goal with |- context [dht_publish ?req ?info] =>
      destruct (Hdht req info s1) as (result & s' & Hpub & Hst & Hr & Hn) end.
    exists result, s'. rewrite (st_bind_run _ _ _ _ _ Hpub). split; [reflexivity|].
    split; [done|]. split; [exact Hr|]. apply Hn. exact Hnonces. }
  rewrite (st_bind_run _ _ _ _ _ Hpub), Hstored, bool_decide_true by done. cbn [negb].
  assert (rr_final_path_id (set_active r) = Some fp /\ rr_virtual_node_signature (set_active r) = Some vs /\
    rr_physical_node_signature (set_active r) = Some ps) as (Hfp & Hvs & Hps).
  { pose proof (va_columns _ _ _ _ _ _ _ _ _ _ _ _ Hva) as (_ & Hvs & Hps & Hfp)%published_columns_eq.
    by destruct r. }
  assert (rr_public_route_acceptance_signature (set_active r) = Some acc /\
    rr_previous_physical_node_id (set_active r) = Some previous) as [Hacc Hprev].
  { destruct Hva as [_ _ Hacc Hprev]. by destruct r. }
  rewrite Hfp, Hvs, Hps, Hacc, Hprev.
  destruct (encrypt_dict_run s2 (ok_dict vid fp vs ps) secret
    (_build_route_encrypted_payload_aad "ROUTE_CREATE_OK")) as (cr & used & c & Henc & Hc & Hcne & Hdec).
  { split; [done|]. apply Hnonces2. }
  { unfold ok_dict. json_wf_tac. }
  unfold ok_dict in Henc. erewrite st_bind_run by exact Henc. rewrite Hc.
  eexists _, _, c, rsig. split; [reflexivity|].
  split; [apply forward_sends; intros k Hk; rewrite !elem_of_cons, elem_of_nil in Hk;
    by destruct_or! Hk; subst|].
  split; [done|]. split; [exact Hdec|]. split; [|done]. destruct Hend' as [Hw Hg Hl].
  unfold s1 in Hw, Hg, Hl. split; cbn [sv_routes] in *.
  - change (table_wf (sv_routes s2)). by rewrite Hrows.
  - change (get_endpoint_resolution_by_path_id (sv_routes s2) path = Some (set_active r)). by rewrite Hrows.
  - change (forall x, x ∈ sv_routes s2 -> rr_received_path_id x <> Some path). by rewrite Hrows.
Qed.

Lemma pong_run {s : Services} {envelope path p' previous secret acc vid vpk ttl ping at_ vs ps fp r}
    rounded :
  delivered "ROUTE_CREATE_PONG" path (ping_pong_payload (MkPingPong p' (Some ping)) p') envelope ->
  path <> "" -> ping <> "" -> hex_of AES_KEY_SIZE secret ->
  final_end path s r -> validated previous secret acc vid vpk ttl ping at_ vs ps fp r ->
  texts [vid; vpk; fp; vs; ps] -> unicode ping -> float_text at_ ->
  let observed := float_sub (reading (sv_entropy s)) (float_value at_) in
  check_round_trip config observed (NInt ttl) = Ok (Some rounded) ->
  handle_route_create_pong config envelope s
  = finish_route envelope (Some path) secret vid (JInt ttl) observed rounded
      (s <| sv_entropy := S (sv_entropy s) |>).
Proof.
  intros Hd Hpath Hpingne Hkey Hend Hva Ht Hping Hat observed Hcheck.
  unfold handle_route_create_pong, _parse_ping_pong. cbv zeta.
  rewrite (delivered_path Hd Hpath), (delivered_string "ping_id" _ Hd) by first [done | reflexivity].
  erewrite st_bind_run by reflexivity. cbn [pi_path_id]. rewrite no_forward_path by apply Hend.
  unfold _handle_local_route_create_pong. cbv zeta. erewrite st_bind_run by reflexivity. cbn [pi_path_id pi_ping_id].
  change (endpoint_at (sv_routes s) (Some path))
    with (get_endpoint_resolution_by_path_id (sv_routes s) path).
  rewrite (fe_row _ _ _ Hend). cbn [mbind option_bind]. rewrite (va_secret _ _ _ _ _ _ _ _ _ _ _ _ Hva).
  cbn [nonempty_column].
  assert (str_truthy secret = true) as ->.
  { destruct Hkey as (b & Hb & ->). apply hex_text_truthy. by intros ->. }
  cbn [fmap option_fmap option_map]. text_hyps.
  pose proof (va_columns _ _ _ _ _ _ _ _ _ _ _ _ Hva) as (Hmeta & _)%published_columns_eq.
  assert (CommonJson.load_json_object (rr_metadata_json r)
    = norm_dict (context_metadata vid vpk ttl ping at_)) as Hload.
  { rewrite Hmeta. apply load_dumped. by apply context_metadata_wf. }
  assert (forall k v, od_get k (context_metadata vid vpk ttl ping at_) = Some v ->
    py_get (norm_dict (context_metadata vid vpk ttl ping at_)) k = json_norm v) as Hget.
  { intros k v Hk. unfold py_get. rewrite norm_dict_get by (by apply dict_wf_od, context_metadata_wf).
    by rewrite Hk. }
  rewrite Hload, (Hget "expected_round_trip_ttl_ms" (JInt ttl)), (Hget "last_ping_id" (JStr ping)),
    (Hget "last_ping_sent_at_monotonic_ms" (JFloat at_)), (Hget "remote_virtual_node_id" (JStr vid))
    by (unfold context_metadata; by od_eval). cbn [json_norm opt_json].
  rewrite bool_decide_false by (intros Hne; by apply Hne). cbn [num_of_json truthy_str].
  rewrite (proj2 (str_truthy_spec vid)) by done.
  erewrite st_bind_run by reflexivity. erewrite st_bind_run by reflexivity. cbv zeta.
  fold (reading (sv_entropy s)). fold observed.
  erewrite st_bind_run by (unfold lift; rewrite Hcheck; reflexivity). reflexivity.
Qed.

Lemma publish_run {s : Services} {envelope path p' previous secret acc vid vpk ttl ping at_ vs ps fp r
    local_node} rounded :
  delivered "ROUTE_CREATE_PONG" path (ping_pong_payload (MkPingPong p' (Some ping)) p') envelope ->
  path <> "" -> ping <> "" -> hex_of AES_KEY_SIZE secret ->
  final_end path s r -> validated previous secret acc vid vpk ttl ping at_ vs ps fp r ->
  texts [vid; vpk; fp; vs; ps] -> unicode ping -> float_text at_ ->
  check_round_trip config (float_sub (reading (sv_entropy s)) (float_value at_)) (NInt ttl)
    = Ok (Some rounded) ->
  dht_stores -> plenty_of_nonces s ->
  get_local_physical_node (sv_database s) = Some local_node ->
  signature_pair (ln_private_key_encrypted local_node) (ln_public_key local_node) ->
  let expires := _build_drt_entry_expires_at (sv_now s) in
  exists result s' c rsig, handle_route_create_pong config envelope s = (Ok result, s') /\
    sends previous "ROUTE_CREATE_OK"
      (route_ok_payload (MkRouteOk (Some path) (Some (bytes_to_hex c)) (Some acc)) (Some path)) result /\
    c <> "" /\
    aes_decrypt_text (Some (bytes_to_hex c)) secret
      (_build_route_encrypted_payload_aad "ROUTE_CREATE_OK") = Ok (json_dumps (JObj (ok_dict vid fp vs ps))) /\
    final_end path s' (set_active r) /\
    build_drt_publish_request_from_endpoint_resolution (sv_routes s') (sv_now s) path
      (ln_public_key local_node) (bytes_to_hex rsig) rounded expires
    = Some (MkPublishRequest "drt" vid
        (route_record (sv_now s) local_node vpk vs ps fp (bytes_to_hex rsig) rounded) expires) /\
    _sign_drt_route_rtt (ln_public_key local_node) expires rounded
      (ln_private_key_encrypted local_node) = Ok (bytes_to_hex rsig) /\ rsig <> "".
Proof.
  intros Hd Hpath Hpingne Hkey Hend Hva Ht Hping Hat Hcheck Hdht Hnonces Hln Hpair expires.
  rewrite (pong_run rounded Hd Hpath Hpingne Hkey Hend Hva Ht Hping Hat Hcheck).
  set (s1 := s <| sv_entropy := S (sv_entropy s) |>).
  assert (final_end path s1 r) as Hend1 by (by destruct Hend).
  destruct (finish_run (s := s1) (envelope := envelope) (JInt ttl)
    (float_sub (reading (sv_entropy s)) (float_value at_)) rounded Hdht Hnonces Hkey Hend1 Hva Hln Hpair
    Ht Hping Hat) as (result & s' & c & rsig & Hrun & Hs & Hc & Haes & Hend' & Hreq & Hsign & Hrs).
  exists result, s', c, rsig. do 5 (split; [done|]). split; [|done].
  unfold build_drt_publish_request_from_endpoint_resolution. rewrite (fe_row _ _ _ Hend').
  cbn [mbind option_bind]. exact Hreq.
Qed.

(** *** ROUTE_CREATE_OK at the initiator *)

Lemma visible_record {vid fp record_json} (result : jdict) vpk ppk vs ps rsig expires rounded now :
  py_get result "status" = JStr "found" -> py_get result "record_json" = JStr record_json ->
  record_json = serialize_record (published_record ppk vs ps fp vpk rsig expires rounded now) ->
  texts [vpk; fp; vs; ps; ppk; rsig; expires] -> vid = sha512_hex vpk ->
  _drt_query_result_contains_route result (Some vid) (Some fp) = Ok true.
Proof.
  intros Hs Hr -> Ht ->. unfold _drt_query_result_contains_route. rewrite Hs, Hr.
  rewrite bool_decide_false by (intros Hne; by apply Hne). cbn [truthy_str].
  rewrite (proj2 (str_truthy_spec _)).
  - rewrite published_record_parses by done. unfold published_record. cbn [drt_pk_virtual_node drt_route_entries].
    rewrite bool_decide_false by (intros Hne; by apply Hne). cbn [existsb re_final_path_id].
    by rewrite bool_decide_true.
  - unfold serialize_record. cbn [json_dumps]. discriminate.
Qed.

Lemma initiator_active_good p fp vs ps acc :
  good_update (initiator_path p) (set_initiator_active (Some fp) (Some vs) (Some ps) (Some acc)).
Proof. unfold initiator_path, set_initiator_active. good_update_tac. Qed.

(** The row of a route the initiator has proposed. *)
Record proposed (public_key vid fp vs secret : string) (n : Z) (r : RouteResolution) : Prop := {
  pr_key : rr_final_physical_node_public_key r = Some public_key;
  pr_vid : rr_local_virtual_node_id r = Some vid;
  pr_final : rr_final_path_id r = Some fp;
  pr_signature : rr_virtual_node_signature r = Some vs;
  pr_secret : rr_shared_secret_hex r = Some secret;
  pr_strategy : rr_route_strategy r = Some strategy_name;
  pr_nonce : rr_route_nonce r = Some n;
}.

(** The DHT finds a record. *)
Definition dht_finds (vid record_json : string) : Prop :=
  forall s : Services, exists result s',
    dht_query "drt" (Some vid) s = (Ok result, s') /\ py_get result "status" = JStr "found" /\
    py_get result "record_json" = JStr record_json /\ sv_routes s' = sv_routes s.

(** A second reading of the clock comes before the deadline set with the first. *)
Definition in_time (k : nat) : Prop :=
  float_ltb (monotonic (S k))
    (float_add (monotonic k) (cf_route_create_ok_drt_visibility_timeout_seconds config)) = true.

Lemma visible_run (s : Services) vid fp record_json :
  (0 < fuel)%nat -> in_time (sv_entropy s) -> dht_finds vid record_json ->
  (forall result : jdict, py_get result "status" = JStr "found" ->
     py_get result "record_json" = JStr record_json ->
     _drt_query_result_contains_route result (Some vid) (Some fp) = Ok true) ->
  exists s', _is_route_visible_in_drt config fuel (Some vid) (Some fp) s = (Ok (Some true), s') /\
    sv_routes s' = sv_routes s.
Proof.
  intros Hfuel Htime Hfinds Hvisible. destruct fuel as [|fuel']; [lia|].
  unfold _is_route_visible_in_drt. erewrite st_bind_run by reflexivity. cbn [poll_drt].
  erewrite st_bind_run by reflexivity. unfold in_time in Htime. cbn [sv_entropy]. 
  change (sv_entropy (s <| sv_entropy := S (sv_entropy s) |>)) with (S (sv_entropy s)).
  rewrite Htime. cbn [negb].
  match goal with |- context [(dht_query _ _ ≫= _) ?s0] =>
    destruct (Hfinds s0) as (result & s' & Hq & Hs & Hr & Hrows) end.
  rewrite (st_bind_run _ _ _ _ _ Hq).
  erewrite st_bind_run by (unfold lift; rewrite (Hvisible result Hs Hr); reflexivity).
  exists s'. split; [reflexivity|]. exact Hrows.
Qed.

Lemma route_ok_run {s : Services} {envelope path p' c acc public_key vid fp vs ps secret n r record_json} :
  delivered "ROUTE_CREATE_OK" path
    (route_ok_payload (MkRouteOk p' (Some (bytes_to_hex c)) (Some acc)) p') envelope ->
  path <> "" -> c <> "" -> acc <> "" -> hex_of AES_KEY_SIZE secret ->
  initiator_end path s r -> proposed public_key vid fp vs secret n r -> texts [vid; fp; vs; ps] ->
  aes_decrypt_text (Some (bytes_to_hex c)) secret (_build_route_encrypted_payload_aad "ROUTE_CREATE_OK")
    = Ok (json_dumps (JObj (ok_dict vid fp vs ps))) ->
  verify_dict (acceptance_text (Some vid) (Some fp) (Some vs)) (Some ps) (Some public_key) = Ok true ->
  verify_dict (public_acceptance_text (Some strategy_name) (Some public_key) (Some n)) (Some acc)
    (Some public_key) = Ok true ->
  (0 < fuel)%nat -> in_time (sv_entropy s) -> dht_finds vid record_json ->
  (forall result : jdict, py_get result "status" = JStr "found" ->
     py_get result "record_json" = JStr record_json ->
     _drt_query_result_contains_route result (Some vid) (Some fp) = Ok true) ->
  exists result s', handle_route_create_ok config fuel envelope s = (Ok (Some result), s') /\
    initiator_end path s' (set_initiator_active (Some fp) (Some vs) (Some ps) (Some acc) r).
Proof.
  intros Hd Hpath Hc Hacc Hkey Hend Hpr Ht Hdec Hver Hver' Hfuel Htime Hfinds Hvisible. text_hyps.
  unfold handle_route_create_ok, _parse_route_create_ok. cbv zeta.
  rewrite (delivered_path Hd Hpath), (delivered_string "encrypted_payload_hex" _ Hd),
    (delivered_string "public_route_acceptance_signature" _ Hd) by
    first [done | reflexivity | by apply hex_nonempty].
  erewrite st_bind_run by reflexivity. cbn [ro_path_id]. rewrite no_reverse_path by apply Hend.
  unfold _handle_local_route_create_ok. cbv zeta. erewrite st_bind_run by reflexivity.
  cbn [ro_path_id ro_encrypted_payload_hex ro_public_route_acceptance_signature].
  change (initiator_at (sv_routes s) (Some path))
    with (get_initiator_resolution_by_initial_path_id (sv_routes s) path).
  rewrite (ie_row _ _ _ Hend). cbn [mbind option_bind]. rewrite (pr_secret _ _ _ _ _ _ _ Hpr).
  cbn [nonempty_column].
  assert (str_truthy secret = true) as ->.
  { destruct Hkey as (b & Hb & ->). apply hex_text_truthy. by intros ->. }
  cbn [fmap option_fmap option_map].
  erewrite st_bind_run by (unfold lift; rewrite Hdec; reflexivity).
  assert (dict_wf (ok_dict vid fp vs ps)) as Hwf by (unfold ok_dict; json_wf_tac).
  erewrite st_bind_run by (unfold lift; rewrite decrypted_dumps by exact Hwf; reflexivity).
  cbv beta iota zeta.
  pose proof (normed_string (ok_dict vid fp vs ps)) as Hread.
  rewrite (Hread "virtual_node_id" vid), (Hread "final_path_id" fp), (Hread "virtual_node_signature" vs),
    (Hread "physical_node_signature" ps) by first [exact Hwf | reflexivity | done].
  assert (refuse_route_ok r (MkRouteOk (Some path) (Some (bytes_to_hex c)) (Some acc)) (Some vid)
    (Some fp) (Some vs) (Some ps) = Ok None) as Hrefuse.
  { destruct Hpr as [Hr1 Hr2 Hr3 Hr4 Hr5 Hr6 Hr7]. unfold refuse_route_ok, differs.
    rewrite Hr1, Hr2, Hr3, Hr4, Hr6, Hr7. cbn [nonempty_column].
    rewrite !(proj2 (str_truthy_spec _)) by done.
    rewrite !bool_decide_false by (intros Hne; by apply Hne).
    unfold _is_valid_route_entry_point_acceptance_signature. rewrite Hver. cbn [mbind res_bind negb].
    unfold _is_valid_public_route_acceptance_signature. cbn [ro_public_route_acceptance_signature].
    rewrite Hver'. reflexivity. }
  erewrite st_bind_run by (unfold lift; rewrite Hrefuse; reflexivity).
  destruct (visible_run s vid fp record_json Hfuel Htime Hfinds Hvisible) as (s1 & Hvis & Hrows).
  rewrite (st_bind_run _ _ _ _ _ Hvis).
  assert (initiator_end path s1 r) as Hend1 by (destruct Hend; split; by rewrite Hrows).
  pose proof (select_latest_Some _ _ _ (ie_row _ _ _ Hend)) as (_ & Hp & _).
  destruct (update_initiator_run path (set_initiator_active (Some fp) (Some vs) (Some ps) (Some acc)) s1 r
    Hend1) as (rows & Hrun & Hend' & _).
  { apply initiator_active_good. }
  { rewrite <- Hp. by destruct r. }
  { left. rewrite (pr_final _ _ _ _ _ _ _ Hpr). by destruct r. }
  rewrite (st_bind_run _ _ _ _ _ Hrun). eexists _, _. split; [reflexivity|]. exact Hend'.
Qed.
End ends.

(** ** The agreement *)

Section claims.
Context `{FloatText} `{FloatConv} `{EntropyLaws} `{!UuidLaws} `{AesGcmSivLaws} `{KemLaws} `{RouteEnv}.

(** A node that has started a route from one of its virtual nodes. *)
Record initiator_ready (path public_key hop : string) (n ttl : Z) (node : LocalVirtualNodeIdentity)
    (s : Services) (r : RouteResolution) : Prop := {
  ir_end : initiator_end path s r;
  ir_started : started node public_key hop n ttl r;
  ir_node : own_node (sv_database s) node;
  ir_nonces : plenty_of_nonces s;
  ir_path : path <> "" /\ hop <> "" /\ 0 < ttl;
}.

(** A node at which a route can end under a path. *)
Record final_ready (path : string) (local_node : LocalPhysicalNodeIdentity) (s : Services) : Prop := {
  fr_wf : table_wf (sv_routes s);
  fr_fresh : fresh_path path (sv_routes s);
  fr_node : get_local_physical_node (sv_database s) = Some local_node;
  fr_key : ascii_text (ln_public_key local_node) = true /\ ln_public_key local_node <> "";
  fr_pair : signature_pair (ln_private_key_encrypted local_node) (ln_public_key local_node);
  fr_nonces : plenty_of_nonces s;
  fr_path : path <> "";
}.

(** [float(repr(x)) == x] for the readings of the clock. *)
Definition readings_read_back : Prop :=
  forall k, float_text (float_show (reading k)) /\ float_value (float_show (reading k)) = reading k.

(** The row of an end of the route, active under a final path and a secret. *)
Definition active_under (final_path secret : string) (r : option RouteResolution) : Prop :=
  match r with
  | Some r => rr_status r = "active" /\ rr_final_path_id r = Some final_path /\
      rr_shared_secret_hex r = Some secret
  | None => False
  end.

(** C22: the construction of a route. The initiator has started a route from one of
    its virtual nodes, with a mined proof of work; [ROUTE_CREATE] reaches the final
    node over any hops. When each of the six answers is delivered to the other end,
    the DHT stores what is published and then finds it, and the pong comes back
    within the announced time, every message is answered by the next; the record
    published names the final path with the signatures of both nodes; and in the
    end both nodes hold the route active, under the same final path and the same
    secret of 32 bytes. *)
Theorem route_agreement (config_a config_b : RouteConfig) (fuel_a fuel_b mining : nat)
    (context : PacketContext) (a b : Services) (pa pb hop previous : string) (n ttl rounded : Z)
    (budget : pyint) (path : option string) (node : LocalVirtualNodeIdentity)
    (local_node : LocalPhysicalNodeIdentity) (ra : RouteResolution)
    (public_key := ln_public_key local_node) (final_path := uuid4 (sv_entropy a))
    (expires := _build_drt_entry_expires_at (sv_now b)) :
  initiator_ready pa public_key hop n ttl node a ra ->
  final_ready pb local_node b ->
  unused_final_path (sv_routes a) final_path -> unused_final_path (sv_routes b) final_path ->
  find_valid_nonce mining public_key (cf_network_pow_difficulty_bits config_b) = Some (Ok n) ->
  0 <= n < 2 ^ 63 -> 0 < pyint_val budget ->
  dht_stores -> readings_read_back ->
  check_round_trip config_b
    (float_sub (reading (3 + sv_entropy b)) (reading (2 + sv_entropy b))) (NInt ttl)
  = Ok (Some rounded) ->
  (0 < fuel_a)%nat -> in_time config_a (2 + sv_entropy a) ->
  forall e1, delivered "ROUTE_CREATE" pb
    (route_create_payload (MkRouteCreate (Some public_key) budget path (Some (PyInt n)))) e1 ->
  _read_sender_physical_node_id e1 b = Some previous ->
  exists r1 b1 kem_info, handle config_b fuel_b e1 context b = (Ok (Some r1), b1) /\
    sends previous "ROUTE_CREATE_KEM_INFO" kem_info r1 /\
  forall e2, delivered "ROUTE_CREATE_KEM_INFO" pa kem_info e2 ->
  exists r2 a1 validate, handle config_a fuel_a e2 context a = (Ok (Some r2), a1) /\
    sends hop "ROUTE_CREATE_VALIDATE_AND_PUBLISH" validate r2 /\
  forall e3, delivered "ROUTE_CREATE_VALIDATE_AND_PUBLISH" pb validate e3 ->
  exists r3 b2 ping, handle config_b fuel_b e3 context b1 = (Ok (Some r3), b2) /\
    sends previous "ROUTE_CREATE_PING" ping r3 /\
  forall e4, delivered "ROUTE_CREATE_PING" pa ping e4 ->
  exists r4 pong, handle config_a fuel_a e4 context a1 = (Ok (Some r4), a1) /\
    sends hop "ROUTE_CREATE_PONG" pong r4 /\
  forall e5, delivered "ROUTE_CREATE_PONG" pb pong e5 ->
  exists r5 b3 ok vs ps rsig, handle config_b fuel_b e5 context b2 = (Ok (Some r5), b3) /\
    sends previous "ROUTE_CREATE_OK" ok r5 /\
    _sign_final_path_id final_path (sha512_hex public_key) (lv_private_key_encrypted node) = Ok vs /\
    _sign_route_entry_point_acceptance (Some (lv_id node)) (Some final_path) (Some vs)
      (ln_private_key_encrypted local_node) = Ok ps /\
    _sign_drt_route_rtt public_key expires rounded (ln_private_key_encrypted local_node) = Ok rsig /\
    let record := route_record (sv_now b) local_node (lv_public_key node) vs ps final_path rsig rounded in
    build_drt_publish_request_from_endpoint_resolution (sv_routes b3) (sv_now b) pb public_key rsig
      rounded expires = Some (MkPublishRequest "drt" (lv_id node) record expires) /\
  forall e6, delivered "ROUTE_CREATE_OK" pa ok e6 -> dht_finds (lv_id node) record ->
  exists r6 a2 secret, handle config_a fuel_a e6 context a1 = (Ok (Some r6), a2) /\
    hex_of AES_KEY_SIZE secret /\
    active_under final_path secret (get_initiator_resolution_by_initial_path_id (sv_routes a2) pa) /\
    active_under final_path secret (get_endpoint_resolution_by_path_id (sv_routes b3) pb).
Proof.
  intros [Hend Hst Hnode Hna (Hpa & Hhop & Httl)] [Hwf Hfresh Hln [Hpka Hpkne] Hpair Hnb Hpb] Hua Hub Hpow
    Hn Hbudget Hdht Hread Hcheck Hfuel Htime e1 Hd1 Hsender.
  pose proof (uuid4_ascii (sv_entropy a)) as Hfa. pose proof (uuid4_nonempty (sv_entropy a)) as Hfne.
  fold final_path in Hfa, Hfne.
  (* ROUTE_CREATE *)
  destruct (route_create_run config_b Hd1 Hpb Hpkne Hn Hbudget Hpow Hln Hpair Hsender Hwf Hfresh)
    as (r1 & rows1 & row & sg & Hrun1 & Hs1 & Hsg & Hver1 & Hend1 & Hrow & Hin1).
  eexists r1, _, _. split; [by eapply (handle_done config_b fuel_b context b _ _ _ Hd1)|]. split; [exact Hs1|].
  (* KEM_INFO *)
  intros e2 Hd2.
  destruct (kem_info_run Hd2 Hpa Hsg Hver1 Hend Hst Httl Hnode Hna Hfa Hua)
    as (r2 & rows2 & used & ct & c & secret & vs & Hrun2 & Hs2 & Hct & Hc & Hvs & Hdec & Hlen & Hsv & Hver2 &
        Haes & Hend2).
  eexists r2, _, _. split; [by eapply (handle_done config_a fuel_a context a _ _ _ Hd2)|]. split; [exact Hs2|].
  (* VALIDATE_AND_PUBLISH *)
  intros e3 Hd3.
  assert (rr_kyber_private_key_pem row = Some (kyber_key_pair (sv_entropy b)).1 /\
    rr_previous_physical_node_id row = Some previous /\ rr_route_strategy row = Some strategy_name /\
    rr_route_nonce row = Some n /\ rr_metadata_json row = None /\ rr_final_path_id row = None)
    as (Hkp & Hprev & Hstrat & Hnonce & Hmeta & Hnofinal) by (rewrite Hrow; by split_and!).
  set (b1 := b <| sv_entropy := S (sv_entropy b) |> <| sv_routes := rows1 |>) in *.
  assert (unused_final_path (sv_routes b1) final_path) as Hub1.
  { intros x [-> |Hx]%Hin1; [by rewrite Hnofinal|by apply Hub]. }
  pose proof (validate_run Hd3 Hpb Hct Hc Hvs Hfne Httl Hend1 Hkp Hdec Hln (on_id _ _ Hnode)
    (on_key _ _ Hnode) Hfa Hver2 Haes) as Hrun3.
  destruct (accept_run (envelope := e3) (ttl := ttl) (node := node) (vs := bytes_to_hex vs)
    (secret := bytes_to_hex secret) Hend1 Hprev Hstrat Hnonce Hpair Hub1)
    as (r3 & rows3 & ps & acc & Hrun3' & Hs3 & Hps & Hacc & Hsp & Hver3 & Hver3' & Hend3).
  rewrite Hrun3' in Hrun3.
  eexists r3, _, _. split; [by eapply (handle_done config_b fuel_b context b1 _ _ _ Hd3)|]. split; [exact Hs3|].
  (* PING *)
  intros e4 Hd4.
  set (a1 := a <| sv_routes := rows2 |> <| sv_used_nonces := used |> <| sv_entropy := S (S (sv_entropy a)) |>).
  set (ra1 := set_initiator_payload _ _ _ _ _) in Hend2.
  assert (initiator_end pa a1 ra1) as Hend2' by (by destruct Hend2).
  assert (rr_first_hop_physical_node_id ra1 = Some hop) as Hra1 by (pose proof (st_hop _ _ _ _ _ _ Hst) as <-; done).
  destruct (ping_run Hd4 Hpa (uuid4_nonempty _) Hhop Hend2' Hra1) as (r4 & Hrun4 & Hs4).
  eexists r4, _. split; [by eapply (handle_done config_a fuel_a context a1 _ _ _ Hd4)|]. split; [exact Hs4|].
  (* PONG *)
  intros e5 Hd5.
  set (at_ := float_show (reading (S (sv_entropy b1)))) in *. destruct (Hread (S (sv_entropy b1))) as [Hat Hback].
  fold at_ in Hat, Hback. set (vpk := lv_public_key node) in *. set (ping := uuid4 (sv_entropy b1)) in *.
  set (rb := set_validation_context _ _ _ _ _ _ _ _ _ _ row) in Hend3.
  set (b2 := b1 <| sv_routes := rows3 |> <| sv_entropy := S (S (sv_entropy b1)) |>) in *.
  assert (final_end pb b2 rb) as Hend3' by (by destruct Hend3).
  assert (validated previous (bytes_to_hex secret) (bytes_to_hex acc) (sha512_hex vpk) vpk ttl ping at_
    (bytes_to_hex vs) (bytes_to_hex ps) final_path rb) as Hva.
  { split; [by apply context_columns|reflexivity|reflexivity|rewrite <- Hprev; reflexivity]. }
  assert (texts [sha512_hex vpk; vpk; final_path; bytes_to_hex vs; bytes_to_hex ps]) as Htexts.
  { destruct (on_key _ _ Hnode). repeat apply Forall_cons_2; [..|constructor];
      split; try apply hex_string_unicode; try apply sha512_unicode; try by apply ascii_unicode.
    - apply str_truthy_spec, sha512_hexdigest_truthy.
    - done.
    - done.
    - by apply hex_nonempty.
    - by apply hex_nonempty. }
  assert (hex_of AES_KEY_SIZE (bytes_to_hex secret)) as Hkey by (by exists secret).
  assert (unicode ping) as Hping by (apply ascii_unicode, uuid4_ascii).
  assert (check_round_trip config_b (float_sub (reading (sv_entropy b2)) (float_value at_)) (NInt ttl)
    = Ok (Some rounded)) as Hcheck2 by (rewrite Hback; exact Hcheck).
  destruct (publish_run config_b rounded Hd5 Hpb (uuid4_nonempty _) Hkey Hend3' Hva Htexts Hping Hat Hcheck2
    Hdht Hnb Hln Hpair) as (r5 & b4 & c' & rsig & Hrun5 & Hs5 & Hc' & Haes' & Hend6 & Hreq & Hsign & Hrs).
  assert (lv_id node = sha512_hex vpk) as Hid by apply Hnode. rewrite <- Hid in Hreq, Hsp.
  eexists r5, b4, _, (bytes_to_hex vs), (bytes_to_hex ps), (bytes_to_hex rsig).
  split; [by eapply (handle_done config_b fuel_b context b2 _ _ _ Hd5)|]. split; [exact Hs5|].
  do 2 (split; [done|]). split; [exact Hsign|]. split; [exact Hreq|].
  (* OK *)
  intros e6 Hd6 Hfinds.
  assert (proposed public_key (lv_id node) final_path (bytes_to_hex vs) (bytes_to_hex secret) n ra1) as Hpr.
  { destruct Hst as [Hk1 Hk2 Hk3 Hk4 Hk5 Hk6]. split; [rewrite <- Hk1|..|rewrite <- Hk4|rewrite <- Hk5]; reflexivity. }
  destruct (route_ok_run config_a fuel_a (record_json :=
    route_record (sv_now b) local_node vpk (bytes_to_hex vs) (bytes_to_hex ps) final_path
      (bytes_to_hex rsig) rounded) (ps := bytes_to_hex ps) Hd6 Hpa Hc' (hex_nonempty _ Hacc) Hkey Hend2' Hpr)
    as (r6 & a2 & Hrun6 & Hend7).
  { rewrite Hid. by text_hyps; repeat apply Forall_cons_2. }
  { by rewrite Hid. }
  { by rewrite Hid. }
  { exact Hver3'. }
  { exact Hfuel. }
  { exact Htime. }
  { exact Hfinds. }
  { intros result Hs Hr. eapply visible_record; [exact Hs|exact Hr|reflexivity| |exact Hid].
    pose proof (isoformat_text (sv_now b + 3600000000)) as [? ?].
    text_hyps. repeat apply Forall_cons_2; [..|constructor]; split; try done;
      first [by apply ascii_unicode | apply hex_string_unicode | by apply hex_nonempty]. }
  exists r6, a2, (bytes_to_hex secret).
  split; [rewrite (handle_delivered config_a fuel_a context a1 _ Hd6 eq_refl eq_refl); exact Hrun6|].
  split; [exact Hkey|]. split.
  - rewrite (ie_row _ _ _ Hend7). split_and!; reflexivity.
  - rewrite (fe_row _ _ _ Hend6). split_and!; reflexivity.
Qed.
End claims.

(** ** Witnesses *)

#[local] Existing Instance demo_aead.
#[local] Existing Instance demo_aead_laws.
#[local] Existing Instance demo_entropy.
#[local] Existing Instance demo_entropy_laws.
#[local] Instance demo_float : FloatText := fun s => s.
#[local] Instance demo_conv : FloatConv :=
  {| float_show := fun _ => "0.0"; float_value := fun _ => S754_zero false |}.

#[local] Instance route_uuid_laws : UuidLaws.
Proof.
  constructor; intros n; [|discriminate].
  change (ascii_text ("uuid-" +:+ str_of_Z (Z.of_nat n)) = true).
  by rewrite ascii_text_app, ascii_text_str_of_Z.
Qed.

(** A signature is the message under the private key's name. *)
#[local] Instance demo_openssl : OpenSSL := {|
  openssl_sign := fun message private_key => Ok (private_key +:+ message);
  openssl_verify := fun message signature public_key =>
    if String.eqb signature ("sk-" +:+ public_key +:+ message) then Ok tt
    else Raise (ValueError "openssl");
  openssl_encap := fun public_key => Ok ("c" +:+ public_key, "0123456789abcdef0123456789abcdef");
  openssl_decap := fun ciphertext private_key =>
    if String.eqb private_key "ek" then Ok "0123456789abcdef0123456789abcdef"
    else Raise (ValueError "openssl");
|}.

#[local] Instance demo_key_gen : KeyGen := {| kyber_key_pair := fun _ => ("ek", "epk") |}.

#[local] Instance route_kem_laws : KemLaws.
Proof.
  constructor; intros n; [|split_and!; by vm_compute].
  exists "cepk", "0123456789abcdef0123456789abcdef".
  split_and!; first [reflexivity | discriminate].
Qed.

Lemma name_signature_pair public_key : signature_pair ("sk-" +:+ public_key) public_key.
Proof.
  intros message. exists (("sk-" +:+ public_key) +:+ message). split; [done|]. split; [discriminate|].
  unfold openssl_verify, demo_openssl. by rewrite string_app_assoc, String.eqb_refl.
Qed.

Definition demo_local_node : LocalPhysicalNodeIdentity :=
  MkLocalNode "pn-f" "pk-f" "sk-pk-f" "ml-dsa-65" "active" 0.
Definition demo_virtual_node : LocalVirtualNodeIdentity :=
  MkLocalVirtualNode (sha512_hex "pk-v") "pk-v" "sk-pk-v" "user" "pn-a" None true None 0.

Definition demo_final_path : string := uuid4 0.

(** The signatures over the demonstration's route. *)
Definition demo_sign (payload : jdict) (private_key : string) : string :=
  catch_all "" (sign_dict payload private_key).
Definition demo_vs : string :=
  demo_sign (final_path_text (Some demo_final_path) (Some (sha512_hex "pk-f"))) "sk-pk-v".
Definition demo_ps : string :=
  demo_sign (acceptance_text (Some (sha512_hex "pk-v")) (Some demo_final_path) (Some demo_vs)) "sk-pk-f".
Definition demo_rsig : string :=
  demo_sign (drt_rtt_text "pk-f" (_build_drt_entry_expires_at 3000) 0) "sk-pk-f".
Definition demo_record : string :=
  route_record 3000 demo_local_node "pk-v" demo_vs demo_ps demo_final_path demo_rsig 0.

#[local] Instance demo_route_env : RouteEnv := {|
  monotonic := fun _ => S754_zero false;
  random_index := fun _ _ => 0%nat;
  random_order := fun _ rows => rows;
  json_error := fun _ => "json";
  dht_query := fun _ _ => mret [("status", JStr "found"); ("record_json", JStr demo_record)];
  dht_publish := fun _ _ => mret [("status", JStr "stored")];
  sleep := fun _ => mret tt;
|}.

Definition demo_row : RouteResolution :=
  blank_resolution "initiator" "pending_kem_offer"
    <| rr_id := 1 |> <| rr_route_strategy := Some strategy_name |> <| rr_route_nonce := Some 0 |>
    <| rr_initial_path_id := Some "path-a" |> <| rr_first_hop_physical_node_id := Some "pn-h" |>
    <| rr_local_virtual_node_id := Some (sha512_hex "pk-v") |>
    <| rr_final_physical_node_public_key := Some "pk-f" |>
    <| rr_metadata_json := _dump_metadata [("expected_round_trip_ttl_ms", JInt 5000)] |>.

Definition demo_sessions : SessionManager :=
  match create_outbound_physical_session new_session_manager "sid-1" 1000 "pn-f" "pn-h"
          (Some "pk-h") "tcp" "10.0.0.2" 19001 20 with
  | Ok (_, sm) => sm
  | Raise _ => new_session_manager
  end.

Definition demo_a : Services :=
  MkServices new_session_manager [demo_row] (MkDatabase [] [demo_virtual_node] [] [] [] [] []) ∅ 0
    3000 0 [] [].
Definition demo_b : Services :=
  MkServices demo_sessions [] (MkDatabase [demo_local_node] [] [] [] [] [] []) ∅ 0 3000 0 [] [].

Definition demo_envelope (ty path : string) (payload : jdict) : ProtocolEnvelope :=
  MkEnvelope "json" (Some ty) (JObj (od_set "path_id" (JStr path) payload)) ""
    [("physical_session_id", JStr "sid-1")].

Lemma demo_delivered ty path payload : delivered ty path payload (demo_envelope ty path payload).
Proof.
  split; [done|..]; cbn [pe_payload demo_envelope payload_dict]; unfold py_get.
  - by rewrite od_get_set_eq.
  - intros k Hk. by rewrite od_get_set_ne.
Qed.

Lemma demo_initiator_table : create_initiator_resolution [] "pn-h" "path-a" "pk-f" (Some 5000)
  (Some strategy_name) (Some 0) (Some (sha512_hex "pk-v")) None None = Ok (demo_row, [demo_row]).
Proof. vm_compute. reflexivity. Qed.

Lemma demo_a_ready : initiator_ready "path-a" "pk-f" "pn-h" 0 5000 demo_virtual_node demo_a demo_row.
Proof.
  split.
  - split.
    + eapply route_step_wf; [exact empty_table_wf|]. eapply Step_create_initiator, demo_initiator_table.
    + vm_compute. reflexivity.
    + intros x ->%list_elem_of_singleton. discriminate.
  - split; [reflexivity..|vm_compute; reflexivity].
  - split; [vm_compute; reflexivity|reflexivity|by split|exact (name_signature_pair "pk-v")].
  - intros key k. exists (bytes_to_hex "0123456789ab"). split; [by left|]. set_solver.
  - by split_and!.
Qed.

Lemma demo_b_ready : final_ready "path-b" demo_local_node demo_b.
Proof.
  split; try done.
  - exact empty_table_wf.
  - intros x Hx. by apply not_elem_of_nil in Hx.
  - exact (name_signature_pair "pk-f").
  - intros key k. exists (bytes_to_hex "0123456789ab"). split; [by left|]. set_solver.
Qed.

Definition demo_context : PacketContext := MkContext "tcp" "" None None None None None 0 [].

Lemma route_agreement_witness :
  exists b3 e6 r6 a1 a2 secret,
    handle demo_config 1 e6 demo_context a1 = (Ok (Some r6), a2) /\ hex_of AES_KEY_SIZE secret /\
    active_under demo_final_path secret
      (get_initiator_resolution_by_initial_path_id (sv_routes a2) "path-a") /\
    active_under demo_final_path secret (get_endpoint_resolution_by_path_id (sv_routes b3) "path-b").
Proof.
  destruct (route_agreement demo_config demo_config 1 1 1 demo_context demo_a demo_b "path-a" "path-b"
    "pn-h" "pn-h" 0 5000 0 (PyInt 7) None demo_virtual_node demo_local_node demo_row demo_a_ready demo_b_ready)
    with (e1 := demo_envelope "ROUTE_CREATE" "path-b"
      (route_create_payload (MkRouteCreate (Some "pk-f") (PyInt 7) None (Some (PyInt 0)))))
    as (r1 & b1 & m1 & _ & _ & H1).
  - intros x ->%list_elem_of_singleton. discriminate.
  - intros x Hx. by apply not_elem_of_nil in Hx.
  - vm_compute. reflexivity.
  - lia.
  - reflexivity.
  - intros req info s. exists [("status", JStr "stored")], s. done.
  - intros k. split; [right; right; right; split; reflexivity|reflexivity].
  - vm_compute. reflexivity.
  - lia.
  - vm_compute. reflexivity.
  - apply demo_delivered.
  - vm_compute. reflexivity.
  - destruct (H1 _ (demo_delivered _ _ _)) as (r2 & a1 & m2 & _ & _ & H2).
    destruct (H2 _ (demo_delivered _ _ _)) as (r3 & b2 & m3 & _ & _ & H3).
    destruct (H3 _ (demo_delivered _ _ _)) as (r4 & m4 & _ & _ & H4).
    destruct (H4 _ (demo_delivered _ _ _)) as (r5 & b3 & m5 & vs & ps & rsig & _ & _ & Hvs & Hps & Hrs & _ & H5).
    assert (vs = demo_vs) as -> by (apply Ok_inj; rewrite <- Hvs; vm_compute; reflexivity).
    assert (ps = demo_ps) as -> by (apply Ok_inj; rewrite <- Hps; vm_compute; reflexivity).
    assert (rsig = demo_rsig) as -> by (apply Ok_inj; rewrite <- Hrs; vm_compute; reflexivity).
    destruct (H5 _ (demo_delivered _ _ _)) as (r6 & a2 & secret & Hrun & Hrest).
    { intros s. eexists _, s. split; [reflexivity|]. split; [reflexivity|]. split; reflexivity. }
    eexists b3, _, r6, a1, a2, secret. split; [exact Hrun|exact Hrest].
Defined.
