(* ===== verification/DhtHandler.v ===== *)
(** * The handler of the DHT messages

    Models [src/app/core/protocols/physical/dht.py] and the table it keeps
    ([src/app/storage/models/distributed.py]).  A publication is stored at the
    responsible nodes one after the other, a query collects and merges what they
    hold in the order of their distance to the key; the node that cannot go on
    answers, and the answer takes the way of the request back, hop by hop. *)

From S2P Require Import Prelude PyJson PyTime PyInt PyFloat Crypto JsonText Records Pow Merge.
From S2P Require Import Transport Reliable Sessions Identity DhtService RouteService Core.

(** A row of [dht_record]. SQLite keeps a [datetime] without its time zone, and
    [updated_at] is written with every change of the row. *)
Record DhtRecord := MkDhtRecord {
  dr_id : Z;
  dr_key : string;
  dr_namespace : string;
  dr_logical_key : string;
  dr_record_json : string;
  dr_source : option string;
  dr_last_validated_at : option instant;
  dr_expires_at : option Z;
  dr_created_at : instant;
  dr_updated_at : instant;
}.

#[export] Instance dht_record_eta : Eta DhtRecord := fun r =>
  MkDhtRecord (dr_id r) (dr_key r) (dr_namespace r) (dr_logical_key r) (dr_record_json r)
    (dr_source r) (dr_last_validated_at r) (dr_expires_at r) (dr_created_at r) (dr_updated_at r).

Record PendingDhtForward := MkPendingForward {
  pf_previous_session_id : string;
  pf_previous_message_id : string;
  pf_created_at : spec_float;
}.

(** A request of the node's own client waits on an [asyncio.Future]. *)
Inductive future :=
| Pending
| Done (result : jdict)
| Cancelled.

(** The handler works on the services, the table and the forwarded requests whose
    answer it waits for; the DHT client of the node keeps the futures of its requests
    by their message ids. Futures are shared, so they are numbered. *)
Record DhtNode := MkDhtNode {
  dn_services : Services;
  dn_records : list DhtRecord;
  dn_pending_forwards : odict string PendingDhtForward;
  dn_pending_results : odict string nat;
  dn_futures : list future;
}.

#[export] Instance dht_node_eta : Eta DhtNode := fun n =>
  MkDhtNode (dn_services n) (dn_records n) (dn_pending_forwards n) (dn_pending_results n)
    (dn_futures n).

(** The configuration the handler reads. *)
Record DhtConfig := MkDhtConfig {
  dc_network_pow_difficulty_bits : Z;
  dc_dht_replication_factor : Z;
  dc_dht_request_max_forward_hops : Z;
  dc_dht_request_timeout_seconds : spec_float;
  dc_dht_query_attempt_count : Z;
  dc_dht_forward_return_path_grace_seconds : spec_float;
  dc_db_path : string;
}.

(** [time.monotonic()]; the date and time [datetime.fromisoformat] reads, without
    the time zone; [str] of a list or a dictionary; and the session client, if the
    protocol clients are set up: opening a session, during which other tasks run. *)
Class DhtEnv := {
  dht_monotonic : nat -> spec_float;
  iso_fields : string -> option Z;
  str_of_container : json -> string;
  dht_start_session : option (string -> st DhtNode string);
}.

(** ** Reading a payload *)

(** [max(0, value)], which is [value] itself when it is a positive [bool]. *)
Definition max_zero (value : pyint) : pyint := if 0 <? pyint_val value then value else PyInt 0.

Definition _read_ttl (payload : jdict) (default_ttl : Z) : Z :=
  match json_pyint (py_get payload "ttl") with
  | Some value => Z.max 0 (pyint_val value)
  | None => Z.max 0 default_ttl
  end.

Fixpoint distinct_strings (items : list json) (result : list string) : list string :=
  match items with
  | [] => result
  | JStr item :: items =>
      if str_truthy item && negb (bool_decide (item ∈ result))
      then distinct_strings items (result ++ [item])
      else distinct_strings items result
  | _ :: items => distinct_strings items result
  end.

Definition _read_string_list (payload : jdict) (field_name : string) : list string :=
  match py_get payload field_name with JArr items => distinct_strings items [] | _ => [] end.

Definition _read_responsible_nodes (payload : jdict) : list jdict :=
  match py_get payload "responsible_nodes" with
  | JArr items => omap (fun item => match item with JObj d => Some d | _ => None end) items
  | _ => []
  end.

Definition _read_optional_int (payload : jdict) (field_name : string) : option pyint :=
  max_zero <$> json_pyint (py_get payload field_name).

Definition _read_trace_context (payload : jdict) : jdict :=
  match py_get payload "trace_context" with JObj d => d | _ => [] end.

Definition _parse_distance_hex (value : option string) : option Z :=
  value ← value;
  if str_truthy value then match int_base16 value with Ok n => Some n | Raise _ => None end
  else None.

Definition _select_failed_publish_status (message_type : option string) (stored_by : list string)
    (fallback_status : string) : string :=
  if bool_decide (message_type = Some "DHT_PUBLISH") && negb (bool_decide (stored_by = []))
  then "partially_stored" else fallback_status.

Definition _summarize_responsible_nodes (nodes : list ranked_node) : list jdict :=
  (fun node => [("node_id", JStr (rk_node_id node)); ("is_local", JBool (rk_is_local node));
                ("distance_hex", JStr (rk_distance_hex node));
                ("endpoint_count", JInt (Z.of_nat (length (default [] (rk_endpoints node)))))])
  <$> nodes.

Definition _is_observed_only_physical_session `{FloatText} (session : NetworkSession) : bool :=
  bool_decide (py_get (CommonJson.load_json_object (ns_metadata_json session))
                 "physical_endpoint_source" = JStr "observed").

(** [isoformat()] of a [datetime] without time zone. *)
Definition isoformat_naive (t : Z) : string :=
  String.substring 0 (String.length (isoformat t) - 6) (isoformat t).

Definition str_list (l : list string) : json := JArr (JStr <$> l).

(** ** Packets *)

Definition build_query_payload (header : jdict) (namespace logical_key : string) (ttl : option Z)
    : string :=
  CommonJson.compact_json_bytes [("header", JObj header);
    ("payload", JObj [("namespace", JStr namespace); ("logical_key", JStr logical_key);
                      ("ttl", opt_json JInt ttl)])].

Definition build_publish_payload (header : jdict) (namespace logical_key record_json : string)
    (expires_at : option string) (ttl : option Z) (stored_by : list string)
    (required_stored_count pow_nonce : option Z) (trace_context : jdict) : string :=
  CommonJson.compact_json_bytes [("header", JObj header);
    ("payload", JObj [("namespace", JStr namespace); ("logical_key", JStr logical_key);
       ("record_json", JStr record_json); ("expires_at", opt_json JStr expires_at);
       ("ttl", opt_json JInt ttl); ("stored_by", str_list stored_by);
       ("required_stored_count", opt_json JInt required_stored_count);
       ("pow_nonce", opt_json JInt pow_nonce); ("trace_context", JObj trace_context)])].

(** What a result says, without its header. *)
Record DhtResult := MkDhtResult {
  rs_status : string;
  rs_key_hex : string;
  rs_responsible_nodes : list jdict;
  rs_stored_locally : bool;
  rs_record_json : option string;
  rs_expires_at : option string;
  rs_stored_by : list string;
  rs_required_stored_count : option pyint;
  rs_trace_context : jdict;
}.

Definition result_header (uuid : string) (request_header : jdict) : jdict :=
  [("version", py_get_default request_header "version" (JInt 1));
   ("message_type", JStr "DHT_RESULT"); ("message_id", JStr uuid);
   ("response_to_message_id", py_get request_header "message_id");
   ("message_sequence", py_get request_header "message_sequence");
   ("physical_session_id", py_get request_header "physical_session_id");
   ("virtual_session_id", py_get request_header "virtual_session_id")].

Definition result_payload (r : DhtResult) : jdict :=
  [("status", JStr (rs_status r)); ("key", JStr (rs_key_hex r));
   ("stored_locally", JBool (rs_stored_locally r));
   ("responsible_nodes", JArr (JObj <$> rs_responsible_nodes r));
   ("record_json", opt_json JStr (rs_record_json r));
   ("expires_at", opt_json JStr (rs_expires_at r));
   ("stored_by", str_list (rs_stored_by r));
   ("stored_count", JInt (Z.of_nat (length (rs_stored_by r))));
   ("required_stored_count",
    match rs_required_stored_count r with
    | Some count => pyint_json (max_zero count)
    | None => JInt (Z.of_nat (length (rs_stored_by r)))
    end);
   ("trace_context", JObj (rs_trace_context r))].

Section handler.
Context `{FloatText} `{Entropy} `{OpenSSL} `{IsoParser} `{DhtEnv}.
Context (config : DhtConfig).

(** An operation of the shared services. *)
Definition on_services {A} (m : st Services A) : st DhtNode A := fun n =>
  let '(r, s) := m (dn_services n) in (r, n <| dn_services := s |>).

Definition services {A} (f : Services -> A) : st DhtNode A := gets (fun n => f (dn_services n)).

Definition build_result_payload (request_header : jdict) (r : DhtResult) : st DhtNode string :=
  uuid ← on_services new_uuid;
  mret (CommonJson.compact_json_bytes
    [("header", JObj (result_header uuid request_header)); ("payload", JObj (result_payload r))]).

Definition dht_result (envelope : ProtocolEnvelope) (response_payload : option string)
    (metadata : jdict) (payload : option string) : PacketProcessingResult :=
  MkResult (pe_protocol_name envelope) true (pe_message_type envelope) response_payload
    ([("protocol_family", JStr "dht")] ++ metadata) payload.

Definition _build_invalid_result (envelope : ProtocolEnvelope) (reason : string)
    : PacketProcessingResult := build_invalid_result "dht" envelope reason.

(** ** The table *)

Definition validated_record (key_hex : string) (r : DhtRecord) : bool :=
  bool_decide (dr_key r = key_hex) && bool_decide (is_Some (dr_last_validated_at r)).

(** The latest validated row of a key. *)
Definition latest_record (key_hex : string) (records : list DhtRecord) : option DhtRecord :=
  head (py_sorted (fun r => (- default 0 (dr_last_validated_at r), - dr_updated_at r))
          (List.filter (validated_record key_hex) records)).

Definition _load_validated_local_record (key_hex : string) : st DhtNode (option DhtRecord) :=
  gets (fun n => latest_record key_hex (dn_records n)).

Definition next_record_id (records : list DhtRecord) : Z :=
  1 + foldr (fun r m => Z.max (dr_id r) m) 0 records.

(** The record as it is after a fragment has been merged into it; [None] when the
    merge raised. *)
Definition merge_record (now : instant) (key_hex namespace record_json : string)
    (existing_record : DhtRecord) : option string :=
  catch_all None
    (let! parent_payload := parse_record namespace (dr_record_json existing_record) in
     let! fragment_payload := parse_record namespace record_json in
     let! merged_payload := validate_and_merge now namespace key_hex parent_payload fragment_payload
       (dc_network_pow_difficulty_bits config) in
     Ok (Some (serialize_record merged_payload))).

Definition insert_record (now : instant) (key_hex namespace logical_key record_json source : string)
    (expires_at : option Z) (records : list DhtRecord) : list DhtRecord :=
  records ++ [MkDhtRecord (next_record_id records) key_hex namespace logical_key record_json
                (Some source) (Some now) expires_at now now].

(** The changed row, and the deletion of the other rows of the key. *)
Definition replace_record (now : instant) (key_hex namespace logical_key record_json source : string)
    (expires_at : option Z) (existing_record : DhtRecord) (records : list DhtRecord)
    : list DhtRecord :=
  let updated := existing_record <| dr_namespace := namespace |> <| dr_logical_key := logical_key |>
    <| dr_record_json := record_json |> <| dr_source := Some source |>
    <| dr_last_validated_at := Some now |> <| dr_expires_at := expires_at |>
    <| dr_updated_at := now |> in
  List.filter (fun r => negb (bool_decide (dr_key r = key_hex) &&
                              bool_decide (dr_id r <> dr_id existing_record)))
    ((fun r => if bool_decide (dr_id r = dr_id existing_record) then updated else r) <$> records).

(** The table after a record arrived: a record without valid proofs of work, or one
    that does not merge with what is stored, changes nothing. *)
Definition upsert_records (now : instant) (key_hex namespace logical_key record_json : string)
    (expires_at : option Z) (source : string) (records : list DhtRecord) : list DhtRecord :=
  if negb (validate_record_payload_pow namespace key_hex record_json
             (dc_network_pow_difficulty_bits config))
  then records
  else
    match latest_record key_hex records with
    | None =>
        insert_record now key_hex namespace logical_key record_json source expires_at records
    | Some existing_record =>
        match merge_record now key_hex namespace record_json existing_record with
        | None => records
        | Some effective_record_json =>
            replace_record now key_hex namespace logical_key effective_record_json source
              expires_at existing_record records
        end
    end.

Definition _upsert_local_record (key_hex namespace logical_key record_json : string)
    (expires_at : option Z) (source : string) : st DhtNode unit :=
  modify (fun n => n <| dn_records :=
    upsert_records (sv_now (dn_services n)) key_hex namespace logical_key record_json expires_at
      source (dn_records n) |>).

(** ** Forwarded requests *)

Definition monotonic : st DhtNode spec_float := on_services (fun s =>
  (Ok (dht_monotonic (sv_entropy s)), s <| sv_entropy := S (sv_entropy s) |>)).

Definition _get_pending_forward_ttl_seconds : spec_float :=
  float_add (float_mul (dc_dht_request_timeout_seconds config)
               (float_of_int (dc_dht_query_attempt_count config)))
    (dc_dht_forward_return_path_grace_seconds config).

Definition _cleanup_pending_forwards : st DhtNode unit :=
  now ← monotonic;
  modify (fun n => n <| dn_pending_forwards :=
    List.filter (fun entry => negb (float_ltb _get_pending_forward_ttl_seconds
                                      (float_sub now (pf_created_at entry.2))))
      (dn_pending_forwards n) |>).

Definition _remember_pending_forward (forward_message_id previous_session_id previous_message_id
    : string) : st DhtNode unit :=
  _cleanup_pending_forwards;;
  created_at ← monotonic;
  modify (fun n => n <| dn_pending_forwards :=
    od_set forward_message_id
      (MkPendingForward previous_session_id previous_message_id created_at)
      (dn_pending_forwards n) |>).

Definition _pop_pending_forward (forward_message_id : string)
    : st DhtNode (option PendingDhtForward) :=
  _cleanup_pending_forwards;;
  ((fun n =>
      (Ok (od_get forward_message_id (dn_pending_forwards n)),
       n <| dn_pending_forwards := od_del forward_message_id (dn_pending_forwards n) |>))
   : st DhtNode (option PendingDhtForward)).

Definition _get_previous_session (envelope : ProtocolEnvelope) : st DhtNode (option NetworkSession) :=
  services (fun s =>
    session_id ← truthy_str (py_get (pe_header envelope) "physical_session_id");
    get_session_by_session_id (sv_session_manager s) session_id).

(** ** The next node *)

(** The nodes a request is not forwarded to. *)
Definition skip_node (previous_remote_physical_node_id : option string) (stored_by : list string)
    (query_cursor_distance : option Z) (node : ranked_node) : bool :=
  rk_is_local node || negb (str_truthy (rk_node_id node))
  || match query_cursor_distance with
     | Some distance => rk_distance_int node <=? distance
     | None => false
     end
  || bool_decide (Some (rk_node_id node) = previous_remote_physical_node_id)
  || bool_decide (rk_node_id node ∈ stored_by).

(** A session the client opens, if it can. *)
Definition open_session (node_id : string) : st DhtNode (option NetworkSession) :=
  match dht_start_session with
  | None => mret None
  | Some start_session =>
      session_id ← catch_exn (fun _ => true)
        (session_id ← start_session node_id; mret (Some session_id)) (fun _ => mret None);
      services (fun s =>
        session_id ← session_id;
        session ← get_session_by_session_id (sv_session_manager s) session_id;
        if bool_decide (ns_session_state session = "active") then Some session else None)
  end.

(** An active session with the node, or one the client opens. *)
Definition session_to (node_id : string) : st DhtNode (option NetworkSession) :=
  existing_session ← services (fun s =>
    get_active_physical_session_by_remote_node_id (sv_session_manager s) node_id);
  match existing_session with
  | Some session =>
      if _is_observed_only_physical_session session then open_session node_id
      else mret (Some session)
  | None => open_session node_id
  end.

Fixpoint _select_next_session (responsible_nodes : list ranked_node)
    (previous_remote_physical_node_id : option string) (stored_by : list string)
    (query_cursor_distance : option Z) : st DhtNode (option NetworkSession) :=
  match responsible_nodes with
  | [] => mret None
  | node :: responsible_nodes =>
      let next := _select_next_session responsible_nodes previous_remote_physical_node_id stored_by
        query_cursor_distance in
      if skip_node previous_remote_physical_node_id stored_by query_cursor_distance node then next
      else
        session ← session_to (rk_node_id node);
        match session with Some session => mret (Some session) | None => next end
  end.

(** ** Forwarding *)

Definition _build_result_response (envelope : ProtocolEnvelope) (context : PacketContext)
    (r : DhtResult) : st DhtNode PacketProcessingResult :=
  response_payload ← build_result_payload (pe_header envelope) r;
  mret (dht_result envelope (Some response_payload)
    [("transport_name", JStr (pc_transport_name context));
     ("action", JStr ("return_dht_" +:+ rs_status r)); ("key", JStr (rs_key_hex r))] None).

(** What a request carries on, its arguments resolved against its payload. *)
Record Progress := MkProgress {
  pg_stored_by : list string;
  pg_required_stored_count : pyint;
  pg_query_cursor_distance_hex : option string;
  pg_query_record_json : option string;
  pg_query_expires_at : option string;
  pg_trace_context : jdict;
}.

Definition forward_payload (envelope : ProtocolEnvelope) (ttl : Z) (p : Progress) : jdict :=
  let is_query := bool_decide (pe_message_type envelope = Some "DHT_QUERY") in
  let payload := Relay.dict_merge (as_payload_dict envelope)
    [("ttl", JInt (ttl - 1)); ("stored_by", str_list (pg_stored_by p));
     ("required_stored_count", pyint_json (pg_required_stored_count p));
     ("trace_context", JObj (pg_trace_context p))] in
  let payload :=
    match nonempty_column (pg_query_record_json p) with
    | Some query_record_json =>
        if is_query
        then od_set "query_expires_at" (opt_json JStr (pg_query_expires_at p))
               (od_set "query_record_json" (JStr query_record_json) payload)
        else payload
    | None => payload
    end in
  match pg_query_cursor_distance_hex p with
  | Some distance => if is_query then od_set "query_cursor_distance_hex" (JStr distance) payload else payload
  | None => payload
  end.

(** The packet goes to the next session; the way back is remembered under the new
    message id. *)
Definition send_forward (envelope : ProtocolEnvelope) (context : PacketContext) (key_hex : string)
    (ttl : Z) (p : Progress) (next_session : NetworkSession) : st DhtNode PacketProcessingResult :=
  forward_message_id ← on_services new_uuid;
  let forward_header := Relay.dict_merge (pe_header envelope)
    [("message_id", JStr forward_message_id);
     ("physical_session_id", JStr (ns_session_id next_session))] in
  match py_get (pe_header envelope) "message_id", py_get (pe_header envelope) "physical_session_id" with
  | JStr previous_message_id, JStr previous_session_id =>
      _remember_pending_forward forward_message_id previous_session_id previous_message_id
  | _, _ => mret tt
  end;;
  mret (dht_result envelope None
    [("transport_name", JStr (pc_transport_name context));
     ("action", JStr "send_payload_to_physical_session");
     ("target_physical_session_id", JStr (ns_session_id next_session)); ("key", JStr key_hex)]
    (Some (CommonJson.compact_json_bytes [("header", JObj forward_header);
       ("payload", JObj (forward_payload envelope ttl p))]))).

(** [value if value is not None else default] *)
Definition or_else {A} (value default : option A) : option A :=
  match value with Some a => Some a | None => default end.

(** The arguments, and where they are absent what the payload says. *)
Definition resolve_progress (payload : jdict) (responsible_nodes : list ranked_node)
    (stored_by : option (list string)) (required_stored_count : option pyint)
    (query_cursor_distance_hex query_record_json query_expires_at : option string)
    (trace_context : option jdict) : Progress :=
  MkProgress
    (default (_read_string_list payload "stored_by") stored_by)
    (default (PyInt (Z.of_nat (length responsible_nodes))) required_stored_count)
    (or_else query_cursor_distance_hex (read_string_or_none payload "query_cursor_distance_hex"))
    (or_else query_record_json (read_string_or_none payload "query_record_json"))
    (or_else query_expires_at (read_string_or_none payload "query_expires_at"))
    (default (_read_trace_context payload) trace_context).

Definition _forward_or_return_failure (envelope : ProtocolEnvelope) (context : PacketContext)
    (key_hex : string) (responsible_nodes : list ranked_node) (failure_status : string)
    (stored_by : option (list string)) (required_stored_count : option pyint)
    (query_cursor_distance_hex query_record_json query_expires_at : option string)
    (trace_context : option jdict) : st DhtNode PacketProcessingResult :=
  let payload := as_payload_dict envelope in
  let p := resolve_progress payload responsible_nodes stored_by required_stored_count
    query_cursor_distance_hex query_record_json query_expires_at trace_context in
  let failed status := _build_result_response envelope context
    (MkDhtResult
       (_select_failed_publish_status (pe_message_type envelope) (pg_stored_by p) status)
       key_hex (_summarize_responsible_nodes responsible_nodes) false (pg_query_record_json p)
       (pg_query_expires_at p) (pg_stored_by p) (Some (pg_required_stored_count p))
       (pg_trace_context p)) in
  let ttl := _read_ttl payload (dc_dht_request_max_forward_hops config) in
  if ttl <=? 0 then failed "ttl_expired"
  else
    previous_session ← _get_previous_session envelope;
    next_session ← _select_next_session responsible_nodes (ns_remote_identity_id <$> previous_session)
      (pg_stored_by p)
      (if bool_decide (pe_message_type envelope = Some "DHT_QUERY")
       then _parse_distance_hex (pg_query_cursor_distance_hex p) else None);
    match next_session with
    | None => failed failure_status
    | Some next_session => send_forward envelope context key_hex ttl p next_session
    end.

(** ** DHT_PUBLISH *)

Definition select_closest (key_hex : string) : st DhtNode closest_nodes :=
  db ← services sv_database;
  lift (select_k_closest_nodes db (dc_dht_replication_factor config) key_hex).

Definition _read_optional_datetime (payload : jdict) (field_name : string) : option Z :=
  value ← truthy_str (py_get payload field_name);
  iso_fields (replace_Z value).

(** At a responsible node: the record is stored, and the publication goes on until
    enough nodes have it. *)
Definition publish_here (envelope : ProtocolEnvelope) (context : PacketContext)
    (key_hex namespace logical_key record_json : string) (expires_at : option Z)
    (stored_by : list string) (responsible_nodes : list ranked_node)
    (required_stored_count : pyint) (trace_context : jdict) : st DhtNode PacketProcessingResult :=
  local_node ← services (fun s => get_local_physical_node (sv_database s));
  match local_node with
  | None => mret (_build_invalid_result envelope "local_physical_node_not_initialized")
  | Some local_node =>
      stored_by ←
        (if bool_decide (ln_id local_node ∈ stored_by) then mret stored_by
         else
           _upsert_local_record key_hex namespace logical_key record_json expires_at "dht_publish";;
           mret (stored_by ++ [ln_id local_node]));
      if Z.of_nat (length stored_by) <? pyint_val required_stored_count
      then _forward_or_return_failure envelope context key_hex responsible_nodes "partially_stored"
             (Some stored_by) (Some required_stored_count) None None None (Some trace_context)
      else
        response_payload ← build_result_payload (pe_header envelope)
          (MkDhtResult "stored" key_hex [] true None None stored_by (Some required_stored_count)
             trace_context);
        mret (dht_result envelope (Some response_payload)
          [("transport_name", JStr (pc_transport_name context));
           ("action", JStr "store_local_dht_record"); ("key", JStr key_hex)] None)
  end.

Definition _handle_publish (envelope : ProtocolEnvelope) (context : PacketContext)
    : st DhtNode PacketProcessingResult :=
  let payload := as_payload_dict envelope in
  let expires_at := _read_optional_datetime payload "expires_at" in
  let stored_by := _read_string_list payload "stored_by" in
  let pow_nonce := _read_optional_int payload "pow_nonce" in
  let trace_context := _read_trace_context payload in
  match read_string_or_none payload "namespace", read_string_or_none payload "logical_key",
        read_string_or_none payload "record_json" with
  | Some namespace, Some logical_key, Some record_json =>
      key_hex ← lift (build_key namespace logical_key);
      pow_details ← lift (build_publish_pow_details key_hex record_json pow_nonce
        (dc_network_pow_difficulty_bits config));
      if negb (pd_is_valid pow_details)
      then mret (_build_invalid_result envelope "invalid_dht_publish_pow")
      else if negb (validate_record_payload_pow namespace key_hex record_json
                      (dc_network_pow_difficulty_bits config))
      then mret (_build_invalid_result envelope "invalid_dht_payload_pow")
      else
        closest_nodes_result ← select_closest key_hex;
        let responsible_nodes := cl_nodes closest_nodes_result in
        let required_stored_count :=
          default (PyInt (Z.of_nat (length responsible_nodes)))
            (_read_optional_int payload "required_stored_count") in
        if negb (cl_local_node_is_responsible closest_nodes_result)
        then _forward_or_return_failure envelope context key_hex responsible_nodes "not_routable"
               (Some stored_by) (Some required_stored_count) None None None (Some trace_context)
        else publish_here envelope context key_hex namespace logical_key record_json expires_at
               stored_by responsible_nodes required_stored_count trace_context
  | _, _, _ => mret (_build_invalid_result envelope "invalid_dht_publish_payload")
  end.

(** ** DHT_QUERY *)

(** The record collected so far with the local one; the local one when they do not
    merge. *)
Definition _merge_query_record_json (now : instant) (namespace key_hex : string)
    (accumulated_record_json : option string) (local_record_json : string) : string :=
  match nonempty_column accumulated_record_json with
  | None => local_record_json
  | Some accumulated_record_json =>
      catch_all local_record_json
        (let! accumulated_payload := parse_record namespace accumulated_record_json in
         let! local_payload := parse_record namespace local_record_json in
         let! merged_payload := validate_and_merge now namespace key_hex accumulated_payload
           local_payload (dc_network_pow_difficulty_bits config) in
         Ok (serialize_record merged_payload))
  end.

Definition _resolve_local_distance_hex (key_hex : string) : st DhtNode (option string) :=
  local_node ← services (fun s => get_local_physical_node (sv_database s));
  match local_node with
  | None => mret None
  | Some local_node =>
      distance ← lift (xor_distance_hex key_hex (ln_id local_node));
      mret (Some (format_0128x distance))
  end.

Definition _handle_query (envelope : ProtocolEnvelope) (context : PacketContext)
    : st DhtNode PacketProcessingResult :=
  let payload := as_payload_dict envelope in
  match read_string_or_none payload "namespace", read_string_or_none payload "logical_key" with
  | Some namespace, Some logical_key =>
      key_hex ← lift (build_key namespace logical_key);
      let accumulated_record_json := read_string_or_none payload "query_record_json" in
      let accumulated_expires_at := read_string_or_none payload "query_expires_at" in
      closest_nodes_result ← select_closest key_hex;
      let responsible_nodes := cl_nodes closest_nodes_result in
      let forward failure_status := _forward_or_return_failure envelope context key_hex
        responsible_nodes failure_status None None in
      if negb (cl_local_node_is_responsible closest_nodes_result)
      then forward "not_routable" None accumulated_record_json accumulated_expires_at None
      else
        dht_record ← _load_validated_local_record key_hex;
        query_cursor_distance_hex ← _resolve_local_distance_hex key_hex;
        match dht_record with
        | None =>
            forward (match nonempty_column accumulated_record_json with
                     | Some _ => "found" | None => "not_found" end)
              query_cursor_distance_hex accumulated_record_json accumulated_expires_at None
        | Some dht_record =>
            now ← services sv_now;
            let merged_record_json := _merge_query_record_json now namespace key_hex
              accumulated_record_json (dr_record_json dht_record) in
            let merged_expires_at :=
              or_else (isoformat_naive <$> dr_expires_at dht_record) accumulated_expires_at in
            forward_result ← forward "found" query_cursor_distance_hex (Some merged_record_json)
              merged_expires_at None;
            if bool_decide (py_get (pp_metadata forward_result) "action" <> JStr "return_dht_found")
            then mret forward_result
            else
              response_payload ← build_result_payload (pe_header envelope)
                (MkDhtResult "found" key_hex [] true (Some merged_record_json) merged_expires_at []
                   None []);
              mret (dht_result envelope (Some response_payload)
                [("transport_name", JStr (pc_transport_name context));
                 ("action", JStr "return_validated_dht_record"); ("key", JStr key_hex)] None)
        end
  | _, _ => mret (_build_invalid_result envelope "invalid_dht_query_payload")
  end.

(** ** DHT_RESULT *)

(** [str(value or default)] *)
Definition str_or (value : json) (default : string) : string :=
  if negb (json_truthy value) then default
  else match value with
       | JStr s => s
       | JInt n => str_of_Z n
       | JBool _ => "True"
       | _ => str_of_container value
       end.

Definition str_value (value : json) : option string :=
  match value with JStr s => Some s | _ => None end.

(** The result as the next hop back gets it. *)
Definition returned_result (payload : jdict) : DhtResult :=
  MkDhtResult (str_or (py_get payload "status") "invalid_result") (str_or (py_get payload "key") "")
    (_read_responsible_nodes payload) (bool_decide (py_get payload "stored_locally" = JBool true))
    (str_value (py_get payload "record_json")) (str_value (py_get payload "expires_at"))
    (_read_string_list payload "stored_by") (_read_optional_int payload "required_stored_count")
    (_read_trace_context payload).

(** What the waiting request is given. *)
Definition result_data (payload : jdict) (context : PacketContext) : jdict :=
  [("status", py_get payload "status"); ("key", py_get payload "key");
   ("stored_locally", py_get payload "stored_locally");
   ("responsible_nodes", JArr (JObj <$> _read_responsible_nodes payload));
   ("record_json", py_get payload "record_json"); ("expires_at", py_get payload "expires_at");
   ("stored_by", str_list (_read_string_list payload "stored_by"));
   ("stored_count", py_get payload "stored_count");
   ("required_stored_count", py_get payload "required_stored_count");
   ("remote_host", opt_json JStr (pc_remote_host context));
   ("remote_port", opt_json JInt (pc_remote_port context));
   ("transport_name", JStr (pc_transport_name context));
   ("trace_context", JObj (_read_trace_context payload))].

(** [PhysicalDhtClient.complete_result]: the waiting future is taken out and, if it is
    not done yet, gets its result. *)
Definition complete_result (response_to_message_id : string) (result : jdict) : st DhtNode unit :=
  modify (fun n =>
    match od_get response_to_message_id (dn_pending_results n) with
    | None => n
    | Some f =>
        let n := n <| dn_pending_results := od_del response_to_message_id (dn_pending_results n) |> in
        match dn_futures n !! f with
        | Some Pending => n <| dn_futures := <[f := Done result]> (dn_futures n) |>
        | _ => n
        end
    end).

Definition complete_waiting (response_to_message_id : string) (payload : jdict)
    (context : PacketContext) : st DhtNode unit :=
  match dht_start_session with
  | Some _ => complete_result response_to_message_id (result_data payload context)
  | None => mret tt
  end.

Definition _handle_result (envelope : ProtocolEnvelope) (context : PacketContext)
    : st DhtNode PacketProcessingResult :=
  let payload := as_payload_dict envelope in
  let response_to_message_id := py_get (pe_header envelope) "response_to_message_id" in
  let resolved := dht_result envelope None
    [("transport_name", JStr (pc_transport_name context));
     ("action", JStr "resolve_pending_dht_result");
     ("response_to_message_id", response_to_message_id)] None in
  match response_to_message_id with
  | JStr message_id =>
      forwarded_result ← _pop_pending_forward message_id;
      match forwarded_result with
      | Some forwarded_result =>
          response_payload ← build_result_payload
            (Relay.dict_merge (pe_header envelope)
               [("message_id", JStr (pf_previous_message_id forwarded_result));
                ("physical_session_id", JStr (pf_previous_session_id forwarded_result))])
            (returned_result payload);
          mret (dht_result envelope None
            [("transport_name", JStr (pc_transport_name context));
             ("action", JStr "send_payload_to_physical_session");
             ("target_physical_session_id", JStr (pf_previous_session_id forwarded_result))]
            (Some response_payload))
      | None => complete_waiting message_id payload context;; mret resolved
      end
  | _ => mret resolved
  end.

Definition _build_not_implemented_result (envelope : ProtocolEnvelope) (context : PacketContext)
    : PacketProcessingResult :=
  dht_result envelope None
    [("transport_name", JStr (pc_transport_name context));
     ("database_path", JStr (dc_db_path config));
     ("next_step", JStr "implement_dht_query_and_result_flow")] None.

Definition handle (envelope : ProtocolEnvelope) (context : PacketContext)
    : st DhtNode PacketProcessingResult :=
  match pe_message_type envelope with
  | Some "DHT_PUBLISH" => _handle_publish envelope context
  | Some "DHT_QUERY" => _handle_query envelope context
  | Some "DHT_RESULT" => _handle_result envelope context
  | _ => mret (_build_not_implemented_result envelope context)
  end.
End handler.
