(* ===== verification/DhtTable.v ===== *)
(** * The table of DHT records

    What the messages of [DhtHandler.v] do to the table: every operation of the
    handler stores records one after the other, and the tables it can reach have one
    validated row per key. *)

From S2P Require Import Prelude PyJson PyTime PyInt PyFloat Crypto JsonText Records Pow Merge.
From S2P Require Import Transport Reliable Sessions Identity DhtService RouteService Core Engine DhtHandler.

(** Elements with the same value of a field that tells them apart are the same. *)
Lemma fmap_NoDup_eq {A B} (f : A -> B) (l : list A) x y :
  NoDup (f <$> l) -> x ∈ l -> y ∈ l -> f x = f y -> x = y.
Proof.
  intros Hnd Hx Hy Hf. apply list_elem_of_lookup in Hx as [i Hi], Hy as [j Hj].
  assert (i = j) as <-; [|congruence].
  apply (NoDup_lookup _ i j (f x) Hnd); rewrite list_lookup_fmap.
  - by rewrite Hi.
  - by rewrite Hj, Hf.
Qed.

Lemma elem_of_List_filter {A} (p : A -> bool) (l : list A) x : x ∈ List.filter p l <-> x ∈ l /\ p x = true.
Proof. by rewrite !list_elem_of_In, List.filter_In. Qed.

(** ** The table *)

(** One row per key, all validated, with ids of their own. *)
Record records_wf (records : list DhtRecord) : Prop := {
  rw_ids : NoDup (dr_id <$> records);
  rw_keys : NoDup (dr_key <$> records);
  rw_validated : Forall (fun r => is_Some (dr_last_validated_at r)) records;
}.

Section table.
Context `{FloatText} `{OpenSSL} `{IsoParser}.
Context (config : DhtConfig).

(** The table after one record arrived. *)
Inductive table_step : relation (list DhtRecord) :=
| Table_upsert now key_hex namespace logical_key record_json expires_at source records :
    table_step records
      (upsert_records config now key_hex namespace logical_key record_json expires_at source records).

Lemma validated_record_spec key r :
  validated_record key r = true <-> dr_key r = key /\ is_Some (dr_last_validated_at r).
Proof. unfold validated_record. by rewrite andb_true_iff, !bool_decide_eq_true. Qed.

Lemma latest_record_None key records :
  latest_record key records = None <-> Forall (fun r => validated_record key r = false) records.
Proof.
  unfold latest_record. rewrite list.Forall_forall. split.
  - intros Hh r Hr. destruct (validated_record key r) eqn:E; [|done].
    assert (r ∈ List.filter (validated_record key) records) as Hin.
    { apply list_elem_of_In, List.filter_In. by rewrite <- list_elem_of_In. }
    rewrite <- (elem_of_py_sorted (fun r => (- default 0 (dr_last_validated_at r), - dr_updated_at r))) in Hin.
    destruct (py_sorted _ _); [by apply not_elem_of_nil in Hin|done].
  - intros Hall. assert (List.filter (validated_record key) records = []) as ->; [|done].
    induction records as [|x l IH]; [done|]. cbn [List.filter]. rewrite (Hall x) by left.
    apply IH. intros r Hr. apply Hall. by right.
Qed.

Lemma latest_record_Some key records r :
  latest_record key records = Some r -> r ∈ records /\ validated_record key r = true.
Proof.
  unfold latest_record. intros Hh.
  assert (r ∈ List.filter (validated_record key) records) as Hin.
  { rewrite <- (elem_of_py_sorted (fun r => (- default 0 (dr_last_validated_at r), - dr_updated_at r))).
    destruct (py_sorted _ _); [done|]. injection Hh as ->. left. }
  apply list_elem_of_In, List.filter_In in Hin as [Hin Hv]. by rewrite list_elem_of_In.
Qed.

(** A record with the key is found exactly when there is a validated row of it. *)
Lemma latest_record_is_Some key records :
  is_Some (latest_record key records) <-> exists r, r ∈ records /\ validated_record key r = true.
Proof.
  destruct (latest_record key records) as [r|] eqn:E.
  - split; [|done]. intros _. exists r. by apply latest_record_Some.
  - split; [by intros []|]. intros (r & Hr & Hv). apply latest_record_None in E.
    rewrite list.Forall_forall in E. by rewrite (E r Hr) in Hv.
Qed.

Lemma next_record_id_fresh records r : r ∈ records -> dr_id r < next_record_id records.
Proof.
  unfold next_record_id. induction records as [|x l IH]; intros Hr; [by apply not_elem_of_nil in Hr|].
  cbn [foldr]. apply elem_of_cons in Hr as [-> |Hr]; [lia|]. specialize (IH Hr). lia.
Qed.

Lemma insert_record_wf now key ns lk record_json source expires_at records :
  records_wf records -> latest_record key records = None ->
  records_wf (insert_record now key ns lk record_json source expires_at records).
Proof.
  intros [Hids Hkeys Hval] Hnone. apply latest_record_None in Hnone. rewrite list.Forall_forall in Hnone, Hval.
  unfold insert_record. split.
  - rewrite fmap_app. apply NoDup_app. split; [done|]. split; [|apply NoDup_singleton].
    intros i (r & -> & Hr)%list_elem_of_fmap Hi%list_elem_of_singleton.
    apply next_record_id_fresh in Hr. cbn in Hi. lia.
  - rewrite fmap_app. apply NoDup_app. split; [done|]. split; [|apply NoDup_singleton].
    intros k (r & -> & Hr)%list_elem_of_fmap Hk%list_elem_of_singleton. cbn in Hk.
    specialize (Hnone r Hr). assert (validated_record key r = true); [|congruence].
    apply validated_record_spec. auto.
  - apply Forall_app. split; [by apply list.Forall_forall|]. by repeat constructor.
Qed.

(** The changed row has the id and the key of the old one. *)
Lemma replace_record_map now key ns lk record_json source expires_at r records :
  records_wf records -> latest_record key records = Some r ->
  let updated := MkDhtRecord (dr_id r) key ns lk record_json (Some source) (Some now) expires_at
    (dr_created_at r) now in
  replace_record now key ns lk record_json source expires_at r records =
    (fun x => if bool_decide (dr_id x = dr_id r) then updated else x) <$> records.
Proof.
  intros [Hids Hkeys Hval] [Hr [Hk _]%validated_record_spec]%latest_record_Some.
  unfold replace_record. cbv zeta.
  replace (r <| dr_namespace := ns |> <| dr_logical_key := lk |> <| dr_record_json := record_json |>
    <| dr_source := Some source |> <| dr_last_validated_at := Some now |>
    <| dr_expires_at := expires_at |> <| dr_updated_at := now |>)
    with (MkDhtRecord (dr_id r) key ns lk record_json (Some source) (Some now) expires_at (dr_created_at r) now)
    by (rewrite <- Hk; reflexivity).
  set (g := fun x => if bool_decide (dr_id x = dr_id r) then _ else x).
  assert (forall x, x ∈ records -> dr_key x = key -> dr_id x = dr_id r) as Huniq.
  { intros x Hx Hxk. rewrite <- Hk in Hxk. by rewrite (fmap_NoDup_eq dr_key records x r). }
  assert (forall l, (forall x, x ∈ l -> x ∈ records) ->
    List.filter (fun x => negb (bool_decide (dr_key x = key) && bool_decide (dr_id x <> dr_id r))) (g <$> l)
    = g <$> l) as Hfilter; [|by apply Hfilter].
  induction l as [|x l IH]; intros Hl; [done|]. cbn [fmap list_fmap List.filter].
  assert (negb (bool_decide (dr_key (g x) = key) && bool_decide (dr_id (g x) <> dr_id r)) = true) as ->.
  { apply negb_true_iff, andb_false_iff. unfold g. destruct (bool_decide_reflect (dr_id x = dr_id r)) as [Hx|Hx]; cbn [dr_id].
    - right. apply bool_decide_eq_false. intros Hne. by apply Hne.
    - left. apply bool_decide_eq_false. intros Hxk. apply Hx, Huniq; [apply Hl; left|done]. }
  f_equal. apply IH. intros y Hy. apply Hl. by right.
Qed.

Lemma replace_record_wf now key ns lk record_json source expires_at r records :
  records_wf records -> latest_record key records = Some r ->
  records_wf (replace_record now key ns lk record_json source expires_at r records).
Proof.
  intros Hwf Hr. rewrite replace_record_map by done. cbv zeta.
  pose proof Hr as [Hin [Hk _]%validated_record_spec]%latest_record_Some.
  destruct Hwf as [Hids Hkeys Hval]. set (u := MkDhtRecord _ _ _ _ _ _ _ _ _ _).
  split.
  - rewrite <- list_fmap_compose. rewrite (list_fmap_ext _ dr_id records); [exact Hids|].
    intros i x _. cbn. by case_bool_decide.
  - rewrite <- list_fmap_compose. rewrite (list_fmap_ext _ dr_key records); [exact Hkeys|].
    intros i x Hx%list_elem_of_lookup_2. cbn. case_bool_decide as Hi; [|done].
    by rewrite (fmap_NoDup_eq dr_id records x r Hids Hx Hin Hi), Hk.
  - apply Forall_fmap. eapply Forall_impl; [exact Hval|]. intros x Hx. cbn.
    by case_bool_decide.
Qed.

Lemma upsert_records_wf now key ns lk record_json expires_at source records :
  records_wf records ->
  records_wf (upsert_records config now key ns lk record_json expires_at source records).
Proof.
  intros Hwf. unfold upsert_records. destruct (negb _); [done|].
  destruct (latest_record key records) as [r|] eqn:Hr.
  - destruct (merge_record _ _ _ _ _ _); [by apply replace_record_wf|done].
  - by apply insert_record_wf.
Qed.

Lemma table_steps_wf records records' :
  rtc table_step records records' -> records_wf records -> records_wf records'.
Proof. induction 1 as [|? ? ? [] _ IH]; auto using upsert_records_wf. Qed.

(** No row is ever lost, and none changes its key. *)
Lemma upsert_records_keeps now key ns lk record_json expires_at source records (r : DhtRecord) :
  records_wf records -> r ∈ records ->
  exists r' : DhtRecord, r' ∈ upsert_records config now key ns lk record_json expires_at source records /\
    dr_id r' = dr_id r /\ dr_key r' = dr_key r.
Proof.
  intros Hwf Hin. unfold upsert_records. destruct (negb _); [eauto|].
  destruct (latest_record key records) as [e|] eqn:He.
  - destruct (merge_record _ _ _ _ _ _) as [text|]; [|eauto]. rewrite replace_record_map by done. cbv zeta.
    eexists. split; [by apply list_elem_of_fmap_2|]. cbv beta. case_bool_decide as Hi; [|done].
    split; [done|]. cbn [dr_key]. apply latest_record_Some in He as [He [<- _]%validated_record_spec].
    destruct Hwf as [Hids _ _]. by rewrite (fmap_NoDup_eq dr_id records r e).
  - unfold insert_record. exists r. split; [|done]. apply elem_of_app. by left.
Qed.
End table.

(** ** What handling a message changes *)

Section moves.
Context `{FloatText} `{Entropy} `{OpenSSL} `{IsoParser} `{DhtEnv}.
Context (config : DhtConfig).

(** Records arrive one after the other; a pending forward has one entry. *)
Definition dht_moves : relation DhtNode := fun n n' =>
  rtc (table_step config) (dn_records n) (dn_records n') /\
  (od_wf (dn_pending_forwards n) -> od_wf (dn_pending_forwards n')).

#[export] Instance dht_moves_preorder : PreOrder dht_moves.
Proof.
  split; [by split|]. intros n1 n2 n3 [Hr1 Hp1] [Hr2 Hp2]. split; [by etrans|auto].
Qed.

Definition moves {A} (m : st DhtNode A) : Prop := forall n r n', m n = (r, n') -> dht_moves n n'.

(** The tasks that run while a session is opened change the table only by storing
    records. *)
Class DhtEnvLaws : Prop := {
  start_session_moves : forall start_session node_id,
    dht_start_session = Some start_session -> moves (start_session node_id);
}.

Lemma moves_ret {A} (a : A) : moves (mret a).
Proof. by intros n r n' [= _ <-]. Qed.

Lemma moves_lift {A} (r : res A) : moves (lift r).
Proof. by intros n r' n' [= _ <-]. Qed.

Lemma moves_gets {A} (f : DhtNode -> A) : moves (gets f).
Proof. by intros n r n' [= _ <-]. Qed.

Lemma moves_bind {A B} (m : st DhtNode A) (f : A -> st DhtNode B) :
  moves m -> (forall a, moves (f a)) -> moves (m ≫= f).
Proof.
  intros Hm Hf n r n'. unfold mbind, st_bind. destruct (m n) as [[a|e] n1] eqn:E; intros Hr.
  - etrans; [by eapply Hm|by eapply Hf].
  - injection Hr as <- <-. by eapply Hm.
Qed.

Lemma moves_on_services {A} (m : st Services A) : moves (on_services m).
Proof. intros n r n'. unfold on_services. destruct (m _). intros [= _ <-]. by split. Qed.

Lemma moves_catch {A} p (m : st DhtNode A) h :
  moves m -> (forall e, moves (h e)) -> moves (catch_exn p m h).
Proof.
  intros Hm Hh n r n'. unfold catch_exn. destruct (m n) as [[a|e] n1] eqn:E; intros Hr.
  - injection Hr as <- <-. by eapply Hm.
  - destruct (p e); [|injection Hr as <- <-; by eapply Hm].
    etrans; [by eapply Hm|by eapply Hh].
Qed.

Lemma moves_pending f :
  (forall d, od_wf d -> od_wf (f d)) ->
  moves (modify (fun n => n <| dn_pending_forwards := f (dn_pending_forwards n) |>)).
Proof. intros Hf n r n' [= _ <-]. split; [done|exact (Hf _)]. Qed.

Lemma moves_upsert key ns lk record_json expires_at source :
  moves (_upsert_local_record config key ns lk record_json expires_at source).
Proof. intros n r n' [= _ <-]. split; [apply rtc_once, Table_upsert|done]. Qed.
End moves.

Create HintDb dht.
#[export] Hint Resolve moves_ret moves_lift moves_gets moves_on_services moves_catch moves_pending
  moves_upsert : dht.

(** Follows the code of an operation. *)
Ltac moves :=
  repeat first
    [ progress intros
    | progress unfold services, monotonic
    | solve [eauto with dht]
    | apply moves_bind
    | case_match ].

Section handling.
Context `{FloatText} `{Entropy} `{OpenSSL} `{IsoParser} `{DhtEnv}.
Context (config : DhtConfig).

Lemma od_wf_filter {V} (p : string * V -> bool) (d : odict string V) : od_wf d -> od_wf (List.filter p d).
Proof.
  unfold od_wf. induction d as [|x d IH]; [done|]. cbn [fmap list_fmap List.filter].
  intros [Hx Hd]%NoDup_cons. destruct (p x); [|auto]. cbn. apply NoDup_cons. split; [|auto].
  intros (y & Hy & [Hin _]%list_elem_of_In%List.filter_In)%list_elem_of_fmap. apply Hx. rewrite Hy.
  by apply list_elem_of_fmap_2, list_elem_of_In.
Qed.

Lemma moves_cleanup : moves config (_cleanup_pending_forwards config).
Proof. unfold _cleanup_pending_forwards. moves. apply moves_pending. intros. by apply od_wf_filter. Qed.

Lemma moves_result header r : moves config (build_result_payload header r).
Proof. unfold build_result_payload. moves. Qed.
#[local] Hint Resolve moves_cleanup moves_result : dht.

Lemma moves_remember fid sid mid : moves config (_remember_pending_forward config fid sid mid).
Proof.
  unfold _remember_pending_forward. moves. apply moves_pending. intros. by apply od_set_wf.
Qed.

Lemma moves_pop fid : moves config (_pop_pending_forward config fid).
Proof.
  unfold _pop_pending_forward. moves.
  intros n r n' [= _ <-]. split; [done|]. intros Hwf. by apply od_del_wf.
Qed.
#[local] Hint Resolve moves_remember moves_pop : dht.

Lemma moves_response envelope context r : moves config (_build_result_response envelope context r).
Proof. unfold _build_result_response. moves. Qed.

Lemma moves_closest key : moves config (select_closest config key).
Proof. unfold select_closest. moves. Qed.

Context `{!DhtEnvLaws config}.

Lemma moves_open_session node_id : moves config (open_session node_id).
Proof.
  unfold open_session. destruct dht_start_session as [start_session|] eqn:E; moves.
  apply moves_catch; moves. by apply start_session_moves.
Qed.
#[local] Hint Resolve moves_response moves_closest moves_open_session : dht.

Lemma moves_session_to node_id : moves config (session_to node_id).
Proof. unfold session_to. moves. Qed.
#[local] Hint Resolve moves_session_to : dht.

Lemma moves_select_next nodes previous stored_by cursor :
  moves config (_select_next_session nodes previous stored_by cursor).
Proof. induction nodes as [|node nodes IH]; cbn [_select_next_session]; cbv zeta; moves. Qed.
#[local] Hint Resolve moves_select_next : dht.

Lemma moves_forward envelope context key nodes failure_status stored_by required cursor record_json
    expires_at trace :
  moves config (_forward_or_return_failure config envelope context key nodes failure_status stored_by
    required cursor record_json expires_at trace).
Proof. unfold _forward_or_return_failure, send_forward, _get_previous_session. cbv zeta. moves. Qed.
#[local] Hint Resolve moves_forward : dht.

Lemma moves_complete message_id payload context : moves config (complete_waiting message_id payload context).
Proof.
  unfold complete_waiting, complete_result. destruct dht_start_session; moves.
  intros n r n' [= _ <-]. by repeat case_match.
Qed.
#[local] Hint Resolve moves_complete : dht.

(** Handling any message. *)
Lemma moves_handle envelope context : moves config (handle config envelope context).
Proof.
  unfold handle, _handle_publish, _handle_query, _handle_result, publish_here,
    _resolve_local_distance_hex, _load_validated_local_record. cbv zeta. moves.
Qed.
End handling.

(** ** Reachable tables *)

Section reachable.
Context `{FloatText} `{Entropy} `{OpenSSL} `{IsoParser} `{DhtEnv}.
Context (config : DhtConfig).

(** What happens to the handler's state: a message is handled, the client stores a
    record of its own, other parts of the node work on the services. *)
Inductive dht_reachable : DhtNode -> Prop :=
| Reach_start s : dht_reachable (MkDhtNode s [] [] [] [])
| Reach_handle envelope context n r n' :
    dht_reachable n -> handle config envelope context n = (r, n') -> dht_reachable n'
| Reach_upsert key namespace logical_key record_json expires_at source n r n' :
    dht_reachable n ->
    _upsert_local_record config key namespace logical_key record_json expires_at source n = (r, n') ->
    dht_reachable n'
| Reach_services s n : dht_reachable n -> dht_reachable (n <| dn_services := s |>).

Lemma table_steps_keep records records' (r : DhtRecord) :
  rtc (table_step config) records records' -> records_wf records -> r ∈ records ->
  exists r', r' ∈ records' /\ dr_id r' = dr_id r /\ dr_key r' = dr_key r.
Proof.
  intros Hs. revert r. induction Hs as [l|l1 l2 l3 Hstep _ IH]; intros r Hwf Hr; [eauto|].
  destruct Hstep. edestruct upsert_records_keeps as (r1 & Hr1 & Hi1 & Hk1); [exact Hwf|exact Hr|].
  destruct (IH r1) as (r2 & Hr2 & Hi2 & Hk2); [by apply upsert_records_wf|exact Hr1|].
  exists r2. split; [done|]. by rewrite Hi2, Hk2.
Qed.

Lemma wf_latest_record records key r :
  records_wf records -> latest_record key records = Some r <-> r ∈ records /\ dr_key r = key.
Proof.
  intros [Hids Hkeys Hval]. rewrite list.Forall_forall in Hval. split.
  - intros [Hr [Hk _]%validated_record_spec]%latest_record_Some. done.
  - intros [Hr Hk]. destruct (latest_record key records) as [r'|] eqn:E.
    + apply latest_record_Some in E as [Hr' [Hk' _]%validated_record_spec]. f_equal.
      apply (fmap_NoDup_eq dr_key records); [done..|]. congruence.
    + apply latest_record_None in E. rewrite list.Forall_forall in E. specialize (E r Hr).
      assert (validated_record key r = true); [|congruence]. apply validated_record_spec. auto.
Qed.

Context `{!DhtEnvLaws config}.

Lemma reachable_wf n :
  dht_reachable n -> records_wf (dn_records n) /\ od_wf (dn_pending_forwards n).
Proof.
  induction 1 as [s|envelope context n r n' _ IH Hh|key ns lk text exp src n r n' _ IH Hu|s n _ IH].
  - split; [split; constructor|constructor].
  - destruct IH as [Hr Hp]. apply (moves_handle config) in Hh as [Hs Hw].
    split; [by eapply table_steps_wf|auto].
  - destruct IH as [Hr Hp]. apply (moves_upsert config) in Hu as [Hs Hw].
    split; [by eapply table_steps_wf|auto].
  - exact IH.
Qed.

(** C29: the table of DHT records. In every state the handler can reach there is
    at most one row per key, all rows are validated and have ids of their own,
    and the row a query of a key reads is the row of that key; whatever message
    is handled, and however it ends, no row is lost: it stays, under its id and
    key, possibly with newer content. *)
Theorem dht_table_invariant (n : DhtNode) :
  dht_reachable n ->
  records_wf (dn_records n) /\
  (forall key r, latest_record key (dn_records n) = Some r <-> r ∈ dn_records n /\ dr_key r = key) /\
  (forall envelope context r n', handle config envelope context n = (r, n') ->
   dht_reachable n' /\
   forall row, row ∈ dn_records n ->
     exists row', row' ∈ dn_records n' /\ dr_id row' = dr_id row /\ dr_key row' = dr_key row).
Proof.
  intros Hn. destruct (reachable_wf n Hn) as [Hwf _]. split; [done|].
  split; [intros; by apply wf_latest_record|]. intros envelope context r n' Hh.
  split; [by eapply Reach_handle|]. intros row Hrow.
  apply (moves_handle config) in Hh as [Hs _]. by eapply table_steps_keep.
Qed.
End reachable.

(** ** Witnesses *)

#[local] Existing Instance demo_entropy.
#[local] Existing Instance iso_extended.
#[local] Instance demo_float : FloatText := fun s => s.

#[local] Instance demo_openssl : OpenSSL := {|
  openssl_sign := fun _ _ => Ok "s";
  openssl_verify := fun _ _ _ => Ok tt;
  openssl_encap := fun _ => Ok ("c", "k");
  openssl_decap := fun _ _ => Ok "k";
|}.

#[local] Instance demo_dht_env : DhtEnv := {|
  dht_monotonic := fun _ => S754_zero false;
  iso_fields := fun _ => None;
  str_of_container := fun _ => "container";
  dht_start_session := Some (fun _ => raise (OSError "unreachable"));
|}.

#[local] Instance demo_dht_laws config : DhtEnvLaws config.
Proof. split. by intros start_session node_id [= <-] n r n' [= _ <-]. Qed.

Definition demo_dht_config : DhtConfig :=
  MkDhtConfig 0 1 4 (float_of_int 60) 6 (float_of_int 30) "node.db".

(** Two nodes that know each other; [ff] is closer to the key and the only responsible
    one. *)
Definition demo_dht_db (local remote : string) : Database :=
  MkDatabase [MkLocalNode local "pk" "sk" "ml-dsa-65" "active" 0] [] [DhtService.demo_node remote] []
    [MkNodeEndpoint 1 remote "tcp" "10.0.0.2" 19001 0 true None None 0 None] [] [].

Definition demo_dht_sessions : SessionManager :=
  match create_outbound_physical_session new_session_manager "sid-1" 1000 "00" "ff"
          (Some "pk") "tcp" "10.0.0.2" 19001 20 with
  | Ok (_, sm) => (activate_session sm "sid-1" 2000).2
  | Raise _ => new_session_manager
  end.

Definition demo_dht_node (sm : SessionManager) (local remote : string) : DhtNode :=
  MkDhtNode (MkServices sm [] (demo_dht_db local remote) ∅ 0 3000 0 [] []) [] [] [] [].

Definition demo_forwarder : DhtNode := demo_dht_node demo_dht_sessions "00" "ff".
Definition demo_responsible : DhtNode := demo_dht_node new_session_manager "ff" "00".

Definition demo_dtt : DttRecordPayload :=
  MkDtt [MkDttEntry "res" "pk" "2024-01-01T00:00:00+00:00" "2999-01-01T00:00:00+00:00" "ab" (Some (PyInt 0))].
Definition demo_record_text : string := serialize_record (Dtt demo_dtt).

Definition demo_publish : ProtocolEnvelope :=
  MkEnvelope "json" (Some "DHT_PUBLISH")
    (JObj [("namespace", JStr "dtt"); ("logical_key", JStr "tag"); ("record_json", JStr demo_record_text);
           ("pow_nonce", JInt 0); ("stored_by", JArr []); ("ttl", JInt 3)]) ""
    [("version", JInt 1); ("message_type", JStr "DHT_PUBLISH"); ("message_id", JStr "m-0");
     ("physical_session_id", JStr "sid-0")].

Definition demo_context : PacketContext := MkContext "tcp" "" None None None None None 0 [].

(** The responsible node after it has handled the publication. *)
Definition demo_stored : DhtNode := (handle demo_dht_config demo_publish demo_context demo_responsible).2.

Lemma dht_table_invariant_witness :
  dr_key <$> dn_records demo_stored = [catch_all "" (build_key "dtt" "tag")] /\
  records_wf (dn_records demo_stored).
Proof.
  split; [vm_compute; reflexivity|]. apply (dht_table_invariant demo_dht_config demo_stored).
  apply (Reach_handle demo_dht_config demo_publish demo_context demo_responsible
    (handle demo_dht_config demo_publish demo_context demo_responsible).1); [apply Reach_start|].
  unfold demo_stored. by destruct (handle _ _ _ _).
Defined.
