(* ===== verification/DhtRequests.v ===== *)
(** * Requests on their way through the DHT

    What the nodes along the way of a publication or a query do with it, each
    handling by [DhtHandler.v] the packet of the one before. *)

From S2P Require Import Prelude PyJson PyTime PyInt PyFloat Crypto JsonText Records Pow Merge.
From S2P Require Import Transport Reliable Sessions Identity DhtService RouteService Core Engine.
From S2P Require Import DhtHandler DhtTable.

(** ** Packets between nodes *)

Section packets.
Context `{FloatText}.

(** The packet as the engine of the next node hands it to the handler: read as JSON,
    the header possibly marked as having been encrypted. *)
Inductive arrives (packet : string) (e : ProtocolEnvelope) : Prop :=
| Arrives d header payload :
    _load_json_packet packet = JObj d ->
    py_get d "header" = JObj header -> py_get d "payload" = JObj payload ->
    pe_payload e = JObj payload ->
    pe_message_type e = str_value (py_get header "message_type") ->
    (forall k, k <> "payload_encrypted" -> py_get (pe_header e) k = py_get header k) ->
    dict_wf (pe_header e) -> dict_wf payload -> arrives packet e.

(** A message as the engine reads it. *)
Record readable (e : ProtocolEnvelope) : Prop := {
  rd_header : dict_wf (pe_header e);
  rd_payload : dict_wf (as_payload_dict e);
  rd_type : pe_message_type e = str_value (py_get (pe_header e) "message_type");
}.

Definition packet_text (header payload : jdict) : string :=
  CommonJson.compact_json_bytes [("header", JObj header); ("payload", JObj payload)].

Lemma arrives_packet header payload e :
  arrives (packet_text header payload) e -> dict_wf header -> dict_wf payload ->
  pe_payload e = JObj (norm_dict payload) /\
  pe_message_type e = str_value (py_get header "message_type") /\
  (forall k, k <> "payload_encrypted" -> py_get (pe_header e) k = json_norm (py_get header k)) /\
  readable e.
Proof.
  intros [d h p Hd Hh Hp Hpay Hty Hhead Hwf1 Hwf2] Hwh Hwp.
  destruct (load_packet header payload Hwh Hwp) as (d' & Hd' & Hh' & Hp').
  assert (d = d') as <-.
  { change (_load_json_packet (_build_json_packet_bytes header payload) = JObj d) in Hd. congruence. }
  rewrite Hh in Hh'. injection Hh' as ->. rewrite Hp in Hp'. injection Hp' as ->.
  split_and!; try done.
  - rewrite Hty, py_get_norm by done. by destruct (py_get header "message_type").
  - intros k Hk. by rewrite Hhead, py_get_norm.
  - split; [done| |by rewrite Hhead].
    unfold as_payload_dict. by rewrite Hpay.
Qed.

(** *** Lists of strings *)

Lemma distinct_strings_spec items result :
  Forall (fun s => s <> "") result -> NoDup result ->
  Forall (fun s => s <> "") (distinct_strings items result) /\ NoDup (distinct_strings items result).
Proof.
  revert result. induction items as [|item items IH]; intros result Hne Hnd; [done|].
  destruct item; cbn [distinct_strings]; try by apply IH.
  destruct (str_truthy s && negb (bool_decide (s ∈ result))) eqn:E; [|by apply IH].
  apply andb_true_iff in E as [Hs%str_truthy_spec Hin%negb_true_iff%bool_decide_eq_false].
  apply IH; [by apply Forall_app; repeat constructor|].
  apply NoDup_app. split; [done|]. split; [|apply NoDup_singleton].
  intros x Hx ->%list_elem_of_singleton. done.
Qed.

Lemma read_string_list_spec payload k :
  Forall (fun s => s <> "") (_read_string_list payload k) /\ NoDup (_read_string_list payload k).
Proof.
  unfold _read_string_list. destruct (py_get payload k); try (split; constructor).
  apply distinct_strings_spec; constructor.
Qed.

Lemma distinct_strings_id l result :
  Forall (fun s => s <> "") l -> NoDup (result ++ l) -> distinct_strings (JStr <$> l) result = result ++ l.
Proof.
  revert result. induction l as [|s l IH]; intros result Hne Hnd; cbn [fmap list_fmap distinct_strings].
  - by rewrite app_nil_r.
  - apply Forall_cons in Hne as [Hs Hne]. rewrite (proj2 (str_truthy_spec s)) by done.
    rewrite bool_decide_eq_false_2; cbn [negb andb].
    + rewrite IH by (rewrite <- ?app_assoc; done). by rewrite <- app_assoc.
    + apply NoDup_app in Hnd as (_ & Hdis & _). intros Hin. apply (Hdis s Hin). left.
Qed.

(** A list of distinct names is read as it was written. *)
Lemma read_str_list payload k l :
  py_get payload k = str_list l -> Forall (fun s => s <> "") l -> NoDup l ->
  _read_string_list payload k = l.
Proof.
  intros Hg Hne Hnd. unfold _read_string_list, str_list in *. rewrite Hg.
  by rewrite distinct_strings_id.
Qed.

Lemma norm_str_list l : json_norm (str_list l) = str_list l.
Proof.
  unfold str_list. cbn [json_norm]. f_equal. rewrite map_map.
  induction l as [|s l IH]; [done|]. cbn. by f_equal.
Qed.

(** The names in a list that was read are Unicode text. *)
Lemma read_string_list_unicode payload k :
  dict_wf payload -> Forall unicode (_read_string_list payload k).
Proof.
  intros Hwf. unfold _read_string_list, py_get. destruct (od_get k payload) as [v|] eqn:E; [|constructor].
  cbn [default from_option id]. pose proof (dict_wf_get payload k v Hwf E) as Hv.
  destruct v; try constructor. inversion_clear Hv as [| | | | |? Hl|].
  assert (forall items result, Forall json_wf items -> Forall unicode result ->
    Forall unicode (distinct_strings items result)) as Hd; [|by apply Hd].
  clear. induction items as [|item items IH]; intros result Hi Hr; [done|].
  apply Forall_cons in Hi as [Hi His]. destruct item; cbn [distinct_strings]; try by apply IH.
  destruct (_ && _); apply IH; try done. apply Forall_app. repeat constructor; [done|]. by inversion Hi.
Qed.
End packets.

(** ** One node *)

Section node.
Context `{FloatText} `{Entropy} `{OpenSSL} `{IsoParser} `{DhtEnv}.
Context (config : DhtConfig).

Lemma select_next_inv nodes previous stored_by cursor n session n' :
  _select_next_session nodes previous stored_by cursor n = (Ok (Some session), n') ->
  exists node, node ∈ nodes /\ skip_node previous stored_by cursor node = false.
Proof.
  revert n. induction nodes as [|node nodes IH]; intros n Hr; [done|].
  cbn [_select_next_session] in Hr. cbv zeta in Hr.
  destruct (skip_node previous stored_by cursor node) eqn:Hs.
  - destruct (IH _ Hr) as (x & Hx & Hxs). exists x. split; [by right|done].
  - exists node. split; [left|done].
Qed.

(** The header of a forwarded request. *)
Definition forward_header (envelope : ProtocolEnvelope) (message_id session_id : string) : jdict :=
  Relay.dict_merge (pe_header envelope)
    [("message_id", JStr message_id); ("physical_session_id", JStr session_id)].

Lemma send_forward_inv envelope context key ttl p session n r n' :
  send_forward config envelope context key ttl p session n = (Ok r, n') ->
  let message_id := uuid4 (sv_entropy (dn_services n)) in
  pp_payload r = Some (packet_text (forward_header envelope message_id (ns_session_id session))
                         (forward_payload envelope ttl p)) /\
  py_get (pp_metadata r) "target_physical_session_id" = JStr (ns_session_id session) /\
  py_get (pp_metadata r) "action" = JStr "send_payload_to_physical_session" /\
  dn_records n' = dn_records n /\
  (forall previous_message_id previous_session_id,
   py_get (pe_header envelope) "message_id" = JStr previous_message_id ->
   py_get (pe_header envelope) "physical_session_id" = JStr previous_session_id ->
   exists created_at, od_get message_id (dn_pending_forwards n') =
     Some (MkPendingForward previous_session_id previous_message_id created_at)).
Proof.
  intros Hr message_id. unfold send_forward in Hr.
  erewrite st_bind_run in Hr by reflexivity. cbv zeta in Hr. fold message_id in Hr.
  apply st_bind_Ok in Hr as (u & n1 & Hm & Hr). injection Hr as <- <-.
  split; [reflexivity|]. split; [reflexivity|]. split; [reflexivity|].
  assert (forall sid mid n0 u n1, _remember_pending_forward config message_id sid mid n0 = (Ok u, n1) ->
    dn_records n1 = dn_records n0 /\
    exists t, od_get message_id (dn_pending_forwards n1) = Some (MkPendingForward sid mid t)) as Hrem.
  { intros sid mid n0 u0 n2 [= _ <-]. split; [done|]. eexists. cbn. apply od_get_set_eq. }
  split.
  - by repeat case_match; injection Hm as _ <-.
  - intros mid sid Hmid Hsid. rewrite Hmid, Hsid in Hm. by apply Hrem in Hm as [_ Hm].
Qed.

(** What a request's progress is at a node, whether it goes on or not. *)
Lemma forward_inv envelope context key nodes failure_status sb rc cursor rj exp trace n r n' :
  _forward_or_return_failure config envelope context key nodes failure_status sb rc cursor rj exp trace n
    = (Ok r, n') ->
  let p := resolve_progress (as_payload_dict envelope) nodes sb rc cursor rj exp trace in
  let ttl := _read_ttl (as_payload_dict envelope) (dc_dht_request_max_forward_hops config) in
  (exists node previous session n1, 0 < ttl /\ node ∈ nodes /\
     skip_node previous (pg_stored_by p)
       (if bool_decide (pe_message_type envelope = Some "DHT_QUERY")
        then _parse_distance_hex (pg_query_cursor_distance_hex p) else None) node = false /\
     send_forward config envelope context key ttl p session n1 = (Ok r, n')) \/
  (exists status n1, (status = "ttl_expired" \/ status = failure_status) /\
     _build_result_response envelope context
       (MkDhtResult
          (_select_failed_publish_status (pe_message_type envelope) (pg_stored_by p) status)
          key (_summarize_responsible_nodes nodes) false (pg_query_record_json p)
          (pg_query_expires_at p) (pg_stored_by p) (Some (pg_required_stored_count p))
          (pg_trace_context p)) n1 = (Ok r, n')).
Proof.
  intros Hr p ttl. unfold _forward_or_return_failure in Hr. cbv zeta in Hr. fold p ttl in Hr.
  destruct (Z.leb_spec ttl 0) as [Ht|Ht].
  { right. exists "ttl_expired", n. split; [by left|exact Hr]. }
  apply st_bind_Ok in Hr as (previous & n1 & _ & Hr).
  apply st_bind_Ok in Hr as (session & n2 & Hsel & Hr). destruct session as [session|].
  - apply select_next_inv in Hsel as (node & Hin & Hskip). left.
    exists node, (ns_remote_identity_id <$> previous), session, n2. done.
  - right. exists failure_status, n2. split; [by right|exact Hr].
Qed.

Lemma response_inv envelope context rs n r n' :
  _build_result_response envelope context rs n = (Ok r, n') ->
  pp_payload r = None /\
  pp_response_payload r = Some (packet_text
    (result_header (uuid4 (sv_entropy (dn_services n))) (pe_header envelope)) (result_payload rs)) /\
  dn_records n' = dn_records n /\ dn_pending_forwards n' = dn_pending_forwards n.
Proof. intros [= <- <-]. done. Qed.

(** *** A publication *)

(** The key a request is about. *)
Definition request_key (payload : jdict) : option string :=
  namespace ← read_string_or_none payload "namespace";
  logical_key ← read_string_or_none payload "logical_key";
  match build_key namespace logical_key with Ok key => Some key | Raise _ => None end.

(** The node has a validated record of the key. *)
Definition holds (key : string) (n : DhtNode) : Prop := is_Some (latest_record key (dn_records n)).

Lemma holds_moves key n n' :
  dht_moves config n n' -> records_wf (dn_records n) -> holds key n -> holds key n'.
Proof.
  intros [Hs _] Hwf Hh. pose proof (table_steps_wf config _ _ Hs Hwf) as Hwf'. destruct Hh as [r Hr].
  apply wf_latest_record in Hr as [Hr Hk]; [|done].
  destruct (table_steps_keep config _ _ r Hs Hwf Hr) as (r' & Hr' & _ & Hk').
  exists r'. apply wf_latest_record; [done|]. split; [done|congruence].
Qed.

(** A record with valid proofs of work arrives: afterwards there is one of its key. *)
Lemma upsert_holds key namespace logical_key record_json expires_at source n u n' :
  validate_record_payload_pow namespace key record_json (dc_network_pow_difficulty_bits config) = true ->
  records_wf (dn_records n) ->
  _upsert_local_record config key namespace logical_key record_json expires_at source n = (Ok u, n') ->
  holds key n'.
Proof.
  intros Hpow Hwf [= _ <-]. unfold holds. cbn [dn_records set_field]. unfold upsert_records. rewrite Hpow.
  cbn [negb]. destruct (latest_record key (dn_records n)) as [r|] eqn:Hr.
  - destruct (merge_record _ _ _ _ _ _) as [text|]; [|by rewrite Hr].
    apply wf_latest_record in Hr as Hr'; [|done]. destruct Hr' as [Hin Hk].
    eexists. apply wf_latest_record; [by apply replace_record_wf|]. rewrite replace_record_map by done.
    split; [by apply list_elem_of_fmap_2|]. cbv beta. by rewrite bool_decide_eq_true_2.
  - apply latest_record_is_Some. eexists. split; [apply elem_of_app; right; left|].
    apply validated_record_spec. cbn. split; [done|by eexists].
Qed.

Context `{!DhtEnvLaws config}.

(** What a node has done with a valid publication of [key]: [stored_by] are the
    nodes that have the record, this one included if it is responsible, [required]
    how many shall have it. *)
Record published (envelope : ProtocolEnvelope) (n n' : DhtNode) (key : string)
    (stored_by : list string) (required : pyint) : Prop := {
  pb_key : request_key (as_payload_dict envelope) = Some key;
  pb_required : forall count,
    _read_optional_int (as_payload_dict envelope) "required_stored_count" = Some count ->
    required = count;
  pb_nonneg : max_zero required = required;
  pb_stored_by : stored_by = _read_string_list (as_payload_dict envelope) "stored_by" \/
    exists local_node, get_local_physical_node (sv_database (dn_services n)) = Some local_node /\
      ln_id local_node ∉ _read_string_list (as_payload_dict envelope) "stored_by" /\
      stored_by = _read_string_list (as_payload_dict envelope) "stored_by" ++ [ln_id local_node] /\
      holds key n';
}.

(** The publication goes to a node that does not have the record yet, and what it
    carries on. *)
Definition goes_on (envelope : ProtocolEnvelope) (context : PacketContext) (key : string)
    (stored_by : list string) (required : pyint) (r : PacketProcessingResult) (n' : DhtNode) : Prop :=
  let ttl := _read_ttl (as_payload_dict envelope) (dc_dht_request_max_forward_hops config) in
  exists node p session n1, 0 < ttl /\ rk_is_local node = false /\ rk_node_id node ∉ stored_by /\
    pg_stored_by p = stored_by /\ pg_required_stored_count p = required /\
    pg_trace_context p = _read_trace_context (as_payload_dict envelope) /\
    send_forward config envelope context key ttl p session n1 = (Ok r, n').

(** The node answers: only when enough nodes have the record, with [stored]. *)
Definition answers (stored_by : list string) (required : pyint) (r : PacketProcessingResult) : Prop :=
  pp_payload r = None /\
  exists header rs, pp_response_payload r = Some (packet_text header (result_payload rs)) /\
    rs_stored_by rs = stored_by /\ rs_required_stored_count rs = Some required /\
    (rs_status rs = "stored" -> pyint_val required <= Z.of_nat (length stored_by)).

Lemma max_zero_idem value : max_zero (max_zero value) = max_zero value.
Proof. unfold max_zero. by destruct (0 <? pyint_val value) eqn:E; rewrite ?E. Qed.

Lemma required_nonneg (nodes : list ranked_node) payload field :
  let required := default (PyInt (Z.of_nat (length nodes))) (_read_optional_int payload field) in
  max_zero required = required.
Proof.
  unfold _read_optional_int. destruct (json_pyint _) as [value|]; cbn; [apply max_zero_idem|].
  unfold max_zero. cbn [pyint_val]. destruct (Z.ltb_spec 0 (Z.of_nat (length nodes))); [done|].
  do 2 f_equal. lia.
Qed.

Lemma publish_forward_inv envelope context key nodes failure_status sb rc n r n' :
  pe_message_type envelope = Some "DHT_PUBLISH" -> failure_status <> "stored" ->
  _forward_or_return_failure config envelope context key nodes failure_status (Some sb) (Some rc)
    None None None (Some (_read_trace_context (as_payload_dict envelope))) n = (Ok r, n') ->
  goes_on envelope context key sb rc r n' \/ answers sb rc r.
Proof.
  intros Hty Hfail Hr. apply forward_inv in Hr as
    [(node & previous & session & n1 & Ht & Hin & Hskip & Hr)|(status & n1 & Hst & Hr)].
  - left. unfold skip_node in Hskip. rewrite !orb_false_iff in Hskip.
    destruct Hskip as [[[[Hl _] _] _] Hsb]. apply bool_decide_eq_false in Hsb.
    exists node. eexists. exists session, n1.
    do 6 (split; [shelve|]). exact Hr. Unshelve. all: done.
  - right. apply response_inv in Hr as (Hp & Hr & _). split; [done|].
    eexists _, _. split; [exact Hr|]. cbn [rs_stored_by rs_required_stored_count rs_status].
    split; [done|]. split; [done|]. unfold _select_failed_publish_status. rewrite Hty.
    destruct (_ && _); [done|]. by destruct Hst as [-> | ->].
Qed.

Lemma publish_inv envelope context n r n' :
  pe_message_type envelope = Some "DHT_PUBLISH" -> records_wf (dn_records n) ->
  handle config envelope context n = (Ok r, n') ->
  (pp_handled r = false /\ pp_payload r = None) \/
  exists key stored_by required, published envelope n n' key stored_by required /\
    (goes_on envelope context key stored_by required r n' \/ answers stored_by required r).
Proof.
  intros Hty Hwf Hr. unfold handle in Hr. rewrite Hty in Hr. unfold _handle_publish in Hr. cbv zeta in Hr.
  set (payload := as_payload_dict envelope) in *.
  destruct (read_string_or_none payload "namespace") as [ns|] eqn:Hns; [|injection Hr as <- <-; left; done].
  destruct (read_string_or_none payload "logical_key") as [lk|] eqn:Hlk; [|injection Hr as <- <-; left; done].
  destruct (read_string_or_none payload "record_json") as [text|] eqn:Htext; [|injection Hr as <- <-; left; done].
  apply st_bind_Ok in Hr as (key & n1 & Hkey & Hr). injection Hkey as Hkey <-.
  apply st_bind_Ok in Hr as (pow & n1 & Hpow & Hr). injection Hpow as Hpow <-.
  destruct (negb (pd_is_valid pow)); [injection Hr as <- <-; by left|].
  destruct (validate_record_payload_pow _ _ _ _) eqn:Hval; cbn [negb] in Hr; [|injection Hr as <- <-; left; done].
  apply st_bind_Ok in Hr as (closest & n1 & Hc & Hr).
  apply st_bind_Ok in Hc as (db & n2 & Hdb & Hc). injection Hdb as <- <-. injection Hc as Hc <-.
  assert (request_key payload = Some key) as Hrk.
  { unfold request_key. rewrite Hns, Hlk. cbn [mbind option_bind]. by rewrite Hkey. }
  set (sb := _read_string_list payload "stored_by") in *.
  set (rc := default _ (_read_optional_int payload "required_stored_count")) in Hr.
  assert (forall c, _read_optional_int payload "required_stored_count" = Some c -> rc = c) as Hrc.
  { intros c Hrc. unfold rc. by rewrite Hrc. }
  assert (max_zero rc = rc) as Hnn by apply required_nonneg.
  destruct (cl_local_node_is_responsible closest); cbn [negb] in Hr.
  2:{ right. exists key, sb, rc. split; [split; [done..|by left]|]. eapply publish_forward_inv; [exact Hty| |exact Hr]. done. }
  apply st_bind_Ok in Hr as (local & n1 & Hl & Hr). injection Hl as <- <-.
  destruct (get_local_physical_node (sv_database (dn_services n))) as [local|] eqn:Hlocal.
  2:{ injection Hr as <- <-. left. done. }
  right. exists key.
  apply st_bind_Ok in Hr as (sb' & n1 & Hup & Hr).
  assert (dht_moves config n1 n') as Hmoves.
  { case_match; [by eapply (moves_forward config)|].
    apply st_bind_Ok in Hr as (text' & n2 & Hb & Hr). injection Hr as _ <-. by apply (moves_result config) in Hb. }
  exists sb', rc. split.
  - split; [done..|]. fold sb. case_bool_decide as Hin; [injection Hup as <- <-; by left|right].
    apply st_bind_Ok in Hup as (u & n2 & Hup & [= <- <-]). exists local. split; [done|]. split; [done|].
    split; [done|]. eapply holds_moves; [exact Hmoves| |by eapply upsert_holds].
    injection Hup as _ <-. by apply upsert_records_wf.
  - destruct (Z.ltb_spec (Z.of_nat (length sb')) (pyint_val rc)) as [Hlt|Hge].
    + eapply publish_forward_inv; [exact Hty| |exact Hr]. done.
    + right. apply st_bind_Ok in Hr as (text' & n2 & Hb & [= <- <-]). injection Hb as <- <-.
      split; [done|]. eexists _, _. split; [reflexivity|]. done.
Qed.

Context `{!UuidLaws}.

(** Reading the JSON text of a number. *)
Lemma norm_pyint i : json_norm (pyint_json i) = pyint_json i.
Proof. by destruct i. Qed.

Lemma forward_header_wf envelope message_id session_id :
  dict_wf (pe_header envelope) -> unicode message_id -> unicode session_id ->
  dict_wf (forward_header envelope message_id session_id).
Proof. intros Hh Hm Hs. apply merge_wf; [done|]. json_wf_tac. Qed.

Lemma trace_context_wf payload : dict_wf payload -> dict_wf (_read_trace_context payload).
Proof.
  intros Hwf. unfold _read_trace_context, py_get. destruct (od_get "trace_context" payload) as [v|] eqn:E.
  - pose proof (dict_wf_get _ _ _ Hwf E) as Hv. destruct v; cbn; json_wf_tac.
  - cbn. json_wf_tac.
Qed.

(** The payload of a forwarded publication. *)
Lemma publish_payload envelope ttl p :
  pe_message_type envelope = Some "DHT_PUBLISH" ->
  forward_payload envelope ttl p = Relay.dict_merge (as_payload_dict envelope)
    [("ttl", JInt (ttl - 1)); ("stored_by", str_list (pg_stored_by p));
     ("required_stored_count", pyint_json (pg_required_stored_count p));
     ("trace_context", JObj (pg_trace_context p))].
Proof.
  intros Hty. unfold forward_payload. cbv zeta. rewrite Hty, bool_decide_eq_false_2 by done.
  by destruct (nonempty_column _), (pg_query_cursor_distance_hex p).
Qed.

Lemma forward_header_get envelope message_id session_id k :
  py_get (forward_header envelope message_id session_id) k =
    if bool_decide (k = "message_id") then JStr message_id
    else if bool_decide (k = "physical_session_id") then JStr session_id
    else py_get (pe_header envelope) k.
Proof.
  unfold forward_header. rewrite merge_get.
  - case_bool_decide as Hk; [subst; by rewrite od_get_cons_eq|]. rewrite od_get_cons_ne by done.
    case_bool_decide as Hk2; [subst; by rewrite od_get_cons_eq|]. by rewrite od_get_cons_ne.
  - apply NoDup_cons. split; [|apply NoDup_singleton]. by intros ?%list_elem_of_singleton.
Qed.

(** The names of this node that a publication carries on are text. *)
Definition names_text (r : PacketProcessingResult) : Prop :=
  forall session_id, py_get (pp_metadata r) "target_physical_session_id" = JStr session_id -> unicode session_id.

(** The next node reads the publication as this one sent it. *)
Lemma publish_hop envelope context key stored_by required r n' packet e' :
  pe_message_type envelope = Some "DHT_PUBLISH" -> readable envelope ->
  goes_on envelope context key stored_by required r n' ->
  Forall (fun s => unicode s /\ s <> "") stored_by -> NoDup stored_by -> max_zero required = required ->
  names_text r -> pp_payload r = Some packet -> arrives packet e' ->
  let ttl := _read_ttl (as_payload_dict envelope) (dc_dht_request_max_forward_hops config) in
  0 < ttl /\ readable e' /\ pe_message_type e' = Some "DHT_PUBLISH" /\
  (forall default_ttl, _read_ttl (as_payload_dict e') default_ttl = ttl - 1) /\
  _read_string_list (as_payload_dict e') "stored_by" = stored_by /\
  _read_optional_int (as_payload_dict e') "required_stored_count" = Some required /\
  (forall k, k ∉ ["ttl"; "stored_by"; "required_stored_count"; "trace_context"] ->
     py_get (as_payload_dict e') k = json_norm (py_get (as_payload_dict envelope) k)).
Proof.
  intros Hty [Hwh Hwp Hrt] (node & p & session & n1 & Httl & _ & _ & Hsb & Hrc & Htr & Hsend)
    Htexts Hnd Hnn Hnames Hpacket Harr ttl.
  apply send_forward_inv in Hsend as (Hp & Htarget & _). rewrite Hp in Hpacket. injection Hpacket as <-.
  fold ttl in Harr. rewrite publish_payload in Harr by done.
  set (extra := [("ttl", _); _; _; _]) in Harr.
  assert (dict_wf extra) as Hex.
  { unfold extra. rewrite Hsb, Hrc, Htr. pose proof (trace_context_wf _ Hwp).
    assert (json_wf (str_list stored_by)).
    { apply Wf_arr, Forall_fmap. eapply Forall_impl; [exact Htexts|]. intros s [Hs _]. by apply Wf_str. }
    destruct required; json_wf_tac. }
  apply arrives_packet in Harr as (Hpay & Hmt & _ & Hr);
    [|apply forward_header_wf; [done|by apply ascii_unicode, uuid4_ascii|by apply Hnames]|by apply merge_wf].
  assert (forall k, py_get (as_payload_dict e') k =
    json_norm (match od_get k extra with Some v => v | None => py_get (as_payload_dict envelope) k end)) as Hget.
  { intros k. unfold as_payload_dict at 1. rewrite Hpay, py_get_norm by (by apply merge_wf).
    rewrite merge_get; [done|by apply dict_wf_od]. }
  split; [done|]. split; [done|]. split.
  { by rewrite Hmt, forward_header_get, !bool_decide_eq_false_2, <- Hrt by done. }
  split; [|split; [|split]].
  - intros default_ttl. unfold _read_ttl at 1. rewrite Hget. unfold extra. od_eval. cbn. lia.
  - apply read_str_list; [|by eapply Forall_impl; [exact Htexts|intros s []]|done].
    rewrite Hget. unfold extra. od_eval. by rewrite norm_str_list, Hsb.
  - unfold _read_optional_int. rewrite Hget. unfold extra. od_eval.
    rewrite norm_pyint, Hrc, Endpoints.json_pyint_json. cbn. by rewrite Hnn.
  - intros k Hk. rewrite !not_elem_of_cons in Hk. destruct Hk as (H5 & H6 & H7 & H8 & _).
    rewrite Hget. unfold extra. by rewrite !od_get_cons_ne.
Qed.

Lemma request_key_norm payload payload' :
  (forall k, k ∉ ["ttl"; "stored_by"; "required_stored_count"; "trace_context"] ->
     py_get payload' k = json_norm (py_get payload k)) ->
  request_key payload' = request_key payload.
Proof.
  intros Hk. unfold request_key, read_string_or_none.
  rewrite !Hk by (apply (bool_decide_unpack _); reflexivity).
  by destruct (py_get payload "namespace"), (py_get payload "logical_key").
Qed.
End node.

(** ** Publications

    A node that handles a packet, and the nodes that handle it one after the other. *)

Record Hop := MkHop {
  hp_config : DhtConfig;
  hp_envelope : ProtocolEnvelope;
  hp_context : PacketContext;
  hp_before : DhtNode;
  hp_result : PacketProcessingResult;
  hp_after : DhtNode;
}.

Definition hop_payload (h : Hop) : jdict := as_payload_dict (hp_envelope h).

Section travel.
Context `{FloatText} `{Entropy} `{OpenSSL} `{IsoParser} `{DhtEnv}.

(** The hop handles its packet, from a reachable table; the names it adds to the
    packet, its own node id and that of the next session, are text. *)
Record hop_handles (h : Hop) : Prop := {
  ho_handle : handle (hp_config h) (hp_envelope h) (hp_context h) (hp_before h)
    = (Ok (hp_result h), hp_after h);
  ho_records : records_wf (dn_records (hp_before h));
  ho_names : names_text (hp_result h);
  ho_local : forall local_node,
    get_local_physical_node (sv_database (dn_services (hp_before h))) = Some local_node ->
    unicode (ln_id local_node) /\ ln_id local_node <> "";
}.

Fixpoint travels (h : Hop) (rest : list Hop) : Prop :=
  hop_handles h /\
  match rest with
  | [] => True
  | h' :: rest' => exists packet, pp_payload (hp_result h) = Some packet /\
      arrives packet (hp_envelope h') /\ travels h' rest'
  end.

Fixpoint last_hop (h : Hop) (rest : list Hop) : Hop :=
  match rest with [] => h | h' :: rest' => last_hop h' rest' end.

Context `{!forall config, DhtEnvLaws config} `{!UuidLaws}.

(** Where the nodes come from that a publication names as having the record. *)
Definition stored_on_the_way (key : string) (before : list string) (hops : list Hop) (id : string) : Prop :=
  id ∈ before \/
  exists h local_node, h ∈ hops /\
    get_local_physical_node (sv_database (dn_services (hp_before h))) = Some local_node /\
    ln_id local_node = id /\ holds key (hp_after h).

Lemma published_names h key stored_by required :
  hop_handles h -> readable (hp_envelope h) ->
  published (hp_envelope h) (hp_before h) (hp_after h) key stored_by required ->
  Forall (fun s => unicode s /\ s <> "") stored_by /\ NoDup stored_by.
Proof.
  intros Hh [_ Hwp _] [_ _ _ Hsb]. set (payload := as_payload_dict (hp_envelope h)) in *.
  destruct (read_string_list_spec payload "stored_by") as [Hne Hnd].
  pose proof (read_string_list_unicode payload "stored_by" Hwp) as Hu.
  set (sb := _read_string_list payload "stored_by") in *.
  assert (Forall (fun s => unicode s /\ s <> "") sb) as Hall by (by apply Forall_and).
  destruct Hsb as [-> |(ln & Hln & Hnin & -> & _)]; [done|].
  destruct (ho_local h Hh ln Hln). split.
  - apply Forall_app. by repeat constructor.
  - apply NoDup_app. split; [done|]. split; [|apply NoDup_singleton].
    by intros x Hx ->%list_elem_of_singleton.
Qed.

(** One hop: the publication stops here, or the next one reads it with the ttl one
    less, and the nodes that have the record. *)
Lemma publication_hop h key :
  hop_handles h -> readable (hp_envelope h) -> pe_message_type (hp_envelope h) = Some "DHT_PUBLISH" ->
  request_key (hop_payload h) = Some key ->
  (pp_handled (hp_result h) = false /\ pp_payload (hp_result h) = None) \/
  exists stored_by required,
    published (hp_envelope h) (hp_before h) (hp_after h) key stored_by required /\ NoDup stored_by /\
    (answers stored_by required (hp_result h) \/
     0 < _read_ttl (hop_payload h) (dc_dht_request_max_forward_hops (hp_config h)) /\
     exists packet, pp_payload (hp_result h) = Some packet /\
       forall e', arrives packet e' ->
         readable e' /\ pe_message_type e' = Some "DHT_PUBLISH" /\
         request_key (as_payload_dict e') = Some key /\
         (forall default_ttl, _read_ttl (as_payload_dict e') default_ttl =
            _read_ttl (hop_payload h) (dc_dht_request_max_forward_hops (hp_config h)) - 1) /\
         _read_string_list (as_payload_dict e') "stored_by" = stored_by /\
         _read_optional_int (as_payload_dict e') "required_stored_count" = Some required).
Proof.
  intros Hh Hr Hty Hkey. destruct (publish_inv (hp_config h) _ _ _ _ _ Hty (ho_records h Hh) (ho_handle h Hh))
    as [Hinv|(key' & sb & rc & Hpub & Hgo)]; [by left|right].
  assert (key' = key) as -> by (pose proof (pb_key _ _ _ _ _ _ Hpub) as Hk; unfold hop_payload in Hkey; congruence).
  destruct (published_names h key sb rc Hh Hr Hpub) as [Htexts Hnd].
  exists sb, rc. split; [done|]. split; [done|]. destruct Hgo as [Hgo|Hans]; [right|by left].
  assert (exists packet, pp_payload (hp_result h) = Some packet) as [packet Hpacket].
  { destruct Hgo as (node & p & session & n1 & _ & _ & _ & _ & _ & _ & Hs).
    apply send_forward_inv in Hs as [-> _]. by eexists. }
  split; [by destruct Hgo as (? & ? & ? & ? & ? & _)|]. exists packet. split; [done|]. intros e' Harr.
  destruct (publish_hop (hp_config h) _ _ _ _ _ _ _ packet e' Hty Hr Hgo Htexts Hnd
    (pb_nonneg _ _ _ _ _ _ Hpub) (ho_names h Hh) Hpacket Harr) as (_ & Hr' & Hty' & Httl & Hsb & Hrc & Hrest).
  rewrite (request_key_norm _ _ Hrest). done.
Qed.

Lemma read_ttl_nonneg payload default_ttl : 0 <= _read_ttl payload default_ttl.
Proof. unfold _read_ttl. destruct (json_pyint _); lia. Qed.

(** The publication after the hops [rest] behind [h]. *)
Definition publication_outcome (h : Hop) (rest : list Hop) (key : string) : Prop :=
  let result := hp_result (last_hop h rest) in
  (pp_handled result = false /\ pp_payload result = None) \/
  exists stored_by required,
    (forall count, _read_optional_int (hop_payload h) "required_stored_count" = Some count ->
       required = count) /\
    NoDup stored_by /\
    Forall (stored_on_the_way key (_read_string_list (hop_payload h) "stored_by") (h :: rest)) stored_by /\
    (answers stored_by required result \/ is_Some (pp_payload result)).

Lemma stored_on_the_way_later key before stored_by h rest id :
  Forall (stored_on_the_way key before [h]) stored_by ->
  stored_on_the_way key stored_by rest id -> stored_on_the_way key before (h :: rest) id.
Proof.
  rewrite list.Forall_forall. intros Hsb [Hin|(h' & ln & Hh' & Hrest)].
  - destruct (Hsb id Hin) as [Hb|(h' & ln & Hh' & Hrest)]; [by left|right].
    exists h', ln. split; [|done]. apply list_elem_of_singleton in Hh' as ->. left.
  - right. exists h', ln. split; [by right|done].
Qed.

Lemma published_on_the_way h key stored_by required :
  published (hp_envelope h) (hp_before h) (hp_after h) key stored_by required ->
  Forall (stored_on_the_way key (_read_string_list (hop_payload h) "stored_by") [h]) stored_by.
Proof.
  intros [_ _ _ [-> |(ln & Hln & _ & -> & Hk)]]; apply list.Forall_forall; intros id Hin; [by left|].
  apply elem_of_app in Hin as [Hin|Hin%list_elem_of_singleton]; [by left|right].
  exists h, ln. split; [left|]. by rewrite Hin.
Qed.

Lemma publication_travels h rest key :
  readable (hp_envelope h) -> pe_message_type (hp_envelope h) = Some "DHT_PUBLISH" ->
  request_key (hop_payload h) = Some key -> travels h rest ->
  Z.of_nat (length rest) <= _read_ttl (hop_payload h) (dc_dht_request_max_forward_hops (hp_config h)) /\
  publication_outcome h rest key.
Proof.
  revert h. induction rest as [|h' rest IH]; intros h Hr Hty Hkey [Hh Htr];
    destruct (publication_hop h key Hh Hr Hty Hkey) as [Hinv|(sb & rc & Hpub & Hnd & Hgo)].
  - split; [apply read_ttl_nonneg|by left].
  - split; [apply read_ttl_nonneg|]. right. exists sb, rc. split; [apply (pb_required _ _ _ _ _ _ Hpub)|].
    split; [done|]. split; [by eapply published_on_the_way|].
    destruct Hgo as [Hans|(_ & packet & Hpacket & _)]; [by left|by right; exists packet].
  - destruct Htr as (packet & Hp & _). destruct Hinv. congruence.
  - destruct Htr as (packet & Hp & Harr & Htr).
    destruct Hgo as [[Hnone _]|(Httl & packet' & Hp' & Hnext)]; [congruence|].
    assert (packet' = packet) as -> by congruence.
    destruct (Hnext _ Harr) as (Hr' & Hty' & Hkey' & Ht' & Hsb' & Hrc').
    destruct (IH h' Hr' Hty' Hkey' Htr) as [Hlen Hout]. unfold hop_payload in Hlen at 1. rewrite Ht' in Hlen.
    split; [cbn [length]; lia|]. destruct Hout as [Hinv|(sb2 & rc2 & Hrc2 & Hnd2 & Hon & Hans)].
    { by left. }
    right. exists sb2, rc2. split.
    { intros count Hc. rewrite (Hrc2 rc Hrc'). by apply (pb_required _ _ _ _ _ _ Hpub). }
    split; [done|]. split; [|done]. unfold hop_payload in Hon at 1. rewrite Hsb' in Hon.
    eapply Forall_impl; [exact Hon|]. intros id Hid.
    eapply stored_on_the_way_later; [by eapply published_on_the_way|exact Hid].
Qed.

(** C28: the way of a publication. However many nodes a publication passes, each
    handling the packet the one before sent, there are at most as many as its ttl
    allows; where it stops, it is rejected as invalid or answered, and the answer
    names pairwise distinct nodes: those the request already named, and nodes on
    the way that have a validated record of the key. [stored] is answered only if
    there are as many as the publication, or the first node, asked for. *)
Theorem publication_spec (h : Hop) (rest : list Hop) (key : string) :
  readable (hp_envelope h) -> pe_message_type (hp_envelope h) = Some "DHT_PUBLISH" ->
  request_key (hop_payload h) = Some key -> travels h rest ->
  let result := hp_result (last_hop h rest) in
  Z.of_nat (length rest) <= _read_ttl (hop_payload h) (dc_dht_request_max_forward_hops (hp_config h)) /\
  (is_Some (pp_payload result) \/ pp_handled result = false \/
   exists header rs count, pp_response_payload result = Some (packet_text header (result_payload rs)) /\
     rs_required_stored_count rs = Some count /\
     (forall asked, _read_optional_int (hop_payload h) "required_stored_count" = Some asked ->
        count = asked) /\
     NoDup (rs_stored_by rs) /\
     Forall (stored_on_the_way key (_read_string_list (hop_payload h) "stored_by") (h :: rest))
       (rs_stored_by rs) /\
     (rs_status rs = "stored" -> pyint_val count <= Z.of_nat (length (rs_stored_by rs)))).
Proof.
  intros Hr Hty Hkey Htr result. destruct (publication_travels h rest key Hr Hty Hkey Htr) as [Hlen Hout].
  split; [done|]. destruct Hout as [[Hinv _]|(sb & rc & Hrc & Hnd & Hon & [Hans|Hp])]; [by right; left| |by left].
  right; right. destruct Hans as (_ & header & rs & Hresp & Hsb & Hrs & Hst).
  exists header, rs, rc. by rewrite Hsb.
Qed.
End travel.
(** ** Witnesses *)

#[local] Existing Instance demo_entropy.
#[local] Existing Instance iso_extended.
#[local] Existing Instance demo_float.
#[local] Existing Instance demo_openssl.
#[local] Existing Instance demo_dht_env.
#[local] Existing Instance demo_dht_laws.

#[local] Instance demo_dht_uuid : UuidLaws.
Proof.
  constructor; intros n; [|discriminate].
  change (ascii_text ("uuid-" +:+ str_of_Z (Z.of_nat n)) = true).
  by rewrite ascii_text_app, ascii_text_str_of_Z.
Qed.

Definition done_by (config : DhtConfig) (e : ProtocolEnvelope) (n : DhtNode) : Hop :=
  MkHop config e demo_context n
    (match (handle config e demo_context n).1 with
     | Ok r => r | Raise _ => _build_invalid_result e "raised" end)
    (handle config e demo_context n).2.

(** The packet the first node sends, as the second reads it. *)
Definition demo_forwarded : ProtocolEnvelope :=
  MkEnvelope "json" (Some "DHT_PUBLISH")
    (JObj [("logical_key", JStr "tag"); ("namespace", JStr "dtt"); ("pow_nonce", JInt 0);
           ("record_json", JStr demo_record_text); ("required_stored_count", JInt 1);
           ("stored_by", JArr []); ("trace_context", JObj []); ("ttl", JInt 2)]) ""
    [("message_id", JStr "uuid-0"); ("message_type", JStr "DHT_PUBLISH");
     ("physical_session_id", JStr "sid-1"); ("version", JInt 1)].

Definition demo_first_hop : Hop := done_by demo_dht_config demo_publish demo_forwarder.
Definition demo_last_hop : Hop := done_by demo_dht_config demo_forwarded demo_responsible.

Definition demo_key : string := catch_all "" (build_key "dtt" "tag").

Lemma demo_readable : readable demo_publish /\ readable demo_forwarded.
Proof. split; (split; [| |reflexivity]); unfold demo_publish, demo_forwarded, as_payload_dict; json_wf_tac. Qed.

Lemma demo_hops : hop_handles demo_first_hop /\ hop_handles demo_last_hop.
Proof.
  split; (split; [vm_compute; reflexivity|split; constructor| |]).
  - intros sid Hs. vm_compute in Hs. injection Hs as <-. by apply ascii_unicode.
  - intros ln Hln. vm_compute in Hln. injection Hln as <-. split; [by apply ascii_unicode|done].
  - intros sid Hs. vm_compute in Hs. discriminate.
  - intros ln Hln. vm_compute in Hln. injection Hln as <-. split; [by apply ascii_unicode|done].
Qed.

Lemma demo_arrives packet :
  pp_payload (hp_result demo_first_hop) = Some packet -> arrives packet demo_forwarded.
Proof.
  intros Hp. vm_compute in Hp. injection Hp as <-.
  eapply Arrives; [vm_compute; reflexivity|vm_compute; reflexivity|vm_compute; reflexivity
    |vm_compute; reflexivity|reflexivity|done|apply demo_readable|].
  json_wf_tac.
Qed.

Lemma demo_travels : travels demo_first_hop [demo_last_hop].
Proof.
  destruct demo_hops as [H1 H2]. split; [exact H1|].
  destruct (pp_payload (hp_result demo_first_hop)) as [packet|] eqn:Hp; [|by vm_compute in Hp].
  exists packet. split; [reflexivity|]. split; [exact (demo_arrives packet Hp)|]. exact (conj H2 I).
Qed.

Lemma publication_spec_witness :
  1 <= 3 /\ pp_handled (hp_result demo_last_hop) = true /\
  (is_Some (pp_payload (hp_result demo_last_hop)) \/ pp_handled (hp_result demo_last_hop) = false \/
   exists header rs count, pp_response_payload (hp_result demo_last_hop) =
       Some (packet_text header (result_payload rs)) /\
     rs_required_stored_count rs = Some count /\
     Forall (stored_on_the_way demo_key [] [demo_first_hop; demo_last_hop]) (rs_stored_by rs)).
Proof.
  destruct (publication_spec demo_first_hop [demo_last_hop] demo_key) as [Hlen Hout].
  - apply demo_readable.
  - reflexivity.
  - vm_compute. reflexivity.
  - exact demo_travels.
  - split; [done|]. split; [vm_compute; reflexivity|].
    destruct Hout as [Ho|[Ho|(header & rs & count & Hresp & Hrs & _ & _ & Hon & _)]];
      [by left|by right; left|]. right; right. exists header, rs, count.
    exact (conj Hresp (conj Hrs Hon)).
Defined.
