(* ===== verification/DhtAnswers.v ===== *)
(** * Answers on their way back through the DHT

    A node that forwarded a request has remembered its way back; the answer takes it,
    node by node, to the one that asked. *)

From S2P Require Import Prelude PyJson PyTime PyInt PyFloat Crypto JsonText Records Pow Merge.
From S2P Require Import Transport Reliable Sessions Identity DhtService RouteService Core Engine.
From S2P Require Import DhtHandler DhtTable DhtRequests.

(** ** The text of a result *)

Section results.
Context `{FloatText}.

(** A result whose texts are Unicode, as every answer of the handler. *)
Record result_ok (rs : DhtResult) : Prop := {
  ok_status : unicode (rs_status rs) /\ rs_status rs <> "";
  ok_key : unicode (rs_key_hex rs);
  ok_nodes : Forall dict_wf (rs_responsible_nodes rs);
  ok_record : forall text, rs_record_json rs = Some text -> unicode text;
  ok_expires : forall text, rs_expires_at rs = Some text -> unicode text;
  ok_stored_by : Forall (fun s => unicode s /\ s <> "") (rs_stored_by rs) /\ NoDup (rs_stored_by rs);
  ok_trace : dict_wf (rs_trace_context rs);
}.

(** The result as a node reads it: keys in order, the required count a number. *)
Definition as_read (rs : DhtResult) : DhtResult :=
  MkDhtResult (rs_status rs) (rs_key_hex rs) (norm_dict <$> rs_responsible_nodes rs)
    (rs_stored_locally rs) (rs_record_json rs) (rs_expires_at rs) (rs_stored_by rs)
    (Some (default (PyInt (Z.of_nat (length (rs_stored_by rs)))) (max_zero <$> rs_required_stored_count rs)))
    (norm_dict (rs_trace_context rs)).

Lemma max_zero_length {A} (l : list A) : max_zero (PyInt (Z.of_nat (length l))) = PyInt (Z.of_nat (length l)).
Proof.
  unfold max_zero. cbn [pyint_val]. destruct (Z.ltb_spec 0 (Z.of_nat (length l))); [done|]. f_equal. lia.
Qed.

Lemma norm_dict_idem d : norm_dict (norm_dict d) = norm_dict d.
Proof.
  pose proof (json_norm_idem (JObj d)) as Hn. by injection Hn.
Qed.

Lemma as_read_idem rs : as_read (as_read rs) = as_read rs.
Proof.
  unfold as_read. cbn. f_equal.
  - rewrite <- list_fmap_compose. apply list_fmap_ext. intros i d _. apply norm_dict_idem.
  - f_equal. destruct (rs_required_stored_count rs); cbn; [apply max_zero_idem|apply max_zero_length].
  - apply norm_dict_idem.
Qed.

Lemma as_read_ok rs : result_ok rs -> result_ok (as_read rs).
Proof.
  intros []. split; try done; cbn.
  - apply Forall_fmap. eapply Forall_impl; [done|]. intros d. apply dict_wf_norm.
  - by apply dict_wf_norm.
Qed.

Lemma result_payload_wf rs : result_ok rs -> dict_wf (result_payload rs).
Proof.
  intros [[Hs _] Hk Hn Hr He [Hb _] Ht]. unfold result_payload.
  assert (json_wf (JArr (JObj <$> rs_responsible_nodes rs))) by (by apply Wf_arr, Forall_fmap).
  assert (json_wf (str_list (rs_stored_by rs))).
  { apply Wf_arr, Forall_fmap. eapply Forall_impl; [exact Hb|]. intros s [Hu _]. by apply Wf_str. }
  assert (json_wf (opt_json JStr (rs_record_json rs))).
  { destruct (rs_record_json rs); [|constructor]. apply Wf_str. by apply Hr. }
  assert (json_wf (opt_json JStr (rs_expires_at rs))).
  { destruct (rs_expires_at rs); [|constructor]. apply Wf_str. by apply He. }
  assert (json_wf (match rs_required_stored_count rs with
    | Some count => pyint_json (max_zero count)
    | None => JInt (Z.of_nat (length (rs_stored_by rs))) end)).
  { destruct (rs_required_stored_count rs) as [c|]; [|constructor]. destruct (max_zero c); constructor. }
  json_wf_tac.
Qed.


Context `{DhtEnv}.

Lemma get_result rs k :
  result_ok rs -> py_get (norm_dict (result_payload rs)) k = json_norm (py_get (result_payload rs) k).
Proof. intros Hok. apply py_get_norm. by apply result_payload_wf. Qed.

(** A result is read as it was written. *)
Lemma read_result rs :
  result_ok rs -> returned_result (norm_dict (result_payload rs)) = as_read rs.
Proof.
  intros Hok. pose proof (fun k => get_result rs k Hok) as Hget. destruct Hok as [[_ Hs] _ _ _ _ [Hb Hnd] _].
  assert (forall k, json_norm (py_get (result_payload rs) k) = py_get (norm_dict (result_payload rs)) k) as Hget'
    by done.
  unfold returned_result, _read_responsible_nodes, _read_trace_context, _read_optional_int.
  rewrite !(read_str_list _ _ (rs_stored_by rs)); [|rewrite Hget; unfold py_get, result_payload; od_eval|..];
    [|by apply norm_str_list|by eapply Forall_impl; [exact Hb|intros s []]|done].
  rewrite !Hget. unfold py_get, result_payload. od_eval. cbn [default from_option id json_norm].
  unfold as_read. f_equal.
  - unfold str_or. cbn [json_truthy]. by rewrite (proj2 (str_truthy_spec _)).
  - unfold str_or. cbn [json_truthy]. destruct (str_truthy (rs_key_hex rs)) eqn:E; [done|].
    destruct (rs_key_hex rs); [done|]. by apply not_true_iff_false in E.
  - rewrite map_map. induction (rs_responsible_nodes rs) as [|d l IH]; [done|]. cbn in *. by rewrite IH.
  - by destruct (rs_stored_locally rs).
  - by destruct (rs_record_json rs).
  - by destruct (rs_expires_at rs).
  - destruct (rs_required_stored_count rs) as [c|]; cbn.
    + rewrite norm_pyint, Endpoints.json_pyint_json. cbn. by rewrite max_zero_idem.
    + by rewrite max_zero_length.
Qed.
End results.

(** ** One node on the way back *)

Section relay.
Context `{FloatText} `{Entropy} `{OpenSSL} `{IsoParser} `{DhtEnv} `{!UuidLaws}.

(** A node that forwarded a request as [rl_message_id], when the answer arrives. *)
Record Relay := MkRelay {
  rl_config : DhtConfig;
  rl_context : PacketContext;
  rl_message_id : string;
  rl_pending : PendingDhtForward;
  rl_node : DhtNode;
}.

(** The way back is still remembered: no answer has come and its time is not over. *)
Record remembers (r : Relay) : Prop := {
  rm_pending : od_get (rl_message_id r) (dn_pending_forwards (rl_node r)) = Some (rl_pending r);
  rm_in_time : float_ltb (_get_pending_forward_ttl_seconds (rl_config r))
    (float_sub (dht_monotonic (sv_entropy (dn_services (rl_node r)))) (pf_created_at (rl_pending r))) = false;
  rm_names : unicode (pf_previous_session_id (rl_pending r)) /\ unicode (pf_previous_message_id (rl_pending r));
}.

(** A packet that answers the message [message_id] on the session [session_id] with
    the result [rs]. *)
Definition answer_packet (message_id session_id : string) (rs : DhtResult) (packet : string) : Prop :=
  exists header, packet = packet_text header (result_payload rs) /\ dict_wf header /\
    py_get header "message_type" = JStr "DHT_RESULT" /\
    py_get header "response_to_message_id" = JStr message_id /\
    py_get header "physical_session_id" = JStr session_id.

Lemma od_get_List_filter {V} (p : string * V -> bool) (d : odict string V) k v :
  od_get k d = Some v -> p (k, v) = true -> od_get k (List.filter p d) = Some v.
Proof.
  induction d as [|[k' v'] d IH]; [done|]. intros Hg Hp. cbn [List.filter].
  destruct (decide (k' = k)) as [-> |Hne].
  - rewrite od_get_cons_eq in Hg. injection Hg as ->. rewrite Hp. apply od_get_cons_eq.
  - rewrite od_get_cons_ne in Hg by done. destruct (p (k', v')); [rewrite od_get_cons_ne by done|]; by apply IH.
Qed.

Lemma od_get_filter_None {V} (p : string * V -> bool) (d : odict string V) k :
  od_get k d = None -> od_get k (List.filter p d) = None.
Proof.
  rewrite !od_get_None. intros Hk Hin. apply Hk. apply list_elem_of_fmap in Hin as (x & -> & Hx).
  apply list_elem_of_In, List.filter_In in Hx as [Hx _]. by apply list_elem_of_fmap_2, list_elem_of_In.
Qed.

Lemma pop_remembered r :
  remembers r ->
  exists n', _pop_pending_forward (rl_config r) (rl_message_id r) (rl_node r) = (Ok (Some (rl_pending r)), n') /\
    od_get (rl_message_id r) (dn_pending_forwards n') = None.
Proof.
  intros [Hp Ht _]. eexists. split.
  - unfold _pop_pending_forward, _cleanup_pending_forwards, mbind, st_bind, modify.
    unfold monotonic, on_services. cbn [dn_pending_forwards set_field].
    rewrite (od_get_List_filter _ _ _ _ Hp); [reflexivity|]. cbn [snd]. by rewrite Ht.
  - cbn [dn_pending_forwards set_field]. apply od_get_del_eq.
Qed.

Lemma py_get_wf d k : dict_wf d -> json_wf (py_get d k).
Proof.
  intros Hd. unfold py_get. destruct (od_get k d) eqn:E; [by eapply dict_wf_get|constructor].
Qed.

Lemma result_header_wf uuid header : dict_wf header -> unicode uuid -> dict_wf (result_header uuid header).
Proof.
  intros Hd Hu. unfold result_header, py_get_default.
  pose proof (fun k => py_get_wf header k Hd) as Hget.
  assert (json_wf (default (JInt 1) (od_get "version" header))).
  { destruct (od_get "version" header) eqn:E; [by eapply dict_wf_get|constructor]. }
  unfold dict_wf. apply Wf_obj; [apply (bool_decide_unpack _); vm_compute; exact I|].
  repeat apply Forall_cons_2; [..|apply Forall_nil_2]; (split; [apply ascii_unicode; reflexivity|]);
    first [apply Hget | by apply Wf_str | assumption | apply Wf_str, ascii_unicode; reflexivity].
Qed.

(** The answer arrives at a node that remembers the request: it is sent on to the
    node before, as the answer to its message, and the way back is forgotten. *)
Lemma relay_answer r rs session_id packet e :
  remembers r -> result_ok rs -> answer_packet (rl_message_id r) session_id rs packet -> arrives packet e ->
  exists result n' packet',
    handle (rl_config r) e (rl_context r) (rl_node r) = (Ok result, n') /\
    py_get (pp_metadata result) "action" = JStr "send_payload_to_physical_session" /\
    py_get (pp_metadata result) "target_physical_session_id" = JStr (pf_previous_session_id (rl_pending r)) /\
    pp_payload result = Some packet' /\ od_get (rl_message_id r) (dn_pending_forwards n') = None /\
    answer_packet (pf_previous_message_id (rl_pending r)) (pf_previous_session_id (rl_pending r))
      (as_read rs) packet'.
Proof.
  intros Hr Hok (header & -> & Hwf & Hty & Hresp & Hsid) Harr.
  apply arrives_packet in Harr as (Hpay & Hmt & Hhead & [Hwh _ _]); [|done|by apply result_payload_wf].
  destruct (pop_remembered r Hr) as (n1 & Hpop & Hgone).
  unfold handle. rewrite Hmt, Hty. cbn [str_value]. unfold _handle_result. cbv zeta.
  rewrite Hhead by done. rewrite Hresp. cbn [json_norm]. rewrite (st_bind_run _ _ _ _ _ Hpop).
  eexists _, _, _. split; [reflexivity|]. split; [reflexivity|]. split; [reflexivity|]. split; [reflexivity|].
  split; [exact Hgone|].
  assert (as_payload_dict e = norm_dict (result_payload rs)) as -> by (unfold as_payload_dict; by rewrite Hpay).
  rewrite read_result by done. change (Relay.dict_merge (pe_header e) _) with
    (forward_header e (pf_previous_message_id (rl_pending r)) (pf_previous_session_id (rl_pending r))).
  set (h := forward_header e _ _).
  assert (py_get h "message_id" = JStr (pf_previous_message_id (rl_pending r))) as Hm
    by (unfold h; by rewrite forward_header_get).
  assert (py_get h "physical_session_id" = JStr (pf_previous_session_id (rl_pending r))) as Hs
    by (unfold h; by rewrite forward_header_get).
  eexists. split; [reflexivity|].
  destruct (rm_names r Hr). split; [|unfold result_header, py_get at 1 2 4; od_eval; by rewrite Hm, Hs].
  apply result_header_wf; [by apply forward_header_wf|apply ascii_unicode, uuid4_ascii].
Qed.

(** Every node handles the packet it gets, forgets the way back and sends a packet to
    the session of the one before; of the packet the last one sends, [Q] holds. *)
Fixpoint returns (relays : list Relay) (Q : string -> Prop) (packet : string) : Prop :=
  match relays with
  | [] => Q packet
  | r :: relays =>
      forall e, arrives packet e ->
      exists result n' packet',
        handle (rl_config r) e (rl_context r) (rl_node r) = (Ok result, n') /\
        py_get (pp_metadata result) "action" = JStr "send_payload_to_physical_session" /\
        py_get (pp_metadata result) "target_physical_session_id" =
          JStr (pf_previous_session_id (rl_pending r)) /\
        pp_payload result = Some packet' /\ od_get (rl_message_id r) (dn_pending_forwards n') = None /\
        returns relays Q packet'
  end.

Lemma returns_app l1 l2 (P Q : string -> Prop) packet :
  (forall p, P p -> returns l2 Q p) -> returns l1 P packet -> returns (l1 ++ l2) Q packet.
Proof.
  intros HPQ. revert packet. induction l1 as [|r l1 IH]; intros packet Hp; [by apply HPQ|].
  intros e He. destruct (Hp e He) as (res & n' & p' & H1' & H2' & H3' & H4' & H5' & H6').
  exists res, n', p'. do 5 (split; [done|]). by apply IH.
Qed.

(** The node that asked: the future that waits for the message gets the result. *)
Lemma requester_completes config context n rs message_id session_id packet e f :
  dht_start_session <> None ->
  result_ok rs -> answer_packet message_id session_id rs packet -> arrives packet e ->
  od_get message_id (dn_pending_forwards n) = None ->
  od_get message_id (dn_pending_results n) = Some f -> dn_futures n !! f = Some Pending ->
  exists result n', handle config e context n = (Ok result, n') /\
    dn_futures n' !! f = Some (Done (result_data (norm_dict (result_payload rs)) context)) /\
    od_get message_id (dn_pending_results n') = None.
Proof.
  intros Hclients Hok (header & -> & Hwf & Hty & Hresp & _) Harr Hnone Hf Hpending.
  apply arrives_packet in Harr as (Hpay & Hmt & Hhead & _); [|done|by apply result_payload_wf].
  assert (exists n1, _pop_pending_forward config message_id n = (Ok None, n1) /\
    dn_pending_results n1 = dn_pending_results n /\ dn_futures n1 = dn_futures n) as (n1 & Hpop & Hr1 & Hf1).
  { eexists. split; [|shelve].
    unfold _pop_pending_forward, _cleanup_pending_forwards, mbind, st_bind, modify.
    unfold monotonic, on_services. cbn [dn_pending_forwards set_field].
    rewrite od_get_filter_None by done. reflexivity.
    Unshelve. by split. }
  unfold handle. rewrite Hmt, Hty. cbn [str_value]. unfold _handle_result. cbv zeta.
  rewrite Hhead by done. rewrite Hresp. cbn [json_norm]. rewrite (st_bind_run _ _ _ _ _ Hpop).
  unfold as_payload_dict. rewrite Hpay. unfold complete_waiting, complete_result.
  destruct dht_start_session; [|done].
  eexists _, _. split; [reflexivity|]. unfold modify. cbv zeta beta. rewrite Hr1, Hf. cbn [dn_futures dn_pending_results set_field].
  rewrite Hf1, Hpending. cbn [dn_futures dn_pending_results set_field].
  split; [|apply od_get_del_eq]. apply list_lookup_insert_eq. by eapply lookup_lt_Some.
Qed.
End relay.

(** ** Requests on their way *)

Section requests.
Context `{FloatText} `{Entropy} `{OpenSSL} `{IsoParser} `{DhtEnv} `{!UuidLaws}.

Lemma ascii_text_substring n m s : ascii_text s = true -> ascii_text (String.substring n m s) = true.
Proof.
  revert n m. induction s as [|a s IH]; intros n m Hs; [by destruct n, m|].
  cbn [ascii_text] in Hs. apply andb_true_iff in Hs as [Ha Hs].
  destruct n; [destruct m; [done|]|].
  - cbn [String.substring ascii_text]. rewrite Ha. by apply IH.
  - cbn [String.substring]. by apply IH.
Qed.

Lemma isoformat_naive_unicode t : unicode (isoformat_naive t).
Proof.
  apply ascii_unicode. unfold isoformat_naive. apply ascii_text_substring.
  unfold isoformat. cbv zeta. destruct (civil_of_days _) as [[y m] d].
  case_match; rewrite !ascii_text_app, !ascii_text_dec; done.
Qed.

Lemma hex_of_pos_ascii fuel n acc : 0 <= n -> ascii_text acc = true -> ascii_text (hex_of_pos fuel n acc) = true.
Proof.
  revert n acc. induction fuel as [|fuel IH]; intros n acc Hn Hacc; [done|]. cbn [hex_of_pos].
  assert (ascii_text (String (hex_digit (Z.to_N (n mod 16))) acc) = true) as Hd.
  { cbn [ascii_text]. rewrite hex_digit_ascii; [done|]. pose proof (Z.mod_pos_bound n 16). lia. }
  destruct (n / 16 =? 0); [done|]. apply IH; [|done]. apply Z.div_pos; lia.
Qed.

Lemma pad_left_ascii w s : ascii_text s = true -> ascii_text (pad_left w s) = true.
Proof.
  intros Hs. unfold pad_left. induction (seq _ _) as [|i l IH]; [done|]. cbn [foldr].
  by rewrite ascii_text_app, IH.
Qed.

Lemma format_0128x_unicode n : unicode (format_0128x n).
Proof.
  apply ascii_unicode. unfold format_0128x. cbv zeta.
  pose proof (hex_of_pos_ascii (S (Z.to_nat (Z.log2 (Z.abs n)))) (Z.abs n) "" ltac:(lia) eq_refl).
  destruct (n <? 0); rewrite ?ascii_text_app, ?pad_left_ascii by done; done.
Qed.

(** The record text a query carries on from a node. *)
Definition collected_record (config : DhtConfig) (payload : jdict) (n : DhtNode) : option string :=
  let accumulated := read_string_or_none payload "query_record_json" in
  match read_string_or_none payload "namespace", read_string_or_none payload "logical_key" with
  | Some namespace, Some logical_key =>
      match build_key namespace logical_key with
      | Ok key =>
          match latest_record key (dn_records n) with
          | Some record =>
              Some (_merge_query_record_json config (sv_now (dn_services n)) namespace key accumulated
                      (dr_record_json record))
          | None => accumulated
          end
      | Raise _ => accumulated
      end
  | _, _ => accumulated
  end.

(** A packet goes on to the next node. *)
Definition sends_on (config : DhtConfig) (envelope : ProtocolEnvelope) (context : PacketContext)
    (n : DhtNode) (r : PacketProcessingResult) (n' : DhtNode) : Prop :=
  let payload := as_payload_dict envelope in
  let ttl := _read_ttl payload (dc_dht_request_max_forward_hops config) in
  exists key p session n1, 0 < ttl /\
    send_forward config envelope context key ttl p session n1 = (Ok r, n') /\
    (pg_stored_by p = _read_string_list payload "stored_by" \/
     exists local_node, get_local_physical_node (sv_database (dn_services n)) = Some local_node /\
       pg_stored_by p = _read_string_list payload "stored_by" ++ [ln_id local_node]) /\
    pg_trace_context p = _read_trace_context payload /\
    (pe_message_type envelope = Some "DHT_QUERY" ->
     (forall text, pg_query_record_json p = Some text -> 
        Some text = collected_record config payload n \/
        Some text = read_string_or_none payload "query_record_json") /\
     (forall text, pg_query_expires_at p = Some text ->
        unicode text \/ Some text = read_string_or_none payload "query_expires_at") /\
     (forall text, pg_query_cursor_distance_hex p = Some text ->
        unicode text \/ Some text = read_string_or_none payload "query_cursor_distance_hex")).

Lemma query_forward_inv config envelope context key nodes failure_status cursor rj exp n0 n r n' packet :
  _forward_or_return_failure config envelope context key nodes failure_status None None cursor rj exp None n
    = (Ok r, n') ->
  pp_payload r = Some packet ->
  let payload := as_payload_dict envelope in
  (forall text, rj = Some text -> Some text = collected_record config payload n0 \/
      Some text = read_string_or_none payload "query_record_json") ->
  (forall text, exp = Some text ->
      unicode text \/ Some text = read_string_or_none payload "query_expires_at") ->
  (forall text, cursor = Some text -> unicode text) ->
  sends_on config envelope context n0 r n'.
Proof.
  intros Hr Hp payload Hrj Hexp Hcur. apply forward_inv in Hr as
    [(node & previous & session & n1 & Ht & _ & _ & Hr)|(status & n1 & _ & Hr)].
  2:{ apply response_inv in Hr as [Hn _]. congruence. }
  eexists key, _, session, n1. split; [exact Ht|]. split; [exact Hr|]. unfold resolve_progress. cbn.
  split; [by left|]. split; [done|]. intros _. split_and!.
  - intros text. destruct rj; cbn; [intros [= <-]; by apply Hrj|intros Hs; right; by symmetry].
  - intros text. destruct exp; cbn; [intros [= <-]; by apply Hexp|intros Hs; right; by symmetry].
  - intros text. destruct cursor; cbn; [intros [= <-]; left; by apply Hcur|intros Hs; right; by symmetry].
Qed.

Lemma query_inv config envelope context n r n' packet :
  pe_message_type envelope = Some "DHT_QUERY" ->
  handle config envelope context n = (Ok r, n') -> pp_payload r = Some packet ->
  sends_on config envelope context n r n'.
Proof.
  intros Hty Hr Hp. unfold handle in Hr. rewrite Hty in Hr. unfold _handle_query in Hr. cbv zeta in Hr.
  set (payload := as_payload_dict envelope) in *.
  destruct (read_string_or_none payload "namespace") as [ns|] eqn:Hns; [|by injection Hr as <- <-].
  destruct (read_string_or_none payload "logical_key") as [lk|] eqn:Hlk; [|by injection Hr as <- <-].
  apply st_bind_Ok in Hr as (key & n1 & Hkey & Hr). injection Hkey as Hkey <-.
  apply st_bind_Ok in Hr as (closest & n1 & Hc & Hr).
  apply st_bind_Ok in Hc as (db & n2 & Hdb & Hc). injection Hdb as <- <-. injection Hc as Hc <-.
  destruct (cl_local_node_is_responsible closest); cbn [negb] in Hr.
  2:{ eapply query_forward_inv; [exact Hr|exact Hp|..]; [by right|by right|done]. }
  apply st_bind_Ok in Hr as (record & n1 & Hrec & Hr). injection Hrec as Hrec <-.
  apply st_bind_Ok in Hr as (cursor & n1 & Hcur & Hr).
  assert (n1 = n /\ forall text, cursor = Some text -> unicode text) as [-> Hcu].
  { apply st_bind_Ok in Hcur as (ln & n2 & Hln & Hcur). injection Hln as Hln <-.
    destruct ln as [ln|]; [|by injection Hcur as <- <-].
    apply st_bind_Ok in Hcur as (d & n2 & Hd & Hcur). injection Hd as _ <-. injection Hcur as <- <-.
    split; [done|]. intros text [= <-]. apply format_0128x_unicode. }
  destruct record as [record|].
  2:{ eapply query_forward_inv; [exact Hr|exact Hp|..]; [by right|by right|done]. }
  apply st_bind_Ok in Hr as (now & n1 & Hnow & Hr). injection Hnow as <- <-.
  apply st_bind_Ok in Hr as (fr & n1 & Hf & Hr).
  destruct (bool_decide _) in Hr.
  2:{ apply st_bind_Ok in Hr as (text & n2 & _ & Hr). by injection Hr as <- _. }
  injection Hr as -> ->. eapply query_forward_inv; [exact Hf|exact Hp|..].
  - intros text [= <-]. left. unfold collected_record. fold payload. rewrite Hns, Hlk, Hkey.
    by rewrite Hrec.
  - intros text. destruct (dr_expires_at record) as [t|]; cbn; [|by right].
    intros [= <-]. left. apply isoformat_naive_unicode.
  - exact Hcu.
Qed.

Lemma read_string_unicode payload k text :
  dict_wf payload -> read_string_or_none payload k = Some text -> unicode text.
Proof.
  intros Hwf. unfold read_string_or_none, truthy_str. pose proof (py_get_wf payload k Hwf) as Hv.
  destruct (py_get payload k); try done. destruct (str_truthy s); [|done]. intros [= <-]. by inversion Hv.
Qed.

(** What a forwarded request carries on is text. *)
Record progress_text (p : Progress) : Prop := {
  pt_stored_by : Forall unicode (pg_stored_by p);
  pt_trace : dict_wf (pg_trace_context p);
}.

Definition query_text (p : Progress) : Prop :=
  (forall text, pg_query_record_json p = Some text -> unicode text) /\
  (forall text, pg_query_expires_at p = Some text -> unicode text) /\
  (forall text, pg_query_cursor_distance_hex p = Some text -> unicode text).

Lemma forward_payload_facts envelope ttl p :
  dict_wf (as_payload_dict envelope) -> progress_text p ->
  (pe_message_type envelope = Some "DHT_QUERY" -> query_text p) ->
  dict_wf (forward_payload envelope ttl p) /\ py_get (forward_payload envelope ttl p) "ttl" = JInt (ttl - 1).
Proof.
  intros Hwf [Hsb Htr] Hq. unfold forward_payload. cbv zeta.
  set (extra := [("ttl", _); _; _; _]).
  assert (dict_wf extra) as Hex.
  { assert (json_wf (str_list (pg_stored_by p))).
    { apply Wf_arr, Forall_fmap. eapply Forall_impl; [exact Hsb|]. intros s. by apply Wf_str. }
    unfold extra. destruct (pg_required_stored_count p); json_wf_tac. }
  set (base := Relay.dict_merge _ extra).
  assert (dict_wf base /\ py_get base "ttl" = JInt (ttl - 1)) as Hbase.
  { split; [by apply merge_wf|]. unfold base. rewrite merge_get by (by apply dict_wf_od). by od_eval. }
  assert (forall k j (d : jdict), unicode k -> json_wf j -> k <> "ttl" -> dict_wf d /\ py_get d "ttl" = JInt (ttl - 1) ->
    dict_wf (od_set k j d) /\ py_get (od_set k j d) "ttl" = JInt (ttl - 1)) as Hset.
  { intros k j d Hk Hj Hne [Hd Hg]. split; [by apply dict_wf_set|]. unfold py_get. by rewrite od_get_set_ne. }
  case_bool_decide as Hty.
  - destruct (Hq Hty) as (Hr & He & Hc).
    assert (json_wf (opt_json JStr (pg_query_expires_at p))).
    { destruct (pg_query_expires_at p); [|constructor]. apply Wf_str. by apply He. }
    assert (forall t, nonempty_column (pg_query_record_json p) = Some t -> unicode t) as Hr'.
    { intros t. unfold nonempty_column. destruct (pg_query_record_json p) as [t'|]; [|done].
      destruct (str_truthy t'); [|done]. intros [= <-]. by apply Hr. }
    destruct (pg_query_cursor_distance_hex p) as [c|]; [apply Hset;
      [by apply ascii_unicode|by apply Wf_str, Hc|done|]|]; (destruct (nonempty_column _) as [t|]; [|done]);
      (apply Hset; [by apply ascii_unicode|done|done|]); (apply Hset; [by apply ascii_unicode| |done|done]);
      apply Wf_str; by apply Hr'.
  - by destruct (nonempty_column _), (pg_query_cursor_distance_hex p).
Qed.

(** Whether a packet is a request. *)
Definition request_type (envelope : ProtocolEnvelope) : Prop :=
  pe_message_type envelope = Some "DHT_PUBLISH" \/ pe_message_type envelope = Some "DHT_QUERY".

Lemma sends_on_arrives config envelope context n r n' packet e' :
  sends_on config envelope context n r n' -> readable envelope -> request_type envelope ->
  (forall local_node, get_local_physical_node (sv_database (dn_services n)) = Some local_node ->
     unicode (ln_id local_node)) ->
  (forall text, collected_record config (as_payload_dict envelope) n = Some text -> unicode text) ->
  names_text r -> pp_payload r = Some packet -> arrives packet e' ->
  let ttl := _read_ttl (as_payload_dict envelope) (dc_dht_request_max_forward_hops config) in
  0 < ttl /\ readable e' /\ request_type e' /\
  (forall default_ttl, _read_ttl (as_payload_dict e') default_ttl = ttl - 1) /\
  exists message_id session_id,
    py_get (pe_header e') "message_id" = JStr message_id /\
    py_get (pe_header e') "physical_session_id" = JStr session_id /\
    forall previous_message_id previous_session_id,
      py_get (pe_header envelope) "message_id" = JStr previous_message_id ->
      py_get (pe_header envelope) "physical_session_id" = JStr previous_session_id ->
      exists created_at, od_get message_id (dn_pending_forwards n') =
        Some (MkPendingForward previous_session_id previous_message_id created_at).
Proof.
  intros (key & p & session & n1 & Ht & Hs & Hsb & Htr & Hq) [Hwh Hwp Hrt] Hty Hloc Hcol Hnames Hp Harr ttl.
  apply send_forward_inv in Hs as (Hp' & Htarget & _ & _ & Hpend). rewrite Hp' in Hp. injection Hp as <-.
  destruct (forward_payload_facts envelope ttl p Hwp) as [Hwf Hgt].
  - split.
    + pose proof (read_string_list_unicode _ "stored_by" Hwp) as Hu.
      destruct Hsb as [-> |(ln & Hln & ->)]; [done|]. apply Forall_app. repeat constructor; [done|]. by apply Hloc.
    + rewrite Htr. by apply trace_context_wf.
  - intros HQ. destruct (Hq HQ) as (Hr & He & Hc). split_and!; intros text Htext.
    + destruct (Hr _ Htext) as [Hx|Hx]; [by apply Hcol|by eapply read_string_unicode].
    + destruct (He _ Htext) as [Hx|Hx]; [done|by eapply read_string_unicode].
    + destruct (Hc _ Htext) as [Hx|Hx]; [done|by eapply read_string_unicode].
  - fold ttl in Harr. apply arrives_packet in Harr as (Hpay & Hmt & Hhead & Hr); [|
      apply forward_header_wf; [done|by apply ascii_unicode, uuid4_ascii|by apply Hnames]|done].
    split; [done|]. split; [done|]. split.
    { unfold request_type. rewrite Hmt, forward_header_get, !bool_decide_eq_false_2, <- Hrt by done. done. }
    split.
    { intros d. unfold _read_ttl at 1, as_payload_dict at 1. rewrite Hpay, py_get_norm, Hgt by done. cbn. lia. }
    eexists _, _. rewrite !Hhead, !forward_header_get by done. do 2 (split; [done|]). exact Hpend.
Qed.

(** *** The answer *)

(** A hop of a request; what it has collected is text. *)
Record request_handles (h : Hop) : Prop := {
  rh_handles : hop_handles h;
  rh_collected : forall text,
    collected_record (hp_config h) (hop_payload h) (hp_before h) = Some text -> unicode text;
}.

(** The hop [h] whose packet went to [h'] waits: it still knows the way back. *)
Record waits (h h' : Hop) (r : Relay) : Prop := {
  wt_config : rl_config r = hp_config h;
  wt_message : py_get (pe_header (hp_envelope h')) "message_id" = JStr (rl_message_id r);
  wt_kept : od_get (rl_message_id r) (dn_pending_forwards (rl_node r)) =
    od_get (rl_message_id r) (dn_pending_forwards (hp_after h));
  wt_pending : od_get (rl_message_id r) (dn_pending_forwards (rl_node r)) = Some (rl_pending r);
  wt_in_time : float_ltb (_get_pending_forward_ttl_seconds (rl_config r))
    (float_sub (dht_monotonic (sv_entropy (dn_services (rl_node r)))) (pf_created_at (rl_pending r))) = false;
}.

Fixpoint waiting (h : Hop) (rest : list Hop) (relays : list Relay) : Prop :=
  match rest, relays with
  | [], [] => True
  | h' :: rest', r :: relays' => waits h h' r /\ waiting h' rest' relays'
  | _, _ => False
  end.

(** At the node that asked, the packet completes the future of the request that waits
    for the message, with the result. *)
Definition reaches_requester (message_id : string) (rs : DhtResult) (packet : string) : Prop :=
  forall config context n e f, dht_start_session <> None -> arrives packet e ->
  od_get message_id (dn_pending_forwards n) = None ->
  od_get message_id (dn_pending_results n) = Some f -> dn_futures n !! f = Some Pending ->
  exists result n' payload, handle config e context n = (Ok result, n') /\
    dn_futures n' !! f = Some (Done (result_data payload context)) /\ returned_result payload = as_read rs /\
    py_get payload "status" = JStr (rs_status rs) /\
    py_get payload "record_json" = opt_json JStr (rs_record_json rs) /\
    od_get message_id (dn_pending_results n') = None.

Definition answered (message_id session_id : string) (rs : DhtResult) (packet : string) : Prop :=
  exists rs', answer_packet message_id session_id rs' packet /\ result_ok rs' /\ as_read rs' = as_read rs.

Lemma answered_reaches message_id session_id rs packet :
  answered message_id session_id rs packet -> reaches_requester message_id rs packet.
Proof.
  intros (rs' & Hp & Hok & Hrs) config context n e f Hclients He Hnone Hf Hpending.
  destruct (requester_completes config context n rs' message_id session_id packet e f Hclients Hok Hp He Hnone
    Hf Hpending) as (res & n' & Hh & Hdone & Hgone).
  exists res, n', (norm_dict (result_payload rs')). split; [done|]. split; [done|].
  split; [by rewrite read_result|]. rewrite !get_result by done.
  injection Hrs as Hst _ _ _ Hrj _ _ _ _. rewrite <- Hst, <- Hrj. split; [done|]. split; [|done].
  unfold py_get, result_payload. od_eval. by destruct (rs_record_json rs').
Qed.

Lemma relay_answered r rs session_id packet :
  remembers r -> answered (rl_message_id r) session_id rs packet ->
  returns [r] (answered (pf_previous_message_id (rl_pending r)) (pf_previous_session_id (rl_pending r)) rs) packet.
Proof.
  intros Hr (rs' & Hp & Hok & Hrs) e He.
  destruct (relay_answer r rs' session_id packet e Hr Hok Hp He) as (res & n' & p' & H1' & H2' & H3' & H4' & H5' & H6').
  exists res, n', p'. do 5 (split; [done|]). exists (as_read rs'). split; [done|]. split; [by apply as_read_ok|].
  by rewrite as_read_idem.
Qed.

Context `{!forall config, DhtEnvLaws config}.

Lemma request_sends_on h packet :
  hop_handles h -> request_type (hp_envelope h) -> pp_payload (hp_result h) = Some packet ->
  sends_on (hp_config h) (hp_envelope h) (hp_context h) (hp_before h) (hp_result h) (hp_after h).
Proof.
  intros [Hh Hwf _ _] [Hty|Hty] Hp; [|by eapply query_inv].
  destruct (publish_inv _ _ _ _ _ _ Hty Hwf Hh) as [[_ Hn]|(key & sb & rc & Hpub & [Hgo|[Hn _]])]; [congruence| |congruence].
  destruct Hgo as (node & p & session & n1 & Ht & _ & _ & Hsb & _ & Htr & Hs).
  exists key, p, session, n1. split; [done|]. split; [done|]. split.
  - rewrite Hsb. destruct (pb_stored_by _ _ _ _ _ _ Hpub) as [-> |(ln & Hln & _ & -> & _)]; [by left|].
    right. by exists ln.
  - split; [done|]. intros Hq. congruence.
Qed.

(** The request bears the ids its answer will name. *)
Definition asked_as (h : Hop) (message_id session_id : string) : Prop :=
  py_get (pe_header (hp_envelope h)) "message_id" = JStr message_id /\
  py_get (pe_header (hp_envelope h)) "physical_session_id" = JStr session_id.

Lemma header_string_unicode d k s : dict_wf d -> py_get d k = JStr s -> unicode s.
Proof. intros Hd Hg. pose proof (py_get_wf d k Hd) as Hv. rewrite Hg in Hv. by inversion Hv. Qed.

Lemma last_answer h message_id session_id uuid rs :
  readable (hp_envelope h) -> asked_as h message_id session_id -> unicode uuid -> result_ok rs ->
  answered message_id session_id rs
    (packet_text (result_header uuid (pe_header (hp_envelope h))) (result_payload rs)).
Proof.
  intros [Hwh _ _] [Hm Hs] Hu Hok. exists rs. split; [|done].
  eexists. split; [reflexivity|]. split; [by apply result_header_wf|].
  unfold result_header, py_get at 1 2 4. od_eval. by rewrite Hm, Hs.
Qed.

Lemma request_round h rest : forall relays message_id session_id uuid rs,
  readable (hp_envelope h) -> request_type (hp_envelope h) -> asked_as h message_id session_id ->
  travels h rest -> Forall request_handles (h :: rest) -> waiting h rest relays ->
  unicode uuid -> result_ok rs ->
  Z.of_nat (length rest) <= _read_ttl (hop_payload h) (dc_dht_request_max_forward_hops (hp_config h)) /\
  returns (rev relays) (answered message_id session_id rs)
    (packet_text (result_header uuid (pe_header (hp_envelope (last_hop h rest)))) (result_payload rs)).
Proof.
  revert h. induction rest as [|h' rest IH]; intros h relays mid sid uuid rs Hr Hty Hask [Hh Htr] Hall Hw Hu Hok.
  - destruct relays; [|done]. split; [apply read_ttl_nonneg|]. by apply last_answer.
  - destruct relays as [|r relays]; [done|]. destruct Hw as [Hwait Hw].
    destruct Htr as (packet & Hp & Harr & Htr). apply Forall_cons in Hall as [Hrh Hall].
    pose proof (request_sends_on h packet Hh Hty Hp) as Hsend.
    destruct (sends_on_arrives _ _ _ _ _ _ packet _ Hsend Hr Hty
      (fun ln Hln => proj1 (ho_local h Hh ln Hln)) (rh_collected h Hrh) (ho_names h Hh) Hp Harr)
      as (Ht & Hr' & Hty' & Httl & mid' & sid' & Hmid & Hsid & Hpend).
    destruct Hwait as [Hconf Hmsg Hkept Hpending Htime].
    assert (mid' = rl_message_id r) as -> by congruence.
    destruct Hask as [Hm Hs]. destruct (Hpend mid sid Hm Hs) as [created Hc].
    assert (rl_pending r = MkPendingForward sid mid created) as Hpf by congruence.
    destruct (IH h' relays (rl_message_id r) sid' uuid rs Hr' Hty' (conj Hmid Hsid) Htr Hall Hw Hu Hok)
      as [Hlen Hret]. unfold hop_payload in Hlen at 1. rewrite Httl in Hlen.
    split; [unfold hop_payload; cbn [length]; lia|]. cbn [rev last_hop].
    eapply returns_app; [|exact Hret]. intros p Hp'.
    replace (answered mid sid rs) with
      (answered (pf_previous_message_id (rl_pending r)) (pf_previous_session_id (rl_pending r)) rs)
      by (by rewrite Hpf).
    eapply relay_answered; [|exact Hp']. split; [done|done|].
    rewrite Hpf. cbn. split; by eapply header_string_unicode; [apply Hr|].
Qed.

(** The shape of an answer: it takes the ids of the request. *)
Definition answer_text (envelope : ProtocolEnvelope) (rs : DhtResult) (packet : string) : Prop :=
  exists k, packet = packet_text (result_header (uuid4 k) (pe_header envelope)) (result_payload rs).

Lemma forward_answer config envelope context key nodes failure_status sb rc cursor rj exp trace n r n' packet :
  _forward_or_return_failure config envelope context key nodes failure_status sb rc cursor rj exp trace n
    = (Ok r, n') ->
  pp_response_payload r = Some packet -> exists rs, answer_text envelope rs packet.
Proof.
  intros Hr Hp. apply forward_inv in Hr as [(node & pre & session & n1 & _ & _ & _ & Hr)|(status & n1 & _ & Hr)].
  - unfold send_forward in Hr. erewrite st_bind_run in Hr by reflexivity. cbv zeta in Hr.
    apply st_bind_Ok in Hr as (u & n2 & _ & Hr). by injection Hr as <- _.
  - apply response_inv in Hr as (_ & Hr & _). rewrite Hr in Hp. injection Hp as <-. by eexists _, _.
Qed.

Lemma built_answer envelope rs n text n' :
  build_result_payload (pe_header envelope) rs n = (Ok text, n') -> answer_text envelope rs text.
Proof. intros [= <- _]. by eexists. Qed.

Lemma request_answer config envelope context n r n' packet :
  request_type envelope -> handle config envelope context n = (Ok r, n') ->
  pp_response_payload r = Some packet -> exists rs, answer_text envelope rs packet.
Proof.
  intros [Hty|Hty] Hr Hp; unfold handle in Hr; rewrite Hty in Hr.
  - unfold _handle_publish in Hr. cbv zeta in Hr.
    destruct (read_string_or_none _ "namespace"); [|by injection Hr as <- _].
    destruct (read_string_or_none _ "logical_key"); [|by injection Hr as <- _].
    destruct (read_string_or_none _ "record_json"); [|by injection Hr as <- _].
    apply st_bind_Ok in Hr as (key & n1 & _ & Hr). apply st_bind_Ok in Hr as (pow & n2 & _ & Hr).
    destruct (negb _); [by injection Hr as <- _|]. destruct (negb _); [by injection Hr as <- _|].
    apply st_bind_Ok in Hr as (closest & n3 & _ & Hr). destruct (negb _); [by eapply forward_answer|].
    apply st_bind_Ok in Hr as (local & n4 & _ & Hr). destruct local; [|by injection Hr as <- _].
    apply st_bind_Ok in Hr as (sb & n5 & _ & Hr). destruct (_ <? _); [by eapply forward_answer|].
    apply st_bind_Ok in Hr as (text & n6 & Hb & Hr). injection Hr as <- _. injection Hp as <-.
    eexists. by eapply built_answer.
  - unfold _handle_query in Hr. cbv zeta in Hr.
    destruct (read_string_or_none _ "namespace"); [|by injection Hr as <- _].
    destruct (read_string_or_none _ "logical_key"); [|by injection Hr as <- _].
    apply st_bind_Ok in Hr as (key & n1 & _ & Hr). apply st_bind_Ok in Hr as (closest & n3 & _ & Hr).
    destruct (negb _); [by eapply forward_answer|].
    apply st_bind_Ok in Hr as (record & n4 & _ & Hr). apply st_bind_Ok in Hr as (cursor & n5 & _ & Hr).
    destruct record; [|by eapply forward_answer].
    apply st_bind_Ok in Hr as (now & n6 & _ & Hr). apply st_bind_Ok in Hr as (fr & n7 & Hf & Hr).
    destruct (bool_decide _) in Hr; [injection Hr as -> ->; by eapply forward_answer|].
    apply st_bind_Ok in Hr as (text & n8 & Hb & Hr). injection Hr as <- _. injection Hp as <-.
    eexists. by eapply built_answer.
Qed.

Lemma last_request h rest : forall packet,
  request_type (hp_envelope h) -> readable (hp_envelope h) -> travels h rest ->
  Forall request_handles (h :: rest) ->
  pp_response_payload (hp_result (last_hop h rest)) = Some packet ->
  exists rs, answer_text (hp_envelope (last_hop h rest)) rs packet.
Proof.
  revert h. induction rest as [|h' rest IH]; intros h packet Hty Hr [Hh Htr] Hall Hp.
  - eapply request_answer; [exact Hty|apply Hh|exact Hp].
  - destruct Htr as (sent & Hs & Harr & Htr). apply Forall_cons in Hall as [Hrh Hall].
    destruct (sends_on_arrives _ _ _ _ _ _ sent _ (request_sends_on h sent Hh Hty Hs) Hr Hty
      (fun ln Hln => proj1 (ho_local h Hh ln Hln)) (rh_collected h Hrh) (ho_names h Hh) Hs Harr)
      as (_ & Hr' & Hty' & _). by apply IH.
Qed.

End requests.

(** ** Witnesses *)

#[local] Existing Instance demo_entropy.
#[local] Existing Instance iso_extended.
#[local] Existing Instance demo_float.
#[local] Existing Instance demo_openssl.
#[local] Existing Instance demo_dht_env.
#[local] Existing Instance demo_dht_laws.
#[local] Existing Instance demo_dht_uuid.

(** The first hop, when the answer of the second arrives. *)
Definition demo_waiting : Relay :=
  MkRelay demo_dht_config demo_context "uuid-0" (MkPendingForward "sid-0" "m-0" (S754_zero false))
    (hp_after demo_first_hop).

Lemma demo_waits : waits demo_first_hop demo_last_hop demo_waiting.
Proof. split; [reflexivity|reflexivity|reflexivity|vm_compute; reflexivity|vm_compute; reflexivity]. Qed.

Lemma demo_request_handles : Forall request_handles [demo_first_hop; demo_last_hop].
Proof.
  destruct demo_hops as [Hh1 Hh2]. repeat apply Forall_cons_2; [..|apply Forall_nil_2];
    (split; [assumption|]); intros text Ht; vm_compute in Ht; discriminate.
Qed.

Definition demo_answer : string := default "" (pp_response_payload (hp_result demo_last_hop)).

