(* ===== verification/DhtLookup.v ===== *)
(** * A record of the DHT is found where it was stored

    Publication and query at the node that is alone responsible for a key. *)

From S2P Require Import Prelude PyJson PyTime PyInt PyFloat Crypto JsonText Records Pow Merge.
From S2P Require Import Transport Reliable Sessions Identity DhtService RouteService Core Engine.
From S2P Require Import DhtHandler DhtTable DhtRequests.

Section lookup.
Context `{FloatText} `{Entropy} `{OpenSSL} `{IsoParser} `{DhtEnv}.
Context (config : DhtConfig).

(** No other node is responsible for the key. *)
Record alone_responsible (key : string) (n : DhtNode) (local_node : LocalPhysicalNodeIdentity)
    (node : ranked_node) : Prop := {
  ar_closest : exists closest,
    select_k_closest_nodes (sv_database (dn_services n)) (dc_dht_replication_factor config) key = Ok closest /\
    cl_local_node_is_responsible closest = true /\ cl_nodes closest = [node];
  ar_local : rk_is_local node = true;
  ar_node : get_local_physical_node (sv_database (dn_services n)) = Some local_node;
  ar_id : exists distance, xor_distance_hex key (ln_id local_node) = Ok distance;
}.

(** A request for a key. *)
Record asks (envelope : ProtocolEnvelope) (type namespace logical_key : string) : Prop := {
  as_type : pe_message_type envelope = Some type;
  as_namespace : read_string_or_none (as_payload_dict envelope) "namespace" = Some namespace;
  as_logical_key : read_string_or_none (as_payload_dict envelope) "logical_key" = Some logical_key;
}.

(** The record, its proofs of work, and nothing yet known of other nodes. *)
Record publishes (envelope : ProtocolEnvelope) (namespace key record_json : string) : Prop := {
  pu_record : read_string_or_none (as_payload_dict envelope) "record_json" = Some record_json;
  pu_pow : exists details, build_publish_pow_details key record_json
      (_read_optional_int (as_payload_dict envelope) "pow_nonce") (dc_network_pow_difficulty_bits config)
    = Ok details /\ pd_is_valid details = true;
  pu_payload_pow : validate_record_payload_pow namespace key record_json
    (dc_network_pow_difficulty_bits config) = true;
  pu_stored_by : _read_string_list (as_payload_dict envelope) "stored_by" = [];
  pu_required : _read_optional_int (as_payload_dict envelope) "required_stored_count" = None;
}.

(** The handler's answer carries this result. *)
Definition answers_with (r : PacketProcessingResult) (rs : DhtResult) : Prop :=
  exists header, pp_response_payload r = Some (packet_text header (result_payload rs)).

Lemma select_nothing node previous stored_by cursor n :
  rk_is_local node = true -> _select_next_session [node] previous stored_by cursor n = (Ok None, n).
Proof. intros Hl. cbn [_select_next_session]. unfold skip_node. by rewrite Hl. Qed.

Lemma publish_stores envelope context namespace logical_key key record_json n local_node node :
  asks envelope "DHT_PUBLISH" namespace logical_key -> build_key namespace logical_key = Ok key ->
  publishes envelope namespace key record_json -> alone_responsible key n local_node node ->
  latest_record key (dn_records n) = None ->
  exists r n', handle config envelope context n = (Ok r, n') /\
    answers_with r (MkDhtResult "stored" key [] true None None [ln_id local_node] (Some (PyInt 1))
      (_read_trace_context (as_payload_dict envelope))) /\
    sv_database (dn_services n') = sv_database (dn_services n) /\
    dn_records n' = insert_record (sv_now (dn_services n)) key namespace logical_key record_json "dht_publish"
      (_read_optional_datetime (as_payload_dict envelope) "expires_at") (dn_records n).
Proof.
  intros [Hty Hns Hlk] Hkey [Hrec (details & Hpow & Hvalid) Hppow Hsb Hreq]
    [(closest & Hc & Hresp & Hnodes) Hl Hln _] Hnone.
  unfold handle. rewrite Hty. unfold _handle_publish. cbv zeta. rewrite Hns, Hlk, Hrec, Hkey.
  erewrite st_bind_run by reflexivity. rewrite Hpow. erewrite st_bind_run by reflexivity.
  rewrite Hvalid, Hppow. cbn [negb]. unfold select_closest.
  erewrite st_bind_run by (erewrite st_bind_run by reflexivity; unfold lift; by rewrite Hc).
  rewrite Hresp, Hsb, Hreq, Hnodes. cbn [negb]. unfold publish_here.
  erewrite st_bind_run by reflexivity. rewrite Hln. cbn [default length].
  rewrite bool_decide_eq_false_2 by apply not_elem_of_nil.
  erewrite st_bind_run by reflexivity. cbn.
  eexists _, _. split; [reflexivity|]. split; [by eexists|]. split; [reflexivity|].
  cbn. unfold upsert_records. by rewrite Hppow, Hnone.
Qed.

(** A query that has not collected a record yet. *)
Record fresh_query (envelope : ProtocolEnvelope) : Prop := {
  fq_record : read_string_or_none (as_payload_dict envelope) "query_record_json" = None;
  fq_expires : read_string_or_none (as_payload_dict envelope) "query_expires_at" = None;
}.

Definition query_answer (envelope : ProtocolEnvelope) (key : string) (node : ranked_node)
    (record : DhtRecord) : DhtResult :=
  let payload := as_payload_dict envelope in
  let expires_at := isoformat_naive <$> dr_expires_at record in
  if _read_ttl payload (dc_dht_request_max_forward_hops config) <=? 0
  then MkDhtResult "ttl_expired" key (_summarize_responsible_nodes [node]) false
         (Some (dr_record_json record)) expires_at (_read_string_list payload "stored_by")
         (Some (PyInt 1)) (_read_trace_context payload)
  else MkDhtResult "found" key [] true (Some (dr_record_json record)) expires_at [] None [].

Lemma query_finds envelope context namespace logical_key key n local_node node record :
  asks envelope "DHT_QUERY" namespace logical_key -> build_key namespace logical_key = Ok key ->
  fresh_query envelope -> alone_responsible key n local_node node ->
  latest_record key (dn_records n) = Some record ->
  exists r n', handle config envelope context n = (Ok r, n') /\
    answers_with r (query_answer envelope key node record).
Proof.
  intros [Hty Hns Hlk] Hkey [Hqr Hqe] [(closest & Hc & Hresp & Hnodes) Hl Hln (distance & Hdist)] Hrec.
  unfold handle. rewrite Hty. unfold _handle_query. cbv zeta. rewrite Hns, Hlk, Hkey, Hqr, Hqe.
  erewrite st_bind_run by reflexivity. unfold select_closest.
  erewrite st_bind_run by (erewrite st_bind_run by reflexivity; unfold lift; by rewrite Hc).
  rewrite Hresp, Hnodes. cbn [negb].
  erewrite st_bind_run by reflexivity. unfold _resolve_local_distance_hex.
  erewrite st_bind_run by (erewrite st_bind_run by reflexivity; rewrite Hln, Hdist; reflexivity).
  rewrite Hrec. erewrite st_bind_run by reflexivity.
  assert (or_else (isoformat_naive <$> dr_expires_at record) None = isoformat_naive <$> dr_expires_at record)
    as Hexp by (by destruct (dr_expires_at record)).
  rewrite Hexp. unfold _merge_query_record_json. cbn [nonempty_column].
  unfold _forward_or_return_failure, query_answer. cbv zeta.
  assert (or_else (isoformat_naive <$> dr_expires_at record)
      (read_string_or_none (as_payload_dict envelope) "query_expires_at")
    = isoformat_naive <$> dr_expires_at record) as Hexp'
    by (rewrite Hqe; by destruct (dr_expires_at record)).
  unfold resolve_progress. cbn [pg_stored_by pg_query_record_json pg_query_expires_at
    pg_required_stored_count pg_trace_context pg_query_cursor_distance_hex default or_else length].
  rewrite Hexp'. rewrite Hty. unfold _select_failed_publish_status.
  destruct (_ <=? 0) eqn:Httl.
  - eexists _, _. split; [reflexivity|]. by eexists.
  - erewrite st_bind_run by (erewrite st_bind_run by reflexivity;
      erewrite st_bind_run by (by apply select_nothing); reflexivity).
    eexists _, _. split; [reflexivity|]. by eexists.
Qed.

End lookup.

(** ** Witnesses *)

#[local] Existing Instance demo_entropy.
#[local] Existing Instance iso_extended.
#[local] Existing Instance demo_float.
#[local] Existing Instance demo_openssl.
#[local] Existing Instance demo_dht_env.

Definition demo_query : ProtocolEnvelope :=
  MkEnvelope "json" (Some "DHT_QUERY")
    (JObj [("namespace", JStr "dtt"); ("logical_key", JStr "tag"); ("ttl", JInt 2)]) "" [].

Definition demo_closest_node : ranked_node :=
  match select_k_closest_nodes (sv_database (dn_services demo_responsible)) 1 demo_key with
  | Ok closest => List.hd (MkRanked "" false "" 0 "" None) (cl_nodes closest)
  | Raise _ => MkRanked "" false "" 0 "" None
  end.

Definition demo_local_id : LocalPhysicalNodeIdentity :=
  MkLocalNode "ff" "pk" "sk" "ml-dsa-65" "active" 0.

Lemma demo_alone : alone_responsible demo_dht_config demo_key demo_responsible demo_local_id demo_closest_node.
Proof.
  split; [|vm_compute; reflexivity|reflexivity|].
  - destruct (select_k_closest_nodes (sv_database (dn_services demo_responsible)) 1 demo_key) as [c|] eqn:E;
      [|by vm_compute in E].
    exists c. split; [exact E|]. vm_compute in E. injection E as <-. by split; vm_compute.
  - destruct (xor_distance_hex demo_key "ff") as [d|] eqn:E; [by exists d|by vm_compute in E].
Qed.

