(* ===== verification/DhtClient.v ===== *)
(** * The client of the DHT

    Models [PhysicalDhtClient] ([src/app/core/protocol_clients/physical/dht.py]): a
    publication mines its proofs of work, is stored at the node itself when it is
    responsible, and is sent to one session after the other until enough nodes have
    the record; a query is answered from the node's own table or asks one session after
    the other.  A request waits for its answer while other tasks run, among them the
    handler of [DhtHandler]. *)

From S2P Require Import Prelude PyJson PyTime PyInt PyFloat Crypto JsonText Records Pow Merge.
From S2P Require Import Transport Reliable Sessions Identity DhtService RouteService Core Engine.
From S2P Require Import DhtHandler DhtTable DhtRequests DhtAnswers DhtLookup.

(** What other tasks do to the node while a request waits at most the given time;
    [random.choice] (an index for the list's length), the order a query with
    [ORDER BY random()] returns, [random.shuffle]; and of an exception whether it is an
    [asyncio.TimeoutError], and its [repr]. *)
Class ClientEnv := {
  other_tasks : spec_float -> DhtNode -> DhtNode;
  choice_index : nat -> nat -> nat;
  random_nodes : nat -> list RemotePhysicalNodeIdentity -> list RemotePhysicalNodeIdentity;
  shuffled : nat -> list string -> list string;
  is_timeout_error : exn -> bool;
  error_repr : exn -> string;
}.

(** ** Results *)

Definition _read_stored_by (result : jdict) : list string :=
  match py_get result "stored_by" with
  | JArr items => omap (fun item => match item with
      | JStr node_id => if str_truthy node_id then Some node_id else None | _ => None end) items
  | _ => []
  end.

(** Read from the node's own result, where the value is never a [bool]. *)
Definition _read_required_stored_count (result : jdict) : Z :=
  let fallback := Z.max 1 (Z.of_nat (length (_read_stored_by result))) in
  match json_pyint (py_get result "required_stored_count") with
  | Some value => if 0 <? pyint_val value then pyint_val value else fallback
  | None => fallback
  end.

Fixpoint first_occurrences (items merged : list string) : list string :=
  match items with
  | [] => merged
  | node_id :: items =>
      first_occurrences items
        (if bool_decide (node_id ∈ merged) then merged else merged ++ [node_id])
  end.

Definition _merge_stored_by (current incoming : list string) : list string :=
  first_occurrences (current ++ incoming) [].

Definition _normalize_publish_result (result : jdict) (stored_by : list string)
    (required_stored_count : Z) : jdict :=
  let normalized :=
    od_set "required_stored_count" (JInt required_stored_count)
      (od_set "stored_count" (JInt (Z.of_nat (length stored_by)))
         (od_set "stored_by" (str_list stored_by) result)) in
  if required_stored_count <=? Z.of_nat (length stored_by)
  then od_del "reason" (od_set "status" (JStr "stored") normalized)
  else if bool_decide (py_get normalized "status" = JStr "stored")
  then od_set "reason" (JStr "publish_stored_by_below_original_required_count")
         (od_set "status" (JStr "partially_stored") normalized)
  else normalized.

Definition _transport_preference (transport_name : option string) : Z :=
  match transport_name with
  | Some "tcp" => 0
  | Some "relay_tcp" => 1
  | Some "udp" => 2
  | _ => 3
  end.

(** [min(sessions, key=...)]: the first of the least ones. *)
Fixpoint least_session (best : NetworkSession) (sessions : list NetworkSession) : NetworkSession :=
  match sessions with
  | [] => best
  | session :: sessions =>
      least_session
        (if _transport_preference (ns_transport session) <? _transport_preference (ns_transport best)
         then session else best) sessions
  end.

Definition preferred (sessions : list NetworkSession) : option NetworkSession :=
  match sessions with [] => None | session :: sessions => Some (least_session session sessions) end.

Definition _parse_optional_datetime `{DhtEnv} (value : option string) : option Z :=
  value ← nonempty_column value; iso_fields (replace_Z value).

Definition not_routable (reason : option string) (key_hex : string) (required_stored_count : Z)
    : jdict :=
  [("status", JStr "not_routable")]
  ++ match reason with Some reason => [("reason", JStr reason)] | None => [] end
  ++ [("key", JStr key_hex); ("responsible_nodes", JArr []); ("stored_by", JArr []);
      ("stored_count", JInt 0); ("required_stored_count", JInt required_stored_count)].

Section client.
Context `{FloatText} `{FloatConv} `{Entropy} `{OpenSSL} `{IsoParser} `{AesGcmSiv} `{EngineIO} `{DhtEnv}.
Context {cenv : ClientEnv}.
Context (config : DhtConfig).

(** ** Sessions *)

Definition _get_active_session (session_id : string) : st DhtNode NetworkSession :=
  session ← services (fun s => get_session_by_session_id (sv_session_manager s) session_id);
  match session with
  | None => raise (ValueError "The provided physical session does not exist in memory.")
  | Some session =>
      if bool_decide (ns_session_state session = "active") then mret session
      else raise (ValueError "The provided physical session is not active yet.")
  end.

Definition _build_remote_endpoint (session : NetworkSession) : res TransportEndpoint :=
  match nonempty_column (ns_transport session), nonempty_column (ns_remote_host session),
        ns_remote_port session with
  | Some transport, Some host, Some port =>
      Ok (MkTransportEndpoint transport host port
            (CommonJson.load_json_object (ns_metadata_json session)))
  | _, _, _ => Raise (ValueError "The physical session has no associated remote endpoint.")
  end.

Definition usable_sessions (s : Services) : list NetworkSession :=
  List.filter (fun session => negb (_is_observed_only_physical_session session))
    (list_active_physical_sessions (sv_session_manager s)).

Definition _get_preferred_active_physical_session (remote_physical_node_id : string)
    : st DhtNode (option NetworkSession) :=
  services (fun s => preferred
    (List.filter (fun session => bool_decide (ns_remote_identity_id session = remote_physical_node_id))
       (usable_sessions s))).

(** [protocol_clients.physical.session.start_session]; the id of the session, or
    [None] when that raised. *)
Definition try_start_session (remote_physical_node_id : string) : st DhtNode (option string) :=
  catch_exn (fun _ => true)
    (match dht_start_session with
     | None => raise attribute_error
     | Some start_session =>
         session_id ← start_session remote_physical_node_id; mret (Some session_id)
     end)
    (fun _ => mret None).

(** The session, if it became active. *)
Definition opened_session (session_id : string) : st DhtNode (option NetworkSession) :=
  services (fun s =>
    session ← get_session_by_session_id (sv_session_manager s) session_id;
    if bool_decide (ns_session_state session = "active") then Some session else None).

(** The first of the nodes the node has, or can open, a session with, and the nodes
    tried, to which the ones are added where opening a session raised. *)
Fixpoint try_closest (responsible_nodes : list ranked_node) (attempted_remote_node_ids : gset string)
    : st DhtNode (option NetworkSession * gset string) :=
  match responsible_nodes with
  | [] => mret (None, attempted_remote_node_ids)
  | node :: responsible_nodes =>
      let node_id := rk_node_id node in
      if negb (str_truthy node_id) || bool_decide (node_id ∈ attempted_remote_node_ids)
      then try_closest responsible_nodes attempted_remote_node_ids
      else
        existing_session ← _get_preferred_active_physical_session node_id;
        match existing_session with
        | Some existing_session => mret (Some existing_session, attempted_remote_node_ids)
        | None =>
            session_id ← try_start_session node_id;
            match session_id with
            | None => try_closest responsible_nodes ({[node_id]} ∪ attempted_remote_node_ids)
            | Some session_id =>
                session ← opened_session session_id;
                match session with
                | Some session => mret (Some session, attempted_remote_node_ids)
                | None => try_closest responsible_nodes attempted_remote_node_ids
                end
            end
        end
  end.

Definition _select_closest_known_session (key_hex : string) (attempted_remote_node_ids : gset string)
    : st DhtNode (option NetworkSession * gset string) :=
  closest_nodes_result ← select_closest config key_hex;
  try_closest (List.filter (fun node => negb (rk_is_local node)) (cl_nodes closest_nodes_result))
    attempted_remote_node_ids.

(** A number that has not been drawn yet. *)
Definition draw : st DhtNode nat := on_services (fun s =>
  (Ok (sv_entropy s), s <| sv_entropy := S (sv_entropy s) |>)).

Fixpoint try_candidates (candidates : list string) (ignored_remote_node_ids : gset string)
    : st DhtNode (option NetworkSession) :=
  match candidates with
  | [] => mret None
  | node_id :: candidates =>
      if bool_decide (node_id ∈ ignored_remote_node_ids)
      then try_candidates candidates ignored_remote_node_ids
      else
        session_id ← try_start_session node_id;
        match session_id with
        | None => try_candidates candidates ignored_remote_node_ids
        | Some session_id =>
            session ← opened_session session_id;
            match session with
            | Some session => mret (Some session)
            | None => try_candidates candidates ignored_remote_node_ids
            end
        end
  end.

Definition _select_random_initial_session (ignored_remote_node_ids : gset string)
    : st DhtNode (option NetworkSession) :=
  active_sessions ← services (fun s =>
    List.filter (fun session => bool_decide (ns_remote_identity_id session ∉ ignored_remote_node_ids))
      (usable_sessions s));
  match preferred active_sessions with
  | Some best =>
      let preferred_sessions :=
        List.filter (fun candidate => _transport_preference (ns_transport candidate)
                                      =? _transport_preference (ns_transport best)) active_sessions in
      k ← draw;
      mret (preferred_sessions !! choice_index k (length preferred_sessions))
  | None =>
      k ← draw;
      db ← services sv_database;
      k' ← draw;
      try_candidates (shuffled k' (list_remote_physical_nodes_for_ping db (random_nodes k) 16))
        ignored_remote_node_ids
  end.

Definition _select_initial_query_session (key_hex : string) (attempted_remote_node_ids : gset string)
    : st DhtNode (option NetworkSession * gset string) :=
  '(session, attempted_remote_node_ids) ←
    _select_closest_known_session key_hex attempted_remote_node_ids;
  match session with
  | Some session => mret (Some session, attempted_remote_node_ids)
  | None =>
      session ← _select_random_initial_session attempted_remote_node_ids;
      mret (session, attempted_remote_node_ids)
  end.

(** ** A request *)

Definition forget_pending (message_id : string) : st DhtNode unit :=
  modify (fun n => n <| dn_pending_results := od_del message_id (dn_pending_results n) |>).

(** [asyncio.wait_for]: other tasks run; a future that is not done in time is
    cancelled. *)
Definition wait_for (future : nat) (timeout : spec_float) : st DhtNode (option jdict) := fun n =>
  let n := if float_leb timeout (S754_zero false) then n else other_tasks timeout n in
  match dn_futures n !! future with
  | Some (Done result) => (Ok (Some result), n)
  | _ => (Ok None, n <| dn_futures := <[future := Cancelled]> (dn_futures n) |>)
  end.

Definition timeout_result : jdict :=
  [("status", JStr "timeout"); ("reason", JStr "dht_final_result_timeout");
   ("timeout_seconds", JFloat (float_show (dc_dht_request_timeout_seconds config)))].

Definition send_failed_result (error : exn) : jdict :=
  [("status", JStr "send_failed"); ("reason", JStr "dht_request_send_failed");
   ("error", JStr (error_repr error))].

Definition create_future (message_id : string) : st DhtNode nat := fun n =>
  let future := length (dn_futures n) in
  (Ok future, n <| dn_futures := dn_futures n ++ [Pending] |>
                <| dn_pending_results := od_set message_id future (dn_pending_results n) |>).

Definition _send_and_wait_result (message_id : string) (payload : string)
    (remote_endpoint : TransportEndpoint) : st DhtNode jdict :=
  future ← create_future message_id;
  result ←
    catch_exn (fun _ => true)
      (on_services (send_packet (MkOutboundMessage (ep_transport_name remote_endpoint)
         (text_bytes payload) remote_endpoint None []));;
       answer ← wait_for future (dc_dht_request_timeout_seconds config);
       mret (default timeout_result answer))
      (fun error => mret (if is_timeout_error error then timeout_result else send_failed_result error));
  forget_pending message_id;;
  mret result.

(** The header of a request on an active session, and where it goes. *)
Definition start_request (session_id message_type : string)
    : st DhtNode (jdict * string * TransportEndpoint) :=
  session ← _get_active_session session_id;
  endpoint ← lift (_build_remote_endpoint session);
  header ← on_services (build_message_header message_type (Some (ns_session_id session)) None);
  match py_get header "message_id" with
  | JStr message_id => mret (header, message_id, endpoint)
  | _ => raise (OtherError "KeyError: 'message_id'")
  end.

Definition _request_publish_once (session_id namespace logical_key record_json : string)
    (expires_at : option string) (stored_by : list string) (required_stored_count pow_nonce : Z)
    (trace_context : jdict) : st DhtNode jdict :=
  '(header, message_id, endpoint) ← start_request session_id "DHT_PUBLISH";
  _send_and_wait_result message_id
    (build_publish_payload header namespace logical_key record_json expires_at
       (Some (dc_dht_request_max_forward_hops config)) stored_by (Some required_stored_count)
       (Some pow_nonce) trace_context) endpoint.

Definition _request_query_once (session_id namespace logical_key : string) : st DhtNode jdict :=
  '(header, message_id, endpoint) ← start_request session_id "DHT_QUERY";
  _send_and_wait_result message_id
    (build_query_payload header namespace logical_key (Some (dc_dht_request_max_forward_hops config)))
    endpoint.

(** ** The node itself *)

Definition _publish_locally_if_responsible (key_hex namespace logical_key record_json : string)
    (expires_at : option string) (pow_nonce : Z) : st DhtNode jdict :=
  closest_nodes_result ← select_closest config key_hex;
  let required_stored_count := Z.of_nat (length (cl_nodes closest_nodes_result)) in
  if negb (cl_local_node_is_responsible closest_nodes_result)
  then mret (not_routable None key_hex required_stored_count)
  else
    pow_details ← lift (build_publish_pow_details key_hex record_json (Some (PyInt pow_nonce))
      (dc_network_pow_difficulty_bits config));
    if negb (pd_is_valid pow_details)
    then mret (not_routable (Some "invalid_dht_publish_pow") key_hex required_stored_count)
    else if negb (validate_record_payload_pow namespace key_hex record_json
                    (dc_network_pow_difficulty_bits config))
    then mret (not_routable (Some "invalid_dht_payload_pow") key_hex required_stored_count)
    else
      local_node ← services (fun s => get_local_physical_node (sv_database s));
      match local_node with
      | None => mret (not_routable (Some "local_physical_node_not_initialized") key_hex
                        required_stored_count)
      | Some local_node =>
          _upsert_local_record config key_hex namespace logical_key record_json
            (_parse_optional_datetime expires_at) "dht_publish";;
          mret [("status", JStr (if required_stored_count <=? 1 then "stored" else "partially_stored"));
                ("key", JStr key_hex); ("stored_locally", JBool true);
                ("responsible_nodes", JArr []); ("stored_by", str_list [ln_id local_node]);
                ("stored_count", JInt 1); ("required_stored_count", JInt required_stored_count)]
      end.

Definition _query_locally_if_responsible (key_hex : string) : st DhtNode jdict :=
  closest_nodes_result ← select_closest config key_hex;
  if negb (cl_local_node_is_responsible closest_nodes_result)
  then mret [("status", JStr "not_routable"); ("key", JStr key_hex); ("responsible_nodes", JArr [])]
  else
    dht_record ← _load_validated_local_record key_hex;
    mret match dht_record with
    | None => [("status", JStr "not_found"); ("key", JStr key_hex); ("stored_locally", JBool false);
               ("responsible_nodes", JArr [])]
    | Some dht_record =>
        [("status", JStr "found"); ("key", JStr key_hex); ("stored_locally", JBool true);
         ("record_json", JStr (dr_record_json dht_record));
         ("expires_at", opt_json JStr (isoformat_naive <$> dr_expires_at dht_record));
         ("responsible_nodes", JArr [])]
    end.

(** ** Publication *)

Definition add_attempt (node_id : string) (attempted_remote_node_ids : gset string) : gset string :=
  if str_truthy node_id then {[node_id]} ∪ attempted_remote_node_ids else attempted_remote_node_ids.

(** The loop over the sessions; [attempts] are left. *)
Fixpoint publish_attempts (namespace logical_key record_json : string) (expires_at : option string)
    (required_stored_count pow_nonce : Z) (trace_context : jdict) (attempts : nat) (result : jdict)
    (session : NetworkSession) (stored_by : list string) (attempted_remote_node_ids : gset string)
    : st DhtNode jdict :=
  match attempts with
  | O => mret result
  | S attempts =>
      let attempted_remote_node_ids :=
        add_attempt (ns_remote_identity_id session) attempted_remote_node_ids in
      result ← _request_publish_once (ns_session_id session) namespace logical_key record_json
        expires_at stored_by required_stored_count pow_nonce trace_context;
      let stored_by := _merge_stored_by stored_by (_read_stored_by result) in
      let result := _normalize_publish_result result stored_by required_stored_count in
      if required_stored_count <=? Z.of_nat (length stored_by) then mret result
      else if bool_decide (attempts = 0%nat) then mret result
      else
        next_session ← _select_random_initial_session attempted_remote_node_ids;
        match next_session with
        | None => mret result
        | Some session =>
            publish_attempts namespace logical_key record_json expires_at required_stored_count
              pow_nonce trace_context attempts result session stored_by attempted_remote_node_ids
        end
  end.

(** The publication of a record with its proofs of work. *)
Definition publish_mined (publish_attempt_count : Z) (key_hex namespace logical_key record_json : string)
    (expires_at : option string) (pow_nonce : Z) (trace_context : jdict) : st DhtNode jdict :=
  _ ← lift (build_publish_pow_details key_hex record_json (Some (PyInt pow_nonce))
    (dc_network_pow_difficulty_bits config));
  local_publish_result ← _publish_locally_if_responsible key_hex namespace logical_key record_json
    expires_at pow_nonce;
  let stored_by := _read_stored_by local_publish_result in
  let required_stored_count := _read_required_stored_count local_publish_result in
  if bool_decide (py_get local_publish_result "status" = JStr "stored")
  then mret local_publish_result
  else
    '(session, attempted_remote_node_ids) ← _select_closest_known_session key_hex ∅;
    session ←
      match session with
      | Some session => mret (Some session)
      | None => _select_random_initial_session attempted_remote_node_ids
      end;
    match session with
    | None => mret local_publish_result
    | Some session =>
        publish_attempts namespace logical_key record_json expires_at required_stored_count pow_nonce
          trace_context (Z.to_nat publish_attempt_count) local_publish_result session stored_by
          attempted_remote_node_ids
    end.

(** The record with the proofs of work of its items, and the one of the publication;
    [None] while they are still looked for. *)
Definition mine_record (fuel : nat) (namespace key_hex record_json : string)
    : option (res (string * Z)) :=
  match attach_record_payload_pow_nonces fuel namespace key_hex record_json
          (dc_network_pow_difficulty_bits config) with
  | None => None
  | Some (Raise e) => Some (Raise e)
  | Some (Ok record_json) =>
      run_map (pair record_json)
        (find_publish_pow_nonce fuel key_hex record_json (dc_network_pow_difficulty_bits config))
  end.

Definition publish (fuel : nat) (publish_attempt_count : Z)
    (namespace logical_key record_json : string) (expires_at : option string) (trace_context : jdict)
    : option (st DhtNode jdict) :=
  match build_key namespace logical_key with
  | Raise e => Some (raise e)
  | Ok key_hex =>
      match mine_record fuel namespace key_hex record_json with
      | None => None
      | Some (Raise e) => Some (raise e)
      | Some (Ok (record_json, pow_nonce)) =>
          Some (publish_mined publish_attempt_count key_hex namespace logical_key record_json
                  expires_at pow_nonce trace_context)
      end
  end.

(** ** Query *)

Definition _add_responsible_node_ids_to_attempts (result : jdict)
    (attempted_remote_node_ids : gset string) : gset string :=
  match py_get result "responsible_nodes" with
  | JArr nodes =>
      foldl (fun attempted node =>
        match node with
        | JObj node =>
            match truthy_str (py_get node "node_id") with
            | Some node_id => {[node_id]} ∪ attempted
            | None => attempted
            end
        | _ => attempted
        end) attempted_remote_node_ids nodes
  | _ => attempted_remote_node_ids
  end.

Fixpoint query_attempts (key_hex namespace logical_key : string) (attempts : nat) (result : jdict)
    (attempted_remote_node_ids : gset string) : st DhtNode jdict :=
  match attempts with
  | O => mret result
  | S attempts =>
      '(session, attempted_remote_node_ids) ←
        _select_initial_query_session key_hex attempted_remote_node_ids;
      match session with
      | None => mret result
      | Some session =>
          let attempted_remote_node_ids :=
            add_attempt (ns_remote_identity_id session) attempted_remote_node_ids in
          result ← _request_query_once (ns_session_id session) namespace logical_key;
          if bool_decide (py_get result "status" = JStr "found") then mret result
          else
            query_attempts key_hex namespace logical_key attempts result
              (_add_responsible_node_ids_to_attempts result attempted_remote_node_ids)
      end
  end.

Definition query (namespace logical_key : string) : st DhtNode jdict :=
  key_hex ← lift (build_key namespace logical_key);
  result ← _query_locally_if_responsible key_hex;
  if bool_decide (py_get result "status" = JStr "found") then mret result
  else
    query_attempts key_hex namespace logical_key (Z.to_nat (dc_dht_query_attempt_count config))
      result ∅.
End client.

(** ** Counting the nodes that have the record *)

Section counting.
Lemma first_occurrences_spec items : forall merged,
  NoDup merged ->
  NoDup (first_occurrences items merged) /\
  forall x, x ∈ first_occurrences items merged <-> x ∈ merged \/ x ∈ items.
Proof.
  induction items as [|y items IH]; intros merged Hm; cbn.
  - split; [done|]. set_solver.
  - case_bool_decide as Hy.
    + destruct (IH merged Hm) as [Hnd Hin]. split; [done|]. intros x. rewrite Hin. set_solver.
    + destruct (IH (merged ++ [y])) as [Hnd Hin].
      { apply NoDup_app. split; [done|]. split; [set_solver|apply NoDup_singleton]. }
      split; [done|]. intros x. rewrite Hin. set_solver.
Qed.

Lemma merge_stored_by_spec current incoming :
  NoDup (_merge_stored_by current incoming) /\
  forall x, x ∈ _merge_stored_by current incoming <-> x ∈ current \/ x ∈ incoming.
Proof.
  destruct (first_occurrences_spec (current ++ incoming) []) as [Hnd Hin]; [constructor|].
  split; [done|]. intros x. unfold _merge_stored_by. rewrite Hin. set_solver.
Qed.

Lemma read_stored_by_names result : Forall (fun node_id => node_id <> "") (_read_stored_by result).
Proof.
  unfold _read_stored_by. destruct (py_get result "stored_by"); try constructor.
  induction items as [|[] items IH]; csimpl; try done.
  destruct (str_truthy s) eqn:E; csimpl; [|done]. constructor; [by apply str_truthy_spec|done].
Qed.

Lemma merge_stored_by_names current incoming :
  Forall (fun node_id => node_id <> "") current -> Forall (fun node_id => node_id <> "") incoming ->
  Forall (fun node_id => node_id <> "") (_merge_stored_by current incoming).
Proof.
  rewrite !list.Forall_forall. intros Hc Hi x Hx. apply merge_stored_by_spec in Hx as [Hx|Hx]; eauto.
Qed.

Lemma read_stored_by_list result stored_by :
  py_get result "stored_by" = str_list stored_by -> Forall (fun node_id => node_id <> "") stored_by ->
  _read_stored_by result = stored_by.
Proof.
  unfold _read_stored_by. intros -> Hall. cbn.
  induction Hall as [|x l Hx _ IH]; csimpl; [done|]. rewrite (proj2 (str_truthy_spec x) Hx). csimpl. by rewrite IH.
Qed.

(** The result says [stored] exactly when enough nodes have the record. *)
Definition counts (result : jdict) (required_stored_count : Z) (stored_by : list string) : Prop :=
  _read_stored_by result = stored_by /\
  (py_get result "status" = JStr "stored" <-> required_stored_count <= Z.of_nat (length stored_by)).

Lemma normalized_counts result stored_by required :
  Forall (fun node_id => node_id <> "") stored_by ->
  counts (_normalize_publish_result result stored_by required) required stored_by.
Proof.
  intros Hnames. unfold _normalize_publish_result. cbv zeta.
  set (normalized := od_set "required_stored_count" _ _).
  assert (py_get normalized "stored_by" = str_list stored_by) as Hget.
  { unfold normalized, py_get. rewrite !od_get_set_ne by done. by rewrite od_get_set_eq. }
  destruct (Z.leb_spec required (Z.of_nat (length stored_by))) as [Hle|Hgt].
  - split.
    + apply read_stored_by_list; [|done]. unfold py_get. rewrite od_get_del_ne by done.
      rewrite od_get_set_ne by done. exact Hget.
    + split; [done|]. intros _. unfold py_get. rewrite od_get_del_ne by done. by rewrite od_get_set_eq.
  - case_bool_decide as Hs.
    + split.
      * apply read_stored_by_list; [|done]. unfold py_get. rewrite !od_get_set_ne by done. exact Hget.
      * unfold py_get. rewrite od_get_set_ne by done. rewrite od_get_set_eq. split; [done|lia].
    + split; [by apply read_stored_by_list|]. split; [done|lia].
Qed.
End counting.

(** ** One request *)

Section requests.
Context `{FloatText} `{FloatConv} `{Entropy} `{OpenSSL} `{IsoParser} `{AesGcmSiv} `{EngineIO} `{DhtEnv}.
Context {cenv : ClientEnv}.
Context (config : DhtConfig).

(** The node when the packet is on its way. *)
Definition sent_request (message_id payload : string) (endpoint : TransportEndpoint) (n n1 : DhtNode)
    : Prop :=
  exists n0, create_future message_id n = (Ok (length (dn_futures n)), n0) /\
    on_services (send_packet (MkOutboundMessage (ep_transport_name endpoint) (text_bytes payload)
      endpoint None [])) n0 = (Ok tt, n1).

Definition waited (n : DhtNode) : DhtNode :=
  let timeout := dc_dht_request_timeout_seconds config in
  if float_leb timeout (S754_zero false) then n else other_tasks timeout n.

(** How a request ends: its packet cannot be sent; it is answered while it waits; or
    it is not, and its future is cancelled. *)
Inductive request_ends (message_id payload : string) (endpoint : TransportEndpoint) (n n' : DhtNode)
    : jdict -> Prop :=
| Ends_unsent n0 n1 e :
    create_future message_id n = (Ok (length (dn_futures n)), n0) ->
    on_services (send_packet (MkOutboundMessage (ep_transport_name endpoint) (text_bytes payload)
      endpoint None [])) n0 = (Raise e, n1) ->
    n' = n1 <| dn_pending_results := od_del message_id (dn_pending_results n1) |> ->
    request_ends message_id payload endpoint n n'
      (if is_timeout_error e then timeout_result config else send_failed_result e)
| Ends_answered n1 answer :
    sent_request message_id payload endpoint n n1 ->
    dn_futures (waited n1) !! length (dn_futures n) = Some (Done answer) ->
    n' = waited n1 <| dn_pending_results := od_del message_id (dn_pending_results (waited n1)) |> ->
    request_ends message_id payload endpoint n n' answer
| Ends_waiting n1 :
    sent_request message_id payload endpoint n n1 ->
    (forall answer, dn_futures (waited n1) !! length (dn_futures n) <> Some (Done answer)) ->
    n' = waited n1 <| dn_futures := <[length (dn_futures n) := Cancelled]> (dn_futures (waited n1)) |>
           <| dn_pending_results := od_del message_id (dn_pending_results (waited n1)) |> ->
    request_ends message_id payload endpoint n n' (timeout_result config).

Lemma wait_for_cases future n :
  (exists answer, dn_futures (waited n) !! future = Some (Done answer) /\
     wait_for future (dc_dht_request_timeout_seconds config) n = (Ok (Some answer), waited n)) \/
  ((forall answer, dn_futures (waited n) !! future <> Some (Done answer)) /\
     wait_for future (dc_dht_request_timeout_seconds config) n =
       (Ok None, waited n <| dn_futures := <[future := Cancelled]> (dn_futures (waited n)) |>)).
Proof.
  unfold wait_for. cbv zeta. fold (waited n).
  destruct (dn_futures (waited n) !! future) as [[|answer|]|]; [right|left; by exists answer|right|right]; done.
Qed.

Lemma request_ends_run message_id payload endpoint n :
  exists result n', _send_and_wait_result config message_id payload endpoint n = (Ok result, n') /\
    request_ends message_id payload endpoint n n' result.
Proof.
  set (message := MkOutboundMessage (ep_transport_name endpoint) (text_bytes payload) endpoint None []).
  set (n0 := n <| dn_futures := dn_futures n ++ [Pending] |>
               <| dn_pending_results := od_set message_id (length (dn_futures n)) (dn_pending_results n) |>).
  assert (create_future message_id n = (Ok (length (dn_futures n)), n0)) as Hn0 by done.
  unfold _send_and_wait_result. fold message. rewrite (st_bind_run _ _ _ _ _ Hn0).
  destruct (on_services (send_packet message) n0) as [[[]|e] n1] eqn:Hsend.
  - assert (sent_request message_id payload endpoint n n1) as Hsent by (by exists n0).
    destruct (wait_for_cases (length (dn_futures n)) n1) as [(answer & Hdone & Hw)|(Hno & Hw)].
    + eexists _, _. split; [|by eapply Ends_answered].
      erewrite st_bind_run by (unfold catch_exn; erewrite st_bind_run by exact Hsend;
        erewrite st_bind_run by exact Hw; reflexivity). reflexivity.
    + eexists _, _. split; [|by eapply Ends_waiting].
      erewrite st_bind_run by (unfold catch_exn; erewrite st_bind_run by exact Hsend;
        erewrite st_bind_run by exact Hw; reflexivity). reflexivity.
  - eexists _, _. split; [|by eapply Ends_unsent].
    erewrite st_bind_run by (unfold catch_exn; erewrite st_bind_raise by exact Hsend; reflexivity).
    reflexivity.
Qed.
End requests.

(** ** The sessions a publication is sent to *)

(** A session the session client opens is one with the node it was asked for. *)
Class SessionClientLaws `{DhtEnv} := {
  start_session_names : forall start_session node_id n session_id n' session,
    dht_start_session = Some start_session -> start_session node_id n = (Ok session_id, n') ->
    get_session_by_session_id (sv_session_manager (dn_services n')) session_id = Some session ->
    ns_remote_identity_id session = node_id;
}.

Section publication.
Context `{FloatText} `{FloatConv} `{Entropy} `{OpenSSL} `{IsoParser} `{AesGcmSiv} `{EngineIO} `{DhtEnv}.
Context {cenv : ClientEnv} `{!SessionClientLaws}.
Context (config : DhtConfig).

Lemma try_start_session_names node_id n session_id n1 session n2 :
  try_start_session node_id n = (Ok (Some session_id), n1) ->
  opened_session session_id n1 = (Ok (Some session), n2) -> ns_remote_identity_id session = node_id.
Proof.
  unfold try_start_session, catch_exn. destruct dht_start_session as [start|] eqn:Hs; [|done].
  destruct ((session_id ← start node_id; mret (Some session_id)) n) as [[a|e] m] eqn:E; [|done].
  intros [= -> ->]. apply st_bind_Ok in E as (sid & m & Hrun & E). injection E as -> ->.
  unfold opened_session. intros [= Hget <-].
  destruct (get_session_by_session_id _ session_id) as [s|] eqn:Hg; [|done]. cbn in Hget.
  destruct (bool_decide _); [|done]. injection Hget as ->. by eapply start_session_names.
Qed.

Lemma try_candidates_new candidates ignored n session n' :
  try_candidates candidates ignored n = (Ok (Some session), n') -> ns_remote_identity_id session ∉ ignored.
Proof.
  revert n. induction candidates as [|node_id candidates IH]; intros n; [done|]. cbn [try_candidates].
  case_bool_decide as Hi; [apply IH|]. intros Hr.
  apply st_bind_Ok in Hr as ([session_id|] & n1 & Hs & Hr); [|by eapply IH].
  apply st_bind_Ok in Hr as ([s|] & n2 & Ho & Hr); [|by eapply IH].
  injection Hr as -> _. by rewrite (try_start_session_names _ _ _ _ _ _ Hs Ho).
Qed.

Lemma preferred_in sessions session : preferred sessions = Some session -> session ∈ sessions.
Proof.
  assert (forall l best, least_session best l ∈ best :: l) as Hin.
  { induction l as [|s l IH]; intros best; [left|]. cbn [least_session].
    specialize (IH (if _transport_preference (ns_transport s) <? _transport_preference (ns_transport best)
                    then s else best)).
    apply elem_of_cons in IH as [-> |IH]; [|by do 2 right]. case_match; [by right; left|left]. }
  destruct sessions as [|s l]; [done|]. intros [= <-]. apply Hin.
Qed.

Lemma random_session_new ignored n session n' :
  _select_random_initial_session ignored n = (Ok (Some session), n') ->
  ns_remote_identity_id session ∉ ignored.
Proof.
  unfold _select_random_initial_session. intros Hr.
  apply st_bind_Ok in Hr as (active & n1 & Ha & Hr). injection Ha as <- <-.
  destruct (preferred _) as [best|].
  - apply st_bind_Ok in Hr as (k & n1 & _ & Hr). injection Hr as Hr _.
    apply list_elem_of_lookup_2, elem_of_List_filter in Hr as [Hr _].
    apply elem_of_List_filter in Hr as [_ Hr]. by apply bool_decide_eq_true in Hr.
  - apply st_bind_Ok in Hr as (k & n1 & _ & Hr). apply st_bind_Ok in Hr as (db & n2 & _ & Hr).
    apply st_bind_Ok in Hr as (k' & n3 & _ & Hr). by eapply try_candidates_new.
Qed.

Section attempts.
Context (namespace logical_key record_json : string) (expires_at : option string).
Context (required_stored_count pow_nonce : Z) (trace_context : jdict).

(** Sessions asked one after the other, each with the nodes known so far, as long as
    these are too few. *)
Inductive publication : list string -> list (NetworkSession * jdict) -> list string -> Prop :=
| Publication_ends stored_by : publication stored_by [] stored_by
| Publication_asks stored_by session answer rest stored_by' n n1 :
    Z.of_nat (length stored_by) < required_stored_count ->
    _request_publish_once config (ns_session_id session) namespace logical_key record_json expires_at
      stored_by required_stored_count pow_nonce trace_context n = (Ok answer, n1) ->
    publication (_merge_stored_by stored_by (_read_stored_by answer)) rest stored_by' ->
    publication stored_by ((session, answer) :: rest) stored_by'.

(** The names of the nodes at the other end. *)
Definition names (asked : list (NetworkSession * jdict)) : list string :=
  List.filter str_truthy ((fun '(session, _) => ns_remote_identity_id session) <$> asked).

Definition run_attempts := publish_attempts config namespace logical_key record_json expires_at
  required_stored_count pow_nonce trace_context.

Lemma names_cons session answer asked :
  names ((session, answer) :: asked) =
    (if str_truthy (ns_remote_identity_id session) then [ns_remote_identity_id session] else [])
    ++ names asked.
Proof. unfold names. csimpl. by destruct (str_truthy _). Qed.

Lemma publish_attempts_run attempts : forall result session stored_by attempted n r n',
  run_attempts (S attempts) result session stored_by attempted n = (Ok r, n') ->
  Z.of_nat (length stored_by) < required_stored_count ->
  Forall (fun node_id => node_id <> "") stored_by ->
  exists answer rest stored_by', publication stored_by ((session, answer) :: rest) stored_by' /\
    (length rest <= attempts)%nat /\ NoDup (names ((session, answer) :: rest)) /\
    (forall node_id, node_id ∈ names rest -> node_id ∉ attempted) /\
    Forall (fun node_id => node_id <> "") stored_by' /\ counts r required_stored_count stored_by'.
Proof.
  unfold run_attempts.
  induction attempts as [|attempts IH]; intros result session stored_by attempted n r n' Hr Hless Hnames;
    cbn [publish_attempts] in Hr; apply st_bind_Ok in Hr as (answer & n1 & Hreq & Hr);
    pose proof (merge_stored_by_names _ _ Hnames (read_stored_by_names answer)) as Hnames';
    set (stored_by1 := _merge_stored_by stored_by (_read_stored_by answer)) in *;
    pose proof (normalized_counts answer stored_by1 required_stored_count Hnames') as Hcounts.
  - exists answer, [], stored_by1. split; [by econstructor; [..|constructor]|].
    split; [done|]. split; [rewrite names_cons; destruct (str_truthy _); [apply NoDup_singleton|constructor]|].
    split; [set_solver|]. split; [done|].
    destruct (_ <=? _); [by injection Hr as <- _|]. cbn in Hr. by injection Hr as <- _.
  - assert (exists rest stored_by', publication stored_by1 rest stored_by' /\
      (length rest <= S attempts)%nat /\ NoDup (names rest) /\
      (forall node_id, node_id ∈ names rest ->
        node_id ∉ add_attempt (ns_remote_identity_id session) attempted) /\
      Forall (fun node_id => node_id <> "") stored_by' /\ counts r required_stored_count stored_by') as
      (rest & stored_by' & Hpub & Hlen & Hnd & Hnew & Hn' & Hc).
    { destruct (Z.leb_spec required_stored_count (Z.of_nat (length stored_by1))) as [Hle|Hgt].
      { injection Hr as <- _. exists [], stored_by1. split; [constructor|]. split; [cbn; lia|].
        split; [constructor|]. split; [set_solver|done]. }
      rewrite bool_decide_eq_false_2 in Hr by done. apply st_bind_Ok in Hr as ([next|] & n2 & Hsel & Hr).
      2:{ injection Hr as <- _. exists [], stored_by1. split; [constructor|]. split; [cbn; lia|].
          split; [constructor|]. split; [set_solver|done]. }
      apply random_session_new in Hsel.
      apply IH in Hr as (answer' & rest & stored_by' & Hpub & Hlen & Hnd & Hnew & Hn' & Hc); [|exact answer|lia|done].
      exists ((next, answer') :: rest), stored_by'. split; [done|]. split; [cbn; lia|]. split; [done|].
      split; [|done]. intros node_id. rewrite names_cons, elem_of_app. intros [Hin|Hin]; [|by apply Hnew].
      destruct (str_truthy _); [|by apply not_elem_of_nil in Hin]. by apply list_elem_of_singleton in Hin as ->. }
    exists answer, rest, stored_by'. split; [by econstructor|]. split; [done|].
    rewrite names_cons. unfold add_attempt in Hnew.
    split; [|split; [|by split]].
    + destruct (str_truthy _); [|done]. apply NoDup_cons. split; [|done]. intros Hin. apply (Hnew _ Hin). set_solver.
    + intros node_id Hin. specialize (Hnew node_id Hin). destruct (str_truthy _); set_solver.
Qed.
End attempts.

(** The nodes known in the end are those known before and those the answers name. *)
Lemma publication_stored_by namespace logical_key record_json expires_at required pow_nonce trace_context
    stored_by asked stored_by' :
  publication namespace logical_key record_json expires_at required pow_nonce trace_context
    stored_by asked stored_by' ->
  (NoDup stored_by -> NoDup stored_by') /\
  forall x, x ∈ stored_by' <->
    x ∈ stored_by \/ exists session answer, (session, answer) ∈ asked /\ x ∈ _read_stored_by answer.
Proof.
  induction 1 as [stored_by|stored_by session answer rest stored_by' n n1 _ _ _ [IHnd IHin]].
  - split; [done|]. set_solver.
  - destruct (merge_stored_by_spec stored_by (_read_stored_by answer)) as [Hnd Hin].
    split; [auto|]. intros x. rewrite IHin, Hin. setoid_rewrite elem_of_cons. split.
    + intros [[Hx|Hx]|(s & a & Ha & Hx)]; eauto 10.
    + intros [Hx|(s & a & [[= -> ->]|Ha] & Hx)]; eauto 10.
Qed.

(** The node's own part of a publication. *)
Record own_part (n : DhtNode) (key_hex : string) (result : jdict) (required_stored_count : Z) : Prop := {
  op_required : exists closest,
    select_k_closest_nodes (sv_database (dn_services n)) (dc_dht_replication_factor config) key_hex = Ok closest /\
    required_stored_count = Z.max 1 (Z.of_nat (length (cl_nodes closest))) /\
    _read_required_stored_count result = required_stored_count;
  op_stored_by : _read_stored_by result = [] \/ exists local_node,
    get_local_physical_node (sv_database (dn_services n)) = Some local_node /\
    _read_stored_by result = [ln_id local_node];
  op_counts : counts result required_stored_count (_read_stored_by result);
}.

Lemma not_routable_part reason n key_hex closest :
  select_k_closest_nodes (sv_database (dn_services n)) (dc_dht_replication_factor config) key_hex = Ok closest ->
  own_part n key_hex (not_routable reason key_hex (Z.of_nat (length (cl_nodes closest))))
    (Z.max 1 (Z.of_nat (length (cl_nodes closest)))).
Proof.
  intros Hc. set (result := not_routable _ _ _).
  assert (_read_stored_by result = []) as Hs by (by destruct reason).
  split.
  - exists closest. split; [done|]. split; [done|]. unfold _read_required_stored_count. rewrite Hs.
    assert (json_pyint (py_get result "required_stored_count") = Some (PyInt (Z.of_nat (length (cl_nodes closest)))))
      as -> by (by destruct reason). cbn [pyint_val length]. destruct (Z.ltb_spec 0 (Z.of_nat (length (cl_nodes closest)))); lia.
  - by left.
  - rewrite Hs. split; [done|]. split; [by destruct reason|cbn; lia].
Qed.

Lemma publish_locally_part key_hex namespace logical_key record_json expires_at pow_nonce n result n1 :
  (forall local_node, get_local_physical_node (sv_database (dn_services n)) = Some local_node ->
     ln_id local_node <> "") ->
  _publish_locally_if_responsible config key_hex namespace logical_key record_json expires_at pow_nonce n
    = (Ok result, n1) ->
  exists required_stored_count, own_part n key_hex result required_stored_count.
Proof.
  intros Hlocal Hr. unfold _publish_locally_if_responsible in Hr.
  apply st_bind_Ok in Hr as (closest & n2 & Hc & Hr).
  apply st_bind_Ok in Hc as (db & n3 & Hdb & Hc). injection Hdb as <- <-. injection Hc as Hc <-.
  cbv zeta in Hr. exists (Z.max 1 (Z.of_nat (length (cl_nodes closest)))).
  destruct (cl_local_node_is_responsible closest); cbn [negb] in Hr;
    [|injection Hr as <- _; by apply not_routable_part].
  apply st_bind_Ok in Hr as (details & n2 & Hpow & Hr). injection Hpow as _ <-.
  destruct (pd_is_valid details); cbn [negb] in Hr; [|injection Hr as <- _; by apply not_routable_part].
  destruct (validate_record_payload_pow _ _ _ _); cbn [negb] in Hr;
    [|injection Hr as <- _; by apply not_routable_part].
  apply st_bind_Ok in Hr as (local_node & n2 & Hln & Hr). injection Hln as Hln <-.
  destruct local_node as [local_node|]; [|injection Hr as <- _; by apply not_routable_part].
  apply st_bind_Ok in Hr as ([] & n2 & _ & Hr). injection Hr as <- _.
  set (count := Z.of_nat (length (cl_nodes closest))). set (r := [("status", _); _; _; _; _; _; _]).
  assert (_read_stored_by r = [ln_id local_node]) as Hs.
  { apply read_stored_by_list; [done|]. repeat constructor. by apply Hlocal. }
  split.
  - exists closest. split; [done|]. split; [done|]. unfold _read_required_stored_count. rewrite Hs.
    replace (json_pyint (py_get r "required_stored_count")) with (Some (PyInt count)) by done.
    cbn [pyint_val length]. fold count. destruct (Z.ltb_spec 0 count); lia.
  - right. by exists local_node.
  - rewrite Hs. split; [done|]. replace (py_get r "status") with
      (JStr (if count <=? 1 then "stored" else "partially_stored")) by done.
    cbn [length]. destruct (Z.leb_spec count 1); split; intros; try done; lia.
Qed.

End publication.

(** ** A query that is answered *)

Section query.
Context `{FloatText} `{FloatConv} `{Entropy} `{OpenSSL} `{IsoParser} `{AesGcmSiv} `{EngineIO} `{DhtEnv}.
Context {cenv : ClientEnv}.
Context (config : DhtConfig).

Lemma result_data_get payload context :
  py_get (result_data payload context) "status" = py_get payload "status" /\
  py_get (result_data payload context) "record_json" = py_get payload "record_json".
Proof. done. Qed.

(** While a request with this message id waits on a future, the node handles an answer
    to it, and no task touches the future afterwards. *)
Record answered_while_waiting (message_id : string) (future : nat) (rs : DhtResult) (n1 : DhtNode)
    : Prop := {
  aw_clients : dht_start_session <> None;
  aw_handled : exists packet e context m result m',
    reaches_requester message_id rs packet /\ arrives packet e /\
    od_get message_id (dn_pending_forwards m) = None /\
    od_get message_id (dn_pending_results m) = Some future /\ dn_futures m !! future = Some Pending /\
    handle config e context m = (Ok result, m') /\
    dn_futures (waited config n1) !! future = dn_futures m' !! future;
}.

(** The request ends with the answer. *)
Lemma request_completed message_id payload endpoint n n1 rs :
  sent_request message_id payload endpoint n n1 ->
  answered_while_waiting message_id (length (dn_futures n)) rs n1 ->
  exists answer context n', _send_and_wait_result config message_id payload endpoint n =
      (Ok (result_data answer context), n') /\
    returned_result answer = as_read rs /\ py_get answer "status" = JStr (rs_status rs) /\
    py_get answer "record_json" = opt_json JStr (rs_record_json rs) /\
    od_get message_id (dn_pending_results n') = None.
Proof.
  intros Hsent [Hclients (packet & e & context & m & r & m' & Hreach & Harr & Hnone & Hf & Hp & Hh & Hsame)].
  destruct (Hreach config context m e _ Hclients Harr Hnone Hf Hp) as
    (r' & m2 & answer & Hh' & Hdone & Hret & Hst & Hrj & _).
  assert (m2 = m') as -> by congruence.
  destruct (request_ends_run config message_id payload endpoint n) as (result & n' & Hrun & Hends).
  assert (forall n2, sent_request message_id payload endpoint n n2 -> n2 = n1) as Hsame_sent.
  { intros n2 (a & Ha & Hb). destruct Hsent as (b & Ha' & Hb'). congruence. }
  inversion Hends as [n0 n2 err Hc Hs Hn' Hres|n2 a Hs2 Hd Hn' Hres|n2 Hs2 Hno Hn' Hres].
  - exfalso. destruct Hsent as (b & Ha' & Hb'). congruence.
  - apply Hsame_sent in Hs2 as ->. rewrite Hsame, Hdone in Hd. injection Hd as <-.
    exists answer, context, n'. rewrite Hrun, <- Hres. do 4 (split; [done|]).
    rewrite Hn'. apply od_get_del_eq.
  - exfalso. apply Hsame_sent in Hs2 as ->. rewrite Hsame in Hno. by apply (Hno _ Hdone).
Qed.

End query.

(** ** Witnesses *)

#[local] Existing Instance demo_entropy.
#[local] Existing Instance iso_extended.
#[local] Existing Instance demo_float.
#[local] Existing Instance demo_openssl.
#[local] Existing Instance demo_dht_env.
#[local] Existing Instance demo_dht_uuid.
#[local] Existing Instance demo_aead.
#[local] Existing Instance demo_io.

#[local] Instance demo_float_conv : FloatConv := {|
  float_show := fun _ => "60.0"; float_value := fun _ => float_of_int 60
|}.

(** The session client of the demonstration opens nothing. *)
#[local] Instance demo_session_client : SessionClientLaws.
Proof. split. by intros start node_id n session_id n' session [= <-]. Qed.

(** The answer to the first request of the node. *)
Definition demo_answer_header : jdict :=
  [("message_type", JStr "DHT_RESULT"); ("response_to_message_id", JStr "uuid-0");
   ("physical_session_id", JStr "sid-1")].

Definition demo_brings (rs : DhtResult) : ProtocolEnvelope :=
  MkEnvelope "json" (Some "DHT_RESULT") (JObj (norm_dict (result_payload rs))) ""
    (norm_dict demo_answer_header).

(** While the client waits, the handler gets it. *)
Definition demo_client_env (rs : DhtResult) : ClientEnv := {|
  other_tasks := fun _ n => (handle demo_dht_config (demo_brings rs) demo_context n).2;
  choice_index := fun _ _ => 0%nat; random_nodes := fun _ l => l; shuffled := fun _ l => l;
  is_timeout_error := fun _ => false; error_repr := fun _ => "error"
|}.

Definition demo_stored_result : DhtResult := MkDhtResult "stored" demo_key [] true None None ["ff"] None [].

(** The publication is stored at the responsible node, which says so. *)
Definition demo_publication : res jdict * DhtNode :=
  publish_mined (cenv := demo_client_env demo_stored_result) demo_dht_config 2 demo_key "dtt" "tag"
    demo_record_text None 0 [] demo_forwarder.


Definition demo_found_result : DhtResult :=
  MkDhtResult "found" demo_key [] true (Some demo_record_text) None [] None [].

Lemma demo_found_ok : result_ok demo_found_result.
Proof.
  constructor.
  - split; [by apply ascii_unicode|done].
  - apply ascii_unicode. vm_compute. reflexivity.
  - constructor.
  - intros text [= <-]. apply ascii_unicode. vm_compute. reflexivity.
  - done.
  - split; constructor.
  - json_wf_tac.
Qed.

Definition demo_found_packet : string := packet_text demo_answer_header (result_payload demo_found_result).

Lemma demo_found_arrives : arrives demo_found_packet (demo_brings demo_found_result).
Proof.
  eapply Arrives; [vm_compute; reflexivity|vm_compute; reflexivity|vm_compute; reflexivity
    |vm_compute; reflexivity|reflexivity|done|apply dict_wf_norm; unfold demo_answer_header; json_wf_tac|].
  json_wf_tac.
Qed.

Lemma demo_found_reaches : reaches_requester "uuid-0" demo_found_result demo_found_packet.
Proof.
  apply (answered_reaches "uuid-0" "sid-1"). exists demo_found_result. split; [|split; [exact demo_found_ok|done]].
  exists demo_answer_header. split; [done|]. split; [unfold demo_answer_header; json_wf_tac|done].
Qed.

(** The node that is not responsible has one session, with the node that is. *)
Definition demo_session : option NetworkSession :=
  head (list_active_physical_sessions (sv_session_manager (dn_services demo_forwarder))).

Definition demo_started := start_request "sid-1" "DHT_QUERY" demo_forwarder.
Definition demo_request_header : jdict :=
  match demo_started.1 with Ok (header, _, _) => header | Raise _ => [] end.
Definition demo_request_endpoint : TransportEndpoint := MkTransportEndpoint "tcp" "10.0.0.2" 19001 [].
Definition demo_request : string :=
  build_query_payload demo_request_header "dtt" "tag" (Some (dc_dht_request_max_forward_hops demo_dht_config)).
Definition demo_created : DhtNode := (create_future "uuid-0" demo_started.2).2.
Definition demo_asking : DhtNode :=
  (on_services (send_packet (MkOutboundMessage "tcp" (text_bytes demo_request) demo_request_endpoint None []))
     demo_created).2.

Lemma demo_answered :
  answered_while_waiting (cenv := demo_client_env demo_found_result) demo_dht_config "uuid-0" 0
    demo_found_result demo_asking.
Proof.
  split; [done|].
  destruct (handle demo_dht_config (demo_brings demo_found_result) demo_context demo_asking) as [[result|] m'] eqn:E;
    [|by vm_compute in E].
  exists demo_found_packet, (demo_brings demo_found_result), demo_context, demo_asking, result, m'.
  split; [exact demo_found_reaches|]. split; [exact demo_found_arrives|].
  split; [vm_compute; reflexivity|]. split; [vm_compute; reflexivity|]. split; [vm_compute; reflexivity|].
  split; [exact E|].
  change (waited (cenv := demo_client_env demo_found_result) demo_dht_config demo_asking)
    with (handle demo_dht_config (demo_brings demo_found_result) demo_context demo_asking).2.
  rewrite E. reflexivity.
Qed.

