(* ===== verification/DhtPublishing.v ===== *)
(** * Records the client publishes

    The proofs of work the client of [DhtClient] attaches are accepted by every node, and
    a record published by the node that is alone responsible for it is found again. *)

From S2P Require Import Prelude PyJson PyTime PyInt PyFloat Crypto JsonText Records Pow Merge.
From S2P Require Import Transport Reliable Sessions Identity DhtService RouteService Core Engine.
From S2P Require Import DhtHandler DhtTable DhtRequests DhtAnswers DhtLookup DhtClient.

(** ** Attaching nonces keeps a record well formed *)

Section attached.
Context `{FloatText}.

(** Mining changes nothing but the nonce. *)
Lemma mined_payload fuel ns key p d parent q :
  _with_payload_pow_nonce fuel ns key p d parent = Some (Ok q) -> exists k, q = with_nonce p (Some (PyInt k)).
Proof.
  unfold _with_payload_pow_nonce. destruct (d <=? 0); [intros [= <-]; by eexists|].
  intros (k & _ & ->)%run_map_Ok. by eexists.
Qed.

Ltac mined H :=
  let q := fresh "q" in let k := fresh "k" in
  apply run_map_Ok in H as (q & H & ->); apply mined_payload in H as [k ->]; cbn [with_nonce].

Lemma nonce_set_wf k d : dict_wf d -> dict_wf (od_set "pow_nonce" (JInt k) d).
Proof. apply dict_wf_set; [by apply ascii_unicode|constructor]. Qed.

(** A list of objects, each well formed. *)
Lemma objects_wf {A} (f : A -> jdict) l : json_wf (JArr ((fun x => JObj (f x)) <$> l)) <-> Forall (fun x => dict_wf (f x)) l.
Proof.
  split.
  - inversion_clear 1 as [| | | | |? Hl|]. by rewrite Forall_fmap in Hl.
  - intros Hl. apply Wf_arr. by rewrite Forall_fmap.
Qed.

(** The items of a list, each mined. *)
Lemma mined_objects {A} (mine : A -> option (res A)) (f : A -> jdict) (P : A -> Prop) l l' :
  (forall x y, mine x = Some (Ok y) -> dict_wf (f x) -> dict_wf (f y)) ->
  (forall x y, mine x = Some (Ok y) -> P x -> P y) ->
  mine_all mine l = Some (Ok l') -> Forall (fun x => dict_wf (f x)) l -> Forall P l ->
  json_wf (JArr ((fun x => JObj (f x)) <$> l')) /\ Forall P l'.
Proof.
  intros Hf HP Hm%mine_all_Forall2 Hd Hp. rewrite objects_wf. 
  induction Hm as [|x y l l' Hxy _ IH]; [done|].
  apply Forall_cons in Hd as [Hx Hd], Hp as [Hpx Hp]. destruct (IH Hd Hp). split; constructor; eauto.
Qed.

(** The records of a list are mined one by one. *)
Ltac mined_list H Hd field dict wf mine Hwf :=
  let Hj := fresh "Hj" in let Hf := fresh "Hf" in
  eapply (mined_objects _ dict wf) in H as [Hj Hf];
    [|intros ? ? He Hde; unfold mine in He; mined He; exact (nonce_set_wf _ _ Hde)
     |intros ? ? He ?; unfold mine in He; by mined He
     |apply objects_wf; by eapply (dict_wf_get _ field _ Hd)|exact Hwf].

Lemma attached_wf fuel ns key p d q :
  attach_payload_pow_nonces fuel ns key p d = Some (Ok q) -> payload_wf p -> dict_wf (payload_dict p) ->
  payload_wf q /\ dict_wf (payload_dict q) /\ kind_of q = kind_of p /\
  (payload_norm p = p -> payload_norm q = q).
Proof.
  unfold attach_payload_pow_nonces. intros Hm Hwf Hd.
  destruct (namespace_of ns) as [[]|]; destruct p as [p|p|p|p|p]; try done; apply run_map_Ok in Hm as (x & Hm & ->).
  - unfold attach_dpnt_pow in Hm. mined Hm. split; [done|].
    split; [exact (nonce_set_wf _ _ Hd)|]. split; [done|]. intros [= Hn]. destruct p. injection Hn as Hn. cbn in Hn |- *. by rewrite Hn.
  - destruct Hwf as [Hp Hwf].
    mined_list Hm Hd "route_entries" drt_entry_dict drt_entry_wf attach_drt_route_entry_pow Hwf.
    split; [done|]. split; [|done]. exact (dict_wf_set _ "route_entries" _ ltac:(by apply ascii_unicode) Hj Hd).
  - destruct Hwf as [Hp Hwf].
    mined_list Hm Hd "holders" holder_dict holder_wf attach_ddt_holder_pow Hwf.
    split; [done|]. split; [|done]. exact (dict_wf_set _ "holders" _ ltac:(by apply ascii_unicode) Hj Hd).
  - mined_list Hm Hd "entries" dtt_entry_dict dtt_entry_wf attach_dtt_entry_pow Hwf.
    split; [done|]. split; [|done]. exact (dict_wf_set _ "entries" _ ltac:(by apply ascii_unicode) Hj Hd).
  - unfold attach_dpt_pow in Hm. mined Hm. split; [done|]. split; [exact (nonce_set_wf _ _ Hd)|done].
Qed.
End attached.

Lemma payload_norm_idem p : payload_norm (payload_norm p) = payload_norm p.
Proof.
  destruct p as [p|p|p|p|p]; try done. destruct p. cbn. rewrite map_map.
  by rewrite (map_ext _ norm_dict) by (intros; apply norm_dict_idem).
Qed.

Lemma payload_norm_wf `{FloatText} p :
  (payload_wf p -> payload_wf (payload_norm p)) /\ (has_items p -> has_items (payload_norm p)) /\
  kind_of (payload_norm p) = kind_of p /\
  (dict_wf (payload_dict p) -> dict_wf (payload_dict (payload_norm p))).
Proof.
  destruct p as [p|p|p|p|p]; try done. do 3 (split; [done|]). intros Hd.
  refine (dict_wf_set _ "endpoints" (JArr (JObj <$> map norm_dict (dpnt_endpoints p))) _ _ Hd);
    [by apply ascii_unicode|].
  replace (JObj <$> map norm_dict (dpnt_endpoints p))
    with ((fun x => JObj (norm_dict x)) <$> dpnt_endpoints p) by (by rewrite <- list_fmap_compose).
  apply objects_wf. eapply Forall_impl; [|intros; by apply dict_wf_norm].
  apply (objects_wf id). by eapply (dict_wf_get (dpnt_dict p) "endpoints").
Qed.

Lemma found_nonce_valid fuel key_hex record_json d nonce :
  find_publish_pow_nonce fuel key_hex record_json d = Some (Ok nonce) ->
  exists details, build_publish_pow_details key_hex record_json (Some (PyInt nonce)) d = Ok details /\
    pd_is_valid details = true.
Proof.
  unfold find_publish_pow_nonce, build_publish_pow_details. intros Hf.
  destruct (pow_details_valid (publish_material key_hex record_json) (Some (PyInt nonce)) d) as
    (details & Hdet & Hvalid).
  exists details. split; [done|]. destruct (Z.leb_spec d 0) as [Hd|Hd].
  - injection Hf as <-. apply Hvalid. exists (PyInt 0). split; [done|]. split; [done|by left].
  - apply search_sound in Hf as (_ & Hv & _). unfold validate_publish_pow in Hv.
    destruct (Z.leb_spec d 0); [lia|]. destruct (Z.ltb_spec (pyint_val (PyInt nonce)) 0); [done|].
    unfold build_publish_pow_details in Hv. rewrite Hdet in Hv. by injection Hv.
Qed.

Section publishing.
Context `{FloatText} `{FloatConv} `{Entropy} `{OpenSSL} `{IsoParser} `{AesGcmSiv} `{EngineIO} `{DhtEnv}.
Context {cenv : ClientEnv}.
Context (config : DhtConfig).

(** What every node checks of a mined record. *)
Lemma mined_record_valid fuel namespace key_hex p record_json pow_nonce :
  namespace_of namespace = Some (kind_of p) -> payload_wf p -> dict_wf (payload_dict p) -> has_items p ->
  mine_record config fuel namespace key_hex (serialize_record p) = Some (Ok (record_json, pow_nonce)) ->
  (exists details, build_publish_pow_details key_hex record_json (Some (PyInt pow_nonce))
      (dc_network_pow_difficulty_bits config) = Ok details /\ pd_is_valid details = true) /\
  validate_record_payload_pow namespace key_hex record_json (dc_network_pow_difficulty_bits config) = true.
Proof.
  intros Hns Hwf Hd Hi. unfold mine_record, attach_record_payload_pow_nonces.
  rewrite parse_serialized by done. destruct (payload_norm_wf p) as (Hwf' & Hi' & Hk & Hd').
  destruct (attach_payload_pow_nonces _ _ _ _ _) as [[q|]|] eqn:Hq; [|done..]. cbn [run_map].
  intros (nonce & Hf & [= -> ->])%run_map_Ok. split; [by eapply found_nonce_valid|].
  destruct (attached_wf _ _ _ _ _ _ Hq (Hwf' Hwf) (Hd' Hd)) as (Hqwf & Hqd & Hqk & Hqn).
  unfold validate_record_payload_pow. rewrite parse_serialized by (congruence || done).
  rewrite Hqn by apply payload_norm_idem. cbn [mbind res_bind].
  by rewrite (attach_then_validate _ _ _ _ _ _ (Hwf' Hwf) (Hi' Hi) Hq).
Qed.
Lemma select_alone key n local_node node closest :
  alone_responsible config key n local_node node ->
  select_k_closest_nodes (sv_database (dn_services n)) (dc_dht_replication_factor config) key = Ok closest ->
  select_closest config key n = (Ok closest, n) /\ cl_local_node_is_responsible closest = true /\
  cl_nodes closest = [node].
Proof.
  intros [(closest' & Hc & Hresp & Hnodes) _ _ _] Hc'. assert (closest' = closest) as -> by congruence.
  split; [|done]. unfold select_closest. erewrite st_bind_run by reflexivity. unfold lift. by rewrite Hc.
Qed.

(** C27: a record that is published can be found. The proofs of work the client mines
    for a well-formed record that has at least one item pass the checks every node makes
    at the same difficulty. At the node that is alone responsible for the key and has no record of
    it, the publication of a record, once its proofs of work are found, returns
    [stored], by this node alone, and sends nothing; a query made there afterwards,
    while its routing knowledge is the same, returns [found] with the text that was
    published, and changes nothing. *)
Theorem client_publish_query_roundtrip (fuel : nat) (publish_attempt_count : Z)
    (namespace logical_key key_hex : string) (p : DhtPayload) (record_json : string) (pow_nonce : Z)
    (expires_at : option string) (trace_context : jdict) (n : DhtNode)
    (local_node : LocalPhysicalNodeIdentity) (node : ranked_node) :
  build_key namespace logical_key = Ok key_hex -> namespace_of namespace = Some (kind_of p) ->
  payload_wf p -> dict_wf (payload_dict p) -> has_items p ->
  mine_record config fuel namespace key_hex (serialize_record p) = Some (Ok (record_json, pow_nonce)) ->
  alone_responsible config key_hex n local_node node -> records_wf (dn_records n) ->
  latest_record key_hex (dn_records n) = None ->
  ((exists details, build_publish_pow_details key_hex record_json (Some (PyInt pow_nonce))
      (dc_network_pow_difficulty_bits config) = Ok details /\ pd_is_valid details = true) /\
   validate_record_payload_pow namespace key_hex record_json (dc_network_pow_difficulty_bits config) = true) /\
  exists run r n', publish config fuel publish_attempt_count namespace logical_key (serialize_record p)
      expires_at trace_context = Some run /\ run n = (Ok r, n') /\
    py_get r "status" = JStr "stored" /\ py_get r "stored_by" = str_list [ln_id local_node] /\
    dn_services n' = dn_services n /\
    forall n2, dn_records n2 = dn_records n' -> sv_database (dn_services n2) = sv_database (dn_services n) ->
    exists r2, query config namespace logical_key n2 = (Ok r2, n2) /\
      py_get r2 "status" = JStr "found" /\ py_get r2 "record_json" = JStr record_json /\
      py_get r2 "expires_at" = opt_json JStr (isoformat_naive <$> _parse_optional_datetime expires_at).
Proof.
  intros Hkey Hns Hwf Hd Hi Hmine Halone Hrows Hnone.
  pose proof (mined_record_valid _ _ _ _ _ _ Hns Hwf Hd Hi Hmine) as [(details & Hdet & Hvalid) Hpow].
  split; [split; [by exists details|done]|].
  pose proof Halone as [(closest & Hc & _ & _) _ Hln _].
  destruct (select_alone _ _ _ _ _ Halone Hc) as (Hsel & Hresp & Hnodes).
  set (row := MkDhtRecord (next_record_id (dn_records n)) key_hex namespace logical_key record_json
    (Some "dht_publish") (Some (sv_now (dn_services n))) (_parse_optional_datetime expires_at)
    (sv_now (dn_services n)) (sv_now (dn_services n))).
  exists (publish_mined config publish_attempt_count key_hex namespace logical_key record_json expires_at
    pow_nonce trace_context).
  eexists [_; _; _; _; _; _; _], (n <| dn_records := dn_records n ++ [row] |>).
  split; [unfold publish; by rewrite Hkey, Hmine|]. split.
  { unfold publish_mined. erewrite st_bind_run by (unfold lift; rewrite Hdet; reflexivity).
    erewrite st_bind_run.
    2:{ unfold _publish_locally_if_responsible. rewrite (st_bind_run _ _ _ _ _ Hsel). cbv zeta.
        rewrite Hresp. cbn [negb]. erewrite st_bind_run by (unfold lift; rewrite Hdet; reflexivity).
        rewrite Hvalid, Hpow. cbn [negb]. erewrite st_bind_run by reflexivity. rewrite Hln.
        erewrite st_bind_run by (unfold _upsert_local_record, modify, upsert_records;
          rewrite Hpow, Hnone; reflexivity). reflexivity. }
    rewrite Hnodes. reflexivity. }
  split; [done|]. split; [done|]. split; [done|]. intros n2 Hn2 Hdb2.
  assert (latest_record key_hex (dn_records n2) = Some row) as Hrow.
  { rewrite Hn2. apply wf_latest_record; [by apply insert_record_wf|]. split; [|done].
    apply elem_of_app. right. left. }
  assert (select_closest config key_hex n2 = (Ok closest, n2)) as Hsel2.
  { unfold select_closest. erewrite st_bind_run by reflexivity. unfold lift. by rewrite Hdb2, Hc. }
  eexists. split; [|split; [|split]].
  { unfold query. rewrite Hkey. erewrite st_bind_run by reflexivity.
  erewrite st_bind_run.
  2:{ unfold _query_locally_if_responsible. rewrite (st_bind_run _ _ _ _ _ Hsel2), Hresp. cbn [negb].
      erewrite st_bind_run by reflexivity. rewrite Hrow. reflexivity. }
  reflexivity. }
  all: done.
Qed.
End publishing.

(** ** Witness *)

#[local] Existing Instance demo_entropy.
#[local] Existing Instance iso_extended.
#[local] Existing Instance demo_float.
#[local] Existing Instance demo_openssl.
#[local] Existing Instance demo_dht_env.
#[local] Existing Instance demo_aead.
#[local] Existing Instance demo_io.
#[local] Existing Instance demo_float_conv.

(** A difficulty of two bits. *)
Definition demo_mining_config : DhtConfig :=
  MkDhtConfig 2 1 4 (float_of_int 60) 6 (float_of_int 30) "node.db".

Definition demo_mined : option (res (string * Z)) :=
  mine_record demo_mining_config 40 "dtt" demo_key demo_record_text.

Lemma client_publish_query_roundtrip_witness :
  exists record_json pow_nonce run r n' r2, demo_mined = Some (Ok (record_json, pow_nonce)) /\
    publish (cenv := demo_client_env demo_found_result) demo_mining_config 40 3 "dtt" "tag" demo_record_text None []
      = Some run /\ run demo_responsible = (Ok r, n') /\ py_get r "status" = JStr "stored" /\
    query (cenv := demo_client_env demo_found_result) demo_mining_config "dtt" "tag" n' = (Ok r2, n') /\
    py_get r2 "status" = JStr "found" /\ py_get r2 "record_json" = JStr record_json.
Proof.
  destruct demo_mined as [[[record_json pow_nonce]|]|] eqn:E; [|by vm_compute in E..].
  destruct (client_publish_query_roundtrip (cenv := demo_client_env demo_found_result) demo_mining_config 40 3
    "dtt" "tag" demo_key (Dtt demo_dtt) record_json pow_nonce None [] demo_responsible demo_local_id
    demo_closest_node) as (_ & run & r & n' & Hp & Hr & Hst & _ & Hs & Hq).
  - vm_compute. reflexivity.
  - reflexivity.
  - cbn. by repeat constructor.
  - unfold demo_dtt, payload_dict, dtt_dict, dtt_entry_dict, nonce_json, pyint_json. cbn. json_wf_tac.
  - discriminate.
  - exact E.
  - destruct demo_alone as [Hc Hl Hn Hd]. split; assumption.
  - split; constructor.
  - vm_compute. reflexivity.
  - destruct (Hq n' eq_refl (f_equal sv_database Hs)) as (r2 & Hq2 & Hst2 & Hrj & _).
    exists record_json, pow_nonce, run, r, n', r2.
    exact (conj eq_refl (conj Hp (conj Hr (conj Hst (conj Hq2 (conj Hst2 Hrj)))))).
Defined.
