(* ===== verification/DhtMaintenance.v ===== *)
(** * The maintenance of the DHT records

    Models [src/app/core/runtime/dht_maintenance.py] and one iteration of the loop of
    [src/app/core/runtime/base.py]: records that are not validated yet are merged into
    the validated ones, and records are published anew to the nodes that are now
    responsible for them. *)

From S2P Require Import Prelude PyJson PyTime PyInt PyFloat Crypto JsonText Records Pow Merge.
From S2P Require Import Transport Reliable Sessions Identity DhtService RouteService Core Engine.
From S2P Require Import DhtHandler DhtTable.

Record DhtPlacementRecord := MkPlacement {
  pl_key : string;
  pl_namespace : string;
  pl_logical_key : string;
  pl_record_json : string;
  pl_expires_at : option string;
  pl_local_is_responsible : bool;
  pl_responsible_count : Z;
}.

(** The node with the times of its last publications. *)
Record MaintenanceNode := MkMaintenance {
  mn_node : DhtNode;
  mn_last_publish_by_record_key : odict string spec_float;
}.

#[export] Instance maintenance_eta : Eta MaintenanceNode := fun n =>
  MkMaintenance (mn_node n) (mn_last_publish_by_record_key n).

(** [ORDER BY random()]: an order of the rows; and the publication of the DHT client,
    if there is one. *)
Class MaintenanceEnv := {
  random_rows : nat -> list DhtRecord -> list DhtRecord;
  dht_client_publish : option (DhtPlacementRecord -> st DhtNode jdict);
}.

Section maintenance.
Context `{FloatText} `{OpenSSL} `{IsoParser} {menv : MaintenanceEnv}.
Context (config : DhtConfig).

(** ** Validation *)

(** A record with nothing in it, into which the first fragment is merged. *)
Definition _build_seed_parent_payload (namespace : string) (fragment_payload : DhtPayload)
    : res DhtPayload :=
  match namespace_of namespace, fragment_payload with
  | Some NsDpnt, Dpnt p =>
      Ok (Dpnt (MkDpnt (dpnt_pk_physical_node p) [] [] "" false false "" [] "" "" "" None))
  | Some NsDpnt, _ => Raise (ValueError "Payload DPNT invalido para parent inicial.")
  | Some NsDrt, Drt p => Ok (Drt (MkDrt (drt_pk_virtual_node p) [] ""))
  | Some NsDrt, _ => Raise (ValueError "Payload DRT invalido para parent inicial.")
  | Some NsDdt, Ddt p => Ok (Ddt (MkDdt (ddt_title p) (ddt_type p) (ddt_tags p) []))
  | Some NsDdt, _ => Raise (ValueError "Payload DDT invalido para parent inicial.")
  | Some NsDtt, Dtt _ => Ok (Dtt (MkDtt []))
  | Some NsDtt, _ => Raise (ValueError "Payload DTT invalido para parent inicial.")
  | Some NsDpt, Dpt p =>
      Ok (Dpt (MkDpt (dpt_pk_virtual_node_owner p) (dpt_title p) (dpt_type p) "" "" "" None))
  | Some NsDpt, _ => Raise (ValueError "Payload DPT invalido para parent inicial.")
  | None, _ => Raise (ValueError ("Unsupported DHT namespace for initial parent: " +:+ namespace))
  end.

Definition _select_preferred_expires_at (current_expires_at fragment_expires_at : option Z)
    : option Z :=
  match current_expires_at, fragment_expires_at with
  | None, _ => fragment_expires_at
  | Some _, None => current_expires_at
  | Some current, Some fragment =>
      if current <? fragment then fragment_expires_at else current_expires_at
  end.

Definition unvalidated (r : DhtRecord) : bool := bool_decide (dr_last_validated_at r = None).

(** The oldest row that is not validated. *)
Definition next_fragment (records : list DhtRecord) : option DhtRecord :=
  head (py_sorted (fun r => (dr_created_at r, dr_id r)) (List.filter unvalidated records)).

(** The text of the merged record; [None] when anything raised. *)
Definition merge_fragment (now : instant) (fragment : DhtRecord) (parent : option DhtRecord)
    : option string :=
  catch_all None
    (let! fragment_payload := parse_record (dr_namespace fragment) (dr_record_json fragment) in
     let! parent_payload :=
       match parent with
       | Some parent => parse_record (dr_namespace parent) (dr_record_json parent)
       | None => _build_seed_parent_payload (dr_namespace fragment) fragment_payload
       end in
     let! merged_payload := validate_and_merge now (dr_namespace fragment) (dr_key fragment)
       parent_payload fragment_payload (dc_network_pow_difficulty_bits config) in
     Ok (Some (serialize_record merged_payload))).

Definition delete_record (record : DhtRecord) (records : list DhtRecord) : list DhtRecord :=
  List.filter (fun r => bool_decide (dr_id r <> dr_id record)) records.

(** The validated record of the key takes the fragment in. *)
Definition absorb_fragment (now : instant) (fragment : DhtRecord) (parent : option DhtRecord)
    (merged_record_json : string) (records : list DhtRecord) : list DhtRecord :=
  match parent with
  | None =>
      records ++ [MkDhtRecord (next_record_id records) (dr_key fragment) (dr_namespace fragment)
        (dr_logical_key fragment) merged_record_json (dr_source fragment) (Some now)
        (_select_preferred_expires_at None (dr_expires_at fragment)) now now]
  | Some parent =>
      (fun r => if bool_decide (dr_id r = dr_id parent)
                then r <| dr_record_json := merged_record_json |> <| dr_source := dr_source fragment |>
                       <| dr_last_validated_at := Some now |>
                       <| dr_expires_at := _select_preferred_expires_at (dr_expires_at parent)
                                             (dr_expires_at fragment) |>
                       <| dr_updated_at := now |>
                else r) <$> records
  end.

(** One transaction. *)
Definition validate_records (now : instant) (records : list DhtRecord) : list DhtRecord :=
  match next_fragment records with
  | None => records
  | Some fragment =>
      let parent := latest_record (dr_key fragment) records in
      match merge_fragment now fragment parent with
      | None => delete_record fragment records
      | Some merged_record_json =>
          delete_record fragment (absorb_fragment now fragment parent merged_record_json records)
      end
  end.

Definition _validate_local_records : st MaintenanceNode unit :=
  modify (fun n => n <| mn_node := mn_node n <| dn_records :=
    validate_records (sv_now (dn_services (mn_node n))) (dn_records (mn_node n)) |> |>).

(** ** Placement *)

Definition _build_placement_record (dht_record : DhtRecord) : st MaintenanceNode DhtPlacementRecord :=
  db ← gets (fun n => sv_database (dn_services (mn_node n)));
  responsibility ← lift (select_k_closest_nodes db (dc_dht_replication_factor config) (dr_key dht_record));
  mret (MkPlacement (dr_key dht_record) (dr_namespace dht_record) (dr_logical_key dht_record)
    (dr_record_json dht_record) (isoformat_naive <$> dr_expires_at dht_record)
    (cl_local_node_is_responsible responsibility) (Z.of_nat (length (cl_nodes responsibility)))).

(** The module uses [asyncio] without importing it. *)
Definition asyncio_name_error : exn := OtherError "NameError: name 'asyncio' is not defined".

(** [asyncio.get_running_loop().time()] *)
Definition loop_time : st MaintenanceNode spec_float := raise asyncio_name_error.

Definition _build_publish_cache_key (dht_record : DhtPlacementRecord) : string :=
  pl_namespace dht_record +:+ ":" +:+ pl_logical_key dht_record +:+ ":" +:+ pl_key dht_record +:+ ":"
  +:+ (if pl_local_is_responsible dht_record then "True" else "False").

Definition _is_publishable (publish_backoff_seconds : spec_float) (dht_record : DhtPlacementRecord)
    : st MaintenanceNode bool :=
  now ← loop_time;
  last_publish_at ← gets (fun n =>
    od_get (_build_publish_cache_key dht_record) (mn_last_publish_by_record_key n));
  mret (match last_publish_at with
        | None => true
        | Some last_publish_at => float_leb publish_backoff_seconds (float_sub now last_publish_at)
        end).

Definition _remember_publish (dht_record : DhtPlacementRecord) : st MaintenanceNode unit :=
  now ← loop_time;
  modify (fun n => n <| mn_last_publish_by_record_key :=
    od_set (_build_publish_cache_key dht_record) now (mn_last_publish_by_record_key n) |>).

Fixpoint first_publishable (publish_backoff_seconds : spec_float) (local_is_responsible : bool)
    (dht_records : list DhtRecord) : st MaintenanceNode (option DhtPlacementRecord) :=
  match dht_records with
  | [] => mret None
  | dht_record :: dht_records =>
      let next := first_publishable publish_backoff_seconds local_is_responsible dht_records in
      placement ← _build_placement_record dht_record;
      if negb (eqb (pl_local_is_responsible placement) local_is_responsible) then next
      else
        publishable ← _is_publishable publish_backoff_seconds placement;
        if publishable : bool then mret (Some placement) else next
  end.

Definition is_validated (r : DhtRecord) : bool := negb (unvalidated r).

(** At most 30 validated rows, in random order. *)
Definition _select_publishable_record_by_responsibility (publish_backoff_seconds : spec_float)
    (local_is_responsible : bool) : st MaintenanceNode (option DhtPlacementRecord) :=
  rows ← (fun n =>
    let s := dn_services (mn_node n) in
    (Ok (take 30 (random_rows (sv_entropy s) (List.filter is_validated (dn_records (mn_node n))))),
     n <| mn_node := mn_node n <| dn_services := s <| sv_entropy := S (sv_entropy s) |> |> |>));
  first_publishable publish_backoff_seconds local_is_responsible rows.

Definition on_node {A} (m : st DhtNode A) : st MaintenanceNode A := fun n =>
  let '(r, node) := m (mn_node n) in (r, n <| mn_node := node |>).

Definition _publish_record_to_current_responsible_nodes (dht_record : DhtPlacementRecord)
    : st MaintenanceNode jdict :=
  match dht_client_publish with
  | None => raise (RuntimeError "Protocol clients have not been initialized yet.")
  | Some publish => on_node (publish dht_record)
  end.

(** A failed publication counts as one for the backoff; what the result says is only
    logged. *)
Definition _repair_record_placement (publish_backoff_seconds : spec_float)
    (local_is_responsible : bool) : st MaintenanceNode unit :=
  selected_record ← _select_publishable_record_by_responsibility publish_backoff_seconds
    local_is_responsible;
  match selected_record with
  | None => mret tt
  | Some selected_record =>
      catch_exn (fun _ => true)
        (_publish_record_to_current_responsible_nodes selected_record;; mret tt)
        (fun _ => mret tt);;
      _remember_publish selected_record
  end.

Definition _run_once (publish_backoff_seconds : spec_float) : st MaintenanceNode unit :=
  _validate_local_records;;
  _repair_record_placement publish_backoff_seconds true;;
  _repair_record_placement publish_backoff_seconds false.

(** One iteration of [PeriodicRuntime._run_loop]: what [_run_once] raises is logged. *)
Definition run_iteration (publish_backoff_seconds : spec_float) : st MaintenanceNode unit :=
  catch_exn (fun _ => true) (_run_once publish_backoff_seconds) (fun _ => mret tt).
End maintenance.

(** ** One validation *)

(** Ids are unique, and a key has one validated row. *)
Record maintained (records : list DhtRecord) : Prop := {
  mt_ids : NoDup (dr_id <$> records);
  mt_validated : forall r1 r2, r1 ∈ records -> r2 ∈ records -> unvalidated r1 = false ->
    unvalidated r2 = false -> dr_key r1 = dr_key r2 -> r1 = r2;
}.

Definition fragments (records : list DhtRecord) : nat := length (List.filter unvalidated records).

Lemma unvalidated_false r : unvalidated r = false <-> is_Some (dr_last_validated_at r).
Proof.
  unfold unvalidated. rewrite bool_decide_eq_false. destruct (dr_last_validated_at r) as [t|].
  - split; [by exists t|done].
  - split; [done|by intros []].
Qed.

Lemma next_fragment_Some records fragment :
  next_fragment records = Some fragment -> fragment ∈ records /\ unvalidated fragment = true.
Proof.
  unfold next_fragment. intros Hh.
  assert (fragment ∈ List.filter unvalidated records) as Hin.
  { rewrite <- (elem_of_py_sorted (fun r => (dr_created_at r, dr_id r))).
    destruct (py_sorted _ _); [done|]. injection Hh as ->. left. }
  by apply elem_of_List_filter in Hin.
Qed.

Lemma next_fragment_None records : next_fragment records = None <-> fragments records = 0%nat.
Proof.
  unfold next_fragment, fragments.
  rewrite <- (length_py_sorted (fun r => (dr_created_at r, dr_id r)) (List.filter unvalidated records)).
  by destruct (py_sorted _ _).
Qed.

Lemma delete_record_ids (P : Z -> Prop) fragment records :
  NoDup (dr_id <$> records) -> NoDup (dr_id <$> delete_record fragment records).
Proof.
  induction records as [|x l IH]; [done|]. cbn. intros [Hx Hl]%NoDup_cons.
  destruct (bool_decide _); [|auto]. cbn. apply NoDup_cons. split; [|auto].
  intros (y & Hy & [Hin _]%elem_of_List_filter)%list_elem_of_fmap. apply Hx. rewrite Hy.
  by apply list_elem_of_fmap_2.
Qed.

Lemma delete_record_maintained fragment records :
  maintained records -> maintained (delete_record fragment records).
Proof.
  intros [Hids Hval]. split; [by apply (delete_record_ids (fun _ => True))|].
  intros r1 r2 [H1 _]%elem_of_List_filter [H2 _]%elem_of_List_filter. by apply Hval.
Qed.

Lemma delete_record_fragments fragment records :
  NoDup (dr_id <$> records) -> fragment ∈ records -> unvalidated fragment = true ->
  S (fragments (delete_record fragment records)) = fragments records.
Proof.
  unfold fragments. induction records as [|x l IH]; intros Hids Hin Hu; [by apply not_elem_of_nil in Hin|].
  pose proof Hids as Hnd. cbn in Hids. apply NoDup_cons in Hids as [Hx Hl]. cbn [delete_record List.filter].
  apply elem_of_cons in Hin as [<- |Hin].
  - rewrite bool_decide_eq_false_2 by auto. rewrite Hu. cbn [length]. do 2 f_equal.
    assert (forall y, y ∈ l -> dr_id y <> dr_id fragment) as Hne.
    { intros y Hy Heq. apply Hx. rewrite <- Heq. by apply list_elem_of_fmap_2. }
    clear -Hne. induction l as [|y l IH]; [done|]. cbn [List.filter].
    rewrite bool_decide_eq_true_2 by (apply Hne; left). cbn [List.filter].
    rewrite IH by (intros z Hz; apply Hne; by right). done.
  - rewrite bool_decide_eq_true_2.
    + cbn [List.filter]. specialize (IH Hl Hin Hu). unfold delete_record in IH. destruct (unvalidated x); cbn [length]; lia.
    + intros Heq. apply Hx. rewrite Heq. by apply list_elem_of_fmap_2.
Qed.

Section validation.
Context `{FloatText} `{OpenSSL} `{IsoParser}.
Context (config : DhtConfig).

Lemma latest_parent key records parent :
  latest_record key records = Some parent ->
  parent ∈ records /\ dr_key parent = key /\ unvalidated parent = false.
Proof.
  intros [Hin [Hk Hv]%validated_record_spec]%latest_record_Some. by rewrite unvalidated_false.
Qed.

Lemma absorb_facts now fragment text records :
  maintained records -> fragment ∈ records -> unvalidated fragment = true ->
  let result := absorb_fragment now fragment (latest_record (dr_key fragment) records) text records in
  maintained result /\ fragment ∈ result /\ fragments result = fragments records.
Proof.
  intros Hm Hin Hu result. unfold result. destruct (latest_record _ _) as [parent|] eqn:Hp; cbn [absorb_fragment].
  - apply latest_parent in Hp as (Hpin & Hpk & Hpv). destruct Hm as [Hids Hval].
    set (g := fun r : DhtRecord => if bool_decide (dr_id r = dr_id parent) then _ else r).
    assert (forall r, r ∈ records -> dr_id (g r) = dr_id r /\ dr_key (g r) = dr_key r /\
      unvalidated (g r) = unvalidated r) as Hg.
    { intros r Hr. unfold g. case_bool_decide as Hi; [|done].
      rewrite (fmap_NoDup_eq dr_id records r parent Hids Hr Hpin Hi). split; [done|]. split; [done|].
      rewrite Hpv. by apply unvalidated_false. }
    split_and!.
    + split.
      * rewrite <- list_fmap_compose. rewrite (list_fmap_ext _ dr_id records); [done|].
        intros i x Hx%list_elem_of_lookup_2. by apply Hg.
      * intros ? ? (r1 & -> & H1')%list_elem_of_fmap (r2 & -> & H2')%list_elem_of_fmap Hv1 Hv2 Hk.
        destruct (Hg r1 H1') as (_ & Hk1 & Hu1), (Hg r2 H2') as (_ & Hk2 & Hu2).
        f_equal. apply Hval; congruence.
    + replace fragment with (g fragment); [by apply list_elem_of_fmap_2|].
      unfold g. rewrite bool_decide_eq_false_2; [done|]. intros Hi.
      rewrite (fmap_NoDup_eq dr_id records fragment parent Hids Hin Hpin Hi) in Hu. congruence.
    + unfold fragments. clear -Hg. induction records as [|x l IH]; [done|]. cbn [fmap list_fmap List.filter].
      destruct (Hg x ltac:(left)) as (_ & _ & ->). destruct (unvalidated x); cbn [length];
        rewrite IH by (intros r Hr; apply Hg; by right); done.
  - destruct Hm as [Hids Hval]. apply latest_record_None in Hp. rewrite list.Forall_forall in Hp.
    assert (forall r, r ∈ records -> unvalidated r = false -> dr_key r <> dr_key fragment) as Hno.
    { intros r Hr Hv%unvalidated_false Hk. specialize (Hp r Hr).
      assert (validated_record (dr_key fragment) r = true) by (by apply validated_record_spec). congruence. }
    split_and!.
    + split.
      * rewrite fmap_app. apply NoDup_app. split; [done|]. split; [|apply NoDup_singleton].
        intros i (r & -> & Hr)%list_elem_of_fmap Hi%list_elem_of_singleton.
        apply next_record_id_fresh in Hr. cbn [dr_id] in Hi. lia.
      * intros r1 r2 [H1'|H1'%list_elem_of_singleton]%elem_of_app [H2'|H2'%list_elem_of_singleton]%elem_of_app
          Hv1 Hv2 Hk; [by apply Hval| | |congruence]; exfalso; [subst r2|subst r1]; cbn in Hk.
        -- by apply (Hno r1).
        -- by apply (Hno r2).
    + apply elem_of_app. by left.
    + unfold fragments. rewrite List.filter_app, length_app. cbn. lia.
Qed.

Lemma validate_records_spec now records :
  maintained records ->
  maintained (validate_records config now records) /\
  fragments (validate_records config now records) = pred (fragments records).
Proof.
  intros Hm. unfold validate_records. destruct (next_fragment records) as [fragment|] eqn:Hf.
  - apply next_fragment_Some in Hf as [Hin Hu]. destruct (merge_fragment _ _ _ _) as [text|].
    + destruct (absorb_facts now fragment text records Hm Hin Hu) as (Hm' & Hin' & Hn').
      split; [by apply delete_record_maintained|]. rewrite <- Hn'.
      by rewrite <- (delete_record_fragments fragment _ (mt_ids _ Hm') Hin' Hu).
    + split; [by apply delete_record_maintained|].
      by rewrite <- (delete_record_fragments fragment _ (mt_ids _ Hm) Hin Hu).
  - split; [done|]. apply next_fragment_None in Hf. by rewrite Hf.
Qed.
End validation.

(** ** One iteration *)

Section iteration.
Context `{FloatText} `{OpenSSL} `{IsoParser} {menv : MaintenanceEnv}.
Context (config : DhtConfig) (backoff : spec_float).

Lemma build_placement_total r n :
  (exists p, _build_placement_record config r n = (Ok p, n)) \/
  (exists e, _build_placement_record config r n = (Raise e, n)).
Proof.
  unfold _build_placement_record. erewrite st_bind_run by reflexivity. unfold mbind, st_bind, lift.
  destruct (select_k_closest_nodes _ _ _); [left|right]; by eexists.
Qed.

(** No record is ever selected: the first that could be raises. *)
Lemma first_publishable_none flag rows n :
  first_publishable config backoff flag rows n = (Ok None, n) \/
  exists e, first_publishable config backoff flag rows n = (Raise e, n).
Proof.
  induction rows as [|r rows IH]; [by left|]. cbn [first_publishable]. cbv zeta.
  destruct (build_placement_total r n) as [[p Hp]|[e He]].
  - rewrite (st_bind_run _ _ _ _ _ Hp). destruct (negb _); [exact IH|]. right. by eexists.
  - rewrite (st_bind_raise _ _ _ _ _ He). right. by eexists.
Qed.

Lemma repair_effect flag n :
  exists r k, _repair_record_placement config backoff flag n =
    (r, n <| mn_node := mn_node n <| dn_services := dn_services (mn_node n) <| sv_entropy := k |> |> |>) /\
    (r = Ok tt \/ exists e, r = Raise e).
Proof.
  unfold _repair_record_placement, _select_publishable_record_by_responsibility, mbind, st_bind.
  set (n1 := n <| mn_node := _ |>).
  destruct (first_publishable_none flag (take 30 (random_rows (sv_entropy (dn_services (mn_node n)))
    (List.filter is_validated (dn_records (mn_node n))))) n1) as [-> |[e ->]].
  - eexists _, _. split; [reflexivity|by left].
  - eexists _, _. split; [reflexivity|right; by eexists].
Qed.

Lemma run_once_effect n :
  exists r k, _run_once config backoff n =
    (r, n <| mn_node := mn_node n <| dn_records :=
        validate_records config (sv_now (dn_services (mn_node n))) (dn_records (mn_node n)) |>
      <| dn_services := dn_services (mn_node n) <| sv_entropy := k |> |> |>) /\
    (r = Ok tt \/ exists e, r = Raise e).
Proof.
  unfold _run_once. erewrite st_bind_run by reflexivity. unfold mbind at 1, st_bind at 1.
  set (n1 := n <| mn_node := _ |>).
  destruct (repair_effect true n1) as (r1 & k1 & -> & [-> |[e ->]]).
  - set (n2 := n1 <| mn_node := _ |>). destruct (repair_effect false n2) as (r2 & k2 & -> & Hr2).
    exists r2, k2. split; [reflexivity|exact Hr2].
  - exists (Raise e), k1. split; [reflexivity|right; by eexists].
Qed.

(** The node is responsible for the row's key. *)
Definition is_responsible (db : Database) (r : DhtRecord) : bool :=
  match select_k_closest_nodes db (dc_dht_replication_factor config) (dr_key r) with
  | Ok closest => cl_local_node_is_responsible closest
  | Raise _ => false
  end.

(** A row in question is met: the selection ends with the [NameError]. *)
Lemma first_publishable_raises flag rows n :
  let db := sv_database (dn_services (mn_node n)) in
  (forall r, r ∈ rows -> exists closest,
     select_k_closest_nodes db (dc_dht_replication_factor config) (dr_key r) = Ok closest) ->
  first_publishable config backoff flag rows n =
    (if existsb (fun r => eqb (is_responsible db r) flag) rows
     then Raise asyncio_name_error else Ok None, n).
Proof.
  intros db. induction rows as [|r rows IH]; intros Hrows; [done|]. cbn [first_publishable existsb]. cbv zeta.
  unfold is_responsible at 1. destruct (Hrows r ltac:(left)) as [closest Hc]. rewrite Hc.
  unfold _build_placement_record at 1. fold db.
  erewrite (st_bind_run _ _ _ _ n) by
    (erewrite st_bind_run by reflexivity; erewrite st_bind_run by (unfold lift; fold db; rewrite Hc; reflexivity);
     reflexivity).
  cbn [pl_local_is_responsible].
  destruct (eqb (cl_local_node_is_responsible closest) flag); cbn [negb orb]; [done|].
  apply IH. intros r' Hr'. apply Hrows. by right.
Qed.
End iteration.

Section claims.
Context `{FloatText} `{OpenSSL} `{IsoParser} {menv : MaintenanceEnv}.
Context (config : DhtConfig) (backoff : spec_float).

(** The same runtime with another DHT client. *)
Definition with_client (publish : option (DhtPlacementRecord -> st DhtNode jdict)) : MaintenanceEnv :=
  {| random_rows := random_rows; dht_client_publish := publish |}.

Definition iteration (n : MaintenanceNode) : MaintenanceNode := (run_iteration config backoff n).2.

Definition iterations (k : nat) (n : MaintenanceNode) : MaintenanceNode := Nat.iter k iteration n.

(** Every row's key can be placed. *)
Definition placeable (n : MaintenanceNode) : Prop :=
  forall r, r ∈ dn_records (mn_node n) -> exists closest,
    select_k_closest_nodes (sv_database (dn_services (mn_node n))) (dc_dht_replication_factor config)
      (dr_key r) = Ok closest.

Lemma repair_client publish flag n :
  _repair_record_placement (menv := with_client publish) config backoff flag n =
  _repair_record_placement config backoff flag n.
Proof.
  unfold _repair_record_placement, mbind, st_bind.
  change (_select_publishable_record_by_responsibility (menv := with_client publish) config backoff flag n)
    with (_select_publishable_record_by_responsibility config backoff flag n).
  unfold _select_publishable_record_by_responsibility, mbind, st_bind.
  set (n1 := n <| mn_node := _ |>).
  by destruct (first_publishable_none config backoff flag (take 30 (random_rows (sv_entropy (dn_services (mn_node n)))
    (List.filter is_validated (dn_records (mn_node n))))) n1) as [-> |[e ->]].
Qed.

Lemma iteration_client publish n :
  run_iteration (menv := with_client publish) config backoff n = run_iteration config backoff n.
Proof.
  unfold run_iteration, catch_exn, _run_once, mbind, st_bind. unfold _validate_local_records, modify.
  set (n1 := n <| mn_node := _ |>). rewrite repair_client.
  destruct (_repair_record_placement config backoff true n1) as [[u|e] n2]; [|done]. by rewrite repair_client.
Qed.

Lemma iteration_effect n :
  exists k, run_iteration config backoff n =
    (Ok tt, n <| mn_node := mn_node n <| dn_records :=
        validate_records config (sv_now (dn_services (mn_node n))) (dn_records (mn_node n)) |>
      <| dn_services := dn_services (mn_node n) <| sv_entropy := k |> |> |>).
Proof.
  unfold run_iteration, catch_exn.
  destruct (run_once_effect config backoff n) as (r & k & -> & [-> |[e ->]]); by exists k.
Qed.

Lemma iterations_spec k n :
  maintained (dn_records (mn_node n)) ->
  maintained (dn_records (mn_node (iterations k n))) /\
  fragments (dn_records (mn_node (iterations k n))) = (fragments (dn_records (mn_node n)) - k)%nat.
Proof.
  intros Hm. induction k as [|k [IHm IHn]]; [split; [done|by rewrite Nat.sub_0_r]|].
  change (iterations (S k) n) with (iteration (iterations k n)). unfold iteration.
  destruct (iteration_effect (iterations k n)) as [e He]. rewrite He. cbn [snd mn_node dn_records set_field].
  destruct (validate_records_spec config (sv_now (dn_services (mn_node (iterations k n)))) _ IHm) as [Hm' Hn'].
  split; [exact Hm'|]. cbn. rewrite Hn', IHn. lia.
Qed.

Lemma repair_raises flag n :
  (forall k l, random_rows k l ≡ₚ l) -> placeable n ->
  (length (List.filter is_validated (dn_records (mn_node n))) <= 30)%nat ->
  (existsb (fun r => eqb (is_responsible config (sv_database (dn_services (mn_node n))) r) flag)
     (List.filter is_validated (dn_records (mn_node n))) = true ->
   exists n', _repair_record_placement config backoff flag n = (Raise asyncio_name_error, n')) /\
  (existsb (fun r => eqb (is_responsible config (sv_database (dn_services (mn_node n))) r) flag)
     (List.filter is_validated (dn_records (mn_node n))) = false ->
   exists k, _repair_record_placement config backoff flag n =
     (Ok tt, n <| mn_node := mn_node n <| dn_services := dn_services (mn_node n) <| sv_entropy := k |> |> |>)).
Proof.
  intros Hperm Hplace Hlen. set (rows := List.filter is_validated (dn_records (mn_node n))) in *.
  set (p := fun r => eqb _ flag). set (drawn := random_rows (sv_entropy (dn_services (mn_node n))) rows).
  assert (drawn ≡ₚ rows) as Hd by apply Hperm.
  assert (existsb p drawn = existsb p rows) as He.
  { apply eq_true_iff_eq. rewrite !existsb_exists. split; intros (x & Hx & Hp); exists x; (split; [|done]);
      apply list_elem_of_In in Hx; apply list_elem_of_In; by rewrite ?Hd in *; rewrite -> ?Hd. }
  unfold _repair_record_placement, _select_publishable_record_by_responsibility.
  unfold mbind, st_bind. fold rows drawn. rewrite take_ge by (by rewrite Hd).
  set (n1 := n <| mn_node := _ |>).
  pose proof (first_publishable_raises config backoff flag drawn n1) as Hf. cbv zeta in Hf. rewrite Hf.
  - change (sv_database (dn_services (mn_node n1))) with (sv_database (dn_services (mn_node n))).
    fold p. rewrite He. split; intros ->; eexists; reflexivity.
  - intros r Hr. rewrite Hd in Hr. apply elem_of_List_filter in Hr as [Hr _]. by apply Hplace.
Qed.

Lemma run_once_raises n :
  let rows := validate_records config (sv_now (dn_services (mn_node n))) (dn_records (mn_node n)) in
  (forall k l, random_rows k l ≡ₚ l) -> placeable (n <| mn_node := mn_node n <| dn_records := rows |> |>) ->
  (0 < length (List.filter is_validated rows) <= 30)%nat ->
  exists n', _run_once config backoff n = (Raise asyncio_name_error, n').
Proof.
  intros rows Hperm Hplace [Hpos Hlen]. unfold _run_once. erewrite st_bind_run by reflexivity.
  fold rows. set (n1 := n <| mn_node := _ |>).
  destruct (repair_raises true n1 Hperm Hplace Hlen) as [Hyes Hno].
  destruct (existsb _ _) eqn:E in Hyes.
  - destruct (Hyes eq_refl) as [n' Hn']. exists n'. unfold mbind, st_bind. by rewrite Hn'.
  - rewrite E in Hno. destruct (Hno eq_refl) as [k Hk]. unfold mbind at 1, st_bind at 1. rewrite Hk.
    set (n2 := n1 <| mn_node := _ |>). destruct (repair_raises false n2 Hperm Hplace Hlen) as [Hyes2 _].
    apply Hyes2. change (List.filter is_validated (dn_records (mn_node n2))) with (List.filter is_validated rows).
    change (List.filter is_validated (dn_records (mn_node n1))) with (List.filter is_validated rows) in E.
    destruct (List.filter is_validated rows) as [|r l]; [cbn in Hpos; lia|]. cbn [existsb] in *.
    apply orb_false_iff in E as [E _].
    change (sv_database (dn_services (mn_node n1))) with (sv_database (dn_services (mn_node n2))) in E.
    by destruct (is_responsible _ _ r).
Qed.

(** C38: the maintenance of the records. Whatever an iteration of the runtime meets, it
    ends, and it is one step of validation: the oldest row not yet validated is
    merged into the record of its key or dropped, so that as many iterations as there
    are such rows validate them all; a key keeps at most one validated row. Nothing
    else changes, and no record is ever published, whatever the client does: as soon
    as there is a validated row to place, the iteration is aborted by a [NameError],
    since the module does not import [asyncio]. *)
Theorem maintenance_iteration_spec (n : MaintenanceNode) :
  maintained (dn_records (mn_node n)) ->
  (exists k, run_iteration config backoff n =
    (Ok tt, n <| mn_node := mn_node n <| dn_records :=
        validate_records config (sv_now (dn_services (mn_node n))) (dn_records (mn_node n)) |>
      <| dn_services := dn_services (mn_node n) <| sv_entropy := k |> |> |>)) /\
  (forall publish, run_iteration (menv := with_client publish) config backoff n = run_iteration config backoff n) /\
  (forall k, maintained (dn_records (mn_node (iterations k n))) /\
     fragments (dn_records (mn_node (iterations k n))) = (fragments (dn_records (mn_node n)) - k)%nat) /\
  (let rows := validate_records config (sv_now (dn_services (mn_node n))) (dn_records (mn_node n)) in
   (forall k l, random_rows k l ≡ₚ l) -> placeable (n <| mn_node := mn_node n <| dn_records := rows |> |>) ->
   (0 < length (List.filter is_validated rows) <= 30)%nat ->
   exists n', _run_once config backoff n = (Raise asyncio_name_error, n')).
Proof.
  intros Hm. split; [apply iteration_effect|]. split; [intros; apply iteration_client|].
  split; [intros; by apply iterations_spec|]. apply run_once_raises.
Qed.
End claims.

(** ** Witnesses *)

#[local] Existing Instance iso_extended.
#[local] Existing Instance demo_float.
#[local] Existing Instance demo_openssl.

#[local] Instance demo_maintenance_env : MaintenanceEnv := {|
  random_rows := fun _ rows => rows;
  dht_client_publish := Some (fun _ => mret [("status", JStr "stored")]);
|}.

(** A node with one row that is not validated yet. *)
Definition demo_unvalidated : MaintenanceNode :=
  MkMaintenance
    (demo_responsible <| dn_records := [MkDhtRecord 7 (catch_all "" (build_key "dtt" "tag")) "dtt" "tag"
       demo_record_text (Some "local") None None 1000 1000] |>) [].

Definition demo_validated : list DhtRecord :=
  validate_records demo_dht_config 3000 (dn_records (mn_node demo_unvalidated)).

Lemma maintenance_iteration_spec_witness :
  (dr_last_validated_at <$> demo_validated) = [Some 3000] /\
  fragments (dn_records (mn_node (iterations demo_dht_config (float_of_int 1) 1 demo_unvalidated))) = 0%nat /\
  exists n', _run_once demo_dht_config (float_of_int 1) demo_unvalidated = (Raise asyncio_name_error, n').
Proof.
  split; [vm_compute; reflexivity|].
  destruct (maintenance_iteration_spec demo_dht_config (float_of_int 1) demo_unvalidated) as (_ & _ & Hk & Hraise).
  { split; [apply NoDup_singleton|]. by intros r1 r2 ->%list_elem_of_singleton ->%list_elem_of_singleton. }
  split; [destruct (Hk 1%nat) as [_ Hf]; rewrite Hf; reflexivity|]. apply Hraise.
  - done.
  - intros r Hr. vm_compute in Hr. apply list_elem_of_singleton in Hr as ->.
    match goal with |- exists c, ?x = Ok c => destruct x as [c|] eqn:E; [by exists c|by vm_compute in E] end.
  - vm_compute. lia.
Defined.
