(* ===== verification/SessionClient.v ===== *)
(** * The client of the physical sessions

    Models [PhysicalSessionClient]
    ([src/app/core/protocol_clients/physical/physical_session.py]) and the helpers of
    [src/app/core/protocol_clients/helpers.py]: a session with a node is an active one
    that is reused, or one opened over the node's endpoints in turn; a node that is not
    known is looked up in the DHT. *)

From S2P Require Import Prelude PyJson PyTime PyInt PyFloat Sha512 Crypto JsonText Records Pow Merge.
From S2P Require Import Transport Reliable Sessions Identity DhtService RouteService Core Registry Engine.
From S2P Require Import PhysicalSession RandomWalk DhtHandler DhtTable DhtClient.

(** How many times the loop that waits for the activation of a session finds its deadline
    not reached yet; what other tasks do during one [asyncio.sleep] of it; the transports
    the node has an adapter for; its own endpoints; and the query of the DHT client. *)
Class SessionEnv := {
  handshake_polls : string -> nat;
  poll_tasks : DhtNode -> DhtNode;
  has_adapter : string -> bool;
  build_local_physical_endpoints : list json;
  session_dht_query : string -> string -> st DhtNode jdict;
}.

Record SessionClientConfig := MkSessionClientConfig {
  sc_session_keepalive_seconds : Z;
  sc_physical_reliable_retry_seconds : Z;
  sc_reliable_delivery_max_attempts : Z;
}.

Section client.
Context `{FloatText} `{Entropy} `{OpenSSL} `{AesGcmSiv} `{EngineIO} {senv : SessionEnv}.
Context (config : SessionClientConfig).

(** ** Helpers *)

Definition verify_dilithium_payload_signature (payload : jdict) (signature_hex public_key_pem : string)
    : bool :=
  catch_all false (dilithium_verify_hex (CommonJson.canonical_payload_hex payload) signature_hex public_key_pem).

Definition close_failed_handshake_session (session_id : string) : st Services unit :=
  session ← find_session session_id;
  match session with
  | None => mret tt
  | Some session =>
      if bool_decide (ns_session_state session <> "active")
      then on_sessions (fun sm now => close_session sm session_id now "handshake_failed");; mret tt
      else mret tt
  end.

Definition _build_session_transport_metadata (target_physical_node_id : string)
    (endpoint_metadata : jdict) : jdict :=
  od_set "target_physical_node_id" (JStr target_physical_node_id) endpoint_metadata.

(** ** The node *)

Definition _parse_valid_dpnt_record (remote_physical_node_id : string) (record_json : json)
    : res (option DpntRecordPayload) :=
  match truthy_str record_json with
  | None => Ok None
  | Some record_json =>
      match parse_record "dpnt" record_json with
      | Raise (ValueError _) => Ok None
      | Raise e => Raise e
      | Ok (Dpnt record) =>
          if bool_decide (sha512_hex (dpnt_pk_physical_node record) <> remote_physical_node_id)
          then Ok None
          else
            let! key_hex := build_key "dpnt" remote_physical_node_id in
            if verify_dilithium_payload_signature (dpnt_signed_payload key_hex record)
                 (dpnt_signature record) (dpnt_pk_physical_node record)
            then Ok (Some record) else Ok None
      | Ok _ => Ok None
      end
  end.

Definition _normalize_dpnt_endpoints (endpoints : list jdict) : list jdict :=
  Endpoints.normalize_endpoint_list (JArr (JObj <$> endpoints)).

Definition dpnt_description (remote_physical_node_id : string) (record : DpntRecordPayload)
    : NodeDescription :=
  MkNodeDescription remote_physical_node_id (dpnt_pk_physical_node record)
    (Some (dpnt_protocol_version record)) None (Some (dpnt_reachability_class record))
    (dpnt_relay_capable record) (dpnt_hole_punch_capable record)
    (Some (json_dumps (JObj [("source", JStr "physical_session_dpnt_lookup");
                             ("dpnt_signature", JStr (dpnt_signature record));
                             ("dpnt_feature_flags", strings_json (dpnt_feature_flags record))]))).

Definition find_remote_node (remote_physical_node_id : string)
    : st DhtNode (option RemotePhysicalNodeIdentity) :=
  services (fun s => get_remote_physical_node_by_id (sv_database s) remote_physical_node_id).

Definition _resolve_remote_physical_node_from_dpnt (remote_physical_node_id : string)
    : st DhtNode (option RemotePhysicalNodeIdentity) :=
  result ← session_dht_query "dpnt" remote_physical_node_id;
  if bool_decide (py_get result "status" <> JStr "found") then mret None
  else
    record ← lift (_parse_valid_dpnt_record remote_physical_node_id (py_get result "record_json"));
    match record with
    | None => mret None
    | Some record =>
        match _normalize_dpnt_endpoints (dpnt_endpoints record) with
        | [] => mret None
        | endpoints =>
            on_services (on_database (fun db now =>
              upsert_discovered_remote_physical_node db now
                (dpnt_description remote_physical_node_id record) endpoints (dpnt_status record)));;
            find_remote_node remote_physical_node_id
        end
    end.

Definition _load_remote_physical_node (remote_physical_node_id : string)
    : st DhtNode (option RemotePhysicalNodeIdentity) :=
  remote_node ← find_remote_node remote_physical_node_id;
  match remote_node with
  | Some remote_node => mret (Some remote_node)
  | None => _resolve_remote_physical_node_from_dpnt remote_physical_node_id
  end.

(** ** Opening a session *)

(** The active sessions with the node over which packets can be sent. *)
Definition active_sessions_with (remote_physical_node_id : string) (sm : SessionManager)
    : list NetworkSession :=
  List.filter (fun session =>
    bool_decide (ns_remote_identity_id session = remote_physical_node_id)
    && negb (is_observed_only_physical_session session)) (list_active_physical_sessions sm).

Definition _get_preferred_active_session (remote_physical_node_id : string)
    : st DhtNode (option NetworkSession) :=
  services (fun s => preferred (active_sessions_with remote_physical_node_id (sv_session_manager s))).

Definition transport_rank (e : NodeEndpoint) : Z := _transport_preference (Some (ne_transport e)).

Definition _sort_endpoints_by_transport_preference (endpoints : list NodeEndpoint)
    : list NodeEndpoint := py_sorted transport_rank endpoints.

Definition _register_endpoint_failure (remote_physical_node_id : string) (endpoint : TransportEndpoint)
    : st Services unit :=
  on_database (fun db now => mark_remote_physical_node_validation_failure db now remote_physical_node_id
    (ep_transport_name endpoint) (ep_host endpoint) (ep_port endpoint));;
  mret tt.

(** [session_manager.create_outbound_physical_session] *)
Definition create_outbound (local_physical_node_id remote_physical_node_id remote_public_key : string)
    (endpoint : TransportEndpoint) : st Services NetworkSession :=
  uuid ← new_uuid;
  ((fun s =>
      match create_outbound_physical_session (sv_session_manager s) uuid (sv_now s)
              local_physical_node_id remote_physical_node_id (Some remote_public_key)
              (ep_transport_name endpoint) (ep_host endpoint) (ep_port endpoint)
              (sc_session_keepalive_seconds config) with
      | Ok (session, sm) => (Ok session, s <| sv_session_manager := sm |>)
      | Raise e => (Raise e, s)
      end) : st Services NetworkSession).

Definition init_header (session_id : string) : st Services jdict :=
  build_message_header "PHYSICAL_SESSION_INIT" (Some session_id) None.

(** The session INIT was sent for; [None] when it could not be sent. *)
Definition _start_session_with_endpoint (local_physical_node_id local_public_key
    remote_physical_node_id remote_public_key : string) (endpoint : TransportEndpoint)
    : st Services (option string) :=
  session ← create_outbound local_physical_node_id remote_physical_node_id remote_public_key endpoint;
  let session_id := ns_session_id session in
  let session_metadata :=
    _build_session_transport_metadata remote_physical_node_id (ep_metadata endpoint) in
  on_sessions (fun sm now => update_session_state sm session_id
    (MkSessionStateUpdateInput None None None None None None None None None
       (Some (dumps_in_order (JObj session_metadata)))));;
  header ← init_header session_id;
  let payload := build_physical_session_init_payload header local_physical_node_id local_public_key
    build_local_physical_endpoints (sc_session_keepalive_seconds config) in
  catch_exn (fun _ => true)
    (send_packet (MkOutboundMessage (ep_transport_name endpoint) (text_bytes payload) endpoint None
       session_metadata);;
     mret (Some session_id))
    (fun _ =>
       _register_endpoint_failure remote_physical_node_id endpoint;;
       close_failed_handshake_session session_id;;
       mret None).

(** The loop until the deadline; [polls] of its rounds are left. *)
Fixpoint poll_activation (session_id : string) (polls : nat) : st DhtNode bool :=
  session ← services (fun s => get_session_by_session_id (sv_session_manager s) session_id);
  match polls with
  | O => mret (match session with
               | Some session => bool_decide (ns_session_state session = "active")
               | None => false
               end)
  | S polls =>
      match session with
      | None => mret false
      | Some session =>
          if bool_decide (ns_session_state session = "active") then mret true
          else if bool_decide (ns_session_state session = "closed") then mret false
          else modify poll_tasks;; poll_activation session_id polls
      end
  end.

Definition _wait_for_activation (session_id : string) : st DhtNode bool :=
  poll_activation session_id (handshake_polls session_id).

(** The loop over the endpoints. *)
Fixpoint try_endpoints (local_node : LocalPhysicalNodeIdentity)
    (remote_node : RemotePhysicalNodeIdentity) (remote_physical_node_id : string)
    (endpoints : list NodeEndpoint) : st DhtNode string :=
  match endpoints with
  | [] => raise (RuntimeError "Could not establish a physical session with any known endpoint.")
  | endpoint_data :: endpoints =>
      let next := try_endpoints local_node remote_node remote_physical_node_id endpoints in
      if negb (has_adapter (ne_transport endpoint_data)) then next
      else
        let endpoint := Endpoints.build_transport_endpoint_from_result (ne_transport endpoint_data)
          (ne_host endpoint_data) (ne_port endpoint_data) (ne_metadata_json endpoint_data) in
        session_id ← on_services (_start_session_with_endpoint (ln_id local_node)
          (ln_public_key local_node) remote_physical_node_id (rn_public_key remote_node) endpoint);
        match session_id with
        | None => next
        | Some session_id =>
            activated ← _wait_for_activation session_id;
            if activated : bool then mret session_id
            else
              on_services (_register_endpoint_failure remote_physical_node_id endpoint);;
              on_services (close_failed_handshake_session session_id);;
              next
        end
  end.

Definition udp_preference : Z := _transport_preference (Some "udp").

(** Whether an active session is as good as any that could be opened. *)
Definition reusable_session (existing_session : option NetworkSession) (endpoints : list NodeEndpoint)
    : option NetworkSession :=
  session ← existing_session;
  if negb (is_observed_only_physical_session session)
     && forallb (fun e => udp_preference <=? transport_rank e) endpoints
  then Some session else None.

Definition better_than_udp (existing_session : option NetworkSession) : option NetworkSession :=
  session ← existing_session;
  if negb (is_observed_only_physical_session session)
     && (_transport_preference (ns_transport session) <? udp_preference)
  then Some session else None.

Definition start_session (remote_physical_node_id : string) : st DhtNode string :=
  existing_session ← _get_preferred_active_session remote_physical_node_id;
  match better_than_udp existing_session with
  | Some session => mret (ns_session_id session)
  | None =>
      local_node ← services (fun s => get_local_physical_node (sv_database s));
      match local_node with
      | None => raise (ValueError "The local physical identity has not been initialized yet.")
      | Some local_node =>
          remote_node ← _load_remote_physical_node remote_physical_node_id;
          match remote_node with
          | None => raise (ValueError "The remote physical node was not found locally or in DPNT.")
          | Some remote_node =>
              endpoints ← services (fun s =>
                list_remote_physical_node_endpoints (sv_database s) remote_physical_node_id false);
              match endpoints with
              | [] => raise (ValueError "The remote physical node has no known endpoints.")
              | _ =>
                  let endpoints := _sort_endpoints_by_transport_preference endpoints in
                  match reusable_session existing_session endpoints with
                  | Some session => mret (ns_session_id session)
                  | None => try_endpoints local_node remote_node remote_physical_node_id endpoints
                  end
              end
          end
      end
  end.

(** ** Messages over a session *)

Definition known_session (session_id : string) : st Services NetworkSession :=
  session ← find_session session_id;
  match session with
  | None => raise (ValueError "The provided physical session does not exist in memory.")
  | Some session => mret session
  end.

(** A packet to the other end of the session. *)
Definition send_on_session (session : NetworkSession) (message_type : string)
    (build : jdict -> string) : st Services unit :=
  endpoint ← lift (build_remote_endpoint_from_session session);
  header ← build_message_header message_type (Some (ns_session_id session)) None;
  send_packet (MkOutboundMessage (ep_transport_name endpoint) (text_bytes (build header)) endpoint None []).

Definition send_keepalive (session_id : string) : st Services unit :=
  session ← known_session session_id;
  send_on_session session "PHYSICAL_SESSION_KEEPALIVE" build_physical_session_keepalive_payload;;
  on_sessions (fun sm now => mark_keepalive_sent sm (ns_session_id session) now);;
  mret tt.

Definition close_session (session_id close_reason : string) : st Services unit :=
  session ← known_session session_id;
  send_on_session session "PHYSICAL_SESSION_CLOSE"
    (fun header => build_physical_session_close_payload header close_reason).

Definition active_physical_session (session_id : string) : st Services NetworkSession :=
  session ← find_session session_id;
  match session with
  | Some session =>
      if bool_decide (ns_session_scope session <> "physical")
      then raise (ValueError "The provided physical session does not exist in memory.")
      else if bool_decide (ns_session_state session <> "active")
      then raise (ValueError "The provided physical session is not active.")
      else mret session
  | None => raise (ValueError "The provided physical session does not exist in memory.")
  end.

Definition resend_reliable_message (reliable_message : ReliableOutboundMessage) : st Services unit :=
  session ← active_physical_session (om_session_id reliable_message);
  send_on_session session "PHYSICAL_SESSION_RELIABLE_DATA"
    (fun header => _build_packet_bytes header (to_reliable_payload reliable_message));;
  on_sessions (fun sm now => mark_reliable_outbound_sent sm now (om_session_id reliable_message)
    (om_sequence_number reliable_message));;
  mret tt.

Definition send_reliable_protocol_message (session_id inner_message_type : string)
    (inner_payload : jdict) : st Services string :=
  if negb (str_truthy inner_message_type)
  then raise (ValueError "inner_message_type cannot be empty.")
  else
    session ← active_physical_session session_id;
    uuid ← new_uuid;
    reliable_message ← ((fun s =>
      match prepare_reliable_outbound (sv_session_manager s) uuid (sv_now s) (ns_session_id session)
              inner_message_type inner_payload (sc_physical_reliable_retry_seconds config)
              (sc_reliable_delivery_max_attempts config) with
      | Ok (message, sm) => (Ok message, s <| sv_session_manager := sm |>)
      | Raise e => (Raise e, s)
      end) : st Services ReliableOutboundMessage);
    resend_reliable_message reliable_message;;
    mret (om_reliable_message_id reliable_message).
End client.

(** ** The first message *)

Section start.
Context `{FloatText} `{OpenSSL} `{AesGcmSiv} `{EngineIO} `{UuidLaws} {senv : SessionEnv}.
Context (config : SessionClientConfig).

(** The messages of a handshake are sent as they are. *)
Lemma prepare_plain message header payload sid ty (s : Services) :
  plain_header sid ty header -> dict_wf payload -> ty ∈ _PLAINTEXT_SESSION_MESSAGE_TYPES ->
  ob_payload message = text_bytes (_build_packet_bytes header payload) ->
  _prepare_outbound_message message s = (Ok message, s).
Proof.
  intros [Hh Hsid Hty _] Hp Hplain Hpay. destruct (load_packet header payload Hh Hp) as (packet & Hload & Hgh & Hgp).
  unfold _prepare_outbound_message. rewrite Hpay, bytes_text_bytes. unfold _build_packet_bytes.
  change (CommonJson.compact_json_bytes _) with (_build_json_packet_bytes header payload).
  rewrite Hload, Hgh, Hgp, (norm_get_str _ _ _ Hh Hsid), (norm_get_str _ _ _ Hh Hty).
  by rewrite bool_decide_eq_true_2.
Qed.

Lemma send_plain message header payload sid ty (s : Services) :
  plain_header sid ty header -> dict_wf payload -> ty ∈ _PLAINTEXT_SESSION_MESSAGE_TYPES ->
  ob_payload message = text_bytes (_build_packet_bytes header payload) -> io_send s message = Ok tt ->
  send_packet message s = (Ok tt, s <| sv_sent := sv_sent s ++ [message] |>).
Proof.
  intros Hh Hp Hty Hpay Hio. unfold send_packet.
  rewrite (st_bind_run _ _ _ _ _ (prepare_plain _ _ _ _ _ s Hh Hp Hty Hpay)). unfold deliver. by rewrite Hio.
Qed.

Definition init_payload (local_physical_node_id local_public_key : string) : jdict :=
  [("initiator_physical_node_id", JStr local_physical_node_id);
   ("initiator_public_key", JStr local_public_key);
   ("initiator_endpoints", JArr build_local_physical_endpoints);
   ("keepalive_interval_seconds", JInt (sc_session_keepalive_seconds config))].

(** The session object a manager creates. *)
Lemma create_session_get sm now data n sm' :
  sm_wf sm -> get_session_by_session_id sm (ci_session_id data) = None ->
  create_session sm now data = Ok (n, sm') ->
  sm_wf sm' /\ get_session_by_session_id sm' (ci_session_id data) = Some n /\
  n = session_of_input (sm_next_id sm) now data.
Proof.
  intros Hwf Hnone Hc. split; [by eapply create_session_wf|].
  destruct (create_session_fresh sm now data Hwf Hnone) as (n' & sm2 & Hc' & _ & Hget).
  rewrite Hc in Hc'. injection Hc' as <- <-. split; [done|].
  unfold create_session in Hc. rewrite Hnone in Hc. by injection Hc.
Qed.

(** INIT is on its way, and the node holds a session that names the other one. *)
Lemma start_session_run (s : Services) local_id local_key remote_id remote_key endpoint :
  let sid := uuid4 (sv_entropy s) in
  sm_wf (sv_session_manager s) -> session_of s sid = None -> dict_wf (init_payload local_id local_key) ->
  (forall s' message, ob_remote_endpoint message = endpoint -> io_send s' message = Ok tt) ->
  exists header session s' message,
    _start_session_with_endpoint config local_id local_key remote_id remote_key endpoint s = (Ok (Some sid), s') /\
    plain_header sid "PHYSICAL_SESSION_INIT" header /\ sm_wf (sv_session_manager s') /\
    session_of s' sid = Some session /\ ns_remote_public_key session = Some remote_key /\
    ns_remote_identity_id session = remote_id /\ sv_database s' = sv_database s /\
    sv_sent s' = sv_sent s ++ [message] /\ ob_remote_endpoint message = endpoint /\
    bytes_text (ob_payload message) = build_physical_session_init_payload header local_id local_key
      build_local_physical_endpoints (sc_session_keepalive_seconds config).
Proof.
  intros sid Hwf Hnone Hp Hio.
  set (s1 := s <| sv_entropy := S (sv_entropy s) |>).
  destruct (create_outbound_physical_session (sv_session_manager s1) sid (sv_now s1) local_id remote_id
    (Some remote_key) (ep_transport_name endpoint) (ep_host endpoint) (ep_port endpoint)
    (sc_session_keepalive_seconds config)) as [[n sm]|e] eqn:Hc.
  2:{ exfalso. unfold create_outbound_physical_session, create_session in Hc.
      replace (get_session_by_session_id _ _) with (@None NetworkSession) in Hc by (by symmetry). done. }
  pose proof Hc as Hc'. unfold create_outbound_physical_session in Hc'.
  apply create_session_get in Hc' as (Hwf1 & Hget1 & Hn); [|exact Hwf|exact Hnone].
  assert (ns_session_id n = sid /\ ns_remote_public_key n = Some remote_key /\ ns_remote_identity_id n = remote_id)
    as (Hnsid & Hnkey & Hnid) by (by rewrite Hn).
  set (s2 := s1 <| sv_session_manager := sm |>).
  assert (session_of s2 sid = Some n) as Hs2 by exact Hget1.
  set (meta := dumps_in_order (JObj (_build_session_transport_metadata remote_id (ep_metadata endpoint)))).
  set (f := update_fields (MkSessionStateUpdateInput None None None None None None None None None (Some meta))).
  set (s3 := update_session s2 sid f).
  assert (keeps_names f) as Hf by (intros []; by split_and!).
  assert (sm_wf (sv_session_manager s3)) as Hwf3 by (by apply update_wf).
  assert (session_of s3 sid = Some (f n)) as Hs3 by (unfold s3; by rewrite session_of_update, Hs2).
  set (s4 := s3 <| sv_message_sequence := sv_message_sequence s3 + 1 |>
                <| sv_entropy := S (sv_entropy s3) |>).
  set (header := [("version", JInt 1); ("message_type", JStr "PHYSICAL_SESSION_INIT");
    ("message_id", JStr (uuid4 (sv_entropy s3))); ("message_sequence", JInt (sv_message_sequence s3 + 1));
    ("physical_session_id", JStr sid); ("virtual_session_id", JNull)]).
  set (message := MkOutboundMessage (ep_transport_name endpoint)
    (text_bytes (build_physical_session_init_payload header local_id local_key build_local_physical_endpoints
       (sc_session_keepalive_seconds config))) endpoint None
    (_build_session_transport_metadata remote_id (ep_metadata endpoint))).
  assert (plain_header sid "PHYSICAL_SESSION_INIT" header) as Hh.
  { split; [|done..]. unfold header. json_wf_tac; apply ascii_unicode, uuid4_ascii. }
  assert (send_packet message s4 = (Ok tt, s4 <| sv_sent := sv_sent s4 ++ [message] |>)) as Hsend.
  { eapply (send_plain _ header (init_payload local_id local_key)); [exact Hh|exact Hp|set_solver|done|by apply Hio]. }
  exists header, (f n), (s4 <| sv_sent := sv_sent s4 ++ [message] |>), message.
  split.
  { unfold _start_session_with_endpoint, create_outbound.
    erewrite st_bind_run by (erewrite st_bind_run by reflexivity; fold s1 sid; rewrite Hc; reflexivity).
    cbv zeta. rewrite Hnsid. fold meta s2.
    erewrite st_bind_run by (eapply on_sessions_update; reflexivity). fold f s3.
    erewrite st_bind_run by reflexivity. fold header message s4.
    unfold catch_exn. by rewrite (st_bind_run _ _ _ _ _ Hsend). }
  split; [exact Hh|]. split; [exact Hwf3|]. split; [exact Hs3|]. split; [by destruct n|]. split; [by destruct n|].
  split; [done|]. split; [done|]. split; [done|]. apply bytes_text_bytes.
Qed.
End start.

(** ** Whom a session is with *)

(** There is a session with this id, and it has the property. *)
Definition holds (sid : string) (Q : NetworkSession -> Prop) (sm : SessionManager) : Prop :=
  exists session, get_session_by_session_id sm sid = Some session /\ Q session.

Lemma modify_holds sm sid' f sid Q :
  (forall n, Q n -> Q (f n)) -> holds sid Q sm -> holds sid Q (modify_session sm sid' f).2.
Proof.
  intros Hf (session & Hg & Hq). unfold holds, get_session_by_session_id, modify_session, deref in *.
  destruct (sm_sessions_by_session_id sm !! sid) as [l|] eqn:El; [|done]. cbn in Hg.
  destruct (sm_sessions_by_session_id sm !! sid') as [l'|]; cbn; [|rewrite El; by exists session].
  destruct (sm_heap sm !! l') as [session'|] eqn:Eh; cbn; [|rewrite El; by exists session].
  rewrite El. cbn. destruct (decide (l' = l)) as [-> |Hne].
  - rewrite lookup_insert_eq. assert (session' = session) as -> by congruence.
    exists (f session). split; [done|]. by apply Hf.
  - rewrite lookup_insert_ne by done. by exists session.
Qed.

(** What an operation does to the state, whatever it returns. *)
Definition does {S A} (R : S -> S -> Prop) (m : st S A) : Prop :=
  forall s r s', m s = (r, s') -> R s s'.

Section does.
Context {S : Type} (R : S -> S -> Prop) `{!PreOrder R}.

Lemma does_pure {A} (m : st S A) : (forall s, (m s).2 = s) -> does R m.
Proof. intros Hm s r s' Hr. specialize (Hm s). rewrite Hr in Hm. by rewrite <- Hm. Qed.

Lemma does_bind {A B} (m : st S A) (k : A -> st S B) :
  does R m -> (forall a, does R (k a)) -> does R (mbind k m).
Proof.
  intros Hm Hk s r s' Hr. unfold mbind, st_bind in Hr.
  destruct (m s) as [[a|e] s1] eqn:E; [|injection Hr as _ <-; by eapply Hm].
  transitivity s1; [by eapply Hm|]. by eapply Hk.
Qed.

Lemma does_catch {A} p (m : st S A) h :
  does R m -> (forall e, does R (h e)) -> does R (catch_exn p m h).
Proof.
  intros Hm Hh s r s' Hr. unfold catch_exn in Hr. destruct (m s) as [[a|e] s1] eqn:E.
  - injection Hr as _ <-. by eapply Hm.
  - destruct (p e); [|injection Hr as _ <-; by eapply Hm].
    transitivity s1; [by eapply Hm|]. by eapply Hh.
Qed.
End does.

(** A relation on the states of the node that looks at no more than the sessions, the
    routes and the clock, and in which a session may be touched. *)
Record traffic_relation (R : Services -> Services -> Prop) : Prop := {
  traffic_preorder : PreOrder R;
  traffic_same : forall s s', sv_session_manager s' = sv_session_manager s ->
    sv_routes s' = sv_routes s -> sv_now s' = sv_now s -> R s s';
  traffic_touch : forall sid, does R (touch sid);
}.

Section traffic.
Context `{FloatText} `{Entropy} `{OpenSSL} `{AesGcmSiv} `{EngineIO}.
Context (R : Services -> Services -> Prop) (HR : traffic_relation R).

#[local] Instance traffic_is_preorder : PreOrder R := traffic_preorder R HR.

Lemma does_encrypt data key aad : does R (encrypt_with data key aad).
Proof using HR.
  intros s r s'. unfold encrypt_with. destruct (aes_encrypt_hex _ _ _ _ _). intros [= _ <-].
  by apply (traffic_same R HR).
Qed.

Lemma does_header ty ps vs : does R (build_message_header ty ps vs).
Proof using HR. intros s r s' [= _ <-]. by apply (traffic_same R HR). Qed.

Lemma does_prepare message : does R (_prepare_outbound_message message).
Proof using HR.
  unfold _prepare_outbound_message.
  repeat case_match; try by apply (does_pure R).
  apply (does_bind R); [by apply (does_pure R)|]. intros session.
  destruct (active_secret session); [|by apply (does_pure R)].
  apply (does_bind R); [apply does_encrypt|]. intros encrypted.
  apply (does_bind R); [apply (traffic_touch R HR)|]. intros _. by apply (does_pure R).
Qed.

Lemma does_send message : does R (send_packet message).
Proof using HR.
  apply (does_bind R); [apply does_prepare|]. intros prepared s r s' Hr. unfold deliver in Hr.
  destruct (io_send s prepared); injection Hr as _ <-; by apply (traffic_same R HR).
Qed.
End traffic.

(** The session keeps the property if it had it. *)
Definition preserves (sid : string) (Q : NetworkSession -> Prop) (s s' : Services) : Prop :=
  holds sid Q (sv_session_manager s) -> holds sid Q (sv_session_manager s').

(** An operation after which the session has the property if it had it before. *)
Definition keeps (sid : string) (Q : NetworkSession -> Prop) {A} (m : st Services A) : Prop :=
  does (preserves sid Q) m.

#[export] Instance preserves_preorder sid Q : PreOrder (preserves sid Q).
Proof. split; [by intros s Hs|]. intros s1 s2 s3 Ha Hb Hs. by apply Hb, Ha. Qed.

Lemma keeps_modify sid Q f sid' :
  (forall now n, Q n -> Q (f now n)) -> keeps sid Q (on_sessions (fun sm now => modify_session sm sid' (f now))).
Proof.
  intros Hf s r s'. unfold on_sessions. destruct (modify_session _ _ _) as [o sm] eqn:E.
  intros [= _ <-] Hn. cbn.
  replace sm with (modify_session (sv_session_manager s) sid' (f (sv_now s))).2 by (by rewrite E).
  apply modify_holds; [apply Hf|done].
Qed.

Lemma preserves_traffic sid Q :
  (forall now k n, Q n -> Q (touch_fields now k n)) -> traffic_relation (preserves sid Q).
Proof.
  intros Htouch. split.
  - apply _.
  - intros s s' Hsm _ _ Hs. by rewrite Hsm.
  - intros sid'. apply (keeps_modify sid Q (fun now => touch_fields now None)). intros now. apply Htouch.
Qed.

(** The session with this id names this node and its key. *)
Definition of_peer (node_id key : string) (n : NetworkSession) : Prop :=
  ns_remote_identity_id n = node_id /\ ns_remote_public_key n = Some key.
Definition names_peer (sid node_id key : string) : SessionManager -> Prop :=
  holds sid (of_peer node_id key).

Lemma touch_of_peer node_id key now k n : of_peer node_id key n -> of_peer node_id key (touch_fields now k n).
Proof. destruct n, k; done. Qed.

Lemma of_peer_traffic sid node_id key : traffic_relation (preserves sid (of_peer node_id key)).
Proof. apply preserves_traffic. intros now k n. apply touch_of_peer. Qed.

(** ** Sessions the client opens *)

(** What other tasks do while the client waits leaves the peer of a session alone, as
    long as there is the session. *)
Class SessionTaskLaws {senv : SessionEnv} := {
  poll_tasks_peer : forall n sid session session',
    get_session_by_session_id (sv_session_manager (dn_services n)) sid = Some session ->
    get_session_by_session_id (sv_session_manager (dn_services (poll_tasks n))) sid = Some session' ->
    ns_remote_identity_id session' = ns_remote_identity_id session /\
    ns_remote_public_key session' = ns_remote_public_key session;
}.

Section opened.
Context `{FloatText} `{Entropy} `{OpenSSL} `{AesGcmSiv} `{EngineIO} {senv : SessionEnv} `{!SessionTaskLaws}.
Context (config : SessionClientConfig).

Lemma create_outbound_names local_id remote_id remote_key endpoint s session s' :
  create_outbound config local_id remote_id remote_key endpoint s = (Ok session, s') ->
  names_peer (ns_session_id session) remote_id remote_key (sv_session_manager s') /\
  sv_database s' = sv_database s.
Proof.
  intros Hr. apply st_bind_Ok in Hr as (uuid & s1 & Hu & Hr). injection Hu as <- <-.
  unfold create_outbound_physical_session, create_session in Hr.
  destruct (get_session_by_session_id _ _); [discriminate Hr|]. injection Hr as <- <-. split; [|done].
  eexists. split; [|shelve]. unfold get_session_by_session_id, deref. cbn.
  rewrite lookup_insert_eq. cbn. rewrite lookup_insert_eq. reflexivity.
  Unshelve. by split.
Qed.

Lemma start_session_names local_id local_key remote_id remote_key endpoint s sid s' :
  _start_session_with_endpoint config local_id local_key remote_id remote_key endpoint s = (Ok (Some sid), s') ->
  names_peer sid remote_id remote_key (sv_session_manager s').
Proof.
  intros Hr. unfold _start_session_with_endpoint in Hr.
  apply st_bind_Ok in Hr as (session & s1 & Hc & Hr). apply create_outbound_names in Hc as [Hn1 _].
  cbv zeta in Hr. apply st_bind_Ok in Hr as (o & s2 & Hu & Hr).
  assert (names_peer (ns_session_id session) remote_id remote_key (sv_session_manager s2)) as Hn2.
  { unfold on_sessions, update_session_state in Hu. destruct (modify_session _ _ _) as [o' sm] eqn:E.
    injection Hu as _ <-. cbn. replace sm with (modify_session (sv_session_manager s1) (ns_session_id session)
      (update_fields (MkSessionStateUpdateInput None None None None None None None None None
         (Some (dumps_in_order (JObj (_build_session_transport_metadata remote_id (ep_metadata endpoint)))))))).2
      by (by rewrite E).
    apply modify_holds; [by intros []|done]. }
  apply st_bind_Ok in Hr as (header & s3 & Hh & Hr). pose proof (does_header _ (of_peer_traffic _ remote_id remote_key) _ _ _ _ _ _ Hh Hn2) as Hn3.
  unfold catch_exn in Hr.
  match type of Hr with context [mbind ?k ?m s3] => destruct (mbind k m s3) as [[o2|e] s4] eqn:Hs end.
  - injection Hr as -> ->. apply st_bind_Ok in Hs as ([] & s5 & Hs & Hret). injection Hret as <- <-.
    exact (does_send _ (of_peer_traffic _ remote_id remote_key) _ _ _ _ Hs Hn3).
  - apply st_bind_Ok in Hr as (u & s5 & _ & Hr). by apply st_bind_Ok in Hr as (u' & s6 & _ & Hr).
Qed.

Lemma poll_activation_active polls : forall sid node_id key n n',
  names_peer sid node_id key (sv_session_manager (dn_services n)) ->
  poll_activation sid polls n = (Ok true, n') ->
  exists session, get_session_by_session_id (sv_session_manager (dn_services n')) sid = Some session /\
    ns_session_state session = "active" /\ ns_remote_identity_id session = node_id /\
    ns_remote_public_key session = Some key.
Proof.
  induction polls as [|polls IH]; intros sid node_id key n n' (session & Hg & Hid & Hkey) Hr;
    cbn [poll_activation] in Hr; apply st_bind_Ok in Hr as (found & n1 & Hf & Hr); injection Hf as <- <-;
    rewrite Hg in Hr.
  - injection Hr as Ha <-. apply bool_decide_eq_true in Ha. by exists session.
  - case_bool_decide as Ha; [injection Hr as <-; by exists session|].
    case_bool_decide; [done|]. apply st_bind_Ok in Hr as ([] & n1 & Ht & Hr). injection Ht as <-.
    destruct (get_session_by_session_id (sv_session_manager (dn_services (poll_tasks n))) sid) as [session'|] eqn:Hg'.
    + destruct (poll_tasks_peer n sid session session' Hg Hg') as [Hid' Hkey'].
      eapply IH; [|exact Hr]. exists session'. split; [done|]. split; congruence.
    + destruct polls; cbn [poll_activation] in Hr; apply st_bind_Ok in Hr as (found & n1 & Hf & Hr);
        injection Hf as <- <-; rewrite Hg' in Hr; by injection Hr.
Qed.

(** The session [try_endpoints] returns is active and names the node and its key. *)
Lemma try_endpoints_names local_node remote_node node_id endpoints : forall n sid n',
  try_endpoints config local_node remote_node node_id endpoints n = (Ok sid, n') ->
  exists session, get_session_by_session_id (sv_session_manager (dn_services n')) sid = Some session /\
    ns_session_state session = "active" /\ ns_remote_identity_id session = node_id /\
    ns_remote_public_key session = Some (rn_public_key remote_node).
Proof.
  induction endpoints as [|e endpoints IH]; intros n sid n' Hr; [done|]. cbn [try_endpoints] in Hr.
  destruct (has_adapter (ne_transport e)); cbn [negb] in Hr; [|by eapply IH].
  apply st_bind_Ok in Hr as (o & n1 & Hs & Hr).
  destruct o as [sid'|]; [|by eapply IH].
  apply st_bind_Ok in Hr as (activated & n2 & Hw & Hr). destruct activated.
  - injection Hr as -> ->. unfold on_services in Hs.
    destruct (_start_session_with_endpoint _ _ _ _ _ _ _) as [r s1] eqn:E. injection Hs as -> <-.
    apply start_session_names in E. eapply poll_activation_active; [|exact Hw]. exact E.
  - apply st_bind_Ok in Hr as (u & n3 & _ & Hr). apply st_bind_Ok in Hr as (u' & n4 & _ & Hr). by eapply IH.
Qed.
End opened.

(** ** The key of a node *)

Lemma find_put_row {A} (key : A -> string) row rows :
  find_row key (key row) (put_row key row rows) = Some row.
Proof.
  destruct (find_row key (key row) (put_row key row rows)) as [r|] eqn:Hf.
  - apply find_row_Some in Hf as [Hin Hk]. apply elem_of_put_row in Hin as [-> |[_ Hne]]; done.
  - apply find_row_None in Hf. exfalso. apply Hf. apply list_elem_of_fmap_2, put_row_new.
Qed.

(** A record of the DHT that is the node's own: its key hashes to the id, and it is
    signed with it. *)
Definition own_record (node_id : string) (record : DpntRecordPayload) `{OpenSSL} : Prop :=
  sha512_hex (dpnt_pk_physical_node record) = node_id /\
  exists key_hex, build_key "dpnt" node_id = Ok key_hex /\
    verify_dilithium_payload_signature (dpnt_signed_payload key_hex record) (dpnt_signature record)
      (dpnt_pk_physical_node record) = true.

Section peer.
Context `{FloatText} `{Entropy} `{OpenSSL} `{AesGcmSiv} `{EngineIO} {senv : SessionEnv} `{!SessionTaskLaws}.
Context (config : SessionClientConfig).

Lemma parsed_own_record node_id record_json record :
  _parse_valid_dpnt_record node_id record_json = Ok (Some record) -> own_record node_id record.
Proof.
  unfold _parse_valid_dpnt_record. destruct (truthy_str record_json) as [text|]; [|done].
  destruct (parse_record "dpnt" text) as [[r|r|r|r|r]|[]]; try done.
  case_bool_decide as Hid; [done|]. destruct (build_key "dpnt" node_id) as [key|] eqn:Hk; [|done].
  cbn [mbind res_bind]. destruct (verify_dilithium_payload_signature _ _ _) eqn:Hv; [|done].
  intros [= <-]. split; [done|]. by exists key.
Qed.

Lemma upserted_key db now d endpoints status row db' :
  upsert_discovered_remote_physical_node db now d endpoints status = Ok (row, db') ->
  exists row', get_remote_physical_node_by_id db' (nd_node_id d) = Some row' /\
    rn_public_key row' = nd_public_key d.
Proof.
  unfold upsert_discovered_remote_physical_node. cbv zeta.
  destruct (upsert_endpoints _ _ _ _ _ _) as [rows|]; [|done]. cbn [mbind res_bind]. intros [= <- <-].
  eexists. split.
  - unfold get_remote_physical_node_by_id at 1. cbn [db_remote_nodes set_field].
    rewrite <- (discovered_node_id now d (if bool_decide (status = "active") then "discovered" else status) db) at 1.
    apply find_put_row.
  - unfold discovered_node. destruct (get_remote_physical_node_by_id db (nd_node_id d)); [|done].
    by case_bool_decide.
Qed.

(** The node the client opens a session with has the key it was known by, or the one of
    a record of its own. *)
Definition known_key (node_id key : string) (db : Database) : Prop :=
  match get_remote_physical_node_by_id db node_id with
  | Some row => key = rn_public_key row
  | None => exists record, own_record node_id record /\ key = dpnt_pk_physical_node record
  end.

Lemma load_known_key node_id n remote_node n' :
  _load_remote_physical_node node_id n = (Ok (Some remote_node), n') ->
  known_key node_id (rn_public_key remote_node) (sv_database (dn_services n)).
Proof.
  unfold _load_remote_physical_node, known_key. intros Hr.
  apply st_bind_Ok in Hr as (known & n1 & Hk & Hr). injection Hk as <- <-.
  destruct (get_remote_physical_node_by_id _ node_id) as [row|]; [by injection Hr as <- _|].
  unfold _resolve_remote_physical_node_from_dpnt in Hr. apply st_bind_Ok in Hr as (result & n1 & _ & Hr).
  case_bool_decide; [done|]. apply st_bind_Ok in Hr as (record & n2 & Hp & Hr). injection Hp as Hp <-.
  destruct record as [record|]; [|done]. destruct (_normalize_dpnt_endpoints _) as [|e es]; [done|].
  apply st_bind_Ok in Hr as (row & n2 & Hu & Hr). injection Hr as Hf _.
  exists record. split; [by eapply parsed_own_record|].
  unfold on_services, on_database in Hu.
  destruct (upsert_discovered_remote_physical_node _ _ _ _ _) as [[row' db]|] eqn:E; [|done].
  injection Hu as _ <-. apply upserted_key in E as (row2 & Hg & Hkey).
  change (get_remote_physical_node_by_id db node_id = Some remote_node) in Hf.
  change (get_remote_physical_node_by_id db node_id = Some row2) in Hg.
  change (rn_public_key row2 = dpnt_pk_physical_node record) in Hkey. congruence.
Qed.

Lemma preferred_active node_id n session n' :
  _get_preferred_active_session node_id n = (Ok (Some session), n') ->
  n' = n /\ session ∈ list_active_physical_sessions (sv_session_manager (dn_services n)) /\
  ns_remote_identity_id session = node_id /\ is_observed_only_physical_session session = false.
Proof.
  unfold _get_preferred_active_session. intros [= Hp <-]. split; [done|].
  apply preferred_in, elem_of_List_filter in Hp as [Hin [Hid Hobs]%andb_true_iff].
  apply bool_decide_eq_true in Hid. apply negb_true_iff in Hobs. done.
Qed.

End peer.

(** ** The handshake the client starts *)

Section handshake.
Context `{FloatText} `{AesGcmSiv} `{EngineIO} `{UuidLaws} `{KemLaws} {senv : SessionEnv}.
Context (config : SessionClientConfig).

(** The client sees that the session has become active. *)
Lemma wait_active sid key n :
  session_secret (dn_services n) sid = Some key -> _wait_for_activation sid n = (Ok true, n).
Proof.
  unfold session_secret, active_secret, _wait_for_activation. intros Hs.
  destruct (get_session_by_session_id _ sid) as [session|] eqn:Hg; [|done].
  case_bool_decide as Ha; [|done].
  destruct (handshake_polls sid); cbn [poll_activation]; erewrite st_bind_run by reflexivity; rewrite Hg;
    by rewrite bool_decide_eq_true_2.
Qed.

(** C7: the handshake, from the client's first message to the active session. The
    client of node [a] opens a session over an endpoint at which node [b] listens, with
    the public key it knows of [b]: it sends INIT. When each node receives what the other
    sent, [b] answers INIT_OK, [a] KEY_CONFIRM and [b] READY; then the session is
    active on both sides under one secret of 32 bytes, whatever route the packets
    took, and the client, as soon as it looks, returns it. *)
Theorem client_handshake (a0 b : Services) dispatch_a dispatch_b (ka kb : Z) process_a process_b
    (i key_i remote_id public_key : string) (endpoint : TransportEndpoint)
    (local_node : LocalPhysicalNodeIdentity) :
  let sid := uuid4 (sv_entropy a0) in
  dispatch_a PhysicalSessionHandler = PhysicalSession.handle ka process_a ->
  dispatch_b PhysicalSessionHandler = PhysicalSession.handle kb process_b ->
  dict_wf (init_payload config i key_i) -> 0 < sc_session_keepalive_seconds config ->
  sm_wf (sv_session_manager a0) -> sm_wf (sv_session_manager b) -> session_of a0 sid = None ->
  (forall s message, ob_remote_endpoint message = endpoint -> io_send s message = Ok tt) ->
  public_key <> "" -> get_local_physical_node (sv_database b) = Some local_node ->
  signature_pair (ln_private_key_encrypted local_node) public_key ->
  (_persist_initiator_node_descriptor (norm_dict (init_payload config i key_i)) i b).1 = Ok tt ->
  exists a init, _start_session_with_endpoint config i key_i remote_id public_key endpoint a0 = (Ok (Some sid), a) /\
    sv_sent a = sv_sent a0 ++ [init] /\ ob_remote_endpoint init = endpoint /\
  forall c1, pc_payload c1 = bytes_text (ob_payload init) ->
  exists r1 b1 init_ok, process_received_packet dispatch_b c1 b = (Ok r1, b1) /\
    pp_response_payload r1 = Some init_ok /\
  forall c2, pc_payload c2 = init_ok ->
  exists r2 a1 key_confirm, process_received_packet dispatch_a c2 a = (Ok r2, a1) /\
    pp_response_payload r2 = Some key_confirm /\
  forall c3, pc_payload c3 = key_confirm ->
  exists r3 b2 ready, process_received_packet dispatch_b c3 b1 = (Ok r3, b2) /\
    pp_response_payload r3 = Some ready /\
  forall c4, pc_payload c4 = ready ->
  exists r4 a2 key, process_received_packet dispatch_a c4 a1 = (Ok r4, a2) /\
    hex_of AES_KEY_SIZE key /\ session_secret a2 sid = Some key /\ session_secret b2 sid = Some key /\
    forall n, dn_services n = a2 -> _wait_for_activation sid n = (Ok true, n).
Proof.
  intros sid Hda Hdb Hp Hk Hwa Hwb Hnone Hio Hpkn Hln Hpair Hper.
  destruct (start_session_run config a0 i key_i remote_id public_key endpoint Hwa Hnone Hp Hio) as
    (header & session & a & init & Hrun & Hh & Hwa' & Hsa & Hkey & _ & _ & Hsent & Hend & Hpay).
  exists a, init. split; [done|]. split; [done|]. split; [done|]. intros c1 Hc1. rewrite Hpay in Hc1.
  destruct (handshake_agreement a b dispatch_a dispatch_b ka kb process_a process_b header sid i key_i
    build_local_physical_endpoints (sc_session_keepalive_seconds config) local_node public_key session
    Hda Hdb Hh (uuid4_nonempty _) Hp Hk Hwa' Hwb Hsa Hkey Hpkn Hln Hpair Hper c1 Hc1) as
    (r1 & b1 & m1 & H1' & H2' & Hnext).
  exists r1, b1, m1. split; [done|]. split; [done|]. intros c2 Hc2.
  destruct (Hnext c2 Hc2) as (r2 & a1 & m2 & H3' & H4' & Hnext2).
  exists r2, a1, m2. split; [done|]. split; [done|]. intros c3 Hc3.
  destruct (Hnext2 c3 Hc3) as (r3 & b2 & m3 & H5' & H6' & Hnext3).
  exists r3, b2, m3. split; [done|]. split; [done|]. intros c4 Hc4.
  destruct (Hnext3 c4 Hc4) as (r4 & a2 & key & H7' & H8' & Hsa2 & Hsb2).
  exists r4, a2, key. split; [done|]. split; [done|]. split; [done|]. split; [done|].
  intros n <-. by eapply wait_active.
Qed.
End handshake.

(** ** Witnesses *)

#[local] Existing Instance Crypto.demo_aead.
#[local] Existing Instance Engine.demo_entropy.
#[local] Existing Instance PhysicalSession.demo_float.
#[local] Existing Instance PhysicalSession.demo_uuid_laws.
#[local] Existing Instance PhysicalSession.demo_openssl.
#[local] Existing Instance PhysicalSession.demo_key_gen.
#[local] Existing Instance PhysicalSession.demo_kem_laws.

(** Every packet can be sent; while the client waits the session it opened becomes
    active; the DHT knows nothing. *)
#[local] Instance demo_reach : EngineIO := {|
  io_send := fun _ _ => Ok tt; io_start_session := fun _ => raise (OSError "unreachable")
|}.

Definition demo_activates (n : DhtNode) : DhtNode :=
  n <| dn_services := update_session (dn_services n) "uuid-0" (fun session => session <| ns_session_state := "active" |>) |>.

#[local] Instance demo_senv : SessionEnv := {|
  handshake_polls := fun _ => 3%nat; poll_tasks := demo_activates;
  has_adapter := fun transport => bool_decide (transport = "tcp");
  build_local_physical_endpoints := demo_initiator_endpoints;
  session_dht_query := fun _ _ => mret [("status", JStr "not_found")]
|}.

Lemma modify_get sm sid' f sid session session' :
  get_session_by_session_id sm sid = Some session ->
  get_session_by_session_id (modify_session sm sid' f).2 sid = Some session' ->
  session' = session \/ session' = f session.
Proof.
  unfold get_session_by_session_id, modify_session, deref.
  destruct (sm_sessions_by_session_id sm !! sid) as [l|] eqn:El; [|done]. cbn. intros Hg.
  destruct (sm_sessions_by_session_id sm !! sid') as [l'|]; cbn; [|rewrite El; cbn; intros; left; congruence].
  destruct (sm_heap sm !! l') as [s'|] eqn:Eh; cbn; [|rewrite El; cbn; intros; left; congruence].
  rewrite El. cbn. destruct (decide (l' = l)) as [-> |Hne].
  - rewrite lookup_insert_eq. intros [= <-]. right. congruence.
  - rewrite lookup_insert_ne by done. intros; left; congruence.
Qed.

#[local] Instance demo_task_laws : SessionTaskLaws.
Proof.
  split. intros n sid session session' Hg Hg'. cbn in Hg'.
  destruct (modify_get _ _ _ _ _ _ Hg Hg') as [-> | ->]; [done|by destruct session].
Qed.

Definition demo_client_config : SessionClientConfig := MkSessionClientConfig 20 2 5.
Definition demo_client : Services := demo_services new_session_manager empty_database.

Lemma demo_init_wf : dict_wf (init_payload demo_client_config (sha512_hex "pk-a") "pk-a").
Proof.
  assert (unicode (sha512_hex "pk-a")) as Hu by (apply ascii_unicode; vm_compute; reflexivity).
  revert Hu. generalize (sha512_hex "pk-a"). intros id Hu.
  unfold init_payload, build_local_physical_endpoints, demo_senv, demo_initiator_endpoints. json_wf_tac.
Qed.

Lemma client_handshake_witness :
  exists a init r1 b1 init_ok,
    _start_session_with_endpoint demo_client_config (sha512_hex "pk-a") "pk-a" "pn-b" "pk-b" demo_endpoint demo_client
      = (Ok (Some "uuid-0"), a) /\ sv_sent a = [init] /\
    process_received_packet demo_dispatch (PhysicalSession.demo_context (bytes_text (ob_payload init))) demo_b = (Ok r1, b1) /\
    pp_response_payload r1 = Some init_ok.
Proof.
  destruct (client_handshake demo_client_config demo_client demo_b demo_dispatch demo_dispatch 20 20 demo_process
    demo_process (sha512_hex "pk-a") "pk-a" "pn-b" "pk-b" demo_endpoint demo_local_node) as
    (a & init & Hrun & Hsent & _ & Hnext).
  - reflexivity.
  - reflexivity.
  - exact demo_init_wf.
  - reflexivity.
  - exact new_session_manager_wf.
  - exact new_session_manager_wf.
  - reflexivity.
  - reflexivity.
  - discriminate.
  - reflexivity.
  - exact demo_signature_pair.
  - vm_compute. reflexivity.
  - destruct (Hnext (PhysicalSession.demo_context (bytes_text (ob_payload init))) eq_refl) as (r1 & b1 & m1 & Hr1 & Hm1 & _).
    exists a, init, r1, b1, m1. exact (conj Hrun (conj Hsent (conj Hr1 Hm1))).
Defined.

(** A node that knows [pn-b] and its endpoint. *)
Definition demo_knowing : DhtNode :=
  MkDhtNode (demo_services new_session_manager
    (MkDatabase [MkLocalNode "pn-a" "pk-a" "sk-a" "ml-dsa-65" "active" 0] []
       [MkRemoteNode "pn-b" "pk-b" None None false false (Some "1") "active" None None None] []
       [MkNodeEndpoint 1 "pn-b" "tcp" "10.0.0.2" 19001 0 true None None 0 None] [] [])) [] [] [] [].

