(* ===== verification/VirtualSession.v ===== *)
(** * Virtual sessions: the handshake and the session messages

    Models [src/app/core/protocols/virtual/session.py], the handler of the
    messages by which two virtual nodes open a session over a route, exchange
    reliable data over it, keep it alive and close it. A handler answers with a
    virtual envelope in its result, which [RouteExecute] sends back over the route.

    The engine's [process_protocol_envelope], which reliable data and its
    acknowledgements call back, is [process]; the engine is present, as it is once
    [Engine] is constructed. *)

From S2P Require Import Prelude PyJson PyTime Sha512 Crypto JsonText Transport Reliable.
From S2P Require Import Sessions Identity RouteService Core Registry Engine PhysicalSession RouteExecute.

Section handler.
Context `{FloatText} `{Entropy} `{OpenSSL} `{KeyGen}.
(** [services.config.session_keepalive_seconds] *)
Context (session_keepalive_seconds : Z).
Context (process : ProtocolEnvelope -> PacketContext -> st Services PacketProcessingResult).

Definition protocol_family : string := "virtual_session".

Definition invalid (envelope : ProtocolEnvelope) (reason : string) : PacketProcessingResult :=
  build_invalid_result protocol_family envelope reason.

(** The result of a handled message that is not answered. *)
Definition session_result (envelope : ProtocolEnvelope) (action session_id : string) (more : jdict)
    : PacketProcessingResult :=
  MkResult (pe_protocol_name envelope) true (pe_message_type envelope) None
    ([("protocol_family", JStr protocol_family); ("action", JStr action);
      ("session_id", JStr session_id)] ++ more) None.

Definition _build_response_header (request_header : jdict) (message_type : string)
    : st Services jdict :=
  uuid ← new_uuid; mret (build_response_header uuid request_header message_type true).

Definition _build_virtual_response_result (envelope : ProtocolEnvelope)
    (response_message_type : string) (payload extra_metadata : jdict)
    : st Services PacketProcessingResult :=
  header ← _build_response_header (pe_header envelope) response_message_type;
  mret (MkResult (pe_protocol_name envelope) true (pe_message_type envelope) None
    (Relay.dict_merge
       [("protocol_family", JStr protocol_family);
        ("virtual_response_envelope",
           JObj [("header", JObj header); ("payload", JObj payload)])]
       extra_metadata) None).

(** ** The responder's signature *)

Definition _sign_virtual_session_init_ok (session_id responder_ephemeral_public_key : string)
    (keepalive_interval_seconds : Z) (local_private_key_pem : string) : res string :=
  dilithium_sign_hex (CommonJson.canonical_payload_hex
    (init_ok_signed_payload session_id responder_ephemeral_public_key keepalive_interval_seconds))
    local_private_key_pem.

Definition _verify_virtual_session_init_ok (session_id responder_ephemeral_public_key : string)
    (keepalive_interval_seconds : Z) (signature_hex remote_public_key_pem : string) : bool :=
  catch_all false (dilithium_verify_hex (CommonJson.canonical_payload_hex
    (init_ok_signed_payload session_id responder_ephemeral_public_key keepalive_interval_seconds))
    signature_hex remote_public_key_pem).

(** ** The handshake *)

(** [session.remote_public_key = ...] on the session object. *)
Definition set_remote_public_key (session_id public_key : string) : st Services unit :=
  on_sessions (fun sm _ => modify_session sm session_id
    (fun session => session <| ns_remote_public_key := Some public_key |>));;
  mret tt.

(** The metadata is the literal text of the object with the one key ["source"]. *)
Definition upsert_peer (node_id public_key source : string) : st Services unit :=
  on_database (fun db now => Ok (upsert_remote_virtual_node db now node_id public_key
    "virtual_session_peer" "active" None (Some (json_dumps (JObj [("source", JStr source)])))));;
  mret tt.

Definition create_inbound_virtual (session_id local_id remote_id remote_public_key : string)
    (bound_route_id : option string) (keepalive_interval_seconds : Z) : st Services NetworkSession :=
  fun s =>
    match create_inbound_virtual_session (sv_session_manager s) (sv_now s) session_id local_id
            remote_id (Some remote_public_key) bound_route_id keepalive_interval_seconds with
    | Ok (session, sm) => (Ok session, s <| sv_session_manager := sm |>)
    | Raise e => (Raise e, s)
    end.

Definition _handle_virtual_session_init (envelope : ProtocolEnvelope) (context : PacketContext)
    : st Services PacketProcessingResult :=
  let payload := as_payload_dict envelope in
  let keepalive_interval_seconds :=
    read_positive_keepalive_interval payload session_keepalive_seconds in
  match read_virtual_session_id envelope, py_get payload "initiator_virtual_node_id",
        py_get payload "initiator_virtual_node_public_key",
        py_get payload "target_virtual_node_id" with
  | Some session_id, JStr initiator_virtual_node_id, JStr initiator_virtual_node_public_key,
    JStr target_virtual_node_id =>
      if bool_decide (sha512_hex initiator_virtual_node_public_key <> initiator_virtual_node_id)
      then mret (invalid envelope "invalid_initiator_virtual_node_public_key")
      else
        local_virtual_node ←
          gets (fun s => get_local_virtual_node_by_id (sv_database s) target_virtual_node_id);
        match local_virtual_node with
        | None => mret (invalid envelope "local_virtual_node_not_found")
        | Some local_virtual_node =>
            upsert_peer initiator_virtual_node_id initiator_virtual_node_public_key
              "virtual_session_init";;
            session ← create_inbound_virtual session_id target_virtual_node_id
              initiator_virtual_node_id initiator_virtual_node_public_key
              (truthy_str (py_get (pc_metadata context) "route_path_id"))
              keepalive_interval_seconds;
            set_remote_public_key session_id initiator_virtual_node_public_key;;
            key_pair ← generate_kyber_key_pair;
            on_sessions (fun sm now => store_local_ephemeral_keypair sm session_id now key_pair.1
              key_pair.2 "init_ok_sent");;
            signature_hex ← lift (_sign_virtual_session_init_ok session_id key_pair.2
              keepalive_interval_seconds (lv_private_key_encrypted local_virtual_node));
            _build_virtual_response_result envelope "VIRTUAL_SESSION_INIT_OK"
              [("responder_virtual_node_public_key", JStr (lv_public_key local_virtual_node));
               ("responder_ephemeral_public_key", JStr key_pair.2);
               ("signature_hex", JStr signature_hex);
               ("keepalive_interval_seconds", JInt keepalive_interval_seconds)]
              [("action", JStr "virtual_session_init_ok_sent");
               ("session_id", JStr (ns_session_id session))]
        end
  | _, _, _, _ => mret (invalid envelope "invalid_virtual_session_init")
  end.

Definition _handle_virtual_session_init_ok (envelope : ProtocolEnvelope) (context : PacketContext)
    : st Services PacketProcessingResult :=
  let payload := as_payload_dict envelope in
  let keepalive_interval_seconds :=
    read_positive_keepalive_interval payload session_keepalive_seconds in
  match read_virtual_session_id envelope, py_get payload "responder_virtual_node_public_key",
        py_get payload "responder_ephemeral_public_key", py_get payload "signature_hex" with
  | Some session_id, JStr responder_virtual_node_public_key, JStr responder_ephemeral_public_key,
    JStr signature_hex =>
      session ← find_session session_id;
      match session with
      | None => mret (invalid envelope "virtual_session_not_found")
      | Some session =>
          if bool_decide (sha512_hex responder_virtual_node_public_key
                          <> ns_remote_identity_id session)
          then
            on_sessions (fun sm now => close_session sm session_id now
              "invalid_responder_public_key");;
            mret (invalid envelope "invalid_responder_virtual_node_public_key")
          else
            set_remote_public_key session_id responder_virtual_node_public_key;;
            upsert_peer (ns_remote_identity_id session) responder_virtual_node_public_key
              "virtual_session_init_ok";;
            if negb (_verify_virtual_session_init_ok session_id responder_ephemeral_public_key
                       keepalive_interval_seconds signature_hex responder_virtual_node_public_key)
            then
              on_sessions (fun sm now => close_session sm session_id now
                "invalid_init_ok_signature");;
              mret (invalid envelope "invalid_virtual_session_init_ok_signature")
            else
              on_sessions (fun sm now => store_remote_ephemeral_public_key sm session_id now
                responder_ephemeral_public_key "init_ok_verified");;
              on_sessions (fun sm now => touch_session sm session_id now
                (Some keepalive_interval_seconds));;
              encapsulation ← lift (kyber_encapsulate_hex responder_ephemeral_public_key);
              on_sessions (fun sm now => store_shared_secret sm session_id now
                (shared_secret_hex encapsulation) "key_confirm_sent" "pending");;
              _build_virtual_response_result envelope "VIRTUAL_SESSION_KEY_CONFIRM"
                [("encapsulated_key_hex", JStr (ciphertext_hex encapsulation))]
                [("action", JStr "virtual_session_key_confirm_sent");
                 ("session_id", JStr session_id)]
      end
  | _, _, _, _ => mret (invalid envelope "invalid_virtual_session_init_ok")
  end.

Definition _handle_virtual_session_key_confirm (envelope : ProtocolEnvelope)
    (context : PacketContext) : st Services PacketProcessingResult :=
  let payload := as_payload_dict envelope in
  match read_virtual_session_id envelope, py_get payload "encapsulated_key_hex" with
  | Some session_id, JStr encapsulated_key_hex =>
      session ← find_session session_id;
      match session ≫= fun session =>
              pair session <$> nonempty_column (ns_local_ephemeral_private_key session) with
      | None => mret (invalid envelope "virtual_session_ephemeral_key_not_found")
      | Some (session, local_ephemeral_private_key) =>
          shared_secret_hex ←
            lift (kyber_decapsulate_hex encapsulated_key_hex local_ephemeral_private_key);
          on_sessions (fun sm now => store_shared_secret sm session_id now shared_secret_hex
            "ready_sent" "pending");;
          on_sessions (fun sm now => activate_session sm session_id now);;
          _build_virtual_response_result envelope "VIRTUAL_SESSION_READY"
            [("status", JStr "active");
             ("keepalive_interval_seconds", JInt (ns_keepalive_interval_seconds session))]
            [("action", JStr "virtual_session_ready_sent"); ("session_id", JStr session_id)]
      end
  | _, _ => mret (invalid envelope "invalid_virtual_session_key_confirm")
  end.

Definition _handle_virtual_session_ready (envelope : ProtocolEnvelope) (context : PacketContext)
    : st Services PacketProcessingResult :=
  let payload := as_payload_dict envelope in
  let keepalive_interval_seconds :=
    read_positive_keepalive_interval payload session_keepalive_seconds in
  match read_virtual_session_id envelope with
  | None => mret (invalid envelope "invalid_virtual_session_ready")
  | Some session_id =>
      session ← find_session session_id;
      match session ≫= fun session => nonempty_column (ns_shared_secret_hex session) with
      | None => mret (invalid envelope "virtual_session_shared_secret_not_found")
      | Some _ =>
          on_sessions (fun sm now => touch_session sm session_id now (Some keepalive_interval_seconds));;
          on_sessions (fun sm now => activate_session sm session_id now);;
          mret (session_result envelope "virtual_session_activated" session_id [])
      end
  end.

(** ** Reliable data *)

(** The answers of the inner messages are carried by the acknowledgement. *)
Record Delivered := MkDelivered {
  dl_last_inner_result : option PacketProcessingResult;
  dl_count : Z;
  dl_inner_response_envelopes : list jdict;
}.

Definition collect (result : PacketProcessingResult) (acc : Delivered) : Delivered :=
  MkDelivered (Some result) (dl_count acc + 1)
    (dl_inner_response_envelopes acc ++
       match py_get (pp_metadata result) "virtual_response_envelope" with
       | JObj candidate_response => [candidate_response]
       | _ => []
       end).

Definition inner_envelope (envelope : ProtocolEnvelope) (inbound : ReliableInboundMessage)
    : ProtocolEnvelope :=
  MkEnvelope (pe_protocol_name envelope) (Some (im_inner_message_type inbound))
    (JObj (im_inner_payload inbound)) (pe_raw_payload envelope)
    (Relay.dict_merge (pe_header envelope)
       [("message_type", JStr (im_inner_message_type inbound));
        ("reliable_message_id", JStr (im_reliable_message_id inbound));
        ("reliable_sequence_number", pyint_json (im_sequence_number inbound))]).

Fixpoint deliver_all (envelope : ProtocolEnvelope) (context : PacketContext) (acc : Delivered)
    (deliveries : list ReliableInboundMessage) : st Services Delivered :=
  match deliveries with
  | [] => mret acc
  | inbound :: rest =>
      result ← process (inner_envelope envelope inbound) context;
      deliver_all envelope context (collect result acc) rest
  end.

Definition inner_action (result : option PacketProcessingResult) : json :=
  match result with Some r => py_get (pp_metadata r) "action" | None => JNull end.

Definition _handle_virtual_session_reliable_data (envelope : ProtocolEnvelope)
    (context : PacketContext) : st Services PacketProcessingResult :=
  let payload := as_payload_dict envelope in
  match read_virtual_session_id envelope with
  | None => mret (invalid envelope "invalid_virtual_reliable_session_id")
  | Some session_id =>
      session ← touch session_id;
      match session with
      | None => mret (invalid envelope "virtual_session_not_found")
      | Some session =>
          if bool_decide (ns_session_scope session <> "virtual")
          then mret (invalid envelope "virtual_session_not_found")
          else
            received ← catch_value
              (receive_result ← receive_inbound session_id payload; mret (inl receive_result))
              (fun error => mret (inr error));
            match received with
            | inr error => mret (invalid envelope error)
            | inl receive_result =>
                delivered ← deliver_all envelope context (MkDelivered None 0 [])
                  (rr_deliveries receive_result);
                let ack_payload :=
                  match dl_inner_response_envelopes delivered with
                  | [] => rr_ack_payload receive_result
                  | inner_response_envelopes =>
                      od_set "inner_response_envelopes" (JArr (JObj <$> inner_response_envelopes))
                        (rr_ack_payload receive_result)
                  end in
                _build_virtual_response_result envelope "VIRTUAL_SESSION_RELIABLE_ACK" ack_payload
                  [("action", JStr "virtual_reliable_ack_sent"); ("session_id", JStr session_id);
                   ("delivered_count", JInt (dl_count delivered));
                   ("inner_action", inner_action (dl_last_inner_result delivered))]
            end
      end
  end.

Definition _dispatch_inner_virtual_response_from_ack (envelope : ProtocolEnvelope)
    (context : PacketContext) (session_id : string) (inner_response_envelope : jdict)
    : st Services (option PacketProcessingResult) :=
  match py_get inner_response_envelope "header", py_get inner_response_envelope "payload" with
  | JObj header, JObj payload =>
      match truthy_str (py_get header "message_type") with
      | None => mret None
      | Some message_type =>
          let normalized_header := Relay.dict_merge header
            [("physical_session_id", py_get (pe_header envelope) "physical_session_id");
             ("virtual_session_id", JStr session_id)] in
          result ← process (MkEnvelope (pe_protocol_name envelope) (Some message_type) (JObj payload)
            (pe_raw_payload envelope) normalized_header) context;
          mret (Some result)
      end
  | _, _ => mret None
  end.

(** [inner_response_envelopes], or the single envelope of older nodes. *)
Definition carried_envelopes (payload : jdict) : list json :=
  match py_get payload "inner_response_envelopes" with
  | JArr inner_response_envelopes => inner_response_envelopes
  | _ => match py_get payload "inner_response_envelope" with
         | JObj legacy_inner_response => [JObj legacy_inner_response]
         | _ => []
         end
  end.

Fixpoint dispatch_carried (envelope : ProtocolEnvelope) (context : PacketContext)
    (session_id : string) (inner_response_envelopes : list json)
    : st Services (list PacketProcessingResult) :=
  match inner_response_envelopes with
  | [] => mret []
  | JObj inner_response_envelope :: rest =>
      inner_result ←
        _dispatch_inner_virtual_response_from_ack envelope context session_id inner_response_envelope;
      inner_results ← dispatch_carried envelope context session_id rest;
      mret (option_list inner_result ++ inner_results)
  | _ :: rest => dispatch_carried envelope context session_id rest
  end.

Definition _handle_virtual_session_reliable_ack (envelope : ProtocolEnvelope)
    (context : PacketContext) : st Services PacketProcessingResult :=
  let payload := as_payload_dict envelope in
  match read_virtual_session_id envelope, json_pyint (py_get payload "ack_for_sequence_number"),
        truthy_str (py_get payload "ack_for_message_id") with
  | Some session_id, Some ack_for_sequence, Some ack_for_message_id =>
      acked ← on_sessions (fun sm now => mark_reliable_outbound_acked sm now session_id
        (pyint_val ack_for_sequence) ack_for_message_id);
      touch session_id;;
      inner_results ← dispatch_carried envelope context session_id (carried_envelopes payload);
      mret (session_result envelope "virtual_reliable_ack_received" session_id
        [("ack_matched", JBool (bool_decide (is_Some acked)));
         ("inner_response_count", JInt (Z.of_nat (length inner_results)));
         ("inner_action", inner_action (last inner_results))])
  | _, _, _ => mret (invalid envelope "invalid_virtual_reliable_ack")
  end.

(** ** Keepalive and close *)

Definition _handle_virtual_session_keepalive (envelope : ProtocolEnvelope)
    (context : PacketContext) : st Services PacketProcessingResult :=
  match read_virtual_session_id envelope with
  | None => mret (invalid envelope "invalid_virtual_session_keepalive")
  | Some session_id =>
      session ← touch session_id;
      match session with
      | None => mret (invalid envelope "virtual_session_not_found")
      | Some _ =>
          _build_virtual_response_result envelope "VIRTUAL_SESSION_KEEPALIVE_ACK" []
            [("action", JStr "virtual_session_keepalive_ack_sent"); ("session_id", JStr session_id)]
      end
  end.

Definition _handle_virtual_session_keepalive_ack (envelope : ProtocolEnvelope)
    (context : PacketContext) : st Services PacketProcessingResult :=
  match read_virtual_session_id envelope with
  | None => mret (invalid envelope "invalid_virtual_session_keepalive_ack")
  | Some session_id =>
      session ← touch session_id;
      match session with
      | None => mret (invalid envelope "virtual_session_not_found")
      | Some _ =>
          mret (session_result envelope "virtual_session_keepalive_ack_received" session_id [])
      end
  end.

Definition _handle_virtual_session_close (envelope : ProtocolEnvelope) (context : PacketContext)
    : st Services PacketProcessingResult :=
  let payload := as_payload_dict envelope in
  match read_virtual_session_id envelope with
  | None => mret (invalid envelope "invalid_virtual_session_close")
  | Some session_id =>
      session ← on_sessions (fun sm now => close_session sm session_id now
        (match py_get payload "close_reason" with JStr r => r | _ => "remote_closed" end));
      match session with
      | None => mret (invalid envelope "virtual_session_not_found")
      | Some _ => mret (session_result envelope "virtual_session_closed" session_id [])
      end
  end.

Definition _build_not_implemented_result (envelope : ProtocolEnvelope) (s : Services)
    : PacketProcessingResult :=
  MkResult (pe_protocol_name envelope) true (pe_message_type envelope) None
    [("protocol_family", JStr protocol_family);
     ("session_count", JInt (Z.of_nat (length (list_sessions (sv_session_manager s) None))));
     ("next_step", JStr "implement_virtual_session_protocol_flow")] None.

Definition handle (envelope : ProtocolEnvelope) (context : PacketContext)
    : st Services PacketProcessingResult :=
  match pe_message_type envelope with
  | Some "VIRTUAL_SESSION_INIT" => _handle_virtual_session_init envelope context
  | Some "VIRTUAL_SESSION_INIT_OK" => _handle_virtual_session_init_ok envelope context
  | Some "VIRTUAL_SESSION_KEY_CONFIRM" => _handle_virtual_session_key_confirm envelope context
  | Some "VIRTUAL_SESSION_READY" => _handle_virtual_session_ready envelope context
  | Some "VIRTUAL_SESSION_KEEPALIVE" => _handle_virtual_session_keepalive envelope context
  | Some "VIRTUAL_SESSION_KEEPALIVE_ACK" => _handle_virtual_session_keepalive_ack envelope context
  | Some "VIRTUAL_SESSION_RELIABLE_DATA" => _handle_virtual_session_reliable_data envelope context
  | Some "VIRTUAL_SESSION_RELIABLE_ACK" => _handle_virtual_session_reliable_ack envelope context
  | Some "VIRTUAL_SESSION_CLOSE" => _handle_virtual_session_close envelope context
  | _ => gets (_build_not_implemented_result envelope)
  end.
End handler.

(** ** Virtual envelopes on a route *)

(** A header of a virtual message that names the session. *)
Record virtual_header `{FloatText} (sid ty : string) (header : jdict) : Prop := {
  vh_wf : dict_wf header;
  vh_sid : od_get "virtual_session_id" header = Some (JStr sid);
  vh_ty : od_get "message_type" header = Some (JStr ty);
}.

(** A virtual envelope as the sender writes it. *)
Definition virtual_envelope (header payload : jdict) : jdict :=
  [("header", JObj header); ("payload", JObj payload)].

(** A node at the end of a route opens a virtual envelope, read up to key order,
    from the packet [outer] and handles it. *)
Definition arrive `{FloatText} `{Entropy} `{OpenSSL} `{KeyGen} (session_keepalive_seconds : Z)
    (process : ProtocolEnvelope -> PacketContext -> st Services PacketProcessingResult)
    (outer : ProtocolEnvelope) (route_data : RouteExecuteData) (context : PacketContext)
    (ve : jdict) : st Services PacketProcessingResult :=
  envelope ← lift (_build_nested_virtual_envelope outer route_data (norm_dict ve));
  handle session_keepalive_seconds process envelope context.

(** The virtual envelope a result answers with. *)
Definition reply_of (result : PacketProcessingResult) : json :=
  py_get (pp_metadata result) "virtual_response_envelope".

Section packets.
Context `{FloatText}.

Lemma virtual_response_header uuid header sid ty ty' :
  ascii_text uuid = true -> ascii_text ty' = true -> virtual_header sid ty header ->
  virtual_header sid ty' (build_response_header uuid header ty' true).
Proof.
  intros Hu%ascii_unicode Ht%ascii_unicode [Hwf Hsid _]. unfold build_response_header.
  assert (forall k v, json_wf v -> json_wf (py_get_default header k v)) as Hget.
  { intros k v Hv. unfold py_get_default. destruct (od_get k header) eqn:E; [|done].
    by apply (dict_wf_get _ _ _ Hwf E). }
  split; [| |by od_eval].
  - unfold py_get. json_wf_tac; apply Hget; constructor.
  - od_eval. unfold py_get. by rewrite Hsid.
Qed.

Lemma open_envelope outer rd sid ty header payload :
  virtual_header sid ty header -> dict_wf payload -> sid <> "" -> dict_wf (pe_header outer) ->
  exists envelope,
    _build_nested_virtual_envelope outer rd (norm_dict (virtual_envelope header payload))
      = Ok envelope /\
    pe_message_type envelope = Some ty /\ virtual_header sid ty (pe_header envelope) /\
    read_virtual_session_id envelope = Some sid /\
    (forall ps, ps <> "" -> py_get (pe_header outer) "physical_session_id" = JStr ps ->
       py_get (pe_header envelope) "physical_session_id" = JStr ps) /\
    as_payload_dict envelope = norm_dict payload.
Proof.
  intros [Hh Hsid Hty] Hp Hne Ho. unfold _build_nested_virtual_envelope.
  assert (dict_wf (virtual_envelope header payload)) as Hve by (unfold virtual_envelope; json_wf_tac).
  rewrite (py_get_norm _ "header" Hve), (py_get_norm _ "payload" Hve).
  change (json_norm (py_get (virtual_envelope header payload) "header")) with (JObj (norm_dict header)).
  change (json_norm (py_get (virtual_envelope header payload) "payload"))
    with (JObj (norm_dict payload)). cbv beta iota.
  pose proof (norm_get_str _ _ sid Hh Hsid) as Hs. pose proof (norm_get_str _ _ ty Hh Hty) as Ht.
  rewrite Hs. cbn [json_truthy]. rewrite (proj2 (str_truthy_spec sid) Hne). cbn [negb].
  set (header1 := match rd_virtual_session_id rd with Some _ => _ | None => _ end).
  assert (header1 = norm_dict header) as ->
    by (unfold header1; destruct (rd_virtual_session_id rd); [by rewrite andb_false_r|done]).
  set (header2 := if json_truthy _ then _ else _).
  assert (virtual_header sid ty header2) as Hh2.
  { assert (od_get "virtual_session_id" (norm_dict header) = Some (JStr sid)
      /\ od_get "message_type" (norm_dict header) = Some (JStr ty)) as [Hs' Ht'].
    { by rewrite !norm_dict_get, Hsid, Hty by (by apply dict_wf_od). }
    unfold header2. destruct (json_truthy _);
      [split; [|by rewrite od_get_set_ne..]|by split; [apply dict_wf_norm|..]].
    apply dict_wf_set; [by apply ascii_unicode| |by apply dict_wf_norm].
    unfold py_get. destruct (od_get "physical_session_id" (pe_header outer)) eqn:E; [|constructor].
    by apply (dict_wf_get _ _ _ Ho E). }
  assert (py_get header2 "message_type" = JStr ty) as ->
    by (unfold py_get; by rewrite (vh_ty _ _ _ Hh2)).
  cbn [mbind res_bind]. eexists. split; [reflexivity|]. split; [done|]. split; [done|]. split.
  - unfold read_virtual_session_id, read_header_string, py_get. cbn [pe_header].
    rewrite (vh_sid _ _ _ Hh2). cbn [default from_option id truthy_str].
    by rewrite (proj2 (str_truthy_spec sid) Hne).
  - split; [|done]. intros ps Hps Houter. cbn [pe_header]. unfold header2. rewrite Houter.
    cbn [json_truthy]. rewrite (proj2 (str_truthy_spec ps) Hps). unfold py_get.
    by rewrite od_get_set_eq.
Qed.

End packets.

(** ** The handshake, step by step *)

Section handshake.
Context `{FloatText} `{Entropy} `{KemLaws}.
Context (session_keepalive_seconds : Z).

Lemma sign_verify_virtual sid key k private_key public_key :
  signature_pair private_key public_key ->
  exists signature, _sign_virtual_session_init_ok sid key k private_key = Ok (bytes_to_hex signature) /\
    _verify_virtual_session_init_ok sid key k (bytes_to_hex signature) public_key = true.
Proof. exact (sign_verify sid key k private_key public_key). Qed.

(** The session an INIT gets: a new one between the two nodes, or the one there is. *)
Lemma create_inbound_virtual_run (s : Services) sid l i key route k :
  sm_wf (sv_session_manager s) ->
  exists n s', create_inbound_virtual sid l i key route k s = (Ok n, s') /\
    sm_wf (sv_session_manager s') /\ session_of s' sid = Some n /\ sv_entropy s' = sv_entropy s /\
    (forall old, session_of s sid = Some old -> n = old) /\
    (session_of s sid = None ->
       ns_remote_identity_id n = i /\ ns_local_identity_id n = l /\ ns_bound_route_id n = route).
Proof.
  intros Hwf. unfold create_inbound_virtual, create_inbound_virtual_session, session_of.
  destruct (get_session_by_session_id _ sid) as [old|] eqn:Hold.
  - eexists old, _. split; [reflexivity|]. cbn. split_and!; [done|done|done|congruence|done].
  - match goal with |- context [create_session _ _ ?d] => set (data := d) end.
    destruct (create_session_fresh (sv_session_manager s) (sv_now s) data Hwf Hold)
      as (n & sm & Hc & Hsm & Hn).
    rewrite Hc. eexists n, _. split; [reflexivity|]. split; [done|]. split; [exact Hn|].
    split; [done|]. split; [done|]. intros _.
    unfold create_session in Hc. change (ci_session_id data) with sid in Hc. rewrite Hold in Hc.
    by injection Hc as <- _.
Qed.

(** The session after INIT: the initiator's key, and an ephemeral key pair. *)
Definition after_init (now : instant) (key_i : string) (key_pair : string * string)
    (n : NetworkSession) : NetworkSession :=
  with_ephemeral now key_pair (n <| ns_remote_public_key := Some key_i |>).

Lemma set_key_run (s : Services) sid key :
  set_remote_public_key sid key s
  = (Ok tt, update_session s sid (fun n => n <| ns_remote_public_key := Some key |>)).
Proof. unfold set_remote_public_key. by erewrite st_bind_run by (eapply on_sessions_update; reflexivity). Qed.

Lemma upsert_peer_run (s : Services) id key source : exists db,
  upsert_peer id key source s = (Ok tt, s <| sv_database := db |>).
Proof. eexists. reflexivity. Qed.

Lemma virtual_init_run envelope context (s : Services) sid i key_i target local_node :
  read_virtual_session_id envelope = Some sid ->
  py_get (as_payload_dict envelope) "initiator_virtual_node_id" = JStr i ->
  py_get (as_payload_dict envelope) "initiator_virtual_node_public_key" = JStr key_i ->
  py_get (as_payload_dict envelope) "target_virtual_node_id" = JStr target ->
  sha512_hex key_i = i ->
  get_local_virtual_node_by_id (sv_database s) target = Some local_node ->
  signature_pair (lv_private_key_encrypted local_node) (lv_public_key local_node) ->
  sm_wf (sv_session_manager s) ->
  let k := read_positive_keepalive_interval (as_payload_dict envelope) session_keepalive_seconds in
  exists r s2 uuid n now signature session,
    _handle_virtual_session_init session_keepalive_seconds envelope context s = (Ok r, s2) /\
    reply_of r = JObj (virtual_envelope
      (build_response_header (uuid4 uuid) (pe_header envelope) "VIRTUAL_SESSION_INIT_OK" true)
      [("responder_virtual_node_public_key", JStr (lv_public_key local_node));
       ("responder_ephemeral_public_key", JStr (kyber_key_pair n).2);
       ("signature_hex", JStr (bytes_to_hex signature));
       ("keepalive_interval_seconds", JInt k)]) /\
    _verify_virtual_session_init_ok sid (kyber_key_pair n).2 k (bytes_to_hex signature)
      (lv_public_key local_node) = true /\
    sm_wf (sv_session_manager s2) /\
    session_of s2 sid = Some (after_init now key_i (kyber_key_pair n) session) /\
    (forall old, session_of s sid = Some old -> session = old) /\
    (session_of s sid = None ->
       ns_remote_identity_id session = i /\ ns_local_identity_id session = target /\
       ns_bound_route_id session = truthy_str (py_get (pc_metadata context) "route_path_id")).
Proof.
  intros Hsid Hi Hkey Ht Hhash Hln Hpair Hwf k. unfold _handle_virtual_session_init. cbv zeta.
  fold k. rewrite Hsid, Hi, Hkey, Ht, bool_decide_false by (rewrite Hhash; auto).
  erewrite st_bind_run by reflexivity. rewrite Hln.
  match goal with |- context [upsert_peer ?a ?b ?c] =>
    destruct (upsert_peer_run s a b c) as (db & Hup) end.
  rewrite (st_bind_run _ _ _ _ _ Hup). set (s1 := s <| sv_database := db |>).
  match goal with |- context [create_inbound_virtual sid ?l i ?key ?route k] =>
    destruct (create_inbound_virtual_run s1 sid l i key route k Hwf)
      as (session & s2 & Hc & Hwf2 & Hs2 & _ & Hold & Hnew) end.
  rewrite (st_bind_run _ _ _ _ _ Hc), (st_bind_run _ _ _ _ _ (set_key_run _ _ _)).
  match goal with |- context [update_session s2 sid ?g] => set (g1 := g) in *;
    assert (keeps_names g1) as Hg1 by (unfold g1; keeps_tac) end.
  set (s3 := update_session s2 sid g1).
  assert (session_of s3 sid = Some (g1 session)) as Hs3
    by (unfold s3; by rewrite session_of_update, Hs2 by done).
  assert (sm_wf (sv_session_manager s3)) as Hwf3 by (by apply update_wf).
  erewrite st_bind_run by reflexivity. run_update. set (n := sv_entropy s3).
  destruct (sign_verify_virtual sid (kyber_key_pair n).2 k _ _ Hpair) as (signature & Hsg & Hv).
  erewrite st_bind_run by (unfold lift; rewrite Hsg; reflexivity).
  eexists _, _, (S n), n, (sv_now s3), signature, session.
  split; [reflexivity|]. split; [reflexivity|]. split; [done|].
  pose (g2 := with_ephemeral (sv_now s3) (kyber_key_pair n)).
  assert (keeps_names g2) as Hg2 by (intros m; by destruct m).
  pose proof (session_of_update s3 sid g2 Hwf3) as Hs4. rewrite Hs3 in Hs4.
  cbn [fmap option_fmap option_map] in Hs4.
  split; [exact (update_wf _ _ _ Hg2 Hwf3)|]. split; [exact Hs4|]. split; [exact Hold|exact Hnew].
Qed.

(** INIT_OK signed by the key of the node the session names. *)
Lemma virtual_init_ok_run envelope context (s : Services) sid n signature_hex public_key session :
  read_virtual_session_id envelope = Some sid ->
  py_get (as_payload_dict envelope) "responder_virtual_node_public_key" = JStr public_key ->
  py_get (as_payload_dict envelope) "responder_ephemeral_public_key" = JStr (kyber_key_pair n).2 ->
  py_get (as_payload_dict envelope) "signature_hex" = JStr signature_hex ->
  session_of s sid = Some session -> sha512_hex public_key = ns_remote_identity_id session ->
  _verify_virtual_session_init_ok sid (kyber_key_pair n).2
    (read_positive_keepalive_interval (as_payload_dict envelope) session_keepalive_seconds)
    signature_hex public_key = true ->
  sm_wf (sv_session_manager s) ->
  exists r s2 uuid ciphertext secret session2,
    _handle_virtual_session_init_ok session_keepalive_seconds envelope context s = (Ok r, s2) /\
    reply_of r = JObj (virtual_envelope
      (build_response_header (uuid4 uuid) (pe_header envelope) "VIRTUAL_SESSION_KEY_CONFIRM" true)
      [("encapsulated_key_hex", JStr (bytes_to_hex ciphertext))]) /\
    openssl_decap ciphertext (kyber_key_pair n).1 = Ok secret /\
    String.length secret = AES_KEY_SIZE /\
    sm_wf (sv_session_manager s2) /\ session_of s2 sid = Some session2 /\
    ns_shared_secret_hex session2 = Some (bytes_to_hex secret) /\
    ns_remote_public_key session2 = Some public_key /\
    ns_remote_identity_id session2 = ns_remote_identity_id session.
Proof.
  intros Hsid Hpk Hkey Hsg Hs Hhash Hv Hwf. unfold _handle_virtual_session_init_ok. cbv zeta.
  rewrite Hsid, Hpk, Hkey, Hsg. erewrite st_bind_run by reflexivity.
  fold (session_of s sid). rewrite Hs, bool_decide_false by (rewrite Hhash; auto).
  rewrite (st_bind_run _ _ _ _ _ (set_key_run _ _ _)).
  match goal with |- context [update_session s sid ?g] => set (g1 := g) in *;
    assert (keeps_names g1) as Hg1 by (unfold g1; keeps_tac) end.
  match goal with |- context [upsert_peer ?a ?b ?c] =>
    destruct (upsert_peer_run (update_session s sid g1) a b c) as (db & Hup) end.
  rewrite (st_bind_run _ _ _ _ _ Hup), Hv. cbn [negb].
  set (s3 := update_session s sid g1 <| sv_database := db |>).
  assert (session_of s3 sid = Some (g1 session)) as Hs3
    by (change (session_of s3 sid) with (session_of (update_session s sid g1) sid);
        by rewrite session_of_update, Hs by done).
  assert (sm_wf (sv_session_manager s3)) as Hwf3 by exact (update_wf s sid g1 Hg1 Hwf).
  run_update. run_update.
  destruct (kem_correct n) as (ciphertext & secret & He & Hd & _ & Hlen).
  erewrite st_bind_run by (unfold lift, kyber_encapsulate_hex; rewrite He; reflexivity).
  run_update. eexists _, _, _, ciphertext, secret, _.
  split; [reflexivity|]. split; [reflexivity|]. split; [done|]. split; [done|].
  match goal with |- context [update_session s3 sid ?g] => set (g0 := g) end.
  assert (keeps_names g0) as Hg by (unfold g0; keeps_tac).
  pose proof (session_of_update s3 sid g0 Hwf3) as Hs2. rewrite Hs3 in Hs2.
  cbn [fmap option_fmap option_map] in Hs2.
  split; [exact (update_wf _ _ _ Hg Hwf3)|]. split; [exact Hs2|]. by split_and!.
Qed.

(** KEY_CONFIRM activates the session under the secret it carries. *)
Lemma virtual_key_confirm_run envelope context (s : Services) sid private_key ciphertext secret
    session :
  read_virtual_session_id envelope = Some sid ->
  py_get (as_payload_dict envelope) "encapsulated_key_hex" = JStr (bytes_to_hex ciphertext) ->
  session_of s sid = Some session ->
  ns_local_ephemeral_private_key session = Some private_key -> private_key <> "" ->
  openssl_decap ciphertext private_key = Ok secret ->
  sm_wf (sv_session_manager s) ->
  exists r s2 uuid session2,
    _handle_virtual_session_key_confirm envelope context s = (Ok r, s2) /\
    reply_of r = JObj (virtual_envelope
      (build_response_header (uuid4 uuid) (pe_header envelope) "VIRTUAL_SESSION_READY" true)
      [("status", JStr "active");
       ("keepalive_interval_seconds", JInt (ns_keepalive_interval_seconds session))]) /\
    sm_wf (sv_session_manager s2) /\ session_of s2 sid = Some session2 /\
    ns_session_state session2 = "active" /\
    ns_shared_secret_hex session2 = Some (bytes_to_hex secret) /\
    ns_remote_public_key session2 = ns_remote_public_key session /\
    ns_remote_identity_id session2 = ns_remote_identity_id session /\
    ns_local_identity_id session2 = ns_local_identity_id session /\
    ns_session_scope session2 = ns_session_scope session.
Proof.
  intros Hsid Hct Hs Hkey Hne Hd Hwf. unfold _handle_virtual_session_key_confirm. cbv zeta.
  rewrite Hsid, Hct. erewrite st_bind_run by reflexivity.
  fold (session_of s sid). rewrite Hs. cbn [mbind option_bind]. rewrite Hkey. cbn [nonempty_column].
  rewrite (proj2 (str_truthy_spec _) Hne). cbn [fmap option_fmap option_map].
  erewrite st_bind_run by (unfold lift, kyber_decapsulate_hex, hex_to_bytes, bytes_to_hex;
    rewrite fromhex_bytes_hex; cbn [mbind res_bind]; rewrite Hd; reflexivity).
  run_update. run_update. eexists _, _, _, _.
  split; [reflexivity|]. split; [reflexivity|].
  match goal with |- context [update_session s sid ?g] => set (g0 := g) end.
  assert (keeps_names g0) as Hg by (unfold g0; keeps_tac).
  pose proof (session_of_update s sid g0 Hwf) as Hs2. rewrite Hs in Hs2.
  cbn [fmap option_fmap option_map] in Hs2.
  split; [exact (update_wf _ _ _ Hg Hwf)|]. split; [exact Hs2|]. by split_and!.
Qed.

(** READY activates the session under the secret it holds. *)
Lemma virtual_ready_run envelope context (s : Services) sid session secret :
  read_virtual_session_id envelope = Some sid ->
  session_of s sid = Some session ->
  ns_shared_secret_hex session = Some secret -> secret <> "" ->
  sm_wf (sv_session_manager s) ->
  exists r s2 session2,
    _handle_virtual_session_ready session_keepalive_seconds envelope context s = (Ok r, s2) /\
    sm_wf (sv_session_manager s2) /\ session_of s2 sid = Some session2 /\
    ns_session_state session2 = "active" /\ ns_shared_secret_hex session2 = Some secret /\
    ns_remote_public_key session2 = ns_remote_public_key session /\
    ns_remote_identity_id session2 = ns_remote_identity_id session.
Proof.
  intros Hsid Hs Hkey Hne Hwf. unfold _handle_virtual_session_ready. cbv zeta.
  rewrite Hsid. erewrite st_bind_run by reflexivity.
  fold (session_of s sid). rewrite Hs. cbn [mbind option_bind]. rewrite Hkey. cbn [nonempty_column].
  rewrite (proj2 (str_truthy_spec _) Hne). run_update. run_update.
  eexists _, _, _. split; [reflexivity|].
  match goal with |- context [update_session s sid ?g] => set (g0 := g) end.
  assert (keeps_names g0) as Hg by (unfold g0; keeps_tac).
  pose proof (session_of_update s sid g0 Hwf) as Hs2. rewrite Hs in Hs2.
  cbn [fmap option_fmap option_map] in Hs2.
  split; [exact (update_wf _ _ _ Hg Hwf)|]. split; [exact Hs2|]. by split_and!.
Qed.
End handshake.

(** ** Claims *)

Section claims.
Context `{FloatText} `{UuidLaws} `{KemLaws}.

(** A virtual message on arrival is handled with its session, its type and its payload. *)
Lemma arrive_run {sid ty header payload} (s : Services) k process outer rd context :
  virtual_header sid ty header -> dict_wf payload -> sid <> "" -> dict_wf (pe_header outer) ->
  exists envelope,
    arrive k process outer rd context (virtual_envelope header payload) s
      = handle k process envelope context s /\
    pe_message_type envelope = Some ty /\ virtual_header sid ty (pe_header envelope) /\
    read_virtual_session_id envelope = Some sid /\
    (forall ps, ps <> "" -> py_get (pe_header outer) "physical_session_id" = JStr ps ->
       py_get (pe_header envelope) "physical_session_id" = JStr ps) /\
    (forall key, py_get (as_payload_dict envelope) key = json_norm (py_get payload key)).
Proof.
  intros Hh Hp Hne Ho.
  destruct (open_envelope outer rd sid ty header payload Hh Hp Hne Ho) as (e & He & Ht & Hh' & Hs & Hps & Hg).
  exists e. split; [unfold arrive; rewrite He; by erewrite st_bind_run by reflexivity|].
  split; [done|]. split; [done|]. split; [done|]. split; [done|]. intros key. by rewrite Hg, py_get_norm.
Qed.

Lemma secret_nonempty secret : String.length secret = AES_KEY_SIZE -> secret <> "".
Proof. by intros Hl ->. Qed.

(** The payload of INIT. *)
Definition init_payload (i key_i target : string) (k : Z) : jdict :=
  [("initiator_virtual_node_id", JStr i); ("initiator_virtual_node_public_key", JStr key_i);
   ("target_virtual_node_id", JStr target); ("keepalive_interval_seconds", JInt k)].

(** INIT on arrival. *)
Lemma arrive_init {header sid i key_i target k} (s : Services) k0 process local_node outer rd context :
  virtual_header sid "VIRTUAL_SESSION_INIT" header -> sid <> "" -> 0 < k ->
  unicode key_i -> sha512_hex key_i = i -> unicode target ->
  sm_wf (sv_session_manager s) ->
  get_local_virtual_node_by_id (sv_database s) target = Some local_node ->
  signature_pair (lv_private_key_encrypted local_node) (lv_public_key local_node) ->
  dict_wf (pe_header outer) ->
  exists r s1 header2 n signature now session,
    arrive k0 process outer rd context
      (virtual_envelope header (init_payload i key_i target k)) s = (Ok r, s1) /\
    virtual_header sid "VIRTUAL_SESSION_INIT_OK" header2 /\
    reply_of r = JObj (virtual_envelope header2
      [("responder_virtual_node_public_key", JStr (lv_public_key local_node));
       ("responder_ephemeral_public_key", JStr (kyber_key_pair n).2);
       ("signature_hex", JStr (bytes_to_hex signature)); ("keepalive_interval_seconds", JInt k)]) /\
    _verify_virtual_session_init_ok sid (kyber_key_pair n).2 k (bytes_to_hex signature)
      (lv_public_key local_node) = true /\
    sm_wf (sv_session_manager s1) /\
    session_of s1 sid = Some (after_init now key_i (kyber_key_pair n) session) /\
    (forall old, session_of s sid = Some old -> session = old) /\
    (session_of s sid = None ->
       ns_remote_identity_id session = i /\ ns_local_identity_id session = target /\
       ns_bound_route_id session = truthy_str (py_get (pc_metadata context) "route_path_id")).
Proof.
  intros Hh Hsid Hk Hkey Hi Htar Hwf Hln Hpair Ho.
  assert (dict_wf (init_payload i key_i target k)) as Hp.
  { unfold init_payload. assert (unicode i) by (subst i; apply sha512_unicode). json_wf_tac. }
  destruct (arrive_run s k0 process outer rd context Hh Hp Hsid Ho) as (e & Hr & Ht & Hh1 & Hs & _ & Hg).
  assert (read_positive_keepalive_interval (as_payload_dict e) k0 = k) as Hk1
    by (apply keepalive_read; [rewrite Hg; reflexivity|done]).
  destruct (virtual_init_run k0 e context s sid i key_i target local_node) as
    (r & s1 & u & n & now & signature & session & Hrun & Hm & Hv & Hwf1 & Hs1 & Hold & Hnew);
    [done|rewrite Hg; reflexivity..|done|done|done|done|]. rewrite Hk1 in Hm, Hv.
  exists r, s1, (build_response_header (uuid4 u) (pe_header e) "VIRTUAL_SESSION_INIT_OK" true).
  exists n, signature, now, session. rewrite Hr. unfold handle. rewrite Ht.
  cbv beta iota. split; [exact Hrun|]. split; [|by split_and!].
  by eapply virtual_response_header; [apply uuid4_ascii|reflexivity|exact Hh1].
Qed.

(** KEY_CONFIRM on arrival. *)
Lemma arrive_key_confirm {header sid ciphertext private_key secret session} (s : Services) k0 process
    outer rd context :
  virtual_header sid "VIRTUAL_SESSION_KEY_CONFIRM" header -> sid <> "" ->
  session_of s sid = Some session ->
  ns_local_ephemeral_private_key session = Some private_key -> private_key <> "" ->
  openssl_decap ciphertext private_key = Ok secret -> secret <> "" ->
  sm_wf (sv_session_manager s) -> dict_wf (pe_header outer) ->
  exists r s1 header2 session2,
    arrive k0 process outer rd context
      (virtual_envelope header [("encapsulated_key_hex", JStr (bytes_to_hex ciphertext))]) s
      = (Ok r, s1) /\
    virtual_header sid "VIRTUAL_SESSION_READY" header2 /\
    reply_of r = JObj (virtual_envelope header2
      [("status", JStr "active");
       ("keepalive_interval_seconds", JInt (ns_keepalive_interval_seconds session))]) /\
    session_secret s1 sid = Some (bytes_to_hex secret) /\ session_of s1 sid = Some session2 /\
    ns_remote_public_key session2 = ns_remote_public_key session /\
    ns_remote_identity_id session2 = ns_remote_identity_id session /\
    ns_local_identity_id session2 = ns_local_identity_id session /\
    ns_session_scope session2 = ns_session_scope session.
Proof.
  intros Hh Hsid Hs Hkey Hne Hd Hsec Hwf Ho.
  assert (dict_wf [("encapsulated_key_hex", JStr (bytes_to_hex ciphertext))]) as Hp
    by (json_wf_tac; apply hex_unicode).
  destruct (arrive_run s k0 process outer rd context Hh Hp Hsid Ho) as (e & Hr & Ht & Hh1 & Hs1 & _ & Hg).
  destruct (virtual_key_confirm_run e context s sid private_key ciphertext secret session) as
    (r & s1 & u & session2 & Hrun & Hm & _ & Hs2 & Hact & Hk & Hrest);
    [done|rewrite Hg; reflexivity|done..|].
  exists r, s1, (build_response_header (uuid4 u) (pe_header e) "VIRTUAL_SESSION_READY" true).
  exists session2. rewrite Hr. unfold handle. rewrite Ht. cbv beta iota.
  split; [exact Hrun|]. split; [|split; [exact Hm|split; [by eapply active_session_secret|done]]].
  by eapply virtual_response_header; [apply uuid4_ascii|reflexivity|exact Hh1].
Qed.

(** C4: the handshake of two virtual nodes. The initiator [a] has a session that
    names the virtual node [target] by the hash of its key, the responder [b] has
    its private key, and no matter which sessions. When each node opens what the
    other answered, over whatever packets of whatever route, INIT is answered by
    INIT_OK, INIT_OK by KEY_CONFIRM and KEY_CONFIRM by READY; then the session is
    active on both sides under one secret of 32 bytes, the initiator holds the
    public key of the node it named and the responder the one the initiator proved
    to own the id of; a session that is new to the responder is one between these
    two nodes. *)
Theorem virtual_handshake (a b : Services) (ka kb : Z) process_a process_b (header : jdict)
    (sid i key_i target : string) (k : Z) (node : LocalVirtualNodeIdentity)
    (session : NetworkSession) :
  virtual_header sid "VIRTUAL_SESSION_INIT" header -> sid <> "" -> 0 < k ->
  unicode key_i -> sha512_hex key_i = i -> unicode target ->
  sm_wf (sv_session_manager a) -> sm_wf (sv_session_manager b) ->
  session_of a sid = Some session ->
  sha512_hex (lv_public_key node) = ns_remote_identity_id session ->
  get_local_virtual_node_by_id (sv_database b) target = Some node ->
  unicode (lv_public_key node) ->
  signature_pair (lv_private_key_encrypted node) (lv_public_key node) ->
  forall o1 d1 c1, dict_wf (pe_header o1) ->
  exists r1 b1 init_ok, arrive kb process_b o1 d1 c1
      (virtual_envelope header (init_payload i key_i target k)) b = (Ok r1, b1) /\
    reply_of r1 = JObj init_ok /\
  forall o2 d2 c2, dict_wf (pe_header o2) ->
  exists r2 a1 key_confirm, arrive ka process_a o2 d2 c2 init_ok a = (Ok r2, a1) /\
    reply_of r2 = JObj key_confirm /\
  forall o3 d3 c3, dict_wf (pe_header o3) ->
  exists r3 b2 ready, arrive kb process_b o3 d3 c3 key_confirm b1 = (Ok r3, b2) /\
    reply_of r3 = JObj ready /\
  forall o4 d4 c4, dict_wf (pe_header o4) ->
  exists r4 a2 key sa sb, arrive ka process_a o4 d4 c4 ready a1 = (Ok r4, a2) /\
    hex_of AES_KEY_SIZE key /\ session_secret a2 sid = Some key /\ session_secret b2 sid = Some key /\
    session_of a2 sid = Some sa /\ ns_remote_public_key sa = Some (lv_public_key node) /\
    session_of b2 sid = Some sb /\ ns_remote_public_key sb = Some key_i /\
    (session_of b sid = None ->
       ns_remote_identity_id sb = i /\ ns_local_identity_id sb = target).
Proof.
  intros Hh Hsid Hk Hkey Hi Htar Hwa Hwb Hsa Hpeer Hln Hpk Hpair o1 d1 c1 Ho1.
  destruct (arrive_init b kb process_b node o1 d1 c1 Hh Hsid Hk Hkey Hi Htar Hwb Hln Hpair Ho1) as
    (r1 & b1 & h2 & n & sg & now & sb0 & Hr1 & Hh2 & Hm1 & Hv & Hwb1 & Hsb1 & _ & Hnew).
  exists r1, b1. eexists. split; [exact Hr1|]. split; [exact Hm1|]. intros o2 d2 c2 Ho2.
  (* INIT_OK *)
  match type of Hm1 with _ = JObj (virtual_envelope _ ?p) => assert (dict_wf p) as Hp2
    by (json_wf_tac; first [apply key_unicode|apply hex_unicode]) end.
  destruct (arrive_run a ka process_a o2 d2 c2 Hh2 Hp2 Hsid Ho2) as (e2 & Hr2 & Ht2 & He2 & Hs2 & _ & Hg2).
  assert (read_positive_keepalive_interval (as_payload_dict e2) ka = k) as Hk2
    by (apply keepalive_read; [rewrite Hg2; reflexivity|done]).
  destruct (virtual_init_ok_run ka e2 c2 a sid n (bytes_to_hex sg) (lv_public_key node) session) as
    (r2 & a1 & u2 & ct & secret & sa & Hrun2 & Hm2 & Hdec & Hlen & Hwa1 & Hsa1 & Hka & Hpka & _);
    [done|rewrite Hg2; reflexivity..|done|done|by rewrite Hk2|done|].
  exists r2, a1. eexists. split; [rewrite Hr2; unfold handle; rewrite Ht2; exact Hrun2|].
  split; [exact Hm2|]. intros o3 d3 c3 Ho3.
  (* KEY_CONFIRM *)
  pose proof (virtual_response_header _ _ _ _ "VIRTUAL_SESSION_KEY_CONFIRM" (uuid4_ascii u2) eq_refl He2)
    as Hh3.
  pose proof (secret_nonempty _ Hlen) as Hsec.
  destruct (arrive_key_confirm b1 kb process_b o3 d3 c3 Hh3 Hsid Hsb1 eq_refl
    (proj1 (proj2 (kem_pem n))) Hdec Hsec Hwb1 Ho3) as
    (r3 & b2 & h4 & sb & Hr3 & Hh4 & Hm3 & Hact & Hsb2 & Hpkb & Hidb & Hlb & _).
  exists r3, b2. eexists. split; [exact Hr3|]. split; [exact Hm3|]. intros o4 d4 c4 Ho4.
  (* READY *)
  match type of Hm3 with _ = JObj (virtual_envelope _ ?p) => assert (dict_wf p) as Hp4
    by json_wf_tac end.
  destruct (arrive_run a1 ka process_a o4 d4 c4 Hh4 Hp4 Hsid Ho4) as (e4 & Hr4 & Ht4 & _ & Hs4 & _ & _).
  destruct (virtual_ready_run ka e4 c4 a1 sid sa (bytes_to_hex secret)) as
    (r4 & a2 & sa2 & Hrun4 & _ & Hsa2 & Hacta & Hka2 & Hpka2 & _);
    [done|done|done|by apply str_truthy_spec, hex_text_truthy|done|].
  exists r4, a2, (bytes_to_hex secret), sa2, sb.
  split; [rewrite Hr4; unfold handle; rewrite Ht4; exact Hrun4|].
  split; [by exists secret|]. split; [by eapply active_session_secret|]. split; [done|].
  split; [done|]. split; [congruence|]. split; [done|]. split; [by rewrite Hpkb|].
  intros Hnone. destruct (Hnew Hnone) as (Hri & Hli & _). by rewrite Hidb, Hlb.
Qed.

(** C6: INIT is accepted for any session id in use, a virtual one or the id of a
    physical session, and nothing in it is tied to the peer of that session: whoever
    knows the id and owns some virtual key sends INIT and KEY_CONFIRM to a virtual
    node of the responder, and the session it did not open is active under the secret
    it chose and its public key, while scope and identity go on to name the old peer. *)
Theorem virtual_init_takes_session (b : Services) (kb : Z) process (header header3 : jdict)
    (sid i key_i target : string) (k : Z) (node : LocalVirtualNodeIdentity) (old : NetworkSession) :
  virtual_header sid "VIRTUAL_SESSION_INIT" header -> sid <> "" -> 0 < k ->
  unicode key_i -> sha512_hex key_i = i -> unicode target ->
  sm_wf (sv_session_manager b) -> session_of b sid = Some old ->
  get_local_virtual_node_by_id (sv_database b) target = Some node ->
  signature_pair (lv_private_key_encrypted node) (lv_public_key node) ->
  virtual_header sid "VIRTUAL_SESSION_KEY_CONFIRM" header3 ->
  forall o1 d1 c1, dict_wf (pe_header o1) ->
  exists r1 b1 n, arrive kb process o1 d1 c1
      (virtual_envelope header (init_payload i key_i target k)) b = (Ok r1, b1) /\
  forall ciphertext secret, openssl_decap ciphertext (kyber_key_pair n).1 = Ok secret ->
    secret <> "" ->
  forall o2 d2 c2, dict_wf (pe_header o2) ->
  exists r2 b2 new, arrive kb process o2 d2 c2
      (virtual_envelope header3 [("encapsulated_key_hex", JStr (bytes_to_hex ciphertext))]) b1
      = (Ok r2, b2) /\
    session_secret b2 sid = Some (bytes_to_hex secret) /\
    session_of b2 sid = Some new /\ ns_remote_public_key new = Some key_i /\
    ns_session_scope new = ns_session_scope old /\
    ns_remote_identity_id new = ns_remote_identity_id old.
Proof.
  intros Hh Hsid Hk Hkey Hi Htar Hwb Hold Hln Hpair Hh3 o1 d1 c1 Ho1.
  destruct (arrive_init b kb process node o1 d1 c1 Hh Hsid Hk Hkey Hi Htar Hwb Hln Hpair Ho1) as
    (r1 & b1 & h2 & n & sg & now & sb0 & Hr1 & _ & _ & _ & Hwb1 & Hsb1 & Hsame & _).
  exists r1, b1, n. split; [exact Hr1|]. intros ct secret Hdec Hsec o2 d2 c2 Ho2.
  destruct (arrive_key_confirm b1 kb process o2 d2 c2 Hh3 Hsid Hsb1 eq_refl
    (proj1 (proj2 (kem_pem n))) Hdec Hsec Hwb1 Ho2) as
    (r2 & b2 & _ & sb & Hr2 & _ & _ & Hact & Hsb2 & Hpkb & Hidb & _ & Hscope).
  exists r2, b2, sb. split; [exact Hr2|]. split; [done|]. split; [done|].
  rewrite Hpkb, Hscope, Hidb, (Hsame old Hold). by split_and!.
Qed.
End claims.

(** ** Witnesses *)

#[local] Existing Instance Engine.demo_entropy.
#[local] Existing Instance PhysicalSession.demo_float.
#[local] Existing Instance PhysicalSession.demo_uuid_laws.
#[local] Existing Instance PhysicalSession.demo_openssl.
#[local] Existing Instance PhysicalSession.demo_key_gen.
#[local] Existing Instance PhysicalSession.demo_kem_laws.

Definition demo_virtual_node : LocalVirtualNodeIdentity :=
  MkLocalVirtualNode (sha512_hex "pk-b") "pk-b" "sk-b" "default" "pn-b" None true None 0.

Definition demo_virtual_database : Database :=
  MkDatabase [PhysicalSession.demo_local_node] [demo_virtual_node] [] [] [] [] [].

Definition demo_virtual_data : SessionCreateInput :=
  with_algorithms (session_input "vs-1" "virtual" "virtual_node" (sha512_hex "pk-a")
    "virtual_node" (sha512_hex "pk-b") "outbound" "initiator" "init_sent" "pending")
  <| ci_remote_public_key := None |> <| ci_bound_route_id := Some "path-1" |>
  <| ci_keepalive_interval_seconds := 20 |>
  <| ci_keepalive_deadline := Some (_build_keepalive_deadline 1000 20) |>.

Definition demo_virtual_session : NetworkSession := session_of_input 1 1000 demo_virtual_data.

Definition demo_virtual_manager : SessionManager :=
  match create_outbound_virtual_session new_session_manager "vs-1" 1000 (sha512_hex "pk-a")
          (sha512_hex "pk-b") None (Some "path-1") 20 with
  | Ok (_, sm) => sm
  | Raise _ => new_session_manager
  end.

Lemma demo_virtual_wf : sm_wf demo_virtual_manager.
Proof.
  refine (create_session_wf new_session_manager new_session_manager_wf 1000 demo_virtual_data
    demo_virtual_session demo_virtual_manager _).
  reflexivity.
Qed.

Definition demo_virtual_header (sid ty : string) : jdict :=
  [("version", JInt 1); ("message_type", JStr ty); ("virtual_session_id", JStr sid)].

Lemma demo_header_virtual sid ty :
  unicode sid -> unicode ty -> virtual_header sid ty (demo_virtual_header sid ty).
Proof. intros Hs Ht. split; [unfold demo_virtual_header; json_wf_tac|reflexivity..]. Qed.

Definition demo_outer : ProtocolEnvelope :=
  MkEnvelope "json" (Some "ROUTE_DATA") (JObj []) "" [("physical_session_id", JStr "ps-1")].

Lemma demo_outer_wf : dict_wf (pe_header demo_outer).
Proof. unfold demo_outer. cbn. json_wf_tac. Qed.

Definition demo_route_data : RouteExecuteData := MkRouteData "path-1" "vn_to_pn" (Some "vs-1") false JNull.

Lemma virtual_handshake_witness :
  exists r1 b1 init_ok r2 a1 key_confirm,
    arrive 20 PhysicalSession.demo_process demo_outer demo_route_data (PhysicalSession.demo_context "")
      (virtual_envelope (demo_virtual_header "vs-1" "VIRTUAL_SESSION_INIT")
         (init_payload (sha512_hex "pk-a") "pk-a" (sha512_hex "pk-b") 20))
      (PhysicalSession.demo_services new_session_manager demo_virtual_database) = (Ok r1, b1) /\
    reply_of r1 = JObj init_ok /\
    arrive 20 PhysicalSession.demo_process demo_outer demo_route_data (PhysicalSession.demo_context "") init_ok
      (PhysicalSession.demo_services demo_virtual_manager empty_database) = (Ok r2, a1) /\
    reply_of r2 = JObj key_confirm.
Proof.
  destruct (virtual_handshake (PhysicalSession.demo_services demo_virtual_manager empty_database)
    (PhysicalSession.demo_services new_session_manager demo_virtual_database) 20 20 PhysicalSession.demo_process PhysicalSession.demo_process
    (demo_virtual_header "vs-1" "VIRTUAL_SESSION_INIT") "vs-1" (sha512_hex "pk-a") "pk-a"
    (sha512_hex "pk-b") 20 demo_virtual_node demo_virtual_session) with
    (o1 := demo_outer) (d1 := demo_route_data) (c1 := PhysicalSession.demo_context "")
    as (r1 & b1 & m1 & Hr1 & Hm1 & H2).
  - apply demo_header_virtual; apply ascii_unicode; reflexivity.
  - discriminate.
  - lia.
  - apply ascii_unicode. reflexivity.
  - reflexivity.
  - apply sha512_unicode.
  - exact demo_virtual_wf.
  - exact new_session_manager_wf.
  - vm_compute. reflexivity.
  - reflexivity.
  - vm_compute. reflexivity.
  - apply ascii_unicode. reflexivity.
  - exact PhysicalSession.demo_signature_pair.
  - exact demo_outer_wf.
  - destruct (H2 demo_outer demo_route_data (PhysicalSession.demo_context "") demo_outer_wf)
      as (r2 & a1 & m2 & Hr2 & Hm2 & _).
    exists r1, b1, m1, r2, a1, m2. split; [exact Hr1|]. split; [exact Hm1|]. split; [exact Hr2|exact Hm2].
Defined.

(** The session taken is a physical one. *)
Lemma virtual_init_takes_session_witness :
  exists r1 b1 r2 b2 new,
    arrive 20 PhysicalSession.demo_process demo_outer demo_route_data (PhysicalSession.demo_context "")
      (virtual_envelope (demo_virtual_header "sid-1" "VIRTUAL_SESSION_INIT")
         (init_payload (sha512_hex "pk-x") "pk-x" (sha512_hex "pk-b") 20))
      (PhysicalSession.demo_services PhysicalSession.demo_initiator_manager demo_virtual_database) = (Ok r1, b1) /\
    arrive 20 PhysicalSession.demo_process demo_outer demo_route_data (PhysicalSession.demo_context "")
      (virtual_envelope (demo_virtual_header "sid-1" "VIRTUAL_SESSION_KEY_CONFIRM")
         [("encapsulated_key_hex", JStr (bytes_to_hex "cepk"))]) b1 = (Ok r2, b2) /\
    session_secret b2 "sid-1" = Some (bytes_to_hex "0123456789abcdef0123456789abcdef") /\
    session_of b2 "sid-1" = Some new /\ ns_session_scope new = "physical" /\
    ns_remote_identity_id new = "pn-b".
Proof.
  destruct (virtual_init_takes_session (PhysicalSession.demo_services PhysicalSession.demo_initiator_manager demo_virtual_database)
    20 PhysicalSession.demo_process (demo_virtual_header "sid-1" "VIRTUAL_SESSION_INIT")
    (demo_virtual_header "sid-1" "VIRTUAL_SESSION_KEY_CONFIRM") "sid-1" (sha512_hex "pk-x") "pk-x"
    (sha512_hex "pk-b") 20 demo_virtual_node PhysicalSession.demo_init_session) with
    (o1 := demo_outer) (d1 := demo_route_data) (c1 := PhysicalSession.demo_context "")
    as (r1 & b1 & n & Hr1 & H2).
  - apply demo_header_virtual; apply ascii_unicode; reflexivity.
  - discriminate.
  - lia.
  - apply ascii_unicode. reflexivity.
  - reflexivity.
  - apply sha512_unicode.
  - exact PhysicalSession.demo_initiator_wf.
  - vm_compute. reflexivity.
  - vm_compute. reflexivity.
  - exact PhysicalSession.demo_signature_pair.
  - apply demo_header_virtual; apply ascii_unicode; reflexivity.
  - exact demo_outer_wf.
  - destruct (H2 "cepk" "0123456789abcdef0123456789abcdef" eq_refl ltac:(discriminate)
      demo_outer demo_route_data (PhysicalSession.demo_context "") demo_outer_wf)
      as (r2 & b2 & new & Hr2 & Hsec & Hs & _ & Hscope & Hid).
    exists r1, b1, r2, b2, new. split; [exact Hr1|]. split; [exact Hr2|]. split; [exact Hsec|].
    split; [exact Hs|]. split; [exact Hscope|exact Hid].
Defined.
