(* ===== verification/VirtualMessage.v ===== *)
(** * Application messages over a virtual session

    Models [src/app/core/protocols/virtual/message.py], the handler of
    VIRTUAL_SESSION_DATA: the message of a virtual session is handed to the
    application handler registered for its type, whose reply travels back.

    [virtual_message_exchange] composes it with the reliable delivery of
    [VirtualSession] and the session policy of [Engine]. *)

From S2P Require Import Prelude PyJson PyTime Sha512 Crypto JsonText Transport Reliable.
From S2P Require Import Sessions Identity RouteService Core Registry Engine PhysicalSession RouteExecute.
From S2P Require Import VirtualSession.

Section handler.
Context `{FloatText} `{Entropy}.

Definition protocol_family : string := "virtual_message".

Definition invalid (envelope : ProtocolEnvelope) (reason : string) : PacketProcessingResult :=
  build_invalid_result protocol_family envelope reason.

Definition _read_optional_string (value : json) : option string := truthy_str value.

Definition _build_response_header (request_header : jdict) : st Services jdict :=
  uuid ← new_uuid; mret (build_response_header uuid request_header "VIRTUAL_SESSION_DATA" true).

(** [payload.get("payload")], where [None] is the empty object. *)
Definition read_app_payload (payload : jdict) : option jdict :=
  match py_get payload "payload" with
  | JNull => Some []
  | JObj app_payload => Some app_payload
  | _ => None
  end.

Definition read_request_id (payload : jdict) : option (option string) :=
  match py_get payload "request_id" with
  | JNull => Some None
  | JStr request_id => Some (Some request_id)
  | _ => None
  end.

Definition app_content (app_message_type : string) (request_id : option string) (payload : json)
    : jdict :=
  [("app_message_type", JStr app_message_type); ("request_id", opt_json JStr request_id);
   ("payload", payload)].

(** The entries a reply adds to the metadata of the result. *)
Definition reply_metadata (envelope : ProtocolEnvelope) (reply : handler_result) : st Services jdict :=
  match reply with
  | VirtualSessionMessageReply app_message_type payload request_id =>
      header ← _build_response_header (pe_header envelope);
      mret [("action", JStr "virtual_message_reply");
            ("virtual_response_envelope",
               JObj [("header", JObj header);
                     ("payload", JObj (app_content app_message_type request_id payload))])]
  | _ => mret []
  end.

Definition deliver_message (envelope : ProtocolEnvelope) (message : VirtualSessionMessage)
    : st Services PacketProcessingResult :=
  sm ← gets sv_session_manager;
  reply ← lift (handle_virtual_message sm message);
  touch (vm_session_id message);;
  has_handler ← gets (fun s =>
    has_virtual_message_handler (sv_session_manager s) (vm_app_message_type message));
  more ← reply_metadata envelope reply;
  mret (MkResult (pe_protocol_name envelope) true (pe_message_type envelope) None
    (Relay.dict_merge
       [("protocol_family", JStr protocol_family); ("action", JStr "virtual_message_delivered");
        ("session_id", JStr (vm_session_id message));
        ("app_message_type", JStr (vm_app_message_type message));
        ("request_id", opt_json JStr (vm_request_id message)); ("has_handler", JBool has_handler)]
       more) None).

Definition handle (envelope : ProtocolEnvelope) (context : PacketContext)
    : st Services PacketProcessingResult :=
  let payload := as_payload_dict envelope in
  match read_virtual_session_id envelope with
  | None => mret (invalid envelope "virtual_session_id_required")
  | Some session_id =>
      match truthy_str (py_get payload "app_message_type") with
      | None => mret (invalid envelope "app_message_type_required")
      | Some app_message_type =>
          match read_app_payload payload with
          | None => mret (invalid envelope "payload_must_be_object")
          | Some app_payload =>
              match read_request_id payload with
              | None => mret (invalid envelope "request_id_must_be_string")
              | Some request_id =>
                  session ← find_session session_id;
                  match session with
                  | None => mret (invalid envelope "virtual_session_not_found")
                  | Some session =>
                      if bool_decide (ns_session_scope session <> "virtual")
                      then mret (invalid envelope "virtual_session_not_found")
                      else if bool_decide (ns_session_state session <> "active")
                      then mret (invalid envelope "virtual_session_not_active")
                      else
                        deliver_message envelope
                          (MkVirtualSessionMessage session_id (ns_local_identity_id session)
                             (ns_remote_identity_id session) app_message_type app_payload
                             (_read_optional_string (py_get (pc_metadata context) "route_path_id"))
                             request_id)
                  end
              end
          end
      end
  end.
End handler.

(** ** Delivery of the next message of a session *)

Section delivery.
Context `{FloatText}.

(** The next message of a session, received in order with nothing buffered behind it,
    is delivered alone. *)
Lemma receive_next st now now_ack payload m :
  parse_reliable_payload now payload = Ok m ->
  pyint_val (im_sequence_number m) = rs_next_expected_inbound_sequence st ->
  im_reliable_message_id m ∉ rs_delivered_message_ids st ->
  rs_inbound_buffer_by_sequence st !! (rs_next_expected_inbound_sequence st + 1) = None ->
  exists st', receive_reliable_payload st now now_ack payload =
    Ok (MkReceiveResult (ack_payload_for m now_ack) [m] false false, st').
Proof.
  intros Hp Hseq Hid Hbuf. unfold receive_reliable_payload. rewrite Hp. cbn [mbind res_bind].
  rewrite bool_decide_false by done. rewrite Hseq, !Z.ltb_irrefl.
  set (next := rs_next_expected_inbound_sequence st) in *.
  set (buf := <[next:=m]> (rs_inbound_buffer_by_sequence st)).
  assert (is_Some (buf !! next)) as Hin by (unfold buf; rewrite lookup_insert_eq; eauto).
  destruct (size buf) as [|n] eqn:Hsize.
  { apply map_size_empty_inv in Hsize. rewrite Hsize, lookup_empty in Hin. by destruct Hin. }
  cbn [drain]. unfold buf. rewrite lookup_insert_eq, decide_False by done.
  rewrite lookup_delete_ne, lookup_insert_ne, Hbuf by lia. by eexists.
Qed.

(** What arrives of an outbound message: its content with the keys in order. *)
Definition received_message (m : ReliableOutboundMessage) (now : instant) : ReliableInboundMessage :=
  MkInbound (om_reliable_message_id m) (PyInt (om_sequence_number m)) (om_inner_message_type m)
    (norm_dict (om_inner_payload m)) now.

Lemma parse_normalised m now payload :
  om_reliable_message_id m <> "" -> om_inner_message_type m <> "" -> 1 <= om_sequence_number m ->
  (forall k, py_get payload k = json_norm (py_get (to_reliable_payload m) k)) ->
  parse_reliable_payload now payload = Ok (received_message m now).
Proof.
  intros Hid%str_truthy_spec Hty%str_truthy_spec Hseq Hg. unfold parse_reliable_payload.
  assert (forall k v, py_get payload k = v -> v <> JNull -> od_get k payload = Some v) as Hget.
  { intros k v. unfold py_get. destruct (od_get k payload); cbn; congruence. }
  rewrite (Hget "reliable_message_id" (JStr (om_reliable_message_id m)) ltac:(exact (Hg _)) ltac:(done)),
    (Hget "sequence_number" (JInt (om_sequence_number m)) ltac:(exact (Hg _)) ltac:(done)),
    (Hget "inner_message_type" (JStr (om_inner_message_type m)) ltac:(exact (Hg _)) ltac:(done)),
    (Hget "inner_payload" (JObj (norm_dict (om_inner_payload m))) ltac:(exact (Hg _)) ltac:(done)).
  rewrite Hid, Hty. cbn -[Z.ltb norm_dict]. zcases; [lia|done].
Qed.
End delivery.

(** ** A message and its reply *)

Section exchange.
Context `{FloatText} `{Entropy} `{OpenSSL} `{KeyGen} `{AesGcmSiv}.

(** The services hold the active virtual session [sid], whose next message is [m]. *)
Record awaits (s : Services) (sid : string) (m : ReliableOutboundMessage)
    (session : NetworkSession) : Prop := {
  aw_wf : sm_wf (sv_session_manager s);
  aw_session : session_of s sid = Some session;
  aw_scope : ns_session_scope session = "virtual";
  aw_state : ns_session_state session = "active";
  aw_id : om_reliable_message_id m <> "";
  aw_type : om_inner_message_type m <> "";
  aw_positive : 1 <= om_sequence_number m;
  aw_next : let st := (_get_reliable_state (sv_session_manager s) session).1 in
    om_sequence_number m = rs_next_expected_inbound_sequence st /\
    om_reliable_message_id m ∉ rs_delivered_message_ids st /\
    rs_inbound_buffer_by_sequence st !! (rs_next_expected_inbound_sequence st + 1) = None;
}.

Lemma session_of_touch (s : Services) sid sid' f :
  keeps_names f -> (forall n, ns_session_state (f n) = ns_session_state n) ->
  sm_wf (sv_session_manager s) ->
  ns_session_state <$> session_of (update_session s sid f) sid' = ns_session_state <$> session_of s sid'.
Proof.
  intros Hf Hst Hwf. unfold session_of, update_session. cbn. rewrite get_modify_session by done.
  case_decide as Hd; [|done]. subst sid'. destruct (get_session_by_session_id _ sid); [|done].
  cbn. by rewrite Hst.
Qed.

(** The reception of the next message: it is alone to be delivered, the sessions are as
    they were. *)
Lemma receive_awaited (s : Services) sid m session payload :
  awaits s sid m session ->
  (forall k, py_get payload k = json_norm (py_get (to_reliable_payload m) k)) ->
  let s1 := update_session s sid (touch_fields (sv_now s) None) in
  touch sid s = (Ok (Some (touch_fields (sv_now s) None session)), s1) /\
  exists s2, receive_inbound sid payload s1 =
      (Ok (MkReceiveResult (ack_payload_for (received_message m (sv_now s)) (sv_now s))
             [received_message m (sv_now s)] false false), s2) /\
    (forall sid', session_of s2 sid' = session_of s1 sid') /\
    sm_virtual_message_handlers (sv_session_manager s2)
      = sm_virtual_message_handlers (sv_session_manager s) /\
    sv_now s2 = sv_now s.
Proof.
  intros [Hwf Hs Hscope Hstate Hid Hty Hpos Hnext] Hg s1.
  assert (keeps_names (touch_fields (sv_now s) None)) as Hk by keeps_tac.
  assert (modify_session (sv_session_manager s) sid (touch_fields (sv_now s) None) =
    (Some (touch_fields (sv_now s) None session), sv_session_manager s1)) as Hmod
    by exact (modify_present _ _ _ _ Hs).
  split.
  { unfold touch, on_sessions, touch_session. rewrite Hmod. reflexivity. }
  assert (get_session_by_session_id (sv_session_manager s1) sid
    = Some (touch_fields (sv_now s) None session)) as Hs1.
  { change (session_of s1 sid = Some (touch_fields (sv_now s) None session)).
    unfold s1. by rewrite session_of_update, Hs. }
  assert (sm_reliable_states_by_session_id (sv_session_manager s1)
          = sm_reliable_states_by_session_id (sv_session_manager s)
       /\ sm_virtual_message_handlers (sv_session_manager s1)
          = sm_virtual_message_handlers (sv_session_manager s)) as [Hrel Hhand].
  { unfold s1, update_session. cbn. unfold modify_session, deref.
    destruct (sm_sessions_by_session_id _ !! sid); [|done]. by destruct (sm_heap _ !! _). }
  assert ((_get_reliable_state (sv_session_manager s1) (touch_fields (sv_now s) None session)).1
    = (_get_reliable_state (sv_session_manager s) session).1) as Hst.
  { unfold _get_reliable_state. rewrite Hrel.
    change (ns_session_id (touch_fields (sv_now s) None session)) with (ns_session_id session).
    by destruct (od_get (ns_session_id session) _). }
  destruct Hnext as (Hseq & Hnew & Hbuf).
  unfold receive_inbound, receive_reliable_inbound. rewrite Hs1.
  destruct (_get_reliable_state (sv_session_manager s1) (touch_fields (sv_now s) None session))
    as [st sm1] eqn:Hget. cbn [fst] in Hst. subst st.
  assert (sm_virtual_message_handlers sm1 = sm_virtual_message_handlers (sv_session_manager s1)
    /\ forall sid', get_session_by_session_id sm1 sid'
                    = get_session_by_session_id (sv_session_manager s1) sid') as [Hh1 Hsame].
  { revert Hget. unfold _get_reliable_state. destruct (od_get _ _); by intros [= _ <-]. }
  change (sv_now s1) with (sv_now s).
  destruct (receive_next _ (sv_now s) (sv_now s) payload (received_message m (sv_now s))
    (parse_normalised m (sv_now s) payload Hid Hty Hpos Hg) Hseq Hnew Hbuf) as (st' & Hrec).
  rewrite Hrec. eexists. split; [reflexivity|]. split; [exact Hsame|]. split; [|done].
  cbn. by rewrite Hh1.
Qed.

(** The session policy lets a message of the session through when the physical session
    it came by is active. *)
Lemma process_message dispatch envelope context (s : Services) ps n :
  pe_message_type envelope = Some "VIRTUAL_SESSION_DATA" ->
  py_get (pe_header envelope) "physical_session_id" = JStr ps -> ps <> "" ->
  session_of s ps = Some n -> ns_session_state n = "active" ->
  process_protocol_envelope dispatch envelope context s
  = dispatch VirtualMessageHandler envelope context s.
Proof.
  intros Hty Hps Hne Hn Hact. unfold process_protocol_envelope. erewrite st_bind_run by reflexivity.
  unfold _validate_message_policy, route. rewrite Hty.
  change (get_definition (Some "VIRTUAL_SESSION_DATA"))
    with (Some (MkDefinition "VIRTUAL_SESSION_DATA" VirtualMessageHandler "virtual" true true)).
  cbn [md_requires_physical_session md_handler]. rewrite Hps. cbn [truthy_str].
  rewrite (proj2 (str_truthy_spec ps) Hne). unfold session_of in Hn.
  by rewrite Hn, bool_decide_false by auto.
Qed.

(** The handler of the message: the application's reply in the result. *)
Lemma message_run envelope context (s : Services) sid app_type request_id payload session f
    reply_type reply_payload reply_id :
  read_virtual_session_id envelope = Some sid ->
  py_get (as_payload_dict envelope) "app_message_type" = JStr app_type -> app_type <> "" ->
  py_get (as_payload_dict envelope) "payload" = JObj payload ->
  py_get (as_payload_dict envelope) "request_id" = opt_json JStr request_id ->
  session_of s sid = Some session ->
  ns_session_scope session = "virtual" -> ns_session_state session = "active" ->
  sm_virtual_message_handlers (sv_session_manager s) !! app_type = Some f ->
  f (MkVirtualSessionMessage sid (ns_local_identity_id session) (ns_remote_identity_id session)
       app_type payload (truthy_str (py_get (pc_metadata context) "route_path_id")) request_id)
  = VirtualSessionMessageReply reply_type (JObj reply_payload) reply_id ->
  exists r s2 uuid, handle envelope context s = (Ok r, s2) /\
    reply_of r = JObj (virtual_envelope
      (build_response_header (uuid4 uuid) (pe_header envelope) "VIRTUAL_SESSION_DATA" true)
      (app_content reply_type reply_id (JObj reply_payload))).
Proof.
  intros Hsid Hty Hne Hp Hr Hs Hscope Hstate Hf Hreply. unfold handle. cbv zeta.
  rewrite Hsid, Hty. cbn [truthy_str]. rewrite (proj2 (str_truthy_spec _) Hne).
  unfold read_app_payload, read_request_id. rewrite Hp, Hr.
  assert (match opt_json JStr request_id with JNull => Some None | JStr r => Some (Some r) | _ => None end
    = Some request_id) as -> by (by destruct request_id).
  erewrite st_bind_run by reflexivity. fold (session_of s sid).
  rewrite Hs, !bool_decide_false by (rewrite ?Hscope, ?Hstate; auto).
  unfold deliver_message. erewrite st_bind_run by reflexivity.
  assert (handle_virtual_message (sv_session_manager s)
    (MkVirtualSessionMessage sid (ns_local_identity_id session) (ns_remote_identity_id session)
       app_type payload (_read_optional_string (py_get (pc_metadata context) "route_path_id")) request_id)
    = Ok (VirtualSessionMessageReply reply_type (JObj reply_payload) reply_id)) as ->.
  { unfold handle_virtual_message. cbn [vm_app_message_type]. rewrite Hf.
    unfold _read_optional_string. by rewrite Hreply. }
  erewrite st_bind_run by reflexivity. run_update. erewrite st_bind_run by reflexivity.
  eexists _, _, _. split; reflexivity.
Qed.
End exchange.

(** ** Claims *)

Section claims.
Context `{FloatText} `{AesGcmSiv} `{UuidLaws} `{KemLaws}.

(** What a message is made of can be sent. *)
Record sendable (m : ReliableOutboundMessage) : Prop := {
  sd_id : unicode (om_reliable_message_id m);
  sd_type : unicode (om_inner_message_type m);
  sd_payload : dict_wf (om_inner_payload m);
}.

Lemma reliable_payload_wf m : sendable m -> dict_wf (to_reliable_payload m).
Proof.
  intros [Hid Hty Hp]. unfold to_reliable_payload.
  pose proof (proj1 (isoformat_text (om_created_at m))). json_wf_tac.
Qed.

(** The acknowledgement of a message with the answers it carries. *)
Definition ack_with (m : ReliableOutboundMessage) (now : instant) (answers : list jdict) : jdict :=
  od_set "inner_response_envelopes" (JArr (JObj <$> answers))
    (ack_payload_for (received_message m now) now).

Lemma ack_with_wf m now answers :
  sendable m -> Forall (fun d => dict_wf d) answers -> dict_wf (ack_with m now answers).
Proof.
  intros [Hid _ _] Ha. unfold ack_with. apply dict_wf_set; [by apply ascii_unicode| |].
  - apply Wf_arr. by apply Forall_fmap.
  - unfold ack_payload_for. cbn [received_message im_reliable_message_id im_sequence_number pyint_json].
    pose proof (proj1 (isoformat_text now)). json_wf_tac.
Qed.

(** The header of a delivered inner message. *)
Lemma inner_header envelope (m : ReliableOutboundMessage) now sid ty :
  sendable m -> virtual_header sid ty (pe_header envelope) ->
  virtual_header sid (om_inner_message_type m)
    (pe_header (inner_envelope envelope (received_message m now))) /\
  py_get (pe_header (inner_envelope envelope (received_message m now))) "physical_session_id"
  = py_get (pe_header envelope) "physical_session_id".
Proof.
  intros [Hid Hty _] [Hwf Hsid _]. unfold inner_envelope.
  cbn [pe_header received_message im_inner_message_type im_reliable_message_id im_sequence_number
       pyint_json].
  match goal with |- context [Relay.dict_merge _ ?d] => assert (dict_wf d) as Hd by json_wf_tac end.
  pose proof (dict_wf_od _ Hd) as Hod. split; [split|].
  - by apply merge_wf.
  - rewrite Relay.dict_merge_get by done. by od_eval.
  - rewrite Relay.dict_merge_get by done. by od_eval.
  - rewrite merge_get by done. by od_eval.
Qed.

(** A message of a virtual session on arrival: it is handed to its handler, whose answer
    is carried by the acknowledgement. *)
Lemma arrive_data {header sid} (b : Services) k dispatch outer rd context m session app_type
    request_id payload f reply_type reply_payload reply_id ps pn :
  dispatch VirtualMessageHandler = handle ->
  virtual_header sid "VIRTUAL_SESSION_RELIABLE_DATA" header -> sid <> "" ->
  sendable m -> awaits b sid m session ->
  om_inner_message_type m = "VIRTUAL_SESSION_DATA" -> app_type <> "" ->
  om_inner_payload m = app_content app_type request_id (JObj payload) ->
  sm_virtual_message_handlers (sv_session_manager b) !! app_type = Some f ->
  f (MkVirtualSessionMessage sid (ns_local_identity_id session) (ns_remote_identity_id session)
       app_type (norm_dict payload) (truthy_str (py_get (pc_metadata context) "route_path_id"))
       request_id) = VirtualSessionMessageReply reply_type (JObj reply_payload) reply_id ->
  dict_wf (pe_header outer) -> py_get (pe_header outer) "physical_session_id" = JStr ps ->
  ps <> "" -> session_of b ps = Some pn -> ns_session_state pn = "active" ->
  exists r b2 header2 header3,
    arrive k (process_protocol_envelope dispatch) outer rd context
      (virtual_envelope header (to_reliable_payload m)) b = (Ok r, b2) /\
    virtual_header sid "VIRTUAL_SESSION_RELIABLE_ACK" header2 /\
    virtual_header sid "VIRTUAL_SESSION_DATA" header3 /\
    reply_of r = JObj (virtual_envelope header2 (ack_with m (sv_now b)
      [virtual_envelope header3 (app_content reply_type reply_id (JObj reply_payload))])).
Proof.
  intros Hdisp Hh Hsid Hsend Haw Hity Happ Hip Hf Hreply Ho Hops Hps Hpn Hact.
  destruct (arrive_run b k (process_protocol_envelope dispatch) outer rd context Hh
    (reliable_payload_wf _ Hsend) Hsid Ho) as (e & Hr & Ht & He & Hs & Hpse & Hg).
  rewrite Hr. unfold VirtualSession.handle. rewrite Ht. cbv beta iota.
  unfold _handle_virtual_session_reliable_data. rewrite Hs.
  destruct (receive_awaited b sid m session _ Haw Hg) as (Htouch & s2 & Hrec & Hsame & Hhand & Hnow).
  rewrite (st_bind_run _ _ _ _ _ Htouch). pose proof (aw_wf _ _ _ _ Haw) as Hwf.
  pose proof (aw_session _ _ _ _ Haw) as Hsess.
  rewrite bool_decide_false by (cbn; rewrite (aw_scope _ _ _ _ Haw); auto).
  erewrite st_bind_run by (unfold catch_value; rewrite (st_bind_run _ _ _ _ _ Hrec); reflexivity).
  cbn [rr_deliveries rr_ack_payload deliver_all].
  set (im := received_message m (sv_now b)) in *.
  destruct (inner_header e m (sv_now b) sid _ Hsend He) as [Hhi Hpi]. fold im in Hhi, Hpi.
  rewrite Hity in Hhi. set (touched := touch_fields (sv_now b) None session).
  assert (keeps_names (touch_fields (sv_now b) None)) as Hk by keeps_tac.
  assert (session_of s2 sid = Some touched) as Hs2
    by (rewrite Hsame, session_of_update, Hsess by done; reflexivity).
  assert (exists pn2, session_of s2 ps = Some pn2 /\ ns_session_state pn2 = "active") as (pn2 & Hpn2 & Hact2).
  { pose proof (session_of_touch b sid ps (touch_fields (sv_now b) None) Hk (fun n => eq_refl) Hwf) as Hst.
    rewrite Hpn in Hst. rewrite Hsame. destruct (session_of (update_session b sid _) ps); [|done].
    injection Hst as Hst. eexists. split; [done|]. congruence. }
  assert (dict_wf (om_inner_payload m)) as Hpw by apply Hsend.
  destruct (message_run (inner_envelope e im) context s2 sid app_type request_id (norm_dict payload)
    touched f reply_type reply_payload reply_id) as (r & s3 & u & Hrun & Hm).
  - unfold read_virtual_session_id, read_header_string, py_get. rewrite (vh_sid _ _ _ Hhi).
    cbn [default from_option id truthy_str]. by rewrite (proj2 (str_truthy_spec sid) Hsid).
  - change (as_payload_dict (inner_envelope e im)) with (norm_dict (om_inner_payload m)).
    rewrite py_get_norm, Hip by done. reflexivity.
  - done.
  - change (as_payload_dict (inner_envelope e im)) with (norm_dict (om_inner_payload m)).
    rewrite py_get_norm, Hip by done. reflexivity.
  - change (as_payload_dict (inner_envelope e im)) with (norm_dict (om_inner_payload m)).
    rewrite py_get_norm, Hip by done. by destruct request_id.
  - exact Hs2.
  - exact (aw_scope _ _ _ _ Haw).
  - exact (aw_state _ _ _ _ Haw).
  - by rewrite Hhand.
  - exact Hreply.
  - assert (process_protocol_envelope dispatch (inner_envelope e im) context s2 = (Ok r, s3)) as Hproc.
    { rewrite (process_message dispatch _ _ _ ps pn2), Hdisp; [exact Hrun| |rewrite Hpi|done..].
      - cbn [inner_envelope pe_message_type]. f_equal. exact Hity.
      - by apply Hpse. }
    rewrite (st_bind_run _ _ s2 (collect r (MkDelivered None 0 [])) s3)
      by (rewrite (st_bind_run _ _ _ _ _ Hproc); reflexivity).
    cbn [collect dl_inner_response_envelopes app].
    change (py_get (pp_metadata r) "virtual_response_envelope") with (reply_of r). rewrite Hm.
    eexists _, _, (build_response_header (uuid4 (sv_entropy s3)) (pe_header e)
      "VIRTUAL_SESSION_RELIABLE_ACK" true), _.
    split; [reflexivity|]. split; [by eapply virtual_response_header; [apply uuid4_ascii|..]|].
    split; [|reflexivity]. by eapply virtual_response_header; [apply uuid4_ascii|..].
Qed.

Lemma acked_not_pending sm now sid m :
  _get_reliable_outbound sm sid (om_sequence_number m) = Some m ->
  _get_reliable_outbound (mark_reliable_outbound_acked sm now sid (om_sequence_number m)
    (om_reliable_message_id m)).2 sid (om_sequence_number m) = None.
Proof.
  intros Hm. unfold mark_reliable_outbound_acked. rewrite Hm, bool_decide_false by auto.
  unfold _get_reliable_outbound in Hm |- *. destruct (od_get sid _) as [st|] eqn:Hst; [|done].
  cbn. rewrite od_get_set_eq. cbn. apply od_get_del_eq.
Qed.

Lemma touch_keeps_pending (s : Services) sid sid' n :
  _get_reliable_outbound (sv_session_manager (touch sid s).2) sid' n
  = _get_reliable_outbound (sv_session_manager s) sid' n.
Proof.
  unfold touch, on_sessions, touch_session, modify_session, deref.
  destruct (sm_sessions_by_session_id _ !! sid) as [l|]; [|done]. by destruct (sm_heap _ !! l).
Qed.

(** An acknowledgement with one answer on arrival at the sender: the message is no longer
    pending, and the answer is processed as a message of the session. *)
Lemma arrive_ack {header sid} (a : Services) k process outer rd context m now header3 content :
  virtual_header sid "VIRTUAL_SESSION_RELIABLE_ACK" header ->
  virtual_header sid "VIRTUAL_SESSION_DATA" header3 -> dict_wf content -> sid <> "" ->
  sendable m -> om_reliable_message_id m <> "" ->
  _get_reliable_outbound (sv_session_manager a) sid (om_sequence_number m) = Some m ->
  dict_wf (pe_header outer) ->
  exists envelope a1,
    _get_reliable_outbound (sv_session_manager a1) sid (om_sequence_number m) = None /\
    pe_message_type envelope = Some "VIRTUAL_SESSION_DATA" /\
    read_virtual_session_id envelope = Some sid /\
    as_payload_dict envelope = norm_dict content /\
    forall r a2, process envelope context a1 = (Ok r, a2) ->
    exists r', arrive k process outer rd context
      (virtual_envelope header (ack_with m now [virtual_envelope header3 content])) a = (Ok r', a2).
Proof.
  intros Hh Hh3 Hc Hsid Hsend Hid Hout Ho.
  assert (dict_wf (virtual_envelope header3 content)) as Hve
    by (pose proof (vh_wf _ _ _ Hh3); unfold virtual_envelope; json_wf_tac).
  assert (dict_wf (ack_with m now [virtual_envelope header3 content])) as Hp
    by (apply ack_with_wf; [done|by constructor]).
  destruct (arrive_run a k process outer rd context Hh Hp Hsid Ho) as
    (e & Hr & Ht & He & Hs & Hpse & Hg).
  eassert (py_get (as_payload_dict e) "ack_for_sequence_number" = JInt (om_sequence_number m)
    /\ py_get (as_payload_dict e) "ack_for_message_id" = JStr (om_reliable_message_id m)
    /\ carried_envelopes (as_payload_dict e) = [JObj (norm_dict (virtual_envelope header3 content))])
    as (Hseq & Hmid & Hcar).
  { unfold carried_envelopes. rewrite !Hg. unfold ack_with, py_get.
    rewrite !od_get_set_ne, od_get_set_eq by done. split; [done|]. split; [done|]. reflexivity. }
  pose proof (norm_get_str _ _ sid (vh_wf _ _ _ Hh3) (vh_sid _ _ _ Hh3)) as Hn3.
  pose proof (norm_get_str _ _ _ (vh_wf _ _ _ Hh3) (vh_ty _ _ _ Hh3)) as Ht3.
  rewrite Hr. unfold VirtualSession.handle. rewrite Ht. cbv beta iota.
  unfold _handle_virtual_session_reliable_ack. rewrite Hs, Hseq, Hmid, Hcar.
  cbn [json_pyint truthy_str]. rewrite (proj2 (str_truthy_spec _) Hid). cbn [pyint_val].
  set (marked := mark_reliable_outbound_acked (sv_session_manager a) (sv_now a) sid
    (om_sequence_number m) (om_reliable_message_id m)).
  set (s1 := a <| sv_session_manager := marked.2 |>).
  rewrite (st_bind_run _ _ a marked.1 s1)
    by (unfold on_sessions, s1; fold marked; by destruct marked).
  destruct (touch sid s1) as [rt s2] eqn:Htouch.
  assert (exists t, rt = Ok t) as [t ->]
    by (revert Htouch; unfold touch, on_sessions; destruct (touch_session _ _ _ _); intros [= <- _]; eauto).
  rewrite (st_bind_run _ _ _ _ _ Htouch).
  cbn [dispatch_carried]. unfold _dispatch_inner_virtual_response_from_ack.
  rewrite !(py_get_norm (virtual_envelope header3 content)) by done.
  change (json_norm (py_get (virtual_envelope header3 content) "header")) with (JObj (norm_dict header3)).
  change (json_norm (py_get (virtual_envelope header3 content) "payload")) with (JObj (norm_dict content)).
  cbv beta iota. rewrite Ht3. cbn [truthy_str].
  change (str_truthy "VIRTUAL_SESSION_DATA") with true. cbv beta iota zeta.
  set (envelope := MkEnvelope _ (Some "VIRTUAL_SESSION_DATA") _ _ _).
  exists envelope, s2. split.
  { replace s2 with (touch sid s1).2 by (by rewrite Htouch). rewrite touch_keeps_pending.
    by apply acked_not_pending. }
  split; [done|]. split; [|split; [done|]].
  - unfold read_virtual_session_id, read_header_string. cbn [envelope pe_header].
    rewrite merge_get by (apply (bool_decide_unpack _); reflexivity). od_eval. cbn [truthy_str].
    by rewrite (proj2 (str_truthy_spec sid) Hsid).
  - intros r a2 Hproc. eexists.
    rewrite (st_bind_run _ _ s2 [r] a2); [reflexivity|].
    rewrite (st_bind_run _ _ s2 (Some r) a2) by (by rewrite (st_bind_run _ _ _ _ _ Hproc)).
    by erewrite st_bind_run by reflexivity.
Qed.

(** C5: a message of a virtual session and its reply. The sender [a] has the message
    pending; the receiver [b] awaits it in the active session and has a handler for its
    type that replies. When the packet with the message arrives over any route, the
    receiver acknowledges it with the reply inside; when that arrives back, the message
    is no longer pending at the sender, and the sender processes the reply as a message
    of the session with the handler's type, request id and payload, its result being
    what the packet is handled to. *)
Theorem virtual_message_exchange (a b : Services) (ka kb : Z) dispatch process_a (header : jdict)
    (sid ps : string) (m : ReliableOutboundMessage) (session pn : NetworkSession)
    (app_type : string) (request_id : option string) (payload : jdict)
    (f : VirtualSessionMessageHandler) (reply_type : string) (reply_payload : jdict)
    (reply_id : option string) :
  dispatch VirtualMessageHandler = handle ->
  virtual_header sid "VIRTUAL_SESSION_RELIABLE_DATA" header -> sid <> "" ->
  sendable m -> om_inner_message_type m = "VIRTUAL_SESSION_DATA" ->
  om_inner_payload m = app_content app_type request_id (JObj payload) -> app_type <> "" ->
  _get_reliable_outbound (sv_session_manager a) sid (om_sequence_number m) = Some m ->
  awaits b sid m session ->
  sm_virtual_message_handlers (sv_session_manager b) !! app_type = Some f ->
  unicode reply_type -> dict_wf reply_payload ->
  match reply_id with Some id => unicode id | None => True end ->
  session_of b ps = Some pn -> ns_session_state pn = "active" -> ps <> "" ->
  forall o1 d1 c1, dict_wf (pe_header o1) ->
  py_get (pe_header o1) "physical_session_id" = JStr ps ->
  f (MkVirtualSessionMessage sid (ns_local_identity_id session) (ns_remote_identity_id session)
       app_type (norm_dict payload) (truthy_str (py_get (pc_metadata c1) "route_path_id"))
       request_id) = VirtualSessionMessageReply reply_type (JObj reply_payload) reply_id ->
  exists r1 b1 ack, arrive kb (process_protocol_envelope dispatch) o1 d1 c1
      (virtual_envelope header (to_reliable_payload m)) b = (Ok r1, b1) /\
    reply_of r1 = JObj ack /\
  forall o2 d2 c2, dict_wf (pe_header o2) ->
  exists envelope a1,
    _get_reliable_outbound (sv_session_manager a1) sid (om_sequence_number m) = None /\
    pe_message_type envelope = Some "VIRTUAL_SESSION_DATA" /\
    read_virtual_session_id envelope = Some sid /\
    as_payload_dict envelope = norm_dict (app_content reply_type reply_id (JObj reply_payload)) /\
    forall r a2, process_a envelope c2 a1 = (Ok r, a2) ->
    exists r2, arrive ka process_a o2 d2 c2 ack a = (Ok r2, a2).
Proof.
  intros Hdisp Hh Hsid Hsend Hity Hip Happ Hout Haw Hf Hrt Hrp Hri Hpn Hact Hps o1 d1 c1 Ho1 Hop Hreply.
  destruct (arrive_data b kb dispatch o1 d1 c1 m session app_type request_id payload f reply_type
    reply_payload reply_id ps pn Hdisp Hh Hsid Hsend Haw Hity Happ Hip Hf Hreply Ho1 Hop Hps Hpn Hact)
    as (r1 & b1 & h2 & h3 & Hr1 & Hh2 & Hh3 & Hm).
  exists r1, b1. eexists. split; [exact Hr1|]. split; [exact Hm|]. intros o2 d2 c2 Ho2.
  assert (dict_wf (app_content reply_type reply_id (JObj reply_payload))) as Hc
    by (unfold app_content; destruct reply_id; cbn [opt_json]; json_wf_tac).
  by apply arrive_ack; [..|exact (aw_id _ _ _ _ Haw)| |].
Qed.
End claims.

(** ** Witnesses *)

#[local] Existing Instance Crypto.demo_aead.
#[local] Existing Instance Engine.demo_entropy.
#[local] Existing Instance PhysicalSession.demo_float.
#[local] Existing Instance PhysicalSession.demo_uuid_laws.
#[local] Existing Instance PhysicalSession.demo_openssl.
#[local] Existing Instance PhysicalSession.demo_key_gen.
#[local] Existing Instance PhysicalSession.demo_kem_laws.

Definition created (sm : SessionManager) (data : SessionCreateInput) : SessionManager :=
  match create_session sm 1000 data with Ok (_, sm') => sm' | Raise _ => sm end.

Lemma created_wf sm data : sm_wf sm -> sm_wf (created sm data).
Proof.
  intros Hwf. unfold created. destruct (create_session sm 1000 data) as [[n sm']|] eqn:Hc; [|done].
  by eapply create_session_wf.
Qed.

Definition demo_hop : SessionCreateInput :=
  session_input "ps-1" "physical" "physical_node" "pn-b" "physical_node" "pn-h" "inbound"
    "responder" "ready" "active".
Definition demo_peer : SessionCreateInput :=
  session_input "vs-1" "virtual" "virtual_node" "vn-b" "virtual_node" "vn-a" "inbound"
    "responder" "ready" "active".

(** The application answers with the text it was sent. *)
Definition demo_echo (message : VirtualSessionMessage) : handler_result :=
  VirtualSessionMessageReply "chat.reply" (JObj (vm_payload message)) (vm_request_id message).

Definition demo_receiver_manager : SessionManager :=
  created (created new_session_manager demo_hop) demo_peer
  <| sm_virtual_message_handlers := {["chat" := demo_echo]} |>.

Lemma demo_receiver_wf : sm_wf demo_receiver_manager.
Proof. apply set_handlers_wf, created_wf, created_wf, new_session_manager_wf. Qed.

Definition demo_text : jdict := [("text", JStr "hi")].

Definition demo_message : ReliableOutboundMessage :=
  MkOutbound "vs-1" "virtual" "mid-1" 1 "VIRTUAL_SESSION_DATA"
    (app_content "chat" (Some "r-1") (JObj demo_text)) 1000 5000000 5 0 None None None None.

Definition demo_sender_manager : SessionManager :=
  match prepare_reliable_outbound demo_virtual_manager "mid-1" 1000 "vs-1" "VIRTUAL_SESSION_DATA"
          (app_content "chat" (Some "r-1") (JObj demo_text)) 5000000 5 with
  | Ok (_, sm) => sm
  | Raise _ => demo_virtual_manager
  end.

Definition demo_receiver : Services :=
  PhysicalSession.demo_services demo_receiver_manager empty_database.
Definition demo_sender : Services :=
  PhysicalSession.demo_services demo_sender_manager empty_database.

Definition demo_message_dispatch (_ : handler) : ProtocolEnvelope -> PacketContext
    -> st Services PacketProcessingResult := handle.

Lemma demo_message_sendable : sendable demo_message.
Proof.
  split; [by apply ascii_unicode|by apply ascii_unicode|].
  unfold demo_message, app_content, demo_text. cbn [om_inner_payload opt_json]. json_wf_tac.
Qed.

Lemma demo_awaits : awaits demo_receiver "vs-1" demo_message (session_of_input 2 1000 demo_peer).
Proof.
  split; [exact demo_receiver_wf|vm_compute; reflexivity|reflexivity|reflexivity|discriminate
         |discriminate|cbn; lia|].
  split; [vm_compute; reflexivity|]. split; [apply (bool_decide_unpack _); vm_compute; exact I|].
  vm_compute. reflexivity.
Qed.

Lemma virtual_message_exchange_witness :
  exists r1 b1 ack r2 a2 envelope a1,
    arrive 20 (process_protocol_envelope demo_message_dispatch) demo_outer demo_route_data
      (PhysicalSession.demo_context "")
      (virtual_envelope (demo_virtual_header "vs-1" "VIRTUAL_SESSION_RELIABLE_DATA")
         (to_reliable_payload demo_message)) demo_receiver = (Ok r1, b1) /\
    reply_of r1 = JObj ack /\
    arrive 20 PhysicalSession.demo_process demo_outer demo_route_data (PhysicalSession.demo_context "")
      ack demo_sender = (Ok r2, a2) /\
    _get_reliable_outbound (sv_session_manager a1) "vs-1" 1 = None /\
    as_payload_dict envelope
    = norm_dict (app_content "chat.reply" (Some "r-1") (JObj (norm_dict demo_text))).
Proof.
  destruct (virtual_message_exchange demo_sender demo_receiver 20 20 demo_message_dispatch
    PhysicalSession.demo_process (demo_virtual_header "vs-1" "VIRTUAL_SESSION_RELIABLE_DATA") "vs-1"
    "ps-1" demo_message (session_of_input 2 1000 demo_peer) (session_of_input 1 1000 demo_hop) "chat"
    (Some "r-1") demo_text demo_echo "chat.reply" (norm_dict demo_text) (Some "r-1")) with
    (o1 := demo_outer) (d1 := demo_route_data) (c1 := PhysicalSession.demo_context "")
    as (r1 & b1 & ack & Hr1 & Hm & H2).
  - reflexivity.
  - apply demo_header_virtual; apply ascii_unicode; reflexivity.
  - discriminate.
  - exact demo_message_sendable.
  - reflexivity.
  - reflexivity.
  - discriminate.
  - vm_compute. reflexivity.
  - exact demo_awaits.
  - vm_compute. reflexivity.
  - apply ascii_unicode. reflexivity.
  - apply dict_wf_norm. unfold demo_text. json_wf_tac.
  - apply ascii_unicode. reflexivity.
  - vm_compute. reflexivity.
  - reflexivity.
  - discriminate.
  - exact demo_outer_wf.
  - reflexivity.
  - reflexivity.
  - destruct (H2 demo_outer demo_route_data (PhysicalSession.demo_context "") demo_outer_wf)
      as (e & a1 & Hnone & _ & _ & Hpay & Hrun).
    destruct (Hrun (MkResult "json" true None None [] None) a1 eq_refl) as (r2 & Hr2).
    exists r1, b1, ack, r2, a1, e, a1. split; [exact Hr1|]. split; [exact Hm|].
    split; [exact Hr2|]. split; [exact Hnone|exact Hpay].
Defined.
