(* ===== verification/RouteClient.v ===== *)
(** * The client of the routes

    Models [RouteExecuteClient]
    ([src/app/core/protocol_clients/physical/route_execute.py]): virtual envelopes sent
    over a route by its initiator, by the owner of one of its ends, or to the entry
    point of a remote virtual node.

    [sent_envelope_opens]: what is sent over a route is what the other end of the
    virtual session opens ([RouteExecute]). *)

From S2P Require Import Prelude PyJson PyTime Sha512 Crypto JsonText Transport Reliable.
From S2P Require Import Sessions Identity RouteService Core Registry Engine RouteExecute.

Section client.
Context `{FloatText} `{Entropy} `{AesGcmSiv} `{EngineIO}.

Definition inactive_session : exn :=
  ValueError "The provided virtual session is not active for encrypting the envelope.".

Definition _build_route_data_payload (virtual_session_id : option string) (virtual_envelope : jdict)
    (virtual_envelope_ciphered : bool) (direction : string) : st Services jdict :=
  ensure (bool_decide (direction ∈ ["vn_to_pn"; "pn_to_vn"]))
    (ValueError "direction must be 'vn_to_pn' or 'pn_to_vn'.");;
  let route_data (envelope : json) :=
    [("direction", JStr direction); ("virtual_session_id", opt_json JStr virtual_session_id);
     ("virtual_envelope_ciphered", JBool virtual_envelope_ciphered);
     ("virtual_envelope", envelope)] in
  if negb virtual_envelope_ciphered then mret (route_data (JObj virtual_envelope))
  else
    match nonempty_column virtual_session_id with
    | None => raise (ValueError
        "virtual_session_id is required to send an encrypted virtual envelope.")
    | Some session_id =>
        session ← find_session session_id;
        match active_secret session with
        | None => raise inactive_session
        | Some shared_secret_hex =>
            encrypted_virtual_envelope ← encrypt_with
              (bytes_to_hex (json_dumps (JObj virtual_envelope))) shared_secret_hex
              (_build_virtual_envelope_aad direction virtual_session_id true);
            touch session_id;;
            mret (route_data (JStr (cr_payload_hex encrypted_virtual_envelope)))
        end
    end.

(** ROUTE_DATA to a neighbour; whether it could be sent is not looked at. *)
Definition send_route_data (target_remote_physical_node_id path_id : string)
    (route_data_payload : jdict) : st Services unit :=
  forward_message_to_remote_physical_node target_remote_physical_node_id "ROUTE_DATA"
    (("path_id", JStr path_id) :: route_data_payload) false;;
  mret tt.

Definition send_from_initiator (initial_path_id : string) (virtual_envelope : jdict)
    (virtual_envelope_ciphered : bool) (virtual_session_id : option string) : st Services jdict :=
  initiator_resolution ← gets (fun s =>
    get_initiator_resolution_by_initial_path_id (sv_routes s) initial_path_id);
  match initiator_resolution with
  | None => raise (ValueError "The provided route does not exist in the local initiator state.")
  | Some initiator_resolution =>
      match nonempty_column (rr_first_hop_physical_node_id initiator_resolution) with
      | None => raise (ValueError "The provided route has no associated first hop.")
      | Some first_hop =>
          route_data_payload ← _build_route_data_payload virtual_session_id virtual_envelope
            virtual_envelope_ciphered "vn_to_pn";
          send_route_data first_hop initial_path_id route_data_payload;;
          mret [("initial_path_id", JStr initial_path_id);
                ("first_hop_physical_node_id", JStr first_hop);
                ("virtual_session_id", opt_json JStr virtual_session_id);
                ("virtual_envelope_ciphered", JBool virtual_envelope_ciphered)]
      end
  end.

(** The path id and the neighbour of a route this node owns an end of. The [raise] at
    the end is in the branch after its [return]: for an unknown route the function
    returns [None]. *)
Definition _resolve_local_route_target (rows : route_table) (local_route_path_id : string)
    : option (string * string) :=
  let first_hop :=
    get_initiator_resolution_by_initial_path_id rows local_route_path_id
      ≫= fun r => nonempty_column (rr_first_hop_physical_node_id r) in
  match first_hop with
  | Some first_hop => Some (local_route_path_id, first_hop)
  | None =>
      pair local_route_path_id <$>
        (get_endpoint_resolution_by_path_id rows local_route_path_id
           ≫= fun r => nonempty_column (rr_previous_physical_node_id r))
  end.

Definition not_subscriptable : exn := TypeError "'NoneType' object is not subscriptable".

Definition send_from_local_route (local_route_path_id : string) (virtual_envelope : jdict)
    (virtual_envelope_ciphered : bool) (virtual_session_id : option string) : st Services jdict :=
  route_target ← gets (fun s => _resolve_local_route_target (sv_routes s) local_route_path_id);
  route_data_payload ← _build_route_data_payload virtual_session_id virtual_envelope
    virtual_envelope_ciphered "vn_to_pn";
  match route_target with
  | None => raise not_subscriptable
  | Some (path_id, target_remote_physical_node_id) =>
      send_route_data target_remote_physical_node_id path_id route_data_payload;;
      mret [("local_route_path_id", JStr local_route_path_id); ("path_id", JStr path_id);
            ("target_remote_physical_node_id", JStr target_remote_physical_node_id);
            ("virtual_session_id", opt_json JStr virtual_session_id);
            ("virtual_envelope_ciphered", JBool virtual_envelope_ciphered)]
  end.

(** When this node is the entry point itself, the packet enters the route here. *)
Definition _resolve_local_entry_point_target (s : Services)
    (entry_point_physical_node_id final_path_id : string) : option (string * string) :=
  local_node ← get_local_physical_node (sv_database s);
  if bool_decide (ln_id local_node <> entry_point_physical_node_id) then None
  else
    endpoint_resolution ← get_endpoint_resolution_by_final_path_id (sv_routes s) final_path_id;
    route_path_id ← nonempty_column (rr_route_path_id endpoint_resolution);
    previous ← nonempty_column (rr_previous_physical_node_id endpoint_resolution);
    Some (route_path_id, previous).

Definition send_to_entry_point (entry_point_physical_node_id route_path_id : string)
    (virtual_envelope : jdict) (virtual_envelope_ciphered : bool)
    (virtual_session_id : option string) : st Services jdict :=
  local_entry_point_target ← gets (fun s =>
    _resolve_local_entry_point_target s entry_point_physical_node_id route_path_id);
  route_data_payload ← _build_route_data_payload virtual_session_id virtual_envelope
    virtual_envelope_ciphered "pn_to_vn";
  let '(path_id, target) :=
    default (route_path_id, entry_point_physical_node_id) local_entry_point_target in
  send_route_data target path_id route_data_payload;;
  mret [("entry_point_physical_node_id", JStr entry_point_physical_node_id);
        ("path_id", JStr path_id);
        ("virtual_session_id", opt_json JStr virtual_session_id);
        ("virtual_envelope_ciphered", JBool virtual_envelope_ciphered)].
End client.

(** ** What is sent over a route *)

Section sent.
Context `{FloatText} `{EntropyLaws} `{AesGcmSivLaws} `{EngineIO}.

(** The encrypted payload of ROUTE_DATA opens at any node with the secret of the session,
    under whatever path id it arrives. *)
Lemma route_data_opens (s r : Services) (direction sid key : string) (virtual_envelope : jdict) :
  direction ∈ ["vn_to_pn"; "pn_to_vn"] -> dict_wf virtual_envelope -> unicode sid -> sid <> "" ->
  session_secret s sid = Some key -> session_secret r sid = Some key -> can_encrypt s key ->
  exists payload c s',
    _build_route_data_payload (Some sid) virtual_envelope true direction s = (Ok payload, s') /\
    (forall p, p <> "" -> unicode p ->
       _parse_route_data (JObj (norm_dict (("path_id", JStr p) :: payload)))
       = Ok (MkRouteData p direction (Some sid) true (JStr c))) /\
    (forall p, _resolve_local_virtual_envelope (MkRouteData p direction (Some sid) true (JStr c)) r
       = (Ok (norm_dict virtual_envelope), (touch sid r).2)).
Proof.
  intros Hdir Hwf Hu Hne Hs Hr Hcan.
  destruct (virtual_envelope_roundtrip s r direction sid key virtual_envelope Hwf Hne Hs Hr Hcan)
    as (c & s' & Hrun & Hopen).
  assert (Hact : active_secret (get_session_by_session_id (sv_session_manager s) sid) = Some key)
    by exact Hs.
  destruct (encrypt_with_protects s (json_dumps (JObj virtual_envelope)) key
    (_build_virtual_envelope_aad direction (Some sid) true) Hcan) as (x & s1 & He & (b & _ & Hx) & _).
  destruct (touch_total sid s1) as (o & s2 & Ht).
  assert (c = bytes_to_hex b /\ s' = s2) as [-> ->].
  { revert Hrun. unfold _build_reply_virtual_payload, ensure. cbn [negb].
    rewrite (proj2 (str_truthy_spec sid) Hne). erewrite st_bind_run by reflexivity.
    erewrite st_bind_run by reflexivity. rewrite Hact, (st_bind_run _ _ _ _ _ He),
      (st_bind_run _ _ _ _ _ Ht), Hx. by intros [= <- <-]. }
  eexists _, (bytes_to_hex b), s2. split; [|split; [|exact Hopen]].
  - unfold _build_route_data_payload, ensure. rewrite bool_decide_true by done.
    erewrite st_bind_run by reflexivity. cbn [negb nonempty_column].
    rewrite (proj2 (str_truthy_spec sid) Hne). erewrite st_bind_run by reflexivity.
    rewrite Hact, (st_bind_run _ _ _ _ _ He), (st_bind_run _ _ _ _ _ Ht), Hx. reflexivity.
  - intros p Hp Hpu.
    match goal with |- context [norm_dict ?d] => assert (dict_wf d) as Hd end.
    { rewrite !elem_of_cons, elem_of_nil in Hdir.
      assert (unicode direction) by (destruct_or! Hdir; subst; by apply ascii_unicode).
      assert (unicode (bytes_to_hex b)) by (apply ascii_unicode, hex_text_ascii).
      cbn [opt_json]. json_wf_tac. }
    unfold _parse_route_data, require_string, read_string_or_none, _read_route_direction,
      optional_string, require_bool. cbv zeta. rewrite !py_get_norm by done. unfold py_get. od_eval.
    cbn [default from_option id json_norm opt_json truthy_str].
    rewrite !(proj2 (str_truthy_spec _)) by done. cbn [mbind res_bind].
    by rewrite bool_decide_true.
Qed.
End sent.

Section claims.
Context `{FloatText} `{EntropyLaws} `{AesGcmSivLaws} `{EngineIO}.

Lemma resolved_by_mapping (h : Services) envelope rd :
  endpoint_resolution_for (sv_routes h) (rd_path_id rd) = None ->
  _resolve_route_data_path envelope rd h = (Ok (resolve_mapping (sv_routes h) rd), h).
Proof. intros Hnone. unfold _resolve_route_data_path. by rewrite Hnone. Qed.

(** C19: what the owner of one end of a route sends over it. The encrypted virtual
    envelope is parsed and opened, at any node with the secret of the session, to the
    same envelope up to key order; the packet goes to the neighbour on the route in the
    direction [vn_to_pn]. A hop for which the packet comes from the initiator's side
    forwards it to the next hop. The last hop, for which it comes from the other end of
    the route, takes a packet of this direction as its own instead of forwarding it to
    the previous hop, as it does a packet of the direction [pn_to_vn]. *)
Theorem local_route_send_spec (s r : Services) (p target sid key : string) (virtual_envelope : jdict) :
  _resolve_local_route_target (sv_routes s) p = Some (p, target) ->
  p <> "" -> unicode p -> dict_wf virtual_envelope -> unicode sid -> sid <> "" ->
  session_secret s sid = Some key -> session_secret r sid = Some key -> can_encrypt s key ->
  exists payload c s1 result,
    send_from_local_route p virtual_envelope true (Some sid) s
    = (send_route_data target p payload;; mret result) s1 /\
  let route_data direction := MkRouteData p direction (Some sid) true (JStr c) in
    _parse_route_data (JObj (norm_dict (("path_id", JStr p) :: payload))) = Ok (route_data "vn_to_pn") /\
    _resolve_local_virtual_envelope (route_data "vn_to_pn") r
      = (Ok (norm_dict virtual_envelope), (touch sid r).2) /\
    (forall h envelope q from to, relays h p q from to ->
       _resolve_route_data_path envelope (route_data "vn_to_pn") h
       = (Ok (MkResolved "forward_vn_to_pn" (Some q) (Some to)), h)) /\
    (forall h envelope q from to, relays h q p from to ->
       get_resolution_by_received_path_id (sv_routes h) p = None ->
       _resolve_route_data_path envelope (route_data "vn_to_pn") h
       = (Ok (MkResolved "deliver_local" None None), h) /\
       _resolve_route_data_path envelope (route_data "pn_to_vn") h
       = (Ok (MkResolved "forward_pn_to_vn" (Some q) (Some from)), h)).
Proof.
  intros Htarget Hp Hpu Hwf Hu Hne Hs Hr Hcan.
  destruct (route_data_opens s r "vn_to_pn" sid key virtual_envelope) as (payload & c & s1 & Hrun & Hparse & Hopen);
    [set_solver|done..|].
  exists payload, c, s1. eexists. split; [|split; [by apply Hparse|split; [apply Hopen|split]]].
  - unfold send_from_local_route. erewrite st_bind_run by reflexivity.
    rewrite (st_bind_run _ _ _ _ _ Hrun), Htarget. reflexivity.
  - intros h e q from to (Hend & _ & (row & Hrow & Hgen & Hto) & _).
    rewrite resolved_by_mapping by done. unfold resolve_mapping. cbn [rd_direction rd_path_id].
    by rewrite bool_decide_true, Hrow, Hgen, Hto by done.
  - intros h e q from to (_ & Hend & _ & (row & Hrow & Hrec & Hfrom)) Hnone.
    rewrite !resolved_by_mapping by done. unfold resolve_mapping. cbn [rd_direction rd_path_id].
    rewrite bool_decide_true, bool_decide_false, Hnone, Hrow, Hrec, Hfrom by done. done.
Qed.
End claims.

(** ** Witnesses *)

#[local] Existing Instance demo_aead.
#[local] Existing Instance demo_aead_laws.
#[local] Existing Instance demo_entropy.
#[local] Existing Instance demo_entropy_laws.
#[local] Existing Instance demo_float_text.
#[local] Existing Instance demo_io.

(** The entry point of the route of [RouteExecute], holding a session. *)
Definition demo_end : Services := demo_node <| sv_routes := sv_routes demo_entry |>.

Lemma local_route_send_spec_witness :
  exists payload c s1 result,
    send_from_local_route "q" demo_payload true (Some "sid-1") demo_end
    = (send_route_data "h" "q" payload;; mret result) s1 /\
    _resolve_local_virtual_envelope (MkRouteData "q" "vn_to_pn" (Some "sid-1") true (JStr c)) demo_node
    = (Ok (norm_dict demo_payload), (touch "sid-1" demo_node).2) /\
    _resolve_route_data_path (arrival demo_header_of "e" "h" [])
      (MkRouteData "q" "vn_to_pn" (Some "sid-1") true (JStr c)) demo_hop
    = (Ok (MkResolved "deliver_local" None None), demo_hop).
Proof.
  destruct (local_route_send_spec demo_end demo_node "q" "h" "sid-1" demo_secret demo_payload)
    as (payload & c & s1 & result & Hrun & _ & Hopen & _ & Hend).
  - vm_compute. reflexivity.
  - discriminate.
  - apply ascii_unicode. reflexivity.
  - unfold demo_payload. json_wf_tac.
  - apply ascii_unicode. reflexivity.
  - discriminate.
  - vm_compute. reflexivity.
  - vm_compute. reflexivity.
  - split; [by exists "0123456789abcdef0123456789abcdef"|]. exists (bytes_to_hex "0123456789ab").
    split; [by left|]. apply not_elem_of_empty.
  - exists payload, c, s1, result. split; [exact Hrun|]. split; [exact Hopen|].
    exact (proj1 (Hend demo_hop (arrival demo_header_of "e" "h" []) "p" "v" "e" demo_hop_relays
      ltac:(vm_compute; reflexivity))).
Defined.
