(* ===== verification/VirtualClient.v ===== *)
(** * The client of the virtual sessions

    Models [VirtualSessionClient]
    ([src/app/core/protocol_clients/virtual/session.py]): a virtual session is opened
    over a route of this node, or over the entry points that the record of the remote
    virtual node in the DHT names; messages are sent over it reliably. *)

From S2P Require Import Prelude PyJson PyTime PyInt PyFloat Sha512 Crypto JsonText Records Pow Merge.
From S2P Require Import Transport Reliable Sessions Identity DhtService RouteService Core Registry Engine.
From S2P Require Import PhysicalSession DhtHandler DhtClient SessionClient RouteExecute RouteClient.

(** How many times the loop that waits for the activation of a session, with a timeout of
    its own or the default one, and the loop that looks for entry points find their
    deadline not reached yet; what other tasks do during one [asyncio.sleep] of either;
    the query of the DHT client. *)
Class VirtualEnv := {
  activation_polls : string -> option spec_float -> nat;
  lookup_rounds : string -> nat;
  sleep_tasks : DhtNode -> DhtNode;
  virtual_dht_query : string -> string -> st DhtNode jdict;
  virtual_error_repr : exn -> string;
}.

(** The lookup timeout is only shown, with one decimal. *)
Record VirtualClientConfig := MkVirtualClientConfig {
  vc_drt_lookup_timeout_text : string;
  vc_session_keepalive_seconds : Z;
  vc_virtual_session_handshake_timeout_seconds : spec_float;
  vc_virtual_session_timeout_min_seconds : spec_float;
  vc_virtual_session_timeout_rtt_multiplier : spec_float;
  vc_virtual_reliable_retry_fallback_seconds : Z;
  vc_reliable_delivery_max_attempts : Z;
}.

Record VirtualRouteEntryPoint := MkEntryPoint {
  ve_physical_node_id : string;
  ve_physical_node_public_key : string;
  ve_final_path_id : string;
  ve_rtt : pyint;
  ve_expires_at : string;
}.

(** [a / b] of integers: the quotient rounded once. *)
Definition exact_float (n : Z) : spec_float :=
  match n with
  | 0 => S754_zero false
  | Zpos p => S754_finite false p 0
  | Zneg p => S754_finite true p 0
  end.
Definition int_true_div (a b : Z) : spec_float := float_div (exact_float a) (exact_float b).

(** Finite floats by their exact value, in units of the least positive float. *)
Definition float_rank (f : spec_float) : Z :=
  let '(m, e) := float_parts f in m * 2 ^ (e + 1074).

Section client.
Context `{FloatText} `{IsoParser} `{Entropy} `{OpenSSL} `{AesGcmSiv} `{EngineIO} {venv : VirtualEnv}.
Context (config : VirtualClientConfig).

(** ** Entry points *)

(** [_expires_at_sort_key]: [parsed.timestamp()] is microseconds over a million. *)
Definition _expires_at_sort_key (expires_at : string) : spec_float :=
  match fromisoformat (replace_Z expires_at) with
  | None => exact_float 0
  | Some (Naive t) | Some (Aware t) => int_true_div t 1000000
  end.

Definition _transport_preference (transport_name : option string) : Z :=
  match transport_name with
  | Some "tcp" => 0
  | Some "relay_tcp" => 1
  | Some "udp" => 2
  | _ => 3
  end.

Definition _entry_point_reachability_score (db : Database) (entry_point : VirtualRouteEntryPoint)
    : Z :=
  match list_remote_physical_node_endpoints db (ve_physical_node_id entry_point) false with
  | [] => 3
  | endpoint :: endpoints =>
      foldl (fun least e => Z.min least (_transport_preference (Some (ne_transport e))))
        (_transport_preference (Some (ne_transport endpoint))) endpoints
  end.

Definition _is_valid_drt_route_entry (now : instant) (route_entry : DrtRouteEntryRecord)
    (virtual_node_public_key : string) : bool :=
  let virtual_payload := entry_point_virtual_payload route_entry in
  let physical_payload := entry_point_physical_payload route_entry virtual_node_public_key in
  if CommonTime.is_expired_iso_datetime now (re_expires_at route_entry) then false
  else
    bool_decide (re_virtual_node_signature route_entry
                 = re_entry_point_virtual_node_signature route_entry)
    && verify_dilithium_payload_signature virtual_payload (re_virtual_node_signature route_entry)
         virtual_node_public_key
    && verify_dilithium_payload_signature physical_payload
         (re_physical_node_signature route_entry) (re_pk_physical_node route_entry)
    && verify_dilithium_payload_signature physical_payload
         (re_entry_point_physical_node_signature route_entry) (re_pk_physical_node route_entry)
    && verify_dilithium_payload_signature (rtt_payload route_entry)
         (re_rtt_physical_node_signature route_entry) (re_pk_physical_node route_entry).

Definition _build_valid_entry_point (now : instant) (virtual_node_public_key : string)
    (route_entry : DrtRouteEntryRecord) : option VirtualRouteEntryPoint :=
  if negb (_is_valid_drt_route_entry now route_entry virtual_node_public_key) then None
  else Some (MkEntryPoint (sha512_hex (re_pk_physical_node route_entry))
               (re_pk_physical_node route_entry) (re_final_path_id route_entry)
               (re_rtt route_entry) (re_expires_at route_entry)).

Definition entry_point_key (db : Database) (entry_point : VirtualRouteEntryPoint) : Z * (Z * Z) :=
  (- _entry_point_reachability_score db entry_point,
   (float_rank (_expires_at_sort_key (ve_expires_at entry_point)),
    - pyint_val (ve_rtt entry_point))).

(** [sort(key=..., reverse=True)] keeps the order of equal entries. *)
Definition sort_entry_points (db : Database) (entry_points : list VirtualRouteEntryPoint)
    : list VirtualRouteEntryPoint :=
  reverse (py_sorted (entry_point_key db) (reverse entry_points)).

Definition _select_entry_points_from_drt_result (db : Database) (now : instant) (result : jdict)
    (remote_virtual_node_id : string) : res (list VirtualRouteEntryPoint) :=
  match truthy_str (py_get result "record_json") with
  | None => Raise (ValueError "drt_record_json_invalid")
  | Some record_json =>
      let! record := parse_record "drt" record_json in
      match record with
      | Drt record =>
          require! bool_decide (sha512_hex (drt_pk_virtual_node record) = remote_virtual_node_id)
            else ValueError "drt_record_belongs_to_another_virtual_node" in
          let valid_entries :=
            omap (_build_valid_entry_point now (drt_pk_virtual_node record))
              (drt_route_entries record) in
          match valid_entries with
          | [] => Raise (ValueError "drt_has_no_valid_entry_point")
          | _ => Ok (sort_entry_points db valid_entries)
          end
      | _ => Raise (ValueError "drt_payload_invalid")
      end
  end.

(** [str(result.get("status") or "not_found")] of a text. *)
Definition lookup_state (result : jdict) : string :=
  default "not_found" (truthy_str (py_get result "status")).

Definition no_route (last_error : string) : exn :=
  RuntimeError ("No valid DRT route was found for the remote virtual node within "
    +:+ vc_drt_lookup_timeout_text config +:+ "s. Last state: " +:+ last_error +:+ ".").

(** The loop of [_resolve_entry_points]; [rounds] of it are left. *)
Fixpoint lookup_entry_points (remote_virtual_node_id : string) (rounds : nat) (last_error : string)
    : st DhtNode (list VirtualRouteEntryPoint) :=
  match rounds with
  | O => raise (no_route last_error)
  | S rounds =>
      result ← virtual_dht_query "drt" remote_virtual_node_id;
      if bool_decide (py_get result "status" <> JStr "found")
      then
        modify sleep_tasks;;
        lookup_entry_points remote_virtual_node_id rounds (lookup_state result)
      else
        entry_points ← catch_value
          (entry_points ← (fun n => (_select_entry_points_from_drt_result
              (sv_database (dn_services n)) (sv_now (dn_services n)) result remote_virtual_node_id, n));
           mret (inl entry_points))
          (fun error => mret (inr error));
        match entry_points with
        | inr error =>
            modify sleep_tasks;;
            lookup_entry_points remote_virtual_node_id rounds error
        | inl entry_points => mret entry_points
        end
  end.

Definition _resolve_entry_points (remote_virtual_node_id : string)
    : st DhtNode (list VirtualRouteEntryPoint) :=
  lookup_entry_points remote_virtual_node_id (lookup_rounds remote_virtual_node_id) "not_found".

Definition _is_valid_dpnt_record (physical_node_id : string) (record : DpntRecordPayload) : res bool :=
  let! key_hex := build_key "dpnt" physical_node_id in
  Ok (verify_dilithium_payload_signature (dpnt_signed_payload key_hex record)
        (dpnt_signature record) (dpnt_pk_physical_node record)).

(** The checks of the record found under the id of the entry point. *)
Definition entry_point_dpnt (entry_point : VirtualRouteEntryPoint) (result : jdict)
    : res DpntRecordPayload :=
  match truthy_str (py_get result "record_json") with
  | None => Raise (RuntimeError "The DPNT response does not contain a valid record_json.")
  | Some record_json =>
      let! record := parse_record "dpnt" record_json in
      match record with
      | Dpnt record =>
          require! bool_decide (dpnt_pk_physical_node record = ve_physical_node_public_key entry_point)
            else RuntimeError "The resolved DPNT does not belong to the DRT entry point." in
          let! valid := _is_valid_dpnt_record (ve_physical_node_id entry_point) record in
          require! (valid : bool) else RuntimeError "The entry point DPNT has an invalid signature." in
          Ok record
      | _ => Raise (RuntimeError "The DPNT response does not contain a valid DPNT payload.")
      end
  end.

Definition entry_point_description (entry_point : VirtualRouteEntryPoint) (record : DpntRecordPayload)
    : NodeDescription :=
  MkNodeDescription (ve_physical_node_id entry_point) (dpnt_pk_physical_node record)
    (Some (dpnt_protocol_version record)) None (Some (dpnt_reachability_class record))
    (dpnt_relay_capable record) (dpnt_hole_punch_capable record)
    (Some (json_dumps (JObj [("source", JStr "drt_entry_point_dpnt");
                             ("dpnt_signature", JStr (dpnt_signature record));
                             ("dpnt_feature_flags", strings_json (dpnt_feature_flags record))]))).

Definition known_entry_point (db : Database) (physical_node_id : string) : bool :=
  bool_decide (is_Some (get_remote_physical_node_by_id db physical_node_id))
  && match list_remote_physical_node_endpoints db physical_node_id false with
     | [] => false | _ => true end.

Definition _ensure_entry_point_physical_node (entry_point : VirtualRouteEntryPoint)
    : st DhtNode unit :=
  known ← services (fun s => known_entry_point (sv_database s) (ve_physical_node_id entry_point));
  if known : bool then mret tt
  else
    result ← virtual_dht_query "dpnt" (ve_physical_node_id entry_point);
    ensure (bool_decide (py_get result "status" = JStr "found"))
      (RuntimeError "Could not resolve the physical entry point DPNT.");;
    record ← lift (entry_point_dpnt entry_point result);
    on_services (on_database (fun db now => upsert_discovered_remote_physical_node db now
      (entry_point_description entry_point record) (dpnt_endpoints record) (dpnt_status record)));;
    mret tt.

(** [max(0.001, rtt / 1000.0)] times the multiplier, and not less than the timeouts. *)
Definition _entry_point_handshake_timeout_seconds (entry_point : VirtualRouteEntryPoint)
    : res spec_float :=
  let! rtt := py_float_of_int (pyint_val (ve_rtt entry_point)) in
  let route_rtt_seconds :=
    py_max (int_true_div 1 1000) (float_div rtt (float_of_int 1000)) in
  let route_timeout_seconds :=
    float_mul route_rtt_seconds (vc_virtual_session_timeout_rtt_multiplier config) in
  Ok (py_max (py_max (vc_virtual_session_handshake_timeout_seconds config)
                (vc_virtual_session_timeout_min_seconds config)) route_timeout_seconds).

(** ** Sending *)

Definition _read_session_entry_point_physical_node_id (session : NetworkSession) : option string :=
  truthy_str (py_get (CommonJson.load_json_object (ns_metadata_json session))
                "entry_point_physical_node_id").

Definition _send_virtual_envelope (session : NetworkSession) (message_type : string)
    (payload : jdict) (virtual_envelope_ciphered : bool) : st Services unit :=
  match nonempty_column (ns_bound_route_id session) with
  | None => raise (ValueError "The virtual session has no associated local route.")
  | Some bound_route_id =>
      header ← build_message_header message_type None (Some (ns_session_id session));
      let virtual_envelope := [("header", JObj header); ("payload", JObj payload)] in
      match _read_session_entry_point_physical_node_id session with
      | Some entry_point_physical_node_id =>
          send_to_entry_point entry_point_physical_node_id bound_route_id virtual_envelope
            virtual_envelope_ciphered (Some (ns_session_id session));;
          mret tt
      | None =>
          send_from_local_route bound_route_id virtual_envelope virtual_envelope_ciphered
            (Some (ns_session_id session));;
          mret tt
      end
  end.

Definition _require_session (session_id : string) : st Services NetworkSession :=
  session ← find_session session_id;
  match session with
  | Some session =>
      if bool_decide (ns_session_scope session <> "virtual")
      then raise (ValueError "The provided virtual session does not exist in memory.")
      else mret session
  | None => raise (ValueError "The provided virtual session does not exist in memory.")
  end.

Definition _require_active_session (session_id : string) : st Services NetworkSession :=
  session ← _require_session session_id;
  if bool_decide (ns_session_state session <> "active")
  then raise (ValueError "The provided virtual session is not active.")
  else mret session.

Definition send_keepalive (session_id : string) : st Services unit :=
  session ← _require_active_session session_id;
  _send_virtual_envelope session "VIRTUAL_SESSION_KEEPALIVE" [] true;;
  on_sessions (fun sm now => mark_keepalive_sent sm (ns_session_id session) now);;
  mret tt.

Definition _send_reliable_outbound_message (reliable_message : ReliableOutboundMessage)
    : st Services unit :=
  session ← _require_active_session (om_session_id reliable_message);
  _send_virtual_envelope session "VIRTUAL_SESSION_RELIABLE_DATA"
    (to_reliable_payload reliable_message) true;;
  on_sessions (fun sm now => mark_reliable_outbound_sent sm now (om_session_id reliable_message)
    (om_sequence_number reliable_message));;
  mret tt.

Definition resend_reliable_message (reliable_message : ReliableOutboundMessage) : st Services unit :=
  _send_reliable_outbound_message reliable_message.

(** [session_manager.prepare_reliable_outbound] of VIRTUAL_SESSION_DATA. *)
Definition prepare_data (session_id : string) (inner_payload : jdict)
    : st Services ReliableOutboundMessage :=
  uuid ← new_uuid;
  ((fun s =>
      match prepare_reliable_outbound (sv_session_manager s) uuid (sv_now s) session_id
              "VIRTUAL_SESSION_DATA" inner_payload
              (vc_virtual_reliable_retry_fallback_seconds config)
              (vc_reliable_delivery_max_attempts config) with
      | Ok (message, sm) => (Ok message, s <| sv_session_manager := sm |>)
      | Raise e => (Raise e, s)
      end) : st Services ReliableOutboundMessage).

Definition send_message (session_id app_message_type : string) (payload : jdict)
    (request_id : option string) : st Services string :=
  ensure (str_truthy app_message_type) (ValueError "app_message_type cannot be empty.");;
  session ← _require_active_session session_id;
  message_request_id ← match nonempty_column request_id with
                       | Some request_id => mret request_id
                       | None => new_uuid
                       end;
  reliable_message ← prepare_data (ns_session_id session)
    [("app_message_type", JStr app_message_type); ("request_id", JStr message_request_id);
     ("payload", JObj payload)];
  _send_reliable_outbound_message reliable_message;;
  mret message_request_id.

Definition send_protocol_message (session_id message_type : string) (payload : jdict)
    (virtual_envelope_ciphered : bool) : st Services unit :=
  ensure (str_truthy message_type) (ValueError "message_type cannot be empty.");;
  session ← _require_active_session session_id;
  _send_virtual_envelope session message_type payload virtual_envelope_ciphered.

Definition close_session (session_id close_reason : string) : st Services unit :=
  session ← _require_session session_id;
  _send_virtual_envelope session "VIRTUAL_SESSION_CLOSE" [("close_reason", JStr close_reason)] true.

(** ** Opening a session *)

(** The loop until the deadline; [polls] of its rounds are left. *)
Fixpoint poll_activation (session_id : string) (polls : nat) : st DhtNode bool :=
  match polls with
  | O => mret false
  | S polls =>
      session ← services (fun s => get_session_by_session_id (sv_session_manager s) session_id);
      match session with
      | None => mret false
      | Some session =>
          if bool_decide (ns_session_state session = "active") then mret true
          else if bool_decide (ns_session_state session = "closed") then mret false
          else modify sleep_tasks;; poll_activation session_id polls
      end
  end.

Definition _wait_for_activation (session_id : string) (timeout_seconds : option spec_float)
    : st DhtNode bool :=
  poll_activation session_id (activation_polls session_id timeout_seconds).

Definition _get_active_virtual_session (local_virtual_node_id remote_virtual_node_id : string)
    (sm : SessionManager) : option NetworkSession :=
  get_active_virtual_session_by_local_and_remote_node_id sm local_virtual_node_id
    remote_virtual_node_id.

(** [session_manager.create_outbound_virtual_session] *)
Definition create_outbound_virtual (local_virtual_node_id remote_virtual_node_id : string)
    (remote_public_key : option string) (bound_route_id : string) : st Services NetworkSession :=
  uuid ← new_uuid;
  ((fun s =>
      match create_outbound_virtual_session (sv_session_manager s) uuid (sv_now s)
              local_virtual_node_id remote_virtual_node_id remote_public_key (Some bound_route_id)
              (vc_session_keepalive_seconds config) with
      | Ok (session, sm) => (Ok session, s <| sv_session_manager := sm |>)
      | Raise e => (Raise e, s)
      end) : st Services NetworkSession).

Definition init_content (local_virtual_node : LocalVirtualNodeIdentity)
    (local_virtual_node_id remote_virtual_node_id : string) : jdict :=
  [("initiator_virtual_node_id", JStr local_virtual_node_id);
   ("initiator_virtual_node_public_key", JStr (lv_public_key local_virtual_node));
   ("target_virtual_node_id", JStr remote_virtual_node_id);
   ("keepalive_interval_seconds", JInt (vc_session_keepalive_seconds config))].

(** The [try] block of both: INIT is sent and the activation waited for; when that
    raises the session is closed, and when it is not activated in time too. *)
Definition open_or_close (session : NetworkSession) (init : jdict)
    (timeout_seconds : option spec_float) (not_established : string) : st DhtNode string :=
  activated ← catch_exn (fun _ => true)
    (on_services (_send_virtual_envelope session "VIRTUAL_SESSION_INIT" init false);;
     _wait_for_activation (ns_session_id session) timeout_seconds)
    (fun error =>
       on_services (close_failed_handshake_session (ns_session_id session));;
       raise error);
  if activated : bool then mret (ns_session_id session)
  else
    on_services (close_failed_handshake_session (ns_session_id session));;
    raise (RuntimeError not_established).

Definition remote_key (remote_virtual_node_id : string) (s : Services) : option string :=
  rv_public_key <$> get_remote_virtual_node_by_id (sv_database s) remote_virtual_node_id.

Definition missing_local_node : exn := ValueError "The provided local virtual node does not exist.".

Definition start_session (local_route_path_id local_virtual_node_id remote_virtual_node_id : string)
    : st DhtNode string :=
  existing_session ← services (fun s => _get_active_virtual_session local_virtual_node_id
    remote_virtual_node_id (sv_session_manager s));
  match existing_session with
  | Some existing_session => mret (ns_session_id existing_session)
  | None =>
      local_virtual_node ← services (fun s =>
        get_local_virtual_node_by_id (sv_database s) local_virtual_node_id);
      match local_virtual_node with
      | None => raise missing_local_node
      | Some local_virtual_node =>
          remote_public_key ← services (remote_key remote_virtual_node_id);
          session ← on_services (create_outbound_virtual local_virtual_node_id
            remote_virtual_node_id remote_public_key local_route_path_id);
          open_or_close session
            (init_content local_virtual_node local_virtual_node_id remote_virtual_node_id) None
            "Could not establish the virtual session over the provided route."
      end
  end.

Definition entry_point_metadata (entry_point : VirtualRouteEntryPoint) : string :=
  json_dumps (JObj [("route_source", JStr "drt");
                    ("entry_point_physical_node_id", JStr (ve_physical_node_id entry_point));
                    ("entry_point_public_key", JStr (ve_physical_node_public_key entry_point));
                    ("entry_point_rtt", pyint_json (ve_rtt entry_point))]).

(** [session.metadata_json = ...] on the session object. *)
Definition set_metadata (session : NetworkSession) (metadata_json : string)
    : st Services NetworkSession :=
  let f (n : NetworkSession) := n <| ns_metadata_json := Some metadata_json |> in
  on_sessions (fun sm _ => modify_session sm (ns_session_id session) f);;
  mret (f session).

Definition _start_session_over_entry_point (local_virtual_node_id remote_virtual_node_id : string)
    (remote_public_key : option string) (entry_point : VirtualRouteEntryPoint)
    (timeout_seconds : option spec_float) : st DhtNode string :=
  existing_session ← services (fun s => _get_active_virtual_session local_virtual_node_id
    remote_virtual_node_id (sv_session_manager s));
  match existing_session with
  | Some existing_session => mret (ns_session_id existing_session)
  | None =>
      local_virtual_node ← services (fun s =>
        get_local_virtual_node_by_id (sv_database s) local_virtual_node_id);
      match local_virtual_node with
      | None => raise missing_local_node
      | Some local_virtual_node =>
          session ← on_services (create_outbound_virtual local_virtual_node_id
            remote_virtual_node_id remote_public_key (ve_final_path_id entry_point));
          session ← on_services (set_metadata session (entry_point_metadata entry_point));
          open_or_close session
            (init_content local_virtual_node local_virtual_node_id remote_virtual_node_id)
            timeout_seconds "Could not establish the virtual session through DRT."
      end
  end.

Definition no_entry_point (last_error : string) : exn :=
  RuntimeError ("Could not establish the virtual session through any DRT entry point. Last error: "
                +:+ last_error).

(** The loop over the entry points; any failure of one moves on to the next. *)
Fixpoint try_entry_points (local_virtual_node_id remote_virtual_node_id : string)
    (remote_public_key : option string) (last_error : string)
    (entry_points : list VirtualRouteEntryPoint) : st DhtNode string :=
  match entry_points with
  | [] => raise (no_entry_point last_error)
  | entry_point :: entry_points =>
      attempt ← catch_exn (fun _ => true)
        (_ensure_entry_point_physical_node entry_point;;
         timeout_seconds ← lift (_entry_point_handshake_timeout_seconds entry_point);
         session_id ← _start_session_over_entry_point local_virtual_node_id
           remote_virtual_node_id remote_public_key entry_point (Some timeout_seconds);
         mret (inl session_id))
        (fun error => mret (inr (virtual_error_repr error)));
      match attempt with
      | inl session_id => mret session_id
      | inr error =>
          try_entry_points local_virtual_node_id remote_virtual_node_id remote_public_key error
            entry_points
      end
  end.

Definition start_session_to_virtual_node (local_virtual_node_id remote_virtual_node_id : string)
    : st DhtNode string :=
  local_virtual_node ← services (fun s =>
    get_local_virtual_node_by_id (sv_database s) local_virtual_node_id);
  match local_virtual_node with
  | None => raise missing_local_node
  | Some _ =>
      remote_public_key ← services (remote_key remote_virtual_node_id);
      entry_points ← _resolve_entry_points remote_virtual_node_id;
      try_entry_points local_virtual_node_id remote_virtual_node_id remote_public_key "None"
        entry_points
  end.
End client.

(** ** Entry points *)

Section entry_points.
Context `{FloatText} `{IsoParser} `{OpenSSL}.

(** The entry is signed by the virtual node and by the physical node it names, and has
    not expired. *)
Record signed_entry (now : instant) (virtual_key : string) (e : DrtRouteEntryRecord) : Prop := {
  se_fresh : CommonTime.is_expired_iso_datetime now (re_expires_at e) = false;
  se_virtual : verify_dilithium_payload_signature (entry_point_virtual_payload e)
    (re_virtual_node_signature e) virtual_key = true;
  se_physical : verify_dilithium_payload_signature (entry_point_physical_payload e virtual_key)
    (re_physical_node_signature e) (re_pk_physical_node e) = true;
  se_entry_physical : verify_dilithium_payload_signature (entry_point_physical_payload e virtual_key)
    (re_entry_point_physical_node_signature e) (re_pk_physical_node e) = true;
  se_rtt : verify_dilithium_payload_signature (rtt_payload e) (re_rtt_physical_node_signature e)
    (re_pk_physical_node e) = true;
  se_entry_virtual : re_entry_point_virtual_node_signature e = re_virtual_node_signature e;
}.

Lemma valid_entry_spec now virtual_key e :
  _is_valid_drt_route_entry now e virtual_key = true <-> signed_entry now virtual_key e.
Proof.
  unfold _is_valid_drt_route_entry. destruct (CommonTime.is_expired_iso_datetime _ _) eqn:Hexp.
  - split; [done|]. intros []. congruence.
  - rewrite !andb_true_iff, bool_decide_eq_true.
    split; [intros [[[[? ?] ?] ?] ?]; by split|intros []; by split_and!].
Qed.

(** Better entry points first: the reachable ones, then the ones that expire last, then
    the nearer ones. *)
Definition not_worse (db : Database) (x y : VirtualRouteEntryPoint) : Prop :=
  cmp_le (entry_point_key db y) (entry_point_key db x).

Lemma sorted_reverse {A} (R : relation A) l :
  StronglySorted R l -> StronglySorted (flip R) (reverse l).
Proof.
  induction 1 as [|x l Hl IH Hx]; [constructor|]. rewrite reverse_cons.
  apply StronglySorted_app_2; [|done|repeat constructor].
  intros y z Hy Hz. rewrite elem_of_reverse in Hy. apply list_elem_of_singleton in Hz as ->.
  rewrite Forall_forall in Hx. exact (Hx y Hy).
Qed.

Lemma sort_entry_points_spec db l :
  sort_entry_points db l ≡ₚ l /\ StronglySorted (not_worse db) (sort_entry_points db l).
Proof.
  unfold sort_entry_points. split.
  - by rewrite reverse_Permutation, py_sorted_Permutation, reverse_Permutation.
  - exact (sorted_reverse (key_le (entry_point_key db)) _ (py_sorted_sorted _ _)).
Qed.

(** The entry points of an answer of the DHT are those of the signed entries. *)
Definition entry_point_of (virtual_id : string) (record_json : string) (now : instant)
    (p : VirtualRouteEntryPoint) : Prop :=
  exists record e, parse_record "drt" record_json = Ok (Drt record) /\
    sha512_hex (drt_pk_virtual_node record) = virtual_id /\
    e ∈ drt_route_entries record /\ signed_entry now (drt_pk_virtual_node record) e /\
    p = MkEntryPoint (sha512_hex (re_pk_physical_node e)) (re_pk_physical_node e)
          (re_final_path_id e) (re_rtt e) (re_expires_at e).

Lemma selected_entry_points db now result virtual_id entry_points :
  _select_entry_points_from_drt_result db now result virtual_id = Ok entry_points ->
  entry_points <> [] /\ StronglySorted (not_worse db) entry_points /\
  exists record_json, py_get result "record_json" = JStr record_json /\
  forall p, p ∈ entry_points <-> entry_point_of virtual_id record_json now p.
Proof.
  unfold _select_entry_points_from_drt_result.
  destruct (py_get result "record_json") as [| | | |record_json| |]; try done. cbn [truthy_str].
  destruct (str_truthy record_json); [|done].
  destruct (parse_record "drt" record_json) as [[|record| | |]|] eqn:Hparse; try done.
  cbn [mbind res_bind]. case_bool_decide as Hid; [|done].
  set (valid := omap _ _). destruct valid as [|v vs] eqn:Hvalid; [done|]. rewrite <- Hvalid. intros [= <-].
  destruct (sort_entry_points_spec db valid) as [Hperm Hsorted].
  split. { intros Hnil. rewrite Hnil in Hperm. apply Permutation_nil_l in Hperm. congruence. }
  split; [done|]. exists record_json. split; [done|]. intros p. rewrite Hperm. unfold valid.
  rewrite list_elem_of_omap. unfold _build_valid_entry_point. split.
  - intros (e & Hin & Hp). destruct (_is_valid_drt_route_entry _ _ _) eqn:Hv; [|done].
    apply valid_entry_spec in Hv. injection Hp as <-. by exists record, e.
  - intros (record' & e & Hparse' & _ & Hin & Hv & ->).
    rewrite Hparse in Hparse'. injection Hparse' as <-. exists e. split; [done|].
    apply valid_entry_spec in Hv. by rewrite Hv.
Qed.
End entry_points.

(** ** Whom a virtual session is between *)

Definition virtual_between (local_id remote_id : string) (n : NetworkSession) : Prop :=
  ns_session_scope n = "virtual" /\ ns_local_identity_id n = local_id /\
  ns_remote_identity_id n = remote_id.

(** Once there is a session, it is between the same nodes, whatever other tasks do while
    the client sleeps and however physical sessions are opened: no code deletes a session
    or writes these fields. *)
Class VirtualTaskLaws `{EngineIO} {venv : VirtualEnv} := {
  sleep_tasks_keep : forall n sid local_id remote_id,
    holds sid (virtual_between local_id remote_id) (sv_session_manager (dn_services n)) ->
    holds sid (virtual_between local_id remote_id) (sv_session_manager (dn_services (sleep_tasks n)));
  io_start_session_keeps : forall node_id sid local_id remote_id,
    keeps sid (virtual_between local_id remote_id) (io_start_session node_id);
}.

(** Sending over a route: a relation on states that allows closing a physical session
    that fails, and opening another, holds of it. *)
Section envelope.
Context `{FloatText} `{Entropy} `{OpenSSL} `{AesGcmSiv} `{EngineIO} {venv : VirtualEnv}.
Context (R : Services -> Services -> Prop) (HR : traffic_relation R).
Context (Hfail : forall sid, does R (close_failed sid)).
Context (Hstart : forall node_id, does R (io_start_session node_id)).

#[local] Instance envelope_preorder : PreOrder R := traffic_preorder R HR.

Ltac pass :=
  repeat first
    [ match goal with Hk : forall _, _ |- does _ _ => apply Hk end
    | apply (does_send R HR) | apply (does_header R HR) | apply (does_encrypt R HR)
    | apply (traffic_touch R HR) | apply (does_bind R) | apply (does_catch R)
    | by apply (does_pure R) | progress intros | case_match ].

Lemma does_forward node_id ty payload force :
  does R (forward_message_to_remote_physical_node node_id ty payload force).
Proof using HR Hfail Hstart.
  unfold forward_message_to_remote_physical_node, _send_message_over_physical_session,
    _ensure_active_physical_session. pass.
Qed.

Lemma does_route_data vs ve ciphered direction :
  does R (_build_route_data_payload vs ve ciphered direction).
Proof using HR. unfold _build_route_data_payload, ensure. pass. Qed.

Lemma does_send_envelope session ty payload ciphered :
  does R (_send_virtual_envelope session ty payload ciphered).
Proof using HR Hfail Hstart.
  pose proof does_forward as Hf. pose proof does_route_data as Hd.
  unfold _send_virtual_envelope, send_to_entry_point, send_from_local_route, send_route_data. pass.
Qed.
End envelope.

Section between.
Context `{FloatText} `{IsoParser} `{Entropy} `{OpenSSL} `{AesGcmSiv} `{EngineIO} {venv : VirtualEnv}.
Context {vlaws : VirtualTaskLaws}.
Context (config : VirtualClientConfig).
Context (sid local_id remote_id : string).

Let Q : NetworkSession -> Prop := virtual_between local_id remote_id.

Lemma keeps_send_envelope session ty payload ciphered :
  keeps sid Q (_send_virtual_envelope session ty payload ciphered).
Proof using vlaws.
  apply does_send_envelope.
  - apply preserves_traffic. by intros now [|] [].
  - intros sid'. apply (keeps_modify sid Q (fun now => update_fields
      (MkSessionStateUpdateInput (Some "closed") (Some "closed") None None None (Some now)
         (Some "transport_send_failed") None None None))).
    by intros now [].
  - intros node_id. apply io_start_session_keeps.
Qed.

Lemma poll_between polls : forall n n',
  holds sid Q (sv_session_manager (dn_services n)) ->
  poll_activation sid polls n = (Ok true, n') ->
  holds sid (fun session => ns_session_state session = "active" /\ Q session)
    (sv_session_manager (dn_services n')).
Proof using vlaws.
  induction polls as [|polls IH]; intros n n' Hq Hr; [done|]. cbn [poll_activation] in Hr.
  apply st_bind_Ok in Hr as (found & n1 & Hf & Hr). injection Hf as <- <-.
  destruct Hq as (session & Hg & Hq). rewrite Hg in Hr.
  case_bool_decide as Ha; [injection Hr as <-; by exists session|]. case_bool_decide; [done|].
  apply st_bind_Ok in Hr as ([] & n1 & Ht & Hr). injection Ht as <-. eapply IH; [|exact Hr].
  apply sleep_tasks_keep. by exists session.
Qed.
End between.

(** The session with this id is active, virtual, and between these nodes. *)
Definition active_between (sid local_id remote_id : string) (sm : SessionManager) : Prop :=
  exists session, ns_session_state session = "active" /\
    virtual_between local_id remote_id session /\
    (session ∈ list_active_sessions sm /\ ns_session_id session = sid \/
     get_session_by_session_id sm sid = Some session).

Section opened.
Context `{FloatText} `{IsoParser} `{Entropy} `{OpenSSL} `{AesGcmSiv} `{EngineIO} {venv : VirtualEnv}.
Context {vlaws : VirtualTaskLaws}.
Context (config : VirtualClientConfig).

Lemma existing_between local_id remote_id sm session :
  _get_active_virtual_session local_id remote_id sm = Some session ->
  active_between (ns_session_id session) local_id remote_id sm.
Proof using.
  unfold _get_active_virtual_session, get_active_virtual_session_by_local_and_remote_node_id, first_such.
  intros [Hin Hb]%find_some. rewrite !andb_true_iff, !bool_decide_eq_true in Hb.
  destruct Hb as [[Hscope Hl] Hr]. apply list_elem_of_In in Hin. exists session.
  split; [|split; [done|by left]].
  unfold list_active_sessions in Hin. by apply list_elem_of_filter in Hin as [Ha _].
Qed.

Lemma create_between local_id remote_id key route s session s' :
  create_outbound_virtual config local_id remote_id key route s = (Ok session, s') ->
  holds (ns_session_id session) (virtual_between local_id remote_id) (sv_session_manager s').
Proof using.
  intros Hr. apply st_bind_Ok in Hr as (uuid & s1 & Hu & Hr). injection Hu as <- <-.
  unfold create_outbound_virtual_session, create_session in Hr.
  destruct (get_session_by_session_id _ _); [discriminate Hr|]. injection Hr as <- <-.
  eexists. split; [|shelve]. unfold get_session_by_session_id, deref. cbn.
  rewrite lookup_insert_eq. cbn. rewrite lookup_insert_eq. reflexivity.
  Unshelve. by split_and!.
Qed.

Lemma open_between session init timeout message local_id remote_id n sid n' :
  holds (ns_session_id session) (virtual_between local_id remote_id)
    (sv_session_manager (dn_services n)) ->
  open_or_close session init timeout message n = (Ok sid, n') ->
  active_between sid local_id remote_id (sv_session_manager (dn_services n')).
Proof using vlaws.
  intros Hq Hr. unfold open_or_close in Hr. apply st_bind_Ok in Hr as (activated & n1 & Ha & Hr).
  destruct activated;
    [|apply st_bind_Ok in Hr as (u & n2 & _ & Hr); discriminate Hr].
  injection Hr as <- ->. unfold catch_exn in Ha.
  match type of Ha with context [mbind ?k ?m n] => destruct (mbind k m n) as [[b|e] n2] eqn:E end.
  2: { cbn in Ha. apply st_bind_Ok in Ha as (u & n3 & _ & Ha). discriminate Ha. }
  injection Ha as -> ->. apply st_bind_Ok in E as ([] & n3 & Hsend & Hw).
  unfold on_services in Hsend. destruct (_send_virtual_envelope _ _ _ _ _) as [r s1] eqn:Es.
  injection Hsend as -> <-.
  pose proof (keeps_send_envelope (ns_session_id session) local_id remote_id _ _ _ _ _ _ _ Es Hq) as Hq1.
  edestruct (poll_between (ns_session_id session) local_id remote_id) as (found & Hg & Hact & Hb);
    [|exact Hw|]; [exact Hq1|].
  exists found. split; [done|]. split; [done|by right].
Qed.

Lemma start_over_between local_id remote_id key entry_point timeout n sid n' :
  _start_session_over_entry_point config local_id remote_id key entry_point timeout n = (Ok sid, n') ->
  active_between sid local_id remote_id (sv_session_manager (dn_services n')).
Proof using vlaws.
  intros Hr. unfold _start_session_over_entry_point in Hr.
  apply st_bind_Ok in Hr as (existing & n1 & Hex & Hr). injection Hex as <- <-.
  destruct (_get_active_virtual_session _ _ _) as [session|] eqn:E;
    [injection Hr as <- <-; by apply existing_between|].
  apply st_bind_Ok in Hr as (local & n1 & Hl & Hr). injection Hl as <- <-.
  destruct (get_local_virtual_node_by_id _ _) as [local|]; [|discriminate Hr].
  apply st_bind_Ok in Hr as (session & n1 & Hc & Hr). unfold on_services in Hc.
  destruct (create_outbound_virtual _ _ _ _ _ _) as [r s1] eqn:Ec. injection Hc as -> <-.
  apply create_between in Ec. apply st_bind_Ok in Hr as (session2 & n2 & Hm & Hr).
  unfold on_services in Hm. destruct (set_metadata _ _ _) as [r s2] eqn:Em. injection Hm as -> <-.
  unfold set_metadata in Em. cbv zeta in Em. apply st_bind_Ok in Em as (o & s3 & Hmod & Hret).
  injection Hret as <- <-. eapply open_between; [|exact Hr].
  change (ns_session_id (session <| ns_metadata_json := Some (entry_point_metadata entry_point) |>))
    with (ns_session_id session).
  eapply (keeps_modify _ _ (fun _ n => n <| ns_metadata_json := Some (entry_point_metadata entry_point) |>));
    [|exact Hmod|exact Ec].
  by intros _ [].
Qed.

Lemma try_entry_points_between local_id remote_id key entry_points : forall last n sid n',
  try_entry_points config local_id remote_id key last entry_points n = (Ok sid, n') ->
  active_between sid local_id remote_id (sv_session_manager (dn_services n')).
Proof using vlaws.
  induction entry_points as [|p entry_points IH]; intros last n sid n' Hr; [done|].
  cbn [try_entry_points] in Hr. apply st_bind_Ok in Hr as (attempt & n1 & Ha & Hr).
  unfold catch_exn in Ha.
  match type of Ha with context [mbind ?k ?m n] => destruct (mbind k m n) as [[b|e] n2] eqn:E end.
  - injection Ha as <- <-. apply st_bind_Ok in E as (u & n3 & _ & E).
    apply st_bind_Ok in E as (t & n4 & _ & E). apply st_bind_Ok in E as (sid' & n5 & Hs & E).
    injection E as <- <-. injection Hr as <- <-. by eapply start_over_between.
  - cbn in Ha. injection Ha as <- <-. by eapply IH.
Qed.
End opened.

(** ** Claims *)

Section claims.
Context `{FloatText} `{IsoParser} `{Entropy} `{OpenSSL} `{AesGcmSiv} `{EngineIO} {venv : VirtualEnv}.
Context (config : VirtualClientConfig).


Context {vlaws : VirtualTaskLaws}.

(** Closing a failed handshake does not raise, and leaves the session active if it was
    and closed otherwise. *)
Lemma close_failed_run session_id (n : DhtNode) :
  exists n', on_services (close_failed_handshake_session session_id) n = (Ok tt, n') /\
    forall s, get_session_by_session_id (sv_session_manager (dn_services n')) session_id = Some s ->
    ns_session_state s = "closed" \/ ns_session_state s = "active".
Proof using.
  unfold on_services, close_failed_handshake_session, find_session.
  erewrite st_bind_run by reflexivity.
  destruct (get_session_by_session_id _ session_id) as [found|] eqn:Hg.
  2: { eexists. split; [reflexivity|]. intros s Hs. cbn in Hs. congruence. }
  case_bool_decide as Ha.
  2: { eexists. split; [reflexivity|]. intros s Hs. right. cbn in Hs. congruence. }
  unfold mbind, st_bind, on_sessions, Sessions.close_session, update_session_state.
  set (f := update_fields _). rewrite (modify_present _ _ f _ Hg).
  eexists. split; [reflexivity|]. intros s Hs. left.
  revert Hs Hg. cbn. unfold modify_session, get_session_by_session_id, deref.
  destruct (sm_sessions_by_session_id _ !! _) as [l|] eqn:El; [|done]. cbn. intros Hs Hg.
  rewrite Hg in Hs. cbn in Hs. rewrite El in Hs. cbn in Hs. rewrite lookup_insert_eq in Hs.
  by injection Hs as <-.
Qed.

(** A failed handshake leaves no session half open. *)
Lemma failed_not_pending session init timeout message n e n' :
  open_or_close session init timeout message n = (Raise e, n') ->
  forall s, get_session_by_session_id (sv_session_manager (dn_services n')) (ns_session_id session) = Some s ->
  ns_session_state s = "closed" \/ ns_session_state s = "active".
Proof using.
  intros Hr. unfold open_or_close in Hr. unfold mbind at 1, st_bind at 1 in Hr. unfold catch_exn in Hr.
  match type of Hr with context [mbind ?k ?m n] => destruct (mbind k m n) as [[b|err] n2] end.
  - destruct b; [discriminate Hr|]. destruct (close_failed_run (ns_session_id session) n2) as (n3 & Hc & Hs).
    rewrite (st_bind_run _ _ _ _ _ Hc) in Hr. injection Hr as _ <-. exact Hs.
  - cbv beta iota in Hr. destruct (close_failed_run (ns_session_id session) n2) as (n3 & Hc & Hs).
    rewrite (st_bind_run _ _ _ _ _ Hc) in Hr. injection Hr as _ <-. exact Hs.
Qed.

(** C12: whom a virtual session the client gives is between. Over a route of this node
    or over an entry point, what it returns is the id of an active virtual session
    between the local node and the remote node it was asked for, one there was or one
    it opened; and when the handshake over one route fails, its session is not left
    pending. *)
Theorem virtual_session_opened (local_id remote_id route sid : string) (n n' : DhtNode) :
  (start_session_to_virtual_node config local_id remote_id n = (Ok sid, n') \/
   start_session config route local_id remote_id n = (Ok sid, n') ->
   active_between sid local_id remote_id (sv_session_manager (dn_services n'))) /\
  (forall session init timeout message e,
     open_or_close session init timeout message n = (Raise e, n') ->
     forall s, get_session_by_session_id (sv_session_manager (dn_services n')) (ns_session_id session)
               = Some s -> ns_session_state s = "closed" \/ ns_session_state s = "active").
Proof.
  split; [|by intros; eapply failed_not_pending]. intros [Hr|Hr].
  - unfold start_session_to_virtual_node in Hr. apply st_bind_Ok in Hr as (local & n1 & _ & Hr).
    destruct local as [local|]; [|discriminate Hr]. apply st_bind_Ok in Hr as (key & n2 & _ & Hr).
    apply st_bind_Ok in Hr as (entry_points & n3 & _ & Hr). by eapply try_entry_points_between.
  - unfold start_session in Hr. apply st_bind_Ok in Hr as (existing & n1 & Hex & Hr). injection Hex as <- <-.
    destruct (_get_active_virtual_session _ _ _) as [session|] eqn:E;
      [injection Hr as <- <-; by apply existing_between|].
    apply st_bind_Ok in Hr as (local & n1 & Hl & Hr). injection Hl as <- <-.
    destruct (get_local_virtual_node_by_id _ _) as [local|]; [|discriminate Hr].
    apply st_bind_Ok in Hr as (key & n1 & Hk & Hr). injection Hk as <- <-.
    apply st_bind_Ok in Hr as (session & n1 & Hc & Hr). unfold on_services in Hc.
    destruct (create_outbound_virtual _ _ _ _ _ _) as [r s1] eqn:Ec. injection Hc as -> <-.
    apply create_between in Ec. eapply open_between; [|exact Hr]. exact Ec.
Qed.
End claims.

(** ** Witnesses *)

#[local] Existing Instance Crypto.demo_aead.
#[local] Existing Instance Engine.demo_entropy.
#[local] Existing Instance Engine.demo_io.
#[local] Existing Instance PhysicalSession.demo_float.
#[local] Existing Instance Merge.demo_openssl.
#[local] Existing Instance iso_extended.

Definition demo_virtual_config : VirtualClientConfig :=
  MkVirtualClientConfig "20.0" 20 (float_of_int 60) (float_of_int 60) (float_of_int 6) 5000000 5.

(** The DHT knows the record of [Merge]; while the client sleeps the first session it
    opened becomes active. *)
#[local] Instance demo_virtual_env : VirtualEnv := {|
  activation_polls := fun _ _ => 3%nat;
  lookup_rounds := fun _ => 2%nat;
  sleep_tasks := fun n => n <| dn_services := dn_services n <| sv_session_manager :=
    (activate_session (sv_session_manager (dn_services n)) (uuid4 0) 2000).2 |> |>;
  virtual_dht_query := fun _ _ => mret
    [("status", JStr "found"); ("record_json", JStr (serialize_record (Drt Merge.demo_parent)))];
  virtual_error_repr := fun _ => "error";
|}.

#[local] Instance demo_virtual_laws : VirtualTaskLaws.
Proof.
  split.
  - intros n sid l r Hn. by apply modify_holds; [intros []|].
  - intros node_id sid l r. by apply (does_pure (preserves _ _)).
Qed.

Definition demo_local_virtual : LocalVirtualNodeIdentity :=
  MkLocalVirtualNode "vn-a" "pk-a" "sk-a" "default" "pn-a" None true None 0.

Definition demo_virtual_client : DhtNode :=
  MkDhtNode (MkServices new_session_manager (sv_routes demo_entry)
    (MkDatabase [] [demo_local_virtual] [] [] [] [] []) ∅ 0 3000 0 [] []) [] [] [] [].


Lemma virtual_session_opened_witness :
  exists sid n', start_session demo_virtual_config "q" "vn-a" "vn-b" demo_virtual_client = (Ok sid, n') /\
    active_between sid "vn-a" "vn-b" (sv_session_manager (dn_services n')).
Proof.
  destruct (start_session demo_virtual_config "q" "vn-a" "vn-b" demo_virtual_client)
    as [[sid|e] n'] eqn:Hr.
  - exists sid, n'. split; [reflexivity|].
    exact (proj1 (virtual_session_opened demo_virtual_config "vn-a" "vn-b" "q" sid demo_virtual_client n')
      (or_intror Hr)).
  - exfalso. assert (is_ok (start_session demo_virtual_config "q" "vn-a" "vn-b" demo_virtual_client).1 = true)
      as Hok by (vm_compute; reflexivity).
    rewrite Hr in Hok. discriminate Hok.
Defined.
