(* ===== verification/SessionRuntime.v ===== *)
(** * The session runtime

    Models [SessionRuntime] ([src/app/core/runtime/session_runtime.py]): one iteration
    sends again the reliable messages that are due, closes the sessions whose time is
    over, and sends the keepalives. Each session has a timeout of its own: the one of a
    virtual session follows the round trip of its route. *)

From S2P Require Import Prelude PyJson PyTime PyInt PyFloat Sha512 Crypto JsonText Records Transport.
From S2P Require Import Reliable Sessions Identity RouteService Core Registry Engine RouteExecute.
From S2P Require Import PhysicalSession SessionClient RouteClient VirtualClient.

(** The settings that are not those of the clients. *)
Record RuntimeConfig := MkRuntimeConfig {
  rc_virtual_reliable_retry_rtt_multiplier : spec_float;
  rc_virtual_reliable_retry_min_seconds : spec_float;
  rc_virtual_reliable_retry_max_seconds : spec_float;
}.

(** ** Durations *)

Definition timedelta_overflow : exn := OtherError "OverflowError: timedelta".

(** [timedelta(seconds=f)] in microseconds: the fraction is rounded to an even
    microsecond, and a timedelta has at most 999999999 days. *)
Definition timedelta_seconds (f : spec_float) : res Z :=
  let! whole := py_int_of_float f in
  let! micros := py_round (float_mul (float_of_int 1000000) (float_sub f (float_of_int whole))) in
  let total := seconds whole + micros in
  if (- seconds (86400 * 999999999) <=? total) && (total <? seconds (86400 * 1000000000)) then Ok total
  else Raise timedelta_overflow.

Definition num_positive (value : pynum) : bool :=
  match value with NInt n => 0 <? n | NFloat f => float_ltb (S754_zero false) f end.

Section runtime.
Context `{FloatText} `{FloatConv} `{IsoParser} `{Entropy} `{OpenSSL} `{AesGcmSiv} `{EngineIO}.
Context (sessions : SessionClientConfig) (virtual : VirtualClientConfig) (config : RuntimeConfig).

(** ** The round trip of a session's route *)

Definition _read_positive_float_from_session_metadata (session : NetworkSession) (key : string)
    : res (option spec_float) :=
  match num_of_json (py_get (CommonJson.load_json_object (ns_metadata_json session)) key) with
  | Some value => if num_positive value then let! f := float_of_num value in Ok (Some f) else Ok None
  | None => Ok None
  end.

(** The route service gives the text of the float. *)
Definition route_rtt (rows : route_table) (route_id : string) : res (option spec_float) :=
  let! rtt := resolve_route_rtt_ms
    (fun n => let! f := py_float_of_int n in Ok (float_show f)) rows route_id in
  Ok (float_value <$> rtt).

Definition _resolve_virtual_session_route_rtt_ms (rows : route_table) (session : NetworkSession)
    : res (option spec_float) :=
  let! known :=
    match nonempty_column (ns_bound_route_id session) with
    | Some bound_route_id =>
        let! rtt := route_rtt rows bound_route_id in
        Ok (match rtt with
            | Some f => if float_ltb (S754_zero false) f then Some f else None
            | None => None
            end)
    | None => Ok None
    end in
  match known with
  | Some f => Ok (Some f)
  | None => _read_positive_float_from_session_metadata session "entry_point_rtt"
  end.

(** ** Retransmission *)

(** [route_rtt_ms / 1000.0 * float(multiplier)] *)
Definition rtt_seconds (route_rtt_ms multiplier : spec_float) : spec_float :=
  float_mul (float_div route_rtt_ms (float_of_int 1000)) multiplier.

Definition _resolve_reliable_retry_after_seconds (rows : route_table)
    (session : option NetworkSession) (message : ReliableOutboundMessage) : res Z :=
  match session with
  | None => Ok (sc_physical_reliable_retry_seconds sessions)
  | Some session =>
      if bool_decide (om_session_scope message = "physical")
      then Ok (sc_physical_reliable_retry_seconds sessions)
      else if bool_decide (om_session_scope message <> "virtual") then Ok (om_retry_after message)
      else
        let! route_rtt_ms := _resolve_virtual_session_route_rtt_ms rows session in
        match route_rtt_ms with
        | None => Ok (vc_virtual_reliable_retry_fallback_seconds virtual)
        | Some route_rtt_ms =>
            let raw_retry_seconds :=
              rtt_seconds route_rtt_ms (rc_virtual_reliable_retry_rtt_multiplier config) in
            timedelta_seconds
              (py_max (rc_virtual_reliable_retry_min_seconds config)
                 (py_min raw_retry_seconds (rc_virtual_reliable_retry_max_seconds config)))
        end
  end.

(** [message.retry_after_seconds = ...] on the queued message. *)
Definition set_retry_after (sm : SessionManager) (session_id : string) (sequence_number : Z)
    (retry_after : Z) : SessionManager :=
  match _get_reliable_outbound sm session_id sequence_number with
  | Some message =>
      put_outbound sm session_id sequence_number (message <| om_retry_after := retry_after |>)
  | None => sm
  end.

(** The loop over the pending messages: a message whose attempts are used up is failed,
    the others get their retry interval, and the due ones are collected. *)
Fixpoint collect_due (now : instant) (pending : list ReliableOutboundMessage)
    : st Services (list ReliableOutboundMessage) :=
  match pending with
  | [] => mret []
  | message :: pending =>
      if om_max_attempts message <=? om_attempts message then
        on_sessions (fun sm now => mark_reliable_outbound_failed sm now (om_session_id message)
          (om_sequence_number message) "max_attempts_exceeded");;
        collect_due now pending
      else
        session ← find_session (om_session_id message);
        rows ← gets sv_routes;
        retry_after ← lift (_resolve_reliable_retry_after_seconds rows session message);
        let message := message <| om_retry_after := retry_after |> in
        on_sessions (fun sm _ => (tt, set_retry_after sm (om_session_id message)
          (om_sequence_number message) retry_after));;
        due ← collect_due now pending;
        mret (if due_for_send message now (Some retry_after) then message :: due else due)
  end.

Definition _list_due_reliable_messages : st Services (list ReliableOutboundMessage) :=
  now ← gets sv_now;
  pending_messages ← gets (fun s => list_pending_reliable_outbound_messages (sv_session_manager s));
  due_messages ← collect_due now pending_messages;
  mret (py_sorted send_order_key due_messages).

(** A message whose session is gone or not active, or of an unknown scope, is only
    logged; so is what the client raises. *)
Definition resend (message : ReliableOutboundMessage) : st Services unit :=
  session ← find_session (om_session_id message);
  match session with
  | None => mret tt
  | Some session =>
      if bool_decide (ns_session_state session <> "active") then mret tt
      else
        catch_exn (fun _ => true)
          (if bool_decide (om_session_scope message = "physical")
           then SessionClient.resend_reliable_message message
           else if bool_decide (om_session_scope message = "virtual")
           then VirtualClient.resend_reliable_message message
           else mret tt)
          (fun _ => mret tt)
  end.

Fixpoint for_each {A} (f : A -> st Services unit) (l : list A) : st Services unit :=
  match l with [] => mret tt | x :: l => f x;; for_each f l end.

Definition _resend_due_reliable_messages : st Services unit :=
  due_messages ← _list_due_reliable_messages;
  for_each resend due_messages.

(** ** Timeouts *)

(** [timeout_seconds] of a virtual session. *)
Definition virtual_session_timeout (rows : route_table) (session : NetworkSession) : res Z :=
  let! route_rtt_ms := _resolve_virtual_session_route_rtt_ms rows session in
  let! interval := py_float_of_int (ns_keepalive_interval_seconds session) in
  let timeout_seconds := py_max (vc_virtual_session_timeout_min_seconds virtual)
    (float_mul interval (float_of_int 3)) in
  timedelta_seconds
    (match route_rtt_ms with
     | Some route_rtt_ms => py_max timeout_seconds
         (rtt_seconds route_rtt_ms (vc_virtual_session_timeout_rtt_multiplier virtual))
     | None => timeout_seconds
     end).

Definition _should_close_virtual_session (rows : route_table) (now : instant)
    (session : NetworkSession) : res bool :=
  let! timeout := virtual_session_timeout rows session in
  Ok (ns_last_activity_at session + timeout <=? now).

Definition _should_close_session (rows : route_table) (now : instant) (session : NetworkSession)
    : res bool :=
  match ns_keepalive_deadline session with
  | None => Ok false
  | Some keepalive_deadline =>
      if now <? keepalive_deadline then Ok false
      else if bool_decide (ns_session_scope session <> "virtual") then Ok true
      else _should_close_virtual_session rows now session
  end.

Definition _can_send_session_message (session : NetworkSession) : bool :=
  if bool_decide (ns_session_scope session = "physical") then
    negb (is_observed_only_physical_endpoint session)
    && opt_truthy (ns_transport session) && opt_truthy (ns_remote_host session)
    && bool_decide (is_Some (ns_remote_port session))
  else if bool_decide (ns_session_scope session = "virtual")
  then opt_truthy (ns_bound_route_id session)
  else false.

(** Half the interval after the last activity, once: [interval / 2] of whole seconds. *)
Definition _should_send_keepalive (now : instant) (session : NetworkSession) : bool :=
  if negb (_can_send_session_message session) then false
  else
    let send_at := ns_last_activity_at session + ns_keepalive_interval_seconds session * 500000 in
    if now <? send_at then false
    else match ns_last_keepalive_sent_at session with
         | None => true
         | Some sent => sent <? ns_last_activity_at session
         end.

Definition _send_keepalive (session : NetworkSession) : st Services unit :=
  if bool_decide (ns_session_scope session = "physical")
  then SessionClient.send_keepalive (ns_session_id session)
  else if bool_decide (ns_session_scope session = "virtual")
  then VirtualClient.send_keepalive (ns_session_id session)
  else mret tt.

Definition _send_close_message (session : NetworkSession) : st Services unit :=
  if bool_decide (ns_session_scope session = "physical")
  then SessionClient.close_session (ns_session_id session) "keepalive_timeout"
  else if bool_decide (ns_session_scope session = "virtual")
  then VirtualClient.close_session (ns_session_id session) "keepalive_timeout"
  else mret tt.

Definition _close_expired_session (session : NetworkSession) : st Services unit :=
  (if _can_send_session_message session
   then catch_exn (fun _ => true) (_send_close_message session) (fun _ => mret tt)
   else mret tt);;
  on_sessions (fun sm now => Sessions.close_session sm (ns_session_id session) now "keepalive_timeout");;
  mret tt.

(** One session of the loop. The list holds the session objects: what is looked at is
    what a session holds by then. *)
Definition maintain_session (listed : NetworkSession) : st Services unit :=
  found ← find_session (ns_session_id listed);
  let session := default listed found in
  rows ← gets sv_routes;
  now ← gets sv_now;
  close ← lift (_should_close_session rows now session);
  if close : bool then _close_expired_session session
  else if _should_send_keepalive now session
  then catch_exn (fun _ => true) (_send_keepalive session) (fun _ => mret tt)
  else mret tt.

Definition _run_once : st Services unit :=
  _resend_due_reliable_messages;;
  active_sessions ← gets (fun s => list_active_sessions (sv_session_manager s));
  for_each maintain_session active_sessions.

(** One iteration of [PeriodicRuntime._run_loop]: what [_run_once] raises is logged. *)
Definition run_iteration : st Services unit :=
  catch_exn (fun _ => true) _run_once (fun _ => mret tt).
End runtime.

(** ** What an iteration does to the sessions *)

(** What the timeout of a session depends on. *)
Definition timing (n : NetworkSession) : string * Z * option string * option string :=
  (ns_session_scope n, ns_keepalive_interval_seconds n, ns_bound_route_id n, ns_metadata_json n).

(** Since [since], the session was closed, or there was traffic on it, or nothing but a
    keepalive was noted on it. *)
Definition moved (since : instant) (n n' : NetworkSession) : Prop :=
  timing n' = timing n /\
  ((exists sent, n' = n <| ns_last_keepalive_sent_at := sent |>) \/
   ns_session_state n' = "closed" \/ since <= ns_last_activity_at n').

Lemma moved_trans since since' n n' n'' :
  since <= since' -> moved since n n' -> moved since' n' n'' -> moved since n n''.
Proof.
  intros Hle [Ht Hm] [Ht' Hm']. split; [congruence|].
  destruct Hm' as [[t ->] |[Hc|Hs]]; [|by right; left|right; right; lia].
  destruct Hm as [[t' ->] |[Hc|Hs]]; [left; by exists t|by right; left|by right; right].
Qed.

(** Time passes, the routes stay, no session is lost, and no virtual one is opened. *)
Record steps (s s' : Services) : Prop := {
  steps_clock : sv_now s <= sv_now s';
  steps_routes : sv_routes s' = sv_routes s;
  steps_wf : sm_wf (sv_session_manager s) -> sm_wf (sv_session_manager s');
  steps_sessions : sm_wf (sv_session_manager s) -> forall sid n,
    get_session_by_session_id (sv_session_manager s) sid = Some n ->
    exists n', get_session_by_session_id (sv_session_manager s') sid = Some n' /\
      moved (sv_now s) n n';
  steps_opened : sm_wf (sv_session_manager s) -> forall sid n',
    get_session_by_session_id (sv_session_manager s') sid = Some n' ->
    ns_session_scope n' = "virtual" ->
    is_Some (get_session_by_session_id (sv_session_manager s) sid);
}.

Lemma moved_refl since n : moved since n n.
Proof. split; [done|]. left. exists (ns_last_keepalive_sent_at n). by destruct n. Qed.

(** The same sessions, with whatever else a manager holds. *)
Lemma steps_same s s' :
  sv_now s' = sv_now s -> sv_routes s' = sv_routes s ->
  (sm_wf (sv_session_manager s) -> sm_wf (sv_session_manager s')) ->
  (forall sid, get_session_by_session_id (sv_session_manager s') sid =
     get_session_by_session_id (sv_session_manager s) sid) ->
  steps s s'.
Proof.
  intros Hnow Hr Hwf Hg. split; [lia|done|done| |].
  - intros _ sid n Hn. exists n. rewrite Hg. split; [done|apply moved_refl].
  - intros _ sid n' Hn' _. rewrite <- Hg. by exists n'.
Qed.

#[export] Instance steps_preorder : PreOrder steps.
Proof.
  split; [intros s; by apply steps_same|]. intros s1 s2 s3 [C1 R1 W1 S1 O1] [C2 R2 W2 S2 O2].
  split; [lia|congruence|auto| |].
  - intros Hwf sid n Hn. destruct (S1 Hwf sid n Hn) as (n' & Hn' & Hm).
    destruct (S2 (W1 Hwf) sid n' Hn') as (n'' & Hn'' & Hm'). exists n''. split; [done|].
    by eapply moved_trans.
  - intros Hwf sid n'' Hn'' Hv. destruct (O2 (W1 Hwf) sid n'' Hn'' Hv) as [n' Hn'].
    destruct (S2 (W1 Hwf) sid n' Hn') as (n3 & Hn3 & [Ht _]). rewrite Hn'' in Hn3. injection Hn3 as <-.
    apply (O1 Hwf sid n' Hn'). unfold timing in Ht. congruence.
Qed.

(** The session object is changed in place. *)
Lemma steps_modify f sid :
  (forall now n, ns_id (f now n) = ns_id n /\ ns_session_id (f now n) = ns_session_id n) ->
  (forall now n, moved now n (f now n)) ->
  does steps (on_sessions (fun sm now => modify_session sm sid (f now))).
Proof.
  intros Hkeys Hf s r s'. unfold on_sessions. destruct (modify_session _ _ _) as [o sm] eqn:E.
  assert (sm = (modify_session (sv_session_manager s) sid (f (sv_now s))).2) as -> by (by rewrite E).
  intros [= _ <-].
  assert (forall n, timing (f (sv_now s) n) = timing n) as Ht by (intros n; apply Hf).
  split; cbn; [lia|done| | |].
  - intros Hwf. apply modify_session_wf; [done|]. intros n. destruct (Hkeys (sv_now s) n).
    split_and!; [done|done|]. specialize (Ht n). unfold timing in Ht. congruence.
  - intros Hwf sid' n Hn. rewrite get_modify_session by done. case_decide as Hd.
    + subst sid'. rewrite Hn. eexists. split; [done|]. apply Hf.
    + exists n. split; [done|apply moved_refl].
  - intros Hwf sid' n'. rewrite get_modify_session by done. case_decide as Hd; [|by eexists].
    subst sid'. by destruct (get_session_by_session_id _ _).
Qed.

Lemma does_steps_touch sid : does steps (touch sid).
Proof.
  apply (steps_modify (fun now => touch_fields now None)); [by intros now []|].
  intros now n. split; [by destruct n|]. right. right. by destruct n.
Qed.

Lemma does_steps_closing sid reason :
  does steps (on_sessions (fun sm now => Sessions.close_session sm sid now reason)).
Proof.
  apply (steps_modify (fun now => update_fields (MkSessionStateUpdateInput (Some "closed")
    (Some "closed") None None None (Some now) (Some reason) None None None))); [by intros now []|].
  intros now n. split; [|right; left; by destruct n].
  destruct n. unfold timing. cbn. by rewrite !(left_id_L None (∪)).
Qed.

Lemma does_steps_keepalive sid :
  does steps (on_sessions (fun sm now => mark_keepalive_sent sm sid now)).
Proof.
  apply (steps_modify (fun now n => n <| ns_last_keepalive_sent_at := Some now |>));
    [by intros now []|]. intros now n. split; [by destruct n|]. left. by exists (Some now).
Qed.

Lemma steps_traffic : traffic_relation steps.
Proof.
  split; [apply _| |apply does_steps_touch].
  intros s s' Hsm Hr Hnow. apply steps_same; rewrite ?Hsm; done.
Qed.

(** Queues only: the sessions are the same. *)
Lemma get_put_reliable sm sid st sid' :
  get_session_by_session_id (put_reliable sm sid st) sid' = get_session_by_session_id sm sid'.
Proof. done. Qed.

Lemma get_session_put_outbound sm sid k m sid' :
  get_session_by_session_id (put_outbound sm sid k m) sid' = get_session_by_session_id sm sid'.
Proof. unfold put_outbound. by destruct (od_get sid _). Qed.

Lemma put_retry_wf sm sid k m retry_after :
  sm_wf sm -> _get_reliable_outbound sm sid k = Some m ->
  sm_wf (put_outbound sm sid k (m <| om_retry_after := retry_after |>)).
Proof. intros Hwf Hm. eapply put_outbound_wf; [done|exact Hm|done..]. Qed.

Lemma does_steps_retry sid k retry_after :
  does steps (on_sessions (fun sm _ => (tt, set_retry_after sm sid k retry_after))).
Proof.
  intros s r s' [= _ <-]. apply steps_same; [done|done| |].
  - intros Hwf. cbn. unfold set_retry_after.
    destruct (_get_reliable_outbound _ _ _) eqn:E; [by apply put_retry_wf|done].
  - intros sid'. cbn. unfold set_retry_after. destruct (_get_reliable_outbound _ _ _); [|done].
    apply get_session_put_outbound.
Qed.

Lemma does_steps_sent sid k :
  does steps (on_sessions (fun sm now => mark_reliable_outbound_sent sm now sid k)).
Proof.
  intros s r s'. unfold on_sessions. destruct (mark_reliable_outbound_sent _ _ _ _) as [o sm] eqn:E.
  intros [= _ <-]. assert (sm = (mark_reliable_outbound_sent (sv_session_manager s) (sv_now s) sid k).2)
    as -> by (by rewrite E). apply steps_same; [done|done|apply mark_sent_wf|].
  intros sid'. cbn. unfold mark_reliable_outbound_sent. destruct (_get_reliable_outbound _ _ _); [|done].
  case_match; [done|]. apply get_session_put_outbound.
Qed.

Lemma does_steps_failed sid k reason :
  does steps (on_sessions (fun sm now => mark_reliable_outbound_failed sm now sid k reason)).
Proof.
  intros s r s'. unfold on_sessions. destruct (mark_reliable_outbound_failed _ _ _ _ _) as [o sm] eqn:E.
  intros [= _ <-].
  assert (sm = (mark_reliable_outbound_failed (sv_session_manager s) (sv_now s) sid k reason).2)
    as -> by (by rewrite E). apply steps_same; [done|done|apply mark_failed_wf|].
  intros sid'. cbn. unfold mark_reliable_outbound_failed. destruct (_get_reliable_outbound _ _ _); [|done].
  case_match; [done|]. apply get_session_put_outbound.
Qed.

(** ** Sending *)

(** Opening a physical session while a packet is forwarded: of the sessions there are it
    may close some or pass traffic on them, and it queues no reliable message. *)
Class StartLaws `{EngineIO} := {
  start_steps : forall node_id, does steps (io_start_session node_id);
  start_queues : forall node_id s r s', io_start_session node_id s = (r, s') ->
    sm_reliable_states_by_session_id (sv_session_manager s') =
    sm_reliable_states_by_session_id (sv_session_manager s);
}.

Section sending.
Context `{FloatText} `{FloatConv} `{IsoParser} `{Entropy} `{OpenSSL} `{AesGcmSiv} `{EngineIO}.
Context {slaws : StartLaws}.
Context (R : Services -> Services -> Prop) (HR : traffic_relation R).
Context (Hclosing : forall sid reason,
  does R (on_sessions (fun sm now => Sessions.close_session sm sid now reason))).
Context (Hkeepalive : forall sid, does R (on_sessions (fun sm now => mark_keepalive_sent sm sid now))).
Context (Hstart : forall node_id, does R (io_start_session node_id)).

#[local] Instance sending_preorder : PreOrder R := traffic_preorder R HR.

Lemma does_forwarded session ty payload ciphered :
  does R (VirtualClient._send_virtual_envelope session ty payload ciphered).
Proof using HR Hclosing Hstart.
  apply does_send_envelope; [done|intros sid; apply Hclosing|done].
Qed.

Ltac pass :=
  repeat first
    [ assumption
    | lazymatch goal with
      | |- does _ (mbind _ _) => apply (does_bind R)
      | |- does _ (catch_exn _ _ _) => apply (does_catch R)
      | |- does _ (send_packet _) => apply (does_send R HR)
      | |- does _ (build_message_header _ _ _) => apply (does_header R HR)
      | |- does _ (VirtualClient._send_virtual_envelope _ _ _ _) => apply does_forwarded
      | |- does _ (match _ with _ => _ end) => case_match
      | |- does _ _ => first [by apply (does_pure R) | match goal with Hk : forall _, _ |- _ => apply Hk end]
      | |- forall _, _ => intros
      end ].

Lemma does_send_close session : does R (_send_close_message session).
Proof using HR Hclosing Hstart.
  unfold _send_close_message, SessionClient.close_session, VirtualClient.close_session,
    known_session, VirtualClient._require_session, send_on_session, find_session. pass.
Qed.

Lemma does_send_keepalive session : does R (_send_keepalive session).
Proof using HR Hclosing Hkeepalive Hstart.
  unfold _send_keepalive, SessionClient.send_keepalive, VirtualClient.send_keepalive,
    known_session, VirtualClient._require_active_session, VirtualClient._require_session,
    send_on_session, find_session. pass.
Qed.

Lemma does_close_expired session : does R (_close_expired_session session).
Proof using HR Hclosing Hstart.
  pose proof does_send_close as Hs. unfold _close_expired_session. pass.
Qed.

Lemma does_maintain virtual session : does R (maintain_session virtual session).
Proof using HR Hclosing Hkeepalive Hstart.
  pose proof does_send_keepalive as Hk. pose proof does_close_expired as Hc.
  unfold maintain_session, find_session. pass.
Qed.

Lemma does_for_each {A} (f : A -> st Services unit) l :
  (forall x, does R (f x)) -> does R (for_each f l).
Proof using HR. intros Hf. induction l as [|x l IH]; cbn [for_each]; pass. Qed.

Lemma does_resend_with message :
  does R (on_sessions (fun sm now => mark_reliable_outbound_sent sm now
    (om_session_id message) (om_sequence_number message))) ->
  does R (resend message).
Proof using HR Hclosing Hstart.
  intros Hsent. unfold resend, SessionClient.resend_reliable_message,
    VirtualClient.resend_reliable_message, _send_reliable_outbound_message, active_physical_session,
    VirtualClient._require_active_session, VirtualClient._require_session, send_on_session, find_session.
  pass.
Qed.
End sending.

(** ** An iteration *)

Section iteration.
Context `{FloatText} `{FloatConv} `{IsoParser} `{Entropy} `{OpenSSL} `{AesGcmSiv} `{EngineIO}.
Context {slaws : StartLaws}.
Context (sessions : SessionClientConfig) (virtual : VirtualClientConfig) (config : RuntimeConfig).

Definition find (s : Services) (sid : string) : option NetworkSession :=
  get_session_by_session_id (sv_session_manager s) sid.

(** The timeout of every virtual session can be computed. *)
Definition timeouts_known (s : Services) : Prop :=
  sm_wf (sv_session_manager s) /\
  forall sid n, find s sid = Some n -> ns_session_scope n = "virtual" ->
    is_ok (virtual_session_timeout virtual (sv_routes s) n) = true.

Lemma timeout_timing rows n n' :
  timing n' = timing n ->
  virtual_session_timeout virtual rows n' = virtual_session_timeout virtual rows n.
Proof.
  unfold timing. intros [= _ Hi Hb Hm]. unfold virtual_session_timeout,
    _resolve_virtual_session_route_rtt_ms, _read_positive_float_from_session_metadata.
  by rewrite Hi, Hb, Hm.
Qed.

Lemma timeouts_steps s s' : steps s s' -> timeouts_known s -> timeouts_known s'.
Proof.
  intros Hs [Hwf Hk]. split; [by apply (steps_wf s s')|]. intros sid n' Hn' Hv.
  destruct (steps_opened s s' Hs Hwf sid n' Hn' Hv) as [n Hn].
  destruct (steps_sessions s s' Hs Hwf sid n Hn) as (n2 & Hn2 & [Ht _]).
  unfold find in Hn'. rewrite Hn' in Hn2. injection Hn2 as <-.
  rewrite (steps_routes s s' Hs), (timeout_timing _ _ _ Ht). apply (Hk sid n Hn).
  unfold timing in Ht. congruence.
Qed.

(** Whether a session is closed, at a time not before. *)
Lemma should_close_moved rows now now' n sent :
  now <= now' ->
  _should_close_session virtual rows now n = Ok true ->
  _should_close_session virtual rows now' (n <| ns_last_keepalive_sent_at := sent |>) = Ok true.
Proof.
  intros Hle. unfold _should_close_session, _should_close_virtual_session.
  rewrite (timeout_timing rows n (n <| ns_last_keepalive_sent_at := sent |>)) by (by destruct n).
  intros Hc. cbn [ns_keepalive_deadline ns_session_scope ns_last_activity_at set_field].
  change (ns_keepalive_deadline (n <| ns_last_keepalive_sent_at := sent |>)) with (ns_keepalive_deadline n).
  change (ns_session_scope (n <| ns_last_keepalive_sent_at := sent |>)) with (ns_session_scope n).
  change (ns_last_activity_at (n <| ns_last_keepalive_sent_at := sent |>)) with (ns_last_activity_at n).
  destruct (ns_keepalive_deadline n) as [deadline|]; [|done].
  destruct (Z.ltb_spec now deadline); [done|]. rewrite (proj2 (Z.ltb_ge now' deadline)) by lia.
  case_bool_decide; [done|]. destruct (virtual_session_timeout _ _ _) as [t|]; [|done]. cbn in Hc |- *.
  injection Hc as Hc%Z.leb_le. f_equal. apply Z.leb_le. lia.
Qed.

Lemma should_close_known s n :
  timeouts_known s -> is_Some (find s (ns_session_id n)) ->
  exists b, _should_close_session virtual (sv_routes s) (sv_now s)
    (default n (find s (ns_session_id n))) = Ok b.
Proof.
  intros [_ Hk] [n' Hn']. rewrite Hn'. cbn [from_option id].
  unfold _should_close_session, _should_close_virtual_session.
  destruct (ns_keepalive_deadline n') as [deadline|]; [|by exists false].
  destruct (_ <? _); [by exists false|]. case_bool_decide as Hv; [by exists true|].
  specialize (Hk _ n' Hn' Hv).
  destruct (virtual_session_timeout _ _ _); [by eexists|done].
Qed.

(** Whatever it sends, an operation that is caught returns. *)
Lemma caught_Ok (m : st Services unit) s :
  exists s', catch_exn (fun _ => true) m (fun _ => mret tt) s = (Ok tt, s').
Proof. unfold catch_exn. destruct (m s) as [[[]|e] s']; by exists s'. Qed.

Lemma close_expired_Ok n s :
  exists s1 s2, _close_expired_session n s = (Ok tt, s2) /\
    on_sessions (fun sm now => Sessions.close_session sm (ns_session_id n) now "keepalive_timeout") s1
    = (Ok (Sessions.close_session (sv_session_manager s1) (ns_session_id n) (sv_now s1) "keepalive_timeout").1, s2) /\
    steps s s1.
Proof.
  unfold _close_expired_session.
  assert (exists s1, (if _can_send_session_message n
     then catch_exn (fun _ => true) (_send_close_message n) (fun _ => mret tt) else mret tt) s = (Ok tt, s1) /\
     steps s s1) as (s1 & Hs1 & Hst).
  { destruct (_can_send_session_message n); [|by exists s].
    destruct (caught_Ok (_send_close_message n) s) as [s1 Hs1]. exists s1. split; [done|].
    eapply (does_catch steps); [apply (does_send_close steps steps_traffic)| |exact Hs1].
    - intros. apply does_steps_closing.
    - apply start_steps.
    - intros e. by apply (does_pure steps). }
  exists s1. unfold on_sessions at 2.
  destruct (Sessions.close_session _ _ _ _) as [o sm] eqn:E.
  exists (s1 <| sv_session_manager := sm |>). split; [|done].
  rewrite (st_bind_run _ _ _ _ _ Hs1). unfold on_sessions, mbind, st_bind. by rewrite E.
Qed.

(** Over: closed, or there was traffic since. *)
Definition over (since : instant) (sid : string) (s : Services) : Prop :=
  exists n, find s sid = Some n /\ (ns_session_state n = "closed" \/ since <= ns_last_activity_at n).

Lemma over_steps since sid s s' :
  since <= sv_now s -> sm_wf (sv_session_manager s) -> steps s s' -> over since sid s -> over since sid s'.
Proof.
  intros Hle Hwf Hs (n & Hn & Hov). destruct (steps_sessions s s' Hs Hwf sid n Hn) as (n' & Hn' & Hm).
  exists n'. split; [done|]. destruct Hm as [_ [[t ->] |[Hc|Ha]]]; [exact Hov|by left|right; lia].
Qed.

Lemma close_expired_over since n s :
  sm_wf (sv_session_manager s) -> is_Some (find s (ns_session_id n)) ->
  exists s', _close_expired_session n s = (Ok tt, s') /\ over since (ns_session_id n) s'.
Proof.
  intros Hwf [n0 Hn0]. destruct (close_expired_Ok n s) as (s1 & s2 & Hr & Hc & Hst).
  exists s2. split; [done|]. destruct (steps_sessions s s1 Hst Hwf _ _ Hn0) as (n1 & Hn1 & _).
  unfold on_sessions in Hc. destruct (Sessions.close_session _ _ _ _) as [o sm] eqn:E.
  injection Hc as <-. unfold over, find. cbn.
  assert (sm = (Sessions.close_session (sv_session_manager s1) (ns_session_id n) (sv_now s1)
    "keepalive_timeout").2) as -> by (by rewrite E).
  unfold Sessions.close_session, update_session_state.
  rewrite get_modify_session, decide_True by (done || by apply (steps_wf s s1)). rewrite Hn1.
  eexists. split; [done|]. left. by destruct n1.
Qed.

Lemma steps_maintain n : does steps (maintain_session virtual n).
Proof.
  apply (does_maintain steps steps_traffic).
  - intros. apply does_steps_closing.
  - intros. apply does_steps_keepalive.
  - apply start_steps.
Qed.

Lemma maintain_Ok n s :
  timeouts_known s -> is_Some (find s (ns_session_id n)) ->
  exists s', maintain_session virtual n s = (Ok tt, s') /\
    (_should_close_session virtual (sv_routes s) (sv_now s) (default n (find s (ns_session_id n))) = Ok true ->
     forall since, over since (ns_session_id n) s').
Proof.
  intros Hk Hsome. destruct (should_close_known s n Hk Hsome) as [b Hb].
  unfold maintain_session. erewrite st_bind_run by reflexivity. cbv zeta.
  change (get_session_by_session_id (sv_session_manager s) (ns_session_id n)) with (find s (ns_session_id n)).
  erewrite st_bind_run by reflexivity. erewrite st_bind_run by reflexivity.
  rewrite Hb. erewrite st_bind_run by reflexivity. destruct b.
  - destruct Hsome as [n' Hn']. rewrite Hn'. cbn [from_option id].
    assert (ns_session_id n' = ns_session_id n) as Hid by (eapply get_by_sid_id; [apply Hk|exact Hn']).
    destruct (close_expired_Ok n' s) as (s1 & s2 & Hr & _). exists s2. split; [done|]. intros _ since.
    destruct (close_expired_over since n' s) as (s' & Hr' & Ho); [apply Hk|rewrite Hid; by eexists|].
    rewrite Hr in Hr'. injection Hr' as <-. by rewrite <- Hid.
  - case_match; [|by exists s].
    destruct (caught_Ok (_send_keepalive (default n (find s (ns_session_id n)))) s) as [s' Hs'].
    by exists s'.
Qed.

(** The loop: it ends, and an expired session is over. *)
Lemma maintain_all l : forall s,
  timeouts_known s -> (forall n, n ∈ l -> is_Some (find s (ns_session_id n))) ->
  exists s', for_each (maintain_session virtual) l s = (Ok tt, s') /\ steps s s' /\
    forall since n, n ∈ l -> since <= sv_now s -> 
      over since (ns_session_id n) s \/
      _should_close_session virtual (sv_routes s) (sv_now s) (default n (find s (ns_session_id n))) = Ok true ->
      over since (ns_session_id n) s'.
Proof.
  induction l as [|n l IH]; intros s Hk Hl.
  { exists s. split; [done|]. split; [done|]. intros since n Hn. by apply not_elem_of_nil in Hn. }
  destruct (maintain_Ok n s Hk) as (s1 & Hr & Hov); [apply Hl; by left|].
  pose proof (steps_maintain n s _ s1 Hr) as Hs1. pose proof (timeouts_steps s s1 Hs1 Hk) as Hk1.
  destruct (IH s1 Hk1) as (s2 & Hr2 & Hs2 & Hov2).
  { intros n' Hn'. destruct (Hl n') as [n0 Hn0]; [by right|].
    destruct (steps_sessions s s1 Hs1 (proj1 Hk) _ _ Hn0) as (n1 & Hn1 & _). by exists n1. }
  exists s2. cbn [for_each]. rewrite (st_bind_run _ _ _ _ _ Hr). split; [done|].
  split; [by transitivity s1|]. pose proof (steps_clock s s1 Hs1) as Hc.
  intros since n' Hn' Hle Hcase. apply elem_of_cons in Hn' as [-> |Hn'].
  - apply (over_steps since _ s1); [lia|apply Hk1|done|].
    destruct Hcase as [Ho|He]; [|by apply Hov]. apply (over_steps since _ s); [lia|apply Hk|done|done].
  - apply Hov2; [done|lia|].
    destruct Hcase as [Ho|He]; [left; apply (over_steps since _ s); [lia|apply Hk|done|done]|].
    destruct (Hl n') as [n0 Hn0]; [by right|]. rewrite Hn0 in He. cbn [from_option id] in He.
    destruct (steps_sessions s s1 Hs1 (proj1 Hk) _ _ Hn0) as (n1 & Hn1 & [Ht Hm]).
    change (find s1 (ns_session_id n') = Some n1) in Hn1. rewrite Hn1. cbn [from_option id]. rewrite (steps_routes s s1 Hs1).
    destruct Hm as [[t ->] |Hm].
    + right. by eapply should_close_moved.
    + left. exists n1. split; [done|]. destruct Hm; [by left|right; lia].
Qed.

(** *** Collecting the due messages *)

Definition slot (s : Services) (sid : string) (k : Z) : option ReliableOutboundMessage :=
  _get_reliable_outbound (sv_session_manager s) sid k.

(** The retry interval of a message in a state. *)
Definition retry_of (s : Services) (m : ReliableOutboundMessage) : res Z :=
  _resolve_reliable_retry_after_seconds sessions virtual config (sv_routes s)
    (find s (om_session_id m)) m.

Definition exhausted (m : ReliableOutboundMessage) : bool := om_max_attempts m <=? om_attempts m.

(** The timeouts and the retry intervals of the pending messages can be computed. *)
Definition timings_known (s : Services) : Prop :=
  timeouts_known s /\
  forall m, m ∈ list_pending_reliable_outbound_messages (sv_session_manager s) ->
    exhausted m = false -> is_ok (retry_of s m) = true.

(** Same sessions, routes and time. *)
Definition only_queues (s s' : Services) : Prop :=
  sv_now s' = sv_now s /\ sv_routes s' = sv_routes s /\ forall sid, find s' sid = find s sid.

Lemma only_queues_retry s s' m : only_queues s s' -> retry_of s' m = retry_of s m.
Proof. intros (_ & Hr & Hf). unfold retry_of. by rewrite Hr, Hf. Qed.

Lemma only_queues_trans s s' s'' : only_queues s s' -> only_queues s' s'' -> only_queues s s''.
Proof. intros (? & ? & Hf) (? & ? & Hf'). split_and!; [congruence..|]. intros sid. by rewrite Hf'. Qed.

(** What the scan makes of a pending message. *)
Definition scanned (now : instant) (retry_after : res Z) (m : ReliableOutboundMessage)
    : ReliableOutboundMessage :=
  if exhausted m then fail_exhausted now m
  else match retry_after with Ok t => m <| om_retry_after := t |> | Raise _ => m end.

(** Two messages of a list in the same queue slot. *)
Definition same_slot (m m' : ReliableOutboundMessage) : Prop :=
  om_session_id m = om_session_id m' /\ om_sequence_number m = om_sequence_number m'.

Definition in_slots (s : Services) (l : list ReliableOutboundMessage) : Prop :=
  forall m, m ∈ l -> slot s (om_session_id m) (om_sequence_number m) = Some m /\ om_pending m = true.

(** A write to the slot of the first message leaves the ones of the others. *)
Lemma in_slots_put s m l m' :
  NoDup (m :: l) -> in_slots s (m :: l) ->
  in_slots (s <| sv_session_manager := put_outbound (sv_session_manager s) (om_session_id m)
    (om_sequence_number m) m' |>) l.
Proof.
  intros [Hnin Hnd]%NoDup_cons Hs m0 Hm0. destruct (Hs m0 ltac:(by right)) as [Hm1 Hp]. split; [|done].
  destruct (Hs m ltac:(by left)) as [Hm _]. unfold slot in *. cbn.
  rewrite get_put_outbound by (by eexists). rewrite decide_False; [done|].
  intros [E1 E2]. rewrite E1, E2 in Hm. congruence.
Qed.

(** One step of the scan writes what it makes of the message to its slot. *)
Lemma failed_step s m :
  slot s (om_session_id m) (om_sequence_number m) = Some m -> om_pending m = true ->
  on_sessions (fun sm now => mark_reliable_outbound_failed sm now (om_session_id m)
    (om_sequence_number m) "max_attempts_exceeded") s
  = (Ok (Some (fail_exhausted (sv_now s) m)),
     s <| sv_session_manager := put_outbound (sv_session_manager s) (om_session_id m)
       (om_sequence_number m) (fail_exhausted (sv_now s) m) |>).
Proof.
  intros Hm Hp. unfold slot in Hm. unfold on_sessions, mark_reliable_outbound_failed.
  by rewrite Hm, Hp.
Qed.

Lemma retry_step s m t :
  slot s (om_session_id m) (om_sequence_number m) = Some m ->
  on_sessions (fun sm _ => (tt, set_retry_after sm (om_session_id m) (om_sequence_number m) t)) s
  = (Ok tt, s <| sv_session_manager := put_outbound (sv_session_manager s) (om_session_id m)
       (om_sequence_number m) (m <| om_retry_after := t |>) |>).
Proof.
  intros Hm. unfold slot in Hm. unfold on_sessions, set_retry_after. by rewrite Hm.
Qed.

Lemma only_queues_put s sid k m :
  only_queues s (s <| sv_session_manager := put_outbound (sv_session_manager s) sid k m |>).
Proof. split_and!; [done..|]. intros sid'. apply get_session_put_outbound. Qed.

Lemma slot_put s m m' sid k :
  slot s (om_session_id m) (om_sequence_number m) = Some m ->
  slot (s <| sv_session_manager := put_outbound (sv_session_manager s) (om_session_id m)
    (om_sequence_number m) m' |>) sid k =
  if decide (om_session_id m = sid /\ om_sequence_number m = k) then Some m' else slot s sid k.
Proof. intros Hm. unfold slot in *. cbn. apply get_put_outbound. by eexists. Qed.

(** The message of the slot, after the scan of the list. *)
Definition after_scan (s : Services) (l : list ReliableOutboundMessage) (m : ReliableOutboundMessage)
    : ReliableOutboundMessage :=
  if bool_decide (m ∈ l) then scanned (sv_now s) (retry_of s m) m else m.

Lemma slot_own s sid k m :
  sm_wf (sv_session_manager s) -> slot s sid k = Some m ->
  om_session_id m = sid /\ om_sequence_number m = k.
Proof.
  intros Hwf Hm. unfold slot, _get_reliable_outbound in Hm. apply bind_Some in Hm as (st & Hst & Hout).
  destruct (smwf_rel _ Hwf _ _ Hst) as (Hr & Hid & _).
  apply (rwf_out st Hr) in Hout as (? & _ & ? & _). split; congruence.
Qed.

(** The scan of the rest, from the state after the first message. *)
Lemma after_scan_cons s m l m' sid k :
  sm_wf (sv_session_manager s) -> NoDup (m :: l) -> in_slots s (m :: l) ->
  same_slot m m' -> m' = scanned (sv_now s) (retry_of s m) m ->
  let s1 := s <| sv_session_manager := put_outbound (sv_session_manager s) (om_session_id m)
    (om_sequence_number m) m' |> in
  after_scan s1 l <$> slot s1 sid k = after_scan s (m :: l) <$> slot s sid k.
Proof.
  intros Hwf [Hnin Hnd]%NoDup_cons Hs [E1 E2] Hm' s1.
  destruct (Hs m ltac:(by left)) as [Hm _]. unfold s1. rewrite slot_put by done. fold s1.
  assert (forall m0, after_scan s1 l m0 = after_scan s l m0) as Hsame.
  { intros m0. unfold after_scan. by rewrite (only_queues_retry s s1 m0 (only_queues_put _ _ _ _)). }
  case_decide as Hd.
  - destruct Hd as [<- <-]. rewrite Hm. cbn. rewrite Hsame. f_equal. unfold after_scan.
    rewrite (bool_decide_true (m ∈ m :: l)) by (by left). rewrite <- Hm'.
    rewrite bool_decide_false; [done|]. intros Hin. destruct (Hs m' ltac:(by right)) as [Hm1 _].
    rewrite <- E1, <- E2, Hm in Hm1. by injection Hm1 as <-.
  - destruct (slot s sid k) as [m0|] eqn:Hm0; [|done]. cbn. rewrite Hsame. f_equal. unfold after_scan.
    replace (bool_decide (m0 ∈ m :: l)) with (bool_decide (m0 ∈ l)); [done|].
    apply bool_decide_ext. rewrite elem_of_cons. split; [by right|]. intros [-> |]; [|done].
    destruct Hd. by apply (slot_own s).
Qed.

(** The messages of the list that are due, with their retry interval. *)
Definition due_of (s : Services) (l : list ReliableOutboundMessage) (m' : ReliableOutboundMessage) : Prop :=
  exists m t, m ∈ l /\ exhausted m = false /\ retry_of s m = Ok t /\
    m' = m <| om_retry_after := t |> /\ due_for_send m' (sv_now s) (Some t) = true.

Lemma due_of_cons s m l due t :
  NoDup (m :: l) -> in_slots s (m :: l) -> exhausted m = false -> retry_of s m = Ok t ->
  NoDup due -> (forall m', m' ∈ due <-> due_of s l m') ->
  let m1 := m <| om_retry_after := t |> in
  let due' := if due_for_send m1 (sv_now s) (Some t) then m1 :: due else due in
  NoDup due' /\ forall m', m' ∈ due' <-> due_of s (m :: l) m'.
Proof.
  intros [Hnin _]%NoDup_cons Hs He Ht Hnd Hin m1 due'.
  assert (m1 ∉ due) as Hm1.
  { rewrite Hin. intros (m0 & t0 & Hm0 & _ & _ & Heq & _).
    destruct (Hs m ltac:(by left)) as [Hm _]. destruct (Hs m0 ltac:(by right)) as [Hs0 _].
    assert (om_session_id m = om_session_id m0) as E1
      by (change (om_session_id m1 = om_session_id m0); by rewrite Heq).
    assert (om_sequence_number m = om_sequence_number m0) as E2
      by (change (om_sequence_number m1 = om_sequence_number m0); by rewrite Heq).
    rewrite <- E1, <- E2, Hm in Hs0. by injection Hs0 as ->. }
  split; [unfold due'; case_match; [by apply NoDup_cons|done]|]. intros m'. unfold due'. split.
  - intros Hm'. assert (m' = m1 /\ due_for_send m1 (sv_now s) (Some t) = true \/ m' ∈ due) as Hc.
    { destruct (due_for_send m1 (sv_now s) (Some t)); [|by right].
      apply elem_of_cons in Hm' as [-> |]; [by left|by right]. }
    destruct Hc as [[-> Hd]|Hc]; [exists m, t; split_and!; [by left|done..]|].
    apply Hin in Hc as (m0 & t0 & Hm0 & Hrest). exists m0, t0. by split; [right|].
  - intros (m0 & t0 & Hm0 & He0 & Ht0 & -> & Hd). apply elem_of_cons in Hm0 as [-> |Hm0].
    { rewrite Ht in Ht0. injection Ht0 as <-. fold m1 in Hd |- *. rewrite Hd. by left. }
    assert (m0 <| om_retry_after := t0 |> ∈ due) as Hd2 by (apply Hin; by exists m0, t0).
    case_match; [by right|done].
Qed.

Lemma collect_due_spec l : forall s,
  sm_wf (sv_session_manager s) -> NoDup l -> in_slots s l ->
  (forall m, m ∈ l -> exhausted m = false -> is_ok (retry_of s m) = true) ->
  exists due s', collect_due sessions virtual config (sv_now s) l s = (Ok due, s') /\
    only_queues s s' /\ sm_wf (sv_session_manager s') /\
    (forall sid k, slot s' sid k = after_scan s l <$> slot s sid k) /\
    NoDup due /\
    (forall m', m' ∈ due <-> due_of s l m').
Proof.
  induction l as [|m l IH]; intros s Hwf Hnd Hs Hok.
  { exists [], s. split; [done|]. split; [done|]. split; [done|]. split.
    { intros sid k. destruct (slot s sid k) as [m|]; [|done]. cbn. unfold after_scan.
      by rewrite bool_decide_false by apply not_elem_of_nil. }
    split; [constructor|]. intros m'. split; [by intros ?%not_elem_of_nil|].
    by intros (? & ? & ?%not_elem_of_nil & _). }
  destruct (Hs m ltac:(by left)) as [Hm Hp].
  pose proof (in_slots_put s m l) as Htail. pose proof (after_scan_cons s m l) as Hcons.
  set (m1 := scanned (sv_now s) (retry_of s m) m).
  assert (same_slot m m1) as Hslot.
  { unfold m1, scanned. destruct (exhausted m); [done|]. by destruct (retry_of s m). }
  set (s1 := s <| sv_session_manager := put_outbound (sv_session_manager s) (om_session_id m)
    (om_sequence_number m) m1 |>).
  assert (only_queues s s1) as Hq by apply only_queues_put.
  assert (sm_wf (sv_session_manager s1)) as Hwf1.
  { destruct Hslot as [E1 E2]. eapply put_outbound_wf; [done|exact Hm|by rewrite <- E2|by rewrite <- E1|].
    unfold m1, scanned. destruct (exhausted m); [done|]. by destruct (retry_of s m). }
  destruct (IH s1 Hwf1) as (due & s' & Hr & Hq' & Hwf' & Hsl & Hndd & Hin).
  { by apply NoDup_cons in Hnd as [_ Hnd]. }
  { by apply Htail. }
  { intros m0 Hm0 He. rewrite (only_queues_retry s s1) by done. apply Hok; [by right|done]. }
  assert (forall sid k, slot s' sid k = after_scan s (m :: l) <$> slot s sid k) as Hsl'.
  { intros sid k. rewrite Hsl. by apply Hcons. }
  assert (forall m', m' ∈ due <-> due_of s l m') as Hin'.
  { intros m'. rewrite Hin. unfold due_of. setoid_rewrite (only_queues_retry s s1); done. }
  pose proof (only_queues_trans _ _ _ Hq Hq') as Hq2. cbn [collect_due]. fold (exhausted m).
  destruct (exhausted m) eqn:He.
  - exists due, s'. split.
    { rewrite (st_bind_run _ _ _ _ _ (failed_step s m Hm Hp)). unfold s1, m1, scanned in Hr.
      rewrite He in Hr. exact Hr. }
    split_and!; [apply Hq2..|done|done|done|]. intros m'. rewrite Hin'.
    split; intros (m0 & t & Hm0 & Hrest); exists m0, t; (split; [|done]); [by right|].
    apply elem_of_cons in Hm0 as [-> |]; [|done]. destruct Hrest. congruence.
  - specialize (Hok m ltac:(by left) He). destruct (retry_of s m) as [t|] eqn:Hret; [|done].
    assert (m1 = m <| om_retry_after := t |>) as Hm1 by (unfold m1, scanned; by rewrite He).
    eexists _, s'. split.
    { erewrite st_bind_run by reflexivity. erewrite st_bind_run by reflexivity.
      fold (find s (om_session_id m)). fold (retry_of s m). rewrite Hret.
      erewrite st_bind_run by reflexivity. cbv zeta.
      rewrite (st_bind_run _ _ _ _ _ (retry_step s m t Hm)). rewrite <- Hm1. fold s1.
      rewrite (st_bind_run _ _ _ _ _ Hr). reflexivity. }
    destruct (due_of_cons s m l due t Hnd Hs He Hret Hndd Hin') as [Hndd' Hin2].
    rewrite <- Hm1 in Hndd', Hin2. split_and!; [apply Hq2..|done|done|exact Hndd'|exact Hin2].
Qed.

Lemma pending_NoDup sm : sm_wf sm -> NoDup (list_pending_reliable_outbound_messages sm).
Proof.
  intros Hwf. unfold list_pending_reliable_outbound_messages.
  rewrite (py_sorted_Permutation send_order_key _).
  assert (forall sid st, (sid, st) ∈ sm_reliable_states_by_session_id sm -> reliable_wf st /\ rs_session_id st = sid) as Hst.
  { intros sid st Hin. apply (od_elem_of_get _ _ _ (smwf_rel_keys sm Hwf)) in Hin.
    by destruct (smwf_rel sm Hwf _ _ Hin) as (? & ? & _). }
  assert (forall sid st m, (sid, st) ∈ sm_reliable_states_by_session_id sm ->
    m ∈ (rs_outbound_by_sequence st).*2 ->
    (om_sequence_number m, m) ∈ rs_outbound_by_sequence st /\ om_session_id m = sid) as Hm.
  { intros sid st m Hin Hout. destruct (Hst _ _ Hin) as [Hr Hid].
    apply list_elem_of_fmap in Hout as ([k m'] & -> & Hout).
    pose proof Hout as Hg. apply (od_elem_of_get _ _ _ (rwf_out_keys st Hr)) in Hg.
    apply (rwf_out st Hr) in Hg as (Hk & _ & Hs & _). cbn. rewrite Hk, Hs. by split. }
  pose proof (smwf_rel_keys sm Hwf) as Hkeys. unfold od_wf in Hkeys.
  revert Hst Hm Hkeys. generalize (sm_reliable_states_by_session_id sm). intros d.
  induction d as [|[sid st] d IH]; intros Hst Hm Hkeys; [constructor|]. csimpl.
  apply NoDup_cons in Hkeys as [Hnin Hkeys]. apply NoDup_app. split_and!.
  - apply NoDup_filter. destruct (Hst sid st ltac:(by left)) as [Hr _].
    pose proof (rwf_out_keys st Hr) as Hk. unfold od_wf in Hk.
    apply (NoDup_fmap_1 om_sequence_number). rewrite <- list_fmap_compose.
    erewrite list_fmap_ext; [exact Hk|]. intros i [k m] Hi. cbn.
    apply list_elem_of_lookup_2 in Hi. apply (od_elem_of_get _ _ _ (rwf_out_keys st Hr)) in Hi.
    by apply (rwf_out st Hr) in Hi as (? & _).
  - intros m [_ Hin]%list_elem_of_filter Hjoin.
    apply list_elem_of_join in Hjoin as (l & Hml & Hl). apply list_elem_of_fmap in Hl as (st' & -> & Hst').
    apply list_elem_of_fmap in Hst' as ([sid' st''] & -> & Hst'). cbn in Hml.
    apply list_elem_of_filter in Hml as [_ Hml].
    destruct (Hm sid st m ltac:(by left) Hin) as [_ <-].
    destruct (Hm sid' st'' m ltac:(by right) Hml) as [_ <-].
    apply Hnin. apply list_elem_of_fmap. by exists (om_session_id m, st'').
  - apply IH; [intros; apply Hst; by right|intros; eapply Hm; [by right|done]|done].
Qed.

Lemma list_due_spec s :
  timings_known s ->
  exists due s', _list_due_reliable_messages sessions virtual config s = (Ok due, s') /\
    only_queues s s' /\ sm_wf (sv_session_manager s') /\
    (forall sid k, slot s' sid k =
       after_scan s (list_pending_reliable_outbound_messages (sv_session_manager s)) <$> slot s sid k) /\
    NoDup due /\
    (forall m', m' ∈ due <-> exists m t, slot s (om_session_id m) (om_sequence_number m) = Some m /\
       om_pending m = true /\ exhausted m = false /\ retry_of s m = Ok t /\
       m' = m <| om_retry_after := t |> /\ due_for_send m' (sv_now s) (Some t) = true).
Proof.
  intros [[Hwf Hk] Hret].
  destruct (collect_due_spec (list_pending_reliable_outbound_messages (sv_session_manager s)) s)
    as (due & s' & Hr & Hq & Hwf' & Hsl & Hnd & Hin); [done|by apply pending_NoDup| |done|].
  { intros m Hm. by apply (pending_lookup _ m Hwf) in Hm. }
  exists (py_sorted send_order_key due), s'. split.
  { unfold _list_due_reliable_messages. erewrite st_bind_run by reflexivity.
    erewrite st_bind_run by reflexivity. by rewrite (st_bind_run _ _ _ _ _ Hr). }
  split_and!; [apply Hq..|done|done|by rewrite py_sorted_Permutation|].
  intros m'. rewrite elem_of_py_sorted, Hin. unfold due_of. setoid_rewrite (pending_lookup _ _ Hwf). unfold slot.
  split; intros (m & t & Hm); exists m, t; tauto.
Qed.

(** *** Sending them *)

(** The queues are the same. *)
Definition queues (s s' : Services) : Prop :=
  sv_now s <= sv_now s' /\
  sm_reliable_states_by_session_id (sv_session_manager s') =
  sm_reliable_states_by_session_id (sv_session_manager s).

#[export] Instance queues_preorder : PreOrder queues.
Proof. split; [intros s; split; [lia|done]|]. intros ??? [? ?] [? ?]. split; [lia|congruence]. Qed.

Lemma queues_modify f sid : does queues (on_sessions (fun sm now => modify_session sm sid (f now))).
Proof.
  intros s r s'. unfold on_sessions. destruct (modify_session _ _ _) as [o sm] eqn:E. intros [= _ <-].
  split; [cbn; lia|]. cbn. unfold modify_session in E. by repeat case_match; simplify_eq.
Qed.

Lemma queues_traffic : traffic_relation queues.
Proof.
  split; [apply _| |].
  - intros s s' Hsm _ Hnow. split; [lia|by rewrite Hsm].
  - intros sid. apply (queues_modify (fun now => touch_fields now None)).
Qed.

Lemma queues_start node_id : does queues (io_start_session node_id).
Proof.
  intros s r s' Hr. split; [apply (steps_clock s s'); by eapply start_steps|by eapply start_queues].
Qed.

(** Once at most, as the last change to the queues, the message is marked as sent. *)
Definition marks (sid : string) (k : Z) {A} (m : st Services A) : Prop :=
  forall s r s', m s = (r, s') -> queues s s' \/
    exists s1, queues s s1 /\ s' = (on_sessions (fun sm now => mark_reliable_outbound_sent sm now sid k) s1).2.

Lemma marks_queues sid k {A} (m : st Services A) : does queues m -> marks sid k m.
Proof. intros Hm s r s' Hr. left. by eapply Hm. Qed.

Lemma marks_bind sid k {A B} (m : st Services A) (f : A -> st Services B) :
  does queues m -> (forall a, marks sid k (f a)) -> marks sid k (mbind f m).
Proof.
  intros Hm Hf s r s' Hr. unfold mbind, st_bind in Hr. destruct (m s) as [[a|e] s1] eqn:E.
  - apply Hm in E. destruct (Hf a s1 r s' Hr) as [Hq|(s2 & Hq & ->)]; [left; by transitivity s1|].
    right. exists s2. split; [by transitivity s1|done].
  - injection Hr as _ <-. left. by eapply Hm.
Qed.

Lemma marks_sent sid k :
  marks sid k (on_sessions (fun sm now => mark_reliable_outbound_sent sm now sid k);; mret tt).
Proof.
  intros s r s' Hr. right. exists s. split; [done|]. unfold mbind, st_bind in Hr.
  destruct (on_sessions _ s) as [[a|e] s1]; injection Hr as _ <-; done.
Qed.

Lemma marks_catch sid k {A} p (m : st Services A) (h : exn -> st Services A) :
  marks sid k m -> (forall e s, (h e s).2 = s) -> marks sid k (catch_exn p m h).
Proof.
  intros Hm Hh s r s' Hr. unfold catch_exn in Hr. destruct (m s) as [[a|e] s1] eqn:E.
  - injection Hr as _ <-. by eapply Hm.
  - destruct (p e); [|injection Hr as _ <-; by eapply Hm]. specialize (Hh e s1). rewrite Hr in Hh.
    cbn in Hh. subst s1. by eapply Hm.
Qed.

Lemma marks_resend m : marks (om_session_id m) (om_sequence_number m) (resend m).
Proof.
  assert (forall {A} (r : st Services A), (forall s, (r s).2 = s) -> does queues r) as Hp
    by (intros A r; apply (does_pure queues)).
  unfold resend. apply marks_bind; [by apply Hp|]. intros [session|]; [|by apply marks_queues, Hp].
  case_bool_decide; [by apply marks_queues, Hp|]. apply marks_catch; [|done].
  case_bool_decide; [|case_bool_decide; [|by apply marks_queues, Hp]].
  - unfold SessionClient.resend_reliable_message, active_physical_session, send_on_session.
    apply marks_bind.
    { apply (does_bind queues); [by apply Hp|]. intros [n|]; [|by apply Hp]. repeat case_match; by apply Hp. }
    intros n. apply marks_bind; [|intros; apply marks_sent].
    apply (does_bind queues); [by apply Hp|]. intros endpoint.
    apply (does_bind queues); [apply (does_header queues queues_traffic)|]. intros header.
    apply (does_send queues queues_traffic).
  - unfold VirtualClient.resend_reliable_message, _send_reliable_outbound_message,
      VirtualClient._require_active_session, VirtualClient._require_session.
    apply marks_bind.
    { apply (does_bind queues).
      - apply (does_bind queues); [by apply Hp|]. intros [n|]; [|by apply Hp]. case_match; by apply Hp.
      - intros n. case_match; by apply Hp. }
    intros n. apply marks_bind; [|intros; apply marks_sent].
    apply (does_forwarded queues queues_traffic).
    + intros sid reason. apply (queues_modify (fun now => update_fields (MkSessionStateUpdateInput
        (Some "closed") (Some "closed") None None None (Some now) (Some reason) None None None))).
    + apply queues_start.
Qed.

(** The message, sent again at most once. *)
Definition sent_again (since : instant) (m m' : ReliableOutboundMessage) : Prop :=
  exists now, since <= now /\
    m' = m <| om_attempts := om_attempts m + 1 |> <| om_last_sent_at := Some now |>.

Lemma resend_slot m s r s' sid k m0 :
  resend m s = (r, s') -> slot s sid k = Some m0 ->
  exists m', slot s' sid k = Some m' /\
    (m' = m0 \/ om_session_id m = sid /\ om_sequence_number m = k /\ sent_again (sv_now s) m0 m').
Proof.
  intros Hr Hm0.
  assert (forall s2, queues s s2 -> slot s2 sid k = slot s sid k) as Hq.
  { intros s2 [_ Hs2]. unfold slot, _get_reliable_outbound. by rewrite Hs2. }
  apply marks_resend in Hr as [Hs'|(s1 & Hs1 & ->)]; [exists m0; split; [by rewrite Hq|by left]|].
  pose proof (Hq s1 Hs1) as Hsl. rewrite Hm0 in Hsl.
  unfold on_sessions. destruct (mark_reliable_outbound_sent _ _ _ _) as [o sm] eqn:E.
  assert (sm = (mark_reliable_outbound_sent (sv_session_manager s1) (sv_now s1) (om_session_id m)
    (om_sequence_number m)).2) as -> by (by rewrite E). unfold slot at 1. cbn.
  unfold mark_reliable_outbound_sent.
  destruct (_get_reliable_outbound (sv_session_manager s1) (om_session_id m) (om_sequence_number m))
    as [m1|] eqn:Hm1; [|exists m0; split; [exact Hsl|by left]].
  case_match; [exists m0; split; [exact Hsl|by left]|]. cbn.
  rewrite get_put_outbound by (by eexists). case_decide as Hd; [|exists m0; split; [exact Hsl|by left]].
  destruct Hd as [<- <-]. unfold slot in Hsl. rewrite Hm1 in Hsl. injection Hsl as ->.
  eexists. split; [done|]. right. split_and!; [done..|]. exists (sv_now s1).
  split; [apply Hs1|done].
Qed.

Lemma resend_Ok m s : exists s', resend m s = (Ok tt, s').
Proof.
  unfold resend. erewrite st_bind_run by reflexivity.
  destruct (get_session_by_session_id _ _); [|by exists s]. case_bool_decide; [by exists s|].
  apply caught_Ok.
Qed.

Lemma steps_resend m : does steps (resend m).
Proof.
  apply (does_resend_with steps steps_traffic).
  - intros. apply does_steps_closing.
  - apply start_steps.
  - apply does_steps_sent.
Qed.

Lemma resend_all l : forall s,
  NoDup l -> (forall m m', m ∈ l -> m' ∈ l -> same_slot m m' -> m = m') ->
  exists s', for_each resend l s = (Ok tt, s') /\ steps s s' /\
    forall sid k m0, slot s sid k = Some m0 -> exists m', slot s' sid k = Some m' /\
      (m' = m0 \/ (exists m, m ∈ l /\ om_session_id m = sid /\ om_sequence_number m = k) /\
         sent_again (sv_now s) m0 m').
Proof.
  induction l as [|m l IH]; intros s Hnd Huniq.
  { exists s. split; [done|]. split; [done|]. intros sid k m0 Hm0. exists m0. split; [done|by left]. }
  apply NoDup_cons in Hnd as [Hnin Hnd]. destruct (resend_Ok m s) as [s1 Hr].
  pose proof (steps_resend m s _ s1 Hr) as Hs1.
  destruct (IH s1 Hnd) as (s2 & Hr2 & Hs2 & Hsl); [intros; by apply Huniq; [right|right|]|].
  exists s2. cbn [for_each]. rewrite (st_bind_run _ _ _ _ _ Hr). split; [done|].
  split; [by transitivity s1|]. intros sid k m0 Hm0.
  destruct (resend_slot m s _ s1 sid k m0 Hr Hm0) as (m1 & Hm1 & Hc1).
  destruct (Hsl sid k m1 Hm1) as (m2 & Hm2 & Hc2). exists m2. split; [done|].
  pose proof (steps_clock s s1 Hs1) as Hclock.
  destruct Hc1 as [-> |(E1 & E2 & Hsent)].
  - destruct Hc2 as [-> |((m' & Hm' & E1 & E2) & now & Hnow & ->)]; [by left|]. right.
    split; [exists m'; by split; [right|]|]. exists now. split; [lia|done].
  - destruct Hc2 as [-> |((m' & Hm' & E1' & E2') & _)].
    + right. split; [exists m; by split; [left|]|done].
    + exfalso. apply Hnin. rewrite (Huniq m m'); [done|by left|by right|split; congruence].
Qed.

(** What an iteration may make of a queued message. *)
Definition retransmitted (s : Services) (m m' : ReliableOutboundMessage) : Prop :=
  if om_pending m then
    if exhausted m then m' = fail_exhausted (sv_now s) m
    else exists t, retry_of s m = Ok t /\
      (m' = m <| om_retry_after := t |> \/
       due_for_send m (sv_now s) (Some t) = true /\
       sent_again (sv_now s) (m <| om_retry_after := t |>) m')
  else m' = m.

Lemma resend_due_spec s :
  timings_known s ->
  exists s', _resend_due_reliable_messages sessions virtual config s = (Ok tt, s') /\
    steps s s' /\ timeouts_known s' /\
    forall sid k m, slot s sid k = Some m -> exists m', slot s' sid k = Some m' /\ retransmitted s m m'.
Proof.
  intros Hk. destruct (list_due_spec s Hk) as (due & s1 & Hr & Hq & Hwf1 & Hsl & Hnd & Hin).
  assert (steps s s1) as Hs1 by (apply steps_same; [apply Hq|apply Hq|done|apply Hq]).
  destruct (resend_all due s1 Hnd) as (s2 & Hr2 & Hs2 & Hsl2).
  { intros m m' Hm Hm' [E1 E2]. apply Hin in Hm as (m0 & t & Hm0 & _ & _ & Ht & -> & _).
    apply Hin in Hm' as (m0' & t' & Hm0' & _ & _ & Ht' & -> & _). cbn in E1, E2.
    rewrite E1, E2, Hm0' in Hm0. injection Hm0 as ->. rewrite Ht in Ht'. by injection Ht' as ->. }
  exists s2. split.
  { unfold _resend_due_reliable_messages. by rewrite (st_bind_run _ _ _ _ _ Hr). }
  assert (steps s s2) as Hs by (by transitivity s1).
  split; [done|]. split; [by apply (timeouts_steps s s2), Hk|].
  intros sid k m Hm. pose proof (proj1 (proj1 Hk)) as Hwf.
  destruct (slot_own s sid k m Hwf Hm) as [E1 E2].
  specialize (Hsl sid k). rewrite Hm in Hsl. cbn in Hsl.
  destruct (Hsl2 sid k _ Hsl) as (m2 & Hm2 & Hc). exists m2. split; [done|].
  assert (m ∈ list_pending_reliable_outbound_messages (sv_session_manager s) <-> om_pending m = true) as Hp.
  { rewrite pending_lookup by done. rewrite E1, E2. unfold slot in Hm. tauto. }
  assert (forall m', m' ∈ due -> om_session_id m' = sid -> om_sequence_number m' = k ->
    om_pending m = true /\ exhausted m = false /\ exists t, retry_of s m = Ok t /\
      due_for_send m (sv_now s) (Some t) = true) as Hdue.
  { intros m' Hm' F1 F2. apply Hin in Hm' as (m0 & t & Hm0 & Hp0 & He0 & Ht & -> & Hd).
    cbn in F1, F2. rewrite F1, F2, Hm in Hm0. injection Hm0 as <-. split_and!; [done..|]. by exists t. }
  unfold after_scan in Hsl, Hc. unfold retransmitted. destruct (om_pending m) eqn:Hpm.
  - rewrite bool_decide_true in Hc by (by apply Hp). unfold scanned in Hc.
    destruct (exhausted m) eqn:He.
    + destruct Hc as [-> |((m' & Hm' & F1 & F2) & _)]; [done|].
      by destruct (Hdue m' Hm' F1 F2) as (_ & ? & _).
    + destruct (retry_of s m) as [t|] eqn:Ht.
      2: { assert (is_ok (retry_of s m) = true) as Hok by (apply Hk; [by apply Hp|done]).
           by rewrite Ht in Hok. }
      exists t. split; [done|]. destruct Hc as [-> |((m' & Hm' & F1 & F2) & Hsent)]; [by left|].
      right. destruct (Hdue m' Hm' F1 F2) as (_ & _ & t' & Ht' & Hd). injection Ht' as <-.
      split; [done|]. destruct Hq as [Hnow _]. by rewrite Hnow in Hsent.
  - rewrite bool_decide_false in Hc by (rewrite Hp; congruence).
    destruct Hc as [-> |((m' & Hm' & F1 & F2) & _)]; [done|].
    by destruct (Hdue m' Hm' F1 F2) as [? _].
Qed.

Lemma queues_maintain l s : 
  forall r s', for_each (maintain_session virtual) l s = (r, s') -> queues s s'.
Proof.
  intros r s'. apply (does_for_each queues queues_traffic). intros n.
  apply (does_maintain queues queues_traffic).
  - intros sid reason. apply (queues_modify (fun now => update_fields (MkSessionStateUpdateInput
      (Some "closed") (Some "closed") None None None (Some now) (Some reason) None None None))).
  - intros sid. apply (queues_modify (fun now n => n <| ns_last_keepalive_sent_at := Some now |>)).
  - apply queues_start.
Qed.

Lemma run_once_spec s :
  timings_known s ->
  exists s1 s', _resend_due_reliable_messages sessions virtual config s = (Ok tt, s1) /\
    _run_once sessions virtual config s = (Ok tt, s') /\ steps s s1 /\ timeouts_known s1 /\
    for_each (maintain_session virtual) (list_active_sessions (sv_session_manager s1)) s1 = (Ok tt, s') /\
    forall since n, n ∈ list_active_sessions (sv_session_manager s1) -> since <= sv_now s1 ->
      over since (ns_session_id n) s1 \/
      _should_close_session virtual (sv_routes s1) (sv_now s1) n = Ok true ->
      over since (ns_session_id n) s'.
Proof.
  intros Hk. destruct (resend_due_spec s Hk) as (s1 & Hr & Hs1 & Hk1 & _).
  assert (forall n, n ∈ list_active_sessions (sv_session_manager s1) ->
    find s1 (ns_session_id n) = Some n) as Hactive.
  { intros n Hn. unfold list_active_sessions in Hn. apply list_elem_of_filter in Hn as [_ Hn].
    by apply (elem_of_list_sessions _ _ _ (proj1 Hk1)) in Hn as [Hn _]. }
  destruct (maintain_all (list_active_sessions (sv_session_manager s1)) s1 Hk1) as (s' & Hr' & _ & Hov).
  { intros n Hn. rewrite Hactive by done. by eexists. }
  exists s1, s'. split; [done|]. split.
  { unfold _run_once. rewrite (st_bind_run _ _ _ _ _ Hr). erewrite st_bind_run by reflexivity. done. }
  split; [done|]. split; [done|]. split; [done|]. intros since n Hn Hle Hc. apply Hov; [done|done|].
  by rewrite (Hactive n Hn).
Qed.
End iteration.

(** ** Claims *)

Section claims.
Context `{FloatText} `{FloatConv} `{IsoParser} `{Entropy} `{OpenSSL} `{AesGcmSiv} `{EngineIO}.
Context (sessions : SessionClientConfig) (virtual : VirtualClientConfig) (config : RuntimeConfig).

Section laws.
Context {slaws : StartLaws}.


End laws.

(** A round trip that is too long. When the timeout of the first active session cannot
    be computed, the iterations after its deadline do nothing at all: none of the other
    sessions gets a keepalive or is closed. *)
Theorem oversized_rtt_stops_runtime (s : Services) (n : NetworkSession)
    (rest : list NetworkSession) (deadline now : instant) (e : exn) :
  find s (ns_session_id n) = Some n ->
  list_pending_reliable_outbound_messages (sv_session_manager s) = [] ->
  list_active_sessions (sv_session_manager s) = n :: rest ->
  ns_session_scope n = "virtual" -> ns_keepalive_deadline n = Some deadline -> deadline <= now ->
  virtual_session_timeout virtual (sv_routes s) n = Raise e ->
  run_iteration sessions virtual config (s <| sv_now := now |>) = (Ok tt, s <| sv_now := now |>).
Proof.
  intros Hn Hpending Hactive Hscope Hd Hle Ht. unfold run_iteration, catch_exn.
  assert (_run_once sessions virtual config (s <| sv_now := now |>) = (Raise e, s <| sv_now := now |>)) as ->;
    [|done].
  unfold _run_once. set (s1 := s <| sv_now := now |>).
  assert (_resend_due_reliable_messages sessions virtual config s1 = (Ok tt, s1)) as Hr.
  { unfold _resend_due_reliable_messages, _list_due_reliable_messages.
    unfold gets, mbind, st_bind, s1. cbn. by rewrite Hpending. }
  rewrite (st_bind_run _ _ _ _ _ Hr). erewrite st_bind_run by reflexivity.
  change (sv_session_manager s1) with (sv_session_manager s). rewrite Hactive. cbn [for_each].
  apply st_bind_raise. unfold maintain_session. erewrite st_bind_run by reflexivity.
  change (get_session_by_session_id (sv_session_manager s1) (ns_session_id n)) with (find s (ns_session_id n)).
  rewrite Hn. cbn [from_option id]. cbv zeta. do 2 (erewrite st_bind_run by reflexivity).
  apply st_bind_raise. unfold lift, _should_close_session, _should_close_virtual_session. rewrite Hd.
  change (sv_now s1) with now. change (sv_routes s1) with (sv_routes s).
  rewrite (proj2 (Z.ltb_ge now deadline)) by done. rewrite bool_decide_false by (intros Hne; by apply Hne).
  by rewrite Ht.
Qed.
End claims.

(** ** Witnesses *)

Section check.
Context `{FloatText} `{FloatConv}.
Context (sessions : SessionClientConfig) (virtual : VirtualClientConfig) (config : RuntimeConfig).

Definition timings_check (s : Services) : bool :=
  forallb (fun n => negb (bool_decide (ns_session_scope n = "virtual"))
                    || is_ok (virtual_session_timeout virtual (sv_routes s) n))
    (list_sessions (sv_session_manager s) None)
  && forallb (fun m => exhausted m || is_ok (retry_of sessions virtual config s m))
       (list_pending_reliable_outbound_messages (sv_session_manager s)).

Lemma timings_check_known s :
  sm_wf (sv_session_manager s) -> timings_check s = true -> timings_known sessions virtual config s.
Proof.
  intros Hwf [H1 H2]%andb_true_iff. rewrite forallb_forall in H1. rewrite forallb_forall in H2.
  split; [split; [done|]|].
  - intros sid n Hn Hv. destruct (get_by_sid_id _ Hwf _ _ Hn) as [Hid _].
    specialize (H1 n). rewrite bool_decide_true in H1 by done. apply H1.
    apply list_elem_of_In, elem_of_list_sessions; [done|]. rewrite Hid. by split.
  - intros m Hm He. specialize (H2 m). rewrite He in H2. apply H2. by apply list_elem_of_In.
Qed.
End check.

#[local] Existing Instance Crypto.demo_aead.
#[local] Existing Instance Engine.demo_entropy.
#[local] Existing Instance Engine.demo_io.
#[local] Existing Instance PhysicalSession.demo_float.
#[local] Existing Instance Merge.demo_openssl.
#[local] Existing Instance iso_extended.

#[local] Instance demo_conv : FloatConv := {|
  float_show := fun _ => "100.0"; float_value := fun _ => float_of_int 100
|}.

#[local] Instance demo_start : StartLaws.
Proof. split; [intros node_id; by apply (does_pure steps)|intros node_id s r s' Hr; cbn in Hr; unfold raise in Hr; by injection Hr as _ <-]. Qed.

Definition demo_sessions : SessionClientConfig := MkSessionClientConfig 20 2000000 5.
Definition demo_virtual : VirtualClientConfig :=
  MkVirtualClientConfig "20.0" 20 (float_of_int 60) (float_of_int 60) (float_of_int 6) 5000000 5.
Definition demo_runtime : RuntimeConfig :=
  MkRuntimeConfig (float_of_int 2) (float_of_int 2) (float_of_int 30).

(** A virtual session over a route of the DRT with this round trip, and a physical
    session; a message was queued on the virtual one. *)
Definition demo_drt_metadata (rtt : Z) : string :=
  entry_point_metadata (MkEntryPoint "pn-v" "pk-v" "path-v" (PyInt rtt) "").

Definition demo_opened (rtt : Z) : SessionManager :=
  match create_outbound_virtual_session new_session_manager "vs-1" 1000 "vn-a" "vn-b" None
          (Some "path-v") 20 with
  | Raise _ => new_session_manager
  | Ok (_, sm) =>
      let sm := (activate_session sm "vs-1" 2000).2 in
      let sm := (update_session_state sm "vs-1" (MkSessionStateUpdateInput None None None None None
        None None None None (Some (demo_drt_metadata rtt)))).2 in
      match create_outbound_physical_session sm "ps-1" 2000 "pn-a" "pn-b" None "udp" "10.0.0.2" 19001 20 with
      | Raise _ => sm
      | Ok (_, sm) => (activate_session sm "ps-1" 2500).2
      end
  end.

(** At [now], with a message queued when [queue] is set. *)
Definition demo_node_at (rtt : Z) (queue : bool) (now : instant) : Services :=
  let sm := demo_opened rtt in
  let sm := if queue then
      match prepare_reliable_outbound sm "msg-1" 3000 "vs-1" "VIRTUAL_SESSION_DATA" [] 5000000 5 with
      | Ok (_, sm) => sm
      | Raise _ => sm
      end
    else sm in
  demo_services sm empty_database <| sv_now := now |>.

Lemma demo_opened_wf rtt : sm_wf (demo_opened rtt).
Proof.
  unfold demo_opened. destruct (create_outbound_virtual_session _ _ _ _ _ _ _ _) as [[n sm]|e] eqn:E1;
    [|apply new_session_manager_wf].
  assert (sm_wf sm) as Hwf by (eapply sm_step_wf; [apply new_session_manager_wf|by eapply step_out_virt]).
  assert (forall sm0 x, sm_wf sm0 -> sm_step sm0 x -> sm_wf x) as Hstep by (intros; by eapply sm_step_wf).
  destruct (create_outbound_physical_session _ _ _ _ _ _ _ _ _ _) as [[n2 sm2]|e] eqn:E2.
  - eapply Hstep; [|apply step_activate]. eapply Hstep; [|by eapply step_out_phys].
    eapply Hstep; [|apply step_update]. by eapply Hstep; [|apply step_activate].
  - eapply Hstep; [|apply step_update]. by eapply Hstep; [|apply step_activate].
Qed.

Lemma demo_node_wf rtt queue now : sm_wf (sv_session_manager (demo_node_at rtt queue now)).
Proof.
  unfold demo_node_at. destruct queue; [|apply demo_opened_wf].
  destruct (prepare_reliable_outbound _ _ _ _ _ _ _ _) as [[m sm]|e] eqn:E; [|apply demo_opened_wf].
  eapply sm_step_wf; [apply demo_opened_wf|by eapply step_prepare].
Qed.

Definition demo_found (s : Services) (sid : string) : NetworkSession :=
  default (MkNetworkSession 0 "" "" "" "" "" "" "" "" "" "" None None None None None None None None
    None None None None None None None None 0 None 0 None None None None None None) (find s sid).



(** A round trip of 10^300 milliseconds. *)
Lemma oversized_rtt_stops_runtime_witness :
  let s := demo_node_at (10 ^ 300) false (seconds 3600) in
  run_iteration demo_sessions demo_virtual demo_runtime s = (Ok tt, s) /\
  length (list_active_sessions (sv_session_manager s)) = 2%nat.
Proof.
  intros s. split; [|vm_compute; reflexivity].
  apply (oversized_rtt_stops_runtime demo_sessions demo_virtual demo_runtime s (demo_found s "vs-1")
    [demo_found s "ps-1"] (default 0 (ns_keepalive_deadline (demo_found s "vs-1"))) (seconds 3600)
    timedelta_overflow); vm_compute; first [reflexivity | discriminate].
Defined.
