(* ===== verification/RouteMaintenance.v ===== *)
(** * Keeping routes published

    Models [VirtualRouteMaintenanceRuntime]
    ([src/app/core/runtime/virtual_route_maintenance.py]): for every active local virtual
    node, builds that have been pending for too long are given up, an active route that
    the DHT does not know any more is given up unless a session uses it, and a new route
    is built while there are fewer than the minimum; and [RouteBuildClient]
    ([src/app/core/protocol_clients/physical/route_build.py]), which starts a build. *)

From S2P Require Import Prelude PyJson PyTime PyInt PyFloat Sha512 Crypto JsonText Records Pow Transport.
From S2P Require Import Reliable Sessions Identity RouteService Core Registry Engine RouteExecute.
From S2P Require Import PhysicalSession RandomWalk SessionClient VirtualClient SessionRuntime.

(** The settings of the runtime: [virtual_route_min_published_routes],
    [virtual_route_build_timeout_seconds] and [default_random_walk_ttl_ms]. *)
Record MaintenanceConfig := MkMaintenanceConfig {
  mc_min_published_routes : Z;
  mc_build_timeout_seconds : spec_float;
  mc_default_random_walk_ttl_ms : Z;
}.

(** The services, and when each pending build was seen first. *)
Record RouteRuntime := MkRouteRuntime {
  mr_services : Services;
  mr_pending_seen_at : odict string spec_float;
}.

#[export] Instance route_runtime_eta : Eta RouteRuntime := fun n =>
  MkRouteRuntime (mr_services n) (mr_pending_seen_at n).

Record DrtRouteHealth := MkRouteHealth {
  rh_online_route_count : Z;
  rh_active_final_path_is_visible : bool;
  rh_should_build_more : bool;
}.

Record RouteBuildPair := MkBuildPair {
  bp_first_hop : candidate;
  bp_final_node : candidate;
}.

Section maintenance.
Context `{FloatText} `{FloatConv} `{IsoParser} `{Entropy} `{OpenSSL} `{AesGcmSiv} `{EngineIO} `{RouteEnv}.
Context (config : RouteConfig) (settings : MaintenanceConfig).

Definition _route_min_online_routes : Z := Z.max 1 (mc_min_published_routes settings).

Definition on_node {A} (m : st Services A) : st RouteRuntime A := fun n =>
  let '(r, s) := m (mr_services n) in (r, n <| mr_services := s |>).

Definition monotonic_seconds : st Services spec_float := fun s =>
  (Ok (monotonic (sv_entropy s)), s <| sv_entropy := S (sv_entropy s) |>).

(** ** The client *)

(** [None] when mining has not ended; its nonce is for the difficulty of the network. *)
Definition start_random_walk_ttl_route (fuel : nat) (first_hop_physical_node_id
    final_physical_node_public_key : string) (remaining_ttl_ms : Z) (nonce : option Z)
    (expected_round_trip_ttl_ms : option Z) (local_virtual_node_id : option string)
    : st Services (option jdict) :=
  let difficulty := cf_network_pow_difficulty_bits config in
  initial_path_id ← new_uuid;
  match match nonce with
        | Some nonce => Some (Ok nonce)
        | None => find_valid_nonce fuel final_physical_node_public_key difficulty
        end with
  | None => mret None
  | Some route_nonce =>
      route_nonce ← lift route_nonce;
      lift (build_route_pow_details final_physical_node_public_key (Some route_nonce) difficulty);;
      on_routes (fun rows _ => create_initiator_resolution rows first_hop_physical_node_id
        initial_path_id final_physical_node_public_key expected_round_trip_ttl_ms
        (Some strategy_name) (Some route_nonce) local_virtual_node_id None None);;
      payload ← lift (build_initial_route_create (Some final_physical_node_public_key)
        remaining_ttl_ms (Some initial_path_id) (Some (PyInt route_nonce)));
      sent ← forward_message_to_remote_physical_node first_hop_physical_node_id "ROUTE_CREATE"
        payload false;
      if negb sent then
        on_routes (fun rows now => invalidate_initiator_resolution rows now initial_path_id
          "route_create_first_hop_send_failed");;
        raise (RuntimeError "Could not send ROUTE_CREATE to the first hop.")
      else
        mret (Some [("route_strategy", JStr strategy_name);
                    ("initial_path_id", JStr initial_path_id);
                    ("local_virtual_node_id", opt_json JStr local_virtual_node_id);
                    ("first_hop_physical_node_id", JStr first_hop_physical_node_id);
                    ("final_physical_node_public_key", JStr final_physical_node_public_key);
                    ("remaining_ttl_ms", JInt remaining_ttl_ms);
                    ("nonce", JInt route_nonce);
                    ("expected_round_trip_ttl_ms", opt_json JInt expected_round_trip_ttl_ms)])
  end.

Definition send_route_create_ping (initial_path_id : string) : st Services jdict :=
  initiator_resolution ← gets (fun s =>
    get_initiator_resolution_by_initial_path_id (sv_routes s) initial_path_id);
  match initiator_resolution with
  | None => raise (ValueError "The provided route does not exist in the local initiator state.")
  | Some initiator_resolution =>
      match nonempty_column (rr_first_hop_physical_node_id initiator_resolution) with
      | None => raise (ValueError "The provided route has no associated first hop.")
      | Some first_hop =>
          match nonempty_column (rr_route_strategy initiator_resolution) with
          | None => raise (ValueError "The provided route has no registered strategy.")
          | Some route_strategy =>
              ping_id ← new_uuid;
              started_at ← monotonic_seconds;
              on_routes (fun rows _ => mark_initiator_resolution_ping_started rows initial_path_id
                ping_id (float_show (float_mul started_at (float_of_int 1000))));;
              forward_message_to_remote_physical_node first_hop "ROUTE_CREATE_PING"
                [("route_strategy", JStr route_strategy); ("path_id", JStr initial_path_id);
                 ("ping_id", JStr ping_id)] false;;
              mret [("initial_path_id", JStr initial_path_id); ("ping_id", JStr ping_id);
                    ("route_strategy", JStr route_strategy)]
          end
      end
  end.

(** ** Pending builds *)

Definition _pending_timeout_seconds_for_status (status : string) : spec_float :=
  if bool_decide (status = "pending_final_validation")
  then float_mul (mc_build_timeout_seconds settings) (float_of_int 2)
  else mc_build_timeout_seconds settings.

(** The first time a build is asked for is its start: [setdefault]. *)
Definition _pending_elapsed_seconds (initial_path_id : option string) : st RouteRuntime spec_float :=
  now ← on_node monotonic_seconds;
  match initial_path_id with
  | None => mret (S754_zero false)
  | Some initial_path_id =>
      seen ← gets (fun n => od_get initial_path_id (mr_pending_seen_at n));
      match seen with
      | Some first_seen_at => mret (float_sub now first_seen_at)
      | None =>
          modify (fun n => n <| mr_pending_seen_at :=
            od_set initial_path_id now (mr_pending_seen_at n) |>);;
          mret (float_sub now now)
      end
  end.

Definition invalidate_initiator (initial_path_id reason : string) : st RouteRuntime unit :=
  on_node (on_routes (fun rows now => invalidate_initiator_resolution rows now initial_path_id reason));;
  mret tt.

Fixpoint expire_pending (pending_resolutions : route_table) (active_pending_count : Z)
    : st RouteRuntime Z :=
  match pending_resolutions with
  | [] => mret active_pending_count
  | resolution :: pending_resolutions =>
      pending_elapsed_seconds ← _pending_elapsed_seconds (rr_initial_path_id resolution);
      match rr_initial_path_id resolution with
      | Some initial_path_id =>
          if float_leb (_pending_timeout_seconds_for_status (rr_status resolution))
               pending_elapsed_seconds
          then
            invalidate_initiator initial_path_id "virtual_route_build_pending_timeout";;
            modify (fun n => n <| mr_pending_seen_at :=
              od_del initial_path_id (mr_pending_seen_at n) |>);;
            expire_pending pending_resolutions active_pending_count
          else expire_pending pending_resolutions (active_pending_count + 1)
      | None => expire_pending pending_resolutions (active_pending_count + 1)
      end
  end.

Definition _expire_stale_pending_route_builds (local_virtual_node_id : string) : st RouteRuntime Z :=
  pending_resolutions ← gets (fun n =>
    list_pending_initiator_resolutions_for_local_virtual_node (sv_routes (mr_services n))
      local_virtual_node_id);
  expire_pending pending_resolutions 0.

(** ** The active route *)

(** A set, sorted. *)
Definition _extract_valid_drt_final_path_ids (now : instant) (local_virtual_node_id : string)
    (record_json : json) : list string :=
  match truthy_str record_json with
  | None => []
  | Some record_json =>
      match parse_record "drt" record_json with
      | Ok (Drt record) =>
          if bool_decide (sha512_hex (drt_pk_virtual_node record) <> local_virtual_node_id) then []
          else
            py_sorted id (remove_dups (re_final_path_id <$>
              List.filter (fun entry => str_truthy (re_final_path_id entry)
                  && negb (CommonTime.is_expired_iso_datetime now (re_expires_at entry)))
                (drt_route_entries record)))
      | _ => []
      end
  end.

Definition _invalidate_active_route (initial_path_id final_path_id : option string) (reason : string)
    : st RouteRuntime unit :=
  bound ← gets (fun n => has_active_virtual_session_bound_to_route
    (sv_session_manager (mr_services n)) [initial_path_id; final_path_id]);
  if bound : bool then mret tt
  else
    match nonempty_column initial_path_id with
    | None => mret tt
    | Some initial_path_id => invalidate_initiator initial_path_id reason
    end.

(** [str(value or "not_found")]; the text of what is not a string is neither "found" nor
    "not_found". *)
Definition query_status (value : json) : option string :=
  if negb (json_truthy value) then Some "not_found"
  else match value with JStr s => Some s | _ => None end.

Definition _read_drt_route_health (local_virtual_node_id : string)
    (initial_path_id final_path_id : option string) : st RouteRuntime (option DrtRouteHealth) :=
  result ← on_node (dht_query "drt" (Some local_virtual_node_id));
  let status := query_status (py_get result "status") in
  if bool_decide (status <> Some "found") then
    if bool_decide (status = Some "not_found") then
      _invalidate_active_route initial_path_id final_path_id "active_route_missing_from_drt";;
      mret (Some (MkRouteHealth 0 false true))
    else mret None
  else
    now ← gets (fun n => sv_now (mr_services n));
    let valid_final_path_ids := _extract_valid_drt_final_path_ids now local_virtual_node_id
      (py_get result "record_json") in
    let count := Z.of_nat (length valid_final_path_ids) in
    let final_path_is_visible :=
      match nonempty_column final_path_id with
      | Some final_path_id => bool_decide (final_path_id ∈ valid_final_path_ids)
      | None => false
      end in
    if count <? _route_min_online_routes then
      mret (Some (MkRouteHealth count final_path_is_visible true))
    else if negb final_path_is_visible then
      _invalidate_active_route initial_path_id final_path_id "active_route_final_path_missing_from_drt";;
      mret (Some (MkRouteHealth count false true))
    else mret (Some (MkRouteHealth count final_path_is_visible false)).

Definition _should_build_new_route (local_virtual_node_id : string) : st RouteRuntime bool :=
  pending_route_count ← _expire_stale_pending_route_builds local_virtual_node_id;
  active_route ← gets (fun n =>
    get_active_initiator_resolution_for_local_virtual_node (sv_routes (mr_services n))
      local_virtual_node_id);
  match active_route with
  | None => mret (pending_route_count <? _route_min_online_routes)
  | Some active_route =>
      route_health ← _read_drt_route_health local_virtual_node_id
        (rr_initial_path_id active_route) (rr_final_path_id active_route);
      match route_health with
      | None => mret false
      | Some route_health =>
          if rh_should_build_more route_health then
            let missing_route_count :=
              Z.max 0 (_route_min_online_routes - rh_online_route_count route_health) in
            mret (pending_route_count <? missing_route_count)
          else mret false
      end
  end.

(** ** Building a route *)

(** [random.choice] of a list that is not empty. *)
Definition choose {A} (l : list A) : st RouteRuntime (option A) := on_node (fun s =>
  (Ok (l !! (random_index (sv_entropy s) (length l) mod length l)%nat),
   s <| sv_entropy := S (sv_entropy s) |>)).

Definition _select_route_build_pair : st RouteRuntime (option RouteBuildPair) :=
  candidates ← on_node (fun s =>
    (Ok (list_remote_physical_nodes_for_random_walk_ttl (sv_database s)
           (random_order (sv_entropy s)) (cf_random_walk_candidate_limit config)),
     s <| sv_entropy := S (sv_entropy s) |>));
  if (length candidates <? 2)%nat then mret None
  else
    first_hop ← choose candidates;
    match first_hop with
    | None => mret None
    | Some first_hop =>
        let final_candidates :=
          List.filter (fun c => bool_decide (c.1.1 <> first_hop.1.1)) candidates in
        match final_candidates with
        | [] => mret None
        | _ =>
            final_node ← choose final_candidates;
            mret (MkBuildPair first_hop <$> final_node)
        end
    end.

(** [None] when mining has not ended. What the client raises is logged. *)
Definition _start_route_build (fuel : nat) (local_virtual_node_id : string)
    (route_pair : RouteBuildPair) : st RouteRuntime (option unit) :=
  let expected := mc_default_random_walk_ttl_ms settings in
  half ← lift (py_int_of_float (int_true_div expected 2));
  result ← catch_exn (fun _ => true)
    (result ← on_node (start_random_walk_ttl_route fuel (bp_first_hop route_pair).1.1
       (bp_final_node route_pair).1.2 (Z.max 1 half) None (Some expected) (Some local_virtual_node_id));
     mret (Some result))
    (fun _ => mret None);
  match result with
  | None => mret (Some tt)
  | Some None => mret None
  | Some (Some result) =>
      route_build_started_at ← on_node monotonic_seconds;
      match truthy_str (py_get result "initial_path_id") with
      | Some initial_path_id =>
          modify (fun n => n <| mr_pending_seen_at :=
            od_set initial_path_id route_build_started_at (mr_pending_seen_at n) |>)
      | None => mret tt
      end;;
      mret (Some tt)
  end.

(** One route per iteration: the loop ends with the first build. *)
Fixpoint maintain_nodes (fuel : nat) (local_virtual_nodes : list LocalVirtualNodeIdentity)
    : st RouteRuntime (option unit) :=
  match local_virtual_nodes with
  | [] => mret (Some tt)
  | virtual_node :: local_virtual_nodes =>
      build ← _should_build_new_route (lv_id virtual_node);
      if negb build then maintain_nodes fuel local_virtual_nodes
      else
        route_pair ← _select_route_build_pair;
        match route_pair with
        | None => maintain_nodes fuel local_virtual_nodes
        | Some route_pair => _start_route_build fuel (lv_id virtual_node) route_pair
        end
  end.

Definition _run_once (fuel : nat) : st RouteRuntime (option unit) :=
  local_virtual_nodes ← gets (fun n => list_local_virtual_nodes (sv_database (mr_services n)) true);
  maintain_nodes fuel local_virtual_nodes.
End maintenance.

(** ** What an iteration does to the routes *)

(** A DHT query leaves the routes alone, and which virtual sessions are active. *)
Class QueryLaws `{RouteEnv} := {
  query_keeps : forall namespace key s r s', dht_query namespace key s = (r, s') ->
    sv_routes s' = sv_routes s /\
    forall ids, has_active_virtual_session_bound_to_route (sv_session_manager s') ids =
                has_active_virtual_session_bound_to_route (sv_session_manager s) ids;
}.

Definition routes_of (n : RouteRuntime) : route_table := sv_routes (mr_services n).

(** The row is the same, or was given up: it was a build in progress of one of these
    virtual nodes, or an active route of one that no active virtual session is bound to. *)
Definition given_up (nodes : list string) (bound : list (option string) -> bool)
    (r r' : RouteResolution) : Prop :=
  r' = r \/
  (rr_local_role r = "initiator" /\ rr_is_valid r = true /\
   (exists v, v ∈ nodes /\ rr_local_virtual_node_id r = Some v) /\
   rr_is_valid r' = false /\ frozen_columns r' = frozen_columns r /\
   (pending_status (rr_status r) = true \/
    bound [rr_initial_path_id r; rr_final_path_id r] = false)).

(** A row that may be given up. *)
Definition disposable (nodes : list string) (bound : list (option string) -> bool) (p : string)
    (r : RouteResolution) : Prop :=
  initiator_path p r = true /\ (exists v, v ∈ nodes /\ rr_local_virtual_node_id r = Some v) /\
  (pending_status (rr_status r) = true \/ bound [rr_initial_path_id r; rr_final_path_id r] = false).

Section upkeep.
Context `{FloatText}.
Context (nodes : list string) (bound : list (option string) -> bool) (rows0 : route_table).

Definition kept (rows : route_table) : Prop :=
  table_wf rows /\ Forall2 (given_up nodes bound) rows0 rows.

Lemma invalidate_kept rows now p reason r o rows' :
  kept rows -> r ∈ rows -> disposable nodes bound p r ->
  invalidate_initiator_resolution rows now p reason = Ok (o, rows') ->
  kept rows' /\ rows' = replace_row (invalidate_row now reason r) <$> rows.
Proof.
  intros [Hwf Hf] Hr (Hp & Hv & Hcond) Hi.
  assert (table_wf rows') as Hwf' by (eapply update_latest_wf; [apply invalidate_initiator_good|done|exact Hi]).
  apply update_latest_Ok in Hi as [(_ & _ & Hnone)|(x & Hx & _ & _ & ->)].
  { apply select_latest_None in Hnone. rewrite Forall_forall in Hnone. rewrite Hnone in Hp; done. }
  apply select_latest_Some in Hx as (Hxin & Hxp & _).
  assert (x = r) as -> by (by apply (initiator_path_inj rows p)). split; [|done]. split; [done|].
  apply Forall2_fmap_r. apply Forall2_same_length_lookup. split; [by eapply Forall2_length|].
  intros i a b Ha Hb. pose proof (Forall2_lookup_lr _ _ _ _ _ _ Hf Ha Hb) as Hab. cbn.
  unfold replace_row. case_bool_decide as Hid; [|done].
  assert (b = r) as ->.
  { apply (sorted_ids_inj rows); [apply Hwf|by eapply list_elem_of_lookup_2|done|exact Hid]. }
  unfold initiator_path, is_str in Hp. rewrite !andb_true_iff, !bool_decide_eq_true in Hp.
  destruct Hp as [[Hrole _] Hvalid]. destruct Hab as [-> |Hab]; [|destruct_and!; congruence].
  right. split_and!; done.
Qed.

Lemma filter_replace (p : RouteResolution -> bool) x r (rows : route_table) :
  StronglySorted Z.lt (rr_id <$> rows) -> r ∈ rows -> rr_id x = rr_id r -> p x = false ->
  (length (List.filter p (replace_row x <$> rows)) + (if p r then 1 else 0))%nat =
  length (List.filter p rows).
Proof.
  intros Hs Hr Hid Hx. induction rows as [|a rows IH]; [by apply not_elem_of_nil in Hr|].
  csimpl in Hs. apply StronglySorted_inv in Hs as [Hs Hall]. csimpl. unfold replace_row at 1.
  apply elem_of_cons in Hr as [<-|Hr].
  - rewrite bool_decide_true by done. cbn [List.filter]. rewrite Hx.
    assert (replace_row x <$> rows = rows) as ->.
    { rewrite <- (list_fmap_id rows) at 2. apply Forall_fmap_ext_1. rewrite Forall_fmap in Hall.
      eapply Forall_impl; [exact Hall|]. intros b Hb. cbn in Hb. unfold replace_row.
      rewrite bool_decide_false by lia. done. }
    destruct (p r); cbn; lia.
  - rewrite bool_decide_false.
    + cbn [List.filter]. specialize (IH Hs Hr). destruct (p a); cbn; lia.
    + rewrite Forall_fmap, Forall_forall in Hall. specialize (Hall r Hr). cbn in Hall. lia.
Qed.

Definition pendings (v : string) (rows : route_table) : Z :=
  Z.of_nat (length (List.filter (pending_initiator_of v) rows)).

Lemma invalidated_pendings v rows now reason r :
  table_wf rows -> r ∈ rows ->
  pendings v (replace_row (invalidate_row now reason r) <$> rows)
  = pendings v rows - (if pending_initiator_of v r then 1 else 0).
Proof.
  intros Hwf Hr. unfold pendings.
  pose proof (filter_replace (pending_initiator_of v) (invalidate_row now reason r) r rows
    (tw_ids _ Hwf) Hr eq_refl) as Hl.
  assert (pending_initiator_of v (invalidate_row now reason r) = false) as Hf.
  { unfold pending_initiator_of. cbn. by rewrite !andb_false_r. }
  specialize (Hl Hf). destruct (pending_initiator_of v r); lia.
Qed.

(** The state of an iteration. *)
Definition upkeep (n : RouteRuntime) : Prop :=
  kept (routes_of n) /\
  forall ids, has_active_virtual_session_bound_to_route (sv_session_manager (mr_services n)) ids = bound ids.

(** Giving up a row, or failing to. *)
Lemma invalidate_upkeep p reason x n r n' :
  upkeep n -> x ∈ routes_of n -> disposable nodes bound p x ->
  invalidate_initiator p reason n = (r, n') ->
  upkeep n' /\
  match r with
  | Ok _ => exists now, routes_of n' = replace_row (invalidate_row now reason x) <$> routes_of n
  | Raise _ => routes_of n' = routes_of n
  end.
Proof.
  intros [Hk Hb] Hx Hd Hr. unfold invalidate_initiator, on_node, on_routes, mbind, st_bind in Hr.
  destruct (invalidate_initiator_resolution (sv_routes (mr_services n)) (sv_now (mr_services n)) p reason)
    as [[o rows]|e] eqn:E; injection Hr as <- <-; [|by split].
  destruct (invalidate_kept _ _ _ _ x _ _ Hk Hx Hd E) as [Hk' Hrows].
  split; [by split|]. by exists (sv_now (mr_services n)).
Qed.
End upkeep.

Section iteration.
Context `{FloatText} `{FloatConv} `{IsoParser} `{Entropy} `{OpenSSL} `{AesGcmSiv} `{EngineIO} `{RouteEnv}.
Context {qlaws : QueryLaws}.
Context (config : RouteConfig) (settings : MaintenanceConfig).
Context (nodes : list string) (bound : list (option string) -> bool) (rows0 : route_table).

Let U : RouteRuntime -> Prop := upkeep nodes bound rows0.

(** Everything but the routes and the sessions may change. *)
Definition same_routes (n n' : RouteRuntime) : Prop :=
  routes_of n' = routes_of n /\
  forall ids, has_active_virtual_session_bound_to_route (sv_session_manager (mr_services n')) ids =
              has_active_virtual_session_bound_to_route (sv_session_manager (mr_services n)) ids.

#[local] Instance same_routes_preorder : PreOrder same_routes.
Proof using. split; [by split|]. intros ??? [? Ha] [? Hb]. split; [congruence|]. intros ids. by rewrite Hb. Qed.

Lemma upkeep_same n n' : same_routes n n' -> U n -> U n'.
Proof using.
  intros [Hr Hb] [Hk Hbound]. split; [by rewrite Hr|]. intros ids. by rewrite Hb.
Qed.

Lemma elapsed_same id : does same_routes (_pending_elapsed_seconds id).
Proof using.
  unfold _pending_elapsed_seconds. apply (does_bind same_routes); [by intros n r n' [= _ <-]|].
  intros now. destruct id as [id|]; [|by apply (does_pure same_routes)].
  apply (does_bind same_routes); [by apply (does_pure same_routes)|].
  intros [t|]; [by apply (does_pure same_routes)|].
  apply (does_bind same_routes); [by intros n r n' [= _ <-]|]. intros _. by apply (does_pure same_routes).
Qed.

Lemma choose_same {A} (l : list A) : does same_routes (choose l).
Proof using. by intros n r n' [= _ <-]. Qed.

Lemma pending_disposable v x p :
  v ∈ nodes -> pending_initiator_of v x = true -> rr_initial_path_id x = Some p ->
  disposable nodes bound p x.
Proof using.
  unfold pending_initiator_of, disposable, initiator_path, is_str.
  rewrite !andb_true_iff, !bool_decide_eq_true. intros Hv [[[Hrole Hvn] Hst] Hval] Hp.
  split_and!; [done|done|done|by exists v|by left].
Qed.

(** The builds that are given up leave; the others are counted. *)
Lemma expire_pending_upkeep v l : v ∈ nodes -> forall count n r n',
  U n -> NoDup l -> (forall x, x ∈ l -> x ∈ routes_of n /\ pending_initiator_of v x = true) ->
  expire_pending settings l count n = (r, n') ->
  U n' /\ forall k, r = Ok k ->
    pendings v (routes_of n') - k = pendings v (routes_of n) - Z.of_nat (length l) - count.
Proof using.
  intros Hv. induction l as [|x l IH]; intros count n r n' HU Hnd Hl Hr.
  { injection Hr as <- <-. split; [done|]. intros k [= <-]. cbn. lia. }
  apply NoDup_cons in Hnd as [Hnin Hnd]. cbn [expire_pending] in Hr.
  unfold mbind at 1, st_bind in Hr.
  destruct (_pending_elapsed_seconds (rr_initial_path_id x) n) as [[elapsed|e] n1] eqn:Ee;
    pose proof (elapsed_same _ _ _ _ Ee) as Hsame; pose proof (upkeep_same _ _ Hsame HU) as HU1.
  2: { injection Hr as <- <-. split; [done|]. done. }
  destruct Hsame as [Hrows _].
  assert (forall y, y ∈ l -> y ∈ routes_of n1 /\ pending_initiator_of v y = true) as Hl1.
  { intros y Hy. rewrite Hrows. apply Hl. by right. }
  assert (forall c r n', expire_pending settings l c n1 = (r, n') -> c = count + 1 -> U n' /\
    forall k, r = Ok k -> pendings v (routes_of n') - k =
      pendings v (routes_of n) - Z.of_nat (length (x :: l)) - count) as Hnext.
  { intros c r' n2 Hr2 ->. destruct (IH _ _ _ _ HU1 Hnd Hl1 Hr2) as [HU2 Hk]. split; [done|].
    intros k Hk'. specialize (Hk k Hk'). rewrite Hrows in Hk. cbn [length]. lia. }
  destruct (rr_initial_path_id x) as [p|] eqn:Hp; [|by eapply Hnext].
  destruct (float_leb _ _); [|by eapply Hnext].
  destruct (Hl x ltac:(by left)) as [Hx Hpend]. rewrite <- Hrows in Hx.
  unfold mbind at 1, st_bind in Hr.
  destruct (invalidate_initiator p "virtual_route_build_pending_timeout" n1) as [[u|e] n2] eqn:Ei;
    destruct (invalidate_upkeep nodes bound rows0 p _ x n1 _ n2 HU1 Hx
      (pending_disposable v x p Hv Hpend Hp) Ei) as [HU2 Hrows2];
    [|by injection Hr as <- <-].
  destruct Hrows2 as [now Hrows2]. unfold mbind at 1, st_bind, modify in Hr.
  match type of Hr with expire_pending _ _ _ ?m = _ => set (n3 := m) in Hr end.
  assert (U n3) as HU3 by exact HU2. assert (routes_of n3 = routes_of n2) as Hrows3 by done.
  edestruct IH as [HU4 Hk]; [exact HU3|exact Hnd| |exact Hr|].
  { intros y Hy. destruct (Hl1 y Hy) as [Hin Hpy]. split; [|done]. rewrite Hrows3, Hrows2.
    apply list_elem_of_fmap. exists y. split; [|done]. unfold replace_row.
    rewrite bool_decide_false; [done|]. intros Hid. apply Hnin.
    rewrite (sorted_ids_inj (routes_of n1) x y); [done|apply HU1|done|done|done]. }
  split; [done|]. intros k Hk'. specialize (Hk k Hk'). rewrite Hrows3, Hrows2 in Hk.
  rewrite (invalidated_pendings v) in Hk by (apply HU1 || done). rewrite Hpend, Hrows in Hk.
  cbn [length]. lia.
Qed.

Lemma expire_stale_upkeep v n r n' :
  v ∈ nodes -> U n -> _expire_stale_pending_route_builds settings v n = (r, n') ->
  U n' /\ forall k, r = Ok k -> k = pendings v (routes_of n').
Proof using.
  intros Hv HU Hr. unfold _expire_stale_pending_route_builds in Hr.
  unfold mbind, st_bind, gets in Hr.
  set (l := list_pending_initiator_resolutions_for_local_virtual_node (sv_routes (mr_services n)) v) in Hr.
  assert (l ≡ₚ List.filter (pending_initiator_of v) (routes_of n)) as Hperm
    by apply py_sorted_Permutation.
  destruct (expire_pending_upkeep v l Hv 0 n r n' HU) as [HU' Hk]; [| |exact Hr|].
  - rewrite Hperm. apply NoDup_ListNoDup, List.NoDup_filter, NoDup_ListNoDup.
    pose proof (tw_ids _ (proj1 (proj1 HU))) as Hs.
    apply (NoDup_fmap_1 rr_id). clear -Hs. induction (rr_id <$> routes_of n) as [|i l IH]; [constructor|].
    apply StronglySorted_inv in Hs as [Hs Hall]. apply NoDup_cons. split; [|auto].
    intros Hin. rewrite Forall_forall in Hall. specialize (Hall i Hin). lia.
  - intros x Hx. rewrite Hperm in Hx. apply list_elem_of_In, filter_In in Hx as [Hx Hp].
    by apply list_elem_of_In in Hx.
  - split; [done|]. intros k Hk'. specialize (Hk k Hk'). rewrite Hperm in Hk.
    unfold pendings in Hk |- *. lia.
Qed.

Lemma query_same ns key : does same_routes (on_node (dht_query ns key)).
Proof using qlaws.
  intros n r n' Hr. unfold on_node in Hr. destruct (dht_query ns key (mr_services n)) as [r0 s] eqn:E.
  injection Hr as _ <-. by apply query_keeps in E.
Qed.

(** Giving up the active route, when no session uses it. *)
Lemma invalidate_active_upkeep v x reason n r n' :
  v ∈ nodes -> U n -> x ∈ routes_of n -> rr_local_role x = "initiator" -> rr_is_valid x = true ->
  rr_local_virtual_node_id x = Some v ->
  _invalidate_active_route (rr_initial_path_id x) (rr_final_path_id x) reason n = (r, n') ->
  U n' /\ pendings v (routes_of n') <= pendings v (routes_of n).
Proof using.
  intros Hv HU Hx Hrole Hval Hvn Hr. unfold _invalidate_active_route in Hr.
  unfold mbind at 1, st_bind, gets in Hr.
  destruct (has_active_virtual_session_bound_to_route _ _) eqn:Hb;
    [injection Hr as _ <-; split; [done|lia]|].
  rewrite (proj2 HU) in Hb.
  destruct (nonempty_column (rr_initial_path_id x)) as [p|] eqn:Hp;
    [|injection Hr as _ <-; split; [done|lia]].
  assert (rr_initial_path_id x = Some p) as Hpx.
  { unfold nonempty_column in Hp. destruct (rr_initial_path_id x); [|done]. case_match; [done|done]. }
  assert (disposable nodes bound p x) as Hd.
  { split_and!; [|by exists v|by right]. unfold initiator_path, is_str.
    by rewrite Hrole, Hval, Hpx, !bool_decide_true. }
  destruct (invalidate_upkeep nodes bound rows0 p reason x n r n' HU Hx Hd Hr) as [HU' Hrows].
  split; [done|]. destruct r as [u|e]; [|rewrite Hrows; lia].
  destruct Hrows as [now ->]. rewrite invalidated_pendings by (apply HU || done). case_match; lia.
Qed.

Lemma read_health_upkeep v x n r n' :
  v ∈ nodes -> U n -> x ∈ routes_of n -> rr_local_role x = "initiator" -> rr_is_valid x = true ->
  rr_local_virtual_node_id x = Some v ->
  _read_drt_route_health settings v (rr_initial_path_id x) (rr_final_path_id x) n = (r, n') ->
  U n' /\ pendings v (routes_of n') <= pendings v (routes_of n) /\
  forall h, r = Ok (Some h) -> 0 <= rh_online_route_count h.
Proof using qlaws.
  intros Hv HU Hx Hrole Hval Hvn Hr. unfold _read_drt_route_health in Hr. unfold mbind at 1, st_bind in Hr.
  destruct (on_node (dht_query "drt" (Some v)) n) as [[result|e] n1] eqn:Eq;
    pose proof (query_same _ _ _ _ _ Eq) as Hsame; pose proof (upkeep_same _ _ Hsame HU) as HU1;
    destruct Hsame as [Hrows _]; rewrite <- Hrows in Hx |- *.
  2: { injection Hr as <- <-. split_and!; [apply HU1..|lia|done]. }
  assert (forall reason c b r n', 0 <= c ->
    (_invalidate_active_route (rr_initial_path_id x) (rr_final_path_id x) reason;;
     mret (Some (MkRouteHealth c b true))) n1 = (r, n') ->
    U n' /\ pendings v (routes_of n') <= pendings v (routes_of n1) /\
    forall h, r = Ok (Some h) -> 0 <= rh_online_route_count h) as Hinv.
  { intros reason c b r' n2 Hc Hr2. unfold mbind, st_bind in Hr2.
    destruct (_invalidate_active_route _ _ reason n1) as [[u|e] n3] eqn:Ei;
      destruct (invalidate_active_upkeep v x reason n1 _ n3 Hv HU1 Hx Hrole Hval Hvn Ei) as [HU3 Hp3];
      injection Hr2 as <- <-; split_and!; try apply HU3; try done. by intros h [= <-]. }
  case_bool_decide.
  - case_bool_decide; [by eapply Hinv; [|exact Hr]|]. injection Hr as <- <-.
    split_and!; [apply HU1..|lia|done].
  - unfold mbind at 1, st_bind, gets in Hr.
    repeat case_match; try (eapply Hinv; [|exact Hr]; lia);
      injection Hr as <- <-; (split_and!; [apply HU1..|lia|intros h [= <-]; cbn; lia]).
Qed.

Lemma should_build_upkeep v n r n' :
  v ∈ nodes -> U n -> _should_build_new_route settings v n = (r, n') ->
  U n' /\ (r = Ok true -> pendings v (routes_of n') < _route_min_online_routes settings).
Proof using qlaws.
  intros Hv HU Hr. unfold _should_build_new_route in Hr. unfold mbind at 1, st_bind in Hr.
  destruct (_expire_stale_pending_route_builds settings v n) as [[count|e] n1] eqn:Ee;
    destruct (expire_stale_upkeep v n _ n1 Hv HU Ee) as [HU1 Hcount];
    [|injection Hr as <- <-; by split].
  specialize (Hcount count eq_refl). unfold mbind at 1, st_bind, gets in Hr.
  destruct (get_active_initiator_resolution_for_local_virtual_node _ v) as [x|] eqn:Ex.
  2: { injection Hr as <- <-. split; [done|]. intros [= Hc%Z.ltb_lt]. lia. }
  apply select_latest_Some in Ex as (Hx & Hpx & _).
  unfold is_str in Hpx. rewrite !andb_true_iff, !bool_decide_eq_true in Hpx.
  destruct Hpx as [[[[Hrole Hvn] Hact] Hfin] Hval]. unfold mbind at 1, st_bind in Hr.
  destruct (_read_drt_route_health settings v (rr_initial_path_id x) (rr_final_path_id x) n1)
    as [[h|e] n2] eqn:Eh;
    destruct (read_health_upkeep v x n1 _ n2 Hv HU1 Hx Hrole Hval Hvn Eh) as (HU2 & Hp2 & Hh);
    [|injection Hr as <- <-; by split].
  destruct h as [h|]; [|injection Hr as <- <-; by split]. specialize (Hh h eq_refl).
  destruct (rh_should_build_more h); injection Hr as <- <-; (split; [done|]); [|done].
  intros [= Hc%Z.ltb_lt]. unfold _route_min_online_routes in *. lia.
Qed.

(** *** A new build *)

Context {slaws : StartLaws}.

(** A row of a build this node began for the virtual node: pending, or given up at once. *)
Definition build_row (v first_hop final_key : string) (x : RouteResolution) : Prop :=
  rr_local_role x = "initiator" /\ rr_local_virtual_node_id x = Some v /\
  rr_first_hop_physical_node_id x = Some first_hop /\
  rr_final_physical_node_public_key x = Some final_key /\ is_Some (rr_initial_path_id x) /\
  (rr_status x = "pending_kem_offer" \/ rr_status x = "invalid").

(** At most one row is added. *)
Definition one_more (P : RouteResolution -> Prop) (rows rows' : route_table) : Prop :=
  rows' = rows \/ exists x, rows' = rows ++ [x] /\ P x.

Lemma forward_routes node_id ty payload force :
  does (fun s s' => sv_routes s' = sv_routes s)
    (forward_message_to_remote_physical_node node_id ty payload force).
Proof using slaws.
  assert (traffic_relation (fun s s' => sv_routes s' = sv_routes s)) as HR.
  { split; [|done|].
    - split; [by intros s|]. intros ??? <- ->. done.
    - intros sid s r s' Hr. by apply does_steps_touch in Hr as [_ ? _ _ _]. }
  apply (does_forward _ HR).
  - intros sid s r s' Hr. apply (does_steps_closing sid "transport_send_failed") in Hr. apply Hr.
  - intros id s r s' Hr. apply start_steps in Hr. apply Hr.
Qed.

(** Changing the row that was inserted last. *)
Lemma replace_new (rows : route_table) x y :
  rr_id x = next_id rows -> rr_id y = rr_id x -> replace_row y <$> (rows ++ [x]) = rows ++ [y].
Proof using.
  intros Hx Hy. rewrite fmap_app. cbn [fmap list_fmap]. f_equal.
  - rewrite <- (list_fmap_id rows) at 2. apply list_fmap_ext. intros i z Hz. cbn.
    unfold replace_row. rewrite bool_decide_false; [done|]. intros Hid.
    pose proof (proj2 (next_id_bound rows)) as Hn. rewrite Forall_forall in Hn.
    specialize (Hn z (list_elem_of_lookup_2 _ _ _ Hz)). cbn in Hn. lia.
  - unfold replace_row. by rewrite bool_decide_true.
Qed.

Lemma start_route_rows fuel first_hop final_key ttl nonce expected v s r s' :
  table_wf (sv_routes s) ->
  start_random_walk_ttl_route config fuel first_hop final_key ttl nonce expected (Some v) s = (r, s') ->
  one_more (build_row v first_hop final_key) (sv_routes s) (sv_routes s').
Proof using slaws qlaws.
  intros Hwf Hr. unfold start_random_walk_ttl_route in Hr. cbv zeta in Hr.
  rewrite (st_bind_run _ _ _ (uuid4 (sv_entropy s)) (s <| sv_entropy := S (sv_entropy s) |>)) in Hr
    by reflexivity.
  set (s1 := s <| sv_entropy := S (sv_entropy s) |>) in Hr. set (p := uuid4 (sv_entropy s)) in Hr.
  change (sv_routes s) with (sv_routes s1) in Hwf |- *.
  match type of Hr with match ?m with _ => _ end _ = _ => destruct m as [[k|e]|] end;
    [|injection Hr as _ <-; by left..].
  rewrite (st_bind_run _ _ _ k s1) in Hr by reflexivity.
  unfold mbind at 1, st_bind, lift at 1 in Hr.
  destruct (build_route_pow_details _ _ _) as [d|e]; [|injection Hr as _ <-; by left].
  unfold mbind at 1, st_bind, on_routes at 1 in Hr.
  destruct (create_initiator_resolution _ _ _ _ _ _ _ _ _ _) as [[x rows]|e] eqn:Ec;
    [|injection Hr as _ <-; by left].
  assert (table_wf rows) as Hwf2 by (eapply route_step_wf; [exact Hwf|by eapply Step_create_initiator]).
  apply insert_row_Ok in Ec as (Hx & Hrows & _).
  assert (build_row v first_hop final_key x) as Hbx
    by (rewrite Hx; split_and!; first [done|by eexists|by left]).
  assert (rr_initial_path_id x = Some p) as Hpx by (by rewrite Hx).
  assert (rr_is_valid x = true) as Hvx by (by rewrite Hx).
  set (s2 := s1 <| sv_routes := rows |>) in Hr.
  assert (one_more (build_row v first_hop final_key) (sv_routes s1) (sv_routes s2)) as Hmore
    by (right; exists x; by split).
  unfold mbind at 1, st_bind, lift at 1 in Hr.
  destruct (build_initial_route_create _ _ _ _) as [payload|e]; [|by injection Hr as _ <-].
  unfold mbind at 1, st_bind in Hr.
  destruct (forward_message_to_remote_physical_node _ _ _ _ _) as [[sent|e] s3] eqn:Ef;
    pose proof (forward_routes _ _ _ _ _ _ _ Ef) as Hs3; cbn beta in Hs3;
    [|injection Hr as _ <-; by rewrite Hs3].
  destruct sent; cbn [negb] in Hr; [injection Hr as _ <-; by rewrite Hs3|].
  unfold mbind, st_bind, on_routes in Hr.
  destruct (invalidate_initiator_resolution _ _ _ _) as [[o rows']|e] eqn:Ei;
    injection Hr as _ <-; [|by rewrite Hs3].
  cbn [sv_routes set_field]. rewrite Hs3 in Ei. change (sv_routes s2) with rows in Ei.
  apply update_latest_Ok in Ei as [(_ & -> & _)|(y & Hy & _ & _ & ->)]; [exact Hmore|].
  apply select_latest_Some in Hy as (Hyin & Hyp & _).
  assert (y = x) as ->.
  { apply (initiator_path_inj rows p); [done|done|rewrite Hrows; set_solver|done|].
    unfold initiator_path, is_str. destruct Hbx as (-> & _). by rewrite Hvx, Hpx, !bool_decide_true. }
  right. exists (invalidate_row (sv_now s3) "route_create_first_hop_send_failed" x). split.
  - rewrite Hrows. by apply replace_new; [rewrite Hx|].
  - destruct Hbx as (? & ? & ? & ? & ? & _). split_and!; try done. by right.
Qed.

(** The pair: two different nodes among the candidates. *)
Definition proper_pair (pair : RouteBuildPair) : Prop :=
  (bp_first_hop pair).1.1 <> (bp_final_node pair).1.1 /\
  exists s, let candidates := list_remote_physical_nodes_for_random_walk_ttl (sv_database s)
    (random_order (sv_entropy s)) (cf_random_walk_candidate_limit config) in
  bp_first_hop pair ∈ candidates /\ bp_final_node pair ∈ candidates.

Lemma select_pair_spec n r n' :
  _select_route_build_pair config n = (r, n') ->
  same_routes n n' /\ forall pair, r = Ok (Some pair) -> proper_pair pair.
Proof using.
  intros Hr. unfold _select_route_build_pair in Hr. unfold mbind at 1, st_bind, on_node at 1 in Hr.
  set (candidates := list_remote_physical_nodes_for_random_walk_ttl _ _ _) in Hr.
  match type of Hr with (if _ then _ else _) ?m = _ => set (n1 := m) in Hr end.
  assert (same_routes n n1) as Hs1 by done.
  destruct (length candidates <? 2)%nat; [by injection Hr as <- <-|].
  unfold mbind at 1, st_bind, choose at 1, on_node at 1 in Hr.
  match type of Hr with context [candidates !! ?i] => destruct (candidates !! i) as [first_hop|] eqn:E1 end;
    [|by injection Hr as <- <-].
  match type of Hr with match ?l with _ => _ end _ = _ => remember l as finals eqn:Hf; destruct finals as [|c cs] end;
    [by injection Hr as <- <-|].
  unfold mbind, st_bind, choose, on_node in Hr.
  injection Hr as <- <-. split; [done|]. intros pair [= Hpair].
  match type of Hpair with _ <$> ?o = _ => destruct o as [final|] eqn:E2 end; [|done].
  injection Hpair as <-. apply list_elem_of_lookup_2 in E1, E2. rewrite Hf in E2.
  apply list_elem_of_In, filter_In in E2 as [E2 Hne]. rewrite bool_decide_eq_true in Hne.
  apply list_elem_of_In in E2. split; [cbn; congruence|]. by exists (mr_services n).
Qed.

Lemma start_build_rows fuel v pair n r n' :
  table_wf (routes_of n) -> _start_route_build config settings fuel v pair n = (r, n') ->
  one_more (build_row v (bp_first_hop pair).1.1 (bp_final_node pair).1.2) (routes_of n) (routes_of n').
Proof using slaws qlaws.
  intros Hwf Hr. unfold _start_route_build in Hr. cbv zeta in Hr.
  unfold mbind at 1, st_bind, lift at 1 in Hr.
  destruct (py_int_of_float _) as [half|e]; [|injection Hr as _ <-; by left].
  unfold mbind, st_bind, catch_exn in Hr.
  match type of Hr with context [on_node ?m n] => destruct (on_node m n) as [o n1] eqn:Es end.
  assert (one_more (build_row v (bp_first_hop pair).1.1 (bp_final_node pair).1.2) (routes_of n) (routes_of n1))
    as Hmore.
  { unfold on_node in Es. destruct (start_random_walk_ttl_route _ _ _ _ _ _ _ _ _) as [r0 s0] eqn:E.
    injection Es as _ <-. by eapply start_route_rows. }
  destruct o as [[result|]|e]; cbn in Hr; [|by injection Hr as _ <-..].
  destruct (truthy_str _); injection Hr as _ <-; exact Hmore.
Qed.

Lemma maintain_nodes_rows fuel l : forall n r n',
  (forall x, x ∈ l -> lv_id x ∈ nodes) -> U n ->
  maintain_nodes config settings fuel l n = (r, n') ->
  exists rows, kept nodes bound rows0 rows /\
    (routes_of n' = rows \/ exists v pair x, v ∈ nodes /\ routes_of n' = rows ++ [x] /\
       build_row v (bp_first_hop pair).1.1 (bp_final_node pair).1.2 x /\ proper_pair pair /\
       pendings v rows < _route_min_online_routes settings).
Proof using slaws qlaws.
  induction l as [|x l IH]; intros n r n' Hl HU Hr.
  { injection Hr as <- <-. exists (routes_of n). split; [apply HU|by left]. }
  assert (lv_id x ∈ nodes) as Hx by (apply Hl; by left).
  assert (forall y, y ∈ l -> lv_id y ∈ nodes) as Hl' by (intros y Hy; apply Hl; by right).
  cbn [maintain_nodes] in Hr. unfold mbind at 1 in Hr. unfold st_bind at 1 in Hr.
  destruct (_should_build_new_route settings (lv_id x) n) as [[build|e] n1] eqn:Eb;
    destruct (should_build_upkeep _ _ _ _ Hx HU Eb) as [HU1 Hlow];
    [|injection Hr as <- <-; exists (routes_of n1); split; [apply HU1|by left]].
  destruct build; cbn [negb] in Hr; [|by eapply IH]. specialize (Hlow eq_refl).
  unfold mbind at 1 in Hr. unfold st_bind at 1 in Hr.
  destruct (_select_route_build_pair config n1) as [[pair|e] n2] eqn:Ep;
    destruct (select_pair_spec _ _ _ Ep) as [Hsame Hpair]; pose proof (upkeep_same _ _ Hsame HU1) as HU2;
    destruct Hsame as [Hrows _];
    [|injection Hr as <- <-; exists (routes_of n2); split; [apply HU2|by left]].
  destruct pair as [pair|]; [|by eapply IH]. specialize (Hpair pair eq_refl).
  exists (routes_of n2). split; [apply HU2|].
  apply start_build_rows in Hr as [->|(row & -> & Hrow)]; [by left| |apply HU2].
  right. exists (lv_id x), pair, row. rewrite Hrows. split_and!; done.
Qed.
End iteration.

Section claims.
Context `{FloatText} `{FloatConv} `{IsoParser} `{Entropy} `{OpenSSL} `{AesGcmSiv} `{EngineIO} `{RouteEnv}.
Context {qlaws : QueryLaws} {slaws : StartLaws}.
Context (config : RouteConfig) (settings : MaintenanceConfig).

End claims.

(** ** Witness *)

#[local] Existing Instance Crypto.demo_aead.
#[local] Existing Instance Engine.demo_entropy.
#[local] Existing Instance Engine.demo_io.
#[local] Existing Instance PhysicalSession.demo_float.
#[local] Existing Instance Merge.demo_openssl.
#[local] Existing Instance iso_extended.
#[local] Existing Instance SessionRuntime.demo_conv.
#[local] Existing Instance SessionRuntime.demo_start.

#[local] Instance demo_route_env : RouteEnv := {|
  monotonic := fun _ => float_of_int 1000;
  random_index := fun _ _ => 0%nat;
  random_order := fun _ rows => rows;
  json_error := fun _ => "json";
  dht_query := fun _ _ => mret [("status", JStr "not_found")];
  dht_publish := fun _ _ => mret [];
  sleep := fun _ => mret tt;
|}.

#[local] Instance demo_query_laws : QueryLaws.
Proof. split. intros namespace key s r s' Hr. cbn in Hr. by injection Hr as _ <-. Qed.

Definition demo_route_config : RouteConfig :=
  MkRouteConfig 0 16 5 (float_of_int 40) (float_of_int 10) (float_of_int 1).
Definition demo_settings : MaintenanceConfig := MkMaintenanceConfig 2 (float_of_int 60) 1000.

(** A build that was first seen 900 seconds ago. *)
Definition demo_pending : route_table :=
  match create_initiator_resolution [] "n1" "path-p" "pk-f" (Some 1000) (Some strategy_name) (Some 0)
          (Some "vn-a") None None with
  | Ok (_, rows) => rows
  | Raise _ => []
  end.

Lemma demo_pending_wf : table_wf demo_pending.
Proof.
  eapply route_step_wf; [apply empty_table_wf|].
  eapply (Step_create_initiator [] "n1" "path-p" "pk-f" (Some 1000) (Some strategy_name) (Some 0)
    (Some "vn-a") None None). vm_compute. reflexivity.
Qed.

Definition demo_runtime_node : RouteRuntime :=
  MkRouteRuntime (MkServices new_session_manager demo_pending
    (MkDatabase [] [demo_local_virtual] [] [] [] [] []) ∅ 0 3000 0 [] [])
    [("path-p", float_of_int 100)].

