(* ===== verification/PhysicalRelay.v ===== *)
(** * Physical relays

    A node that cannot be reached is reached through a public node with which it keeps a
    session: its packets travel inside [PHYSICAL_RELAY_DATA] messages. Models
    [PhysicalRelayProtocolHandler] ([src/app/core/protocols/physical/relay.py]), the
    endpoints a node announces ([is_private_physical_node] and the functions next to it in
    [src/app/core/engine.py]) and [PhysicalRelayMaintenanceRuntime]
    ([src/app/core/runtime/physical_relay_maintenance.py]). *)

From S2P Require Import Prelude PyJson PyTime Sha512 Crypto JsonText Records Transport Reliable.
From S2P Require Import Sessions Identity RouteService Core Registry Engine PhysicalSession SessionClient SessionRuntime.

(** ** The endpoints of the node

    The settings the engine reads; the hosts and ports are what [get_advertised_tcp_host]
    and its like find in the environment of the process. *)

Record LocalNodeConfig := MkLocalNodeConfig {
  lc_node_reachability : string;
  lc_physical_relay_enabled : bool;
  lc_tcp_transport_enabled : bool;
  lc_udp_transport_enabled : bool;
  lc_advertised_tcp : string * Z;
  lc_advertised_udp : string * Z;
  lc_relay_candidate_limit : Z;
}.

Definition is_private_physical_node (config : LocalNodeConfig) : bool :=
  bool_decide (lower (lc_node_reachability config) = "private").

Definition can_act_as_physical_relay (config : LocalNodeConfig) : bool :=
  lc_physical_relay_enabled config && negb (is_private_physical_node config)
  && lc_tcp_transport_enabled config.

Definition relay_endpoint_dict (relay_physical_node_id target_physical_node_id host : string) (port : Z)
    : jdict :=
  [("transport", JStr "relay_tcp"); ("host", JStr host); ("port", JInt port); ("priority", JInt 50);
   ("metadata", JObj [("relay_physical_node_id", JStr relay_physical_node_id);
                      ("target_physical_node_id", JStr target_physical_node_id)])].

(** [local_relay_endpoint] is the engine's [_local_relay_endpoint]. *)
Definition build_local_physical_endpoints (config : LocalNodeConfig)
    (local_relay_endpoint : option jdict) (transport_name : option string) : list jdict :=
  let wanted name := bool_decide (transport_name = None) || bool_decide (transport_name = Some name) in
  if is_private_physical_node config then
    match local_relay_endpoint with
    | Some endpoint => if wanted "relay_tcp" then [endpoint] else []
    | None => []
    end
  else
    (if lc_tcp_transport_enabled config && wanted "tcp"
     then [[("transport", JStr "tcp"); ("host", JStr (lc_advertised_tcp config).1);
            ("port", JInt (lc_advertised_tcp config).2); ("priority", JInt 0)]] else []) ++
    (if lc_udp_transport_enabled config && wanted "udp"
     then [[("transport", JStr "udp"); ("host", JStr (lc_advertised_udp config).1);
            ("port", JInt (lc_advertised_udp config).2); ("priority", JInt 10)]] else []).

(** The first active TCP endpoint of a node. *)
Definition tcp_endpoint (db : Database) (node_id : string) : option NodeEndpoint :=
  List.find (fun endpoint => bool_decide (ne_transport endpoint = "tcp"))
    (list_remote_physical_node_endpoints db node_id true).

(** ** The handler *)

(** What the relay adapter calls with a packet that arrived, the engine's
    [handle_transport_packet]. *)
Definition packet_handler : Type := TransportPacket -> st Services unit.

Section handler.
Context `{FloatText}.
(** The adapter registered as [relay_tcp], if any. *)
Context (config : LocalNodeConfig) (adapter : option (Relay.RelayTcpTransportAdapter packet_handler)).

Definition invalid (envelope : ProtocolEnvelope) (reason : string) : PacketProcessingResult :=
  build_invalid_result "physical_relay" envelope reason.

Definition _read_sender_id (payload : jdict) (fallback : string) : string :=
  default fallback (truthy_str (py_get payload "sender_physical_node_id")).

Definition _build_relay_endpoint_from_session (db : Database) (relay_physical_node_id : string)
    (fallback_host : option string) (fallback_port : option Z) : string * Z :=
  match tcp_endpoint db relay_physical_node_id with
  | Some endpoint => (ne_host endpoint, ne_port endpoint)
  | None => (default "" fallback_host, default 0 fallback_port)
  end.

Definition _deliver_to_local_node (envelope : ProtocolEnvelope) (context : PacketContext)
    (relay_physical_node_id sender_physical_node_id payload_hex : string)
    : st Services PacketProcessingResult :=
  match fromhex payload_hex with
  | None => mret (invalid envelope "invalid_payload_hex")
  | Some inner_payload =>
      match adapter with
      | None => mret (invalid envelope "relay_tcp_adapter_missing")
      | Some adapter =>
          db ← gets sv_database;
          let '(host, port) := _build_relay_endpoint_from_session db relay_physical_node_id
            (pc_remote_host context) (pc_remote_port context) in
          let metadata := [("relay_physical_node_id", JStr relay_physical_node_id);
                           ("target_physical_node_id", JStr sender_physical_node_id)] in
          now ← gets sv_now;
          match Relay.inject_inbound_packet adapter now (text_bytes inner_payload)
                  (MkTransportEndpoint "relay_tcp" host port metadata) None (Some metadata) with
          | None => mret tt
          | Some (handle_packet, packet) => handle_packet packet
          end;;
          mret (MkResult (pe_protocol_name envelope) true (pe_message_type envelope) None
            [("protocol_family", JStr "physical_relay"); ("action", JStr "deliver_relay_data")] None)
      end
  end.

Definition _handle_data (envelope : ProtocolEnvelope) (context : PacketContext)
    : st Services PacketProcessingResult :=
  let payload := as_payload_dict envelope in
  match read_string_or_none payload "target_physical_node_id", read_string_or_none payload "payload_hex",
        read_physical_session_id envelope with
  | Some target_physical_node_id, Some payload_hex, Some session_id =>
      session ← find_session session_id;
      match session with
      | None => mret (invalid envelope "inactive_relay_session")
      | Some session =>
          if bool_decide (ns_session_state session <> "active")
          then mret (invalid envelope "inactive_relay_session")
          else
            local_node ← gets (fun s => get_local_physical_node (sv_database s));
            if bool_decide (ln_id <$> local_node = Some target_physical_node_id)
            then _deliver_to_local_node envelope context (ns_remote_identity_id session)
                   (_read_sender_id payload (ns_remote_identity_id session)) payload_hex
            else if negb (can_act_as_physical_relay config)
            then mret (invalid envelope "local_node_not_relay_capable")
            else
              target_session ← gets (fun s => get_active_physical_session_by_remote_node_id
                (sv_session_manager s) target_physical_node_id);
              match target_session with
              | None => mret (invalid envelope "relay_target_session_not_found")
              | Some target_session =>
                  mret (MkResult (pe_protocol_name envelope) true (pe_message_type envelope) None
                    [("protocol_family", JStr "physical_relay"); ("action", JStr "forward_message");
                     ("target_physical_session_id", JStr (ns_session_id target_session));
                     ("forward_message_type", JStr "PHYSICAL_RELAY_DATA");
                     ("forward_payload", JObj
                        [("target_physical_node_id", JStr target_physical_node_id);
                         ("sender_physical_node_id", JStr (ns_remote_identity_id session));
                         ("relay_physical_node_id", opt_json JStr (ln_id <$> local_node));
                         ("payload_hex", JStr payload_hex)])] None)
              end
      end
  | _, _, _ => mret (invalid envelope "invalid_relay_data")
  end.

Definition handle (envelope : ProtocolEnvelope) (context : PacketContext)
    : st Services PacketProcessingResult :=
  if bool_decide (pe_message_type envelope <> Some "PHYSICAL_RELAY_DATA")
  then mret (invalid envelope "unsupported_physical_relay_message_type")
  else _handle_data envelope context.
End handler.

(** ** The maintenance of the node's relay *)

(** The services, the engine's [_local_relay_endpoint], and the fields of the runtime. *)
Record RelayNode := MkRelayNode {
  ry_services : Services;
  ry_local_relay_endpoint : option jdict;
  ry_selected_relay_physical_node_id : option string;
  ry_logged_public_node_skip : bool;
}.

#[export] Instance relay_node_eta : Eta RelayNode := fun n =>
  MkRelayNode (ry_services n) (ry_local_relay_endpoint n) (ry_selected_relay_physical_node_id n)
    (ry_logged_public_node_skip n).

(** [ORDER BY random()] *)
Class RelayEnv := {
  relay_order : nat -> list RemotePhysicalNodeIdentity -> list RemotePhysicalNodeIdentity;
}.

Section maintenance.
Context `{EngineIO} `{RelayEnv}.
Context (config : LocalNodeConfig).

Definition on_relay_services {A} (m : st Services A) : st RelayNode A := fun n =>
  let '(r, s) := m (ry_services n) in (r, n <| ry_services := s |>).

Definition set_local_relay_endpoint (relay_physical_node_id target_physical_node_id host : string)
    (port : Z) : st RelayNode unit :=
  modify (fun n => n <| ry_local_relay_endpoint :=
    Some (relay_endpoint_dict relay_physical_node_id target_physical_node_id host port) |>).

Definition clear_local_relay_endpoint : st RelayNode unit :=
  modify (fun n => n <| ry_local_relay_endpoint := None |>).

Definition _announce_relay_endpoint (relay_physical_node_id local_physical_node_id : string)
    (endpoint : NodeEndpoint) : st RelayNode unit :=
  set_local_relay_endpoint relay_physical_node_id local_physical_node_id (ne_host endpoint)
    (ne_port endpoint).

Definition _get_relay_tcp_endpoint (relay_physical_node_id : string)
    : st RelayNode (option NodeEndpoint) :=
  gets (fun n => tcp_endpoint (sv_database (ry_services n)) relay_physical_node_id).

Definition _refresh_selected_relay (local_physical_node_id : string) : st RelayNode bool :=
  selected ← gets ry_selected_relay_physical_node_id;
  match selected with
  | None => mret false
  | Some selected =>
      session ← gets (fun n => get_active_physical_session_by_remote_node_id
        (sv_session_manager (ry_services n)) selected);
      endpoint ← _get_relay_tcp_endpoint selected;
      match session, endpoint with
      | Some _, Some endpoint =>
          _announce_relay_endpoint selected local_physical_node_id endpoint;; mret true
      | _, _ =>
          modify (fun n => n <| ry_selected_relay_physical_node_id := None |>);; mret false
      end
  end.

Definition _list_relay_candidates : st RelayNode (list string) := on_relay_services (fun s =>
  (Ok (list_remote_physical_nodes_for_relay_registration (sv_database s)
         (relay_order (sv_entropy s)) (lc_relay_candidate_limit config)),
   s <| sv_entropy := S (sv_entropy s) |>)).

Definition _select_relay (node_id local_physical_node_id : string) : st RelayNode bool :=
  endpoint ← _get_relay_tcp_endpoint node_id;
  match endpoint with
  | None => mret false
  | Some endpoint =>
      session_id ← catch_exn (fun _ => true)
        (session_id ← on_relay_services (io_start_session node_id); mret (Some session_id))
        (fun _ => mret None);
      match session_id with
      | None => mret false
      | Some session_id =>
          session ← on_relay_services (find_session session_id);
          match session with
          | Some session =>
              if bool_decide (ns_session_state session = "active") then
                modify (fun n => n <| ry_selected_relay_physical_node_id := Some node_id |>);;
                _announce_relay_endpoint node_id local_physical_node_id endpoint;;
                mret true
              else mret false
          | None => mret false
          end
      end
  end.

(** [for candidate in ...: if await self._select_relay(...): return] *)
Fixpoint select_first (candidates : list string) (local_physical_node_id : string)
    : st RelayNode bool :=
  match candidates with
  | [] => mret false
  | candidate :: candidates =>
      selected ← _select_relay candidate local_physical_node_id;
      if selected : bool then mret true else select_first candidates local_physical_node_id
  end.

Definition _run_once : st RelayNode unit :=
  if negb (is_private_physical_node config) then
    modify (fun n => n <| ry_logged_public_node_skip := true |>)
  else
    local_node ← gets (fun n => get_local_physical_node (sv_database (ry_services n)));
    match local_node with
    | None => clear_local_relay_endpoint
    | Some local_node =>
        previous ← gets ry_selected_relay_physical_node_id;
        refreshed ← _refresh_selected_relay (ln_id local_node);
        if refreshed : bool then mret tt
        else
          clear_local_relay_endpoint;;
          again ← match previous with
                  | Some previous => _select_relay previous (ln_id local_node)
                  | None => mret false
                  end;
          if again : bool then mret tt
          else
            candidates ← _list_relay_candidates;
            select_first candidates (ln_id local_node);;
            mret tt
    end.
End maintenance.

(** ** Packets between two nodes with a secret *)

Section link.
Context `{FloatText} `{EntropyLaws} {uuids : UuidLaws} `{AesGcmSivLaws} `{EngineIO}.

(** The node can protect packets under the key, whatever identifiers it draws first. *)
Definition protects_under (s : Services) (key : string) : Prop :=
  hex_of AES_KEY_SIZE key /\ forall n, nonce_left (sv_used_nonces s) key (urandom_nonces n).

(** The protected packet of a message of a session. *)
Inductive carries (key sid ty : string) (payload : jdict) (m : OutboundMessage) : Prop :=
| Carries header c :
    dict_wf header -> dict_wf payload ->
    od_get "physical_session_id" header = Some (JStr sid) ->
    od_get "message_type" header = Some (JStr ty) -> c <> "" ->
    aes_decrypt_hex (bytes_to_hex c) key (Some (_build_physical_payload_aad header))
    = Ok (bytes_to_hex (json_dumps (JObj payload))) ->
    bytes_text (ob_payload m) = _build_json_packet_bytes
      (od_set "payload_encrypted" (JBool true) (norm_dict header))
      [("ciphertext_hex", JStr (bytes_to_hex c))] ->
    carries key sid ty payload m.

Lemma message_header_wf (s : Services) ty sid :
  unicode ty -> unicode sid ->
  exists header s', build_message_header ty (Some sid) None s = (Ok header, s') /\ dict_wf header /\
    od_get "physical_session_id" header = Some (JStr sid) /\
    od_get "message_type" header = Some (JStr ty) /\
    sv_session_manager s' = sv_session_manager s /\ sv_used_nonces s' = sv_used_nonces s /\
    sv_sent s' = sv_sent s.
Proof using uuids.
  intros Hty Hsid. unfold build_message_header. do 3 (erewrite st_bind_run by reflexivity).
  eexists _, _. split; [reflexivity|]. split; [|done]. json_wf_tac.
  all: try done. all: apply ascii_unicode; first [done|apply uuid4_ascii].
Qed.

(** Preparing a packet sends nothing. *)
Definition same_sent (s s' : Services) : Prop := sv_sent s' = sv_sent s.

#[local] Instance same_sent_preorder : PreOrder same_sent.
Proof. split; [by intros s|]. unfold same_sent. by intros x y z -> ->. Qed.

Lemma prepare_sent message : does same_sent (_prepare_outbound_message message).
Proof using.
  unfold _prepare_outbound_message. repeat case_match; try by apply (does_pure same_sent).
  apply (does_bind same_sent); [by apply (does_pure same_sent)|]. intros session.
  destruct (active_secret session); [|by apply (does_pure same_sent)].
  apply (does_bind same_sent).
  { intros x r x'. unfold encrypt_with. destruct (aes_encrypt_hex _ _ _ _ _). by intros [= _ <-]. }
  intros encrypted. apply (does_bind same_sent); [|intros _; by apply (does_pure same_sent)].
  intros x r x' Hr. unfold touch, on_sessions in Hr. case_match. by injection Hr as _ <-.
Qed.

(** What the engine sends over a session with a secret. *)
Lemma send_carries (s : Services) session endpoint ty payload force key :
  (forall s' m, io_send s' m = Ok tt) ->
  build_remote_endpoint_from_session session = Ok endpoint ->
  dict_wf payload -> unicode ty -> unicode (ns_session_id session) ->
  ty ∉ _PLAINTEXT_SESSION_MESSAGE_TYPES ->
  session_secret s (ns_session_id session) = Some key -> protects_under s key ->
  exists m s', _send_message_over_physical_session session ty payload force s = (Ok tt, s') /\
    sv_sent s' = sv_sent s ++ [m] /\ carries key (ns_session_id session) ty payload m.
Proof.
  intros Hio Hend Hp Hty Hsid Hplain Hkey [Hhex Hleft].
  destruct (message_header_wf s ty (ns_session_id session) Hty Hsid)
    as (header & s1 & Hh & Hwf & Hgs & Hgt & Hsm & Hused & Hsent).
  unfold _send_message_over_physical_session. rewrite Hend. erewrite st_bind_run by reflexivity.
  rewrite (st_bind_run _ _ _ _ _ Hh). unfold send_packet.
  match goal with |- context [_prepare_outbound_message ?m] => set (m0 := m) end.
  assert (session_secret s1 (ns_session_id session) = Some key) as Hkey1
    by (unfold session_secret in *; by rewrite Hsm).
  assert (can_encrypt s1 key) as Hcan by (split; [done|]; rewrite Hused; apply Hleft).
  destruct (prepare_protects s1 m0 header payload (ns_session_id session) ty key)
    as (c & s2 & m' & Hprep & Hwire & Hc & Hdec); try done.
  { cbn. by rewrite bytes_text_bytes. }
  rewrite (st_bind_run _ _ _ _ _ Hprep). unfold deliver. rewrite Hio.
  exists m'. eexists. split; [reflexivity|]. split; [|by econstructor].
  pose proof (prepare_sent m0 _ _ _ Hprep) as Hs2. unfold same_sent in Hs2. cbn. by rewrite Hs2, Hsent.
Qed.

(** The other node hands it to the handler of its type. *)
Lemma receive_carried handle_message (r : Services) key sid ty payload m context session definition :
  carries key sid ty payload m -> pc_payload context = bytes_text (ob_payload m) ->
  sm_wf (sv_session_manager r) -> session_of r sid = Some session -> sid <> "" ->
  session_secret r sid = Some key -> get_definition (Some ty) = Some definition ->
  exists envelope, pe_protocol_name envelope = "json" /\ pe_message_type envelope = Some ty /\
    as_payload_dict envelope = norm_dict payload /\ read_physical_session_id envelope = Some sid /\
    process_received_packet handle_message context r
    = handle_message (md_handler definition) envelope context (touch sid r).2 /\
    session_of (touch sid r).2 sid = Some (touch_fields (sv_now r) None session).
Proof.
  intros [header c Hh Hp Hgs Hgt Hc Hdec Hm] Hctx Hwf Hn Hne Hkey Hdef.
  assert (session_of (touch sid r).2 sid = Some (touch_fields (sv_now r) None session)) as Hn'.
  { unfold touch. erewrite on_sessions_update by reflexivity. cbn [snd].
    by rewrite session_of_update, Hn by done. }
  eexists (MkEnvelope "json" (Some ty) (JObj (norm_dict payload)) (pc_payload context)
    (protected_header header)). split_and!; try done.
  - unfold read_physical_session_id, read_header_string, py_get. cbn [pe_header].
    rewrite protected_header_get, decide_False, Hgs by done. cbn.
    by rewrite (proj2 (str_truthy_spec sid) Hne).
  - transitivity (process_protocol_envelope handle_message
      (MkEnvelope "json" (Some ty) (JObj (norm_dict payload)) (pc_payload context)
        (protected_header header)) context (touch sid r).2).
    { unfold process_received_packet, catch_value, mbind, st_bind.
      by rewrite (decode_protected r context header payload sid ty key c) by (done || by rewrite Hctx). }
    unfold process_protocol_envelope. erewrite st_bind_run by reflexivity.
    assert (_validate_message_policy (sv_session_manager (touch sid r).2)
      (MkEnvelope "json" (Some ty) (JObj (norm_dict payload)) (pc_payload context)
        (protected_header header)) = None) as ->; [|unfold route; cbn [pe_message_type]; by rewrite Hdef].
    unfold _validate_message_policy. cbn [pe_message_type pe_header]. rewrite Hdef.
    case_match; [|done]. unfold py_get. rewrite protected_header_get, decide_False, Hgs by done. cbn.
    rewrite (proj2 (str_truthy_spec sid) Hne). unfold session_of in Hn'. rewrite Hn'.
    unfold session_secret, active_secret in Hkey. unfold session_of in Hn. rewrite Hn in Hkey.
    cbn. rewrite bool_decide_false; [done|]. intros Hst. cbn in Hst. by rewrite bool_decide_false in Hkey.
Qed.
End link.

(** ** A packet on its way through a relay *)

(** The session a node sends over, and the session it receives over. *)
Record sends_over `{FloatText} `{Entropy} (s : Services) (session : NetworkSession) (key : string)
    : Prop := {
  so_session : session_of s (ns_session_id session) = Some session;
  so_endpoint : exists endpoint, build_remote_endpoint_from_session session = Ok endpoint;
  so_names : unicode (ns_session_id session) /\ ns_session_id session <> "";
  so_secret : session_secret s (ns_session_id session) = Some key;
  so_protects : protects_under s key;
}.

Record receives_over (s : Services) (session_id key : string) (session : NetworkSession) : Prop := {
  ro_wf : sm_wf (sv_session_manager s);
  ro_session : session_of s session_id = Some session;
  ro_secret : session_secret s session_id = Some key;
}.

Section relayed.
Context `{FloatText} `{EntropyLaws} {uuids : UuidLaws} `{AesGcmSivLaws} `{EngineIO}.

Definition relay_payload (target : string) (packet : bytes) : jdict :=
  [("target_physical_node_id", JStr target); ("payload_hex", JStr (bytes_to_hex (bytes_text packet)))].

Definition forwarded_payload (target sender : string) (relay : option string) (packet : bytes) : jdict :=
  [("target_physical_node_id", JStr target); ("sender_physical_node_id", JStr sender);
   ("relay_physical_node_id", opt_json JStr relay);
   ("payload_hex", JStr (bytes_to_hex (bytes_text packet)))].

Lemma hex_text_unicode b : unicode (bytes_to_hex b).
Proof using. apply ascii_unicode, hex_text_ascii. Qed.

Lemma relay_payload_wf target packet : unicode target -> dict_wf (relay_payload target packet).
Proof using. intros Ht. unfold relay_payload. json_wf_tac. apply hex_text_unicode. Qed.

Lemma forwarded_payload_wf target sender relay packet :
  unicode target -> unicode sender -> (forall id, relay = Some id -> unicode id) ->
  dict_wf (forwarded_payload target sender relay packet).
Proof using.
  intros Ht Hs Hr. unfold forwarded_payload. destruct relay; json_wf_tac; first [done|by apply Hr|apply hex_text_unicode].
Qed.

Lemma bytes_text_nonempty (packet : bytes) : packet <> [] -> bytes_text packet <> "".
Proof using. by destruct packet. Qed.

Lemma norm_read payload key value :
  dict_wf payload -> od_get key payload = Some (JStr value) -> value <> "" ->
  read_string_or_none (norm_dict payload) key = Some value.
Proof using.
  intros Hwf Hg Hv. unfold read_string_or_none. rewrite (norm_get_str _ _ _ Hwf Hg). cbn.
  by rewrite (proj2 (str_truthy_spec value) Hv).
Qed.

Lemma found_session sid (s : Services) n : session_of s sid = n -> find_session sid s = (Ok n, s).
Proof using. by intros <-. Qed.

#[local] Ltac read_tac :=
  first [done | by (unfold relay_payload, forwarded_payload; od_eval)
        |by apply str_truthy_spec, hex_text_truthy, bytes_text_nonempty].

(** The sender: the packet travels to the relay as the message of a session. *)
Lemma relay_sent (a : Services) message session key target relay :
  (forall s m, io_send s m = Ok tt) ->
  let metadata := Relay.dict_merge (ep_metadata (ob_remote_endpoint message)) (ob_metadata message) in
  _read_metadata_string metadata "target_physical_node_id" = Some target ->
  _read_metadata_string metadata "relay_physical_node_id" = Some relay ->
  get_active_physical_session_by_remote_node_id (sv_session_manager a) relay = Some session ->
  is_observed_only_physical_session session = false ->
  sends_over a session key -> unicode target ->
  exists m a', _send_relay_transport_packet message a = (Ok tt, a') /\ sv_sent a' = sv_sent a ++ [m] /\
    carries key (ns_session_id session) "PHYSICAL_RELAY_DATA" (relay_payload target (ob_payload message)) m.
Proof.
  intros Hio metadata Ht Hr Hses Hobs [_ (endpoint & Hend) [Hu _] Hkey Hprot] Hut.
  unfold _send_relay_transport_packet. fold metadata. rewrite Ht, Hr.
  erewrite st_bind_run by reflexivity. unfold _ensure_active_physical_session.
  rewrite (st_bind_run _ _ _ session a).
  2: { erewrite st_bind_run by reflexivity. by rewrite Hses, Hobs. }
  apply (send_carries a session endpoint "PHYSICAL_RELAY_DATA" _ false key); try done.
  - by apply relay_payload_wf.
  - by apply ascii_unicode.
  - refine (proj1 (bool_decide_eq_false _) _). vm_compute. reflexivity.
Qed.

(** The relay: the message names a node it has a session with, and is sent on. *)
Lemma relay_forwards config adapter envelope context (r : Services) sid session target packet session_t
    key :
  (forall s m, io_send s m = Ok tt) -> can_act_as_physical_relay config = true ->
  pe_protocol_name envelope = "json" -> pe_message_type envelope = Some "PHYSICAL_RELAY_DATA" ->
  as_payload_dict envelope = norm_dict (relay_payload target packet) ->
  read_physical_session_id envelope = Some sid ->
  session_of r sid = Some session -> ns_session_state session = "active" ->
  unicode target -> target <> "" -> packet <> [] -> unicode (ns_remote_identity_id session) ->
  (forall local, get_local_physical_node (sv_database r) = Some local ->
     unicode (ln_id local) /\ ln_id local <> target) ->
  get_active_physical_session_by_remote_node_id (sv_session_manager r) target = Some session_t ->
  sends_over r session_t key ->
  exists result m r', handle config adapter envelope context r = (Ok result, r) /\
    _execute_processing_result_actions result r = (Ok tt, r') /\ sv_sent r' = sv_sent r ++ [m] /\
    carries key (ns_session_id session_t) "PHYSICAL_RELAY_DATA"
      (forwarded_payload target (ns_remote_identity_id session)
         (ln_id <$> get_local_physical_node (sv_database r)) packet) m.
Proof.
  intros Hio Hcan Hname Hty Hpay Hsid Hn Hact Hut Hnet Hnep Hus Hlocal Ht
    [Hst (endpoint & Hend) [Hut2 Hne2] Hkey Hprot].
  pose proof (relay_payload_wf target packet Hut) as Hwf.
  unfold handle. rewrite Hty, bool_decide_false by auto. unfold _handle_data.
  rewrite Hpay, (norm_read _ _ target), (norm_read _ _ (bytes_to_hex (bytes_text packet))), Hsid
    by read_tac.
  rewrite (st_bind_run _ _ _ (Some session) r) by (by apply found_session).
  rewrite bool_decide_false by auto. erewrite st_bind_run by reflexivity.
  rewrite bool_decide_false.
  2: { destruct (get_local_physical_node _) as [local|]; [|done]. intros [= Heq].
       by destruct (Hlocal local eq_refl). }
  rewrite Hcan. cbn [negb]. erewrite st_bind_run by reflexivity. rewrite Ht.
  destruct (send_carries r session_t endpoint "PHYSICAL_RELAY_DATA"
    (forwarded_payload target (ns_remote_identity_id session)
       (ln_id <$> get_local_physical_node (sv_database r)) packet) false key)
    as (m & r' & Hs & Hsent & Hcar); try done.
  { apply forwarded_payload_wf; [done|done|]. intros id Hid.
    destruct (get_local_physical_node _) as [local|]; [|done]. injection Hid as <-.
    by apply Hlocal. }
  { by apply ascii_unicode. }
  { refine (proj1 (bool_decide_eq_false _) _). vm_compute. reflexivity. }
  eexists _, m, r'. split; [reflexivity|]. split; [|by split].
  unfold _execute_processing_result_actions, _execute_forward_message_action. cbn [pp_metadata].
  unfold py_get. od_eval. cbn [from_option id truthy_str].
  change (str_truthy "forward_message") with true. cbv iota. rewrite bool_decide_true by done.
  change (str_truthy "PHYSICAL_RELAY_DATA") with true. cbv iota.
  rewrite (proj2 (str_truthy_spec _) Hne2). rewrite (st_bind_run _ _ _ (Some session_t) r) by (by apply found_session).
  assert (ns_session_state session_t = "active") as Hactive.
  { unfold session_secret, active_secret in Hkey. unfold session_of in Hst. rewrite Hst in Hkey. by case_bool_decide. }
  rewrite bool_decide_true by done.
  replace (_can_forward_through_observed_only_session "PHYSICAL_RELAY_DATA") with true by done.
  rewrite orb_true_r. cbn [andb]. exact Hs.
Qed.

(** The receiver: the packet is handed to the transport's handler as it was sent. *)
Lemma relay_delivers config adapter handle_packet envelope context (b : Services) sid session target
    sender relay packet local :
  Relay.rl_inbound_packet_handler adapter = Some handle_packet ->
  pe_message_type envelope = Some "PHYSICAL_RELAY_DATA" -> pe_protocol_name envelope = "json" ->
  as_payload_dict envelope = norm_dict (forwarded_payload target sender relay packet) ->
  read_physical_session_id envelope = Some sid ->
  session_of b sid = Some session -> ns_session_state session = "active" ->
  unicode target -> target <> "" -> packet <> [] -> unicode sender -> sender <> "" ->
  (forall id, relay = Some id -> unicode id) ->
  get_local_physical_node (sv_database b) = Some local -> ln_id local = target ->
  let metadata := [("relay_physical_node_id", JStr (ns_remote_identity_id session));
                   ("target_physical_node_id", JStr sender)] in
  let endpoint := _build_relay_endpoint_from_session (sv_database b) (ns_remote_identity_id session)
    (pc_remote_host context) (pc_remote_port context) in
  handle config (Some adapter) envelope context b =
    (handle_packet (MkTransportPacket "relay_tcp" packet
       (MkTransportEndpoint "relay_tcp" endpoint.1 endpoint.2 metadata) None (sv_now b) metadata);;
     mret (MkResult "json" true (Some "PHYSICAL_RELAY_DATA") None
       [("protocol_family", JStr "physical_relay"); ("action", JStr "deliver_relay_data")] None)) b.
Proof.
  intros Hh Hty Hname Hpay Hsid Hn Hact Hut Hnet Hnep Hus Hnes Hur Hlocal Hid metadata endpoint.
  pose proof (forwarded_payload_wf target sender relay packet Hut Hus Hur) as Hwf.
  unfold handle. rewrite Hty, bool_decide_false by auto. unfold _handle_data, _read_sender_id.
  rewrite Hpay. change (truthy_str (py_get (norm_dict ?p) ?k)) with (read_string_or_none (norm_dict p) k).
  rewrite (norm_read _ "target_physical_node_id" target), (norm_read _ "sender_physical_node_id" sender),
    (norm_read _ "payload_hex" (bytes_to_hex (bytes_text packet))), Hsid
    by read_tac.
  rewrite (st_bind_run _ _ _ (Some session) b) by (by apply found_session).
  rewrite bool_decide_false by auto. erewrite st_bind_run by reflexivity.
  rewrite Hlocal. cbn [fmap option_fmap option_map]. rewrite bool_decide_true by congruence.
  unfold _deliver_to_local_node. unfold bytes_to_hex. rewrite fromhex_bytes_hex.
  erewrite st_bind_run by reflexivity. fold endpoint. destruct endpoint as [host port].
  erewrite st_bind_run by reflexivity. unfold Relay.inject_inbound_packet. rewrite Hh, Hname, Hty.
  cbn [from_option]. unfold text_bytes, bytes_text. by rewrite String.list_ascii_of_string_of_list_ascii.
Qed.

(** C16: a packet on its way through a relay. The sender sends a packet for the target over
    its session with the relay; the relay finds the message encrypted under the secret it
    shares with the sender, stays as it is but for the session's time, and its result makes
    the engine send the message on under the secret it shares with the target; the target
    hands its transport exactly the packet the sender sent, as one that came from the relay
    and whose answer goes back through it to the node the relay has that session with. *)
Theorem relay_transparency handle_r handle_b config config_b adapter adapter_b handle_packet
    (a r b : Services) message target relay session_a session_r session_t session_b local key1 key2 :
  let sid1 := ns_session_id session_a in let sid2 := ns_session_id session_t in
  let r1 := (touch sid1 r).2 in let b1 := (touch sid2 b).2 in
  let metadata := Relay.dict_merge (ep_metadata (ob_remote_endpoint message)) (ob_metadata message) in
  (forall s m, io_send s m = Ok tt) ->
  (forall e c, handle_r PhysicalRelayHandler e c = handle config adapter e c) ->
  (forall e c, handle_b PhysicalRelayHandler e c = handle config_b (Some adapter_b) e c) ->
  Relay.rl_inbound_packet_handler adapter_b = Some handle_packet ->
  _read_metadata_string metadata "target_physical_node_id" = Some target -> unicode target -> target <> "" ->
  _read_metadata_string metadata "relay_physical_node_id" = Some relay -> ob_payload message <> [] ->
  get_active_physical_session_by_remote_node_id (sv_session_manager a) relay = Some session_a ->
  is_observed_only_physical_session session_a = false -> sends_over a session_a key1 ->
  receives_over r sid1 key1 session_r ->
  unicode (ns_remote_identity_id session_r) -> ns_remote_identity_id session_r <> "" ->
  can_act_as_physical_relay config = true ->
  (forall local, get_local_physical_node (sv_database r) = Some local ->
     unicode (ln_id local) /\ ln_id local <> target) ->
  get_active_physical_session_by_remote_node_id (sv_session_manager r1) target = Some session_t ->
  sends_over r1 session_t key2 ->
  receives_over b sid2 key2 session_b ->
  get_local_physical_node (sv_database b) = Some local -> ln_id local = target ->
  exists m1 a', _send_relay_transport_packet message a = (Ok tt, a') /\ sv_sent a' = sv_sent a ++ [m1] /\
  forall context1, pc_payload context1 = bytes_text (ob_payload m1) ->
  exists result m2 r', process_received_packet handle_r context1 r = (Ok result, r1) /\
    _execute_processing_result_actions result r1 = (Ok tt, r') /\ sv_sent r' = sv_sent r ++ [m2] /\
  forall context2, pc_payload context2 = bytes_text (ob_payload m2) ->
  let through := [("relay_physical_node_id", JStr (ns_remote_identity_id session_b));
                  ("target_physical_node_id", JStr (ns_remote_identity_id session_r))] in
  let endpoint := _build_relay_endpoint_from_session (sv_database b) (ns_remote_identity_id session_b)
    (pc_remote_host context2) (pc_remote_port context2) in
  process_received_packet handle_b context2 b =
    (handle_packet (MkTransportPacket "relay_tcp" (ob_payload message)
       (MkTransportEndpoint "relay_tcp" endpoint.1 endpoint.2 through) None (sv_now b) through);;
     mret (MkResult "json" true (Some "PHYSICAL_RELAY_DATA") None
       [("protocol_family", JStr "physical_relay"); ("action", JStr "deliver_relay_data")] None)) b1.
Proof.
  intros sid1 sid2 r1 b1 metadata Hio Hhr Hhb Hin Ht Hut Hnet Hr Hnep Hsa Hobs Ha Rr Hus Hnes Hcan Hlocal
    Hst Hr1 Rb Hlb Hid.
  destruct (relay_sent a message session_a key1 target relay Hio Ht Hr Hsa Hobs Ha Hut)
    as (m1 & a' & Hs1 & Hsent1 & Hc1).
  exists m1, a'. split; [done|]. split; [done|]. intros context1 Hctx1.
  destruct Rr as [Hwfr Hnr Hkr], Rb as [Hwfb Hnb Hkb].
  pose proof (so_names _ _ _ Ha) as [_ Hne1]. pose proof (so_names _ _ _ Hr1) as [_ Hne2].
  assert (forall s sid n key, session_of s sid = Some n -> session_secret s sid = Some key ->
    ns_session_state n = "active") as Hactive.
  { intros s sid n key Hn Hk. unfold session_secret, active_secret in Hk. unfold session_of in Hn.
    rewrite Hn in Hk. by case_bool_decide. }
  destruct (receive_carried handle_r r key1 sid1 _ _ m1 context1 session_r _ Hc1 Hctx1 Hwfr Hnr Hne1 Hkr eq_refl)
    as (env1 & Hp1 & Hty1 & Hpay1 & Hsid1 & Hrecv1 & Hn1).
  cbn [md_handler] in Hrecv1. rewrite Hhr in Hrecv1. fold r1 in Hrecv1, Hn1.
  assert (sv_database r1 = sv_database r /\ sv_sent r1 = sv_sent r) as [Hdb Hsr]
    by (unfold r1, touch, on_sessions; by destruct (touch_session _ _ _ _)).
  assert (sv_database b1 = sv_database b /\ sv_now b1 = sv_now b) as [Hdbb Hnow]
    by (unfold b1, touch, on_sessions; by destruct (touch_session _ _ _ _)).
  destruct (relay_forwards config adapter env1 context1 r1 sid1 _ target (ob_payload message) session_t key2
    Hio Hcan Hp1 Hty1 Hpay1 Hsid1 Hn1) as (result & m2 & r' & Hh & Hex & Hsent2 & Hc2);
    try done; [exact (Hactive r sid1 session_r key1 Hnr Hkr)|by rewrite Hdb|].
  exists result, m2, r'. rewrite Hrecv1, <- Hsr. split; [done|]. split; [done|]. split; [done|].
  intros context2 Hctx2 through endpoint.
  destruct (receive_carried handle_b b key2 sid2 _ _ m2 context2 session_b _ Hc2 Hctx2 Hwfb Hnb Hne2 Hkb eq_refl)
    as (env2 & Hp2 & Hty2 & Hpay2 & Hsid2 & Hrecv2 & Hn2).
  cbn [md_handler] in Hrecv2. rewrite Hrecv2, Hhb. fold b1 in Hn2 |- *.
  rewrite (relay_delivers config_b adapter_b handle_packet env2 context2 b1 sid2 _ target
    (ns_remote_identity_id session_r) _ (ob_payload message) local Hin Hty2 Hp2 Hpay2 Hsid2 Hn2); try done.
  - unfold endpoint, through. by rewrite Hdbb, Hnow.
  - exact (Hactive b sid2 session_b key2 Hnb Hkb).
  - intros id Hid'. rewrite Hdb in Hid'. destruct (get_local_physical_node (sv_database r)) as [l|]; [|done].
    injection Hid' as <-. by apply Hlocal.
  - by rewrite Hdbb.
Qed.
End relayed.

(** ** The node's relay *)

(** [ORDER BY random()] returns the rows in some order. A session that was opened with a node
    and is active is one with that node, as [SessionClient.session_peer] shows of the client. *)
Class RelayLaws `{EngineIO} `{RelayEnv} := {
  relay_order_perm : forall n rows, relay_order n rows ≡ₚ rows;
  start_peer : forall node_id s session_id s' session,
    io_start_session node_id s = (Ok session_id, s') ->
    get_session_by_session_id (sv_session_manager s') session_id = Some session ->
    ns_session_state session = "active" -> ns_remote_identity_id session = node_id;
}.

Section upkeep.
Context `{RelayLaws}.
Context (config : LocalNodeConfig).

(** The node announces the address of a node with which it has an active session and that has
    an active TCP endpoint. *)
Definition relay_ready (local_id : string) (n : RelayNode) : Prop :=
  exists relay endpoint session_id session,
    ry_selected_relay_physical_node_id n = Some relay /\
    ry_local_relay_endpoint n
    = Some (relay_endpoint_dict relay local_id (ne_host endpoint) (ne_port endpoint)) /\
    ne_transport endpoint = "tcp" /\ ne_is_active endpoint = true /\
    ne_physical_node_hash_id endpoint = relay /\
    get_session_by_session_id (sv_session_manager (ry_services n)) session_id = Some session /\
    ns_session_state session = "active" /\ ns_remote_identity_id session = relay.

Definition no_relay (n : RelayNode) : Prop :=
  ry_selected_relay_physical_node_id n = None /\ ry_local_relay_endpoint n = None.

Lemma tcp_endpoint_spec db id e :
  tcp_endpoint db id = Some e ->
  ne_transport e = "tcp" /\ ne_is_active e = true /\ ne_physical_node_hash_id e = id.
Proof using.
  intros [Hin Ht%bool_decide_eq_true]%find_some. apply list_elem_of_In, elem_of_py_sorted in Hin.
  apply list_elem_of_In, filter_In in Hin as [_ Hp]. cbn in Hp.
  by apply andb_true_iff in Hp as [->%bool_decide_eq_true ->].
Qed.

Lemma random_limit_sub {A} (f : list A -> list A) limit rows x :
  (f rows ≡ₚ rows) -> x ∈ random_limit f limit rows -> x ∈ rows.
Proof using.
  unfold random_limit. intros Hf Hx. rewrite <- Hf. case_match; [done|].
  by eapply elem_of_subseteq; [apply subseteq_take|].
Qed.

(** The candidates have a TCP endpoint. *)
Lemma candidate_endpoint db k limit id :
  id ∈ list_remote_physical_nodes_for_relay_registration db (relay_order k) limit ->
  is_Some (tcp_endpoint db id).
Proof.
  intros (n & -> & Hn)%list_elem_of_fmap. apply random_limit_sub in Hn; [|apply relay_order_perm].
  apply list_elem_of_In, filter_In in Hn as [_ Hn]. rewrite !andb_true_iff in Hn.
  destruct Hn as [[_ He] _]. unfold has_endpoint in He. apply existsb_exists in He as (e & Hin & He).
  rewrite !andb_true_iff in He. destruct He as [Hid [Hact Ht]].
  destruct (tcp_endpoint db (rn_id n)) eqn:Hf; [by eexists|]. unfold tcp_endpoint in Hf.
  exfalso. refine (diff_true_false _). rewrite <- Ht. apply (find_none _ _ Hf e).
  apply list_elem_of_In, elem_of_py_sorted, list_elem_of_In, filter_In. by rewrite Hid, Hact.
Qed.

Lemma select_spec id local n r n' :
  _select_relay id local n = (r, n') ->
  (r = Ok true /\ relay_ready local n') \/
  (r = Ok false /\ ry_selected_relay_physical_node_id n' = ry_selected_relay_physical_node_id n /\
   ry_local_relay_endpoint n' = ry_local_relay_endpoint n).
Proof.
  intros Hr. unfold _select_relay in Hr. unfold mbind at 1, st_bind in Hr. cbn [_get_relay_tcp_endpoint gets] in Hr.
  unfold _get_relay_tcp_endpoint, gets in Hr.
  destruct (tcp_endpoint (sv_database (ry_services n)) id) as [endpoint|] eqn:He;
    [|injection Hr as <- <-; by right].
  apply tcp_endpoint_spec in He as (Ht & Ha & Hid).
  unfold mbind, st_bind, catch_exn, on_relay_services in Hr.
  destruct (io_start_session id (ry_services n)) as [[sid|e] s] eqn:Hs; cbn in Hr;
    [|injection Hr as <- <-; by right].
  destruct (get_session_by_session_id (sv_session_manager s) sid) as [session|] eqn:Hg; cbn in Hr;
    [|injection Hr as <- <-; by right].
  case_bool_decide as Hact; injection Hr as <- <-; [left|by right].
  split; [done|]. exists id, endpoint, sid, session. split_and!; try done. by eapply start_peer.
Qed.

Lemma select_first_spec l local : forall n r n',
  select_first l local n = (r, n') ->
  (r = Ok true /\ relay_ready local n') \/
  (r = Ok false /\ ry_selected_relay_physical_node_id n' = ry_selected_relay_physical_node_id n /\
   ry_local_relay_endpoint n' = ry_local_relay_endpoint n).
Proof.
  induction l as [|id l IH]; intros n r n' Hr; [injection Hr as <- <-; by right|].
  cbn [select_first] in Hr. unfold mbind, st_bind in Hr.
  destruct (_select_relay id local n) as [r1 n1] eqn:Hs.
  destruct (select_spec _ _ _ _ _ Hs) as [[-> Hready]|(-> & Hsel & Hep)].
  - injection Hr as <- <-. by left.
  - destruct (IH _ _ _ Hr) as [?|(? & Hsel' & Hep')]; [by left|right]. by rewrite Hsel', Hep'.
Qed.

Lemma refresh_spec local n r n' :
  sm_wf (sv_session_manager (ry_services n)) -> _refresh_selected_relay local n = (r, n') ->
  ry_services n' = ry_services n /\
  ((r = Ok true /\ relay_ready local n') \/ (r = Ok false /\ ry_selected_relay_physical_node_id n' = None)).
Proof using.
  intros Hwf Hr. unfold _refresh_selected_relay, _get_relay_tcp_endpoint, mbind, st_bind, gets in Hr.
  destruct (ry_selected_relay_physical_node_id n) as [relay|] eqn:Hsel; [|injection Hr as <- <-; by eauto].
  destruct (get_active_physical_session_by_remote_node_id _ relay) as [session|] eqn:Hses;
    [|injection Hr as <- <-; split; [done|by right]].
  destruct (tcp_endpoint _ relay) as [endpoint|] eqn:He; [|injection Hr as <- <-; split; [done|by right]].
  injection Hr as <- <-. split; [done|left]. split; [done|].
  apply tcp_endpoint_spec in He as (Ht & Ha & Hid).
  apply find_some in Hses as [Hin Hp]. rewrite !andb_true_iff, !bool_decide_eq_true in Hp.
  apply list_elem_of_In, list_elem_of_filter in Hin as [Hact Hin].
  apply (elem_of_list_sessions _ _ _ Hwf) in Hin as [Hg _].
  exists relay, endpoint, (ns_session_id session), session. by destruct Hp as [_ ->].
Qed.

Lemma refresh_kept local n relay :
  ry_selected_relay_physical_node_id n = Some relay ->
  is_Some (get_active_physical_session_by_remote_node_id (sv_session_manager (ry_services n)) relay) ->
  is_Some (tcp_endpoint (sv_database (ry_services n)) relay) ->
  (_refresh_selected_relay local n).1 = Ok true /\
  ry_selected_relay_physical_node_id (_refresh_selected_relay local n).2 = Some relay.
Proof using.
  intros Hsel [session Hs] [endpoint He].
  unfold _refresh_selected_relay, _get_relay_tcp_endpoint, mbind, st_bind, gets.
  rewrite Hsel, Hs. cbn. rewrite He. by cbn; rewrite Hsel.
Qed.

(** *** When sessions can be opened *)

(** Every start of a session gives an active one; the tables of nodes stay. *)
Definition starts_succeed : Prop := forall id s, exists session_id s' session,
  io_start_session id s = (Ok session_id, s') /\ sv_database s' = sv_database s /\
  get_session_by_session_id (sv_session_manager s') session_id = Some session /\
  ns_session_state session = "active".

Lemma select_succeeds id local n :
  starts_succeed ->
  (exists n', _select_relay id local n = (Ok true, n')) \/
  (tcp_endpoint (sv_database (ry_services n)) id = None /\ _select_relay id local n = (Ok false, n)).
Proof using.
  intros Hstart. unfold _select_relay, _get_relay_tcp_endpoint, mbind, st_bind, gets.
  destruct (tcp_endpoint _ id) as [endpoint|]; [left|by right].
  destruct (Hstart id (ry_services n)) as (sid & s & session & Hs & _ & Hg & Hact).
  unfold catch_exn, on_relay_services. rewrite Hs. cbn. rewrite Hg. cbn.
  rewrite bool_decide_true by done. by eexists.
Qed.

Lemma select_first_succeeds l local n :
  starts_succeed -> (forall id, id ∈ l -> is_Some (tcp_endpoint (sv_database (ry_services n)) id)) ->
  l <> [] -> exists n', select_first l local n = (Ok true, n').
Proof using.
  intros Hstart Hl Hne. destruct l as [|id l]; [done|]. cbn [select_first].
  destruct (select_succeeds id local n Hstart) as [[n' Hs]|[Hno _]].
  - exists n'. unfold mbind, st_bind. by rewrite Hs.
  - destruct (Hl id) as [? Hsome]; [by left|]. congruence.
Qed.

(** What follows a relay that was given up. *)
Definition after (local : LocalPhysicalNodeIdentity) (previous : option string) : st RelayNode unit :=
  clear_local_relay_endpoint;;
  again ← match previous with
          | Some previous => _select_relay previous (ln_id local)
          | None => mret false
          end;
  if again : bool then mret tt
  else
    candidates ← _list_relay_candidates config;
    select_first candidates (ln_id local);;
    mret tt.

Lemma listed_then local n r n' :
  ry_local_relay_endpoint n = None -> ry_selected_relay_physical_node_id n = None ->
  (candidates ← _list_relay_candidates config; select_first candidates (ln_id local);; mret tt) n = (r, n') ->
  r = Ok tt /\ (relay_ready (ln_id local) n' \/ no_relay n') /\
  (starts_succeed ->
   (forall k, list_remote_physical_nodes_for_relay_registration (sv_database (ry_services n))
      (relay_order k) (lc_relay_candidate_limit config) <> []) -> relay_ready (ln_id local) n').
Proof.
  intros Hep Hsel Hr. unfold mbind at 1, st_bind, _list_relay_candidates, on_relay_services in Hr.
  set (s := ry_services n) in Hr. set (n1 := n <| ry_services := s <| sv_entropy := S (sv_entropy s) |> |>) in Hr.
  set (l := list_remote_physical_nodes_for_relay_registration _ _ _) in Hr.
  unfold mbind, st_bind in Hr. destruct (select_first l (ln_id local) n1) as [r2 n2] eqn:E.
  assert (starts_succeed -> l <> [] -> r2 = Ok true) as Hlive.
  { intros Hs Hl. destruct (select_first_succeeds l (ln_id local) n1 Hs) as [n3 Hn3]; [|done|congruence].
    intros id Hid. by eapply candidate_endpoint. }
  destruct (select_first_spec _ _ _ _ _ E) as [[-> Hready]|(-> & Hsel' & Hep')]; injection Hr as <- <-.
  - split; [done|]. split; [by left|done].
  - split; [done|]. split; [right; split; [by rewrite Hsel'|by rewrite Hep']|].
    intros Hs Hc. by specialize (Hlive Hs (Hc _)).
Qed.

Lemma after_refresh local previous n r n' :
  after local previous n = (r, n') -> ry_selected_relay_physical_node_id n = None ->
  r = Ok tt /\ (relay_ready (ln_id local) n' \/ no_relay n') /\
  (starts_succeed ->
   (forall k, list_remote_physical_nodes_for_relay_registration (sv_database (ry_services n))
      (relay_order k) (lc_relay_candidate_limit config) <> []) -> relay_ready (ln_id local) n').
Proof.
  intros Hr Hsel. unfold after in Hr. unfold mbind at 1, st_bind, clear_local_relay_endpoint, modify in Hr.
  set (n1 := n <| ry_local_relay_endpoint := None |>) in Hr.
  destruct previous as [previous|].
  2: { unfold mbind at 1, st_bind in Hr. cbn [mret st_ret] in Hr. by apply (listed_then local n1). }
  unfold mbind at 1 in Hr.
  destruct (_select_relay previous (ln_id local) n1) as [r1 n2] eqn:E.
  destruct (select_spec _ _ _ _ _ E) as [[-> Hready]|(-> & Hsel' & Hep')].
  { injection Hr as <- <-. split; [done|]. split; [by left|done]. }
  destruct (listed_then local n2 r n') as (? & ? & Hlive); [by rewrite Hep'|by rewrite Hsel'|done|].
  split; [done|]. split; [done|]. intros Hs Hc. apply Hlive; [done|].
  destruct (select_succeeds previous (ln_id local) n1 Hs) as [[? ?]|[_ Hn2]]; [congruence|].
  rewrite E in Hn2. by injection Hn2 as ->.
Qed.
End upkeep.

Section relay_claims.
Context `{RelayLaws}.
Context (config : LocalNodeConfig).

(** C17: the relay of a private node. Whatever opening sessions does, an iteration ends; the
    node announces then the address of a node with which it has an active session and that
    has an active TCP endpoint, or it announces nothing and remembers no relay. When sessions can be opened and a candidate is known, it has a relay
    afterwards. A relay that still works is kept without opening a session, and a public
    node does nothing. *)
Theorem relay_maintenance_spec (n : RelayNode) (r : res unit) (n' : RelayNode) :
  sm_wf (sv_session_manager (ry_services n)) -> _run_once config n = (r, n') ->
  r = Ok tt /\
  (is_private_physical_node config = false ->
   ry_services n' = ry_services n /\ ry_local_relay_endpoint n' = ry_local_relay_endpoint n) /\
  (is_private_physical_node config = true ->
   match get_local_physical_node (sv_database (ry_services n)) with
   | None => ry_local_relay_endpoint n' = None
   | Some local =>
       (relay_ready (ln_id local) n' \/ no_relay n') /\
       (starts_succeed ->
        (forall k, list_remote_physical_nodes_for_relay_registration (sv_database (ry_services n))
           (relay_order k) (lc_relay_candidate_limit config) <> []) -> relay_ready (ln_id local) n') /\
       (forall relay, ry_selected_relay_physical_node_id n = Some relay ->
        is_Some (get_active_physical_session_by_remote_node_id
          (sv_session_manager (ry_services n)) relay) ->
        is_Some (tcp_endpoint (sv_database (ry_services n)) relay) ->
        ry_services n' = ry_services n /\ ry_selected_relay_physical_node_id n' = Some relay)
   end).
Proof.
  intros Hwf Hr. unfold _run_once in Hr.
  destruct (is_private_physical_node config); cbn [negb] in Hr; [|by injection Hr as <- <-].
  unfold mbind at 1, st_bind, gets at 1 in Hr.
  destruct (get_local_physical_node _) as [local|] eqn:Hlocal; [|by injection Hr as <- <-].
  unfold mbind at 1, st_bind, gets at 1 in Hr. unfold mbind at 1 in Hr.
  destruct (_refresh_selected_relay (ln_id local) n) as [r1 n1] eqn:E.
  pose proof (refresh_kept (ln_id local) n) as Hkept. rewrite E in Hkept.
  destruct (refresh_spec _ _ _ _ Hwf E) as [Hsv [[-> Hready]|[-> Hsel]]].
  { injection Hr as <- <-. split; [done|]. split; [done|]. intros _. split; [by left|]. split; [done|].
    intros relay Hrel Hs1 He1. split; [done|]. by apply (Hkept relay). }
  destruct (after_refresh config local (ry_selected_relay_physical_node_id n) n1 r n') as (-> & Hend & Hlive); try done.
  split; [done|]. split; [done|]. intros _. split; [done|]. split.
  - intros Hs Hc. apply Hlive; [done|]. by rewrite Hsv.
  - intros relay Hrel Hs1 He1. by destruct (Hkept relay Hrel Hs1 He1).
Qed.
End relay_claims.

(** ** Witnesses *)

#[local] Existing Instance Crypto.demo_aead.
#[local] Existing Instance Crypto.demo_aead_laws.
#[local] Existing Instance Engine.demo_entropy.
#[local] Existing Instance Engine.demo_entropy_laws.
#[local] Existing Instance Engine.demo_io.
#[local] Existing Instance PhysicalSession.demo_float.
#[local] Existing Instance PhysicalSession.demo_uuid_laws.

(** An active session of node [me] with node [peer]. *)
Definition demo_link (sm : SessionManager) (sid me peer : string) : SessionManager :=
  match create_outbound_physical_session sm sid 1000 me peer None "tcp" "10.0.0.2" 19001 20 with
  | Ok (_, sm) =>
      (activate_session (store_shared_secret sm sid 1500 Engine.demo_secret "ready" "pending").2 sid 2000).2
  | Raise _ => sm
  end.

Lemma demo_link_wf sm sid me peer : sm_wf sm -> sm_wf (demo_link sm sid me peer).
Proof.
  intros Hwf. unfold demo_link.
  destruct (create_outbound_physical_session _ _ _ _ _ _ _ _ _ _) as [[n sm2]|e] eqn:E; [|done].
  eapply sm_step_wf; [|apply step_activate]. eapply sm_step_wf; [|apply step_secret].
  eapply sm_step_wf; [exact Hwf|by eapply step_out_phys].
Qed.

Definition demo_node_db (id : string) : Database :=
  MkDatabase [MkLocalNode id "pk" "sk" "ml-dsa-65" "active" 0] [] [] [] [] [] [].

Definition demo_a : Services :=
  demo_services (demo_link new_session_manager "sid-1" "pn-a" "pn-r") (demo_node_db "pn-a").
Definition demo_r : Services :=
  demo_services (demo_link (demo_link new_session_manager "sid-1" "pn-r" "pn-a") "sid-2" "pn-r" "pn-b")
    (demo_node_db "pn-r").
Definition demo_b : Services :=
  demo_services (demo_link new_session_manager "sid-2" "pn-b" "pn-r") (demo_node_db "pn-b").

Definition demo_local_config : LocalNodeConfig :=
  MkLocalNodeConfig "Public" true true false ("10.0.0.2", 19001) ("10.0.0.2", 29001) 8.

Definition demo_handle_packet : packet_handler := fun _ => mret tt.
Definition demo_adapter : Relay.RelayTcpTransportAdapter packet_handler :=
  Relay.MkRelay true (Some demo_handle_packet) STARTED.
Definition demo_dispatch (_ : handler) : ProtocolEnvelope -> PacketContext
    -> st Services PacketProcessingResult := handle demo_local_config (Some demo_adapter).

Definition demo_relayed : OutboundMessage :=
  MkOutboundMessage "relay_tcp" (text_bytes "hello")
    (MkTransportEndpoint "relay_tcp" "10.0.0.2" 19001 [("relay_physical_node_id", JStr "pn-r")]) None
    [("target_physical_node_id", JStr "pn-b")].

Lemma demo_sends_over (s : Services) sid n :
  session_of s sid = Some n -> ns_session_id n = sid -> sid <> "" -> ascii_text sid = true ->
  (exists e, build_remote_endpoint_from_session <$> session_of s sid = Some (Ok e)) ->
  session_secret s sid = Some Engine.demo_secret -> sv_used_nonces s = ∅ ->
  sends_over s n Engine.demo_secret.
Proof.
  intros Hn Hid Hne Ha [e He] Hk Hused. rewrite Hn in He. injection He as He.
  split; rewrite ?Hid; try done; [by exists e|split; [by apply ascii_unicode|done]|].
  split; [by exists "0123456789abcdef0123456789abcdef"|]. intros k.
  exists (bytes_to_hex "0123456789ab"). rewrite Hused. split; [by left|]. apply not_elem_of_empty.
Qed.

Lemma relay_transparency_witness :
  exists m1 a', _send_relay_transport_packet demo_relayed demo_a = (Ok tt, a') /\
  forall context1, pc_payload context1 = bytes_text (ob_payload m1) ->
  exists result m2 r', process_received_packet demo_dispatch context1 demo_r
    = (Ok result, (touch "sid-1" demo_r).2) /\ sv_sent r' = [m2] /\
  forall context2, pc_payload context2 = bytes_text (ob_payload m2) ->
    is_ok (process_received_packet demo_dispatch context2 demo_b).1 = true.
Proof.
  assert (exists n, session_of demo_a "sid-1" = Some n) as [sa Ea] by (eexists; vm_compute; reflexivity).
  assert (exists n, session_of demo_r "sid-1" = Some n) as [sr Er] by (eexists; vm_compute; reflexivity).
  assert (exists n, session_of (touch "sid-1" demo_r).2 "sid-2" = Some n) as [st Et]
    by (eexists; vm_compute; reflexivity).
  assert (exists n, session_of demo_b "sid-2" = Some n) as [sb Eb] by (eexists; vm_compute; reflexivity).
  assert (ns_session_id sa = "sid-1") as Ia
    by (assert (ns_session_id <$> session_of demo_a "sid-1" = Some "sid-1") as E by (vm_compute; reflexivity);
        rewrite Ea in E; by injection E).
  assert (ns_session_id st = "sid-2") as It
    by (assert (ns_session_id <$> session_of (touch "sid-1" demo_r).2 "sid-2" = Some "sid-2") as E
          by (vm_compute; reflexivity); rewrite Et in E; by injection E).
  assert (ns_remote_identity_id sr = "pn-a") as Rr
    by (assert (ns_remote_identity_id <$> session_of demo_r "sid-1" = Some "pn-a") as E
          by (vm_compute; reflexivity); rewrite Er in E; by injection E).
  destruct (relay_transparency demo_dispatch demo_dispatch demo_local_config demo_local_config
    (Some demo_adapter) demo_adapter demo_handle_packet demo_a demo_r demo_b demo_relayed "pn-b" "pn-r"
    sa sr st sb (MkLocalNode "pn-b" "pk" "sk" "ml-dsa-65" "active" 0) Engine.demo_secret Engine.demo_secret)
    as (m1 & a' & Hs & _ & Hr).
  - reflexivity.
  - reflexivity.
  - reflexivity.
  - reflexivity.
  - vm_compute. reflexivity.
  - by apply ascii_unicode.
  - discriminate.
  - vm_compute. reflexivity.
  - discriminate.
  - rewrite <- Ea. vm_compute. reflexivity.
  - assert (is_observed_only_physical_session <$> session_of demo_a "sid-1" = Some false) as E
      by (vm_compute; reflexivity). rewrite Ea in E. by injection E.
  - apply (demo_sends_over demo_a "sid-1" _ Ea Ia); [discriminate|reflexivity| |vm_compute; reflexivity..].
    eexists. vm_compute. reflexivity.
  - rewrite Ia. split; [apply demo_link_wf, demo_link_wf, new_session_manager_wf|exact Er|vm_compute; reflexivity].
  - rewrite Rr. by apply ascii_unicode.
  - rewrite Rr. discriminate.
  - vm_compute. reflexivity.
  - intros l [= <-]. split; [by apply ascii_unicode|discriminate].
  - rewrite Ia, <- Et. vm_compute. reflexivity.
  - rewrite Ia. apply (demo_sends_over _ "sid-2" _ Et It); [discriminate|reflexivity| |vm_compute; reflexivity..].
    eexists. vm_compute. reflexivity.
  - rewrite It. split; [apply demo_link_wf, new_session_manager_wf|exact Eb|vm_compute; reflexivity].
  - reflexivity.
  - reflexivity.
  - exists m1, a'. split; [exact Hs|]. intros context1 Hc1.
    destruct (Hr context1 Hc1) as (result & m2 & r' & Hp & _ & Hm2 & Hb). rewrite Ia in Hp.
    exists result, m2, r'. split; [exact Hp|]. split; [exact Hm2|]. intros context2 Hc2.
    specialize (Hb context2 Hc2). cbv zeta in Hb. by rewrite Hb.
Defined.

#[local] Instance demo_relay_env : RelayEnv := {| relay_order := fun _ rows => rows |}.

#[local] Instance demo_relay_laws : RelayLaws.
Proof. split; [by intros n rows|]. intros id s sid s' session Hs. discriminate Hs. Qed.

Definition demo_private_config : LocalNodeConfig :=
  MkLocalNodeConfig "Private" false true false ("10.0.0.3", 19001) ("10.0.0.3", 29001) 8.

(** A node that lost the session with its relay and cannot open another one. *)
Definition demo_relay_node : RelayNode :=
  MkRelayNode (demo_services new_session_manager (demo_node_db "pn-b"))
    (Some (relay_endpoint_dict "pn-r" "pn-b" "10.0.0.2" 19001)) (Some "pn-r") false.

(** A node that has one. *)
Definition demo_kept_node : RelayNode :=
  MkRelayNode (demo_services (demo_link new_session_manager "sid-2" "pn-b" "pn-r")
      (MkDatabase [MkLocalNode "pn-b" "pk" "sk" "ml-dsa-65" "active" 0] [] [] []
        [MkNodeEndpoint 1 "pn-r" "tcp" "10.0.0.2" 19001 0 true None None 0 None] [] []))
    None (Some "pn-r") false.

Lemma relay_maintenance_spec_witness :
  (exists r n', _run_once demo_private_config demo_relay_node = (r, n') /\
    r = Ok tt /\ (relay_ready "pn-b" n' \/ no_relay n')) /\
  (exists r n', _run_once demo_private_config demo_kept_node = (r, n') /\
    ry_services n' = ry_services demo_kept_node /\ ry_selected_relay_physical_node_id n' = Some "pn-r").
Proof.
  split.
  - destruct (_run_once demo_private_config demo_relay_node) as [r n'] eqn:E. exists r, n'.
    split; [reflexivity|].
    destruct (relay_maintenance_spec demo_private_config demo_relay_node r n' new_session_manager_wf E)
      as (Hr & _ & Hp). split; [exact Hr|]. exact (proj1 (Hp eq_refl)).
  - destruct (_run_once demo_private_config demo_kept_node) as [r n'] eqn:E. exists r, n'.
    split; [reflexivity|].
    destruct (relay_maintenance_spec demo_private_config demo_kept_node r n'
      (demo_link_wf _ _ _ _ new_session_manager_wf) E) as (_ & _ & Hp).
    apply (proj2 (proj2 (Hp eq_refl)) "pn-r"); [reflexivity|..]; eexists; vm_compute; reflexivity.
Defined.
