(* ===== verification/NodeInfo.v ===== *)
(** * Information about nodes

    How nodes learn of each other: a node asks another one for its descriptor, signed for the
    DHT, and for the nodes it knows. Models [PhysicalNodeInfoProtocolHandler],
    [PhysicalNodeInfoExchangeProtocolHandler]
    ([src/app/core/protocols/physical/physical_node_info.py] and
    [physical_node_info_exchange.py]) and their clients
    ([src/app/core/protocol_clients/physical/], files of the same names). *)

From S2P Require Import Prelude PyJson PyTime Sha512 Crypto JsonText Records Pow Merge Transport Reliable.
From S2P Require Import Sessions Identity DhtService RouteService Core Registry Engine PhysicalSession DhtTable DhtAnswers SessionClient PhysicalRelay.

(** [str] of a list or a dictionary; other values have their text in [py_str]. *)
Class ContainerText := { container_str : json -> string }.

Definition py_str `{ContainerText} (value : json) : string :=
  match value with
  | JNull => "None"
  | JBool b => if b then "True" else "False"
  | JInt n => str_of_Z n
  | JFloat repr => repr
  | JStr s => s
  | JArr _ | JObj _ => container_str value
  end.

(** [[value for value in ... if isinstance(value, str) and value]] *)
Definition _select_string_items (value : json) : list string :=
  match value with JArr items => omap truthy_str items | _ => [] end.

Definition _optional_string (value : json) : option string := truthy_str value.

(** [value if isinstance(value, str) else None] *)
Definition string_or_none (value : json) : option string :=
  match value with JStr s => Some s | _ => None end.

(** ** The descriptor *)

(** What [_sign_dpnt_descriptor] signs. *)
Definition descriptor_payload (physical_node_public_key : string) (endpoints : list jdict)
    (reachability_class : string) (relay_capable hole_punch_capable : bool) (protocol_version : string)
    (feature_flags : list string) (status : string) : jdict :=
  let normalized_endpoints := Endpoints.canonical_endpoint_list (JArr (JObj <$> endpoints)) in
  let physical_node_id := sha512_hexdigest physical_node_public_key in
  [("key", JStr (sha512_hexdigest ("dpnt|" +:+ physical_node_id)));
   ("pk_physical_node", JStr physical_node_public_key);
   ("endpoints", JArr (JObj <$> normalized_endpoints));
   ("transport_methods", strings_json (py_sorted id (remove_dups (omap (fun endpoint =>
      string_or_none (py_get endpoint "transport")) normalized_endpoints))));
   ("reachability_class", JStr reachability_class);
   ("relay_capable", JBool relay_capable);
   ("hole_punch_capable", JBool hole_punch_capable);
   ("protocol_version", JStr protocol_version);
   ("feature_flags", strings_json feature_flags);
   ("status", JStr status)].

Definition sign_dpnt_descriptor `{OpenSSL} (physical_node_public_key : string) (endpoints : list jdict)
    (reachability_class : string) (relay_capable hole_punch_capable : bool) (protocol_version : string)
    (feature_flags : list string) (status private_key_pem : string) : res string :=
  dilithium_sign_hex (CommonJson.canonical_payload_hex
    (descriptor_payload physical_node_public_key endpoints reachability_class relay_capable
       hole_punch_capable protocol_version feature_flags status)) private_key_pem.

(** ** Packets *)

Definition info_packet (header payload : jdict) : string :=
  dumps_in_order (JObj [("header", JObj header); ("payload", JObj payload)]).

Definition build_request_payload (header : jdict) (requester_node_id requester_public_key : option string)
    (requester_endpoints : list jdict) (requester_status requester_reachability_class : option string)
    (requester_relay_capable requester_hole_punch_capable : bool) (requester_feature_flags : list string)
    (requester_dpnt_signature : option string) : string :=
  info_packet header
    [("requester_node_id", opt_json JStr requester_node_id);
     ("requester_public_key", opt_json JStr requester_public_key);
     ("requester_endpoints", JArr (JObj <$> requester_endpoints));
     ("requester_status", opt_json JStr requester_status);
     ("requester_reachability_class", opt_json JStr requester_reachability_class);
     ("requester_relay_capable", JBool requester_relay_capable);
     ("requester_hole_punch_capable", JBool requester_hole_punch_capable);
     ("requester_feature_flags", strings_json requester_feature_flags);
     ("requester_dpnt_signature", opt_json JStr requester_dpnt_signature)].

(** The header of an answer. *)
Definition info_response_header (request_header : jdict) (message_type : string) (message_id : json)
    : jdict :=
  [("version", py_get_default request_header "version" (JInt 1));
   ("message_type", JStr message_type);
   ("message_id", message_id);
   ("message_sequence", py_get request_header "message_sequence");
   ("physical_session_id", py_get request_header "physical_session_id");
   ("virtual_session_id", py_get request_header "virtual_session_id")].

Definition response_fields (physical_node_id public_key key_algorithm protocol_version status : string)
    (endpoints : list jdict) (reachability_class : string) (relay_capable hole_punch_capable : bool)
    (feature_flags : list string) (dpnt_signature : string) : jdict :=
  [("physical_node_id", JStr physical_node_id); ("public_key", JStr public_key);
   ("key_algorithm", JStr key_algorithm); ("protocol_version", JStr protocol_version);
   ("status", JStr status); ("endpoints", JArr (JObj <$> endpoints));
   ("reachability_class", JStr reachability_class); ("relay_capable", JBool relay_capable);
   ("hole_punch_capable", JBool hole_punch_capable); ("feature_flags", strings_json feature_flags);
   ("dpnt_signature", JStr dpnt_signature)].

Definition build_response_payload (message_id : string) (request_header : jdict)
    (fields : jdict) : string :=
  info_packet (info_response_header request_header "PHYSICAL_NODE_INFO_RESPONSE" (JStr message_id)) fields.

Section node_info.
Context `{FloatText} `{Entropy} `{OpenSSL} `{AesGcmSiv} `{EngineIO} `{ContainerText}.
(** The settings, the engine's [_local_relay_endpoint], and the path of the database, which a
    result mentions. *)
Context (config : LocalNodeConfig) (local_relay_endpoint : option jdict) (database_path : string).

Definition own_endpoints : list jdict :=
  build_local_physical_endpoints config local_relay_endpoint None.

(** [str(header.get("version")) if header.get("version") is not None else None] *)
Definition header_version (header : jdict) : option string :=
  match py_get header "version" with JNull => None | version => Some (py_str version) end.

(** ** The node's own descriptor *)

(** What a signed descriptor adds to the notes. *)
Definition dpnt_notes (endpoints signature reachability_class protocol_version status flags : json)
    (relay_capable hole_punch_capable : bool) : jdict :=
  [("advertised_endpoints", endpoints); ("dpnt_signature", signature);
   ("dpnt_reachability_class", reachability_class); ("dpnt_relay_capable", JBool relay_capable);
   ("dpnt_hole_punch_capable", JBool hole_punch_capable); ("dpnt_protocol_version", protocol_version);
   ("dpnt_status", status); ("dpnt_feature_flags", flags)].

Definition list_or_empty (value : json) : json := match value with JArr l => JArr l | _ => JArr [] end.

Definition _persist_requester_if_present (envelope : ProtocolEnvelope) : st Services unit :=
  let payload := as_payload_dict envelope in
  let requester_endpoints := Endpoints.normalize_endpoint_list (py_get payload "requester_endpoints") in
  match truthy_str (py_get payload "requester_node_id"),
        truthy_str (py_get payload "requester_public_key"), requester_endpoints with
  | Some requester_node_id, Some requester_public_key, _ :: _ =>
      let requester_status := opt_json JStr (truthy_str (py_get payload "requester_status")) in
      let requester_relay_capable := json_truthy (py_get payload "requester_relay_capable") in
      let requester_hole_punch_capable := json_truthy (py_get payload "requester_hole_punch_capable") in
      let notes :=
        [("source", JStr "physical_node_info_request"); ("advertised_status", requester_status)] ++
        match truthy_str (py_get payload "requester_dpnt_signature") with
        | None => []
        | Some requester_dpnt_signature =>
            dpnt_notes (JArr (JObj <$> requester_endpoints)) (JStr requester_dpnt_signature)
              (opt_json JStr (string_or_none (py_get payload "requester_reachability_class")))
              (opt_json JStr (header_version (pe_header envelope))) requester_status
              (list_or_empty (py_get payload "requester_feature_flags"))
              requester_relay_capable requester_hole_punch_capable
        end in
      on_database (fun db now => upsert_discovered_remote_physical_node db now
        (MkNodeDescription requester_node_id requester_public_key (header_version (pe_header envelope))
           None (truthy_str (py_get payload "requester_reachability_class")) requester_relay_capable
           requester_hole_punch_capable (Some (dumps_in_order (JObj notes))))
        requester_endpoints "discovered");;
      mret tt
  | _, _, _ => mret tt
  end.

Definition failed (envelope : ProtocolEnvelope) (reason : string) : PacketProcessingResult :=
  MkResult (pe_protocol_name envelope) false (pe_message_type envelope) None
    [("reason", JStr reason)] None.

Definition _handle_info_request (envelope : ProtocolEnvelope) (context : PacketContext)
    : st Services PacketProcessingResult :=
  local_node ← gets (fun s => get_local_physical_node (sv_database s));
  _persist_requester_if_present envelope;;
  match local_node with
  | None => mret (failed envelope "local_physical_node_not_initialized")
  | Some local_node =>
      match own_endpoints with
      | [] => mret (MkResult (pe_protocol_name envelope) true (pe_message_type envelope) None
                [("protocol_family", JStr "physical_node_info");
                 ("reason", JStr "local_node_has_no_advertised_endpoint")] None)
      | advertised_endpoints =>
          let protocol_version := py_str (py_get_default (pe_header envelope) "version" (JInt 1)) in
          let relay_capable := can_act_as_physical_relay config in
          dpnt_signature ← lift (sign_dpnt_descriptor (ln_public_key local_node) advertised_endpoints
            "direct" relay_capable false protocol_version [] (ln_status local_node)
            (ln_private_key_encrypted local_node));
          message_id ← new_uuid;
          mret (MkResult (pe_protocol_name envelope) true (pe_message_type envelope)
            (Some (build_response_payload message_id (pe_header envelope)
               (response_fields (ln_id local_node) (ln_public_key local_node)
                  (ln_key_algorithm local_node) protocol_version (ln_status local_node)
                  advertised_endpoints "direct" relay_capable false [] dpnt_signature)))
            [("protocol_family", JStr "physical_node_info");
             ("transport_name", JStr (pc_transport_name context));
             ("action", JStr "respond_local_physical_node_info")] None)
      end
  end.

(** The notes of [_handle_response]. *)
Definition response_notes (payload : jdict) : jdict :=
  let advertised_status := py_get_default payload "status" (JStr "active") in
  [("key_algorithm", py_get payload "key_algorithm"); ("advertised_status", advertised_status)] ++
  match truthy_str (py_get payload "dpnt_signature") with
  | None => []
  | Some dpnt_signature =>
      dpnt_notes (py_get payload "endpoints") (JStr dpnt_signature) (py_get payload "reachability_class")
        (py_get payload "protocol_version") advertised_status
        (list_or_empty (py_get payload "feature_flags")) (json_truthy (py_get payload "relay_capable"))
        (json_truthy (py_get payload "hole_punch_capable"))
  end.

Definition _handle_info_response (envelope : ProtocolEnvelope) (context : PacketContext)
    : st Services PacketProcessingResult :=
  let payload := as_payload_dict envelope in
  let endpoints := py_get payload "endpoints" in
  let valid_endpoints := Endpoints.normalize_endpoint_list endpoints in
  match py_get payload "physical_node_id", py_get payload "public_key", valid_endpoints with
  | JStr remote_node_id, JStr remote_public_key, _ :: _ =>
      let protocol_version := py_get payload "protocol_version" in
      let reachability_class := py_get payload "reachability_class" in
      let relay_capable := json_truthy (py_get payload "relay_capable") in
      let hole_punch_capable := json_truthy (py_get payload "hole_punch_capable") in
      let notes := response_notes payload in
      on_database (fun db now => upsert_remote_physical_node db now
        (MkNodeDescription remote_node_id remote_public_key
           (match protocol_version with
            | JStr protocol_version => Some protocol_version
            | _ => header_version (pe_header envelope)
            end) None (string_or_none reachability_class) relay_capable hole_punch_capable
           (Some (dumps_in_order (JObj notes)))) "discovered" valid_endpoints false);;
      mret (MkResult (pe_protocol_name envelope) true (pe_message_type envelope) None
        [("protocol_family", JStr "physical_node_info");
         ("transport_name", JStr (pc_transport_name context));
         ("action", JStr "persist_remote_physical_node_info");
         ("remote_node_id", JStr remote_node_id)] None)
  | _, _, _ => mret (failed envelope "invalid_physical_node_info_response")
  end.

Definition handle_info (envelope : ProtocolEnvelope) (context : PacketContext)
    : st Services PacketProcessingResult :=
  if bool_decide (pe_message_type envelope = Some "PHYSICAL_NODE_INFO_REQUEST")
  then _handle_info_request envelope context
  else if bool_decide (pe_message_type envelope = Some "PHYSICAL_NODE_INFO_RESPONSE")
  then _handle_info_response envelope context
  else mret (MkResult (pe_protocol_name envelope) true (pe_message_type envelope) None
         [("protocol_family", JStr "physical_node_info");
          ("transport_name", JStr (pc_transport_name context));
          ("database_path", JStr database_path);
          ("next_step", JStr "implement_physical_node_identity_resolution")] None).

(** ** The client that asks for a descriptor *)

Record LocalDescriptor := MkLocalDescriptor {
  ds_status : string;
  ds_reachability_class : string;
  ds_relay_capable : bool;
  ds_hole_punch_capable : bool;
  ds_feature_flags : list string;
  ds_dpnt_signature : string;
}.

Definition _build_local_dpnt_descriptor (local_node : option LocalPhysicalNodeIdentity)
    : res (option LocalDescriptor) :=
  match local_node, own_endpoints with
  | Some local_node, (_ :: _) as endpoints =>
      let reachability_class := lc_node_reachability config in
      let relay_capable := can_act_as_physical_relay config in
      let! dpnt_signature := sign_dpnt_descriptor (ln_public_key local_node) endpoints
        reachability_class relay_capable false "1" [] (ln_status local_node)
        (ln_private_key_encrypted local_node) in
      Ok (Some (MkLocalDescriptor (ln_status local_node) reachability_class relay_capable false []
            dpnt_signature))
  | _, _ => Ok None
  end.

Definition send_request_to_endpoint (endpoint : TransportEndpoint) : st Services unit :=
  local_node ← gets (fun s => get_local_physical_node (sv_database s));
  descriptor ← lift (_build_local_dpnt_descriptor local_node);
  header ← build_message_header "PHYSICAL_NODE_INFO_REQUEST" None None;
  send_packet (MkOutboundMessage (ep_transport_name endpoint)
    (text_bytes (build_request_payload header (ln_id <$> local_node) (ln_public_key <$> local_node)
       own_endpoints (ds_status <$> descriptor) (ds_reachability_class <$> descriptor)
       (from_option ds_relay_capable false descriptor)
       (from_option ds_hole_punch_capable false descriptor)
       (from_option ds_feature_flags [] descriptor) (ds_dpnt_signature <$> descriptor)))
    endpoint None []).
End node_info.

(** ** The exchange of known nodes *)

Class ExchangeEnv := {
  exchange_order : nat -> list RemotePhysicalNodeIdentity -> list RemotePhysicalNodeIdentity;
}.

Section exchange.
Context `{FloatText} `{Entropy} `{AesGcmSiv} `{EngineIO} `{ExchangeEnv}.
(** The transports the node has an adapter for, and
    [physical_node_info_exchange_max_records]. *)
Context (transport_adapters : list string) (exchange_max_records : Z).

Definition build_exchange_request_payload (header : jdict) (max_records : Z) : string :=
  info_packet header [("max_records", JInt max_records)].

Definition build_exchange_response_payload (request_header : jdict) (records : list jdict) : string :=
  info_packet (info_response_header request_header "PHYSICAL_NODE_INFO_EXCHANGE_RESPONSE"
    (py_get request_header "message_id")) [("records", JArr (JObj <$> records))].

Definition _build_not_implemented_result (envelope : ProtocolEnvelope) (context : PacketContext)
    : PacketProcessingResult :=
  MkResult (pe_protocol_name envelope) true (pe_message_type envelope) None
    [("protocol_family", JStr "physical_node_info_exchange");
     ("transport_name", JStr (pc_transport_name context));
     ("transport_adapters", strings_json (py_sorted id transport_adapters));
     ("next_step", JStr "implement_known_peer_exchange")] None.

Definition _read_max_records (payload : jdict) : Z :=
  match json_pyint (py_get payload "max_records") with
  | Some value => Z.max 1 (Z.min (pyint_val value) 200)
  | None => 50
  end.

Definition _read_requester_node_id (sm : SessionManager) (envelope : ProtocolEnvelope) : option string :=
  session_id ← truthy_str (py_get (pe_header envelope) "physical_session_id");
  ns_remote_identity_id <$> get_session_by_session_id sm session_id.

Definition exported_endpoint (endpoint : NodeEndpoint) : jdict :=
  [("transport", JStr (ne_transport endpoint)); ("host", JStr (ne_host endpoint));
   ("port", JInt (ne_port endpoint)); ("priority", JInt (ne_priority endpoint));
   ("metadata", JObj (CommonJson.load_json_object (ne_metadata_json endpoint)))].

Definition _build_exchange_record (remote_node : RemotePhysicalNodeIdentity)
    (endpoints : list NodeEndpoint) : option jdict :=
  let notes := CommonJson.load_json_object (rn_notes_json remote_node) in
  let last_validated_at := opt_json JStr (isoformat_naive <$> rn_last_validated_at remote_node) in
  let signed_endpoints := Endpoints.canonical_endpoint_list (py_get notes "advertised_endpoints") in
  match _optional_string (py_get notes "dpnt_signature"), signed_endpoints with
  | Some dpnt_signature, _ :: _ => Some
      [("physical_node_id", JStr (rn_id remote_node)); ("public_key", JStr (rn_public_key remote_node));
       ("reachability_class", opt_json JStr (_optional_string (py_get notes "dpnt_reachability_class")));
       ("relay_capable", JBool (json_truthy (py_get notes "dpnt_relay_capable")));
       ("hole_punch_capable", JBool (json_truthy (py_get notes "dpnt_hole_punch_capable")));
       ("protocol_version", opt_json JStr (_optional_string (py_get notes "dpnt_protocol_version")));
       ("status", opt_json JStr (_optional_string (py_get notes "dpnt_status")));
       ("last_validated_at", last_validated_at); ("dpnt_signature", JStr dpnt_signature);
       ("feature_flags", strings_json (_select_string_items (py_get notes "dpnt_feature_flags")));
       ("endpoints", JArr (JObj <$> signed_endpoints))]
  | _, _ =>
      match Endpoints.canonical_endpoint_list (JArr (JObj <$> (exported_endpoint <$> endpoints))) with
      | [] => None
      | exported_endpoints => Some
          [("physical_node_id", JStr (rn_id remote_node)); ("public_key", JStr (rn_public_key remote_node));
           ("reachability_class", opt_json JStr (rn_reachability_class remote_node));
           ("relay_capable", JBool (rn_relay_capable remote_node));
           ("hole_punch_capable", JBool (rn_hole_punch_capable remote_node));
           ("protocol_version", opt_json JStr (rn_protocol_version remote_node));
           ("status", JStr (rn_status remote_node)); ("last_validated_at", last_validated_at);
           ("dpnt_signature", JNull); ("feature_flags", JArr []);
           ("endpoints", JArr (JObj <$> exported_endpoints))]
      end
  end.

(** The active endpoints of a node, as the query of the handler orders them. *)
Definition exchange_endpoints (db : Database) (node_id : string) : list NodeEndpoint :=
  List.filter ne_is_active
    (py_sorted (fun e => (- ne_priority e, desc_key (ne_last_success_at e)))
      (List.filter (fun e => bool_decide (ne_physical_node_hash_id e = node_id)) (db_endpoints db))).

(** The loop over the nodes ends when there are [max_records] records. *)
Fixpoint collect_records (db : Database) (local_id : string) (requester_node_id : option string)
    (max_records : Z) (records : list jdict) (remote_nodes : list RemotePhysicalNodeIdentity)
    : list jdict :=
  match remote_nodes with
  | [] => records
  | remote_node :: remote_nodes =>
      let next := collect_records db local_id requester_node_id max_records in
      if bool_decide (rn_id remote_node = local_id)
         || bool_decide (requester_node_id = Some (rn_id remote_node))
      then next records remote_nodes
      else
        match _build_exchange_record remote_node (exchange_endpoints db (rn_id remote_node)) with
        | None => next records remote_nodes
        | Some record =>
            let records := records ++ [record] in
            if max_records <=? Z.of_nat (length records) then records else next records remote_nodes
        end
  end.

(** The random order of a query. *)
Definition next_draw : st Services nat := fun s =>
  (Ok (sv_entropy s), s <| sv_entropy := S (sv_entropy s) |>).

Definition _handle_exchange_request (envelope : ProtocolEnvelope) (context : PacketContext)
    : st Services PacketProcessingResult :=
  let max_records := _read_max_records (as_payload_dict envelope) in
  local_node ← gets (fun s => get_local_physical_node (sv_database s));
  requester_node_id ← gets (fun s => _read_requester_node_id (sv_session_manager s) envelope);
  match local_node with
  | None => mret (failed envelope "local_physical_node_not_initialized")
  | Some local_node =>
      db ← gets sv_database;
      draw ← next_draw;
      let remote_nodes := exchange_order draw (List.filter (fun n =>
        bool_decide (is_Some (rn_last_validated_at n)) && bool_decide (rn_status n = "active"))
        (db_remote_nodes db)) in
      let records := collect_records db (ln_id local_node) requester_node_id max_records [] remote_nodes in
      mret (MkResult (pe_protocol_name envelope) true (pe_message_type envelope)
        (Some (build_exchange_response_payload (pe_header envelope) records))
        [("protocol_family", JStr "physical_node_info_exchange");
         ("transport_name", JStr (pc_transport_name context));
         ("action", JStr "respond_known_physical_nodes");
         ("record_count", JInt (Z.of_nat (length records))); ("max_records", JInt max_records)] None)
  end.

(** A record of the answer that is stored: its arguments, or [None] when it is skipped. *)
Definition exchanged_node (record : json) : option (NodeDescription * list jdict) :=
  match record with
  | JObj record =>
      match truthy_str (py_get record "physical_node_id"), truthy_str (py_get record "public_key"),
            py_get record "endpoints" with
      | Some physical_node_id, Some public_key, JArr ((_ :: _) as endpoints) =>
          match Endpoints.normalize_endpoint_list (JArr endpoints) with
          | [] => None
          | valid_endpoints =>
              let text key := opt_json JStr (_optional_string (py_get record key)) in
              let notes :=
                [("source", JStr "physical_node_info_exchange_response");
                 ("advertised_status", text "status");
                 ("advertised_last_validated_at", text "last_validated_at")] ++
                match _optional_string (py_get record "dpnt_signature") with
                | None => []
                | Some dpnt_signature =>
                    dpnt_notes (JArr endpoints) (JStr dpnt_signature) (text "reachability_class")
                      (text "protocol_version") (text "status")
                      (strings_json (_select_string_items (py_get record "feature_flags")))
                      (json_truthy (py_get record "relay_capable"))
                      (json_truthy (py_get record "hole_punch_capable"))
                end in
              Some (MkNodeDescription physical_node_id public_key
                      (_optional_string (py_get record "protocol_version")) None
                      (_optional_string (py_get record "reachability_class"))
                      (json_truthy (py_get record "relay_capable"))
                      (json_truthy (py_get record "hole_punch_capable"))
                      (Some (dumps_in_order (JObj notes))), valid_endpoints)
          end
      | _, _, _ => None
      end
  | _ => None
  end.

(** How many records were stored, and how many skipped. *)
Fixpoint persist_records (records : list json) (persisted_count skipped_count : Z)
    : st Services (Z * Z) :=
  match records with
  | [] => mret (persisted_count, skipped_count)
  | record :: records =>
      match exchanged_node record with
      | None => persist_records records persisted_count (skipped_count + 1)
      | Some (description, valid_endpoints) =>
          on_database (fun db now => upsert_discovered_remote_physical_node db now description
            valid_endpoints "discovered");;
          persist_records records (persisted_count + 1) skipped_count
      end
  end.

Definition _handle_exchange_response (envelope : ProtocolEnvelope) (context : PacketContext)
    : st Services PacketProcessingResult :=
  match py_get (as_payload_dict envelope) "records" with
  | JArr records =>
      responder_node_id ← gets (fun s => _read_requester_node_id (sv_session_manager s) envelope);
      match responder_node_id with
      | Some responder_node_id =>
          on_database (fun db now =>
            Ok (tt, mark_physical_node_info_exchange_response_received db now responder_node_id))
      | None => mret tt
      end;;
      counts ← persist_records records 0 0;
      mret (MkResult (pe_protocol_name envelope) true (pe_message_type envelope) None
        [("protocol_family", JStr "physical_node_info_exchange");
         ("transport_name", JStr (pc_transport_name context));
         ("action", JStr "persist_discovered_physical_nodes");
         ("persisted_count", JInt counts.1); ("skipped_count", JInt counts.2)] None)
  | _ => mret (failed envelope "invalid_physical_node_info_exchange_response")
  end.

Definition _handle_announce (envelope : ProtocolEnvelope) (context : PacketContext)
    : st Services PacketProcessingResult :=
  announcer_node_id ← gets (fun s => _read_requester_node_id (sv_session_manager s) envelope);
  match announcer_node_id with
  | Some announcer_node_id =>
      on_database (fun db now =>
        Ok (tt, mark_physical_node_info_exchange_announce_received db now announcer_node_id))
  | None => mret tt
  end;;
  mret (_build_not_implemented_result envelope context).

Definition handle_exchange (envelope : ProtocolEnvelope) (context : PacketContext)
    : st Services PacketProcessingResult :=
  if bool_decide (pe_message_type envelope = Some "PHYSICAL_NODE_INFO_EXCHANGE_REQUEST")
  then _handle_exchange_request envelope context
  else if bool_decide (pe_message_type envelope = Some "PHYSICAL_NODE_INFO_EXCHANGE_RESPONSE")
  then _handle_exchange_response envelope context
  else if bool_decide (pe_message_type envelope = Some "PHYSICAL_NODE_INFO_ANNOUNCE")
  then _handle_announce envelope context
  else mret (_build_not_implemented_result envelope context).

(** The client; [max_records or ...] *)
Definition request_known_physical_nodes (session_id : string) (max_records : option Z)
    : st Services unit :=
  session ← find_session session_id;
  match session with
  | None => raise (ValueError "The provided physical session does not exist in memory.")
  | Some session =>
      if bool_decide (ns_session_state session <> "active")
      then raise (ValueError "The provided physical session is not active yet.")
      else if is_observed_only_physical_endpoint session
      then raise (ValueError
        "The physical session uses an observed endpoint and must not start exchange.")
      else
        endpoint ← lift (build_remote_endpoint_from_session session);
        let request_limit :=
          match max_records with
          | Some n => if n =? 0 then exchange_max_records else n
          | None => exchange_max_records
          end in
        header ← build_message_header "PHYSICAL_NODE_INFO_EXCHANGE_REQUEST"
          (Some (ns_session_id session)) None;
        send_packet (MkOutboundMessage (ep_transport_name endpoint)
          (text_bytes (build_exchange_request_payload header request_limit)) endpoint None []);;
        on_database (fun db now =>
          Ok (tt, mark_physical_node_info_exchange_request_sent db now (ns_remote_identity_id session)))
  end.
End exchange.

(** ** Endpoints, up to the order of keys

    A record is stored and sent with the keys of its objects in order; the canonical
    endpoints of a list do not change but for that. *)

Section endpoints.
Context `{FloatText}.

(** Same value up to the order of keys. *)
Definition same_json (a b : json) : Prop := json_norm a = json_norm b.

#[export] Instance same_json_equivalence : Equivalence same_json.
Proof. unfold same_json. by split; [intros a|intros a b ?|intros a b c -> ->]. Qed.

Lemma same_dumps a b : same_json a b -> json_dumps a = json_dumps b.
Proof. intros Hab. by rewrite <- (json_dumps_norm a), Hab, json_dumps_norm. Qed.

(** The values of a dictionary in normal form, its keys as they are. *)
Definition norm_values (d : jdict) : jdict := map (fun p => (p.1, json_norm p.2)) d.

Lemma norm_values_get k d : od_get k (norm_values d) = json_norm <$> od_get k d.
Proof.
  induction d as [|[k' v] d IH]; [done|]. cbn [norm_values map fst snd od_get] in *.
  by destruct (decide (k = k')).
Qed.

Lemma norm_values_same d : same_json (JObj (norm_values d)) (JObj d).
Proof.
  unfold same_json. cbn [json_norm]. do 2 f_equal. unfold norm_values. rewrite map_map.
  apply map_ext. intros p. cbn. by rewrite json_norm_idem.
Qed.

Lemma json_pyint_norm v : json_pyint (json_norm v) = json_pyint v.
Proof. by destruct v. Qed.

Lemma normalize_endpoint_norm e :
  json_wf e ->
  Endpoints.normalize_endpoint_dict (json_norm e) = norm_values <$> Endpoints.normalize_endpoint_dict e.
Proof.
  intros Hwf. destruct e as [| | | | | |d]; try done. unfold Endpoints.normalize_endpoint_dict.
  change (json_norm (JObj d)) with (JObj (norm_dict d)). cbv beta iota zeta.
  assert (od_wf d) as Hd by (by apply dict_wf_od).
  rewrite !norm_dict_get by done.
  destruct (od_get "transport" d) as [[]|]; try done. destruct (od_get "host" d) as [[]|]; try done.
  cbn [fmap option_fmap option_map json_norm].
  assert ((json_norm <$> od_get "port" d) ≫= json_pyint = od_get "port" d ≫= json_pyint) as ->
    by (destruct (od_get "port" d); [apply json_pyint_norm|done]).
  destruct (od_get "port" d ≫= json_pyint) as [port|]; [|done].
  destruct (str_truthy _ && str_truthy _); [|done]. cbn [fmap option_fmap option_map norm_values map fst snd].
  repeat f_equal.
  - by destruct port.
  - by destruct (od_get "priority" d) as [[]|].
  - by destruct (od_get "metadata" d) as [[]|].
Qed.

Lemma normalize_list_norm l :
  json_wf l ->
  Endpoints.normalize_endpoint_list (json_norm l) = norm_values <$> Endpoints.normalize_endpoint_list l.
Proof.
  intros Hwf. destruct l as [| | | | |l|]; try done. cbn [json_norm Endpoints.normalize_endpoint_list].
  inversion_clear Hwf as [| | | | |? Hl|]. induction Hl as [|e l He _ IH]; [done|].
  cbn [map]. change (omap ?f (?a :: ?r)) with (match f a with Some y => y :: omap f r | None => omap f r end).
  rewrite normalize_endpoint_norm, IH by done. by destruct (Endpoints.normalize_endpoint_dict e).
Qed.

Lemma sort_key_norm d : Endpoints.endpoint_sort_key (norm_values d) = Endpoints.endpoint_sort_key d.
Proof.
  unfold Endpoints.endpoint_sort_key, Endpoints.endpoint_str, Endpoints.endpoint_int.
  rewrite !norm_values_get. f_equal; [|f_equal; [|f_equal; [|f_equal]]].
  - by destruct (od_get "transport" d) as [[]|].
  - by destruct (od_get "host" d) as [[]|].
  - destruct (od_get "port" d) as [v|]; [|done]. cbn. by rewrite json_pyint_norm.
  - destruct (od_get "priority" d) as [v|]; [|done]. cbn. by rewrite json_pyint_norm.
  - destruct (od_get "metadata" d) as [v|]; [|done]. cbn. apply json_dumps_norm.
Qed.

Lemma canonical_norm l :
  json_wf l ->
  Endpoints.canonical_endpoint_list (json_norm l) = norm_values <$> Endpoints.canonical_endpoint_list l.
Proof.
  intros Hwf. unfold Endpoints.canonical_endpoint_list. rewrite normalize_list_norm by done.
  apply py_sorted_map. apply sort_key_norm.
Qed.

(** The canonical endpoints of two lists are the same. *)
Definition same_endpoints (l l' : json) : Prop :=
  norm_values <$> Endpoints.canonical_endpoint_list l = norm_values <$> Endpoints.canonical_endpoint_list l'.

#[export] Instance same_endpoints_equivalence : Equivalence same_endpoints.
Proof. unfold same_endpoints. by split; [intros a|intros a b ?|intros a b c -> ->]. Qed.

Lemma norm_values_idem d : norm_values (norm_values d) = norm_values d.
Proof. unfold norm_values. rewrite map_map. apply map_ext. intros p. cbn. by rewrite json_norm_idem. Qed.

Lemma same_endpoints_norm l : json_wf l -> same_endpoints (json_norm l) l.
Proof.
  intros Hl. unfold same_endpoints. rewrite canonical_norm, <- list_fmap_compose by done.
  apply list_fmap_ext. intros i d _. apply norm_values_idem.
Qed.

Lemma same_endpoints_canonical l : same_endpoints (JArr (JObj <$> Endpoints.canonical_endpoint_list l)) l.
Proof.
  unfold same_endpoints. by rewrite (proj1 (Endpoints.canonical_endpoints_spec l [] [])).
Qed.

Lemma normal_normalize l :
  Endpoints.normalize_endpoint_list (JArr (JObj <$> Endpoints.normalize_endpoint_list l))
  = Endpoints.normalize_endpoint_list l.
Proof. apply Endpoints.normalize_all, Endpoints.normalize_list_normal. Qed.

Lemma same_endpoints_normalized l :
  same_endpoints (JArr (JObj <$> Endpoints.normalize_endpoint_list l)) l.
Proof. unfold same_endpoints, Endpoints.canonical_endpoint_list. by rewrite normal_normalize. Qed.

(** Their transports, and their text. *)
Definition transports (endpoints : list jdict) : list string :=
  py_sorted id (remove_dups (omap (fun endpoint => string_or_none (py_get endpoint "transport")) endpoints)).

Lemma transports_norm ds : transports (norm_values <$> ds) = transports ds.
Proof.
  unfold transports. do 2 f_equal. induction ds as [|d ds IH]; [done|]. cbn [fmap list_fmap].
  change (omap ?f (?a :: ?r)) with (match f a with Some y => y :: omap f r | None => omap f r end).
  rewrite IH. unfold py_get. rewrite norm_values_get. by destruct (od_get "transport" d) as [[]|].
Qed.

Lemma same_transports l l' :
  same_endpoints l l' ->
  transports (Endpoints.canonical_endpoint_list l) = transports (Endpoints.canonical_endpoint_list l').
Proof. intros Hl. by rewrite <- transports_norm, Hl, transports_norm. Qed.

Lemma same_endpoints_json l l' :
  same_endpoints l l' ->
  same_json (JArr (JObj <$> Endpoints.canonical_endpoint_list l))
    (JArr (JObj <$> Endpoints.canonical_endpoint_list l')).
Proof.
  assert (forall ds, same_json (JArr (JObj <$> (norm_values <$> ds))) (JArr (JObj <$> ds))) as Hds.
  { intros ds. unfold same_json. cbn [json_norm]. f_equal. rewrite <- list_fmap_compose.
    change (map json_norm ?l) with (json_norm <$> l). rewrite <- !list_fmap_compose.
    apply list_fmap_ext. intros i d _. apply norm_values_same. }
  intros Hl. etransitivity; [symmetry; apply Hds|]. rewrite Hl. apply Hds.
Qed.
End endpoints.

(** ** Descriptors that are stored *)

Section descriptors.
Context `{FloatText} `{OpenSSL}.

(** The notes of a node with a descriptor that was signed for the endpoints. *)
Record signed_notes (notes : jdict) (endpoints : json) (signature reachability_class : string)
    (relay_capable : bool) (protocol_version status : string) : Prop := {
  sn_wf : dict_wf notes;
  sn_endpoints : same_endpoints (py_get notes "advertised_endpoints") endpoints;
  sn_signature : od_get "dpnt_signature" notes = Some (JStr signature);
  sn_reachability : od_get "dpnt_reachability_class" notes = Some (JStr reachability_class);
  sn_relay : od_get "dpnt_relay_capable" notes = Some (JBool relay_capable);
  sn_hole_punch : od_get "dpnt_hole_punch_capable" notes = Some (JBool false);
  sn_version : od_get "dpnt_protocol_version" notes = Some (JStr protocol_version);
  sn_status : od_get "dpnt_status" notes = Some (JStr status);
  sn_flags : note_flags notes = [];
}.

(** Merging notes into those of a stored node. *)
Definition merged (existing notes : jdict) : jdict :=
  foldl (fun d p => if is_note p.2 then od_set p.1 p.2 d else d) existing notes.

Lemma merged_get existing notes k :
  od_wf notes ->
  od_get k (merged existing notes) =
  match od_get k notes with
  | Some v => if is_note v then Some v else od_get k existing
  | None => od_get k existing
  end.
Proof using.
  unfold merged. revert existing. induction notes as [|[k' v'] notes IH]; intros existing Hwf; [done|].
  apply NoDup_cons in Hwf as [Hk Hwf]. cbn [foldl fst snd]. rewrite (IH _ Hwf). cbn [od_get].
  destruct (decide (k = k')) as [->|Hne].
  - rewrite (proj2 (od_get_None k' notes) Hk). destruct (is_note v'); [apply od_get_set_eq|done].
  - destruct (is_note v'); [|done]. by rewrite (od_get_set_ne k' k) by done.
Qed.

Lemma merged_wf existing notes : dict_wf existing -> dict_wf notes -> dict_wf (merged existing notes).
Proof using.
  intros He Hn. inversion_clear Hn as [| | | | | |? _ Hl]. unfold merged. revert existing He.
  induction Hl as [|[k v] notes [Hk Hv] _ IH]; intros existing He; [done|]. cbn [foldl fst snd].
  apply IH. destruct (is_note v); [by apply dict_wf_set|done].
Qed.

(** The endpoints of a list are as well formed as it. *)
Lemma normalized_wf l : json_wf l -> Forall (fun d => dict_wf d) (Endpoints.normalize_endpoint_list l).
Proof using.
  intros Hwf. apply list.Forall_forall. intros d Hd. destruct l as [| | | | |l|]; try (by apply elem_of_nil in Hd).
  apply list_elem_of_omap in Hd as (e & He & Hn). inversion_clear Hwf as [| | | | |? Hl|].
  rewrite Forall_forall in Hl. specialize (Hl e He).
  destruct e as [| | | | | |e]; try done. unfold Endpoints.normalize_endpoint_dict in Hn.
  assert (forall k v, od_get k e = Some v -> json_wf v) as Hget by (intros k v; by apply dict_wf_get).
  destruct (od_get "transport" e) as [[| | | |t| |]|] eqn:Et; try done.
  destruct (od_get "host" e) as [[| | | |h| |]|] eqn:Eh; try done.
  apply Hget in Et, Eh. inversion_clear Et. inversion_clear Eh.
  destruct (od_get "port" e ≫= json_pyint) as [port|]; [|done].
  destruct (str_truthy t && str_truthy h); [|done]. injection Hn as <-.
  json_wf_tac; first [done|by destruct port; constructor|by destruct (json_pyint _) as [[]|]; constructor|idtac].
  destruct (od_get "metadata" e) as [[]|] eqn:Em; try by (apply Wf_obj; [constructor|constructor]).
  by apply Hget in Em.
Qed.

Lemma canonical_wf l : json_wf l -> Forall (fun d => dict_wf d) (Endpoints.canonical_endpoint_list l).
Proof using.
  intros Hl. unfold Endpoints.canonical_endpoint_list. rewrite py_sorted_Permutation. by apply normalized_wf.
Qed.

Lemma py_get_json_wf d k : dict_wf d -> json_wf (py_get d k).
Proof using.
  intros Hd. unfold py_get. destruct (od_get k d) eqn:E; [by eapply dict_wf_get|constructor].
Qed.

Lemma naive_nonempty t : isoformat_naive t <> "".
Proof using.
  unfold isoformat_naive. assert (6 < String.length (isoformat t))%nat as Hl.
  { unfold isoformat. cbv zeta. destruct (civil_of_days _) as [[y m] d].
    rewrite !string_length_app. cbn. lia. }
  destruct (isoformat t) as [|a s]; [cbn in Hl; lia|]. cbn [String.length] in *.
  destruct (S (String.length s) - 6)%nat eqn:E; [lia|]. done.
Qed.

(** Dictionaries with the same keys and the same values have the same signed text. *)
Lemma same_dict (d d' : jdict) :
  Forall2 (fun p q => p.1 = q.1 /\ same_json p.2 q.2) d d' -> same_json (JObj d) (JObj d').
Proof using.
  intros Hd. unfold same_json. cbn [json_norm]. do 2 f_equal.
  induction Hd as [|[k v] [k' v'] d d' [Hk Hv] _ IH]; [done|]. cbn in *. by rewrite Hk, Hv, IH.
Qed.

Lemma transports_eq ds :
  py_sorted id (remove_dups (omap (fun e : jdict => match od_get "transport" e with
    | Some (JStr t) => Some t | _ => None end) ds)) = transports ds.
Proof using.
  unfold transports. do 2 f_equal. induction ds as [|d ds IH]; [done|].
  change (omap ?f (?a :: ?r)) with (match f a with Some y => y :: omap f r | None => omap f r end).
  rewrite IH. unfold py_get. by destruct (od_get "transport" d) as [[]|].
Qed.

(** A record with these endpoints carries what was signed. *)
Lemma signed_text pk (endpoints : list jdict) reachability_class relay_capable version status p :
  same_endpoints (JArr (JObj <$> dpnt_endpoints p)) (JArr (JObj <$> endpoints)) ->
  dpnt_pk_physical_node p = pk -> dpnt_reachability_class p = reachability_class ->
  dpnt_relay_capable p = relay_capable -> dpnt_hole_punch_capable p = false ->
  dpnt_protocol_version p = version -> dpnt_feature_flags p = [] -> dpnt_status p = status ->
  CommonJson.canonical_payload_hex
    (dpnt_signed_payload (sha512_hexdigest ("dpnt|" +:+ sha512_hexdigest pk)) p)
  = CommonJson.canonical_payload_hex
    (descriptor_payload pk endpoints reachability_class relay_capable false version [] status).
Proof using.
  intros He <- <- <- Hh <- Hf <-. unfold CommonJson.canonical_payload_hex, CommonJson.compact_json_bytes,
    CommonJson.compact_json_text. f_equal. apply same_dumps, same_dict.
  unfold dpnt_signed_payload, descriptor_payload. cbv zeta. rewrite transports_eq, Hh, Hf.
  change (py_sorted id (remove_dups (omap (fun endpoint => string_or_none (py_get endpoint "transport")) ?l)))
    with (transports l).
  rewrite (same_transports _ _ He). repeat constructor. by apply same_endpoints_json.
Qed.

Definition verifies (pk : string) (endpoints : list jdict) (reachability_class : string)
    (relay_capable : bool) (protocol_version status signature : string) : Prop :=
  dilithium_verify_hex (CommonJson.canonical_payload_hex
    (descriptor_payload pk endpoints reachability_class relay_capable false protocol_version [] status))
    signature pk = Ok true.

(** What a descriptor has to have for its record to be readable. *)
Record publishable (pk reachability_class protocol_version status signature : string)
    (endpoints : list jdict) : Prop := {
  pb_text : Forall (fun s => s <> "" /\ unicode s)
    [pk; reachability_class; protocol_version; status; signature];
  pb_endpoints : Endpoints.canonical_endpoint_list (JArr (JObj <$> endpoints)) <> [];
}.

Lemma transports_unicode ds : Forall (fun d => dict_wf d) ds -> Forall unicode (transports ds).
Proof using.
  intros Hds. unfold transports. apply list.Forall_forall. intros s Hs.
  rewrite elem_of_py_sorted, elem_of_remove_dups in Hs. apply list_elem_of_omap in Hs as (d & Hd & Hs).
  rewrite Forall_forall in Hds. specialize (Hds d Hd). unfold py_get in Hs.
  destruct (od_get "transport" d) as [v|] eqn:E; [|done]. apply dict_wf_get in E; [|done].
  cbn in Hs. destruct v; try done. injection Hs as <-. by inversion_clear E.
Qed.

Lemma dpnt_dict_wf p :
  Forall unicode [dpnt_pk_physical_node p; dpnt_reachability_class p; dpnt_protocol_version p;
    dpnt_last_validated_at p; dpnt_status p; dpnt_signature p] ->
  Forall (fun d => dict_wf d) (dpnt_endpoints p) -> Forall unicode (dpnt_transport_methods p) ->
  dpnt_feature_flags p = [] -> dpnt_pow_nonce p = None -> dict_wf (dpnt_dict p).
Proof using.
  intros Hs He Ht Hf Hn. rewrite !Forall_cons in Hs. destruct_and! Hs.
  unfold dpnt_dict. rewrite Hf, Hn. json_wf_tac; try done; try (by repeat constructor).
  - by apply Forall_fmap.
  - apply Wf_arr, Forall_fmap. eapply Forall_impl; [exact Ht|]. intros s Hsu. by constructor.
Qed.

(** What the node publishes of another one passes the check of those who look it up. *)
Lemma described_published db id n notes endpoints signature reachability_class relay_capable version status t :
  get_remote_physical_node_by_id db id = Some n ->
  CommonJson.load_json_object (rn_notes_json n) = notes ->
  signed_notes notes (JArr (JObj <$> endpoints)) signature reachability_class relay_capable version status ->
  rn_last_validated_at n = Some t -> sha512_hex (rn_public_key n) = id ->
  publishable (rn_public_key n) reachability_class version status signature endpoints ->
  verifies (rn_public_key n) endpoints reachability_class relay_capable version status signature ->
  exists record_json p,
    build_dpnt_publish_request_for_remote_physical_node db id = Some (id, record_json) /\
    _parse_valid_dpnt_record id (JStr record_json) = Ok (Some p) /\
    dpnt_pk_physical_node p = rn_public_key n /\
    same_endpoints (JArr (JObj <$> dpnt_endpoints p)) (JArr (JObj <$> endpoints)).
Proof.
  intros Hn Hnotes [Hwf Hend Hsig Hreach Hrelay Hhole Hver Hstat Hflags] Hval Hid [Htext Hne] Hv.
  rewrite !Forall_cons in Htext. destruct Htext as ((Hp1 & Hp2) & (Hr1 & Hr2) & (Hv1 & Hv2) & (Hs1 & Hs2) & (Hg1 & Hg2) & _).
  unfold build_dpnt_publish_request_for_remote_physical_node. rewrite Hn, Hnotes.
  change (default JNull (od_get "advertised_endpoints" notes)) with (py_get notes "advertised_endpoints").
  set (V := py_get notes "advertised_endpoints") in *.
  assert (Forall (fun d => dict_wf d) (Endpoints.canonical_endpoint_list V)) as Hcw
    by (by apply canonical_wf, py_get_json_wf).
  assert (Endpoints.canonical_endpoint_list V <> []) as HV.
  { intros E. unfold same_endpoints in Hend. rewrite E in Hend.
    by destruct (Endpoints.canonical_endpoint_list (JArr (JObj <$> endpoints))). }
  assert (forall k s, od_get k notes = Some (JStr s) -> s <> "" -> note_text notes k = Some s) as Htx.
  { intros k s Hk Hs. unfold note_text. by rewrite Hk, (proj2 (str_truthy_spec s) Hs). }
  rewrite (Htx _ _ Hsig Hg1), (Htx _ _ Hreach Hr1), (Htx _ _ Hver Hv1), (Htx _ _ Hstat Hs1), Hval.
  unfold note_bool. rewrite Hrelay, Hhole, Hflags. cbn [from_option].
  rewrite transports_eq. remember (Endpoints.canonical_endpoint_list V) as C eqn:HC.
  destruct C as [|c C]; [done|]. set (p0 := MkDpnt _ _ _ _ _ _ _ _ _ _ _ _).
  apply find_row_Some in Hn as [_ Hrid].
  assert (sha512_hex (rn_public_key n) = rn_id n) as Hhash by congruence.
  exists (serialize_record (Dpnt p0)), (p0 <| dpnt_endpoints := map norm_dict (c :: C) |>).
  split; [by rewrite Hrid|].
  assert (dict_wf (payload_dict (Dpnt p0))) as Hpd.
  { apply dpnt_dict_wf; [|exact Hcw|exact (transports_unicode _ Hcw)|done..].
    repeat constructor; first [done|apply isoformat_naive_unicode]. }
  assert (parse_record "dpnt" (serialize_record (Dpnt p0)) = Ok (payload_norm (Dpnt p0))) as Hparse.
  { apply parse_serialized; [done| |done]. cbn. repeat constructor; first [done|apply naive_nonempty]. }
  assert (same_endpoints (JArr (JObj <$> map norm_dict (c :: C))) (JArr (JObj <$> endpoints))) as Hsame.
  { rewrite <- Hend. fold V. rewrite <- (same_endpoints_canonical V), <- HC.
    rewrite <- (same_endpoints_norm (JArr (JObj <$> c :: C))).
    - cbn [json_norm]. f_equiv. f_equal.
      change (map ?f ?l) with (f <$> l). by rewrite <- !list_fmap_compose.
    - apply Wf_arr. by apply Forall_fmap. }
  split; [|done]. unfold _parse_valid_dpnt_record. cbn [truthy_str].
  rewrite (proj2 (str_truthy_spec (serialize_record (Dpnt p0)))) by (by apply dumps_nonempty).
  rewrite Hparse. cbn [payload_norm].
  set (p := p0 <| dpnt_endpoints := map norm_dict (c :: C) |>) in *.
  change (p0 <| dpnt_endpoints := map norm_dict (dpnt_endpoints p0) |>) with p.
  rewrite bool_decide_false by (intros Hx; apply Hx; exact Hid).
  assert (build_key "dpnt" id = Ok (sha512_hexdigest ("dpnt|" +:+ sha512_hexdigest (rn_public_key n)))) as ->.
  { unfold build_key. rewrite <- Hid. unfold sha512_hex. by rewrite sha512_hexdigest_truthy. }
  cbn [mbind res_bind]. unfold verify_dilithium_payload_signature.
  rewrite (signed_text (rn_public_key n) endpoints reachability_class relay_capable version status p) by done.
  change (dpnt_signature p) with signature. change (dpnt_pk_physical_node p) with (rn_public_key n).
  by rewrite Hv.
Qed.
End descriptors.
(** ** Descriptors on their way *)

Section stored.
Context `{FloatText}.

(** SQLite can store the port and the priority. *)
Definition storable (endpoint : jdict) : Prop :=
  check_integer (Some (Endpoints.endpoint_int endpoint "port")) = Ok tt /\
  check_integer (Some (endpoint_priority endpoint 0)) = Ok tt.

Lemma storable_norm d : storable (norm_values d) <-> storable d.
Proof using.
  unfold storable, Endpoints.endpoint_int, endpoint_priority. rewrite !norm_values_get.
  assert (forall v, json_pyint (json_norm v) = json_pyint v) as Hn by apply json_pyint_norm.
  destruct (od_get "port" d) as [v|], (od_get "priority" d) as [w|]; cbn; by rewrite ?Hn.
Qed.

Lemma upsert_storable changed fresh node_id stored endpoints : forall acc,
  Forall storable endpoints -> exists rows, upsert_endpoints changed fresh node_id stored acc endpoints = Ok rows.
Proof using.
  induction endpoints as [|e endpoints IH]; intros acc He; [by eexists|].
  apply Forall_cons in He as [[Hp Hq] He]. cbn [upsert_endpoints]. rewrite Hp, Hq. cbn [mbind res_bind].
  case_match; by apply IH.
Qed.

Lemma upserted db now d status endpoints :
  Forall storable endpoints ->
  let row := validated_node now d status false (get_remote_physical_node_by_id db (nd_node_id d)) in
  exists db', upsert_remote_physical_node db now d status endpoints false = Ok (row, db') /\
    get_remote_physical_node_by_id db' (nd_node_id d) = Some row.
Proof using.
  intros He row. unfold upsert_remote_physical_node. cbv zeta.
  destruct (upsert_storable (reached now) (fresh_endpoint (nd_node_id d) true (Some now)) (nd_node_id d)
    (db_endpoints db) endpoints (db_endpoints db) He) as [rows ->].
  eexists. split; [reflexivity|]. unfold get_remote_physical_node_by_id at 1. cbn [db_remote_nodes set_field].
  rewrite <- (validated_node_id now d status false db) at 1. apply find_put_row.
Qed.

Lemma upserted_discovered db now d endpoints status :
  Forall storable endpoints ->
  let row := discovered_node now d (if bool_decide (status = "active") then "discovered" else status)
    (get_remote_physical_node_by_id db (nd_node_id d)) in
  exists db', upsert_discovered_remote_physical_node db now d endpoints status = Ok (row, db') /\
    get_remote_physical_node_by_id db' (nd_node_id d) = Some row.
Proof using.
  intros He row. unfold upsert_discovered_remote_physical_node. cbv zeta.
  destruct (upsert_storable (mentioned (was_validated (get_remote_physical_node_by_id db (nd_node_id d))))
    (fresh_endpoint (nd_node_id d) false None) (nd_node_id d) (db_endpoints db) endpoints (db_endpoints db) He)
    as [rows ->].
  eexists. split; [reflexivity|]. unfold get_remote_physical_node_by_id at 1. cbn [db_remote_nodes set_field].
  rewrite <- (discovered_node_id now d (if bool_decide (status = "active") then "discovered" else status) db) at 1.
  apply find_put_row.
Qed.

(** The notes of a node after an upsert: those it had, overwritten. *)
Definition existing_notes (stored : option RemotePhysicalNodeIdentity) : jdict :=
  from_option (fun n => CommonJson.load_json_object (rn_notes_json n)) [] stored.

Lemma stored_notes now d status stored notes :
  nd_notes_json d = Some (dumps_in_order (JObj notes)) -> dict_wf notes -> dict_wf (existing_notes stored) ->
  CommonJson.load_json_object (rn_notes_json (validated_node now d status false stored)) = 
    match stored with None => notes | Some _ => merged (existing_notes stored) notes end.
Proof using.
  intros Hd Hn He. unfold validated_node. destruct stored as [n|]; [|cbn; rewrite Hd; by apply load_in_order].
  assert (rn_notes_json (describe now d n) = _merge_notes_json (rn_notes_json n) (nd_notes_json d)) as Hj by done.
  assert (CommonJson.load_json_object (_merge_notes_json (rn_notes_json n) (nd_notes_json d))
    = merged (existing_notes (Some n)) notes) as Hm.
  { unfold _merge_notes_json. rewrite Hd, load_in_order by done.
    change (foldl _ (CommonJson.load_json_object (rn_notes_json n)) notes) with (merged (existing_notes (Some n)) notes).
    destruct (merged (existing_notes (Some n)) notes) eqn:E; [done|]. rewrite load_in_order; [done|].
    rewrite <- E. by apply merged_wf. }
  by case_bool_decide.
Qed.
End stored.
(** The same dictionary, as the reader makes it of what was written. *)
Definition reads_as `{FloatText} (d d' : jdict) : Prop := dict_wf d /\ norm_dict d = norm_dict d'.

Section reading.
Context `{FloatText} `{OpenSSL}.

Lemma reads_get d d' k : reads_as d d' -> dict_wf d' -> json_norm <$> od_get k d = json_norm <$> od_get k d'.
Proof using.
  intros [Hd Heq] Hd'. rewrite <- !norm_dict_get by (by apply dict_wf_od). by rewrite Heq.
Qed.

Lemma reads_str d d' k s :
  reads_as d d' -> dict_wf d' -> od_get k d' = Some (JStr s) -> od_get k d = Some (JStr s).
Proof using.
  intros Hr Hd' Hg. pose proof (reads_get d d' k Hr Hd') as E. rewrite Hg in E.
  destruct (od_get k d) as [[]|]; cbn in E; try done; by injection E as ->.
Qed.

Lemma reads_bool d d' k b :
  reads_as d d' -> dict_wf d' -> od_get k d' = Some (JBool b) -> od_get k d = Some (JBool b).
Proof using.
  intros Hr Hd' Hg. pose proof (reads_get d d' k Hr Hd') as E. rewrite Hg in E.
  destruct (od_get k d) as [[]|]; cbn in E; try done; by injection E as ->.
Qed.

Lemma reads_norm d d' k : reads_as d d' -> dict_wf d' -> json_norm (py_get d k) = json_norm (py_get d' k).
Proof using.
  intros Hr Hd'. pose proof (reads_get d d' k Hr Hd') as E. unfold py_get.
  destruct (od_get k d), (od_get k d'); cbn in E |- *; try done; by injection E.
Qed.

Lemma text_unicode d k s : dict_wf d -> od_get k d = Some (JStr s) -> unicode s.
Proof using. intros Hd Hg. pose proof (dict_wf_get _ _ _ Hd Hg) as Hw. by inversion_clear Hw. Qed.

(** Values that are read have the endpoints that were written. *)
Lemma reads_endpoints d d' k :
  reads_as d d' -> dict_wf d' ->
  norm_values <$> Endpoints.normalize_endpoint_list (py_get d k)
  = norm_values <$> Endpoints.normalize_endpoint_list (py_get d' k) /\
  same_endpoints (py_get d k) (py_get d' k).
Proof using.
  intros Hr Hd'. pose proof (reads_norm d d' k Hr Hd') as E. destruct Hr as [Hd _].
  split; [by rewrite <- !normalize_list_norm, E by (by apply py_get_json_wf)|].
  rewrite <- (same_endpoints_norm (py_get d k)), <- (same_endpoints_norm (py_get d' k)), E
    by (by apply py_get_json_wf). done.
Qed.

Lemma storable_read ds ds' :
  norm_values <$> ds = norm_values <$> ds' -> Forall storable ds' -> Forall storable ds.
Proof using.
  intros E Hs. assert (Forall storable (norm_values <$> ds)) as Hn.
  { rewrite E. apply Forall_fmap. eapply Forall_impl; [exact Hs|]. intros d. apply storable_norm. }
  rewrite list.Forall_fmap in Hn. eapply Forall_impl; [exact Hn|]. intros d. apply storable_norm.
Qed.

(** Notes that are merged still carry the descriptor. *)
Lemma merged_signed existing notes endpoints signature reachability_class relay_capable version status :
  signed_notes notes endpoints signature reachability_class relay_capable version status ->
  dict_wf existing -> note_flags existing = [] -> Endpoints.canonical_endpoint_list endpoints <> [] ->
  Forall (fun s => s <> "") [signature; reachability_class; version; status] ->
  signed_notes (merged existing notes) endpoints signature reachability_class relay_capable version status.
Proof using.
  intros [Hwf Hend Hsig Hreach Hrelay Hhole Hver Hstat Hflags] He Hfl Hne Hs.
  rewrite !Forall_cons in Hs. destruct_and! Hs.
  assert (od_wf notes) as Hod by (by apply dict_wf_od).
  assert (forall k v, od_get k notes = Some v -> is_note v = true -> od_get k (merged existing notes) = Some v) as Hget.
  { intros k v Hk Hv. by rewrite merged_get, Hk, Hv by done. }
  split; try (by apply Hget; [done|]; try done; by apply str_truthy_spec).
  - by apply merged_wf.
  - unfold py_get in Hend |- *. destruct (od_get "advertised_endpoints" notes) as [v|] eqn:E; cbn in Hend.
    + rewrite (Hget _ _ E); [done|]. destruct v as [| | | | |[|]|]; try done.
      all: exfalso; apply Hne; apply (f_equal length) in Hend; rewrite !length_fmap in Hend; cbn in Hend.
      all: by apply nil_length_inv.
    + exfalso. apply Hne. apply (f_equal length) in Hend. rewrite !length_fmap in Hend. cbn in Hend.
      by apply nil_length_inv.
  - unfold note_flags in *. rewrite merged_get by done.
    destruct (od_get "dpnt_feature_flags" notes) as [v|]; [by destruct (is_note v)|done].
Qed.

(** The notes a node makes of an answer. *)
Lemma response_signed payload id pk algorithm version status endpoints reachability_class relay_capable
    signature :
  reads_as payload (response_fields id pk algorithm version status endpoints reachability_class
    relay_capable false [] signature) ->
  dict_wf (response_fields id pk algorithm version status endpoints reachability_class relay_capable
    false [] signature) ->
  signature <> "" ->
  signed_notes (response_notes payload) (JArr (JObj <$> endpoints)) signature reachability_class
    relay_capable version status.
Proof using.
  intros Hr Hf Hs.
  assert (forall k s, od_get k (response_fields id pk algorithm version status endpoints reachability_class
    relay_capable false [] signature) = Some (JStr s) -> od_get k payload = Some (JStr s)) as Hstr
    by (intros k s; by apply reads_str).
  pose proof (reads_bool _ _ "relay_capable" relay_capable Hr Hf eq_refl) as Hrelay.
  pose proof (reads_bool _ _ "hole_punch_capable" false Hr Hf eq_refl) as Hhole.
  pose proof (reads_endpoints _ _ "endpoints" Hr Hf) as [_ Hend].
  pose proof (reads_norm _ _ "feature_flags" Hr Hf) as Hflags.
  assert (dict_wf payload) as Hwf by apply Hr.
  assert (py_get payload "dpnt_signature" = JStr signature) as Hsig
    by (unfold py_get; by rewrite (Hstr "dpnt_signature" signature eq_refl)).
  unfold response_notes, py_get_default. rewrite Hsig, (Hstr "status" status eq_refl).
  cbn [default from_option truthy_str]. rewrite (proj2 (str_truthy_spec signature) Hs).
  unfold dpnt_notes. split.
  - json_wf_tac.
    all: try (by apply py_get_json_wf).
    all: try (by apply (text_unicode payload "status"); [done|apply Hstr]).
    all: try (by apply (text_unicode payload "dpnt_signature"); [done|apply Hstr]).
    pose proof (py_get_json_wf payload "feature_flags" Hwf) as Hl.
    destruct (py_get payload "feature_flags"); try done; by apply Wf_arr.
  - exact Hend.
  - done.
  - cbn. unfold py_get. by rewrite (Hstr "reachability_class" reachability_class eq_refl).
  - cbn. unfold py_get. by rewrite Hrelay.
  - cbn. unfold py_get. by rewrite Hhole.
  - cbn. unfold py_get. by rewrite (Hstr "protocol_version" version eq_refl).
  - done.
  - cbn in Hflags |- *. by destruct (py_get payload "feature_flags") as [| | | | |[|]|].
Qed.
End reading.
(** ** What the node publishes of another one *)

Section published.
Context `{FloatText} `{Entropy} {uuids : UuidLaws} `{OpenSSL} `{AesGcmSiv} `{EngineIO} `{ContainerText}.

(** A node with a key pair and endpoints it can announce. *)
Record describes_itself (config : LocalNodeConfig) (local_relay_endpoint : option jdict)
    (local : LocalPhysicalNodeIdentity) : Prop := {
  di_id : ln_id local = sha512_hex (ln_public_key local);
  di_pair : signature_pair (ln_private_key_encrypted local) (ln_public_key local);
  di_key : ln_public_key local <> "" /\ unicode (ln_public_key local);
  di_status : ln_status local <> "" /\ unicode (ln_status local);
  di_algorithm : unicode (ln_key_algorithm local);
  di_endpoints : Forall (fun d => dict_wf d) (own_endpoints config local_relay_endpoint);
  di_announced : Endpoints.normalize_endpoint_list
    (JArr (JObj <$> own_endpoints config local_relay_endpoint)) <> [];
  di_storable : Forall storable (Endpoints.normalize_endpoint_list
    (JArr (JObj <$> own_endpoints config local_relay_endpoint)));
}.

Lemma marked db now id transport host port n :
  get_remote_physical_node_by_id db id = Some n -> check_integer (Some port) = Ok tt ->
  let n' := n <| rn_status := "active" |> <| rn_last_seen_at := Some now |> <| rn_last_validated_at := Some now |> in
  exists db', mark_remote_physical_node_validated db now id transport host port = Ok (Some n', db') /\
    get_remote_physical_node_by_id db' id = Some n'.
Proof using.
  intros Hn Hp n'. unfold mark_remote_physical_node_validated. rewrite Hn, Hp. cbn [mbind res_bind].
  eexists. split; [reflexivity|]. unfold get_remote_physical_node_by_id in Hn |- *.
  apply find_row_Some in Hn as [_ <-]. apply (find_put_row rn_id n').
Qed.

Lemma descriptor_signed private_key public_key endpoints reachability_class relay_capable version status :
  signature_pair private_key public_key ->
  exists signature, sign_dpnt_descriptor public_key endpoints reachability_class relay_capable false version []
      status private_key = Ok signature /\ signature <> "" /\ unicode signature /\
    verifies public_key endpoints reachability_class relay_capable version status signature.
Proof using.
  intros Hpair. unfold sign_dpnt_descriptor, verifies, CommonJson.canonical_payload_hex.
  set (text := CommonJson.compact_json_bytes _). destruct (Hpair text) as (signature & Hs & Hne & Hv).
  exists (bytes_to_hex signature). unfold dilithium_sign_hex, dilithium_verify_hex, hex_to_bytes.
  unfold bytes_to_hex at 1 3 4. rewrite !fromhex_bytes_hex. cbn [mbind res_bind]. rewrite Hs, Hv.
  split; [done|]. split; [by apply str_truthy_spec, hex_text_truthy|]. split; [apply hex_text_unicode|done].
Qed.

(** The requester is stored first; the answer does not depend on it. *)
Lemma requester_stored envelope (a : Services) :
  Forall storable (Endpoints.normalize_endpoint_list (py_get (as_payload_dict envelope) "requester_endpoints")) ->
  exists db, _persist_requester_if_present envelope a = (Ok tt, a <| sv_database := db |>).
Proof using.
  intros Hs. assert (exists db, (Ok tt, a) = (@Ok unit tt, a <| sv_database := db |>)) as Hsame
    by (exists (sv_database a); by destruct a).
  unfold _persist_requester_if_present. cbv zeta.
  destruct (truthy_str _) as [id|]; [|exact Hsame]. destruct (truthy_str (py_get _ "requester_public_key")) as [pk|]; [|exact Hsame].
  destruct (Endpoints.normalize_endpoint_list _) as [|e es]; [exact Hsame|].
  unfold on_database, mbind, st_bind. match goal with |- context [upsert_discovered_remote_physical_node ?db ?now ?d _ ?st] =>
    destruct (upserted_discovered db now d (e :: es) st Hs) as (db' & -> & _) end.
  by exists db'.
Qed.

Lemma response_fields_wf id pk algorithm version status endpoints reachability_class relay_capable signature :
  Forall unicode [id; pk; algorithm; version; status; reachability_class; signature] ->
  Forall (fun d => dict_wf d) endpoints ->
  dict_wf (response_fields id pk algorithm version status endpoints reachability_class relay_capable
    false [] signature).
Proof using.
  rewrite !Forall_cons. intros Hu He. destruct_and! Hu. unfold response_fields.
  json_wf_tac; try done; try (by repeat constructor). by apply Forall_fmap.
Qed.

Lemma info_header_wf header ty message_id :
  dict_wf header -> unicode ty -> unicode message_id -> dict_wf (info_response_header header ty (JStr message_id)).
Proof using.
  intros Hh Ht Hm. unfold info_response_header. json_wf_tac; try done; try (by apply py_get_json_wf).
  unfold py_get_default. destruct (od_get "version" header) eqn:E; [by eapply dict_wf_get|constructor].
Qed.

(** The answer of a node to a request. *)
Lemma request_answered_info config ep path request context (a : Services) local :
  pe_message_type request = Some "PHYSICAL_NODE_INFO_REQUEST" -> dict_wf (pe_header request) ->
  Forall storable (Endpoints.normalize_endpoint_list (py_get (as_payload_dict request) "requester_endpoints")) ->
  let version := py_str (py_get_default (pe_header request) "version" (JInt 1)) in
  unicode version -> get_local_physical_node (sv_database a) = Some local ->
  describes_itself config ep local ->
  exists result header signature a',
    handle_info config ep path request context a = (Ok result, a') /\ pp_handled result = true /\
    let fields := response_fields (ln_id local) (ln_public_key local) (ln_key_algorithm local) version
      (ln_status local) (own_endpoints config ep) "direct" (can_act_as_physical_relay config) false [] signature in
    pp_response_payload result = Some (info_packet header fields) /\ dict_wf header /\ dict_wf fields /\
    py_get header "message_type" = JStr "PHYSICAL_NODE_INFO_RESPONSE" /\
    signature <> "" /\ unicode signature /\
    verifies (ln_public_key local) (own_endpoints config ep) "direct" (can_act_as_physical_relay config)
      version (ln_status local) signature.
Proof using uuids.
  intros Hty Hhw Hst version Hver Hlocal [Hid Hpair [Hk1 Hk2] [Hs1 Hs2] Halg Hew Hne Hsto].
  destruct (requester_stored request a Hst) as [db Hreq].
  destruct (descriptor_signed (ln_private_key_encrypted local) (ln_public_key local) (own_endpoints config ep)
    "direct" (can_act_as_physical_relay config) version (ln_status local) Hpair) as (signature & Hsign & Hg1 & Hg2 & Hv).
  unfold handle_info. rewrite Hty, bool_decide_true by done. unfold _handle_info_request.
  erewrite st_bind_run by reflexivity. rewrite (st_bind_run _ _ _ _ _ Hreq). rewrite Hlocal.
  destruct (own_endpoints config ep) as [|e es] eqn:Hown; [done|]. fold version.
  unfold lift at 1. rewrite (st_bind_run _ _ _ signature _) by (by rewrite Hsign).
  erewrite st_bind_run by reflexivity.
  eexists _, _, signature, _. split; [reflexivity|]. split; [done|]. cbv zeta. split; [reflexivity|].
  split; [apply info_header_wf; [done|by apply ascii_unicode|apply ascii_unicode, uuid4_ascii]|].
  split; [|done]. apply response_fields_wf; [|done]. repeat constructor; try done.
  - rewrite Hid. apply sha512_unicode.
  - by apply ascii_unicode.
Qed.
End published.
Section node_info_claims.
Context `{FloatText} `{Entropy} {uuids : UuidLaws} `{OpenSSL} `{AesGcmSiv} `{EngineIO} `{ContainerText}.

Lemma canonical_nonempty l :
  Endpoints.normalize_endpoint_list l <> [] -> Endpoints.canonical_endpoint_list l <> [].
Proof using.
  intros Hl E. apply Hl, Permutation_nil_r. rewrite <- E. unfold Endpoints.canonical_endpoint_list.
  by rewrite py_sorted_Permutation.
Qed.

(** The other node stores the answer. *)
Lemma response_stored config ep path envelope context (b : Services) id pk algorithm version status
    endpoints reachability_class relay_capable signature :
  let fields := response_fields id pk algorithm version status endpoints reachability_class
    relay_capable false [] signature in
  pe_message_type envelope = Some "PHYSICAL_NODE_INFO_RESPONSE" ->
  reads_as (as_payload_dict envelope) fields -> dict_wf fields -> signature <> "" ->
  Forall (fun s => s <> "") [signature; reachability_class; version; status] ->
  Endpoints.normalize_endpoint_list (JArr (JObj <$> endpoints)) <> [] ->
  Forall storable (Endpoints.normalize_endpoint_list (JArr (JObj <$> endpoints))) ->
  let stored := get_remote_physical_node_by_id (sv_database b) id in
  dict_wf (existing_notes stored) -> note_flags (existing_notes stored) = [] ->
  exists result b' row, handle_info config ep path envelope context b = (Ok result, b') /\
    pp_handled result = true /\ get_remote_physical_node_by_id (sv_database b') id = Some row /\
    rn_public_key row = pk /\
    signed_notes (CommonJson.load_json_object (rn_notes_json row)) (JArr (JObj <$> endpoints)) signature
      reachability_class relay_capable version status.
Proof using.
  intros fields Hty Hr Hf Hsig Htext Hne Hst stored He Hfl.
  destruct (reads_endpoints _ _ "endpoints" Hr Hf) as [Hnorm _]. change (py_get fields "endpoints") with (JArr (JObj <$> endpoints)) in Hnorm.
  pose proof (response_signed _ _ _ _ _ _ _ _ _ _ Hr Hf Hsig) as Hsn.
  unfold handle_info. rewrite Hty, bool_decide_false, bool_decide_true by done.
  unfold _handle_info_response. cbv zeta.
  assert (py_get (as_payload_dict envelope) "physical_node_id" = JStr id) as ->
    by (unfold py_get; by rewrite (reads_str _ _ "physical_node_id" id Hr Hf eq_refl)).
  assert (py_get (as_payload_dict envelope) "public_key" = JStr pk) as ->
    by (unfold py_get; by rewrite (reads_str _ _ "public_key" pk Hr Hf eq_refl)).
  assert (Forall storable (Endpoints.normalize_endpoint_list (py_get (as_payload_dict envelope) "endpoints"))) as Hst'
    by (by eapply storable_read).
  destruct (Endpoints.normalize_endpoint_list (py_get _ "endpoints")) as [|e es] eqn:Hees.
  { exfalso. apply Hne. by apply fmap_nil_inv in Hnorm || (symmetry in Hnorm; by apply fmap_nil_inv in Hnorm). }
  unfold on_database, mbind, st_bind.
  match goal with |- context [upsert_remote_physical_node ?db ?now ?d ?st _ _] =>
    destruct (upserted db now d st (e :: es) Hst') as (db' & -> & Hg); set (d0 := d) in * end.
  eexists _, _, _. split; [reflexivity|]. split; [done|]. split; [exact Hg|].
  change (nd_node_id d0) with id. fold stored. split.
  { unfold validated_node. destruct stored; [by case_bool_decide|done]. }
  rewrite (stored_notes (sv_now b) d0 "discovered" stored (response_notes (as_payload_dict envelope)) eq_refl); [|apply Hsn|done].
  destruct stored; [|exact Hsn]. apply merged_signed; try done. by apply canonical_nonempty.
Qed.

(** C9: the way of a node's descriptor into the DHT. Asked for it, a node answers with its
    endpoints, its key and a signature. Another node that reads the answer, whatever the
    order of its keys, stores them, and once it has validated the endpoints it publishes a record
    that every node which looks the first one up accepts: under the id of the node, with
    its key, the endpoints it announced and a signature that verifies, although the record
    passed through another node's notes. Only feature flags noted before stay, and would spoil it. *)
Theorem descriptor_published config ep path request context (a : Services) local :
  let version := py_str (py_get_default (pe_header request) "version" (JInt 1)) in
  let id := ln_id local in
  pe_message_type request = Some "PHYSICAL_NODE_INFO_REQUEST" -> dict_wf (pe_header request) ->
  Forall storable (Endpoints.normalize_endpoint_list (py_get (as_payload_dict request) "requester_endpoints")) ->
  unicode version -> version <> "" -> get_local_physical_node (sv_database a) = Some local ->
  describes_itself config ep local ->
  exists result packet header fields a',
  handle_info config ep path request context a = (Ok result, a') /\
  pp_response_payload result = Some packet /\
  json_loads packet = Some (JObj [("header", JObj header); ("payload", JObj fields)]) /\
  dict_wf fields /\
  forall config_b ep_b path_b envelope context_b (b : Services),
  pe_message_type envelope = Some "PHYSICAL_NODE_INFO_RESPONSE" -> reads_as (as_payload_dict envelope) fields ->
  dict_wf (existing_notes (get_remote_physical_node_by_id (sv_database b) id)) ->
  note_flags (existing_notes (get_remote_physical_node_by_id (sv_database b) id)) = [] ->
  exists stored b', handle_info config_b ep_b path_b envelope context_b b = (Ok stored, b') /\
  pp_handled stored = true /\
  forall now transport host port, check_integer (Some port) = Ok tt ->
  exists row db record_json record,
  mark_remote_physical_node_validated (sv_database b') now id transport host port = Ok (Some row, db) /\
  build_dpnt_publish_request_for_remote_physical_node db id = Some (id, record_json) /\
  _parse_valid_dpnt_record id (JStr record_json) = Ok (Some record) /\
  dpnt_pk_physical_node record = ln_public_key local /\
  same_endpoints (JArr (JObj <$> dpnt_endpoints record)) (JArr (JObj <$> own_endpoints config ep)).
Proof using uuids.
  intros version id Hty Hhw Hst Hver Hvne Hlocal Hself.
  destruct (request_answered_info config ep path request context a local Hty Hhw Hst Hver Hlocal Hself)
    as (result & header & signature & a' & Hrun & _ & Hpkt & Hhwf & Hfwf & _ & Hg1 & Hg2 & Hv).
  destruct Hself as [Hid _ [Hk1 Hk2] [Hs1 Hs2] _ _ Hne Hsto].
  eexists result, _, header, _, a'. split; [exact Hrun|]. split; [exact Hpkt|]. split.
  { apply json_loads_in_order. json_wf_tac. }
  split; [exact Hfwf|]. intros config_b ep_b path_b envelope context_b b Hty2 Hr He Hfl.
  destruct (response_stored config_b ep_b path_b envelope context_b b id _ _ _ _ _ _ _ signature Hty2 Hr Hfwf Hg1)
    as (stored & b' & row & Hrun2 & Hh & Hrow & Hpk & Hsn); try done; [by repeat constructor|].
  exists stored, b'. split; [done|]. split; [done|]. intros now transport host port Hp.
  destruct (marked _ now id transport host port row Hrow Hp) as (db & Hm & Hrow').
  set (row' := row <| rn_status := "active" |> <| rn_last_seen_at := Some now |> <| rn_last_validated_at := Some now |>) in *.
  destruct (described_published db id row' (CommonJson.load_json_object (rn_notes_json row))
    (own_endpoints config ep) signature "direct" (can_act_as_physical_relay config) version (ln_status local) now)
    as (record_json & record & Hpub & Hparse & Hkey & Hsame); try done.
  - change (rn_public_key row') with (rn_public_key row). by rewrite Hpk.
  - change (rn_public_key row') with (rn_public_key row). rewrite Hpk. split; [|by apply canonical_nonempty].
    repeat constructor; try done. by apply ascii_unicode.
  - change (rn_public_key row') with (rn_public_key row). by rewrite Hpk.
  - exists row', db, record_json, record. split; [done|]. split; [done|]. split; [done|]. split; [|done].
    rewrite Hkey. exact Hpk.
Qed.

(** Who a message describes, and under which key. *)
Definition describes (envelope : ProtocolEnvelope) (node_id public_key : string) (endpoints : list jdict)
    : Prop :=
  let payload := as_payload_dict envelope in
  (pe_message_type envelope = Some "PHYSICAL_NODE_INFO_RESPONSE" /\
   py_get payload "physical_node_id" = JStr node_id /\ py_get payload "public_key" = JStr public_key /\
   Endpoints.normalize_endpoint_list (py_get payload "endpoints") = endpoints) \/
  (pe_message_type envelope = Some "PHYSICAL_NODE_INFO_REQUEST" /\
   truthy_str (py_get payload "requester_node_id") = Some node_id /\
   truthy_str (py_get payload "requester_public_key") = Some public_key /\
   Endpoints.normalize_endpoint_list (py_get payload "requester_endpoints") = endpoints).

Lemma request_database config ep envelope context (s : Services) :
  sv_database (_handle_info_request config ep envelope context s).2
  = sv_database (_persist_requester_if_present envelope s).2.
Proof using.
  unfold _handle_info_request. erewrite st_bind_run by reflexivity. unfold mbind, st_bind.
  destruct (_persist_requester_if_present envelope s) as [[[]|] s1]; [|done].
  destruct (get_local_physical_node _) as [local|]; [|done]. destruct (own_endpoints config ep); [done|].
  unfold lift. by destruct (sign_dpnt_descriptor _ _ _ _ _ _ _ _ _).
Qed.

(** What both upserts leave of a known node. *)
Definition keyed (d : NodeDescription) (known row : RemotePhysicalNodeIdentity) : Prop :=
  rn_public_key row = nd_public_key d /\ rn_last_validated_at row = rn_last_validated_at known /\
  (rn_status known = "active" -> rn_status row = "active").

Lemma validated_row now d status n : keyed d n (validated_node now d status false (Some n)).
Proof using. unfold keyed, validated_node. by case_bool_decide. Qed.

Lemma discovered_row now d status n : keyed d n (discovered_node now d status (Some n)).
Proof using. unfold keyed, discovered_node. by case_bool_decide. Qed.

(** C10: the key of a node can be replaced by anyone. A request or an answer that names a
    known node and some key, without session, signature or a key that hashes to the id, puts
    that key in place of the stored one; the node stays validated if it was. The only key the client
    then opens a session with this node under is the new one. *)
Theorem node_info_replaces_key config ep path envelope context (s : Services) node_id public_key endpoints
    known :
  describes envelope node_id public_key endpoints -> endpoints <> [] -> Forall storable endpoints ->
  get_remote_physical_node_by_id (sv_database s) node_id = Some known ->
  let s' := (handle_info config ep path envelope context s).2 in
  exists row, get_remote_physical_node_by_id (sv_database s') node_id = Some row /\
    rn_public_key row = public_key /\ rn_last_validated_at row = rn_last_validated_at known /\
    (rn_status known = "active" -> rn_status row = "active") /\
    forall key, known_key node_id key (sv_database s') <-> key = public_key.
Proof using.
  intros Hd Hne Hst Hknown s'.
  assert (exists row, get_remote_physical_node_by_id (sv_database s') node_id = Some row /\
    rn_public_key row = public_key /\ rn_last_validated_at row = rn_last_validated_at known /\
    (rn_status known = "active" -> rn_status row = "active")) as (row & Hrow & Hk & Hv & Ha).
  2: { exists row. repeat (split; [done|]). intros key. unfold known_key. by rewrite Hrow, Hk. }
  subst s'. unfold handle_info. destruct endpoints as [|e es]; [done|].
  destruct Hd as [(Hty & Hid & Hpk & Hend)|(Hty & Hid & Hpk & Hend)]; rewrite Hty.
  - rewrite bool_decide_false, bool_decide_true by done. unfold _handle_info_response. cbv zeta.
    rewrite Hid, Hpk, Hend. unfold on_database, mbind, st_bind.
    match goal with |- context [upsert_remote_physical_node ?db ?now ?d ?st _ _] =>
      destruct (upserted db now d st (e :: es) Hst) as (db' & -> & Hg) end.
    cbn [nd_node_id] in Hg. rewrite Hknown in Hg. eexists. split; [exact Hg|]. apply validated_row.
  - rewrite bool_decide_true, request_database by done. unfold _persist_requester_if_present. cbv zeta.
    rewrite Hid, Hpk, Hend. unfold on_database, mbind, st_bind.
    match goal with |- context [upsert_discovered_remote_physical_node ?db ?now ?d _ ?st] =>
      destruct (upserted_discovered db now d (e :: es) st Hst) as (db' & -> & Hg) end.
    cbn [nd_node_id] in Hg. rewrite Hknown in Hg. eexists. split; [exact Hg|]. apply discovered_row.
Qed.
End node_info_claims.
(** ** The exchange *)

(** [ORDER BY random()] returns the rows in some order. *)
Class ExchangeLaws `{ExchangeEnv} := {
  exchange_order_perm : forall n rows, exchange_order n rows ≡ₚ rows;
}.

Section exchange_claims.
Context `{FloatText} `{Entropy} `{OpenSSL} `{AesGcmSiv} `{EngineIO} `{ExchangeLaws}.

(** The record of a node, unless it is the local one or the one that asks. *)
Definition exported (db : Database) (local_id : string) (requester : option string)
    (n : RemotePhysicalNodeIdentity) : option jdict :=
  if bool_decide (rn_id n = local_id) || bool_decide (requester = Some (rn_id n)) then None
  else _build_exchange_record n (exchange_endpoints db (rn_id n)).

Lemma collect_records_spec db local_id requester max_records nodes : forall records,
  Z.of_nat (length records) < max_records ->
  collect_records db local_id requester max_records records nodes
  = take (Z.to_nat max_records) (records ++ omap (exported db local_id requester) nodes).
Proof using.
  induction nodes as [|n nodes IH]; intros records Hr.
  { cbn. rewrite app_nil_r, take_ge by lia. done. }
  cbn [collect_records]. cbv zeta.
  change (omap ?f (n :: nodes)) with (match f n with Some y => y :: omap f nodes | None => omap f nodes end).
  unfold exported at 1. destruct (_ || _); [by apply IH|].
  destruct (_build_exchange_record _ _) as [record|]; [|by apply IH].
  destruct (Z.leb_spec max_records (Z.of_nat (length (records ++ [record])))) as [Hm|Hm].
  - assert (Z.to_nat max_records = length (records ++ [record])) as ->
      by (rewrite length_app in *; cbn in *; lia).
    by rewrite (cons_middle record records (omap _ _)), app_assoc, take_app_length.
  - rewrite IH by done. by rewrite (cons_middle record records (omap _ _)), app_assoc.
Qed.

(** A node whose notes carry a descriptor is exported with it. *)
Lemma exported_descriptor n es notes endpoints signature reachability_class relay_capable version status :
  CommonJson.load_json_object (rn_notes_json n) = notes ->
  signed_notes notes endpoints signature reachability_class relay_capable version status ->
  Forall (fun s => s <> "") [signature; reachability_class; version; status] ->
  Endpoints.canonical_endpoint_list endpoints <> [] ->
  exists V last, _build_exchange_record n es = Some
    [("physical_node_id", JStr (rn_id n)); ("public_key", JStr (rn_public_key n));
     ("reachability_class", JStr reachability_class); ("relay_capable", JBool relay_capable);
     ("hole_punch_capable", JBool false); ("protocol_version", JStr version); ("status", JStr status);
     ("last_validated_at", last); ("dpnt_signature", JStr signature); ("feature_flags", JArr []);
     ("endpoints", JArr (JObj <$> V))] /\
    V <> [] /\ Forall (fun d => dict_wf d) V /\ same_endpoints (JArr (JObj <$> V)) endpoints /\ json_wf last.
Proof using.
  intros Hn [Hwf Hend Hsig Hreach Hrelay Hhole Hver Hstat Hflags] Hs Hne.
  rewrite !Forall_cons in Hs. destruct_and! Hs.
  assert (forall k s, od_get k notes = Some (JStr s) -> s <> "" -> _optional_string (py_get notes k) = Some s) as Htx.
  { intros k s Hk Hks. unfold py_get, _optional_string. rewrite Hk. cbn. by rewrite (proj2 (str_truthy_spec s) Hks). }
  unfold _build_exchange_record. rewrite Hn, (Htx _ _ Hsig), (Htx _ _ Hreach), (Htx _ _ Hver), (Htx _ _ Hstat) by done.
  set (V := Endpoints.canonical_endpoint_list (py_get notes "advertised_endpoints")).
  assert (same_endpoints (JArr (JObj <$> V)) endpoints) as HV by (unfold V; by rewrite same_endpoints_canonical).
  assert (V <> []) as HVne.
  { intros E. apply Hne. unfold same_endpoints in Hend. fold V in Hend. rewrite E in Hend.
    by destruct (Endpoints.canonical_endpoint_list endpoints). }
  exists V. eexists. destruct V as [|v V'] eqn:EV; [done|]. split; [|split; [done|]].
  - unfold py_get. rewrite Hrelay, Hhole. cbn [default json_truthy opt_json]. repeat f_equal.
    unfold note_flags in Hflags. destruct (od_get "dpnt_feature_flags" notes) as [[| | | | |items|]|]; try done.
    cbn. induction items as [|[] items IH]; try done; by apply IH.
  - split; [|split; [done|]].
    + rewrite <- EV. by apply canonical_wf, py_get_json_wf.
    + destruct (rn_last_validated_at n); cbn; constructor. apply isoformat_naive_unicode.
Qed.

(** The node that reads the record notes the same descriptor. *)
Lemma exchanged_descriptor id pk last V record' endpoints signature reachability_class relay_capable
    version status :
  reads_as record'
    [("physical_node_id", JStr id); ("public_key", JStr pk);
     ("reachability_class", JStr reachability_class); ("relay_capable", JBool relay_capable);
     ("hole_punch_capable", JBool false); ("protocol_version", JStr version); ("status", JStr status);
     ("last_validated_at", last); ("dpnt_signature", JStr signature); ("feature_flags", JArr []);
     ("endpoints", JArr (JObj <$> V))] ->
  Forall (fun s => s <> "" /\ unicode s) [id; pk; signature; reachability_class; version; status] ->
  V <> [] -> Forall (fun d => dict_wf d) V -> same_endpoints (JArr (JObj <$> V)) endpoints -> json_wf last ->
  Endpoints.canonical_endpoint_list endpoints <> [] ->
  exists d valid_endpoints notes, exchanged_node (JObj record') = Some (d, valid_endpoints) /\
    nd_node_id d = id /\ nd_public_key d = pk /\ nd_notes_json d = Some (dumps_in_order (JObj notes)) /\
    signed_notes notes endpoints signature reachability_class relay_capable version status.
Proof using.
  intros Hr Hs HV HVw HVe Hlast Hne. match type of Hr with reads_as _ ?r => set (record := r) in * end.
  rewrite !Forall_cons in Hs. destruct_and! Hs.
  assert (dict_wf record) as Hw.
  { unfold record. json_wf_tac; try done. by apply Forall_fmap. }
  assert (dict_wf record') as Hw' by apply Hr.
  assert (forall k s, od_get k record = Some (JStr s) -> s <> "" -> truthy_str (py_get record' k) = Some s) as Htx.
  { intros k s Hk Hks. unfold py_get. rewrite (reads_str _ _ k s Hr Hw Hk). cbn. by rewrite (proj2 (str_truthy_spec s) Hks). }
  destruct (reads_endpoints _ _ "endpoints" Hr Hw) as [Hnorm Hend].
  pose proof (reads_norm _ _ "endpoints" Hr Hw) as Hlist.
  change (py_get record "endpoints") with (JArr (JObj <$> V)) in *.
  assert (Endpoints.normalize_endpoint_list (py_get record' "endpoints") <> []) as Hvalid.
  { intros E. apply Hne. rewrite HVe in Hend. unfold same_endpoints, Endpoints.canonical_endpoint_list in Hend |- *.
    rewrite E in Hend. cbn in Hend. by destruct (py_sorted _ (Endpoints.normalize_endpoint_list endpoints)). }
  pose proof (reads_bool _ _ "relay_capable" relay_capable Hr Hw eq_refl) as Hrelay.
  pose proof (reads_bool _ _ "hole_punch_capable" false Hr Hw eq_refl) as Hhole.
  pose proof (reads_norm _ _ "feature_flags" Hr Hw) as Hflags. change (py_get record "feature_flags") with (JArr []) in Hflags.
  assert (py_get record' "feature_flags" = JArr []) as Hfl by (by destruct (py_get record' "feature_flags") as [| | | | |[|]|]).
  pose proof (py_get_json_wf record' "endpoints" Hw') as Hwe.
  unfold exchanged_node, _optional_string.
  rewrite (Htx "physical_node_id" id), (Htx "public_key" pk) by done.
  destruct (py_get record' "endpoints") as [| | | | |[|item items]|]; try done.
  destruct (Endpoints.normalize_endpoint_list (JArr (item :: items))) as [|e es]; [done|]. cbv zeta.
  rewrite (Htx "dpnt_signature" signature), (Htx "reachability_class" reachability_class),
    (Htx "protocol_version" version), (Htx "status" status), Hfl by done.
  eexists _, _, _. split; [reflexivity|]. split; [done|]. split; [done|]. split; [reflexivity|].
  unfold py_get. rewrite Hrelay, Hhole. cbn [default json_truthy opt_json app dpnt_notes].
  split; try done.
  - json_wf_tac; try done; [|unfold dpnt_notes; json_wf_tac; try done; by apply Wf_arr].
    change (default JNull (od_get "last_validated_at" record')) with (py_get record' "last_validated_at").
    destruct (py_get record' "last_validated_at") as [| | | |t| |] eqn:Et; try constructor.
    cbn. destruct (str_truthy t); constructor. apply (text_unicode record' "last_validated_at"); [done|].
    unfold py_get in Et. destruct (od_get "last_validated_at" record') as [w|] eqn:Ew; cbn in Et; by subst.
  - rewrite <- HVe. exact Hend.
Qed.

(** What a node shares of another one: it has validated it, and it is neither the node itself
    nor the one that asks. *)
Definition shareable (s : Services) (local_id : string) (requester : option string)
    (n : RemotePhysicalNodeIdentity) : Prop :=
  n ∈ db_remote_nodes (sv_database s) /\ is_Some (rn_last_validated_at n) /\ rn_status n = "active" /\
  rn_id n <> local_id /\ requester <> Some (rn_id n).

End exchange_claims.
(** ** Witnesses *)

#[local] Existing Instance Crypto.demo_aead.
#[local] Existing Instance Engine.demo_entropy.
#[local] Existing Instance Engine.demo_io.
#[local] Existing Instance PhysicalSession.demo_float.
#[local] Existing Instance PhysicalSession.demo_uuid_laws.
#[local] Existing Instance PhysicalSession.demo_openssl.

#[local] Instance demo_text : ContainerText := {| container_str := fun _ => "[...]" |}.

Definition demo_self : LocalPhysicalNodeIdentity :=
  MkLocalNode (sha512_hex "pk-b") "pk-b" "sk-b" "ml-dsa-65" "active" 0.

Definition demo_self_db : Database := MkDatabase [demo_self] [] [] [] [] [] [].

Lemma demo_describes : describes_itself demo_local_config None demo_self.
Proof.
  assert (forall t, ascii_text t = true -> unicode t) as Hu by apply ascii_unicode.
  split; try done.
  - exact PhysicalSession.demo_signature_pair.
  - split; [done|by apply Hu].
  - split; [done|by apply Hu].
  - by apply Hu.
  - cbn. constructor; [|constructor]. json_wf_tac; by apply Hu.
  - repeat constructor.
Qed.

Definition demo_info_request : ProtocolEnvelope :=
  MkEnvelope "json" (Some "PHYSICAL_NODE_INFO_REQUEST") (JObj []) "" [("version", JInt 1)].

Lemma descriptor_published_witness :
  exists result a' stored b' row db record_json record,
  handle_info demo_local_config None "" demo_info_request (PhysicalSession.demo_context "")
    (demo_services new_session_manager demo_self_db) = (Ok result, a') /\
  pp_handled stored = true /\
  mark_remote_physical_node_validated (sv_database b') 5 (sha512_hex "pk-b") "tcp" "10.0.0.2" 19001
    = Ok (Some row, db) /\
  build_dpnt_publish_request_for_remote_physical_node db (sha512_hex "pk-b") = Some (sha512_hex "pk-b", record_json) /\
  _parse_valid_dpnt_record (sha512_hex "pk-b") (JStr record_json) = Ok (Some record).
Proof.
  destruct (descriptor_published demo_local_config None "" demo_info_request (PhysicalSession.demo_context "")
    (demo_services new_session_manager demo_self_db) demo_self) as
    (result & packet & header & fields & a' & Hrun & _ & _ & Hf & Hnext).
  - reflexivity.
  - cbn. json_wf_tac.
  - constructor.
  - apply ascii_unicode. vm_compute. reflexivity.
  - vm_compute. discriminate.
  - reflexivity.
  - exact demo_describes.
  - destruct (Hnext demo_local_config None ""
      (MkEnvelope "json" (Some "PHYSICAL_NODE_INFO_RESPONSE") (JObj fields) "" [])
      (PhysicalSession.demo_context "") (demo_services new_session_manager empty_database)) as
      (stored & b' & _ & Hh & Hpub).
    + reflexivity.
    + split; [exact Hf|reflexivity].
    + cbn. json_wf_tac.
    + reflexivity.
    + destruct (Hpub 5 "tcp" "10.0.0.2" 19001 eq_refl) as (row & db & record_json & record & Hm & Hb & Hp & _).
      exists result, a', stored, b', row, db, record_json, record. exact (conj Hrun (conj Hh (conj Hm (conj Hb Hp)))).
Defined.

(** A node that has validated the node [pn-v]. *)
Definition demo_knows : Services := demo_services new_session_manager
  (MkDatabase [demo_self] [] [MkRemoteNode "pn-v" "pk-v" None None false false (Some "1") "active" None (Some 7) None]
     [] [MkNodeEndpoint 1 "pn-v" "tcp" "10.0.0.2" 19001 0 true None None 0 None] [] []).

Definition demo_forged : ProtocolEnvelope :=
  MkEnvelope "json" (Some "PHYSICAL_NODE_INFO_RESPONSE")
    (JObj [("physical_node_id", JStr "pn-v"); ("public_key", JStr "pk-other");
           ("endpoints", JArr [JObj [("transport", JStr "tcp"); ("host", JStr "10.0.0.9"); ("port", JInt 1)]])])
    "" [].

Lemma node_info_replaces_key_witness :
  exists row, get_remote_physical_node_by_id
      (sv_database (handle_info demo_local_config None "" demo_forged (PhysicalSession.demo_context "") demo_knows).2)
      "pn-v" = Some row /\
    rn_public_key row = "pk-other" /\ rn_last_validated_at row = Some 7 /\ rn_status row = "active".
Proof.
  destruct (node_info_replaces_key demo_local_config None "" demo_forged (PhysicalSession.demo_context "") demo_knows
    "pn-v" "pk-other"
    (Endpoints.normalize_endpoint_list (py_get (as_payload_dict demo_forged) "endpoints"))
    (MkRemoteNode "pn-v" "pk-v" None None false false (Some "1") "active" None (Some 7) None))
    as (row & Hg & Hk & Hv & Ha & _).
  - left. repeat split; reflexivity.
  - vm_compute. discriminate.
  - repeat constructor.
  - reflexivity.
  - exists row. exact (conj Hg (conj Hk (conj Hv (Ha eq_refl)))).
Defined.

#[local] Instance demo_exchange : ExchangeEnv := {| exchange_order := fun _ rows => rows |}.

#[local] Instance demo_exchange_laws : ExchangeLaws.
Proof. split. by intros n rows. Qed.

Definition demo_exchange_request : ProtocolEnvelope :=
  MkEnvelope "json" (Some "PHYSICAL_NODE_INFO_EXCHANGE_REQUEST") (JObj [("max_records", JInt 3)]) "" [].

